(* ===== verification/_CoqProject ===== *)
-Q . S2P
Prelude.v
PyVal.v
Clock.v
Sealing.v
StateMachine.v
TaskState.v
Lineage.v
QueueContract.v
Authority.v
TaskQueue.v
WorkerPool.v
Dispatcher.v
Goals.v
Completion.v
Engineering.v
Issues.v
Adaptive.v
Runtimes.v
Progression.v
LoopServices.v
LoopCoordinators.v
GoalLoop.v
CompletedLoop.v
GoalRecords.v
GoalRepository.v
GoalLog.v
GoalHistory.v
GoalPlanning.v
WorkerContracts.v
WorkerScheduler.v
GoalGraph.v
SessionLease.v
EventBus.v
MissionScheduler.v
