(* ===== verification/Prelude.v ===== *)
(** * ZERO AI runtime core: a verification development

    ZERO AI runs engineering tasks: goals are broken into tasks, tasks wait in
    a priority queue, a dispatcher gives them to workers, and what they may do
    and whether they are finished is decided by state machines, authorities
    that cannot be forged, and leases on sessions.  This library models that
    core and proves what it promises.  Paths below are under [src/].

    ** The parts and how they interact

    - [Prelude]: the result monad [res], the state-and-exception monad [M]
      (a raise keeps the mutations made before it), ordered dicts as
      association lists ([dget], [dset], [dpop]) and the lemmas and tactics
      that every file shares.
    - [PyVal]: Python values of JSON shape ([val]), with truth, [str], [strip],
      [lower], [repr] and the JSON encoder of the identity digests.
    - [StateMachine]: [core/runtime/runtime_state_machine.py] and the session
      contract it projects into.  A runtime state is the dict the class works
      on; [transition], [force_set], the [mark_*] wrappers and
      [from_failure_policy] are the methods of those names.
    - [TaskState]: [core/tasks/task_state.py], the task status vocabulary and
      its own transition table.
    - [Lineage]: [core/goals/goal_lineage_contract.py], the canonical identity
      of goals, their branches and runtime sessions.
    - [QueueContract]: [core/runtime/persistent_queue_contract.py], which uses
      [Lineage] to decide what a queued payload is and when two are the same.
    - [Authority]: [core/runtime/runtime_authority_seal.py].  Objects live in a
      store and are compared by address; the registries of the closure are maps
      from addresses.  The class [CompletionGate] is what the seal promises to
      its clients; [seal_gate] is the instance the seal gives.
    - [TaskQueue]: [core/tasks/scheduler_core/task_scheduler_queue.py], the heap
      with lazily deleted entries; it takes identities from [Lineage] and
      [QueueContract], and finishes tasks only through a [CompletionGate].
    - [WorkerPool]: [core/tasks/scheduler_core/worker_pool.py].
    - [Dispatcher]: [core/tasks/scheduler_core/task_dispatcher.py], which
      composes the queue and the pool call by call as the code does.
    - [Goals]: [core/goals/goal_contract.py], [goal_state.py],
      [goal_transition.py], [goal_state_validator.py], [goal_state_machine.py],
      [goal_lifecycle_policy.py], the resume point of [goal_progress.py], and
      [core/evidence/evidence_record.py] and [evidence_validator.py].
    - [Completion]: [core/goals/goal_completion_authority.py], which lets the
      machine of [Goals] decide a completion and registers the result; the
      class [AttestationGate] is what it promises to the layers above.
    - [Engineering]: four machines over that class, each consuming the record of
      the one below: adaptive replanning ([core/tasks/adaptive_replan_contract.py],
      [core/adaptive/adaptive_replan_*.py]), the engineering lifecycle
      ([core/tasks/engineering_lifecycle_*.py]), sessions
      ([core/session/engineering_session_*.py]) and programs
      ([core/program/engineering_program_*.py]).
    - [Adaptive]: what one cycle of the engineering loop leaves: observations,
      deltas and the loop contract ([core/adaptive/adaptive_observation.py],
      [adaptive_delta.py], [adaptive_loop_*.py]), attached to the cycle by
      [core/tasks/adaptive_loop_coordinator.py].
    - [Runtimes]: the books the loop carries from cycle to cycle
      ([core/adaptive/continuation_runtime.py], [replan_runtime.py],
      [core/session/engineering_session_runtime.py]).
    - [Progression]: the coordinators that put the records of all machines on a
      cycle and step the books ([core/tasks/lifecycle_coordinator.py],
      [goal_loop_coordinator.py], [core/session/session_coordinator.py],
      [session_progression_coordinator.py], [core/program/program_coordinator.py]).
    - [Issues]: issue reports, the summary of a reporter and the contract every
      engineering result has to keep ([core/tasks/engineering_issue_contract.py],
      [engineering_issue_summary.py], [engineering_result_contract.py]).
    - [LoopServices]: what the engineering loop is given ([services]: the goal
      repository, the runner, the evidence authority, the reporter, the clock)
      and what it writes ([core/evidence/decision_evidence.py],
      [core/tasks/adaptive_persistence_gateway.py]).
    - [LoopCoordinators]: the coordinators of continuations and replans, the
      dispatcher and the builder of the result
      ([core/adaptive/continuation_coordinator.py], [replan_coordinator.py],
      [core/tasks/goal_loop_dispatcher.py], [goal_loop_terminal_coordinator.py]).
    - [GoalLoop]: [core/tasks/engineering_goal_loop.py], which runs cycles
      through [Progression] and [LoopCoordinators] until one is terminal;
      [CompletedLoop]: its run on a goal that is completed at once.
    - [GoalRecords], [GoalRepository]: the records of persistent goals, the
      repository that keeps them as a file of events and its queries
      ([core/goals/persistent_goal.py], [goal_progress.py],
      [goal_repository.py], [goal_query.py]).  The specification beside it is
      the typed log of [GoalLog]; [GoalHistory] says what may be appended to
      it and what follows for the status of a goal.
    - [GoalPlanning]: from the snapshot of a goal to one decision and its plan
      ([core/goals/goal_execution_context.py], [goal_orchestrator.py],
      [goal_execution_policy.py], [goal_execution_decision.py],
      [goal_execution_planner.py]).
    - [WorkerContracts], [WorkerScheduler]: the contracts of worker tasks,
      results and queue items, the worker runtime that delegates a task to a
      runner and merges its result, the scheduler that runs one task at a time
      with retries, and manual decompositions ([core/worker/worker_contracts.py],
      [worker_runtime.py], [worker_scheduler.py], [task_decomposition.py]).
    - [GoalGraph]: [core/tasks/engineering_goal_dependency_graph.py].
    - [SessionLease]: [core/runtime/runtime_session_lease.py].
    - [Clock]: [parse_time] and [time_text] of
      [core/runtime/runtime_operator_session.py] and the ISO format of the
      standard library below them, on instants in microseconds.
    - [Sealing]: documents that carry their own fingerprint, and the file such
      a document is written to and read from ([_atomic_write_json], the load
      functions); equality of documents up to the order of keys is [veq].
    - [EventBus]: the sealed bus document of
      [core/runtime/runtime_event_bus.py]: [create_event_bus_state],
      [validate_event_bus_state], [subscribe], [publish], [replay], [deliver].
      The specification beside it is a log: a list of drafts.
    - [MissionScheduler]: [core/runtime/runtime_mission_scheduler.py], the
      sealed scheduler document and its operations, one iteration (which saves
      its file and publishes on the bus of [EventBus]) and the run loop.

    ** What the theorems show

    - State machines: every history that calls can make is legal, up to the
      statuses their own extra updates carry, [transition] is decided
      by the table, terminal statuses are absorbing; the task table and the
      runtime table agree except on seventeen listed pairs.
    - Identity: extraction is a normal form, branches keep their scope, queue
      lineage is only extracted, merging keeps what is there, duplicates are
      found exactly.
    - Authority: a completion always has evidence and capabilities behind it,
      nothing forged is valid, a valid authority stays valid.
    - Scheduling: the queue's invariant, the order of pops, draining equals the
      listing, the gate on finishing; the pool's books agree; the dispatcher
      runs no task id twice, takes the next in line, fills up and stops, and
      retries at most [max_retries] times.
    - Goals: the lifecycle machine accepts exactly the admissible transitions,
      evidence counts only when validated here; behind every accepted completion
      of a goal stands a call that completed it with such evidence; cycle detection and validation
      of the dependency graph are exact, and a valid graph never deadlocks.
    - Engineering machines: none of the four completes by itself, whatever
      transition it is given; the session machine is decided exactly; the loop
      stays within its budgets of replans and continuations; terminal states
      are final.
    - Cycles: any cycle that can be observed goes through all coordinators
      without an exception, completes nothing without the authority, and its
      loop contract allows another cycle exactly within the budget; the loop
      state says what changed; recorded continuations are bounded and keep
      their scope; the state of a program of many sessions is given exactly.
    - Issues: normalisation settles with the second pass, every summarised
      result passes validation and lists exactly the issues of its reporter,
      one for each key.
    - The engineering loop: whatever its services do, a successful result means
      that the authority has completed the goal; a goal that is completed and
      attested with nothing blocking does lead to a successful result after one
      cycle; a loop keeps its scope and its bounds; the dispatcher is decided on
      every branch.
    - Goal repository: its file is the writing of a log, reads are what the log
      folds to, every operation is refused with the file as it was or appends
      one legal change; so in every run a status moves by the lifecycle table
      or is completed by the authority; the update of a goal is decided exactly.
    - Goal planning: the orchestrator always decides, as the records warrant,
      and nothing is planned that they and both policies do not allow.
    - Workers: a tick of the worker scheduler is one step of a relation, its
      books stay valid whatever the runner does, with a runner that returns
      results the contract accepts every pending task ends, done or failed, within the attempts it has, and
      a manual decomposition always ends with one result per task.
    - Leases: a session has at most one active lease; acquiring and renewing
      are decided exactly.
    - Event bus: whatever is called, the document stands for the log that
      publication means to build and passes its validator; publication, replay
      and delivery are given exactly; a saved bus loads back.
    - Mission scheduler: every state operations reach passes its validator,
      unless an entry is released as leased or running;
      leasing takes back what ran out and takes the best open entry; releasing
      is decided exactly; an iteration that returns has saved a valid state;
      the loop ends within [max_iterations].
    - Where the code does not do what it means to, a theorem shows it: a
      lowered priority is not effective, [extra_updates] overrides a status, a
      task whose id runs in another session is lost by a dispatch, a refused
      completion frees the worker, a former owner releases the new owner's
      session, a recovered lease is counted twice, a mission that waits keeps
      the head of the queue, a goal attested complete in the first cycle
      leaves its program failed, the goal of a continuation is refused by the
      runner, a worker result that says SUCCESS fails its task, an issue that
      blocks and is out of scope can not be validated, a goal that is appended
      completed needs no attestation.

    ** Parameters, bounds and fuel

    The SHA-256 digest is a function parameter; nothing is assumed of it but,
    where an extracted identity is compared with its own text, that a digest
    contains no white space (as a hexadecimal text does), and, for the log of
    the event bus, that the ids of the events do not collide.  The path
    resolver and [casefold], the handlers of the bus, the driver of missions,
    [load_mission], the sleeper and the stop signal are parameters too, and so are the built-in
    [float] and its values, which are only time stamps here or, like [0.0] and
    the progress of a goal, stored and compared but never computed with.  The services
    of the engineering loop are operations on any world that may raise; what a
    theorem asks of them is a hypothesis it names ([steady], [completing],
    and [dependable] for the runner of the workers).  Clocks
    are functions of the number of readings, or an argument where the code
    takes one.  Python integers are unbounded and are [Z].
    Loops that are not structural take fuel: the cycle search one more than
    the number of goals (a search path does not repeat a goal), draining and
    filling any number larger than what is queued or free, an idle run of the
    workers the ticks the code allows, the scheduler's loop
    one more than the iterations left; each has a theorem or a lemma that this
    is enough.

    ** Not modelled

    Files, journals, audit sinks and clocks as devices; floats other than time
    stamps; characters beyond code point 255; the loader [enqueue_from_dict],
    [load] and [save] of the leases; the aggregation of worker results.  The
    orchestration around the core
    ([core/tasks/scheduler.py], [task_runtime.py], [step_executor.py]),
    planning, the agent loop, memory, tools and the recovery pipelines are
    outside the library: they are text heuristics, calls of models and tools,
    and projections of records, whose state decisions go through the parts
    above. *)

From Stdlib Require Export ZArith Lia.
From Stdlib Require Import NArith Ascii.
From Stdlib Require String.
From stdpp Require Export base list sorting strings gmap.

#[export] Set Warnings "-clear-no-such-hyp,-register-all".

(** ** Exceptions and the state-and-exception monad

    A Python operation that may raise and that mutates its object is a
    function [S -> res A * S]: the state is returned on both outcomes, so
    mutations performed before a [raise] are kept, as Python keeps them. *)

Inductive exn : Type :=
  | ValueError (msg : string)
  | TypeError (msg : string)
  | PermissionError (msg : string)
  | RuntimeErr (msg : string)
  | KeyError (key : string)
  | OverflowErr (msg : string)
  | AttributeErr (msg : string)
  | AssertionErr (msg : string).

Inductive res (A : Type) : Type :=
  | Ok (a : A)
  | Raise (e : exn).
Arguments Ok {A} a.
Arguments Raise {A} e.

#[export] Instance exn_eq_dec : EqDecision exn.
Proof. solve_decision. Defined.

#[export] Instance res_eq_dec {A} `{!EqDecision A} : EqDecision (res A).
Proof. solve_decision. Defined.

#[export] Instance res_ret : MRet res := fun A a => Ok a.
#[export] Instance res_bind : MBind res := fun A B f r =>
  match r with Ok a => f a | Raise e => Raise e end.
#[export] Instance res_fmap : FMap res := fun A B f r =>
  match r with Ok a => Ok (f a) | Raise e => Raise e end.

Definition M (S A : Type) : Type := S -> res A * S.

#[export] Instance M_ret S : MRet (M S) := fun A a s => (Ok a, s).
#[export] Instance M_bind S : MBind (M S) := fun A B f m s =>
  match m s with
  | (Ok a, s') => f a s'
  | (Raise e, s') => (Raise e, s')
  end.

Definition mraise {S A} (e : exn) : M S A := fun s => (Raise e, s).
Definition mget {S} : M S S := fun s => (Ok s, s).
Definition mmodify {S} (f : S -> S) : M S unit := fun s => (Ok tt, f s).
(** [try: m except: h] *)
Definition mcatch {S A} (m : M S A) (h : exn -> M S A) : M S A := fun s =>
  match m s with
  | (Raise e, s') => h e s'
  | r => r
  end.
Definition mlift {S A} (r : res A) : M S A := fun s => (r, s).

(** [for x in l: body] with the loop's state threaded. *)
Fixpoint mfor {S A B} (f : A -> M S B) (l : list A) : M S (list B) :=
  match l with
  | [] => mret []
  | x :: l' => y ← f x; ys ← mfor f l'; mret (y :: ys)
  end.

(** A loop whose body never raises. *)
Lemma mfor_total {S A B} (f : A -> M S B) (P : A -> B -> Prop) l :
  (forall x s, x ∈ l -> exists y s', f x s = (Ok y, s') /\ P x y) ->
  forall s, exists ys s', mfor f l s = (Ok ys, s') /\ Forall2 P l ys.
Proof.
  induction l as [|x l IH]; intros Hf s; simpl; [by exists [], s|].
  destruct (Hf x s) as (y & s1 & E & Hy); [by apply elem_of_cons; left|].
  destruct (IH (fun z t Hz => Hf z t (proj2 (elem_of_cons _ _ _) (or_intror Hz))) s1)
    as (ys & s2 & E2 & Hys).
  exists (y :: ys), s2. split; [|by constructor].
  unfold mbind, M_bind. rewrite E, E2. done.
Qed.

(** [for x in l: acc = f(acc, x)] where [f] may raise, on [res] and on [M]. *)
Fixpoint rfold {A B} (f : B -> A -> res B) (l : list A) (acc : B) : res B :=
  match l with
  | [] => Ok acc
  | x :: l' => acc' ← f acc x; rfold f l' acc'
  end.

Fixpoint rmap {A B} (f : A -> res B) (l : list A) : res (list B) :=
  match l with
  | [] => Ok []
  | x :: l' => y ← f x; ys ← rmap f l'; Ok (y :: ys)
  end.

Lemma rmap_ok {A B} (f : A -> res B) (l : list A) (y : B) :
  (forall x, x ∈ l -> f x = Ok y) -> rmap f l = Ok (map (fun _ => y) l).
Proof.
  induction l as [|x l IH]; intros H; simpl; [done|]. rewrite H by (by apply elem_of_cons; left).
  cbn [mbind res_bind]. rewrite IH; [done|]. intros z Hz. apply H. by apply elem_of_cons; right.
Qed.

Lemma rmap_inv {A B} (f : A -> res B) l ys :
  rmap f l = Ok ys -> Forall2 (fun x y => f x = Ok y) l ys.
Proof.
  revert ys. induction l as [|x l IH]; simpl; intros ys H; [injection H as <-; constructor|].
  unfold mbind, res_bind in H. destruct (f x) as [y|] eqn:E; [|done].
  destruct (rmap f l) as [zs|]; [|done]. injection H as <-. constructor; [done|by apply IH].
Qed.

Lemma concat_nils {A B} (l : list A) : concat (map (fun _ => @nil B) l) = [].
Proof. by induction l. Qed.

Lemma rfold_inv {A B} (f : B -> A -> res B) (P : B -> Prop) l : forall acc r,
  (forall b x b', x ∈ l -> P b -> f b x = Ok b' -> P b') ->
  P acc -> rfold f l acc = Ok r -> P r.
Proof.
  induction l as [|x l IH]; simpl; intros acc r Hf Hacc H; [by injection H as <-|].
  unfold mbind, res_bind in H. destruct (f acc x) as [b|e] eqn:E; [|done].
  eapply IH; [|eapply Hf; [by apply elem_of_cons; left| |exact E]; exact Hacc|exact H].
  intros b0 y b' Hy. apply Hf. apply elem_of_cons. by right.
Qed.

(** The monad laws, stated pointwise (no extensionality axiom is used). *)
Lemma M_left_id {S A B} (a : A) (f : A -> M S B) s : (mret a ≫= f) s = f a s.
Proof. reflexivity. Qed.

(** Running the first step of a computation. *)
Lemma M_bind_ok {S A B} (m : M S A) (f : A -> M S B) a s s' :
  m s = (Ok a, s') -> (m ≫= f) s = f a s'.
Proof. intros H. unfold mbind, M_bind. by rewrite H. Qed.

Lemma M_lift_ok {S A B} (r : res A) (f : A -> M S B) a s : r = Ok a -> (mlift r ≫= f) s = f a s.
Proof. by intros ->. Qed.

Lemma M_right_id {S A} (m : M S A) s : (m ≫= mret) s = m s.
Proof. unfold mbind, M_bind. destruct (m s) as [[a|e] s']; reflexivity. Qed.

Lemma M_assoc {S A B C} (m : M S A) (f : A -> M S B) (g : B -> M S C) s :
  ((m ≫= f) ≫= g) s = (m ≫= (fun a => f a ≫= g)) s.
Proof. unfold mbind, M_bind. destruct (m s) as [[a|e] s']; reflexivity. Qed.

(** What a run that returns has done, step by step. *)
Lemma M_bind_inv {S A B} (m : M S A) (f : A -> M S B) b s s' :
  (m ≫= f) s = (Ok b, s') -> exists a s1, m s = (Ok a, s1) /\ f a s1 = (Ok b, s').
Proof. unfold mbind, M_bind. destruct (m s) as [[a|e] s1]; [eauto|discriminate]. Qed.

Lemma M_lift_inv {S A} (r : res A) a (s s' : S) : mlift r s = (Ok a, s') -> r = Ok a /\ s' = s.
Proof. unfold mlift. by intros [= -> ->]. Qed.

Lemma M_ret_inv {S A} (a b : A) (s s' : S) : (mret a : M S A) s = (Ok b, s') -> b = a /\ s' = s.
Proof. by intros [= <- <-]. Qed.

Lemma M_get_inv {S} (a s s' : S) : mget s = (Ok a, s') -> a = s /\ s' = s.
Proof. by intros [= <- <-]. Qed.

(** Name what the first step of the run [H] returns, and the state it leaves. *)
Tactic Notation "run" hyp(H) "as" ident(a) ident(s) ident(E) :=
  apply M_bind_inv in H as (a & s & E & H); cbn beta in H;
  lazymatch type of E with
  | mlift _ _ = _ => apply M_lift_inv in E as [E ->]
  | mget _ = _ => apply M_get_inv in E as [-> ->]
  | _ => idtac
  end.

(** [m] keeps [I], whether it returns or raises. *)
Definition preserves {S A} (I : S -> Prop) (m : M S A) : Prop := forall s, I s -> I (m s).2.

Section preserves.
Context {S : Type} (I : S -> Prop).

Lemma preserves_ret {A} (a : A) : preserves I (mret a : M S A).
Proof. by intros s. Qed.
Lemma preserves_raise {A} e : preserves I (mraise (A:=A) e).
Proof. by intros s. Qed.
Lemma preserves_lift {A} (r : res A) : preserves I (mlift r).
Proof. by intros s. Qed.
Lemma preserves_get : preserves I mget.
Proof. by intros s. Qed.

Lemma preserves_bind {A B} (m : M S A) (f : A -> M S B) :
  preserves I m -> (forall a, preserves I (f a)) -> preserves I (m ≫= f).
Proof.
  intros Hm Hf s Hs. specialize (Hm s Hs). unfold mbind, M_bind. destruct (m s) as [[a|e] s']; [|done].
  by apply Hf.
Qed.

Lemma preserves_catch {A} (m : M S A) h :
  preserves I m -> (forall e, preserves I (h e)) -> preserves I (mcatch m h).
Proof.
  intros Hm Hh s Hs. specialize (Hm s Hs). unfold mcatch. destruct (m s) as [[a|e] s']; [done|]. by apply Hh.
Qed.

Lemma preserves_run {A} (m : M S A) s r s' : preserves I m -> I s -> m s = (r, s') -> I s'.
Proof. intros Hm Hs E. specialize (Hm s Hs). by rewrite E in Hm. Qed.
End preserves.

Create HintDb preserves.
#[export] Hint Resolve preserves_ret preserves_raise preserves_lift preserves_get preserves_bind preserves_catch : preserves.

(** [m] keeps [I] because its steps do. *)
Ltac preserve :=
  repeat match goal with
  | |- preserves _ (_ ≫= _) => apply preserves_bind
  | |- preserves _ (mcatch _ _) => apply preserves_catch
  | |- forall _, _ => intros ?
  | |- preserves _ (match ?x with _ => _ end) => destruct x
  | |- _ => solve [auto with preserves]
  end.

(** [m] returns from every state in which [I] holds, keeps [I], and what it
    returns satisfies [P]. *)
Definition yields {S A} (I : S -> Prop) (m : M S A) (P : A -> Prop) : Prop :=
  forall s, I s -> exists a s', m s = (Ok a, s') /\ I s' /\ P a.

Section yields.
Context {S : Type} (I : S -> Prop).

Lemma yields_ret {A} (a : A) (P : A -> Prop) : P a -> yields I (mret a : M S A) P.
Proof. intros Ha s Hs. by exists a, s. Qed.
Lemma yields_lift {A} (r : res A) a (P : A -> Prop) : r = Ok a -> P a -> yields I (mlift r) P.
Proof. intros -> Ha s Hs. by exists a, s. Qed.
Lemma yields_get : yields I mget I.
Proof. intros s Hs. by exists s, s. Qed.

Lemma yields_bind {A B} (m : M S A) (f : A -> M S B) (P : A -> Prop) (Q : B -> Prop) :
  yields I m P -> (forall a, P a -> yields I (f a) Q) -> yields I (m ≫= f) Q.
Proof.
  intros Hm Hf s Hs. destruct (Hm s Hs) as (a & s1 & E & H1 & Ha). destruct (Hf a Ha s1 H1) as (b & s2 & E2 & H2).
  exists b, s2. by rewrite (M_bind_ok _ _ _ _ _ E).
Qed.

(** A handler that returns. *)
Lemma yields_catch {A} (m : M S A) h (P : A -> Prop) :
  preserves I m -> (forall e, yields I (h e) P) -> (forall a, P a) -> yields I (mcatch m h) P.
Proof.
  intros Hm Hh Ha s Hs. specialize (Hm s Hs). unfold mcatch. destruct (m s) as [[a|e] s'] eqn:E; [by exists a, s'|].
  by apply Hh.
Qed.
End yields.

(** Unfold one layer of the monad in the goal and in the context. *)
Ltac unfold_m :=
  unfold mret, mbind, M_ret, M_bind, mraise, mget, mmodify, mlift,
    res_ret, res_bind, fmap, res_fmap in *; cbn beta iota zeta in *.

(** Name the result of the first computation of a successful bind in [H]. *)
Ltac bind_ok H :=
  match type of H with
  | match ?m with Ok _ => _ | Raise _ => _ end = Ok _ =>
      let E := fresh "E" in destruct m eqn:E; [|discriminate H]
  end.

(** Reflect the boolean tests of the context and of the goal. *)
Ltac bools :=
  repeat match goal with
  | H : bool_decide _ = true |- _ => apply bool_decide_eq_true in H
  | H : _ || _ = false |- _ => apply orb_false_iff in H as [? ?]
  | H : negb _ = false |- _ => apply negb_false_iff in H
  | H : bool_decide _ = false |- _ => apply bool_decide_eq_false in H
  | H : negb _ = true |- _ => apply negb_true_iff in H
  | H : (_ =? _)%string = true |- _ => apply String.eqb_eq in H
  | H : _ && _ = true |- _ => apply andb_true_iff in H as [? ?]
  | H : (_ =? _)%string = false |- _ => apply String.eqb_neq in H
  end.

(** Prove a decidable closed statement by evaluating its decision. *)
Ltac compute_decide := apply (bool_decide_unpack _); vm_compute; exact I.

(** Case split on the scrutinee of every [match] of the goal. *)
Ltac cases := repeat (case_match; simplify_eq/=; try done).

(** ** Python dicts

    A Python [dict] keeps its insertion order and iterates in it, so a dict
    is an association list with distinct keys: assigning a present key keeps
    its position, a new key goes to the end. *)

Definition dict (A : Type) : Type := list (string * A).

Section dict_ops.
Context {A : Type}.
Implicit Types (d : list (string * A)) (k : string) (v : A).

Fixpoint dget k d : option A :=
  match d with
  | [] => None
  | (k', v) :: d' => if (k' =? k)%string then Some v else dget k d'
  end.

Fixpoint dset k v d : list (string * A) :=
  match d with
  | [] => [(k, v)]
  | (k', v') :: d' =>
      if (k' =? k)%string then (k', v) :: d' else (k', v') :: dset k v d'
  end.

Fixpoint dpop k d : list (string * A) :=
  match d with
  | [] => []
  | (k', v') :: d' => if (k' =? k)%string then dpop k d' else (k', v') :: dpop k d'
  end.

Definition dkeys d : list string := d.*1.
Definition dvalues d : list A := d.*2.
Definition dmem k d : bool := match dget k d with Some _ => true | None => false end.

(** [d.update(e)], and the display [{**d, **e}]. *)
Definition dupdate d (e : list (string * A)) : list (string * A) :=
  fold_left (fun acc kv => dset kv.1 kv.2 acc) e d.

(** A well-formed dict has distinct keys. *)
Definition dict_ok d : Prop := NoDup (dkeys d).

Lemma dget_dset_eq k v d : dget k (dset k v d) = Some v.
Proof.
  induction d as [|[k' v'] d IH]; simpl; [by rewrite String.eqb_refl|].
  destruct (k' =? k)%string eqn:E; simpl; rewrite E; done.
Qed.

Lemma dget_dset_ne k k' v d : k <> k' -> dget k' (dset k v d) = dget k' d.
Proof.
  intros Hne. induction d as [|[k0 v0] d IH]; simpl.
  - by apply String.eqb_neq in Hne as ->.
  - destruct (k0 =? k)%string eqn:E; simpl; [|by destruct (k0 =? k')%string].
    bools; subst. by apply String.eqb_neq in Hne as ->.
Qed.

Lemma dget_dset k k' v d :
  dget k' (dset k v d) = if (k =? k')%string then Some v else dget k' d.
Proof.
  destruct (String.eqb_spec k k') as [->|Hne].
  - apply dget_dset_eq.
  - by apply dget_dset_ne.
Qed.

Lemma dget_dpop_eq k d : dget k (dpop k d) = None.
Proof.
  induction d as [|[k' v'] d IH]; simpl; [done|].
  destruct (k' =? k)%string eqn:E; simpl; [done|by rewrite E].
Qed.

Lemma dget_dpop_ne k k' d : k <> k' -> dget k' (dpop k d) = dget k' d.
Proof.
  intros Hne. induction d as [|[k0 v0] d IH]; simpl; [done|].
  destruct (k0 =? k)%string eqn:E; simpl.
  - bools; subst. apply String.eqb_neq in Hne. by rewrite Hne.
  - by rewrite IH.
Qed.

Lemma dget_dpop k k' d :
  dget k' (dpop k d) = if (k =? k')%string then None else dget k' d.
Proof.
  destruct (String.eqb_spec k k') as [->|Hne].
  - apply dget_dpop_eq.
  - by apply dget_dpop_ne.
Qed.

Lemma dget_Some_elem k v d : dget k d = Some v -> (k, v) ∈ d.
Proof.
  induction d as [|[k' v'] d IH]; simpl; [done|].
  destruct (k' =? k)%string eqn:E; intros; simplify_eq; bools; subst; set_solver.
Qed.

Lemma elem_dget k v d : dict_ok d -> (k, v) ∈ d -> dget k d = Some v.
Proof.
  unfold dict_ok, dkeys. induction d as [|[k' v'] d IH]; csimpl; [set_solver|].
  intros [Hk Hd]%NoDup_cons [Heq|Hin]%elem_of_cons; simplify_eq.
  - by rewrite String.eqb_refl.
  - destruct (String.eqb_spec k' k) as [->|]; [|auto].
    exfalso. apply Hk. apply list_elem_of_fmap. by exists (k, v).
Qed.

Lemma dget_is_Some_keys k d : is_Some (dget k d) <-> k ∈ dkeys d.
Proof.
  unfold dkeys. induction d as [|[k' v'] d IH]; csimpl.
  - rewrite elem_of_nil. split; [by intros []|done].
  - rewrite elem_of_cons, <- IH. destruct (String.eqb_spec k' k); naive_solver.
Qed.

Lemma dget_None_keys k d : dget k d = None <-> k ∉ dkeys d.
Proof. rewrite <- dget_is_Some_keys, eq_None_not_Some. done. Qed.

Lemma dkeys_dset k v d :
  dkeys (dset k v d) = if dmem k d then dkeys d else dkeys d ++ [k].
Proof.
  unfold dmem, dkeys. induction d as [|[k' v'] d IH]; csimpl; [done|].
  destruct (k' =? k)%string eqn:E; csimpl; [done|].
  rewrite IH. by destruct (dget k d).
Qed.

Lemma dkeys_dpop k d : dkeys (dpop k d) = filter (fun k' => k' <> k) (dkeys d).
Proof.
  unfold dkeys. induction d as [|[k' v'] d IH]; csimpl; [done|].
  destruct (String.eqb_spec k' k) as [->|]; csimpl.
  - rewrite filter_cons_False by naive_solver. done.
  - rewrite filter_cons_True by done. by rewrite IH.
Qed.

Lemma elem_of_dkeys_dset k k' v d : k' ∈ dkeys (dset k v d) <-> k' = k \/ k' ∈ dkeys d.
Proof.
  rewrite <- !dget_is_Some_keys, dget_dset.
  destruct (String.eqb_spec k k'); naive_solver.
Qed.

Lemma dict_ok_dset k v d : dict_ok d -> dict_ok (dset k v d).
Proof.
  unfold dict_ok. rewrite dkeys_dset. unfold dmem.
  destruct (dget k d) eqn:E; [done|].
  apply dget_None_keys in E. intros H. apply NoDup_app.
  repeat split; [done|set_solver|apply NoDup_singleton].
Qed.

Lemma dict_ok_dpop k d : dict_ok d -> dict_ok (dpop k d).
Proof. unfold dict_ok. rewrite dkeys_dpop. apply NoDup_filter. Qed.

Lemma dict_ok_dupdate e d : dict_ok d -> dict_ok (dupdate d e).
Proof.
  unfold dupdate. revert d. induction e as [|[k v] e IH]; simpl; [done|].
  intros d H. by apply IH, dict_ok_dset.
Qed.

Lemma dget_dupdate_not_in k e d : k ∉ dkeys e -> dget k (dupdate d e) = dget k d.
Proof.
  unfold dupdate, dkeys. revert d. induction e as [|[k' v'] e IH]; csimpl; [done|].
  intros d Hk. rewrite IH by set_solver. apply dget_dset_ne. set_solver.
Qed.

Lemma dset_id k v d : dget k d = Some v -> dset k v d = d.
Proof.
  induction d as [|[k' v'] d IH]; simpl; [done|].
  destruct (k' =? k)%string eqn:E; intros; simplify_eq; [done|]. by rewrite IH.
Qed.

Lemma dset_dset k v w d : dset k w (dset k v d) = dset k w d.
Proof.
  induction d as [|[k' v'] d IH]; simpl; [by rewrite String.eqb_refl|].
  destruct (k' =? k)%string eqn:E; simpl; rewrite E; [done|]. by rewrite IH.
Qed.

Lemma dpop_dset_new k v d : dget k d = None -> dpop k (dset k v d) = d.
Proof.
  induction d as [|[k' v'] d IH]; simpl; [by rewrite String.eqb_refl|].
  destruct (k' =? k)%string eqn:E; [done|]. simpl. rewrite E. intros H. by rewrite IH.
Qed.

Lemma NoDup_filter_keys (P : string * A -> Prop) `{!forall x, Decision (P x)} d :
  dict_ok d -> dict_ok (filter P d).
Proof.
  unfold dict_ok, dkeys. induction d as [|x d IH]; csimpl; [done|].
  intros [Hx Hd]%NoDup_cons. rewrite filter_cons. case_decide; csimpl; [|by apply IH].
  constructor; [|by apply IH]. intros ([k v] & Hk & [_ Hin]%list_elem_of_filter)%list_elem_of_fmap.
  apply Hx, list_elem_of_fmap. eauto.
Qed.

(** The dict as a finite map: [dget] is the map lookup. *)
Lemma dget_list_to_map k d : dget k d = (list_to_map d : gmap string A) !! k.
Proof.
  induction d as [|[k' v'] d IH]; simpl; [by rewrite lookup_empty|].
  rewrite lookup_insert, IH. destruct (String.eqb_spec k' k); by case_decide.
Qed.

End dict_ops.

Arguments dict_ok {A} d.

(** Equality of dicts as finite maps: what every lookup observes. *)
Definition dict_equiv {A} (d e : list (string * A)) : Prop :=
  forall k, dget k d = dget k e.

#[export] Instance dict_equiv_equivalence {A} : Equivalence (@dict_equiv A).
Proof.
  split.
  - by intros d k.
  - by intros d e H k.
  - intros d e f H1 H2 k. by rewrite H1.
Qed.

#[export] Instance dget_proper {A} k : Proper (dict_equiv ==> eq) (@dget A k).
Proof. intros d e H. apply H. Qed.

#[export] Instance dset_proper {A} k (v : A) :
  Proper (dict_equiv ==> dict_equiv) (dset k v).
Proof. intros d e H k'. rewrite !dget_dset. by rewrite H. Qed.

Create HintDb pydict.
Create Rewrite HintDb pydict.
#[export] Hint Rewrite @dget_dset_eq @dget_dpop_eq : pydict.
#[export] Hint Rewrite @dget_dset_ne @dget_dpop_ne using congruence : pydict.
#[export] Hint Resolve dict_ok_dset dict_ok_dpop dict_ok_dupdate : pydict.

Ltac dict_simpl := autorewrite with pydict in *; simpl in *.

(** ** Order on strings

    Python compares strings by code point; [String.leb] does the same on the
    code points of the model's strings. *)

Lemma ascii_compare_lt_trans a b c :
  Ascii.compare a b = Lt -> Ascii.compare b c = Lt -> Ascii.compare a c = Lt.
Proof. unfold Ascii.compare. rewrite !N.compare_lt_iff. lia. Qed.

Lemma ascii_compare_eq a b : Ascii.compare a b = Eq -> a = b.
Proof.
  unfold Ascii.compare. intros H%N.compare_eq_iff.
  rewrite <- (ascii_N_embedding a), <- (ascii_N_embedding b). by f_equal.
Qed.

Lemma ascii_compare_refl a : Ascii.compare a a = Eq.
Proof. unfold Ascii.compare. apply N.compare_refl. Qed.

Lemma string_compare_refl s : String.compare s s = Eq.
Proof. induction s as [|c s IH]; simpl; [done|]. by rewrite ascii_compare_refl. Qed.

Lemma string_compare_lt_trans s1 : forall s2 s3,
  String.compare s1 s2 = Lt -> String.compare s2 s3 = Lt -> String.compare s1 s3 = Lt.
Proof.
  induction s1 as [|a s1 IH]; intros [|b s2] [|c s3]; simpl; try done.
  destruct (Ascii.compare a b) eqn:E1; destruct (Ascii.compare b c) eqn:E2; try done.
  - apply ascii_compare_eq in E1, E2; subst. rewrite ascii_compare_refl. apply IH.
  - apply ascii_compare_eq in E1; subst. by rewrite E2.
  - apply ascii_compare_eq in E2; subst. by rewrite E1.
  - by rewrite (ascii_compare_lt_trans _ _ _ E1 E2).
Qed.

Definition str_le (s t : string) : Prop := String.leb s t = true.

#[export] Instance str_le_dec s t : Decision (str_le s t).
Proof. unfold str_le. apply _. Defined.

Lemma str_le_spec s t : str_le s t <-> s = t \/ String.compare s t = Lt.
Proof.
  unfold str_le, String.leb. destruct (String.compare s t) eqn:E.
  - apply String.compare_eq_iff in E. naive_solver.
  - naive_solver.
  - split; [done|]. intros [->|]; [|done]. by rewrite string_compare_refl in E.
Qed.

#[export] Instance str_le_total : Total str_le.
Proof. intros s t. apply String.leb_total. Qed.

#[export] Instance str_le_trans : Transitive str_le.
Proof.
  intros s t u. rewrite !str_le_spec. intros [->|H1] [->|H2]; auto.
  right. by eapply string_compare_lt_trans.
Qed.

#[export] Instance str_le_antisymm : AntiSymm (=) str_le.
Proof. intros s t. apply String.leb_antisym. Qed.

#[export] Instance str_le_refl : Reflexive str_le.
Proof. intros s. apply str_le_spec. by left. Qed.

(** [sorted(set(l))] on a list of strings. *)
Definition sorted_strs (l : list string) : list string := merge_sort str_le l.

Lemma elem_of_sorted_strs x l : x ∈ sorted_strs l <-> x ∈ l.
Proof. unfold sorted_strs. by rewrite (merge_sort_Permutation str_le l). Qed.

(** ** Generic list lemmas *)

(** [list(dict.fromkeys(l))]: the first occurrence of each element, in order. *)
Fixpoint dedup {A} `{EqDecision A} (l : list A) : list A :=
  match l with
  | [] => []
  | x :: l' => x :: filter (fun y => y <> x) (dedup l')
  end.

Lemma elem_of_dedup {A} `{EqDecision A} (x : A) l : x ∈ dedup l <-> x ∈ l.
Proof.
  induction l as [|y l IH]; simpl; [done|].
  rewrite !elem_of_cons, list_elem_of_filter, IH. destruct (decide (x = y)); naive_solver.
Qed.

Lemma NoDup_dedup {A} `{EqDecision A} (l : list A) : NoDup (dedup l).
Proof.
  induction l as [|y l IH]; simpl; constructor.
  - rewrite list_elem_of_filter. naive_solver.
  - by apply NoDup_filter.
Qed.

(** [l.sort(key=...)]: a stable insertion sort by a boolean order. *)
Section sort.
Context {A : Type} (le : A -> A -> bool).

Fixpoint insert_sorted (x : A) (l : list A) : list A :=
  match l with
  | [] => [x]
  | y :: l' => if le x y then x :: l else y :: insert_sorted x l'
  end.

Definition isort (l : list A) : list A := foldr insert_sorted [] l.

Lemma insert_sorted_perm x l : insert_sorted x l ≡ₚ x :: l.
Proof.
  induction l as [|y l IH]; simpl; [done|]. destruct (le x y); [done|].
  rewrite IH. apply Permutation_swap.
Qed.

Lemma elem_of_insert_sorted x y l : y ∈ insert_sorted x l <-> y = x \/ y ∈ l.
Proof. by rewrite insert_sorted_perm, elem_of_cons. Qed.

Lemma isort_perm l : isort l ≡ₚ l.
Proof. induction l as [|x l IH]; simpl; [done|]. by rewrite insert_sorted_perm, IH. Qed.

Context (le_total : forall x y, le x y = false -> le y x = true).
Context (le_trans : forall x y z, le x y = true -> le y z = true -> le x z = true).

Lemma insert_sorted_sorted x l :
  StronglySorted (fun a b => le a b = true) l ->
  StronglySorted (fun a b => le a b = true) (insert_sorted x l).
Proof.
  induction 1 as [|y l Hl IH Hy]; simpl; [by repeat constructor|].
  destruct (le x y) eqn:E.
  - constructor; [by constructor|]. constructor; [done|].
    eapply Forall_impl; [exact Hy|]. simpl. eauto.
  - constructor; [done|]. apply Forall_forall. intros z [->|Hz]%elem_of_insert_sorted.
    + by apply le_total.
    + by eapply Forall_forall in Hy.
Qed.

Lemma isort_sorted l : StronglySorted (fun a b => le a b = true) (isort l).
Proof. induction l as [|x l IH]; simpl; [constructor|]. by apply insert_sorted_sorted. Qed.

End sort.

(** ** Reachability: the reflexive transitive closure of a step relation *)

Section reach.
Context {S : Type} (step : S -> S -> Prop).

Lemma rtc_invariant (I : S -> Prop) :
  (forall s s', I s -> step s s' -> I s') ->
  forall s s', rtc step s s' -> I s -> I s'.
Proof. intros Hstep s s' Hr. induction Hr; eauto. Qed.

End reach.
