(* ===== verification/PyVal.v ===== *)
(** * Python values and the built-ins the sources use

    [val] is the JSON-shaped part of Python's values (None, bool, int, str,
    list, dict with string keys), which is what the runtime's records,
    payloads and state dicts hold; floats are left out (the sources below keep
    them only as time stamps, which the models carry in their own fields).
    A Python [str] is a sequence of code points: the model has the code points
    below 256, one per character of a Rocq string, and [strip], [lower],
    [repr] and the JSON encoder are Python's on that range. *)

From Stdlib Require Import Ascii.
From Stdlib Require String.
From stdpp Require Import pretty.
From S2P Require Import Prelude.

Inductive val : Type :=
  | VNone
  | VBool (b : bool)
  | VInt (z : Z)
  | VStr (s : string)
  | VList (l : list val)
  | VDict (d : list (string * val)).

(** Induction that reaches the elements of lists and dicts. *)
Section val_ind.
Context (P : val -> Prop)
  (HNone : P VNone) (HBool : forall b, P (VBool b)) (HInt : forall z, P (VInt z))
  (HStr : forall s, P (VStr s))
  (HList : forall l, Forall P l -> P (VList l))
  (HDict : forall d, Forall (fun kv => P kv.2) d -> P (VDict d)).

Fixpoint val_nested_ind (v : val) : P v :=
  match v with
  | VNone => HNone
  | VBool b => HBool b
  | VInt z => HInt z
  | VStr s => HStr s
  | VList l => HList l
      ((fix go l : Forall P l :=
          match l with
          | [] => Forall_nil_2 P
          | x :: l' => Forall_cons_2 P x l' (val_nested_ind x) (go l')
          end) l)
  | VDict d => HDict d
      ((fix go d : Forall (fun kv => P kv.2) d :=
          match d with
          | [] => Forall_nil_2 _
          | kv :: d' => Forall_cons_2 (fun kv => P kv.2) kv d' (val_nested_ind kv.2) (go d')
          end) d)
  end.
End val_ind.

(** ** Characters and strings *)

Definition code (c : ascii) : N := N_of_ascii c.

Definition is_space (c : ascii) : bool :=
  let n := code c in
  ((9 <=? n)%N && (n <=? 13)%N) || ((28 <=? n)%N && (n <=? 32)%N)
  || (n =? 133)%N || (n =? 160)%N.

Definition lower_ascii (c : ascii) : ascii :=
  let n := code c in
  if ((65 <=? n)%N && (n <=? 90)%N)
     || ((192 <=? n)%N && (n <=? 222)%N && negb (n =? 215)%N)
  then ascii_of_N (n + 32) else c.

Fixpoint lower (s : string) : string :=
  match s with
  | EmptyString => EmptyString
  | String c s' => String (lower_ascii c) (lower s')
  end.

Fixpoint lstrip (s : string) : string :=
  match s with
  | EmptyString => EmptyString
  | String c s' => if is_space c then lstrip s' else s
  end.

Fixpoint rstrip (s : string) : string :=
  match s with
  | EmptyString => EmptyString
  | String c s' =>
      match rstrip s' with
      | EmptyString => if is_space c then EmptyString else String c EmptyString
      | t => String c t
      end
  end.

Definition strip (s : string) : string := rstrip (lstrip s).

(** [s.replace(a, b)] for one-character [a] and [b]. *)
Fixpoint replace_char (a b : ascii) (s : string) : string :=
  match s with
  | EmptyString => EmptyString
  | String c s' => String (if Ascii.eqb c a then b else c) (replace_char a b s')
  end.

(** [sub in s] *)
Fixpoint contains (sub s : string) : bool :=
  String.prefix sub s
  || match s with EmptyString => false | String _ s' => contains sub s' end.

(** [sep.join(l)] *)
Fixpoint join (sep : string) (l : list string) : string :=
  match l with
  | [] => EmptyString
  | [x] => x
  | x :: l' => x +:+ sep +:+ join sep l'
  end.

Definition chr (n : N) : string := String (ascii_of_N n) EmptyString.
Definition dquote : string := chr 34.

Definition hex_digit (n : N) : ascii :=
  if (n <? 10)%N then ascii_of_N (48 + n) else ascii_of_N (87 + n).
Definition hex2 (n : N) : string :=
  String (hex_digit (n / 16)) (String (hex_digit (n mod 16)) EmptyString).

(** [repr] of a [str]. *)
Definition repr_char (quote : N) (c : ascii) : string :=
  let n := code c in
  if (n =? 92)%N then "\\"
  else if (n =? quote)%N then "\" +:+ chr quote
  else if (n =? 9)%N then "\t" else if (n =? 10)%N then "\n"
  else if (n =? 13)%N then "\r"
  else if (n <? 32)%N || ((127 <=? n)%N && (n <=? 160)%N) || (n =? 173)%N
  then "\x" +:+ hex2 n else String c EmptyString.

Fixpoint concat_map (f : ascii -> string) (s : string) : string :=
  match s with
  | EmptyString => EmptyString
  | String c s' => f c +:+ concat_map f s'
  end.

Definition repr_str (s : string) : string :=
  let quote := if contains "'" s && negb (contains dquote s) then 34%N else 39%N in
  chr quote +:+ concat_map (repr_char quote) s +:+ chr quote.

(** ** [bool], [repr], [str] and [==] on values *)

Definition truthy (v : val) : bool :=
  match v with
  | VNone => false
  | VBool b => b
  | VInt z => negb (z =? 0)%Z
  | VStr s => negb (s =? "")%string
  | VList l => match l with [] => false | _ => true end
  | VDict d => match d with [] => false | _ => true end
  end.

Fixpoint py_repr (v : val) : string :=
  match v with
  | VNone => "None"
  | VBool b => if b then "True" else "False"
  | VInt z => pretty z
  | VStr s => repr_str s
  | VList l => "[" +:+ join ", " (map py_repr l) +:+ "]"
  | VDict d =>
      "{" +:+ join ", " (map (fun kv => repr_str kv.1 +:+ ": " +:+ py_repr kv.2) d) +:+ "}"
  end.

Definition py_str (v : val) : string :=
  match v with VStr s => s | _ => py_repr v end.

(** [a or b] *)
Definition py_or (a b : val) : val := if truthy a then a else b.

(** [a == b]: booleans are integers, dicts compare without their order. *)
Fixpoint py_eq (a b : val) {struct a} : bool :=
  match a, b with
  | VNone, VNone => true
  | VBool x, VBool y => Bool.eqb x y
  | VBool x, VInt y => (Z.b2z x =? y)%Z
  | VInt x, VBool y => (x =? Z.b2z y)%Z
  | VInt x, VInt y => (x =? y)%Z
  | VStr x, VStr y => (x =? y)%string
  | VList l, VList m =>
      (fix go l m :=
         match l, m with
         | [], [] => true
         | x :: l', y :: m' => py_eq x y && go l' m'
         | _, _ => false
         end) l m
  | VDict d, VDict e =>
      Nat.eqb (length d) (length e)
      && (fix go d :=
            match d with
            | [] => true
            | (k, x) :: d' =>
                match dget k e with Some y => py_eq x y | None => false end && go d'
            end) d
  | _, _ => false
  end.

(** [dict.get(k)]: [None] for a missing key. *)
Definition vget (k : string) (d : list (string * val)) : val :=
  match dget k d with Some v => v | None => VNone end.

(** [dict.get(k, default)] *)
Definition vget_or (k : string) (dflt : val) (d : list (string * val)) : val :=
  match dget k d with Some v => v | None => dflt end.

(** [str(value or '').strip()], the normalisation used everywhere. *)
Definition text (v : val) : string := strip (py_str (py_or v (VStr ""))).

(** [x in l] and [list(dict.fromkeys(l))]; hashing a list or a dict raises. *)
Definition vin (x : val) (l : list val) : bool := existsb (py_eq x) l.

Definition hashable (v : val) : bool :=
  match v with VList _ | VDict _ => false | _ => true end.

Fixpoint vdedup (seen l : list val) : list val :=
  match l with
  | [] => []
  | x :: l' => if vin x seen then vdedup seen l' else x :: vdedup (x :: seen) l'
  end.

Definition from_keys (l : list val) : res (list val) :=
  if forallb hashable l then Ok (vdedup [] l) else Raise (TypeError "unhashable type").

(** ** Integers and iteration

    [int(s)] on a text: an optional sign, then digits that single underscores
    may separate. *)
Fixpoint digits (s : string) (acc : Z) (after_digit : bool) : option Z :=
  match s with
  | EmptyString => if after_digit then Some acc else None
  | String c s' =>
      let n := code c in
      if (48 <=? n)%N && (n <=? 57)%N
      then digits s' (acc * 10 + Z.of_N (n - 48))%Z true
      else if (n =? 95)%N && after_digit
      then match s' with EmptyString => None | _ => digits s' acc false end
      else None
  end.

Definition int_of_string (s : string) : option Z :=
  match strip s with
  | String c s' =>
      if (code c =? 45)%N then option_map Z.opp (digits s' 0 false)
      else if (code c =? 43)%N then digits s' 0 false
      else digits (String c s') 0 false
  | EmptyString => None
  end.

(** [int(v)] *)
Definition py_int (v : val) : res Z :=
  match v with
  | VInt z => Ok z
  | VBool b => Ok (Z.b2z b)
  | VStr s =>
      match int_of_string s with
      | Some z => Ok z
      | None => Raise (ValueError "invalid literal for int() with base 10")
      end
  | _ => Raise (TypeError "int() argument must be a string or a number")
  end.

(** [int(d.get(k) or n)] *)
Definition int_field (k : string) (n : Z) (d : list (string * val)) : res Z :=
  py_int (py_or (vget k d) (VInt n)).

(** [list(v)]: the items of a list, the keys of a dict, the characters of a text. *)
Fixpoint chars (s : string) : list val :=
  match s with
  | EmptyString => []
  | String c s' => VStr (String c EmptyString) :: chars s'
  end.

Definition py_iter (v : val) : res (list val) :=
  match v with
  | VList l => Ok l
  | VDict d => Ok (map (fun kv => VStr kv.1) d)
  | VStr s => Ok (chars s)
  | _ => Raise (TypeError "object is not iterable")
  end.

(** [dict(v) if isinstance(v, Mapping) else {}] *)
Definition mapping (v : val) : list (string * val) :=
  match v with VDict d => d | _ => [] end.

Definition is_mapping (v : val) : bool := match v with VDict _ => true | _ => false end.
Definition is_list (v : val) : bool := match v with VList _ => true | _ => false end.
(** [v is True] *)
Definition is_true (v : val) : bool := match v with VBool b => b | _ => false end.
(** [str(v or '')] *)
Definition str_or_empty (v : val) : string := py_str (py_or v (VStr "")).

(** [d.get(k)] and [k in names] for a [k] that can be hashed, and [set(l) == set(d)]. *)
Definition get_val (k : val) (d : list (string * val)) : val :=
  match k with VStr s => vget s d | _ => VNone end.

Definition val_in (v : val) (names : list string) : res bool :=
  if hashable v then Ok (existsb (fun s => py_eq v (VStr s)) names)
  else Raise (TypeError "unhashable type").

Definition same_keys (l : list val) (d : list (string * val)) : res bool :=
  if forallb hashable l
  then Ok (forallb (fun v => match v with VStr s => dmem s d | _ => false end) l
           && forallb (fun kv => vin (VStr kv.1) l) d)
  else Raise (TypeError "unhashable type").

(** A validator's report: a reason for each test that fails. *)
Definition reason (failed : bool) (msg : string) : list string := if failed then [msg] else [].

(** [str(exc)] and [f"{type(exc).__name__}:{exc}"]. *)
Definition exn_str (e : exn) : string :=
  match e with
  | ValueError m | TypeError m | PermissionError m | RuntimeErr m | OverflowErr m
  | AttributeErr m | AssertionErr m => m
  | KeyError k => repr_str k
  end.

Definition exn_text (e : exn) : string :=
  match e with
  | ValueError _ => "ValueError"
  | TypeError _ => "TypeError"
  | PermissionError _ => "PermissionError"
  | RuntimeErr _ => "RuntimeError"
  | KeyError _ => "KeyError"
  | OverflowErr _ => "OverflowError"
  | AttributeErr _ => "AttributeError"
  | AssertionErr _ => "AssertionError"
  end +:+ ":" +:+ exn_str e.

(** [d[k]] *)
Definition get_item (k : string) (d : list (string * val)) : res val :=
  match dget k d with Some v => Ok v | None => Raise (KeyError k) end.

(** [s or None] on a text. *)
Definition or_none (s : string) : val := if (s =? "")%string then VNone else VStr s.

(** ** JSON text, as [json.dumps(v, sort_keys=True, separators=(',', ':'))] *)

Definition json_char (ensure_ascii : bool) (c : ascii) : string :=
  let n := code c in
  if (n =? 92)%N then "\\"
  else if (n =? 34)%N then "\" +:+ dquote
  else if (n =? 10)%N then "\n" else if (n =? 13)%N then "\r"
  else if (n =? 9)%N then "\t" else if (n =? 12)%N then "\f"
  else if (n =? 8)%N then "\b"
  else if (n <? 32)%N || (ensure_ascii && (127 <=? n)%N)
  then "\u00" +:+ hex2 n else String c EmptyString.

Definition json_str (ensure_ascii : bool) (s : string) : string :=
  dquote +:+ concat_map (json_char ensure_ascii) s +:+ dquote.

(** Insertion of a rendered item by key, the effect of [sort_keys]. *)
Definition sort_items (l : list (string * string)) : list (string * string) :=
  merge_sort (fun a b => str_le a.1 b.1) l.

Fixpoint json_dumps (ensure_ascii : bool) (v : val) : string :=
  match v with
  | VNone => "null"
  | VBool b => if b then "true" else "false"
  | VInt z => pretty z
  | VStr s => json_str ensure_ascii s
  | VList l => "[" +:+ join "," (map (json_dumps ensure_ascii) l) +:+ "]"
  | VDict d =>
      let items := map (fun kv => (kv.1, json_dumps ensure_ascii kv.2)) d in
      "{" +:+ join "," (map (fun kv => json_str ensure_ascii kv.1 +:+ ":" +:+ kv.2)
                           (sort_items items)) +:+ "}"
  end.

(** [s.encode('utf-8')] for code points below 256; the result is bytes. *)
Definition utf8_char (c : ascii) : string :=
  let n := code c in
  if (n <? 128)%N then String c EmptyString
  else chr (192 + n / 64) +:+ chr (128 + n mod 64).
Definition utf8 (s : string) : string := concat_map utf8_char s.

(** [s[:n]] *)
Definition str_take (n : nat) (s : string) : string := String.substring 0 n s.

(** ** Nested mappings

    [sources keys payload] is the list a [_sources] helper of the code
    returns: the mapping itself, then recursively the mappings found under the
    given keys, depth first and in the order of the keys. *)
Fixpoint sources (keys : list string) (v : val) : list (list (string * val)) :=
  match v with
  | VDict d =>
      let nested :=
        (fix go (d : list (string * val)) : list (string * list (list (string * val))) :=
           match d with
           | [] => []
           | (k, w) :: d' => (k, sources keys w) :: go d'
           end) d in
      d :: concat (map (fun key => match dget key nested with
                                   | Some l => l | None => [] end) keys)
  | _ => []
  end.

(** ** Facts *)

Lemma sources_eq keys d :
  sources keys (VDict d) =
  d :: concat (map (fun key => sources keys (vget key d)) keys).
Proof.
  simpl. f_equal. f_equal. apply map_ext. intros key.
  unfold vget. induction d as [|[k w] d IH]; simpl; [done|].
  destruct (k =? key)%string; [done|apply IH].
Qed.

Lemma sources_head keys v :
  match v with VDict d => exists l, sources keys v = d :: l | _ => sources keys v = [] end.
Proof. destruct v; try reflexivity. rewrite sources_eq. eauto. Qed.

Lemma rstrip_nonspace c s :
  is_space c = false -> rstrip (String c s) = String c (rstrip s).
Proof. intros H. simpl. rewrite H. by destruct (rstrip s). Qed.

Lemma lstrip_head s c s' : lstrip s = String c s' -> is_space c = false.
Proof.
  induction s as [|a s IH]; simpl; [done|].
  destruct (is_space a) eqn:E; [auto|]. intros; simplify_eq. done.
Qed.

Lemma rstrip_idemp s : rstrip (rstrip s) = rstrip s.
Proof.
  induction s as [|c s IH]; [done|]. simpl.
  destruct (rstrip s) as [|c' s'] eqn:E.
  - destruct (is_space c) eqn:Ec; [done|]. simpl. by rewrite Ec.
  - change (rstrip (String c (String c' s')))
      with (match rstrip (String c' s') with
            | EmptyString => if is_space c then EmptyString else String c EmptyString
            | t => String c t end).
    by rewrite IH.
Qed.

Lemma strip_idemp s : strip (strip s) = strip s.
Proof.
  unfold strip. destruct (lstrip s) as [|c s'] eqn:E; [done|].
  pose proof (lstrip_head _ _ _ E) as Hc.
  rewrite rstrip_nonspace by done. simpl lstrip. rewrite Hc.
  rewrite <- rstrip_nonspace by done. apply rstrip_idemp.
Qed.

Lemma lower_ascii_idemp c : lower_ascii (lower_ascii c) = lower_ascii c.
Proof. destruct c as [[] [] [] [] [] [] [] []]; reflexivity. Qed.

Lemma lower_idemp s : lower (lower s) = lower s.
Proof. induction s as [|c s IH]; simpl; [done|]. by rewrite lower_ascii_idemp, IH. Qed.

Lemma text_strip s : text (VStr s) = strip s.
Proof. unfold text, py_or; simpl. by destruct (String.eqb_spec s "") as [->|]. Qed.

Lemma text_idemp v : text (VStr (text v)) = text v.
Proof. rewrite text_strip. apply strip_idemp. Qed.

Lemma text_None : text VNone = "".
Proof. reflexivity. Qed.

Lemma text_empty_idemp v : strip (text v) = text v.
Proof. apply strip_idemp. Qed.

Lemma vget_dset_eq k v d : vget k (dset k v d) = v.
Proof. unfold vget. by rewrite dget_dset_eq. Qed.

Lemma vget_dset_ne k k' v d : k <> k' -> vget k' (dset k v d) = vget k' d.
Proof. intros. unfold vget. by rewrite dget_dset_ne. Qed.

Lemma vget_dupdate_not_in k e d : k ∉ dkeys e -> vget k (dupdate d e) = vget k d.
Proof. intros. unfold vget. by rewrite dget_dupdate_not_in. Qed.

#[export] Hint Rewrite vget_dset_eq : pydict.
#[export] Hint Rewrite vget_dset_ne using congruence : pydict.

(** Appending strings; [+:+] is opaque to [simpl]. *)
Lemma string_app_cons c s t : String c s +:+ t = String c (s +:+ t).
Proof. reflexivity. Qed.

Lemma string_app_assoc a b c : (a +:+ b) +:+ c = a +:+ (b +:+ c).
Proof. induction a as [|x a IH]; [done|]. by rewrite !string_app_cons, IH. Qed.

Lemma string_app_nil a : a +:+ EmptyString = a.
Proof. induction a as [|x a IH]; [done|]. by rewrite string_app_cons, IH. Qed.

(** Strings without white space are their own [strip]. *)
Fixpoint no_space (s : string) : bool :=
  match s with
  | EmptyString => true
  | String c s' => negb (is_space c) && no_space s'
  end.

Lemma no_space_rstrip s : no_space s = true -> rstrip s = s.
Proof.
  induction s as [|c s IH]; simpl; [done|]. intros H. bools. rewrite IH by done.
  destruct s; [|done]. match goal with H : is_space c = false |- _ => by rewrite H end.
Qed.

Lemma no_space_strip s : no_space s = true -> strip s = s.
Proof.
  intros H. unfold strip. destruct s as [|c s]; [done|]. simpl in *. bools.
  match goal with H : is_space c = false |- _ => rewrite H end.
  apply (no_space_rstrip (String c s)). simpl.
  by repeat match goal with H : _ = _ |- _ => rewrite H; clear H end.
Qed.

Lemma text_head c s : is_space c = false -> text (VStr (String c s)) = String c (rstrip s).
Proof.
  intros H. rewrite text_strip. unfold strip. simpl lstrip. rewrite H. by apply rstrip_nonspace.
Qed.

Lemma no_space_app s t : no_space (s +:+ t) = no_space s && no_space t.
Proof. induction s as [|c s IH]; simpl; [done|]. by rewrite IH, andb_assoc. Qed.

Lemma no_space_take n s : no_space s = true -> no_space (str_take n s) = true.
Proof.
  unfold str_take. revert n. induction s as [|c s IH]; intros [|n]; simpl; try done.
  intros H. bools. rewrite IH by done. by rewrite andb_true_r, negb_true_iff.
Qed.

(** A text that starts with a letter is not blank, whatever follows. *)
Lemma strip_prefix c p s : is_space c = false -> strip (String c p +:+ s) <> "".
Proof. intros H. by rewrite string_app_cons, <- text_strip, text_head. Qed.

(** ** What the validators' tests say *)

Lemma reason_nil b m : reason b m = [] <-> b = false.
Proof. by destruct b. Qed.

Lemma py_eq_str v s : py_eq v (VStr s) = true <-> v = VStr s.
Proof. destruct v; simpl; try (by split); rewrite String.eqb_eq. naive_solver. Qed.

Lemma val_in_spec v names b : val_in v names = Ok b ->
  (b = true <-> exists s, v = VStr s /\ s ∈ names).
Proof.
  unfold val_in. destruct (hashable v); [|done]. intros [= <-]. rewrite existsb_exists.
  split.
  - intros (s & Hs & ->%py_eq_str). exists s. split; [done|by apply list_elem_of_In].
  - intros (s & -> & Hs). exists s. split; [by apply list_elem_of_In|by apply py_eq_str].
Qed.

Lemma val_in_str s names : val_in (VStr s) names = Ok (bool_decide (s ∈ names)).
Proof.
  destruct (val_in (VStr s) names) as [b|e] eqn:E; [|done]. f_equal.
  pose proof (val_in_spec _ _ _ E) as H. apply eq_true_iff_eq. rewrite H, bool_decide_eq_true.
  naive_solver.
Qed.

Lemma val_in_true s l : s ∈ l -> val_in (VStr s) l = Ok true.
Proof. intros H. by rewrite val_in_str, bool_decide_eq_true_2. Qed.

Lemma nonempty_text s : strip s <> "" -> (text (VStr s) =? "")%string = false.
Proof. intros H. rewrite text_strip. by apply String.eqb_neq. Qed.

Lemma hashable_strs l : forallb hashable (map VStr l) = true.
Proof. by induction l. Qed.

Lemma same_keys_spec l (d : list (string * val)) :
  same_keys l d = Ok true ->
  exists ks, l = map VStr ks /\ forall k, k ∈ dkeys d <-> k ∈ ks.
Proof.
  unfold same_keys. destruct (forallb hashable l); [|done]. intros [= H].
  apply andb_true_iff in H as [H1 H2].
  assert (Hks : exists ks, l = map VStr ks /\ forall k, k ∈ ks -> k ∈ dkeys d).
  { clear H2. induction l as [|v l IH]; [by exists []; split; [|intros k Hk%elem_of_nil]|].
    simpl in H1. apply andb_true_iff in H1 as [Hv H1]. destruct (IH H1) as (ks & -> & Hk).
    destruct v as [| | |s| |]; try done. exists (s :: ks). split; [done|].
    intros k [->|Hin]%elem_of_cons; [|by apply Hk]. apply dget_is_Some_keys.
    unfold dmem in Hv. by destruct (dget s d). }
  destruct Hks as (ks & -> & Hk). exists ks. split; [done|]. intros k. split; [|by apply Hk].
  intros ([k' v] & -> & Hin)%list_elem_of_fmap. rewrite forallb_forall in H2.
  specialize (H2 (k', v) (proj1 (list_elem_of_In _ _) Hin)). simpl in H2.
  apply existsb_exists in H2 as (w & Hw & E). apply in_map_iff in Hw as (s & <- & Hs).
  simpl in E. apply String.eqb_eq in E as ->. by apply list_elem_of_In.
Qed.

Lemma same_keys_true l (evs : list (string * val)) :
  (forall k, k ∈ dkeys evs <-> k ∈ l) -> same_keys (map VStr l) evs = Ok true.
Proof.
  intros H. unfold same_keys. rewrite hashable_strs. f_equal. apply andb_true_iff. split.
  - apply forallb_forall. intros v (s & <- & Hs)%in_map_iff. unfold dmem.
    apply list_elem_of_In, H, dget_is_Some_keys in Hs as [x ->]. done.
  - apply forallb_forall. intros [k v] Hk%list_elem_of_In. simpl. apply existsb_exists.
    exists (VStr k). split; [|simpl; apply String.eqb_refl]. apply in_map, list_elem_of_In, H.
    apply list_elem_of_fmap. by exists (k, v).
Qed.

Lemma int_field_int k n m d : vget k d = VInt m -> int_field k n d = Ok (if (m =? 0)%Z then n else m).
Proof. intros H. unfold int_field, py_or. rewrite H. simpl. by destruct (m =? 0)%Z. Qed.

Lemma int_field_0 k m d : vget k d = VInt m -> int_field k 0 d = Ok m.
Proof. intros H. rewrite (int_field_int _ _ _ _ H). destruct (Z.eqb_spec m 0); [by subst|done]. Qed.

Lemma Forall_dset {A} (P : string * A -> Prop) k v d : P (k, v) -> Forall P d -> Forall P (dset k v d).
Proof.
  intros Hk. induction 1 as [|[k' w] d Hw Hd IH]; simpl; [by repeat constructor|].
  destruct (String.eqb_spec k' k) as [->|]; by constructor.
Qed.

Lemma Forall_dpop {A} (P : string * A -> Prop) k d : Forall P d -> Forall P (dpop k d).
Proof.
  induction 1 as [|[k' w] d Hw Hd IH]; simpl; [constructor|].
  destruct (k' =? k)%string; [done|by constructor].
Qed.
