(* ===== verification/Clock.v ===== *)
(** * Instants and their texts

    [parse_time] and [time_text] of [core/runtime/runtime_operator_session.py]
    with what they use of Python's [datetime]: the proleptic Gregorian
    calendar, [isoformat] and [fromisoformat].  An aware datetime is its
    instant, the microseconds since year 1 in UTC; the type has no instant
    outside the years 1 to 9999.  [fromisoformat] reads dates with a time to
    the second, with or without a fraction of three or six digits and an
    offset: the shorter forms it also takes are never written by the code. *)

From Stdlib Require Import Ascii.
From Stdlib Require String.
From S2P Require Import Prelude PyVal.

#[local] Open Scope Z_scope.

Definition instant : Type := Z.

Definition SECOND : Z := 1000000.
Definition DAY : Z := 86400 * SECOND.
(** [datetime.max] is the last microsecond before this instant. *)
Definition END_OF_TIME : Z := 3652059 * DAY.

Definition in_range (t : instant) : bool := (0 <=? t) && (t <? END_OF_TIME).

(** ** The calendar *)

Definition is_leap (y : Z) : bool :=
  (y mod 4 =? 0) && (negb (y mod 100 =? 0) || (y mod 400 =? 0)).

Definition days_before_year (y : Z) : Z :=
  let y := y - 1 in y * 365 + y / 4 - y / 100 + y / 400.

Definition month_days : list Z := [31; 28; 31; 30; 31; 30; 31; 31; 30; 31; 30; 31].

Definition days_in_month (y m : Z) : Z :=
  if (m =? 2) && is_leap y then 29 else nth (Z.to_nat (m - 1)) month_days 0.

Definition days_before_month (y m : Z) : Z :=
  foldr Z.add 0 (take (Z.to_nat (m - 1)) month_days)
  + (if (2 <? m) && is_leap y then 1 else 0).

(** The days from 1 January of year 1 to a date. *)
Definition day_number (y m d : Z) : Z := days_before_year y + days_before_month y m + (d - 1).

Definition date_ok (y m d : Z) : bool :=
  (1 <=? y) && (y <=? 9999) && (1 <=? m) && (m <=? 12)
  && (1 <=? d) && (d <=? days_in_month y m).

(** The date of a day of the 400-year cycle that starts with year 1. *)
Definition cycle_date (n : Z) : Z * Z * Z :=
  let n100 := n / 36524 in
  let n := n mod 36524 in
  let n4 := n / 1461 in
  let n := n mod 1461 in
  let n1 := n / 365 in
  let n := n mod 365 in
  let y := 1 + n100 * 100 + n4 * 4 + n1 in
  if (n1 =? 4) || (n100 =? 4) then (y - 1, 12, 31)
  else
    let m := Z.shiftr (n + 50) 5 in
    let m := if n <? days_before_month y m then m - 1 else m in
    (y, m, n - days_before_month y m + 1).

Definition date_of (n : Z) : Z * Z * Z :=
  let '(y, m, d) := cycle_date (n mod 146097) in (n / 146097 * 400 + y, m, d).

(** ** Texts *)

Definition digit (n : Z) : ascii := ascii_of_N (48 + Z.to_N n).
Definition digit_value (c : ascii) : option Z :=
  if (48 <=? code c)%N && (code c <=? 57)%N then Some (Z.of_N (code c) - 48) else None.

(** [n] with [w] digits. *)
Fixpoint pad (w : nat) (n : Z) : string :=
  match w with
  | O => EmptyString
  | S w' => String (digit (n / 10 ^ Z.of_nat w')) (pad w' (n mod 10 ^ Z.of_nat w'))
  end.

Fixpoint read_num (w : nat) (s : string) (acc : Z) : option (Z * string) :=
  match w, s with
  | O, _ => Some (acc, s)
  | S w', String c s' =>
      match digit_value c with
      | Some d => read_num w' s' (acc * 10 + d)
      | None => None
      end
  | S _, EmptyString => None
  end.

Definition read_char (c : ascii) (s : string) : option string :=
  match s with
  | String c' s' => if Ascii.eqb c c' then Some s' else None
  | EmptyString => None
  end.

(** [isoformat()] of a UTC datetime. *)
Definition isoformat (t : instant) : string :=
  let '(y, m, d) := date_of (t / DAY) in
  let s := t mod DAY / SECOND in
  pad 4 y +:+ "-" +:+ pad 2 m +:+ "-" +:+ pad 2 d +:+ "T"
  +:+ pad 2 (s / 3600) +:+ ":" +:+ pad 2 (s / 60 mod 60) +:+ ":" +:+ pad 2 (s mod 60)
  +:+ (if t mod SECOND =? 0 then "" else "." +:+ pad 6 (t mod SECOND)) +:+ "+00:00".

(** The fraction of a second, in microseconds. *)
Definition read_fraction (s : string) : option (Z * string) :=
  match read_char "." s with
  | None => Some (0, s)
  | Some s' =>
      match read_num 6 s' 0 with
      | Some r => Some r
      | None => match read_num 3 s' 0 with
                | Some (n, s'') => Some (n * 1000, s'')
                | None => None
                end
      end
  end.

(** The offset from UTC in seconds; a naive datetime is taken as UTC. *)
Definition read_offset (s : string) : option Z :=
  match s with
  | EmptyString => Some 0
  | String c s1 =>
      if Ascii.eqb c "+" || Ascii.eqb c "-" then
        hs ← read_num 2 s1 0;
        s2 ← read_char ":" hs.2;
        ms ← read_num 2 s2 0;
        ss ← match ms.2 with
             | EmptyString => Some 0
             | _ => s3 ← read_char ":" ms.2; r ← read_num 2 s3 0;
                    match r.2 with EmptyString => Some r.1 | _ => None end
             end;
        let o := hs.1 * 3600 + ms.1 * 60 + ss in
        if o <? 86400 then Some (if Ascii.eqb c "-" then - o else o) else None
      else None
  end.

Definition fromisoformat (s : string) : option instant :=
  ys ← read_num 4 s 0; s ← read_char "-" ys.2;
  ms ← read_num 2 s 0; s ← read_char "-" ms.2;
  ds ← read_num 2 s 0;
  s ← match ds.2 with String _ s => Some s | EmptyString => None end;
  hs ← read_num 2 s 0; s ← read_char ":" hs.2;
  mi ← read_num 2 s 0; s ← read_char ":" mi.2;
  ss ← read_num 2 s 0;
  fs ← read_fraction ss.2;
  o ← read_offset fs.2;
  if date_ok ys.1 ms.1 ds.1 && (hs.1 <? 24) && (mi.1 <? 60) && (ss.1 <? 60)
  then Some (day_number ys.1 ms.1 ds.1 * DAY
             + (hs.1 * 3600 + mi.1 * 60 + ss.1 - o) * SECOND + fs.1)
  else None.

(** [s[:-1] + "+00:00"] for a text that ends in ["Z"]. *)
Fixpoint replace_zulu (s : string) : string :=
  match s with
  | EmptyString => EmptyString
  | String c EmptyString => if Ascii.eqb c "Z" then "+00:00" else s
  | String c s' => String c (replace_zulu s')
  end.

(** [parse_time] of a value that is not a datetime. *)
Definition parse_time (v : val) : res instant :=
  match fromisoformat (replace_zulu (text v)) with
  | None => Raise (ValueError "Invalid isoformat string")
  | Some t => if in_range t then Ok t else Raise (OverflowErr "date value out of range")
  end.

(** [time_text] of a datetime: microseconds are dropped. *)
Definition time_text (t : instant) : string := isoformat (t - t mod SECOND).

(** [t + timedelta(seconds=n)] *)
Definition add_seconds (t : instant) (n : Z) : res instant :=
  if in_range (t + n * SECOND) then Ok (t + n * SECOND)
  else Raise (OverflowErr "date value out of range").

(** ** The calendar repeats every 400 years *)

Lemma leap_shift q y : is_leap (q * 400 + y) = is_leap y.
Proof.
  unfold is_leap.
  replace ((q * 400 + y) mod 4) with (y mod 4)
    by (replace (q * 400 + y) with (y + q * 100 * 4) by lia; by rewrite Z.mod_add).
  replace ((q * 400 + y) mod 100) with (y mod 100)
    by (replace (q * 400 + y) with (y + q * 4 * 100) by lia; by rewrite Z.mod_add).
  replace ((q * 400 + y) mod 400) with (y mod 400)
    by (replace (q * 400 + y) with (y + q * 400) by lia; by rewrite Z.mod_add).
  done.
Qed.

Lemma year_shift q y : days_before_year (q * 400 + y) = q * 146097 + days_before_year y.
Proof.
  unfold days_before_year.
  replace (q * 400 + y - 1) with (y - 1 + q * 100 * 4) by lia.
  rewrite Z.div_add by lia. replace (y - 1 + q * 100 * 4) with (y - 1 + q * 4 * 100) by lia.
  rewrite Z.div_add by lia. replace (y - 1 + q * 4 * 100) with (y - 1 + q * 400) by lia.
  rewrite Z.div_add by lia. lia.
Qed.

Lemma day_shift q y m d : day_number (q * 400 + y) m d = q * 146097 + day_number y m d.
Proof.
  unfold day_number, days_before_month. rewrite year_shift, leap_shift. lia.
Qed.

Lemma month_shift q y m : days_in_month (q * 400 + y) m = days_in_month y m.
Proof. unfold days_in_month. by rewrite leap_shift. Qed.

(** Checks by computation over a range. *)
Fixpoint all_below (f : Z -> bool) (k : nat) (n : Z) : bool :=
  match k with O => true | S k' => f n && all_below f k' (n + 1) end.

Lemma all_below_spec f k : forall n x, all_below f k n = true -> n <= x < n + Z.of_nat k -> f x = true.
Proof.
  induction k as [|k IH]; intros n x H Hx; [lia|]. simpl in H.
  apply andb_true_iff in H as [H1 H2].
  destruct (decide (x = n)) as [->|]; [done|]. apply (IH (n + 1)); [done|lia].
Qed.

(** The first day of a year of the cycle, and which years are leap. *)
Definition year_checked (k : Z) : bool :=
  let a := k / 100 in let b := k mod 100 / 4 in let c := k mod 4 in
  (days_before_year (1 + k) =? a * 36524 + b * 1461 + c * 365)
  && Bool.eqb (is_leap (1 + k)) ((c =? 3) && (negb (b =? 24) || (a =? 3))).

Lemma years_checked : all_below year_checked 400 0 = true.
Proof. vm_compute. reflexivity. Qed.

Lemma year_spec a b c :
  0 <= a <= 3 -> 0 <= b <= 24 -> 0 <= c <= 3 ->
  days_before_year (1 + a * 100 + b * 4 + c) = a * 36524 + b * 1461 + c * 365
  /\ (is_leap (1 + a * 100 + b * 4 + c) = true <-> c = 3 /\ (b <> 24 \/ a = 3)).
Proof.
  intros Ha Hb Hc.
  pose proof (all_below_spec _ _ _ (a * 100 + b * 4 + c) years_checked ltac:(lia)) as H.
  unfold year_checked in H.
  replace ((a * 100 + b * 4 + c) / 100) with a in H
    by (apply (Z.div_unique _ _ _ (b * 4 + c)); lia).
  replace ((a * 100 + b * 4 + c) mod 100) with (b * 4 + c) in H
    by (apply (Z.mod_unique _ _ a); lia).
  replace ((b * 4 + c) / 4) with b in H by (apply (Z.div_unique _ _ _ c); lia).
  replace ((a * 100 + b * 4 + c) mod 4) with c in H
    by (apply (Z.mod_unique _ _ (a * 25 + b)); lia).
  rewrite !Z.add_assoc in H. apply andb_true_iff in H as [H1 H2].
  apply Z.eqb_eq in H1. apply Bool.eqb_prop in H2. rewrite H2. split; [done|].
  rewrite andb_true_iff, orb_true_iff, negb_true_iff, Z.eqb_eq, Z.eqb_neq, Z.eqb_eq. done.
Qed.

(** The month and the day of a day of the year. *)
Definition month_of (y n : Z) : Z :=
  let m := Z.shiftr (n + 50) 5 in if n <? days_before_month y m then m - 1 else m.

Definition leap_like (y : Z) : Z := if is_leap y then 4 else 1.

Lemma before_month_leap y m : days_before_month y m = days_before_month (leap_like y) m.
Proof. unfold days_before_month, leap_like. by destruct (is_leap y). Qed.
Lemma in_month_leap y m : days_in_month y m = days_in_month (leap_like y) m.
Proof. unfold days_in_month, leap_like. by destruct (is_leap y). Qed.

Definition month_checked (y n : Z) : bool :=
  let m := month_of y n in
  let d := n - days_before_month y m + 1 in
  (1 <=? m) && (m <=? 12) && (1 <=? d) && (d <=? days_in_month y m).

Lemma months_checked :
  all_below (month_checked 1) 365 0 && all_below (month_checked 4) 366 0 = true.
Proof. vm_compute. reflexivity. Qed.

Lemma month_spec y n :
  0 <= n < (if is_leap y then 366 else 365) -> month_checked y n = true.
Proof.
  intros Hn. assert (H : month_checked y n = month_checked (leap_like y) n).
  { assert (Hm : month_of y n = month_of (leap_like y) n)
      by (unfold month_of; by rewrite (before_month_leap y)).
    unfold month_checked. rewrite Hm, (before_month_leap y), (in_month_leap y). done. }
  pose proof months_checked as [H1 H4]%andb_true_iff. rewrite H. unfold leap_like.
  destruct (is_leap y); [apply (all_below_spec _ _ _ n H4); lia
                        |apply (all_below_spec _ _ _ n H1); lia].
Qed.

Lemma cycle_date_spec n :
  0 <= n < 146097 ->
  let '(y, m, d) := cycle_date n in
  day_number y m d = n /\ date_ok y m d = true /\ y <= 400 /\ (n <= 145730 -> y <= 399).
Proof.
  intros Hn. unfold cycle_date. fold (month_of (1 + n / 36524 * 100 + n mod 36524 / 1461 * 4
    + n mod 36524 mod 1461 / 365) (n mod 36524 mod 1461 mod 365)).
  pose proof (Z.div_mod n 36524 ltac:(lia)) as E1.
  pose proof (Z.mod_pos_bound n 36524 ltac:(lia)) as B1.
  set (a := n / 36524) in *. set (r1 := n mod 36524) in *.
  pose proof (Z.div_mod r1 1461 ltac:(lia)) as E2.
  pose proof (Z.mod_pos_bound r1 1461 ltac:(lia)) as B2.
  set (b := r1 / 1461) in *. set (r2 := r1 mod 1461) in *.
  pose proof (Z.div_mod r2 365 ltac:(lia)) as E3.
  pose proof (Z.mod_pos_bound r2 365 ltac:(lia)) as B3.
  set (c := r2 / 365) in *. set (r3 := r2 mod 365) in *. cbv zeta.
  destruct ((c =? 4) || (a =? 4)) eqn:Ec.
  - assert (Hy : exists a' b', 0 <= a' <= 3 /\ 0 <= b' <= 24 /\ (b' <> 24 \/ a' = 3)
      /\ 1 + a * 100 + b * 4 + c - 1 = 1 + a' * 100 + b' * 4 + 3
      /\ n = a' * 36524 + b' * 1461 + 1460).
    { apply orb_true_iff in Ec as [Ec|Ec]; apply Z.eqb_eq in Ec.
      - exists a, b. lia.
      - exists 3, 24. lia. }
    destruct Hy as (a' & b' & Ha & Hb & Hl & -> & ->).
    destruct (year_spec a' b' 3 Ha Hb ltac:(lia)) as [Y1 Y2].
    assert (L : is_leap (1 + a' * 100 + b' * 4 + 3) = true) by (apply Y2; lia).
    assert (D1 : days_before_month (1 + a' * 100 + b' * 4 + 3) 12 = 335)
      by (unfold days_before_month; by rewrite L).
    assert (D2 : days_in_month (1 + a' * 100 + b' * 4 + 3) 12 = 31) by done.
    unfold day_number, date_ok. rewrite Y1, D1, D2, !andb_true_iff, !Z.leb_le. lia.
  - apply orb_false_iff in Ec as [Ec Ea]. apply Z.eqb_neq in Ec, Ea.
    destruct (year_spec a b c ltac:(lia) ltac:(lia) ltac:(lia)) as [Y1 _].
    set (y := 1 + a * 100 + b * 4 + c) in *.
    assert (M : month_checked y r3 = true) by (apply month_spec; destruct (is_leap y); lia).
    unfold month_checked in M. cbv zeta in M. rewrite !andb_true_iff, !Z.leb_le in M.
    unfold day_number, date_ok. rewrite Y1, !andb_true_iff, !Z.leb_le. lia.
Qed.

Lemma date_of_spec n :
  0 <= n < 3652059 ->
  let '(y, m, d) := date_of n in day_number y m d = n /\ date_ok y m d = true.
Proof.
  intros Hn. unfold date_of.
  pose proof (Z.mod_pos_bound n 146097 ltac:(lia)) as Hr.
  pose proof (Z.div_mod n 146097 ltac:(lia)) as Hd.
  set (q := n / 146097) in *. set (r := n mod 146097) in *.
  pose proof (cycle_date_spec r ltac:(lia)) as H.
  destruct (cycle_date r) as [[y m] d]. destruct H as (H1 & H2 & H3 & H4).
  split; [rewrite day_shift; lia|]. unfold date_ok in *. rewrite month_shift.
  repeat (apply andb_true_iff in H2 as [H2 ?]). apply Z.leb_le in H2.
  rewrite !andb_true_iff, !Z.leb_le in *. repeat split; lia || done.
Qed.

(** ** Reading back what was written *)

Lemma digit_value_digit n : 0 <= n < 10 -> digit_value (digit n) = Some n.
Proof.
  intros Hn. assert (H : forallb (fun k => bool_decide (digit_value (digit k) = Some k))
                          [0; 1; 2; 3; 4; 5; 6; 7; 8; 9] = true) by (vm_compute; reflexivity).
  rewrite forallb_forall in H. apply (bool_decide_unpack _), Is_true_true, H. simpl. lia.
Qed.

Lemma read_pad w : forall n rest acc,
  0 <= n < 10 ^ Z.of_nat w ->
  read_num w (pad w n +:+ rest) acc = Some (acc * 10 ^ Z.of_nat w + n, rest).
Proof.
  induction w as [|w IH]; intros n rest acc Hn.
  - simpl. do 2 f_equal. lia.
  - assert (E : 10 ^ Z.of_nat (S w) = 10 * 10 ^ Z.of_nat w)
      by (rewrite Nat2Z.inj_succ, Z.pow_succ_r; lia).
    rewrite E in *. cbn [pad read_num]. set (p := 10 ^ Z.of_nat w) in *.
    assert (Hp : 0 < p) by (apply Z.pow_pos_nonneg; lia).
    rewrite string_app_cons. cbn [read_num]. rewrite digit_value_digit.
    + rewrite IH by (apply Z.mod_pos_bound; lia). do 2 f_equal. fold p.
      pose proof (Z.div_mod n p ltac:(lia)). nia.
    + split; [apply Z.div_pos; lia|apply Z.div_lt_upper_bound; lia].
Qed.

Lemma read_char_app c s : read_char c (String c EmptyString +:+ s) = Some s.
Proof. simpl. by rewrite Ascii.eqb_refl. Qed.

Lemma read_char_cons c s : read_char c (String c s) = Some s.
Proof. simpl. by rewrite Ascii.eqb_refl. Qed.

Lemma read_pad2 n rest : 0 <= n < 100 -> read_num 2 (pad 2 n +:+ rest) 0 = Some (n, rest).
Proof. intros H. rewrite read_pad by (simpl; lia). done. Qed.

(** The parts of an instant are in range. *)
Lemma instant_parts t :
  0 <= t < END_OF_TIME ->
  0 <= t / DAY < 3652059 /\ 0 <= t mod DAY / SECOND < 86400
  /\ t = t / DAY * DAY + t mod DAY / SECOND * SECOND + t mod SECOND.
Proof.
  unfold END_OF_TIME, DAY, SECOND. change (86400 * 1000000) with 86400000000. intros Ht.
  pose proof (Z.div_mod t 86400000000 ltac:(lia)).
  pose proof (Z.mod_pos_bound t 86400000000 ltac:(lia)).
  pose proof (Z.div_mod (t mod 86400000000) 1000000 ltac:(lia)).
  pose proof (Z.mod_pos_bound (t mod 86400000000) 1000000 ltac:(lia)).
  assert ((t mod 86400000000) mod 1000000 = t mod 1000000).
  { apply (Z.mod_unique _ _ (t / 86400000000 * 86400
      + t mod 86400000000 / 1000000)); lia. }
  lia.
Qed.

Lemma clock_parts s :
  0 <= s < 86400 ->
  0 <= s / 3600 < 24 /\ 0 <= s / 60 mod 60 < 60 /\ 0 <= s mod 60 < 60
  /\ s / 3600 * 3600 + s / 60 mod 60 * 60 + s mod 60 = s.
Proof.
  intros Hs. pose proof (Z.div_mod s 60 ltac:(lia)). pose proof (Z.mod_pos_bound s 60 ltac:(lia)).
  pose proof (Z.div_mod (s / 60) 60 ltac:(lia)).
  pose proof (Z.mod_pos_bound (s / 60) 60 ltac:(lia)).
  assert (s / 3600 = s / 60 / 60) by (rewrite Z.div_div by lia; done). lia.
Qed.

Lemma days_at_most_31 y m : days_in_month y m <= 31.
Proof.
  unfold days_in_month. destruct (_ && _); [lia|].
  assert (H : forallb (fun k => k <=? 31) month_days = true) by done.
  destruct (nth_in_or_default (Z.to_nat (m - 1)) month_days 0) as [Hin| ->]; [|lia].
  rewrite forallb_forall in H. apply Z.leb_le, H, Hin.
Qed.

Lemma date_of_bounds t : 0 <= t < END_OF_TIME ->
  let '(y, m, d) := date_of (t / DAY) in
  day_number y m d = t / DAY /\ date_ok y m d = true
  /\ 1 <= y <= 9999 /\ 1 <= m <= 12 /\ 1 <= d <= 31.
Proof.
  intros Ht. destruct (instant_parts t Ht) as (Hday & _).
  pose proof (date_of_spec (t / DAY) Hday) as D. destruct (date_of (t / DAY)) as [[y m] d].
  destruct D as [Dn Dok]. split; [done|]. split; [done|].
  unfold date_ok in Dok. rewrite !andb_true_iff, !Z.leb_le in Dok.
  pose proof (days_at_most_31 y m). lia.
Qed.

Lemma fromisoformat_isoformat t : 0 <= t < END_OF_TIME -> fromisoformat (isoformat t) = Some t.
Proof.
  intros Ht. destruct (instant_parts t Ht) as (Hday & Hsec & Et).
  unfold isoformat. pose proof (date_of_bounds t Ht) as D.
  destruct (date_of (t / DAY)) as [[y m] d]. destruct D as (Dn & Dok & Dr).
  destruct (clock_parts _ Hsec) as (Hh & Hm & Hs & Es).
  set (h := t mod DAY / SECOND / 3600) in *. set (mi := t mod DAY / SECOND / 60 mod 60) in *.
  set (s := t mod DAY / SECOND mod 60) in *. unfold fromisoformat.
  rewrite read_pad by (simpl; lia). cbn [mbind option_bind fst snd]. rewrite read_char_app.
  cbn [mbind option_bind]. rewrite read_pad2 by lia. cbn [mbind option_bind fst snd].
  rewrite read_char_app. cbn [mbind option_bind]. rewrite read_pad2 by lia.
  cbn [mbind option_bind fst snd]. rewrite string_app_cons. cbn [mbind option_bind].
  change (EmptyString +:+ ?x) with x. rewrite read_pad2 by lia. cbn [mbind option_bind fst snd].
  rewrite read_char_app. cbn [mbind option_bind]. rewrite read_pad2 by lia.
  cbn [mbind option_bind fst snd]. rewrite read_char_app. cbn [mbind option_bind].
  rewrite read_pad2 by lia. cbn [mbind option_bind fst snd].
  assert (F : read_fraction ((if t mod SECOND =? 0 then "" else "." +:+ pad 6 (t mod SECOND))
                +:+ "+00:00") = Some (t mod SECOND, "+00:00")).
  { pose proof (Z.mod_pos_bound t SECOND ltac:(done)) as B.
    destruct (Z.eqb_spec (t mod SECOND) 0) as [->|]; [done|]. unfold read_fraction.
    rewrite !string_app_cons. change (EmptyString +:+ ?x) with x. rewrite read_char_cons.
    rewrite read_pad by (unfold SECOND in *; simpl; lia). done. }
  rewrite F. cbn [mbind option_bind fst snd]. change (read_offset "+00:00") with (Some 0).
  cbn [mbind option_bind]. change (0 * 10 ^ Z.of_nat 4 + y) with y.
  rewrite Dok, Dn, (proj2 (Z.ltb_lt h 24)), (proj2 (Z.ltb_lt mi 60)), (proj2 (Z.ltb_lt s 60))
    by lia. cbn [andb]. f_equal.
  rewrite Z.sub_0_r, Es. by symmetry.
Qed.

Lemma no_space_pad w : forall n, 0 <= n < 10 ^ Z.of_nat w -> no_space (pad w n) = true.
Proof.
  induction w as [|w IH]; intros n Hn; [done|].
  assert (E : 10 ^ Z.of_nat (S w) = 10 * 10 ^ Z.of_nat w)
    by (rewrite Nat2Z.inj_succ, Z.pow_succ_r; lia).
  rewrite E in Hn. cbn [pad no_space]. set (p := 10 ^ Z.of_nat w) in *.
  assert (Hp : 0 < p) by (apply Z.pow_pos_nonneg; lia).
  rewrite IH by (apply Z.mod_pos_bound; lia). rewrite andb_true_r.
  assert (Hd : 0 <= n / p < 10) by (split; [apply Z.div_pos; lia|apply Z.div_lt_upper_bound; lia]).
  assert (H : forallb (fun k => negb (is_space (digit k))) [0; 1; 2; 3; 4; 5; 6; 7; 8; 9] = true)
    by (vm_compute; reflexivity).
  rewrite forallb_forall in H. apply H. simpl. lia.
Qed.

Lemma replace_zulu_utc s : replace_zulu (s +:+ "+00:00") = s +:+ "+00:00".
Proof.
  induction s as [|c s IH]; [done|]. rewrite string_app_cons.
  change (replace_zulu (String c (s +:+ "+00:00")))
    with (match s +:+ "+00:00" with
          | EmptyString => if Ascii.eqb c "Z" then "+00:00" else String c (s +:+ "+00:00")
          | _ => String c (replace_zulu (s +:+ "+00:00")) end).
  rewrite IH. by destruct s.
Qed.

Lemma trunc_range t : 0 <= t < END_OF_TIME ->
  0 <= t - t mod SECOND < END_OF_TIME /\ (t - t mod SECOND) mod SECOND = 0.
Proof.
  intros Ht. pose proof (Z.mod_pos_bound t SECOND ltac:(done)).
  pose proof (Z.div_mod t SECOND ltac:(done)) as E.
  assert (t - t mod SECOND = t / SECOND * SECOND) as -> by lia.
  rewrite Z.mod_mul by done. unfold SECOND, END_OF_TIME in *. lia.
Qed.

(** A written instant has no white space and ends with the offset of UTC. *)
Lemma isoformat_shape t : 0 <= t < END_OF_TIME ->
  exists s, isoformat t = s +:+ "+00:00" /\ no_space (isoformat t) = true.
Proof.
  intros Ht. destruct (instant_parts t Ht) as (Hday & Hsec & _).
  destruct (clock_parts _ Hsec) as (Hh & Hm & Hs & _). unfold isoformat.
  pose proof (date_of_bounds t Ht) as D.
  destruct (date_of (t / DAY)) as [[y m] d]. destruct D as (_ & _ & Dr).
  pose proof (Z.mod_pos_bound t SECOND ltac:(done)) as B.
  eexists. split; [by rewrite <- !string_app_assoc|].
  rewrite !no_space_app, !no_space_pad by (simpl; lia).
  destruct (t mod SECOND =? 0); [done|]. rewrite no_space_app, no_space_pad; [done|].
  unfold SECOND in *. simpl. lia.
Qed.

(** Reading a written instant gives it back to the second. *)
Lemma parse_time_text t : 0 <= t < END_OF_TIME ->
  parse_time (VStr (time_text t)) = Ok (t - t mod SECOND).
Proof.
  intros Ht. destruct (trunc_range t Ht) as [Hr _]. unfold parse_time, time_text.
  destruct (isoformat_shape _ Hr) as (s & Es & Hn).
  rewrite text_strip, no_space_strip by done. rewrite Es, replace_zulu_utc, <- Es.
  rewrite fromisoformat_isoformat by done. unfold in_range.
  by rewrite (proj2 (Z.leb_le _ _) (proj1 Hr)), (proj2 (Z.ltb_lt _ _) (proj2 Hr)).
Qed.

Lemma time_text_nonempty t : 0 <= t < END_OF_TIME -> time_text t <> EmptyString.
Proof.
  intros Ht. destruct (trunc_range t Ht) as [Hr _]. unfold time_text.
  destruct (isoformat_shape _ Hr) as (s & -> & _). destruct s; [done|].
  by rewrite string_app_cons.
Qed.

(** C40. What is written can be read: a datetime written with [isoformat] reads
    back to itself, microseconds included; written with [time_text] it reads
    back to the start of its second, so to at most a second earlier; and two
    datetimes have the same [time_text] exactly when they are in the same
    second. *)
Theorem time_roundtrip (t u : instant) :
  in_range t = true -> in_range u = true ->
  fromisoformat (isoformat t) = Some t
  /\ (exists t', parse_time (VStr (time_text t)) = Ok t' /\ t' <= t < t' + SECOND)
  /\ (time_text t = time_text u <-> t / SECOND = u / SECOND).
Proof.
  unfold in_range. rewrite !andb_true_iff, !Z.leb_le, !Z.ltb_lt. intros Ht Hu.
  pose proof (parse_time_text _ Ht) as Pt. pose proof (parse_time_text _ Hu) as Pu.
  pose proof (Z.mod_pos_bound t SECOND ltac:(done)).
  pose proof (Z.div_mod t SECOND ltac:(done)). pose proof (Z.div_mod u SECOND ltac:(done)).
  split_and!; [by apply fromisoformat_isoformat|exists (t - t mod SECOND); split; [done|lia]|].
  split.
  - intros E. rewrite E in Pt. rewrite Pt in Pu. injection Pu as Pu. unfold SECOND in *. lia.
  - intros E. unfold time_text. f_equal. unfold SECOND in *. lia.
Qed.

(** 29 February 2024, 12:30:45.678901, and the start of the next second. *)
Lemma time_roundtrip_witness :
  exists t u, isoformat t = "2024-02-29T12:30:45.678901+00:00"
    /\ time_text u = "2024-02-29T12:30:46+00:00"
    /\ fromisoformat (isoformat t) = Some t /\ time_text t <> time_text u.
Proof.
  exists 63844806645678901, 63844806646000000.
  split; [vm_compute; reflexivity|]. split; [vm_compute; reflexivity|].
  destruct (time_roundtrip 63844806645678901 63844806646000000 eq_refl eq_refl) as (H & _ & I).
  split; [exact H|]. intros E. apply I in E. vm_compute in E. discriminate.
Defined.
