(* ===== verification/Sealing.v ===== *)
(** * Sealed records and their files

    The runtime's durable records are dicts that carry a fingerprint of
    themselves: [canonical_json] and [fingerprint] of
    [core/runtime/runtime_operator_session.py] and the [_unsigned]/[seal_*]
    pairs of the event bus, the mission scheduler and the mission model.  A
    record is written to its file as JSON with sorted keys and read back, so a
    loaded record equals the saved one up to the order of its keys: [vsort].
    Nothing is assumed of the digest [sha256_hex]. *)

From stdpp Require Import sorting.
From S2P Require Import Prelude PyVal.

(** ** Values as Python has them: a dict has each key once *)

Fixpoint val_ok (v : val) : bool :=
  match v with
  | VList l => forallb val_ok l
  | VDict d => bool_decide (NoDup d.*1) && forallb (fun kv => val_ok kv.2) d
  | _ => true
  end.

Definition key_le {A} (a b : string * A) : Prop := str_le a.1 b.1.
#[export] Instance key_le_dec {A} (a b : string * A) : Decision (key_le a b).
Proof. unfold key_le. apply _. Defined.
#[export] Instance key_le_total {A} : Total (@key_le A).
Proof. intros a b. unfold key_le. apply total, _. Qed.
#[export] Instance key_le_trans {A} : Transitive (@key_le A).
Proof. intros a b c. unfold key_le. apply transitivity. Qed.

(** [json.loads(json.dumps(v, sort_keys=True))] *)
Fixpoint vsort (v : val) : val :=
  match v with
  | VList l => VList (map vsort l)
  | VDict d => VDict (merge_sort key_le (map (fun kv => (kv.1, vsort kv.2)) d))
  | _ => v
  end.

Definition sort_dict (d : list (string * val)) : list (string * val) :=
  merge_sort key_le (map (fun kv => (kv.1, vsort kv.2)) d).

(** Two sortings of the same items with distinct keys are equal. *)
Lemma sort_by_key_unique {A} (l1 l2 : list (string * A)) :
  l1 ≡ₚ l2 -> NoDup l1.*1 -> merge_sort key_le l1 = merge_sort key_le l2.
Proof.
  intros Hp Hn. apply (Sorted_unique_strong key_le).
  - intros [k x] [k' y] Hx Hy H1 H2. rewrite merge_sort_Permutation in Hx, Hy.
    rewrite <- Hp in Hy. assert (k = k') as <- by (by apply (anti_symm str_le)).
    f_equal. assert (E : forall z, (k, z) ∈ l1 -> dget k l1 = Some z)
      by (intros z; by apply elem_dget). apply E in Hx, Hy. congruence.
  - apply Sorted_merge_sort, _.
  - apply Sorted_merge_sort, _.
  - by rewrite !merge_sort_Permutation.
Qed.

Lemma keys_of_map {A B} (f : A -> B) (d : list (string * A)) :
  (map (fun kv => (kv.1, f kv.2)) d).*1 = d.*1.
Proof. rewrite <- list_fmap_compose. by apply list_fmap_ext. Qed.

Lemma keys_sort_dict d : (sort_dict d).*1 ≡ₚ d.*1.
Proof. unfold sort_dict. rewrite merge_sort_Permutation, keys_of_map. done. Qed.

Lemma dget_map {A B} (f : A -> B) k (d : list (string * A)) :
  dget k (map (fun kv => (kv.1, f kv.2)) d) = option_map f (dget k d).
Proof. induction d as [|[k' x] d IH]; simpl; [done|]. by destruct (k' =? k)%string. Qed.

Lemma dget_perm {A} k (d e : list (string * A)) : d ≡ₚ e -> dict_ok d -> dget k d = dget k e.
Proof.
  intros Hp Hn. assert (Hn' : dict_ok e) by (unfold dict_ok, dkeys in *; by rewrite <- Hp).
  destruct (dget k d) as [x|] eqn:E.
  - symmetry. apply elem_dget; [done|]. rewrite <- Hp. by apply dget_Some_elem.
  - symmetry. apply dget_None_keys. apply dget_None_keys in E. unfold dkeys in *.
    by rewrite <- Hp.
Qed.

Lemma dget_sort_dict k d : dict_ok d -> dget k (sort_dict d) = option_map vsort (dget k d).
Proof.
  intros Hd. rewrite <- dget_map. symmetry. apply dget_perm.
  - unfold sort_dict. by rewrite merge_sort_Permutation.
  - unfold dict_ok, dkeys. by rewrite keys_of_map.
Qed.

Lemma vget_sort_dict k d : dict_ok d -> vget k (sort_dict d) = vsort (vget k d).
Proof. intros Hd. unfold vget. rewrite dget_sort_dict by done. by destruct (dget k d). Qed.

Lemma dict_ok_sort_dict d : dict_ok d -> dict_ok (sort_dict d).
Proof. unfold dict_ok, dkeys. by rewrite keys_sort_dict. Qed.

(** ** What [val_ok] says of dicts *)

Lemma val_ok_dict d :
  val_ok (VDict d) = true <-> dict_ok d /\ Forall (fun kv => val_ok kv.2 = true) d.
Proof.
  simpl. rewrite andb_true_iff, bool_decide_eq_true, forallb_forall, Forall_forall.
  unfold dict_ok, dkeys. by setoid_rewrite list_elem_of_In.
Qed.

Lemma val_ok_get k d : val_ok (VDict d) = true -> val_ok (vget k d) = true.
Proof.
  intros [_ H]%val_ok_dict. unfold vget. destruct (dget k d) as [v|] eqn:E; [|done].
  apply dget_Some_elem in E. rewrite Forall_forall in H. by apply (H _ E).
Qed.

Lemma val_ok_dpop k d : val_ok (VDict d) = true -> val_ok (VDict (dpop k d)) = true.
Proof.
  rewrite !val_ok_dict. intros [Hd Hv]. split; [by apply dict_ok_dpop|].
  clear Hd. induction Hv as [|[k' v] d Hk Hv IH]; simpl; [constructor|].
  destruct (k' =? k)%string; [done|by constructor].
Qed.

Lemma val_ok_dset k v d :
  val_ok (VDict d) = true -> val_ok v = true -> val_ok (VDict (dset k v d)) = true.
Proof.
  rewrite !val_ok_dict. intros [Hd Hv] Hok. split; [by apply dict_ok_dset|].
  clear Hd. induction Hv as [|[k' w] d Hk Hv IH]; simpl; [by repeat constructor|].
  destruct (k' =? k)%string; by constructor.
Qed.

(** ** Sorting twice, and the text of a sorted value *)

Lemma vsort_idemp v : val_ok v = true -> vsort (vsort v) = vsort v.
Proof.
  induction v as [| | | |l IH|d IH] using val_nested_ind; try done.
  - intros H. simpl. f_equal. rewrite map_map. apply map_ext_in. intros x Hx.
    apply list_elem_of_In in Hx. rewrite Forall_forall in IH. apply IH; [done|].
    simpl in H. rewrite forallb_forall in H. apply H. by apply list_elem_of_In.
  - intros [Hd Hv]%val_ok_dict. simpl. f_equal. fold (sort_dict d).
    symmetry. apply sort_by_key_unique; [|by rewrite keys_of_map].
    unfold sort_dict. rewrite merge_sort_Permutation, map_map. simpl.
    apply reflexive_eq, map_ext_in. intros [k x] Hx%list_elem_of_In. simpl. f_equal. symmetry.
    rewrite Forall_forall in IH, Hv. by apply (IH (k, x)), (Hv (k, x)).
Qed.

Lemma json_vsort ea v : val_ok v = true -> json_dumps ea (vsort v) = json_dumps ea v.
Proof.
  induction v as [| | | |l IH|d IH] using val_nested_ind; try done.
  - intros H. simpl. do 3 f_equal. rewrite map_map. apply map_ext_in. intros x Hx.
    apply list_elem_of_In in Hx. rewrite Forall_forall in IH. apply IH; [done|].
    simpl in H. rewrite forallb_forall in H. apply H. by apply list_elem_of_In.
  - intros [Hd Hv]%val_ok_dict. simpl. fold (sort_dict d).
    assert (E : sort_items (map (fun kv => (kv.1, json_dumps ea kv.2)) (sort_dict d))
                = sort_items (map (fun kv => (kv.1, json_dumps ea kv.2)) d)); [|by rewrite E].
    symmetry. apply sort_by_key_unique; [|by rewrite keys_of_map].
    unfold sort_dict. rewrite merge_sort_Permutation, map_map. simpl.
    apply reflexive_eq, map_ext_in. intros [k x] Hx%list_elem_of_In. simpl. f_equal. symmetry.
    rewrite Forall_forall in IH, Hv. by apply (IH (k, x)), (Hv (k, x)).
Qed.


Lemma val_ok_vsort v : val_ok v = true -> val_ok (vsort v) = true.
Proof.
  induction v as [| | | |l IH|d IH] using val_nested_ind; try done.
  - simpl. rewrite !forallb_forall. intros H x (y & <- & Hy)%in_map_iff.
    rewrite Forall_forall in IH. apply IH; [by apply list_elem_of_In|by apply H].
  - intros [Hd Hv]%val_ok_dict. change (vsort (VDict d)) with (VDict (sort_dict d)).
    apply val_ok_dict. split; [by apply dict_ok_sort_dict|]. apply Forall_forall.
    intros [k x]. unfold sort_dict. rewrite merge_sort_Permutation.
    intros (y & Hy & Hin)%list_elem_of_fmap. injection Hy as -> ->.
    rewrite Forall_forall in IH, Hv. by apply (IH y), (Hv y).
Qed.

Lemma dpop_perm {A} k (d e : list (string * A)) : d ≡ₚ e -> dpop k d ≡ₚ dpop k e.
Proof.
  induction 1 as [|[k' x] d e _ IH|[k1 x] [k2 y] d|]; simpl; [done| | |by etrans].
  - destruct (k' =? k)%string; [done|by rewrite IH].
  - destruct (k1 =? k)%string, (k2 =? k)%string; [done..|]. apply Permutation_swap.
Qed.

Lemma dpop_map {A B} (f : A -> B) k d :
  dpop k (map (fun kv => (kv.1, f kv.2)) d) = map (fun kv => (kv.1, f kv.2)) (dpop k d).
Proof. induction d as [|[k' x] d IH]; simpl; [done|]. destruct (k' =? k)%string; simpl; by rewrite IH. Qed.

(** Sorting a dict without a key: the same whether it was sorted before or not. *)
Lemma vsort_dpop_sort k d :
  val_ok (VDict d) = true -> vsort (VDict (dpop k (sort_dict d))) = vsort (VDict (dpop k d)).
Proof.
  intros [Hd Hv]%val_ok_dict. simpl. f_equal. symmetry. apply sort_by_key_unique.
  - rewrite <- !(dpop_map vsort k). apply dpop_perm. unfold sort_dict.
    rewrite merge_sort_Permutation, map_map. apply reflexive_eq, map_ext_in.
    intros [k' x] Hx%list_elem_of_In. simpl. f_equal. symmetry.
    rewrite Forall_forall in Hv. by apply vsort_idemp, (Hv (k', x)).
  - rewrite keys_of_map. by apply dict_ok_dpop.
Qed.

(** ** Sealed dicts

    [f] is the field that holds the fingerprint: [bus_fingerprint],
    [entry_fingerprint] and so on.  [dpop f] is each module's [_unsigned]. *)
Section sealing.
Context (sha256_hex : string -> string).

Definition canonical_json (v : val) : string := json_dumps false v.
Definition fingerprint (v : val) : string := sha256_hex (utf8 (canonical_json v)).

Definition unsigned (f : string) (d : list (string * val)) : list (string * val) := dpop f d.

Definition seal (f : string) (d : list (string * val)) : list (string * val) :=
  dset f (VStr (fingerprint (VDict (unsigned f d)))) (unsigned f d).

(** The test every [validate_*] makes: [value.get(f) == fingerprint(_unsigned(value))]. *)
Definition sealed (f : string) (d : list (string * val)) : bool :=
  py_eq (vget f d) (VStr (fingerprint (VDict (unsigned f d)))).

Lemma unsigned_dset f v d : unsigned f (dset f v d) = unsigned f d.
Proof.
  unfold unsigned. induction d as [|[k x] d IH]; simpl.
  - by rewrite String.eqb_refl.
  - destruct (k =? f)%string eqn:E; simpl; rewrite E; [done|by rewrite IH].
Qed.

Lemma unsigned_idemp f d : unsigned f (unsigned f d) = unsigned f d.
Proof.
  unfold unsigned. induction d as [|[k x] d IH]; simpl; [done|].
  destruct (k =? f)%string eqn:E; simpl; [done|]. by rewrite E, IH.
Qed.

Lemma unsigned_seal f d : unsigned f (seal f d) = unsigned f d.
Proof. unfold seal. by rewrite unsigned_dset, unsigned_idemp. Qed.

Lemma vget_seal_ne f k d : k <> f -> vget k (seal f d) = vget k d.
Proof.
  intros Hk. unfold seal, unsigned. rewrite vget_dset_ne by congruence.
  unfold vget. by rewrite dget_dpop_ne by congruence.
Qed.

Lemma vget_seal f k d :
  vget k (seal f d) = if (k =? f)%string then VStr (fingerprint (VDict (unsigned f d))) else vget k d.
Proof.
  destruct (String.eqb_spec k f) as [->|]; [|by apply vget_seal_ne].
  unfold seal. by rewrite vget_dset_eq.
Qed.

Lemma vget_seal_eq f d : vget f (seal f d) = VStr (fingerprint (VDict (unsigned f d))).
Proof. unfold seal. by rewrite vget_dset_eq. Qed.

(** Sealing seals. *)
Lemma sealed_seal f d : sealed f (seal f d) = true.
Proof. unfold sealed. rewrite vget_seal_eq, unsigned_seal. simpl. apply String.eqb_refl. Qed.

(** What a seal is of: the fields other than the fingerprint itself. *)
Lemma seal_idemp f d : seal f (seal f d) = seal f d.
Proof. unfold seal at 1. rewrite unsigned_seal. reflexivity. Qed.

Lemma seal_dset f v d : seal f (dset f v d) = seal f d.
Proof. unfold seal. by rewrite unsigned_dset. Qed.

Lemma unsigned_dset_ne f k v d : k <> f -> unsigned f (dset k v d) = dset k v (unsigned f d).
Proof.
  intros Hk. unfold unsigned. induction d as [|[k' x] d IH]; simpl.
  - by apply String.eqb_neq in Hk as ->.
  - destruct (String.eqb_spec k' k) as [->|]; simpl.
    + apply String.eqb_neq in Hk as ->. simpl. by rewrite String.eqb_refl.
    + destruct (String.eqb_spec k' f) as [->|]; simpl; [done|].
      destruct (String.eqb_spec k' k); [done|]. by rewrite IH.
Qed.

(** Sealing before an update that is sealed again changes nothing. *)
Lemma seal_dset_seal f k v d : k <> f -> seal f (dset k v (seal f d)) = seal f (dset k v d).
Proof. intros Hk. unfold seal at 1 3. by rewrite !unsigned_dset_ne, unsigned_seal by done. Qed.

(** A record changed under its fingerprint is not sealed, unless the digest
    of the new content is the old fingerprint: a collision. *)
Lemma tampered_not_sealed f d e :
  sealed f d = true -> vget f e = vget f d ->
  fingerprint (VDict (unsigned f e)) <> fingerprint (VDict (unsigned f d)) ->
  sealed f e = false.
Proof.
  unfold sealed. intros Hd -> Hne. destruct (vget f d); try done. simpl in *.
  apply String.eqb_eq in Hd as ->. apply String.eqb_neq. congruence.
Qed.

Lemma dict_ok_seal f d : dict_ok d -> dict_ok (seal f d).
Proof. intros. by apply dict_ok_dset, dict_ok_dpop. Qed.

Lemma val_ok_seal f d : val_ok (VDict d) = true -> val_ok (VDict (seal f d)) = true.
Proof. intros. apply val_ok_dset; [by apply val_ok_dpop|done]. Qed.

(** *** The order of the keys does not matter *)

(** Two values are alike when they are proper and differ only in the order of
    the keys of their dicts: the relation that a write to a file and a read
    back respects. *)
Definition veq (v w : val) : Prop :=
  val_ok v = true /\ val_ok w = true /\ vsort v = vsort w.

#[export] Instance veq_sym : Symmetric veq.
Proof. intros v w (? & ? & ?). by split_and!. Qed.
#[export] Instance veq_trans : Transitive veq.
Proof. intros u v w (? & ? & ?) (? & ? & ?). split_and!; [done..|congruence]. Qed.

Lemma veq_refl v : val_ok v = true -> veq v v.
Proof. done. Qed.

Lemma veq_vsort v : val_ok v = true -> veq (vsort v) v.
Proof. intros. split_and!; [by apply val_ok_vsort|done|by apply vsort_idemp]. Qed.

#[export] Instance canonical_json_proper : Proper (veq ==> eq) canonical_json.
Proof.
  intros v w (Hv & Hw & E). unfold canonical_json.
  rewrite <- (json_vsort _ v), <- (json_vsort _ w) by done. by rewrite E.
Qed.

#[export] Instance fingerprint_proper : Proper (veq ==> eq) fingerprint.
Proof. intros v w E. unfold fingerprint. by rewrite E. Qed.

(** *** What two alike dicts share *)

Lemma veq_val_ok_l a b : veq a b -> val_ok a = true.
Proof. by intros (? & _ & _). Qed.

Lemma veq_sorted a b : veq (VDict a) (VDict b) -> sort_dict a = sort_dict b.
Proof. intros (_ & _ & E). by injection E. Qed.

Lemma veq_vget k a b : veq (VDict a) (VDict b) -> vsort (vget k a) = vsort (vget k b).
Proof.
  intros E. pose proof (veq_sorted _ _ E) as Es. destruct E as (Ha & Hb & _).
  apply val_ok_dict in Ha as [Ha _], Hb as [Hb _].
  by rewrite <- !vget_sort_dict, Es.
Qed.

(** A value without parts is the same on both sides. *)
Definition scalar (v : val) : bool :=
  match v with VList _ | VDict _ => false | _ => true end.

Lemma vsort_scalar v w : scalar v = true -> vsort w = vsort v -> w = v.
Proof. by destruct v, w. Qed.

Lemma veq_scalar k a b v :
  veq (VDict a) (VDict b) -> vget k b = v -> scalar v = true -> vget k a = v.
Proof. intros E <- Hv. apply vsort_scalar; [done|by apply veq_vget]. Qed.

Lemma veq_strs k a b l :
  veq (VDict a) (VDict b) -> vget k b = VList (map VStr l) -> vget k a = VList (map VStr l).
Proof.
  intros E Hb. apply (veq_vget k) in E. rewrite Hb in E. destruct (vget k a); try done.
  injection E as E. f_equal. revert l0 E. clear. induction l as [|s l IH]; intros [|v m] E; try done.
  simpl in E. injection E as E1 E2. rewrite (IH _ E2). by rewrite (vsort_scalar (VStr s) v).
Qed.

Lemma veq_mapping k a b x :
  veq (VDict a) (VDict b) -> vget k b = VDict x ->
  exists y, vget k a = VDict y /\ veq (VDict y) (VDict x).
Proof.
  intros E Hb. pose proof (veq_vget k _ _ E) as Ek. destruct E as (Ha & Hb' & _).
  rewrite Hb in Ek. pose proof (val_ok_get k _ Ha) as Hay. pose proof (val_ok_get k _ Hb') as Hbx.
  rewrite Hb in Hbx. destruct (vget k a) as [| | | | |y]; try done. by exists y.
Qed.

Lemma veq_keys k a b : veq (VDict a) (VDict b) -> k ∈ dkeys a <-> k ∈ dkeys b.
Proof.
  intros E%veq_sorted. unfold dkeys. by rewrite <- (keys_sort_dict a), <- (keys_sort_dict b), E.
Qed.

Lemma veq_dpop k a b : veq (VDict a) (VDict b) -> veq (VDict (dpop k a)) (VDict (dpop k b)).
Proof.
  intros E. pose proof (veq_sorted _ _ E) as Es. destruct E as (Ha & Hb & _).
  split_and!; [by apply val_ok_dpop..|].
  by rewrite <- (vsort_dpop_sort k a), <- (vsort_dpop_sort k b), Es.
Qed.

(** A sealed dict is sealed in whatever order its keys come back. *)
Lemma sealed_veq f a b : veq (VDict a) (VDict b) -> sealed f b = true -> sealed f a = true.
Proof.
  intros E Hb. unfold sealed, unsigned in *. rewrite (fingerprint_proper _ _ (veq_dpop f _ _ E)).
  destruct (vget f b) as [| | |s| |] eqn:Eb; try done. by rewrite (veq_scalar f _ _ _ E Eb).
Qed.

End sealing.

(** ** Files

    A record's file: nothing there, text that is not JSON, or the JSON of a
    value; and whether the path or its directory is a link ([_unsafe]).
    [json.loads] of what [_atomic_write_json] wrote is the value with sorted
    keys.  The write replaces the file in one step ([os.replace]). *)
Inductive content : Type :=
  | Missing
  | NotJson
  | Json (v : val).

Record file : Type := File { f_link : bool; f_dir_link : bool; f_content : content }.

Definition f_exists (f : file) : bool :=
  match f_content f with Missing => false | _ => true end.

(** [_atomic_write_json], with the two messages of the module. *)
Definition atomic_write_json (path_msg dir_msg : string) (d : list (string * val)) : M file unit :=
  f ← mget;
  if f_exists f && f_link f then mraise (ValueError path_msg)
  else if f_dir_link f then mraise (ValueError dir_msg)
  else mmodify (fun f => File false (f_dir_link f) (Json (vsort (VDict d)))).

(** The checked read of the [load_*] functions, up to validation. *)
Definition read_json (path_msg json_msg : string) : M file val :=
  f ← mget;
  if f_link f then mraise (ValueError path_msg)
  else match f_content f with
       | Json v => mret v
       | _ => mraise (ValueError json_msg)
       end.

#[export] Hint Rewrite vget_seal_ne using congruence : pydict.

Lemma val_ok_strs l : val_ok (VList (map VStr l)) = true.
Proof. by induction l. Qed.

(** The fields of a sealed state after its updates. *)
Ltac bus_get := repeat first
  [ rewrite vget_dset_eq
  | rewrite vget_dset_ne by congruence
  | rewrite vget_seal_ne by congruence ].
Ltac bus_ok := repeat first
  [ assumption | apply val_ok_seal | apply val_ok_dset | done
  | match goal with |- val_ok (VList (map VStr _)) = true => apply val_ok_strs end ].

(** A record that does not pass its validator is refused with the reasons. *)
Definition refuse_invalid (validate : val -> res (list string)) (v : val) : res unit :=
  reasons ← validate v;
  match reasons with [] => Ok tt | _ => Raise (ValueError (join ";" reasons)) end.

Lemma refuse_invalid_ok validate v : refuse_invalid validate v = Ok tt <-> validate v = Ok [].
Proof.
  unfold refuse_invalid. destruct (validate v) as [[|r l]|e]; cbn [mbind res_bind]; naive_solver.
Qed.

(** Each [save_*]: seal, validate, write, return what was sealed; each
    [load_*]: read and validate.  [validate] may raise on values it cannot
    hash. *)
Section files.
Context (sha256_hex : string -> string) (field : string) (validate : val -> res (list string)).

Definition save_sealed (path_msg dir_msg : string) (d : list (string * val)) :
    M file (list (string * val)) :=
  let value := seal sha256_hex field d in
  _ ← mlift (refuse_invalid validate (VDict value));
  _ ← atomic_write_json path_msg dir_msg value;
  mret value.

Definition load_validated (path_msg json_msg : string) : M file val :=
  v ← read_json path_msg json_msg;
  _ ← mlift (refuse_invalid validate v);
  mret v.

(** What is saved can be loaded, provided sorting keeps it valid. *)
Lemma load_after_save pm dm pm' jm d f v f' :
  save_sealed pm dm d f = (Ok v, f') ->
  v = seal sha256_hex field d /\ validate (VDict v) = Ok []
  /\ f' = File false (f_dir_link f) (Json (vsort (VDict v)))
  /\ (validate (vsort (VDict v)) = Ok [] ->
      load_validated pm' jm f' = (Ok (vsort (VDict v)), f')).
Proof.
  unfold save_sealed, load_validated, atomic_write_json, read_json.
  unfold mbind, M_bind, mlift, mget, mmodify, mraise, mret, M_ret.
  destruct (refuse_invalid validate (VDict (seal sha256_hex field d))) as [[]|e] eqn:E; [|done].
  destruct (_ && _); [done|]. destruct (f_dir_link f) eqn:Ed; cbn; [done|]. rewrite Ed.
  intros [= <- <-]. apply refuse_invalid_ok in E. split_and!; [done..|].
  intros Hv%refuse_invalid_ok. cbv [f_link f_content]. by rewrite Hv.
Qed.

End files.
