(* ===== verification/StateMachine.v ===== *)
(** * The runtime state machine

    [core/runtime/runtime_state_machine.py] (class [RuntimeStateMachine]) and
    the session contract it projects into,
    [core/runtime/contracts/runtime_session_contract.py].  A runtime state is
    the Python dict the class works on.  [_now_iso] reads the wall clock: the
    n-th reading is [now_iso n], and the operations thread the number of
    readings made so far. *)

From Stdlib Require Import Ascii.
From S2P Require Import Prelude PyVal.

(** ** The runtime session contract *)

Definition RUNTIME_SESSION_SCHEMA : string := "zero.runtime.session.v1".
Definition RUNTIME_SESSION_REQUIRED_FIELDS : list string :=
  ["session_id"; "runtime_session_id"; "status"].
Definition RUNTIME_SESSION_TERMINAL_STATUSES : list string :=
  ["finished"; "failed"; "cancelled"; "blocked"].
Definition RUNTIME_SESSION_ACTIVE_STATUSES : list string :=
  ["queued"; "running"; "retrying"; "recovering"].
Definition RUNTIME_SESSION_KNOWN_STATUSES : list string :=
  RUNTIME_SESSION_ACTIVE_STATUSES ++ RUNTIME_SESSION_TERMINAL_STATUSES.

Definition session_aliases : list (string * string) :=
  [("success", "finished"); ("complete", "finished"); ("completed", "finished");
   ("error", "failed"); ("failure", "failed"); ("in_progress", "running");
   ("pending", "queued")].

Definition normalize_runtime_session_status (value : val) : string :=
  let t := lower (text value) in
  match dget t session_aliases with Some s => s | None => t end.

Definition is_runtime_session_terminal_status (value : val) : bool :=
  bool_decide (normalize_runtime_session_status value ∈ RUNTIME_SESSION_TERMINAL_STATUSES).

Definition is_runtime_session_active_status (value : val) : bool :=
  bool_decide (normalize_runtime_session_status value ∈ RUNTIME_SESSION_ACTIVE_STATUSES).

Definition validate_runtime_session_shape (value : val) : list (string * val) :=
  match value with
  | VDict d =>
      let missing_fields :=
        filter (fun field => text (vget field d) = "") RUNTIME_SESSION_REQUIRED_FIELDS in
      match missing_fields with
      | _ :: _ =>
          [("ok", VBool false); ("schema", VStr RUNTIME_SESSION_SCHEMA);
           ("reason", VStr "runtime_session_missing_required_fields");
           ("missing_fields", VList (map VStr missing_fields))]
      | [] =>
          let status := normalize_runtime_session_status (vget "status" d) in
          if bool_decide (status ∉ RUNTIME_SESSION_KNOWN_STATUSES) then
            [("ok", VBool false); ("schema", VStr RUNTIME_SESSION_SCHEMA);
             ("reason", VStr "runtime_session_unknown_status"); ("status", VStr status)]
          else
            [("ok", VBool true); ("schema", VStr RUNTIME_SESSION_SCHEMA);
             ("reason", VStr "runtime_session_shape_valid");
             ("normalized_status", VStr status);
             ("terminal", VBool (is_runtime_session_terminal_status (VStr status)))]
      end
  | _ =>
      [("ok", VBool false); ("schema", VStr RUNTIME_SESSION_SCHEMA);
       ("reason", VStr "runtime_session_not_mapping");
       ("missing_fields", VList (map VStr RUNTIME_SESSION_REQUIRED_FIELDS))]
  end.

(** ** Statuses *)

Definition TERMINAL_STATUSES : list string := ["finished"; "failed"; "cancelled"; "timeout"].

Definition ACTIVE_STATUSES : list string :=
  ["queued"; "planning"; "ready"; "running"; "retrying"; "waiting"; "blocked";
   "replanning"; "paused"].

Definition ALL_STATUSES : list string := TERMINAL_STATUSES ++ ACTIVE_STATUSES.

Definition STATUS_ALIASES : list (string * string) :=
  [("aborted", "cancelled"); ("abort", "cancelled"); ("cancel", "cancelled");
   ("canceled", "cancelled"); ("complete", "finished"); ("completed", "finished");
   ("done", "finished"); ("ok", "finished"); ("success", "finished");
   ("succeeded", "finished"); ("verified", "finished"); ("partial_failed", "failed");
   ("recoverable_failure", "failed"); ("verification_failed", "failed");
   ("review_required", "blocked"); ("policy_blocked", "blocked");
   ("rejected", "blocked"); ("forced_repair", "replanning"); ("fallback", "replanning");
   ("recovering", "replanning"); ("timed_out", "timeout"); ("timedout", "timeout")].

Definition ALLOWED_TRANSITIONS : list (string * list string) :=
  [("queued", ["planning"; "ready"; "running"; "blocked"; "paused"; "finished";
               "cancelled"; "failed"]);
   ("planning", ["ready"; "failed"; "cancelled"; "timeout"]);
   ("ready", ["running"; "paused"; "blocked"; "waiting"; "cancelled"; "failed"; "timeout"]);
   ("running", ["ready"; "retrying"; "waiting"; "blocked"; "replanning"; "paused";
                "finished"; "failed"; "cancelled"; "timeout"]);
   ("retrying", ["running"; "waiting"; "blocked"; "replanning"; "failed"; "cancelled";
                 "timeout"; "paused"]);
   ("waiting", ["ready"; "running"; "blocked"; "replanning"; "failed"; "cancelled";
                "timeout"; "paused"]);
   ("blocked", ["ready"; "running"; "waiting"; "replanning"; "failed"; "cancelled";
                "timeout"; "paused"]);
   ("replanning", ["ready"; "running"; "failed"; "cancelled"; "timeout"; "paused"]);
   ("paused", ["queued"; "ready"; "running"; "cancelled"; "failed"]);
   ("finished", []); ("failed", []); ("cancelled", []); ("timeout", [])].

Definition _status_text (status : val) : string :=
  replace_char " " "_" (replace_char "-" "_" (lower (text status))).

Definition canonicalize_status (status : val) : string :=
  let t := _status_text status in
  if (t =? "")%string then "queued"
  else if bool_decide (t ∈ ALL_STATUSES) then t
  else match dget t STATUS_ALIASES with Some s => s | None => "queued" end.

Definition is_known_status (status : val) : bool :=
  let t := _status_text status in
  if (t =? "")%string then true
  else bool_decide (t ∈ ALL_STATUSES) || dmem t STATUS_ALIASES.

Definition normalize_status (status : val) : string := canonicalize_status status.

Definition is_terminal (status : val) : bool :=
  bool_decide (normalize_status status ∈ TERMINAL_STATUSES).

Definition is_active (status : val) : bool :=
  bool_decide (normalize_status status ∈ ACTIVE_STATUSES).

Definition is_blocked_like (status : val) : bool :=
  bool_decide (normalize_status status ∈ ["blocked"; "waiting"; "retrying"]).

Definition is_runnable (status : val) : bool :=
  bool_decide (normalize_status status ∈ ["ready"; "running"; "retrying"]).

(** [ALLOWED_TRANSITIONS.get(s, set())] *)
Definition allowed_from (s : string) : list string :=
  match dget s ALLOWED_TRANSITIONS with Some l => l | None => [] end.

Definition can_transition (old_status new_status : val) : bool :=
  let old_s := normalize_status old_status in
  let new_s := normalize_status new_status in
  if (old_s =? new_s)%string then true
  else bool_decide (new_s ∈ allowed_from old_s).

Definition explain_transition (old_status new_status : val) : string :=
  let old_s := normalize_status old_status in
  let new_s := normalize_status new_status in
  if (old_s =? new_s)%string then "status unchanged: " +:+ old_s
  else if can_transition (VStr old_s) (VStr new_s)
  then "allowed transition: " +:+ old_s +:+ " -> " +:+ new_s
  else "invalid transition: " +:+ old_s +:+ " -> " +:+ new_s.

Definition allowed_next_statuses (status : val) : list string :=
  sorted_strs (allowed_from (normalize_status status)).

Definition runtime_session_validation_summary (status : val) : list (string * val) :=
  let s := normalize_status status in
  [("schema", VStr RUNTIME_SESSION_SCHEMA); ("normalized_status", VStr s);
   ("terminal", VBool (is_runtime_session_terminal_status (VStr s)));
   ("active", VBool (is_runtime_session_active_status (VStr s)))].

Record TransitionResult : Type := {
  tr_ok : bool;
  tr_old_status : string;
  tr_new_status : string;
  tr_reason : string;
  tr_message : string
}.

(** [a or b] on strings *)
Definition str_or (a b : string) : string := if (a =? "")%string then b else a.

Definition rstate : Type := list (string * val).

(** [state.get('runtime_status_history')], or the empty list when it is not a list *)
Definition history_of (s : list (string * val)) : list val :=
  match vget "runtime_status_history" s with VList l => l | _ => [] end.

Section machine.
Context (now_iso : nat -> string).

Definition _now_iso : M nat string := fun n => (Ok (now_iso n), S n).

Definition _build_history_record (old_status new_status reason message : string) : M nat val :=
  ts ← _now_iso;
  mret (VDict [("ts", VStr ts); ("old_status", VStr old_status);
               ("new_status", VStr new_status); ("reason", VStr reason);
               ("message", VStr message)]).

Definition ensure_runtime_status_fields (runtime_state : rstate) : M nat rstate :=
  let status := normalize_status (vget "status" runtime_state) in
  let state := dset "status" (VStr status) runtime_state in
  let state := dset "runtime_session_validation"
                 (VDict (runtime_session_validation_summary (VStr status))) state in
  history ← match history_of state with
            | [] => r ← _build_history_record "" status "init"
                          "initialize runtime status history";
                    mret [r]
            | h => mret h
            end;
  let state := dset "runtime_status_history" (VList history) state in
  if truthy (vget "runtime_created_at" state) then mret state
  else now ← _now_iso; mret (dset "runtime_created_at" (VStr now) state).

Definition timestamp_key (new_status : string) : option string :=
  dget new_status
    [("planning", "planning_at"); ("ready", "ready_at"); ("running", "running_at");
     ("retrying", "retrying_at"); ("waiting", "waiting_at"); ("blocked", "blocked_at");
     ("replanning", "replanning_at"); ("paused", "paused_at");
     ("finished", "finished_at"); ("failed", "failed_at");
     ("cancelled", "cancelled_at"); ("timeout", "timeout_at")].

Definition _apply_status_timestamps (runtime_state : rstate) (old_status new_status : string)
  : M nat rstate :=
  now ← _now_iso;
  let updated := match timestamp_key new_status with
                 | Some key => dset key (VStr now) runtime_state
                 | None => runtime_state
                 end in
  mret (dset "last_status_change_at" (VStr now) updated).

Definition _append_history (runtime_state : rstate)
    (old_status new_status reason message : string) : M nat rstate :=
  r ← _build_history_record old_status new_status reason message;
  mret (dset "runtime_status_history" (VList (history_of runtime_state ++ [r])) runtime_state).

Definition transition (runtime_state : rstate) (new_status : val) (reason message : string)
    (allow_noop : bool) (extra_updates : rstate) : M nat (rstate * TransitionResult) :=
  state ← ensure_runtime_status_fields runtime_state;
  let old_status := normalize_status (vget "status" state) in
  let target_status := normalize_status new_status in
  if (old_status =? target_status)%string && allow_noop then
    mret (dupdate state extra_updates,
          {| tr_ok := true; tr_old_status := old_status; tr_new_status := target_status;
             tr_reason := str_or reason "noop";
             tr_message := str_or message ("status unchanged: " +:+ old_status) |})
  else if negb (can_transition (VStr old_status) (VStr target_status)) then
    mret (state,
          {| tr_ok := false; tr_old_status := old_status; tr_new_status := target_status;
             tr_reason := str_or reason "invalid_transition";
             tr_message := str_or message
               ("invalid transition: " +:+ old_status +:+ " -> " +:+ target_status) |})
  else
    let updated := dset "status" (VStr target_status) state in
    let updated := dupdate updated extra_updates in
    updated ← _apply_status_timestamps updated old_status target_status;
    let msg := str_or message (old_status +:+ " -> " +:+ target_status) in
    updated ← _append_history updated old_status target_status reason msg;
    mret (updated,
          {| tr_ok := true; tr_old_status := old_status; tr_new_status := target_status;
             tr_reason := reason; tr_message := msg |}).

Definition force_set (runtime_state : rstate) (new_status : val) (reason message : string)
    (extra_updates : rstate) : M nat (rstate * TransitionResult) :=
  transition runtime_state new_status reason
    (str_or message "force_set_routed_through_transition_validator") true extra_updates.

Definition mark_planning (s : rstate) (reason : string) : M nat (rstate * TransitionResult) :=
  transition s (VStr "planning") (str_or reason "planning")
    "runtime entering planning stage" true [].

Definition mark_ready (s : rstate) (reason : string) : M nat (rstate * TransitionResult) :=
  transition s (VStr "ready") (str_or reason "ready") "runtime ready to run" true [].

Definition mark_running (s : rstate) (reason : string) : M nat (rstate * TransitionResult) :=
  now ← _now_iso;
  transition s (VStr "running") (str_or reason "running") "runtime running" true
    [("last_started_at", VStr now)].

Definition mark_retrying (s : rstate) (reason : string) (next_retry_tick : option Z)
  : M nat (rstate * TransitionResult) :=
  transition s (VStr "retrying") (str_or reason "retrying") "runtime waiting for retry" true
    (match next_retry_tick with Some t => [("next_retry_tick", VInt t)] | None => [] end).

Definition mark_waiting (s : rstate) (reason : string) : M nat (rstate * TransitionResult) :=
  transition s (VStr "waiting") (str_or reason "waiting") "runtime waiting" true [].

Definition mark_blocked (s : rstate) (reason : string) : M nat (rstate * TransitionResult) :=
  transition s (VStr "blocked") (str_or reason "blocked") "runtime blocked" true [].

Definition mark_replanning (s : rstate) (reason : string) : M nat (rstate * TransitionResult) :=
  transition s (VStr "replanning") (str_or reason "replanning") "runtime replanning" true [].

Definition mark_paused (s : rstate) (reason : string) : M nat (rstate * TransitionResult) :=
  transition s (VStr "paused") (str_or reason "paused") "runtime paused" true [].

Definition mark_finished (s : rstate) (reason : string) : M nat (rstate * TransitionResult) :=
  now ← _now_iso;
  transition s (VStr "finished") (str_or reason "finished") "runtime finished" true
    [("last_finished_at", VStr now)].

Definition mark_failed (s : rstate) (reason : string) : M nat (rstate * TransitionResult) :=
  now ← _now_iso;
  transition s (VStr "failed") (str_or reason "failed") "runtime failed" true
    [("last_failed_at", VStr now)].

Definition mark_cancelled (s : rstate) (reason : string) : M nat (rstate * TransitionResult) :=
  now ← _now_iso;
  transition s (VStr "cancelled") (str_or reason "cancelled") "runtime cancelled" true
    [("last_cancelled_at", VStr now)].

Definition mark_timeout (s : rstate) (reason : string) : M nat (rstate * TransitionResult) :=
  now ← _now_iso;
  transition s (VStr "timeout") (str_or reason "timeout") "runtime timeout" true
    [("last_timeout_at", VStr now)].

Definition from_failure_policy (s : rstate) (action : val) (reason : string)
    (next_retry_tick : option Z) : M nat (rstate * TransitionResult) :=
  let clean_action := lower (text action) in
  if (clean_action =? "retry")%string then
    mark_retrying s (str_or reason "failure_policy_retry") next_retry_tick
  else if (clean_action =? "replan")%string then
    mark_replanning s (str_or reason "failure_policy_replan")
  else if (clean_action =? "wait")%string then
    mark_waiting s (str_or reason "failure_policy_wait")
  else if (clean_action =? "fail")%string then
    mark_failed s (str_or reason "failure_policy_fail")
  else
    force_set s (vget_or "status" (VStr "queued") s) "unknown_failure_policy_action"
      ("unknown failure policy action: " +:+ clean_action) [].

Definition _task_name (s : rstate) : string :=
  let fix go (keys : list string) : string :=
    match keys with
    | [] => "unknown_task"
    | key :: keys' =>
        match vget key s with
        | VStr value => if (strip value =? "")%string then go keys' else strip value
        | _ => go keys'
        end
    end in
  go ["task_name"; "task_id"; "id"; "name"; "title"].

Definition summarize (runtime_state : rstate) : M nat (list (string * val)) :=
  state ← ensure_runtime_status_fields runtime_state;
  let status := normalize_status (vget "status" state) in
  let v := VStr status in
  mret [("task_name", VStr (_task_name state)); ("status", v);
        ("is_terminal", VBool (is_terminal v)); ("is_active", VBool (is_active v));
        ("is_runnable", VBool (is_runnable v));
        ("is_blocked_like", VBool (is_blocked_like v));
        ("history_count", VInt (Z.of_nat (length (history_of state))));
        ("runtime_session_validation",
          py_or (vget "runtime_session_validation" state)
                (VDict (runtime_session_validation_summary v)))].

(** ** The public operations as a step relation *)

Inductive op : Type :=
  | OpPlanning (reason : string) | OpReady (reason : string) | OpRunning (reason : string)
  | OpRetrying (reason : string) (tick : option Z) | OpWaiting (reason : string)
  | OpBlocked (reason : string) | OpReplanning (reason : string) | OpPaused (reason : string)
  | OpFinished (reason : string) | OpFailed (reason : string) | OpCancelled (reason : string)
  | OpTimeout (reason : string)
  | OpFailurePolicy (action : val) (reason : string) (tick : option Z)
  | OpForceSet (target : val) (reason message : string) (extra : rstate)
  | OpTransition (target : val) (reason message : string) (allow_noop : bool) (extra : rstate).

Definition run_op (o : op) (s : rstate) : M nat (rstate * TransitionResult) :=
  match o with
  | OpPlanning r => mark_planning s r
  | OpReady r => mark_ready s r
  | OpRunning r => mark_running s r
  | OpRetrying r t => mark_retrying s r t
  | OpWaiting r => mark_waiting s r
  | OpBlocked r => mark_blocked s r
  | OpReplanning r => mark_replanning s r
  | OpPaused r => mark_paused s r
  | OpFinished r => mark_finished s r
  | OpFailed r => mark_failed s r
  | OpCancelled r => mark_cancelled s r
  | OpTimeout r => mark_timeout s r
  | OpFailurePolicy a r t => from_failure_policy s a r t
  | OpForceSet v r m e => force_set s v r m e
  | OpTransition v r m a e => transition s v r m a e
  end.

(** The calls of a list, one after the other, none of which raises. *)
Fixpoint runs (l : list op) (c c' : rstate * nat) : Prop :=
  match l with
  | [] => c' = c
  | o :: l' => exists s tr n, run_op o c.1 c.2 = (Ok (s, tr), n) /\ runs l' (s, n) c'
  end.

End machine.

(** What a caller puts over the state, and the statuses among it. *)
Definition extra_of (o : op) : rstate :=
  match o with OpForceSet _ _ _ e | OpTransition _ _ _ _ e => e | _ => [] end.
Definition overriding (e : rstate) : list val := (filter (fun kv => kv.1 = "status") e).*2.
Definition overrides (l : list op) : list val := concat (map (fun o => overriding (extra_of o)) l).

(** The operation leaves the list of the history to the machine. *)
Definition keeps_history (o : op) : Prop := "runtime_status_history" ∉ dkeys (extra_of o).

(** The operation records a status that stays. *)
Definition repeats (o : op) : bool := match o with OpTransition _ _ _ a _ => negb a | _ => false end.

(** ** Specification vocabulary *)

(** The canonical status of a state and a field of a history record. *)
Definition cur_status (s : rstate) : string := normalize_status (vget "status" s).
Definition rec_field (field : string) (r : val) : val :=
  match r with VDict d => vget field d | _ => VNone end.

(** Extra updates that do not touch the two fields the machine owns. *)
Definition safe_extra (e : rstate) : Prop :=
  ("status" ∉ dkeys e) /\ ("runtime_status_history" ∉ dkeys e).

(** A step that touches neither of the two fields and records moves only. *)
Definition plain (o : op) : Prop := safe_extra (extra_of o) /\ repeats o = false.
Definition rsm_step (now_iso : nat -> string) (c c' : rstate * nat) : Prop :=
  exists o tr, plain o /\ run_op now_iso o c.1 c.2 = (Ok (c'.1, tr), c'.2).

(** A history that starts with the initial record and then follows the
    transition table; [legal_history h st] also says [st] is the status it
    leaves.  Records of a status that stays are legal only if [again], and
    between two records the status can be replaced only by one of [ov]. *)
Inductive legal_history (again : bool) (ov : list val) : list val -> string -> Prop :=
  | lh_init r st :
      st ∈ ALL_STATUSES ->
      rec_field "old_status" r = VStr "" -> rec_field "new_status" r = VStr st ->
      legal_history again ov [r] st
  | lh_step h r old new :
      legal_history again ov h old ->
      old <> new -> new ∈ allowed_from old ->
      rec_field "old_status" r = VStr old -> rec_field "new_status" r = VStr new ->
      legal_history again ov (h ++ [r]) new
  | lh_repeat h r st :
      again = true -> legal_history again ov h st ->
      rec_field "old_status" r = VStr st -> rec_field "new_status" r = VStr st ->
      legal_history again ov (h ++ [r]) st
  | lh_override h old x :
      x ∈ ov -> legal_history again ov h old ->
      legal_history again ov h (normalize_status x).

Definition rsm_inv (s : rstate) : Prop :=
  exists st, vget "status" s = VStr st /\ legal_history false [] (history_of s) st.

(** What one operation did to the state. *)
Inductive outcome (s : rstate) (h0 : list val) (s' : rstate) (tr : TransitionResult) : Prop :=
  | out_same :
      vget "status" s' = VStr (cur_status s) -> history_of s' = h0 ->
      (tr_ok tr = true -> tr_new_status tr = cur_status s) ->
      outcome s h0 s' tr
  | out_moved new r :
      new <> cur_status s -> new ∈ allowed_from (cur_status s) ->
      vget "status" s' = VStr new ->
      history_of s' = h0 ++ [r] ->
      rec_field "old_status" r = VStr (cur_status s) ->
      rec_field "new_status" r = VStr new ->
      tr_ok tr = true -> tr_new_status tr = new ->
      outcome s h0 s' tr.

(** The history after normalisation: the existing one, or the initial record. *)
Definition ensured_history (s : rstate) (h : list val) : Prop :=
  match history_of s with
  | [] => exists r, h = [r] /\ rec_field "old_status" r = VStr ""
                    /\ rec_field "new_status" r = VStr (cur_status s)
  | h0 => h = h0
  end.

(** ** Lemmas on statuses *)

Lemma aliases_canonical :
  Forall (fun kv => kv.2 ∈ ALL_STATUSES) STATUS_ALIASES.
Proof. compute_decide. Qed.

Lemma allowed_canonical s t : t ∈ allowed_from s -> t ∈ ALL_STATUSES.
Proof.
  assert (H : Forall (fun kv => Forall (fun t => t ∈ ALL_STATUSES) kv.2) ALLOWED_TRANSITIONS).
  { compute_decide. }
  unfold allowed_from. destruct (dget s ALLOWED_TRANSITIONS) as [l|] eqn:E; [|set_solver].
  apply dget_Some_elem in E. rewrite Forall_forall in H. specialize (H _ E).
  rewrite Forall_forall in H. apply H.
Qed.

Lemma normalize_canonical v : normalize_status v ∈ ALL_STATUSES.
Proof.
  unfold normalize_status, canonicalize_status.
  destruct (_ =? "")%string; [compute_decide|].
  case_bool_decide as Hb; [done|].
  destruct (dget _ STATUS_ALIASES) as [t|] eqn:E; [|compute_decide].
  apply dget_Some_elem in E. pose proof aliases_canonical as H.
  rewrite Forall_forall in H. apply (H _ E).
Qed.

Lemma normalize_fixed s : s ∈ ALL_STATUSES -> normalize_status (VStr s) = s.
Proof.
  assert (H : Forall (fun s => normalize_status (VStr s) = s) ALL_STATUSES).
  { compute_decide. }
  rewrite Forall_forall in H. apply H.
Qed.

Lemma normalize_idemp v : normalize_status (VStr (normalize_status v)) = normalize_status v.
Proof. apply normalize_fixed, normalize_canonical. Qed.

Lemma cur_status_canonical s : cur_status s ∈ ALL_STATUSES.
Proof. apply normalize_canonical. Qed.

Lemma cur_status_str s st : vget "status" s = VStr st -> st ∈ ALL_STATUSES -> cur_status s = st.
Proof. unfold cur_status. intros ->. apply normalize_fixed. Qed.

Lemma can_transition_canonical a b :
  can_transition (VStr (normalize_status a)) (VStr (normalize_status b)) = can_transition a b.
Proof. unfold can_transition. by rewrite !normalize_idemp. Qed.

Lemma terminal_allowed s : s ∈ TERMINAL_STATUSES -> allowed_from s = [].
Proof.
  assert (H : Forall (fun s => allowed_from s = []) TERMINAL_STATUSES).
  { compute_decide. }
  rewrite Forall_forall in H. apply H.
Qed.

Lemma timestamp_key_safe st k :
  timestamp_key st = Some k -> k <> "status" /\ k <> "runtime_status_history".
Proof.
  unfold timestamp_key. intros E%dget_Some_elem.
  assert (H : Forall (fun kv : string * string =>
      kv.2 <> "status" /\ kv.2 <> "runtime_status_history")
    [("planning", "planning_at"); ("ready", "ready_at"); ("running", "running_at");
     ("retrying", "retrying_at"); ("waiting", "waiting_at"); ("blocked", "blocked_at");
     ("replanning", "replanning_at"); ("paused", "paused_at");
     ("finished", "finished_at"); ("failed", "failed_at");
     ("cancelled", "cancelled_at"); ("timeout", "timeout_at")]).
  { compute_decide. }
  rewrite Forall_forall in H. apply (H _ E).
Qed.

Lemma history_of_dset_eq l s : history_of (dset "runtime_status_history" (VList l) s) = l.
Proof. unfold history_of. by rewrite vget_dset_eq. Qed.

Lemma history_of_dset_ne k v s :
  k <> "runtime_status_history" -> history_of (dset k v s) = history_of s.
Proof. intros. unfold history_of. by rewrite vget_dset_ne. Qed.

#[local] Hint Rewrite history_of_dset_eq : pydict.
#[local] Hint Rewrite history_of_dset_ne using congruence : pydict.

(** ** Lemmas on the operations *)

Section machine_facts.
Context (now_iso : nat -> string).

Lemma ensure_spec s n : exists s' n',
  ensure_runtime_status_fields now_iso s n = (Ok s', n')
  /\ vget "status" s' = VStr (cur_status s) /\ ensured_history s (history_of s').
Proof.
  unfold ensure_runtime_status_fields, _build_history_record, _now_iso, ensured_history,
    cur_status. unfold_m. dict_simpl.
  destruct (history_of s) as [|r h]; unfold_m;
    (destruct (truthy _); eexists _, _; (split; [reflexivity|]); dict_simpl; eauto).
Qed.

Lemma transition_outcome s new reason message extra n :
  safe_extra extra ->
  exists s' tr n' h0,
    transition now_iso s new reason message true extra n = (Ok (s', tr), n')
    /\ ensured_history s h0 /\ outcome s h0 s' tr
    /\ tr_old_status tr = cur_status s /\ tr_new_status tr = normalize_status new
    /\ tr_ok tr = can_transition (VStr (cur_status s)) new.
Proof.
  intros [Hst Hhi]. destruct (ensure_spec s n) as (s1 & n1 & E1 & Hs1 & Hh1).
  unfold transition. unfold_m. rewrite E1, Hs1.
  rewrite normalize_fixed by apply cur_status_canonical.
  pose proof (can_transition_canonical (VStr (cur_status s)) new) as Hct.
  rewrite normalize_fixed in Hct by apply cur_status_canonical.
  destruct (String.eqb_spec (cur_status s) (normalize_status new)) as [Heq|Hne];
    cbn [andb negb].
  - eexists _, _, _, _. split; [reflexivity|]. split; [done|]. split_and!; simpl; try done.
    + apply out_same; [by rewrite vget_dupdate_not_in| |done].
      unfold history_of. by rewrite vget_dupdate_not_in.
    + unfold can_transition. rewrite normalize_fixed by apply cur_status_canonical.
      by rewrite Heq, String.eqb_refl.
  - rewrite Hct. destruct (can_transition _ new) eqn:Ec; cbn [negb];
      [|eexists _, _, _, _; (split; [reflexivity|]); split_and!; simpl; try done; by apply out_same].
    unfold _apply_status_timestamps, _append_history, _build_history_record, _now_iso. unfold_m.
    eexists _, _, _, _. split; [reflexivity|]. split; [done|]. split_and!; simpl; try done.
    assert (Hal : normalize_status new ∈ allowed_from (cur_status s)).
    { unfold can_transition in Ec. rewrite normalize_fixed in Ec by apply cur_status_canonical.
      apply String.eqb_neq in Hne. rewrite Hne in Ec. by bools. }
    apply (out_moved _ _ _ _ (normalize_status new)
             (VDict [("ts", VStr (now_iso (S n1))); ("old_status", VStr (cur_status s));
                     ("new_status", VStr (normalize_status new)); ("reason", VStr reason);
                     ("message", VStr (str_or message
                        (cur_status s +:+ " -> " +:+ normalize_status new)))])); try done.
    + dict_simpl. destruct (timestamp_key _) as [k|] eqn:Ek.
      * apply timestamp_key_safe in Ek as []. rewrite vget_dset_ne by done.
        rewrite vget_dupdate_not_in by done. by dict_simpl.
      * rewrite vget_dupdate_not_in by done. by dict_simpl.
    + dict_simpl. f_equal. destruct (timestamp_key _) as [k|] eqn:Ek.
      * apply timestamp_key_safe in Ek as []. rewrite history_of_dset_ne by done.
        unfold history_of. rewrite vget_dupdate_not_in by done. by dict_simpl.
      * unfold history_of. rewrite vget_dupdate_not_in by done. by dict_simpl.
Qed.

Lemma vget_dupdate k e : forall d : rstate,
  ((k ∉ dkeys e) /\ vget k (dupdate d e) = vget k d) \/ exists x, (k, x) ∈ e /\ vget k (dupdate d e) = x.
Proof.
  induction e as [|[k' v'] e IH]; intros d; [left; split; [set_solver|done]|].
  destruct (IH (dset k' v' d)) as [[Hk E]|(x & Hx & E)]; [|right; exists x; split; [set_solver|exact E]].
  destruct (decide (k' = k)) as [->|Hne].
  - right. exists v'. split; [set_solver|]. change (vget k (dupdate (dset k v' d) e) = v'). by rewrite E, vget_dset_eq.
  - left. split; [unfold dkeys in *; csimpl; set_solver|].
    change (vget k (dupdate (dset k' v' d) e) = vget k d). by rewrite E, vget_dset_ne.
Qed.

(** The status after the caller's updates. *)
Lemma updated_status again ov h (d e : rstate) st :
  vget "status" d = VStr st -> st ∈ ALL_STATUSES -> legal_history again ov h st -> overriding e ⊆ ov ->
  legal_history again ov h (normalize_status (vget "status" (dupdate d e)))
  /\ (overriding e = [] -> vget "status" (dupdate d e) = VStr st).
Proof.
  intros Hd Hst Hl Ho. destruct (vget_dupdate "status" e d) as [[Hk E]|(x & Hx & E)]; rewrite E.
  - rewrite Hd, normalize_fixed by done. done.
  - assert (Hin : x ∈ overriding e).
    { unfold overriding. apply list_elem_of_fmap. exists ("status", x). split; [done|]. by apply list_elem_of_filter. }
    split; [eapply lh_override; [by apply Ho|done]|]. intros Hn. rewrite Hn in Hin. by apply elem_of_nil in Hin.
Qed.

(** Any transition extends a legal history. *)
Lemma transition_legal again ov s new reason message noop extra n :
  "runtime_status_history" ∉ dkeys extra -> overriding extra ⊆ ov -> (noop = false -> again = true) ->
  (forall h, ensured_history s h -> legal_history again ov h (cur_status s)) ->
  exists s' tr n',
    transition now_iso s new reason message noop extra n = (Ok (s', tr), n')
    /\ legal_history again ov (history_of s') (cur_status s')
    /\ (overriding extra = [] -> vget "status" s' = VStr (cur_status s')).
Proof.
  intros Hh Ho Ha Hl. destruct (ensure_spec s n) as (s1 & n1 & E1 & Hs1 & Hh1). specialize (Hl _ Hh1).
  assert (D : forall d st, vget "status" d = VStr st -> st ∈ ALL_STATUSES -> VStr st = VStr (cur_status d)).
  { intros d st Hd Hst. f_equal. symmetry. by apply cur_status_str. }
  unfold transition. unfold_m. rewrite E1, Hs1. rewrite normalize_fixed by apply cur_status_canonical.
  destruct ((cur_status s =? normalize_status new)%string && noop) eqn:En.
  { eexists _, _, _. split; [reflexivity|]. replace (history_of (dupdate s1 extra)) with (history_of s1)
      by (unfold history_of; by rewrite vget_dupdate_not_in).
    destruct (updated_status again ov (history_of s1) s1 extra _ Hs1 (cur_status_canonical s) Hl Ho) as [H1 H2].
    split; [exact H1|]. intros Hn. unfold cur_status. rewrite (H2 Hn). by rewrite normalize_fixed by apply cur_status_canonical. }
  pose proof (can_transition_canonical (VStr (cur_status s)) new) as Hct.
  rewrite normalize_fixed in Hct by apply cur_status_canonical. rewrite Hct.
  destruct (can_transition (VStr (cur_status s)) new) eqn:Ec; cbn [negb].
  2: { eexists _, _, _. split; [reflexivity|]. rewrite (cur_status_str _ _ Hs1) by apply cur_status_canonical. done. }
  unfold _apply_status_timestamps, _append_history, _build_history_record, _now_iso. unfold_m.
  eexists _, _, _. split; [reflexivity|].
  set (target := normalize_status new). set (r := VDict [("ts", _); _; _; _; _]).
  set (u := dupdate (dset "status" (VStr target) s1) extra).
  assert (Hr : legal_history again ov (history_of s1 ++ [r]) target).
  { destruct (String.eqb_spec (cur_status s) target) as [Eq|Ne].
    - rewrite Eq in En. unfold target in En. rewrite String.eqb_refl in En. cbn [andb] in En. specialize (Ha En). rewrite <- Eq.
      apply lh_repeat; [done|exact Hl|reflexivity|rewrite Eq; reflexivity].
    - eapply lh_step; [exact Hl|done| |done|done]. unfold can_transition in Ec.
      rewrite normalize_fixed in Ec by apply cur_status_canonical. fold target in Ec.
      apply String.eqb_neq in Ne. rewrite Ne in Ec. by bools. }
  destruct (updated_status again ov _ (dset "status" (VStr target) s1) extra target (vget_dset_eq _ _ _)
    (normalize_canonical new) Hr Ho) as [H1 H2]. fold u in H1, H2.
  assert (Eh : history_of u = history_of s1).
  { unfold history_of, u. rewrite vget_dupdate_not_in by done. by rewrite vget_dset_ne. }
  match goal with |- context [history_of (dset "last_status_change_at" ?v ?w)] =>
    assert (K : vget "status" w = vget "status" u /\ history_of w = history_of u) end.
  { destruct (timestamp_key target) as [k|] eqn:Ek; [|done]. apply timestamp_key_safe in Ek as [].
    by rewrite vget_dset_ne, history_of_dset_ne by done. }
  destruct K as [K1 K2]. unfold cur_status. rewrite history_of_dset_eq, history_of_dset_ne by done.
  rewrite !(vget_dset_ne _ "status") by done. rewrite K1, K2, Eh. split; [exact H1|].
  intros Hn. rewrite (H2 Hn). by rewrite normalize_fixed by apply normalize_canonical.
Qed.

(** Every operation is a transition. *)
Lemma run_op_transition o s n : exists new reason message extra n',
  run_op now_iso o s n = transition now_iso s new reason message (negb (repeats o)) extra n'
  /\ (extra = extra_of o \/ extra_of o = [] /\ exists k v, extra = [(k, v)] /\ k <> "status" /\ k <> "runtime_status_history").
Proof.
  assert (S : forall k v, k <> "status" -> k <> "runtime_status_history" -> forall o, extra_of o = [] ->
    [(k, v)] = extra_of o \/ extra_of o = [] /\ exists k' v', [(k, v)] = [(k', v')] /\ k' <> "status" /\ k' <> "runtime_status_history").
  { intros k v ? ? o' E. right. split; [exact E|]. by exists k, v. }
  destruct o; cbn [run_op repeats negb]; unfold mark_planning, mark_ready, mark_running, mark_retrying, mark_waiting,
    mark_blocked, mark_replanning, mark_paused, mark_finished, mark_failed, mark_cancelled, mark_timeout,
    from_failure_policy, force_set, _now_iso; unfold_m;
    try (do 5 eexists; split; [reflexivity|first [by left | by apply S]]).
  - do 5 eexists; split; [reflexivity|]. destruct tick; [by apply S|by left].
  - unfold mark_retrying, mark_replanning, mark_waiting, mark_failed, force_set, _now_iso. unfold_m.
    destruct (_ =? "retry")%string; [do 5 eexists; split; [reflexivity|destruct tick; [by apply S|by left]]|].
    destruct (_ =? "replan")%string; [do 5 eexists; split; [reflexivity|by left]|].
    destruct (_ =? "wait")%string; [do 5 eexists; split; [reflexivity|by left]|].
    destruct (_ =? "fail")%string; do 5 eexists; (split; [reflexivity|]); [by apply S|by left].
  - rewrite negb_involutive. do 5 eexists; split; [reflexivity|by left].
Qed.

Lemma run_op_outcome o s n : plain o -> exists s' tr n' h0,
  run_op now_iso o s n = (Ok (s', tr), n') /\ ensured_history s h0 /\ outcome s h0 s' tr.
Proof.
  intros [Hs Hr]. destruct (run_op_transition o s n) as (new & reason & message & extra & n1 & E & He).
  rewrite E, Hr. assert (Hx : safe_extra extra).
  { destruct He as [->|(_ & k & v & -> & ? & ?)]; [done|]. unfold safe_extra, dkeys. csimpl. set_solver. }
  destruct (transition_outcome s new reason message extra n1 Hx) as (s' & tr & n' & h0 & ? & ? & ? & _). eauto 10.
Qed.

Lemma legal_history_canonical again ov h st : legal_history again ov h st -> st ∈ ALL_STATUSES.
Proof. induction 1; [done| |done|apply normalize_canonical]. by eapply allowed_canonical. Qed.

Lemma legal_history_nonempty again ov h st : legal_history again ov h st -> h <> [].
Proof. induction 1; [done| | |done]; by destruct h. Qed.

Lemma outcome_inv s h0 s' tr :
  legal_history false [] h0 (cur_status s) -> outcome s h0 s' tr -> rsm_inv s'.
Proof.
  intros Hl [Hs Hh _ | new r Hne Hal Hs Hh Ho Hn _ _].
  - exists (cur_status s). by rewrite Hh.
  - exists new. split; [done|]. rewrite Hh. eapply lh_step; eauto.
Qed.

Lemma ensured_history_legal s h0 :
  ensured_history s h0 -> rsm_inv s \/ history_of s = [] -> legal_history false [] h0 (cur_status s).
Proof.
  unfold ensured_history. intros He [(st & Hs & Hl)|Hnil].
  - rewrite (cur_status_str _ _ Hs) by (by eapply legal_history_canonical).
    pose proof (legal_history_nonempty _ _ _ _ Hl) as Hne.
    destruct (history_of s) as [|r h]; [done|]. by subst.
  - rewrite Hnil in He. destruct He as (r & -> & Ho & Hn).
    apply lh_init; auto using cur_status_canonical.
Qed.

Lemma rsm_step_inv c c' :
  rsm_inv c.1 \/ history_of c.1 = [] -> rsm_step now_iso c c' -> rsm_inv c'.1.
Proof.
  intros Hi (o & tr & Hpl & Hrun).
  destruct (run_op_outcome o c.1 c.2 Hpl) as (s' & tr' & n' & h0 & Hrun' & He & Ho).
  rewrite Hrun in Hrun'. simplify_eq.
  eapply outcome_inv; [|done]. by apply ensured_history_legal.
Qed.

(** Any calls keep a history legal. *)
Lemma runs_legal again ov l : forall c,
  legal_history again ov (history_of c.1) (cur_status c.1) -> Forall keeps_history l ->
  (existsb repeats l = true -> again = true) -> overrides l ⊆ ov ->
  exists c', runs now_iso l c c' /\ legal_history again ov (history_of c'.1) (cur_status c'.1)
    /\ (overrides l = [] -> vget "status" c.1 = VStr (cur_status c.1) -> vget "status" c'.1 = VStr (cur_status c'.1)).
Proof.
  induction l as [|o l IH]; intros c H Hk Ha Ho; [by exists c|]. apply Forall_cons in Hk as [Hk Hkl].
  destruct (run_op_transition o c.1 c.2) as (new & reason & message & extra & n1 & E & He).
  assert (Hx : ("runtime_status_history" ∉ dkeys extra) /\ overriding extra = overriding (extra_of o)).
  { destruct He as [->|(-> & k & v & -> & ? & ?)]; [done|]. split; [unfold dkeys; csimpl; set_solver|].
    change ((filter (fun kv : string * val => kv.1 = "status") [(k, v)]).*2 = []). by rewrite filter_cons_False. }
  destruct Hx as [Hx1 Hx2]. cbn [existsb overrides map concat] in *. change (concat (map _ l)) with (overrides l) in *.
  destruct (transition_legal again ov c.1 new reason message (negb (repeats o)) extra n1 Hx1) as (s' & tr & n' & Et & Hl & Hs).
  - rewrite Hx2. set_solver.
  - intros Hr. apply Ha. apply negb_false_iff in Hr. by rewrite Hr.
  - intros h Hh. unfold ensured_history in Hh. pose proof (legal_history_nonempty _ _ _ _ H) as Hne.
    destruct (history_of c.1) as [|r0 h0]; [done|]. by rewrite Hh.
  - destruct (IH (s', n') Hl Hkl) as (c' & R & Hl' & Hs').
    + intros Hr. apply Ha. rewrite Hr. apply orb_true_r.
    + set_solver.
    + exists c'. split; [exists s', tr, n'; split; [etransitivity; [exact E|exact Et]|exact R]|]. split; [exact Hl'|].
      intros [Hn1 Hn2]%app_eq_nil _. apply Hs'; [exact Hn2|]. apply Hs. by rewrite Hx2.
Qed.

Lemma rsm_step_terminal c c' :
  rsm_inv c.1 -> is_terminal (vget "status" c.1) = true -> rsm_step now_iso c c' ->
  vget "status" c'.1 = vget "status" c.1 /\ history_of c'.1 = history_of c.1.
Proof.
  intros (st & Hs & Hl) Ht (o & tr & Hpl & Hrun).
  destruct (run_op_outcome o c.1 c.2 Hpl) as (s' & tr' & n' & h0 & Hrun' & He & Ho).
  rewrite Hrun in Hrun'. simplify_eq.
  pose proof (cur_status_str _ _ Hs (legal_history_canonical _ _ _ _ Hl)) as Hc.
  assert (h0 = history_of c.1) as ->.
  { unfold ensured_history in He. pose proof (legal_history_nonempty _ _ _ _ Hl).
    by destruct (history_of c.1). }
  destruct Ho as [Hs' Hh _ | new r _ Hal _ _ _ _ _ _]; [by rewrite Hs', Hh, Hc|].
  exfalso. unfold is_terminal in Ht. bools. unfold cur_status in Hal.
  rewrite terminal_allowed in Hal by done. by apply elem_of_nil in Hal.
Qed.

End machine_facts.

(** ** Properties *)

Section machine_properties.
Context (now_iso : nat -> string).


(** A terminal status is absorbing: once a state with a legal history is
    terminal, no sequence of public operations changes its status or its
    history. *)
Theorem terminal_absorbing c c' :
  rsm_inv c.1 -> is_terminal (vget "status" c.1) = true ->
  rtc (rsm_step now_iso) c c' ->
  vget "status" c'.1 = vget "status" c.1 /\ history_of c'.1 = history_of c.1.
Proof.
  intros Hi Ht Hr. revert Hi Ht. induction Hr as [|c1 c2 c3 Hstep Hr IH]; [done|].
  intros Hi Ht. destruct (rsm_step_terminal _ _ _ Hi Ht Hstep) as [E1 E2].
  destruct IH as [E3 E4]; [by eapply rsm_step_inv; [left|]|by rewrite E1|].
  by rewrite E3, E4, E1, E2.
Qed.

(** [transition] never raises; it reports [ok] exactly when the table allows
    the normalised transition; then the status becomes the normalised target
    and otherwise it stays the (normalised) old status. *)
Theorem transition_correct s new reason message extra n :
  safe_extra extra ->
  exists s' tr n',
    transition now_iso s new reason message true extra n = (Ok (s', tr), n')
    /\ tr_ok tr = can_transition (vget "status" s) new
    /\ vget "status" s' =
         VStr (if tr_ok tr then normalize_status new else normalize_status (vget "status" s)).
Proof.
  intros He. destruct (transition_outcome now_iso s new reason message extra n He)
    as (s' & tr & n' & h0 & Hrun & _ & Ho & Hold & Hnew & Hok).
  exists s', tr, n'. split; [done|].
  assert (Hc : tr_ok tr = can_transition (vget "status" s) new).
  { rewrite Hok. unfold can_transition, cur_status. by rewrite normalize_idemp. }
  split; [done|]. destruct Ho as [Hs _ Hm | m r _ _ Hs _ _ _ Hk Hm]; rewrite Hs.
  - destruct (tr_ok tr); [|done]. by rewrite <- Hnew, Hm.
  - rewrite Hk. congruence.
Qed.

(** [canonicalize_status] maps every value to a known status, is the
    identity on known statuses, and each status is either terminal or active,
    never both. *)
Theorem status_classification v :
  normalize_status v ∈ ALL_STATUSES
  /\ normalize_status (VStr (normalize_status v)) = normalize_status v
  /\ is_active v = negb (is_terminal v).
Proof.
  split_and!; [apply normalize_canonical|apply normalize_idemp|].
  unfold is_active, is_terminal.
  assert (H : Forall (fun s => bool_decide (s ∈ ACTIVE_STATUSES)
                               = negb (bool_decide (s ∈ TERMINAL_STATUSES))) ALL_STATUSES)
    by compute_decide.
  rewrite Forall_forall in H. apply H, normalize_canonical.
Qed.

(** No active status is stuck: from every active status some chain of allowed
    transitions leads to ["finished"], while a terminal status allows none. *)
Theorem active_can_finish s :
  if is_terminal (VStr s) then allowed_next_statuses (VStr s) = []
  else rtc (fun a b => can_transition (VStr a) (VStr b) = true) s "finished".
Proof.
  destruct (is_terminal (VStr s)) eqn:Et.
  - unfold is_terminal in Et. bools. unfold allowed_next_statuses.
    by rewrite terminal_allowed.
  - assert (H : Forall (fun s => ("planning" <> s /\ "running" ∈ allowed_from s)
                                 \/ s = "planning" \/ s = "running") ACTIVE_STATUSES)
      by compute_decide.
    destruct (status_classification (VStr s)) as (_ & _ & Ha). rewrite Et in Ha.
    unfold is_active in Ha. simpl in Ha. bools. rewrite Forall_forall in H. specialize (H _ Ha).
    assert (R : forall b, normalize_status (VStr b) = b ->
              b ∈ allowed_from (normalize_status (VStr s)) ->
              can_transition (VStr s) (VStr b) = true).
    { intros b Hb Hin. unfold can_transition. rewrite Hb. case_match; [done|].
      by apply bool_decide_eq_true. }
    destruct H as [[_ H]|[H|H]].
    + eapply rtc_l; [apply (R "running"); [done|done]|]. by apply rtc_once.
    + eapply rtc_l; [apply (R "ready"); [done|rewrite H; compute_decide]|].
      eapply (rtc_l _ _ "running"); [done|]. by apply rtc_once.
    + apply rtc_once, R; [done|]. rewrite H. compute_decide.
Qed.

(** [transition] does not protect the fields it owns: an [extra_updates] dict
    that contains ["status"] decides the final status of an accepted
    transition, whatever the table says about it. *)
Theorem extra_updates_override_status s new x n :
  can_transition (vget "status" s) new = true ->
  exists s' tr n',
    transition now_iso s new "" "" true [("status", x)] n = (Ok (s', tr), n')
    /\ tr_ok tr = true /\ vget "status" s' = x.
Proof.
  intros Hct. destruct (ensure_spec now_iso s n) as (s1 & n1 & E1 & Hs1 & _).
  unfold transition. unfold_m. rewrite E1, Hs1.
  rewrite normalize_fixed by apply cur_status_canonical.
  destruct (_ =? _)%string; cbn [andb negb].
  - eexists _, _, _. split; [reflexivity|]. split; [done|]. apply vget_dset_eq.
  - rewrite <- (can_transition_canonical (vget "status" s) new) in Hct.
    fold (cur_status s) in Hct. rewrite Hct. cbn [negb].
    unfold _apply_status_timestamps, _append_history, _build_history_record, _now_iso.
    unfold_m. eexists _, _, _. split; [reflexivity|]. split; [done|].
    rewrite vget_dset_ne by done. rewrite vget_dset_ne by done.
    destruct (timestamp_key _) as [k|] eqn:Ek; [|apply vget_dset_eq].
    apply timestamp_key_safe in Ek as []. rewrite vget_dset_ne by done. apply vget_dset_eq.
Qed.

(** The ["runtime_session_validation"] summary of a returned state describes
    the status before the transition, not the status the state now has. *)
Theorem validation_summary_is_stale s new reason message n :
  exists s' tr n',
    transition now_iso s new reason message true [] n = (Ok (s', tr), n')
    /\ vget "runtime_session_validation" s' =
         VDict (runtime_session_validation_summary
                  (VStr (normalize_status (vget "status" s)))).
Proof.
  assert (Hv : forall n, exists s' n', ensure_runtime_status_fields now_iso s n = (Ok s', n')
    /\ vget "status" s' = VStr (cur_status s)
    /\ vget "runtime_session_validation" s' =
         VDict (runtime_session_validation_summary (VStr (cur_status s)))).
  { intros m. unfold ensure_runtime_status_fields, _build_history_record, _now_iso, cur_status.
    unfold_m. destruct (history_of _); unfold_m;
    (destruct (truthy _); eexists _, _; (split; [reflexivity|]); by dict_simpl). }
  destruct (Hv n) as (s1 & n1 & E1 & Hs1 & Hv1).
  unfold transition. unfold_m. rewrite E1, Hs1.
  rewrite normalize_fixed by apply cur_status_canonical.
  destruct (_ =? _)%string; cbn [andb negb]; [eauto 10|].
  destruct (negb _); [eauto 10|].
  unfold _apply_status_timestamps, _append_history, _build_history_record, _now_iso.
  unfold_m. eexists _, _, _. split; [reflexivity|].
  unfold dupdate. cbn [fold_left].
  rewrite vget_dset_ne by done. rewrite vget_dset_ne by done.
  destruct (timestamp_key _) as [k|] eqn:Ek; [|by rewrite vget_dset_ne by done].
  rewrite vget_dset_ne; [by rewrite vget_dset_ne by done|].
  intros ->. by apply dget_Some_elem, list_elem_of_In in Ek;
    repeat destruct Ek as [Ek|Ek].
Qed.

End machine_properties.

(** ** Witnesses *)

Definition demo_clock (n : nat) : string := "2026-01-01T00:00:00".
Definition demo_state : rstate := [("task_id", VStr "t1"); ("status", VStr "Queued ")].

(** Run a list of operations in sequence. *)
Fixpoint run_ops (now_iso : nat -> string) (l : list op) (c : rstate * nat) : rstate * nat :=
  match l with
  | [] => c
  | o :: l' =>
      match run_op now_iso o c.1 c.2 with
      | (Ok (s', _), n') => run_ops now_iso l' (s', n')
      | (Raise _, _) => c
      end
  end.

Lemma run_ops_rtc now_iso l c : Forall plain l -> rtc (rsm_step now_iso) c (run_ops now_iso l c).
Proof.
  intros Hl. revert c. induction l as [|o l IH]; intros c; simpl; [done|].
  apply Forall_cons in Hl as [Ho Hl]. destruct (run_op now_iso o c.1 c.2) as [[[s' tr]|e] n'] eqn:E; [|done].
  eapply rtc_l; [|apply IH, Hl]. by exists o, tr.
Qed.

Definition demo_ensured : rstate * nat :=
  match ensure_runtime_status_fields demo_clock demo_state 0 with
  | (Ok s, n) => (s, n)
  | (Raise _, n) => ([], n)
  end.

(** The last call is refused by the table; the one before it records a status
    that stays; the second one carries a status of its own. *)
Definition demo_ops : list op :=
  [OpReady ""; OpTransition (VStr "running") "go" "" true [("status", VStr "Paused")]; OpReady "";
   OpForceSet (VStr "running") "" "" [("note", VStr "x")]; OpTransition (VStr "running") "" "" false [];
   OpFinished ""; OpRunning "too late"].


Definition demo_failed : rstate :=
  [("status", VStr "failed");
   ("runtime_status_history",
     VList [VDict [("old_status", VStr ""); ("new_status", VStr "failed")]])].

Lemma terminal_absorbing_witness :
  is_terminal (vget "status" demo_failed) = true
  /\ let c' := run_ops demo_clock
                 [OpRunning ""; OpFailurePolicy (VStr "Retry") "" (Some 5%Z)]
                 (demo_failed, 0) in
     vget "status" c'.1 = VStr "failed" /\ history_of c'.1 = history_of demo_failed.
Proof.
  split; [reflexivity|].
  apply (terminal_absorbing demo_clock (demo_failed, 0)).
  - exists "failed". split; [reflexivity|].
    apply lh_init; [compute_decide|reflexivity|reflexivity].
  - reflexivity.
  - apply run_ops_rtc. repeat (apply Forall_cons; split; [split; [split; compute_decide|reflexivity]|]). constructor.
Defined.

Lemma transition_correct_witness :
  safe_extra [("note", VStr "x")]
  /\ exists s' tr n',
    transition demo_clock demo_state (VStr "done") "" "" true [("note", VStr "x")] 7
      = (Ok (s', tr), n')
    /\ tr_ok tr = can_transition (vget "status" demo_state) (VStr "done")
    /\ vget "status" s' =
         VStr (if tr_ok tr then normalize_status (VStr "done")
               else normalize_status (vget "status" demo_state)).
Proof.
  assert (H : safe_extra [("note", VStr "x")]) by (split; compute_decide).
  split; [exact H|].
  exact (transition_correct demo_clock demo_state (VStr "done") "" "" [("note", VStr "x")] 7 H).
Defined.

Lemma extra_updates_override_status_witness :
  exists s' tr n',
    transition demo_clock demo_state (VStr "running") "" "" true [("status", VStr "exploded")] 0
      = (Ok (s', tr), n')
    /\ tr_ok tr = true /\ vget "status" s' = VStr "exploded".
Proof.
  apply (extra_updates_override_status demo_clock demo_state (VStr "running")
           (VStr "exploded") 0). reflexivity.
Defined.
