(* ===== verification/TaskState.v ===== *)
(** * Task states

    [core/tasks/task_state.py]: the status vocabulary of tasks, the transition
    table [VALID_TRANSITIONS], the pure dict transition [transition_task] and
    the two status policies (dependencies and runner results). *)

From Stdlib Require Import Ascii.
From S2P Require Import Prelude PyVal StateMachine.

Module TaskState.

Definition all_status : list string :=
  ["created"; "queued"; "ready"; "running"; "retrying"; "blocked"; "waiting"; "paused";
   "finished"; "completed"; "failed"; "cancelled"; "canceled"; "timeout"].

Definition READY_LIKE_STATES : list string := ["queued"; "ready"; "retrying"].
Definition BLOCKED_LIKE_STATES : list string := ["blocked"; "waiting"].
Definition RUNNABLE_STATES : list string := ["queued"; "ready"; "running"; "retrying"].

Definition VALID_TRANSITIONS : list (string * list string) :=
  [("created", ["queued"; "ready"; "blocked"; "waiting"; "cancelled"; "canceled"; "failed"]);
   ("queued", ["ready"; "running"; "blocked"; "waiting"; "retrying"; "paused"; "cancelled";
               "canceled"; "failed"; "timeout"]);
   ("ready", ["running"; "blocked"; "waiting"; "retrying"; "paused"; "cancelled";
              "canceled"; "failed"; "timeout"]);
   ("running", ["queued"; "ready"; "retrying"; "blocked"; "waiting"; "paused"; "finished";
                "completed"; "failed"; "cancelled"; "canceled"; "timeout"]);
   ("retrying", ["queued"; "ready"; "running"; "blocked"; "waiting"; "paused"; "failed";
                 "cancelled"; "canceled"; "timeout"]);
   ("blocked", ["queued"; "ready"; "waiting"; "cancelled"; "canceled"; "failed"; "timeout"]);
   ("waiting", ["queued"; "ready"; "blocked"; "cancelled"; "canceled"; "failed"; "timeout"]);
   ("paused", ["queued"; "ready"; "blocked"; "waiting"; "cancelled"; "canceled"; "failed"]);
   ("finished", []); ("completed", []); ("failed", []); ("cancelled", []);
   ("canceled", []); ("timeout", [])].

Definition normalize_status (status : val) (dflt : string) : string :=
  let t := lower (text status) in
  if (t =? "")%string then dflt
  else if (t =? "completed")%string then "finished"
  else if (t =? "canceled")%string then "cancelled"
  else if bool_decide (t ∈ all_status) then t
  else dflt.

(** [normalize_status(status)] with its default argument. *)
Definition norm (status : val) : string := normalize_status status "queued".

Definition validate_status (status : val) : bool :=
  bool_decide (normalize_status status "" ∈ all_status).

Definition is_terminal (status : val) : bool :=
  bool_decide (norm status ∈ ["finished"; "failed"; "cancelled"; "timeout"]).
Definition is_ready_like (status : val) : bool := bool_decide (norm status ∈ READY_LIKE_STATES).
Definition is_blocked_like (status : val) : bool :=
  bool_decide (norm status ∈ BLOCKED_LIKE_STATES).
Definition is_runnable (status : val) : bool := bool_decide (norm status ∈ RUNNABLE_STATES).

Definition valid_from (s : string) : list string :=
  match dget s VALID_TRANSITIONS with Some l => l | None => [] end.

Definition can_transition (from_status to_status : val) : bool :=
  let src := norm from_status in
  let dst := norm to_status in
  if (src =? "")%string || (dst =? "")%string then false
  else if (src =? dst)%string then true
  else bool_decide (dst ∈ valid_from src).

Definition require_transition (from_status to_status : val) : res unit :=
  if can_transition from_status to_status then Ok tt
  else Raise (ValueError ("invalid task state transition: " +:+ norm from_status
                          +:+ " -> " +:+ norm to_status)).

(** [history.split('->')], each part stripped, the empty ones dropped. *)
Fixpoint split_arrow (cur s : string) : list string :=
  match s with
  | EmptyString => [cur]
  | String c s' =>
      match s' with
      | String c' s'' =>
          if Ascii.eqb c "-"%char && Ascii.eqb c' ">"%char
          then cur :: split_arrow EmptyString s''
          else split_arrow (cur +:+ String c EmptyString) s'
      | EmptyString => split_arrow (cur +:+ String c EmptyString) s'
      end
  end.

Definition history_entries (history : val) : list val :=
  match history with
  | VStr s => map VStr (filter (fun p => p <> "") (map strip (split_arrow EmptyString s)))
  | VList l => l
  | _ => []
  end.

Definition _append_history (task : list (string * val)) (status : string)
    (note : string) (dedupe : bool) : list (string * val) :=
  let history := history_entries (vget_or "history" (VList []) task) in
  let label := if (note =? "")%string then status else status +:+ " (" +:+ note +:+ ")" in
  let repeated := match last history with
                  | Some l => py_eq l (VStr label)
                  | None => false
                  end in
  if dedupe && repeated then dset "history" (VList history) task
  else dset "history" (VList (history ++ [VStr label])) task.

(** [note] is [""] for [None]: both are falsy in the only test made of it. *)
Definition transition_task (task : val) (to_status : val) (append_history : bool)
    (note : string) (allow_same : bool) : res (list (string * val)) :=
  match task with
  | VDict task =>
      let src := norm (vget "status" task) in
      let dst := norm to_status in
      if (src =? dst)%string && allow_same then
        let updated := dset "status" (VStr dst) task in
        Ok (if append_history then _append_history updated dst note true else updated)
      else
        _ ← require_transition (VStr src) (VStr dst);
        let updated := dset "status" (VStr dst) task in
        Ok (if append_history then _append_history updated dst note false else updated)
  | _ => Raise (TypeError "task must be dict")
  end.

Definition transition_result (task : list (string * val)) (to_status : val)
    (append_history : bool) (note : string) (allow_same : bool) : res (list (string * val)) :=
  let old_status := norm (vget "status" task) in
  updated ← transition_task (VDict task) to_status append_history note allow_same;
  let new_status := norm (vget "status" updated) in
  Ok [("ok", VBool true); ("old_status", VStr old_status); ("new_status", VStr new_status);
      ("task", VDict updated)].

Definition next_status_for_dependency (current_status : val) (dependencies_ready : bool)
  : string :=
  let current := norm current_status in
  if is_terminal (VStr current) then current
  else if dependencies_ready then
    if bool_decide (current ∈ ["blocked"; "waiting"; "queued"; "ready"]) then "ready"
    else current
  else if bool_decide (current ∈ ["queued"; "ready"; "blocked"; "waiting"]) then "blocked"
  else current.

Definition next_status_for_runner_result (current_status runner_result : val) : string :=
  let current := norm current_status in
  match runner_result with
  | VDict r =>
      let explicit_status := vget "status" r in
      let action := lower (text (vget_or "action" (VStr "") r)) in
      let ok := truthy (vget_or "ok" (VBool false) r) in
      if truthy explicit_status then norm explicit_status
      else if bool_decide (action ∈ ["task_finished"; "finished"]) then "finished"
      else if bool_decide (action ∈ ["task_timeout"]) then "timeout"
      else if bool_decide (action ∈ ["task_cancelled"]) then "cancelled"
      else if bool_decide (action ∈ ["task_blocked"]) then "blocked"
      else if bool_decide (action ∈ ["step_failed"; "exception_failed"]) then "failed"
      else if bool_decide (action ∈ ["step_completed"]) then "queued"
      else if ok then current
      else "failed"
  | _ => "failed"
  end.

(** ** Lemmas *)

Definition canonical : list string :=
  ["created"; "queued"; "ready"; "running"; "retrying"; "blocked"; "waiting"; "paused";
   "finished"; "failed"; "cancelled"; "timeout"].

Lemma norm_canonical v : norm v ∈ canonical.
Proof.
  unfold norm, normalize_status.
  destruct (_ =? "")%string; [compute_decide|].
  destruct (_ =? "completed")%string eqn:E1; [compute_decide|].
  destruct (_ =? "canceled")%string eqn:E2; [compute_decide|].
  case_bool_decide as Hb; [|compute_decide]. bools.
  unfold all_status, canonical in *. set_solver.
Qed.

Lemma norm_fixed s : s ∈ canonical -> norm (VStr s) = s.
Proof.
  assert (H : Forall (fun s => norm (VStr s) = s) canonical) by compute_decide.
  rewrite Forall_forall in H. apply H.
Qed.

Lemma norm_idemp v : norm (VStr (norm v)) = norm v.
Proof. apply norm_fixed, norm_canonical. Qed.

(** A property decided on every canonical status holds of every normalised value. *)

Lemma canonical_forall (P : string -> bool) v : forallb P canonical = true -> P (norm v) = true.
Proof.
  intros H. rewrite forallb_forall in H. apply H, list_elem_of_In, norm_canonical.
Qed.

Lemma vget_status_append task status note dedupe :
  vget "status" (_append_history task status note dedupe) = vget "status" task.
Proof. unfold _append_history. destruct (dedupe && _); by dict_simpl. Qed.

Lemma last_history_append task status note :
  exists l, vget "history" (_append_history task status note true) = VList l
            /\ last l = Some (VStr (if (note =? "")%string then status
                                    else status +:+ " (" +:+ note +:+ ")")).
Proof.
  unfold _append_history. set (label := if (note =? "")%string then _ else _).
  destruct (last (history_entries _)) as [l|] eqn:El; cbn [andb].
  - destruct (py_eq l (VStr label)) eqn:Ee; dict_simpl; eexists; (split; [done|]).
    + rewrite El. destruct l; simpl in Ee; try done. bools. by subst.
    + apply last_snoc.
  - dict_simpl. eexists; split; [done|]. apply last_snoc.
Qed.

Lemma append_history_again task status note l :
  vget "history" task = VList l ->
  last l = Some (VStr (if (note =? "")%string then status
                       else status +:+ " (" +:+ note +:+ ")")) ->
  _append_history task status note true = task.
Proof.
  unfold vget, _append_history, vget_or. destruct (dget "history" task) as [h|] eqn:Eh; [|done].
  intros -> Hl. cbn [history_entries]. rewrite Hl. cbn [andb py_eq].
  rewrite String.eqb_refl. by apply dset_id.
Qed.

(** The dependency policy's laws on one canonical status, as a test. *)
Definition dependency_check (b : bool) (s : string) : bool :=
  let next := next_status_for_dependency (VStr s) b in
  can_transition (VStr s) (VStr next)
  && implb (is_terminal (VStr s)) (next =? s)%string
  && implb (negb b) (negb (next =? "ready")%string && negb (next =? "queued")%string)
  && (next_status_for_dependency (VStr next) b =? next)%string.

Lemma dependency_check_all b v : dependency_check b (norm v) = true.
Proof. apply canonical_forall. destruct b; vm_compute; reflexivity. Qed.

Lemma dependency_check_spec b s :
  dependency_check b s = true ->
  can_transition (VStr s) (VStr (next_status_for_dependency (VStr s) b)) = true
  /\ (is_terminal (VStr s) = true -> next_status_for_dependency (VStr s) b = s)
  /\ (b = false -> next_status_for_dependency (VStr s) b <> "ready"
                   /\ next_status_for_dependency (VStr s) b <> "queued")
  /\ next_status_for_dependency (VStr (next_status_for_dependency (VStr s) b)) b
     = next_status_for_dependency (VStr s) b.
Proof.
  unfold dependency_check. cbv zeta.
  generalize (can_transition (VStr s) (VStr (next_status_for_dependency (VStr s) b))).
  generalize (is_terminal (VStr s)).
  generalize (next_status_for_dependency (VStr (next_status_for_dependency (VStr s) b)) b).
  generalize (next_status_for_dependency (VStr s) b).
  intros n n2 t c H. bools. subst. split_and!; [done|intros ->|intros ->|done];
    cbn [implb negb] in *; by bools.
Qed.

(** ** Properties *)

(** [transition_task] on a dict succeeds exactly when the table allows the
    transition (a same-status request always does); it then sets the status
    to the normalised target and leaves every field but ["status"] and
    ["history"] as it was, and otherwise raises [ValueError] with the
    offending pair. *)
Theorem transition_task_correct task to ah note allow_same :
  match transition_task (VDict task) to ah note allow_same with
  | Ok t' =>
      can_transition (vget "status" task) to = true
      /\ vget "status" t' = VStr (norm to)
      /\ forall k, k <> "status" -> k <> "history" -> vget k t' = vget k task
  | Raise e =>
      can_transition (vget "status" task) to = false
      /\ e = ValueError ("invalid task state transition: " +:+ norm (vget "status" task)
                         +:+ " -> " +:+ norm to)
  end.
Proof.
  assert (Hne : forall v, (norm v =? "")%string = false).
  { intros v. apply negb_true_iff.
    by apply (canonical_forall (fun s => negb (s =? "")%string)). }
  assert (Hrest : forall t d n dd k, k <> "history" ->
            vget k (_append_history t d n dd) = vget k t).
  { intros. unfold _append_history. destruct (dd && _); by rewrite vget_dset_ne. }
  unfold transition_task, require_transition. unfold_m.
  assert (Hcan : can_transition (VStr (norm (vget "status" task))) (VStr (norm to))
                 = can_transition (vget "status" task) to).
  { unfold can_transition. by rewrite !norm_idemp. }
  rewrite Hcan. destruct (can_transition _ to) eqn:Ec.
  - destruct (_ && allow_same); destruct ah; (split; [done|]);
      rewrite ?vget_status_append, ?vget_dset_eq; (split; [done|]); intros;
      rewrite ?Hrest, ?vget_dset_ne by done; done.
  - destruct (String.eqb_spec (norm (vget "status" task)) (norm to)) as [He|He];
      cbn [andb]; [|by rewrite !norm_idemp].
    unfold can_transition in Ec. rewrite He, Hne, String.eqb_refl in Ec. done.
Qed.

(** Repeating a transition is idempotent: a second [transition_task] to the
    same status with the same note returns the dict of the first unchanged
    (the history label is not duplicated). *)
Theorem transition_task_idempotent task to note t1 :
  transition_task (VDict task) to true note true = Ok t1 ->
  transition_task (VDict t1) to true note true = Ok t1.
Proof.
  intros H1.
  assert (Hs : vget "status" t1 = VStr (norm to)).
  { pose proof (transition_task_correct task to true note true) as H. rewrite H1 in H.
    apply H. }
  assert (Hh : exists l, vget "history" t1 = VList l /\
      last l = Some (VStr (if (note =? "")%string then norm to
                           else norm to +:+ " (" +:+ note +:+ ")"))).
  { revert H1. unfold transition_task, require_transition. unfold_m.
    destruct (_ && _).
    - intros; simplify_eq. apply last_history_append.
    - destruct (can_transition _ _); intros; simplify_eq.
      unfold _append_history. cbn [andb]. rewrite vget_dset_eq.
      eexists; split; [reflexivity|]. apply last_snoc. }
  destruct Hh as (l & Hh & Hl). unfold transition_task.
  rewrite Hs, norm_idemp, String.eqb_refl. cbn [andb].
  assert (Hd : dset "status" (VStr (norm to)) t1 = t1).
  { apply dset_id. revert Hs. unfold vget. by destruct (dget _ _); intros; subst. }
  rewrite Hd. by erewrite append_history_again.
Qed.

(** The dependency policy only proposes legal moves: the status it computes
    is reachable in [VALID_TRANSITIONS] from the current one (or equal to
    it), terminal statuses are kept, a task that waits on dependencies is
    never ready before they are, and applying the policy again with the same
    answer changes nothing. *)
Theorem dependency_policy_sound v b :
  let next := next_status_for_dependency v b in
  can_transition v (VStr next) = true
  /\ (is_terminal v = true -> next = norm v)
  /\ (b = false -> next <> "ready" /\ next <> "queued")
  /\ next_status_for_dependency (VStr next) b = next.
Proof.
  assert (Hn : next_status_for_dependency v b = next_status_for_dependency (VStr (norm v)) b)
    by (unfold next_status_for_dependency; by rewrite norm_idemp).
  assert (Hc : forall w, can_transition v w = can_transition (VStr (norm v)) w)
    by (intros w; unfold can_transition; by rewrite norm_idemp).
  assert (Ht : is_terminal v = is_terminal (VStr (norm v)))
    by (unfold is_terminal; by rewrite norm_idemp).
  cbv zeta. rewrite Hc, Ht, Hn. apply dependency_check_spec, dependency_check_all.
Qed.

(** The statuses the task table and the runtime state machine share. *)
Definition shared_statuses : list string :=
  ["queued"; "ready"; "running"; "retrying"; "blocked"; "waiting"; "paused"; "finished";
   "failed"; "cancelled"; "timeout"].

(** The task table and the runtime state machine agree on every pair of
    shared statuses but the seventeen listed ones: the first six are moves
    only the runtime machine allows (such as finishing a queued task), the
    others are moves only the task table allows (such as returning a running
    task to the queue after a step). *)
Theorem tables_disagree_exactly a b :
  a ∈ shared_statuses -> b ∈ shared_statuses ->
  StateMachine.can_transition (VStr a) (VStr b) <> can_transition (VStr a) (VStr b)
  <-> (a, b) ∈ [("queued", "finished"); ("blocked", "running"); ("blocked", "paused");
                ("waiting", "running"); ("waiting", "paused"); ("paused", "running")]
               ++ [("queued", "retrying"); ("queued", "waiting"); ("queued", "timeout");
                   ("ready", "retrying"); ("running", "queued"); ("retrying", "queued");
                   ("retrying", "ready"); ("blocked", "queued"); ("waiting", "queued");
                   ("paused", "blocked"); ("paused", "waiting")].
Proof.
  assert (H : Forall (fun a => Forall (fun b =>
    StateMachine.can_transition (VStr a) (VStr b) <> can_transition (VStr a) (VStr b)
    <-> (a, b) ∈ [("queued", "finished"); ("blocked", "running"); ("blocked", "paused");
                ("waiting", "running"); ("waiting", "paused"); ("paused", "running")]
               ++ [("queued", "retrying"); ("queued", "waiting"); ("queued", "timeout");
                   ("ready", "retrying"); ("running", "queued"); ("retrying", "queued");
                   ("retrying", "ready"); ("blocked", "queued"); ("waiting", "queued");
                   ("paused", "blocked"); ("paused", "waiting")]) shared_statuses)
    shared_statuses) by compute_decide.
  intros Ha Hb. rewrite Forall_forall in H. specialize (H a Ha).
  rewrite Forall_forall in H. exact (H b Hb).
Qed.

(** ** Witnesses *)

Definition demo_task : list (string * val) :=
  [("id", VStr "t1"); ("status", VStr "running"); ("history", VStr "queued -> running")].

Lemma transition_task_idempotent_witness :
  exists t1, transition_task (VDict demo_task) (VStr "Completed") true "ok" true = Ok t1
    /\ vget "history" t1 = VList [VStr "queued"; VStr "running"; VStr "finished (ok)"]
    /\ transition_task (VDict t1) (VStr "Completed") true "ok" true = Ok t1.
Proof.
  eexists. split; [vm_compute; reflexivity|]. split; [reflexivity|].
  apply (transition_task_idempotent demo_task). vm_compute. reflexivity.
Defined.

Lemma tables_disagree_exactly_witness :
  StateMachine.can_transition (VStr "running") (VStr "queued")
  <> can_transition (VStr "running") (VStr "queued").
Proof.
  apply (tables_disagree_exactly "running" "queued"); compute_decide.
Defined.

End TaskState.
