(* ===== verification/Lineage.v ===== *)
(** * Goal lineage and runtime identity

    [core/goals/goal_lineage_contract.py]: the canonical identity of a goal
    and of its branches.  The SHA-256 digest is a parameter [sha256_hex] from
    bytes to the hex text; the JSON text that is hashed is built here. *)

From S2P Require Import Prelude PyVal.

Definition GOAL_LINEAGE_SCHEMA : string := "zero.goal_lineage.v1".
Definition RUNTIME_IDENTITY_SCHEMA : string := "zero.runtime_identity.v1".

Definition GOAL_LINEAGE_FIELDS : list string :=
  ["root_goal_id"; "source_goal_id"; "goal_id"; "goal_lineage_id"; "branch_type";
   "branch_id"; "session_id"; "runtime_session_id"].

Definition RUNTIME_IDENTITY_GRAPH_FIELDS : list string :=
  GOAL_LINEAGE_FIELDS ++ ["execution_id"; "capability_id"; "evidence_id"].

Definition INVALID_IDENTITY_VALUES : list string :=
  ["unknown"; "default"; "legacy"; "runtime"; "system"].

Definition RUNTIME_IDENTITY_FIELDS : list string := ["session_id"; "runtime_session_id"].

Definition SESSION_IDENTITY_FIELDS : list string :=
  ["session_id"; "runtime_session_id"; "source_session_id"].

Definition BINDING_FIELDS : list string := ["execution_id"; "capability_id"; "evidence_id"].

Definition _NESTED_KEYS : list string :=
  ["runtime_identity_graph"; "goal_lineage"; "runtime_identity"; "lineage"; "metadata";
   "payload"; "task"; "runtime_queue_item"; "continuation_work_item"; "replan_record";
   "replan_request"; "next_runtime_request"].

Definition _sources (value : list (string * val)) : list (list (string * val)) :=
  sources _NESTED_KEYS (VDict value).

(** [_text(source.get(field))] *)
Definition field_text (field : string) (d : list (string * val)) : string :=
  text (vget field d).

(** [d.get(field, '')] on a dict of strings *)
Definition field_str (field : string) (d : list (string * val)) : string :=
  match vget field d with VStr s => s | _ => "" end.

(** The first non-empty [_text] of the fields of one source. *)
Fixpoint first_field (d : list (string * val)) (fields : list string) : string :=
  match fields with
  | [] => ""
  | f :: fields' => if (field_text f d =? "")%string then first_field d fields'
                    else field_text f d
  end.

Fixpoint _first (srcs : list (list (string * val))) (fields : list string) : string :=
  match srcs with
  | [] => ""
  | d :: srcs' => if (first_field d fields =? "")%string then _first srcs' fields
                  else first_field d fields
  end.

(** [list(dict.fromkeys(t for source in sources if (t := _text(source.get(field)))))] *)
Definition distinct_texts (srcs : list (list (string * val))) (field : string) : list string :=
  dedup (filter (fun t => t <> "") (map (field_text field) srcs)).

Definition non_empty (s : string) : bool := negb (s =? "")%string.
Definition str_or (a b : string) : string := if (a =? "")%string then b else a.

(** The fields of [fields] whose text is empty in [d]. *)
Definition missing_fields (fields : list string) (d : list (string * val)) : list string :=
  filter (fun f => field_text f d = "") fields.

Definition _required_identity (field : string) (value : val) : res string :=
  let t := text value in
  if (t =? "")%string || bool_decide (lower t ∈ INVALID_IDENTITY_VALUES)
  then Raise (ValueError ("invalid_runtime_identity:" +:+ field))
  else Ok t.

(** [{key: item for key, item in d.items() if _text(item)}] *)
Definition keep_texts (d : list (string * string)) : list (string * val) :=
  map (fun kv => (kv.1, VStr kv.2)) (filter (fun kv => strip kv.2 <> "") d).

Section lineage.
Context (sha256_hex : string -> string).

Definition build_goal_lineage_id (root_goal_id session_id runtime_session_id : string)
  : res string :=
  let root := strip root_goal_id in
  if (root =? "")%string then Raise (ValueError "goal_lineage_requires_root_goal_id")
  else
    let canonical := json_dumps false
      (VDict [("root_goal_id", VStr root);
              ("runtime_session_id", VStr (strip runtime_session_id));
              ("session_id", VStr (strip session_id))]) in
    Ok ("goal-lineage-" +:+ str_take 20 (sha256_hex (utf8 canonical))).

Definition create_root_goal_lineage (goal_id : string)
    (session_id runtime_session_id : option string) : res (list (string * val)) :=
  goal ← _required_identity "goal_id" (VStr goal_id);
  let seed := str_take 16 (sha256_hex (utf8 goal)) in
  session ← _required_identity "session_id"
              (VStr (str_or (default "" session_id) ("goal-session:" +:+ seed)));
  runtime_session ← _required_identity "runtime_session_id"
              (VStr (str_or (default "" runtime_session_id) ("runtime-session:" +:+ seed)));
  lineage_id ← build_goal_lineage_id goal session runtime_session;
  Ok [("schema", VStr GOAL_LINEAGE_SCHEMA); ("root_goal_id", VStr goal);
      ("source_goal_id", VStr goal); ("goal_id", VStr goal);
      ("goal_lineage_id", VStr lineage_id); ("branch_type", VStr "root");
      ("branch_id", VStr goal); ("session_id", VStr session);
      ("runtime_session_id", VStr runtime_session)].

(** The fields on which the mapping and its nested [goal_lineage] disagree. *)
Definition lineage_conflicts (d : list (string * val)) : list string :=
  let conflict_sources :=
    d :: match vget "goal_lineage" d with VDict g => [g] | _ => [] end in
  filter (fun f => 1 < length (distinct_texts conflict_sources f)) GOAL_LINEAGE_FIELDS.

Definition extract_goal_lineage (value : val) (require_complete reject_conflicts : bool)
  : res (list (string * val)) :=
  match value with
  | VDict d =>
      let srcs := _sources d in
      let conflicts := lineage_conflicts d in
      if reject_conflicts && negb (bool_decide (conflicts = [])) then
        Raise (ValueError ("goal_lineage_conflicting_fields:" +:+ join "," conflicts))
      else
        let goal_id := _first srcs ["goal_id"; "child_goal_id"] in
        let source_goal_id := _first srcs ["source_goal_id"; "continuation_source_goal_id"] in
        let root_goal_id :=
          str_or (str_or (_first srcs ["root_goal_id"]) source_goal_id) goal_id in
        let session_id := _first srcs
          ["session_id"; "operator_session_id"; "persistent_operator_session_id"] in
        let runtime_session_id := _first srcs ["runtime_session_id"] in
        let branch_type := _first srcs ["branch_type"] in
        let continuation_id := _first srcs
          ["continuation_id"; "continuation_task_id"; "continuation_goal_id"] in
        let replan_id := _first srcs ["replan_id"; "replan_request_id"] in
        let branch_id := _first srcs ["branch_id"] in
        let branch_type :=
          if non_empty branch_type then branch_type
          else if non_empty continuation_id then "continuation"
          else if non_empty replan_id then "replan" else "root" in
        let branch_id :=
          if non_empty branch_id then branch_id
          else if (branch_type =? "continuation")%string then continuation_id
          else if (branch_type =? "replan")%string then replan_id else root_goal_id in
        let lineage_id := _first srcs ["goal_lineage_id"] in
        lineage_id ←
          (if negb (non_empty lineage_id) && non_empty root_goal_id
           then build_goal_lineage_id root_goal_id session_id runtime_session_id
           else Ok lineage_id);
        let result := keep_texts
          [("schema", GOAL_LINEAGE_SCHEMA); ("root_goal_id", root_goal_id);
           ("source_goal_id", str_or source_goal_id root_goal_id);
           ("goal_id", str_or (str_or goal_id source_goal_id) root_goal_id);
           ("goal_lineage_id", lineage_id); ("branch_type", branch_type);
           ("branch_id", branch_id); ("session_id", session_id);
           ("runtime_session_id", runtime_session_id)] in
        let missing := missing_fields GOAL_LINEAGE_FIELDS result in
        if require_complete && negb (bool_decide (missing = [])) then
          Raise (ValueError ("goal_lineage_missing_fields:" +:+ join "," missing))
        else Ok result
  | _ => if require_complete then Raise (ValueError "goal_lineage_requires_mapping") else Ok []
  end.

Definition extract_runtime_identity (value : val) (require_complete reject_conflicts : bool)
  : res (list (string * val)) :=
  match value with
  | VDict d =>
      let srcs := _sources d in
      let conflicts :=
        filter (fun f => 1 < length (distinct_texts srcs f)) SESSION_IDENTITY_FIELDS in
      if reject_conflicts && negb (bool_decide (conflicts = [])) then
        Raise (ValueError ("session_identity_conflicting_fields:" +:+ join "," conflicts))
      else
        let result := keep_texts
          [("schema", RUNTIME_IDENTITY_SCHEMA);
           ("session_id", _first srcs
              ["session_id"; "operator_session_id"; "persistent_operator_session_id"]);
           ("runtime_session_id", _first srcs ["runtime_session_id"]);
           ("source_session_id", _first srcs ["source_session_id"])] in
        let missing := missing_fields RUNTIME_IDENTITY_FIELDS result in
        if require_complete && negb (bool_decide (missing = [])) then
          Raise (ValueError ("runtime_identity_missing_fields:" +:+ join "," missing))
        else Ok result
  | _ => if require_complete then Raise (ValueError "runtime_identity_requires_mapping")
         else Ok []
  end.

Definition create_goal_branch_lineage (parent : val) (goal_id branch_type branch_id : string)
  : res (list (string * val)) :=
  canonical ← extract_goal_lineage parent true true;
  kind ← _required_identity "branch_type" (VStr branch_type);
  if bool_decide (kind ∉ ["continuation"; "replan"])
  then Raise (ValueError "explicit_goal_branch_type_required")
  else
    child_goal ← _required_identity "goal_id" (VStr goal_id);
    child_branch ← _required_identity "branch_id" (VStr branch_id);
    Ok (dupdate canonical
          [("source_goal_id", vget "goal_id" canonical); ("goal_id", VStr child_goal);
           ("branch_type", VStr kind); ("branch_id", VStr child_branch)]).

Definition _identity_graph_fingerprint (graph : list (string * val)) : string :=
  let payload :=
    map (fun f => (f, VStr (field_text f graph)))
        (filter (fun f => field_text f graph <> "") RUNTIME_IDENTITY_GRAPH_FIELDS) in
  sha256_hex (utf8 (json_dumps false (VDict payload))).

(** Set the execution, capability and evidence ids found in the sources. *)
Fixpoint bind_found (srcs : list (list (string * val))) (fields : list string)
    (graph : list (string * val)) : res (list (string * val)) :=
  match fields with
  | [] => Ok graph
  | f :: fields' =>
      match distinct_texts srcs f with
      | [] => bind_found srcs fields' graph
      | [x] => i ← _required_identity f (VStr x); bind_found srcs fields' (dset f (VStr i) graph)
      | _ => Raise (ValueError ("runtime_identity_graph_conflict:" +:+ f))
      end
  end.

(** [{field: _required_identity(field, graph[field]) for field in ... if graph.get(field)}] *)
Fixpoint required_all (fields : list string) (graph : list (string * val))
  : res (list (string * val)) :=
  match fields with
  | [] => Ok []
  | f :: fields' =>
      if truthy (vget f graph) then
        i ← _required_identity f (vget f graph);
        rest ← required_all fields' graph;
        Ok ((f, VStr i) :: rest)
      else required_all fields' graph
  end.

Definition canonical_runtime_identity_graph (value : val) (require_complete : bool)
  : res (list (string * val)) :=
  match value with
  | VDict d =>
      graph ← extract_goal_lineage value require_complete true;
      graph ← bind_found (_sources d) BINDING_FIELDS graph;
      let missing := missing_fields RUNTIME_IDENTITY_GRAPH_FIELDS graph in
      if require_complete && negb (bool_decide (missing = [])) then
        Raise (ValueError ("runtime_identity_graph_missing_fields:" +:+ join "," missing))
      else
        canonical ← required_all RUNTIME_IDENTITY_GRAPH_FIELDS graph;
        Ok (dset "identity_graph_fingerprint"
              (VStr (_identity_graph_fingerprint canonical)) canonical)
  | _ => Raise (ValueError "runtime_identity_graph_requires_mapping")
  end.

Fixpoint bind_all (bindings : list (string * val)) (graph : list (string * val))
  : res (list (string * val)) :=
  match bindings with
  | [] => Ok graph
  | (field, raw) :: bindings' =>
      if bool_decide (field ∉ BINDING_FIELDS)
      then Raise (ValueError ("runtime_identity_binding_not_allowed:" +:+ field))
      else
        incoming ← _required_identity field raw;
        if truthy (vget field graph) && negb (py_eq (vget field graph) (VStr incoming))
        then Raise (ValueError ("runtime_identity_drift:" +:+ field))
        else bind_all bindings' (dset field (VStr incoming) graph)
  end.

Definition bind_runtime_identity_graph (value : val) (bindings : list (string * val))
  : res (list (string * val)) :=
  graph ← canonical_runtime_identity_graph value false;
  graph ← bind_all bindings graph;
  let kept := map (fun f => (f, vget f graph))
                  (filter (fun f => truthy (vget f graph) = true) RUNTIME_IDENTITY_GRAPH_FIELDS) in
  Ok (dset "identity_graph_fingerprint" (VStr (_identity_graph_fingerprint kept)) graph).

Definition build_runtime_execution_id (value : val) (task_id : string) : res string :=
  lineage ← extract_goal_lineage value true true;
  task ← _required_identity "task_id" (VStr task_id);
  let encoded := json_dumps true
    (VDict [("goal_lineage_id", vget "goal_lineage_id" lineage);
            ("session_id", vget "session_id" lineage);
            ("runtime_session_id", vget "runtime_session_id" lineage);
            ("branch_id", vget "branch_id" lineage); ("task_id", VStr task)]) in
  Ok ("execution:" +:+ str_take 24 (sha256_hex (utf8 encoded))).

(** The first field on which two graphs hold different non-empty values. *)
Fixpoint first_drift (fields : list string) (g h : list (string * val)) : option string :=
  match fields with
  | [] => None
  | f :: fields' =>
      if truthy (vget f g) && truthy (vget f h) && negb (py_eq (vget f g) (vget f h))
      then Some f else first_drift fields' g h
  end.

(** The final loop of [attach_runtime_identity_graph]. *)
Fixpoint attach_fields (fields : list string) (canonical result : list (string * val))
  : res (list (string * val)) :=
  match fields with
  | [] => Ok result
  | f :: fields' =>
      if truthy (vget f canonical) then
        let explicit := field_text f result in
        if non_empty explicit && negb (py_eq (VStr explicit) (vget f canonical))
        then Raise (ValueError ("runtime_identity_drift:" +:+ f))
        else attach_fields fields' canonical (dset f (vget f canonical) result)
      else attach_fields fields' canonical result
  end.

Definition attach_runtime_identity_graph (target : list (string * val)) (graph : val)
  : res (list (string * val)) :=
  canonical ← canonical_runtime_identity_graph graph false;
  _ ← match vget "runtime_identity_graph" target with
      | VDict existing =>
          current ← canonical_runtime_identity_graph (VDict existing) false;
          match first_drift RUNTIME_IDENTITY_GRAPH_FIELDS current canonical with
          | Some f => Raise (ValueError ("runtime_identity_drift:" +:+ f))
          | None => Ok tt
          end
      | _ => Ok tt
      end;
  attach_fields RUNTIME_IDENTITY_GRAPH_FIELDS canonical
    (dset "runtime_identity_graph" (VDict canonical) target).

(** The graphs of the mappings among the arguments that carry an identity. *)
Fixpoint collect_graphs (values : list val) (require_complete : bool)
  : res (list (list (string * val))) :=
  match values with
  | [] => Ok []
  | VDict d :: values' =>
      let candidate := match vget "runtime_identity_graph" d with
                       | VDict g => g | _ => d end in
      if existsb (fun f => truthy (vget f candidate)) RUNTIME_IDENTITY_GRAPH_FIELDS then
        g ← canonical_runtime_identity_graph (VDict candidate) require_complete;
        gs ← collect_graphs values' require_complete;
        Ok (g :: gs)
      else collect_graphs values' require_complete
  | _ :: values' => collect_graphs values' require_complete
  end.

Fixpoint check_graphs (expected : list (string * val)) (gs : list (list (string * val)))
  : res (list (string * val)) :=
  match gs with
  | [] => Ok expected
  | g :: gs' =>
      match first_drift RUNTIME_IDENTITY_GRAPH_FIELDS expected g with
      | Some f => Raise (ValueError ("runtime_identity_drift:" +:+ f))
      | None => check_graphs expected gs'
      end
  end.

Definition assert_runtime_identity_graph_consistency (values : list val)
    (require_complete : bool) : res (list (string * val)) :=
  graphs ← collect_graphs values require_complete;
  match graphs with
  | [] => Raise (ValueError "runtime_identity_graph_required")
  | expected :: rest => check_graphs expected rest
  end.

(** [lhs.get(f) == rhs.get(f)] for each field. *)
Definition fields_match (fields : list string) (lhs rhs : list (string * val)) : bool :=
  forallb (fun f => py_eq (vget f lhs) (vget f rhs)) fields.

Definition lineage_scope_matches (left right : val) : res bool :=
  lhs ← extract_goal_lineage left false false;
  rhs ← extract_goal_lineage right false false;
  Ok (truthy (vget "goal_lineage_id" lhs)
      && fields_match ["goal_lineage_id"; "root_goal_id"; "session_id"; "runtime_session_id"]
           lhs rhs).

Definition runtime_identity_matches (left right : val) : res bool :=
  lhs ← extract_runtime_identity left false false;
  rhs ← extract_runtime_identity right false false;
  Ok (truthy (vget "session_id" lhs) && truthy (vget "runtime_session_id" lhs)
      && fields_match ["session_id"; "runtime_session_id"] lhs rhs).

(** The empty tuple is [None]; a work identity is the tuple of five texts. *)
Definition canonical_work_identity (value : val)
  : res (option (string * string * string * string * string)) :=
  match value with
  | VDict _ =>
      lineage ← extract_goal_lineage value false false;
      if (field_str "goal_lineage_id" lineage =? "")%string
         || (field_str "branch_id" lineage =? "")%string
      then Ok None
      else Ok (Some (field_str "goal_lineage_id" lineage, field_str "session_id" lineage,
                     field_str "runtime_session_id" lineage,
                     field_str "branch_type" lineage, field_str "branch_id" lineage))
  | _ => Ok None
  end.

Definition attach_goal_lineage (target : list (string * val)) (lineage : val)
  : res (list (string * val)) :=
  canonical ← extract_goal_lineage lineage true false;
  Ok (dupdate (dset "goal_lineage" (VDict canonical) target)
        (map (fun f => (f, vget f canonical)) GOAL_LINEAGE_FIELDS)).

End lineage.

(** ** Normal forms *)

(** A stripped non-empty text, which is what [_text] returns when it is kept. *)
Definition clean (s : string) : Prop := strip s = s /\ s <> "".

(** The canonical lineage with the given eight field values. *)
Definition lineage_of (root src goal lid bt bid sid rsid : string) : list (string * val) :=
  [("schema", VStr GOAL_LINEAGE_SCHEMA); ("root_goal_id", VStr root);
   ("source_goal_id", VStr src); ("goal_id", VStr goal); ("goal_lineage_id", VStr lid);
   ("branch_type", VStr bt); ("branch_id", VStr bid); ("session_id", VStr sid);
   ("runtime_session_id", VStr rsid)].

Definition canonical_lineage (l : list (string * val)) : Prop :=
  exists root src goal lid bt bid sid rsid,
    Forall clean [root; src; goal; lid; bt; bid; sid; rsid]
    /\ l = lineage_of root src goal lid bt bid sid rsid.

Ltac clean_text :=
  repeat match goal with
  | H : clean ?s |- context [strip ?s] => rewrite (proj1 H)
  | H : clean ?s |- context [(?s =? "")%string] =>
      rewrite (proj2 (String.eqb_neq s "") (proj2 H))
  end.

(** ** Lemmas on extraction *)

Lemma field_text_of f d s : vget f d = VStr s -> clean s -> field_text f d = s.
Proof. intros Hv [Hs _]. unfold field_text. by rewrite Hv, text_strip. Qed.

Lemma first_hd d srcs f fields s :
  field_text f d = s -> s <> "" -> _first (d :: srcs) (f :: fields) = s.
Proof.
  intros Hf Hs. simpl. rewrite Hf. apply String.eqb_neq in Hs. by rewrite !Hs.
Qed.

Lemma text_clean v : text v <> "" -> clean (text v).
Proof. intros H. split; [apply strip_idemp|done]. Qed.

Lemma first_field_clean d fields : first_field d fields = "" \/ clean (first_field d fields).
Proof.
  induction fields as [|f fields IH]; simpl; [by left|].
  destruct (String.eqb_spec (field_text f d) ""); [done|]. right. by apply text_clean.
Qed.

Lemma first_clean srcs fields : _first srcs fields = "" \/ clean (_first srcs fields).
Proof.
  induction srcs as [|d srcs IH]; simpl; [by left|].
  destruct (first_field_clean d fields) as [->|H]; [done|].
  destruct H as [H1 H2]. pose proof H2 as H3. apply String.eqb_neq in H3 as ->.
  right. by split.
Qed.

Lemma str_or_clean a b :
  (a = "" \/ clean a) -> (b = "" \/ clean b) -> str_or a b = "" \/ clean (str_or a b).
Proof. unfold str_or. intros ??. destruct (String.eqb_spec a ""); naive_solver. Qed.

Lemma keep_texts_get d f x :
  dict_ok d -> vget f (keep_texts d) = VStr x ->
  dget f d = Some x /\ strip x <> "".
Proof.
  unfold keep_texts, vget. intros Hd.
  induction d as [|[k y] d IH]; [done|].
  apply NoDup_cons in Hd as [Hk Hd]. destruct (decide (strip y <> "")) as [Hy|Hy].
  - rewrite filter_cons_True by done. csimpl.
    destruct (k =? f)%string; [intros; by simplify_eq|by apply IH].
  - rewrite filter_cons_False by done. csimpl.
    destruct (String.eqb_spec k f) as [->|]; [|by apply IH].
    intros Hg. destruct (IH Hd Hg) as [Hg' _]. exfalso. apply Hk.
    apply dget_is_Some_keys. by eexists.
Qed.

Lemma keep_texts_str d f :
  vget f (keep_texts d) = VNone \/ exists x, vget f (keep_texts d) = VStr x.
Proof.
  unfold vget, keep_texts. induction (filter _ d) as [|[k y] d' IH]; csimpl; [by left|].
  destruct (k =? f)%string; eauto.
Qed.

(** A result that misses no field of [fields] keeps the entry of each. *)
Lemma keep_texts_all d fields :
  missing_fields fields (keep_texts d) = [] -> dict_ok d ->
  forall f, f ∈ fields -> exists x, dget f d = Some x /\ strip x <> "".
Proof.
  intros Hm Hd f Hf.
  assert (Hne : field_text f (keep_texts d) <> "").
  { intros He. unfold missing_fields in Hm.
    assert (Hin : f ∈ filter (fun f => field_text f (keep_texts d) = "") fields)
      by by apply list_elem_of_filter.
    rewrite Hm in Hin. by apply elem_of_nil in Hin. }
  unfold field_text in Hne. destruct (keep_texts_str d f) as [E|[x E]].
  - by rewrite E, text_None in Hne.
  - exists x. by apply keep_texts_get in E.
Qed.

(** The extraction's result before filtering is canonical once it is complete. *)
Lemma keep_texts_lineage root src goal lid bt bid sid rsid :
  missing_fields GOAL_LINEAGE_FIELDS (keep_texts
    [("schema", GOAL_LINEAGE_SCHEMA); ("root_goal_id", root); ("source_goal_id", src);
     ("goal_id", goal); ("goal_lineage_id", lid); ("branch_type", bt); ("branch_id", bid);
     ("session_id", sid); ("runtime_session_id", rsid)]) = [] ->
  Forall (fun x => x = "" \/ clean x) [root; src; goal; lid; bt; bid; sid; rsid] ->
  canonical_lineage (keep_texts
    [("schema", GOAL_LINEAGE_SCHEMA); ("root_goal_id", root); ("source_goal_id", src);
     ("goal_id", goal); ("goal_lineage_id", lid); ("branch_type", bt); ("branch_id", bid);
     ("session_id", sid); ("runtime_session_id", rsid)]).
Proof.
  intros Hm Hc. exists root, src, goal, lid, bt, bid, sid, rsid.
  assert (Hd : dict_ok
    [("schema", GOAL_LINEAGE_SCHEMA); ("root_goal_id", root); ("source_goal_id", src);
     ("goal_id", goal); ("goal_lineage_id", lid); ("branch_type", bt); ("branch_id", bid);
     ("session_id", sid); ("runtime_session_id", rsid)]).
  { unfold dict_ok, dkeys. csimpl. compute_decide. }
  pose proof (keep_texts_all _ _ Hm Hd) as Hall. rewrite <- Forall_forall in Hall.
  unfold GOAL_LINEAGE_FIELDS in Hall. rewrite !Forall_cons in Hall, Hc.
  assert (Hne : forall x, strip x <> "" -> x = "" \/ clean x -> clean x)
    by (intros x Hx [->|?]; done).
  repeat match goal with
  | H : _ /\ _ |- _ => destruct H
  | H : exists _, _ |- _ => destruct H as (? & ? & ?)
  end; simplify_eq/=.
  split; [rewrite !Forall_cons; split_and!; auto; by apply Forall_nil|].
  unfold keep_texts, lineage_of.
  rewrite !filter_cons_True by (done || (unfold GOAL_LINEAGE_SCHEMA; compute_decide)).
  reflexivity.
Qed.

Lemma keep_texts_clean root src goal lid bt bid sid rsid :
  Forall clean [root; src; goal; lid; bt; bid; sid; rsid] ->
  keep_texts
    [("schema", GOAL_LINEAGE_SCHEMA); ("root_goal_id", root); ("source_goal_id", src);
     ("goal_id", goal); ("goal_lineage_id", lid); ("branch_type", bt); ("branch_id", bid);
     ("session_id", sid); ("runtime_session_id", rsid)]
  = lineage_of root src goal lid bt bid sid rsid.
Proof.
  rewrite !Forall_cons. intros (H1&H2&H3&H4&H5&H6&H7&H8&_). unfold keep_texts.
  rewrite !filter_cons_True
    by (cbn [snd]; first [
        match goal with H : clean ?s |- strip ?s <> "" => rewrite (proj1 H); apply H end
        | compute_decide]).
  reflexivity.
Qed.

Lemma missing_fields_lineage root src goal lid bt bid sid rsid :
  Forall clean [root; src; goal; lid; bt; bid; sid; rsid] ->
  missing_fields GOAL_LINEAGE_FIELDS (lineage_of root src goal lid bt bid sid rsid) = [].
Proof.
  rewrite !Forall_cons. intros (H1&H2&H3&H4&H5&H6&H7&H8&_).
  unfold missing_fields, GOAL_LINEAGE_FIELDS.
  rewrite !filter_cons_False
    by (unfold field_text; cbn; rewrite text_strip;
        match goal with H : clean ?s |- strip ?s <> "" => rewrite (proj1 H); apply H end).
  reflexivity.
Qed.

Section lineage_facts.
Context (sha256_hex : string -> string).

(** A digest is printed in hexadecimal: it contains no white space. *)
Context (hex_no_space : forall b, no_space (sha256_hex b) = true).

Lemma build_goal_lineage_id_clean root sid rsid lid :
  build_goal_lineage_id sha256_hex root sid rsid = Ok lid -> clean lid.
Proof.
  unfold build_goal_lineage_id. destruct (_ =? "")%string; [done|]. intros; simplify_eq.
  split; [|done]. apply no_space_strip. rewrite no_space_app.
  apply andb_true_intro; split; [done|]. apply no_space_take, hex_no_space.
Qed.

Lemma extract_canonical v rc l :
  extract_goal_lineage sha256_hex v true rc = Ok l -> canonical_lineage l.
Proof.
  unfold extract_goal_lineage. destruct v as [ | | | | |d]; try done.
  destruct (rc && _); [done|]. unfold_m.
  generalize (_sources d). intros srcs.
  destruct (if _ && _ then _ else _) as [lid|e] eqn:El; [|done].
  cbn [andb]. destruct (negb (bool_decide (missing_fields _ _ = []))) eqn:Em; [done|]. intros; simplify_eq. bools.
  apply keep_texts_lineage; [done|].
  assert (Hf : forall fs, _first srcs fs = "" \/ clean (_first srcs fs)) by apply first_clean.
  assert (Hlit : clean "continuation" /\ clean "replan" /\ clean "root")
    by (repeat split; done).
  repeat (apply Forall_cons_2; [solve [auto using str_or_clean] || idtac|]);
    try apply Forall_nil_2.
  - revert El. destruct (negb (non_empty _) && _); intros El.
    + right. by eapply build_goal_lineage_id_clean.
    + simplify_eq. apply Hf.
  - destruct Hlit as (?&?&?). repeat case_match; auto.
  - repeat case_match; auto using str_or_clean.
Qed.

(** The texts of the fields of a canonical lineage. *)
Lemma sources_of_head d : exists rest, _sources d = d :: rest.
Proof. unfold _sources. rewrite sources_eq. eauto. Qed.

Lemma first_head d rest f fields s :
  vget f d = VStr s -> clean s -> _first (d :: rest) (f :: fields) = s.
Proof. intros Hv Hs. apply first_hd; [by apply field_text_of|apply Hs]. Qed.

(** A mapping whose own fields carry a canonical lineage is extracted to it,
    whatever its nested mappings say, as long as no conflict is rejected. *)
Lemma extract_from_fields d rc rj root src goal lid bt bid sid rsid :
  Forall clean [root; src; goal; lid; bt; bid; sid; rsid] ->
  (forall f, f ∈ GOAL_LINEAGE_FIELDS ->
     vget f d = vget f (lineage_of root src goal lid bt bid sid rsid)) ->
  rj && negb (bool_decide (lineage_conflicts d = [])) = false ->
  extract_goal_lineage sha256_hex (VDict d) rc rj
  = Ok (lineage_of root src goal lid bt bid sid rsid).
Proof.
  intros Hc Hf Hrj. unfold extract_goal_lineage. rewrite Hrj. pose proof Hc as Hall.
  rewrite !Forall_cons in Hc. destruct Hc as (H1&H2&H3&H4&H5&H6&H7&H8&_).
  destruct (sources_of_head d) as [rest ->].
  assert (G : forall f s fields, f ∈ GOAL_LINEAGE_FIELDS ->
      vget f (lineage_of root src goal lid bt bid sid rsid) = VStr s -> clean s ->
      _first (d :: rest) (f :: fields) = s).
  { intros. apply first_head; [by rewrite Hf|done]. }
  rewrite (G "goal_id" goal), (G "source_goal_id" src), (G "root_goal_id" root),
    (G "session_id" sid), (G "runtime_session_id" rsid), (G "branch_type" bt),
    (G "branch_id" bid), (G "goal_lineage_id" lid)
    by (first [assumption | reflexivity | compute_decide]).
  unfold non_empty, str_or. clean_text. cbn [negb andb]. unfold_m.
  rewrite keep_texts_clean, missing_fields_lineage by exact Hall.
  by destruct rc.
Qed.

End lineage_facts.

(** ** Lemmas on conflicts, relaxation and required identities *)

Lemma dedup_all_equal (l : list string) :
  (forall x y, x ∈ l -> y ∈ l -> x = y) -> length (dedup l) <= 1.
Proof.
  intros H. pose proof (NoDup_dedup l) as Hn.
  assert (Hall : forall x y, x ∈ dedup l -> y ∈ dedup l -> x = y)
    by (intros x y; rewrite !elem_of_dedup; apply H).
  destruct (dedup l) as [|x [|y r]]; simpl; try lia. exfalso.
  apply NoDup_cons in Hn as [Hx _]. apply Hx.
  rewrite (Hall x y); set_solver.
Qed.

Lemma no_conflicts d :
  (forall g f, vget "goal_lineage" d = VDict g -> f ∈ GOAL_LINEAGE_FIELDS ->
               field_text f g = field_text f d) ->
  lineage_conflicts d = [].
Proof.
  intros H. unfold lineage_conflicts.
  destruct (filter _ GOAL_LINEAGE_FIELDS) as [|f r] eqn:E; [done|exfalso].
  assert (Hf : f ∈ f :: r) by set_solver. rewrite <- E in Hf.
  apply list_elem_of_filter in Hf as [Hlen Hf].
  apply Nat.lt_nge in Hlen. apply Hlen, dedup_all_equal.
  assert (Hx : forall x, x ∈ filter (fun t => t <> "")
      (map (field_text f) (d :: match vget "goal_lineage" d with VDict g => [g] | _ => [] end)) ->
      x = field_text f d).
  { intros x [_ Hx]%list_elem_of_filter.
    destruct (vget "goal_lineage" d) eqn:Eg; simpl in Hx; try (apply list_elem_of_singleton in Hx; done).
    apply elem_of_cons in Hx as [->|Hx]; [done|]. apply list_elem_of_singleton in Hx as ->.
    by apply H. }
  intros x y Hx1 Hy1. by rewrite (Hx x Hx1), (Hx y Hy1).
Qed.

Lemma required_identity_clean f v x : _required_identity f v = Ok x -> clean x.
Proof.
  unfold _required_identity. destruct (String.eqb_spec (text v) ""); [done|]. cbn [orb].
  case_bool_decide; intros; simplify_eq. by apply text_clean.
Qed.

Section lineage_properties.
Context (sha256_hex : string -> string).
Context (hex_no_space : forall b, no_space (sha256_hex b) = true).

Lemma extract_fixed root src goal lid bt bid sid rsid rc rj :
  Forall clean [root; src; goal; lid; bt; bid; sid; rsid] ->
  extract_goal_lineage sha256_hex (VDict (lineage_of root src goal lid bt bid sid rsid)) rc rj
  = Ok (lineage_of root src goal lid bt bid sid rsid).
Proof.
  intros H. apply extract_from_fields; [done|done|].
  rewrite no_conflicts by done. by destruct rj.
Qed.

Lemma extract_relax v rj l :
  extract_goal_lineage sha256_hex v true rj = Ok l ->
  extract_goal_lineage sha256_hex v false false = Ok l.
Proof.
  unfold extract_goal_lineage. destruct v; try done.
  destruct (rj && _); [done|]. cbn [andb]. unfold_m.
  destruct (if negb (non_empty _) && _ then _ else _); [|done].
  destruct (negb (bool_decide (missing_fields _ _ = []))); [done|]. auto.
Qed.

(** Extraction is a normal form: the lineage extracted from any complete
    value is extracted again to itself, without conflicts, whatever the value
    it came from looked like. *)
Theorem extract_idempotent v rj l :
  extract_goal_lineage sha256_hex v true rj = Ok l ->
  extract_goal_lineage sha256_hex (VDict l) true true = Ok l.
Proof.
  intros (root&src&goal&lid&bt&bid&sid&rsid&Hc&->)%extract_canonical; [|done].
  by apply extract_fixed.
Qed.

(** A branch keeps the scope of its parent: root goal, lineage id, session and
    runtime session are the parent's, the branch's source is the parent's
    goal, its type is ["continuation"] or ["replan"], it is itself a canonical
    lineage, and it is in the parent's lineage scope. *)
Theorem branch_keeps_scope parent goal_id branch_type branch_id child :
  create_goal_branch_lineage sha256_hex parent goal_id branch_type branch_id = Ok child ->
  exists p,
    extract_goal_lineage sha256_hex parent true true = Ok p
    /\ Forall (fun f => vget f child = vget f p)
         ["root_goal_id"; "goal_lineage_id"; "session_id"; "runtime_session_id"]
    /\ vget "source_goal_id" child = vget "goal_id" p
    /\ field_str "branch_type" child ∈ ["continuation"; "replan"]
    /\ extract_goal_lineage sha256_hex (VDict child) true true = Ok child
    /\ lineage_scope_matches sha256_hex (VDict child) parent = Ok true.
Proof.
  unfold create_goal_branch_lineage, lineage_scope_matches. unfold_m.
  destruct (extract_goal_lineage sha256_hex parent true true) as [p|e] eqn:Ep; [|done].
  destruct (_required_identity "branch_type" _) as [kind|e] eqn:Ek; [|done].
  case_bool_decide as Hk; [done|].
  destruct (_required_identity "goal_id" _) as [cg|e] eqn:Eg; [|done].
  destruct (_required_identity "branch_id" _) as [cb|e] eqn:Eb; [|done].
  intros; simplify_eq. exists p. split; [done|].
  apply required_identity_clean in Ek, Eg, Eb.
  rewrite (extract_relax _ _ _ Ep).
  apply extract_canonical in Ep as (root&src&goal&lid&bt&bid&sid&rsid&Hc&->); [|done].
  change (dset "branch_id" _ _) with (lineage_of root goal cg lid kind cb sid rsid).
  rewrite !Forall_cons in Hc. destruct Hc as (H1&H2&H3&H4&H5&H6&H7&H8&_).
  rewrite !extract_fixed
    by (repeat (apply Forall_cons_2; [assumption|]); apply Forall_nil_2).
  split_and!; [|done|done|done|].
  - repeat (apply Forall_cons_2; [done|]). apply Forall_nil_2.
  - unfold fields_match, lineage_of; cbn. rewrite !String.eqb_refl.
    f_equal. destruct H4 as [_ H4]. apply String.eqb_neq in H4. by rewrite H4.
Qed.

(** Attaching a lineage to any target makes it the target's lineage: a later
    strict extraction from the result returns exactly the attached canonical
    lineage, even if the target carried other lineage fields before. *)
Theorem attach_then_extract target lineage r :
  attach_goal_lineage sha256_hex target lineage = Ok r ->
  exists c,
    extract_goal_lineage sha256_hex lineage true false = Ok c
    /\ extract_goal_lineage sha256_hex (VDict r) true true = Ok c
    /\ forall k, k <> "goal_lineage" -> k ∉ GOAL_LINEAGE_FIELDS -> vget k r = vget k target.
Proof.
  unfold attach_goal_lineage. unfold_m.
  destruct (extract_goal_lineage sha256_hex lineage true false) as [c|e] eqn:Ec; [|done].
  intros [= <-]. exists c. split; [done|].
  apply extract_canonical in Ec as (root&src&goal&lid&bt&bid&sid&rsid&Hc&->); [|done].
  set (l := lineage_of root src goal lid bt bid sid rsid).
  assert (Hf : forall f, f ∈ GOAL_LINEAGE_FIELDS ->
    vget f (dupdate (dset "goal_lineage" (VDict l) target)
              (map (fun f => (f, vget f l)) GOAL_LINEAGE_FIELDS)) = vget f l).
  { intros f. unfold GOAL_LINEAGE_FIELDS. rewrite !elem_of_cons, elem_of_nil.
    unfold dupdate. cbn [fold_left map fst snd].
    intros [->|[->|[->|[->|[->|[->|[->|[->|[]]]]]]]]];
      repeat (rewrite vget_dset_eq || rewrite vget_dset_ne by done); done. }
  split.
  - apply extract_from_fields; [done|done|].
    rewrite no_conflicts; [done|]. intros g f Hg Hin. unfold field_text.
    rewrite Hf by done. revert Hg. unfold dupdate. cbn [fold_left map fst snd].
    repeat rewrite vget_dset_ne by done. rewrite vget_dset_eq. intros; by simplify_eq.
  - intros k Hk Hin. unfold GOAL_LINEAGE_FIELDS in Hin.
    rewrite !not_elem_of_cons in Hin. destruct_and!.
    repeat rewrite vget_dset_ne by congruence. done.
Qed.

Lemma attach_fields_keeps fields canonical : forall result r,
  attach_fields fields canonical result = Ok r ->
  forall f, field_text f result <> "" -> f <> "runtime_identity_graph" ->
  field_text f r = field_text f result.
Proof.
  induction fields as [|f0 fields IH]; simpl; intros result r H f Hne Hf; [by simplify_eq|].
  destruct (truthy (vget f0 canonical)); [|by eapply IH].
  destruct (non_empty (field_text f0 result) && _) eqn:Ed; [done|].
  assert (Hstep : field_text f (dset f0 (vget f0 canonical) result) = field_text f result).
  { unfold field_text at 1. destruct (decide (f0 = f)) as [->|Hn]; [|by rewrite vget_dset_ne].
    rewrite vget_dset_eq. unfold non_empty in Ed. apply String.eqb_neq in Hne.
    rewrite Hne in Ed. cbn [negb andb] in Ed. bools.
    destruct (vget f canonical); simpl in *; try done. bools. subst.
    unfold field_text. apply text_idemp. }
  rewrite <- Hstep. eapply IH; [done| |done]. by rewrite Hstep.
Qed.

(** Attaching an identity graph never changes an identity the target already
    has: a success leaves every non-empty field text as it was (a different
    incoming value raises [runtime_identity_drift]). *)
Theorem attach_graph_no_drift target graph r f :
  attach_runtime_identity_graph sha256_hex target graph = Ok r ->
  f ∈ RUNTIME_IDENTITY_GRAPH_FIELDS -> field_text f target <> "" ->
  field_text f r = field_text f target.
Proof.
  unfold attach_runtime_identity_graph. unfold_m.
  destruct (canonical_runtime_identity_graph _ graph false) as [c|e]; [|done].
  intros H Hf Hne.
  assert (Hn : "runtime_identity_graph" ∉ RUNTIME_IDENTITY_GRAPH_FIELDS) by compute_decide.
  assert (Hfr : f <> "runtime_identity_graph") by congruence.
  assert (Hset : field_text f (dset "runtime_identity_graph" (VDict c) target)
                 = field_text f target)
    by (unfold field_text; by rewrite vget_dset_ne).
  rewrite <- Hset. bind_ok H.
  eapply attach_fields_keeps; [done| |done]. by rewrite Hset.
Qed.

End lineage_properties.

(** ** Concrete runs

    The digest is instantiated with a function that tells inputs of even and
    of odd length apart: a hex text, as the digest is. *)

Definition demo_sha256 (b : string) : string :=
  if Nat.even (String.length b) then "00112233445566778899aabbccddeeff"
  else "ffeeddccbbaa99887766554433221100".

Lemma demo_sha256_no_space b : no_space (demo_sha256 b) = true.
Proof. unfold demo_sha256. by destruct (Nat.even _). Qed.

(** A root goal, and a task that carries it in a nested mapping. *)
Definition demo_root : list (string * val) :=
  match create_root_goal_lineage demo_sha256 " goal-1 " (Some "s1") None with
  | Ok l => l | Raise _ => [] end.

Definition demo_task : list (string * val) :=
  [("task_id", VStr "t1"); ("metadata", VDict [("goal_lineage", VDict demo_root)]);
   ("goal_id", VStr "goal-1"); ("continuation_id", VStr "c9")].

Lemma extract_idempotent_witness :
  exists l, extract_goal_lineage demo_sha256 (VDict demo_task) true true = Ok l
            /\ extract_goal_lineage demo_sha256 (VDict l) true true = Ok l.
Proof.
  eexists. split; [vm_compute; reflexivity|].
  apply (extract_idempotent demo_sha256 demo_sha256_no_space (VDict demo_task) true).
  vm_compute. reflexivity.
Defined.

Lemma branch_keeps_scope_witness :
  exists child p,
    create_goal_branch_lineage demo_sha256 (VDict demo_root) "goal-2" "replan" "r1" = Ok child
    /\ extract_goal_lineage demo_sha256 (VDict demo_root) true true = Ok p
    /\ Forall (fun f => vget f child = vget f p)
         ["root_goal_id"; "goal_lineage_id"; "session_id"; "runtime_session_id"].
Proof.
  destruct (create_goal_branch_lineage demo_sha256 (VDict demo_root) "goal-2" "replan" "r1")
    as [child|e] eqn:E; [|exfalso; revert E; vm_compute; discriminate].
  destruct (branch_keeps_scope demo_sha256 demo_sha256_no_space _ _ _ _ _ E)
    as (p & Hp & Hs & _).
  exists child, p. auto.
Defined.

Lemma attach_then_extract_witness :
  exists r, attach_goal_lineage demo_sha256
              [("goal_id", VStr "other"); ("note", VInt 3)] (VDict demo_root) = Ok r
  /\ exists c, extract_goal_lineage demo_sha256 (VDict demo_root) true false = Ok c
            /\ extract_goal_lineage demo_sha256 (VDict r) true true = Ok c.
Proof.
  destruct (attach_goal_lineage demo_sha256
              [("goal_id", VStr "other"); ("note", VInt 3)] (VDict demo_root))
    as [r|e] eqn:E; [|exfalso; revert E; vm_compute; discriminate].
  destruct (attach_then_extract demo_sha256 demo_sha256_no_space _ _ _ E) as (c & H1 & H2 & _).
  eauto.
Defined.

Lemma attach_graph_no_drift_witness :
  exists r, attach_runtime_identity_graph demo_sha256
              [("goal_id", VStr " goal-1"); ("execution_id", VStr "x1")] (VDict demo_root) = Ok r
  /\ field_text "execution_id" r = "x1".
Proof.
  destruct (attach_runtime_identity_graph demo_sha256
     [("goal_id", VStr " goal-1"); ("execution_id", VStr "x1")] (VDict demo_root))
    as [r|e] eqn:E; [|exfalso; revert E; vm_compute; discriminate].
  exists r. split; [reflexivity|].
  rewrite (attach_graph_no_drift demo_sha256 _ _ _ "execution_id" E);
    [reflexivity|compute_decide|discriminate].
Defined.
