(* ===== verification/QueueContract.v ===== *)
(** * The lineage and idempotency seal of the persistent queues

    [core/runtime/persistent_queue_contract.py]: which lineage a payload
    carries, how lineage is merged without replacing what is there, when two
    payloads are the same work, and the classification of failures. *)

From S2P Require Import Prelude PyVal Lineage.

Definition QUEUE_LINEAGE_FIELDS : list string :=
  ["root_goal_id"; "goal_lineage_id"; "branch_type"; "branch_id"; "session_id";
   "runtime_session_id"; "goal_id"; "source_goal_id"; "cycle_index"; "task_id";
   "continuation_goal_id"; "continuation_task_id"; "replan_request_id"; "evidence_ref";
   "evidence_refs"; "decision_evidence_id"; "authority_state"].

Definition QUEUE_IDENTITY_FIELDS : list string :=
  ["task_id"; "continuation_task_id"; "continuation_goal_id"; "replan_request_id"].

Definition _NESTED_LINEAGE_KEYS : list string :=
  ["metadata"; "lineage"; "runtime_queue_item"; "task"; "continuation_work_item";
   "replan_record"; "replan_request"; "next_runtime_request"].

Definition _BLOCKED_MARKERS : list string :=
  ["blocked"; "policy_denied"; "policy denied"; "authority_denied"; "authority denied";
   "permission_denied"; "permission denied"; "forbidden"].

Definition _RECOVERABLE_MARKERS : list string :=
  ["recoverable"; "repairable"; "retryable"; "missing_artifact"; "missing artifact";
   "missing_output"; "missing output"; "verification_failed"; "verification failed";
   "validation_failed"; "validation failed"; "artifact_not_found"; "output_not_found";
   "request_replan"; "retry_with_replan"; "manual_or_planner_replan"; " replan "].

Definition _present (value : val) : bool :=
  match value with
  | VNone | VStr EmptyString | VList [] | VDict [] => false
  | _ => true
  end.

Definition _queue_sources (payload : list (string * val)) : list (list (string * val)) :=
  sources _NESTED_LINEAGE_KEYS (VDict payload).

(** [next((s.get(f) for s in sources if _present(s.get(f))), None)] *)
Fixpoint first_present (f : string) (srcs : list (list (string * val))) : val :=
  match srcs with
  | [] => VNone
  | s :: srcs' => if _present (vget f s) then vget f s else first_present f srcs'
  end.

(** [if _present(v): lineage[k] = v] *)
Definition set_present (k : string) (v : val) (lineage : list (string * val))
  : list (string * val) := if _present v then dset k v lineage else lineage.

(** The ids found in a continuation work item and in a replan record. *)
Definition continuation_lineage (payload : list (string * val)) : list (string * val) :=
  match vget "continuation_work_item" payload with
  | VDict c =>
      set_present "continuation_task_id"
        (py_or (vget "continuation_task_id" c) (vget "task_id" c))
        (set_present "continuation_goal_id"
           (py_or (vget "continuation_goal_id" c) (vget "goal_id" c)) [])
  | _ => []
  end.

Definition replan_id_of (r : list (string * val)) : val :=
  let id := py_or (vget "replan_request_id" r) (vget "request_id" r) in
  match vget "replan_request" r with
  | VDict q => if _present id then id else vget "request_id" q
  | _ => id
  end.

Definition replan_lineage (payload lineage : list (string * val)) : list (string * val) :=
  match vget "replan_record" payload with
  | VDict r => set_present "replan_request_id" (replan_id_of r) lineage
  | _ => lineage
  end.

(** The evidence references of all the sources, then the two scalar ones. *)
Definition collect_refs (srcs : list (list (string * val))) : list val :=
  concat (map (fun s => match vget "evidence_refs" s with VList l => l | _ => [] end) srcs)
  ++ filter (fun v => _present v = true)
       (map (fun f => first_present f srcs) ["evidence_ref"; "decision_evidence_id"]).

(** One turn of the loop over [QUEUE_LINEAGE_FIELDS]. *)
Definition extract_field (srcs : list (list (string * val))) (lineage : list (string * val))
    (field : string) : res (list (string * val)) :=
  if dmem field lineage then Ok lineage
  else if (field =? "evidence_refs")%string then
    match collect_refs srcs with
    | [] => Ok lineage
    | refs => l ← from_keys refs; Ok (dset field (VList l) lineage)
    end
  else Ok (set_present field (first_present field srcs) lineage).

Definition extract_queue_lineage (payload : val) : res (list (string * val)) :=
  match payload with
  | VDict p =>
      rfold (extract_field (_queue_sources p)) QUEUE_LINEAGE_FIELDS
        (replan_lineage p (continuation_lineage p))
  | _ => Ok []
  end.

Definition conflict (field : string) (kept rejected : val) : val :=
  VDict [("field", VStr field); ("kept", kept); ("rejected", rejected)].

(** One incoming field of one source; the accumulator is the merged dict and
    the conflicts found so far. *)
Definition merge_field (preserve : bool) (acc : list (string * val) * list val)
    (fv : string * val) : res (list (string * val) * list val) :=
  let '(merged, conflicts) := acc in
  let '(field, value) := fv in
  let existing := vget field merged in
  if (field =? "evidence_refs")%string then
    let existing_refs := match existing with VList l => l | _ => [] end in
    let incoming := match value with VList l => l | _ => [] end in
    if preserve && negb (bool_decide (length existing_refs = 0)) then
      let rejected := filter (fun x => vin x existing_refs = false) incoming in
      Ok (dset field (VList existing_refs) merged,
          match rejected with
          | [] => conflicts
          | _ => conflicts ++ [conflict field (VList existing_refs) (VList rejected)]
          end)
    else
      l ← from_keys (existing_refs ++ incoming);
      Ok (dset field (VList l) merged, conflicts)
  else if negb (_present existing) then Ok (dset field value merged, conflicts)
  else if negb (py_eq existing value) then
    Ok (merged, conflicts ++ [conflict field existing value])
  else Ok (merged, conflicts).

Definition merge_source (preserve : bool) (acc : list (string * val) * list val)
    (source : val) : res (list (string * val) * list val) :=
  incoming ← extract_queue_lineage source;
  rfold (merge_field preserve) incoming acc.

Definition merge_queue_lineage (target : list (string * val)) (srcs : list val)
    (preserve_existing_evidence : bool) : res (list (string * val) * list val) :=
  rfold (merge_source preserve_existing_evidence) srcs (target, []).

Definition queue_session_id (payload : val) : res string :=
  match payload with
  | VDict _ => i ← extract_runtime_identity payload false true; Ok (field_str "session_id" i)
  | _ => Ok ""
  end.

Definition queue_identity (payload : val) : res (list (string * val)) :=
  lineage ← extract_queue_lineage payload;
  let identity :=
    map (fun f => (f, VStr (field_text f lineage)))
        (filter (fun f => field_text f lineage <> "") QUEUE_IDENTITY_FIELDS) in
  session_id ← queue_session_id payload;
  Ok (if non_empty session_id then dupdate [("session_id", VStr session_id)] identity
      else identity).

(** [" " + " ".join(str(value or '').strip().lower() for value in values) + " "] *)
Definition failure_text (values : list val) : string :=
  " " +:+ join " " (map (fun v => lower (text v)) values) +:+ " ".

Definition classify_queue_failure (values : list val) : string :=
  let t := failure_text values in
  if existsb (fun m => contains m t) _BLOCKED_MARKERS then "blocked"
  else if existsb (fun m => contains m t) _RECOVERABLE_MARKERS then "replan"
  else "failed".

Section identity.
Context (sha256_hex : string -> string).

(** The first existing payload with the given work identity. *)
Fixpoint find_same_work (key : string * string * string * string * string)
    (existing_items : list val) : res (option val) :=
  match existing_items with
  | [] => Ok None
  | x :: rest =>
      k ← canonical_work_identity sha256_hex x;
      if bool_decide (k = Some key) then Ok (Some x) else find_same_work key rest
  end.

(** What the duplicate shares with the candidate. *)
Definition matched_identity (candidate existing : val) : res (list (string * val)) :=
  candidate_identity ← queue_identity candidate;
  existing_identity ← queue_identity existing;
  let matched := filter (fun fv => truthy fv.2 = true
                            /\ py_eq (vget fv.1 existing_identity) fv.2 = true)
                        candidate_identity in
  explicit ← extract_queue_lineage candidate;
  if truthy (vget "goal_lineage_id" explicit) || truthy (vget "root_goal_id" explicit) then
    lineage ← extract_goal_lineage sha256_hex candidate false false;
    Ok (dupdate matched
          [("goal_lineage_id", VStr (field_str "goal_lineage_id" lineage));
           ("branch_type", VStr (field_str "branch_type" lineage));
           ("branch_id", VStr (field_str "branch_id" lineage))])
  else Ok matched.

Definition duplicate_identity (candidate : val) (existing_items : list val)
  : res (option val * list (string * val)) :=
  key ← canonical_work_identity sha256_hex candidate;
  match key with
  | None => Ok (None, [])
  | Some k =>
      found ← find_same_work k existing_items;
      match found with
      | None => Ok (None, [])
      | Some existing =>
          matched ← matched_identity candidate existing;
          Ok (Some existing, matched)
      end
  end.

End identity.

(** ** Lemmas on extraction *)

(** A value is supplied by the sources when some source holds it under some
    key (for [evidence_refs]: each element is in a source's list or is a
    source's scalar reference). *)
Definition supplied (srcs : list (list (string * val))) (v : val) : Prop :=
  exists s k, s ∈ srcs /\ vget k s = v.

Definition supplied_ref (srcs : list (list (string * val))) (v : val) : Prop :=
  (exists s l, s ∈ srcs /\ vget "evidence_refs" s = VList l /\ v ∈ l) \/ supplied srcs v.

Definition lineage_entry_ok (srcs : list (list (string * val))) (f : string) (v : val) : Prop :=
  if (f =? "evidence_refs")%string
  then exists l, v = VList l /\ Forall (supplied_ref srcs) l
  else _present v = true /\ supplied srcs v.


Definition extracted (srcs : list (list (string * val))) (lineage : list (string * val)) : Prop :=
  forall f v, dget f lineage = Some v ->
    f ∈ QUEUE_LINEAGE_FIELDS /\ lineage_entry_ok srcs f v.

Lemma sources_nested keys d k e :
  k ∈ keys -> vget k d = VDict e ->
  forall s, s ∈ sources keys (VDict e) -> s ∈ sources keys (VDict d).
Proof.
  intros Hk He s Hs. rewrite sources_eq. apply elem_of_cons. right.
  apply list_elem_of_In, in_concat. exists (sources keys (VDict e)).
  split; [|by apply list_elem_of_In].
  apply in_map_iff. exists k. split; [by rewrite He|by apply list_elem_of_In].
Qed.

Lemma sources_self keys d : d ∈ sources keys (VDict d).
Proof. rewrite sources_eq. apply elem_of_cons. by left. Qed.

Lemma first_present_supplied f srcs :
  _present (first_present f srcs) = true -> supplied srcs (first_present f srcs).
Proof.
  induction srcs as [|s srcs IH]; simpl; [done|].
  destruct (_present (vget f s)) eqn:E.
  - intros _. exists s, f. split; [apply elem_of_cons; by left|done].
  - intros H. destruct (IH H) as (s' & k & Hs & Hk). exists s', k.
    split; [apply elem_of_cons; by right|done].
Qed.

Lemma extracted_set srcs lineage k v :
  extracted srcs lineage -> k ∈ QUEUE_LINEAGE_FIELDS -> lineage_entry_ok srcs k v ->
  extracted srcs (dset k v lineage).
Proof.
  intros H Hk Hv f w. rewrite dget_dset. destruct (String.eqb_spec k f) as [->|].
  - intros; by simplify_eq.
  - apply H.
Qed.

Lemma extracted_set_present srcs lineage k v :
  extracted srcs lineage -> k ∈ QUEUE_LINEAGE_FIELDS -> k <> "evidence_refs" ->
  (_present v = true -> supplied srcs v) -> extracted srcs (set_present k v lineage).
Proof.
  intros H Hk Hn Hv. unfold set_present. destruct (_present v) eqn:E; [|done].
  apply extracted_set; [done|done|]. unfold lineage_entry_ok.
  apply String.eqb_neq in Hn as ->. auto.
Qed.

Lemma py_or_supplied srcs a b : supplied srcs a -> supplied srcs b -> supplied srcs (py_or a b).
Proof. unfold py_or. by destruct (truthy a). Qed.

Lemma supplied_get srcs s k : s ∈ srcs -> supplied srcs (vget k s).
Proof. by exists s, k. Qed.

#[local] Hint Resolve py_or_supplied supplied_get : core.

Lemma extracted_start p :
  extracted (_queue_sources p) (replan_lineage p (continuation_lineage p)).
Proof.
  unfold replan_lineage, continuation_lineage, _queue_sources.
  assert (Hin : forall k e, k ∈ _NESTED_LINEAGE_KEYS -> vget k p = VDict e ->
            forall s, s ∈ sources _NESTED_LINEAGE_KEYS (VDict e) ->
            s ∈ sources _NESTED_LINEAGE_KEYS (VDict p)) by (intros; by eapply sources_nested).
  assert (Hself := sources_self _NESTED_LINEAGE_KEYS).
  assert (Hc : extracted (sources _NESTED_LINEAGE_KEYS (VDict p)) (continuation_lineage p)).
  { unfold continuation_lineage. destruct (vget "continuation_work_item" p) as [| | | | |c] eqn:E;
      try (intros f v Hv; discriminate Hv).
    assert (c ∈ sources _NESTED_LINEAGE_KEYS (VDict p)).
    { eapply Hin; [|exact E|apply Hself]. compute_decide. }
    repeat (apply extracted_set_present; [|compute_decide|discriminate|auto]).
    intros f v Hv; discriminate Hv. }
  destruct (vget "replan_record" p) as [| | | | |r] eqn:E; try exact Hc.
  assert (Hr : forall s, s ∈ sources _NESTED_LINEAGE_KEYS (VDict r) ->
               s ∈ sources _NESTED_LINEAGE_KEYS (VDict p)).
  { apply (Hin "replan_record"); [compute_decide|done]. }
  apply extracted_set_present; [exact Hc|compute_decide|discriminate|]. intros _.
  unfold replan_id_of. destruct (vget "replan_request" r) as [| | | | |q] eqn:Eq; auto.
  destruct (_present _); [auto|]. apply supplied_get, Hr.
  eapply (sources_nested _ _ "replan_request"); [compute_decide|exact Eq|apply Hself].
Qed.

Lemma vdedup_elem seen l v : v ∈ vdedup seen l -> v ∈ l.
Proof.
  revert seen. induction l as [|x l IH]; simpl; intros seen; [done|].
  destruct (vin x seen); rewrite ?elem_of_cons; naive_solver.
Qed.

Lemma from_keys_elem l r v : from_keys l = Ok r -> v ∈ r -> v ∈ l.
Proof. unfold from_keys. destruct (forallb _ _); [|done]. intros [= <-]. apply vdedup_elem. Qed.

Lemma collect_refs_supplied srcs v : v ∈ collect_refs srcs -> supplied_ref srcs v.
Proof.
  unfold collect_refs. rewrite elem_of_app. intros [H|H].
  - left. apply list_elem_of_In, in_concat in H as (l & Hl & Hv).
    apply in_map_iff in Hl as (s & Hs & Hin). apply list_elem_of_In in Hin, Hv.
    destruct (vget "evidence_refs" s) as [| | | |l'|] eqn:E; subst l; try (by apply elem_of_nil in Hv).
    by exists s, l'.
  - right. apply list_elem_of_filter in H as [Hp H].
    apply list_elem_of_In, in_map_iff in H as (f & <- & _). by apply first_present_supplied.
Qed.

Lemma extract_queue_lineage_extracted p l :
  extract_queue_lineage (VDict p) = Ok l -> extracted (_queue_sources p) l.
Proof.
  unfold extract_queue_lineage. pose proof (extracted_start p) as H0. revert H0.
  generalize (_queue_sources p). intros srcs H0. apply rfold_inv; [|exact H0].
  intros b f b' Hf Hb. unfold extract_field. destruct (dmem f b); [by intros [= <-]|].
  destruct (String.eqb_spec f "evidence_refs") as [->|Hn].
  - destruct (collect_refs srcs) as [|x rest] eqn:E; [by intros [= <-]|].
    rewrite <- E. clear E. unfold_m. destruct (from_keys _) as [r|e] eqn:Er; [|done].
    intros [= <-]. apply extracted_set; [done|done|]. unfold lineage_entry_ok.
    rewrite String.eqb_refl. exists r. split; [done|]. apply Forall_forall. intros v Hv.
    eapply collect_refs_supplied, from_keys_elem; done.
  - intros [= <-]. apply extracted_set_present;
      [exact Hb|exact Hf|exact Hn|apply first_present_supplied].
Qed.

(** ** Lemmas on merging *)

(** A value already present is never replaced by [merge_field]. *)
Definition keeps (preserve : bool) (m m' : list (string * val)) : Prop :=
  forall f, _present (vget f m) = true ->
    (f <> "evidence_refs" -> vget f m' = vget f m)
    /\ (f = "evidence_refs" -> preserve = true -> forall x l, vget f m = VList (x :: l) ->
        vget f m' = vget f m).

Lemma keeps_refl p m : keeps p m m.
Proof. by split. Qed.

Lemma keeps_trans p m1 m2 m3 : keeps p m1 m2 -> keeps p m2 m3 -> keeps p m1 m3.
Proof.
  intros H1 H2 f Hf. destruct (H1 f Hf) as [Ha Hb]. split.
  - intros Hn. specialize (Ha Hn). rewrite <- Ha in Hf. destruct (H2 f Hf) as [Hc _].
    by rewrite Hc.
  - intros He Hp x l Hl. specialize (Hb He Hp x l Hl). rewrite <- Hb in Hf.
    destruct (H2 f Hf) as [_ Hd]. rewrite (Hd He Hp x l); [done|congruence].
Qed.

Lemma merge_field_keeps p m c fv m' c' :
  merge_field p (m, c) fv = Ok (m', c') -> keeps p m m'.
Proof.
  destruct fv as [f v]. unfold merge_field. destruct (String.eqb_spec f "evidence_refs") as [->|Hn].
  - set (refs := match vget "evidence_refs" m with VList l => l | _ => [] end).
    intros H g Hg. split.
    + intros Hne. assert (G : forall w, vget g (dset "evidence_refs" w m) = vget g m)
        by (intros; rewrite vget_dset_ne by congruence; done).
      destruct (p && _); [by injection H as <- _; apply G|]. unfold_m.
      destruct (from_keys _); [|done]. by injection H as <- _; apply G.
    + intros -> -> x l Hl. subst refs. rewrite Hl in H. simpl in H. injection H as <- _.
      by rewrite vget_dset_eq, Hl.
  - destruct (_present (vget f m)) eqn:E; cbn [negb].
    + destruct (negb _); intros [= <- _]; apply keeps_refl.
    + intros [= <- _] g Hg. assert (f <> g) by congruence.
      rewrite vget_dset_ne by done. by split.
Qed.

Lemma merge_fields_keeps p incoming : forall acc acc',
  rfold (merge_field p) incoming acc = Ok acc' -> keeps p acc.1 acc'.1.
Proof.
  intros acc acc'. apply (rfold_inv _ (fun a => keeps p acc.1 a.1)); [|apply keeps_refl].
  intros [m c] fv [m' c'] _ Hk H. eapply keeps_trans; [exact Hk|by eapply merge_field_keeps].
Qed.

Lemma merge_sources_keeps p srcs : forall acc acc',
  rfold (merge_source p) srcs acc = Ok acc' -> keeps p acc.1 acc'.1.
Proof.
  intros acc acc'. apply (rfold_inv _ (fun a => keeps p acc.1 a.1)); [|apply keeps_refl].
  intros b s b' _ Hk. unfold merge_source. unfold_m.
  destruct (extract_queue_lineage s); [|done]. intros H.
  eapply keeps_trans; [exact Hk|by eapply merge_fields_keeps].
Qed.

(** ** Lemmas on the failure text *)

Lemma contains_left m s t : contains m s = true -> contains m (t +:+ s) = true.
Proof.
  induction t as [|c t IH]; [done|]. intros H. rewrite string_app_cons. simpl.
  rewrite IH by done. apply orb_true_r.
Qed.

Lemma prefix_app m s t : String.prefix m s = true -> String.prefix m (s +:+ t) = true.
Proof.
  revert s. induction m as [|c m IH]; intros [|d s]; try done; [by destruct t|].
  rewrite string_app_cons. simpl.
  destruct (Ascii.ascii_dec c d); [apply IH|done].
Qed.

Lemma contains_right m s t : contains m s = true -> contains m (s +:+ t) = true.
Proof.
  induction s as [|c s IH].
  - destruct m; simpl; [|done]. intros _. by destruct t.
  - change (contains m (String c s)) with (String.prefix m (String c s) || contains m s).
    change (contains m (String c s +:+ t))
      with (String.prefix m (String c s +:+ t) || contains m (s +:+ t)).
    intros [H|H]%orb_true_iff; [by rewrite (prefix_app _ _ t H)|].
    by rewrite IH, orb_true_r.
Qed.

Lemma join_mid sep (f : val -> string) l v :
  v ∈ l -> exists a b, join sep (map f l) = a +:+ f v +:+ b.
Proof.
  induction l as [|x l IH]; [by intros ?%elem_of_nil|].
  intros [->|Hv]%elem_of_cons.
  - exists EmptyString. destruct l as [|y l]; [exists EmptyString|].
    + by rewrite string_app_nil.
    + by eexists.
  - destruct (IH Hv) as (a & b & E). destruct l as [|y l]; [by apply elem_of_nil in Hv|].
    exists (f x +:+ sep +:+ a), b.
    change (join sep (map f (x :: y :: l))) with (f x +:+ sep +:+ join sep (map f (y :: l))).
    rewrite E. by rewrite !string_app_assoc.
Qed.

Lemma contains_failure_text m v values :
  v ∈ values -> contains m (lower (text v)) = true ->
  contains m (failure_text values) = true.
Proof.
  intros Hv Hm. unfold failure_text.
  destruct (join_mid " " (fun v => lower (text v)) values v Hv) as (a & b & ->).
  apply contains_left, contains_right, contains_left, contains_right, Hm.
Qed.

(** ** Properties *)

(** Lineage is only extracted, never manufactured: every entry of an extracted
    queue lineage is under a lineage field, is present, and its value (for
    [evidence_refs], each element) stands in the payload or in one of its
    nested mappings. *)
Theorem queue_lineage_from_sources p l f v :
  extract_queue_lineage (VDict p) = Ok l -> dget f l = Some v ->
  f ∈ QUEUE_LINEAGE_FIELDS
  /\ (f <> "evidence_refs" -> _present v = true /\ supplied (_queue_sources p) v)
  /\ (f = "evidence_refs" ->
      exists refs, v = VList refs /\ Forall (supplied_ref (_queue_sources p)) refs).
Proof.
  intros H%extract_queue_lineage_extracted Hf. destruct (H f v Hf) as [Hin He].
  split; [exact Hin|]. unfold lineage_entry_ok in He.
  destruct (String.eqb_spec f "evidence_refs"); split; (exact (fun _ => He) || congruence).
Qed.

(** Merging never replaces what is there: after merging any sources, every
    present field keeps its value; and when existing evidence is preserved, a
    non-empty evidence list is kept as it is. *)
Theorem merge_keeps_existing target srcs preserve merged conflicts f :
  merge_queue_lineage target srcs preserve = Ok (merged, conflicts) ->
  _present (vget f target) = true ->
  (f <> "evidence_refs" -> vget f merged = vget f target)
  /\ (f = "evidence_refs" -> preserve = true ->
      forall x l, vget f target = VList (x :: l) -> vget f merged = vget f target).
Proof. intros H Hp. exact (merge_sources_keeps _ _ _ _ H f Hp). Qed.

(** A blocked marker in the text of any one of the values classifies the
    failure as ["blocked"], whatever the other values say. *)
Theorem blocked_marker_dominates values v m :
  v ∈ values -> m ∈ _BLOCKED_MARKERS -> contains m (lower (text v)) = true ->
  classify_queue_failure values = "blocked".
Proof.
  intros Hv Hm Hc. unfold classify_queue_failure.
  assert (E : existsb (fun m => contains m (failure_text values)) _BLOCKED_MARKERS = true).
  { apply existsb_exists. exists m. split; [by apply list_elem_of_In|].
    by eapply contains_failure_text. }
  by rewrite E.
Qed.

(** The duplicate found is the first item with the candidate's own work
    identity: a result is such an item with no earlier one, and no result means
    the candidate has no identity or no item shares it. *)
Theorem duplicate_identity_first sha candidate items r matched :
  duplicate_identity sha candidate items = Ok (r, matched) ->
  match r with
  | Some x => exists k before after,
      canonical_work_identity sha candidate = Ok (Some k)
      /\ items = before ++ x :: after
      /\ canonical_work_identity sha x = Ok (Some k)
      /\ Forall (fun y => canonical_work_identity sha y <> Ok (Some k)) before
  | None => forall k, canonical_work_identity sha candidate = Ok (Some k) ->
      Forall (fun y => canonical_work_identity sha y <> Ok (Some k)) items
  end.
Proof.
  unfold duplicate_identity. unfold_m.
  destruct (canonical_work_identity sha candidate) as [[k|]|e]; [| |done].
  2: { intros [= <- <-]. intros k [=]. }
  destruct (find_same_work sha k items) as [found|e] eqn:E; [|done]. intros H.
  assert (Hfound : match found with
    | Some x => exists before after, items = before ++ x :: after
        /\ canonical_work_identity sha x = Ok (Some k)
        /\ Forall (fun y => canonical_work_identity sha y <> Ok (Some k)) before
    | None => Forall (fun y => canonical_work_identity sha y <> Ok (Some k)) items end).
  { clear H. revert E. induction items as [|x items IH]; simpl; [by intros [= <-]|].
    unfold_m. destruct (canonical_work_identity sha x) as [kx|] eqn:Ex; [|done].
    case_bool_decide as Hk.
    - intros [= <-]. exists [], items. subst kx. done.
    - intros H. specialize (IH H). destruct found as [y|].
      + destruct IH as (b & a & -> & Hy & Hb). exists (x :: b), a.
        split_and!; [done|done|]. constructor; [congruence|done].
      + constructor; [congruence|done]. }
  destruct found as [x|].
  - destruct (matched_identity sha candidate x) as [mi|]; [|done].
    injection H as <- <-. destruct Hfound as (l1 & l2 & ? & ? & ?). by exists k, l1, l2.
  - injection H as <- <-. by intros k' [= <-].
Qed.

(** ** Concrete runs *)

Definition demo_payload : list (string * val) :=
  [("task_id", VStr "t1"); ("evidence_ref", VStr "e1");
   ("metadata", VDict [("goal_id", VStr "g1"); ("evidence_refs", VList [VStr "e0"; VStr "e1"])]);
   ("continuation_work_item", VDict [("goal_id", VStr "g2")])].

Lemma queue_lineage_from_sources_witness :
  exists l, extract_queue_lineage (VDict demo_payload) = Ok l
    /\ dget "continuation_goal_id" l = Some (VStr "g2")
    /\ supplied (_queue_sources demo_payload) (VStr "g2").
Proof.
  eexists. split; [vm_compute; reflexivity|]. split; [reflexivity|].
  refine (proj2 (proj1 (proj2 (queue_lineage_from_sources demo_payload _
    "continuation_goal_id" (VStr "g2") _ _)) _));
    [vm_compute; reflexivity|reflexivity|discriminate].
Defined.

Lemma merge_keeps_existing_witness :
  exists m c, merge_queue_lineage [("goal_id", VStr "g0")] [VDict demo_payload] true = Ok (m, c)
    /\ vget "goal_id" m = VStr "g0" /\ length c = 1 /\ vget "task_id" m = VStr "t1".
Proof.
  eexists _, _. split; [vm_compute; reflexivity|].
  split; [|split; reflexivity].
  refine (proj1 (merge_keeps_existing [("goal_id", VStr "g0")] [VDict demo_payload] true
    _ _ "goal_id" _ _) _); [vm_compute; reflexivity|reflexivity|discriminate].
Defined.

Lemma blocked_marker_dominates_witness :
  classify_queue_failure [VStr "retryable"; VStr " Policy_Denied: no"] = "blocked".
Proof.
  apply (blocked_marker_dominates _ (VStr " Policy_Denied: no") "policy_denied");
    [repeat constructor|compute_decide|vm_compute; reflexivity].
Defined.

Lemma duplicate_identity_first_witness :
  exists r m, duplicate_identity demo_sha256 (VDict demo_root)
                [VNone; VDict demo_payload; VDict Lineage.demo_task] = Ok (r, m)
  /\ r = Some (VDict Lineage.demo_task)
  /\ exists k, canonical_work_identity demo_sha256 (VDict demo_root) = Ok (Some k).
Proof.
  destruct (duplicate_identity demo_sha256 (VDict demo_root)
              [VNone; VDict demo_payload; VDict Lineage.demo_task]) as [[r m]|e] eqn:E;
    [|exfalso; revert E; vm_compute; discriminate].
  assert (Hr : r = Some (VDict Lineage.demo_task)) by (revert E; vm_compute; congruence).
  subst r. exists (Some (VDict Lineage.demo_task)), m. split; [reflexivity|].
  destruct (duplicate_identity_first _ _ _ _ _ E) as (k & _ & _ & Hk & _).
  split; [reflexivity|]. by exists k.
Defined.
