(* ===== verification/Authority.v ===== *)
(** * The runtime authority seal

    [core/runtime/runtime_authority_seal.py].  Authorities are frozen objects
    compared by identity: an object is authoritative when the boundary's
    registry for its kind holds that very object, which only the issuing
    functions write.  Objects live in a store of their own: a reference is an
    address and [id(value)] is that address (a registry keeps its objects
    alive, so the address of a registered object is never given to another
    one).  A program may also build any of the dataclasses directly, which is
    the operation [Forge]. *)

From S2P Require Import Prelude PyVal.

Inductive token : Type :=
  | RUNTIME_DISPATCHER_ISSUER_TOKEN
  | TASK_RUNNER_ISSUER_TOKEN
  | WORK_PACKAGE_SCHEDULER_ISSUER_TOKEN
  | GOVERNED_RUNTIME_EVIDENCE_ISSUER_TOKEN
  | OtherObject.

#[export] Instance token_eq_dec : EqDecision token.
Proof. solve_decision. Defined.

Module Capability.
Record t : Type := mk {
  task_id : string; session_id : string; package_id : string;
  step_id : string; delegated : bool; execution_id : string; capability_id : string }.

Definition to_dict (c : t) : list (string * val) :=
  [("schema", VStr "zero.runtime_execution_capability.summary.v1");
   ("task_id", VStr (task_id c)); ("session_id", VStr (session_id c));
   ("package_id", VStr (package_id c)); ("step_id", VStr (step_id c));
   ("delegated", VBool (delegated c)); ("authoritative", VBool false);
   ("execution_id", VStr (execution_id c)); ("capability_id", VStr (capability_id c))].
End Capability.

Module TaskCompletion.
Record t : Type := mk { task_id : string; package_id : string; session_id : string }.

Definition to_dict (c : t) : list (string * val) :=
  [("schema", VStr "zero.task_completion_authority.summary.v1");
   ("task_id", VStr (task_id c)); ("package_id", VStr (package_id c));
   ("session_id", VStr (session_id c)); ("authoritative", VBool false)].
End TaskCompletion.

Module PackageCompletion.
Record t : Type := mk { package_id : string; session_id : string }.

Definition to_dict (c : t) : list (string * val) :=
  [("schema", VStr "zero.work_package_completion_authority.summary.v1");
   ("package_id", VStr (package_id c)); ("session_id", VStr (session_id c));
   ("authoritative", VBool false)].
End PackageCompletion.

Module Evidence.
Record t : Type := mk {
  task_id : string; package_id : string; session_id : string; step_id : string;
  execution_id : string; capability_id : string; evidence_id : string }.

Definition to_dict (c : t) : list (string * val) :=
  [("schema", VStr "zero.terminal_execution_evidence.summary.v1");
   ("task_id", VStr (task_id c)); ("package_id", VStr (package_id c));
   ("session_id", VStr (session_id c)); ("step_id", VStr (step_id c));
   ("authoritative", VBool false); ("execution_id", VStr (execution_id c));
   ("capability_id", VStr (capability_id c)); ("evidence_id", VStr (evidence_id c))].
End Evidence.

(** Any object: one of the four dataclasses, or something else. *)
Inductive obj : Type :=
  | OCapability (c : Capability.t)
  | OTask (c : TaskCompletion.t)
  | OPackage (c : PackageCompletion.t)
  | OEvidence (c : Evidence.t)
  | OForeign.

Abbreviation ref := nat (only parsing).

(** The store and the six registries of [_build_authority_boundary]. *)
Record boundary : Type := Boundary {
  store : gmap nat obj;
  next : nat;
  dispatch_capabilities : gmap nat nat;
  delegated_capabilities : gmap nat nat;
  task_completions : gmap nat nat;
  terminal_evidence : gmap nat nat;
  package_completions : gmap nat nat;
  evidence_authorities : gmap nat nat }.

Definition initial : boundary := Boundary ∅ 0 ∅ ∅ ∅ ∅ ∅ ∅.

(** The construction of an object. *)
Definition alloc (o : obj) : M boundary ref := fun s =>
  (Ok (next s),
   Boundary (<[next s := o]> (store s)) (S (next s)) (dispatch_capabilities s)
     (delegated_capabilities s) (task_completions s) (terminal_evidence s)
     (package_completions s) (evidence_authorities s)).

(** [registry[id(v)] = v] *)
Definition reg_dispatch (v : ref) : M boundary unit := mmodify (fun s =>
  Boundary (store s) (next s) (<[v := v]> (dispatch_capabilities s)) (delegated_capabilities s)
    (task_completions s) (terminal_evidence s) (package_completions s) (evidence_authorities s)).
Definition reg_delegated (v : ref) : M boundary unit := mmodify (fun s =>
  Boundary (store s) (next s) (dispatch_capabilities s) (<[v := v]> (delegated_capabilities s))
    (task_completions s) (terminal_evidence s) (package_completions s) (evidence_authorities s)).
Definition reg_task (v : ref) : M boundary unit := mmodify (fun s =>
  Boundary (store s) (next s) (dispatch_capabilities s) (delegated_capabilities s)
    (<[v := v]> (task_completions s)) (terminal_evidence s) (package_completions s)
    (evidence_authorities s)).
Definition reg_evidence (v : ref) : M boundary unit := mmodify (fun s =>
  Boundary (store s) (next s) (dispatch_capabilities s) (delegated_capabilities s)
    (task_completions s) (<[v := v]> (terminal_evidence s)) (package_completions s)
    (evidence_authorities s)).
Definition reg_package (v : ref) : M boundary unit := mmodify (fun s =>
  Boundary (store s) (next s) (dispatch_capabilities s) (delegated_capabilities s)
    (task_completions s) (terminal_evidence s) (<[v := v]> (package_completions s))
    (evidence_authorities s)).
Definition reg_authority (v : ref) : M boundary unit := mmodify (fun s =>
  Boundary (store s) (next s) (dispatch_capabilities s) (delegated_capabilities s)
    (task_completions s) (terminal_evidence s) (package_completions s)
    (<[v := v]> (evidence_authorities s))).

(** [registry.get(id(v)) is v] *)
Definition registered (r : gmap nat nat) (v : ref) : bool := bool_decide (r !! v = Some v).

(** [arg is None or field == str(arg)] *)
Definition matches (arg : option string) (field : string) : bool :=
  match arg with None => true | Some x => (field =? x)%string end.

(** ** The predicates *)

Definition is_dispatch_execution_capability (s : boundary) (v : ref)
    (task_id : option string) : bool :=
  match store s !! v with
  | Some (OCapability c) =>
      registered (dispatch_capabilities s) v && negb (Capability.delegated c)
      && matches task_id (Capability.task_id c)
  | _ => false
  end.

Definition is_taskrunner_execution_capability (s : boundary) (v : ref)
    (task_id step_id package_id session_id : option string) : bool :=
  match store s !! v with
  | Some (OCapability c) =>
      registered (delegated_capabilities s) v && Capability.delegated c
      && matches task_id (Capability.task_id c)
      && ((Capability.step_id c =? "")%string || matches step_id (Capability.step_id c))
      && matches package_id (Capability.package_id c)
      && matches session_id (Capability.session_id c)
  | _ => false
  end.

Definition is_terminal_execution_evidence (s : boundary) (v : ref)
    (task_id package_id session_id : option string) : bool :=
  match store s !! v with
  | Some (OEvidence c) =>
      registered (terminal_evidence s) v && matches task_id (Evidence.task_id c)
      && matches package_id (Evidence.package_id c)
      && matches session_id (Evidence.session_id c)
  | _ => false
  end.

Definition is_task_completion_authority (s : boundary) (v : ref)
    (task_id package_id session_id : option string) : bool :=
  match store s !! v with
  | Some (OTask c) =>
      registered (task_completions s) v && matches task_id (TaskCompletion.task_id c)
      && matches package_id (TaskCompletion.package_id c)
      && matches session_id (TaskCompletion.session_id c)
  | _ => false
  end.

Definition is_work_package_completion_authority (s : boundary) (v : ref)
    (package_id session_id : option string) : bool :=
  match store s !! v with
  | Some (OPackage c) =>
      registered (package_completions s) v && matches package_id (PackageCompletion.package_id c)
      && (match session_id with None => true | Some _ => false end
          || (PackageCompletion.session_id c =? "")%string
          || matches session_id (PackageCompletion.session_id c))
  | _ => false
  end.

Definition is_runtime_evidence_authority (s : boundary) (v : ref) : bool :=
  registered (evidence_authorities s) v.

(** ** The issuers *)

Definition issue_dispatch_execution_capability (tok : token)
    (task_id session_id package_id execution_id capability_id : string) : M boundary ref :=
  if bool_decide (tok <> RUNTIME_DISPATCHER_ISSUER_TOKEN)
  then mraise (PermissionError "runtime_dispatcher_authority_required")
  else
    v ← alloc (OCapability (Capability.mk task_id session_id package_id "" false
                              execution_id capability_id));
    _ ← reg_dispatch v;
    mret v.

Definition delegate_taskrunner_execution_capability (tok : token) (capability : ref)
    (task_id step_id : string) : M boundary ref :=
  if bool_decide (tok <> TASK_RUNNER_ISSUER_TOKEN)
  then mraise (PermissionError "taskrunner_authority_required")
  else
    s ← mget;
    if negb (is_dispatch_execution_capability s capability (Some task_id))
    then mraise (PermissionError "runtime_dispatcher_live_capability_required")
    else
      match store s !! capability with
      | Some (OCapability dispatch) =>
          v ← alloc (OCapability (Capability.mk task_id (Capability.session_id dispatch)
                       (Capability.package_id dispatch) step_id true
                       (Capability.execution_id dispatch) (Capability.capability_id dispatch)));
          _ ← reg_delegated v;
          mret v
      | _ => mraise (RuntimeErr "unreachable")
      end.

Definition issue_terminal_execution_evidence (tok : token) (capability : ref)
    (task_id package_id session_id step_id : string) : M boundary ref :=
  if bool_decide (tok <> TASK_RUNNER_ISSUER_TOKEN)
  then mraise (PermissionError "taskrunner_authority_required")
  else
    s ← mget;
    if negb (is_taskrunner_execution_capability s capability (Some task_id) (Some step_id)
               (Some package_id) (Some session_id))
    then mraise (PermissionError "terminal_execution_lineage_required")
    else
      match store s !! capability with
      | Some (OCapability c) =>
          v ← alloc (OEvidence (Evidence.mk task_id package_id session_id step_id
                 (Capability.execution_id c) (Capability.capability_id c)
                 ("evidence:" +:+ Capability.execution_id c +:+ ":" +:+ step_id)));
          _ ← reg_evidence v;
          mret v
      | _ => mraise (RuntimeErr "unreachable")
      end.

Definition issue_task_completion_authority (tok : token)
    (task_id package_id session_id : string) (evidence : ref) : M boundary ref :=
  if bool_decide (tok <> TASK_RUNNER_ISSUER_TOKEN)
  then mraise (PermissionError "taskrunner_authority_required")
  else
    s ← mget;
    if negb (is_terminal_execution_evidence s evidence (Some task_id) (Some package_id)
               (Some session_id))
    then mraise (PermissionError "terminal_execution_evidence_required")
    else
      v ← alloc (OTask (TaskCompletion.mk task_id package_id session_id));
      _ ← reg_task v;
      mret v.

Definition issue_work_package_completion_authority (tok : token)
    (package_id session_id : string) : M boundary ref :=
  if bool_decide (tok ∉ [RUNTIME_DISPATCHER_ISSUER_TOKEN; WORK_PACKAGE_SCHEDULER_ISSUER_TOKEN])
  then mraise (PermissionError "work_package_completion_owner_required")
  else
    v ← alloc (OPackage (PackageCompletion.mk package_id session_id));
    _ ← reg_package v;
    mret v.

Definition register_runtime_evidence_authority (tok : token) (authority : ref)
  : M boundary unit :=
  if bool_decide (tok <> GOVERNED_RUNTIME_EVIDENCE_ISSUER_TOKEN)
  then mraise (PermissionError "governed_runtime_evidence_owner_required")
  else reg_authority authority.

(** ** The steps of a program that uses the boundary *)

Inductive op : Type :=
  | IssueDispatch (tok : token) (task session package execution capability : string)
  | Delegate (tok : token) (capability : ref) (task step : string)
  | IssueEvidence (tok : token) (capability : ref) (task package session step : string)
  | IssueTask (tok : token) (task package session : string) (evidence : ref)
  | IssuePackage (tok : token) (package session : string)
  | RegisterAuthority (tok : token) (authority : ref)
  | Forge (o : obj).

Definition run_op (o : op) : M boundary (option ref) :=
  match o with
  | IssueDispatch tok t s p e c =>
      v ← issue_dispatch_execution_capability tok t s p e c; mret (Some v)
  | Delegate tok cap t st =>
      v ← delegate_taskrunner_execution_capability tok cap t st; mret (Some v)
  | IssueEvidence tok cap t p s st =>
      v ← issue_terminal_execution_evidence tok cap t p s st; mret (Some v)
  | IssueTask tok t p s ev =>
      v ← issue_task_completion_authority tok t p s ev; mret (Some v)
  | IssuePackage tok p s =>
      v ← issue_work_package_completion_authority tok p s; mret (Some v)
  | RegisterAuthority tok v =>
      _ ← register_runtime_evidence_authority tok v; mret None
  | Forge o => v ← alloc o; mret (Some v)
  end.

(** A program only holds references to objects that exist. *)
Definition held (s : boundary) (v : ref) : Prop := is_Some (store s !! v).
Definition refs_held (s : boundary) (o : op) : Prop :=
  match o with
  | Delegate _ v _ _ | IssueEvidence _ v _ _ _ _ | IssueTask _ _ _ _ v
  | RegisterAuthority _ v => held s v
  | _ => True
  end.

Definition step (s s' : boundary) : Prop :=
  exists o, refs_held s o /\ s' = (run_op o s).2.
Definition reachable (s : boundary) : Prop := rtc step initial s.

(** ** What a task completion authority promises to its clients *)

Class CompletionGate (A : Type) : Type := {
  authorises : A -> string -> option string -> bool;
  authorises_task : forall a t1 t2 s1 s2,
    authorises a t1 s1 = true -> authorises a t2 s2 = true -> t1 = t2;
  authorises_session : forall a t s1 s2,
    authorises a t (Some s1) = true -> authorises a t (Some s2) = true -> s1 = s2 }.

(** The gate of the boundary in a given state. *)
#[export, refine] Instance seal_gate (s : boundary) : CompletionGate ref := {
  authorises v t sid := is_task_completion_authority s v (Some t) None sid }.
Proof.
  - unfold is_task_completion_authority. intros v t1 t2 s1 s2.
    destruct (store s !! v) as [[]|]; try done. simpl. intros. bools. congruence.
  - unfold is_task_completion_authority. intros v t s1 s2.
    destruct (store s !! v) as [[]|]; try done. simpl. intros. bools. congruence.
Defined.

(** ** The invariant of the boundary *)

Record sealed (s : boundary) : Prop := {
  sealed_store : forall v o, store s !! v = Some o -> v < next s;
  sealed_dispatch : forall v w, dispatch_capabilities s !! v = Some w ->
    w = v /\ exists c, store s !! v = Some (OCapability c) /\ Capability.delegated c = false;
  sealed_delegated : forall v w, delegated_capabilities s !! v = Some w ->
    w = v /\ exists c d cd, store s !! v = Some (OCapability c)
      /\ Capability.delegated c = true
      /\ dispatch_capabilities s !! d = Some d /\ store s !! d = Some (OCapability cd)
      /\ Capability.task_id cd = Capability.task_id c
      /\ Capability.session_id cd = Capability.session_id c
      /\ Capability.package_id cd = Capability.package_id c
      /\ Capability.execution_id cd = Capability.execution_id c;
  sealed_evidence : forall v w, terminal_evidence s !! v = Some w ->
    w = v /\ exists e d c, store s !! v = Some (OEvidence e)
      /\ delegated_capabilities s !! d = Some d /\ store s !! d = Some (OCapability c)
      /\ Evidence.task_id e = Capability.task_id c
      /\ Evidence.session_id e = Capability.session_id c
      /\ Evidence.package_id e = Capability.package_id c
      /\ Evidence.execution_id e = Capability.execution_id c
      /\ (Capability.step_id c = "" \/ Capability.step_id c = Evidence.step_id e);
  sealed_task : forall v w, task_completions s !! v = Some w ->
    w = v /\ exists a e ev, store s !! v = Some (OTask a)
      /\ terminal_evidence s !! ev = Some ev /\ store s !! ev = Some (OEvidence e)
      /\ TaskCompletion.task_id a = Evidence.task_id e
      /\ TaskCompletion.session_id a = Evidence.session_id e
      /\ TaskCompletion.package_id a = Evidence.package_id e;
  sealed_package : forall v w, package_completions s !! v = Some w ->
    w = v /\ exists a, store s !! v = Some (OPackage a);
  sealed_authority : forall v w, evidence_authorities s !! v = Some w ->
    w = v /\ held s v }.

(** What never changes: objects are frozen, registries only grow. *)
Record extends (s s' : boundary) : Prop := {
  ext_next : next s <= next s';
  ext_store : store s ⊆ store s';
  ext_dispatch : dispatch_capabilities s ⊆ dispatch_capabilities s';
  ext_delegated : delegated_capabilities s ⊆ delegated_capabilities s';
  ext_evidence : terminal_evidence s ⊆ terminal_evidence s';
  ext_task : task_completions s ⊆ task_completions s';
  ext_package : package_completions s ⊆ package_completions s';
  ext_authority : evidence_authorities s ⊆ evidence_authorities s' }.

(** [alloc] followed by a registration, the shape of every issuer. *)
Definition same_registries (s s' : boundary) : Prop :=
  dispatch_capabilities s' = dispatch_capabilities s
  /\ delegated_capabilities s' = delegated_capabilities s
  /\ task_completions s' = task_completions s
  /\ terminal_evidence s' = terminal_evidence s
  /\ package_completions s' = package_completions s
  /\ evidence_authorities s' = evidence_authorities s.

Lemma alloc_spec o s :
  (alloc o s).1 = Ok (next s)
  /\ store (alloc o s).2 = <[next s := o]> (store s)
  /\ next (alloc o s).2 = S (next s)
  /\ same_registries s (alloc o s).2.
Proof. repeat split. Qed.

Lemma sealed_fresh s v : sealed s -> next s <= v -> store s !! v = None.
Proof.
  intros H Hv. destruct (store s !! v) as [o|] eqn:E; [|done].
  apply (sealed_store _ H) in E. lia.
Qed.

Lemma store_grows s o v x :
  sealed s -> store s !! v = Some x -> <[next s := o]> (store s) !! v = Some x.
Proof.
  intros H E. rewrite lookup_insert_ne; [done|].
  intros Hv. apply (sealed_store _ H) in E. lia.
Qed.

Lemma fresh_unregistered s :
  sealed s ->
  dispatch_capabilities s !! next s = None /\ delegated_capabilities s !! next s = None
  /\ task_completions s !! next s = None /\ terminal_evidence s !! next s = None
  /\ package_completions s !! next s = None /\ evidence_authorities s !! next s = None.
Proof.
  intros H. pose proof (sealed_fresh s (next s) H (le_n _)) as F.
  split_and!; match goal with |- ?r !! _ = None => destruct (r !! next s) eqn:E; [exfalso|done] end.
  - apply (sealed_dispatch _ H) in E as (_ & c & E & _). congruence.
  - apply (sealed_delegated _ H) in E as (_ & c & d & cd & E & _). congruence.
  - apply (sealed_task _ H) in E as (_ & c & d & cd & E & _). congruence.
  - apply (sealed_evidence _ H) in E as (_ & c & d & cd & E & _). congruence.
  - apply (sealed_package _ H) in E as (_ & c & E). congruence.
  - apply (sealed_authority _ H) in E as [_ [c Hc]]. by rewrite F in Hc.
Qed.

(** The state after an allocation at [next s] and one registration of it. *)
Lemma sealed_alloc o s : sealed s -> sealed (alloc o s).2.
Proof.
  intros H. pose proof (store_grows s o) as G. constructor; simpl.
  - intros v x. rewrite lookup_insert. case_decide; intros; simplify_eq; [lia|].
    assert (v < next s) by (by eapply sealed_store). lia.
  - intros v w E. apply (sealed_dispatch _ H) in E as (-> & c & E & ?). eauto 10.
  - intros v w E. apply (sealed_delegated _ H) in E as (-> & c & d & cd & E & ? & ? & E2 & ?).
    split; [done|]. exists c, d, cd. eauto 12.
  - intros v w E. apply (sealed_evidence _ H) in E as (-> & c & d & cd & E & ? & E2 & ?).
    split; [done|]. exists c, d, cd. eauto 12.
  - intros v w E. apply (sealed_task _ H) in E as (-> & c & d & cd & E & ? & E2 & ?).
    split; [done|]. exists c, d, cd. eauto 12.
  - intros v w E. apply (sealed_package _ H) in E as (-> & c & E). eauto 10.
  - intros v w E. apply (sealed_authority _ H) in E as (-> & c & E). split; [done|].
    eexists. apply G; done.
Qed.

(** Registering an object under its own address keeps the other entries. *)
Lemma reg_grows (r : gmap nat nat) v x : r !! x = Some x -> <[v := v]> r !! x = Some x.
Proof. rewrite lookup_insert. case_decide; congruence. Qed.

Lemma reg_inv (r : gmap nat nat) v x w :
  <[v := v]> r !! x = Some w -> (x = v /\ w = v) \/ r !! x = Some w.
Proof. rewrite lookup_insert. case_decide; intros; simplify_eq; auto. Qed.

Ltac reg_cases H :=
  first [apply reg_inv in H as [[-> ->]|H]; [split; [done|]|]].

Lemma sealed_reg_dispatch s v c :
  sealed s -> store s !! v = Some (OCapability c) -> Capability.delegated c = false ->
  sealed (reg_dispatch v s).2.
Proof.
  intros H Hv Hc. destruct H as [K1 K2 K3 K4 K5 K6 K7]. constructor; simpl; try done.
  - intros x w E. reg_cases E; [by exists c|by apply K2].
  - intros x w E. destruct (K3 _ _ E) as (-> & a & d & cd & ? & ? & ? & ?).
    split; [done|]. exists a, d, cd. split_and!; try tauto. by apply reg_grows.
Qed.

Lemma sealed_reg_delegated s v c d cd :
  sealed s -> store s !! v = Some (OCapability c) -> Capability.delegated c = true ->
  dispatch_capabilities s !! d = Some d -> store s !! d = Some (OCapability cd) ->
  Capability.task_id cd = Capability.task_id c ->
  Capability.session_id cd = Capability.session_id c ->
  Capability.package_id cd = Capability.package_id c ->
  Capability.execution_id cd = Capability.execution_id c ->
  sealed (reg_delegated v s).2.
Proof.
  intros H ????????. destruct H as [K1 K2 K3 K4 K5 K6 K7]. constructor; simpl; try done.
  - intros x w E. reg_cases E; [|by apply K3]. by exists c, d, cd.
  - intros x w E. destruct (K4 _ _ E) as (-> & a & d' & cd' & ? & ? & ?).
    split; [done|]. exists a, d', cd'. split_and!; try tauto. by apply reg_grows.
Qed.

Lemma sealed_reg_evidence s v e d c :
  sealed s -> store s !! v = Some (OEvidence e) ->
  delegated_capabilities s !! d = Some d -> store s !! d = Some (OCapability c) ->
  Evidence.task_id e = Capability.task_id c ->
  Evidence.session_id e = Capability.session_id c ->
  Evidence.package_id e = Capability.package_id c ->
  Evidence.execution_id e = Capability.execution_id c ->
  (Capability.step_id c = "" \/ Capability.step_id c = Evidence.step_id e) ->
  sealed (reg_evidence v s).2.
Proof.
  intros H ????????. destruct H as [K1 K2 K3 K4 K5 K6 K7]. constructor; simpl; try done.
  - intros x w E. reg_cases E; [|by apply K4]. by exists e, d, c.
  - intros x w E. destruct (K5 _ _ E) as (-> & a & e' & ev & ? & ? & ?).
    split; [done|]. exists a, e', ev. split_and!; try tauto. by apply reg_grows.
Qed.

Lemma sealed_reg_task s v a ev e :
  sealed s -> store s !! v = Some (OTask a) ->
  terminal_evidence s !! ev = Some ev -> store s !! ev = Some (OEvidence e) ->
  TaskCompletion.task_id a = Evidence.task_id e ->
  TaskCompletion.session_id a = Evidence.session_id e ->
  TaskCompletion.package_id a = Evidence.package_id e ->
  sealed (reg_task v s).2.
Proof.
  intros H ??????. destruct H as [K1 K2 K3 K4 K5 K6 K7]. constructor; simpl; try done.
  intros x w E. reg_cases E; [|by apply K5]. by exists a, e, ev.
Qed.

Lemma sealed_reg_package s v a :
  sealed s -> store s !! v = Some (OPackage a) -> sealed (reg_package v s).2.
Proof.
  intros H ?. destruct H as [K1 K2 K3 K4 K5 K6 K7]. constructor; simpl; try done.
  intros x w E. reg_cases E; [|by apply K6]. by exists a.
Qed.

Lemma sealed_reg_authority s v : sealed s -> held s v -> sealed (reg_authority v s).2.
Proof.
  intros H ?. destruct H as [K1 K2 K3 K4 K5 K6 K7]. constructor; simpl; try done.
  intros x w E. reg_cases E; [done|by apply K7].
Qed.

(** The predicates read back what is registered. *)
Lemma matches_Some x f : matches (Some x) f = true <-> f = x.
Proof. simpl. by rewrite String.eqb_eq. Qed.

Lemma is_dispatch_spec s v t :
  is_dispatch_execution_capability s v (Some t) = true <->
  exists c, store s !! v = Some (OCapability c) /\ dispatch_capabilities s !! v = Some v
    /\ Capability.delegated c = false /\ Capability.task_id c = t.
Proof.
  unfold is_dispatch_execution_capability, registered. split.
  - destruct (store s !! v) as [[c| | | |]|]; try done. intros. bools. exists c.
    by rewrite <- matches_Some.
  - intros (c & -> & Hr & -> & <-). rewrite bool_decide_true by done. simpl.
    apply String.eqb_refl.
Qed.

Lemma is_taskrunner_spec s v t st p sid :
  is_taskrunner_execution_capability s v (Some t) (Some st) (Some p) (Some sid) = true <->
  exists c, store s !! v = Some (OCapability c) /\ delegated_capabilities s !! v = Some v
    /\ Capability.delegated c = true /\ Capability.task_id c = t
    /\ (Capability.step_id c = "" \/ Capability.step_id c = st)
    /\ Capability.package_id c = p /\ Capability.session_id c = sid.
Proof.
  unfold is_taskrunner_execution_capability, registered. split.
  - destruct (store s !! v) as [[c| | | |]|]; try done. intros. bools. exists c.
    rewrite !matches_Some in *.
    match goal with H : _ || _ = true |- _ => apply orb_true_iff in H; rewrite matches_Some in H end.
    rewrite String.eqb_eq in *. tauto.
  - intros (c & -> & Hr & -> & <- & Hst & <- & <-). rewrite bool_decide_true by done. simpl.
    rewrite !String.eqb_refl. destruct Hst as [-> | ->]; rewrite ?String.eqb_refl; simpl; [done|].
    by rewrite orb_true_r.
Qed.

Lemma is_evidence_spec s v t p sid :
  is_terminal_execution_evidence s v (Some t) (Some p) (Some sid) = true <->
  exists e, store s !! v = Some (OEvidence e) /\ terminal_evidence s !! v = Some v
    /\ Evidence.task_id e = t /\ Evidence.package_id e = p /\ Evidence.session_id e = sid.
Proof.
  unfold is_terminal_execution_evidence, registered. split.
  - destruct (store s !! v) as [[| | |e|]|]; try done. intros. bools. exists e.
    by rewrite <- !matches_Some.
  - intros (c & -> & Hr & <- & <- & <-). rewrite bool_decide_true by done. simpl.
    by rewrite !String.eqb_refl.
Qed.

Lemma is_task_completion_spec s v t p sid :
  is_task_completion_authority s v (Some t) (Some p) (Some sid) = true <->
  exists a, store s !! v = Some (OTask a) /\ task_completions s !! v = Some v
    /\ TaskCompletion.task_id a = t /\ TaskCompletion.package_id a = p
    /\ TaskCompletion.session_id a = sid.
Proof.
  unfold is_task_completion_authority, registered. split.
  - destruct (store s !! v) as [[|a| | |]|]; try done. intros. bools. exists a.
    by rewrite <- !matches_Some.
  - intros (c & -> & Hr & <- & <- & <-). rewrite bool_decide_true by done. simpl.
    by rewrite !String.eqb_refl.
Qed.

(** ** Every step keeps the invariant and only extends the boundary *)

Lemma extends_refl s : extends s s.
Proof. by split. Qed.

Lemma extends_trans s1 s2 s3 : extends s1 s2 -> extends s2 s3 -> extends s1 s3.
Proof. intros [] []. constructor; [lia|by etrans..]. Qed.

Lemma extends_alloc o s : sealed s -> extends s (alloc o s).2.
Proof.
  intros H. constructor; simpl; try done; [lia|].
  apply insert_subseteq. by apply sealed_fresh.
Qed.

Lemma reg_subseteq (r : gmap nat nat) v :
  (forall w, r !! v = Some w -> w = v) -> r ⊆ <[v := v]> r.
Proof.
  intros H. apply map_subseteq_spec. intros x w E. rewrite lookup_insert.
  case_decide; [subst; f_equal; symmetry; by apply H|done].
Qed.

Lemma extends_reg s v :
  sealed s ->
  extends s (reg_dispatch v s).2 /\ extends s (reg_delegated v s).2
  /\ extends s (reg_task v s).2 /\ extends s (reg_evidence v s).2
  /\ extends s (reg_package v s).2 /\ extends s (reg_authority v s).2.
Proof.
  intros [K1 K2 K3 K4 K5 K6 K7].
  split_and!; constructor; simpl; try done; apply reg_subseteq; intros w E;
    [destruct (K2 _ _ E)|destruct (K3 _ _ E)|destruct (K5 _ _ E)|destruct (K4 _ _ E)
    |destruct (K6 _ _ E)|destruct (K7 _ _ E)]; done.
Qed.

(** An issuer's state after the allocation and registration of its object. *)
Lemma issue_extends o s (reg : ref -> M boundary unit) :
  sealed s -> (forall s' v, sealed s' -> extends s' (reg v s').2) ->
  extends s (reg (next s) (alloc o s).2).2.
Proof.
  intros H Hr. eapply extends_trans; [by apply extends_alloc|]. apply Hr, sealed_alloc, H.
Qed.

Lemma alloc_lookup o s : store (alloc o s).2 !! next s = Some o.
Proof. simpl. by rewrite lookup_insert_eq. Qed.

Lemma alloc_keeps o s v x :
  sealed s -> store s !! v = Some x -> store (alloc o s).2 !! v = Some x.
Proof. apply store_grows. Qed.

#[local] Hint Resolve extends_refl alloc_lookup sealed_alloc : core.

(** A state transformer that keeps the invariant and only extends. *)
Definition safe {A} (m : M boundary A) (s : boundary) : Prop :=
  sealed (m s).2 /\ extends s (m s).2.

Lemma safe_raise {A} e s : sealed s -> safe (mraise e : M boundary A) s.
Proof. by split. Qed.

Lemma safe_dispatch tok t sid p e c s :
  sealed s -> safe (issue_dispatch_execution_capability tok t sid p e c) s.
Proof.
  intros H. unfold safe, issue_dispatch_execution_capability.
  case_bool_decide; [by apply safe_raise|]. split.
  - by eapply (sealed_reg_dispatch (alloc _ s).2); [apply sealed_alloc|apply alloc_lookup|].
  - apply (issue_extends _ s reg_dispatch); [done|]. intros. by apply extends_reg.
Qed.

Lemma safe_delegate tok v t st s :
  sealed s -> safe (delegate_taskrunner_execution_capability tok v t st) s.
Proof.
  intros H. unfold safe, delegate_taskrunner_execution_capability.
  case_bool_decide; [by apply safe_raise|]. unfold_m.
  destruct (is_dispatch_execution_capability s v (Some t)) eqn:E; [|by apply safe_raise].
  apply is_dispatch_spec in E as (c & Hv & Hr & _ & <-). cbn [negb]. rewrite Hv. split.
  - eapply (sealed_reg_delegated (alloc _ s).2 _ _ v c);
      [by apply sealed_alloc|apply alloc_lookup|done|done|by apply alloc_keeps|done..].
  - apply (issue_extends _ s reg_delegated); [done|]. intros. by apply extends_reg.
Qed.

Lemma safe_evidence tok v t p sid st s :
  sealed s -> safe (issue_terminal_execution_evidence tok v t p sid st) s.
Proof.
  intros H. unfold safe, issue_terminal_execution_evidence.
  case_bool_decide; [by apply safe_raise|]. unfold_m.
  destruct (is_taskrunner_execution_capability s v _ _ _ _) eqn:E; [|by apply safe_raise].
  apply is_taskrunner_spec in E as (c & Hv & Hr & _ & <- & Hst & <- & <-).
  cbn [negb]. rewrite Hv. split.
  - eapply (sealed_reg_evidence (alloc _ s).2 _ _ v c);
      [by apply sealed_alloc|apply alloc_lookup|done|by apply alloc_keeps|done..].
  - apply (issue_extends _ s reg_evidence); [done|]. intros. by apply extends_reg.
Qed.

Lemma safe_task tok t p sid v s :
  sealed s -> safe (issue_task_completion_authority tok t p sid v) s.
Proof.
  intros H. unfold safe, issue_task_completion_authority.
  case_bool_decide; [by apply safe_raise|]. unfold_m.
  destruct (is_terminal_execution_evidence s v _ _ _) eqn:E; [|by apply safe_raise].
  apply is_evidence_spec in E as (c & Hv & Hr & <- & <- & <-). cbn [negb]. split.
  - eapply (sealed_reg_task (alloc _ s).2 _ _ v c);
      [by apply sealed_alloc|apply alloc_lookup|done|by apply alloc_keeps|done..].
  - apply (issue_extends _ s reg_task); [done|]. intros. by apply extends_reg.
Qed.

Lemma safe_package tok p sid s :
  sealed s -> safe (issue_work_package_completion_authority tok p sid) s.
Proof.
  intros H. unfold safe, issue_work_package_completion_authority.
  case_bool_decide; [by apply safe_raise|]. split.
  - eapply (sealed_reg_package (alloc _ s).2); [by apply sealed_alloc|apply alloc_lookup].
  - apply (issue_extends _ s reg_package); [done|]. intros. by apply extends_reg.
Qed.

Lemma safe_authority tok v s :
  sealed s -> held s v -> safe (register_runtime_evidence_authority tok v) s.
Proof.
  intros H Hv. unfold safe, register_runtime_evidence_authority.
  case_bool_decide; [by apply safe_raise|]. split; [by apply sealed_reg_authority|].
  by apply extends_reg.
Qed.

Lemma safe_result {A B} (m : M boundary A) (f : A -> B) s :
  safe m s -> safe (a ← m; mret (f a)) s.
Proof. unfold safe. unfold_m. by destruct (m s) as [[a|e] s']. Qed.

Lemma safe_op o s : sealed s -> refs_held s o -> safe (run_op o) s.
Proof.
  intros H Hr. destruct o; simpl run_op; apply safe_result;
    auto using safe_dispatch, safe_delegate, safe_evidence, safe_task, safe_package,
      safe_authority.
  split; [by apply sealed_alloc|by apply extends_alloc].
Qed.

Lemma reachable_sealed s : reachable s -> sealed s.
Proof.
  intros H. eapply (rtc_invariant step sealed); [|exact H|].
  - intros s1 s2 Hs (o & Ho & ->). by apply safe_op.
  - constructor; simpl; intros v w E; by rewrite lookup_empty in E.
Qed.

(** ** Properties *)

(** C12. No completion without execution: in every reachable state, behind a valid
    task completion authority stand valid terminal evidence, the delegated
    capability of the runner that the evidence came from and the dispatcher's
    capability it was delegated from, all for the same task, package and
    session and all of one execution. *)
Theorem completion_has_lineage s v t p sid :
  reachable s -> is_task_completion_authority s v (Some t) (Some p) (Some sid) = true ->
  exists ev e cap d cd,
    is_terminal_execution_evidence s ev (Some t) (Some p) (Some sid) = true
    /\ store s !! ev = Some (OEvidence e)
    /\ is_taskrunner_execution_capability s cap (Some t) (Some (Evidence.step_id e))
         (Some p) (Some sid) = true
    /\ is_dispatch_execution_capability s d (Some t) = true
    /\ store s !! d = Some (OCapability cd)
    /\ Capability.package_id cd = p /\ Capability.session_id cd = sid
    /\ Evidence.execution_id e = Capability.execution_id cd.
Proof.
  intros H%reachable_sealed (a & Ha & Hr & <- & <- & <-)%is_task_completion_spec.
  destruct (sealed_task _ H _ _ Hr) as (_ & a' & e & ev & Ha' & Hev & He & E1 & E2 & E3).
  rewrite Ha in Ha'. injection Ha' as <-.
  destruct (sealed_evidence _ H _ _ Hev) as (_ & e' & cap & c & He' & Hcap & Hc & F).
  rewrite He in He'. injection He' as <-. destruct F as (F1 & F2 & F3 & F4 & F5).
  destruct (sealed_delegated _ H _ _ Hcap) as (_ & c' & d & cd & Hc' & Hdel & Hd & Hcd & G).
  rewrite Hc in Hc'. injection Hc' as <-. destruct G as (G1 & G2 & G3 & G4).
  destruct (sealed_dispatch _ H _ _ Hd) as (_ & cd' & Hcd' & Hnd).
  rewrite Hcd in Hcd'. injection Hcd' as <-.
  exists ev, e, cap, d, cd.
  rewrite is_evidence_spec, is_taskrunner_spec, is_dispatch_spec.
  split_and!; try congruence; [exists e|exists c|exists cd];
    split_and!; try done; congruence.
Qed.

(** Nothing forged is authoritative: an object a program constructs itself
    in a reachable state, of any class and with any fields, satisfies none of
    the six predicates, whatever it is asked for. *)
Theorem forged_never_valid s o t st p sid :
  reachable s ->
  let '(r, s') := alloc o s in
  exists v, r = Ok v
  /\ is_dispatch_execution_capability s' v t = false
  /\ is_taskrunner_execution_capability s' v t st p sid = false
  /\ is_terminal_execution_evidence s' v t p sid = false
  /\ is_task_completion_authority s' v t p sid = false
  /\ is_work_package_completion_authority s' v p sid = false
  /\ is_runtime_evidence_authority s' v = false.
Proof.
  intros H%reachable_sealed. simpl. exists (next s). split; [done|].
  destruct (fresh_unregistered s H) as (N1 & N2 & N3 & N4 & N5 & N6).
  unfold is_dispatch_execution_capability, is_taskrunner_execution_capability,
    is_terminal_execution_evidence, is_task_completion_authority,
    is_work_package_completion_authority, is_runtime_evidence_authority, registered.
  simpl. rewrite lookup_insert_eq, N1, N2, N3, N4, N5, N6.
  split_and!; by destruct o.
Qed.

Lemma registered_mono (r r' : gmap nat nat) v :
  r ⊆ r' -> registered r v = true -> registered r' v = true.
Proof.
  unfold registered. rewrite !bool_decide_eq_true. intros H E. by eapply lookup_weaken.
Qed.

(** An authority once valid stays valid: no later operation revokes it, and
    what it authorises never changes, so holding one for a task completes that
    task as often as it is presented. *)
Theorem completion_authority_permanent s s' v t p sid :
  reachable s -> rtc step s s' ->
  is_task_completion_authority s v t p sid = true ->
  is_task_completion_authority s' v t p sid = true.
Proof.
  intros H%reachable_sealed Hr Hv.
  assert (G : sealed s' /\ extends s s').
  { eapply (rtc_invariant step (fun x => sealed x /\ extends s x)); [|exact Hr|auto].
    intros s1 s2 [Hs He] (o & Ho & ->). destruct (safe_op o s1 Hs Ho).
    split; [done|by eapply extends_trans]. }
  destruct G as [_ G]. unfold is_task_completion_authority in *.
  destruct (store s !! v) as [[|a| | |]|] eqn:E; try done.
  rewrite (lookup_weaken _ _ _ _ E (ext_store _ _ G)). bools.
  rewrite (registered_mono _ _ _ (ext_task _ _ G)) by done.
  by repeat match goal with H : matches _ _ = true |- _ => rewrite H; clear H end.
Qed.

(** A task completion authority is issued exactly to the task runner that
    presents valid evidence for the same task, package and session; otherwise
    [PermissionError] is raised and nothing changes. *)
Theorem issue_task_completion_correct tok t p sid ev s :
  reachable s ->
  let '(r, s') := issue_task_completion_authority tok t p sid ev s in
  if bool_decide (tok = TASK_RUNNER_ISSUER_TOKEN)
     && is_terminal_execution_evidence s ev (Some t) (Some p) (Some sid)
  then exists v, r = Ok v
       /\ is_task_completion_authority s' v (Some t) (Some p) (Some sid) = true
       /\ forall w t' p' sid', w <> v ->
            is_task_completion_authority s' w t' p' sid'
            = is_task_completion_authority s w t' p' sid'
  else s' = s /\ exists m, r = Raise (PermissionError m).
Proof.
  intros H%reachable_sealed. unfold issue_task_completion_authority.
  destruct (decide (tok = TASK_RUNNER_ISSUER_TOKEN)) as [->|Hn].
  2: { rewrite bool_decide_true by done. rewrite bool_decide_false by done. simpl. eauto. }
  rewrite bool_decide_false, bool_decide_true by congruence. unfold_m. cbn [andb].
  destruct (is_terminal_execution_evidence _ _ _ _ _); cbn [negb]; [|eauto]. simpl.
  exists (next s). split; [done|]. split.
  - apply is_task_completion_spec. simpl. rewrite !lookup_insert_eq.
    by exists (TaskCompletion.mk t p sid).
  - intros w t' p' sid' Hw. unfold is_task_completion_authority, registered. simpl.
    rewrite !lookup_insert_ne by done. done.
Qed.

(** ** A concrete run: dispatch, delegate, evidence, completion *)

Definition demo_ops : list op :=
  [IssueDispatch RUNTIME_DISPATCHER_ISSUER_TOKEN "t1" "s1" "p1" "x1" "c1";
   Forge (OTask (TaskCompletion.mk "t1" "p1" "s1"));
   Delegate TASK_RUNNER_ISSUER_TOKEN 0 "t1" "step1";
   IssueEvidence TASK_RUNNER_ISSUER_TOKEN 2 "t1" "p1" "s1" "step1";
   IssueTask TASK_RUNNER_ISSUER_TOKEN "t1" "p1" "s1" 3].

Definition demo_boundary : boundary :=
  fold_left (fun s o => (run_op o s).2) demo_ops initial.

Lemma demo_reachable : reachable demo_boundary.
Proof.
  unfold reachable, demo_boundary, demo_ops. cbn [fold_left].
  repeat (eapply rtc_r; [|eexists; (split; [|reflexivity]); solve [exact I|eexists; vm_compute; reflexivity]]).
  apply rtc_refl.
Qed.

Lemma completion_has_lineage_witness :
  is_task_completion_authority demo_boundary 4 (Some "t1") (Some "p1") (Some "s1") = true
  /\ exists d, is_dispatch_execution_capability demo_boundary d (Some "t1") = true.
Proof.
  split; [vm_compute; reflexivity|].
  destruct (completion_has_lineage demo_boundary 4 "t1" "p1" "s1" demo_reachable)
    as (ev & e & cap & d & cd & _ & _ & _ & Hd & _); [vm_compute; reflexivity|].
  by exists d.
Defined.

Lemma forged_never_valid_witness :
  exists v, (alloc (OTask (TaskCompletion.mk "t1" "p1" "s1")) demo_boundary).1 = Ok v
  /\ is_task_completion_authority
       (alloc (OTask (TaskCompletion.mk "t1" "p1" "s1")) demo_boundary).2 v
       (Some "t1") None None = false.
Proof.
  destruct (forged_never_valid demo_boundary (OTask (TaskCompletion.mk "t1" "p1" "s1"))
              (Some "t1") None None None demo_reachable) as (v & Hv & _ & _ & _ & Ht & _).
  by exists v.
Defined.

Lemma completion_authority_permanent_witness :
  is_task_completion_authority (alloc OForeign demo_boundary).2 4 (Some "t1") None None = true.
Proof.
  apply (completion_authority_permanent demo_boundary _ 4 (Some "t1") None None demo_reachable);
    [|vm_compute; reflexivity].
  apply rtc_once. exists (Forge OForeign). by split.
Defined.

Lemma issue_task_completion_correct_witness :
  (issue_task_completion_authority OtherObject "t1" "p1" "s1" 3 demo_boundary).2 = demo_boundary
  /\ exists m, (issue_task_completion_authority OtherObject "t1" "p1" "s1" 3 demo_boundary).1
               = Raise (PermissionError m).
Proof.
  exact (issue_task_completion_correct OtherObject "t1" "p1" "s1" 3 demo_boundary demo_reachable).
Defined.
