(* ===== verification/TaskQueue.v ===== *)
(** * The scheduler's task queue

    [core/tasks/scheduler_core/task_scheduler_queue.py].  The queue keeps the
    tasks it knows ([_tasks]), the keys that are queued ([_queued_ids]) and a
    heap of entries [(-priority, created_at, sequence, key)] that is cleaned
    lazily: an entry whose key is not queued is skipped when it is reached.

    [heapq] is modelled by its contract, a bag from which the least entry is
    popped: the heap is the list of its entries in ascending order.  Times
    are read from a clock [now] and are only compared and copied; they are
    integers (a finite double is a multiple of 2^-1074).  Copies made by
    [_clone_task] are values.  Every method holds the queue's lock from
    beginning to end, so a method is one step. *)

From S2P Require Import Prelude PyVal Lineage QueueContract Authority.

Definition STATUS_QUEUED : string := "queued".
Definition STATUS_RUNNING : string := "running".
Definition STATUS_FINISHED : string := "finished".
Definition STATUS_FAILED : string := "failed".
Definition STATUS_CANCELLED : string := "cancelled".

Record ScheduledTask : Type := Task {
  task_id : string;
  title : string;
  priority : Z;
  created_at : Z;
  status : string;
  retry_count : Z;
  max_retries : Z;
  payload : list (string * val);
  metadata : list (string * val);
  last_error : option string;
  result : val;
  started_at : option Z;
  finished_at : option Z }.

(** Attribute assignments. *)
Definition set_status (s : string) (t : ScheduledTask) : ScheduledTask :=
  Task (task_id t) (title t) (priority t) (created_at t) s (retry_count t) (max_retries t)
    (payload t) (metadata t) (last_error t) (result t) (started_at t) (finished_at t).
Definition set_times (st fi : option Z) (t : ScheduledTask) : ScheduledTask :=
  Task (task_id t) (title t) (priority t) (created_at t) (status t) (retry_count t)
    (max_retries t) (payload t) (metadata t) (last_error t) (result t) st fi.
Definition set_result (r : val) (t : ScheduledTask) : ScheduledTask :=
  Task (task_id t) (title t) (priority t) (created_at t) (status t) (retry_count t)
    (max_retries t) (payload t) (metadata t) (last_error t) r (started_at t) (finished_at t).
Definition set_error (e : option string) (t : ScheduledTask) : ScheduledTask :=
  Task (task_id t) (title t) (priority t) (created_at t) (status t) (retry_count t)
    (max_retries t) (payload t) (metadata t) e (result t) (started_at t) (finished_at t).
Definition set_priority (p : Z) (t : ScheduledTask) : ScheduledTask :=
  Task (task_id t) (title t) p (created_at t) (status t) (retry_count t) (max_retries t)
    (payload t) (metadata t) (last_error t) (result t) (started_at t) (finished_at t).
Definition set_payload (p : list (string * val)) (t : ScheduledTask) : ScheduledTask :=
  Task (task_id t) (title t) (priority t) (created_at t) (status t) (retry_count t)
    (max_retries t) p (metadata t) (last_error t) (result t) (started_at t) (finished_at t).
Definition set_retry (n : Z) (t : ScheduledTask) : ScheduledTask :=
  Task (task_id t) (title t) (priority t) (created_at t) (status t) n (max_retries t)
    (payload t) (metadata t) (last_error t) (result t) (started_at t) (finished_at t).

(** ** The heap *)

Record entry : Type := Entry { e_prio : Z; e_created : Z; e_seq : nat; e_key : string }.

(** The order of Python's tuples. *)
Definition entry_le (a b : entry) : bool :=
  (e_prio a <? e_prio b)%Z
  || ((e_prio a =? e_prio b)%Z
      && ((e_created a <? e_created b)%Z
          || ((e_created a =? e_created b)%Z
              && ((e_seq a <? e_seq b)
                  || ((e_seq a =? e_seq b) && String.leb (e_key a) (e_key b)))))).

Definition heappush (h : list entry) (e : entry) : list entry := insert_sorted entry_le e h.

Record queue : Type := Queue {
  heap : list entry;
  sequence : nat;
  tasks : list (string * ScheduledTask);
  queued_ids : gset string;
  last_admission_result : list (string * val);
  clock : nat }.

Definition empty_queue : queue := Queue [] 0 [] ∅ [] 0.

Definition with_heap (h : list entry) (s : queue) : queue :=
  Queue h (sequence s) (tasks s) (queued_ids s) (last_admission_result s) (clock s).
Definition with_tasks (d : list (string * ScheduledTask)) (s : queue) : queue :=
  Queue (heap s) (sequence s) d (queued_ids s) (last_admission_result s) (clock s).
Definition with_queued (q : gset string) (s : queue) : queue :=
  Queue (heap s) (sequence s) (tasks s) q (last_admission_result s) (clock s).
Definition with_admission (r : list (string * val)) (s : queue) : queue :=
  Queue (heap s) (sequence s) (tasks s) (queued_ids s) r (clock s).

(** [self._tasks[k] = t], and the assignments to the attributes of the stored
    task [k]. *)
Definition store_task (k : string) (t : ScheduledTask) (s : queue) : queue :=
  with_tasks (dset k t (tasks s)) s.
Definition discard (k : string) (s : queue) : queue := with_queued (queued_ids s ∖ {[k]}) s.

(** [heapq.heappush(self._heap, (-t.priority, t.created_at, next(seq), k))] and
    [self._queued_ids.add(k)]. *)
Definition push (k : string) (t : ScheduledTask) (s : queue) : queue :=
  Queue (heappush (heap s) (Entry (- priority t) (created_at t) (sequence s) k))
    (S (sequence s)) (tasks s) (queued_ids s) (last_admission_result s) (clock s).
Definition mark_queued (k : string) (s : queue) : queue :=
  with_queued (queued_ids s ∪ {[k]}) s.

(** [queue_session_id(task.payload) or queue_session_id(task.metadata)] *)
Definition task_session (t : ScheduledTask) : res string :=
  s ← queue_session_id (VDict (payload t));
  if non_empty s then Ok s else queue_session_id (VDict (metadata t)).

Definition _storage_key (t : ScheduledTask) : res string :=
  session_id ← task_session t;
  lineage ← extract_queue_lineage (VDict (payload t));
  let lineage_id := field_text "goal_lineage_id" lineage in
  let branch_id := field_text "branch_id" lineage in
  Ok (if non_empty lineage_id && non_empty branch_id
      then join "::" [session_id; lineage_id; branch_id; task_id t]
      else if non_empty session_id then session_id +:+ "::" +:+ task_id t
      else task_id t).

(** The keys of the stored tasks that [_resolve_key]'s loop matches.  An
    absent argument is the empty string: only its truth is used. *)
Fixpoint match_keys (ts : list (string * ScheduledTask))
    (task session lineage_id branch : string) : res (list string) :=
  match ts with
  | [] => Ok []
  | (key, t) :: ts' =>
      lineage ← extract_queue_lineage (VDict (payload t));
      if negb (task_id t =? task)%string then match_keys ts' task session lineage_id branch
      else
        other_session ←
          (if non_empty session
           then sid ← queue_session_id (VDict (payload t)); Ok (negb (sid =? session)%string)
           else Ok false);
        if other_session
           || (non_empty lineage_id
               && negb (py_eq (vget "goal_lineage_id" lineage) (VStr lineage_id)))
           || (non_empty branch && negb (py_eq (vget "branch_id" lineage) (VStr branch)))
        then match_keys ts' task session lineage_id branch
        else rest ← match_keys ts' task session lineage_id branch; Ok (key :: rest)
  end.

Definition _resolve_key (s : queue) (task session lineage_id branch : string)
  : res (option string) :=
  let clean_task_id := strip task in
  let clean_session_id := strip session in
  let key := clean_session_id +:+ "::" +:+ clean_task_id in
  if non_empty clean_session_id && dmem key (tasks s)
     && negb (non_empty lineage_id) && negb (non_empty branch)
  then Ok (Some key)
  else if dmem clean_task_id (tasks s) then Ok (Some clean_task_id)
  else
    ms ← match_keys (tasks s) clean_task_id clean_session_id lineage_id branch;
    Ok (match ms with [k] => Some k | _ => None end).

(** ** Queries *)

Definition size (s : queue) : nat := base.size (queued_ids s).
Definition is_empty (s : queue) : bool := (size s =? 0).

Definition has_task (s : queue) (task : string) : res bool :=
  k ← _resolve_key s task "" "" "";
  Ok (match k with Some _ => true | None => false end).

Definition contains (s : queue) (task : string) : res bool :=
  k ← _resolve_key s task "" "" "";
  Ok (match k with Some k => bool_decide (k ∈ queued_ids s) | None => false end).

Definition get_task (s : queue) (task session lineage_id branch : string)
  : res (option ScheduledTask) :=
  k ← _resolve_key s task session lineage_id branch;
  Ok (match k with Some k => dget k (tasks s) | None => None end).

(** The live entries of the heap, each key once, in heap order. *)
Fixpoint list_queued_from (h : list entry) (seen : list string) (s : queue)
  : list ScheduledTask :=
  match h with
  | [] => []
  | e :: h' =>
      if bool_decide (e_key e ∈ seen) || negb (bool_decide (e_key e ∈ queued_ids s))
      then list_queued_from h' seen s
      else match dget (e_key e) (tasks s) with
           | None => list_queued_from h' seen s
           | Some t => t :: list_queued_from h' (e_key e :: seen) s
           end
  end.

Definition list_queued (s : queue) : list ScheduledTask := list_queued_from (heap s) [] s.

Definition _status_rank (st : string) : nat :=
  match dget st [(STATUS_RUNNING, 0); (STATUS_QUEUED, 1); (STATUS_FAILED, 2);
                 (STATUS_FINISHED, 3); (STATUS_CANCELLED, 4)] with
  | Some n => n | None => 99 end.

Definition listing_le (a b : ScheduledTask) : bool :=
  let ra := _status_rank (status a) in
  let rb := _status_rank (status b) in
  (ra <? rb)
  || ((ra =? rb)
      && ((- priority a <? - priority b)%Z
          || ((- priority a =? - priority b)%Z
              && ((created_at a <? created_at b)%Z
                  || ((created_at a =? created_at b)%Z
                      && String.leb (task_id a) (task_id b)))))).

Definition list_all (s : queue) : list ScheduledTask := isort listing_le (dvalues (tasks s)).

(** ** Operations *)

Section operations.
Context (sha256_hex : string -> string) (now : nat -> Z).

(** [time.time()] *)
Definition time : M queue Z := fun s =>
  (Ok (now (clock s)),
   Queue (heap s) (sequence s) (tasks s) (queued_ids s) (last_admission_result s)
     (S (clock s))).

Definition upsert_task (t : ScheduledTask) : M queue ScheduledTask :=
  key ← mlift (_storage_key t);
  s ← mget;
  let stored :=
    match dget key (tasks s) with
    | None => t
    | Some existing =>
        Task (task_id existing) (title t) (priority t) (created_at existing) (status t)
          (retry_count t) (max_retries t) (payload t) (metadata t) (last_error t) (result t)
          (started_at t) (finished_at t)
    end in
  _ ← mmodify (store_task key stored);
  mret stored.

(** [queue_identity(existing.payload) or {'task_id': task.task_id}] *)
Definition identity_or_task (existing t : ScheduledTask) : res (list (string * val)) :=
  i ← queue_identity (VDict (payload existing));
  Ok (match i with [] => [("task_id", VStr (task_id t))] | _ => i end).

Definition refuse (t : ScheduledTask) (matched : list (string * val)) : M queue bool :=
  _ ← mmodify (with_admission
        [("result", VStr "duplicate_idempotent"); ("task_id", VStr (task_id t));
         ("matched_identity", VDict matched)]);
  mret false.

(** The payload of a re-enqueued task: the lineage sealed by the existing one,
    the other keys from the new one. *)
Definition seal_payload (existing t : ScheduledTask)
  : res (list (string * val) * list val) :=
  mc ← merge_queue_lineage (payload existing) [VDict (payload t)] true;
  Ok (dupdate mc.1 (filter (fun kv => kv.1 ∉ QUEUE_LINEAGE_FIELDS) (payload t)), mc.2).

(** The last part of [enqueue]: store the task, push it and report. *)
Definition admit_task (storage_key : string) (existing : option ScheduledTask) (t : ScheduledTask)
  : M queue bool :=
  pc ← mlift (match existing with
              | None => Ok (payload t, [])
              | Some x => seal_payload x t
              end);
  let stored := set_times None None (set_result VNone (set_error None
                  (set_payload pc.1 t))) in
  _ ← mmodify (store_task storage_key stored);
  _ ← mmodify (push storage_key stored);
  _ ← mmodify (mark_queued storage_key);
  identity ← mlift (queue_identity (VDict (payload stored)));
  _ ← mmodify (with_admission
        [("result", VStr (match existing with Some _ => "requeued" | None => "enqueued" end));
         ("task_id", VStr (task_id stored)); ("identity", VDict identity);
         ("lineage_conflicts", VList pc.2)]);
  mret true.

Definition enqueue (t : ScheduledTask) (overwrite : bool) : M queue bool :=
  storage_key ← mlift (_storage_key t);
  s ← mget;
  let existing := dget storage_key (tasks s) in
  dup ← mlift (duplicate_identity sha256_hex (VDict (payload t))
                 (map (fun kt => VDict (payload kt.2))
                    (filter (fun kt => kt.1 <> storage_key) (tasks s))));
  match dup.1 with
  | Some _ => refuse t dup.2
  | None =>
      match existing with
      | Some x =>
          if overwrite then
            _ ← (if bool_decide (storage_key ∈ queued_ids s)
                 then mmodify (discard storage_key) else mret tt);
            admit_task storage_key existing t
          else i ← mlift (identity_or_task x t); refuse t i
      | None => admit_task storage_key existing t
      end
  end.

Fixpoint extend (ts : list ScheduledTask) (overwrite : bool) : M queue nat :=
  match ts with
  | [] => mret 0
  | t :: ts' =>
      b ← enqueue t overwrite;
      n ← extend ts' overwrite;
      mret (if (b : bool) then S n else n)
  end.

(** The loop of [pop_next] on the entries still in the heap. *)
Fixpoint pop_loop (h : list entry) : M queue (option ScheduledTask) :=
  match h with
  | [] => mret None
  | e :: h' =>
      _ ← mmodify (with_heap h');
      s ← mget;
      if negb (bool_decide (e_key e ∈ queued_ids s)) then pop_loop h'
      else
        _ ← mmodify (discard (e_key e));
        match dget (e_key e) (tasks s) with
        | None => pop_loop h'
        | Some t =>
            n ← time;
            let t' := set_times (Some n) (finished_at t) (set_status STATUS_RUNNING t) in
            _ ← mmodify (store_task (e_key e) t');
            mret (Some t')
        end
  end.

Definition pop_next : M queue (option ScheduledTask) := s ← mget; pop_loop (heap s).
Definition dequeue : M queue (option ScheduledTask) := pop_next.

Fixpoint peek_loop (h : list entry) : M queue (option ScheduledTask) :=
  match h with
  | [] => mret None
  | e :: h' =>
      s ← mget;
      if negb (bool_decide (e_key e ∈ queued_ids s))
      then _ ← mmodify (with_heap h'); peek_loop h'
      else match dget (e_key e) (tasks s) with
           | None =>
               _ ← mmodify (with_heap h');
               _ ← mmodify (discard (e_key e));
               peek_loop h'
           | Some t => mret (Some t)
           end
  end.

Definition peek_next : M queue (option ScheduledTask) := s ← mget; peek_loop (heap s).

(** [key = self._resolve_key(...)] and [task = self._tasks.get(key)]. *)
Definition resolved (task session : string) : M queue (option (string * ScheduledTask)) :=
  s ← mget;
  k ← mlift (_resolve_key s task session "" "");
  mret (match k with
        | Some k => match dget k (tasks s) with Some t => Some (k, t) | None => None end
        | None => None
        end).

Definition requeue (task : string) (new_priority : option Z) (error : option string)
    (session : string) : M queue bool :=
  kt ← resolved task session;
  match kt with
  | None => mret false
  | Some (k, t) =>
      s ← mget;
      if bool_decide (k ∈ queued_ids s) then mret false
      else
        let t := set_result VNone (set_times None None (set_status STATUS_QUEUED t)) in
        let t := match error with Some _ => set_error error t | None => t end in
        let t := match new_priority with Some p => set_priority p t | None => t end in
        _ ← mmodify (store_task k t);
        _ ← mmodify (push k t);
        _ ← mmodify (mark_queued k);
        mret true
  end.

Definition cancel (task session : string) : M queue bool :=
  kt ← resolved task session;
  match kt with
  | None => mret false
  | Some (k, t) =>
      _ ← mmodify (discard k);
      n ← time;
      _ ← mmodify (store_task k (set_times (started_at t) (Some n)
                                   (set_status STATUS_CANCELLED t)));
      mret true
  end.

Definition mark_finished {A} `{!CompletionGate A} (task : string) (r : val) (authority : A)
    (session : string) : M queue bool :=
  kt ← resolved task session;
  match kt with
  | None => mret false
  | Some (k, t) =>
      task_session_id ← mlift (task_session t);
      if negb (authorises authority task
                 (if non_empty task_session_id then Some task_session_id else None))
      then mraise (PermissionError "task_completion_authority_required")
      else
        _ ← mmodify (discard k);
        n ← time;
        _ ← mmodify (store_task k (set_times (started_at t) (Some n)
                       (set_result r (set_status STATUS_FINISHED t))));
        mret true
  end.

Definition mark_failed (task error session : string) : M queue bool :=
  kt ← resolved task session;
  match kt with
  | None => mret false
  | Some (k, t) =>
      _ ← mmodify (discard k);
      n ← time;
      _ ← mmodify (store_task k (set_times (started_at t) (Some n)
                     (set_error (Some error) (set_status STATUS_FAILED t))));
      mret true
  end.

Definition increment_retry (task session : string) : M queue bool :=
  kt ← resolved task session;
  match kt with
  | None => mret false
  | Some (k, t) => _ ← mmodify (store_task k (set_retry (retry_count t + 1) t)); mret true
  end.

Definition update_priority (task : string) (p : Z) (session : string) : M queue bool :=
  kt ← resolved task session;
  match kt with
  | None => mret false
  | Some (k, t) =>
      let t := set_priority p t in
      _ ← mmodify (store_task k t);
      s ← mget;
      _ ← (if bool_decide (k ∈ queued_ids s) then mmodify (push k t) else mret tt);
      mret true
  end.

Definition remove (task session : string) : M queue bool :=
  s ← mget;
  k ← mlift (_resolve_key s task session "" "");
  match k with
  | None => mret false
  | Some k =>
      _ ← mmodify (discard k);
      _ ← mmodify (fun s => with_tasks (dpop k (tasks s)) s);
      mret (dmem k (tasks s))
  end.

End operations.

(** [stats]: the counts, and the task [peek_next] would return. *)
Fixpoint status_counts (ts : list ScheduledTask) (acc : list (string * nat))
  : list (string * nat) :=
  match ts with
  | [] => acc
  | t :: ts' =>
      status_counts ts' (dset (status t) (default 0 (dget (status t) acc) + 1) acc)
  end.

Definition stats : M queue (nat * nat * list (string * nat) * option ScheduledTask) :=
  s ← mget;
  let counts := status_counts (dvalues (tasks s)) [] in
  next_task ← peek_next;
  s ← mget;
  mret (size s, length (tasks s), counts, next_task).

(** ** The order of entries *)

Lemma entry_le_spec a b :
  entry_le a b = true <->
  (e_prio a < e_prio b)%Z \/ e_prio a = e_prio b /\
   ((e_created a < e_created b)%Z \/ e_created a = e_created b /\
     (e_seq a < e_seq b \/ e_seq a = e_seq b /\ str_le (e_key a) (e_key b))).
Proof.
  unfold entry_le, str_le.
  by rewrite !orb_true_iff, !andb_true_iff, !orb_true_iff, !andb_true_iff, !orb_true_iff,
    !andb_true_iff, !Z.ltb_lt, !Z.eqb_eq, Nat.ltb_lt, Nat.eqb_eq.
Qed.

Lemma entry_le_trans a b c :
  entry_le a b = true -> entry_le b c = true -> entry_le a c = true.
Proof.
  rewrite !entry_le_spec.
  intros [H1|(H1&[H2|(H2&[H3|(H3&H4)])])] [G1|(G1&[G2|(G2&[G3|(G3&G4)])])];
    first [left; lia | right; split; [lia|];
      first [left; lia | right; split; [lia|];
        first [left; lia | right; split; [lia|by etrans]]]].
Qed.

Lemma entry_le_total a b : entry_le a b = false -> entry_le b a = true.
Proof.
  rewrite <- not_true_iff_false, !entry_le_spec. intros H.
  destruct (Z.lt_trichotomy (e_prio a) (e_prio b)) as [?|[?|?]]; [tauto| |by left].
  destruct (Z.lt_trichotomy (e_created a) (e_created b)) as [?|[?|?]]; [tauto| |by auto].
  destruct (Nat.lt_trichotomy (e_seq a) (e_seq b)) as [?|[?|?]]; [tauto| |by auto 6].
  destruct (total str_le (e_key a) (e_key b)); [tauto|by auto 10].
Qed.

(** ** The invariant *)

Definition live (s : queue) (e : entry) : Prop := e_key e ∈ queued_ids s.

Record queue_inv (s : queue) : Prop := {
  inv_dict : dict_ok (tasks s);
  inv_known : forall k, k ∈ queued_ids s -> k ∈ dkeys (tasks s);
  inv_entry : forall k, k ∈ queued_ids s -> exists e, e ∈ heap s /\ e_key e = k;
  inv_sorted : StronglySorted (fun a b => entry_le a b = true) (heap s);
  inv_seq : forall e, e ∈ heap s -> e_seq e < sequence s;
  inv_nodup : NoDup (map e_seq (heap s)) }.

Lemma inv_empty : queue_inv empty_queue.
Proof.
  constructor; simpl; try (intros k Hk; set_solver); constructor.
Qed.

Lemma inv_store k t s : queue_inv s -> queue_inv (store_task k t s).
Proof.
  intros [A B C D E F]. constructor; simpl; try done; [by apply dict_ok_dset|].
  intros x Hx. apply elem_of_dkeys_dset. auto.
Qed.

Lemma inv_discard k s : queue_inv s -> queue_inv (discard k s).
Proof. intros [A B C D E F]. constructor; simpl; try done; set_solver. Qed.

Lemma inv_admission r s : queue_inv s -> queue_inv (with_admission r s).
Proof. by intros []. Qed.

Lemma inv_push k t s : queue_inv s -> queue_inv (push k t s).
Proof.
  intros [A B C D E F]. constructor; simpl; try done; unfold heappush.
  - intros x Hx. destruct (C x Hx) as (e & He & <-). exists e.
    by rewrite elem_of_insert_sorted; auto.
  - apply insert_sorted_sorted; eauto using entry_le_total, entry_le_trans.
  - intros e. rewrite elem_of_insert_sorted. intros [->|He]; simpl; [lia|].
    specialize (E e He). lia.
  - rewrite (insert_sorted_perm entry_le). simpl. constructor; [|done].
    rewrite list_elem_of_In, in_map_iff. intros (e & He & Hin).
    apply list_elem_of_In, E in Hin. lia.
Qed.

Lemma inv_mark k s e :
  queue_inv s -> k ∈ dkeys (tasks s) -> e ∈ heap s -> e_key e = k ->
  queue_inv (mark_queued k s).
Proof.
  intros [A B C D E F] Hk He Hek. constructor; simpl; try done.
  - intros x [Hx| ->%elem_of_singleton]%elem_of_union; auto.
  - intros x [Hx| ->%elem_of_singleton]%elem_of_union; eauto.
Qed.

(** Store, push and mark: how a task becomes queued. *)
Lemma inv_queue_task k t s :
  queue_inv s -> queue_inv (mark_queued k (push k t (store_task k t s))).
Proof.
  intros H. apply (inv_mark k _ (Entry (- priority t) (created_at t) (sequence s) k));
    [by apply inv_push, inv_store| | |reflexivity]; simpl.
  - apply elem_of_dkeys_dset. by left.
  - unfold heappush. apply elem_of_insert_sorted. by left.
Qed.

Lemma inv_tail e h s :
  queue_inv s -> heap s = e :: h -> queue_inv (discard (e_key e) (with_heap h s)).
Proof.
  intros [A B C D E F] Hh. rewrite Hh in *. apply NoDup_cons in F as [_ F].
  apply StronglySorted_inv in D as [D _].
  constructor; simpl; try done; [set_solver| |set_solver].
  intros k Hk. destruct (C k) as (e' & He' & <-); [set_solver|]. exists e'. set_solver.
Qed.

Lemma discard_dead k s : k ∉ queued_ids s -> discard k s = s.
Proof.
  intros Hk. unfold discard, with_queued. destruct s; simpl in *. f_equal.
  apply leibniz_equiv. set_solver.
Qed.

Lemma inv_tail_dead e h s :
  queue_inv s -> heap s = e :: h -> e_key e ∉ queued_ids s -> queue_inv (with_heap h s).
Proof. intros H Hh He. pose proof (inv_tail e h s H Hh). by rewrite discard_dead in H0. Qed.

Lemma inv_drop_task k s :
  queue_inv s -> queue_inv (with_tasks (dpop k (tasks s)) (discard k s)).
Proof.
  intros H. pose proof (inv_discard k _ H) as [A B C D E F].
  constructor; simpl in *; try done; [by apply dict_ok_dpop|].
  intros x Hx. rewrite dkeys_dpop. apply list_elem_of_filter. split; [set_solver|auto].
Qed.

Lemma inv_tick (now : nat -> Z) s : queue_inv s -> queue_inv (time now s).2.
Proof. by intros []. Qed.

Create HintDb queue.
#[export] Hint Resolve inv_store inv_discard inv_admission inv_push inv_queue_task
  inv_tail inv_tail_dead inv_drop_task inv_tick : queue.

(** ** Every operation keeps the invariant *)

(** The invariant holds after [m], raising or not. *)
Definition keeps_inv {A} (m : M queue A) : Prop := forall s, queue_inv s -> queue_inv (m s).2.

Lemma keeps_bind {A B} (m : M queue A) (f : A -> M queue B) :
  keeps_inv m -> (forall a, keeps_inv (f a)) -> keeps_inv (m ≫= f).
Proof.
  intros Hm Hf s Hs. unfold_m. specialize (Hm s Hs).
  destruct (m s) as [[a|e] s']; [by apply Hf|done].
Qed.

Lemma keeps_ret {A} (a : A) : keeps_inv (mret a).
Proof. by intros s. Qed.
Lemma keeps_lift {A} (r : res A) : keeps_inv (mlift r).
Proof. by intros s. Qed.
Lemma keeps_get : keeps_inv mget.
Proof. by intros s. Qed.
Lemma keeps_raise {A} e : keeps_inv (mraise e : M queue A).
Proof. by intros s. Qed.
Lemma keeps_modify f : (forall s, queue_inv s -> queue_inv (f s)) -> keeps_inv (mmodify f).
Proof. intros H s Hs. by apply H. Qed.
Lemma keeps_time now : keeps_inv (time now).
Proof. intros s. apply inv_tick. Qed.

(** The state read by [mget] is the current one. *)
Lemma keeps_get_bind {A} (f : queue -> M queue A) :
  (forall s, queue_inv s -> queue_inv (f s s).2) -> keeps_inv (s ← mget; f s).
Proof. intros H s Hs. by apply H. Qed.

Ltac keeps :=
  repeat first
    [ progress intros
    | apply keeps_ret | apply keeps_lift | apply keeps_get | apply keeps_raise
    | apply keeps_time
    | apply keeps_modify; solve [auto with queue]
    | match goal with |- keeps_inv (mbind _ _) => apply keeps_bind end
    | match goal with |- keeps_inv (match ?x with _ => _ end) => destruct x end ].

(** [store_task], [push] and [mark_queued] in a row. *)
Lemma keeps_queue_task {A} k t (m : M queue A) :
  keeps_inv m ->
  keeps_inv (_ ← mmodify (store_task k t); _ ← mmodify (push k t);
             _ ← mmodify (mark_queued k); m).
Proof. intros Hm s Hs. unfold_m. by apply Hm, inv_queue_task. Qed.

Lemma keeps_pop_loop now h : forall s,
  queue_inv s -> heap s = h -> queue_inv (pop_loop now h s).2.
Proof.
  induction h as [|e h IH]; intros s Hs Hh; [done|]. simpl. unfold_m. simpl.
  case_bool_decide as He; cbn [negb].
  - destruct (dget (e_key e) (tasks s)); simpl.
    + apply inv_store. change (queue_inv (time now (discard (e_key e) (with_heap h s))).2).
      eauto with queue.
    + apply IH; [by eapply inv_tail|done].
  - apply IH; [by eapply inv_tail_dead|done].
Qed.

Lemma keeps_peek_loop h : forall s,
  queue_inv s -> heap s = h -> queue_inv (peek_loop h s).2.
Proof.
  induction h as [|e h IH]; intros s Hs Hh; [done|]. simpl. unfold_m. simpl.
  case_bool_decide as He; cbn [negb].
  - destruct (dget (e_key e) (tasks s)); simpl; [done|]. apply IH; [by eapply inv_tail|done].
  - apply IH; [by eapply inv_tail_dead|done].
Qed.

Section preserved.
Context (sha256_hex : string -> string) (now : nat -> Z).

Lemma keeps_admit k x t : keeps_inv (admit_task k x t).
Proof.
  unfold admit_task. apply keeps_bind; [keeps|intros pc]. apply keeps_queue_task. keeps.
Qed.

Lemma keeps_refuse t m : keeps_inv (refuse t m).
Proof. unfold refuse. keeps. Qed.

Hint Resolve keeps_admit keeps_refuse : queue.

Lemma keeps_enqueue t ow : keeps_inv (enqueue sha256_hex t ow).
Proof.
  unfold enqueue. apply keeps_bind; [keeps|intros key].
  apply keeps_bind; [keeps|intros s]. apply keeps_bind; [keeps|intros dup].
  destruct dup.1; [auto with queue|]. destruct (dget key (tasks s)); [|auto with queue].
  destruct ow; keeps; auto with queue.
Qed.

Lemma keeps_extend ts ow : keeps_inv (extend sha256_hex ts ow).
Proof. induction ts; simpl; keeps; auto using keeps_enqueue. Qed.

Lemma keeps_upsert t : keeps_inv (upsert_task t).
Proof. unfold upsert_task. keeps. Qed.

Lemma keeps_pop : keeps_inv (pop_next now).
Proof. intros s Hs. exact (keeps_pop_loop now (heap s) s Hs eq_refl). Qed.

Lemma keeps_peek : keeps_inv peek_next.
Proof. intros s Hs. exact (keeps_peek_loop (heap s) s Hs eq_refl). Qed.

Lemma keeps_resolved k sid : keeps_inv (resolved k sid).
Proof. unfold resolved. keeps. Qed.

Hint Resolve keeps_resolved : queue.

Lemma keeps_requeue k p e sid : keeps_inv (requeue k p e sid).
Proof.
  unfold requeue. apply keeps_bind; [auto with queue|]. intros [[key t]|]; [|keeps].
  apply keeps_bind; [keeps|intros s]. case_bool_decide; [keeps|].
  apply keeps_queue_task. keeps.
Qed.

Lemma keeps_cancel k sid : keeps_inv (cancel now k sid).
Proof. unfold cancel. apply keeps_bind; [auto with queue|]. intros [[]|]; keeps. Qed.

Lemma keeps_finished {A} `{!CompletionGate A} k r a sid :
  keeps_inv (mark_finished now k r a sid).
Proof. unfold mark_finished. apply keeps_bind; [auto with queue|]. intros [[]|]; keeps. Qed.

Lemma keeps_failed k e sid : keeps_inv (mark_failed now k e sid).
Proof. unfold mark_failed. apply keeps_bind; [auto with queue|]. intros [[]|]; keeps. Qed.

Lemma keeps_retry k sid : keeps_inv (increment_retry k sid).
Proof. unfold increment_retry. apply keeps_bind; [auto with queue|]. intros [[]|]; keeps. Qed.

Lemma keeps_priority k p sid : keeps_inv (update_priority k p sid).
Proof. unfold update_priority. apply keeps_bind; [auto with queue|]. intros [[]|]; keeps. Qed.

Lemma keeps_remove k sid : keeps_inv (remove k sid).
Proof.
  unfold remove. intros s Hs. unfold_m. simpl.
  destruct (_resolve_key s k sid "" "") as [[key|]|]; simpl; auto with queue.
Qed.

End preserved.

(** ** The operations of a client, as steps *)

Inductive qop (A : Type) : Type :=
  | QUpsert (t : ScheduledTask)
  | QEnqueue (t : ScheduledTask) (overwrite : bool)
  | QExtend (ts : list ScheduledTask) (overwrite : bool)
  | QPop
  | QPeek
  | QRequeue (task : string) (p : option Z) (error : option string) (session : string)
  | QCancel (task session : string)
  | QFinish (task : string) (r : val) (authority : A) (session : string)
  | QFail (task error session : string)
  | QRetry (task session : string)
  | QPriority (task : string) (p : Z) (session : string)
  | QRemove (task session : string)
  | QStats.
Arguments QUpsert {A}. Arguments QEnqueue {A}. Arguments QExtend {A}. Arguments QPop {A}.
Arguments QPeek {A}. Arguments QRequeue {A}. Arguments QCancel {A}. Arguments QFinish {A}.
Arguments QFail {A}. Arguments QRetry {A}. Arguments QPriority {A}. Arguments QRemove {A}.
Arguments QStats {A}.

Definition run_qop {A} `{!CompletionGate A} (sha256_hex : string -> string) (now : nat -> Z)
    (o : qop A) (s : queue) : queue :=
  match o with
  | QUpsert t => (upsert_task t s).2
  | QEnqueue t ow => (enqueue sha256_hex t ow s).2
  | QExtend ts ow => (extend sha256_hex ts ow s).2
  | QPop => (pop_next now s).2
  | QPeek => (peek_next s).2
  | QRequeue k p e sid => (requeue k p e sid s).2
  | QCancel k sid => (cancel now k sid s).2
  | QFinish k r a sid => (mark_finished now k r a sid s).2
  | QFail k e sid => (mark_failed now k e sid s).2
  | QRetry k sid => (increment_retry k sid s).2
  | QPriority k p sid => (update_priority k p sid s).2
  | QRemove k sid => (remove k sid s).2
  | QStats => (stats s).2
  end.

Lemma keeps_qop {A} `{!CompletionGate A} sha now (o : qop A) s :
  queue_inv s -> queue_inv (run_qop sha now o s).
Proof.
  intros Hs. destruct o; simpl.
  - by apply keeps_upsert.
  - by apply keeps_enqueue.
  - by apply keeps_extend.
  - by apply keeps_pop.
  - by apply keeps_peek.
  - by apply keeps_requeue.
  - by apply keeps_cancel.
  - by apply keeps_finished.
  - by apply keeps_failed.
  - by apply keeps_retry.
  - by apply keeps_priority.
  - by apply keeps_remove.
  - pose proof (keeps_peek s Hs) as Hp. revert Hp. unfold stats. unfold_m. simpl.
    by destruct (peek_next s) as [[r|e] s'].
Qed.

(** ** Lemmas on popping *)

Definition started (n : Z) (t : ScheduledTask) : ScheduledTask :=
  set_times (Some n) (finished_at t) (set_status STATUS_RUNNING t).

(** The first live entry of the heap. *)
Fixpoint first_live (h : list entry) (q : gset string) : option (entry * list entry) :=
  match h with
  | [] => None
  | e :: h' => if bool_decide (e_key e ∈ q) then Some (e, h') else first_live h' q
  end.

Lemma first_live_split h q e h' :
  first_live h q = Some (e, h') ->
  exists dead, h = dead ++ e :: h' /\ e_key e ∈ q /\ Forall (fun d => e_key d ∉ q) dead.
Proof.
  induction h as [|x h IH]; simpl; [done|]. case_bool_decide as Hx.
  - intros [= <- <-]. exists []. by repeat split.
  - intros H. destruct (IH H) as (dead & -> & He & Hd). exists (x :: dead).
    by repeat split; [..|constructor].
Qed.

Lemma first_live_None h q : first_live h q = None -> Forall (fun d => e_key d ∉ q) h.
Proof.
  induction h as [|x h IH]; simpl; [constructor|]. case_bool_decide; [done|].
  constructor; auto.
Qed.

(** What a pop does in a state of the invariant. *)
Lemma pop_loop_spec now h : forall s,
  (forall k, k ∈ queued_ids s -> k ∈ dkeys (tasks s)) -> heap s = h ->
  match first_live h (queued_ids s) with
  | None => pop_loop now h s = (Ok None, with_heap [] s)
  | Some (e, h') => exists t, dget (e_key e) (tasks s) = Some t
      /\ pop_loop now h s =
         (Ok (Some (started (now (clock s)) t)),
          store_task (e_key e) (started (now (clock s)) t)
            (time now (discard (e_key e) (with_heap h' s))).2)
  end.
Proof.
  induction h as [|e h IH]; intros s Hk Hh; simpl.
  - unfold with_heap. by rewrite <- Hh; destruct s.
  - unfold_m. simpl. case_bool_decide as He; cbn [negb].
    + apply Hk, dget_is_Some_keys in He as [t Ht]. exists t. by rewrite Ht.
    + specialize (IH (with_heap h s) Hk eq_refl). simpl in IH.
      destruct (first_live h (queued_ids s)) as [[e' h']|]; [|done].
      destruct IH as (t & Ht & E). by exists t.
Qed.

Lemma sorted_app_le (dead : list entry) e h :
  StronglySorted (fun a b => entry_le a b = true) (dead ++ e :: h) ->
  Forall (fun x => entry_le e x = true) h.
Proof.
  induction dead as [|d dead IH]; simpl; intros [H1 H2]%StronglySorted_inv; auto.
Qed.

Lemma no_live_empty s :
  queue_inv s -> Forall (fun d => e_key d ∉ queued_ids s) (heap s) -> queued_ids s = ∅.
Proof.
  intros H Hd. apply leibniz_equiv, elem_of_equiv_empty. intros k Hk.
  destruct (inv_entry _ H k Hk) as (e & He & <-). by eapply Forall_forall in Hd.
Qed.

(** ** Lemmas on listing and draining *)

(** Only the live keys that were not seen yet matter to a listing. *)
Lemma list_queued_ext h : forall seen seen' s s',
  (forall k, (k ∈ seen \/ k ∉ queued_ids s) <-> (k ∈ seen' \/ k ∉ queued_ids s')) ->
  (forall k, k ∉ seen -> k ∈ queued_ids s -> dget k (tasks s) = dget k (tasks s')) ->
  list_queued_from h seen s = list_queued_from h seen' s'.
Proof.
  induction h as [|e h IH]; intros seen seen' s s' Hq Ht; simpl; [done|].
  assert (Eb : bool_decide (e_key e ∈ seen) || negb (bool_decide (e_key e ∈ queued_ids s))
             = bool_decide (e_key e ∈ seen') || negb (bool_decide (e_key e ∈ queued_ids s'))).
  { apply eq_true_iff_eq. rewrite !orb_true_iff, !negb_true_iff, !bool_decide_eq_true,
      !bool_decide_eq_false. apply Hq. }
  rewrite <- Eb. destruct (_ || _) eqn:E; [by apply IH|]. clear Eb. bools.
  rewrite <- Ht by (done || by apply dec_stable). destruct (dget _ _); [|by apply IH].
  f_equal. apply IH.
  - intros k. rewrite !elem_of_cons. specialize (Hq k). tauto.
  - intros k. rewrite not_elem_of_cons. intros [? ?]. auto.
Qed.

Lemma list_queued_dead dead h seen s :
  Forall (fun d => e_key d ∉ queued_ids s) dead ->
  list_queued_from (dead ++ h) seen s = list_queued_from h seen s.
Proof.
  induction 1 as [|d dead Hd _ IH]; simpl; [done|].
  rewrite (bool_decide_false (e_key d ∈ queued_ids s)) by done.
  by rewrite orb_true_r.
Qed.

(** After the head of the listing is popped, its rest is the new listing. *)
Lemma list_queued_pop s e h t t' :
  queue_inv s -> first_live (heap s) (queued_ids s) = Some (e, h) ->
  dget (e_key e) (tasks s) = Some t ->
  list_queued s
  = t :: list_queued_from h [] (store_task (e_key e) t' (discard (e_key e) (with_heap h s))).
Proof.
  intros H Hf Ht. apply first_live_split in Hf as (dead & Hh & He & Hd).
  unfold list_queued. rewrite Hh, list_queued_dead by done. simpl.
  rewrite (bool_decide_true (e_key e ∈ queued_ids s)) by done. simpl.
  rewrite Ht. f_equal. apply list_queued_ext; simpl.
  - intros k. rewrite list_elem_of_singleton, elem_of_nil, elem_of_difference, elem_of_singleton.
    destruct (decide (k = e_key e)), (decide (k ∈ queued_ids s)); tauto.
  - intros k Hk _. rewrite list_elem_of_singleton in Hk. by rewrite dget_dset_ne.
Qed.

Lemma list_queued_none s : queued_ids s = ∅ -> list_queued s = [].
Proof.
  intros Hq. unfold list_queued. rewrite <- (app_nil_r (heap s)), list_queued_dead; [done|].
  apply Forall_true. rewrite Hq. set_solver.
Qed.

(** [pop_next] until it returns [None], at most [n] times. *)
Fixpoint drain (now : nat -> Z) (n : nat) : M queue (list ScheduledTask) :=
  match n with
  | 0 => mret []
  | S n' =>
      r ← pop_next now;
      match r with
      | None => mret []
      | Some t => rest ← drain now n'; mret (t :: rest)
      end
  end.

(** ** Properties *)

(** C8. The queue's invariant holds in every state a client can reach: tasks have
    distinct keys, every queued key is a known task and has a heap entry, the
    heap is in order and its sequence numbers are distinct and used up. *)
Theorem queue_invariant_reachable {A} `{!CompletionGate A} sha now (l : list (qop A)) :
  queue_inv (fold_left (fun s o => run_qop sha now o s) l empty_queue).
Proof.
  assert (G : forall s, queue_inv s ->
            queue_inv (fold_left (fun s o => run_qop sha now o s) l s)).
  { induction l as [|o l IH]; simpl; [done|]. intros s Hs. by apply IH, keeps_qop. }
  apply G, inv_empty.
Qed.

(** C11. [pop_next] never raises and loses no task: it returns [None] exactly when
    nothing is queued, and otherwise the task of the least live entry, started
    and taken out of the queued keys, the other tasks and keys untouched. *)
Theorem pop_next_correct now s :
  queue_inv s ->
  let '(r, s') := pop_next now s in
  match r with
  | Raise _ => False
  | Ok None => queued_ids s = ∅ /\ queued_ids s' = ∅ /\ tasks s' = tasks s
  | Ok (Some t) => exists e t0,
      e ∈ heap s /\ live s e
      /\ (forall x, x ∈ heap s -> live s x -> entry_le e x = true)
      /\ dget (e_key e) (tasks s) = Some t0 /\ t = started (now (clock s)) t0
      /\ queued_ids s' = queued_ids s ∖ {[e_key e]}
      /\ tasks s' = dset (e_key e) t (tasks s)
  end.
Proof.
  intros H. unfold pop_next. unfold_m.
  pose proof (pop_loop_spec now (heap s) s (inv_known _ H) eq_refl) as P.
  destruct (first_live (heap s) (queued_ids s)) as [[e h]|] eqn:Ef.
  - destruct P as (t & Ht & ->). apply first_live_split in Ef as (dead & Hh & He & Hd).
    exists e, t. split_and!; try done.
    + rewrite Hh, elem_of_app, elem_of_cons. auto.
    + intros x. rewrite Hh, elem_of_app, elem_of_cons.
      pose proof (inv_sorted _ H) as Hs. rewrite Hh in Hs. apply sorted_app_le in Hs.
      intros [Hx|[->|Hx]] Hl; [by eapply Forall_forall in Hd| |by eapply Forall_forall in Hs].
      apply entry_le_spec. right. repeat (split; [done|right]). by split.
  - rewrite P. apply first_live_None in Ef. simpl.
    rewrite (no_live_empty s H Ef). by split_and!.
Qed.

(** C24. Draining the queue yields exactly what [list_queued] announces, task by
    task and in that order, as many tasks as keys were queued, and leaves the
    queue empty. *)
Theorem drain_is_list_queued now n : forall s,
  queue_inv s -> size s <= n ->
  let '(r, s') := drain now n s in
  exists l, r = Ok l
    /\ Forall2 (fun t u => exists c, t = started (now c) u) l (list_queued s)
    /\ length l = size s /\ is_empty s' = true.
Proof.
  induction n as [|n IH]; intros s H Hn.
  - assert (Hq : queued_ids s = ∅) by (apply leibniz_equiv, size_empty_iff; unfold size in Hn; lia).
    simpl. exists []. rewrite (list_queued_none s Hq). unfold is_empty, size.
    rewrite Hq, size_empty. by split_and!.
  - simpl. unfold pop_next. unfold_m.
    pose proof (pop_loop_spec now (heap s) s (inv_known _ H) eq_refl) as P.
    pose proof (keeps_pop_loop now (heap s) s H eq_refl) as K.
    destruct (first_live (heap s) (queued_ids s)) as [[e h]|] eqn:Ef.
    + destruct P as (t & Ht & E). rewrite E in K |- *. simpl in K.
      pose proof Ef as Ef'. apply first_live_split in Ef' as (dead & Hh & He & Hd).
      specialize (IH _ K). simpl in IH.
      assert (Hsz : base.size (queued_ids s ∖ {[e_key e]}) = size s - 1).
      { unfold size. rewrite size_difference, size_singleton by set_solver. lia. }
      assert (Hpos : size s <> 0).
      { unfold size. intros Hz%size_empty_iff. set_solver. }
      unfold size in IH at 1. simpl in IH. rewrite Hsz in IH. specialize (IH ltac:(lia)).
      destruct (drain now n _) as [r s'']. destruct IH as (l & -> & Hl & Hlen & Hs).
      exists (started (now (clock s)) t :: l). split_and!; try done.
      * erewrite list_queued_pop by done. constructor; [eauto|].
        erewrite list_queued_ext; [exact Hl|done|done].
      * simpl. rewrite Hlen. unfold size at 1. simpl. rewrite Hsz. lia.
    + rewrite P. apply first_live_None in Ef. exists [].
      pose proof (no_live_empty s H Ef) as Hq.
      rewrite (list_queued_none s Hq). unfold is_empty, size. simpl.
      rewrite Hq, size_empty. by split_and!.
Qed.

(** [peek_next] announces the pop: it changes neither the tasks nor the queued
    keys, and the next [pop_next] returns the peeked task, started. *)
Theorem peek_agrees_with_pop now s :
  queue_inv s ->
  let '(r, s1) := peek_next s in
  queued_ids s1 = queued_ids s /\ tasks s1 = tasks s
  /\ exists o, r = Ok o
     /\ (pop_next now s1).1 = Ok (option_map (started (now (clock s))) o)
     /\ (pop_next now s).1 = (pop_next now s1).1.
Proof.
  intros H. unfold peek_next, pop_next. unfold_m.
  assert (G : forall h s0, queue_inv s0 -> heap s0 = h ->
    let '(r, s1) := peek_loop h s0 in
    queued_ids s1 = queued_ids s0 /\ tasks s1 = tasks s0 /\ clock s1 = clock s0
    /\ first_live (heap s1) (queued_ids s0) = first_live h (queued_ids s0)
    /\ r = Ok (match first_live h (queued_ids s0) with
               | None => None | Some (e, _) => dget (e_key e) (tasks s0) end)).
  { induction h as [|e h IH]; intros s0 H0 Hh; simpl.
    - unfold_m. simpl. by rewrite Hh.
    - unfold_m. simpl. case_bool_decide as He; cbn [negb].
      + pose proof He as Hk. apply (inv_known _ H0), dget_is_Some_keys in Hk as [t Ht].
        rewrite Ht. simpl. rewrite Hh. simpl. by rewrite bool_decide_true by done.
      + specialize (IH (with_heap h s0) (inv_tail_dead _ _ _ H0 Hh He) eq_refl). simpl in IH.
        exact IH. }
  specialize (G (heap s) s H eq_refl).
  pose proof (keeps_peek_loop (heap s) s H eq_refl) as K.
  destruct (peek_loop (heap s) s) as [r s1]. simpl in K.
  destruct G as (G1 & G2 & G3 & G4 & ->). split; [done|]. split; [done|]. eexists.
  split; [done|].
  pose proof (pop_loop_spec now (heap s) s (inv_known _ H) eq_refl) as P.
  pose proof (pop_loop_spec now (heap s1) s1 (inv_known _ K) eq_refl) as P1.
  rewrite G1, G4 in P1. destruct (first_live (heap s) (queued_ids s)) as [[e h]|].
  - destruct P as (t & Ht & ->), P1 as (t1 & Ht1 & ->). rewrite G2, Ht in Ht1.
    injection Ht1 as <-. by rewrite Ht, G3.
  - by rewrite P, P1.
Qed.

(** ** Lemmas on admission *)

Lemma readd (q : gset string) k : (q ∖ {[k]}) ∪ {[k]} = q ∪ {[k]}.
Proof. apply leibniz_equiv. intros x. destruct (decide (x = k)); set_solver. Qed.

(** [admit_task] either raises or stores, pushes, marks and reports. *)
Lemma admit_spec k x t s :
  let '(r, s') := admit_task k x t s in
  match r with
  | Ok b => exists p c i,
      b = true
      /\ match x with None => Ok (payload t, []) | Some y => seal_payload y t end = Ok (p, c)
      /\ queue_identity (VDict p) = Ok i
      /\ tasks s' = dset k (set_times None None (set_result VNone (set_error None
                      (set_payload p t)))) (tasks s)
      /\ queued_ids s' = queued_ids s ∪ {[k]}
  | Raise _ => last_admission_result s' = last_admission_result s
  end.
Proof.
  unfold admit_task. unfold_m. unfold mlift.
  destruct (match x with None => _ | Some y => _ end) as [[p c]|e]; [|done].
  destruct (queue_identity _) as [i|e] eqn:Ei; [|done]. by exists p, c, i.
Qed.

(** Re-inserting the stored task does not change what the others see. *)
Lemma filter_dset_ne (k : string) (t : ScheduledTask) d :
  filter (fun kt => kt.1 <> k) (dset k t d) = filter (fun kt => kt.1 <> k) d.
Proof.
  induction d as [|[k' v'] d IH]; simpl.
  - rewrite filter_cons_False by (simpl; tauto). done.
  - destruct (String.eqb_spec k' k) as [->|Hn].
    + rewrite !filter_cons_False by (simpl; tauto). done.
    + rewrite !filter_cons_True by done. by rewrite IH.
Qed.

(** What a successful admission of [t] under [key] does to the queue. *)
Definition admitted (t : ScheduledTask) (key : string) (s s' : queue) : Prop :=
  exists u, dget key (tasks s') = Some u
    /\ task_id u = task_id t /\ status u = status t /\ priority u = priority t
    /\ started_at u = None /\ finished_at u = None
    /\ queued_ids s' = queued_ids s ∪ {[key]}
    /\ forall k, k <> key -> dget k (tasks s') = dget k (tasks s).

Lemma admit_admitted key x t s s0 :
  tasks s0 = tasks s -> queued_ids s0 ∪ {[key]} = queued_ids s ∪ {[key]} ->
  last_admission_result s0 = last_admission_result s ->
  let '(r, s') := admit_task key x t s0 in
  match r with
  | Ok b => b = true /\ admitted t key s s'
  | Raise _ => last_admission_result s' = last_admission_result s
  end.
Proof.
  intros Ht Hq Ha. pose proof (admit_spec key x t s0) as P.
  destruct (admit_task key x t s0) as [[b|e] s']; [|congruence].
  destruct P as (p & c & i & -> & _ & _ & P1 & P2). split; [done|].
  unfold admitted. rewrite P1, P2, Ht, dget_dset_eq.
  eexists. split_and!; try done. intros k Hk. by rewrite dget_dset_ne.
Qed.

(** [enqueue] decides by identity: it admits a task exactly if no other task is
    the same work and its key is new or [overwrite] is given; the stored task
    keeps the status and the priority it came with, is queued, and no other
    task changes.  A refusal is for one of the two reasons and changes neither
    tasks, queued keys nor the heap; a raise leaves the last report as it was. *)
Theorem enqueue_correct sha t ow s :
  let others key := map (fun kt => VDict (payload kt.2))
                      (filter (fun kt => kt.1 <> key) (tasks s)) in
  let same_work key := duplicate_identity sha (VDict (payload t)) (others key) in
  let '(r, s') := enqueue sha t ow s in
  match r with
  | Ok true => exists key m, _storage_key t = Ok key /\ same_work key = Ok (None, m)
      /\ (dget key (tasks s) = None \/ ow = true) /\ admitted t key s s'
  | Ok false => tasks s' = tasks s /\ queued_ids s' = queued_ids s /\ heap s' = heap s
      /\ exists key, _storage_key t = Ok key
           /\ ((exists x m, same_work key = Ok (Some x, m))
               \/ (is_Some (dget key (tasks s)) /\ ow = false))
  | Raise _ => last_admission_result s' = last_admission_result s
  end.
Proof.
  intros others same_work. unfold enqueue, refuse. unfold_m. unfold mlift.
  destruct (_storage_key t) as [key|e]; [|done]. fold (others key). fold (same_work key).
  destruct (same_work key) as [[[x|] m]|e] eqn:Ed; [|simpl|done].
  { simpl. split_and!; try done. exists key. eauto. }
  assert (G : forall s0 x, tasks s0 = tasks s ->
    queued_ids s0 ∪ {[key]} = queued_ids s ∪ {[key]} ->
    last_admission_result s0 = last_admission_result s ->
    (dget key (tasks s) = None \/ ow = true) ->
    let '(r, s') := admit_task key x t s0 in
    match r with
    | Ok true => exists key0 m0, Ok (A:=string) key = Ok key0 /\ same_work key0 = Ok (None, m0)
        /\ (dget key0 (tasks s) = None \/ ow = true) /\ admitted t key0 s s'
    | Ok false => False
    | Raise _ => last_admission_result s' = last_admission_result s
    end).
  { intros s0 x Ht Hq Ha Ho. pose proof (admit_admitted key x t s s0 Ht Hq Ha) as P.
    destruct (admit_task key x t s0) as [[b|e] s']; [|done].
    destruct P as [-> P]. by exists key, m. }
  destruct (dget key (tasks s)) as [x|] eqn:Ex.
  - destruct ow.
    + case_bool_decide;
        match goal with |- context [admit_task key (Some x) t ?s0] =>
          specialize (G s0 (Some x)); destruct (admit_task key (Some x) t s0) as [[[]|e] s']
        end; try apply G; simpl; auto using readd; exfalso; apply G; simpl; auto using readd.
    + destruct (identity_or_task x t) as [i|e]; [|done]. simpl. split_and!; try done.
      exists key. split; [done|]. right. by rewrite Ex.
  - specialize (G s None eq_refl eq_refl eq_refl (or_introl eq_refl)).
    by destruct (admit_task key None t s) as [[[]|e] s'].
Qed.

(** Enqueueing is idempotent: an admitted task, presented again without
    [overwrite], is refused without an exception and without any effect on the
    tasks, the queued keys or the heap. *)
Theorem enqueue_idempotent sha t s s' :
  enqueue sha t false s = (Ok true, s') ->
  exists s'', enqueue sha t false s' = (Ok false, s'')
    /\ tasks s'' = tasks s' /\ queued_ids s'' = queued_ids s' /\ heap s'' = heap s'.
Proof.
  unfold enqueue, refuse. unfold_m. unfold mlift.
  destruct (_storage_key t) as [key|e]; [|done].
  destruct (duplicate_identity _ _ _) as [[[x|] m]|e] eqn:Ed; [done| |done]. simpl.
  destruct (dget key (tasks s)) as [x|] eqn:Ex.
  { by destruct (identity_or_task x t) as [i|e]. }
  intros H. pose proof (admit_spec key None t s) as P. rewrite H in P.
  destruct P as (p & c & i & _ & [= <- <-] & Hi & P1 & P2).
  rewrite P1, filter_dset_ne, Ed. simpl. rewrite dget_dset_eq.
  unfold identity_or_task. unfold_m. simpl. rewrite Hi. by eexists.
Qed.

(** Only an authority finishes a task: [mark_finished] finishes the resolved
    task, and takes it out of the queue, exactly with an authority for the
    given id and the task's session; when it raises or finds no task, the queue
    is exactly as before. *)
Theorem mark_finished_gated {A} `{!CompletionGate A} now task r (a : A) session s :
  let authorised k t := exists sid,
    _resolve_key s task session "" "" = Ok (Some k) /\ dget k (tasks s) = Some t
    /\ task_session t = Ok sid
    /\ authorises a task (if non_empty sid then Some sid else None) = true in
  let '(o, s') := mark_finished now task r a session s in
  (forall k t, authorised k t -> o = Ok true)
  /\ match o with
     | Ok true => exists k t, authorised k t
         /\ dget k (tasks s') = Some (set_times (started_at t) (Some (now (clock s)))
                                        (set_result r (set_status STATUS_FINISHED t)))
         /\ queued_ids s' = queued_ids s ∖ {[k]}
         /\ forall k', k' <> k -> dget k' (tasks s') = dget k' (tasks s)
     | _ => s' = s
     end.
Proof.
  intros authorised. unfold mark_finished, resolved. unfold_m. unfold mlift.
  destruct (_resolve_key s task session "" "") as [[k|]|e] eqn:Ek;
    [|split; [by intros k t (sid & ? & _)|done]..].
  destruct (dget k (tasks s)) as [t|] eqn:Et.
  2: { split; [|done]. intros k' t (sid & H1 & H2 & _). congruence. }
  destruct (task_session t) as [sid|e] eqn:Es.
  2: { split; [|done]. intros k' t' (sid & H1 & H2 & H3 & _). congruence. }
  destruct (authorises a task _) eqn:Ea; cbn [negb]; simpl.
  2: { split; [|done]. intros k' t' (sid' & H1 & H2 & H3 & H4). exfalso.
       injection H1 as <-. rewrite Et in H2. injection H2 as <-.
       rewrite Es in H3. injection H3 as <-. by rewrite Ea in H4. }
  split; [done|]. exists k, t. rewrite dget_dset_eq. split_and!; try done; [by exists sid|].
  intros k' Hk. by rewrite dget_dset_ne.
Qed.

(** ** Stale heap entries *)

Lemma entry_le_seq_antisym a b : entry_le a b = true -> entry_le b a = true -> e_seq a = e_seq b.
Proof. rewrite !entry_le_spec. lia. Qed.

(** An entry pushed behind the first live entry does not displace it. *)
Lemma first_live_insert q x e h : forall l,
  StronglySorted (fun a b => entry_le a b = true) l ->
  first_live l q = Some (e, h) -> entry_le e x = true -> (forall y, y ∈ l -> e_seq y <> e_seq x) ->
  exists h', first_live (insert_sorted entry_le x l) q = Some (e, h').
Proof.
  induction 1 as [|y l Hl IH Hy]; simpl; [done|]. intros Hf Hex Hseq.
  assert (Hyx : entry_le x y = false).
  { apply not_true_iff_false. intros Hxy.
    apply (Hseq y); [set_solver|]. apply entry_le_seq_antisym; [|done].
    revert Hf. case_bool_decide; [by intros [= -> ->]|]. intros Hf.
    apply first_live_split in Hf as (dead & -> & _ & _).
    assert (entry_le y e = true).
    { rewrite Forall_forall in Hy. apply Hy, elem_of_app. right. apply elem_of_cons. by left. }
    by eapply entry_le_trans. }
  rewrite Hyx. simpl. revert Hf. case_bool_decide; [intros [= -> ->]; eauto|].
  intros Hf. apply IH; [done|done|set_solver].
Qed.

(** Lowering a priority does not postpone the task: the entry pushed for the
    old priority stays live, so the task next in line stays next in line
    whatever lower priority it is given. *)
Theorem lower_priority_not_effective now task p session s e h t :
  queue_inv s -> first_live (heap s) (queued_ids s) = Some (e, h) ->
  _resolve_key s task session "" "" = Ok (Some (e_key e)) ->
  dget (e_key e) (tasks s) = Some t -> (p <= - e_prio e)%Z -> created_at t = e_created e ->
  let s' := (update_priority task p session s).2 in
  (pop_next now s').1 = Ok (Some (started (now (clock s)) (set_priority p t))).
Proof.
  intros H Hf Hr Ht Hp Hc. pose proof Hf as Hf'.
  apply first_live_split in Hf' as (dead & Hh & He & _).
  pose proof (keeps_priority task p session s H) as K. revert K.
  unfold update_priority, resolved, pop_next. unfold_m. unfold mlift. rewrite Hr, Ht. simpl.
  rewrite bool_decide_true by done. intros K.
  destruct (first_live_insert (queued_ids s)
    (Entry (- p) (created_at t) (sequence s) (e_key e)) e h (heap s)) as [h' Hl].
  - apply (inv_sorted _ H).
  - done.
  - apply entry_le_spec. simpl.
    pose proof (inv_seq _ H e) as Hs. rewrite Hh in Hs. specialize (Hs ltac:(set_solver)). lia.
  - intros y Hy. simpl. apply (inv_seq _ H) in Hy. lia.
  - match goal with |- (pop_loop _ _ ?x).1 = _ =>
      pose proof (pop_loop_spec now (heap x) x (inv_known _ K) eq_refl) as P end.
    simpl in P. unfold heappush in P. rewrite Hl in P. destruct P as (t' & Ht' & P).
    simpl in Ht'. rewrite dget_dset_eq in Ht'. injection Ht' as <-.
    exact (f_equal fst P).
Qed.

(** ** Concrete runs *)

Definition demo_now (n : nat) : Z := Z.of_nat n.

Definition demo_task (id : string) (p : Z) (payload : list (string * val)) : ScheduledTask :=
  Task id "" p 0 STATUS_QUEUED 0 0 payload [] None VNone None None.

(** Three tasks, then one cancelled: its heap entry stays behind. *)
Definition demo_queue : queue :=
  (cancel demo_now "b" ""
     (extend demo_sha256 [demo_task "a" 5 []; demo_task "b" 9 []; demo_task "c" 3 []] false
        empty_queue).2).2.

Lemma demo_queue_inv : queue_inv demo_queue.
Proof.
  unfold demo_queue. apply keeps_cancel. apply keeps_extend. apply inv_empty.
Qed.

Lemma pop_next_correct_witness :
  exists t s', pop_next demo_now demo_queue = (Ok (Some t), s') /\ task_id t = "a"
    /\ status t = STATUS_RUNNING /\ exists x t0, live demo_queue x
    /\ dget (e_key x) (tasks demo_queue) = Some t0 /\ t = started (demo_now (clock demo_queue)) t0.
Proof.
  pose proof (pop_next_correct demo_now demo_queue demo_queue_inv) as P.
  destruct (pop_next demo_now demo_queue) as [[[t|]|e] s'] eqn:E;
    [|exfalso; revert E; vm_compute; discriminate..].
  exists t, s'. split; [done|]. destruct P as (x & t0 & _ & Hl & _ & Hd & Ht & _).
  assert (Hid : match (pop_next demo_now demo_queue).1 with
                | Ok (Some t) => task_id t = "a" /\ status t = STATUS_RUNNING
                | _ => False end) by (vm_compute; split; reflexivity).
  rewrite E in Hid. destruct Hid as [Hi Hs]. split; [exact Hi|]. split; [exact Hs|].
  exists x, t0. split; [exact Hl|]. split; [exact Hd|exact Ht].
Defined.

Lemma drain_is_list_queued_witness :
  exists l s', drain demo_now 3 demo_queue = (Ok l, s')
    /\ length l = size demo_queue /\ map task_id l = ["a"; "c"].
Proof.
  pose proof (drain_is_list_queued demo_now 3 demo_queue demo_queue_inv) as P.
  destruct (drain demo_now 3 demo_queue) as [r s'] eqn:E.
  destruct P as (l & -> & _ & Hl & _); [vm_compute; lia|].
  exists l, s'. split; [done|]. split; [done|].
  apply (f_equal fst) in E. revert E. vm_compute. by intros [= <-].
Defined.

Lemma peek_agrees_with_pop_witness :
  exists t, (peek_next demo_queue).1 = Ok (Some t) /\ task_id t = "a"
    /\ tasks (peek_next demo_queue).2 = tasks demo_queue.
Proof.
  pose proof (peek_agrees_with_pop demo_now demo_queue demo_queue_inv) as P.
  destruct (peek_next demo_queue) as [r s1] eqn:E. destruct P as (_ & Ht & o & -> & _).
  destruct o as [t|]; [|apply (f_equal fst) in E; revert E; vm_compute; discriminate].
  exists t. split; [done|]. split; [|exact Ht].
  apply (f_equal fst) in E. revert E. vm_compute. by intros [= <-].
Defined.

Lemma enqueue_idempotent_witness :
  exists s'', enqueue demo_sha256 (demo_task "d" 1 []) false
      (enqueue demo_sha256 (demo_task "d" 1 []) false demo_queue).2 = (Ok false, s'')
    /\ size s'' = 3.
Proof.
  destruct (enqueue demo_sha256 (demo_task "d" 1 []) false demo_queue) as [r s'] eqn:E.
  assert (Hr : r = Ok true) by (apply (f_equal fst) in E; revert E; vm_compute; congruence).
  subst r. destruct (enqueue_idempotent _ _ _ _ E) as (s'' & H & _ & Hq & _).
  exists s''. split; [exact H|]. unfold size. rewrite Hq.
  transitivity (base.size (queued_ids
    (enqueue demo_sha256 (demo_task "d" 1 []) false demo_queue).2));
    [by rewrite E|vm_compute; reflexivity].
Defined.

(** Task ["a"], lowered to 1, is still popped before ["c"] of priority 3. *)
Lemma lower_priority_not_effective_witness :
  (pop_next demo_now (update_priority "a" 1 "" demo_queue).2).1
  = Ok (Some (started 1 (set_priority 1 (demo_task "a" 5 []))))
  /\ (exists t, dget "c" (tasks demo_queue) = Some t /\ priority t = 3%Z
      /\ "c" ∈ queued_ids demo_queue).
Proof.
  split.
  - destruct (first_live (heap demo_queue) (queued_ids demo_queue)) as [[e h]|] eqn:E;
      [|exfalso; revert E; vm_compute; discriminate].
    assert (He : e = Entry (-5) 0 0 "a") by (revert E; vm_compute; congruence).
    subst e.
    exact (lower_priority_not_effective demo_now "a" 1 "" demo_queue _ h
      (demo_task "a" 5 []) demo_queue_inv E eq_refl eq_refl ltac:(simpl; lia) eq_refl).
  - eexists. split; [vm_compute; reflexivity|]. split; [reflexivity|].
    apply (bool_decide_unpack _). vm_compute. exact I.
Defined.

Definition demo_old : ScheduledTask :=
  demo_task "t1" 0 [("runtime_session_id", VStr "r1")].
Definition demo_new : ScheduledTask :=
  demo_task "t1" 0 [("metadata", VDict [("runtime_session_id", VStr "r2")])].

(** [enqueue] with [overwrite] can raise after it has queued the task: the
    merge keeps the old [runtime_session_id] and adds the new payload's nested
    one, [queue_identity] rejects the conflict, and the queue is left with a
    queued task that no authority can ever finish. *)
Theorem enqueue_raises_after_queueing {A} `{!CompletionGate A} sha now :
  let s := (enqueue sha demo_old false empty_queue).2 in
  let '(r, s') := enqueue sha demo_new true s in
  let conflict := Raise (ValueError "session_identity_conflicting_fields:runtime_session_id") in
  r = conflict /\ "t1" ∈ queued_ids s'
  /\ forall x (a : A), (mark_finished now "t1" x a "" s').1 = conflict.
Proof.
  cbv zeta. set (s := (enqueue sha demo_old false empty_queue).2).
  rewrite (surjective_pairing (enqueue sha demo_new true s)).
  set (s' := (enqueue sha demo_new true s).2).
  split; [vm_compute; reflexivity|].
  split; [apply (bool_decide_unpack _); vm_compute; exact I|].
  assert (Hk : _resolve_key s' "t1" "" "" "" = Ok (Some "t1")) by (vm_compute; reflexivity).
  assert (Ht : match dget "t1" (tasks s') with
               | Some t => task_session t
               | None => Ok EmptyString end
               = Raise (ValueError "session_identity_conflicting_fields:runtime_session_id"))
    by (vm_compute; reflexivity).
  intros x a. unfold mark_finished, resolved. unfold_m. unfold mlift. rewrite Hk.
  destruct (dget "t1" (tasks s')) as [t|]; [|discriminate]. by rewrite Ht.
Qed.
