(* ===== verification/WorkerPool.v ===== *)
(** * The worker pool

    [core/tasks/scheduler_core/worker_pool.py]: a fixed set of slots, and the
    records of the running tasks by worker and by task id.  Every method holds
    the pool's lock, so a method is one step.  [running_seconds], which the
    listings derive from a second reading of the clock, is left out of them. *)

From stdpp Require Import pretty.
From S2P Require Import Prelude PyVal TaskQueue.

Record WorkerSlot : Type := Slot {
  s_worker : string;
  is_busy : bool;
  s_task : option string;
  s_started : option Z }.

Record RunningTaskRecord : Type := Running {
  r_worker : string;
  r_task : ScheduledTask;
  r_started : Z }.

Record pool : Type := Pool {
  slots : list (string * WorkerSlot);
  running_by_worker : list (string * RunningTaskRecord);
  running_by_task : list (string * RunningTaskRecord);
  pclock : nat }.

(** [f"worker-{i + 1}"] *)
Definition worker_name (i : nat) : string := "worker-" +:+ pretty (S i).

Definition free_slot (w : string) : WorkerSlot := Slot w false None None.

Definition new_pool (max_workers : Z) : res pool :=
  if (max_workers <=? 0)%Z then Raise (ValueError "max_workers must be greater than 0")
  else Ok (Pool (map (fun i => (worker_name i, free_slot (worker_name i)))
                   (seq 0 (Z.to_nat max_workers))) [] [] 0).

Definition capacity (s : pool) : nat := length (slots s).
Definition busy_count (s : pool) : nat := length (running_by_worker s).
Definition free_count (s : pool) : Z := (Z.of_nat (capacity s) - Z.of_nat (busy_count s))%Z.
Definition has_free_slot (s : pool) : bool := (0 <? free_count s)%Z.

Definition list_slots (s : pool) : list WorkerSlot := dvalues (slots s).

Definition list_running (s : pool) : list RunningTaskRecord :=
  isort (fun a b => (r_started a <=? r_started b)%Z) (dvalues (running_by_worker s)).

Definition get_running_task (s : pool) (task : string) : option RunningTaskRecord :=
  dget task (running_by_task s).

Definition get_worker_for_task (s : pool) (task : string) : option string :=
  option_map r_worker (dget task (running_by_task s)).

Definition pool_stats (s : pool) : nat * nat * Z * nat * list RunningTaskRecord :=
  (capacity s, busy_count s, free_count s, busy_count s, list_running s).

(** The first slot that is not busy, in the order of the slots. *)
Fixpoint first_free (l : list (string * WorkerSlot)) : option string :=
  match l with
  | [] => None
  | (w, sl) :: l' => if is_busy sl then first_free l' else Some w
  end.

Section operations.
Context (now : nat -> Z).

(** Mark the slot [w] busy with [t] and record it under both keys. *)
Definition occupy (w : string) (t : ScheduledTask) : M pool unit := fun s =>
  let n := now (pclock s) in
  let record := Running w t n in
  (Ok tt, Pool (dset w (Slot w true (Some (task_id t)) (Some n)) (slots s))
            (dset w record (running_by_worker s))
            (dset (task_id t) record (running_by_task s)) (S (pclock s))).

Definition acquire (t : ScheduledTask) : M pool (option string) :=
  s ← mget;
  if dmem (task_id t) (running_by_task s) then mret None
  else match first_free (slots s) with
       | None => mret None
       | Some w => _ ← occupy w t; mret (Some w)
       end.

(** [ScheduledTask(task_id=task_id, title=task_id)] *)
Definition fake_task (task : string) (n : Z) : ScheduledTask :=
  Task task task 0 n STATUS_QUEUED 0 0 [] [] None VNone None None.

Definition tick : M pool Z := fun s =>
  (Ok (now (pclock s)),
   Pool (slots s) (running_by_worker s) (running_by_task s) (S (pclock s))).

Definition assign (w task : string) : M pool bool :=
  s ← mget;
  match dget w (slots s) with
  | None => mret false
  | Some sl =>
      if is_busy sl then mret false
      else n ← tick; _ ← occupy w (fake_task task n); mret true
  end.

Definition release_by_worker (w : string) : M pool (option RunningTaskRecord) := fun s =>
  match dget w (running_by_worker s) with
  | None => (Ok None, s)
  | Some record =>
      (Ok (Some record),
       Pool (match dget w (slots s) with
             | Some _ => dset w (free_slot w) (slots s)
             | None => slots s
             end)
         (dpop w (running_by_worker s)) (dpop (task_id (r_task record)) (running_by_task s))
         (pclock s))
  end.

Definition release (w : string) : M pool (option RunningTaskRecord) := release_by_worker w.

Definition release_by_task (task : string) : M pool (option RunningTaskRecord) :=
  s ← mget;
  match dget task (running_by_task s) with
  | None => mret None
  | Some record => release_by_worker (r_worker record)
  end.

End operations.

(** ** The invariant *)

(** A slot is free, or busy with the task its record names. *)
Definition slot_ok (w : string) (sl : WorkerSlot) (r : option RunningTaskRecord) : Prop :=
  match r with
  | None => sl = free_slot w
  | Some r => sl = Slot w true (Some (task_id (r_task r))) (Some (r_started r))
  end.

Record pool_inv (s : pool) : Prop := {
  pinv_slots : dict_ok (slots s);
  pinv_worker : dict_ok (running_by_worker s);
  pinv_task : dict_ok (running_by_task s);
  pinv_slot : forall w sl, dget w (slots s) = Some sl ->
    slot_ok w sl (dget w (running_by_worker s));
  pinv_by_worker : forall w r, dget w (running_by_worker s) = Some r ->
    r_worker r = w /\ is_Some (dget w (slots s))
    /\ dget (task_id (r_task r)) (running_by_task s) = Some r;
  pinv_by_task : forall t r, dget t (running_by_task s) = Some r ->
    task_id (r_task r) = t /\ dget (r_worker r) (running_by_worker s) = Some r }.

Lemma first_free_spec l w :
  first_free l = Some w ->
  exists before sl after, l = before ++ (w, sl) :: after /\ is_busy sl = false
    /\ Forall (fun x => is_busy x.2 = true) before.
Proof.
  induction l as [|[w' sl] l IH]; simpl; [done|]. destruct (is_busy sl) eqn:E.
  - intros H. destruct (IH H) as (b & sl' & a & -> & Hb & Hf).
    exists ((w', sl) :: b), sl', a. by repeat split; [..|constructor].
  - intros [= ->]. exists [], sl, l. by repeat split.
Qed.

Lemma first_free_None l : first_free l = None <-> Forall (fun x => is_busy x.2 = true) l.
Proof.
  induction l as [|[w sl] l IH]; simpl; [by split; constructor|].
  rewrite Forall_cons. destruct (is_busy sl) eqn:E; simpl; rewrite ?E; naive_solver.
Qed.

Lemma first_free_dget s w :
  pool_inv s -> first_free (slots s) = Some w -> dget w (slots s) = Some (free_slot w).
Proof.
  intros H Hf. apply first_free_spec in Hf as (b & sl & a & Hs & Hb & _).
  assert (Hd : dget w (slots s) = Some sl).
  { apply elem_dget; [apply H|]. rewrite Hs, elem_of_app, elem_of_cons. auto. }
  pose proof (pinv_slot _ H _ _ Hd) as Ho. unfold slot_ok in Ho.
  destruct (dget w (running_by_worker s)); subst; [done|done].
Qed.

Lemma free_not_running s w :
  pool_inv s -> dget w (slots s) = Some (free_slot w) -> dget w (running_by_worker s) = None.
Proof.
  intros H Hd. pose proof (pinv_slot _ H _ _ Hd) as Ho. unfold slot_ok in Ho.
  by destruct (dget w (running_by_worker s)).
Qed.

(** Occupying a free slot with a task that is not running keeps the invariant. *)
Lemma inv_occupy now w t s :
  pool_inv s -> dget w (slots s) = Some (free_slot w) ->
  dget (task_id t) (running_by_task s) = None -> pool_inv (occupy now w t s).2.
Proof.
  intros H Hw Ht. pose proof (free_not_running _ _ H Hw) as Hn.
  destruct H as [A B C D E F]. constructor; simpl; try by apply dict_ok_dset.
  - intros w' sl. rewrite !dget_dset. destruct (String.eqb_spec w w') as [->|].
    + by intros [= <-].
    + apply D.
  - intros w' r. rewrite !dget_dset. destruct (String.eqb_spec w w') as [->|Hne].
    + intros [= <-]. simpl. by rewrite String.eqb_refl; eauto.
    + intros Hr. destruct (E _ _ Hr) as (? & ? & Hb). split_and!; [done|done|].
      destruct (String.eqb_spec (task_id t) (task_id (r_task r))) as [Heq|]; [|done].
      rewrite <- Heq, Ht in Hb. done.
  - intros t' r. rewrite !dget_dset. destruct (String.eqb_spec (task_id t) t') as [<-|Hne].
    + intros [= <-]. simpl. by rewrite String.eqb_refl.
    + intros Hr. destruct (F _ _ Hr) as [? Hb]. split; [done|].
      destruct (String.eqb_spec w (r_worker r)) as [Heq|]; [|done].
      rewrite <- Heq, Hn in Hb. done.
Qed.

Lemma pool_inv_tick now s : pool_inv s -> pool_inv (tick now s).2.
Proof. by intros []. Qed.

Lemma inv_release w s : pool_inv s -> pool_inv (release_by_worker w s).2.
Proof.
  intros H. unfold release_by_worker. destruct (dget w (running_by_worker s)) as [r|] eqn:Er; [|done].
  destruct (pinv_by_worker _ H _ _ Er) as (Hw & [sl Hsl] & Ht).
  destruct H as [A B C D E F]. rewrite Hsl. constructor; simpl; auto using dict_ok_dset, dict_ok_dpop.
  - intros w' sl'. rewrite dget_dset, dget_dpop. destruct (String.eqb_spec w w') as [->|].
    + by intros [= <-].
    + apply D.
  - intros w' r'. rewrite !dget_dpop, dget_dset. destruct (String.eqb_spec w w'); [done|].
    intros Hr. destruct (E _ _ Hr) as (? & ? & Hb). split_and!; [done|done|].
    destruct (String.eqb_spec (task_id (r_task r)) (task_id (r_task r'))) as [Heq|]; [|done].
    rewrite <- Heq, Ht in Hb. congruence.
  - intros t' r'. rewrite !dget_dpop.
    destruct (String.eqb_spec (task_id (r_task r)) t') as [|Hne]; [done|].
    intros Hr. destruct (F _ _ Hr) as [? Hb]. split; [done|].
    destruct (String.eqb_spec w (r_worker r')) as [Heq|]; [|done]. congruence.
Qed.

Lemma inv_new n s : new_pool n = Ok s -> NoDup (dkeys (slots s)) -> pool_inv s.
Proof.
  unfold new_pool. destruct (n <=? 0)%Z; [done|]. intros [= <-] Hn.
  constructor; simpl; try done; try constructor.
  intros w sl Hd. apply dget_Some_elem, list_elem_of_In, in_map_iff in Hd as (i & [= <- <-] & _).
  done.
Qed.

Lemma worker_names_distinct n : NoDup (map worker_name (seq 0 n)).
Proof.
  apply NoDup_fmap_2_strong; [|apply NoDup_seq]. intros i j _ _. unfold worker_name.
  intros E. assert (pretty (S i) = pretty (S j)) as Hp.
  { revert E. generalize (pretty (S i)), (pretty (S j)). intros a b. vm_compute. congruence. }
  apply pretty_nat_inj in Hp. lia.
Qed.

(** ** Lemmas on counting *)

(** The busy slots are exactly the slots of the running records. *)
Lemma busy_slots s :
  pool_inv s ->
  (filter (fun x : string * WorkerSlot => is_busy x.2 = true) (slots s)).*1
  ≡ₚ dkeys (running_by_worker s).
Proof.
  intros H. apply NoDup_Permutation.
  - apply NoDup_filter_keys, (pinv_slots _ H).
  - apply (pinv_worker _ H).
  - intros w. rewrite list_elem_of_fmap, <- dget_is_Some_keys. split.
    + intros ([w' sl] & -> & [Hb Hin]%list_elem_of_filter). simpl in *.
      apply elem_dget in Hin; [|apply H]. pose proof (pinv_slot _ H _ _ Hin) as Ho.
      unfold slot_ok in Ho. destruct (dget w' (running_by_worker s)); [by eexists|].
      by subst sl.
    + intros [r Hr]. destruct (pinv_by_worker _ H _ _ Hr) as (_ & [sl Hsl] & _).
      exists (w, sl). split; [done|]. apply list_elem_of_filter. simpl.
      split; [|by apply dget_Some_elem]. pose proof (pinv_slot _ H _ _ Hsl) as Ho.
      unfold slot_ok in Ho. rewrite Hr in Ho. by subst sl.
Qed.

Lemma filter_lengths {A} (P : A -> bool) (l : list A) :
  length (filter (fun x => P x = true) l) + length (filter (fun x => P x = false) l) = length l.
Proof.
  induction l as [|x l IH]; [done|]. rewrite !filter_cons.
  destruct (P x); repeat case_decide; simpl; try done; lia.
Qed.

Lemma free_count_filter s :
  pool_inv s ->
  free_count s
  = Z.of_nat (length (filter (fun x : string * WorkerSlot => is_busy x.2 = false) (slots s))).
Proof.
  intros H. unfold free_count, capacity, busy_count.
  pose proof (Permutation_length (busy_slots s H)) as Hp. unfold dkeys in Hp.
  rewrite !length_fmap in Hp.
  pose proof (filter_lengths (fun x : string * WorkerSlot => is_busy x.2) (slots s)). lia.
Qed.

Lemma has_free_first s :
  pool_inv s -> has_free_slot s = true <-> exists w, first_free (slots s) = Some w.
Proof.
  intros H. unfold has_free_slot. rewrite free_count_filter, Z.ltb_lt by done.
  destruct (first_free (slots s)) as [w|] eqn:E.
  - split; [eauto|]. intros _. apply first_free_spec in E as (b & sl & a & -> & Hb & _).
    rewrite filter_app, filter_cons_True by done. rewrite length_app. simpl. lia.
  - apply first_free_None in E. split; [|by intros [w ?]].
    assert (Hz : filter (fun x : string * WorkerSlot => is_busy x.2 = false) (slots s) = []).
    { induction E as [|x l Hx _ IH]; [done|]. rewrite filter_cons_False; [done|]. congruence. }
    rewrite Hz. simpl. lia.
Qed.

Lemma length_dset_present {A} k (v : A) d :
  is_Some (dget k d) -> length (dset k v d) = length d.
Proof.
  intros [x Hx]. pose proof (dkeys_dset k v d) as E. unfold dmem in E. rewrite Hx in E.
  apply (f_equal length) in E. unfold dkeys in E. by rewrite !length_fmap in E.
Qed.

Lemma length_dset_new {A} k (v : A) d :
  dget k d = None -> length (dset k v d) = S (length d).
Proof.
  intros Hx. pose proof (dkeys_dset k v d) as E. unfold dmem in E. rewrite Hx in E.
  apply (f_equal length) in E. unfold dkeys in E. rewrite length_app, !length_fmap in E.
  simpl in E. lia.
Qed.

Lemma occupy_free_count now w t s :
  pool_inv s -> dget w (slots s) = Some (free_slot w) ->
  free_count (occupy now w t s).2 = (free_count s - 1)%Z.
Proof.
  intros H Hw. unfold free_count, capacity, busy_count. simpl.
  rewrite length_dset_present by (by eexists).
  rewrite length_dset_new by (by eapply free_not_running). lia.
Qed.

Lemma acquire_cases now t s :
  pool_inv s ->
  match dget (task_id t) (running_by_task s), first_free (slots s) with
  | None, Some w => acquire now t s = (Ok (Some w), (occupy now w t s).2)
                    /\ dget w (slots s) = Some (free_slot w)
  | _, _ => acquire now t s = (Ok None, s)
  end.
Proof.
  intros H. unfold acquire, dmem. unfold_m.
  destruct (dget (task_id t) (running_by_task s)); [done|].
  destruct (first_free (slots s)) eqn:E; [|done]. split; [done|]. by apply first_free_dget.
Qed.

(** ** The operations of a client, as steps *)

Inductive pop_step (now : nat -> Z) : pool -> pool -> Prop :=
  | PAcquire t s : pop_step now s (acquire now t s).2
  | PReleaseWorker w s : pop_step now s (release_by_worker w s).2
  | PReleaseTask t s : pop_step now s (release_by_task t s).2
  | PAssign w t s : dget t (running_by_task s) = None -> pop_step now s (assign now w t s).2.

Lemma inv_step now s s' : pool_inv s -> pop_step now s s' -> pool_inv s'.
Proof.
  intros H Hs. revert H. destruct Hs as [t s|w s|t s|w t s Hf]; intros H.
  - pose proof (acquire_cases now t s H) as C.
    destruct (dget (task_id t) (running_by_task s)) eqn:Et; [by rewrite C|].
    destruct (first_free (slots s)) as [w|]; [|by rewrite C].
    destruct C as [-> Hw]. by apply inv_occupy.
  - by apply inv_release.
  - unfold release_by_task. unfold_m. destruct (dget t (running_by_task s)); [|done].
    by apply inv_release.
  - unfold assign. unfold_m. destruct (dget w (slots s)) as [sl|] eqn:Ew; [|done].
    destruct (is_busy sl) eqn:Eb; [done|].
    assert (sl = free_slot w) as ->.
    { pose proof (pinv_slot _ H _ _ Ew) as Ho. unfold slot_ok in Ho.
      destruct (dget w (running_by_worker s)); subst; [done|done]. }
    apply (inv_occupy now w _ (tick now s).2); [by apply pool_inv_tick|done|done].
Qed.

(** ** Properties *)

(** The pool's books agree in every state a client reaches from a new pool
    (assigning only ids that are not running): a slot is busy exactly with the
    task its worker's record names, the records by worker and by task are the
    same records, and the free count is the number of free slots. *)
Theorem pool_books_agree now n s0 s :
  new_pool n = Ok s0 -> rtc (pop_step now) s0 s ->
  pool_inv s
  /\ free_count s = Z.of_nat (length (filter (fun x : string * WorkerSlot => is_busy x.2 = false)
                                       (slots s)))
  /\ forall t r, get_running_task s t = Some r <->
       task_id (r_task r) = t /\ dget (r_worker r) (running_by_worker s) = Some r.
Proof.
  intros Hn Hr. assert (H : pool_inv s).
  { eapply (rtc_invariant _ pool_inv); [|exact Hr|].
    - intros x y Hx Hy. by eapply inv_step.
    - eapply inv_new; [exact Hn|]. revert Hn. unfold new_pool.
      destruct (n <=? 0)%Z; [done|]. intros [= <-]. unfold dkeys. simpl.
      rewrite <- list_fmap_compose. apply worker_names_distinct. }
  split; [done|]. split; [by apply free_count_filter|].
  intros t r. unfold get_running_task. split; [apply (pinv_by_task _ H)|].
  intros [<- Hr']. by apply (pinv_by_worker _ H) in Hr' as (_ & _ & ?).
Qed.

(** [acquire] gives the first free slot of the pool to a task that is not
    running yet, and to that task only; it refuses, without any effect, exactly
    when the task is running or no slot is free. *)
Theorem acquire_correct now t s :
  pool_inv s ->
  let '(r, s') := acquire now t s in
  match r with
  | Ok (Some w) =>
      get_running_task s (task_id t) = None
      /\ first_free (slots s) = Some w
      /\ get_worker_for_task s' (task_id t) = Some w
      /\ free_count s' = (free_count s - 1)%Z
      /\ forall t', t' <> task_id t -> get_running_task s' t' = get_running_task s t'
  | Ok None => s' = s
      /\ (is_Some (get_running_task s (task_id t)) \/ has_free_slot s = false)
  | Raise _ => False
  end.
Proof.
  intros H. pose proof (acquire_cases now t s H) as C.
  destruct (dget (task_id t) (running_by_task s)) as [r|] eqn:Et.
  { rewrite C. split; [done|]. left. by eexists. }
  destruct (first_free (slots s)) as [w|] eqn:Ef.
  - destruct C as [-> Hw]. split_and!; try done.
    + unfold get_worker_for_task. simpl. by rewrite dget_dset_eq.
    + by apply occupy_free_count.
    + intros t' Hne. unfold get_running_task. simpl. by rewrite dget_dset_ne.
  - rewrite C. split; [done|]. right. apply not_true_iff_false.
    rewrite has_free_first by done. by rewrite Ef; intros [].
Qed.

(** Releasing what was acquired restores the pool: after a successful
    [acquire], [release_by_task] returns the record of that worker and task and
    the pool is as before, the clock apart. *)
Theorem acquire_release_restores now t w s s' :
  pool_inv s -> acquire now t s = (Ok (Some w), s') ->
  exists n,
    release_by_task (task_id t) s'
    = (Ok (Some (Running w t n)),
       Pool (slots s) (running_by_worker s) (running_by_task s) (S (pclock s))).
Proof.
  intros H E. pose proof (acquire_cases now t s H) as C.
  destruct (dget (task_id t) (running_by_task s)) as [r|] eqn:Et; [congruence|].
  destruct (first_free (slots s)) as [w'|] eqn:Ef; [|congruence].
  destruct C as [C Hw]. rewrite C in E. injection E as <- <-. exists (now (pclock s)).
  pose proof (free_not_running _ _ H Hw) as Hn.
  unfold release_by_task, release_by_worker. unfold_m. simpl.
  rewrite !dget_dset_eq. simpl. rewrite !dget_dset_eq. simpl.
  by rewrite dset_dset, dset_id, !dpop_dset_new.
Qed.

(** ** Concrete runs *)

Definition demo_pool : pool :=
  match new_pool 2 with Ok s => s | Raise _ => Pool [] [] [] 0 end.

Definition demo_running : pool := (acquire demo_now (demo_task "a" 0 []) demo_pool).2.

Lemma demo_running_reachable : rtc (pop_step demo_now) demo_pool demo_running.
Proof. apply rtc_once. apply (PAcquire demo_now). Qed.

Lemma pool_books_agree_witness :
  pool_inv demo_running /\ free_count demo_running = 1%Z
  /\ option_map r_worker (get_running_task demo_running "a") = Some "worker-1".
Proof.
  destruct (pool_books_agree demo_now 2 demo_pool demo_running eq_refl demo_running_reachable)
    as (Hi & _ & _).
  split; [exact Hi|]. split; vm_compute; reflexivity.
Defined.

Lemma demo_running_inv : pool_inv demo_running.
Proof.
  eapply inv_step; [|apply (PAcquire demo_now (demo_task "a" 0 []) demo_pool)].
  apply (inv_new 2); [reflexivity|]. compute_decide.
Qed.

Lemma acquire_correct_witness :
  (acquire demo_now (demo_task "a" 0 []) demo_running).2 = demo_running
  /\ get_worker_for_task (acquire demo_now (demo_task "b" 0 []) demo_running).2 "b"
     = Some "worker-2".
Proof.
  split.
  - exact (proj1 (acquire_correct demo_now (demo_task "a" 0 []) demo_running demo_running_inv)).
  - exact (proj1 (proj2 (proj2
      (acquire_correct demo_now (demo_task "b" 0 []) demo_running demo_running_inv)))).
Defined.

Lemma acquire_release_restores_witness :
  exists n, release_by_task "b" (acquire demo_now (demo_task "b" 0 []) demo_running).2
    = (Ok (Some (Running "worker-2" (demo_task "b" 0 []) n)),
       Pool (slots demo_running) (running_by_worker demo_running)
         (running_by_task demo_running) 2).
Proof.
  exact (acquire_release_restores demo_now (demo_task "b" 0 []) "worker-2" demo_running _
           demo_running_inv eq_refl).
Defined.

(** [assign] with an id that is already running breaks the books: the second
    worker's record replaces the first one's under the task id, and after the
    task is released one worker stays busy with a task that no lookup by id
    finds, so its slot is lost to [release_by_task]. *)
Theorem assign_duplicate_leaks_slot :
  exists s, assign demo_now "worker-2" "a" demo_running = (Ok true, s)
    /\ let s' := (release_by_task "a" s).2 in
       get_running_task s' "a" = None
       /\ option_map s_task (dget "worker-1" (slots s')) = Some (Some "a")
       /\ (release_by_task "a" s').1 = Ok None /\ free_count s' = 1%Z.
Proof. eexists. split; [vm_compute; reflexivity|]. vm_compute. by repeat split. Qed.
