(* ===== verification/Dispatcher.v ===== *)
(** * The task dispatcher

    [core/tasks/scheduler_core/task_dispatcher.py]: the queue and the worker
    pool together.  The dispatcher itself takes no lock: each call below is
    the sequence of the queue's and the pool's (atomic) operations that the
    code makes, in its order. *)

From S2P Require Import Prelude PyVal Lineage QueueContract Authority TaskQueue WorkerPool.

Record dispatcher : Type := Dispatcher { d_queue : queue; d_pool : pool }.

(** A call on one of the two components. *)
Definition on_queue {A} (m : M queue A) : M dispatcher A := fun d =>
  let '(r, q) := m (d_queue d) in (r, Dispatcher q (d_pool d)).
Definition on_pool {A} (m : M pool A) : M dispatcher A := fun d =>
  let '(r, p) := m (d_pool d) in (r, Dispatcher (d_queue d) p).

Record DispatchResult : Type := Result {
  dispatched : bool;
  worker_id : option string;
  task : option ScheduledTask;
  reason : option string }.

Section operations.
Context (now : nat -> Z).

Definition dispatch_once : M dispatcher DispatchResult :=
  d ← mget;
  if negb (has_free_slot (d_pool d))
  then mret (Result false None None (Some "no_free_worker_slot"))
  else
    next_task ← on_queue (pop_next now);
    match next_task with
    | None => mret (Result false None None (Some "no_queued_task"))
    | Some t =>
        w ← on_pool (acquire now t);
        match w with
        | None =>
            _ ← on_queue (requeue (task_id t) (Some (priority t)) None "");
            mret (Result false None None (Some "worker_acquire_failed"))
        | Some w => mret (Result true (Some w) (Some t) None)
        end
    end.

(** The loop of [dispatch_until_full]; [None] is the lack of fuel. *)
Fixpoint dispatch_until_full (fuel : nat) : M dispatcher (option (list DispatchResult)) :=
  match fuel with
  | 0 => mret None
  | S fuel' =>
      d ← mget;
      if negb (has_free_slot (d_pool d)) then mret (Some [])
      else
        r ← dispatch_once;
        if negb (dispatched r) then mret (Some [])
        else rest ← dispatch_until_full fuel'; mret (option_map (cons r) rest)
  end.

Definition complete_task {A} `{!CompletionGate A} (id : string) (x : val) (authority : A)
  : M dispatcher bool :=
  d ← mget;
  match get_running_task (d_pool d) id with
  | None => mret false
  | Some _ =>
      released ← on_pool (release_by_task id);
      match released with
      | None => mret false
      | Some _ => on_queue (mark_finished now id x authority "")
      end
  end.

(** The dict [fail_task] returns. *)
Inductive fail_result : Type :=
  | FailRefused (why : string)
  | FailDone (final_status : string) (retry_count max_retries : Z) (requeued : bool).

Definition fail_task (id error : string) (requeue_on_retry : bool) : M dispatcher fail_result :=
  d ← mget;
  match get_running_task (d_pool d) id with
  | None => mret (FailRefused "task_not_running")
  | Some _ =>
      released ← on_pool (release_by_task id);
      match released with
      | None => mret (FailRefused "worker_release_failed")
      | Some _ =>
          d ← mget;
          t ← mlift (get_task (d_queue d) id "" "" "");
          match t with
          | None => mret (FailRefused "task_not_found_in_queue_storage")
          | Some _ =>
              _ ← on_queue (increment_retry id "");
              d ← mget;
              t ← mlift (get_task (d_queue d) id "" "" "");
              match t with
              | None => mret (FailRefused "task_not_found_after_retry_increment")
              | Some t =>
                  if requeue_on_retry && (retry_count t <=? max_retries t)%Z then
                    _ ← on_queue (requeue id (Some (priority t)) (Some error) "");
                    mret (FailDone STATUS_QUEUED (retry_count t) (max_retries t) true)
                  else
                    _ ← on_queue (mark_failed now id error "");
                    mret (FailDone STATUS_FAILED (retry_count t) (max_retries t) false)
              end
          end
      end
  end.

(** The listings; [list_running] is the pool's. *)
Definition list_queued_tasks (d : dispatcher) : list ScheduledTask := list_queued (d_queue d).
Definition list_running_tasks (d : dispatcher) : list RunningTaskRecord := list_running (d_pool d).
Definition list_all_tasks (d : dispatcher) : list ScheduledTask := list_all (d_queue d).

Definition snapshot : M dispatcher (nat * nat * list (string * nat) * option ScheduledTask
                                    * (nat * nat * Z * nat * list RunningTaskRecord)) :=
  q ← on_queue stats;
  d ← mget;
  mret (q, pool_stats (d_pool d)).

End operations.

(** ** The invariant of the two components *)

Definition dispatcher_inv (d : dispatcher) : Prop :=
  queue_inv (d_queue d) /\ pool_inv (d_pool d).

Lemma inv_on_queue {A} (m : M queue A) d :
  keeps_inv m -> dispatcher_inv d -> dispatcher_inv (on_queue m d).2.
Proof.
  intros Hm [Hq Hp]. unfold on_queue. specialize (Hm _ Hq).
  destruct (m (d_queue d)) as [r q]. by split.
Qed.

Lemma inv_release_task id d :
  dispatcher_inv d -> dispatcher_inv (on_pool (release_by_task id) d).2.
Proof.
  intros [Hq Hp]. unfold on_pool.
  pose proof (inv_step (fun _ => 0%Z) _ _ Hp (PReleaseTask _ id (d_pool d))) as H.
  destruct (release_by_task id (d_pool d)) as [r p]. by split.
Qed.

Lemma inv_acquire now t d :
  dispatcher_inv d -> dispatcher_inv (on_pool (acquire now t) d).2.
Proof.
  intros [Hq Hp]. unfold on_pool.
  pose proof (inv_step now _ _ Hp (PAcquire now t (d_pool d))) as H.
  destruct (acquire now t (d_pool d)) as [r p]. by split.
Qed.

Lemma on_queue_pool {A} (m : M queue A) d : d_pool (on_queue m d).2 = d_pool d.
Proof. unfold on_queue. by destruct (m (d_queue d)). Qed.

Lemma pop_cases now s :
  queue_inv s ->
  (exists t q, pop_next now s = (Ok (Some t), q))
  \/ (exists q, pop_next now s = (Ok None, q) /\ queued_ids s = ∅ /\ tasks q = tasks s).
Proof.
  intros H. unfold pop_next. unfold_m.
  pose proof (pop_loop_spec now (heap s) s (inv_known _ H) eq_refl) as P.
  destruct (first_live (heap s) (queued_ids s)) as [[e h]|] eqn:Ef.
  - destruct P as (t & _ & ->). left. eauto.
  - rewrite P. right. eexists. split; [done|].
    split; [by apply no_live_empty, first_live_None|done].
Qed.

(** The ways [dispatch_once] can end. *)
Inductive dispatch_end (now : nat -> Z) (d d' : dispatcher) (r : res DispatchResult) : Prop :=
  | EndFull :
      has_free_slot (d_pool d) = false ->
      r = Ok (Result false None None (Some "no_free_worker_slot")) -> d' = d ->
      dispatch_end now d d' r
  | EndEmpty :
      has_free_slot (d_pool d) = true -> queued_ids (d_queue d) = ∅ ->
      r = Ok (Result false None None (Some "no_queued_task")) ->
      d_pool d' = d_pool d -> tasks (d_queue d') = tasks (d_queue d) ->
      dispatch_end now d d' r
  | EndDispatched t w :
      pop_next now (d_queue d) = (Ok (Some t), d_queue d') ->
      r = Ok (Result true (Some w) (Some t) None) ->
      first_free (slots (d_pool d)) = Some w ->
      get_running_task (d_pool d) (task_id t) = None ->
      get_worker_for_task (d_pool d') (task_id t) = Some w ->
      free_count (d_pool d') = (free_count (d_pool d) - 1)%Z ->
      dispatch_end now d d' r
  | EndRunning t q :
      has_free_slot (d_pool d) = true ->
      pop_next now (d_queue d) = (Ok (Some t), q) ->
      is_Some (get_running_task (d_pool d) (task_id t)) ->
      d' = (on_queue (requeue (task_id t) (Some (priority t)) None "")
              (Dispatcher q (d_pool d))).2 ->
      (forall x, r = Ok x -> x = Result false None None (Some "worker_acquire_failed")) ->
      dispatch_end now d d' r.

Lemma dispatch_once_end now d :
  dispatcher_inv d ->
  let '(r, d') := dispatch_once now d in dispatcher_inv d' /\ dispatch_end now d d' r.
Proof.
  intros H. pose proof H as [Hq Hp]. unfold dispatch_once. unfold_m.
  destruct (has_free_slot (d_pool d)) eqn:Ef; cbn [negb].
  2: { split; [done|]. by apply EndFull. }
  unfold on_queue at 1. pose proof (keeps_pop now _ Hq) as K.
  destruct (pop_cases now _ Hq) as [(t & q & Eq)|(q & Eq & Hn & Ht)]; rewrite Eq in K |- *;
    simpl in K.
  2: { split; [by split|]. by apply EndEmpty. }
  unfold on_pool at 1. cbn [d_pool d_queue]. pose proof (acquire_cases now t _ Hp) as Q.
  pose proof (inv_acquire now t (Dispatcher q (d_pool d)) (conj K Hp)) as I.
  unfold on_pool in I. cbn [d_pool d_queue] in I.
  destruct (dget (task_id t) (running_by_task (d_pool d))) as [x|] eqn:Er.
  - rewrite Q. cbn [fst snd].
    pose proof (inv_on_queue (requeue (task_id t) (Some (priority t)) None "")
                  (Dispatcher q (d_pool d)) (keeps_requeue _ _ _ _) (conj K Hp)) as J.
    assert (Hr : is_Some (get_running_task (d_pool d) (task_id t))) by (by eexists).
    destruct (on_queue _ (Dispatcher q (d_pool d))) as [[b|e] d'] eqn:Ed; simpl in J.
    + split; [exact J|]. apply (EndRunning _ _ _ _ t q); [done|done|done|by rewrite Ed|].
      by intros y [= <-].
    + split; [exact J|]. apply (EndRunning _ _ _ _ t q); [done|done|done|by rewrite Ed|done].
  - apply (has_free_first _ Hp) in Ef as [w Hw]. rewrite Hw in Q. destruct Q as [Q Hf].
    rewrite Q in I |- *. split; [exact I|]. apply (EndDispatched _ _ _ _ t w); try done.
    + unfold get_worker_for_task. simpl. by rewrite dget_dset_eq.
    + by apply occupy_free_count.
Qed.

(** ** Lemmas on resolving a task *)

(** Keys resolve by ids and payloads only. *)
Definition same_identity (t u : ScheduledTask) : Prop :=
  task_id t = task_id u /\ payload t = payload u.

Lemma match_keys_dset ts k t u a b c d :
  dget k ts = Some t -> same_identity t u ->
  match_keys (dset k u ts) a b c d = match_keys ts a b c d.
Proof.
  intros Hk [H1 H2]. induction ts as [|[k' t'] ts IH]; simpl; [done|]. simpl in Hk.
  destruct (k' =? k)%string; simpl.
  - injection Hk as ->. by rewrite H1, H2.
  - by rewrite IH.
Qed.

Lemma dmem_dset_present {A} k k' (v w : A) d :
  dget k d = Some w -> dmem k' (dset k v d) = dmem k' d.
Proof.
  intros H. unfold dmem. rewrite dget_dset. destruct (String.eqb_spec k k') as [<-|]; [|done].
  by rewrite H.
Qed.

Lemma resolve_same s s' k t u a b c d :
  dget k (tasks s) = Some t -> same_identity t u -> tasks s' = dset k u (tasks s) ->
  _resolve_key s' a b c d = _resolve_key s a b c d.
Proof.
  intros Hk Hs Ht. unfold _resolve_key. rewrite Ht.
  by rewrite !(dmem_dset_present k _ _ t), (match_keys_dset _ _ t).
Qed.

(** A resolved task with its key. *)
Definition resolves (s : queue) (id k : string) (t : ScheduledTask) : Prop :=
  _resolve_key s id "" "" "" = Ok (Some k) /\ dget k (tasks s) = Some t.

Lemma resolves_get s id k t : resolves s id k t -> get_task s id "" "" "" = Ok (Some t).
Proof. intros [H1 H2]. unfold get_task. unfold_m. by rewrite H1, H2. Qed.

Lemma resolves_store s id k t u :
  resolves s id k t -> same_identity t u -> resolves (store_task k u s) id k u.
Proof.
  intros [H1 H2] Hs. split; [|simpl; apply dget_dset_eq].
  rewrite <- H1. by eapply resolve_same.
Qed.

(** ** The operations of a client, as steps *)

Inductive dop (A : Type) : Type :=
  | DDispatch
  | DDispatchAll (fuel : nat)
  | DComplete (id : string) (x : val) (authority : A)
  | DFail (id error : string) (requeue_on_retry : bool)
  | DQueue (o : qop A).
Arguments DDispatch {A}. Arguments DDispatchAll {A}. Arguments DComplete {A}.
Arguments DFail {A}. Arguments DQueue {A}.

Definition run_dop {A} `{!CompletionGate A} (sha256_hex : string -> string) (now : nat -> Z)
    (o : dop A) (d : dispatcher) : dispatcher :=
  match o with
  | DDispatch => (dispatch_once now d).2
  | DDispatchAll n => (dispatch_until_full now n d).2
  | DComplete id x a => (complete_task now id x a d).2
  | DFail id e b => (fail_task now id e b d).2
  | DQueue o => Dispatcher (run_qop sha256_hex now o (d_queue d)) (d_pool d)
  end.

Definition keeps_dinv {A} (m : M dispatcher A) : Prop :=
  forall d, dispatcher_inv d -> dispatcher_inv (m d).2.

Lemma dkeeps_bind {A B} (m : M dispatcher A) (f : A -> M dispatcher B) :
  keeps_dinv m -> (forall a, keeps_dinv (f a)) -> keeps_dinv (m ≫= f).
Proof.
  intros Hm Hf s Hs. unfold_m. specialize (Hm s Hs).
  destruct (m s) as [[a|e] s']; [by apply Hf|done].
Qed.

Lemma dkeeps_ret {A} (a : A) : keeps_dinv (mret a).
Proof. by intros s. Qed.
Lemma dkeeps_lift {A} (r : res A) : keeps_dinv (mlift r).
Proof. by intros s. Qed.
Lemma dkeeps_get : keeps_dinv mget.
Proof. by intros s. Qed.
Lemma dkeeps_queue {A} (m : M queue A) : keeps_inv m -> keeps_dinv (on_queue m).
Proof. intros Hm s. by apply inv_on_queue. Qed.
Lemma dkeeps_release id : keeps_dinv (on_pool (release_by_task id)).
Proof. intros s. apply inv_release_task. Qed.

Create HintDb dispatch.
#[export] Hint Resolve dkeeps_ret dkeeps_lift dkeeps_get dkeeps_queue dkeeps_release
  keeps_retry keeps_requeue keeps_failed keeps_finished : dispatch.

Ltac dkeeps :=
  repeat first
    [ progress intros
    | solve [auto with dispatch]
    | match goal with |- keeps_dinv (mbind _ _) => apply dkeeps_bind end
    | match goal with |- keeps_dinv (match ?x with _ => _ end) => destruct x end ].

Lemma dkeeps_dispatch now : keeps_dinv (dispatch_once now).
Proof.
  intros d Hd. pose proof (dispatch_once_end now d Hd) as H.
  destruct (dispatch_once now d). apply H.
Qed.

Lemma dkeeps_dispatch_all now n : keeps_dinv (dispatch_until_full now n).
Proof.
  induction n as [|n IH]; simpl; [apply dkeeps_ret|].
  apply dkeeps_bind; [apply dkeeps_get|]. intros d. case_match; [dkeeps|].
  apply dkeeps_bind; [apply dkeeps_dispatch|]. dkeeps.
Qed.

Lemma dkeeps_complete {A} `{!CompletionGate A} now id x (a : A) :
  keeps_dinv (complete_task now id x a).
Proof. unfold complete_task. dkeeps. Qed.

Lemma dkeeps_fail now id e b : keeps_dinv (fail_task now id e b).
Proof. unfold fail_task. dkeeps. Qed.

(** The queue of a fresh dispatcher and a pool of [n] workers. *)
Definition new_dispatcher (n : Z) : res dispatcher :=
  p ← new_pool n; Ok (Dispatcher empty_queue p).

Lemma new_pool_inv n p : new_pool n = Ok p -> pool_inv p.
Proof.
  intros Hn. eapply inv_new; [exact Hn|]. revert Hn. unfold new_pool.
  destruct (n <=? 0)%Z; [done|]. intros [= <-]. unfold dkeys. simpl.
  rewrite <- list_fmap_compose. apply worker_names_distinct.
Qed.

Lemma run_dops_inv {A} `{!CompletionGate A} sha now (l : list (dop A)) : forall d,
  dispatcher_inv d -> dispatcher_inv (fold_left (fun d o => run_dop sha now o d) l d).
Proof.
  induction l as [|o l IH]; simpl; [done|]. intros d Hd. apply IH. destruct o; simpl.
  - by apply dkeeps_dispatch.
  - by apply dkeeps_dispatch_all.
  - by apply dkeeps_complete.
  - by apply dkeeps_fail.
  - destruct Hd. split; [by apply keeps_qop|done].
Qed.

Lemma busy_at_most_capacity s : pool_inv s -> busy_count s <= capacity s.
Proof. intros H. pose proof (free_count_filter s H) as E. unfold free_count in E. lia. Qed.

(** ** Properties *)

(** C13. Whatever a client does with a dispatcher, its queue and its pool keep
    their invariants: no more tasks run than there are workers, no task id runs
    on two workers, and every queued key is a known task with a heap entry. *)
Theorem dispatcher_safe {A} `{!CompletionGate A} sha now n d0 (l : list (dop A)) :
  new_dispatcher n = Ok d0 ->
  let d := fold_left (fun d o => run_dop sha now o d) l d0 in
  queue_inv (d_queue d)
  /\ busy_count (d_pool d) <= capacity (d_pool d)
  /\ forall t w1 w2 r1 r2,
       dget w1 (running_by_worker (d_pool d)) = Some r1 ->
       dget w2 (running_by_worker (d_pool d)) = Some r2 ->
       task_id (r_task r1) = t -> task_id (r_task r2) = t -> w1 = w2.
Proof.
  unfold new_dispatcher. unfold_m. destruct (new_pool n) as [p|e] eqn:En; [|done].
  intros [= <-]. cbv zeta. set (d := fold_left _ l _). assert (H : dispatcher_inv d).
  { apply run_dops_inv. split; [apply inv_empty|]. by eapply new_pool_inv. }
  destruct H as [Hq Hp]. split; [done|]. split; [by apply busy_at_most_capacity|].
  intros t w1 w2 r1 r2 H1 H2 <- E.
  destruct (pinv_by_worker _ Hp _ _ H1) as (<- & _ & Ht1).
  destruct (pinv_by_worker _ Hp _ _ H2) as (<- & _ & Ht2). congruence.
Qed.

Lemma pop_is_head now s t q :
  queue_inv s -> pop_next now s = (Ok (Some t), q) ->
  exists t0 rest, list_queued s = t0 :: rest /\ t = started (now (clock s)) t0.
Proof.
  intros Hq Hpop. unfold pop_next in Hpop. unfold_m.
  pose proof (pop_loop_spec now (heap s) _ (inv_known _ Hq) eq_refl) as P.
  destruct (first_live (heap s) (queued_ids s)) as [[e h]|] eqn:Ef; [|congruence].
  destruct P as (t0 & Ht0 & P). rewrite P in Hpop. injection Hpop as <- _.
  exists t0. rewrite (list_queued_pop _ e h t0 t0) by done. eauto.
Qed.

(** C36. [dispatch_once] decides every case: without a free slot, or with nothing
    queued, it says so and changes no task; otherwise the head of
    [list_queued] is dispatched, started, on the first free slot, leaving one
    slot fewer, unless that task's id is running, and then it reports that no
    worker could be acquired. *)
Theorem dispatch_takes_next_in_line now d :
  dispatcher_inv d ->
  let '(r, d') := dispatch_once now d in
  if has_free_slot (d_pool d) then
    match list_queued (d_queue d) with
    | [] => r = Ok (Result false None None (Some "no_queued_task"))
        /\ d_pool d' = d_pool d /\ tasks (d_queue d') = tasks (d_queue d)
    | t0 :: _ =>
        let t := started (now (clock (d_queue d))) t0 in
        match get_running_task (d_pool d) (task_id t0) with
        | None => exists w,
            r = Ok (Result true (Some w) (Some t) None)
            /\ first_free (slots (d_pool d)) = Some w
            /\ get_worker_for_task (d_pool d') (task_id t) = Some w
            /\ free_count (d_pool d') = (free_count (d_pool d) - 1)%Z
        | Some _ => forall x, r = Ok x ->
            x = Result false None None (Some "worker_acquire_failed")
        end
    end
  else r = Ok (Result false None None (Some "no_free_worker_slot")) /\ d' = d.
Proof.
  intros H. pose proof (dispatch_once_end now d H) as E.
  destruct (dispatch_once now d) as [r d']. destruct E as [_ E].
  assert (Hhead : forall t q, pop_next now (d_queue d) = (Ok (Some t), q) ->
            exists t0 rest, list_queued (d_queue d) = t0 :: rest
              /\ t = started (now (clock (d_queue d))) t0) by (intros t q; apply pop_is_head, H).
  destruct E as [Hf -> ->|Hf Hq -> Hp Ht|t w Hpop -> Hw Hr Hg Hn|t q Hf Hpop [x Hr] _ Hx].
  - by rewrite Hf.
  - by rewrite Hf, (list_queued_none _ Hq).
  - destruct (Hhead _ _ Hpop) as (t0 & rest & -> & ->).
    rewrite (proj2 (has_free_first _ (proj2 H))) by (by exists w).
    cbv zeta.
    change (task_id (started (now (clock (d_queue d))) t0)) with (task_id t0) in *.
    rewrite Hr. by exists w.
  - rewrite Hf. destruct (Hhead _ _ Hpop) as (t0 & rest & -> & ->). cbv zeta.
    change (task_id (started (now (clock (d_queue d))) t0)) with (task_id t0) in *.
    by rewrite Hr.
Qed.

(** [dispatch_until_full] stops by itself, after at most one round per free slot
    (and one more to see that none is left): the results it returns are
    dispatches, one for each slot taken, and it stops because no slot is free
    or because the last attempt dispatched nothing. *)
Theorem dispatch_until_full_terminates now n : forall d,
  dispatcher_inv d -> (Z.to_nat (free_count (d_pool d)) < n) ->
  let '(r, d') := dispatch_until_full now n d in
  match r with
  | Ok None => False
  | Ok (Some l) => Forall (fun x => dispatched x = true) l
      /\ (Z.of_nat (length l) = free_count (d_pool d) - free_count (d_pool d'))%Z
      /\ (has_free_slot (d_pool d') = false
          \/ exists d0 x, dispatch_once now d0 = (Ok x, d') /\ dispatched x = false)
  | Raise _ => True
  end.
Proof.
  induction n as [|n IH]; intros d H Hn; [lia|]. simpl. unfold_m.
  destruct (has_free_slot (d_pool d)) eqn:Ef; cbn [negb];
    [|simpl; split_and!; [done|lia|by left]].
  pose proof (dispatch_once_end now d H) as E.
  destruct (dispatch_once now d) as [[x|e] d'] eqn:Ed; [|done]. destruct E as [H' E].
  destruct (dispatched x) eqn:Ex; cbn [negb].
  - assert (Hfree : free_count (d_pool d') = (free_count (d_pool d) - 1)%Z).
    { destruct E as [? E ?|? ? E ? ?|t' w' ? E ? ? ? ?|t' q ? ? ? ? Hx];
        [injection E as ->; done|injection E as ->; done|done
        |rewrite (Hx _ eq_refl) in Ex; done]. }
    assert (Hpos : (0 < free_count (d_pool d))%Z) by (by apply Z.ltb_lt in Ef).
    specialize (IH d' H' ltac:(lia)).
    destruct (dispatch_until_full now n d') as [[[l|]|e] d'']; [|done|done]. simpl.
    destruct IH as (Hl & Hc & Hd). split_and!; [by constructor|simpl; lia|exact Hd].
  - simpl. split; [done|].
    assert (Hsame : d_pool d' = d_pool d).
    { destruct E as [? E ->|? ? E ? ?|t' w' ? E ? ? ? ?|t' q ? ? ? -> Hx];
        [done|done|by injection E as ->|by rewrite on_queue_pool]. }
    rewrite Hsame. split; [lia|]. right. by exists d, x.
Qed.

(** A task that is running on a worker is released by its id. *)
Lemma release_running p id r :
  pool_inv p -> get_running_task p id = Some r ->
  exists p', release_by_task id p = (Ok (Some r), p')
    /\ get_running_task p' id = None
    /\ dget (r_worker r) (slots p') = Some (free_slot (r_worker r)).
Proof.
  intros H Hr. destruct (pinv_by_task _ H _ _ Hr) as [<- Hw].
  destruct (pinv_by_worker _ H _ _ Hw) as (_ & [sl Hsl] & _).
  unfold release_by_task, release_by_worker, get_running_task in *. unfold_m.
  rewrite Hr, Hw, Hsl. eexists. split; [done|]. simpl.
  by rewrite dget_dpop_eq, dget_dset_eq.
Qed.

(** A completion without authority loses the worker: [complete_task] frees the
    slot before [mark_finished] checks the authority, so when it raises
    [PermissionError] the queue still says the task is running while no worker
    runs it. *)
Theorem complete_task_releases_first {A} `{!CompletionGate A} now id x (a : A) d r k t sid :
  dispatcher_inv d -> get_running_task (d_pool d) id = Some r ->
  resolves (d_queue d) id k t -> task_session t = Ok sid ->
  authorises a id (if non_empty sid then Some sid else None) = false ->
  let '(o, d') := complete_task now id x a d in
  o = Raise (PermissionError "task_completion_authority_required")
  /\ d_queue d' = d_queue d
  /\ get_running_task (d_pool d') id = None
  /\ dget (r_worker r) (slots (d_pool d')) = Some (free_slot (r_worker r)).
Proof.
  intros [Hq Hp] Hr [Hk Ht] Hs Ha. unfold complete_task. unfold_m. rewrite Hr.
  destruct (release_running _ _ _ Hp Hr) as (p' & E & H1 & H2).
  unfold on_pool. rewrite E. unfold on_queue, mark_finished, resolved. unfold_m. unfold mlift.
  simpl. rewrite Hk, Ht, Hs, Ha. by simpl.
Qed.

(** [fail_task]: a failure of a running task frees its slot, counts one more
    retry, and puts the task back in the queue exactly while the count is
    within [max_retries]; otherwise the task is failed.  So a task is requeued
    at most [max_retries] times. *)
Theorem fail_task_retry_bound now id error retry d r k t :
  dispatcher_inv d -> get_running_task (d_pool d) id = Some r ->
  resolves (d_queue d) id k t -> k ∉ queued_ids (d_queue d) ->
  let '(o, d') := fail_task now id error retry d in
  get_running_task (d_pool d') id = None
  /\ exists t', dget k (tasks (d_queue d')) = Some t'
       /\ retry_count t' = (retry_count t + 1)%Z /\ last_error t' = Some error
       /\ if retry && (retry_count t + 1 <=? max_retries t)%Z
          then o = Ok (FailDone STATUS_QUEUED (retry_count t + 1) (max_retries t) true)
               /\ status t' = STATUS_QUEUED /\ k ∈ queued_ids (d_queue d')
          else o = Ok (FailDone STATUS_FAILED (retry_count t + 1) (max_retries t) false)
               /\ status t' = STATUS_FAILED /\ k ∉ queued_ids (d_queue d').
Proof.
  intros [Hq Hp] Hr Hk Hnq. unfold fail_task. unfold_m. rewrite Hr.
  destruct (release_running _ _ _ Hp Hr) as (p' & E & H1 & _).
  unfold on_pool. rewrite E. unfold mlift. cbn [d_queue d_pool].
  rewrite (resolves_get _ _ _ _ Hk).
  set (u := set_retry (retry_count t + 1) t).
  assert (Hinc : increment_retry id "" (d_queue d) = (Ok true, store_task k u (d_queue d))).
  { unfold increment_retry, resolved. unfold_m. unfold mlift.
    destruct Hk as [Hk Ht]. by rewrite Hk, Ht. }
  unfold on_queue at 1. cbn [d_queue d_pool]. rewrite Hinc. cbn [d_queue d_pool].
  pose proof (resolves_store _ id k t u Hk ltac:(done)) as Hu.
  rewrite (resolves_get _ _ _ _ Hu).
  change (retry_count u) with (retry_count t + 1)%Z. change (max_retries u) with (max_retries t).
  destruct Hu as [Hu Hdu].
  destruct (retry && (retry_count t + 1 <=? max_retries t)%Z) eqn:Eb.
  - unfold on_queue, requeue, resolved. unfold_m. unfold mlift. cbn [d_queue d_pool].
    rewrite Hu, Hdu. rewrite bool_decide_false by done. simpl.
    split; [done|]. rewrite dget_dset_eq. eexists. split; [done|].
    split_and!; try done. set_solver.
  - unfold on_queue, mark_failed, resolved. unfold_m. unfold mlift. cbn [d_queue d_pool].
    rewrite Hu, Hdu. simpl. split; [done|]. rewrite dget_dset_eq. eexists. split; [done|].
    split_and!; try done. set_solver.
Qed.

(** ** Concrete runs *)

(** One gate for the runs: the boundary of the authority file. *)
#[local] Existing Instance seal_gate | 0.

Definition demo_dispatcher : dispatcher := Dispatcher demo_queue demo_pool.

Lemma demo_pool_inv : pool_inv demo_pool.
Proof. by apply (new_pool_inv 2). Qed.

Lemma demo_dispatcher_inv : dispatcher_inv demo_dispatcher.
Proof. split; [apply demo_queue_inv|apply demo_pool_inv]. Qed.

Lemma dispatcher_safe_witness :
  busy_count (d_pool (fold_left (fun d o => @run_dop nat (seal_gate initial) demo_sha256 demo_now o d)
    [DQueue (QEnqueue (demo_task "a" 1 []) false); DQueue (QEnqueue (demo_task "b" 2 []) false);
     DDispatchAll 5; DComplete "a" VNone 7; DDispatch]
    (Dispatcher empty_queue demo_pool))) <= 2.
Proof.
  exact (proj1 (proj2 (@dispatcher_safe nat (seal_gate initial) demo_sha256 demo_now 2
    (Dispatcher empty_queue demo_pool)
    [DQueue (QEnqueue (demo_task "a" 1 []) false); DQueue (QEnqueue (demo_task "b" 2 []) false);
     DDispatchAll 5; DComplete "a" VNone 7; DDispatch] eq_refl))).
Defined.

(** Two dispatches fill the pool. *)
Lemma dispatch_until_full_terminates_witness :
  exists l d', dispatch_until_full demo_now 3 demo_dispatcher = (Ok (Some l), d')
    /\ length l = 2.
Proof.
  pose proof (dispatch_until_full_terminates demo_now 3 demo_dispatcher demo_dispatcher_inv) as P.
  destruct (dispatch_until_full demo_now 3 demo_dispatcher) as [r d'] eqn:E.
  assert (Hn : Z.to_nat (free_count (d_pool demo_dispatcher)) < 3) by (vm_compute; lia).
  specialize (P Hn).
  assert (Hl : match (dispatch_until_full demo_now 3 demo_dispatcher).1 with
               | Ok (Some l) => length l = 2 | _ => False end) by (vm_compute; reflexivity).
  rewrite E in Hl. destruct r as [[l|]|e]; [|destruct Hl|destruct Hl].
  exists l, d'. split; [reflexivity|exact Hl].
Defined.

Definition demo_a : ScheduledTask := demo_task "a" 5 [].

Lemma dispatch_takes_next_in_line_witness :
  exists w, (dispatch_once demo_now demo_dispatcher).1
            = Ok (Result true (Some w) (Some (started 1 demo_a)) None)
    /\ first_free (slots (d_pool demo_dispatcher)) = Some w.
Proof.
  pose proof (dispatch_takes_next_in_line demo_now demo_dispatcher demo_dispatcher_inv) as P.
  destruct (dispatch_once demo_now demo_dispatcher) as [r d'].
  assert (Ef : has_free_slot (d_pool demo_dispatcher) = true) by (vm_compute; reflexivity).
  assert (El : exists l, list_queued (d_queue demo_dispatcher) = demo_a :: l)
    by (eexists; vm_compute; reflexivity).
  assert (Er : get_running_task (d_pool demo_dispatcher) (task_id demo_a) = None)
    by (vm_compute; reflexivity).
  assert (Ec : demo_now (clock (d_queue demo_dispatcher)) = 1%Z) by (vm_compute; reflexivity).
  destruct El as [l El]. rewrite Ef, El, Ec, Er in P.
  destruct P as (w & P & Q & _). exists w. split; [exact P|exact Q].
Defined.

(** After the dispatch of ["a"]. *)
Definition demo_busy : dispatcher := (dispatch_once demo_now demo_dispatcher).2.

Lemma demo_busy_inv : dispatcher_inv demo_busy.
Proof. apply dkeeps_dispatch, demo_dispatcher_inv. Qed.

Lemma demo_busy_resolves : resolves (d_queue demo_busy) "a" "a" (started 1 demo_a).
Proof. split; vm_compute; reflexivity. Qed.

Lemma complete_task_releases_first_witness :
  (@complete_task demo_now nat (seal_gate initial) "a" VNone 0 demo_busy).1
  = Raise (PermissionError "task_completion_authority_required")
  /\ is_Some (get_running_task (d_pool demo_busy) "a").
Proof.
  destruct (get_running_task (d_pool demo_busy) "a") as [r|] eqn:Er;
    [|exfalso; revert Er; vm_compute; discriminate].
  split; [|by eexists].
  pose proof (@complete_task_releases_first nat (seal_gate initial) demo_now "a" VNone 0 demo_busy
    r "a" (started 1 demo_a) EmptyString demo_busy_inv Er demo_busy_resolves eq_refl eq_refl) as P.
  destruct (complete_task demo_now "a" VNone 0 demo_busy). apply P.
Defined.

Lemma fail_task_retry_bound_witness :
  exists t', dget "a" (tasks (d_queue (fail_task demo_now "a" "boom" true demo_busy).2)) = Some t'
    /\ retry_count t' = 1%Z /\ status t' = STATUS_FAILED.
Proof.
  destruct (get_running_task (d_pool demo_busy) "a") as [r|] eqn:Er;
    [|exfalso; revert Er; vm_compute; discriminate].
  assert (Hq : "a" ∉ queued_ids (d_queue demo_busy))
    by (apply (bool_decide_unpack _); vm_compute; exact I).
  pose proof (fail_task_retry_bound demo_now "a" "boom" true demo_busy r "a" (started 1 demo_a)
    demo_busy_inv Er demo_busy_resolves Hq) as P.
  destruct (fail_task demo_now "a" "boom" true demo_busy) as [o d'].
  destruct P as (_ & t' & H1 & H2 & _ & H3). exists t'.
  split; [exact H1|]. split; [exact H2|]. apply H3.
Defined.

(** Two sessions with a task of the same id. *)
Definition demo_twins : dispatcher :=
  Dispatcher (extend demo_sha256 [demo_task "t" 0 [("session_id", VStr "s1")];
                                  demo_task "t" 0 [("session_id", VStr "s2")]] false
                empty_queue).2 demo_pool.

(** [dispatch_once] can lose a task: when the popped task's id already runs (a
    task of another session), [requeue] by that id finds two tasks and refuses,
    and the popped one is left marked running, on no worker and not queued. *)
Theorem same_id_task_lost :
  let d := (dispatch_once demo_now demo_twins).2 in
  let '(r, d') := dispatch_once demo_now d in
  r = Ok (Result false None None (Some "worker_acquire_failed"))
  /\ "s2::t" ∈ queued_ids (d_queue d)
  /\ size (d_queue d') = 0
  /\ option_map status (dget "s2::t" (tasks (d_queue d'))) = Some STATUS_RUNNING
  /\ map (fun r => payload (r_task r)) (list_running_tasks d')
     = [[("session_id", VStr "s1")]].
Proof.
  cbv zeta. rewrite (surjective_pairing (dispatch_once demo_now _)).
  split_and!; [vm_compute; reflexivity| |vm_compute; reflexivity..].
  apply (bool_decide_unpack _). vm_compute. exact I.
Qed.
