(* ===== verification/Goals.v ===== *)
(** * The goal lifecycle

    [core/goals/goal_contract.py], [goal_state.py], [goal_transition.py],
    [goal_state_validator.py], [goal_state_machine.py], the two policy records
    and the resume point of [goal_progress.py], with the provenance boundary
    of [core/evidence/evidence_validator.py] that decides which evidence counts.

    An enum member that is a [str] is the string of its value.  Evidence
    records are objects compared by identity: they live in a store, and a
    reference in [evidence_refs] is an address or a plain value. *)

From S2P Require Import Prelude PyVal.

(** ** Contracts *)

Definition GOAL_SCHEMA : string := "zero.persistent_goal.v1".

Definition GoalStatus : list string :=
  ["created"; "planned"; "pending"; "active"; "paused"; "blocked"; "resumable";
   "completed"; "failed"].

Definition clean_required_text (value : val) (field_name : string) : res string :=
  let t := text value in
  if (t =? "")%string then Raise (ValueError ("goal_requires_" +:+ field_name)) else Ok t.

Definition clean_optional_text (value : val) : option string :=
  match value with
  | VNone => None
  | _ => let t := strip (py_str value) in if (t =? "")%string then None else Some t
  end.

Definition clean_status (value : val) : res string :=
  let raw := lower (text value) in
  if bool_decide (raw ∈ GoalStatus) then Ok raw
  else Raise (ValueError "goal_requires_valid_status").

(** The loop of [copy_text_list]: each text required, repeats dropped. *)
Fixpoint collect_texts (items : list val) (field_name : string) (result : list string)
  : res (list string) :=
  match items with
  | [] => Ok result
  | x :: items' =>
      t ← clean_required_text x field_name;
      collect_texts items' field_name
        (if bool_decide (t ∈ result) then result else result ++ [t])
  end.

Definition copy_text_list (value : val) (field_name : string) : res (list string) :=
  match value with
  | VNone => Ok []
  | VList l => collect_texts l field_name []
  | _ => Raise (TypeError (field_name +:+ " must be a list or tuple"))
  end.

Record GoalLifecyclePolicy : Type := LifecyclePolicy {
  allow_auto_start_next_subgoal : bool;
  allow_resume_blocked_subgoal : bool;
  require_review_before_resume : bool;
  require_review_before_goal_completion : bool;
  max_subgoals_per_cycle : Z }.

Definition make_lifecycle_policy (a b c d : bool) (n : Z) : res GoalLifecyclePolicy :=
  if (n <=? 0)%Z then Raise (ValueError "max_subgoals_per_cycle_must_be_positive")
  else Ok (LifecyclePolicy a b c d n).

(** ** States *)

Definition GoalState : list string :=
  ["created"; "planned"; "active"; "blocked"; "resumable"; "completed"; "failed"].
Definition SubgoalState : list string :=
  ["pending"; "active"; "blocked"; "resumable"; "completed"; "failed"].
Definition TransitionAction : list string :=
  ["create"; "plan"; "start"; "block"; "resume_ready"; "complete"; "fail"; "pause"; "retry"].

Definition TERMINAL_GOAL_STATES : list string := ["completed"; "failed"].
Definition TERMINAL_SUBGOAL_STATES : list string := ["completed"; "failed"].

Definition clean_target_type (value : val) : res string :=
  let t := lower (text value) in
  if bool_decide (t ∈ ["goal"; "subgoal"]) then Ok t
  else Raise (ValueError "goal_transition_requires_valid_target_type").

Definition states_of (target_type : string) : list string :=
  if (target_type =? "goal")%string then GoalState else SubgoalState.

Definition clean_lifecycle_state (target_type : string) (value : val) : res string :=
  let raw := lower (text value) in
  t ← clean_target_type (VStr target_type);
  let raw := if (t =? "goal")%string && (raw =? "pending")%string then "planned" else raw in
  if bool_decide (raw ∈ states_of t) then Ok raw
  else Raise (ValueError (target_type +:+ "_transition_requires_valid_state")).

Definition clean_transition_action (value : val) : res string :=
  let raw := lower (text value) in
  if bool_decide (raw ∈ TransitionAction) then Ok raw
  else Raise (ValueError "goal_transition_requires_valid_action").

(** ** Evidence and its provenance *)

Record EvidenceRecord : Type := EvRecord {
  ev_id : string;
  ev_goal : string;
  ev_subgoal : option string;
  ev_source : string;
  ev_summary : val;
  ev_timestamp : string;
  ev_state : string;
  ev_metadata : list (string * val) }.

(** The dataclass constructor with its [__post_init__]. *)
Definition make_evidence (id goal subgoal source summary timestamp state metadata : val)
  : res EvidenceRecord :=
  let st := lower (text state) in
  if bool_decide (st ∉ ["pending"; "validated"; "rejected"])
  then Raise (ValueError "evidence_requires_valid_validation_state")
  else
    i ← clean_required_text id "evidence_id";
    g ← clean_required_text goal "goal_id";
    s ← clean_required_text source "evidence_source";
    t ← clean_required_text timestamp "evidence_timestamp";
    Ok (EvRecord i g (clean_optional_text subgoal) s summary t st
          (match metadata with VDict d => d | _ => [] end)).

Definition evidence_from_mapping (d : list (string * val)) : res EvidenceRecord :=
  make_evidence (vget "evidence_id" d) (vget "goal_id" d) (vget "subgoal_id" d)
    (vget "source" d) (vget "summary" d) (vget "timestamp" d)
    (py_or (vget "validation_state" d) (VStr "pending"))
    (match vget "metadata" d with VDict m => VDict m | _ => VDict [] end).

Definition optional_val (o : option string) : val :=
  match o with None => VNone | Some s => VStr s end.

Definition evidence_to_dict (e : EvidenceRecord) : list (string * val) :=
  [("evidence_id", VStr (ev_id e)); ("goal_id", VStr (ev_goal e));
   ("subgoal_id", optional_val (ev_subgoal e)); ("source", VStr (ev_source e));
   ("summary", ev_summary e); ("timestamp", VStr (ev_timestamp e));
   ("validation_state", VStr (ev_state e)); ("metadata", VDict (ev_metadata e))].

(** [dataclasses.replace(e, validation_state=state)]: the constructor again. *)
Definition replace_state (e : EvidenceRecord) (state : string) : res EvidenceRecord :=
  make_evidence (VStr (ev_id e)) (VStr (ev_goal e)) (optional_val (ev_subgoal e))
    (VStr (ev_source e)) (ev_summary e) (VStr (ev_timestamp e)) (VStr state)
    (VDict (ev_metadata e)).

(** The objects of the program and the registry of the boundary. *)
Record evidence_store : Type := EvStore {
  records : gmap nat EvidenceRecord;
  fresh : nat;
  validated_evidence : gmap nat nat }.

Definition empty_store : evidence_store := EvStore ∅ 0 ∅.

(** Constructing an object. *)
Definition new_evidence (e : EvidenceRecord) : M evidence_store nat := fun s =>
  (Ok (fresh s), EvStore (<[fresh s := e]> (records s)) (S (fresh s)) (validated_evidence s)).

(** The argument of the validator: a record or a mapping. *)
Inductive evidence_arg : Type := ArgRecord (v : nat) | ArgMapping (d : list (string * val)).

Definition read_evidence (a : evidence_arg) : M evidence_store EvidenceRecord := fun s =>
  match a with
  | ArgMapping d => (evidence_from_mapping d, s)
  | ArgRecord v =>
      (match records s !! v with Some e => Ok e | None => Raise (TypeError "evidence") end, s)
  end.

Definition validate_evidence (a : evidence_arg) : M evidence_store nat :=
  e ← read_evidence a;
  validated ← mlift (replace_state e "validated");
  v ← new_evidence validated;
  _ ← mmodify (fun s => EvStore (records s) (fresh s) (<[v := v]> (validated_evidence s)));
  mret v.

Definition reject_evidence (a : evidence_arg) : M evidence_store nat :=
  e ← read_evidence a;
  rejected ← mlift (replace_state e "rejected");
  new_evidence rejected.

(** An element of [evidence_refs]. *)
Inductive evidence_ref : Type := RefRecord (v : nat) | RefValue (x : val).

Definition is_provenance_validated_evidence (s : evidence_store) (r : evidence_ref)
    (goal_id : option string) : bool :=
  match r with
  | RefRecord v =>
      match records s !! v with
      | Some e =>
          (ev_state e =? "validated")%string && bool_decide (validated_evidence s !! v = Some v)
          && match goal_id with None => true | Some g => (ev_goal e =? g)%string end
      | None => false
      end
  | RefValue _ => false
  end.

(** ** Transitions *)

Inductive refs_arg : Type := NoRefs | Refs (l : list evidence_ref) | NotAList.

Definition copy_evidence_refs (value : refs_arg) : res (list evidence_ref) :=
  match value with
  | NoRefs => Ok []
  | Refs l => Ok l
  | NotAList => Raise (TypeError "evidence_refs must be a list or tuple")
  end.

Record GoalTransition : Type := Transition {
  target_type : string;
  target_id : string;
  from_state : string;
  to_state : string;
  action : string;
  reason : option string;
  resume_point : val;
  evidence_refs : list evidence_ref;
  requires_user_review : bool }.

(** The dataclass constructor with its [__post_init__]. *)
Definition make_transition (ttype tid from to act why resume : val) (refs : refs_arg)
    (review : val) : res GoalTransition :=
  tt ← clean_target_type ttype;
  id ← clean_required_text tid "transition_target_id";
  f ← clean_lifecycle_state tt from;
  t ← clean_lifecycle_state tt to;
  a ← clean_transition_action act;
  ev ← copy_evidence_refs refs;
  Ok (Transition tt id f t a (clean_optional_text why) resume ev (truthy review)).

Record GoalTransitionResult : Type := TransitionResult {
  accepted : bool;
  res_from : string;
  res_to : string;
  res_reason : string;
  blocked_reason : option string;
  res_review : bool;
  res_refs : list evidence_ref }.

Definition make_transition_result (acc : bool) (from to why : string)
    (blocked : option string) (review : bool) (refs : list evidence_ref)
  : res GoalTransitionResult :=
  r ← clean_required_text (VStr why) "transition_result_reason";
  Ok (TransitionResult acc from to r (clean_optional_text (optional_val blocked)) review refs).

(** ** The validator *)

Definition _GOAL_TRANSITIONS : list (string * string * string) :=
  [("created", "planned", "plan"); ("planned", "active", "start");
   ("pending", "active", "start"); ("blocked", "resumable", "resume_ready");
   ("active", "completed", "complete");
   ("created", "blocked", "block"); ("planned", "blocked", "block");
   ("pending", "blocked", "block"); ("active", "blocked", "block");
   ("resumable", "blocked", "block");
   ("created", "blocked", "pause"); ("planned", "blocked", "pause");
   ("pending", "blocked", "pause"); ("active", "blocked", "pause");
   ("resumable", "blocked", "pause");
   ("created", "failed", "fail"); ("planned", "failed", "fail");
   ("pending", "failed", "fail"); ("active", "failed", "fail");
   ("blocked", "failed", "fail"); ("resumable", "failed", "fail")].

Definition _SUBGOAL_TRANSITIONS : list (string * string * string) :=
  [("pending", "active", "start"); ("pending", "blocked", "block");
   ("pending", "blocked", "pause"); ("pending", "failed", "fail");
   ("blocked", "resumable", "resume_ready"); ("active", "completed", "complete");
   ("active", "blocked", "block"); ("active", "blocked", "pause");
   ("active", "failed", "fail")].

Definition transitions_of (target_type : string) : list (string * string * string) :=
  if (target_type =? "goal")%string then _GOAL_TRANSITIONS else _SUBGOAL_TRANSITIONS.

Definition terminal_of (target_type : string) : list string :=
  if (target_type =? "goal")%string then TERMINAL_GOAL_STATES else TERMINAL_SUBGOAL_STATES.

Definition _all_evidence_refs_validated (s : evidence_store) (refs : list evidence_ref)
    (goal_id : string) : bool :=
  match refs with
  | [] => false
  | _ => forallb (fun r => is_provenance_validated_evidence s r (Some goal_id)) refs
  end.

(** [if b: violations.append(v)] *)
Definition note (b : bool) (v : string) : list string := if b then [v] else [].

Definition is_none (v : val) : bool := match v with VNone => true | _ => false end.

Definition completes_goal (t : GoalTransition) : bool :=
  (target_type t =? "goal")%string && (to_state t =? "completed")%string.

(** The violations [validate] collects, in its order. *)
Definition violations (s : evidence_store) (t : GoalTransition)
    (all_subgoals_completed : option bool) : list string :=
  note (bool_decide (from_state t ∈ terminal_of (target_type t)))
       (from_state t +:+ "_state_is_terminal")
  ++ note (negb (bool_decide ((from_state t, to_state t, action t)
                              ∈ transitions_of (target_type t)))) "transition_not_allowed"
  ++ note ((to_state t =? "resumable")%string && is_none (resume_point t))
          "resumable_requires_resume_point"
  ++ note ((to_state t =? "blocked")%string
           && match reason t with None => true | Some _ => false end) "blocked_requires_reason"
  ++ (if completes_goal t then
        match evidence_refs t with
        | [] => ["completed_goal_requires_evidence"]
        | refs => note (negb (_all_evidence_refs_validated s refs (target_id t)))
                    "completed_goal_requires_validated_evidence"
        end
        ++ note (negb (bool_decide (all_subgoals_completed = Some true)))
             "completed_goal_requires_completed_subgoals"
      else [])
  ++ note ((from_state t =? "resumable")%string && (to_state t =? "active")%string)
          "resumable_activation_requires_runtime_adaptive".

Record GoalStateValidationResult : Type := ValidationResult {
  valid : bool; v_reason : string; v_violations : list string; v_review : bool }.

Definition validate (s : evidence_store) (t : GoalTransition)
    (all_subgoals_completed : option bool) : GoalStateValidationResult :=
  match violations s t all_subgoals_completed with
  | [] => ValidationResult true "goal_lifecycle_transition_valid" [] false
  | vs => ValidationResult false "goal_lifecycle_contract_violation" vs true
  end.

(** ** The state machine

    [validate] is the machine's validator; [token] says whether the caller
    passed the module's own completion token. *)
Definition transition_with
    (validate : evidence_store -> GoalTransition -> option bool -> GoalStateValidationResult)
    (s : evidence_store) (t : GoalTransition)
    (all_subgoals_completed : option bool) (token : bool) : res GoalTransitionResult :=
  if completes_goal t && negb token then
    make_transition_result false (from_state t) (to_state t) "goal_lifecycle_contract_violation"
      (Some "canonical_completion_authority_required") true (evidence_refs t)
  else
    let v := validate s t all_subgoals_completed in
    if negb (valid v) then
      make_transition_result false (from_state t) (to_state t) (v_reason v)
        (Some (join ";" (v_violations v))) true (evidence_refs t)
    else
      make_transition_result true (from_state t) (to_state t)
        (match reason t with Some r => r | None => "goal_lifecycle_transition_accepted" end)
        None (requires_user_review t) (evidence_refs t).

(** The machine with the validator it makes by default. *)
Definition transition := transition_with validate.

(** ** Resume points *)

Record GoalResumePoint : Type := ResumePoint {
  rp_goal : string;
  rp_subgoal : option string;
  rp_task : option string;
  rp_step : option string;
  rp_reason : option string;
  rp_refs : list val }.

Definition make_resume_point (goal subgoal task step why refs : val) : res GoalResumePoint :=
  g ← clean_required_text goal "goal_id";
  l ← match refs with
      | VNone => Ok []
      | VList l => Ok l
      | _ => Raise (TypeError "evidence_refs must be a list or tuple")
      end;
  Ok (ResumePoint g (clean_optional_text subgoal) (clean_optional_text task)
        (clean_optional_text step) (clean_optional_text why) l).

Definition resume_from_mapping (d : list (string * val)) : res GoalResumePoint :=
  make_resume_point (vget "goal_id" d) (vget "subgoal_id" d) (vget "task_id" d)
    (vget "step_id" d) (vget "reason" d) (py_or (vget "evidence_refs" d) (VList [])).

Definition resume_to_dict (r : GoalResumePoint) : list (string * val) :=
  [("schema", VStr GOAL_SCHEMA); ("record_type", VStr "resume_point");
   ("goal_id", VStr (rp_goal r)); ("subgoal_id", optional_val (rp_subgoal r));
   ("task_id", optional_val (rp_task r)); ("step_id", optional_val (rp_step r));
   ("reason", optional_val (rp_reason r)); ("evidence_refs", VList (rp_refs r))].

(** ** Normal forms *)

Lemma clean_required_idem v f t g :
  clean_required_text v f = Ok t -> clean_required_text (VStr t) g = Ok t.
Proof.
  unfold clean_required_text. destruct (String.eqb_spec (text v) "") as [|Hn]; [done|].
  intros [= <-]. rewrite text_idemp. by apply String.eqb_neq in Hn as ->.
Qed.

Lemma clean_optional_idem v :
  clean_optional_text (optional_val (clean_optional_text v)) = clean_optional_text v.
Proof.
  destruct (clean_optional_text v) as [t|] eqn:E; [|done]. simpl.
  assert (H : strip t = t /\ t <> "").
  { assert (G : forall u, (if (strip u =? "")%string then None else Some (strip u)) = Some t ->
              strip t = t /\ t <> "").
    { intros u. destruct (String.eqb_spec (strip u) ""); [done|]. intros [= <-].
      split; [apply strip_idemp|done]. }
    revert E. unfold clean_optional_text. destruct v; [done|apply G..]. }
  destruct H as [-> Hn]. by apply String.eqb_neq in Hn as ->.
Qed.

Lemma make_evidence_replace a b c d e f g h r st :
  make_evidence a b c d e f g h = Ok r -> st ∈ ["pending"; "validated"; "rejected"] ->
  replace_state r st
  = Ok (EvRecord (ev_id r) (ev_goal r) (ev_subgoal r) (ev_source r) (ev_summary r)
          (ev_timestamp r) st (ev_metadata r)).
Proof.
  unfold replace_state, make_evidence. case_bool_decide; [done|]. unfold_m.
  destruct (clean_required_text a _) as [i|] eqn:E1; [|done].
  destruct (clean_required_text b _) as [g'|] eqn:E2; [|done].
  destruct (clean_required_text d _) as [s|] eqn:E3; [|done].
  destruct (clean_required_text f _) as [t|] eqn:E4; [|done].
  intros [= <-] Hst. simpl.
  assert (Hl : lower (text (VStr st)) = st)
    by (rewrite !elem_of_cons, elem_of_nil in Hst; by destruct Hst as [->|[->|[->|[]]]]).
  rewrite Hl, bool_decide_false by (intros Hx; by apply Hx).
  rewrite (clean_required_idem _ _ _ _ E1), (clean_required_idem _ _ _ _ E2),
    (clean_required_idem _ _ _ _ E3), (clean_required_idem _ _ _ _ E4), clean_optional_idem.
  done.
Qed.

(** ** Lemmas on the provenance boundary *)

(** A record some constructor call built. *)
Definition constructed (r : EvidenceRecord) : Prop :=
  exists a b c d e f g h, make_evidence a b c d e f g h = Ok r.

Lemma evidence_from_mapping_constructed d r : evidence_from_mapping d = Ok r -> constructed r.
Proof. unfold evidence_from_mapping. intros H. do 8 eexists. exact H. Qed.

Lemma replace_constructed r st r' : replace_state r st = Ok r' -> constructed r'.
Proof. unfold replace_state. intros H. do 8 eexists. exact H. Qed.

Record provenance_inv (s : evidence_store) : Prop := {
  prov_fresh : forall v e, records s !! v = Some e -> v < fresh s;
  prov_records : forall v e, records s !! v = Some e -> constructed e;
  prov_registry : forall v w, validated_evidence s !! v = Some w ->
    w = v /\ exists e, records s !! v = Some e /\ ev_state e = "validated" }.

Inductive evidence_step : evidence_store -> evidence_store -> Prop :=
  | EvConstruct e s : constructed e -> evidence_step s (new_evidence e s).2
  | EvValidate a s : evidence_step s (validate_evidence a s).2
  | EvReject a s : evidence_step s (reject_evidence a s).2.

Lemma prov_new e s : provenance_inv s -> constructed e -> provenance_inv (new_evidence e s).2.
Proof.
  intros [A B C] He. constructor; simpl.
  - intros v x. rewrite lookup_insert. case_decide; intros; simplify_eq; [lia|].
    assert (v < fresh s) by eauto. lia.
  - intros v x. rewrite lookup_insert. case_decide; intros; simplify_eq; eauto.
  - intros v w Hv. destruct (C _ _ Hv) as (-> & x & Hx & Hs). split; [done|].
    exists x. split; [|done]. rewrite lookup_insert_ne; [done|]. intros <-.
    apply A in Hx. lia.
Qed.

Lemma read_evidence_state a s : (read_evidence a s).2 = s.
Proof. by destruct a. Qed.

Lemma read_evidence_constructed a s e :
  provenance_inv s -> (read_evidence a s).1 = Ok e -> constructed e.
Proof.
  intros H. destruct a as [v|d]; simpl.
  - destruct (records s !! v) eqn:E; [|done]. intros [= <-]. by eapply prov_records.
  - apply evidence_from_mapping_constructed.
Qed.

Definition set_validated (e : EvidenceRecord) (st : string) : EvidenceRecord :=
  EvRecord (ev_id e) (ev_goal e) (ev_subgoal e) (ev_source e) (ev_summary e) (ev_timestamp e)
    st (ev_metadata e).

(** What validating a readable argument does. *)
Lemma validate_evidence_spec a s e :
  provenance_inv s -> (read_evidence a s).1 = Ok e ->
  validate_evidence a s
  = (Ok (fresh s),
     EvStore (<[fresh s := set_validated e "validated"]> (records s)) (S (fresh s))
       (<[fresh s := fresh s]> (validated_evidence s))).
Proof.
  intros H He. pose proof (read_evidence_constructed _ _ _ H He) as (x1&x2&x3&x4&x5&x6&x7&x8&Hc).
  unfold validate_evidence. unfold_m. unfold mlift.
  pose proof (read_evidence_state a s) as Hs.
  destruct (read_evidence a s) as [r s0]. simpl in *. subst r s0.
  rewrite (make_evidence_replace _ _ _ _ _ _ _ _ _ "validated" Hc) by compute_decide. done.
Qed.

Lemma validate_evidence_raise a s e :
  (read_evidence a s).1 = Raise e ->
  validate_evidence a s = (Raise e, s) /\ reject_evidence a s = (Raise e, s).
Proof.
  intros He. unfold validate_evidence, reject_evidence. unfold_m.
  pose proof (read_evidence_state a s) as Hs.
  destruct (read_evidence a s) as [r s0]. simpl in *. by subst r s0.
Qed.

Lemma prov_step s s' : provenance_inv s -> evidence_step s s' -> provenance_inv s'.
Proof.
  intros H Hs. revert H. destruct Hs as [e s He|a s|a s]; intros H.
  - by apply prov_new.
  - destruct (read_evidence a s).1 as [e|x] eqn:E.
    2: { by destruct (validate_evidence_raise _ _ _ E) as [-> _]. }
    rewrite (validate_evidence_spec _ _ _ H E). simpl.
    pose proof (read_evidence_constructed _ _ _ H E) as (x1&x2&x3&x4&x5&x6&x7&x8&Hc).
    assert (Hn : constructed (set_validated e "validated")).
    { eapply replace_constructed, make_evidence_replace; [exact Hc|compute_decide]. }
    destruct (prov_new _ _ H Hn) as [A B C]. simpl in *. constructor; simpl; [done|done|].
    intros v w. rewrite lookup_insert. case_decide as Hv; [|apply C].
    intros [= <-]. subst v. split; [done|]. rewrite lookup_insert_eq. by eexists.
  - destruct (read_evidence a s).1 as [e|x] eqn:E.
    2: { by destruct (validate_evidence_raise _ _ _ E) as [_ ->]. }
    pose proof (read_evidence_constructed _ _ _ H E) as (x1&x2&x3&x4&x5&x6&x7&x8&Hc).
    unfold reject_evidence. unfold_m. unfold mlift.
    pose proof (read_evidence_state a s) as Hs.
    destruct (read_evidence a s) as [r s0]. simpl in *. subst r s0.
    pose proof (make_evidence_replace _ _ _ _ _ _ _ _ _ "rejected" Hc ltac:(compute_decide)) as Hr.
    rewrite Hr. apply prov_new; [done|]. by eapply replace_constructed.
Qed.

Lemma prov_reachable s : rtc evidence_step empty_store s -> provenance_inv s.
Proof.
  intros Hr. eapply (rtc_invariant _ provenance_inv); [|exact Hr|].
  - intros x y Hx Hy. by eapply prov_step.
  - constructor; simpl; intros v w E; by rewrite lookup_empty in E.
Qed.

(** ** Lemmas on the validator *)

(** When a transition is admissible. *)
Record admissible (s : evidence_store) (t : GoalTransition) (subgoals : option bool)
    (token : bool) : Prop := {
  adm_table : (from_state t, to_state t, action t) ∈ transitions_of (target_type t);
  adm_resume : to_state t = "resumable" -> resume_point t <> VNone;
  adm_reason : to_state t = "blocked" -> is_Some (reason t);
  adm_complete : completes_goal t = true ->
    token = true /\ evidence_refs t <> [] /\ subgoals = Some true
    /\ Forall (fun r => is_provenance_validated_evidence s r (Some (target_id t)) = true)
         (evidence_refs t) }.

(** The tables never leave a terminal state nor activate a resumable one. *)
Definition table_row_ok (terminal : list string) (row : string * string * string) : bool :=
  negb (bool_decide (row.1.1 ∈ terminal))
  && negb ((row.1.1 =? "resumable")%string && (row.1.2 =? "active")%string).

Lemma table_rows_ok tt row : row ∈ transitions_of tt -> table_row_ok (terminal_of tt) row = true.
Proof.
  unfold transitions_of, terminal_of. intros H.
  assert (G : forall l ts, forallb (table_row_ok ts) l = true -> row ∈ l ->
              table_row_ok ts row = true).
  { intros l ts Hl Hin. rewrite forallb_forall in Hl. apply Hl. by apply list_elem_of_In. }
  revert H. destruct (tt =? "goal")%string; apply G; vm_compute; reflexivity.
Qed.

Lemma note_nil b v : note b v = [] <-> b = false.
Proof. by destruct b. Qed.

Lemma all_refs_validated s refs g :
  _all_evidence_refs_validated s refs g = true <->
  refs <> [] /\ Forall (fun r => is_provenance_validated_evidence s r (Some g) = true) refs.
Proof.
  unfold _all_evidence_refs_validated. destruct refs as [|r refs]; [naive_solver|].
  rewrite forallb_forall, Forall_forall. setoid_rewrite list_elem_of_In. naive_solver.
Qed.

Lemma is_none_true v : is_none v = false <-> v <> VNone.
Proof. by destruct v. Qed.

Lemma violations_nil s t subgoals :
  violations s t subgoals = [] <-> admissible s t subgoals true.
Proof.
  unfold violations. rewrite !app_nil, !note_nil.
  rewrite bool_decide_eq_false, negb_false_iff, bool_decide_eq_true, !andb_false_iff,
    !String.eqb_neq, is_none_true.
  split.
  - intros (H1 & H2 & H3 & H4 & H5 & H6). constructor; [done|naive_solver| |].
    + intros Hb. destruct H4 as [?|H4]; [done|]. by destruct (reason t); eauto.
    + intros Hc. rewrite Hc in H5. apply app_nil in H5 as [H5 H7].
      apply note_nil, negb_false_iff, bool_decide_eq_true in H7.
      destruct (evidence_refs t) as [|r l]; [done|].
      apply note_nil, negb_false_iff, all_refs_validated in H5. naive_solver.
  - intros [A B C D]. pose proof (table_rows_ok _ _ A) as R. unfold table_row_ok in R.
    simpl in R. apply andb_true_iff in R as [R1 R2].
    apply negb_true_iff, bool_decide_eq_false in R1. apply negb_true_iff, andb_false_iff in R2.
    rewrite !String.eqb_neq in R2. split_and!; try done.
    + destruct (decide (to_state t = "resumable")); auto.
    + destruct (decide (to_state t = "blocked")) as [Hb|]; [right|by left].
      by destruct (C Hb) as [x ->].
    + destruct (completes_goal t) eqn:Ec; [|done].
      destruct (D eq_refl) as (_ & Hn & -> & Hv).
      destruct (evidence_refs t) as [|r l] eqn:El; [done|].
      assert (Ha : _all_evidence_refs_validated s (r :: l) (target_id t) = true)
        by (by apply all_refs_validated). by rewrite Ha.
Qed.

Lemma make_transition_reason tt id f to a why rp refs rv t :
  make_transition tt id f to a why rp refs rv = Ok t ->
  forall r, reason t = Some r -> strip r = r /\ r <> "".
Proof.
  unfold make_transition. unfold_m. destruct (clean_target_type tt) as [tt'|]; [|done].
  destruct (clean_required_text _ _); [|done].
  destruct (clean_lifecycle_state _ f); [|done]. destruct (clean_lifecycle_state _ to); [|done].
  destruct (clean_transition_action _); [|done]. destruct (copy_evidence_refs _); [|done].
  intros [= <-] r. simpl. intros Hr. pose proof (clean_optional_idem why) as Hi.
  rewrite Hr in Hi. simpl in Hi. destruct (String.eqb_spec (strip r) "") as [|Hn]; [done|].
  injection Hi as Hi. by rewrite Hi in Hn.
Qed.

Lemma make_result_spec acc f to why b rv refs :
  strip why = why -> why <> "" ->
  make_transition_result acc f to why b rv refs
  = Ok (TransitionResult acc f to why (clean_optional_text (optional_val b)) rv refs).
Proof.
  intros Hs Hn. unfold make_transition_result, clean_required_text. unfold_m.
  rewrite text_strip, Hs. by apply String.eqb_neq in Hn as ->.
Qed.

(** ** The lifecycle as a relation on states *)

(** One accepted transition of a target of the given type. *)
Definition lifecycle_step (ttype : string) (x y : string) : Prop :=
  exists s t subgoals token r id f to a why rp refs rv,
    make_transition (VStr ttype) id f to a why rp refs rv = Ok t
    /\ transition s t subgoals token = Ok r /\ accepted r = true
    /\ from_state t = x /\ to_state t = y.

(** The decision of the machine on a constructed transition. *)
Lemma transition_spec tt id f to a why rp refs rv t s subgoals token :
  make_transition tt id f to a why rp refs rv = Ok t ->
  exists r, transition s t subgoals token = Ok r
    /\ res_from r = from_state t /\ res_to r = to_state t /\ res_refs r = evidence_refs t
    /\ (accepted r = true <-> admissible s t subgoals token)
    /\ (accepted r = false -> res_review r = true).
Proof.
  intros Ht. pose proof (make_transition_reason _ _ _ _ _ _ _ _ _ _ Ht) as Hr.
  unfold transition, transition_with, validate. destruct (completes_goal t && negb token) eqn:Ec.
  - rewrite make_result_spec by done. eexists. split; [done|]. simpl.
    apply andb_true_iff in Ec as [Ec Etok]. apply negb_true_iff in Etok as ->.
    split_and!; try done. split; [done|]. intros [A B C D]. by destruct (D Ec).
  - assert (Hadm : admissible s t subgoals token <-> violations s t subgoals = []).
    { rewrite violations_nil. split; intros [A B C D]; constructor; try done;
        intros Hc; destruct (D Hc); rewrite Hc in Ec; by destruct token. }
    destruct (violations s t subgoals) as [|v vs] eqn:Ev; cbn [valid negb v_reason v_violations].
    + assert (G : forall w, (exists r, reason t = Some r /\ w = r)
                 \/ w = "goal_lifecycle_transition_accepted" -> strip w = w /\ w <> "").
      { intros w [(r & Hw & ->)| ->]; [by apply Hr|done]. }
      destruct (G (match reason t with Some r => r
                   | None => "goal_lifecycle_transition_accepted" end)) as [G1 G2].
      { destruct (reason t); eauto. }
      rewrite make_result_spec by done. eexists. split; [done|]. simpl. split_and!; try done.
      by rewrite Hadm.
    + rewrite make_result_spec by done. eexists. split; [done|]. simpl.
      split_and!; try done. by rewrite Hadm.
Qed.

Lemma make_transition_target tt id f to a why rp refs rv t :
  make_transition (VStr tt) id f to a why rp refs rv = Ok t ->
  target_type t = lower (strip tt).
Proof.
  unfold make_transition, clean_target_type. unfold_m.
  case_bool_decide; [|done]. destruct (clean_required_text _ _); [|done].
  destruct (clean_lifecycle_state _ f); [|done]. destruct (clean_lifecycle_state _ to); [|done].
  destruct (clean_transition_action _); [|done]. destruct (copy_evidence_refs _); [|done].
  intros [= <-]. simpl. by rewrite text_strip.
Qed.

Lemma lifecycle_step_table tt x y :
  lifecycle_step tt x y ->
  exists a, (x, y, a) ∈ transitions_of (lower (strip tt)).
Proof.
  intros (s & t & sub & tok & r & id & f & to & a & why & rp & refs & rv & Ht & Hr & Ha & <- & <-).
  destruct (transition_spec _ _ _ _ _ _ _ _ _ _ s sub tok Ht) as (r' & Hr' & _ & _ & _ & Hadm & _).
  rewrite Hr in Hr'. injection Hr' as <-. apply Hadm in Ha as [A _ _ _].
  rewrite (make_transition_target _ _ _ _ _ _ _ _ _ _ Ht) in A. eauto.
Qed.

(** A set of states closed under the rows of a table is closed under steps. *)
Definition closed_under (rows : list (string * string * string)) (S : list string) : bool :=
  forallb (fun row => negb (bool_decide (row.1.1 ∈ S)) || bool_decide (row.1.2 ∈ S)) rows.

Lemma closed_reach tt S x y :
  closed_under (transitions_of (lower (strip tt))) S = true ->
  x ∈ S -> rtc (lifecycle_step tt) x y -> y ∈ S.
Proof.
  intros Hc Hx Hr. revert Hx. induction Hr as [x|x y z Hs _ IH]; [done|]. intros Hx. apply IH.
  apply lifecycle_step_table in Hs as [a Ha]. unfold closed_under in Hc.
  rewrite forallb_forall in Hc. apply list_elem_of_In, Hc in Ha. simpl in Ha.
  apply orb_true_iff in Ha as [Ha|Ha].
  - apply negb_true_iff, bool_decide_eq_false in Ha. done.
  - by apply bool_decide_eq_true in Ha.
Qed.

(** ** Properties *)

(** C25. The state machine decides every transition: it never raises on a
    constructed request, repeats the requested states, and accepts exactly the
    admissible ones: a row of the table, a resume point to become resumable, a
    reason to become blocked, and to complete a goal the completion token, all
    subgoals completed and evidence that is validated for this very goal. *)
Theorem goal_transition_decided tt id f to a why rp refs rv t s subgoals token :
  make_transition tt id f to a why rp refs rv = Ok t ->
  exists r, transition s t subgoals token = Ok r
    /\ res_from r = from_state t /\ res_to r = to_state t
    /\ (accepted r = true <-> admissible s t subgoals token)
    /\ (accepted r = false -> res_review r = true).
Proof.
  intros Ht. destruct (transition_spec _ _ _ _ _ _ _ _ _ _ s subgoals token Ht)
    as (r & H1 & H2 & H3 & _ & H4 & H5). by exists r.
Qed.

(** Dead ends of the lifecycle: no sequence of accepted transitions leaves a
    completed or a failed goal or subgoal, and none leads a blocked goal back
    to work: from blocked only resumable, blocked again and failed can be
    reached, and a blocked subgoal cannot even fail. *)
Theorem lifecycle_dead_ends x y :
  (rtc (lifecycle_step "goal") x y -> x ∈ TERMINAL_GOAL_STATES -> y = x)
  /\ (rtc (lifecycle_step "subgoal") x y -> x ∈ TERMINAL_SUBGOAL_STATES -> y = x)
  /\ (rtc (lifecycle_step "goal") x y -> x = "blocked" ->
      y ∈ ["blocked"; "resumable"; "failed"])
  /\ (rtc (lifecycle_step "subgoal") x y -> x = "blocked" -> y ∈ ["blocked"; "resumable"]).
Proof.
  assert (G : forall tt S, closed_under (transitions_of (lower (strip tt))) S = true ->
            x ∈ S -> rtc (lifecycle_step tt) x y -> y ∈ S) by (intros; by eapply closed_reach).
  assert (T : forall tt, tt ∈ ["goal"; "subgoal"] -> x ∈ ["completed"; "failed"] ->
            rtc (lifecycle_step tt) x y -> y = x).
  { intros tt Htt Hx Hr. apply list_elem_of_singleton. eapply (G tt [x]); [|set_solver|exact Hr].
    rewrite !elem_of_cons, elem_of_nil in Htt, Hx.
    destruct Htt as [->|[->|[]]], Hx as [->|[->|[]]]; vm_compute; reflexivity. }
  split_and!.
  - intros Hr Hx. eapply T; [|exact Hx|exact Hr]. compute_decide.
  - intros Hr Hx. eapply T; [|exact Hx|exact Hr]. compute_decide.
  - intros Hr ->. eapply G; [| |exact Hr]; [vm_compute; reflexivity|compute_decide].
  - intros Hr ->. eapply G; [| |exact Hr]; [vm_compute; reflexivity|compute_decide].
Qed.

(** Evidence counts only when the validator made it: whatever records a
    program constructs and has validated or rejected, a record it constructs
    itself, even as ["validated"], and a plain value never pass the provenance
    check, while the record that [validate] returns passes it for the goal of
    the evidence it was given. *)
Theorem evidence_provenance_sound s g :
  rtc evidence_step empty_store s ->
  (forall e v s', new_evidence e s = (Ok v, s') ->
     is_provenance_validated_evidence s' (RefRecord v) g = false)
  /\ (forall x, is_provenance_validated_evidence s (RefValue x) g = false)
  /\ (forall a e, (read_evidence a s).1 = Ok e ->
      exists v s', validate_evidence a s = (Ok v, s')
        /\ is_provenance_validated_evidence s' (RefRecord v) (Some (ev_goal e)) = true).
Proof.
  intros H%prov_reachable. split_and!; [| done|].
  - intros e v s' [= <- <-]. simpl. rewrite lookup_insert_eq.
    destruct (validated_evidence s !! fresh s) as [w|] eqn:Ew.
    + destruct (prov_registry _ H _ _ Ew) as (_ & e' & He & _).
      apply (prov_fresh _ H) in He. lia.
    + by rewrite andb_false_r.
  - intros a e He. rewrite (validate_evidence_spec _ _ _ H He). do 2 eexists. split; [done|].
    simpl. rewrite !lookup_insert_eq. simpl. rewrite String.eqb_refl.
    by rewrite bool_decide_true.
Qed.

(** A resume point survives its round trip: the dict a constructed point is
    written as is read back to the same point. *)
Theorem resume_point_roundtrip g sg t st why refs r :
  make_resume_point g sg t st why refs = Ok r ->
  resume_from_mapping (resume_to_dict r) = Ok r.
Proof.
  unfold resume_from_mapping, make_resume_point. unfold_m.
  destruct (clean_required_text g "goal_id") as [g'|] eqn:Eg; [|done].
  destruct (match refs with VNone => _ | VList l => _ | _ => _ end) as [l|] eqn:El; [|done].
  intros [= <-].
  unfold vget. simpl. rewrite (clean_required_idem _ _ _ _ Eg), !clean_optional_idem.
  by destruct l.
Qed.

(** ** Concrete runs *)

Definition demo_evidence : list (string * val) :=
  [("evidence_id", VStr "e1"); ("goal_id", VStr " g1 "); ("source", VStr "test");
   ("timestamp", VStr "now")].

Definition demo_store : evidence_store :=
  (validate_evidence (ArgMapping demo_evidence) empty_store).2.

Definition demo_complete : res GoalTransition :=
  make_transition (VStr "Goal") (VStr "g1") (VStr "active") (VStr "completed") (VStr "complete")
    VNone VNone (Refs [RefRecord 0]) VNone.

Lemma goal_transition_decided_witness :
  exists t r, demo_complete = Ok t /\ transition demo_store t (Some true) true = Ok r
    /\ accepted r = true /\ admissible demo_store t (Some true) true.
Proof.
  assert (H : match demo_complete with
              | Ok t => match transition demo_store t (Some true) true with
                        | Ok r => accepted r = true | Raise _ => False end
              | Raise _ => False end) by (vm_compute; reflexivity).
  destruct demo_complete as [t|e] eqn:E; [|destruct H].
  destruct (goal_transition_decided _ _ _ _ _ _ _ _ _ _ demo_store (Some true) true E)
    as (r & Hr & _ & _ & Ha & _).
  rewrite Hr in H. exists t, r. split; [reflexivity|]. split; [exact Hr|].
  split; [exact H|]. apply Ha, H.
Defined.

Lemma evidence_provenance_sound_witness :
  rtc evidence_step empty_store demo_store
  /\ is_provenance_validated_evidence
       (new_evidence (EvRecord "e" "g1" None "s" VNone "t" "validated" []) demo_store).2
       (RefRecord 1) (Some "g1") = false.
Proof.
  assert (Hr : rtc evidence_step empty_store demo_store)
    by (apply rtc_once, (EvValidate (ArgMapping demo_evidence))).
  split; [exact Hr|].
  exact (proj1 (evidence_provenance_sound demo_store (Some "g1") Hr) _ 1 _ eq_refl).
Defined.

Lemma resume_point_roundtrip_witness :
  exists r, make_resume_point (VStr " g ") VNone (VInt 7) (VStr "") (VStr "why") VNone = Ok r
    /\ resume_from_mapping (resume_to_dict r) = Ok r /\ rp_task r = Some "7".
Proof.
  eexists. split; [vm_compute; reflexivity|]. split; [|reflexivity].
  apply (resume_point_roundtrip (VStr " g ") VNone (VInt 7) (VStr "") (VStr "why") VNone).
  vm_compute. reflexivity.
Defined.

Lemma lifecycle_dead_ends_witness :
  lifecycle_step "goal" "blocked" "resumable"
  /\ "resumable" ∈ ["blocked"; "resumable"; "failed"].
Proof.
  assert (H : lifecycle_step "goal" "blocked" "resumable").
  { exists empty_store, (Transition "goal" "g1" "blocked" "resumable" "resume_ready" None
      (VStr "rp") [] false), None, false,
      (TransitionResult true "blocked" "resumable" "goal_lifecycle_transition_accepted" None
        false []),
      (VStr "g1"), (VStr "blocked"), (VStr "resumable"), (VStr "resume_ready"), VNone,
      (VStr "rp"), NoRefs, VNone.
    split; [vm_compute; reflexivity|]. split; [vm_compute; reflexivity|]. repeat split. }
  split; [exact H|].
  destruct (lifecycle_dead_ends "blocked" "resumable") as (_ & _ & G & _).
  apply G; [by apply rtc_once|reflexivity].
Defined.
