(* ===== verification/Completion.v ===== *)
(** * The goal completion authority

    [core/goals/goal_completion_authority.py]: the one place that may declare a
    goal completed.  [complete_goal] checks the evidence against the session and
    the lineage it is asked for, lets the state machine of [Goals] decide, and
    registers the result it returns in the closure's registry when the decision
    stands on its own; [is_accepted_goal_completion_result] accepts nothing but
    a registered object.

    Results are objects compared by identity: they live in a store beside the
    evidence records, and the registry maps addresses to addresses.  The fields
    of a result are frozen, but its list of evidence is an ordinary list, which
    whoever holds the result can change: [set_refs] is that step.  A state
    machine is the default one, one made with another validator, or an object
    of another class. *)

From S2P Require Import Prelude PyVal Lineage Goals.

Definition GOAL_COMPLETION_AUTHORITY_OWNER : string :=
  "core.goals.goal_completion_authority.GoalCompletionAuthority".
Definition GOAL_COMPLETION_RESULT_SCHEMA : string := "zero.goal_completion_authority.result.v1".

Record GoalCompletionResult : Type := CompletionResult {
  cr_accepted : bool;
  cr_goal : string;
  cr_from : string;
  cr_to : string;
  cr_reason : string;
  cr_blocked : option string;
  cr_review : bool;
  cr_refs : list evidence_ref;
  cr_session : string;
  cr_runtime : string;
  cr_lineage : list (string * val);
  cr_owner : string;
  cr_schema : string }.

Definition completed (r : GoalCompletionResult) : bool :=
  cr_accepted r && (cr_to r =? "completed")%string.

(** The objects of the program and the registry of the closure. *)
Record completion_state : Type := CompletionState {
  evidence : evidence_store;
  results : gmap nat GoalCompletionResult;
  next_result : nat;
  issued_attestations : gmap nat nat }.

Definition no_results : completion_state := CompletionState empty_store ∅ 0 ∅.

(** The constructor, which anyone can call. *)
Definition new_result (r : GoalCompletionResult) : M completion_state nat := fun s =>
  (Ok (next_result s),
   CompletionState (evidence s) (<[next_result s := r]> (results s)) (S (next_result s))
     (issued_attestations s)).

(** [issued_attestations[id(completion)] = completion] *)
Definition issue (v : nat) : M completion_state unit := mmodify (fun s =>
  CompletionState (evidence s) (results s) (next_result s) (<[v := v]> (issued_attestations s))).

(** [result.evidence_refs[:] = l] *)
Definition set_refs (v : nat) (l : list evidence_ref) : M completion_state unit := mmodify (fun s =>
  CompletionState (evidence s)
    (alter (fun r => CompletionResult (cr_accepted r) (cr_goal r) (cr_from r) (cr_to r) (cr_reason r)
              (cr_blocked r) (cr_review r) l (cr_session r) (cr_runtime r) (cr_lineage r) (cr_owner r)
              (cr_schema r)) v (results s))
    (next_result s) (issued_attestations s)).

(** [GoalCompletionResult.to_dict]; a record among the evidence is given by its
    own [to_dict]. *)
Definition ref_to_val (s : evidence_store) (r : evidence_ref) : val :=
  match r with
  | RefRecord v => from_option (fun e => VDict (evidence_to_dict e)) VNone (records s !! v)
  | RefValue x => x
  end.

Definition completion_to_dict (s : evidence_store) (r : GoalCompletionResult) : list (string * val) :=
  [("schema", VStr (cr_schema r)); ("authority_owner", VStr (cr_owner r)); ("accepted", VBool (cr_accepted r));
   ("completed", VBool (completed r)); ("goal_id", VStr (cr_goal r)); ("from_state", VStr (cr_from r));
   ("to_state", VStr (cr_to r)); ("reason", VStr (cr_reason r)); ("blocked_reason", optional_val (cr_blocked r));
   ("requires_user_review", VBool (cr_review r)); ("evidence_refs", VList (map (ref_to_val s) (cr_refs r)));
   ("session_id", VStr (cr_session r)); ("runtime_session_id", VStr (cr_runtime r));
   ("goal_lineage", VDict (cr_lineage r))].

(** ** What a piece of evidence says

    A record through its [to_dict], a mapping as it is, anything else nothing. *)
Definition ref_mapping (s : evidence_store) (r : evidence_ref) : option (list (string * val)) :=
  match r with
  | RefRecord v => evidence_to_dict <$> records s !! v
  | RefValue (VDict d) => Some d
  | RefValue _ => None
  end.

Definition evidence_text (k : string) (s : evidence_store) (r : evidence_ref) : string :=
  match ref_mapping s r with
  | Some d => text (py_or (vget k d) (vget k (mapping (vget "metadata" d))))
  | None => ""
  end.

Definition _evidence_session_id := evidence_text "session_id".
Definition _evidence_runtime_session_id := evidence_text "runtime_session_id".

(** The mapping a reference is compared with the lineage through. *)
Definition scope_of (s : evidence_store) (r : evidence_ref) : val :=
  match r with
  | RefRecord v =>
      match records s !! v with
      | Some e => VDict [("goal_id", VStr (ev_goal e)); ("metadata", VDict (ev_metadata e))]
      | None => VDict [("goal_id", VStr ""); ("metadata", VDict [])]
      end
  | RefValue (VDict d) =>
      VDict [("goal_id", vget "goal_id" d); ("metadata", vget_or "metadata" (VDict []) d)]
  | RefValue _ => VDict [("goal_id", VStr ""); ("metadata", VDict [])]
  end.

(** ** State machines *)

Inductive machine : Type :=
  | DefaultMachine
  | WithValidator (f : evidence_store -> GoalTransition -> option bool -> GoalStateValidationResult)
  | OtherClass (f : evidence_store -> GoalTransition -> option bool -> res GoalTransitionResult).

Definition machine_transition (m : machine) (s : evidence_store) (t : GoalTransition)
    (all_subgoals_completed : option bool) : res GoalTransitionResult :=
  match m with
  | DefaultMachine => transition s t all_subgoals_completed true
  | WithValidator f => transition_with f s t all_subgoals_completed true
  | OtherClass f => f s t all_subgoals_completed
  end.

(** [type(self.state_machine) is GoalStateMachine] *)
Definition is_goal_state_machine (m : machine) : bool :=
  match m with OtherClass _ => false | _ => true end.

Section completion.
Context (sha256_hex : string -> string).

(** [value] is the address of a result, or [None] for any other object. *)
Definition is_accepted_goal_completion_result (s : completion_state) (value : option nat)
    (goal_id : option string) (session_id : option val) (goal_lineage : option val) : res bool :=
  match value with
  | None => Ok false
  | Some v =>
      match results s !! v with
      | None => Ok false
      | Some r =>
          if bool_decide (issued_attestations s !! v = Some v)
             && (cr_schema r =? GOAL_COMPLETION_RESULT_SCHEMA)%string
             && (cr_owner r =? GOAL_COMPLETION_AUTHORITY_OWNER)%string
             && cr_accepted r && completed r && (cr_to r =? "completed")%string
             && negb (bool_decide (length (cr_refs r) = 0%nat))
             && match goal_id with None => true | Some g => (cr_goal r =? g)%string end
             && match session_id with None => true | Some x => (cr_session r =? py_str x)%string end
          then match goal_lineage with
               | None => Ok true
               | Some l => lineage_scope_matches sha256_hex (VDict (cr_lineage r)) l
               end
          else Ok false
      end
  end.

(** What a completion is asked for. *)
Record target : Type := Target {
  tg_session : string;
  tg_runtime : string;
  tg_lineage : list (string * val) }.

(** Lines that read the session and the lineage out of the arguments. *)
Definition read_target (session_id goal_lineage : val) : res target :=
  let sid := text session_id in
  target_lineage ← match goal_lineage with
                   | VNone => Ok []
                   | l => extract_goal_lineage sha256_hex l false false
                   end;
  if negb (truthy (VDict target_lineage)) then Ok (Target sid "" target_lineage)
  else
    identity ← extract_runtime_identity (VDict target_lineage) false false;
    Ok (Target (match dget "session_id" target_lineage with Some v => py_str v | None => sid end)
               (match dget "runtime_session_id" identity with Some v => py_str v | None => "" end)
               target_lineage).

(** The first mismatch of the evidence with what is asked for. *)
Definition mismatch (s : evidence_store) (tg : target) (refs : list evidence_ref) : res (option string) :=
  if non_empty (tg_runtime tg)
     && existsb (fun r => (_evidence_session_id s r =? tg_session tg)%string
                          && negb (_evidence_runtime_session_id s r =? tg_runtime tg)%string) refs
  then Ok (Some "goal_completion_evidence_runtime_session_mismatch")
  else
    in_scope ← (if truthy (VDict (tg_lineage tg))
                then rmap (fun r => lineage_scope_matches sha256_hex (scope_of s r)
                                      (VDict (tg_lineage tg))) refs
                else Ok []);
    if existsb negb in_scope then Ok (Some "goal_completion_evidence_lineage_mismatch")
    else if non_empty (tg_session tg)
            && existsb (fun r => negb (_evidence_session_id s r =? tg_session tg)%string) refs
    then Ok (Some "goal_completion_evidence_session_mismatch")
    else Ok None.

Definition refused (goal_id from_state why : string) (refs : list evidence_ref) (tg : target) :
    GoalCompletionResult :=
  CompletionResult false goal_id from_state from_state why (Some why) false refs (tg_session tg)
    (tg_runtime tg) (tg_lineage tg) GOAL_COMPLETION_AUTHORITY_OWNER GOAL_COMPLETION_RESULT_SCHEMA.

Definition completion_of (goal_id : string) (tg : target) (r : GoalTransitionResult) :
    GoalCompletionResult :=
  CompletionResult (accepted r) goal_id (res_from r) (res_to r) (res_reason r) (blocked_reason r)
    (res_review r) (res_refs r) (tg_session tg) (tg_runtime tg) (tg_lineage tg)
    GOAL_COMPLETION_AUTHORITY_OWNER GOAL_COMPLETION_RESULT_SCHEMA.

(** When a completion is registered. *)
Definition attestable (m : machine) (s : evidence_store) (goal_id : string) (all_subgoals_completed : bool)
    (c : GoalCompletionResult) : bool :=
  is_goal_state_machine m && cr_accepted c && (cr_from c =? "active")%string
  && (cr_to c =? "completed")%string && all_subgoals_completed
  && negb (bool_decide (length (cr_refs c) = 0%nat))
  && forallb (fun r => is_provenance_validated_evidence s r (Some goal_id)) (cr_refs c).

Definition complete_goal (m : machine) (goal_id from_state : string) (refs : list evidence_ref)
    (all_subgoals_completed : bool) (reason session_id goal_lineage : val) : M completion_state nat :=
  tg ← mlift (read_target session_id goal_lineage);
  s ← mget;
  let ev := evidence s in
  bad ← mlift (mismatch ev tg refs);
  match bad with
  | Some why => new_result (refused goal_id from_state why refs tg)
  | None =>
      t ← mlift (make_transition (VStr "goal") (VStr goal_id) (VStr from_state) (VStr "completed")
                   (VStr "complete") (py_or reason (VStr "goal_completion_authority_requested"))
                   VNone (Refs refs) (VBool false));
      r ← mlift (machine_transition m ev t (Some all_subgoals_completed));
      let c := completion_of goal_id tg r in
      v ← new_result c;
      _ ← (if attestable m ev goal_id all_subgoals_completed c then issue v else mret tt);
      mret v
  end.

(** ** What a program can do *)

Inductive completion_step : completion_state -> completion_state -> Prop :=
  | CsEvidence s ev' : evidence_step (evidence s) ev' ->
      completion_step s (CompletionState ev' (results s) (next_result s) (issued_attestations s))
  | CsConstruct r s : completion_step s (new_result r s).2
  | CsSetRefs v l s : completion_step s (set_refs v l s).2
  | CsComplete m g from refs sub why sid lin s :
      completion_step s (complete_goal m g from refs sub why sid lin s).2.

Definition validated_for (ev : evidence_store) (g : string) (refs : list evidence_ref) : Prop :=
  refs <> [] /\ Forall (fun r => is_provenance_validated_evidence ev r (Some g) = true) refs.

(** The evidence is that of the session, the runtime session and the lineage asked for. *)
Definition in_target (ev : evidence_store) (tg : target) (r : evidence_ref) : Prop :=
  (tg_session tg <> "" -> _evidence_session_id ev r = tg_session tg)
  /\ (tg_runtime tg <> "" -> _evidence_session_id ev r = tg_session tg ->
      _evidence_runtime_session_id ev r = tg_runtime tg)
  /\ (tg_lineage tg <> [] ->
      lineage_scope_matches sha256_hex (scope_of ev r) (VDict (tg_lineage tg)) = Ok true).

(** The object [v] was returned by a call that completed the goal [g]. *)
Definition attested (s : completion_state) (v : nat) (g : string) : Prop :=
  exists m from refs why sid lin s0 s1 tg,
    rtc completion_step no_results s0
    /\ complete_goal m g from refs true why sid lin s0 = (Ok v, s1)
    /\ rtc completion_step s1 s
    /\ clean_lifecycle_state "goal" (VStr from) = Ok "active"
    /\ validated_for (evidence s0) g refs
    /\ read_target sid lin = Ok tg /\ Forall (in_target (evidence s0) tg) refs.

Lemma existsb_false {A} (f : A -> bool) l : existsb f l = false <-> Forall (fun x => f x = false) l.
Proof.
  induction l as [|x l IH]; simpl; [by split|]. rewrite orb_false_iff, Forall_cons, IH. done.
Qed.

Lemma truthy_dict d : truthy (VDict d) = true <-> d <> [].
Proof. by destruct d. Qed.

Lemma rmap_all_true {A} (f : A -> res bool) l :
  (exists bs, rmap f l = Ok bs /\ existsb negb bs = false) <-> Forall (fun x => f x = Ok true) l.
Proof.
  induction l as [|x l IH]; simpl; [split; [done|intros _; by exists []]|].
  rewrite Forall_cons, <- IH. unfold_m. split.
  - intros (bs & E & N). destruct (f x) as [b|]; [|done]. destruct (rmap f l) as [bs'|]; [|done].
    injection E as <-. simpl in N. apply orb_false_iff in N as [Nb N]. apply negb_false_iff in Nb as ->.
    split; [done|by exists bs'].
  - intros (-> & bs & -> & N). by exists (true :: bs).
Qed.

Lemma in_target_all ev tg refs :
  Forall (in_target ev tg) refs <->
  (non_empty (tg_runtime tg)
   && existsb (fun r => (_evidence_session_id ev r =? tg_session tg)%string
                        && negb (_evidence_runtime_session_id ev r =? tg_runtime tg)%string) refs) = false
  /\ (truthy (VDict (tg_lineage tg)) = true ->
       Forall (fun r => lineage_scope_matches sha256_hex (scope_of ev r) (VDict (tg_lineage tg)) = Ok true) refs)
  /\ (non_empty (tg_session tg)
      && existsb (fun r => negb (_evidence_session_id ev r =? tg_session tg)%string) refs) = false.
Proof.
  unfold non_empty, in_target.
  rewrite !andb_false_iff, !negb_false_iff, !String.eqb_eq, !existsb_false, truthy_dict, !Forall_forall.
  setoid_rewrite andb_false_iff. setoid_rewrite negb_false_iff.
  setoid_rewrite String.eqb_neq. setoid_rewrite String.eqb_eq. split.
  - intros H. split_and!.
    + destruct (decide (tg_runtime tg = "")) as [|Hn]; [by left|right]. intros r Hr.
      destruct (H r Hr) as (_ & B & _). destruct (decide (_evidence_session_id ev r = tg_session tg)); auto.
    + intros Hn r Hr. by apply (H r Hr).
    + destruct (decide (tg_session tg = "")) as [|Hn]; [by left|right]. intros r Hr. by apply (H r Hr).
  - intros (A & B & C) r Hr. split_and!.
    + intros Hn. destruct C as [|C]; [done|by apply C].
    + intros Hn Hs. destruct A as [|A]; [done|]. by destruct (A r Hr).
    + intros Hn. by apply B.
Qed.

(** The checks find nothing exactly when all the evidence is in the target. *)
Lemma mismatch_None ev tg refs : mismatch ev tg refs = Ok None <-> Forall (in_target ev tg) refs.
Proof.
  rewrite in_target_all. unfold mismatch. unfold_m.
  destruct (non_empty (tg_runtime tg) && _); [split; [done|intros [? _]; done]|].
  destruct (truthy (VDict (tg_lineage tg))) eqn:Et.
  - rewrite <- rmap_all_true. destruct (rmap _ refs) as [bs|e].
    + destruct (existsb negb bs) eqn:Eb.
      * split; [done|]. intros (_ & H & _). destruct (H eq_refl) as (bs' & [= <-] & H'). congruence.
      * destruct (non_empty (tg_session tg) && _); split; try done.
        -- by intros (_ & _ & ?).
        -- intros _. split_and!; [done|intros _; by exists bs|done].
    + split; [done|]. intros (_ & H & _). by destruct (H eq_refl) as (bs & ? & _).
  - cbn [existsb]. destruct (non_empty (tg_session tg) && _); split; try done. by intros (_ & _ & ?).
Qed.

(** The store with a new result, registered or not. *)
Definition with_result (s : completion_state) (c : GoalCompletionResult) (registered : bool) :
    completion_state :=
  CompletionState (evidence s) (<[next_result s := c]> (results s)) (S (next_result s))
    (if registered then <[next_result s := next_result s]> (issued_attestations s)
     else issued_attestations s).

(** The request a completion makes. *)
Definition request (g from : string) (refs : list evidence_ref) (why : val) : res GoalTransition :=
  make_transition (VStr "goal") (VStr g) (VStr from) (VStr "completed") (VStr "complete")
    (py_or why (VStr "goal_completion_authority_requested")) VNone (Refs refs) (VBool false).

(** Every outcome of a call. *)
Lemma complete_goal_cases m g from refs sub why sid lin s :
  (exists e, complete_goal m g from refs sub why sid lin s = (Raise e, s))
  \/ (exists tg w, read_target sid lin = Ok tg /\ mismatch (evidence s) tg refs = Ok (Some w)
      /\ complete_goal m g from refs sub why sid lin s
         = (Ok (next_result s), with_result s (refused g from w refs tg) false))
  \/ (exists tg t r, read_target sid lin = Ok tg /\ mismatch (evidence s) tg refs = Ok None
      /\ request g from refs why = Ok t /\ machine_transition m (evidence s) t (Some sub) = Ok r
      /\ complete_goal m g from refs sub why sid lin s
         = (Ok (next_result s),
            with_result s (completion_of g tg r) (attestable m (evidence s) g sub (completion_of g tg r)))).
Proof.
  unfold complete_goal, with_result. fold (request g from refs why). unfold_m.
  destruct (read_target sid lin) as [tg|e]; [|left; by exists e].
  destruct (mismatch (evidence s) tg refs) as [[w|]|e] eqn:Em; [right; left; by exists tg, w| |left; by exists e].
  destruct (request g from refs why) as [t|e] eqn:Et; [|left; by exists e].
  destruct (machine_transition m (evidence s) t (Some sub)) as [r|e] eqn:Er; [|left; by exists e].
  right; right. exists tg, t, r. split_and!; try done.
  cbn [new_result evidence results next_result issued_attestations].
  by destruct (attestable m (evidence s) g sub (completion_of g tg r)).
Qed.

(** What a registered completion says. *)
Lemma attestable_spec m ev g sub c :
  attestable m ev g sub c = true <->
  is_goal_state_machine m = true /\ cr_accepted c = true /\ cr_from c = "active" /\ cr_to c = "completed"
  /\ sub = true /\ validated_for ev g (cr_refs c).
Proof.
  unfold attestable, validated_for. rewrite !andb_true_iff, !String.eqb_eq, negb_true_iff, bool_decide_eq_false,
    forallb_forall, Forall_forall. setoid_rewrite list_elem_of_In.
  assert (H : length (cr_refs c) <> 0%nat <-> cr_refs c <> []) by (destruct (cr_refs c); simpl; intuition (try done; lia)).
  rewrite H. intuition.
Qed.

(** A request for a completion is one for this goal, from its state, with this evidence. *)
Lemma request_spec g from refs why t :
  request g from refs why = Ok t ->
  clean_lifecycle_state "goal" (VStr from) = Ok (from_state t) /\ to_state t = "completed"
  /\ evidence_refs t = refs /\ target_type t = "goal" /\ target_id t = strip g /\ action t = "complete".
Proof.
  unfold request, make_transition. unfold_m.
  replace (clean_target_type (VStr "goal")) with (@Ok string "goal") by (vm_compute; reflexivity).
  unfold clean_required_text at 1. rewrite text_strip. destruct (strip g =? "")%string; [done|].
  destruct (clean_lifecycle_state "goal" (VStr from)) as [f|]; [|done].
  replace (clean_lifecycle_state "goal" (VStr "completed")) with (@Ok string "completed") by (vm_compute; reflexivity).
  replace (clean_transition_action (VStr "complete")) with (@Ok string "complete") by (vm_compute; reflexivity).
  by intros [= <-].
Qed.

(** The default class repeats the request in its result, whatever its validator says. *)
Lemma machine_repeats m ev t sub r :
  is_goal_state_machine m = true -> machine_transition m ev t sub = Ok r ->
  res_from r = from_state t /\ res_to r = to_state t /\ res_refs r = evidence_refs t.
Proof.
  assert (G : forall f, transition_with f ev t sub true = Ok r ->
            res_from r = from_state t /\ res_to r = to_state t /\ res_refs r = evidence_refs t).
  { intros f. unfold transition_with, make_transition_result. unfold_m.
    destruct (completes_goal t && negb true); [|destruct (negb _)];
      (destruct (clean_required_text _ _); [|done]); by intros [= <-]. }
  destruct m as [|f|f]; [|intros _; apply (G f)|done]. intros _. apply (G validate).
Qed.

(** ** The invariant of the registry *)

Record completion_inv (s : completion_state) : Prop := {
  ci_reach : rtc completion_step no_results s;
  ci_prov : provenance_inv (evidence s);
  ci_fresh : forall v r, results s !! v = Some r -> (v < next_result s)%nat;
  ci_issued : forall v w, issued_attestations s !! v = Some w ->
    w = v /\ exists r, results s !! v = Some r /\ attested s v (cr_goal r) }.

Lemma attested_step s s' v g : completion_step s s' -> attested s v g -> attested s' v g.
Proof.
  intros Hs (m & from & refs & why & sid & lin & s0 & s1 & tg & H1 & H2 & H3 & H4).
  exists m, from, refs, why, sid, lin, s0, s1, tg. split_and!; try done; [|apply H4..].
  by eapply rtc_r.
Qed.

Lemma with_result_inv s c b :
  completion_inv s -> rtc completion_step no_results (with_result s c b) ->
  completion_step s (with_result s c b) ->
  (b = true -> attested (with_result s c b) (next_result s) (cr_goal c)) ->
  completion_inv (with_result s c b).
Proof.
  intros [R P F I] Hr Hs Hb. constructor; [done|exact P| |]; simpl.
  - intros v r. rewrite lookup_insert. case_decide; intros; [lia|]. assert (v < next_result s)%nat by eauto. lia.
  - assert (Hold : forall v w, issued_attestations s !! v = Some w -> w = v /\ exists r,
        <[next_result s := c]> (results s) !! v = Some r /\ attested (with_result s c b) v (cr_goal r)).
    { intros v w Hv. destruct (I _ _ Hv) as (-> & r & Er & Ha). split; [done|]. exists r.
      split; [|by eapply attested_step]. rewrite lookup_insert_ne; [done|]. intros <-. apply F in Er. lia. }
    destruct b; [|exact Hold]. intros v w. rewrite lookup_insert. case_decide as Hv; [|apply Hold].
    intros [= <-]. subst v. split; [done|]. exists c. split; [by rewrite lookup_insert_eq|by apply Hb].
Qed.

Lemma completion_inv_step s s' : completion_inv s -> completion_step s s' -> completion_inv s'.
Proof.
  intros H Hs. assert (Hr : rtc completion_step no_results s') by (eapply rtc_r; [apply (ci_reach _ H)|exact Hs]).
  assert (Hm : forall v g, attested s v g -> attested s' v g) by (intros v g; by apply attested_step).
  destruct Hs as [s ev' He|r s|v l s|m g from refs sub why sid lin s].
  - destruct H as [R P F I]. constructor; simpl; [done|by eapply prov_step|exact F|].
    intros v w Hv. destruct (I _ _ Hv) as (-> & r & ? & ?). split; [done|]. exists r. auto.
  - apply (with_result_inv s r false); [done|exact Hr|exact (CsConstruct r s)|done].
  - destruct H as [R P F I]. constructor; simpl; [done|done| |].
    + intros u x Hx. destruct (results s !! u) as [y|] eqn:E; [by eapply F|].
      rewrite lookup_alter in Hx. case_decide; simplify_eq; by rewrite E in Hx.
    + intros u w Hu. destruct (I _ _ Hu) as (-> & r & Er & Ha). split; [done|].
      rewrite lookup_alter. case_decide; subst; rewrite ?Er; simpl; eexists; split; try done; by apply Hm.
  - pose proof (CsComplete m g from refs sub why sid lin s) as Hs.
    destruct (complete_goal_cases m g from refs sub why sid lin s)
      as [(e & E)|[(tg & w & _ & _ & E)|(tg & t & r & Et & Em & Eq & Er & E)]];
      pose proof E as E'; rewrite E' in Hr, Hs |- *; [exact H| |]; cbn [snd] in *.
    + by apply with_result_inv.
    + apply with_result_inv; [done..|]. intros Hb. rewrite Hb in *. apply attestable_spec in Hb.
      destruct Hb as (Hmach & _ & Hfrom & _ & -> & Hv). cbn [cr_from cr_refs cr_goal completion_of] in *.
      destruct (machine_repeats _ _ _ _ _ Hmach Er) as (Ef & _ & Ev).
      destruct (request_spec _ _ _ _ _ Eq) as (Ec & _ & Ee & _).
      exists m, from, refs, why, sid, lin, s, (with_result s (completion_of g tg r) true), tg.
      rewrite Ev, Ee in Hv. rewrite <- Ef, Hfrom in Ec.
      split_and!; [apply (ci_reach _ H)|exact E|apply rtc_refl|exact Ec|exact Hv|exact Et|by apply mismatch_None].
Qed.

Lemma completion_reachable s : rtc completion_step no_results s -> completion_inv s.
Proof.
  intros Hr. eapply (rtc_invariant _ completion_inv); [|exact Hr|].
  - intros x y Hx Hy. by eapply completion_inv_step.
  - constructor; simpl; [apply rtc_refl|apply prov_reachable, rtc_refl|..]; intros v w E; by rewrite lookup_empty in E.
Qed.

(** What acceptance needs of an object. *)
Lemma accepted_registered s v g sid lin :
  is_accepted_goal_completion_result s v g sid lin = Ok true ->
  exists u r, v = Some u /\ results s !! u = Some r /\ issued_attestations s !! u = Some u
    /\ cr_accepted r = true /\ cr_to r = "completed" /\ cr_refs r <> []
    /\ (forall x, g = Some x -> cr_goal r = x) /\ (forall x, sid = Some x -> cr_session r = py_str x).
Proof.
  unfold is_accepted_goal_completion_result. destruct v as [u|]; [|done].
  destruct (results s !! u) as [r|] eqn:Er; [|done]. destruct (_ && _) eqn:E; [|done]. intros _.
  rewrite !andb_true_iff, !String.eqb_eq, negb_true_iff, bool_decide_eq_true, bool_decide_eq_false in E.
  destruct E as (((((((( H1 & _) & _) & H2) & _) & H3) & H4) & H5) & H6).
  exists u, r. split_and!; try done; [by destruct (cr_refs r)|by intros x ->; apply String.eqb_eq|].
  by intros x ->; apply String.eqb_eq.
Qed.

(** C38. Behind every accepted completion stands a completion.  Whatever a
    program does (validate or reject evidence, construct results of its own,
    change the evidence list of a result it holds, ask for completions with
    state machines and validators of its own): an object that is accepted for
    a goal was returned by a call of [complete_goal] for this very goal, from
    the active state, with all subgoals declared completed, and with evidence
    that the validator had validated for this goal and that belongs to the
    session, the runtime session and the lineage asked for. *)
Theorem accepted_has_completion s v g sid lin :
  rtc completion_step no_results s ->
  is_accepted_goal_completion_result s (Some v) (Some g) sid lin = Ok true ->
  attested s v g.
Proof.
  intros H%completion_reachable Ha.
  destruct (accepted_registered _ _ _ _ _ Ha) as (u & r & [= <-] & Er & Ei & _ & _ & _ & Eg & _).
  destruct (ci_issued _ H _ _ Ei) as (_ & r' & Er' & Hat).
  rewrite Er in Er'. injection Er' as <-. by rewrite <- (Eg g eq_refl).
Qed.

Lemma next_unregistered s : completion_inv s -> issued_attestations s !! next_result s = None.
Proof.
  intros H. destruct (issued_attestations s !! next_result s) as [w|] eqn:E; [|done].
  destruct (ci_issued _ H _ _ E) as (_ & r & Er & _). apply (ci_fresh _ H) in Er. lia.
Qed.

(** A new result changes nothing for the other objects. *)
Lemma with_result_other s c b u g sid lin :
  u <> next_result s ->
  is_accepted_goal_completion_result (with_result s c b) (Some u) g sid lin
  = is_accepted_goal_completion_result s (Some u) g sid lin.
Proof.
  intros Hu. unfold is_accepted_goal_completion_result, with_result. simpl.
  rewrite lookup_insert_ne by congruence. destruct b; [by rewrite lookup_insert_ne by congruence|done].
Qed.

Lemma validated_goal_clean ev g refs :
  provenance_inv ev -> validated_for ev g refs -> strip g = g /\ g <> "".
Proof.
  intros Hp (Hn & Hf). destruct refs as [|r refs]; [done|]. apply Forall_cons_1 in Hf as [Hr _].
  unfold is_provenance_validated_evidence in Hr. destruct r as [v|]; [|done].
  destruct (records ev !! v) as [e|] eqn:E; [|done].
  apply andb_true_iff in Hr as [_ Hg]. apply String.eqb_eq in Hg as <-.
  destruct (prov_records _ Hp _ _ E) as (a&b&c&d&f&h&i&j&Hc). revert Hc. unfold make_evidence.
  case_bool_decide; [done|]. unfold_m. destruct (clean_required_text a _); [|done].
  destruct (clean_required_text b "goal_id") as [y|] eqn:Eb; [|done].
  destruct (clean_required_text d _); [|done]. destruct (clean_required_text h _); [|done].
  intros [= <-]. simpl. pose proof (clean_required_idem b "goal_id" y "goal_id" Eb) as Hi. unfold clean_required_text in Hi.
  rewrite text_strip in Hi. destruct (String.eqb_spec (strip y) ""); [done|]. injection Hi as Hi. by rewrite Hi in *.
Qed.

(** The default machine lets a well-founded request through. *)
Lemma request_accepted ev g from refs why :
  provenance_inv ev -> validated_for ev g refs -> clean_lifecycle_state "goal" (VStr from) = Ok "active" ->
  exists t r, request g from refs why = Ok t /\ machine_transition DefaultMachine ev t (Some true) = Ok r
    /\ accepted r = true /\ res_from r = "active" /\ res_to r = "completed" /\ res_refs r = refs.
Proof.
  intros Hp Hv Hf. destruct (validated_goal_clean _ _ _ Hp Hv) as [Hs Hn].
  assert (Ht : exists t, request g from refs why = Ok t).
  { unfold request, make_transition. unfold_m.
    replace (clean_target_type (VStr "goal")) with (@Ok string "goal") by (vm_compute; reflexivity).
    unfold clean_required_text at 1. rewrite text_strip, Hs. apply String.eqb_neq in Hn as ->. rewrite Hf.
    replace (clean_lifecycle_state "goal" (VStr "completed")) with (@Ok string "completed") by (vm_compute; reflexivity).
    replace (clean_transition_action (VStr "complete")) with (@Ok string "complete") by (vm_compute; reflexivity).
    by eexists. }
  destruct Ht as [t Ht]. pose proof (request_spec _ _ _ _ _ Ht) as (H1 & H2 & H3 & H4 & H5 & H6).
  rewrite Hf in H1. injection H1 as H1.
  destruct (transition_spec _ _ _ _ _ _ _ _ _ _ ev (Some true) true Ht) as (r & Hr & E1 & E2 & E3 & Ha & _).
  exists t, r. rewrite E1, E2, E3, H2, H3, <- H1. split_and!; try done. apply Ha. constructor.
  - rewrite <- H1, H2, H4, H6. compute_decide.
  - by rewrite H2.
  - by rewrite H2.
  - intros _. rewrite H3, H5, Hs. split_and!; [done|apply Hv|done|apply Hv].
Qed.

(** C27. The authority with the default machine completes a goal, so that its
    result is accepted for the goal, exactly when the goal is active, all its
    subgoals are declared completed, there is evidence, all of it validated for
    this goal, and all of it belongs to the session, the runtime session and
    the lineage asked for.  Whatever the outcome, no other object becomes or
    stops being accepted. *)
Theorem completion_decided g from refs sub why sid lin s :
  rtc completion_step no_results s ->
  let run := complete_goal DefaultMachine g from refs sub why sid lin s in
  ((exists v, run.1 = Ok v
      /\ is_accepted_goal_completion_result run.2 (Some v) (Some g) None None = Ok true)
   <-> clean_lifecycle_state "goal" (VStr from) = Ok "active" /\ sub = true
      /\ validated_for (evidence s) g refs
      /\ exists tg, read_target sid lin = Ok tg /\ Forall (in_target (evidence s) tg) refs)
  /\ (forall u g' sid' lin', run.1 <> Ok u ->
      is_accepted_goal_completion_result run.2 (Some u) g' sid' lin'
      = is_accepted_goal_completion_result s (Some u) g' sid' lin').
Proof.
  intros H%completion_reachable run. subst run.
  destruct (complete_goal_cases DefaultMachine g from refs sub why sid lin s)
    as [(e & E)|[(tg & w & Et & Em & E)|(tg & t & r & Et & Em & Eq & Er & E)]]; rewrite E; cbn [fst snd].
  - split; [split|done]; [by intros (v & ? & _)|].
    intros (Hf & -> & Hv & tg & Et & Hin). exfalso.
    destruct (request_accepted _ _ _ _ why (ci_prov _ H) Hv Hf) as (t & r & Ht & Hr & _).
    apply mismatch_None in Hin. revert E. unfold complete_goal. fold (request g from refs why). unfold_m.
    rewrite Et, Hin, Ht, Hr. cbn [new_result]. by destruct (attestable _ _ _ _ _).
  - split; [|intros u; intros; apply with_result_other; congruence]. split.
    + intros (v & [= <-] & Ha). destruct (accepted_registered _ _ _ _ _ Ha) as (u & x & [= <-] & _ & Ei & _).
      simpl in Ei. by rewrite (next_unregistered _ H) in Ei.
    + intros (_ & _ & _ & tg' & Et' & Hin). rewrite Et in Et'. injection Et' as <-.
      apply mismatch_None in Hin. by rewrite Em in Hin.
  - split; [|intros u; intros; apply with_result_other; congruence]. split.
    + intros (v & [= <-] & Ha). destruct (accepted_registered _ _ _ _ _ Ha) as (u & x & [= <-] & _ & Ei & _).
      destruct (attestable _ _ _ _ _) eqn:Eat; [|simpl in Ei; by rewrite (next_unregistered _ H) in Ei].
      apply attestable_spec in Eat. destruct Eat as (Hm & _ & Hfrom & _ & -> & Hv).
      cbn [cr_from cr_refs completion_of] in *. destruct (machine_repeats _ _ _ _ _ Hm Er) as (Ef & _ & Ev).
      destruct (request_spec _ _ _ _ _ Eq) as (Ec & _ & Ee & _). rewrite Ev, Ee in Hv. rewrite <- Ef, Hfrom in Ec.
      split_and!; [done|done|exact Hv|]. exists tg. split; [done|by apply mismatch_None].
    + intros (Hf & -> & Hv & _). exists (next_result s). split; [done|].
      destruct (request_accepted _ _ _ _ why (ci_prov _ H) Hv Hf) as (t' & r' & Ht & Hr & H1 & H2 & H3 & H4).
      rewrite Eq in Ht. injection Ht as <-. rewrite Er in Hr. injection Hr as <-.
      assert (Hat : attestable DefaultMachine (evidence s) g true (completion_of g tg r) = true).
      { apply attestable_spec. cbn. rewrite H4. done. }
      rewrite Hat. unfold is_accepted_goal_completion_result, with_result. simpl. rewrite !lookup_insert_eq.
      unfold completed. simpl. rewrite H1, H3, H4, bool_decide_true, String.eqb_refl by done. simpl.
      destruct Hv as [Hn _]. rewrite (String.eqb_refl g). by destruct refs.
Qed.

(** The list of a registered result is not part of what is registered: whoever
    holds the result can put any other references there, and it is accepted as before. *)
Lemma accepted_keeps_with_other_refs s v g sid lin l :
  l <> [] -> is_accepted_goal_completion_result s (Some v) g sid lin = Ok true ->
  is_accepted_goal_completion_result (set_refs v l s).2 (Some v) g sid lin = Ok true
  /\ cr_refs <$> results (set_refs v l s).2 !! v = Some l.
Proof.
  unfold is_accepted_goal_completion_result. simpl. rewrite lookup_alter_eq.
  destruct (results s !! v) as [r|]; [|done]. simpl. intros Hl Ha. split; [|done]. revert Ha.
  unfold completed. simpl. destruct (bool_decide (length (cr_refs r) = 0%nat)); simpl;
    rewrite ?andb_false_r; [done|].
  rewrite (bool_decide_false (length l = 0%nat)) by (destruct l; [done|simpl; lia]). done.
Qed.
End completion.

(** ** What the authority promises

    The layers above ask only whether an object is accepted for a goal, and
    keep its record. *)
Class AttestationGate (S : Type) : Type := {
  gate_reached : S -> Prop;
  gate_accepts : S -> option nat -> string -> bool;
  gate_record : S -> nat -> list (string * val);
  goal_done : S -> string -> Prop;
  gate_sound : forall s v g, gate_reached s -> gate_accepts s v g = true -> goal_done s g }.

(** [is_accepted_goal_completion_result(value, goal_id=g)] *)
Definition accepts_for (sha256_hex : string -> string) (s : completion_state) (v : option nat) (g : string) : bool :=
  match is_accepted_goal_completion_result sha256_hex s v (Some g) None None with
  | Ok b => b
  | Raise _ => false
  end.

#[export, refine] Instance completion_gate sha256_hex : AttestationGate completion_state := {
  gate_reached := rtc (completion_step sha256_hex) no_results;
  gate_accepts := accepts_for sha256_hex;
  gate_record s v := from_option (completion_to_dict (evidence s)) [] (results s !! v);
  goal_done s g := exists v, attested sha256_hex s v g }.
Proof.
  intros s v g H Ha. unfold accepts_for in Ha.
  destruct (is_accepted_goal_completion_result _ _ _ _ _ _) as [[]|] eqn:E; try done.
  apply completion_reachable in H.
  destruct (accepted_registered _ _ _ _ _ _ E) as (u & r & -> & Er & Ei & _ & _ & _ & Eg & _).
  exists u. destruct (ci_issued _ _ H _ _ Ei) as (_ & r' & Er' & Hat).
  rewrite Er in Er'. injection Er' as <-. by rewrite <- (Eg g eq_refl).
Defined.

(** ** A completion at work *)

Definition demo_proof : list (string * val) :=
  [("evidence_id", VStr "e1"); ("goal_id", VStr "g1"); ("source", VStr "tests");
   ("timestamp", VStr "now"); ("metadata", VDict [("session_id", VStr "s1")])].

(** Validated evidence, from session [s1]. *)
Definition demo_checked : completion_state :=
  CompletionState (validate_evidence (ArgMapping demo_proof) empty_store).2 ∅ 0 ∅.

Definition demo_complete_goal (session : string) : res nat * completion_state :=
  complete_goal demo_sha256 DefaultMachine "g1" " Active " [RefRecord 0] true VNone (VStr session) VNone
    demo_checked.

Lemma demo_checked_reached : rtc (completion_step demo_sha256) no_results demo_checked.
Proof. apply rtc_once, (CsEvidence demo_sha256 no_results). apply (EvValidate (ArgMapping demo_proof)). Qed.

(** In its own session the goal is completed, in another it is not. *)
Lemma completion_decided_witness :
  (exists v, (demo_complete_goal "s1").1 = Ok v
     /\ is_accepted_goal_completion_result demo_sha256 (demo_complete_goal "s1").2 (Some v) (Some "g1") None None
        = Ok true)
  /\ ~ (exists v, (demo_complete_goal "s2").1 = Ok v
     /\ is_accepted_goal_completion_result demo_sha256 (demo_complete_goal "s2").2 (Some v) (Some "g1") None None
        = Ok true).
Proof.
  pose proof (fun session => completion_decided demo_sha256 "g1" " Active " [RefRecord 0] true VNone (VStr session)
    VNone demo_checked demo_checked_reached) as H. cbv zeta in H.
  split.
  - apply (proj1 (H "s1")). split; [vm_compute; reflexivity|]. split; [reflexivity|]. split.
    + split; [discriminate|]. apply Forall_singleton. vm_compute. reflexivity.
    + eexists. split; [vm_compute; reflexivity|]. apply Forall_singleton.
      split; [intros _; vm_compute; reflexivity|]. split; [intros []; reflexivity|]. intros []. reflexivity.
  - intros Hx. apply (proj1 (H "s2")) in Hx. destruct Hx as (_ & _ & _ & tg & Et & Hin).
    assert (E : read_target demo_sha256 (VStr "s2") VNone = Ok (Target "s2" "" [])) by (vm_compute; reflexivity).
    rewrite E in Et. injection Et as <-. apply Forall_inv in Hin. destruct Hin as [Hs _].
    assert (N : _evidence_session_id (evidence demo_checked) (RefRecord 0) = "s1") by (vm_compute; reflexivity).
    rewrite N in Hs. assert (X : "s2" <> "") by discriminate. specialize (Hs X). discriminate Hs.
Defined.

Lemma accepted_has_completion_witness :
  attested demo_sha256 (demo_complete_goal "s1").2 0 "g1".
Proof.
  apply (accepted_has_completion demo_sha256 _ 0 "g1" (Some (VStr "s1")) None).
  - eapply rtc_r; [exact demo_checked_reached|].
    apply (CsComplete demo_sha256 DefaultMachine "g1" " Active " [RefRecord 0] true VNone (VStr "s1") VNone).
  - vm_compute. reflexivity.
Defined.
