(* ===== verification/Engineering.v ===== *)
(** * The engineering state machines

    Four machines stacked on one another, each consuming the record of the one
    below and none executing anything:

    - [Replan]: [core/tasks/adaptive_replan_contract.py] and
      [core/adaptive/adaptive_replan_state.py], [_transition.py],
      [_validator.py], [_state_machine.py], which turn a planner's decision
      into what the loop may do next;
    - [Lifecycle]: [core/tasks/engineering_lifecycle_*.py];
    - [Session]: [core/session/engineering_session_state.py],
      [_transition.py], [_validator.py], [_state_machine.py];
    - [Program]: [core/program/engineering_program_*.py].

    A transition is given as an object of its class or as a mapping.  Every
    machine lets a completion through only with an object that the goal
    completion authority accepts for the goal; what it accepts is the interface
    [AttestationGate], and [s] below is the state behind it. *)

From S2P Require Import Prelude PyVal Lineage Completion.

(** [_text(value, default)] *)
Definition text_or (value : val) (dflt : string) : string := str_or (text value) dflt.

(** [a or b] on dicts *)
Definition dict_or (a b : list (string * val)) : list (string * val) :=
  match a with [] => b | _ => a end.

(** [v is False] *)
Definition is_false (v : val) : bool := match v with VBool b => negb b | _ => false end.

(** The argument of a machine: an object of its transition class or a mapping. *)
Inductive move (T : Type) : Type :=
  | Object (t : T)
  | Mapping (d : list (string * val)).
Arguments Object {T} t.
Arguments Mapping {T} d.

(** The validation results, which have the same five fields everywhere. *)
Record verdict : Type := Verdict {
  vd_accepted : bool;
  vd_from : string;
  vd_to : string;
  vd_reason : string;
  vd_blocked : string }.

Definition reject (name from_state to_state blocked_reason : string) : verdict :=
  Verdict false from_state to_state (name +:+ "_transition_rejected") blocked_reason.

Definition accept (name from_state to_state : string) : verdict :=
  Verdict true from_state to_state
    (name +:+ "_transition_accepted:" +:+ from_state +:+ "->" +:+ to_state) "".

(** The states of a record, or the verdict on one that has none. *)
Definition read_states (clean : val -> res string) (name : string) (from_state to_state : val) :
    verdict + (string * string) :=
  match f ← clean from_state; t ← clean to_state; Ok (f, t) with
  | Ok p => inr p
  | Raise e => inl (Verdict false (str_or_empty from_state) (str_or_empty to_state)
                      ("invalid_" +:+ name +:+ "_state") (exn_str e))
  end.

Section engineering.
Context {S : Type} `{Gate : AttestationGate S}.

(** A goal and the object that is to attest its completion; a mapping has none. *)
Definition claim_accepted (s : S) (claim : option (string * option nat)) : bool :=
  match claim with
  | Some (goal_id, attestation) => non_empty goal_id && gate_accepts s attestation goal_id
  | None => false
  end.

(** The body that [validate] has in three of the machines. *)
Definition validate_move (clean : val -> res string) (allowed : list (string * string))
    (name completed : string) (s : S) (from_state to_state : val)
    (claim : option (string * option nat)) : verdict :=
  match read_states clean name from_state to_state with
  | inl v => v
  | inr (f, t) =>
      if negb (bool_decide ((f, t) ∈ allowed))
      then reject name f t ("illegal_transition:" +:+ f +:+ "->" +:+ t)
      else if (t =? completed)%string && negb (claim_accepted s claim)
      then reject name f t "canonical_completion_attestation_required"
      else accept name f t
  end.
End engineering.

(** ** Adaptive replanning *)
Module Replan.

Definition AdaptiveReplanState : list string :=
  ["continue"; "replan"; "blocked"; "complete"; "wait_for_user"; "refuse"; "stop"].

Definition ALIASES : list (string * string) :=
  [("completed", "complete"); ("success", "complete"); ("succeeded", "complete");
   ("request_replan", "replan"); ("retry_with_replan", "replan"); ("block", "blocked");
   ("stop_with_root_cause", "blocked"); ("waiting", "wait_for_user"); ("wait", "wait_for_user");
   ("request_user_review", "wait_for_user"); ("halt", "stop"); ("no_action", "stop")].

Definition clean_adaptive_replan_state (value : val) : res string :=
  let raw := lower (text value) in
  match dget raw ALIASES with
  | Some s => Ok s
  | None => if bool_decide (raw ∈ AdaptiveReplanState) then Ok raw
            else Raise (ValueError "adaptive_replan_requires_valid_state")
  end.

Definition ALLOWED_TRANSITIONS : list (string * string) :=
  [("continue", "continue"); ("continue", "replan"); ("continue", "blocked"); ("continue", "complete");
   ("continue", "wait_for_user"); ("continue", "refuse"); ("continue", "stop"); ("replan", "stop");
   ("blocked", "stop"); ("wait_for_user", "stop"); ("refuse", "stop"); ("complete", "stop")].

Definition TERMINAL_STATES : list string := ["complete"; "blocked"; "wait_for_user"; "refuse"; "stop"].

(** *** The contract *)

Definition _TERMINAL_COMPLETE : list string := ["complete"; "completed"; "success"; "succeeded"].
Definition _TERMINAL_BLOCKED : list string := ["blocked"; "block"; "stop_with_root_cause"].
Definition _REPLAN : list string := ["replan"; "request_replan"; "retry_with_replan"].
Definition _CONTINUE : list string :=
  ["continue"; "continue_current_plan"; "create_followup_goal"; "followup"; "continue_active"].
Definition _WAIT : list string := ["wait"; "waiting"; "wait_for_user"; "request_user_review"].
Definition _STOP : list string := ["stop"; "no_action"; "non_continuable"; "halt"].

(** [_limit(value, default)] *)
Definition _limit (value : val) (dflt : Z) : Z :=
  match py_int value with
  | Ok n => Z.max 0 n
  | Raise _ => Z.max 0 dflt
  end.

Record AdaptiveReplanContract : Type := Contract {
  ct_decision : string;
  ct_action : string;
  ct_terminal : bool;
  ct_stop : string;
  ct_reason : string;
  ct_refusal : string;
  ct_requires_replan : bool;
  ct_replan : bool;
  ct_continuation : bool }.

(** The constructor with its [__post_init__]. *)
Definition make_contract (decision loop_action : string) (terminal : bool)
    (stop_reason reason refusal_reason : string) (requires_replan replan continuation : bool) :
    AdaptiveReplanContract :=
  let action := text_or (VStr loop_action) "stop" in
  let stop := text (VStr stop_reason) in
  Contract (text_or (VStr decision) "unavailable") action terminal stop
    (text_or (VStr reason) (str_or stop action)) (text (VStr refusal_reason))
    requires_replan replan continuation.

Definition contract_to_dict (c : AdaptiveReplanContract) : list (string * val) :=
  [("schema", VStr "zero.adaptive_replan_contract.v1"); ("decision", VStr (ct_decision c));
   ("loop_action", VStr (ct_action c)); ("terminal", VBool (ct_terminal c));
   ("stop_reason", VStr (ct_stop c)); ("reason", VStr (ct_reason c));
   ("refusal_reason", VStr (ct_refusal c)); ("requires_replan", VBool (ct_requires_replan c));
   ("creates_replan_record", VBool (ct_replan c)); ("creates_continuation", VBool (ct_continuation c));
   ("persists_adaptive_record", VBool true);
   ("execution_path", VDict
     [("decision_only", VBool true); ("executes_tasks", VBool false); ("persists_records", VBool false);
      ("mutates_goal_repository", VBool false); ("mutates_runtime", VBool false);
      ("mutates_memory", VBool false)])].

Definition normalize_engineering_adaptive_decision (decision : val) : string :=
  let raw := lower (text decision) in
  if bool_decide (raw ∈ _TERMINAL_COMPLETE) then "complete"
  else if bool_decide (raw ∈ _TERMINAL_BLOCKED) then "blocked"
  else if bool_decide (raw ∈ _REPLAN) then "replan"
  else if bool_decide (raw ∈ _CONTINUE) then "continue"
  else if bool_decide (raw ∈ _WAIT) then "wait_for_user"
  else if bool_decide (raw ∈ _STOP) then "stop"
  else str_or raw "unavailable".

Definition original_decision (cycle : list (string * val)) : string :=
  text_or (py_or (vget "adaptive_decision" cycle)
                 (vget "decision" (mapping (vget "adaptive_decision_record" cycle)))) "unavailable".

Definition build_adaptive_replan_contract (cycle : list (string * val))
    (replan_count continuation_count max_replans max_continuations : val) : AdaptiveReplanContract :=
  let adaptive := mapping (vget "adaptive_decision_record" cycle) in
  let original := original_decision cycle in
  let decision := normalize_engineering_adaptive_decision (VStr original) in
  let reason := text_or
    (py_or (py_or (py_or (vget "decision_reason" cycle) (vget "decision_reason" adaptive))
                  (vget "reason" adaptive))
           (vget "adaptive_reason" cycle))
    ("adaptive_decision_" +:+ decision) in
  if (decision =? "complete")%string
  then make_contract original "complete" true "complete" reason "" false false false
  else if (decision =? "blocked")%string
  then make_contract original "blocked" true "blocked" reason "" false false false
  else if (decision =? "replan")%string then
    if (_limit max_replans 0 <=? _limit replan_count 0)%Z
    then make_contract original "refuse" true "max_replans_exhausted" "max_replans_exhausted"
           "max_replans_exhausted" true false false
    else make_contract original "replan" true "replan" reason "" true true false
  else if (decision =? "continue")%string then
    if (_limit max_continuations 0 <=? _limit continuation_count 0)%Z
    then make_contract original "refuse" true "max_continuations_exhausted" "max_continuations_exhausted"
           "max_continuations_exhausted" false false false
    else make_contract original "continue" false "" reason "" false false true
  else if (decision =? "wait_for_user")%string
  then make_contract original "wait_for_user" true "wait_for_user" reason "wait_for_user" false false false
  else make_contract original "stop" true "non_continuable_adaptive_decision" reason
         "non_continuable_adaptive_decision" false false false.

(** *** Transitions *)

Record AdaptiveReplanTransition : Type := Transition {
  from_state : string;
  to_state : string;
  action : string;
  reason : string;
  contract : list (string * val);
  goal_id : string;
  attestation : option nat }.

Definition make_transition (from to act : val) (why : val) (ct : val) (goal : val)
    (att : option nat) : res AdaptiveReplanTransition :=
  f ← clean_adaptive_replan_state from;
  t ← clean_adaptive_replan_state to;
  a ← clean_adaptive_replan_state act;
  Ok (Transition f t a (text_or why ("adaptive_replan_" +:+ a)) (mapping ct) (text goal) att).

Definition from_contract (ct : list (string * val)) (from_state : string) (goal : val)
    (att : option nat) : res AdaptiveReplanTransition :=
  let act := text_or (vget "loop_action" ct) "stop" in
  let why := text_or (py_or (vget "reason" ct) (vget "stop_reason" ct)) ("adaptive_replan_" +:+ act) in
  make_transition (VStr from_state) (VStr act) (VStr act) (VStr why) (VDict ct) goal att.

Definition to_dict (t : AdaptiveReplanTransition) : list (string * val) :=
  [("schema", VStr "zero.adaptive_replan_transition.v1"); ("from_state", VStr (from_state t));
   ("to_state", VStr (to_state t)); ("action", VStr (action t)); ("reason", VStr (reason t));
   ("contract", VDict (contract t)); ("goal_id", VStr (goal_id t));
   ("execution_path", VDict
     [("decision_only", VBool true); ("executes_tasks", VBool false); ("persists_records", VBool false);
      ("mutates_runtime", VBool false); ("mutates_memory", VBool false)])].

Definition record_of (m : move AdaptiveReplanTransition) : list (string * val) :=
  match m with Object t => to_dict t | Mapping d => d end.

Definition claim_of (m : move AdaptiveReplanTransition) : option (string * option nat) :=
  match m with Object t => Some (goal_id t, attestation t) | Mapping _ => None end.

(** *** The machine *)

Record AdaptiveReplanStateResult : Type := Result {
  r_accepted : bool;
  r_from : string;
  r_to : string;
  r_action : string;
  r_terminal : bool;
  r_stop : string;
  r_reason : string;
  r_refusal : string;
  r_replan : bool;
  r_continuation : bool;
  r_blocked : string;
  r_contract : list (string * val) }.

Definition result_to_dict (r : AdaptiveReplanStateResult) : list (string * val) :=
  [("schema", VStr "zero.adaptive_replan_state_machine.v1"); ("accepted", VBool (r_accepted r));
   ("from_state", VStr (r_from r)); ("to_state", VStr (r_to r)); ("loop_action", VStr (r_action r));
   ("terminal", VBool (r_terminal r)); ("stop_reason", VStr (r_stop r)); ("reason", VStr (r_reason r));
   ("refusal_reason", VStr (r_refusal r)); ("creates_replan_record", VBool (r_replan r));
   ("creates_continuation", VBool (r_continuation r)); ("blocked_reason", VStr (r_blocked r));
   ("contract", VDict (r_contract r));
   ("execution_path", VDict
     [("decision_only", VBool true); ("executes_tasks", VBool false); ("persists_records", VBool false);
      ("mutates_goal_repository", VBool false); ("mutates_runtime", VBool false);
      ("mutates_memory", VBool false)])].

Definition _accepted_result (from_state to_state : string) (ct : list (string * val)) :
    res AdaptiveReplanStateResult :=
  act ← clean_adaptive_replan_state (VStr to_state);
  let terminal := bool_decide (act ∈ TERMINAL_STATES) in
  Ok (Result true from_state act act terminal
        (if terminal then str_or (text (vget "stop_reason" ct)) act else "")
        (text_or (vget "reason" ct) ("adaptive_replan_" +:+ act)) (text (vget "refusal_reason" ct))
        (truthy (vget "creates_replan_record" ct) || (act =? "replan")%string)
        (truthy (vget "creates_continuation" ct) || (act =? "continue")%string) "" ct).

Section machine.
Context {S : Type} `{Gate : AttestationGate S}.

Definition validate (s : S) (m : move AdaptiveReplanTransition) : verdict :=
  validate_move clean_adaptive_replan_state ALLOWED_TRANSITIONS "adaptive_replan" "complete" s
    (vget "from_state" (record_of m)) (vget "to_state" (record_of m)) (claim_of m).

Definition transition (s : S) (m : move AdaptiveReplanTransition) : res AdaptiveReplanStateResult :=
  let v := validate s m in
  let ct := mapping (vget "contract" (record_of m)) in
  let from_state := text (VStr (vd_from v)) in
  let to_state := text (VStr (vd_to v)) in
  if negb (vd_accepted v) then
    Ok (Result false from_state to_state "stop" true "invalid_adaptive_replan_transition"
          (text_or (VStr (vd_reason v)) "invalid_adaptive_replan_transition")
          "invalid_adaptive_replan_transition" false false (text (VStr (vd_blocked v))) ct)
  else _accepted_result from_state to_state ct.

Definition evaluate_contract (s : S) (ct : list (string * val)) (from_state : string) (goal : val)
    (att : option nat) : res AdaptiveReplanStateResult :=
  t ← from_contract ct from_state goal att;
  transition s (Object t).
End machine.
End Replan.

(** ** The engineering lifecycle *)
Module Lifecycle.

Definition EngineeringLifecycleState : list string :=
  ["created"; "running"; "waiting_evidence"; "continuing"; "replanning"; "blocked"; "completed"; "failed"].

Definition clean_engineering_lifecycle_state (value : val) : res string :=
  let raw := lower (text value) in
  if bool_decide (raw ∈ EngineeringLifecycleState) then Ok raw
  else Raise (ValueError "engineering_lifecycle_requires_valid_state").

Definition TERMINAL_ENGINEERING_LIFECYCLE_STATES : list string := ["blocked"; "completed"; "failed"].

Definition ALLOWED_ENGINEERING_LIFECYCLE_TRANSITIONS : list (string * string) :=
  [("created", "running"); ("created", "waiting_evidence"); ("created", "continuing");
   ("created", "replanning"); ("created", "blocked"); ("created", "completed"); ("created", "failed");
   ("running", "running"); ("running", "waiting_evidence"); ("running", "continuing");
   ("running", "replanning"); ("running", "blocked"); ("running", "completed"); ("running", "failed");
   ("continuing", "running"); ("continuing", "continuing"); ("continuing", "replanning");
   ("continuing", "blocked"); ("continuing", "completed"); ("continuing", "failed");
   ("replanning", "running"); ("replanning", "replanning"); ("replanning", "blocked");
   ("replanning", "failed"); ("waiting_evidence", "running"); ("waiting_evidence", "waiting_evidence");
   ("waiting_evidence", "blocked"); ("waiting_evidence", "failed")].

Record EngineeringLifecycleTransition : Type := Transition {
  from_state : string;
  to_state : string;
  action : string;
  reason : string;
  adaptive_loop_contract : list (string * val);
  adaptive_replan_state : list (string * val);
  goal_id : string;
  attestation : option nat }.

Definition make_transition (from to act why loop replan goal : val) (att : option nat) :
    res EngineeringLifecycleTransition :=
  f ← clean_engineering_lifecycle_state from;
  t ← clean_engineering_lifecycle_state to;
  let a := text_or act t in
  Ok (Transition f t a (text_or why ("engineering_lifecycle_" +:+ a)) (mapping loop) (mapping replan)
        (text goal) att).

Definition to_dict (t : EngineeringLifecycleTransition) : list (string * val) :=
  [("schema", VStr "zero.engineering_lifecycle_transition.v1"); ("from_state", VStr (from_state t));
   ("to_state", VStr (to_state t)); ("action", VStr (action t)); ("reason", VStr (reason t));
   ("adaptive_loop_contract", VDict (adaptive_loop_contract t));
   ("adaptive_replan_state", VDict (adaptive_replan_state t)); ("goal_id", VStr (goal_id t));
   ("execution_path", VDict
     [("contract_only", VBool true); ("executes_tasks", VBool false); ("persists_records", VBool false);
      ("mutates_goal_repository", VBool false); ("mutates_runtime", VBool false);
      ("mutates_memory", VBool false)])].

Definition record_of (m : move EngineeringLifecycleTransition) : list (string * val) :=
  match m with Object t => to_dict t | Mapping d => d end.

Definition claim_of (m : move EngineeringLifecycleTransition) : option (string * option nat) :=
  match m with Object t => Some (goal_id t, attestation t) | Mapping _ => None end.

Record EngineeringLifecycleStateResult : Type := Result {
  r_accepted : bool;
  r_from : string;
  r_to : string;
  r_state : string;
  r_terminal : bool;
  r_reason : string;
  r_blocked : string;
  r_loop : list (string * val);
  r_replan : list (string * val) }.

Definition result_to_dict (r : EngineeringLifecycleStateResult) : list (string * val) :=
  [("schema", VStr "zero.engineering_lifecycle_state_machine.v1"); ("accepted", VBool (r_accepted r));
   ("from_state", VStr (r_from r)); ("to_state", VStr (r_to r)); ("lifecycle_state", VStr (r_state r));
   ("terminal", VBool (r_terminal r)); ("reason", VStr (r_reason r));
   ("blocked_reason", VStr (r_blocked r)); ("adaptive_loop_contract", VDict (r_loop r));
   ("adaptive_replan_state", VDict (r_replan r));
   ("execution_path", VDict
     [("state_machine_only", VBool true); ("executes_tasks", VBool false);
      ("creates_continuation", VBool false); ("creates_replan", VBool false);
      ("persists_records", VBool false); ("mutates_goal_repository", VBool false);
      ("mutates_runtime", VBool false); ("mutates_memory", VBool false)])].

(** What the adaptive loop's records ask of the lifecycle. *)
Definition target_state_for_contract (loop replan_state : list (string * val)) : string :=
  let replan := dict_or replan_state (mapping (vget "adaptive_replan_state" loop)) in
  let act := lower (text (vget "loop_action" replan)) in
  let loop_state := lower (text (vget "loop_state" loop)) in
  if (act =? "complete")%string then "completed"
  else if (act =? "blocked")%string then "blocked"
  else if bool_decide (act ∈ ["refuse"; "stop"]) then "failed"
  else if (act =? "wait_for_user")%string then "waiting_evidence"
  else if truthy (vget "creates_replan_record" replan) || (act =? "replan")%string then "replanning"
  else if truthy (vget "creates_continuation" replan) || truthy (vget "next_cycle_allowed" loop)
          || (act =? "continue")%string then "continuing"
  else if (loop_state =? "regressed")%string then "replanning"
  else if (loop_state =? "stalled")%string then "waiting_evidence"
  else if (loop_state =? "terminal")%string then "failed"
  else "running".

Section machine.
Context {S : Type} `{Gate : AttestationGate S}.

Definition validate (s : S) (m : move EngineeringLifecycleTransition) : verdict :=
  validate_move clean_engineering_lifecycle_state ALLOWED_ENGINEERING_LIFECYCLE_TRANSITIONS
    "engineering_lifecycle" "completed" s
    (vget "from_state" (record_of m)) (vget "to_state" (record_of m)) (claim_of m).

Definition transition (s : S) (m : move EngineeringLifecycleTransition) : EngineeringLifecycleStateResult :=
  let record := record_of m in
  let v := validate s m in
  let from_state := text (VStr (vd_from v)) in
  let to_state := text (VStr (vd_to v)) in
  let loop := mapping (vget "adaptive_loop_contract" record) in
  let replan := mapping (vget "adaptive_replan_state" record) in
  if negb (vd_accepted v) then
    Result false from_state to_state (str_or from_state "failed") true
      (text_or (VStr (vd_reason v)) "engineering_lifecycle_transition_rejected")
      (text (VStr (vd_blocked v))) loop replan
  else
    Result true from_state to_state to_state
      (bool_decide (to_state ∈ TERMINAL_ENGINEERING_LIFECYCLE_STATES))
      (text_or (vget "reason" record)
         (text_or (VStr (vd_reason v)) ("engineering_lifecycle_" +:+ to_state))) "" loop replan.

Definition evaluate_adaptive_loop (s : S) (loop replan_arg : list (string * val)) (from_state : string)
    (att : option nat) (goal : string) : res EngineeringLifecycleStateResult :=
  let replan := dict_or replan_arg (mapping (vget "adaptive_replan_state" loop)) in
  let target := target_state_for_contract loop replan in
  t ← make_transition (VStr from_state) (VStr target) (VStr target)
        (VStr (text_or (py_or (vget "reason" loop) (vget "reason" replan))
                 ("engineering_lifecycle_" +:+ target)))
        (VDict loop) (VDict replan)
        (VStr (text (py_or (py_or (VStr goal) (vget "goal_id" loop)) (vget "goal_id" replan)))) att;
  Ok (transition s (Object t)).

(** [cycle] without the object under its key ["goal_completion_attestation"], which is [att]. *)
Definition evaluate_cycle (s : S) (cycle : list (string * val)) (att : option nat) (from_state : string) :
    res EngineeringLifecycleStateResult :=
  evaluate_adaptive_loop s (mapping (vget "adaptive_loop_contract" cycle))
    (mapping (vget "adaptive_replan_state" cycle)) from_state att (text (vget "goal_id" cycle)).
End machine.
End Lifecycle.

(** ** Engineering sessions *)
Module Session.

Definition EngineeringSessionState : list string :=
  ["created"; "active"; "paused"; "waiting_user"; "blocked"; "completed"; "failed"; "archived"].

Definition TERMINAL_ENGINEERING_SESSION_STATES : list string := ["completed"; "failed"; "archived"].

Definition clean_engineering_session_state (value : val) : res string :=
  let raw := lower (text value) in
  if bool_decide (raw ∈ EngineeringSessionState) then Ok raw
  else Raise (ValueError "engineering_session_requires_valid_state").

Definition SCHEMA : string := "zero.engineering_session_transition.v1".
Definition MACHINE : string := "engineering_session_state_machine".

Definition ALLOWED_SESSION_TRANSITIONS : list (string * string) :=
  [("created", "active"); ("created", "blocked"); ("created", "failed"); ("active", "active");
   ("active", "paused"); ("active", "waiting_user"); ("active", "blocked"); ("active", "completed");
   ("active", "failed"); ("paused", "active"); ("paused", "failed"); ("waiting_user", "active");
   ("waiting_user", "blocked"); ("waiting_user", "failed"); ("blocked", "active");
   ("blocked", "waiting_user"); ("blocked", "failed"); ("completed", "archived"); ("failed", "archived")].

Record EngineeringSessionTransition : Type := Transition {
  from_state : string;
  to_state : string;
  action : string;
  reason : string;
  lifecycle_state : list (string * val);
  cycle : list (string * val);
  trigger : string;
  evidence : list (string * val);
  source : string;
  session_id : string;
  task_id : string;
  created_at : string;
  attestation : option nat }.

(** [stamp] is the text [_timestamp()] reads from the clock; the evidence must
    be a mapping or [None]. *)
Definition make_transition (stamp : string) (from to act why lifecycle cyc trig ev src sid tid at_ : val)
    (att : option nat) : res EngineeringSessionTransition :=
  match ev with
  | VNone | VDict _ =>
      f ← clean_engineering_session_state from;
      t ← clean_engineering_session_state to;
      a ← clean_engineering_session_state act;
      Ok (Transition f t a (text why) (mapping lifecycle) (mapping cyc) (text_or trig a) (mapping ev)
            (text_or src MACHINE) (text sid) (text tid) (text_or at_ stamp) att)
  | _ => Raise (TypeError "engineering_session_transition_evidence_must_be_mapping")
  end.

Definition to_dict (t : EngineeringSessionTransition) : list (string * val) :=
  [("schema", VStr SCHEMA); ("from_state", VStr (from_state t)); ("to_state", VStr (to_state t));
   ("action", VStr (action t)); ("reason", VStr (reason t)); ("trigger", VStr (trigger t));
   ("evidence", VDict (evidence t)); ("source", VStr (source t)); ("session_id", VStr (session_id t));
   ("task_id", VStr (task_id t)); ("created_at", VStr (created_at t)); ("timestamp", VStr (created_at t));
   ("lifecycle_state", VDict (lifecycle_state t)); ("cycle", VDict (cycle t));
   ("execution_path", VDict
     [("transition_only", VBool true); ("executes_tasks", VBool false); ("persists_records", VBool false);
      ("mutates_goal_repository", VBool false); ("mutates_runtime", VBool false);
      ("mutates_memory", VBool false)])].

Definition record_of (m : move EngineeringSessionTransition) : list (string * val) :=
  match m with Object t => to_dict t | Mapping d => d end.

Definition claim_of (m : move EngineeringSessionTransition) : option (string * option nat) :=
  match m with Object t => Some (task_id t, attestation t) | Mapping _ => None end.

(** The fields a transition must carry, in the order they are looked at. *)
Definition missing_field (record : list (string * val)) : option string :=
  if negb (text (vget "schema" record) =? SCHEMA)%string then Some "transition_schema_required"
  else if negb (is_mapping (vget "evidence" record)) then Some "transition_evidence_must_be_dict"
  else if (text (vget "reason" record) =? "")%string then Some "transition_reason_required"
  else if (text (vget "trigger" record) =? "")%string then Some "transition_trigger_required"
  else if (text (vget "source" record) =? "")%string then Some "transition_source_required"
  else if (text (py_or (vget "created_at" record) (vget "timestamp" record)) =? "")%string
  then Some "transition_timestamp_required"
  else if (text (py_or (vget "session_id" record) (vget "task_id" record)) =? "")%string
  then Some "session_identity_required"
  else None.

Record EngineeringSessionStateResult : Type := Result {
  r_accepted : bool;
  r_from : string;
  r_to : string;
  r_state : string;
  r_terminal : bool;
  r_reason : string;
  r_blocked : string;
  r_lifecycle : list (string * val);
  r_record : list (string * val) }.

Definition result_to_dict (r : EngineeringSessionStateResult) : list (string * val) :=
  [("schema", VStr "zero.engineering_session_state_machine.v1"); ("accepted", VBool (r_accepted r));
   ("from_state", VStr (r_from r)); ("to_state", VStr (r_to r)); ("session_state", VStr (r_state r));
   ("terminal", VBool (r_terminal r)); ("reason", VStr (r_reason r));
   ("blocked_reason", VStr (r_blocked r)); ("lifecycle_state", VDict (r_lifecycle r));
   ("transition_record", VDict (r_record r));
   ("execution_path", VDict
     [("state_machine_only", VBool true); ("executes_tasks", VBool false);
      ("creates_continuation", VBool false); ("creates_replan", VBool false);
      ("persists_records", VBool false); ("mutates_goal_repository", VBool false);
      ("mutates_runtime", VBool false); ("mutates_memory", VBool false)])].

Definition current_state (session : val) : res string :=
  match session with
  | VStr _ => clean_engineering_session_state session
  | _ =>
      let record := mapping session in
      clean_engineering_session_state
        (py_or (py_or (vget "session_state" record) (vget "current_state" record)) (vget "to_state" record))
  end.

Definition can_transition (from_state to_state : val) : bool :=
  match clean_engineering_session_state from_state, clean_engineering_session_state to_state with
  | Ok f, Ok t => bool_decide ((f, t) ∈ ALLOWED_SESSION_TRANSITIONS)
  | _, _ => false
  end.

Definition is_terminal (state : val) : bool :=
  match current_state state with
  | Ok st => bool_decide (st ∈ TERMINAL_ENGINEERING_SESSION_STATES)
  | Raise _ => false
  end.

Definition build_transition_record (stamp : string)
    (from to why trig ev src sid tid at_ lifecycle cyc : val) (att : option nat) :
    res (list (string * val)) :=
  t ← make_transition stamp from to to why lifecycle cyc trig ev src sid tid at_ att;
  Ok (to_dict t).

Definition target_state_for_lifecycle (lifecycle : list (string * val)) : string :=
  let state := lower (text_or (py_or (vget "lifecycle_state" lifecycle) (vget "to_state" lifecycle)) "running") in
  if is_false (vget "accepted" lifecycle) then "failed"
  else if (state =? "completed")%string then "completed"
  else if (state =? "failed")%string then "failed"
  else if (state =? "blocked")%string then "blocked"
  else if (state =? "waiting_evidence")%string then "waiting_user"
  else "active".

(** The first of the two records with such an identity. *)
Definition first_id (f : list (string * val) -> val) (cycle lifecycle : list (string * val)) : string :=
  str_or (text (f cycle)) (text (f lifecycle)).

Section machine.
Context {S : Type} `{Gate : AttestationGate S}.

Definition validate (s : S) (m : move EngineeringSessionTransition) : verdict :=
  let record := record_of m in
  match read_states clean_engineering_session_state "engineering_session"
          (vget "from_state" record) (vget "to_state" record) with
  | inl v => v
  | inr (f, t) =>
      if bool_decide (f ∈ TERMINAL_ENGINEERING_SESSION_STATES)
         && negb (bool_decide (t ∈ TERMINAL_ENGINEERING_SESSION_STATES))
      then Verdict false f t "engineering_session_terminal_transition_rejected"
             ("terminal_transition:" +:+ f +:+ "->" +:+ t)
      else if negb (bool_decide ((f, t) ∈ ALLOWED_SESSION_TRANSITIONS))
      then reject "engineering_session" f t ("illegal_transition:" +:+ f +:+ "->" +:+ t)
      else match missing_field record with
      | Some why => reject "engineering_session" f t why
      | None =>
          if (t =? "completed")%string && negb (claim_accepted s (claim_of m))
          then reject "engineering_session" f t "canonical_completion_attestation_required"
          else accept "engineering_session" f t
      end
  end.

Definition transition (s : S) (m : move EngineeringSessionTransition) : EngineeringSessionStateResult :=
  let record := record_of m in
  let v := validate s m in
  let from_state := text (VStr (vd_from v)) in
  let to_state := text (VStr (vd_to v)) in
  let lifecycle := mapping (vget "lifecycle_state" record) in
  if negb (vd_accepted v) then
    Result false from_state to_state (str_or from_state "failed")
      (bool_decide (from_state ∈ TERMINAL_ENGINEERING_SESSION_STATES))
      (text_or (VStr (vd_reason v)) "engineering_session_transition_rejected")
      (text (VStr (vd_blocked v))) lifecycle record
  else
    Result true from_state to_state to_state
      (bool_decide (to_state ∈ TERMINAL_ENGINEERING_SESSION_STATES))
      (text_or (vget "reason" record)
         (text_or (VStr (vd_reason v)) ("engineering_session_" +:+ to_state))) "" lifecycle record.

Definition evaluate_lifecycle (stamp : string) (s : S) (lifecycle : list (string * val))
    (from_state : string) (cycle : list (string * val)) (att : option nat) :
    res EngineeringSessionStateResult :=
  let session_id := first_id (vget "session_id") cycle lifecycle in
  let task_id := first_id (fun d => py_or (vget "task_id" d) (vget "goal_id" d)) cycle lifecycle in
  match lifecycle with
  | [] =>
      Ok (transition s (Mapping
        [("from_state", VStr from_state); ("to_state", VStr from_state);
         ("reason", VStr "missing_engineering_lifecycle_record"); ("trigger", VStr "evaluate_lifecycle");
         ("evidence", VDict []); ("source", VStr MACHINE); ("session_id", VStr session_id);
         ("task_id", VStr task_id); ("lifecycle_state", VDict []); ("cycle", VDict cycle)]))
  | _ =>
      let target := target_state_for_lifecycle lifecycle in
      t ← make_transition stamp (VStr from_state) (VStr target) (VStr target)
            (VStr (text_or (vget "reason" lifecycle) ("engineering_session_" +:+ target)))
            (VDict lifecycle) (VDict cycle)
            (VStr (text_or (vget "trigger" lifecycle) "engineering_lifecycle_evaluation"))
            (VDict (dict_or (mapping (vget "evidence" lifecycle)) [("lifecycle_state", VDict lifecycle)]))
            (VStr (text_or (vget "source" lifecycle) MACHINE)) (VStr session_id) (VStr task_id)
            (VStr stamp) att;
      Ok (transition s (Object t))
  end.

Definition evaluate_cycle (stamp : string) (s : S) (cycle : list (string * val)) (att : option nat)
    (from_state : string) : res EngineeringSessionStateResult :=
  evaluate_lifecycle stamp s (mapping (vget "engineering_lifecycle_state" cycle)) from_state cycle att.
End machine.
End Session.

(** ** Engineering programs *)
Module Program.

Definition EngineeringProgramState : list string :=
  ["created"; "active"; "paused"; "blocked"; "completed"; "failed"; "archived"].

Definition TERMINAL_ENGINEERING_PROGRAM_STATES : list string := ["completed"; "failed"; "archived"].

Definition clean_engineering_program_state (value : val) : res string :=
  let raw := lower (text value) in
  if bool_decide (raw ∈ EngineeringProgramState) then Ok raw
  else Raise (ValueError "engineering_program_requires_valid_state").

Definition ALLOWED_PROGRAM_TRANSITIONS : list (string * string) :=
  [("created", "active"); ("created", "blocked"); ("created", "completed"); ("created", "failed");
   ("active", "active"); ("active", "paused"); ("active", "blocked"); ("active", "completed");
   ("active", "failed"); ("paused", "active"); ("paused", "failed"); ("blocked", "active");
   ("blocked", "failed"); ("completed", "archived"); ("failed", "archived")].

Record EngineeringProgramTransition : Type := Transition {
  from_state : string;
  to_state : string;
  action : string;
  reason : string;
  session_state : list (string * val);
  cycle : list (string * val);
  goal_id : string;
  attestation : option nat }.

Definition make_transition (from to act why session cyc goal : val) (att : option nat) :
    res EngineeringProgramTransition :=
  f ← clean_engineering_program_state from;
  t ← clean_engineering_program_state to;
  a ← clean_engineering_program_state act;
  Ok (Transition f t a (text_or why ("engineering_program_" +:+ a)) (mapping session) (mapping cyc)
        (text goal) att).

Definition to_dict (t : EngineeringProgramTransition) : list (string * val) :=
  [("schema", VStr "zero.engineering_program_transition.v1"); ("from_state", VStr (from_state t));
   ("to_state", VStr (to_state t)); ("action", VStr (action t)); ("reason", VStr (reason t));
   ("session_state", VDict (session_state t)); ("cycle", VDict (cycle t)); ("goal_id", VStr (goal_id t));
   ("execution_path", VDict
     [("transition_only", VBool true); ("executes_tasks", VBool false); ("persists_records", VBool false);
      ("mutates_goal_repository", VBool false); ("mutates_runtime", VBool false);
      ("mutates_memory", VBool false)])].

Definition record_of (m : move EngineeringProgramTransition) : list (string * val) :=
  match m with Object t => to_dict t | Mapping d => d end.

Definition claim_of (m : move EngineeringProgramTransition) : option (string * option nat) :=
  match m with Object t => Some (goal_id t, attestation t) | Mapping _ => None end.

Record EngineeringProgramStateResult : Type := Result {
  r_accepted : bool;
  r_from : string;
  r_to : string;
  r_state : string;
  r_terminal : bool;
  r_reason : string;
  r_blocked : string;
  r_session : list (string * val) }.

Definition result_to_dict (r : EngineeringProgramStateResult) : list (string * val) :=
  [("schema", VStr "zero.engineering_program_state_machine.v1"); ("accepted", VBool (r_accepted r));
   ("from_state", VStr (r_from r)); ("to_state", VStr (r_to r)); ("program_state", VStr (r_state r));
   ("terminal", VBool (r_terminal r)); ("reason", VStr (r_reason r));
   ("blocked_reason", VStr (r_blocked r)); ("session_state", VDict (r_session r));
   ("execution_path", VDict
     [("state_machine_only", VBool true); ("executes_tasks", VBool false);
      ("creates_continuation", VBool false); ("creates_replan", VBool false);
      ("persists_records", VBool false); ("mutates_goal_repository", VBool false);
      ("mutates_runtime", VBool false); ("mutates_memory", VBool false)])].

Definition target_state_for_session (session : list (string * val)) : string :=
  let state := lower (text_or (py_or (vget "session_state" session) (vget "to_state" session)) "active") in
  if is_false (vget "accepted" session) then "failed"
  else if (state =? "completed")%string then "completed"
  else if (state =? "failed")%string then "failed"
  else if (state =? "blocked")%string then "blocked"
  else if (state =? "paused")%string then "paused"
  else if bool_decide (state ∈ ["created"; "active"; "waiting_user"]) then "active"
  else if (state =? "archived")%string then "archived"
  else "active".

Section machine.
Context {S : Type} `{Gate : AttestationGate S}.

Definition validate (s : S) (m : move EngineeringProgramTransition) : verdict :=
  validate_move clean_engineering_program_state ALLOWED_PROGRAM_TRANSITIONS "engineering_program"
    "completed" s (vget "from_state" (record_of m)) (vget "to_state" (record_of m)) (claim_of m).

Definition transition (s : S) (m : move EngineeringProgramTransition) : EngineeringProgramStateResult :=
  let record := record_of m in
  let v := validate s m in
  let from_state := text (VStr (vd_from v)) in
  let to_state := text (VStr (vd_to v)) in
  let session := mapping (vget "session_state" record) in
  if negb (vd_accepted v) then
    Result false from_state to_state (str_or from_state "failed") true
      (text_or (VStr (vd_reason v)) "engineering_program_transition_rejected")
      (text (VStr (vd_blocked v))) session
  else
    Result true from_state to_state to_state
      (bool_decide (to_state ∈ TERMINAL_ENGINEERING_PROGRAM_STATES))
      (text_or (vget "reason" record)
         (text_or (VStr (vd_reason v)) ("engineering_program_" +:+ to_state))) "" session.

Definition evaluate_session (s : S) (session : list (string * val)) (from_state : string)
    (cycle : list (string * val)) (goal : string) (att : option nat) : res EngineeringProgramStateResult :=
  let target := target_state_for_session session in
  t ← make_transition (VStr from_state) (VStr target) (VStr target)
        (VStr (text_or (vget "reason" session) ("engineering_program_" +:+ target)))
        (VDict session) (VDict cycle) (VStr (text (VStr goal))) att;
  Ok (transition s (Object t)).

Definition evaluate_cycle (s : S) (cycle : list (string * val)) (att : option nat) (from_state : string) :
    res EngineeringProgramStateResult :=
  evaluate_session s (mapping (vget "engineering_session_state" cycle)) from_state cycle
    (text (vget "goal_id" cycle)) att.
End machine.
End Program.

(** ** Lemmas *)

Lemma text_or_ok v d : text (VStr d) = d -> d <> "" ->
  text (VStr (text_or v d)) = text_or v d /\ text_or v d <> "".
Proof.
  intros Hd Hn. unfold text_or, str_or. destruct (String.eqb_spec (text v) "") as [_|H]; [done|].
  by rewrite text_idemp.
Qed.

Lemma text_or_self s d : text (VStr s) = s -> s <> "" -> text_or (VStr s) d = s.
Proof. intros Hs Hn. unfold text_or, str_or. rewrite Hs. by apply String.eqb_neq in Hn as ->. Qed.

Section facts.
Context {S : Type} `{Gate : AttestationGate S}.

Lemma read_states_spec clean name from to :
  match read_states clean name from to with
  | inl v => vd_accepted v = false
  | inr (f, t) => clean from = Ok f /\ clean to = Ok t
  end.
Proof.
  unfold read_states. unfold_m. destruct (clean from) as [f|e]; [|done]. by destruct (clean to).
Qed.

Lemma read_states_ok clean name from to f t :
  clean from = Ok f -> clean to = Ok t -> read_states clean name from to = inr (f, t).
Proof. unfold read_states. unfold_m. by intros -> ->. Qed.

(** What the shared validator decides. *)
Lemma validate_move_spec clean allowed name done s from to claim f t :
  clean from = Ok f -> clean to = Ok t ->
  let v := validate_move clean allowed name done s from to claim in
  vd_from v = f /\ vd_to v = t
  /\ (vd_accepted v = true <-> (f, t) ∈ allowed /\ (t = done -> claim_accepted s claim = true)).
Proof.
  intros Hf Ht. unfold validate_move. rewrite (read_states_ok _ _ _ _ _ _ Hf Ht).
  case_bool_decide as Hin; cbn [negb]; [|by split_and!; try split; intros; destruct_and?].
  destruct (String.eqb_spec t done) as [->|Hn]; cbn [andb].
  - destruct (claim_accepted s claim); cbn [negb]; split_and!; try done.
    split; [done|]. intros [_ H]. by specialize (H eq_refl).
  - by split_and!.
Qed.

Lemma validate_move_accepted clean allowed name done s from to claim :
  vd_accepted (validate_move clean allowed name done s from to claim) = true ->
  exists f t, clean from = Ok f /\ clean to = Ok t /\ (f, t) ∈ allowed
    /\ vd_from (validate_move clean allowed name done s from to claim) = f
    /\ vd_to (validate_move clean allowed name done s from to claim) = t
    /\ (t = done -> claim_accepted s claim = true).
Proof.
  intros Ha. pose proof (read_states_spec clean name from to) as H.
  destruct (read_states clean name from to) as [v|[f t]] eqn:E.
  { unfold validate_move in Ha. rewrite E in Ha. congruence. }
  pose proof H as (Hf & Ht). exists f, t.
  pose proof (validate_move_spec clean allowed name done s from to claim f t Hf Ht) as (E1 & E2 & E3).
  destruct (proj1 E3 Ha) as [Hin Hc]. by split_and!.
Qed.

Lemma claim_done s g att :
  gate_reached s -> claim_accepted s (Some (g, att)) = true -> g <> "" /\ goal_done s g.
Proof.
  intros Hs H. apply andb_true_iff in H as [Hg Ha]. split; [|by eapply gate_sound].
  intros ->. done.
Qed.

(** The names in the tables have no surrounding space. *)
Definition table_clean (allowed : list (string * string)) : bool :=
  forallb (fun p => (strip p.1 =? p.1)%string && (strip p.2 =? p.2)%string) allowed.

Lemma table_strip allowed f t :
  table_clean allowed = true -> (f, t) ∈ allowed -> text (VStr f) = f /\ text (VStr t) = t.
Proof.
  unfold table_clean. rewrite forallb_forall, !text_strip. intros H Hin%list_elem_of_In.
  specialize (H _ Hin). simpl in H. by rewrite andb_true_iff, !String.eqb_eq in H.
Qed.

(** What an accepted transition of each machine is: a move of its table, to
    which the result names the states, with a claim when it completes. *)
Record moved (s : S) (allowed : list (string * string)) (done : string)
    (claim : option (string * option nat)) (from to : string) : Prop := {
  mv_table : (from, to) ∈ allowed;
  mv_claim : to = done -> claim_accepted s claim = true }.

Lemma lifecycle_accepted s m :
  let r := Lifecycle.transition s m in
  Lifecycle.r_accepted r = true ->
  Lifecycle.r_state r = Lifecycle.r_to r
  /\ moved s Lifecycle.ALLOWED_ENGINEERING_LIFECYCLE_TRANSITIONS "completed" (Lifecycle.claim_of m)
       (Lifecycle.r_from r) (Lifecycle.r_to r).
Proof.
  unfold Lifecycle.transition. destruct (vd_accepted (Lifecycle.validate s m)) eqn:E; [|done]. simpl. intros _.
  apply validate_move_accepted in E as (f & t & _ & _ & Hin & Ef & Et & Hc). split; [done|].
  unfold Lifecycle.validate. rewrite Ef, Et. pose proof Hin as Hin'.
  apply table_strip in Hin' as [-> ->]; [by constructor|vm_compute; reflexivity].
Qed.

Lemma program_accepted s m :
  let r := Program.transition s m in
  Program.r_accepted r = true ->
  Program.r_state r = Program.r_to r
  /\ moved s Program.ALLOWED_PROGRAM_TRANSITIONS "completed" (Program.claim_of m)
       (Program.r_from r) (Program.r_to r).
Proof.
  unfold Program.transition. destruct (vd_accepted (Program.validate s m)) eqn:E; [|done]. simpl. intros _.
  apply validate_move_accepted in E as (f & t & _ & _ & Hin & Ef & Et & Hc). split; [done|].
  unfold Program.validate. rewrite Ef, Et. pose proof Hin as Hin'.
  apply table_strip in Hin' as [-> ->]; [by constructor|vm_compute; reflexivity].
Qed.

(** What a session transition must say of itself. *)
Record complete_record (record : list (string * val)) : Prop := {
  cm_schema : text (vget "schema" record) = Session.SCHEMA;
  cm_evidence : exists d, vget "evidence" record = VDict d;
  cm_reason : text (vget "reason" record) <> "";
  cm_trigger : text (vget "trigger" record) <> "";
  cm_source : text (vget "source" record) <> "";
  cm_time : text (py_or (vget "created_at" record) (vget "timestamp" record)) <> "";
  cm_identity : text (py_or (vget "session_id" record) (vget "task_id" record)) <> "" }.

Lemma missing_field_None record : Session.missing_field record = None <-> complete_record record.
Proof.
  unfold Session.missing_field.
  destruct (String.eqb_spec (text (vget "schema" record)) Session.SCHEMA) as [E1|E1]; cbn [negb];
    [|by split; [|intros []]].
  destruct (is_mapping (vget "evidence" record)) eqn:E2; cbn [negb];
    [|split; [done|]; intros [_ [d Ed] _ _ _ _ _]; by rewrite Ed in E2].
  repeat match goal with |- context [(?x =? "")%string] =>
    destruct (String.eqb_spec x ""); [by split; [|intros []]|] end.
  split; [intros _|done]. constructor; try done. destruct (vget "evidence" record); try done. by eexists.
Qed.

(** The session validator, which looks at more than the states. *)
Lemma session_validate_spec s m f t :
  let record := Session.record_of m in
  Session.clean_engineering_session_state (vget "from_state" record) = Ok f ->
  Session.clean_engineering_session_state (vget "to_state" record) = Ok t ->
  let v := Session.validate s m in
  vd_from v = f /\ vd_to v = t
  /\ (vd_accepted v = true <-> (f, t) ∈ Session.ALLOWED_SESSION_TRANSITIONS
      /\ complete_record record
      /\ (t = "completed" -> claim_accepted s (Session.claim_of m) = true)).
Proof.
  intros record Hf Ht. unfold Session.validate. fold record.
  rewrite (read_states_ok _ _ _ _ _ _ Hf Ht). cbv zeta.
  assert (T : bool_decide (f ∈ Session.TERMINAL_ENGINEERING_SESSION_STATES)
    && negb (bool_decide (t ∈ Session.TERMINAL_ENGINEERING_SESSION_STATES)) = true ->
    (f, t) ∉ Session.ALLOWED_SESSION_TRANSITIONS).
  { intros H Hin. rewrite list_elem_of_In in Hin.
    assert (G : forallb (fun p => negb (bool_decide (p.1 ∈ Session.TERMINAL_ENGINEERING_SESSION_STATES)
      && negb (bool_decide (p.2 ∈ Session.TERMINAL_ENGINEERING_SESSION_STATES))))
      Session.ALLOWED_SESSION_TRANSITIONS = true) by (vm_compute; reflexivity).
    rewrite forallb_forall in G. specialize (G _ Hin). cbn [fst snd] in G.
    by rewrite H in G. }
  destruct (bool_decide _ && _) eqn:Eterm.
  { specialize (T eq_refl). split_and!; [done..|]. split; [done|]. by intros [? _]. }
  clear T Eterm. case_bool_decide as Hin; cbn [negb]; [|split_and!; [done..|]; split; [done|]; by intros [? _]].
  rewrite <- missing_field_None.
  destruct (Session.missing_field record) as [why|]; [split_and!; [done..|]; split; [done|]; by intros (_ & ? & _)|].
  destruct (String.eqb_spec t "completed") as [->|Hn]; cbn [andb].
  - destruct (claim_accepted s (Session.claim_of m)); cbn [negb]; split_and!; try done.
    split; [done|]. intros (_ & _ & H). by specialize (H eq_refl).
  - by split_and!.
Qed.

Lemma session_accepted s m :
  let r := Session.transition s m in
  Session.r_accepted r = true ->
  Session.r_state r = Session.r_to r
  /\ moved s Session.ALLOWED_SESSION_TRANSITIONS "completed" (Session.claim_of m)
       (Session.r_from r) (Session.r_to r).
Proof.
  unfold Session.transition. destruct (vd_accepted (Session.validate s m)) eqn:E; [|done]. simpl. intros _.
  pose proof (read_states_spec Session.clean_engineering_session_state "engineering_session"
    (vget "from_state" (Session.record_of m)) (vget "to_state" (Session.record_of m))) as H.
  destruct (read_states _ _ _ _) as [v|[f t]] eqn:Er.
  { unfold Session.validate in E. rewrite Er in E. congruence. }
  destruct (session_validate_spec s m f t) as (Ef & Et & Ha); [apply H..|].
  destruct (proj1 Ha E) as (Hin & _ & Hc). split; [done|]. rewrite Ef, Et. pose proof Hin as Hin'.
  apply table_strip in Hin' as [-> ->]; [by constructor|vm_compute; reflexivity].
Qed.

Lemma replan_state_clean f t :
  (f, t) ∈ Replan.ALLOWED_TRANSITIONS -> Replan.clean_adaptive_replan_state (VStr t) = Ok t.
Proof.
  intros Hin%list_elem_of_In.
  assert (G : forallb (fun p => bool_decide (Replan.clean_adaptive_replan_state (VStr p.2) = Ok p.2))
    Replan.ALLOWED_TRANSITIONS = true) by (vm_compute; reflexivity).
  rewrite forallb_forall in G. specialize (G _ Hin). by apply bool_decide_eq_true in G.
Qed.

Lemma replan_accepted s m r :
  Replan.transition s m = Ok r -> Replan.r_accepted r = true ->
  let ct := mapping (vget "contract" (Replan.record_of m)) in
  let a := Replan.r_to r in
  moved s Replan.ALLOWED_TRANSITIONS "complete" (Replan.claim_of m) (Replan.r_from r) a
  /\ Replan.r_action r = a /\ Replan.r_terminal r = bool_decide (a ∈ Replan.TERMINAL_STATES)
  /\ Replan.r_replan r = truthy (vget "creates_replan_record" ct) || (a =? "replan")%string
  /\ Replan.r_continuation r = truthy (vget "creates_continuation" ct) || (a =? "continue")%string.
Proof.
  unfold Replan.transition. destruct (vd_accepted (Replan.validate s m)) eqn:E; cbn [negb].
  2: { intros [= <-]. done. }
  apply validate_move_accepted in E as (f & t & _ & _ & Hin & Ef & Et & Hc).
  unfold Replan.validate. rewrite Ef, Et. pose proof Hin as Hin'.
  apply table_strip in Hin' as [-> ->]; [|vm_compute; reflexivity].
  unfold Replan._accepted_result. unfold_m. rewrite (replan_state_clean _ _ Hin).
  intros [= <-] _. simpl. by split_and!.
Qed.

(** The machine never raises. *)
Lemma replan_total s m : exists r, Replan.transition s m = Ok r.
Proof.
  unfold Replan.transition. destruct (vd_accepted (Replan.validate s m)) eqn:E; cbn [negb]; [|by eexists].
  apply validate_move_accepted in E as (f & t & _ & _ & Hin & Ef & Et & Hc).
  unfold Replan.validate. rewrite Et. pose proof Hin as Hin'.
  apply table_strip in Hin' as [_ ->]; [|vm_compute; reflexivity].
  unfold Replan._accepted_result. unfold_m. rewrite (replan_state_clean _ _ Hin). by eexists.
Qed.

Lemma claim_object {T} (claim : move T -> option (string * option nat)) goal att s (m : move T) :
  (forall d, claim (Mapping d) = None) -> (forall t, claim (Object t) = Some (goal t, att t)) ->
  gate_reached s -> claim_accepted s (claim m) = true -> exists t, m = Object t /\ goal_done s (goal t).
Proof.
  intros H1 H2 Hs H. destruct m as [t|d]; [|by rewrite H1 in H]. rewrite H2 in H.
  exists t. split; [done|]. by apply claim_done in H as [_ ?].
Qed.

Lemma lifecycle_done s m :
  gate_reached s -> let r := Lifecycle.transition s m in
  Lifecycle.r_accepted r = true -> Lifecycle.r_state r = "completed" ->
  exists t, m = Object t /\ goal_done s (Lifecycle.goal_id t).
Proof.
  intros Hs r Ha Hd. destruct (lifecycle_accepted _ _ Ha) as (E & [_ Hc]). fold r in E, Hc. rewrite E in Hd.
  by apply (claim_object Lifecycle.claim_of _ Lifecycle.attestation _ m (fun _ => eq_refl) (fun _ => eq_refl) Hs), Hc.
Qed.

Lemma session_done s m :
  gate_reached s -> let r := Session.transition s m in
  Session.r_accepted r = true -> Session.r_state r = "completed" ->
  exists t, m = Object t /\ goal_done s (Session.task_id t).
Proof.
  intros Hs r Ha Hd. destruct (session_accepted _ _ Ha) as (E & [_ Hc]). fold r in E, Hc. rewrite E in Hd.
  by apply (claim_object Session.claim_of _ Session.attestation _ m (fun _ => eq_refl) (fun _ => eq_refl) Hs), Hc.
Qed.

Lemma program_done s m :
  gate_reached s -> let r := Program.transition s m in
  Program.r_accepted r = true -> Program.r_state r = "completed" ->
  exists t, m = Object t /\ goal_done s (Program.goal_id t).
Proof.
  intros Hs r Ha Hd. destruct (program_accepted _ _ Ha) as (E & [_ Hc]). fold r in E, Hc. rewrite E in Hd.
  by apply (claim_object Program.claim_of _ Program.attestation _ m (fun _ => eq_refl) (fun _ => eq_refl) Hs), Hc.
Qed.

(** C7. None of the four machines says by itself that a goal is done.  Whatever
    transition a caller makes up, object or mapping: if a machine accepts it
    and its result says [complete] or [completed], the transition is an object
    of the machine's class and the completion authority has completed the goal
    it names. *)
Theorem no_machine_completes_alone s :
  gate_reached s ->
  (forall m r, Replan.transition s m = Ok r -> Replan.r_accepted r = true -> Replan.r_action r = "complete" ->
     exists t, m = Object t /\ goal_done s (Replan.goal_id t))
  /\ (forall m, let r := Lifecycle.transition s m in
     Lifecycle.r_accepted r = true -> Lifecycle.r_state r = "completed" ->
     exists t, m = Object t /\ goal_done s (Lifecycle.goal_id t))
  /\ (forall m, let r := Session.transition s m in
     Session.r_accepted r = true -> Session.r_state r = "completed" ->
     exists t, m = Object t /\ goal_done s (Session.task_id t))
  /\ (forall m, let r := Program.transition s m in
     Program.r_accepted r = true -> Program.r_state r = "completed" ->
     exists t, m = Object t /\ goal_done s (Program.goal_id t)).
Proof.
  intros Hs. split_and!.
  - intros m r Hr Ha Hd. destruct (replan_accepted _ _ _ Hr Ha) as ([_ Hc] & E & _). rewrite E in Hd.
    by apply (claim_object Replan.claim_of _ Replan.attestation _ m (fun _ => eq_refl) (fun _ => eq_refl) Hs), Hc.
  - intros m r. by apply lifecycle_done.
  - intros m r. by apply session_done.
  - intros m r. by apply program_done.
Qed.

(** ** Terminal states *)

(** One accepted transition, whatever the state of the authority. *)
Definition lifecycle_moves (x y : string) : Prop :=
  exists s m, let r := Lifecycle.transition s m in
    Lifecycle.r_accepted r = true /\ Lifecycle.r_from r = x /\ Lifecycle.r_state r = y.
Definition session_moves (x y : string) : Prop :=
  exists s m, let r := Session.transition s m in
    Session.r_accepted r = true /\ Session.r_from r = x /\ Session.r_state r = y.
Definition program_moves (x y : string) : Prop :=
  exists s m, let r := Program.transition s m in
    Program.r_accepted r = true /\ Program.r_from r = x /\ Program.r_state r = y.

(** The table does not lead out of the set. *)
Definition stays_in (allowed : list (string * string)) (l : list string) : bool :=
  forallb (fun p => negb (bool_decide (p.1 ∈ l)) || bool_decide (p.2 ∈ l)) allowed.

Lemma steps_stay (step : string -> string -> Prop) allowed l x y :
  (forall a b, step a b -> (a, b) ∈ allowed) -> stays_in allowed l = true ->
  x ∈ l -> rtc step x y -> y ∈ l.
Proof.
  intros Ht Hl Hx Hr. revert Hx. induction Hr as [x|x z y Hs _ IH]; [done|]. intros Hx. apply IH.
  apply Ht, list_elem_of_In in Hs. unfold stays_in in Hl. rewrite forallb_forall in Hl.
  specialize (Hl _ Hs). simpl in Hl. rewrite bool_decide_true in Hl by done. simpl in Hl.
  by apply bool_decide_eq_true in Hl.
Qed.

Lemma lifecycle_moves_table a b :
  lifecycle_moves a b -> (a, b) ∈ Lifecycle.ALLOWED_ENGINEERING_LIFECYCLE_TRANSITIONS.
Proof. intros (s & m & Ha & <- & <-). by destruct (lifecycle_accepted _ _ Ha) as (-> & [? _]). Qed.

Lemma session_moves_table a b : session_moves a b -> (a, b) ∈ Session.ALLOWED_SESSION_TRANSITIONS.
Proof. intros (s & m & Ha & <- & <-). by destruct (session_accepted _ _ Ha) as (-> & [? _]). Qed.

Lemma program_moves_table a b : program_moves a b -> (a, b) ∈ Program.ALLOWED_PROGRAM_TRANSITIONS.
Proof. intros (s & m & Ha & <- & <-). by destruct (program_accepted _ _ Ha) as (-> & [? _]). Qed.

(** A blocked, completed or failed lifecycle stays what it is; a completed or a
    failed session or program can only be archived, and an archived one stays archived. *)
Theorem engineering_terminal_final x y :
  (rtc lifecycle_moves x y -> x ∈ Lifecycle.TERMINAL_ENGINEERING_LIFECYCLE_STATES -> y = x)
  /\ (rtc session_moves x y -> x ∈ Session.TERMINAL_ENGINEERING_SESSION_STATES -> y ∈ [x; "archived"])
  /\ (rtc program_moves x y -> x ∈ Program.TERMINAL_ENGINEERING_PROGRAM_STATES -> y ∈ [x; "archived"]).
Proof.
  assert (C : forall (l : list string) (P : string -> bool), forallb P l = true -> x ∈ l -> P x = true).
  { intros l P Hl Hx. rewrite forallb_forall in Hl. by apply Hl, list_elem_of_In. }
  split_and!; intros Hr Hx.
  - apply list_elem_of_singleton. eapply (steps_stay lifecycle_moves); [exact lifecycle_moves_table| |by left|exact Hr].
    revert Hx. apply (C _ (fun x => stays_in _ [x])). vm_compute. reflexivity.
  - eapply (steps_stay session_moves); [exact session_moves_table| |by left|exact Hr].
    revert Hx. apply (C _ (fun x => stays_in _ [x; "archived"])). vm_compute. reflexivity.
  - eapply (steps_stay program_moves); [exact program_moves_table| |by left|exact Hr].
    revert Hx. apply (C _ (fun x => stays_in _ [x; "archived"])). vm_compute. reflexivity.
Qed.

(** A machine's states are words: stripped, and none is empty. *)
Definition words (l : list string) : bool :=
  forallb (fun x => (text (VStr x) =? x)%string && negb (x =? "")%string) l.

Lemma words_in l x : words l = true -> x ∈ l -> text (VStr x) = x /\ x <> "".
Proof.
  unfold words. rewrite forallb_forall. intros H Hin%list_elem_of_In. specialize (H _ Hin).
  by rewrite andb_true_iff, String.eqb_eq, negb_true_iff, String.eqb_neq in H.
Qed.

(** Where a session and a program end up. *)
Lemma session_result s m f t :
  let record := Session.record_of m in
  Session.clean_engineering_session_state (vget "from_state" record) = Ok f ->
  Session.clean_engineering_session_state (vget "to_state" record) = Ok t ->
  let r := Session.transition s m in
  Session.r_accepted r = vd_accepted (Session.validate s m)
  /\ Session.r_state r = (if Session.r_accepted r then t else f)
  /\ Session.r_terminal r = bool_decide (Session.r_state r ∈ Session.TERMINAL_ENGINEERING_SESSION_STATES).
Proof.
  intros record Hf Ht r. destruct (session_validate_spec s m f t Hf Ht) as (Ef & Et & _).
  assert (St : forall v x, Session.clean_engineering_session_state v = Ok x -> text (VStr x) = x /\ x <> "").
  { intros v x. unfold Session.clean_engineering_session_state. case_bool_decide as Hin; [|done].
    intros [= <-]. apply (words_in Session.EngineeringSessionState); [vm_compute; reflexivity|done]. }
  destruct (St _ _ Hf) as [Sf Nf], (St _ _ Ht) as [Stt _].
  unfold r, Session.transition. rewrite Ef, Et, Sf, Stt.
  destruct (vd_accepted (Session.validate s m)) eqn:E; simpl; [done|].
  unfold str_or. by apply String.eqb_neq in Nf as ->.
Qed.

Lemma program_result s m f t :
  let record := Program.record_of m in
  Program.clean_engineering_program_state (vget "from_state" record) = Ok f ->
  Program.clean_engineering_program_state (vget "to_state" record) = Ok t ->
  let r := Program.transition s m in
  (Program.r_accepted r = true <-> (f, t) ∈ Program.ALLOWED_PROGRAM_TRANSITIONS
     /\ (t = "completed" -> claim_accepted s (Program.claim_of m) = true))
  /\ Program.r_state r = (if Program.r_accepted r then t else f).
Proof.
  intros record Hf Ht r.
  destruct (validate_move_spec Program.clean_engineering_program_state Program.ALLOWED_PROGRAM_TRANSITIONS
    "engineering_program" "completed" s _ _ (Program.claim_of m) f t Hf Ht) as (Ef & Et & Ha).
  change (validate_move _ _ _ _ _ _ _ _) with (Program.validate s m) in Ef, Et, Ha.
  assert (St : forall v x, Program.clean_engineering_program_state v = Ok x -> text (VStr x) = x /\ x <> "").
  { intros v x. unfold Program.clean_engineering_program_state. case_bool_decide as Hin; [|done].
    intros [= <-]. apply (words_in Program.EngineeringProgramState); [vm_compute; reflexivity|done]. }
  destruct (St _ _ Hf) as [Sf Nf], (St _ _ Ht) as [Stt _].
  unfold r, Program.transition. rewrite Ef, Et, Sf, Stt.
  destruct (vd_accepted (Program.validate s m)) eqn:E; simpl; [done|].
  unfold str_or. apply String.eqb_neq in Nf as ->. split; [|done]. rewrite <- Ha. done.
Qed.

(** The session machine, on every transition whose states are states: it is
    accepted exactly when the table has the move, the record carries every
    field it must, and a completion is attested for the task; then the session
    is in the new state, and otherwise it stays in the old one. *)
Theorem session_transition_decided s m f t :
  let record := Session.record_of m in
  Session.clean_engineering_session_state (vget "from_state" record) = Ok f ->
  Session.clean_engineering_session_state (vget "to_state" record) = Ok t ->
  let r := Session.transition s m in
  (Session.r_accepted r = true <->
     (f, t) ∈ Session.ALLOWED_SESSION_TRANSITIONS /\ complete_record record
     /\ (t = "completed" -> claim_accepted s (Session.claim_of m) = true))
  /\ Session.r_state r = (if Session.r_accepted r then t else f)
  /\ Session.r_terminal r = bool_decide (Session.r_state r ∈ Session.TERMINAL_ENGINEERING_SESSION_STATES).
Proof.
  intros record Hf Ht r. destruct (session_validate_spec s m f t Hf Ht) as (_ & _ & Ha).
  destruct (session_result s m f t Hf Ht) as (Er & Es & Et). split; [|done].
  unfold r. rewrite Er. exact Ha.
Qed.

(** ** The replanning budgets *)

(** From [continue], every loop action of a contract is in the table. *)
Lemma replan_action s ct goal att a :
  a ∈ Replan.AdaptiveReplanState -> vget "loop_action" ct = VStr a ->
  let claim := claim_accepted s (Some (text goal, att)) in
  exists r, Replan.evaluate_contract s ct "continue" goal att = Ok r
    /\ Replan.r_accepted r = negb (a =? "complete")%string || claim
    /\ (if Replan.r_accepted r
        then Replan.r_terminal r = bool_decide (a ∈ Replan.TERMINAL_STATES)
          /\ Replan.r_replan r = truthy (vget "creates_replan_record" ct) || (a =? "replan")%string
          /\ Replan.r_continuation r = truthy (vget "creates_continuation" ct) || (a =? "continue")%string
        else Replan.r_terminal r = true /\ Replan.r_replan r = false /\ Replan.r_continuation r = false).
Proof.
  intros Ha Hv claim.
  assert (Hc : text_or (VStr a) "stop" = a
    /\ Replan.clean_adaptive_replan_state (VStr a) = Ok a /\ ("continue", a) ∈ Replan.ALLOWED_TRANSITIONS).
  { apply list_elem_of_In in Ha.
    assert (G : forallb (fun a => bool_decide (text_or (VStr a) "stop" = a
      /\ Replan.clean_adaptive_replan_state (VStr a) = Ok a /\ ("continue", a) ∈ Replan.ALLOWED_TRANSITIONS))
      Replan.AdaptiveReplanState = true) by (vm_compute; reflexivity).
    rewrite forallb_forall in G. by apply (bool_decide_eq_true _), G. }
  destruct Hc as (Et & Ec & Hin). unfold Replan.evaluate_contract, Replan.from_contract. rewrite Hv, Et.
  assert (Er : Replan.clean_adaptive_replan_state (VStr "continue") = Ok "continue") by (vm_compute; reflexivity).
  unfold Replan.make_transition. unfold_m. rewrite Er, Ec.
  set (t := Replan.Transition _ _ _ _ _ _ _). destruct (replan_total s (Object t)) as [r Hr]. exists r.
  split; [exact Hr|].
  destruct (validate_move_spec Replan.clean_adaptive_replan_state Replan.ALLOWED_TRANSITIONS "adaptive_replan"
    "complete" s (VStr "continue") (VStr a) (Some (text goal, att)) "continue" a Er Ec) as (_ & Ea & Hacc).
  change (validate_move _ _ _ _ _ _ _ _) with (Replan.validate s (Object t)) in Ea, Hacc.
  fold claim in Hacc.
  assert (E : Replan.r_accepted r = vd_accepted (Replan.validate s (Object t))).
  { unfold Replan.transition in Hr. destruct (vd_accepted _); cbn [negb] in Hr; [|by injection Hr as <-].
    unfold Replan._accepted_result in Hr. unfold_m.
    destruct (Replan.clean_adaptive_replan_state (VStr (text _))) in Hr; [by injection Hr as <-|done]. }
  rewrite E. split.
  - apply eq_true_iff_eq. rewrite Hacc, orb_true_iff, negb_true_iff, String.eqb_neq.
    destruct claim; split; [by right|by intros _; split| |by intros [?|?]].
    intros [_ H]. left. intros ->. by specialize (H eq_refl).
  - destruct (vd_accepted _) eqn:Ev.
    + destruct (replan_accepted _ _ _ Hr E) as (_ & _ & H).
      replace (Replan.r_to r) with a in H; [exact H|].
      unfold Replan.transition in Hr. rewrite Ev, Ea in Hr. cbn [negb] in Hr.
      destruct (table_strip Replan.ALLOWED_TRANSITIONS "continue" a) as [_ Es]; [vm_compute; reflexivity|done|].
      rewrite Es in Hr. unfold Replan._accepted_result in Hr. unfold_m. rewrite Ec in Hr. by injection Hr as <-.
    + unfold Replan.transition in Hr. rewrite Ev in Hr. cbn [negb] in Hr. by injection Hr as <-.
Qed.

Lemma replan_made s o a terminal stop why refusal needs rec cont goal att :
  a ∈ Replan.AdaptiveReplanState ->
  let ct := Replan.contract_to_dict (Replan.make_contract o a terminal stop why refusal needs rec cont) in
  exists r, Replan.evaluate_contract s ct "continue" goal att = Ok r
    /\ Replan.r_accepted r = negb (a =? "complete")%string || claim_accepted s (Some (text goal, att))
    /\ Replan.r_terminal r = negb (Replan.r_accepted r) || bool_decide (a ∈ Replan.TERMINAL_STATES)
    /\ Replan.r_replan r = Replan.r_accepted r && (rec || (a =? "replan")%string)
    /\ Replan.r_continuation r = Replan.r_accepted r && (cont || (a =? "continue")%string).
Proof.
  intros Ha ct.
  assert (Et : text_or (VStr a) "stop" = a).
  { apply list_elem_of_In in Ha.
    assert (G : forallb (fun a => (text_or (VStr a) "stop" =? a)%string) Replan.AdaptiveReplanState = true)
      by (vm_compute; reflexivity).
    rewrite forallb_forall in G. by apply String.eqb_eq, G. }
  destruct (replan_action s ct goal att a Ha) as (r & Hr & Hacc & H).
  { change (VStr (text_or (VStr a) "stop") = VStr a). by rewrite Et. }
  exists r. split; [exact Hr|]. split; [exact Hacc|]. clear Hr Hacc.
  by destruct (Replan.r_accepted r).
Qed.

(** What a contract comes to, for a decision [d] and with room ([br], [bc]) for
    another replan or continuation. *)
Lemma replan_flags s o a terminal stop why refusal needs rec cont goal att d br bc :
  a ∈ Replan.AdaptiveReplanState ->
  (rec || (a =? "replan")%string) = (d =? "replan")%string && br ->
  (cont || (a =? "continue")%string) = (d =? "continue")%string && bc ->
  bool_decide (a ∈ Replan.TERMINAL_STATES)
    = negb ((cont || (a =? "continue")%string) || (rec || (a =? "replan")%string)) ->
  (a = "complete" <-> d = "complete") ->
  let ct := Replan.contract_to_dict (Replan.make_contract o a terminal stop why refusal needs rec cont) in
  exists r, Replan.evaluate_contract s ct "continue" goal att = Ok r
    /\ (Replan.r_continuation r = true <-> d = "continue" /\ bc = true)
    /\ (Replan.r_replan r = true <-> d = "replan" /\ br = true)
    /\ Replan.r_terminal r = negb (Replan.r_continuation r || Replan.r_replan r)
    /\ (Replan.r_accepted r = true <-> (d = "complete" -> claim_accepted s (Some (text goal, att)) = true)).
Proof.
  intros Ha Hrec Hcont Hterm Hd ct.
  destruct (replan_made s o a terminal stop why refusal needs rec cont goal att Ha) as (r & Hr & Ea & Et & Er & Ec).
  exists r. split; [exact Hr|]. rewrite Et, Er, Ec, Hterm, Hrec, Hcont. clear Hr Et Er Ec Hterm.
  assert (Hacc : d <> "complete" -> Replan.r_accepted r = true).
  { intros H. rewrite Ea. apply orb_true_iff. left. apply negb_true_iff, String.eqb_neq. tauto. }
  rewrite !andb_true_iff, !String.eqb_eq.
  split_and!; [split; [by intros [_ ?]|]; intros [-> ?]; split_and!; [by apply Hacc|done..]..
    |by destruct (Replan.r_accepted r)|].
  rewrite Ea, orb_true_iff, negb_true_iff, String.eqb_neq, Hd.
  destruct (String.eqb_spec d "complete"); tauto.
Qed.

Ltac close_action :=
  first [reflexivity | apply (bool_decide_eq_true _); reflexivity | split; congruence].

(** The loop stays within its budgets.  For any cycle and any counters,
    even unreadable ones, the machine answers, and it lets the loop continue
    exactly when the planner's decision is to continue and fewer continuations
    than allowed have been made, and records a replan exactly when the decision
    is to replan and fewer replans than allowed have been made; whatever does
    neither is terminal, and only a completion without an accepted
    attestation is refused. *)
Theorem replan_within_budget s cycle rc cc mr mc goal att :
  let ct := Replan.contract_to_dict (Replan.build_adaptive_replan_contract cycle rc cc mr mc) in
  let d := Replan.normalize_engineering_adaptive_decision (VStr (Replan.original_decision cycle)) in
  exists r, Replan.evaluate_contract s ct "continue" goal att = Ok r
    /\ (Replan.r_continuation r = true <-> d = "continue" /\ (Replan._limit cc 0 < Replan._limit mc 0)%Z)
    /\ (Replan.r_replan r = true <-> d = "replan" /\ (Replan._limit rc 0 < Replan._limit mr 0)%Z)
    /\ Replan.r_terminal r = negb (Replan.r_continuation r || Replan.r_replan r)
    /\ (Replan.r_accepted r = true <-> (d = "complete" -> claim_accepted s (Some (text goal, att)) = true)).
Proof.
  cbv zeta. unfold Replan.build_adaptive_replan_contract. cbv zeta.
  set (d := Replan.normalize_engineering_adaptive_decision _). clearbody d.
  set (o := Replan.original_decision cycle). clearbody o.
  match goal with |- context [text_or ?v ?w] => generalize (text_or v w); intros why end.
  rewrite (Z.leb_antisym (Replan._limit rc 0)), (Z.leb_antisym (Replan._limit cc 0)).
  setoid_rewrite <- Z.ltb_lt.
  set (br := (Replan._limit rc 0 <? Replan._limit mr 0)%Z).
  set (bc := (Replan._limit cc 0 <? Replan._limit mc 0)%Z). clearbody br bc.
  destruct (String.eqb_spec d "complete") as [->|N1]; [apply replan_flags; close_action|].
  destruct (String.eqb_spec d "blocked") as [->|N2]; [apply replan_flags; close_action|].
  destruct (String.eqb_spec d "replan") as [->|N3];
    [destruct br; cbn [negb]; cbv iota; apply replan_flags; close_action|].
  destruct (String.eqb_spec d "continue") as [->|N4];
    [destruct bc; cbn [negb]; cbv iota; apply replan_flags; close_action|].
  apply String.eqb_neq in N3, N4.
  destruct (String.eqb_spec d "wait_for_user") as [->|N5]; apply replan_flags; rewrite ?N3, ?N4; close_action.
Qed.

End facts.

(** ** Concrete runs

    Behind the machines stands the authority that completed the goal ["g1"] in
    its own session; its result is the object at address 0. *)

#[local] Instance demo_gate : AttestationGate completion_state := completion_gate demo_sha256.
Definition demo_state : completion_state := (demo_complete_goal "s1").2.

Lemma demo_gate_reached : @gate_reached _ demo_gate demo_state.
Proof.
  eapply rtc_r; [exact demo_checked_reached|].
  apply (CsComplete demo_sha256 DefaultMachine "g1" " Active " [Goals.RefRecord 0] true VNone (VStr "s1") VNone).
Qed.

Definition demo_finish (attestation : option nat) : Session.EngineeringSessionTransition :=
  Session.Transition "active" "completed" "completed" "done" [] [] "test" [] "test" "s1" "g1" "now" attestation.

Definition demo_program (attestation : option nat) : Program.EngineeringProgramTransition :=
  Program.Transition "active" "completed" "completed" "done" [] [] "g1" attestation.

(** With the attestation session and program complete, without it they do not;
    the lifecycle and the replanning machine likewise. *)
Lemma no_machine_completes_alone_witness :
  goal_done demo_state "g1"
  /\ Program.r_accepted (Program.transition demo_state (Object (demo_program (Some 0)))) = true
  /\ Program.r_accepted (Program.transition demo_state (Object (demo_program None))) = false
  /\ Program.r_accepted (Program.transition demo_state (Mapping (Program.to_dict (demo_program (Some 0))))) = false.
Proof.
  destruct (no_machine_completes_alone demo_state demo_gate_reached) as (_ & _ & _ & H).
  assert (E : Program.r_accepted (Program.transition demo_state (Object (demo_program (Some 0)))) = true)
    by (vm_compute; reflexivity).
  split; [|split; [exact E|split; vm_compute; reflexivity]].
  destruct (H (Object (demo_program (Some 0))) E) as (t & Ht & Hd); [vm_compute; reflexivity|].
  injection Ht as <-. exact Hd.
Defined.

Lemma session_transition_decided_witness :
  Session.r_accepted (Session.transition demo_state (Object (demo_finish (Some 0)))) = true
  /\ Session.r_accepted (Session.transition demo_state (Object (demo_finish None))) = false.
Proof.
  destruct (session_transition_decided demo_state (Object (demo_finish (Some 0))) "active" "completed")
    as (H & _); [vm_compute; reflexivity..|].
  destruct (session_transition_decided demo_state (Object (demo_finish None)) "active" "completed")
    as (N & _); [vm_compute; reflexivity..|].
  split.
  - apply H. split; [|split; [by apply missing_field_None; vm_compute|intros _; vm_compute; reflexivity]].
    apply (bool_decide_eq_true _). vm_compute. reflexivity.
  - apply not_true_iff_false. intros Hx. apply N in Hx. destruct Hx as (_ & _ & Hx).
    specialize (Hx eq_refl). revert Hx. vm_compute. discriminate.
Defined.

(** A completed session can be archived. *)
Lemma engineering_terminal_final_witness : ("archived" : string) ∈ (["completed"; "archived"] : list string).
Proof.
  destruct (engineering_terminal_final (S := completion_state) "completed" "archived") as (_ & H & _).
  apply H.
  - apply rtc_once. exists demo_state, (Object (Session.Transition "completed" "archived" "archived" "done" [] []
      "test" [] "test" "s1" "g1" "now" None)). vm_compute. done.
  - apply (bool_decide_eq_true _). vm_compute. reflexivity.
Defined.
