(* ===== verification/Issues.v ===== *)
(** * Issues found beside the main line, and the results that must report them

    - [Report]: [core/tasks/engineering_issue_contract.py], what an issue report
      must say, and the gate that a list of reports is for success;
    - [IssueSummary]: [core/tasks/engineering_issue_summary.py], the summary that
      is attached to every result of the engineering layers;
    - [ResultContract]: [core/tasks/engineering_result_contract.py], which
      normalises and validates such a result.

    The classification of an issue, which the sources repeat in the last two
    files word for word, is here once.  Time stamps are floats: [py_float] is
    the built-in and [now] what the clock reads.  [EngineeringResultContractError]
    is a [ValueError]. *)

From Stdlib Require Import Ascii.
From S2P Require Import Prelude PyVal Lineage Engineering.

(** ** Issues *)

Definition DEFERRED_RECOMMENDED_ACTIONS : list string :=
  ["queue_for_next_package"; "defer_to_next_package"; "defer"; "report_only"; "ignore_with_reason";
   "track_as_non_mainline_issue"].

Definition BLOCKING_RECOMMENDED_ACTIONS : list string :=
  ["block_current_task"; "stop_current_task"; "fix_before_success"; "require_resolution";
   "manual_intervention_required"].

Definition NOT_IN_SCOPE_MARKERS : list string :=
  ["not_in_scope"; "out_of_scope"; "outside_scope"; "outside_current_scope"; "scope_out"].

(** [repr(sorted(d.items()))] for a dict of texts whose keys are given in order. *)
Definition repr_items (items : list (string * string)) : string :=
  "[" +:+ join ", " (map (fun kv => "(" +:+ repr_str kv.1 +:+ ", " +:+ repr_str kv.2 +:+ ")") items) +:+ "]".

Definition _issue_key (issue : list (string * val)) : string :=
  let explicit_id := text (py_or (vget "issue_id" issue) (vget "id" issue)) in
  if negb (explicit_id =? "")%string then "id:" +:+ explicit_id
  else "anon:" +:+ repr_items
    [("category", text (py_or (vget "category" issue) (vget "issue_type" issue)));
     ("path", text (py_or (py_or (vget "path" issue) (vget "file" issue)) (vget "target_path" issue)));
     ("reason", text (py_or (py_or (vget "reason" issue) (vget "message" issue)) (vget "summary" issue)));
     ("recommended_action", text (vget "recommended_action" issue)); ("severity", text (vget "severity" issue))].

Definition _contains_marker (value : val) (markers : list string) : bool :=
  let t := lower (text value) in existsb (fun m => contains m t) markers.

Definition _is_not_in_scope_issue (issue : list (string * val)) : bool :=
  existsb (fun f => _contains_marker (vget f issue) NOT_IN_SCOPE_MARKERS)
    ["reason"; "category"; "issue_type"; "scope"; "recommended_action"; "message"; "summary"].

Definition _issue_blocks_current_task (issue : list (string * val)) : bool :=
  if truthy (vget "blocks_current_task" issue) then true
  else if truthy (vget "blocking" issue) then true
  else if bool_decide (text (vget "recommended_action" issue) ∈ BLOCKING_RECOMMENDED_ACTIONS) then true
  else
    let severity := lower (text (vget "severity" issue)) in
    let risk := lower (text (py_or (vget "risk" issue) (vget "risk_level" issue))) in
    if bool_decide (severity ∈ ["blocking"; "critical"; "fatal"]) then true
    else bool_decide (risk ∈ ["high"; "critical"]) && truthy (vget "blocks_current_task" issue).

Definition _issue_is_deferred (issue : list (string * val)) : bool :=
  if truthy (vget "deferred" issue) then true
  else if bool_decide (text (vget "recommended_action" issue) ∈ DEFERRED_RECOMMENDED_ACTIONS) then true
  else _is_not_in_scope_issue issue.

(** Is there an issue of that key in the list? *)
Definition listed (issue : list (string * val)) (l : list (list (string * val))) : bool :=
  bool_decide (_issue_key issue ∈ map _issue_key l).

(** ** Reports *)
Module Report.

Definition RISK_LEVELS : list string := ["low"; "medium"; "high"].
Definition RECOMMENDED_ACTIONS : list string := ["fix_now"; "queue_for_next_package"; "ignore_with_reason"].

(** [s.split()] *)
Fixpoint split_words (cur s : string) : list string :=
  let flush := if (cur =? "")%string then [] else [cur] in
  match s with
  | EmptyString => flush
  | String c s' => if is_space c then flush ++ split_words "" s' else split_words (cur +:+ String c "") s'
  end.

Fixpoint file_list (seen : list string) (items : list val) : list string :=
  match items with
  | [] => []
  | item :: rest =>
      let f := text item in
      if negb (f =? "")%string && negb (bool_decide (f ∈ seen)) then f :: file_list (f :: seen) rest
      else file_list seen rest
  end.

Definition _as_file_list (value : val) : list string :=
  match value with VList l => file_list [] l | _ => [] end.

Definition _reason_is_only_not_in_scope (reason : string) : bool :=
  let normalized := join " " (split_words "" (replace_char "_"%char " "%char (replace_char "-"%char " "%char (lower reason)))) in
  bool_decide (normalized ∈ ["not in scope"; "out of scope"; "not scope"; "outside scope"]).

Record EngineeringIssueReport : Type := Make {
  issue_id : string;
  source_package_id : string;
  affected_files : list string;
  observed_symptom : string;
  root_cause_hypothesis : string;
  risk_level : string;
  blocks_current_task : bool;
  recommended_action : string;
  reason_if_not_fixed_now : string;
  created_at : val }.

Definition missing (r : EngineeringIssueReport) : list string :=
  map fst (filter (fun p => p.2 = "")
    [("issue_id", issue_id r); ("source_package_id", source_package_id r);
     ("observed_symptom", observed_symptom r); ("root_cause_hypothesis", root_cause_hypothesis r)]).

Definition validate (r : EngineeringIssueReport) : res EngineeringIssueReport :=
  if negb (bool_decide (missing r = []))
  then Raise (ValueError ("engineering_issue_report_missing_required:" +:+ join "," (missing r)))
  else if bool_decide (affected_files r = [])
  then Raise (ValueError "engineering_issue_report_requires_affected_files")
  else if negb (bool_decide (risk_level r ∈ RISK_LEVELS))
  then Raise (ValueError ("engineering_issue_report_invalid_risk_level:" +:+ risk_level r))
  else if negb (bool_decide (recommended_action r ∈ RECOMMENDED_ACTIONS))
  then Raise (ValueError ("engineering_issue_report_invalid_recommended_action:" +:+ recommended_action r))
  else if negb (recommended_action r =? "fix_now")%string && (reason_if_not_fixed_now r =? "")%string
  then Raise (ValueError "engineering_issue_report_requires_reason_if_not_fixed_now")
  else if (recommended_action r =? "ignore_with_reason")%string && (reason_if_not_fixed_now r =? "")%string
  then Raise (ValueError "engineering_issue_report_ignore_requires_reason")
  else if negb (reason_if_not_fixed_now r =? "")%string
          && _reason_is_only_not_in_scope (reason_if_not_fixed_now r)
  then Raise (ValueError "engineering_issue_report_reason_cannot_only_be_not_in_scope")
  else Ok r.

Definition blocks_success (r : EngineeringIssueReport) : bool :=
  (risk_level r =? "high")%string && blocks_current_task r.

Definition to_dict (r : EngineeringIssueReport) : list (string * val) :=
  [("schema", VStr "zero.engineering_issue_report.v1"); ("issue_id", VStr (issue_id r));
   ("source_package_id", VStr (source_package_id r)); ("affected_files", VList (map VStr (affected_files r)));
   ("observed_symptom", VStr (observed_symptom r)); ("root_cause_hypothesis", VStr (root_cause_hypothesis r));
   ("risk_level", VStr (risk_level r)); ("blocks_current_task", VBool (blocks_current_task r));
   ("recommended_action", VStr (recommended_action r));
   ("reason_if_not_fixed_now", VStr (reason_if_not_fixed_now r)); ("created_at", created_at r);
   ("blocks_success", VBool (blocks_success r))].

Section report.
Context (py_float : val -> res val) (now : val).

(** [_as_float(value, default)] *)
Definition _as_float (value dflt : val) : res val :=
  match py_float value with
  | Raise (TypeError _) | Raise (ValueError _) => Ok dflt
  | r => r
  end.

(** The constructor with its [__post_init__]. *)
Definition make (id package : string) (files : val) (symptom hypothesis risk : string) (blocks : bool)
    (act why : string) (created : val) : res EngineeringIssueReport :=
  created ← _as_float created now;
  validate (Make (text (VStr id)) (text (VStr package)) (_as_file_list files) (text (VStr symptom))
    (text (VStr hypothesis)) (lower (text (VStr risk))) blocks (lower (text (VStr act))) (text (VStr why)) created).

Definition from_mapping (value : list (string * val)) : res EngineeringIssueReport :=
  created ← _as_float (vget "created_at" value) now;
  make (text (py_or (vget "issue_id" value) (vget "id" value))) (text (vget "source_package_id" value))
    (VList (map VStr (_as_file_list (vget "affected_files" value)))) (text (vget "observed_symptom" value))
    (text (vget "root_cause_hypothesis" value)) (text (vget "risk_level" value))
    (truthy (vget "blocks_current_task" value)) (text (vget "recommended_action" value))
    (text (vget "reason_if_not_fixed_now" value)) created.

(** A report as an object of the class or as a mapping. *)
Inductive given : Type :=
  | GivenReport (r : EngineeringIssueReport)
  | GivenMapping (d : list (string * val)).

Definition read_report (item : given) : res EngineeringIssueReport :=
  match item with GivenReport r => Ok r | GivenMapping d => from_mapping d end.

Definition validate_issue_reports_allow_success (items : list given) : res (list (string * val)) :=
  reports ← rmap read_report items;
  let blocking_reports := map to_dict (filter (fun r => blocks_success r = true) reports) in
  let allowed := bool_decide (blocking_reports = []) in
  Ok [("ok", VBool allowed); ("success_allowed", VBool allowed);
      ("blocking_issue_count", VInt (Z.of_nat (length blocking_reports)));
      ("blocking_issues", VList (map VDict blocking_reports))].
End report.
End Report.

(** ** Results that report their issues *)
Module ResultContract.

Definition REQUIRED_ENGINEERING_RESULT_FIELDS : list string :=
  ["task_result"; "issues_found"; "issues_deferred"; "deferred_issues"; "blocking_issues"; "success_allowed"].

Definition as_mapping_item (item : val) : res (list (string * val)) :=
  match item with VDict d => Ok d | _ => Raise (ValueError "issue_entry_must_be_mapping") end.

Definition _as_issue_list (value : val) : res (list (list (string * val))) :=
  match value with
  | VNone => Ok []
  | VList l => rmap as_mapping_item l
  | _ => Raise (ValueError "issue_list_must_be_list")
  end.

Definition SUMMARY_KEYS : list string :=
  ["schema"; "ok"; "mode"; "action"; "package_id"; "goal_id"; "portfolio_id"; "program_id";
   "selected_goal_id"; "selected_portfolio_id"; "terminal"; "stop_reason"; "error"; "reason"].

Definition _task_result_from_result (result : list (string * val)) : list (string * val) :=
  match vget "task_result" result with
  | VDict d => d
  | _ => omap (fun k => (fun v => (k, v)) <$> dget k result) SUMMARY_KEYS
  end.

(** The loop over the issues found: what it adds to the blocking and to the
    deferred ones. *)
Fixpoint note_issues (found blocking deferred : list (list (string * val))) :
    list (list (string * val)) * list (list (string * val)) :=
  match found with
  | [] => (blocking, deferred)
  | issue :: rest =>
      if _issue_blocks_current_task issue && negb (listed issue blocking)
      then note_issues rest (blocking ++ [issue]) deferred
      else if _issue_is_deferred issue && negb (listed issue deferred)
      then note_issues rest blocking (deferred ++ [issue])
      else note_issues rest blocking deferred
  end.

Definition CONTRACT : val := VDict
  [("schema", VStr "zero.engineering_result_contract.v1");
   ("required_fields", VList (map VStr REQUIRED_ENGINEERING_RESULT_FIELDS));
   ("non_mainline_issue_reporting_required", VBool true); ("not_in_scope_issue_must_be_deferred", VBool true);
   ("blocking_issue_blocks_success", VBool true)].

(** [result] is a mapping. *)
Definition normalize_engineering_result_contract (result : list (string * val)) : res (list (string * val)) :=
  found ← _as_issue_list (vget_or "issues_found" (VList []) result);
  deferred ← _as_issue_list (vget_or "issues_deferred" (vget_or "deferred_issues" (VList []) result) result);
  blocking ← _as_issue_list (vget_or "blocking_issues" (VList []) result);
  let p := note_issues found blocking deferred in
  let allowed := truthy (vget_or "success_allowed" (VBool true) result) && bool_decide (p.1 = []) in
  let updated := dset "task_result" (VDict (_task_result_from_result result)) result in
  let updated := dset "issues_found" (VList (map VDict found)) updated in
  let updated := dset "issues_deferred" (VList (map VDict p.2)) updated in
  let updated := dset "deferred_issues" (VList (map VDict p.2)) updated in
  let updated := dset "blocking_issues" (VList (map VDict p.1)) updated in
  let updated := dset "success_allowed" (VBool allowed) updated in
  let updated := dset "engineering_result_contract" CONTRACT updated in
  Ok (if allowed then updated else dset "ok" (VBool false) updated).

(** The required fields a result lacks. *)
Definition missing_fields_of (result : list (string * val)) : list string :=
  filter (fun k => dmem k result = false) ["task_result"; "issues_found"; "blocking_issues"; "success_allowed"]
  ++ (if negb (dmem "issues_deferred" result) && negb (dmem "deferred_issues" result)
      then ["issues_deferred"] else []).

(** The check of each issue found against the two lists. *)
Definition check_listed (deferred blocking : list (list (string * val))) (issue : list (string * val)) :
    res unit :=
  if _is_not_in_scope_issue issue && negb (listed issue deferred)
  then Raise (ValueError "not_in_scope_issue_must_be_deferred")
  else if _issue_blocks_current_task issue && negb (listed issue blocking)
  then Raise (ValueError "blocking_issue_must_be_listed_in_blocking_issues")
  else Ok tt.

Definition validate_engineering_result_contract (result : list (string * val)) : res (list (string * val)) :=
  match missing_fields_of result with
  | _ :: _ as missing =>
      Raise (ValueError ("missing_engineering_result_fields:" +:+ join "," missing))
  | [] =>
      normalized ← normalize_engineering_result_contract result;
      let issues k := map mapping (match vget k normalized with VList l => l | _ => [] end) in
      if truthy (vget "blocking_issues" normalized) && truthy (vget "success_allowed" result)
      then Raise (ValueError "blocking_issues_require_success_allowed_false")
      else if is_false (vget "success_allowed" normalized) && truthy (vget_or "ok" (VBool false) result)
      then Raise (ValueError "success_not_allowed_requires_ok_false")
      else
        _ ← rmap (check_listed (issues "issues_deferred") (issues "blocking_issues")) (issues "issues_found");
        Ok normalized
  end.
End ResultContract.

(** ** The summary of a reporter *)
Module IssueSummary.

(** [dict(item)]: of a mapping, or of a sequence of pairs.  Dicts have texts for keys. *)
Definition as_pair (item : val) : res (string * val) :=
  kv ← py_iter item;
  match kv with
  | [VStr k; v] => Ok (k, v)
  | [_; _] => Raise (TypeError "unhashable type")
  | _ => Raise (ValueError "dictionary update sequence element has the wrong length; 2 is required")
  end.

Definition py_dict (item : val) : res (list (string * val)) :=
  match item with
  | VDict d => Ok d
  | VList l => pairs ← rmap as_pair l; Ok (dupdate [] pairs)
  | VStr "" => Ok []
  | VStr _ => Raise (ValueError "dictionary update sequence element #0 has length 1; 2 is required")
  | _ => Raise (TypeError "object is not iterable")
  end.

Definition _as_issue_list (value : val) : res (list (list (string * val))) :=
  match value with VList l => rmap py_dict l | _ => Ok [] end.

Fixpoint dedupe_from (seen : list string) (issues : list (list (string * val))) : list (list (string * val)) :=
  match issues with
  | [] => []
  | issue :: rest =>
      let key := _issue_key issue in
      if bool_decide (key ∈ seen) then dedupe_from seen rest else issue :: dedupe_from (key :: seen) rest
  end.

Definition _dedupe_issues (issues : list (list (string * val))) : list (list (string * val)) :=
  dedupe_from [] issues.

(** The issues found that block and are not among the given ones. *)
Fixpoint add_blocking (found blocking : list (list (string * val))) : list (list (string * val)) :=
  match found with
  | [] => blocking
  | issue :: rest =>
      if _issue_blocks_current_task issue && negb (listed issue blocking)
      then add_blocking rest (blocking ++ [issue]) else add_blocking rest blocking
  end.

Fixpoint defer (blocking found deferred : list (list (string * val))) : list (list (string * val)) :=
  match found with
  | [] => deferred
  | issue :: rest =>
      if listed issue blocking then defer blocking rest deferred
      else if _issue_is_deferred issue && negb (listed issue deferred)
      then defer blocking rest (deferred ++ [issue]) else defer blocking rest deferred
  end.

(** [reporter_summary] is what the reporter returns. *)
Definition build_engineering_issue_summary (reporter_summary : list (string * val)) : res (list (string * val)) :=
  issues ← _as_issue_list (vget "issues" reporter_summary);
  given ← _as_issue_list (vget "blocking_issues" reporter_summary);
  let found := _dedupe_issues issues in
  let blocking := add_blocking found (_dedupe_issues given) in
  let deferred := defer blocking found [] in
  let allowed := truthy (vget_or "success_allowed" (VBool true) reporter_summary)
                 && bool_decide (blocking = []) in
  Ok [("schema", VStr "zero.engineering_issue_summary.v2"); ("issues_found", VList (map VDict found));
      ("issues_deferred", VList (map VDict deferred)); ("deferred_issues", VList (map VDict deferred));
      ("blocking_issues", VList (map VDict blocking)); ("success_allowed", VBool allowed)].

Definition SUMMARY_FIELDS : list string :=
  ["issues_found"; "issues_deferred"; "deferred_issues"; "blocking_issues"; "success_allowed"].

(** With a summary given, which must have the fields, or with the reporter's. *)
Definition apply_engineering_issue_summary (reporter_summary : list (string * val))
    (issue_summary : option (list (string * val))) (result : val) : res (list (string * val)) :=
  summary ← match issue_summary with
            | Some d => Ok d
            | None => build_engineering_issue_summary reporter_summary
            end;
  fields ← rmap (fun k => v ← get_item k summary; Ok (k, v)) SUMMARY_FIELDS;
  ResultContract.normalize_engineering_result_contract (dupdate (mapping result) fields).
End IssueSummary.

(** ** Lemmas *)

Lemma listed_app (i : list (string * val)) l j : listed i (l ++ [j]) = listed i l || bool_decide (_issue_key i = _issue_key j).
Proof.
  unfold listed. rewrite map_app. apply eq_true_iff_eq. rewrite orb_true_iff, !bool_decide_eq_true.
  cbn [map]. rewrite elem_of_app, list_elem_of_singleton. done.
Qed.

Lemma listed_self (i : list (string * val)) l : listed i (l ++ [i]) = true.
Proof. rewrite listed_app, orb_true_iff. right. by apply bool_decide_eq_true. Qed.

Lemma listed_in (i : list (string * val)) l : i ∈ l -> listed i l = true.
Proof. intros H. apply bool_decide_eq_true, list_elem_of_In, in_map. by apply list_elem_of_In. Qed.

(** [keep]: what was listed stays listed. *)
Definition keeps (l l' : list (list (string * val))) : Prop := forall i, listed i l = true -> listed i l' = true.

Lemma keeps_app l j : keeps l (l ++ [j]).
Proof. intros i H. by rewrite listed_app, H. Qed.

Lemma issues_keep_trans l l' l'' : keeps l l' -> keeps l' l'' -> keeps l l''.
Proof. unfold keeps. auto. Qed.

(** Every issue of [found] that satisfies [p] is listed. *)
Definition covers (p : list (string * val) -> bool) (found l : list (list (string * val))) : Prop :=
  forall i, i ∈ found -> p i = true -> listed i l = true.

Lemma covers_cons p i found l :
  covers p (i :: found) l <-> (p i = true -> listed i l = true) /\ covers p found l.
Proof.
  unfold covers. split.
  - intros H. split; [apply H; by left|]. intros j Hj. apply H. by right.
  - intros [H1 H2] j [->|Hj]%elem_of_cons; [done|]. by apply H2.
Qed.

Lemma covers_nil p l : covers p [] l.
Proof. intros j Hj. by apply elem_of_nil in Hj. Qed.

Lemma covers_keeps p found l l' : keeps l l' -> covers p found l -> covers p found l'.
Proof. unfold keeps, covers. eauto. Qed.

Section noting.
Import ResultContract.

Lemma note_keeps found : forall b d,
  keeps b (note_issues found b d).1 /\ keeps d (note_issues found b d).2.
Proof.
  induction found as [|i found IH]; intros b d; simpl; [by split; intros ?|].
  destruct (_issue_blocks_current_task i && negb (listed i b)).
  { destruct (IH (b ++ [i]) d) as [H1 H2]. split; [|done]. by eapply issues_keep_trans, H1; apply keeps_app. }
  destruct (_issue_is_deferred i && negb (listed i d)); [|apply IH].
  destruct (IH b (d ++ [i])) as [H1 H2]. split; [done|]. by eapply issues_keep_trans, H2; apply keeps_app.
Qed.

(** Every issue found that blocks is listed as blocking. *)
Lemma note_blocking found : forall b d, covers _issue_blocks_current_task found (note_issues found b d).1.
Proof.
  induction found as [|i found IH]; intros b d; simpl; [apply covers_nil|].
  destruct (_issue_blocks_current_task i) eqn:Eb; cbn [andb].
  - destruct (listed i b) eqn:El; cbn [negb].
    + destruct (_issue_is_deferred i && negb (listed i d)); apply covers_cons; (split; [|apply IH]); intros _;
        by apply note_keeps.
    + apply covers_cons. split; [|apply IH]. intros _. by apply note_keeps, listed_self.
  - destruct (_issue_is_deferred i && negb (listed i d)); apply covers_cons; (split; [congruence|apply IH]).
Qed.

(** Once they are, only the deferred list changes, and then it is complete too. *)
Lemma note_settled found : forall b d, covers _issue_blocks_current_task found b ->
  (note_issues found b d).1 = b /\ covers _issue_is_deferred found (note_issues found b d).2.
Proof.
  induction found as [|i found IH]; intros b d; simpl; [split; [done|apply covers_nil]|].
  rewrite covers_cons. intros [Hi H].
  replace (_issue_blocks_current_task i && negb (listed i b)) with false
    by (destruct (_issue_blocks_current_task i); [by rewrite Hi|done]).
  destruct (_issue_is_deferred i) eqn:Ed; cbn [andb].
  - destruct (listed i d) eqn:El; cbn [negb].
    + destruct (IH b d H) as [E C]. split; [done|]. apply covers_cons. split; [|done]. intros _. by apply note_keeps.
    + destruct (IH b (d ++ [i]) H) as [E C]. split; [done|]. apply covers_cons. split; [|done].
      intros _. by apply note_keeps, listed_self.
  - destruct (IH b d H) as [E C]. split; [done|]. apply covers_cons. split; [congruence|done].
Qed.

Lemma note_done found : forall b d, covers _issue_blocks_current_task found b ->
  covers _issue_is_deferred found d -> note_issues found b d = (b, d).
Proof.
  induction found as [|i found IH]; intros b d; simpl; [done|]. rewrite !covers_cons. intros [Hb B] [Hd D].
  replace (_issue_blocks_current_task i && negb (listed i b)) with false
    by (destruct (_issue_blocks_current_task i); [by rewrite Hb|done]).
  replace (_issue_is_deferred i && negb (listed i d)) with false
    by (destruct (_issue_is_deferred i); [by rewrite Hd|done]).
  by apply IH.
Qed.

Lemma issue_list_dicts l : _as_issue_list (VList (map VDict l)) = Ok l.
Proof. unfold _as_issue_list. induction l as [|d l IH]; [done|]. simpl. unfold_m. by rewrite IH. Qed.

(** The fields of a normalised result. *)
Record normal (found b d : list (list (string * val))) (t : list (string * val)) (allowed : bool) (r : list (string * val)) : Prop := {
  nm_task : dget "task_result" r = Some (VDict t);
  nm_found : dget "issues_found" r = Some (VList (map VDict found));
  nm_deferred : dget "issues_deferred" r = Some (VList (map VDict d));
  nm_deferred' : dget "deferred_issues" r = Some (VList (map VDict d));
  nm_blocking : dget "blocking_issues" r = Some (VList (map VDict b));
  nm_allowed : dget "success_allowed" r = Some (VBool allowed);
  nm_contract : dget "engineering_result_contract" r = Some CONTRACT;
  nm_ok : allowed = false -> dget "ok" r = Some (VBool false);
  nm_blocks : b <> [] -> allowed = false }.

(** What normalisation makes of a result. *)
Lemma normalize_spec r r1 :
  normalize_engineering_result_contract r = Ok r1 ->
  exists found b0 d0 t allowed,
    let p := note_issues found b0 d0 in
    normal found p.1 p.2 t allowed r1
    /\ allowed = truthy (vget_or "success_allowed" (VBool true) r) && bool_decide (p.1 = [])
    /\ (allowed = true -> dget "ok" r1 = dget "ok" r)
    /\ _as_issue_list (vget_or "issues_found" (VList []) r) = Ok found
    /\ _as_issue_list (vget_or "blocking_issues" (VList []) r) = Ok b0
    /\ _as_issue_list (vget_or "issues_deferred" (vget_or "deferred_issues" (VList []) r) r) = Ok d0
    /\ (forall k, k ∉ REQUIRED_ENGINEERING_RESULT_FIELDS -> k <> "engineering_result_contract" -> k <> "ok" ->
        dget k r1 = dget k r).
Proof.
  unfold normalize_engineering_result_contract. unfold_m. intros H.
  destruct (_as_issue_list (vget_or "issues_found" _ _)) as [found|]; [|done].
  destruct (_as_issue_list (vget_or "issues_deferred" _ _)) as [d0|]; [|done].
  destruct (_as_issue_list (vget_or "blocking_issues" _ _)) as [b0|]; [|done].
  exists found, b0, d0, (_task_result_from_result r). eexists. cbv zeta. cbv zeta in H.
  split_and!; try reflexivity.
  - set (p := note_issues found b0 d0) in *. set (a := truthy _ && _) in *.
    assert (Ha : p.1 <> [] -> a = false) by (intros Hn; unfold a; by rewrite (bool_decide_eq_false_2 _ Hn), andb_false_r).
    destruct a; injection H as <-; constructor; try done; by autorewrite with pydict.
  - intros Ha. rewrite Ha in H. injection H as <-. by autorewrite with pydict.
  - intros k Hk Hc Ho. unfold REQUIRED_ENGINEERING_RESULT_FIELDS in Hk. rewrite !not_elem_of_cons in Hk.
    destruct_and! Hk. destruct (truthy _ && _); injection H as <-; by autorewrite with pydict.
Qed.

Lemma vget_or_Some k dflt v (d : list (string * val)) : dget k d = Some v -> vget_or k dflt d = v.
Proof. unfold vget_or. by intros ->. Qed.

(** On a result with all the fields, by the lists alone. *)
Lemma normalize_normal found b d t allowed r :
  normal found b d t allowed r ->
  covers _issue_blocks_current_task found b ->
  exists r', normalize_engineering_result_contract r = Ok r'
    /\ normal found b (note_issues found b d).2 t allowed r'
    /\ ((note_issues found b d).2 = d -> r' = r).
Proof.
  intros [Ht Hf Hd Hd' Hb Ha Hc Ho Hbl] Hcov. unfold normalize_engineering_result_contract. unfold_m.
  rewrite (vget_or_Some _ _ _ _ Hf), (vget_or_Some _ _ _ _ Hd), (vget_or_Some _ _ _ _ Hb), !issue_list_dicts.
  cbv zeta. destruct (note_settled found b d Hcov) as [E1 _]. rewrite E1.
  rewrite (vget_or_Some _ _ _ _ Ha). cbn [truthy].
  assert (Ea : allowed && bool_decide (b = []) = allowed).
  { destruct allowed; [|done]. cbn [andb]. apply bool_decide_eq_true. destruct b; [done|]. by specialize (Hbl ltac:(done)). }
  rewrite Ea. unfold _task_result_from_result.
  assert (Etr : vget "task_result" r = VDict t) by (unfold vget; by rewrite Ht). rewrite Etr.
  eexists. split; [reflexivity|]. split.
  - destruct allowed; constructor; try done; try (by autorewrite with pydict).
  - intros ->. rewrite (dset_id "task_result" _ r Ht), (dset_id "issues_found" _ r Hf),
      (dset_id "issues_deferred" _ r Hd), (dset_id "deferred_issues" _ r Hd'), (dset_id "blocking_issues" _ r Hb),
      (dset_id "success_allowed" _ r Ha), (dset_id "engineering_result_contract" _ r Hc).
    destruct allowed; [done|]. by rewrite (dset_id "ok" _ r (Ho eq_refl)).
Qed.

(** ** Theorems *)

(** Normalising a result settles after the second time: what the second pass
    returns a third pass leaves as it is.  The first pass is already the last
    exactly when every issue found that is deferrable is among the deferred
    ones then; a pass never defers an issue that it lists as blocking, the next
    one does. *)
Theorem normalize_settles r r1 :
  normalize_engineering_result_contract r = Ok r1 ->
  exists r2, normalize_engineering_result_contract r1 = Ok r2
    /\ normalize_engineering_result_contract r2 = Ok r2
    /\ forall found d, vget "issues_found" r1 = VList (map VDict found) ->
        vget "issues_deferred" r1 = VList (map VDict d) ->
        (r2 = r1 <-> covers _issue_is_deferred found d).
Proof.
  intros H. apply normalize_spec in H as (found & b0 & d0 & t & allowed & Hn & _). cbv zeta in Hn.
  set (b := (note_issues found b0 d0).1) in *. set (d := (note_issues found b0 d0).2) in *.
  pose proof (note_blocking found b0 d0) as Hc. fold b in Hc.
  destruct (normalize_normal _ _ _ _ _ _ Hn Hc) as (r2 & E2 & Hn2 & Hsame).
  destruct (note_settled found b d Hc) as [_ Hdef].
  destruct (normalize_normal _ _ _ _ _ _ Hn2 Hc) as (r3 & E3 & _ & Hsame3).
  rewrite (note_done found b _ Hc Hdef) in Hsame3. rewrite (Hsame3 eq_refl) in E3.
  exists r2. split; [done|]. split; [done|]. intros found' d' Hf Hd.
  unfold vget in Hf, Hd. rewrite (nm_found _ _ _ _ _ _ Hn) in Hf. rewrite (nm_deferred _ _ _ _ _ _ Hn) in Hd.
  assert (Inj : forall l m, VList (map VDict l) = VList (map VDict m) -> l = m).
  { intros l m [= E]. revert m E. induction l as [|x l IH]; intros [|y m] [=]; [done|]. f_equal; auto. }
  apply Inj in Hf, Hd. subst found' d'. split.
  - intros ->. pose proof (nm_deferred _ _ _ _ _ _ Hn) as E. rewrite (nm_deferred _ _ _ _ _ _ Hn2) in E.
    injection E as E. by rewrite <- (Inj _ _ (f_equal VList E)).
  - intros Hcov. apply Hsame. by rewrite note_done.
Qed.

(** A result cannot hide a blocking issue.  In a normalised result every
    issue found that blocks is among the blocking ones; if there are any,
    success is not allowed and [ok] is false; and [ok] is true only if the
    result said so, allowed success, and none of its issues blocks. *)
Theorem normalized_reports r r1 :
  normalize_engineering_result_contract r = Ok r1 ->
  exists found b allowed,
    vget "issues_found" r1 = VList (map VDict found)
    /\ vget "blocking_issues" r1 = VList (map VDict b)
    /\ vget "success_allowed" r1 = VBool allowed
    /\ covers _issue_blocks_current_task found b
    /\ (b <> [] -> allowed = false)
    /\ (allowed = false -> vget "ok" r1 = VBool false)
    /\ (truthy (vget "ok" r1) = true ->
        vget "ok" r1 = vget "ok" r /\ truthy (vget_or "success_allowed" (VBool true) r) = true
        /\ b = [] /\ Forall (fun i => _issue_blocks_current_task i = false) found).
Proof.
  intros H. apply normalize_spec in H as (found & b0 & d0 & t & allowed & Hn & Ha & Hok & _). cbv zeta in *.
  pose proof (note_blocking found b0 d0) as Hc. set (b := (note_issues found b0 d0).1) in *.
  destruct Hn. exists found, b, allowed. unfold vget. rewrite nm_found0, nm_blocking0, nm_allowed0.
  split_and!; try done.
  - intros E. by rewrite nm_ok0.
  - destruct allowed; [|by rewrite nm_ok0]. intros Ht. rewrite Hok in Ht |- * by done.
    symmetry in Ha. apply andb_true_iff in Ha as [Ha Hb]. apply bool_decide_eq_true in Hb. split_and!; try done.
    apply Forall_forall. intros i Hi. apply not_true_iff_false. intros E. specialize (Hc i Hi E).
    unfold listed in Hc. rewrite Hb in Hc. by apply bool_decide_eq_true, elem_of_nil in Hc.
Qed.

(** The contract refuses what its own rules ask for.  A result that reports one
    issue, out of scope and blocking, and lists it nowhere, says correctly that
    success is not allowed; normalisation lists the issue as blocking only, and
    validation, which wants it among the deferred ones too, refuses.  The
    normalised result passes. *)
Theorem out_of_scope_blocker_refused i t :
  _is_not_in_scope_issue i = true -> _issue_blocks_current_task i = true ->
  let r := [("ok", VBool false); ("task_result", VDict t); ("issues_found", VList [VDict i]);
            ("issues_deferred", VList []); ("deferred_issues", VList []); ("blocking_issues", VList []);
            ("success_allowed", VBool false)] in
  validate_engineering_result_contract r = Raise (ValueError "not_in_scope_issue_must_be_deferred")
  /\ exists r1, normalize_engineering_result_contract r = Ok r1
      /\ exists r2, validate_engineering_result_contract r1 = Ok r2.
Proof.
  intros Hs Hb r.
  assert (L0 : listed i [] = false) by by apply bool_decide_eq_false_2, not_elem_of_nil.
  assert (L1 : listed i [i] = true) by (apply listed_in; by left).
  assert (Hd : _issue_is_deferred i = true) by (unfold _issue_is_deferred; rewrite Hs; by repeat case_match).
  assert (N1 : note_issues [i] [] [] = ([i], [])) by (cbn [note_issues]; by rewrite Hb, L0).
  assert (N2 : note_issues [i] [i] [] = ([i], [i])) by (cbn [note_issues]; by rewrite Hb, L1, Hd, L0).
  unfold validate_engineering_result_contract, normalize_engineering_result_contract. unfold_m. split.
  - cbn -[note_issues check_listed]. rewrite N1. cbn -[check_listed]. unfold check_listed. by rewrite Hs, L0.
  - eexists. split.
    { cbn -[note_issues]. rewrite N1. reflexivity. }
    cbn -[note_issues check_listed]. rewrite N2. cbn -[check_listed]. unfold check_listed.
    rewrite L1, !andb_false_r. by eexists.
Qed.
End noting.

Section summary.
Import IssueSummary.

Lemma dedupe_spec l : forall seen,
  NoDup (map _issue_key (dedupe_from seen l))
  /\ (forall i, i ∈ dedupe_from seen l -> i ∈ l /\ _issue_key i ∉ seen)
  /\ (forall i, i ∈ l -> _issue_key i ∈ seen \/ listed i (dedupe_from seen l) = true).
Proof.
  induction l as [|i l IH]; intros seen; simpl.
  { split; [constructor|]. split; intros j Hj; by apply elem_of_nil in Hj. }
  case_bool_decide as Hin.
  - destruct (IH seen) as (H1 & H2 & H3). split; [done|]. split.
    + intros j Hj. destruct (H2 j Hj). split; [by right|done].
    + intros j [->|Hj]%elem_of_cons; [by left|by apply H3].
  - destruct (IH (_issue_key i :: seen)) as (H1 & H2 & H3). split; [|split].
    + simpl. constructor; [|done]. intros Hx. apply list_elem_of_In, in_map_iff in Hx as (j & E & Hj).
      apply list_elem_of_In, H2 in Hj as [_ Hj]. apply Hj. rewrite E. by left.
    + intros j [->|Hj]%elem_of_cons; [split; [by left|done]|]. destruct (H2 j Hj) as [? Hn].
      split; [by right|]. intros Hs. apply Hn. by right.
    + intros j [->|Hj]%elem_of_cons; [right; apply listed_in; by left|].
      destruct (H3 j Hj) as [[E|Hs]%elem_of_cons|Hl]; [|by left|].
      * right. apply bool_decide_eq_true. simpl. rewrite E. by left.
      * right. apply bool_decide_eq_true in Hl. apply bool_decide_eq_true. simpl. by right.
Qed.

Lemma NoDup_keys_app (l : list (list (string * val))) i :
  NoDup (map _issue_key l) -> listed i l = false -> NoDup (map _issue_key (l ++ [i])).
Proof.
  intros H Hl. rewrite map_app. apply NoDup_app. split; [done|]. split; [|by apply NoDup_singleton].
  intros k Hk ->%list_elem_of_singleton. by apply bool_decide_eq_false in Hl.
Qed.

Lemma add_blocking_spec found : forall b,
  NoDup (map _issue_key b) ->
  let b' := add_blocking found b in
  NoDup (map _issue_key b') /\ keeps b b' /\ covers _issue_blocks_current_task found b'
  /\ forall i, i ∈ b' -> i ∈ b \/ i ∈ found /\ _issue_blocks_current_task i = true.
Proof.
  induction found as [|i found IH]; intros b Hb; simpl.
  { split_and!; [done|by intros ?|apply covers_nil|by left]. }
  destruct (_issue_blocks_current_task i) eqn:Ei; cbn [andb]; [destruct (listed i b) eqn:El; cbn [negb]|].
  - destruct (IH b Hb) as (H1 & H2 & H3 & H4). split_and!; try done.
    + apply covers_cons. split; [|done]. intros _. by apply H2.
    + intros j Hj. destruct (H4 j Hj) as [|[]]; [by left|right]. split; [by right|done].
  - destruct (IH (b ++ [i])) as (H1 & H2 & H3 & H4); [by apply NoDup_keys_app|]. split_and!; try done.
    + eapply issues_keep_trans, H2. apply keeps_app.
    + apply covers_cons. split; [|done]. intros _. apply H2, listed_self.
    + intros j Hj. destruct (H4 j Hj) as [Hx|[]]; [|right; split; [by right|done]].
      apply elem_of_app in Hx as [Hx| ->%list_elem_of_singleton]; [by left|right]. split; [by left|done].
  - destruct (IH b Hb) as (H1 & H2 & H3 & H4). split_and!; try done.
    + apply covers_cons. split; [congruence|done].
    + intros j Hj. destruct (H4 j Hj) as [|[]]; [by left|right]. split; [by right|done].
Qed.

(** Among issues of different keys, deferring is filtering. *)
Lemma defer_filter blocking found : forall d,
  NoDup (map _issue_key found) -> (forall i, i ∈ found -> listed i d = false) ->
  defer blocking found d
  = d ++ filter (fun i => _issue_is_deferred i && negb (listed i blocking) = true) found.
Proof.
  induction found as [|i found IH]; intros d Hn Hd; simpl; [by rewrite app_nil_r|].
  simpl in Hn. apply NoDup_cons in Hn as [Hi Hn]. rewrite filter_cons.
  assert (Hdf : forall j, j ∈ found -> listed j d = false) by (intros j Hj; apply Hd; by right).
  destruct (listed i blocking) eqn:El; cbn [negb]; [rewrite andb_false_r; by apply IH|].
  rewrite andb_true_r, (Hd i) by by left. cbn [negb]. rewrite andb_true_r.
  destruct (_issue_is_deferred i); [|by apply IH]. rewrite decide_True by done.
  rewrite IH, <- app_assoc; [done..|]. intros j Hj. rewrite listed_app, Hdf by done. cbn [orb].
  apply bool_decide_eq_false. intros E. apply Hi. rewrite <- E. apply list_elem_of_In, in_map. by apply list_elem_of_In.
Qed.

(** What is kept of a list of issues: the first one of every key, in order. *)
Definition firsts (l kept : list (list (string * val))) : Prop :=
  sublist kept l /\ NoDup (map _issue_key kept)
  /\ forall n i, l !! n = Some i -> (forall j, j ∈ take n l -> _issue_key j <> _issue_key i) -> i ∈ kept.

Lemma dedupe_firsts l : firsts l (_dedupe_issues l).
Proof.
  assert (S : forall l seen, sublist (dedupe_from seen l) l).
  { induction l0 as [|i l0 IH]; intros seen; cbn [dedupe_from]; [constructor|].
    case_bool_decide; by constructor. }
  assert (K : forall l seen n i, l !! n = Some i -> (_issue_key i ∉ seen) ->
    (forall j, j ∈ take n l -> _issue_key j <> _issue_key i) -> i ∈ dedupe_from seen l).
  { induction l0 as [|j l0 IH]; intros seen n i Hn Hs Hj; [done|]. cbn [dedupe_from].
    destruct n as [|n]; cbn in Hn.
    - injection Hn as ->. rewrite bool_decide_eq_false_2 by done. by left.
    - assert (Hne : _issue_key j <> _issue_key i) by (apply Hj; by left).
      assert (Ht : forall x, x ∈ take n l0 -> _issue_key x <> _issue_key i) by (intros x Hx; apply Hj; by right).
      case_bool_decide; [by eapply IH|]. right. eapply IH; [done| |done].
      intros [E|?]%elem_of_cons; [by apply Hne|done]. }
  split; [apply S|]. split; [apply dedupe_spec|]. intros n i Hn Hj. eapply K; [done|apply not_elem_of_nil|done].
Qed.

(** Filters that agree on the list. *)
Lemma filter_agree {A} (p q : A -> bool) (l : list A) :
  (forall x, x ∈ l -> p x = q x) -> filter (fun x => p x = true) l = filter (fun x => q x = true) l.
Proof.
  induction l as [|x l IH]; intros H; [done|]. rewrite !filter_cons, (H x) by by left.
  rewrite IH; [done|]. intros y Hy. apply H. by right.
Qed.

(** An issue of another key is listed as before. *)
Lemma listed_other i j (l : list (list (string * val))) : _issue_key i <> _issue_key j -> listed j (l ++ [i]) = listed j l.
Proof. intros H. rewrite listed_app. rewrite bool_decide_eq_false_2; [by rewrite orb_false_r|by intros E; apply H]. Qed.

Lemma keys_apart i found : NoDup (map _issue_key (i :: found)) -> NoDup (map _issue_key found)
  /\ forall j, j ∈ found -> _issue_key i <> _issue_key j.
Proof.
  intros [Hi Hn]%NoDup_cons. split; [done|]. intros j Hj E. apply Hi. rewrite E.
  by apply list_elem_of_In, in_map, list_elem_of_In.
Qed.

(** Among issues of different keys, adding the blocking ones is filtering. *)
Lemma add_blocking_filter b0 found : forall b, NoDup (map _issue_key found) -> (forall i, i ∈ found -> listed i b = listed i b0) ->
  add_blocking found b = b ++ filter (fun i => _issue_blocks_current_task i && negb (listed i b0) = true) found.
Proof.
  induction found as [|i found IH]; intros b Hn Hb; cbn [add_blocking]; [by rewrite app_nil_r|].
  apply keys_apart in Hn as [Hn Ha]. rewrite filter_cons, (Hb i) by by left.
  destruct (_issue_blocks_current_task i && negb (listed i b0)).
  - rewrite decide_True by done. rewrite IH, <- app_assoc; [done..|]. intros j Hj.
    rewrite listed_other by by apply Ha. apply Hb. by right.
  - rewrite decide_False by done. apply IH; [done|]. intros j Hj. apply Hb. by right.
Qed.

(** And so is what normalisation adds to the deferred ones. *)
Lemma note_filter b d0 found : forall d, NoDup (map _issue_key found) -> (forall i, i ∈ found -> listed i d = listed i d0) ->
  covers _issue_blocks_current_task found b ->
  (ResultContract.note_issues found b d).2 = d ++ filter (fun i => _issue_is_deferred i && negb (listed i d0) = true) found.
Proof.
  induction found as [|i found IH]; intros d Hn Hd Hc; cbn [ResultContract.note_issues]; [by rewrite app_nil_r|].
  apply keys_apart in Hn as [Hn Ha]. apply covers_cons in Hc as [Hi Hc].
  replace (_issue_blocks_current_task i && negb (listed i b)) with false
    by (destruct (_issue_blocks_current_task i); [by rewrite Hi|done]).
  rewrite filter_cons, (Hd i) by by left.
  destruct (_issue_is_deferred i && negb (listed i d0)).
  - rewrite decide_True by done. rewrite IH, <- app_assoc; [done..| |done]. intros j Hj.
    rewrite listed_other by by apply Ha. apply Hd. by right.
  - rewrite decide_False by done. apply IH; [done| |done]. intros j Hj. apply Hd. by right.
Qed.

(** The deferrable issues in the order a result lists them: those that do not
    block, then those that are listed as blocking too. *)
Lemma deferred_lists found b : NoDup (map _issue_key found) -> covers _issue_blocks_current_task found b ->
  (ResultContract.note_issues found b (defer b found [])).2
  = filter (fun i => _issue_is_deferred i && negb (listed i b) = true) found
    ++ filter (fun i => _issue_is_deferred i && listed i b = true) found.
Proof.
  intros Hn Hc. rewrite defer_filter; [|done|by intros i _; apply bool_decide_eq_false, not_elem_of_nil]. cbn [app].
  set (d0 := filter _ found). rewrite (note_filter b d0) by done. f_equal. apply filter_agree. intros i Hi.
  assert (L : listed i d0 = _issue_is_deferred i && negb (listed i b)); [|by rewrite L; destruct (_issue_is_deferred i), (listed i b)].
  apply eq_true_iff_eq. split; [|intros H; by apply listed_in, list_elem_of_filter].
  intros H%bool_decide_eq_true%list_elem_of_In%in_map_iff. destruct H as (j & E & Hj).
  apply list_elem_of_In, list_elem_of_filter in Hj as [Hp Hj]. replace i with j; [done|].
  clear -Hn Hi Hj E. induction found as [|x found IH]; [by apply elem_of_nil in Hi|].
  apply keys_apart in Hn as [Hn Ha]. apply elem_of_cons in Hi as [->|Hi], Hj as [->|Hj]; [done|..].
  - exfalso. by apply (Ha j Hj).
  - exfalso. by apply (Ha i Hi).
  - by apply IH.
Qed.

(** The summary of any reporter: the issues found are the reporter's with one
    issue per key; the blocking ones are the given ones and every issue found
    that blocks, one per key; the deferred ones are exactly the issues found
    that are deferrable and not blocking; and success is allowed exactly when
    the reporter allows it and nothing blocks. *)
Theorem summary_exact rep issues given :
  _as_issue_list (vget "issues" rep) = Ok issues -> _as_issue_list (vget "blocking_issues" rep) = Ok given ->
  exists s found b,
    let fields := [vget "issues_found" s; vget "blocking_issues" s; vget "issues_deferred" s] in
    let deferrable i := _issue_is_deferred i && negb (listed i b) = true in
    build_engineering_issue_summary rep = Ok s
    /\ fields = map (fun l => VList (map VDict l)) [found; b; filter deferrable found]
    /\ vget "success_allowed" s
       = VBool (truthy (vget_or "success_allowed" (VBool true) rep) && bool_decide (b = []))
    /\ NoDup (map _issue_key found) /\ NoDup (map _issue_key b)
    /\ (forall i, i ∈ issues -> listed i found = true) /\ (forall i, i ∈ found -> i ∈ issues)
    /\ (forall i, i ∈ given -> listed i b = true) /\ covers _issue_blocks_current_task found b
    /\ (forall i, i ∈ b -> i ∈ given \/ i ∈ found /\ _issue_blocks_current_task i = true).
Proof.
  intros Hi Hg. unfold build_engineering_issue_summary. unfold_m. rewrite Hi, Hg. cbv zeta. unfold _dedupe_issues.
  destruct (dedupe_spec issues []) as (F1 & F2 & F3), (dedupe_spec given []) as (G1 & G2 & G3).
  destruct (add_blocking_spec (dedupe_from [] issues) _ G1) as (B1 & B2 & B3 & B4).
  set (found := dedupe_from [] issues) in *. set (b := add_blocking found _) in *.
  rewrite defer_filter; [|done|]. 2: { intros i _. by apply bool_decide_eq_false, not_elem_of_nil. }
  eexists _, found, b. split; [reflexivity|]. split_and!; try done.
  - intros i Hin. by destruct (F3 i Hin) as [?%elem_of_nil|].
  - intros i Hin. by apply F2.
  - intros i Hin. apply B2. by destruct (G3 i Hin) as [?%elem_of_nil|].
  - intros i [Hx|Hx]%B4; [left; by apply G2|by right].
Qed.

(** A normal result whose lists are complete passes validation unchanged. *)
Lemma validate_normal found b d t allowed r :
  normal found b d t allowed r ->
  covers _issue_blocks_current_task found b -> covers _issue_is_deferred found d ->
  ResultContract.validate_engineering_result_contract r = Ok r.
Proof.
  intros Hn Hb Hd. destruct (normalize_normal _ _ _ _ _ _ Hn Hb) as (r' & E & _ & Hsame).
  rewrite (note_done _ _ _ Hb Hd) in Hsame. rewrite (Hsame eq_refl) in E. clear Hsame.
  destruct Hn. unfold ResultContract.validate_engineering_result_contract.
  assert (Hm : ResultContract.missing_fields_of r = []).
  { unfold ResultContract.missing_fields_of, dmem. rewrite nm_deferred0. cbn [negb andb].
    rewrite app_nil_r, !filter_cons, nm_task0, nm_found0, nm_blocking0, nm_allowed0. reflexivity. }
  rewrite Hm. unfold_m. rewrite E. cbv zeta. unfold vget, vget_or.
  rewrite nm_found0, nm_deferred0, nm_blocking0, nm_allowed0, !map_map, !map_id.
  assert (Hc : truthy (VList (map VDict b)) && truthy (VBool allowed) = false).
  { destruct b as [|x b]; [done|]. by rewrite nm_blocks0. }
  rewrite Hc. assert (Ho : is_false (VBool allowed)
    && truthy match dget "ok" r with Some v => v | None => VBool false end = false)
    by (destruct allowed; [done|]; by rewrite nm_ok0).
  rewrite Ho, (rmap_ok _ found tt); [done|]. intros i Hi. unfold ResultContract.check_listed.
  replace (_is_not_in_scope_issue i && negb (listed i d)) with false.
  - destruct (_issue_blocks_current_task i) eqn:Ei; [|done]. by rewrite (Hb i Hi Ei).
  - destruct (_is_not_in_scope_issue i) eqn:Es; [|done]. rewrite (Hd i Hi); [done|].
    unfold _issue_is_deferred. rewrite Es. by repeat case_match.
Qed.

(** Applying the summary of a reporter to any result. *)
Lemma summary_runs rep issues given result :
  _as_issue_list (vget "issues" rep) = Ok issues -> _as_issue_list (vget "blocking_issues" rep) = Ok given ->
  exists r1 found b d t allowed,
    apply_engineering_issue_summary rep None result = Ok r1
    /\ normal found b d t allowed r1
    /\ covers _issue_blocks_current_task found b /\ covers _issue_is_deferred found d
    /\ allowed = truthy (vget_or "success_allowed" (VBool true) rep) && bool_decide (b = [])
    /\ (forall i, i ∈ b -> i ∈ given \/ i ∈ issues /\ _issue_blocks_current_task i = true)
    /\ (allowed = true -> vget "ok" r1 = vget "ok" (mapping result))
    /\ (forall k, k ∉ ["ok"; "task_result"; "engineering_result_contract"] ++ SUMMARY_FIELDS ->
        vget k r1 = vget k (mapping result))
    /\ found = _dedupe_issues issues /\ b = add_blocking found (_dedupe_issues given)
    /\ d = (ResultContract.note_issues found b (defer b found [])).2.
Proof.
  intros Hi Hg. unfold apply_engineering_issue_summary, build_engineering_issue_summary. unfold_m. rewrite Hi, Hg.
  cbv zeta. set (found := _dedupe_issues issues).
  destruct (dedupe_spec given []) as (G1 & G2 & _). fold (_dedupe_issues given) in G1.
  destruct (dedupe_spec issues []) as (_ & F2 & _). fold (_dedupe_issues issues) in F2. fold found in F2.
  destruct (add_blocking_spec found _ G1) as (_ & _ & Hb & Hin).
  set (b := add_blocking found _) in *. set (d := defer b found []). set (a := truthy _ && _).
  set (fields := [("issues_found", VList (map VDict found)); ("issues_deferred", VList (map VDict d));
    ("deferred_issues", VList (map VDict d)); ("blocking_issues", VList (map VDict b)); ("success_allowed", VBool a)]).
  match goal with |- context [rmap ?f SUMMARY_FIELDS] => change (rmap f SUMMARY_FIELDS) with (Ok fields) end.
  cbv iota beta. set (r0 := dupdate (mapping result) fields).
  assert (Hf : forall k, k ∉ SUMMARY_FIELDS -> vget k r0 = vget k (mapping result)).
  { intros k Hk. by apply vget_dupdate_not_in. }
  assert (Ef : vget_or "issues_found" (VList []) r0 = VList (map VDict found))
    by (apply vget_or_Some; unfold r0, fields, dupdate; cbn [fold_left fst snd]; by autorewrite with pydict).
  assert (Eb : vget_or "blocking_issues" (VList []) r0 = VList (map VDict b))
    by (apply vget_or_Some; unfold r0, fields, dupdate; cbn [fold_left fst snd]; by autorewrite with pydict).
  assert (Ea : vget_or "success_allowed" (VBool true) r0 = VBool a)
    by (apply vget_or_Some; unfold r0, fields, dupdate; cbn [fold_left fst snd]; by autorewrite with pydict).
  assert (Ed : forall v, vget_or "issues_deferred" v r0 = VList (map VDict d))
    by (intros v; apply vget_or_Some; unfold r0, fields, dupdate; cbn [fold_left fst snd]; by autorewrite with pydict).
  clearbody r0. clear fields.
  assert (exists r1, ResultContract.normalize_engineering_result_contract r0 = Ok r1) as [r1 E1].
  { unfold ResultContract.normalize_engineering_result_contract. unfold_m.
    rewrite Ef, Eb, Ed, !issue_list_dicts. by eexists. }
  destruct (normalize_spec _ _ E1) as (found' & b0 & d0 & t & allowed & Hn & Hal & Ho & Lf & Lb & Ld & K).
  rewrite Ef, issue_list_dicts in Lf. rewrite Eb, issue_list_dicts in Lb. rewrite Ed, issue_list_dicts in Ld.
  injection Lf as <-. injection Lb as <-. injection Ld as <-. cbv zeta in Hn.
  destruct (note_settled found b d Hb) as [En Hd]. rewrite En in Hn.
  cbv zeta in Hal. rewrite Ea, En in Hal. cbn [fst truthy] in Hal.
  eexists r1, found, b, _, t, allowed. split; [done|]. split; [exact Hn|]. split; [done|]. split; [done|]. split.
  { rewrite Hal. unfold a. by destruct (truthy _), (bool_decide (b = [])). }
  split.
  { intros i [Hi'|[Hi' Hbl]]%Hin; [left; by apply G2|right]. split; [by apply F2|done]. }
  split.
  - intros Ha. rewrite <- Hf by compute_decide. unfold vget. by rewrite Ho.
  - split; [|done]. intros k Hk. rewrite not_elem_of_app, !not_elem_of_cons in Hk. destruct Hk as [(? & ? & ? & _) Hk].
    rewrite <- Hf by done. unfold vget. rewrite K; [done| |done|done].
    unfold ResultContract.REQUIRED_ENGINEERING_RESULT_FIELDS. rewrite not_elem_of_cons. by split.
Qed.

(** C32. Every result that gets the issue summary of a reporter keeps the
    contract: it passes validation and validation changes nothing in it.  The
    issues found are the first one of every key among those the reporter
    lists; the blocking ones are the first of every key the reporter gives as
    such, then the issues found that block and are not among these; the
    deferred ones are the deferrable issues found, those that do not block
    before those that do.  Success is allowed exactly when the reporter allows
    it and nothing blocks, otherwise [ok] is taken back, and what the summary
    does not write is kept. *)
Theorem summarised_result_validates rep issues given result :
  _as_issue_list (vget "issues" rep) = Ok issues -> _as_issue_list (vget "blocking_issues" rep) = Ok given ->
  exists r1 found stated,
    let b := stated ++ filter (fun i => _issue_blocks_current_task i && negb (listed i stated) = true) found in
    let d := filter (fun i => _issue_is_deferred i && negb (listed i b) = true) found
             ++ filter (fun i => _issue_is_deferred i && listed i b = true) found in
    let allowed := truthy (vget_or "success_allowed" (VBool true) rep) && bool_decide (b = []) in
    apply_engineering_issue_summary rep None result = Ok r1
    /\ ResultContract.validate_engineering_result_contract r1 = Ok r1
    /\ firsts issues found /\ firsts given stated
    /\ [vget "issues_found" r1; vget "blocking_issues" r1; vget "issues_deferred" r1; vget "deferred_issues" r1]
       = map (fun l => VList (map VDict l)) [found; b; d; d]
    /\ vget "success_allowed" r1 = VBool allowed
    /\ vget "ok" r1 = (if allowed then vget "ok" (mapping result) else VBool false)
    /\ forall k, k ∉ ["ok"; "task_result"; "engineering_result_contract"] ++ SUMMARY_FIELDS ->
        vget k r1 = vget k (mapping result).
Proof.
  intros Hi Hg. destruct (summary_runs rep issues given result Hi Hg)
    as (r1 & found & b & d & t & a & E & Hn & Hb & Hd & Ea & _ & Ho & K & Ef & Eb & Ed).
  pose proof (dedupe_firsts issues) as Hf. rewrite <- Ef in Hf. destruct Hf as (Hf1 & Hf2 & Hf3).
  rewrite (deferred_lists _ _ Hf2 Hb) in Ed. rewrite (add_blocking_filter (_dedupe_issues given) found) in Eb by done.
  exists r1, found, (_dedupe_issues given). cbv zeta. rewrite <- Eb, <- Ed, <- Ea.
  split; [done|]. split; [by eapply validate_normal|]. split; [by split_and!|]. split; [apply dedupe_firsts|]. split_and!.
  - unfold vget. by rewrite (nm_found _ _ _ _ _ _ Hn), (nm_blocking _ _ _ _ _ _ Hn), (nm_deferred _ _ _ _ _ _ Hn),
      (nm_deferred' _ _ _ _ _ _ Hn).
  - unfold vget. by rewrite (nm_allowed _ _ _ _ _ _ Hn).
  - destruct a; [by apply Ho|]. unfold vget. by rewrite (nm_ok _ _ _ _ _ _ Hn).
  - exact K.
Qed.

(** A summary changes nothing but its own fields and [ok], and a result that is
    ok under it was ok before, and nothing blocks. *)
Lemma summary_keeps rep p r :
  apply_engineering_issue_summary rep None (VDict p) = Ok r ->
  (forall k, k ∉ ["task_result"; "engineering_result_contract"; "ok"] ++ SUMMARY_FIELDS -> vget k r = vget k p)
  /\ (vget "ok" r = VBool true -> vget "ok" p = VBool true /\ vget "blocking_issues" r = VList []).
Proof.
  unfold apply_engineering_issue_summary. unfold_m. intros H. bind_ok H. bind_ok H. cbn [mapping] in H.
  assert (Hk : map fst a0 = SUMMARY_FIELDS).
  { clear H. apply rmap_inv in E0. clear -E0. induction E0 as [|x y l l' Hy _ IH]; [done|]. bind_ok Hy.
    injection Hy as <-. cbn [map fst]. by rewrite IH. }
  assert (Hf : forall k, k ∉ SUMMARY_FIELDS -> vget k (dupdate p a0) = vget k p).
  { intros k Hn. apply vget_dupdate_not_in. unfold dkeys. by rewrite <- Hk in Hn. }
  destruct (normalize_spec _ _ H) as (found & b0 & d0 & t & allowed & Hn & Ha & Ho & _ & _ & _ & K). cbv zeta in *.
  split.
  - intros k Hnk. rewrite not_elem_of_app, !not_elem_of_cons in Hnk. destruct Hnk as [(? & ? & ? & _) Hnk].
    rewrite <- Hf by done. unfold vget. rewrite K; [done| |done|done].
    unfold ResultContract.REQUIRED_ENGINEERING_RESULT_FIELDS. rewrite not_elem_of_cons. by split.
  - intros Hok. destruct allowed; [|unfold vget in Hok; by rewrite (nm_ok _ _ _ _ _ _ Hn) in Hok].
    specialize (Ho eq_refl). symmetry in Ha. apply andb_true_iff in Ha as [_ Hb]. apply bool_decide_eq_true in Hb. split.
    + rewrite <- (Hf "ok") by compute_decide. unfold vget. by rewrite <- Ho.
    + unfold vget. rewrite (nm_blocking _ _ _ _ _ _ Hn), Hb. done.
Qed.
End summary.

Section reports.
Context (py_float : val -> res val) (now : val).
Import Report.

(** What the constructor leaves. *)
Record report_ok (r : EngineeringIssueReport) : Prop := {
  rp_texts : Forall (fun s => text (VStr s) = s)
    [issue_id r; source_package_id r; observed_symptom r; root_cause_hypothesis r; reason_if_not_fixed_now r];
  rp_files : Forall clean (affected_files r) /\ NoDup (affected_files r);
  rp_valid : validate r = Ok r;
  rp_created : py_float (created_at r) = Ok (created_at r) }.

Lemma file_list_spec items : forall seen,
  Forall clean (file_list seen items) /\ NoDup (file_list seen items)
  /\ forall f, f ∈ file_list seen items -> f ∉ seen.
Proof.
  induction items as [|x items IH]; intros seen; simpl.
  { split; [constructor|]. split; [constructor|]. by intros f ?%elem_of_nil. }
  destruct (String.eqb_spec (text x) ""); cbn [negb andb]; [apply IH|].
  case_bool_decide; cbn [negb]; [apply IH|]. destruct (IH (text x :: seen)) as (H1 & H2 & H3). split_and!.
  - constructor; [|done]. by apply text_clean.
  - constructor; [|done]. intros Hx%H3. apply Hx. by left.
  - intros f [->|Hf%H3]%elem_of_cons; [done|]. intros Hs. apply Hf. by right.
Qed.

Lemma file_list_strs l : forall seen, Forall clean l -> NoDup l -> (forall f, f ∈ l -> f ∉ seen) ->
  file_list seen (map VStr l) = l.
Proof.
  induction l as [|f l IH]; intros seen; [done|]. intros [[Hs Hn] Hc]%Forall_cons [Hf Hd]%NoDup_cons H. simpl.
  rewrite text_strip, Hs. apply String.eqb_neq in Hn as ->. cbn [negb andb].
  rewrite bool_decide_eq_false_2 by (apply H; by left). cbn [negb]. f_equal. apply IH; [done..|].
  intros g Hg [->|Hx]%elem_of_cons; [done|]. by apply (H g); [right|].
Qed.

Lemma as_float_ok v d x : (forall v x, py_float v = Ok x -> py_float x = Ok x) -> py_float d = Ok d ->
  _as_float py_float v d = Ok x -> py_float x = Ok x.
Proof.
  intros Hf Hd. unfold _as_float. destruct (py_float v) as [y|[]] eqn:E; intros [= <-]; try done. by eapply Hf.
Qed.

Lemma make_report_ok id package files symptom hypothesis risk blocks act why created r :
  (forall v x, py_float v = Ok x -> py_float x = Ok x) -> py_float now = Ok now ->
  make py_float now id package files symptom hypothesis risk blocks act why created = Ok r -> report_ok r.
Proof.
  intros Hf Hn. unfold make. unfold_m. intros H. bind_ok H.
  assert (V : forall q q', validate q = Ok q' -> q' = q).
  { intros q q'. unfold validate. repeat case_match; congruence. }
  pose proof (V _ _ H) as ->. constructor; cbn [issue_id source_package_id observed_symptom root_cause_hypothesis
    reason_if_not_fixed_now affected_files created_at].
  - repeat constructor; apply text_idemp.
  - destruct files; try (split; constructor). simpl. destruct (file_list_spec l []) as (? & ? & _). done.
  - done.
  - by eapply as_float_ok.
Qed.

(** The action and the risk level of a valid report. *)
Lemma validate_words r : validate r = Ok r -> risk_level r ∈ RISK_LEVELS /\ recommended_action r ∈ RECOMMENDED_ACTIONS
  /\ issue_id r <> "".
Proof.
  unfold validate. intros H.
  destruct (bool_decide (missing r = [])) eqn:Em; [|done]. cbn [negb] in H.
  destruct (bool_decide (affected_files r = [])); [done|].
  destruct (bool_decide (risk_level r ∈ _)) eqn:Er; [|done]. cbn [negb] in H.
  destruct (bool_decide (recommended_action r ∈ _)) eqn:Ea; [|done].
  apply bool_decide_eq_true in Em, Er, Ea. split_and!; try done.
  intros E. unfold missing in Em. rewrite filter_cons in Em. cbn [snd] in Em. by rewrite decide_True in Em.
Qed.

Lemma from_stored r : report_ok r -> from_mapping py_float now (to_dict r) = Ok r.
Proof.
  intros [Ht [Hc Hd] Hv Hf]. destruct (validate_words r Hv) as (Hr & Ha & Hi).
  repeat match goal with H : Forall _ (_ :: _) |- _ => apply Forall_cons in H as [? ?] end.
  assert (W : forall x, x ∈ RISK_LEVELS ++ RECOMMENDED_ACTIONS -> lower (text (VStr x)) = x /\ text (VStr x) = x).
  { assert (All : Forall (fun x => lower (text (VStr x)) = x /\ text (VStr x) = x) (RISK_LEVELS ++ RECOMMENDED_ACTIONS))
      by compute_decide. intros x. by apply (proj1 (Forall_forall _ _) All). }
  destruct (W (risk_level r)) as [W1 W2]; [by apply elem_of_app; left|].
  destruct (W (recommended_action r)) as [W3 W4]; [by apply elem_of_app; right|].
  rewrite W2 in W1. rewrite W4 in W3. clear W.
  unfold from_mapping. unfold_m.
  change (vget "created_at" (to_dict r)) with (created_at r).
  assert (A : forall d, _as_float py_float (created_at r) d = Ok (created_at r)) by (intros d; unfold _as_float; by rewrite Hf).
  rewrite A. unfold make. unfold_m. rewrite A.
  change (vget "issue_id" (to_dict r)) with (VStr (issue_id r)). 
  assert (Ei : py_or (VStr (issue_id r)) (vget "id" (to_dict r)) = VStr (issue_id r)).
  { unfold py_or. cbn [truthy]. by apply String.eqb_neq in Hi as ->. }
  rewrite Ei. change (vget "affected_files" (to_dict r)) with (VList (map VStr (affected_files r))).
  assert (Ef : file_list [] (map VStr (affected_files r)) = affected_files r)
    by (apply file_list_strs; [done|done|intros f _; apply not_elem_of_nil]).
  cbn [_as_file_list]. rewrite !Ef.
  cbn -[text lower validate]. rewrite !text_idemp.
  repeat match goal with H : text (VStr _) = _ |- _ => rewrite H; clear H end.
  rewrite W1, W3, <- Hv at 1. by destruct r.
Qed.

(** An issue report is read back from its record: whatever mapping a report was
    made from, the mapping it is stored as makes the same report, and the
    success gate decides stored reports as it decides the reports: success is
    allowed exactly when no report is of high risk and blocks its task. *)
Theorem reports_read_back rs ds :
  (forall v x, py_float v = Ok x -> py_float x = Ok x) -> py_float now = Ok now ->
  rmap (from_mapping py_float now) ds = Ok rs ->
  rmap (from_mapping py_float now) (map to_dict rs) = Ok rs
  /\ (let gate := validate_issue_reports_allow_success py_float now in
      gate (map (fun r => GivenMapping (to_dict r)) rs) = gate (map GivenReport rs)
      /\ exists g, gate (map GivenReport rs) = Ok g
           /\ (vget "success_allowed" g = VBool true
               <-> Forall (fun r => ~ (risk_level r = "high" /\ blocks_current_task r = true)) rs)).
Proof.
  intros Hf Hn H. apply rmap_inv in H.
  assert (R : Forall (fun r => from_mapping py_float now (to_dict r) = Ok r) rs).
  { clear -H Hf Hn. induction H as [|d r ds rs E _ IH]; constructor; [|done]. apply from_stored.
    unfold from_mapping in E. unfold_m. bind_ok E. by eapply make_report_ok. }
  split.
  - clear -R. induction R as [|r rs E _ IH]; [done|]. simpl. unfold_m. by rewrite E, IH.
  - assert (E1 : rmap (read_report py_float now) (map GivenReport rs) = Ok rs).
    { clear. induction rs as [|r rs IH]; [done|]. simpl. unfold_m. by rewrite IH. }
    assert (E2 : rmap (read_report py_float now) (map (fun r => GivenMapping (to_dict r)) rs) = Ok rs).
    { clear -R. induction R as [|r rs E _ IH]; [done|]. simpl. unfold_m. by rewrite E, IH. }
    unfold validate_issue_reports_allow_success. unfold_m. rewrite E1, E2. split; [done|].
    eexists. split; [reflexivity|]. cbn [vget dget String.eqb Ascii.eqb Bool.eqb].
    split.
    + intros [= H1%bool_decide_eq_true%map_eq_nil]. apply Forall_forall. intros r Hr [Hh Hb].
      enough (Hx : r ∈ filter (fun r => blocks_success r = true) rs) by (rewrite H1 in Hx; by apply elem_of_nil in Hx).
      apply list_elem_of_filter. split; [|done]. unfold blocks_success. by rewrite Hh, Hb.
    + intros Hall. f_equal. apply bool_decide_eq_true.
      destruct (filter _ rs) as [|r l] eqn:E; [done|]. exfalso.
      assert (Hx : r ∈ filter (fun r => blocks_success r = true) rs) by (rewrite E; by left).
      apply list_elem_of_filter in Hx as [Hb Hr]. apply (proj1 (Forall_forall _ _) Hall) in Hr. apply Hr.
      by apply andb_true_iff in Hb as [Hh%String.eqb_eq Hb].
Qed.
End reports.

(** ** Concrete issues *)

Definition demo_issue : list (string * val) :=
  [("issue_id", VStr "i1"); ("blocks_current_task", VBool true); ("reason", VStr "Out_of_scope for now")].
Definition demo_later : list (string * val) :=
  [("summary", VStr "slow build"); ("recommended_action", VStr "report_only")].

Definition demo_result : list (string * val) :=
  [("ok", VBool true); ("issues_found", VList [VDict demo_issue; VDict demo_later])].

Example demo_key : _issue_key demo_later
  = "anon:[('category', ''), ('path', ''), ('reason', 'slow build'), ('recommended_action', 'report_only'), ('severity', '')]".
Proof. vm_compute. reflexivity. Qed.

(** The second pass defers the blocking issue. *)
Lemma normalize_settles_witness :
  exists r1 r2, ResultContract.normalize_engineering_result_contract demo_result = Ok r1
    /\ vget "issues_deferred" r1 = VList [VDict demo_later]
    /\ ResultContract.normalize_engineering_result_contract r1 = Ok r2 /\ r2 <> r1
    /\ ResultContract.normalize_engineering_result_contract r2 = Ok r2.
Proof.
  assert (E : exists r1, ResultContract.normalize_engineering_result_contract demo_result = Ok r1
    /\ vget "issues_found" r1 = VList (map VDict [demo_issue; demo_later])
    /\ vget "issues_deferred" r1 = VList (map VDict [demo_later]))
    by (eexists; split; [|split]; vm_compute; reflexivity).
  destruct E as (r1 & E1 & Hf & Hd). destruct (normalize_settles _ _ E1) as (r2 & E2 & E3 & H).
  exists r1, r2. split; [exact E1|]. split; [exact Hd|]. split; [exact E2|]. split; [|exact E3].
  intros Hx. apply (H _ _ Hf Hd) in Hx. specialize (Hx demo_issue). 
  assert (listed demo_issue [demo_later] = true) as C; [|vm_compute in C; discriminate].
  apply Hx; [by left|vm_compute; reflexivity].
Defined.

Lemma normalized_reports_witness :
  exists r1, ResultContract.normalize_engineering_result_contract demo_result = Ok r1
    /\ vget "ok" r1 = VBool false.
Proof.
  assert (E : exists r1, ResultContract.normalize_engineering_result_contract demo_result = Ok r1
    /\ vget "success_allowed" r1 = VBool false) by (eexists; split; vm_compute; reflexivity).
  destruct E as (r1 & E1 & Ha). exists r1. split; [exact E1|].
  destruct (normalized_reports _ _ E1) as (found & b & allowed & _ & _ & Ha' & _ & _ & Hok & _).
  rewrite Ha in Ha'. injection Ha' as <-. by apply Hok.
Defined.

Lemma out_of_scope_blocker_refused_witness :
  ResultContract.validate_engineering_result_contract
    [("ok", VBool false); ("task_result", VDict []); ("issues_found", VList [VDict demo_issue]);
     ("issues_deferred", VList []); ("deferred_issues", VList []); ("blocking_issues", VList []);
     ("success_allowed", VBool false)]
  = Raise (ValueError "not_in_scope_issue_must_be_deferred").
Proof. apply (out_of_scope_blocker_refused demo_issue []); vm_compute; reflexivity. Defined.

Definition demo_reporter : list (string * val) :=
  [("issues", VList [VDict demo_issue; VDict demo_later; VDict demo_issue]); ("success_allowed", VBool true)].

Lemma summary_exact_witness :
  exists s, IssueSummary.build_engineering_issue_summary demo_reporter = Ok s
    /\ vget "issues_deferred" s = VList [VDict demo_later] /\ vget "success_allowed" s = VBool false.
Proof.
  assert (Hi : IssueSummary._as_issue_list (vget "issues" demo_reporter) = Ok [demo_issue; demo_later; demo_issue])
    by (vm_compute; reflexivity).
  assert (Hg : IssueSummary._as_issue_list (vget "blocking_issues" demo_reporter) = Ok []) by (vm_compute; reflexivity).
  destruct (summary_exact _ _ _ Hi Hg) as (s & found & b & E & _).
  exists s. split; [exact E|]. clear Hi Hg. revert E. 
  intros E. vm_compute in E. injection E as <-. split; vm_compute; reflexivity.
Defined.

Lemma summarised_result_validates_witness :
  exists r1, IssueSummary.apply_engineering_issue_summary demo_reporter None (VDict [("ok", VBool true)]) = Ok r1
    /\ ResultContract.validate_engineering_result_contract r1 = Ok r1.
Proof.
  destruct (summarised_result_validates demo_reporter [demo_issue; demo_later; demo_issue] [] (VDict [("ok", VBool true)]))
    as (r1 & found & stated & E & V & _); [vm_compute; reflexivity..|].
  exists r1. by split.
Defined.

Definition demo_report : list (string * val) :=
  [("id", VStr " i7 "); ("source_package_id", VStr "p1");
   ("affected_files", VList [VStr "a.py"; VStr " a.py"; VStr ""; VStr "b.py"]); ("observed_symptom", VStr "slow");
   ("root_cause_hypothesis", VStr "cache"); ("risk_level", VStr "HIGH"); ("blocks_current_task", VInt 1);
   ("recommended_action", VStr "queue_for_next_package"); ("reason_if_not_fixed_now", VStr "needs a design");
   ("created_at", VInt 5)].

Definition demo_time (v : val) : res val :=
  match v with VInt _ => Ok v | _ => Raise (TypeError "float() argument must be a string or a number") end.

Lemma reports_read_back_witness :
  exists r, Report.from_mapping demo_time (VInt 9) demo_report = Ok r
    /\ Report.affected_files r = ["a.py"; "b.py"]
    /\ Report.from_mapping demo_time (VInt 9) (Report.to_dict r) = Ok r.
Proof.
  assert (E : exists r, Report.from_mapping demo_time (VInt 9) demo_report = Ok r
    /\ Report.affected_files r = ["a.py"; "b.py"]) by (eexists; split; vm_compute; reflexivity).
  destruct E as (r & E & Hf). exists r. split; [exact E|]. split; [exact Hf|].
  destruct (reports_read_back demo_time (VInt 9) [r] [demo_report]) as [H _].
  - intros v x. by destruct v; intros [= <-].
  - reflexivity.
  - cbn [rmap]. unfold_m. by rewrite E.
  - cbn [rmap map] in H. unfold_m. destruct (Report.from_mapping _ _ (Report.to_dict r)) as [r'|]; [|discriminate].
    by injection H as ->.
Defined.
