(* ===== verification/Adaptive.v ===== *)
(** * Adaptive observations, deltas and the loop contract

    The passive records that one cycle of the engineering loop leaves, each a
    module named after its class:

    - [Observation]: [core/adaptive/adaptive_observation.py];
    - [Delta]: [core/adaptive/adaptive_delta.py];
    - [Loop]: [core/adaptive/adaptive_loop_state.py] and
      [adaptive_loop_contract.py];
    - [AdaptiveLoopCoordinator]: [core/tasks/adaptive_loop_coordinator.py],
      which puts them on a cycle together with the contract and the machine of
      [Engineering.Replan].

    The only floats here are time stamps.  They are never computed with: [now]
    is what the clock reads and [py_float] is the built-in [float], whatever
    they are. *)

From S2P Require Import Prelude PyVal Lineage Completion Engineering.

(** [_list(value)] and [_count(value)] *)
Definition list_of (v : val) : list val := match v with VList l => l | _ => [] end.
Definition count_of_list (v : val) : Z := Z.of_nat (length (list_of v)).

(** [max(0, n)] *)
Definition at_least_0 (n : Z) : Z := Z.max 0 n.

(** ** Observations *)
Module Observation.

Record AdaptiveObservation : Type := Make {
  goal_id : string;
  cycle_index : Z;
  runtime_state : string;
  runtime_ok : bool;
  adaptive_decision : string;
  stop_reason : string;
  evidence_count : Z;
  validated_evidence_count : Z;
  remaining_task_count : Z;
  completed_task_count : Z;
  failed_task_count : Z;
  blocked_task_count : Z;
  root_cause_available : bool;
  source_cycle : list (string * val);
  created_at : val }.

Section observation.
Context (py_float : val -> res val) (now : val).

(** The constructor with its [__post_init__], on counts that are integers. *)
Definition make (goal : val) (index : Z) (state : val) (ok : bool) (decision stop : val)
    (evidence validated remaining completed failed blocked : Z) (root_cause : bool)
    (cycle : list (string * val)) (created : val) : res AdaptiveObservation :=
  created ← py_float (py_or created now);
  Ok (Make (text_or goal "goal") (at_least_0 index) (text state) ok (text decision) (text stop)
        (at_least_0 evidence) (at_least_0 validated) (at_least_0 remaining) (at_least_0 completed)
        (at_least_0 failed) (at_least_0 blocked) root_cause cycle created).

Definition from_cycle (record : list (string * val)) : res AdaptiveObservation :=
  let runtime_contract := mapping (vget "engineering_runtime_contract" record) in
  let runtime_result := mapping (py_or (vget "runtime_result" runtime_contract) (vget "runtime_result" record)) in
  let adaptive := mapping (py_or (vget "adaptive_decision" runtime_contract)
                                 (vget "adaptive_decision_record" record)) in
  let progress := mapping (vget "progress" adaptive) in
  let evidence_chain := py_or (py_or (vget "evidence_chain" record) (vget "evidence_chain" adaptive)) (VList []) in
  let summary := mapping evidence_chain in
  let root_cause := mapping (py_or (py_or (vget "root_cause" record) (vget "root_cause" adaptive))
                                   (vget "runtime_root_cause" runtime_contract)) in
  index ← int_field "cycle_index" 0 record;
  evidence ← py_int (py_or (py_or (vget "validated_count" summary) (vget "evidence_count" summary))
                           (VInt (count_of_list evidence_chain)));
  validated ← py_int (py_or (py_or (vget "validated_count" summary)
                                   (VInt (count_of_list (vget "validated_evidence_ids" summary))))
                            (VInt 0));
  created ← py_float (py_or (vget "updated_at" record) now);
  make (VStr (text (py_or (vget "goal_id" record) (vget "goal_id" runtime_contract)))) index
    (VStr (text (py_or (vget "runtime_state" record) (vget "state" runtime_result))))
    (truthy (py_or (py_or (vget "ok" record) (vget "ok" runtime_contract)) (vget "ok" runtime_result)))
    (VStr (text (py_or (vget "adaptive_decision" record) (vget "decision" adaptive))))
    (VStr (text (py_or (vget "stop_reason" runtime_result) (vget "stop_reason" runtime_contract))))
    evidence validated
    (count_of_list (vget "remaining_tasks" progress)) (count_of_list (vget "completed_tasks" progress))
    (count_of_list (vget "failed_tasks" progress)) (count_of_list (vget "blocked_tasks" progress))
    (truthy (VDict root_cause)) record created.

Definition from_mapping (record : list (string * val)) : res AdaptiveObservation :=
  index ← int_field "cycle_index" 0 record;
  evidence ← int_field "evidence_count" 0 record;
  validated ← int_field "validated_evidence_count" 0 record;
  remaining ← int_field "remaining_task_count" 0 record;
  completed ← int_field "completed_task_count" 0 record;
  failed ← int_field "failed_task_count" 0 record;
  blocked ← int_field "blocked_task_count" 0 record;
  created ← py_float (py_or (vget "created_at" record) now);
  make (vget "goal_id" record) index (vget "runtime_state" record) (truthy (vget "runtime_ok" record))
    (vget "adaptive_decision" record) (vget "stop_reason" record) evidence validated remaining completed
    failed blocked (truthy (vget "root_cause_available" record)) (mapping (vget "source_cycle" record)) created.

Definition to_dict (o : AdaptiveObservation) : list (string * val) :=
  [("schema", VStr "zero.adaptive_loop.observation.v2"); ("goal_id", VStr (goal_id o));
   ("cycle_index", VInt (cycle_index o)); ("runtime_state", VStr (runtime_state o));
   ("runtime_ok", VBool (runtime_ok o)); ("adaptive_decision", VStr (adaptive_decision o));
   ("stop_reason", VStr (stop_reason o)); ("evidence_count", VInt (evidence_count o));
   ("validated_evidence_count", VInt (validated_evidence_count o));
   ("remaining_task_count", VInt (remaining_task_count o));
   ("completed_task_count", VInt (completed_task_count o));
   ("failed_task_count", VInt (failed_task_count o)); ("blocked_task_count", VInt (blocked_task_count o));
   ("root_cause_available", VBool (root_cause_available o)); ("created_at", created_at o);
   ("execution_path", VDict
     [("observation_only", VBool true); ("executes_tasks", VBool false); ("persists_records", VBool false);
      ("mutates_runtime", VBool false); ("mutates_memory", VBool false)])].

Definition build_adaptive_observation_from_cycle (cycle : list (string * val)) : res (list (string * val)) :=
  o ← from_cycle cycle; Ok (to_dict o).
End observation.
End Observation.

(** ** Deltas *)
Module Delta.
Import Observation.

(** What is given as an observation: an object of the class or a value. *)
Inductive given : Type :=
  | GivenObject (o : AdaptiveObservation)
  | GivenValue (v : val).

Record AdaptiveDelta : Type := Make {
  goal_id : string;
  previous_cycle_index : option Z;
  current_cycle_index : Z;
  runtime_state_changed : bool;
  adaptive_decision_changed : bool;
  evidence_count_delta : Z;
  validated_evidence_delta : Z;
  remaining_task_delta : Z;
  completed_task_delta : Z;
  failed_task_delta : Z;
  blocked_task_delta : Z;
  has_progress : bool;
  regressed : bool;
  stalled : bool;
  reason : string;
  previous_observation : list (string * val);
  current_observation : list (string * val) }.

(** The delta of two observations. *)
Definition compare (previous current : AdaptiveObservation) : AdaptiveDelta :=
  let evidence_delta := (evidence_count current - evidence_count previous)%Z in
  let validated_delta := (validated_evidence_count current - validated_evidence_count previous)%Z in
  let remaining_delta := (remaining_task_count current - remaining_task_count previous)%Z in
  let completed_delta := (completed_task_count current - completed_task_count previous)%Z in
  let failed_delta := (failed_task_count current - failed_task_count previous)%Z in
  let blocked_delta := (blocked_task_count current - blocked_task_count previous)%Z in
  let progress := (0 <? completed_delta)%Z || (remaining_delta <? 0)%Z || (0 <? evidence_delta)%Z
                  || (0 <? validated_delta)%Z in
  let regressed := (0 <? remaining_delta)%Z || (0 <? failed_delta)%Z || (0 <? blocked_delta)%Z in
  let state_changed := negb (runtime_state current =? runtime_state previous)%string in
  let decision_changed := negb (adaptive_decision current =? adaptive_decision previous)%string in
  let stalled := negb progress && negb regressed && negb state_changed && negb decision_changed in
  Make (Observation.goal_id current) (Some (cycle_index previous)) (cycle_index current) state_changed
    decision_changed evidence_delta validated_delta remaining_delta completed_delta failed_delta
    blocked_delta progress regressed stalled
    (if progress then "progress_detected" else if regressed then "regression_detected"
     else if stalled then "stalled" else "state_or_decision_changed")
    (Observation.to_dict previous) (Observation.to_dict current).

Definition initial (current : AdaptiveObservation) : AdaptiveDelta :=
  Make (Observation.goal_id current) None (cycle_index current) false false 0 0 0 0 0 0 false false false
    "initial_observation" [] (Observation.to_dict current).

Section delta.
Context (py_float : val -> res val) (now : val).

Definition _observation (value : given) : res (option AdaptiveObservation) :=
  match value with
  | GivenObject o => Ok (Some o)
  | GivenValue VNone => Ok None
  | GivenValue (VDict d) => o ← from_mapping py_float now d; Ok (Some o)
  | GivenValue _ => Raise (TypeError "adaptive_delta_requires_observation_or_mapping")
  end.

Definition from_observations (previous current : given) : res AdaptiveDelta :=
  previous_obs ← _observation previous;
  current_obs ← _observation current;
  match current_obs, previous_obs with
  | None, _ => Raise (AssertionErr "")
  | Some c, None => Ok (initial c)
  | Some c, Some p => Ok (compare p c)
  end.

Definition to_dict (d : AdaptiveDelta) : list (string * val) :=
  [("schema", VStr "zero.adaptive_loop.delta.v2"); ("goal_id", VStr (goal_id d));
   ("previous_cycle_index", match previous_cycle_index d with Some n => VInt n | None => VNone end);
   ("current_cycle_index", VInt (current_cycle_index d));
   ("runtime_state_changed", VBool (runtime_state_changed d));
   ("adaptive_decision_changed", VBool (adaptive_decision_changed d));
   ("evidence_count_delta", VInt (evidence_count_delta d));
   ("validated_evidence_delta", VInt (validated_evidence_delta d));
   ("remaining_task_delta", VInt (remaining_task_delta d));
   ("completed_task_delta", VInt (completed_task_delta d));
   ("failed_task_delta", VInt (failed_task_delta d)); ("blocked_task_delta", VInt (blocked_task_delta d));
   ("has_progress", VBool (has_progress d)); ("regressed", VBool (regressed d));
   ("stalled", VBool (stalled d)); ("reason", VStr (reason d));
   ("previous_observation", VDict (previous_observation d));
   ("current_observation", VDict (current_observation d));
   ("execution_path", VDict
     [("delta_only", VBool true); ("executes_tasks", VBool false); ("persists_records", VBool false);
      ("mutates_runtime", VBool false); ("mutates_memory", VBool false)])].

Definition build_adaptive_delta (previous current : given) : res (list (string * val)) :=
  d ← from_observations previous current; Ok (to_dict d).
End delta.
End Delta.

(** ** The loop contract *)
Module Loop.

Definition AdaptiveLoopState : list string := ["initial"; "progressing"; "regressed"; "stalled"; "terminal"].

Definition clean_adaptive_loop_state (value : val) : res string :=
  let raw := lower (text value) in
  if bool_decide (raw ∈ AdaptiveLoopState) then Ok raw
  else Raise (ValueError "adaptive_loop_requires_valid_state").

Definition classify_adaptive_loop_state (delta state : list (string * val)) : res string :=
  stops ← (if truthy (vget "terminal" state) then Ok true
           else val_in (vget "loop_action" state)
                  ["complete"; "blocked"; "refuse"; "stop"; "wait_for_user"]);
  Ok (if stops : bool then "terminal"
      else match vget "previous_cycle_index" delta with
           | VNone => "initial"
           | _ => if truthy (vget "regressed" delta) then "regressed"
                  else if truthy (vget "has_progress" delta) then "progressing"
                  else if truthy (vget "stalled" delta) then "stalled"
                  else "progressing"
           end).

Record AdaptiveLoopContract : Type := Contract {
  goal_id : string;
  cycle_index : Z;
  loop_state : string;
  observation : list (string * val);
  delta : list (string * val);
  replan_contract : list (string * val);
  replan_state : list (string * val);
  terminal : bool;
  next_cycle_allowed : bool;
  reason : string }.

(** The constructor with its [__post_init__]. *)
Definition make_contract (goal : string) (index : Z) (state : string)
    (obs dlt contract replan : list (string * val)) (ends next : bool) (why : string) :
    AdaptiveLoopContract :=
  let state := text_or (VStr state) "initial" in
  Contract (text_or (VStr goal) "goal") (at_least_0 index) state obs dlt contract replan ends next
    (text_or (VStr why) state).

Definition from_cycle (record : list (string * val)) : res AdaptiveLoopContract :=
  let obs := mapping (vget "adaptive_observation" record) in
  let dlt := mapping (vget "adaptive_delta" record) in
  let replan := mapping (vget "adaptive_replan_state" record) in
  state ← classify_adaptive_loop_state dlt replan;
  let ends := truthy (vget "terminal" replan) in
  let next := truthy (vget "creates_continuation" replan) && negb ends in
  index ← py_int (py_or (py_or (vget "cycle_index" record) (vget "cycle_index" obs)) (VInt 0));
  Ok (make_contract (text (py_or (vget "goal_id" record) (vget "goal_id" obs))) index state obs dlt
        (mapping (vget "adaptive_replan_contract" record)) replan ends next
        (text (py_or (py_or (vget "reason" dlt) (vget "reason" replan)) (VStr state)))).

Definition to_dict (c : AdaptiveLoopContract) : list (string * val) :=
  [("schema", VStr "zero.adaptive_loop.contract.v2"); ("goal_id", VStr (goal_id c));
   ("cycle_index", VInt (cycle_index c)); ("loop_state", VStr (loop_state c));
   ("observation", VDict (observation c)); ("delta", VDict (delta c));
   ("adaptive_replan_contract", VDict (replan_contract c)); ("adaptive_replan_state", VDict (replan_state c));
   ("terminal", VBool (terminal c)); ("next_cycle_allowed", VBool (next_cycle_allowed c));
   ("reason", VStr (reason c));
   ("execution_path", VDict
     [("contract_only", VBool true); ("executes_tasks", VBool false); ("creates_continuation", VBool false);
      ("creates_replan", VBool false); ("persists_records", VBool false); ("mutates_runtime", VBool false);
      ("mutates_memory", VBool false)])].

Definition build_adaptive_loop_contract (cycle : list (string * val)) : res (list (string * val)) :=
  c ← from_cycle cycle; Ok (to_dict c).
End Loop.

(** ** The coordinator *)
Module AdaptiveLoopCoordinator.
Section coordinator.
Context {S : Type} `{Gate : AttestationGate S}.
Context (py_float : val -> res val) (now : val).

Definition marker : val := VDict
  [("schema", VStr "zero.adaptive_loop_coordinator.v1"); ("attached_replan_contract", VBool true);
   ("attached_replan_state", VBool true); ("attached_observation", VBool true);
   ("attached_delta", VBool true); ("attached_loop_contract", VBool true);
   ("execution_path", VDict
     [("coordinator_only", VBool true); ("executes_tasks", VBool false); ("creates_continuation", VBool false);
      ("creates_replan", VBool false); ("persists_records", VBool false); ("mutates_runtime", VBool false);
      ("mutates_memory", VBool false)])].

(** [cycle] without its attestation, which is [att]; the machine is the default one. *)
Definition attach_cycle_controls (s : S) (cycle : list (string * val)) (att : option nat)
    (previous_observation : val) (replan_count continuation_count max_replans max_continuations : val) :
    res (list (string * val)) :=
  let contract := Replan.contract_to_dict (Replan.build_adaptive_replan_contract cycle replan_count
                    continuation_count max_replans max_continuations) in
  let updated := dset "adaptive_replan_contract" (VDict contract) cycle in
  state ← Replan.evaluate_contract s contract "continue" (VStr (str_or_empty (vget "goal_id" updated))) att;
  let updated := dset "adaptive_replan_state" (VDict (Replan.result_to_dict state)) updated in
  obs ← Observation.build_adaptive_observation_from_cycle py_float now updated;
  let updated := dset "adaptive_observation" (VDict obs) updated in
  dlt ← Delta.build_adaptive_delta py_float now (Delta.GivenValue previous_observation)
          (Delta.GivenValue (VDict obs));
  let updated := dset "adaptive_delta" (VDict dlt) updated in
  loop ← Loop.build_adaptive_loop_contract updated;
  Ok (dset "adaptive_loop_coordinator" marker (dset "adaptive_loop_contract" (VDict loop) updated)).
End coordinator.
End AdaptiveLoopCoordinator.

(** ** Lemmas *)

(** What [__post_init__] leaves: stripped texts and counts that are not negative. *)
Record observation_ok (o : Observation.AdaptiveObservation) : Prop := {
  ob_goal : text (VStr (Observation.goal_id o)) = Observation.goal_id o /\ Observation.goal_id o <> "";
  ob_state : text (VStr (Observation.runtime_state o)) = Observation.runtime_state o;
  ob_decision : text (VStr (Observation.adaptive_decision o)) = Observation.adaptive_decision o;
  ob_stop : text (VStr (Observation.stop_reason o)) = Observation.stop_reason o;
  ob_counts : Forall (fun n => 0 <= n)%Z
    [Observation.cycle_index o; Observation.evidence_count o; Observation.validated_evidence_count o;
     Observation.remaining_task_count o; Observation.completed_task_count o;
     Observation.failed_task_count o; Observation.blocked_task_count o] }.

Section observation_facts.
Context (py_float : val -> res val) (now : val).

Lemma make_ok g i st ok d sp e v r c f b rc cy cr o :
  Observation.make py_float now g i st ok d sp e v r c f b rc cy cr = Ok o ->
  observation_ok o /\ py_float (py_or cr now) = Ok (Observation.created_at o)
  /\ Observation.source_cycle o = cy.
Proof.
  unfold Observation.make. unfold_m. destruct (py_float _) as [x|]; [|done]. intros [= <-]. simpl.
  split; [|done]. constructor; simpl; rewrite ?text_idemp; try done; [by apply text_or_ok|].
  repeat constructor; unfold at_least_0; lia.
Qed.

(** An observation of a cycle is well formed and its time stamp came from [float]. *)
Lemma from_cycle_ok cycle o : Observation.from_cycle py_float now cycle = Ok o ->
  observation_ok o /\ exists v, py_float v = Ok (Observation.created_at o).
Proof.
  unfold Observation.from_cycle. unfold_m. intros H. repeat bind_ok H.
  destruct (make_ok _ _ _ _ _ _ _ _ _ _ _ _ _ _ _ _ H) as (Ho & Hv & _). split; [exact Ho|by eexists].
Qed.

Lemma from_mapping_ok d o : Observation.from_mapping py_float now d = Ok o -> observation_ok o.
Proof. unfold Observation.from_mapping. unfold_m. intros H. repeat bind_ok H. by destruct (make_ok _ _ _ _ _ _ _ _ _ _ _ _ _ _ _ _ H). Qed.

(** Reading the dict of an observation. *)
Lemma from_mapping_stored o :
  Observation.from_mapping py_float now (Observation.to_dict o) =
  (created ← py_float (py_or (Observation.created_at o) now);
   Observation.make py_float now (VStr (Observation.goal_id o)) (Observation.cycle_index o)
     (VStr (Observation.runtime_state o)) (Observation.runtime_ok o) (VStr (Observation.adaptive_decision o))
     (VStr (Observation.stop_reason o)) (Observation.evidence_count o)
     (Observation.validated_evidence_count o) (Observation.remaining_task_count o)
     (Observation.completed_task_count o) (Observation.failed_task_count o)
     (Observation.blocked_task_count o) (Observation.root_cause_available o) [] created).
Proof.
  unfold Observation.from_mapping.
  pose proof (fun k n => int_field_0 k n (Observation.to_dict o)) as I.
  rewrite (I "cycle_index" (Observation.cycle_index o) eq_refl),
    (I "evidence_count" (Observation.evidence_count o) eq_refl),
    (I "validated_evidence_count" (Observation.validated_evidence_count o) eq_refl),
    (I "remaining_task_count" (Observation.remaining_task_count o) eq_refl),
    (I "completed_task_count" (Observation.completed_task_count o) eq_refl),
    (I "failed_task_count" (Observation.failed_task_count o) eq_refl),
    (I "blocked_task_count" (Observation.blocked_task_count o) eq_refl).
  reflexivity.
Qed.

(** An observation read back from its dict. *)
Lemma from_mapping_to_dict o :
  observation_ok o -> truthy (Observation.created_at o) = true ->
  py_float (Observation.created_at o) = Ok (Observation.created_at o) ->
  exists o', Observation.from_mapping py_float now (Observation.to_dict o) = Ok o'
    /\ Observation.to_dict o' = Observation.to_dict o /\ Observation.source_cycle o' = [].
Proof.
  intros [[Hg Hgn] Hst Hd Hsp Hc] Ht Hf.
  repeat match goal with H : Forall _ (_ :: _) |- _ => apply Forall_cons in H as [? ?] end.
  rewrite from_mapping_stored. unfold_m.
  assert (E : py_or (Observation.created_at o) now = Observation.created_at o) by (unfold py_or; by rewrite Ht).
  rewrite E, Hf. unfold Observation.make. unfold_m. rewrite E, Hf. eexists. split; [reflexivity|].
  split; [|reflexivity]. unfold Observation.to_dict at 1. simpl. unfold Observation.to_dict, at_least_0.
  cbn [vget dget String.eqb Ascii.eqb Bool.eqb truthy].
  rewrite !Z.max_r by done. rewrite Hst, Hd, Hsp, text_or_self by done. done.
Qed.
End observation_facts.

(** Where the record of a delta stands between two loop states. *)
Lemma classify_total d r :
  exists st, Loop.classify_adaptive_loop_state d (Replan.result_to_dict r) = Ok st /\ st <> "".
Proof.
  unfold Loop.classify_adaptive_loop_state.
  change (vget "loop_action" (Replan.result_to_dict r)) with (VStr (Replan.r_action r)).
  change (vget "terminal" (Replan.result_to_dict r)) with (VBool (Replan.r_terminal r)).
  rewrite val_in_str. unfold_m. simpl truthy. destruct (Replan.r_terminal r); [by eexists|].
  eexists. split; [reflexivity|]. repeat case_match; done.
Qed.

(** The keys the coordinator writes. *)
Definition CONTROL_KEYS : list string :=
  ["adaptive_replan_contract"; "adaptive_replan_state"; "adaptive_observation"; "adaptive_delta";
   "adaptive_loop_contract"; "adaptive_loop_coordinator"].

(** What a cycle with its controls holds. *)
Record controlled (py_float : val -> res val) (now previous : val)
    (cycle : list (string * val)) (r : Replan.AdaptiveReplanStateResult)
    (o : Observation.AdaptiveObservation) (d : Delta.AdaptiveDelta) (l : Loop.AdaptiveLoopContract)
    (c : list (string * val)) : Prop := {
  cn_state : vget "adaptive_replan_state" c = VDict (Replan.result_to_dict r);
  cn_observation : vget "adaptive_observation" c = VDict (Observation.to_dict o);
  cn_observed : observation_ok o;
  cn_stamped : exists v, py_float v = Ok (Observation.created_at o);
  cn_delta : vget "adaptive_delta" c = VDict (Delta.to_dict d);
  cn_compared : Delta.from_observations py_float now (Delta.GivenValue previous)
    (Delta.GivenValue (VDict (Observation.to_dict o))) = Ok d;
  cn_loop : vget "adaptive_loop_contract" c = VDict (Loop.to_dict l);
  cn_loop_state : Loop.classify_adaptive_loop_state (Delta.to_dict d) (Replan.result_to_dict r)
    = Ok (Loop.loop_state l);
  cn_next : Loop.next_cycle_allowed l = Replan.r_continuation r && negb (Replan.r_terminal r);
  cn_terminal : Loop.terminal l = Replan.r_terminal r;
  cn_loop_replan : Loop.replan_state l = Replan.result_to_dict r;
  cn_kept : forall k, k ∉ CONTROL_KEYS -> vget k c = vget k cycle }.

Lemma classify_clean d r st :
  Loop.classify_adaptive_loop_state d r = Ok st -> text_or (VStr st) "initial" = st.
Proof.
  unfold Loop.classify_adaptive_loop_state. unfold_m. intros H. bind_ok H. injection H as <-.
  repeat case_match; vm_compute; reflexivity.
Qed.

Section controls.
Context {S : Type} `{Gate : AttestationGate S}.
Context (py_float : val -> res val) (now : val).

Lemma attach_controls_spec s cycle att previous rc cc mr mc c :
  AdaptiveLoopCoordinator.attach_cycle_controls py_float now s cycle att previous rc cc mr mc = Ok c ->
  exists r o d l,
    Replan.evaluate_contract s (Replan.contract_to_dict
      (Replan.build_adaptive_replan_contract cycle rc cc mr mc)) "continue"
      (VStr (str_or_empty (vget "goal_id" cycle))) att = Ok r
    /\ controlled py_float now previous cycle r o d l c.
Proof.
  unfold AdaptiveLoopCoordinator.attach_cycle_controls. unfold_m. intros H.
  rewrite vget_dset_ne in H by done. set (ct := Replan.contract_to_dict _) in *.
  destruct (Replan.evaluate_contract _ _ _ _ _) as [r|] eqn:Er; [|done].
  unfold Observation.build_adaptive_observation_from_cycle in H. unfold_m.
  destruct (Observation.from_cycle _ _ _) as [o|] eqn:Eo; [|done].
  unfold Delta.build_adaptive_delta in H. unfold_m.
  destruct (Delta.from_observations _ _ _ _) as [d|] eqn:Ed; [|done].
  unfold Loop.build_adaptive_loop_contract, Loop.from_cycle in H. unfold_m.
  autorewrite with pydict in H. cbn [mapping] in H.
  destruct (Loop.classify_adaptive_loop_state _ _) as [st|] eqn:Est; [|done].
  destruct (py_int _) as [i|]; [|done]. injection H as <-.
  exists r, o, d. eexists. split; [reflexivity|].
  constructor; try (by autorewrite with pydict).
  - exact (proj1 (from_cycle_ok _ _ _ _ Eo)).
  - exact (proj2 (from_cycle_ok _ _ _ _ Eo)).
  - unfold Loop.make_contract. cbn [Loop.loop_state]. by rewrite (classify_clean _ _ _ Est).
  - intros k Hk. unfold CONTROL_KEYS in Hk. rewrite !not_elem_of_cons in Hk. destruct_and! Hk.
    by autorewrite with pydict.
Qed.

(** A float and the clock: [float] of a float is that float, and the clock reads floats. *)
Definition float_laws : Prop :=
  py_float now = Ok now /\ forall v x, py_float v = Ok x -> py_float x = Ok x.

(** What a loop gives as the previous observation: nothing, or the dict of one. *)
Definition readable (previous : val) : Prop :=
  previous = VNone \/ previous = VDict []
  \/ exists o, observation_ok o /\ py_float (Observation.created_at o) = Ok (Observation.created_at o)
       /\ previous = VDict (Observation.to_dict o).

Lemma from_dict_total o :
  float_laws -> py_float (Observation.created_at o) = Ok (Observation.created_at o) ->
  exists o', Observation.from_mapping py_float now (Observation.to_dict o) = Ok o'.
Proof.
  intros [Hn Hf] Hc. rewrite from_mapping_stored. unfold_m.
  assert (P : forall v, py_float v = Ok v -> py_float (py_or v now) = Ok (py_or v now)).
  { intros v Hv. unfold py_or. by destruct (truthy v). }
  rewrite (P _ Hc). unfold Observation.make. unfold_m. rewrite (P _ (P _ Hc)). by eexists.
Qed.

Lemma readable_total previous : float_laws -> readable previous ->
  exists p, Delta._observation py_float now (Delta.GivenValue previous) = Ok p.
Proof.
  intros Hf [->|[->|(o & _ & Hc & ->)]]; [by eexists| |].
  - destruct Hf as [Hn _]. simpl. unfold Observation.from_mapping, int_field, py_or. unfold_m. simpl.
    rewrite Hn. unfold Observation.make, py_or. unfold_m. destruct (truthy now); rewrite Hn; by eexists.
  - destruct (from_dict_total o Hf Hc) as [o' E]. unfold Delta._observation.
    rewrite E. by eexists.
Qed.

(** The cycle can be observed: its counts and its time stamp can be read. *)
Definition observable (cycle : list (string * val)) : Prop :=
  exists o, Observation.from_cycle py_float now cycle = Ok o.

(** The keys an observation is made from. *)
Definition OBSERVED_KEYS : list string :=
  ["engineering_runtime_contract"; "runtime_result"; "adaptive_decision_record"; "evidence_chain";
   "root_cause"; "cycle_index"; "updated_at"; "goal_id"; "runtime_state"; "ok"; "adaptive_decision"].

Lemma observable_dset k v cycle : k ∉ OBSERVED_KEYS -> observable cycle -> observable (dset k v cycle).
Proof.
  unfold observable. intros Hk [o H]. revert H. unfold Observation.from_cycle, int_field.
  assert (K : forall k', k' ∈ OBSERVED_KEYS -> vget k' (dset k v cycle) = vget k' cycle).
  { intros k' Hk'. apply vget_dset_ne. by intros ->. }
  rewrite !K by (apply (bool_decide_eq_true _); vm_compute; reflexivity). unfold_m. intros H.
  repeat bind_ok H. unfold Observation.make in *. unfold_m. bind_ok H. by eexists.
Qed.

Lemma observable_undset k v cycle : k ∉ OBSERVED_KEYS -> observable (dset k v cycle) -> observable cycle.
Proof.
  unfold observable. intros Hk [o H]. revert H. unfold Observation.from_cycle, int_field.
  assert (K : forall k', k' ∈ OBSERVED_KEYS -> vget k' (dset k v cycle) = vget k' cycle).
  { intros k' Hk'. apply vget_dset_ne. by intros ->. }
  rewrite !K by (apply (bool_decide_eq_true _); vm_compute; reflexivity). unfold_m. intros H.
  repeat bind_ok H. unfold Observation.make in *. unfold_m. bind_ok H. by eexists.
Qed.

(** The four numbers an observation reads from a cycle: its index, the counts
    of its evidence and of the validated evidence, and its time stamp. *)
Definition numbers_read (cycle : list (string * val)) : Prop :=
  let contract := mapping (vget "engineering_runtime_contract" cycle) in
  let adaptive := mapping (py_or (vget "adaptive_decision" contract) (vget "adaptive_decision_record" cycle)) in
  let chain := py_or (py_or (vget "evidence_chain" cycle) (vget "evidence_chain" adaptive)) (VList []) in
  let summary := mapping chain in
  (exists i, py_int (py_or (vget "cycle_index" cycle) (VInt 0)) = Ok i)
  /\ (exists e, py_int (py_or (py_or (vget "validated_count" summary) (vget "evidence_count" summary))
                  (VInt (count_of_list chain))) = Ok e)
  /\ (exists e, py_int (py_or (py_or (vget "validated_count" summary)
                  (VInt (count_of_list (vget "validated_evidence_ids" summary)))) (VInt 0)) = Ok e)
  /\ (exists t, py_float (py_or (vget "updated_at" cycle) now) = Ok t).

Lemma observable_iff cycle : float_laws -> observable cycle <-> numbers_read cycle.
Proof.
  intros [Hn Hf]. unfold observable, numbers_read, Observation.from_cycle, int_field, Observation.make. cbv zeta.
  unfold_m. split.
  - intros [o H]. repeat bind_ok H. by split_and!; eexists.
  - intros ((i & ->) & (e & ->) & (v & ->) & t & E). rewrite E. unfold py_or at 1.
    destruct (truthy t); [rewrite (Hf _ _ E)|rewrite Hn]; by eexists.
Qed.

(** The coordinator answers whenever the cycle can be observed. *)
Lemma attach_controls_total s cycle att previous rc cc mr mc :
  float_laws -> readable previous -> observable cycle ->
  exists c, AdaptiveLoopCoordinator.attach_cycle_controls py_float now s cycle att previous rc cc mr mc = Ok c.
Proof.
  intros Hf Hp [o0 Ho].
  unfold AdaptiveLoopCoordinator.attach_cycle_controls. unfold_m. rewrite vget_dset_ne by done.
  destruct (replan_within_budget s cycle rc cc mr mc (VStr (str_or_empty (vget "goal_id" cycle))) att)
    as (r & Hr & _). rewrite Hr. cbv zeta.
  set (c1 := dset "adaptive_replan_contract" _ cycle).
  destruct (observable_dset "adaptive_replan_state" (VDict (Replan.result_to_dict r)) c1) as [o H];
    [by compute_decide|apply observable_dset; [by compute_decide|by exists o0]|].
  unfold Observation.build_adaptive_observation_from_cycle. unfold_m. rewrite H.
  assert (Hc : py_float (Observation.created_at o) = Ok (Observation.created_at o)).
  { apply from_cycle_ok in H as (_ & v & H). by eapply (proj2 Hf). }
  unfold Delta.build_adaptive_delta, Delta.from_observations. unfold_m.
  destruct (readable_total previous Hf Hp) as [p ->]. destruct (from_dict_total o Hf Hc) as [o' E].
  unfold Delta._observation. unfold_m. rewrite E.
  set (d := match p with Some _ => _ | None => _ end).
  assert (exists d', d = Ok d') as [d' ->] by (unfold d; destruct p; by eexists).
  unfold Loop.build_adaptive_loop_contract, Loop.from_cycle. unfold_m. autorewrite with pydict. cbn [mapping].
  destruct (classify_total (Delta.to_dict d') r) as (st & -> & _).
  unfold c1. autorewrite with pydict.
  assert (exists i, py_int (py_or (py_or (vget "cycle_index" cycle)
    (vget "cycle_index" (Observation.to_dict o))) (VInt 0)) = Ok i) as [i ->]; [|by eexists].
  unfold Observation.from_cycle, int_field in Ho. unfold_m. bind_ok Ho. clear Ho.
  change (vget "cycle_index" (Observation.to_dict o)) with (VInt (Observation.cycle_index o)).
  unfold py_or in *. destruct (truthy (vget "cycle_index" cycle)) eqn:Et; [rewrite Et; by eexists|].
  destruct (truthy (VInt _)); by eexists.
Qed.

(** And only then. *)
Lemma attach_observable s cycle att previous rc cc mr mc c :
  AdaptiveLoopCoordinator.attach_cycle_controls py_float now s cycle att previous rc cc mr mc = Ok c -> observable cycle.
Proof.
  unfold AdaptiveLoopCoordinator.attach_cycle_controls. unfold_m. intros H.
  destruct (Replan.evaluate_contract _ _ _ _ _) as [r|] eqn:Er; [|done].
  unfold Observation.build_adaptive_observation_from_cycle in H. unfold_m.
  destruct (Observation.from_cycle _ _ _) as [o|] eqn:Eo; [|done]. clear H Er.
  match type of Eo with Observation.from_cycle _ _ (dset ?k1 ?v1 (dset ?k2 ?v2 cycle)) = _ =>
    assert (O : observable (dset k1 v1 (dset k2 v2 cycle))) by (exists o; exact Eo); generalize v1, v2, O end.
  clear. intros v1 v2 O. apply observable_undset in O; [|compute_decide]. apply observable_undset in O; [exact O|compute_decide].
Qed.

(** C29. The controls put on a cycle keep the loop within its budgets.  With a
    clock that reads floats and no previous observation, or a stored one, the
    coordinator answers exactly for the cycles whose index, evidence counts
    and time stamp can be read as numbers.  The loop contract it then attaches
    allows another cycle exactly when the planner's decision is to continue
    and fewer continuations than allowed have been made, never together with
    being terminal, and every other key of the cycle is as before. *)
Theorem controls_within_budget s cycle att previous rc cc mr mc :
  float_laws -> readable previous ->
  let attach := AdaptiveLoopCoordinator.attach_cycle_controls py_float now s cycle att previous rc cc mr mc in
  ((exists c, attach = Ok c) <-> numbers_read cycle)
  /\ forall c, attach = Ok c -> exists l,
    vget "adaptive_loop_contract" c = VDict (Loop.to_dict l)
    /\ (Loop.next_cycle_allowed l = true <->
          Replan.normalize_engineering_adaptive_decision (VStr (Replan.original_decision cycle)) = "continue"
          /\ (Replan._limit cc 0 < Replan._limit mc 0)%Z)
    /\ (Loop.terminal l = true -> Loop.next_cycle_allowed l = false)
    /\ forall k, k ∉ CONTROL_KEYS -> vget k c = vget k cycle.
Proof.
  intros Hf Hp. cbv zeta. rewrite <- (observable_iff cycle Hf). split.
  { split; [|by apply attach_controls_total]. intros [c H]. by eapply attach_observable. }
  intros c Hc. destruct (attach_controls_spec _ _ _ _ _ _ _ _ _ Hc) as (r & o & d & l & Hr & C). exists l.
  destruct (replan_within_budget s cycle rc cc mr mc (VStr (str_or_empty (vget "goal_id" cycle))) att)
    as (r' & Hr' & Hcont & _ & Hterm & _).
  rewrite Hr in Hr'. injection Hr' as <-. destruct C.
  split; [done|]. rewrite <- Hcont, cn_next0, cn_terminal0, Hterm.
  destruct (Replan.r_continuation r), (Replan.r_replan r); by split_and!.
Qed.

(** Comparing the stored records of two observations is comparing the
    observations: nothing a delta looks at is lost when an observation is
    written to its dict and read back. *)
Theorem stored_observations_compare p c :
  Forall (fun o => observation_ok o /\ truthy (Observation.created_at o) = true
            /\ py_float (Observation.created_at o) = Ok (Observation.created_at o)) [p; c] ->
  let stored o := Delta.GivenValue (VDict (Observation.to_dict o)) in
  Delta.from_observations py_float now (stored p) (stored c)
    = Delta.from_observations py_float now (Delta.GivenObject p) (Delta.GivenObject c)
  /\ Delta.from_observations py_float now (stored p) (stored c) = Ok (Delta.compare p c).
Proof.
  intros [(Hp & Tp & Fp) [(Hc & Tc & Fc) _]%Forall_cons]%Forall_cons stored.
  destruct (from_mapping_to_dict py_float now p Hp Tp Fp) as (p' & Ep & Dp & _).
  destruct (from_mapping_to_dict py_float now c Hc Tc Fc) as (c' & Ec & Dc & _).
  assert (E : Delta.compare p' c' = Delta.compare p c).
  { assert (F : forall x y, Observation.to_dict x = Observation.to_dict y ->
      [VStr (Observation.goal_id x); VInt (Observation.cycle_index x); VStr (Observation.runtime_state x);
       VStr (Observation.adaptive_decision x); VInt (Observation.evidence_count x);
       VInt (Observation.validated_evidence_count x); VInt (Observation.remaining_task_count x);
       VInt (Observation.completed_task_count x); VInt (Observation.failed_task_count x);
       VInt (Observation.blocked_task_count x)] =
      [VStr (Observation.goal_id y); VInt (Observation.cycle_index y); VStr (Observation.runtime_state y);
       VStr (Observation.adaptive_decision y); VInt (Observation.evidence_count y);
       VInt (Observation.validated_evidence_count y); VInt (Observation.remaining_task_count y);
       VInt (Observation.completed_task_count y); VInt (Observation.failed_task_count y);
       VInt (Observation.blocked_task_count y)]) by (intros x y H; injection H; intros; congruence).
    pose proof (F _ _ Dp) as Fp'. pose proof (F _ _ Dc) as Fc'. clear F. injection Fp'. injection Fc'.
    intros. unfold Delta.compare. clear Ep Ec Hp Hc Fp Fc.
    repeat match goal with H : _ p' = _ |- _ => rewrite H; clear H | H : _ c' = _ |- _ => rewrite H; clear H end.
    reflexivity. }
  unfold Delta.from_observations, Delta._observation, stored. unfold_m. rewrite Ep, Ec, E. done.
Qed.

End controls.

(** The loop state of a cycle that does not end the loop says what changed
    since the cycle before: regressed exactly when more tasks remain, failed or
    are blocked, stalled exactly when no count moved for the better and state
    and decision are the same, progressing otherwise; never initial. *)
Theorem loop_state_classified p c r st :
  Loop.classify_adaptive_loop_state (Delta.to_dict (Delta.compare p c)) (Replan.result_to_dict r) = Ok st ->
  Replan.r_terminal r = false -> Replan.r_action r ∉ Replan.TERMINAL_STATES ->
  let grew f := (f p < f c)%Z in
  (st = "regressed" <-> grew Observation.remaining_task_count \/ grew Observation.failed_task_count
                        \/ grew Observation.blocked_task_count)
  /\ (st = "stalled" <->
        Observation.remaining_task_count c = Observation.remaining_task_count p
        /\ ~ grew Observation.failed_task_count /\ ~ grew Observation.blocked_task_count
        /\ ~ grew Observation.completed_task_count /\ ~ grew Observation.evidence_count
        /\ ~ grew Observation.validated_evidence_count
        /\ Observation.runtime_state c = Observation.runtime_state p
        /\ Observation.adaptive_decision c = Observation.adaptive_decision p)
  /\ st ∈ ["regressed"; "stalled"; "progressing"].
Proof.
  unfold Loop.classify_adaptive_loop_state.
  change (vget "loop_action" (Replan.result_to_dict r)) with (VStr (Replan.r_action r)).
  change (vget "terminal" (Replan.result_to_dict r)) with (VBool (Replan.r_terminal r)).
  intros H Ht Ha. rewrite Ht, val_in_str in H. unfold_m. cbn [truthy] in H.
  rewrite bool_decide_eq_false_2 in H by set_solver. injection H as <-.
  change (vget "previous_cycle_index" _) with (VInt (Observation.cycle_index p)).
  change (truthy (vget "regressed" _)) with (Delta.regressed (Delta.compare p c)).
  change (truthy (vget "has_progress" _)) with (Delta.has_progress (Delta.compare p c)).
  change (truthy (vget "stalled" _)) with (Delta.stalled (Delta.compare p c)).
  cbn [Delta.compare Delta.regressed Delta.has_progress Delta.stalled]. clear Ht Ha.
  repeat match goal with |- context [(?a <? ?b)%Z] => destruct (Z.ltb_spec a b) end; cbn [orb negb andb].
  all: try (split_and!; [split; [lia|done]|split; [done|lia]|set_solver]).
  all: try (split_and!; [split; [done|lia]|split; [done|lia]|set_solver]).
  all: destruct (String.eqb_spec (Observation.runtime_state c) (Observation.runtime_state p)),
    (String.eqb_spec (Observation.adaptive_decision c) (Observation.adaptive_decision p)); cbn [orb negb andb].
  all: split_and!; [split; [done|lia]| |set_solver].
  all: split; [try done|intros ?; try done; naive_solver].
  intros _. split_and!; try done; lia.
Qed.

(** ** Concrete runs

    Time stamps are whole numbers here. *)

Definition demo_float (v : val) : res val :=
  match v with VInt _ => Ok v | _ => Raise (TypeError "float() argument must be a string or a number") end.

Lemma demo_float_laws : float_laws demo_float (VInt 1000).
Proof. split; [done|]. intros v x. by destruct v; intros [= <-]. Qed.

Definition demo_cycle (remaining : list val) : list (string * val) :=
  [("goal_id", VStr "g1"); ("cycle_index", VInt 0); ("adaptive_decision", VStr " Continue ");
   ("adaptive_decision_record", VDict [("progress", VDict [("remaining_tasks", VList remaining)])]);
   ("updated_at", VInt 1000)].

Lemma controls_within_budget_witness :
  exists c l,
    AdaptiveLoopCoordinator.attach_cycle_controls (Gate := completion_gate demo_sha256) demo_float (VInt 1000)
      no_results (demo_cycle []) None (VDict []) (VInt 0) (VInt 2) (VInt 1) (VInt 3) = Ok c
    /\ vget "adaptive_loop_contract" c = VDict (Loop.to_dict l) /\ Loop.next_cycle_allowed l = true.
Proof.
  destruct (controls_within_budget (Gate := completion_gate demo_sha256) demo_float (VInt 1000) no_results
    (demo_cycle []) None (VDict []) (VInt 0) (VInt 2) (VInt 1) (VInt 3)) as ([_ Ht] & H).
  - exact demo_float_laws.
  - by right; left.
  - destruct Ht as [c Hc]; [split_and!; eexists; vm_compute; reflexivity|]. destruct (H c Hc) as (l & Hl & Hn & _).
    exists c, l. split; [exact Hc|]. split; [exact Hl|]. apply Hn. split; vm_compute; reflexivity.
Defined.

Definition demo_observation (remaining : Z) : Observation.AdaptiveObservation :=
  Observation.Make "g1" 1 "finished" true "continue" "" 2 2 remaining 1 0 0 false [] (VInt 1000).

Lemma stored_observations_compare_witness :
  Delta.from_observations demo_float (VInt 1000)
    (Delta.GivenValue (VDict (Observation.to_dict (demo_observation 3))))
    (Delta.GivenValue (VDict (Observation.to_dict (demo_observation 2))))
  = Ok (Delta.compare (demo_observation 3) (demo_observation 2)).
Proof.
  apply (stored_observations_compare demo_float (VInt 1000) (demo_observation 3) (demo_observation 2)).
  repeat constructor; simpl; try done; lia.
Defined.

Definition demo_going : Replan.AdaptiveReplanStateResult :=
  Replan.Result true "continue" "continue" "continue" false "" "going" "" false true "" [].

(** One task more than before is a regression. *)
Lemma loop_state_classified_witness :
  Loop.classify_adaptive_loop_state
    (Delta.to_dict (Delta.compare (demo_observation 2) (demo_observation 3)))
    (Replan.result_to_dict demo_going) = Ok "regressed" /\ "regressed" <> "stalled".
Proof.
  assert (E : Loop.classify_adaptive_loop_state
    (Delta.to_dict (Delta.compare (demo_observation 2) (demo_observation 3)))
    (Replan.result_to_dict demo_going) = Ok "regressed") by (vm_compute; reflexivity).
  split; [exact E|].
  destruct (loop_state_classified _ _ _ _ E) as (_ & H & _); [reflexivity| |].
  - apply (bool_decide_eq_false _). vm_compute. reflexivity.
  - intros Hx. apply H in Hx as [Hx _]. simpl in Hx. lia.
Defined.
