(* ===== verification/Runtimes.v ===== *)
(** * The books of the engineering loop

    The three frozen records the loop carries from cycle to cycle, each a
    module:

    - [Continuation]: [core/adaptive/continuation_runtime.py], the current goal,
      its identity and how many continuations were made;
    - [Replans]: [core/adaptive/replan_runtime.py], the replans made;
    - [SessionRuntime]: [core/session/engineering_session_runtime.py], which
      mirrors both and keeps the cycles.

    A constructor takes keyword arguments, which are a dict here, with the
    dataclass's defaults for those not given; [replace] is the constructor on
    the fields overlaid with the changes.  [authority] below is whether the
    caller passes the private token of the module. *)

From stdpp Require Import pretty.
From S2P Require Import Prelude PyVal Lineage Completion Engineering.

(** A call of a dataclass: its arguments over its defaults. *)
Definition call_fields (required : list string) (defaults kwargs : list (string * val)) :
    res (list (string * val)) :=
  if negb (forallb (fun k => bool_decide (k ∈ required ++ dkeys defaults)) (dkeys kwargs))
  then Raise (TypeError "__init__() got an unexpected keyword argument")
  else if negb (forallb (fun k => dmem k kwargs) required)
  then Raise (TypeError "__init__() missing required arguments")
  else Ok (dupdate defaults kwargs).

(** The entries of a dict under the given keys. *)
Definition pick (fields : list string) (d : list (string * val)) : list (string * val) :=
  map (fun f => (f, vget f d)) fields.

(** ** Continuations *)
Module Continuation.

Definition IDENTITY : list string :=
  ["root_goal_id"; "source_goal_id"; "goal_lineage_id"; "branch_type"; "branch_id"; "session_id";
   "runtime_session_id"].

Record ContinuationRuntime : Type := Make {
  current_goal_id : string;
  continuation_count : Z;
  max_continuations : Z;
  last_continuation_goal_id : string;
  last_work_item : list (string * val);
  identity : list (string * val) }.

Definition defaults : list (string * val) :=
  [("continuation_count", VInt 0); ("max_continuations", VInt 1); ("last_continuation_goal_id", VStr "");
   ("last_work_item", VDict []); ("root_goal_id", VStr ""); ("source_goal_id", VStr "");
   ("goal_lineage_id", VStr ""); ("branch_type", VStr "root"); ("branch_id", VStr "");
   ("session_id", VStr ""); ("runtime_session_id", VStr "")].

Definition limit_reached (r : ContinuationRuntime) : bool := (max_continuations r <=? continuation_count r)%Z.

Definition to_dict (r : ContinuationRuntime) : list (string * val) :=
  [("schema", VStr "zero.continuation_runtime.v2"); ("current_goal_id", VStr (current_goal_id r));
   ("goal_id", VStr (current_goal_id r)); ("continuation_count", VInt (continuation_count r));
   ("max_continuations", VInt (max_continuations r));
   ("last_continuation_goal_id", VStr (last_continuation_goal_id r));
   ("last_work_item", VDict (last_work_item r))]
  ++ pick IDENTITY (identity r)
  ++ [("limit_reached", VBool (limit_reached r));
   ("execution_path", VDict
     [("continuation_runtime_bookkeeping_only", VBool true); ("executes_tasks", VBool false);
      ("persists_records", VBool false); ("mutates_runtime", VBool false); ("mutates_memory", VBool false);
      ("preserves_runtime_identity", VBool true)])].

Section continuation.
Context (sha256_hex : string -> string).

Definition _identity_from_lineage (current : string) (lineage : val) : res (list (string * val)) :=
  let data := mapping lineage in
  canonical ← (if truthy (VDict data) && truthy (vget "root_goal_id" data)
               then extract_goal_lineage sha256_hex (VDict data) true true
               else create_root_goal_lineage sha256_hex current None None);
  Ok (pick IDENTITY canonical).

(** The constructor with its [__post_init__]. *)
Definition new (kwargs : list (string * val)) : res ContinuationRuntime :=
  f ← call_fields ["current_goal_id"] defaults kwargs;
  let current := text_or (vget "current_goal_id" f) "goal" in
  ids ← _identity_from_lineage current (VDict (pick IDENTITY f ++ [("goal_id", VStr current)]));
  Ok (Make current (Replan._limit (vget "continuation_count" f) 0)
        (Replan._limit (vget "max_continuations" f) 1) (text (vget "last_continuation_goal_id" f))
        (mapping (vget "last_work_item" f)) ids).

Definition start (current : string) (count max : val) (goal_lineage : val) : res ContinuationRuntime :=
  ids ← _identity_from_lineage current goal_lineage;
  new ([("current_goal_id", VStr current); ("continuation_count", count); ("max_continuations", max)] ++ ids).

Definition replace (authority : bool) (changes : list (string * val)) (r : ContinuationRuntime) :
    res ContinuationRuntime :=
  if negb authority then Raise (PermissionError "continuation_mutation_authority_required")
  else new (dupdate
    ([("current_goal_id", VStr (current_goal_id r)); ("continuation_count", VInt (continuation_count r));
      ("max_continuations", VInt (max_continuations r));
      ("last_continuation_goal_id", VStr (last_continuation_goal_id r));
      ("last_work_item", VDict (last_work_item r))] ++ pick IDENTITY (identity r)) changes).

Definition record_work_item (work_item : list (string * val)) (r : ContinuationRuntime) :
    res ContinuationRuntime :=
  if limit_reached r then Raise (RuntimeErr "continuation_limit_reached")
  else
    let goal_id := text_or (vget "goal_id" work_item) (current_goal_id r) in
    let branch_id := text_or (py_or (vget "branch_id" work_item) (vget "continuation_goal_id" work_item)) goal_id in
    branch ← create_goal_branch_lineage sha256_hex (VDict (to_dict r)) goal_id "continuation" branch_id;
    replace true
      ([("current_goal_id", VStr goal_id); ("continuation_count", VInt (continuation_count r + 1));
        ("last_continuation_goal_id", VStr goal_id); ("last_work_item", VDict work_item)]
       ++ pick IDENTITY branch) r.
End continuation.
End Continuation.

(** ** Replans *)
Module Replans.

Definition IDENTITY : list string :=
  ["root_goal_id"; "source_goal_id"; "goal_id"; "goal_lineage_id"; "branch_type"; "branch_id";
   "session_id"; "runtime_session_id"].

(** Without a lineage the identity is kept as it was given. *)
Record ReplanRuntime : Type := Make {
  replan_count : Z;
  max_replans : Z;
  last_replan_record : list (string * val);
  identity : list (string * val) }.

Definition defaults : list (string * val) :=
  [("replan_count", VInt 0); ("max_replans", VInt 1); ("last_replan_record", VDict []);
   ("root_goal_id", VStr ""); ("source_goal_id", VStr ""); ("goal_id", VStr "");
   ("goal_lineage_id", VStr ""); ("branch_type", VStr "root"); ("branch_id", VStr "");
   ("session_id", VStr ""); ("runtime_session_id", VStr "")].

Definition limit_reached (r : ReplanRuntime) : bool := (max_replans r <=? replan_count r)%Z.

Definition to_dict (r : ReplanRuntime) : list (string * val) :=
  [("schema", VStr "zero.replan_runtime.v2"); ("replan_count", VInt (replan_count r));
   ("max_replans", VInt (max_replans r)); ("last_replan_record", VDict (last_replan_record r))]
  ++ pick IDENTITY (identity r)
  ++ [("limit_reached", VBool (limit_reached r));
   ("execution_path", VDict
     [("replan_runtime_bookkeeping_only", VBool true); ("executes_tasks", VBool false);
      ("persists_records", VBool false); ("mutates_runtime", VBool false); ("mutates_memory", VBool false);
      ("preserves_runtime_identity", VBool true)])].

Section replans.
Context (sha256_hex : string -> string).

Definition _identity_from_lineage (lineage : val) : res (list (string * val)) :=
  let data := mapping lineage in
  if truthy (VDict data) && truthy (vget "root_goal_id" data)
  then canonical ← extract_goal_lineage sha256_hex (VDict data) true true; Ok (pick IDENTITY canonical)
  else Ok [].

(** The constructor with its [__post_init__]. *)
Definition new (kwargs : list (string * val)) : res ReplanRuntime :=
  f ← call_fields [] defaults kwargs;
  ids ← _identity_from_lineage (VDict (pick IDENTITY f));
  Ok (Make (Replan._limit (vget "replan_count" f) 0) (Replan._limit (vget "max_replans" f) 1)
        (mapping (vget "last_replan_record" f)) (dupdate (pick IDENTITY f) ids)).

Definition start (count max : val) (goal_lineage : val) : res ReplanRuntime :=
  ids ← _identity_from_lineage goal_lineage;
  let ids := dict_or ids [("session_id", VStr "session:replan");
                          ("runtime_session_id", VStr "runtime-session:replan")] in
  new ([("replan_count", count); ("max_replans", max)] ++ ids).

Definition replace (authority : bool) (changes : list (string * val)) (r : ReplanRuntime) : res ReplanRuntime :=
  if negb authority then Raise (PermissionError "replan_mutation_authority_required")
  else new (dupdate
    ([("replan_count", VInt (replan_count r)); ("max_replans", VInt (max_replans r));
      ("last_replan_record", VDict (last_replan_record r))] ++ pick IDENTITY (identity r)) changes).

Definition record_replan (record : list (string * val)) (r : ReplanRuntime) : res ReplanRuntime :=
  if limit_reached r then Raise (RuntimeErr "replan_limit_reached")
  else
    ids ← (if truthy (vget "root_goal_id" (identity r)) then
             let branch_id := text (py_or (py_or (vget "branch_id" record) (vget "request_id" record))
                                          (vget "replan_request_id" record)) in
             if (branch_id =? "")%string then Raise (ValueError "explicit_replan_branch_id_required")
             else
               branch ← create_goal_branch_lineage sha256_hex (VDict (to_dict r))
                          (field_str "goal_id" (identity r)) "replan" branch_id;
               Ok (pick IDENTITY branch)
           else Ok []);
    replace true ([("replan_count", VInt (replan_count r + 1)); ("last_replan_record", VDict record)] ++ ids) r.
End replans.
End Replans.

(** ** The session's mirror of both *)
Module SessionRuntime.

Definition is_digit (c : Ascii.ascii) : bool := let n := code c in (48 <=? n)%N && (n <=? 57)%N.

(** [\d*] and what follows it. *)
Fixpoint span_digits (s : string) : string * string :=
  match s with
  | EmptyString => (EmptyString, EmptyString)
  | String c s' => if is_digit c then let p := span_digits s' in (String c p.1, p.2) else (EmptyString, s)
  end.

Definition CONTINUATION_MARK : string := "__continuation_".

(** [__continuation_(\d+)(?:_\d+)?$] at the start of a text: its first group. *)
Definition match_continuation (s : string) : option string :=
  if String.prefix CONTINUATION_MARK s then
    let p := span_digits (String.substring (String.length CONTINUATION_MARK) (String.length s) s) in
    let ends :=
      match p.2 with
      | EmptyString => true
      | String c t => (code c =? 95)%N
          && (let q := span_digits t in non_empty q.1 && negb (non_empty q.2))
      end in
    if non_empty p.1 && ends then Some p.1 else None
  else None.

(** [_CONTINUATION_GOAL_ID_RE.search(text)] *)
Fixpoint search_continuation (s : string) : option string :=
  match match_continuation s, s with
  | Some d, _ => Some d
  | None, String _ s' => search_continuation s'
  | None, EmptyString => None
  end.

Definition _continuation_count_from_goal_id (goal_id : val) : option Z :=
  (fun d => Replan._limit (VStr d) 0) <$> search_continuation (text goal_id).

Record EngineeringSessionRuntime : Type := Make {
  target_goal_id : string;
  current_goal_id : string;
  cycle_limit : Z;
  max_replans : Z;
  max_continuations : Z;
  replan_count : Z;
  continuation_count : Z;
  terminal : bool;
  stop_reason : string;
  refusal_reason : string;
  session_from_state : string;
  program_from_state : string;
  previous_observation : list (string * val);
  cycles : list (list (string * val)) }.

Definition defaults : list (string * val) :=
  [("current_goal_id", VStr ""); ("cycle_limit", VInt 1); ("max_replans", VInt 1);
   ("max_continuations", VInt 1); ("replan_count", VInt 0); ("continuation_count", VInt 0);
   ("terminal", VBool false); ("stop_reason", VStr "max_cycles_reached"); ("refusal_reason", VStr "");
   ("session_from_state", VStr "created"); ("program_from_state", VStr "created");
   ("previous_observation", VNone); ("cycles", VList [])].

(** [[cycle for cycle in cycles if isinstance(cycle, Mapping)]] *)
Definition mappings (l : list val) : list (list (string * val)) :=
  map mapping (filter (fun v => is_mapping v = true) l).

(** The constructor with its [__post_init__]. *)
Definition new (kwargs : list (string * val)) : res EngineeringSessionRuntime :=
  f ← call_fields ["target_goal_id"] defaults kwargs;
  let target := text_or (vget "target_goal_id" f) "goal" in
  let limit := Z.max 1 (Replan._limit (vget "cycle_limit" f) 1) in
  items ← py_iter (vget "cycles" f);
  Ok (Make target (text_or (vget "current_goal_id" f) target) limit
        (Replan._limit (vget "max_replans" f) 1) (Replan._limit (vget "max_continuations" f) limit)
        (Replan._limit (vget "replan_count" f) 0) (Replan._limit (vget "continuation_count" f) 0)
        (truthy (vget "terminal" f)) (text_or (vget "stop_reason" f) "max_cycles_reached")
        (text (vget "refusal_reason" f)) (text_or (vget "session_from_state" f) "created")
        (text_or (vget "program_from_state" f) "created") (mapping (vget "previous_observation" f))
        (mappings items)).

Definition start (goal_id : string) (max_cycles max_replans max_continuations : val) :
    res EngineeringSessionRuntime :=
  let limit := Z.max 1 (Replan._limit max_cycles 1) in
  let continuation_limit :=
    match max_continuations with VNone => limit | v => Replan._limit v limit end in
  new [("target_goal_id", VStr goal_id); ("current_goal_id", VStr goal_id); ("cycle_limit", VInt limit);
       ("max_replans", max_replans); ("max_continuations", VInt continuation_limit)].

(** The fields of a runtime as the keyword arguments that make it. *)
Definition fields (r : EngineeringSessionRuntime) : list (string * val) :=
  [("target_goal_id", VStr (target_goal_id r)); ("current_goal_id", VStr (current_goal_id r));
   ("cycle_limit", VInt (cycle_limit r)); ("max_replans", VInt (max_replans r));
   ("max_continuations", VInt (max_continuations r)); ("replan_count", VInt (replan_count r));
   ("continuation_count", VInt (continuation_count r)); ("terminal", VBool (terminal r));
   ("stop_reason", VStr (stop_reason r)); ("refusal_reason", VStr (refusal_reason r));
   ("session_from_state", VStr (session_from_state r)); ("program_from_state", VStr (program_from_state r));
   ("previous_observation", VDict (previous_observation r)); ("cycles", VList (map VDict (cycles r)))].

Definition replace (changes : list (string * val)) (r : EngineeringSessionRuntime) :
    res EngineeringSessionRuntime :=
  let changes :=
    if dmem "current_goal_id" changes && negb (dmem "continuation_count" changes) then
      match _continuation_count_from_goal_id (vget "current_goal_id" changes) with
      | Some n => dset "continuation_count" (VInt (Z.max (continuation_count r) n)) changes
      | None => changes
      end
    else changes in
  new (dupdate (fields r) changes).

Definition append_cycle (cycle : list (string * val)) (r : EngineeringSessionRuntime) :
    res EngineeringSessionRuntime :=
  replace [("cycles", VList (map VDict (cycles r) ++ [VDict cycle]))] r.

Definition mirror_continuation_runtime (c : Continuation.ContinuationRuntime)
    (r : EngineeringSessionRuntime) : res EngineeringSessionRuntime :=
  replace [("current_goal_id", VStr (Continuation.current_goal_id c));
           ("continuation_count", VInt (Continuation.continuation_count c))] r.

Definition mirror_replan_runtime (p : Replans.ReplanRuntime) (r : EngineeringSessionRuntime) :
    res EngineeringSessionRuntime :=
  replace [("replan_count", VInt (Replans.replan_count p))] r.

Definition to_dict (r : EngineeringSessionRuntime) : list (string * val) :=
  [("schema", VStr "zero.engineering_session_runtime.v1")] ++ fields r ++
  [("authority", VDict
     [("current_goal_id", VStr "ContinuationRuntime"); ("continuation_count", VStr "ContinuationRuntime");
      ("replan_count", VStr "ReplanRuntime"); ("session_runtime_role", VStr "mirror_only")]);
   ("execution_path", VDict
     [("session_runtime_bookkeeping_only", VBool true); ("mirrors_continuation_runtime", VBool true);
      ("mirrors_replan_runtime", VBool true); ("owns_current_goal_id", VBool false);
      ("owns_continuation_count", VBool false); ("owns_replan_count", VBool false);
      ("executes_tasks", VBool false); ("creates_continuation", VBool false); ("creates_replan", VBool false);
      ("persists_records", VBool false); ("mutates_goal_repository", VBool false);
      ("mutates_runtime", VBool false); ("mutates_memory", VBool false)])].
End SessionRuntime.

(** ** Lemmas on continuations *)

Section continuation_facts.
Context (sha256_hex : string -> string).
Context (hex_no_space : forall b, no_space (sha256_hex b) = true).
Import Continuation.

(** The seven entries of an identity. *)
Definition identity_of (root src lid bt bid sid rsid : string) : list (string * val) :=
  [("root_goal_id", VStr root); ("source_goal_id", VStr src); ("goal_lineage_id", VStr lid);
   ("branch_type", VStr bt); ("branch_id", VStr bid); ("session_id", VStr sid);
   ("runtime_session_id", VStr rsid)].

(** A well-formed runtime: counters that are not negative and a whole identity. *)
Definition continuation_ok (r : ContinuationRuntime) : Prop :=
  (0 <= continuation_count r)%Z /\ (0 <= max_continuations r)%Z /\
  exists root src lid bt bid sid rsid,
    Forall clean [root; src; current_goal_id r; lid; bt; bid; sid; rsid]
    /\ identity r = identity_of root src lid bt bid sid rsid.

Lemma create_root_clean goal sid rsid l :
  create_root_goal_lineage sha256_hex goal sid rsid = Ok l -> canonical_lineage l.
Proof.
  unfold create_root_goal_lineage. unfold_m. intros H.
  destruct (_required_identity "goal_id" _) as [g|] eqn:Eg; [|done].
  destruct (_required_identity "session_id" _) as [s|] eqn:Es; [|done].
  destruct (_required_identity "runtime_session_id" _) as [rs|] eqn:Er; [|done].
  destruct (build_goal_lineage_id _ _ _ _) as [lid|] eqn:El; [|done]. injection H as <-.
  exists g, g, g, lid, "root", g, s, rs. split; [|done].
  apply required_identity_clean in Eg, Es, Er. apply (build_goal_lineage_id_clean _ hex_no_space) in El.
  repeat constructor; try done; apply Eg || apply Es || apply Er || apply El.
Qed.

Lemma limit_nonneg v n : (0 <= Replan._limit v n)%Z.
Proof. unfold Replan._limit. destruct (py_int v); lia. Qed.

Lemma limit_int z n : Replan._limit (VInt z) n = Z.max 0 z.
Proof. reflexivity. Qed.

Lemma text_or_clean v d : clean d -> clean (text_or v d).
Proof.
  intros Hd. unfold text_or, str_or. destruct (String.eqb_spec (text v) ""); [done|]. by apply text_clean.
Qed.

Lemma identity_spec current lineage ids :
  _identity_from_lineage sha256_hex current lineage = Ok ids ->
  exists root src goal lid bt bid sid rsid,
    Forall clean [root; src; goal; lid; bt; bid; sid; rsid]
    /\ ids = identity_of root src lid bt bid sid rsid.
Proof.
  unfold _identity_from_lineage. unfold_m. intros H. bind_ok H. injection H as <-.
  assert (canonical_lineage a) as (root & src & goal & lid & bt & bid & sid & rsid & Hc & ->).
  { destruct (truthy _ && _); [by eapply extract_canonical|by eapply create_root_clean]. }
  by exists root, src, goal, lid, bt, bid, sid, rsid.
Qed.

(** Whatever it is given, the constructor makes a well-formed runtime or raises. *)
Lemma new_ok kwargs r : new sha256_hex kwargs = Ok r -> continuation_ok r.
Proof.
  unfold new. unfold_m. intros H. bind_ok H. bind_ok H. injection H as <-.
  destruct (identity_spec _ _ _ E0) as (root & src & goal & lid & bt & bid & sid & rsid & Hc & ->).
  split; [apply limit_nonneg|]. split; [apply limit_nonneg|].
  exists root, src, lid, bt, bid, sid, rsid. split; [|done]. simpl.
  rewrite !Forall_cons in Hc |- *. destruct_and! Hc. split_and!; try done.
  by apply text_or_clean.
Qed.

(** The lineage of a runtime's dict is its identity. *)
Lemma extract_runtime r root src lid bt bid sid rsid :
  Forall clean [root; src; current_goal_id r; lid; bt; bid; sid; rsid] ->
  identity r = identity_of root src lid bt bid sid rsid ->
  extract_goal_lineage sha256_hex (VDict (to_dict r)) true true
  = Ok (lineage_of root src (current_goal_id r) lid bt bid sid rsid).
Proof.
  intros Hc Hi. apply extract_from_fields; [done| |].
  - intros f Hf. unfold to_dict. rewrite Hi. unfold GOAL_LINEAGE_FIELDS in Hf.
    rewrite !elem_of_cons, elem_of_nil in Hf. by repeat destruct Hf as [->|Hf].
  - rewrite no_conflicts; [done|]. intros g f Hg. unfold to_dict in Hg. by rewrite Hi in Hg.
Qed.

Lemma new_canonical kwargs f current root src lid bt bid sid rsid :
  call_fields ["current_goal_id"] defaults kwargs = Ok f ->
  vget "current_goal_id" f = VStr current ->
  pick IDENTITY f = identity_of root src lid bt bid sid rsid ->
  Forall clean [root; src; current; lid; bt; bid; sid; rsid] ->
  new sha256_hex kwargs = Ok (Make current (Replan._limit (vget "continuation_count" f) 0)
    (Replan._limit (vget "max_continuations" f) 1) (text (vget "last_continuation_goal_id" f))
    (mapping (vget "last_work_item" f)) (identity_of root src lid bt bid sid rsid)).
Proof.
  intros Hf Hcur Hp Hc. unfold new. unfold_m. rewrite Hf, Hcur, Hp.
  pose proof Hc as Hall. rewrite !Forall_cons in Hall.
  destruct Hall as ((Hr1 & Hr2) & _ & (Hg1 & Hg2) & _).
  rewrite text_or_self by (rewrite ?text_strip; done).
  unfold _identity_from_lineage. cbn [mapping].
  change (truthy (VDict _)) with true. cbn [andb].
  change (truthy (vget "root_goal_id" _)) with (negb (root =? "")%string).
  apply String.eqb_neq in Hr2 as ->. cbn [negb]. unfold_m.
  rewrite (extract_from_fields sha256_hex _ true true root src current lid bt bid sid rsid Hc); [done| |].
  - intros k Hk. unfold GOAL_LINEAGE_FIELDS in Hk.
    rewrite !elem_of_cons, elem_of_nil in Hk. by repeat destruct Hk as [->|Hk].
  - by rewrite no_conflicts.
Qed.

(** What recording a work item makes of a runtime. *)
Lemma record_ok r item r' :
  continuation_ok r -> record_work_item sha256_hex item r = Ok r' ->
  let goal := text_or (vget "goal_id" item) (current_goal_id r) in
  (continuation_count r < max_continuations r)%Z
  /\ continuation_count r' = (continuation_count r + 1)%Z
  /\ max_continuations r' = max_continuations r
  /\ current_goal_id r' = goal
  /\ exists root lid sid rsid src bt bid bid',
    identity r = identity_of root src lid bt bid sid rsid
    /\ identity r' = identity_of root (current_goal_id r) lid "continuation" bid' sid rsid
    /\ Forall clean [root; current_goal_id r; goal; lid; "continuation"; bid'; sid; rsid].
Proof.
  intros (Hn & Hm & root & src & lid & bt & bid & sid & rsid & Hc & Hi) H goal.
  unfold record_work_item in H. unfold limit_reached in H.
  destruct (Z.leb_spec (max_continuations r) (continuation_count r)) as [|Hlt]; [done|].
  fold goal in H. unfold create_goal_branch_lineage in H. unfold_m.
  rewrite (extract_runtime r root src lid bt bid sid rsid Hc Hi) in H.
  change (_required_identity "branch_type" (VStr "continuation")) with (Ok "continuation" : res string) in H.
  cbv iota beta in H. rewrite bool_decide_eq_false_2 in H by (intros Hx; apply Hx; by left).
  destruct (_required_identity "goal_id" (VStr goal)) as [goal'|] eqn:Eg; [|done].
  destruct (_required_identity "branch_id" _) as [bid'|] eqn:Eb; [|done].
  assert (Hg : goal' = goal).
  { unfold _required_identity in Eg. destruct (_ || _); [done|]. injection Eg as <-.
    assert (clean goal) as [? _] by (apply text_or_clean; by do 2 apply Forall_inv_tail in Hc; apply Forall_inv in Hc).
    by rewrite text_strip. }
  subst goal'. pose proof (required_identity_clean _ _ _ Eg) as Hgc. pose proof (required_identity_clean _ _ _ Eb) as Hbc.
  assert (Hall : Forall clean [root; current_goal_id r; goal; lid; "continuation"; bid'; sid; rsid]).
  { rewrite !Forall_cons in Hc |- *. destruct_and! Hc. by split_and!. }
  unfold replace in H. cbn [negb] in H. rewrite Hi in H.
  erewrite new_canonical in H; [|reflexivity|reflexivity|reflexivity|exact Hall].
  injection H as <-. cbn [continuation_count max_continuations current_goal_id identity].
  split; [done|]. split.
  { change (Replan._limit (VInt (continuation_count r + 1)) 0 = continuation_count r + 1)%Z. rewrite limit_int. lia. }
  split.
  { change (Replan._limit (VInt (max_continuations r)) 1 = max_continuations r). rewrite limit_int. lia. }
  split; [done|]. by exists root, lid, sid, rsid, src, bt, bid, bid'.
Qed.
End continuation_facts.

(** ** Lemmas on replans *)

Section replan_facts.
Context (sha256_hex : string -> string).
Context (hex_no_space : forall b, no_space (sha256_hex b) = true).
Import Replans.

(** A runtime for a goal with a lineage. *)
Definition replans_of (root src goal lid bt bid sid rsid : string) : list (string * val) :=
  pick IDENTITY (lineage_of root src goal lid bt bid sid rsid).

Definition replan_ok (r : ReplanRuntime) : Prop :=
  (0 <= replan_count r)%Z /\ (0 <= max_replans r)%Z /\
  exists root src goal lid bt bid sid rsid,
    Forall clean [root; src; goal; lid; bt; bid; sid; rsid]
    /\ identity r = replans_of root src goal lid bt bid sid rsid.

Lemma extract_replans r root src goal lid bt bid sid rsid :
  Forall clean [root; src; goal; lid; bt; bid; sid; rsid] ->
  identity r = replans_of root src goal lid bt bid sid rsid ->
  extract_goal_lineage sha256_hex (VDict (to_dict r)) true true
  = Ok (lineage_of root src goal lid bt bid sid rsid).
Proof.
  intros Hc Hi. apply extract_from_fields; [done| |].
  - intros f Hf. unfold to_dict. rewrite Hi. unfold GOAL_LINEAGE_FIELDS in Hf.
    rewrite !elem_of_cons, elem_of_nil in Hf. by repeat destruct Hf as [->|Hf].
  - rewrite no_conflicts; [done|]. intros g f Hg. unfold to_dict in Hg. by rewrite Hi in Hg.
Qed.

Lemma new_replans kwargs f root src goal lid bt bid sid rsid :
  call_fields [] defaults kwargs = Ok f ->
  pick IDENTITY f = replans_of root src goal lid bt bid sid rsid ->
  Forall clean [root; src; goal; lid; bt; bid; sid; rsid] ->
  new sha256_hex kwargs = Ok (Make (Replan._limit (vget "replan_count" f) 0)
    (Replan._limit (vget "max_replans" f) 1) (mapping (vget "last_replan_record" f))
    (replans_of root src goal lid bt bid sid rsid)).
Proof.
  intros Hf Hp Hc. unfold new. unfold_m. rewrite Hf, Hp. unfold _identity_from_lineage. cbn [mapping].
  pose proof Hc as Hall. rewrite !Forall_cons in Hall. destruct Hall as ((_ & Hr) & _).
  change (truthy (VDict _)) with true. cbn [andb].
  change (truthy (vget "root_goal_id" _)) with (negb (root =? "")%string).
  apply String.eqb_neq in Hr as ->. cbn [negb]. unfold_m.
  rewrite (extract_from_fields sha256_hex _ true true root src goal lid bt bid sid rsid Hc); [done| |].
  - intros k Hk. unfold GOAL_LINEAGE_FIELDS in Hk.
    rewrite !elem_of_cons, elem_of_nil in Hk. by repeat destruct Hk as [->|Hk].
  - by rewrite no_conflicts.
Qed.

(** The goal of a lineage starts a runtime of its scope. *)
Lemma replan_start_ok count max root src goal lid bt bid sid rsid :
  Forall clean [root; src; goal; lid; bt; bid; sid; rsid] ->
  exists r, start sha256_hex count max (VDict (lineage_of root src goal lid bt bid sid rsid)) = Ok r
    /\ replan_count r = Replan._limit count 0 /\ max_replans r = Replan._limit max 1
    /\ identity r = replans_of root src goal lid bt bid sid rsid.
Proof.
  intros Hc. pose proof Hc as Hall. rewrite !Forall_cons in Hall. destruct Hall as ((_ & Hr) & _).
  unfold start, _identity_from_lineage. cbn [mapping].
  change (truthy (VDict _)) with true. cbn [andb].
  change (truthy (vget "root_goal_id" _)) with (negb (root =? "")%string).
  apply String.eqb_neq in Hr as ->. cbn [negb]. unfold_m.
  rewrite (extract_fixed sha256_hex _ _ _ _ _ _ _ _ _ _ Hc). cbn [dict_or].
  erewrite new_replans; [|reflexivity|reflexivity|exact Hc]. eexists. split; [reflexivity|]. done.
Qed.

(** What recording a replan makes of a runtime. *)
Lemma record_replan_ok r rec r' :
  replan_ok r -> record_replan sha256_hex rec r = Ok r' ->
  (replan_count r < max_replans r)%Z
  /\ replan_count r' = (replan_count r + 1)%Z
  /\ max_replans r' = max_replans r
  /\ exists root src goal lid bt bid sid rsid bid',
    identity r = replans_of root src goal lid bt bid sid rsid
    /\ identity r' = replans_of root goal goal lid "replan" bid' sid rsid
    /\ Forall clean [root; goal; goal; lid; "replan"; bid'; sid; rsid].
Proof.
  intros (Hn & Hm & root & src & goal & lid & bt & bid & sid & rsid & Hc & Hi) H.
  unfold record_replan in H. unfold limit_reached in H.
  destruct (Z.leb_spec (max_replans r) (replan_count r)) as [|Hlt]; [done|].
  pose proof Hc as Hall. rewrite !Forall_cons in Hall. destruct Hall as ((_ & Hr) & _ & (Hg1 & Hg2) & _).
  rewrite Hi in H. change (truthy (vget "root_goal_id" _)) with (negb (root =? "")%string) in H.
  apply String.eqb_neq in Hr. rewrite Hr in H. cbn [negb] in H. unfold_m.
  destruct (text _ =? "")%string; [done|]. unfold create_goal_branch_lineage in H. unfold_m.
  rewrite (extract_replans r root src goal lid bt bid sid rsid Hc Hi) in H.
  change (_required_identity "branch_type" (VStr "replan")) with (Ok "replan" : res string) in H.
  cbv iota beta in H. rewrite bool_decide_eq_false_2 in H by (intros Hx; apply Hx; by right; left).
  change (field_str "goal_id" _) with goal in H.
  destruct (_required_identity "goal_id" (VStr goal)) as [goal'|] eqn:Eg; [|done].
  destruct (_required_identity "branch_id" _) as [bid'|] eqn:Eb; [|done].
  assert (goal' = goal) as ->.
  { unfold _required_identity in Eg. destruct (_ || _); [done|]. injection Eg as <-. by rewrite text_strip. }
  pose proof (required_identity_clean _ _ _ Eb) as Hbc.
  assert (Hall : Forall clean [root; goal; goal; lid; "replan"; bid'; sid; rsid]).
  { rewrite !Forall_cons in Hc |- *. destruct_and! Hc. by split_and!. }
  unfold replace in H. cbn [negb] in H. rewrite Hi in H.
  erewrite new_replans in H; [|reflexivity|reflexivity|exact Hall].
  injection H as <-. cbn [replan_count max_replans identity].
  split; [done|]. split.
  { change (Replan._limit (VInt (replan_count r + 1)) 0 = replan_count r + 1)%Z. rewrite limit_int. lia. }
  split.
  { change (Replan._limit (VInt (max_replans r)) 1 = max_replans r). rewrite limit_int. lia. }
  by exists root, src, goal, lid, bt, bid, sid, rsid, bid'.
Qed.
End replan_facts.

(** ** Lemmas on the session's books *)

Section session_facts.
Import SessionRuntime.

(** What the constructor leaves. *)
Record session_ok (r : EngineeringSessionRuntime) : Prop := {
  so_target : clean (target_goal_id r);
  so_current : clean (current_goal_id r);
  so_limit : (1 <= cycle_limit r)%Z;
  so_counts : Forall (fun n => 0 <= n)%Z
    [max_replans r; max_continuations r; replan_count r; continuation_count r];
  so_stop : clean (stop_reason r);
  so_refusal : text (VStr (refusal_reason r)) = refusal_reason r;
  so_session : clean (session_from_state r);
  so_program : clean (program_from_state r) }.

Lemma new_session_ok kwargs r : new kwargs = Ok r -> session_ok r.
Proof.
  unfold new. unfold_m. intros H. bind_ok H. bind_ok H. injection H as <-.
  assert (clean "goal" /\ clean "created" /\ clean "max_cycles_reached") as (Hg & Hc & Hm)
    by (split_and!; split; done).
  assert (Ht : clean (text_or (vget "target_goal_id" a) "goal")) by by apply text_or_clean.
  constructor; simpl; try (by apply text_or_clean); [lia| |apply text_idemp].
  repeat constructor; apply limit_nonneg.
Qed.

Lemma mappings_dicts l : mappings (map VDict l) = l.
Proof. induction l as [|d l IH]; [done|]. unfold mappings in *. simpl. by rewrite IH. Qed.

Lemma text_or_word s d : clean s -> text_or (VStr s) d = s.
Proof. intros [Hs Hn]. apply text_or_self; [by rewrite text_strip|done]. Qed.

Lemma limit_kept z n : (0 <= z)%Z -> Replan._limit (VInt z) n = z.
Proof. intros H. rewrite limit_int. lia. Qed.

(** What the books of two runtimes have in common when only the mirrored
    states, the observation and the cycles differ. *)
Definition same_books (r r' : EngineeringSessionRuntime) : Prop :=
  target_goal_id r' = target_goal_id r /\ current_goal_id r' = current_goal_id r
  /\ cycle_limit r' = cycle_limit r /\ max_replans r' = max_replans r
  /\ max_continuations r' = max_continuations r /\ replan_count r' = replan_count r
  /\ continuation_count r' = continuation_count r /\ terminal r' = terminal r
  /\ stop_reason r' = stop_reason r /\ refusal_reason r' = refusal_reason r.

(** The runtime made from the fields of another, overlaid with others. *)
Lemma new_fields r cur rc cc term stop refusal ss ps obs cs :
  session_ok r -> clean cur -> clean stop -> clean ss -> clean ps ->
  text (VStr refusal) = refusal -> (0 <= rc)%Z -> (0 <= cc)%Z ->
  new [("target_goal_id", VStr (target_goal_id r)); ("current_goal_id", VStr cur);
       ("cycle_limit", VInt (cycle_limit r)); ("max_replans", VInt (max_replans r));
       ("max_continuations", VInt (max_continuations r)); ("replan_count", VInt rc);
       ("continuation_count", VInt cc); ("terminal", VBool term); ("stop_reason", VStr stop);
       ("refusal_reason", VStr refusal); ("session_from_state", VStr ss); ("program_from_state", VStr ps);
       ("previous_observation", VDict obs); ("cycles", VList (map VDict cs))]
  = Ok (Make (target_goal_id r) cur (cycle_limit r) (max_replans r) (max_continuations r) rc cc term stop
          refusal ss ps obs cs).
Proof.
  intros [Ht Hcur Hl Hn Hst Hrf Hss Hps] ? ? ? ? ? ? ?.
  repeat match goal with H : Forall _ (_ :: _) |- _ => apply Forall_cons in H as [? ?] end.
  unfold new. unfold_m.
  match goal with |- context [call_fields ?q ?d ?k] =>
    change (call_fields q d k) with (Ok (dupdate d k) : res (list (string * val))); set (f := dupdate d k) end.
  cbv iota beta.
  change (vget "cycles" f) with (VList (map VDict cs)). cbn [py_iter]. rewrite mappings_dicts.
  change (vget "target_goal_id" f) with (VStr (target_goal_id r)).
  change (vget "current_goal_id" f) with (VStr cur).
  change (vget "cycle_limit" f) with (VInt (cycle_limit r)).
  change (vget "max_replans" f) with (VInt (max_replans r)).
  change (vget "max_continuations" f) with (VInt (max_continuations r)).
  change (vget "replan_count" f) with (VInt rc). change (vget "continuation_count" f) with (VInt cc).
  change (vget "terminal" f) with (VBool term). change (vget "stop_reason" f) with (VStr stop).
  change (vget "refusal_reason" f) with (VStr refusal). change (vget "session_from_state" f) with (VStr ss).
  change (vget "program_from_state" f) with (VStr ps). change (vget "previous_observation" f) with (VDict obs).
  cbn [mapping truthy]. clear f.
  rewrite !text_or_word, !limit_kept by (done || lia). rewrite Z.max_r by lia. by f_equal; f_equal.
Qed.

(** The runtime after a cycle. *)
Lemma next_runtime r c obs ss ps :
  session_ok r -> clean ss -> clean ps ->
  exists r',
    (r1 ← append_cycle c r;
     replace [("previous_observation", VDict obs); ("session_from_state", VStr ss);
              ("program_from_state", VStr ps)] r1) = Ok r'
    /\ session_ok r' /\ same_books r r' /\ cycles r' = cycles r ++ [c] /\ previous_observation r' = obs
    /\ session_from_state r' = ss /\ program_from_state r' = ps.
Proof.
  intros Hr Hs Hp. pose proof Hr as [Ht Hcur Hl Hn Hst Hrf Hss Hps].
  repeat match goal with H : Forall _ (_ :: _) |- _ => apply Forall_cons in H as [? ?] end.
  assert (E : append_cycle c r = Ok (Make (target_goal_id r) (current_goal_id r) (cycle_limit r)
    (max_replans r) (max_continuations r) (replan_count r) (continuation_count r) (terminal r)
    (stop_reason r) (refusal_reason r) (session_from_state r) (program_from_state r)
    (previous_observation r) (cycles r ++ [c]))).
  { rewrite <- new_fields by done. rewrite map_app. reflexivity. }
  unfold_m. rewrite E. set (r1 := Make _ _ _ _ _ _ _ _ _ _ _ _ _ _).
  assert (Hr1 : session_ok r1) by (constructor; simpl; try done; by repeat constructor).
  eexists. split.
  { etransitivity; [|apply (new_fields r1 (current_goal_id r) (replan_count r) (continuation_count r)
      (terminal r) (stop_reason r) (refusal_reason r) ss ps obs (cycles r ++ [c])); done]. reflexivity. }
  split; [|done]. constructor; simpl; try done. by repeat constructor.
Qed.
End session_facts.

(** ** The count that a goal id carries *)


Definition is_letter (c : Ascii.ascii) : bool := negb (SessionRuntime.is_digit c) && negb (code c =? 95)%N.

Fixpoint letters (s : string) : nat :=
  match s with EmptyString => 0 | String c s' => (if is_letter c then 1 else 0) + letters s' end.

(** How many characters stand before the first letter. *)
Fixpoint before_letters (s : string) : nat :=
  match s with EmptyString => 0 | String c s' => if is_letter c then 0 else S (before_letters s') end.

Fixpoint all_digits (s : string) : bool :=
  match s with EmptyString => true | String c s' => SessionRuntime.is_digit c && all_digits s' end.

Section numerals.
Import SessionRuntime.

Lemma letters_app s t : letters (s +:+ t) = letters s + letters t.
Proof. induction s as [|c s IH]; [done|]. rewrite string_app_cons. simpl. rewrite IH. lia. Qed.

Lemma before_letters_app s t : letters s = 0 -> before_letters (s +:+ t) = String.length s + before_letters t.
Proof.
  induction s as [|c s IH]; [done|]. rewrite string_app_cons. simpl.
  destruct (is_letter c); [done|]. intros H. by rewrite IH.
Qed.

Lemma all_digits_letters s : all_digits s = true -> letters s = 0.
Proof.
  induction s as [|c s IH]; [done|]. simpl. intros [Hc Hs]%andb_true_iff. rewrite (IH Hs).
  unfold is_letter. by rewrite Hc.
Qed.

Lemma span_digits_letters s : letters (span_digits s).1 = 0 /\ s = (span_digits s).1 +:+ (span_digits s).2.
Proof.
  induction s as [|c s [IH1 IH2]]; [done|]. simpl. destruct (is_digit c) eqn:Ec; [|done].
  cbn [fst snd letters]. rewrite string_app_cons, <- IH2. split; [|done].
  rewrite IH1. unfold is_letter. by rewrite Ec.
Qed.

Lemma span_all_digits s : all_digits s = true -> span_digits s = (s, EmptyString).
Proof.
  induction s as [|c s IH]; [done|]. simpl. intros [-> Hs]%andb_true_iff. by rewrite (IH Hs).
Qed.

Lemma substring_all s n : String.length s <= n -> String.substring 0 n s = s.
Proof.
  revert n. induction s as [|c s IH]; intros [|n]; simpl; try done; [lia|]. intros H. by rewrite IH by lia.
Qed.

Lemma substring_app s t n : String.length t <= n -> String.substring (String.length s) n (s +:+ t) = t.
Proof. induction s as [|c s IH]; simpl; [apply substring_all|]. intros H. by apply IH. Qed.

Lemma prefix_split s t : String.prefix s t = true -> exists r, t = s +:+ r.
Proof.
  revert t. induction s as [|c s IH]; intros t; [by exists t|]. destruct t as [|c' t]; [done|].
  simpl. destruct (Ascii.ascii_dec c c') as [->|]; [|done]. intros (r & ->)%IH. by exists r.
Qed.

Lemma prefix_self s t : String.prefix s (s +:+ t) = true.
Proof.
  induction s as [|c s IH]; [by destruct t|]. rewrite string_app_cons. simpl.
  by destruct (Ascii.ascii_dec c c).
Qed.

(** What the expression matches has the letters of its mark, after two others. *)
Lemma match_letters s d : match_continuation s = Some d -> letters s = 12 /\ before_letters s = 2.
Proof.
  unfold match_continuation. destruct (String.prefix CONTINUATION_MARK s) eqn:E; [|done].
  apply prefix_split in E as [r ->]. rewrite substring_app
    by (clear; unfold CONTINUATION_MARK; induction r; simpl in *; lia).
  destruct (span_digits_letters r) as [H1 H2]. intros H.
  assert (letters r = 0) as Hr.
  { rewrite H2, letters_app, H1. destruct (span_digits r).2 as [|c t]; [done|].
    destruct (non_empty _); [|done]. cbn [andb] in H.
    destruct (code c =? 95)%N eqn:Ec; [|done]. cbn [andb] in H. destruct (span_digits_letters t) as [T1 T2].
    destruct (non_empty (span_digits t).1); [|done]. unfold non_empty in H.
    destruct (String.eqb_spec (span_digits t).2 "") as [Et|]; [|done].
    simpl. rewrite T2, Et, letters_app, T1. unfold is_letter. rewrite Ec. by destruct (is_digit c). }
  split; [by rewrite letters_app, Hr|]. done.
Qed.

Lemma search_mark u d : all_digits d = true -> d <> EmptyString ->
  search_continuation (u +:+ CONTINUATION_MARK +:+ d) = Some d.
Proof.
  intros Hd Hn. induction u as [|c u IH].
  - change (EmptyString +:+ ?x) with x.
    assert (E : match_continuation (CONTINUATION_MARK +:+ d) = Some d).
    { unfold match_continuation. rewrite prefix_self, (substring_app CONTINUATION_MARK d)
        by (clear; unfold CONTINUATION_MARK; induction d; simpl in *; lia).
      rewrite (span_all_digits d Hd). cbn [fst snd]. unfold non_empty.
      apply String.eqb_neq in Hn as ->. reflexivity. }
    change (CONTINUATION_MARK +:+ d) with (String (Ascii.ascii_of_N 95) ("_continuation_" +:+ d)) in E |- *.
    cbn [search_continuation]. by rewrite E.
  - rewrite string_app_cons. cbn [search_continuation].
    destruct (match_continuation _) as [d'|] eqn:E; [exfalso|exact IH].
    apply match_letters in E as [E1 E2]. rewrite <- string_app_cons in E1, E2.
    rewrite !letters_app, (all_digits_letters d Hd) in E1. change (letters CONTINUATION_MARK) with 12 in E1.
    rewrite before_letters_app in E2 by lia.
    change (before_letters (CONTINUATION_MARK +:+ d)) with 2 in E2. simpl in E2. lia.
Qed.

Lemma pretty_N_digits x s : all_digits s = true -> all_digits (pretty_N_go x s) = true.
Proof.
  revert s. induction (N.lt_wf_0 x) as [x _ IH]. intros s Hs.
  destruct (decide (0 < x)%N) as [Hx|]; [|by replace x with 0%N by lia].
  rewrite pretty_N_go_step by done. apply IH; [by apply N.div_lt|]. simpl. rewrite Hs, andb_true_r.
  unfold pretty_N_char. by repeat case_match.
Qed.

Lemma digit_char n : (n < 10)%N -> Z.of_N (code (pretty_N_char n) - 48) = Z.of_N n
  /\ is_digit (pretty_N_char n) = true.
Proof.
  intros H. assert (Hn : N.to_nat n ∈ seq 0 10) by (apply elem_of_seq; lia).
  assert (All : Forall (fun i => Z.of_N (code (pretty_N_char (N.of_nat i)) - 48) = Z.of_nat i
    /\ is_digit (pretty_N_char (N.of_nat i)) = true) (seq 0 10)) by compute_decide.
  apply (proj1 (Forall_forall _ _) All) in Hn. by rewrite N2Nat.id, N_nat_Z in Hn.
Qed.

Lemma pretty_N_read x s b :
  digits (pretty_N_go x s) 0 b = digits s (Z.of_N x) (b || (0 <? x)%N).
Proof.
  revert s b. induction (N.lt_wf_0 x) as [x _ IH]. intros s b.
  destruct (decide (0 < x)%N) as [Hx|].
  2: { replace x with 0%N by lia. by rewrite pretty_N_go_0, orb_false_r. }
  rewrite pretty_N_go_step by done. rewrite IH by (by apply N.div_lt).
  destruct (digit_char (x mod 10)) as [Hc Hd]; [by apply N.mod_lt|]. cbn [digits].
  unfold is_digit in Hd. cbv zeta in Hd. rewrite Hd, Hc.
  replace (0 <? x)%N with true by (symmetry; apply N.ltb_lt; done). rewrite orb_true_r. f_equal.
  rewrite <- (N2Z.inj_mul _ 10), <- N2Z.inj_add. f_equal. pose proof (N.div_mod x 10). lia.
Qed.

(** A positive number is read back from its digits. *)
Lemma pretty_positive n : (0 < n)%Z ->
  all_digits (pretty n) = true /\ pretty n <> EmptyString /\ int_of_string (pretty n) = Some n.
Proof.
  intros Hn. destruct n as [|p|]; try lia. clear Hn.
  change (pretty (Z.pos p)) with (pretty (N.pos p)). unfold pretty, pretty_N.
  rewrite decide_False by done. assert (D : all_digits (pretty_N_go (N.pos p) "") = true) by by apply pretty_N_digits.
  assert (R : digits (pretty_N_go (N.pos p) "") 0 false = Some (Z.pos p)) by by rewrite pretty_N_read.
  destruct (pretty_N_go (N.pos p) "") as [|c t] eqn:E; [done|]. split; [exact D|]. split; [done|].
  unfold int_of_string. rewrite no_space_strip.
  - simpl in D. apply andb_true_iff in D as [D _]. unfold is_digit in D. cbv zeta in D. 
    apply andb_true_iff in D as [D1 D2]. apply N.leb_le in D1, D2.
    destruct (N.eqb_spec (code c) 45); [lia|]. destruct (N.eqb_spec (code c) 43); [lia|]. exact R.
  - revert D. generalize (String c t). clear. intros s. induction s as [|c s IH]; [done|]. simpl.
    intros [D H]%andb_true_iff. rewrite (IH H), andb_true_r. unfold is_digit in D. cbv zeta in D.
    apply andb_true_iff in D as [D1 D2]. apply N.leb_le in D1, D2. unfold is_space. cbv zeta.
    repeat match goal with |- context [(?a <=? ?b)%N] => destruct (N.leb_spec a b); try lia
      | |- context [(?a =? ?b)%N] => destruct (N.eqb_spec a b); try lia end; done.
Qed.
End numerals.

(** ** Theorems *)

Definition SCOPE : list string := ["root_goal_id"; "goal_lineage_id"; "session_id"; "runtime_session_id"].

Section books.
Context (sha256_hex : string -> string).
Context (hex_no_space : forall b, no_space (sha256_hex b) = true).
Import Continuation.

(** C31. However many work items are recorded, one after the other, in a runtime
    that was started for any goal and lineage: each counts one continuation, the
    count never passes the limit the runtime was started with, and the root
    goal, the lineage id and the two session ids stay what they were. *)
Theorem continuations_bounded current count max lineage r0 items r :
  start sha256_hex current count max lineage = Ok r0 ->
  rfold (fun r item => record_work_item sha256_hex item r) items r0 = Ok r ->
  continuation_count r = (continuation_count r0 + Z.of_nat (length items))%Z
  /\ (items = [] \/ continuation_count r <= max_continuations r0)%Z
  /\ max_continuations r = max_continuations r0
  /\ Forall (fun k => vget k (identity r) = vget k (identity r0)) SCOPE.
Proof.
  intros H0. assert (Hok : continuation_ok r0).
  { unfold start in H0. unfold_m. bind_ok H0. by eapply new_ok. }
  clear H0. revert r0 Hok. induction items as [|i items IH]; simpl; intros r0 Hok H.
  { injection H as <-. split_and!; [lia|by left|done|]. by apply Forall_forall. }
  unfold_m. bind_ok H. rename a into r1. pose proof (record_ok _ _ _ _ Hok E)
    as (Hlt & Hc & Hm & _ & root & lid & sid & rsid & src & bt & bid & bid' & I0 & I1 & _).
  assert (Hok1 : continuation_ok r1).
  { unfold record_work_item in E. unfold_m. destruct (limit_reached r0); [done|]. bind_ok E.
    unfold replace in E. cbn [negb] in E. by eapply new_ok. }
  destruct (IH r1 Hok1 H) as (Hc' & Hl & Hm' & Hs). split_and!; [lia| |lia|].
  - right. destruct Hl as [->|]; [|lia]. simpl in Hc'. lia.
  - unfold SCOPE in *. rewrite !Forall_cons in Hs |- *. rewrite I1 in Hs. rewrite I0.
    destruct_and! Hs. by split_and!.
Qed.
End books.

Definition demo_item (n : string) : list (string * val) := [("goal_id", VStr ("g1__continuation_" +:+ n))].

Definition demo_start : res Continuation.ContinuationRuntime :=
  Continuation.start demo_sha256 "g1" (VInt 0) (VInt 2) VNone.

Definition demo_recorded : res Continuation.ContinuationRuntime :=
  r0 ← demo_start;
  rfold (fun r item => Continuation.record_work_item demo_sha256 item r) [demo_item "1"; demo_item "2"] r0.

Lemma continuations_bounded_witness :
  exists r0 r, demo_start = Ok r0 /\ demo_recorded = Ok r
    /\ (Continuation.continuation_count r <= 2)%Z
    /\ vget "root_goal_id" (Continuation.identity r) = VStr "g1".
Proof.
  assert (M : exists r0, demo_start = Ok r0 /\ Continuation.max_continuations r0 = 2%Z
    /\ vget "root_goal_id" (Continuation.identity r0) = VStr "g1")
    by (eexists; split; [vm_compute; reflexivity|split; vm_compute; reflexivity]).
  assert (N : exists r, demo_recorded = Ok r) by (eexists; vm_compute; reflexivity).
  destruct M as (r0 & E0 & M1 & M2), N as (r & E1). exists r0, r. split; [done|]. split; [done|].
  assert (E2 : rfold (fun r item => Continuation.record_work_item demo_sha256 item r)
    [demo_item "1"; demo_item "2"] r0 = Ok r).
  { rewrite <- E1. unfold demo_recorded. by rewrite E0. }
  destruct (continuations_bounded demo_sha256 demo_sha256_no_space _ _ _ _ _ _ _ E0 E2) as (_ & Hl & _ & Hs).
  split.
  - destruct Hl as [Hl|Hl]; [discriminate|]. by rewrite M1 in Hl.
  - apply Forall_inv in Hs. by rewrite Hs.
Defined.
