(* ===== verification/Progression.v ===== *)
(** * The coordinators of one cycle

    What happens to a cycle of the engineering loop after it ran: each
    coordinator puts the record of its machine on the cycle, the next one reads
    it from there.

    - [LifecycleCoordinator]: [core/tasks/lifecycle_coordinator.py];
    - [SessionCoordinator]: [core/session/session_coordinator.py];
    - [ProgramCoordinator]: [core/program/program_coordinator.py], with the
      aggregation of many sessions into one program state;
    - [GoalLoopCoordinator]: [core/tasks/goal_loop_coordinator.py];
    - [SessionProgressionCoordinator]:
      [core/session/session_progression_coordinator.py], which runs them all,
      the adaptive coordinator of [Adaptive] first, and keeps the books of
      [Runtimes.SessionRuntime].

    A cycle is a dict and, beside it, the object under its key
    ["goal_completion_attestation"].  The machines and coordinators are the
    default ones. *)

From S2P Require Import Prelude PyVal Lineage Completion Engineering Adaptive Runtimes.

(** The flags of an [execution_path]. *)
Definition flags (l : list (string * bool)) : val := VDict (map (fun kv => (kv.1, VBool kv.2)) l).

Definition COORDINATOR_PATH : val := flags
  [("coordinator_only", true); ("executes_tasks", false); ("persists_records", false);
   ("mutates_goal_repository", false); ("mutates_runtime", false); ("mutates_memory", false)].

(** ** One machine each *)
Module LifecycleCoordinator.
Section coordinator.
Context {S : Type} `{Gate : AttestationGate S}.

Definition attach_lifecycle (s : S) (cycle : list (string * val)) (att : option nat) (from_state : string) :
    res (list (string * val)) :=
  let from := text_or (VStr from_state) "created" in
  r ← Lifecycle.evaluate_cycle s cycle att from;
  Ok (dset "lifecycle_coordinator" (VDict
        [("schema", VStr "zero.lifecycle_coordinator.v1");
         ("attached_engineering_lifecycle_state", VBool true); ("from_state", VStr from);
         ("execution_path", COORDINATOR_PATH)])
      (dset "engineering_lifecycle_state" (VDict (Lifecycle.result_to_dict r)) cycle)).
End coordinator.
End LifecycleCoordinator.

Module SessionCoordinator.
Section coordinator.
Context {S : Type} `{Gate : AttestationGate S}.

Definition attach_session (stamp : string) (s : S) (cycle : list (string * val)) (att : option nat)
    (from_state : string) : res (list (string * val)) :=
  let from := text_or (VStr from_state) "created" in
  r ← Session.evaluate_cycle stamp s cycle att from;
  Ok (dset "session_coordinator" (VDict
        [("schema", VStr "zero.session_coordinator.v1");
         ("attached_engineering_session_state", VBool true); ("from_state", VStr from);
         ("execution_path", COORDINATOR_PATH)])
      (dset "engineering_session_state" (VDict (Session.result_to_dict r)) cycle)).
End coordinator.
End SessionCoordinator.

(** ** Programs *)
Module ProgramCoordinator.

(** In the order of [sorted(_PROGRAM_STATES)]. *)
Definition _PROGRAM_STATES : list string :=
  ["active"; "archived"; "blocked"; "completed"; "created"; "failed"; "paused"].

Definition _SESSION_STATE_ALIASES : list (string * string) :=
  [("created", "created"); ("active", "active"); ("running", "active"); ("continuing", "active");
   ("replanning", "active"); ("waiting_user", "active"); ("waiting_evidence", "active");
   ("paused", "paused"); ("blocked", "blocked"); ("completed", "completed"); ("failed", "failed");
   ("archived", "archived")].

Definition _state_from_record (record : list (string * val)) : string :=
  let raw := lower (text_or
    (py_or (py_or (py_or (py_or (vget "session_state" record) (vget "program_state" record))
                         (vget "lifecycle_state" record))
                  (vget "to_state" record))
           (vget "state" record)) "active") in
  match dget raw _SESSION_STATE_ALIASES with Some s => s | None => "active" end.

(** [states.count(state)] *)
Definition count_state (states : list string) (state : string) : nat :=
  length (filter (fun s => s = state) states).

(** The items of a list that are mappings. *)
Definition sessions_of (v : val) : list (list (string * val)) := SessionRuntime.mappings (list_of v).

Section coordinator.
Context {S : Type} `{Gate : AttestationGate S}.

Definition attach_program (s : S) (cycle : list (string * val)) (att : option nat) (from_state : string) :
    res (list (string * val)) :=
  let from := text_or (VStr from_state) "created" in
  r ← Program.evaluate_cycle s cycle att from;
  Ok (dset "program_coordinator" (VDict
        [("schema", VStr "zero.program_coordinator.v1");
         ("attached_engineering_program_state", VBool true); ("from_state", VStr from);
         ("multi_session_aggregation", VBool false); ("execution_path", COORDINATOR_PATH)])
      (dset "engineering_program_state" (VDict (Program.result_to_dict r)) cycle)).

(** The program state of many sessions and its reason. *)
Definition decide_program (s : S) (states : list string) (goal_id : string) (att : option nat) :
    string * string :=
  let has state := negb (Nat.eqb (count_state states state) 0) in
  match states with
  | [] => ("created", "program_has_no_sessions")
  | _ =>
      if has "failed" then ("failed", "one_or_more_sessions_failed")
      else if has "blocked" then ("blocked", "one_or_more_sessions_blocked")
      else if has "active" then ("active", "one_or_more_sessions_active")
      else if has "paused" then ("paused", "one_or_more_sessions_paused")
      else if has "completed" && gate_accepts s att (text (VStr goal_id))
      then ("completed", "all_sessions_completed_or_archived")
      else if has "completed" then ("active", "canonical_completion_attestation_required")
      else if Nat.eqb (count_state states "archived") (length states)
      then ("archived", "all_sessions_archived")
      else ("created", "sessions_not_started")
  end.

Definition aggregate_sessions (s : S) (session_states : val) (goal_id : string) (att : option nat) :
    list (string * val) :=
  let sessions := sessions_of session_states in
  let states := map _state_from_record sessions in
  let p := decide_program s states goal_id att in
  [("schema", VStr "zero.program.session_aggregation.v1"); ("program_state", VStr p.1);
   ("session_count", VInt (Z.of_nat (length sessions)));
   ("session_state_counts", VDict
      (map (fun st => (st, VInt (Z.of_nat (count_state states st)))) _PROGRAM_STATES));
   ("session_states", VList (map VDict sessions));
   ("terminal", VBool (bool_decide (p.1 ∈ ["completed"; "failed"; "archived"])));
   ("reason", VStr p.2);
   ("execution_path", flags
     [("aggregation_only", true); ("executes_tasks", false); ("persists_records", false);
      ("mutates_goal_repository", false); ("mutates_runtime", false); ("mutates_memory", false)])].

Definition attach_program_from_sessions (s : S) (cycle : list (string * val)) (att : option nat)
    (session_states : val) (from_state : string) : res (list (string * val)) :=
  let from := text_or (VStr from_state) "created" in
  let goal_id := text (vget "goal_id" cycle) in
  let summary := aggregate_sessions s session_states goal_id att in
  let state := text_or (vget "program_state" summary) "active" in
  t ← Program.make_transition (VStr from) (VStr state) (VStr state)
        (VStr (text_or (vget "reason" summary) "program_session_aggregation")) (VDict summary)
        (VDict cycle) (VStr goal_id) att;
  let r := Program.transition s (Object t) in
  count ← int_field "session_count" 0 summary;
  Ok (dset "program_coordinator" (VDict
        [("schema", VStr "zero.program_coordinator.v1");
         ("attached_engineering_program_state", VBool true); ("from_state", VStr from);
         ("multi_session_aggregation", VBool true); ("session_count", VInt count);
         ("execution_path", COORDINATOR_PATH)])
      (dset "engineering_program_state" (VDict (Program.result_to_dict r))
        (dset "engineering_program_session_summary" (VDict summary) cycle))).
End coordinator.
End ProgramCoordinator.

(** ** What the loop does next *)
Module GoalLoopCoordinator.

Record GoalLoopDecision : Type := Decision {
  action : string;
  terminal : bool;
  stop_reason : string;
  refusal_reason : string }.

Definition to_dict (d : GoalLoopDecision) : list (string * val) :=
  [("schema", VStr "zero.goal_loop_coordinator.v1"); ("action", VStr (action d));
   ("terminal", VBool (terminal d)); ("stop_reason", VStr (stop_reason d));
   ("refusal_reason", VStr (refusal_reason d));
   ("execution_path", flags
     [("coordinator_only", true); ("executes_tasks", false); ("creates_continuation", false);
      ("creates_replan", false); ("persists_records", false); ("mutates_runtime", false);
      ("mutates_memory", false)])].

Definition classify_state (record : list (string * val)) : res GoalLoopDecision :=
  if truthy (vget "creates_replan_record" record)
  then Ok (Decision "create_replan_record" true (text_or (vget "stop_reason" record) "replan") "")
  else if truthy (vget "creates_continuation" record) then Ok (Decision "create_continuation" false "" "")
  else
    let stop := text_or (vget "stop_reason" record) (text_or (vget "loop_action" record) "stop") in
    let refusal := text (vget "refusal_reason" record) in
    refuses ← (if negb (truthy (vget "accepted" record)) then Ok true
               else val_in (vget "loop_action" record) ["refuse"; "stop"; "wait_for_user"]);
    Ok (Decision "terminal" true stop (if refuses : bool then str_or refusal stop else refusal)).
End GoalLoopCoordinator.

(** ** A whole cycle *)
Module SessionProgressionCoordinator.

Definition start_runtime (goal_id : string) (max_cycles max_replans max_continuations : val) :
    res SessionRuntime.EngineeringSessionRuntime :=
  SessionRuntime.start goal_id max_cycles max_replans max_continuations.

Definition is_replan_decision (d : list (string * val)) : bool := py_eq (vget "action" d) (VStr "create_replan_record").
Definition is_continuation_decision (d : list (string * val)) : bool :=
  py_eq (vget "action" d) (VStr "create_continuation").
Definition is_terminal_decision (d : list (string * val)) : bool :=
  negb (is_replan_decision d || is_continuation_decision d).

Definition marker (cycle_index : Z) (lineage : list (string * val)) : val := VDict
  [("schema", VStr "zero.session_progression_coordinator.v1"); ("attached_adaptive_loop", VBool true);
   ("attached_lifecycle", VBool true); ("attached_session", VBool true); ("attached_program", VBool true);
   ("attached_goal_loop_decision", VBool true); ("cycle_index", VInt cycle_index);
   ("goal_lineage", VDict lineage);
   ("execution_path", flags
     [("coordinator_only", true); ("executes_tasks", false); ("creates_continuation", false);
      ("creates_replan", false); ("persists_records", false); ("mutates_goal_repository", false);
      ("mutates_runtime", false); ("mutates_memory", false)])].

(** The state of a record on a cycle, or the one the runtime has. *)
Definition state_on (cycle : list (string * val)) (record field old : string) : string :=
  text_or (vget field (mapping (vget record cycle))) old.

Section coordinator.
Context {S : Type} `{Gate : AttestationGate S}.
Context (sha256_hex : string -> string) (py_float : val -> res val).

(** [now] and [stamp] are what the clock reads, as a float and as a text. *)
Definition attach_cycle_progression (now : val) (stamp : string) (s : S) (cycle : list (string * val))
    (att : option nat) (runtime : SessionRuntime.EngineeringSessionRuntime) (cycle_index : Z) :
    res (list (string * val) * SessionRuntime.EngineeringSessionRuntime) :=
  lineage ← extract_goal_lineage sha256_hex (VDict cycle) false false;
  let updated := match lineage with [] => cycle | _ => dset "goal_lineage" (VDict lineage) cycle end in
  updated ← AdaptiveLoopCoordinator.attach_cycle_controls py_float now s updated att
    (VDict (SessionRuntime.previous_observation runtime))
    (VInt (SessionRuntime.replan_count runtime)) (VInt (SessionRuntime.continuation_count runtime))
    (VInt (SessionRuntime.max_replans runtime)) (VInt (SessionRuntime.max_continuations runtime));
  updated ← LifecycleCoordinator.attach_lifecycle s updated att
    (if (cycle_index =? 0)%Z then "created" else "running");
  updated ← SessionCoordinator.attach_session stamp s updated att (SessionRuntime.session_from_state runtime);
  let next_session_state :=
    state_on updated "engineering_session_state" "session_state" (SessionRuntime.session_from_state runtime) in
  updated ← ProgramCoordinator.attach_program s updated att (SessionRuntime.program_from_state runtime);
  let next_program_state :=
    state_on updated "engineering_program_state" "program_state" (SessionRuntime.program_from_state runtime) in
  decision ← GoalLoopCoordinator.classify_state (mapping (vget "adaptive_replan_state" updated));
  let updated := dset "goal_loop_decision" (VDict (GoalLoopCoordinator.to_dict decision)) updated in
  let updated := dset "session_progression_coordinator" (marker cycle_index lineage) updated in
  next ← SessionRuntime.append_cycle updated runtime;
  next ← SessionRuntime.replace
    [("previous_observation", VDict (mapping (vget "adaptive_observation" updated)));
     ("session_from_state", VStr next_session_state); ("program_from_state", VStr next_program_state)] next;
  Ok (updated, next).
End coordinator.
End SessionProgressionCoordinator.

(** ** Lemmas *)

(** A cleaning function that keeps every name of a list, by evaluation. *)
Lemma names_kept (clean : val -> res string) l x :
  forallb (fun x => match clean (VStr x) with Ok y => (y =? x)%string | Raise _ => false end) l = true ->
  x ∈ l -> clean (VStr x) = Ok x.
Proof.
  rewrite forallb_forall. intros H Hx%list_elem_of_In. specialize (H _ Hx).
  destruct (clean (VStr x)); [|done]. by apply String.eqb_eq in H as ->.
Qed.

Lemma session_clean x :
  x ∈ Session.EngineeringSessionState -> Session.clean_engineering_session_state (VStr x) = Ok x.
Proof. apply names_kept. vm_compute. reflexivity. Qed.

Lemma program_clean x :
  x ∈ Program.EngineeringProgramState -> Program.clean_engineering_program_state (VStr x) = Ok x.
Proof. apply names_kept. vm_compute. reflexivity. Qed.

Lemma lifecycle_clean x :
  x ∈ Lifecycle.EngineeringLifecycleState -> Lifecycle.clean_engineering_lifecycle_state (VStr x) = Ok x.
Proof. apply names_kept. vm_compute. reflexivity. Qed.

(** The targets the machines derive are states. *)
Lemma lifecycle_target loop replan :
  Lifecycle.target_state_for_contract loop replan ∈ Lifecycle.EngineeringLifecycleState.
Proof. unfold Lifecycle.target_state_for_contract. repeat case_match; compute_decide. Qed.

Lemma session_target l : Session.target_state_for_lifecycle l ∈ Session.EngineeringSessionState.
Proof. unfold Session.target_state_for_lifecycle. repeat case_match; compute_decide. Qed.

Lemma program_target p : Program.target_state_for_session p ∈ Program.EngineeringProgramState.
Proof. unfold Program.target_state_for_session. repeat case_match; compute_decide. Qed.

Section progression_facts.
Context {S : Type} `{Gate : AttestationGate S}.

Lemma lifecycle_evaluates s cycle att from :
  from ∈ Lifecycle.EngineeringLifecycleState ->
  exists t, Lifecycle.evaluate_cycle s cycle att from = Ok (Lifecycle.transition s (Object t))
    /\ Lifecycle.attestation t = att
    /\ (text (vget "goal_id" cycle) <> "" -> Lifecycle.goal_id t = text (vget "goal_id" cycle)).
Proof.
  intros Hf. unfold Lifecycle.evaluate_cycle, Lifecycle.evaluate_adaptive_loop, Lifecycle.make_transition. unfold_m.
  rewrite (lifecycle_clean _ Hf), (lifecycle_clean _ (lifecycle_target _ _)).
  eexists. split; [reflexivity|]. split; [done|]. intros Hg. cbn [Lifecycle.goal_id].
  unfold py_or at 1 2. cbn [truthy]. apply String.eqb_neq in Hg. rewrite Hg. cbn [negb truthy]. rewrite Hg. cbn [negb].
  by rewrite !text_idemp.
Qed.

Lemma session_evaluates stamp s cycle att from L :
  from ∈ Session.EngineeringSessionState ->
  vget "engineering_lifecycle_state" cycle = VDict (Lifecycle.result_to_dict L) ->
  exists t, Session.evaluate_cycle stamp s cycle att from = Ok (Session.transition s (Object t))
    /\ Session.attestation t = att /\ Session.from_state t = from
    /\ Session.to_state t = Session.target_state_for_lifecycle (Lifecycle.result_to_dict L)
    /\ (text (py_or (vget "task_id" cycle) (vget "goal_id" cycle)) <> "" ->
        Session.task_id t = text (py_or (vget "task_id" cycle) (vget "goal_id" cycle))).
Proof.
  intros Hf Hl. unfold Session.evaluate_cycle, Session.evaluate_lifecycle. rewrite Hl. cbn [mapping].
  set (d := Lifecycle.result_to_dict L).
  match goal with |- context [match d with [] => ?a | _ :: _ => ?b end] =>
    change (match d with [] => a | _ :: _ => b end) with b end.
  unfold Session.make_transition. unfold_m.
  rewrite (session_clean _ Hf), (session_clean _ (session_target _)).
  eexists. split; [reflexivity|]. split; [done|]. split; [done|]. split; [done|].
  intros Hg. cbn [Session.task_id]. unfold Session.first_id, str_or. apply String.eqb_neq in Hg. rewrite Hg.
  by rewrite text_idemp.
Qed.

Lemma program_evaluates s cycle att from R :
  from ∈ Program.EngineeringProgramState ->
  vget "engineering_session_state" cycle = VDict (Session.result_to_dict R) ->
  exists t, Program.evaluate_cycle s cycle att from = Ok (Program.transition s (Object t))
    /\ Program.attestation t = att /\ Program.from_state t = from
    /\ Program.to_state t = Program.target_state_for_session (Session.result_to_dict R)
    /\ Program.goal_id t = text (vget "goal_id" cycle).
Proof.
  intros Hf Hr. unfold Program.evaluate_cycle, Program.evaluate_session, Program.make_transition. rewrite Hr. unfold_m.
  rewrite (program_clean _ Hf), (program_clean _ (program_target _)).
  eexists. split; [reflexivity|]. split_and!; try done. cbn [Program.goal_id]. by rewrite !text_idemp.
Qed.

(** A runtime the coordinators can work with. *)
Record progress_ok (py_float : val -> res val) (rt : SessionRuntime.EngineeringSessionRuntime) : Prop := {
  po_books : session_ok rt;
  po_session : SessionRuntime.session_from_state rt ∈ Session.EngineeringSessionState;
  po_program : SessionRuntime.program_from_state rt ∈ Program.EngineeringProgramState;
  po_previous : readable py_float (VDict (SessionRuntime.previous_observation rt)) }.

(** The goal a cycle is about, and the work its session is about. *)
Definition goal_of (cycle : list (string * val)) : string := text (vget "goal_id" cycle).
Definition work_of (cycle : list (string * val)) : string :=
  text (py_or (vget "task_id" cycle) (vget "goal_id" cycle)).

(** The keys the coordinators write. *)
Definition PROGRESSION_KEYS : list string :=
  CONTROL_KEYS ++ ["goal_lineage"; "lifecycle_coordinator"; "engineering_lifecycle_state";
    "session_coordinator"; "engineering_session_state"; "program_coordinator";
    "engineering_program_state"; "goal_loop_decision"; "session_progression_coordinator"].

(** What a cycle and the runtime are after the coordinators. *)
Record progressed (py_float : val -> res val) (now : val) (s : S) (cycle : list (string * val))
    (att : option nat) (rt : SessionRuntime.EngineeringSessionRuntime)
    (tl : Lifecycle.EngineeringLifecycleTransition) (ts : Session.EngineeringSessionTransition)
    (tp : Program.EngineeringProgramTransition) (r : Replan.AdaptiveReplanStateResult)
    (dec : GoalLoopCoordinator.GoalLoopDecision)
    (c : list (string * val)) (rt' : SessionRuntime.EngineeringSessionRuntime) : Prop := {
  pg_evaluated : Replan.evaluate_contract s (Replan.contract_to_dict
      (Replan.build_adaptive_replan_contract cycle (VInt (SessionRuntime.replan_count rt))
         (VInt (SessionRuntime.continuation_count rt)) (VInt (SessionRuntime.max_replans rt))
         (VInt (SessionRuntime.max_continuations rt)))) "continue"
      (VStr (str_or_empty (vget "goal_id" cycle))) att = Ok r;
  pg_replan : vget "adaptive_replan_state" c = VDict (Replan.result_to_dict r);
  pg_lifecycle : vget "engineering_lifecycle_state" c
    = VDict (Lifecycle.result_to_dict (Lifecycle.transition s (Object tl)));
  pg_lifecycle_goal : goal_of cycle <> "" -> Lifecycle.goal_id tl = goal_of cycle;
  pg_session : vget "engineering_session_state" c
    = VDict (Session.result_to_dict (Session.transition s (Object ts)));
  pg_session_from : Session.from_state ts = SessionRuntime.session_from_state rt;
  pg_session_to : Session.to_state ts = Session.target_state_for_lifecycle
    (Lifecycle.result_to_dict (Lifecycle.transition s (Object tl)));
  pg_session_work : work_of cycle <> "" -> Session.task_id ts = work_of cycle;
  pg_program : vget "engineering_program_state" c
    = VDict (Program.result_to_dict (Program.transition s (Object tp)));
  pg_program_from : Program.from_state tp = SessionRuntime.program_from_state rt;
  pg_program_to : Program.to_state tp = Program.target_state_for_session
    (Session.result_to_dict (Session.transition s (Object ts)));
  pg_program_goal : Program.goal_id tp = goal_of cycle;
  pg_decided : GoalLoopCoordinator.classify_state (Replan.result_to_dict r) = Ok dec;
  pg_decision : vget "goal_loop_decision" c = VDict (GoalLoopCoordinator.to_dict dec);
  pg_kept : forall k, k ∉ PROGRESSION_KEYS -> vget k c = vget k cycle;
  pg_books : same_books rt rt';
  pg_cycles : SessionRuntime.cycles rt' = SessionRuntime.cycles rt ++ [c];
  pg_session_state : SessionRuntime.session_from_state rt' = Session.r_state (Session.transition s (Object ts));
  pg_program_state : SessionRuntime.program_from_state rt' = Program.r_state (Program.transition s (Object tp));
  pg_ok : progress_ok py_float rt' }.

Lemma classify_decides r : exists dec, GoalLoopCoordinator.classify_state (Replan.result_to_dict r) = Ok dec.
Proof.
  unfold GoalLoopCoordinator.classify_state.
  change (vget "loop_action" (Replan.result_to_dict r)) with (VStr (Replan.r_action r)). rewrite val_in_str. unfold_m.
  destruct (truthy (vget "creates_replan_record" _)); [by eexists|].
  destruct (truthy (vget "creates_continuation" _)); [by eexists|].
  destruct (negb (truthy _)); by eexists.
Qed.

(** The states the results name are states. *)
Lemma session_state_valid s t :
  Session.from_state t ∈ Session.EngineeringSessionState ->
  Session.to_state t ∈ Session.EngineeringSessionState ->
  let r := Session.transition s (Object t) in
  Session.r_state r ∈ Session.EngineeringSessionState
  /\ Session.r_state r = (if Session.r_accepted r then Session.to_state t else Session.from_state t).
Proof.
  intros Hf Ht r. destruct (session_result s (Object t) (Session.from_state t) (Session.to_state t)
    (session_clean _ Hf) (session_clean _ Ht)) as (_ & E & _). fold r in E. rewrite E.
  split; [|done]. by destruct (Session.r_accepted r).
Qed.

Lemma program_state_valid s t :
  Program.from_state t ∈ Program.EngineeringProgramState ->
  Program.to_state t ∈ Program.EngineeringProgramState ->
  let r := Program.transition s (Object t) in
  Program.r_state r ∈ Program.EngineeringProgramState
  /\ Program.r_state r = (if Program.r_accepted r then Program.to_state t else Program.from_state t).
Proof.
  intros Hf Ht r. destruct (program_result s (Object t) (Program.from_state t) (Program.to_state t)
    (program_clean _ Hf) (program_clean _ Ht)) as (_ & E). fold r in E. rewrite E.
  split; [|done]. by destruct (Program.r_accepted r).
Qed.
End progression_facts.

(** ** A whole cycle *)

(** Without its checks, extraction answers on every mapping. *)
Lemma extract_lenient sha256_hex d : exists l, extract_goal_lineage sha256_hex (VDict d) false false = Ok l.
Proof.
  unfold extract_goal_lineage. unfold_m. cbn [andb].
  set (root := str_or (str_or _ _) _). set (lid := _first _ ["goal_lineage_id"]).
  assert (Hr : root = "" \/ clean root).
  { apply str_or_clean; [apply str_or_clean|]; apply first_clean. }
  destruct (negb (non_empty lid) && non_empty root) eqn:E; [|by eexists].
  apply andb_true_iff in E as [_ E]. destruct Hr as [->|[Hs Hn]]; [done|].
  unfold build_goal_lineage_id. rewrite Hs. apply String.eqb_neq in Hn as ->. by eexists.
Qed.

(** The keys the replanning contract is made from. *)
Lemma build_contract_dset k v cycle rc cc mr mc :
  k ∉ ["adaptive_decision"; "adaptive_decision_record"; "decision_reason"; "adaptive_reason"] ->
  Replan.build_adaptive_replan_contract (dset k v cycle) rc cc mr mc
  = Replan.build_adaptive_replan_contract cycle rc cc mr mc.
Proof.
  rewrite !not_elem_of_cons. intros (? & ? & ? & ? & _).
  unfold Replan.build_adaptive_replan_contract, Replan.original_decision. by rewrite !vget_dset_ne by congruence.
Qed.

Section attached.
Context {S : Type} `{Gate : AttestationGate S}.

(** What each coordinator makes of a cycle that carries the record below. *)
Lemma attached_lifecycle s cycle att from :
  from ∈ Lifecycle.EngineeringLifecycleState ->
  exists t c, LifecycleCoordinator.attach_lifecycle s cycle att from = Ok c
    /\ vget "engineering_lifecycle_state" c = VDict (Lifecycle.result_to_dict (Lifecycle.transition s (Object t)))
    /\ Lifecycle.attestation t = att
    /\ (text (vget "goal_id" cycle) <> "" -> Lifecycle.goal_id t = text (vget "goal_id" cycle))
    /\ forall k, k ∉ ["lifecycle_coordinator"; "engineering_lifecycle_state"] -> vget k c = vget k cycle.
Proof.
  intros Hf. unfold LifecycleCoordinator.attach_lifecycle. unfold_m.
  destruct (words_in Lifecycle.EngineeringLifecycleState from) as [Ht Hn]; [vm_compute; reflexivity|done|].
  rewrite text_or_self by done. destruct (lifecycle_evaluates s cycle att from Hf) as (t & -> & Ha & Hg).
  eexists t, _. split; [reflexivity|]. split; [by autorewrite with pydict|]. do 2 (split; [done|]).
  intros k Hk. rewrite !not_elem_of_cons in Hk. destruct_and! Hk. by rewrite !vget_dset_ne.
Qed.

Lemma attached_session stamp s cycle att from L :
  from ∈ Session.EngineeringSessionState ->
  vget "engineering_lifecycle_state" cycle = VDict (Lifecycle.result_to_dict L) ->
  exists t c, SessionCoordinator.attach_session stamp s cycle att from = Ok c
    /\ vget "engineering_session_state" c = VDict (Session.result_to_dict (Session.transition s (Object t)))
    /\ Session.attestation t = att /\ Session.from_state t = from
    /\ Session.to_state t = Session.target_state_for_lifecycle (Lifecycle.result_to_dict L)
    /\ (text (py_or (vget "task_id" cycle) (vget "goal_id" cycle)) <> "" ->
        Session.task_id t = text (py_or (vget "task_id" cycle) (vget "goal_id" cycle)))
    /\ forall k, k ∉ ["session_coordinator"; "engineering_session_state"] -> vget k c = vget k cycle.
Proof.
  intros Hf Hl. unfold SessionCoordinator.attach_session. unfold_m.
  destruct (words_in Session.EngineeringSessionState from) as [Ht Hn]; [vm_compute; reflexivity|done|].
  rewrite text_or_self by done.
  destruct (session_evaluates stamp s cycle att from L Hf Hl) as (t & -> & Ha & Hfr & Hto & Hg).
  eexists t, _. split; [reflexivity|]. split; [by autorewrite with pydict|]. do 4 (split; [done|]).
  intros k Hk. rewrite !not_elem_of_cons in Hk. destruct_and! Hk. by rewrite !vget_dset_ne.
Qed.

Lemma attached_program s cycle att from R :
  from ∈ Program.EngineeringProgramState ->
  vget "engineering_session_state" cycle = VDict (Session.result_to_dict R) ->
  exists t c, ProgramCoordinator.attach_program s cycle att from = Ok c
    /\ vget "engineering_program_state" c = VDict (Program.result_to_dict (Program.transition s (Object t)))
    /\ Program.attestation t = att /\ Program.from_state t = from
    /\ Program.to_state t = Program.target_state_for_session (Session.result_to_dict R)
    /\ Program.goal_id t = text (vget "goal_id" cycle)
    /\ forall k, k ∉ ["program_coordinator"; "engineering_program_state"] -> vget k c = vget k cycle.
Proof.
  intros Hf Hr. unfold ProgramCoordinator.attach_program. unfold_m.
  destruct (words_in Program.EngineeringProgramState from) as [Ht Hn]; [vm_compute; reflexivity|done|].
  rewrite text_or_self by done.
  destruct (program_evaluates s cycle att from R Hf Hr) as (t & -> & Ha & Hfr & Hto & Hg).
  eexists t, _. split; [reflexivity|]. split; [by autorewrite with pydict|]. do 4 (split; [done|]).
  intros k Hk. rewrite !not_elem_of_cons in Hk. destruct_and! Hk. by rewrite !vget_dset_ne.
Qed.
(** The keys of the three. *)
Definition MACHINE_KEYS : list string :=
  ["lifecycle_coordinator"; "engineering_lifecycle_state"; "session_coordinator"; "engineering_session_state";
   "program_coordinator"; "engineering_program_state"].

(** The three, one after the other. *)
Record machines (s : S) (c c4 c5 : list (string * val)) (sf pf : string)
    (tl : Lifecycle.EngineeringLifecycleTransition) (ts : Session.EngineeringSessionTransition)
    (tp : Program.EngineeringProgramTransition) : Prop := {
  mc_lifecycle : vget "engineering_lifecycle_state" c5
    = VDict (Lifecycle.result_to_dict (Lifecycle.transition s (Object tl)));
  mc_session4 : vget "engineering_session_state" c4
    = VDict (Session.result_to_dict (Session.transition s (Object ts)));
  mc_session : vget "engineering_session_state" c5 = vget "engineering_session_state" c4;
  mc_program : vget "engineering_program_state" c5
    = VDict (Program.result_to_dict (Program.transition s (Object tp)));
  mc_lifecycle_goal : goal_of c <> "" -> Lifecycle.goal_id tl = goal_of c;
  mc_session_from : Session.from_state ts = sf;
  mc_session_to : Session.to_state ts = Session.target_state_for_lifecycle
    (Lifecycle.result_to_dict (Lifecycle.transition s (Object tl)));
  mc_session_work : work_of c <> "" -> Session.task_id ts = work_of c;
  mc_program_from : Program.from_state tp = pf;
  mc_program_to : Program.to_state tp = Program.target_state_for_session
    (Session.result_to_dict (Session.transition s (Object ts)));
  mc_program_goal : Program.goal_id tp = goal_of c;
  mc_kept : forall k, k ∉ MACHINE_KEYS -> vget k c5 = vget k c }.

Lemma machines_run stamp s c att lf sf pf :
  lf ∈ Lifecycle.EngineeringLifecycleState -> sf ∈ Session.EngineeringSessionState ->
  pf ∈ Program.EngineeringProgramState ->
  exists tl ts tp c3 c4 c5,
    LifecycleCoordinator.attach_lifecycle s c att lf = Ok c3
    /\ SessionCoordinator.attach_session stamp s c3 att sf = Ok c4
    /\ ProgramCoordinator.attach_program s c4 att pf = Ok c5
    /\ machines s c c4 c5 sf pf tl ts tp.
Proof.
  intros Hl Hs Hp.
  destruct (attached_lifecycle s c att lf Hl) as (tl & c3 & E3 & L3 & _ & Gl & K3).
  destruct (attached_session stamp s c3 att _ _ Hs L3) as (ts & c4 & E4 & S4 & _ & Fs & Ts & Gs & K4).
  destruct (attached_program s c4 att _ _ Hp S4) as (tp & c5 & E5 & P5 & _ & Fp & Tp & Gp & K5).
  exists tl, ts, tp, c3, c4, c5. split_and!; [done..|].
  rewrite !(K3 "goal_id"), !(K3 "task_id") in Gs by compute_decide.
  rewrite (K4 "goal_id"), (K3 "goal_id") in Gp by compute_decide.
  constructor; try done.
  - by rewrite K5, K4, L3 by compute_decide.
  - by rewrite K5 by compute_decide.
  - intros k Hk. unfold MACHINE_KEYS in Hk. rewrite !not_elem_of_cons in Hk. destruct_and! Hk.
    by rewrite K5, K4, K3 by (rewrite !not_elem_of_cons; split_and!; try done; apply not_elem_of_nil).
Qed.

(** The states that are left are states. *)
Lemma machines_states s c c4 c5 sf pf tl ts tp :
  sf ∈ Session.EngineeringSessionState -> pf ∈ Program.EngineeringProgramState ->
  machines s c c4 c5 sf pf tl ts tp ->
  Session.r_state (Session.transition s (Object ts)) ∈ Session.EngineeringSessionState
  /\ Program.r_state (Program.transition s (Object tp)) ∈ Program.EngineeringProgramState.
Proof.
  intros Hs Hp []. split.
  - apply session_state_valid; [by rewrite mc_session_from0|]. rewrite mc_session_to0. apply session_target.
  - apply program_state_valid; [by rewrite mc_program_from0|]. rewrite mc_program_to0. apply program_target.
Qed.

End attached.

(** A created session neither completes nor waits. *)
Lemma created_session_refuses {S} `{Gate : AttestationGate S} s t :
  Session.from_state t = "created" -> Session.to_state t ∈ ["completed"; "waiting_user"] ->
  Session.r_accepted (Session.transition s (Object t)) = false
  /\ Session.r_state (Session.transition s (Object t)) = "created".
Proof.
  intros Hf Ht. assert (Hv : Session.to_state t ∈ Session.EngineeringSessionState)
    by (rewrite !elem_of_cons, elem_of_nil in Ht; destruct Ht as [->|[->|[]]]; compute_decide).
  assert (Hfc : Session.clean_engineering_session_state (vget "from_state" (Session.record_of (Object t)))
    = Ok "created") by (change (vget "from_state" _) with (VStr (Session.from_state t)); rewrite Hf; vm_compute; reflexivity).
  pose proof (session_clean _ Hv) as Htc.
  change (VStr (Session.to_state t)) with (vget "to_state" (Session.record_of (Object t))) in Htc.
  destruct (session_result s (Object t) _ _ Hfc Htc) as (Ea & Er & _).
  assert (Hr : Session.r_accepted (Session.transition s (Object t)) = false); [|by rewrite Hr in Er].
  rewrite Ea. apply not_true_iff_false. intros V.
  apply (session_validate_spec s (Object t) _ _ Hfc Htc) in V as [V _]. revert V.
  rewrite !elem_of_cons, elem_of_nil in Ht. destruct Ht as [->|[->|[]]]; apply (bool_decide_eq_false _);
    vm_compute; reflexivity.
Qed.

Section progression.
Context {S : Type} `{Gate : AttestationGate S}.
Context (sha256_hex : string -> string) (py_float : val -> res val).
Import SessionProgressionCoordinator.

(** Every cycle that can be observed goes through all the coordinators. *)
Lemma progression_runs now stamp s cycle att rt index :
  float_laws py_float now -> progress_ok py_float rt -> observable py_float now cycle ->
  exists tl ts tp r dec c rt',
    attach_cycle_progression sha256_hex py_float now stamp s cycle att rt index = Ok (c, rt')
    /\ progressed py_float now s cycle att rt tl ts tp r dec c rt'.
Proof.
  intros Hf [Hb Hs Hp Hr] Ho. unfold attach_cycle_progression. unfold_m.
  destruct (extract_lenient sha256_hex cycle) as [lin ->].
  set (c1 := match lin with [] => cycle | _ :: _ => dset "goal_lineage" (VDict lin) cycle end).
  assert (Hc1 : observable py_float now c1 /\ forall k, k <> "goal_lineage" -> vget k c1 = vget k cycle).
  { unfold c1. destruct lin; [done|]. split; [apply observable_dset; [by compute_decide|done]|].
    intros k Hk. by rewrite vget_dset_ne. }
  destruct Hc1 as [Ho1 K1].
  destruct (attach_controls_total py_float now s c1 att _ (VInt (SessionRuntime.replan_count rt))
    (VInt (SessionRuntime.continuation_count rt)) (VInt (SessionRuntime.max_replans rt))
    (VInt (SessionRuntime.max_continuations rt)) Hf Hr Ho1) as [c2 H2]. rewrite H2.
  destruct (attach_controls_spec _ _ _ _ _ _ _ _ _ _ _ H2) as (r & o & d & l & Er & C2). clear H2.
  destruct (machines_run stamp s c2 att (if (index =? 0)%Z then "created" else "running") _ _
    ltac:(destruct (index =? 0)%Z; compute_decide) Hs Hp)
    as (tl & ts & tp & c3 & c4 & c5 & -> & -> & E5 & M).
  destruct (machines_states _ _ _ _ _ _ _ _ _ Hs Hp M) as [HR HQ].
  unfold state_on. rewrite (mc_session4 _ _ _ _ _ _ _ _ _ M), E5, (mc_program _ _ _ _ _ _ _ _ _ M). cbn [mapping].
  change (vget "session_state" (Session.result_to_dict ?x)) with (VStr (Session.r_state x)).
  change (vget "program_state" (Program.result_to_dict ?x)) with (VStr (Program.r_state x)).
  set (R := Session.transition s (Object ts)) in *. set (Q := Program.transition s (Object tp)) in *.
  destruct (words_in Session.EngineeringSessionState _ eq_refl HR) as [WR NR].
  destruct (words_in Program.EngineeringProgramState _ eq_refl HQ) as [WQ NQ].
  rewrite !text_or_self by done.
  pose proof (mc_kept _ _ _ _ _ _ _ _ _ M) as KK.
  rewrite (KK "adaptive_replan_state"), (cn_state _ _ _ _ _ _ _ _ _ C2) by compute_decide. cbn [mapping].
  destruct (classify_decides r) as [dec Hdec]. rewrite Hdec.
  set (c6 := dset "session_progression_coordinator" _ _).
  destruct (next_runtime rt c6 (mapping (vget "adaptive_observation" c6)) (Session.r_state R) (Program.r_state Q)
    Hb) as (rt' & Hn & Hok & Hbooks & Hcyc & Hobs & Hss & Hps).
  { split; [|done]. by rewrite <- (text_strip (Session.r_state R)). }
  { split; [|done]. by rewrite <- (text_strip (Program.r_state Q)). }
  unfold_m. destruct (SessionRuntime.append_cycle c6 rt) as [rt1|]; [|done]. rewrite Hn.
  exists tl, ts, tp, r, dec, c6, rt'. split; [reflexivity|].
  assert (K6 : forall k, k ∉ ["goal_loop_decision"; "session_progression_coordinator"] -> vget k c6 = vget k c5).
  { intros k Hk. rewrite !not_elem_of_cons in Hk. destruct_and! Hk. unfold c6. by rewrite !vget_dset_ne. }
  assert (G2 : forall k, k ∉ CONTROL_KEYS -> k <> "goal_lineage" -> vget k c2 = vget k cycle).
  { intros k Hk Hl. by rewrite (cn_kept _ _ _ _ _ _ _ _ _ C2 k Hk), K1. }
  assert (G : goal_of c2 = goal_of cycle /\ work_of c2 = work_of cycle).
  { unfold goal_of, work_of. by rewrite !G2 by compute_decide. }
  destruct M. destruct G as [Gg Gw]. rewrite Gg in mc_lifecycle_goal0, mc_program_goal0. rewrite Gw in mc_session_work0.
  constructor; try done.
  - rewrite <- Er. rewrite (K1 "goal_id") by done. unfold c1. destruct lin; [done|].
    rewrite build_contract_dset by compute_decide. done.
  - rewrite K6, KK, (cn_state _ _ _ _ _ _ _ _ _ C2) by compute_decide. done.
  - by rewrite K6 by compute_decide.
  - by rewrite K6, mc_session0 by compute_decide.
  - by rewrite K6 by compute_decide.
  - unfold c6. by autorewrite with pydict.
  - intros k Hk. unfold PROGRESSION_KEYS in Hk. rewrite not_elem_of_app in Hk. destruct Hk as [Hc Hk].
    rewrite !not_elem_of_cons in Hk. destruct_and! Hk. unfold MACHINE_KEYS in KK.
    rewrite K6, KK by (rewrite !not_elem_of_cons; split_and!; try done; apply not_elem_of_nil). by apply G2.
  - constructor; [done|by rewrite Hss|by rewrite Hps|]. rewrite Hobs.
    rewrite K6, KK, (cn_observation _ _ _ _ _ _ _ _ _ C2) by compute_decide. right; right. exists o.
    split; [exact (cn_observed _ _ _ _ _ _ _ _ _ C2)|]. split; [|done].
    destruct (cn_stamped _ _ _ _ _ _ _ _ _ C2) as [v Hv]. by eapply (proj2 Hf).
Qed.

(** ** Theorems *)

(** C28. A cycle completes nothing by itself: if, after the coordinators of a cycle,
    its lifecycle is accepted as completed, or the session or the program has
    become completed, the completion authority has completed the goal or the
    work the cycle is about. *)
Theorem progression_completion_backed now stamp s cycle att rt index c rt' :
  gate_reached s -> float_laws py_float now -> progress_ok py_float rt -> observable py_float now cycle ->
  goal_of cycle <> "" -> work_of cycle <> "" ->
  attach_cycle_progression sha256_hex py_float now stamp s cycle att rt index = Ok (c, rt') ->
  let lifecycle := mapping (vget "engineering_lifecycle_state" c) in
  (vget "accepted" lifecycle = VBool true -> vget "lifecycle_state" lifecycle = VStr "completed" ->
     goal_done s (goal_of cycle))
  /\ (SessionRuntime.session_from_state rt' = "completed" ->
      SessionRuntime.session_from_state rt = "completed" \/ goal_done s (work_of cycle))
  /\ (SessionRuntime.program_from_state rt' = "completed" ->
      SessionRuntime.program_from_state rt = "completed" \/ goal_done s (goal_of cycle)).
Proof.
  intros Hg Hf Hok Ho Hgoal Hwork H.
  destruct (progression_runs now stamp s cycle att rt index Hf Hok Ho) as (tl & ts & tp & r & dec & c' & rt'' & E & P).
  rewrite H in E. injection E as <- <-. destruct P. cbv zeta. rewrite pg_lifecycle0. cbn [mapping].
  split_and!.
  - intros [= Ha] [= Hd]. destruct (lifecycle_done s (Object tl) Hg Ha Hd) as (t & [= <-] & D).
    by rewrite <- pg_lifecycle_goal0.
  - rewrite pg_session_state0. intros Hd. destruct (Session.r_accepted (Session.transition s (Object ts))) eqn:Ha.
    + destruct (session_done s (Object ts) Hg Ha Hd) as (t & [= <-] & D). right. by rewrite <- pg_session_work0.
    + left. destruct Hok. rewrite <- pg_session_from0, <- Hd. symmetry.
      destruct (session_state_valid s ts) as [_ E]; [by rewrite pg_session_from0|by rewrite pg_session_to0; apply session_target|].
      by rewrite E, Ha.
  - rewrite pg_program_state0. intros Hd. destruct (Program.r_accepted (Program.transition s (Object tp))) eqn:Ha.
    + destruct (program_done s (Object tp) Hg Ha Hd) as (t & [= <-] & D). right. by rewrite <- pg_program_goal0.
    + left. destruct Hok. rewrite <- pg_program_from0, <- Hd. symmetry.
      destruct (program_state_valid s tp) as [_ E]; [by rewrite pg_program_from0|by rewrite pg_program_to0; apply program_target|].
      by rewrite E, Ha.
Qed.

(** C33. A first cycle that ends its goal fails its program.  The session machine
    has no move from created to completed, nor to waiting for the user, so
    when the lifecycle of a first cycle is accepted as completed or as waiting
    for evidence the session's transition is refused, the session stays
    created, and the program, which takes a refused session for a failure,
    becomes failed. *)
Theorem first_cycle_completion_fails_program now stamp s cycle att rt index c rt' :
  float_laws py_float now -> progress_ok py_float rt -> observable py_float now cycle ->
  SessionRuntime.session_from_state rt = "created" -> SessionRuntime.program_from_state rt = "created" ->
  attach_cycle_progression sha256_hex py_float now stamp s cycle att rt index = Ok (c, rt') ->
  let lifecycle := mapping (vget "engineering_lifecycle_state" c) in
  vget "accepted" lifecycle = VBool true ->
  vget "lifecycle_state" lifecycle ∈ [VStr "completed"; VStr "waiting_evidence"] ->
  vget "accepted" (mapping (vget "engineering_session_state" c)) = VBool false
  /\ SessionRuntime.session_from_state rt' = "created"
  /\ SessionRuntime.program_from_state rt' = "failed".
Proof.
  intros Hf Hok Ho Hs Hp H lifecycle.
  destruct (progression_runs now stamp s cycle att rt index Hf Hok Ho) as (tl & ts & tp & r & dec & c' & rt'' & E & P).
  rewrite H in E. injection E as <- <-. destruct P. unfold lifecycle. rewrite pg_lifecycle0, pg_session0.
  cbn [mapping]. intros [= Ha] Hd.
  assert (Hto : Session.to_state ts ∈ ["completed"; "waiting_user"]).
  { rewrite pg_session_to0. set (L := Lifecycle.transition s (Object tl)) in *.
    unfold Session.target_state_for_lifecycle.
    change (vget "lifecycle_state" (Lifecycle.result_to_dict L)) with (VStr (Lifecycle.r_state L)) in Hd |- *.
    change (vget "accepted" (Lifecycle.result_to_dict L)) with (VBool (Lifecycle.r_accepted L)). rewrite Ha.
    rewrite !elem_of_cons, elem_of_nil in Hd. destruct Hd as [[= ->]|[[= ->]|[]]]; compute_decide. }
  rewrite Hs in pg_session_from0. destruct (created_session_refuses s ts pg_session_from0 Hto) as [Hr Er].
  rewrite pg_session_state0, pg_program_state0, Er.
  change (vget "accepted" (Session.result_to_dict ?x)) with (VBool (Session.r_accepted x)). rewrite Hr.
  split_and!; [done..|].
  assert (Tp : Program.to_state tp = "failed").
  { rewrite pg_program_to0. unfold Program.target_state_for_session.
    change (vget "accepted" (Session.result_to_dict ?x)) with (VBool (Session.r_accepted x)). by rewrite Hr. }
  rewrite <- pg_program_from0 in Hp.
  destruct (program_result s (Object tp) "created" "failed") as [Hacc Hst].
  { change (vget "from_state" _) with (VStr (Program.from_state tp)). rewrite Hp. vm_compute. reflexivity. }
  { change (vget "to_state" _) with (VStr (Program.to_state tp)). rewrite Tp. vm_compute. reflexivity. }
  rewrite Hst. destruct (Program.r_accepted _); [done|]. exfalso.
  enough (false = true) by done. apply Hacc. split; [compute_decide|done].
Qed.

(** A cycle that comes to the coordinators: what the clock reads then, as a float
    and as a text, the state of the authority, and the cycle. *)
Record arrival : Type := Arrival {
  ar_now : val;
  ar_stamp : string;
  ar_authority : S;
  ar_cycle : list (string * val);
  ar_attestation : option nat }.

Fixpoint progress_cycles (index : Z) (arrivals : list arrival) (rt : SessionRuntime.EngineeringSessionRuntime) :
    res SessionRuntime.EngineeringSessionRuntime :=
  match arrivals with
  | [] => Ok rt
  | a :: rest =>
      p ← attach_cycle_progression sha256_hex py_float (ar_now a) (ar_stamp a) (ar_authority a) (ar_cycle a)
            (ar_attestation a) rt index;
      progress_cycles (index + 1) rest p.2
  end.

Lemma start_runtime_ok goal mc mr mk :
  exists rt, start_runtime goal mc mr mk = Ok rt /\ progress_ok py_float rt /\ SessionRuntime.cycles rt = []
    /\ SessionRuntime.replan_count rt = 0%Z /\ SessionRuntime.continuation_count rt = 0%Z.
Proof.
  unfold start_runtime. set (m := SessionRuntime.start goal mc mr mk).
  assert (exists rt, m = Ok rt) as [rt E] by by eexists.
  exists rt. rewrite E. split; [done|]. pose proof (new_session_ok _ _ E) as Hs.
  unfold m, SessionRuntime.start, SessionRuntime.new in E. unfold_m. injection E as <-.
  split; [|done]. constructor; [done|compute_decide..|]. by right; left.
Qed.

(** C30. Cycles never get stuck.  From the runtime that is started for any goal and
    limits, any cycles that can be observed go through the coordinators one
    after the other without an exception: limits, counts and goal of the books
    stay, each cycle is kept in order with all it held beside the coordinators'
    own keys, and session and program are in states of their machines. *)
Theorem progression_total goal mc mr mk arrivals :
  Forall (fun a => float_laws py_float (ar_now a) /\ observable py_float (ar_now a) (ar_cycle a)) arrivals ->
  exists rt0 rt, start_runtime goal mc mr mk = Ok rt0 /\ progress_cycles 0 arrivals rt0 = Ok rt
    /\ same_books rt0 rt
    /\ Forall2 (fun a c => forall k, k ∉ PROGRESSION_KEYS -> vget k c = vget k (ar_cycle a))
         arrivals (SessionRuntime.cycles rt)
    /\ SessionRuntime.session_from_state rt ∈ Session.EngineeringSessionState
    /\ SessionRuntime.program_from_state rt ∈ Program.EngineeringProgramState.
Proof.
  intros Ha. destruct (start_runtime_ok goal mc mr mk) as (rt0 & E0 & Hok & Hc & _). exists rt0.
  enough (G : forall index rt1 before, progress_ok py_float rt1 -> SessionRuntime.cycles rt1 = before ->
    exists rt after, progress_cycles index arrivals rt1 = Ok rt /\ same_books rt1 rt /\ progress_ok py_float rt
      /\ SessionRuntime.cycles rt = before ++ after
      /\ Forall2 (fun a c => forall k, k ∉ PROGRESSION_KEYS -> vget k c = vget k (ar_cycle a)) arrivals after).
  { destruct (G 0%Z rt0 [] Hok Hc) as (rt & after & E & B & [_ P1 P2 _] & C & F). exists rt.
    rewrite C. by split_and!. }
  clear E0 Hok Hc rt0. induction Ha as [|a rest [Hf Ho] _ IH]; intros index rt1 before Hok Hc.
  - exists rt1, []. rewrite app_nil_r. by split_and!.
  - simpl. unfold_m. destruct (progression_runs (ar_now a) (ar_stamp a) (ar_authority a) (ar_cycle a)
      (ar_attestation a) rt1 index Hf Hok Ho) as (tl & ts & tp & r & dec & c & rt2 & E & P).
    rewrite E. cbn [snd]. destruct P.
    destruct (IH (index + 1)%Z rt2 (before ++ [c]) pg_ok0) as (rt & after & E' & B & Hok' & C & F); [congruence|].
    exists rt, (c :: after). rewrite E', C, <- app_assoc. split_and!; try done; [|by constructor].
    destruct pg_books0, B. unfold same_books. intuition congruence.
Qed.
End progression.

(** ** Many sessions *)
Section aggregation.
Context {S : Type} `{Gate : AttestationGate S}.
Import ProgramCoordinator.

Lemma count_state_cons x states st :
  count_state (x :: states) st = (if decide (x = st) then 1 else 0) + count_state states st.
Proof. unfold count_state. rewrite filter_cons. by destruct (decide (x = st)). Qed.

Lemma count_state_none states st : Nat.eqb (count_state states st) 0 = bool_decide (st ∉ states).
Proof.
  induction states as [|x states IH]; [by rewrite bool_decide_eq_true_2 by apply not_elem_of_nil|].
  rewrite count_state_cons. destruct (decide (x = st)) as [->|Hn].
  - rewrite bool_decide_eq_false_2; [done|]. intros H. apply H. by left.
  - simpl. rewrite IH. apply bool_decide_ext. rewrite not_elem_of_cons. naive_solver.
Qed.

Lemma count_state_all states st :
  count_state states st <= length states
  /\ (count_state states st = length states <-> Forall (fun x => x = st) states).
Proof.
  induction states as [|x states [IH1 IH2]]; [done|]. rewrite count_state_cons, Forall_cons. simpl.
  destruct (decide (x = st)) as [->|Hn]; (split; [lia|]).
  - split; [intros H; split; [done|apply IH2; lia]|intros [_ H%IH2]; lia].
  - split; [lia|by intros [? _]].
Qed.

Lemma state_from_record_valid d : _state_from_record d ∈ _PROGRAM_STATES.
Proof.
  unfold _state_from_record. set (raw := lower _). destruct (dget raw _) as [x|] eqn:E; [|compute_decide].
  apply dget_Some_elem in E.
  assert (H : Forall (fun p => p.2 ∈ _PROGRAM_STATES) _SESSION_STATE_ALIASES) by compute_decide.
  by apply (proj1 (Forall_forall _ _) H) in E.
Qed.

(** Sessions in no state that takes precedence over completion. *)
Lemma quiet_states states :
  Forall (fun x => x ∈ _PROGRAM_STATES) states ->
  Forall (fun x => x ∈ ["completed"; "archived"; "created"]) states <->
  ("failed" ∉ states) /\ ("blocked" ∉ states) /\ ("active" ∉ states) /\ ("paused" ∉ states).
Proof.
  rewrite !Forall_forall. intros Hv. split.
  - intros H. split_and!; intros Hx%H; revert Hx; apply (bool_decide_eq_false _); vm_compute; reflexivity.
  - intros (Hf & Hb & Ha & Hp) x Hx. specialize (Hv x Hx). unfold _PROGRAM_STATES in Hv.
    repeat (apply elem_of_cons in Hv as [->|Hv]; [done || compute_decide|]). by apply elem_of_nil in Hv.
Qed.

Lemma only_archived states x :
  Forall (fun x => x = "archived") states -> x ∈ states -> x = "archived".
Proof. rewrite Forall_forall. auto. Qed.

(** The state of a program, from any records of its sessions: failed exactly
    when a session failed; otherwise blocked exactly when one is blocked;
    otherwise active or paused by the sessions that are; archived exactly when
    there are sessions and all are archived; and completed exactly when some
    session is completed, every other is completed, archived or only created,
    and the authority accepts the attestation for the goal. *)
Theorem aggregate_exact s v goal att :
  let states := map _state_from_record (sessions_of v) in
  let says x := vget "program_state" (aggregate_sessions s v goal att) = VStr x in
  (says "failed" <-> ("failed" ∈ states))
  /\ (says "blocked" <-> ("failed" ∉ states) /\ "blocked" ∈ states)
  /\ (says "paused" <-> ("failed" ∉ states) /\ ("blocked" ∉ states) /\ ("active" ∉ states) /\ "paused" ∈ states)
  /\ (says "completed" <-> ("completed" ∈ states)
        /\ Forall (fun x => x ∈ ["completed"; "archived"; "created"]) states
        /\ gate_accepts s att (text (VStr goal)) = true)
  /\ (says "archived" <-> states <> [] /\ Forall (fun x => x = "archived") states).
Proof.
  intros states says.
  assert (Hv : Forall (fun x => x ∈ _PROGRAM_STATES) states).
  { unfold states. apply Forall_fmap, Forall_true. intros d. apply state_from_record_valid. }
  assert (Hi : forall x, says x <-> (decide_program s states goal att).1 = x).
  { intros x. unfold says, aggregate_sessions. fold states. cbn [vget dget String.eqb Ascii.eqb Bool.eqb].
    split; [by intros [= ->]|by intros ->]. }
  rewrite !Hi. clear Hi says. revert Hv. generalize states. clear v states. intros states Hv.
  unfold decide_program. destruct (decide (states = [])) as [->|Hne].
  { cbn. rewrite !elem_of_nil. intuition discriminate. }
  assert (Hm : forall {A} (a b : A), match states with [] => a | _ => b end = b) by (intros A a b; by destruct states).
  rewrite Hm, !count_state_none, !bool_decide_not, !negb_involutive. clear Hm.
  rewrite (quiet_states states Hv).
  destruct (count_state_all states "archived") as [_ Hall]. rewrite <- Hall.
  assert (Harch : forall x, x ∈ states -> x <> "archived" -> count_state states "archived" <> length states).
  { intros x Hx Hn E. apply Hn. by apply (only_archived states); [apply Hall|]. }
  clear Hall Hv.
  case_bool_decide as Hf; [pose proof (Harch _ Hf ltac:(done)); cbn [fst]; intuition discriminate|].
  case_bool_decide as Hb; [pose proof (Harch _ Hb ltac:(done)); cbn [fst]; intuition discriminate|].
  case_bool_decide as Ha; [pose proof (Harch _ Ha ltac:(done)); cbn [fst]; intuition discriminate|].
  case_bool_decide as Hp; [pose proof (Harch _ Hp ltac:(done)); cbn [fst]; intuition discriminate|].
  case_bool_decide as Hc; cbn [andb].
  - pose proof (Harch _ Hc ltac:(done)). destruct (gate_accepts _ _ _); cbn [fst]; intuition discriminate.
  - destruct (Nat.eqb_spec (count_state states "archived") (length states)) as [E|E]; cbn [fst];
      intuition discriminate.
Qed.
End aggregation.

(** ** Concrete runs *)

Definition demo_runtime : SessionRuntime.EngineeringSessionRuntime :=
  SessionRuntime.Make "g1" "g1" 3 1 3 0 0 false "max_cycles_reached" "" "active" "active" [] [].

Lemma demo_runtime_ok : progress_ok demo_float demo_runtime.
Proof.
  constructor; [|compute_decide..|by right; left].
  constructor; try (split; vm_compute; reflexivity || done); [vm_compute; done|..].
  all: try (repeat constructor; simpl; lia); done.
Qed.

(** A cycle that the planner calls complete. *)
Definition demo_done : list (string * val) :=
  [("goal_id", VStr "g1"); ("cycle_index", VInt 1); ("adaptive_decision", VStr "complete"); ("updated_at", VInt 1000)].

#[local] Existing Instance demo_gate.

Definition demo_progress (rt : SessionRuntime.EngineeringSessionRuntime) (att : option nat) :
    res (list (string * val) * SessionRuntime.EngineeringSessionRuntime) :=
  SessionProgressionCoordinator.attach_cycle_progression demo_sha256 demo_float (VInt 1000) "now" demo_state demo_done
    att rt 1.

Definition states_of (r : res (list (string * val) * SessionRuntime.EngineeringSessionRuntime)) : string * string :=
  match r with
  | Ok p => (SessionRuntime.session_from_state p.2, SessionRuntime.program_from_state p.2)
  | Raise _ => ("", "")
  end.

Example demo_attested : states_of (demo_progress demo_runtime (Some 0)) = ("completed", "completed").
Proof. vm_compute. reflexivity. Qed.
Example demo_unattested : states_of (demo_progress demo_runtime None) = ("failed", "failed").
Proof. vm_compute. reflexivity. Qed.

(** The loop starts with a created session. *)
Definition demo_started : SessionRuntime.EngineeringSessionRuntime :=
  SessionRuntime.Make "g1" "g1" 3 1 3 0 0 false "max_cycles_reached" "" "created" "created" [] [].

Lemma demo_started_ok : progress_ok demo_float demo_started.
Proof.
  constructor; [|compute_decide..|by right; left].
  constructor; try (split; vm_compute; reflexivity || done); [vm_compute; done|..].
  all: try (repeat constructor; simpl; lia); done.
Qed.

Lemma demo_done_observable : observable demo_float (VInt 1000) demo_done.
Proof. by eexists. Qed.

Lemma progression_completion_backed_witness :
  exists c rt', demo_progress demo_runtime (Some 0) = Ok (c, rt')
    /\ SessionRuntime.session_from_state rt' = "completed" /\ goal_done demo_state "g1".
Proof.
  assert (E : exists c rt', demo_progress demo_runtime (Some 0) = Ok (c, rt')
    /\ SessionRuntime.session_from_state rt' = "completed")
    by (eexists _, _; split; vm_compute; reflexivity).
  destruct E as (c & rt' & E & Hc). exists c, rt'. split; [exact E|]. split; [exact Hc|].
  destruct (progression_completion_backed demo_sha256 demo_float (VInt 1000) "now" demo_state demo_done (Some 0)
    demo_runtime 1 c rt' demo_gate_reached demo_float_laws demo_runtime_ok demo_done_observable) as (_ & H & _).
  - vm_compute. discriminate.
  - vm_compute. discriminate.
  - exact E.
  - destruct (H Hc) as [Hx|Hx]; [discriminate|exact Hx].
Defined.

Lemma first_cycle_completion_fails_program_witness :
  gate_accepts demo_state (Some 0) "g1" = true
  /\ exists c rt', demo_progress demo_started (Some 0) = Ok (c, rt')
    /\ SessionRuntime.program_from_state rt' = "failed".
Proof.
  split; [vm_compute; reflexivity|].
  assert (E : exists c rt', demo_progress demo_started (Some 0) = Ok (c, rt')
    /\ vget "accepted" (mapping (vget "engineering_lifecycle_state" c)) = VBool true
    /\ vget "lifecycle_state" (mapping (vget "engineering_lifecycle_state" c)) = VStr "completed")
    by (eexists _, _; split; [|split]; vm_compute; reflexivity).
  destruct E as (c & rt' & E & Ha & Hd). exists c, rt'. split; [exact E|].
  destruct (first_cycle_completion_fails_program demo_sha256 demo_float (VInt 1000) "now" demo_state demo_done (Some 0)
    demo_started 1 c rt' demo_float_laws demo_started_ok demo_done_observable) as (_ & _ & H).
  - reflexivity.
  - reflexivity.
  - exact E.
  - exact Ha.
  - rewrite Hd. by left.
  - exact H.
Defined.

Lemma progression_total_witness :
  exists rt0 rt,
    SessionProgressionCoordinator.start_runtime "g1" (VInt 3) (VInt 1) VNone = Ok rt0
    /\ progress_cycles demo_sha256 demo_float 0
         [Arrival (VInt 1000) "now" demo_state (demo_cycle []) None;
          Arrival (VInt 1000) "now" demo_state demo_done (Some 0)] rt0 = Ok rt
    /\ length (SessionRuntime.cycles rt) = 2.
Proof.
  destruct (progression_total demo_sha256 demo_float "g1" (VInt 3) (VInt 1) VNone
    [Arrival (VInt 1000) "now" demo_state (demo_cycle []) None;
     Arrival (VInt 1000) "now" demo_state demo_done (Some 0)]) as (rt0 & rt & E0 & E & _ & F & _).
  - repeat constructor; try exact (proj1 demo_float_laws); try exact (proj2 demo_float_laws); by eexists.
  - exists rt0, rt. split; [exact E0|]. split; [exact E|]. by apply Forall2_length in F.
Defined.
