(* ===== verification/LoopServices.v ===== *)
(** * What the engineering goal loop is given, and what it persists

    - [services]: the objects the loop is given: the goal repository, the
      runner, the evidence authority, the issue reporter and the clock.  They
      are parameters, operations on a world [W] that may raise;
    - [DecisionEvidence]: [core/evidence/decision_evidence.py] and
      [decision_evidence_models.py], the record of a decision built from a cycle;
    - [AdaptivePersistenceGateway]: [core/tasks/adaptive_persistence_gateway.py],
      which writes a cycle to the repository and to the evidence authority;
    - [RuntimeContract]: [core/tasks/engineering_runtime_contract.py], what a
      runner hands to the loop;
    - [GoalRunner]: the check of the lineage that [EngineeringGoalRunner] makes
      before it runs a goal ([core/tasks/engineering_goal_runner.py]).

    A cycle is a dict and, beside it, the object under its key
    ["goal_completion_attestation"]; a runner's result is a mapping and, beside
    it, the object under ["goal_completion_authority_result"] of its adaptive
    decision. *)

From stdpp Require Import pretty.
From S2P Require Import Prelude PyVal Lineage Completion Engineering Adaptive Runtimes Progression.

Definition cycle : Type := list (string * val) * option nat.

Record services (W : Type) : Type := Services {
  load_goal : string -> M W val;
  save_goal : list (string * val) -> M W (list (string * val));
  update_goal : string -> list (string * val) -> M W unit;
  run_goal : string -> list (string * val) -> M W (val * option nat);
  (** [register_decision_evidence] of the evidence authority, and the dict of
      the chain [get_goal_chain] finds for a goal, session, lineage and root. *)
  register_evidence : list (string * val) -> M W (list (string * val));
  goal_chain : string -> val -> val -> val -> M W (list (string * val));
  (** [build_summary] of the issue reporter. *)
  build_summary : M W (list (string * val));
  (** What the clock reads, as a float and as a text. *)
  clock : W -> val;
  stamp : W -> string }.
Arguments load_goal {W}. Arguments save_goal {W}. Arguments update_goal {W}. Arguments run_goal {W}.
Arguments register_evidence {W}. Arguments goal_chain {W}. Arguments build_summary {W}.
Arguments clock {W}. Arguments stamp {W}.

Definition read_clock {W} (sv : services W) : M W val := fun w => (Ok (clock sv w), w).

(** [cycle[key] = v] *)
Definition put (key : string) (v : val) (c : cycle) : cycle := (dset key v c.1, c.2).

(** ** What a runner hands over *)
Module RuntimeContract.

Definition ENGINEERING_RUNTIME_CONTRACT_SCHEMA : string := "zero.engineering_runtime_contract.v1".

Record EngineeringRuntimeContract : Type := Make {
  goal_id : string;
  action : string;
  ok : bool;
  runtime_request : list (string * val);
  runtime_result : list (string * val);
  runtime_stdout : string;
  runtime_root_cause : list (string * val);
  adaptive_decision : list (string * val);
  issue_summary : list (string * val) }.

(** The constructor with its [__post_init__]. *)
Definition make (goal act : val) (ok : bool) (request result : val) (stdout : val)
    (root_cause adaptive issues : val) : EngineeringRuntimeContract :=
  Make (text goal) (text_or act "run_goal") ok (mapping request) (mapping result) (str_or_empty stdout)
    (mapping root_cause) (mapping adaptive) (mapping issues).

Definition to_dict (c : EngineeringRuntimeContract) : list (string * val) :=
  [("schema", VStr ENGINEERING_RUNTIME_CONTRACT_SCHEMA); ("goal_id", VStr (goal_id c)); ("action", VStr (action c));
   ("ok", VBool (ok c)); ("runtime_request", VDict (runtime_request c)); ("runtime_result", VDict (runtime_result c));
   ("runtime_stdout", VStr (runtime_stdout c)); ("runtime_root_cause", VDict (runtime_root_cause c));
   ("adaptive_decision", VDict (adaptive_decision c)); ("issue_summary", VDict (issue_summary c));
   ("execution_path", flags
     [("runner_produces_contract", true); ("loop_consumes_contract", true); ("decision_only", true);
      ("executes_tasks", false); ("persists_goal", false); ("writes_evidence", false);
      ("mutates_runtime", false); ("mutates_memory", false)])].

Definition build_engineering_runtime_contract (goal act : val) (ok : bool) (request result : val) (stdout : val)
    (root_cause adaptive issues : val) : list (string * val) :=
  to_dict (make goal act ok (py_or request (VDict [])) (py_or result (VDict [])) stdout
    (py_or root_cause (VDict [])) (py_or adaptive (VDict [])) (py_or issues (VDict []))).

Definition build_engineering_runtime_contract_from_result (result : val) : list (string * val) :=
  let record := mapping result in
  let existing := mapping (vget "engineering_runtime_contract" record) in
  if py_eq (vget "schema" existing) (VStr ENGINEERING_RUNTIME_CONTRACT_SCHEMA) then existing
  else build_engineering_runtime_contract (VStr (text (vget "goal_id" record)))
         (VStr (text_or (vget "action" record) "run_goal")) (truthy (vget "ok" record))
         (VDict (mapping (vget "runtime_request" record))) (VDict (mapping (vget "runtime_result" record)))
         (VStr (str_or_empty (vget "runtime_stdout" record))) (VDict (mapping (vget "runtime_root_cause" record)))
         (VDict (mapping (vget "adaptive_decision" record))) (VDict (mapping (vget "issue_summary" record))).
End RuntimeContract.

(** ** The runner's check of a lineage *)
Module GoalRunner.
Section runner.
Context (sha256_hex : string -> string).

(** The goal that [run_goal] works on: a loaded goal under a given lineage. *)
Definition bind_lineage (goal : list (string * val)) (goal_lineage : option (list (string * val))) :
    res (list (string * val)) :=
  match goal_lineage with
  | None => Ok goal
  | Some l =>
      persisted ← extract_goal_lineage sha256_hex (VDict goal) true true;
      requested ← extract_goal_lineage sha256_hex (VDict l) true true;
      same ← lineage_scope_matches sha256_hex (VDict persisted) (VDict requested);
      if negb same then Raise (ValueError "engineering_runner_governance_identity_conflict")
      else if negb (py_eq (vget "goal_id" persisted) (vget "goal_id" requested))
      then Raise (ValueError "engineering_runner_goal_lineage_branch_conflict")
      else attach_goal_lineage sha256_hex goal (VDict requested)
  end.
End runner.
End GoalRunner.

(** ** The record of a decision *)
Module DecisionEvidence.

Definition DECISION_EVIDENCE_SCHEMA : string := "zero.decision_evidence.v1".

Record DecisionEvidenceRecord : Type := Make {
  decision_id : string;
  goal_id : string;
  task_id : string;
  source_stage : string;
  observed_event : val;
  outcome_class : string;
  decision : string;
  decision_reason : string;
  next_action : string;
  evidence_refs : list val;
  created_at : val;
  confidence : val;
  confidence_unavailable_reason : string;
  links : list (string * val) }.

Definition to_dict (r : DecisionEvidenceRecord) : list (string * val) :=
  [("schema", VStr DECISION_EVIDENCE_SCHEMA); ("decision_id", VStr (decision_id r)); ("goal_id", VStr (goal_id r));
   ("task_id", VStr (task_id r)); ("source_stage", VStr (source_stage r)); ("observed_event", observed_event r);
   ("outcome_class", VStr (outcome_class r)); ("decision", VStr (decision r));
   ("decision_reason", VStr (decision_reason r)); ("next_action", VStr (next_action r));
   ("evidence_refs", VList (evidence_refs r)); ("created_at", created_at r); ("links", VDict (links r))]
  ++ match confidence r with
     | VNone => [("confidence_unavailable_reason",
                  VStr (str_or (confidence_unavailable_reason r) "confidence_not_present_in_adaptive_decision"))]
     | v => [("confidence", v)]
     end.

(** [item in (None, "")] *)
Definition is_blank (v : val) : bool := match v with VNone | VStr "" => true | _ => false end.

Definition decision_refs (items : list val) : list val :=
  omap (M:=list) (fun item : val =>
    match item with
    | VDict d => Some (if (text (vget "evidence_id" d) =? "")%string then item else VStr (text (vget "evidence_id" d)))
    | _ => if is_blank item then None else Some item
    end) items.

(** [json.dumps(d, sort_keys=True)] of a flat dict whose keys are given in order. *)
Definition json_line (items : list (string * val)) : string :=
  "{" +:+ join ", " (map (fun kv => json_str true kv.1 +:+ ": " +:+ json_dumps true kv.2) items) +:+ "}".

Section evidence.
Context (sha256_hex : string -> string).

Definition decision_id_of (goal task : string) (index : Z) (decision outcome : string) (lineage : list (string * val)) :
    string :=
  "decision_" +:+ str_take 20 (sha256_hex (utf8 (json_line
    [("branch_id", vget_or "branch_id" (VStr "") lineage); ("cycle_index", VInt index);
     ("decision", VStr decision); ("goal_id", VStr goal);
     ("goal_lineage_id", vget_or "goal_lineage_id" (VStr "") lineage);
     ("outcome_class", VStr outcome); ("task_id", VStr task)]))).

Definition build_decision_evidence (cycle_record : list (string * val)) (continuation_work_item replan_record now : val) :
    res (list (string * val)) :=
  let adaptive := mapping (vget "adaptive_decision_record" cycle_record) in
  let planning := mapping (vget "adaptive_planning_record" cycle_record) in
  let runtime := mapping (vget "runtime_result" (mapping (vget "runner_result" cycle_record))) in
  let latest_iteration := mapping (List.last (list_of (vget "iterations" runtime)) (VDict [])) in
  let continuation := mapping (vget "continuation_result" latest_iteration) in
  let latest_result := mapping (vget "latest_result" continuation) in
  let task := text (py_or (py_or (py_or (vget "task_id" latest_result) (vget "task_name" latest_result))
                                 (vget "task_id" adaptive)) (vget "previous_step" planning)) in
  let goal := text (py_or (vget "goal_id" cycle_record) (vget "goal_id" adaptive)) in
  index ← int_field "cycle_index" 0 cycle_record;
  lineage ← extract_goal_lineage sha256_hex (VDict cycle_record) false false;
  let decision := text_or (vget "decision" adaptive) "unavailable" in
  let outcome := text_or (py_or (vget "outcome_class" planning) (vget "outcome_class" adaptive)) "unavailable" in
  let next := text_or (py_or (vget "next_action" planning) (vget "next_action" adaptive)) "unavailable" in
  let why := text_or (py_or (py_or (py_or (vget "decision_reason" planning) (vget "decision_reason" cycle_record))
                                   (vget "decision_reason" adaptive)) (vget "reason" adaptive))
                     "decision_reason_unavailable" in
  let lifecycle := mapping (vget "goal_lifecycle" continuation) in
  let result := to_dict (Make (decision_id_of goal task index decision outcome lineage) goal task
    "engineering_goal_loop"
    (VDict [("runtime_state", VStr (text (vget "state" runtime)));
            ("runtime_stop_reason", VStr (text (vget "stop_reason" runtime)));
            ("goal_state", VStr (text (vget "goal_state" lifecycle)));
            ("failed_tasks", VList (list_of (vget "failed_tasks" lifecycle)))])
    outcome decision why next (decision_refs (list_of (vget "evidence_chain" adaptive))) now
    (if is_blank (vget "confidence" adaptive) then VNone else vget "confidence" adaptive)
    "confidence_not_present_in_adaptive_decision"
    [("continuation_goal_id", VStr (text (vget "goal_id" (mapping continuation_work_item))));
     ("replan_goal_id", VStr (text (vget "goal_id" (mapping replan_record)))); ("cycle_index", VInt index)]) in
  Ok (dset "goal_lineage" (VDict lineage) (dupdate result lineage)).
End evidence.
End DecisionEvidence.

(** ** The gateway *)
Module AdaptivePersistenceGateway.

Definition ADAPTIVE_PERSISTENCE_GATEWAY_SCHEMA : string := "zero.adaptive_persistence_gateway.v1".

(** The counts of replans and continuations made and allowed. *)
Record counts : Type := Counts {
  replan_count : Z;
  continuation_count : Z;
  max_replans : Z;
  max_continuations : Z }.

Definition build_adaptive_planning_record (c : list (string * val)) (n : counts) : list (string * val) :=
  let record := mapping (vget "adaptive_planning_record" c) in
  let adaptive := mapping (vget "adaptive_decision_record" c) in
  dupdate record
    [("schema", VStr (text_or (vget "schema" record) "zero.adaptive_planning.record.v1"));
     ("previous_goal", VStr (text_or (vget "previous_goal" record) (text (vget "goal_id" c))));
     ("previous_step", vget "previous_step" record);
     ("outcome_class", VStr (text_or (vget "outcome_class" record) (text (vget "outcome_class" adaptive))));
     ("decision_reason", VStr (text_or (vget "decision_reason" record)
        (text (py_or (py_or (vget "decision_reason" c) (vget "decision_reason" adaptive)) (vget "reason" adaptive)))));
     ("next_action", VStr (text_or (vget "next_action" record) (text_or (vget "next_action" adaptive) "stop")));
     ("replan_count", VInt (replan_count n)); ("continuation_count", VInt (continuation_count n));
     ("max_replans", VInt (max_replans n)); ("max_continuations", VInt (max_continuations n));
     ("adaptive_replan_contract", VDict (mapping (vget "adaptive_replan_contract" c)));
     ("persistence_gateway_schema", VStr ADAPTIVE_PERSISTENCE_GATEWAY_SCHEMA)].

(** [[text(item) for item in v if text(item)]] of a list, and with one more id. *)
Definition clean_ids (v : val) : list string := filter (fun s => non_empty s = true) (map text (list_of v)).
Definition with_id (id : string) (ids : list string) : list string :=
  if bool_decide (id ∈ ids) then ids else ids ++ [id].

(** The record of a continuation or a replan that refers to a decision. *)
Definition linked (id : string) (d : list (string * val)) : list (string * val) :=
  dset "evidence_refs" (VList (map VStr (with_id id (clean_ids (vget "evidence_refs" d)))))
    (dset "evidence_ref" (VStr id) (dset "decision_evidence_id" (VStr id) d)).

Definition linked_replan (id : string) (d : list (string * val)) : list (string * val) :=
  let request := mapping (vget "replan_request" d) in
  linked id
    (if truthy (vget "request_id" request) && negb (truthy (vget "replan_request_id" d))
     then dset "replan_request_id" (VStr (text (vget "request_id" request))) d else d).

Section gateway.
Context {W : Type}.
Context (sha256_hex : string -> string) (sv : services W).

Definition persist_goal_adaptive_metadata (c record : list (string * val)) : M W unit :=
  let goal_id := text (vget "goal_id" c) in
  goal ← load_goal sv goal_id;
  match goal with
  | VDict d =>
      persisted ← mlift (extract_goal_lineage sha256_hex goal true true);
      own ← mlift (extract_goal_lineage sha256_hex (VDict c) true true);
      same ← mlift (lineage_scope_matches sha256_hex (VDict persisted) (VDict own));
      if negb same then mraise (ValueError "adaptive_persistence_goal_lineage_conflict")
      else
        let metadata := mapping (vget "metadata" d) in
        let history := filter (fun v => is_mapping v = true) (list_of (vget "adaptive_planning_history" metadata)) in
        lineage ← mlift (extract_goal_lineage sha256_hex (VDict c) false false);
        update_goal sv goal_id
          [("metadata", VDict
             [("goal_lineage", VDict lineage); ("adaptive_planning_record", VDict record);
              ("adaptive_planning_history", VList (history ++ [VDict record]))])]
  | _ => mraise (ValueError "adaptive_persistence_goal_record_required")
  end.

Definition register_decision_evidence (c : list (string * val)) : M W (list (string * val)) :=
  _ ← mlift (extract_goal_lineage sha256_hex (VDict c) true true);
  now ← read_clock sv;
  evidence ← mlift (DecisionEvidence.build_decision_evidence sha256_hex c
    (VDict (mapping (vget "continuation_work_item" c))) (VDict (mapping (vget "replan_record" c))) now);
  register_evidence sv evidence.

Definition evidence_chain_summary (goal_id : string) (goal_lineage : val) : M W (list (string * val)) :=
  mcatch
    (lineage ← mlift (extract_goal_lineage sha256_hex goal_lineage false false);
     goal_chain sv (text (VStr goal_id)) (py_or (vget "session_id" lineage) VNone)
       (py_or (vget "goal_lineage_id" lineage) VNone) (py_or (vget "root_goal_id" lineage) VNone))
    (fun _ => mret []).

Definition link_continuation (id : string) (c : list (string * val)) : M W (list (string * val)) :=
  let item := mapping (vget "continuation_work_item" c) in
  let continuation_goal_id := text (vget "goal_id" item) in
  if (continuation_goal_id =? "")%string then mret c
  else
    _ ← update_goal sv continuation_goal_id [("metadata", VDict [("decision_evidence_id", VStr id)])];
    mret (dset "continuation_work_item" (VDict (linked id item)) c).

Definition link_decision_evidence (c decision_evidence : list (string * val)) : M W (list (string * val)) :=
  let id := text (vget "decision_id" decision_evidence) in
  if (id =? "")%string then mret c
  else
    let goal_id := text (vget "goal_id" c) in
    goal ← load_goal sv goal_id;
    match py_or goal (VDict []) with
    | VDict d =>
        let ids := clean_ids (vget "decision_evidence_ids" (mapping (vget "metadata" d))) in
        _ ← update_goal sv goal_id
              [("metadata", VDict [("decision_evidence_ids", VList (map VStr (with_id id ids)))])];
        c ← link_continuation id c;
        mret (if truthy (vget "replan_record" c)
              then dset "replan_record" (VDict (linked_replan id (mapping (vget "replan_record" c)))) c else c)
    | _ => mraise (AttributeErr "get")
    end.

Definition MARKER (registered : bool) : val := VDict
  [("schema", VStr ADAPTIVE_PERSISTENCE_GATEWAY_SCHEMA); ("persisted_adaptive_planning_record", VBool true);
   ("registered_decision_evidence", VBool registered); ("updated_goal_metadata", VBool true);
   ("execution_path", flags
     [("persistence_only", true); ("executes_tasks", false); ("decides_adaptive_action", false);
      ("mutates_runtime", false); ("mutates_memory", false)])].

(** The cycle with what the gateway notes on it before it writes anything. *)
Definition noted (c : list (string * val)) (n : counts) : list (string * val) :=
  let record := build_adaptive_planning_record c n in
  dupdate c
    [("adaptive_planning_record", VDict record); ("outcome_class", vget "outcome_class" record);
     ("decision_reason", vget "decision_reason" record); ("replan_count", VInt (replan_count n));
     ("continuation_count", VInt (continuation_count n))].

Definition persist_cycle (c : list (string * val)) (n : counts) : M W (list (string * val)) :=
  let record := build_adaptive_planning_record c n in
  let c := noted c n in
  lineage ← mlift (extract_goal_lineage sha256_hex (VDict c) true true);
  _ ← persist_goal_adaptive_metadata c record;
  decision_evidence ← register_decision_evidence c;
  let c := dset "decision_evidence" (VDict decision_evidence) c in
  chain ← evidence_chain_summary (text (vget "goal_id" c)) (VDict lineage);
  let c := dset "evidence_chain" (VDict chain) c in
  c ← link_decision_evidence c decision_evidence;
  mret (dset "adaptive_persistence_gateway"
         (MARKER (non_empty (text (vget "decision_id" decision_evidence)))) c).
End gateway.
End AdaptivePersistenceGateway.

(** ** A small world: the completion authority and the stored goals *)
Record demo_world : Type := DemoWorld {
  dw_authority : completion_state;
  dw_goals : list (string * val) }.

#[local] Existing Instance demo_gate.
#[refine] Instance demo_world_gate : AttestationGate demo_world := {
  gate_reached w := gate_reached (dw_authority w);
  gate_accepts w := gate_accepts (dw_authority w);
  gate_record w := gate_record (dw_authority w);
  goal_done w := goal_done (dw_authority w) }.
Proof. intros w. apply gate_sound. Defined.

Definition demo_put (g : string) (v : val) : M demo_world unit :=
  mmodify (fun w => DemoWorld (dw_authority w) (dset g v (dw_goals w))).

(** A repository in memory and a runner that returns what [script] says, after
    the check of the lineage. *)
Definition demo_services (script : string -> list (string * val) * option nat) : services demo_world := {|
  load_goal g := fun w => (Ok (vget g (dw_goals w)), w);
  save_goal d := _ ← demo_put (text (vget "goal_id" d)) (VDict d); mret d;
  update_goal g d :=
    w ← mget;
    let old := mapping (vget g (dw_goals w)) in
    demo_put g (VDict (dset "metadata"
      (VDict (dupdate (mapping (vget "metadata" old)) (mapping (vget "metadata" d)))) old));
  run_goal g l :=
    w ← mget;
    _ ← mlift (GoalRunner.bind_lineage demo_sha256 (mapping (vget g (dw_goals w))) (Some l));
    mret (VDict (script g).1, (script g).2);
  register_evidence d := mret (dset "evidence_id" (vget "decision_id" d) d);
  goal_chain g _ _ _ := mret [("goal_id", VStr g)];
  build_summary := mret [];
  clock _ := VInt 1000;
  stamp _ := "now" |}.

Definition demo_lineage : list (string * val) :=
  match create_root_goal_lineage demo_sha256 "g1" None None with Ok l => l | Raise _ => [] end.
Definition demo_goal : list (string * val) :=
  dupdate [("goal_id", VStr "g1"); ("summary", VStr "one")] (dset "goal_lineage" (VDict demo_lineage) demo_lineage).
Definition demo_before : demo_world := DemoWorld demo_state [("g1", VDict demo_goal)].
