(* ===== verification/LoopCoordinators.v ===== *)
(** * What the engineering goal loop is made of

    - [ContinuationCoordinator] and [ReplanCoordinator]:
      [core/adaptive/continuation_coordinator.py] and [replan_coordinator.py];
    - [GoalLoopDispatcher]: [core/tasks/goal_loop_dispatcher.py];
    - [GoalLoopTerminalCoordinator]:
      [core/tasks/goal_loop_terminal_coordinator.py].

    [zero] is the float [0.0], which is stored and never computed with. *)

From stdpp Require Import pretty.
From S2P Require Import Prelude PyVal Lineage Completion Engineering Issues Adaptive Runtimes Progression LoopServices.

(** The ids under a key of the mappings of an evidence chain. *)
Definition evidence_ids (chain : val) : res (list string) :=
  items ← py_iter (py_or chain (VList []));
  Ok (omap (M:=list) (fun item : val => if is_mapping item && negb (text (vget "evidence_id" (mapping item)) =? "")%string
                        then Some (text (vget "evidence_id" (mapping item))) else None) items).

Definition first_ref (refs : list string) : string := match refs with [] => "" | r :: _ => r end.

(** [{"session_id": session_id} if session_id else {}] *)
Definition session_entry (session_id : string) : list (string * val) :=
  if (session_id =? "")%string then [] else [("session_id", VStr session_id)].

(** ** Continuations *)
Module ContinuationCoordinator.

Definition _continuation_goal_id (source : string) (cycle_index : Z) : string :=
  text_or (VStr source) "goal" +:+ SessionRuntime.CONTINUATION_MARK +:+ pretty (cycle_index + 1)%Z.

Definition MARKER : val := VDict
  [("schema", VStr "zero.continuation_coordinator.v1"); ("created_work_item", VBool true);
   ("execution_path", flags
     [("coordinator_only", true); ("executes_tasks", false); ("decides_adaptive_action", false);
      ("writes_evidence", false); ("mutates_runtime", false); ("mutates_memory", false)])].

Definition WORK_ITEM_SCHEMA : string := "zero.engineering_goal_loop.continuation_work_item.v2".

(** What a work item is made from: the plan, the request of the next run, the
    goal that is continued and the cycle it comes from. *)
Record sources_of_item : Type := Sources {
  plan : list (string * val);
  payload : list (string * val);
  template : list (string * val);
  source_goal : string;
  index : Z }.

Definition read_sources (runtime : Continuation.ContinuationRuntime) (record : list (string * val))
    (goal : string) (cycle_index : option Z) (continuation_plan : val) : res sources_of_item :=
  let plan := dict_or (mapping continuation_plan) (mapping (vget "continuation_plan" record)) in
  let next_request := mapping (vget "next_runtime_request" plan) in
  let source := text_or
    (py_or (py_or (py_or (py_or (VStr goal) (vget "goal_id" record)) (vget "goal_id" plan))
                  (vget "goal_id" next_request))
           (VStr (Continuation.current_goal_id runtime)))
    (Continuation.current_goal_id runtime) in
  i ← match cycle_index with Some i => Ok i | None => int_field "cycle_index" 0 record end;
  Ok (Sources plan (mapping (vget "payload" next_request)) (mapping (vget "work_item_template" plan)) source i).

Section coordinator.
Context {W : Type} `{Gate : AttestationGate W}.
Context (sha256_hex : string -> string) (sv : services W) (zero : val).

(** The payload of the continued goal. *)
Definition fill_payload (src : sources_of_item) (goal session_id summary : string)
    (lineage : list (string * val)) : res (list (string * val)) :=
  let p := dupdate (payload src)
    [("goal_id", VStr goal); ("task_id", VStr goal); ("package_id", VStr goal);
     ("source_goal_id", vget "source_goal_id" lineage); ("continuation_goal_id", VStr goal);
     ("continuation_task_id", VStr goal); ("continuation_source_goal_id", VStr (source_goal src));
     ("continuation_cycle_index", VInt (index src)); ("continuation_requested", VBool true)] in
  p ← attach_goal_lineage sha256_hex p (VDict lineage);
  Ok (dupdate p (session_entry session_id ++
    [("continuation_objective", VStr (text_or (vget "objective" (template src)) summary));
     ("continuation_acceptance", VDict (mapping (vget "acceptance" (template src))));
     ("adaptive_evidence_chain", py_or (vget "evidence_chain" (plan src)) (VList []))])).

(** The record of the continued goal, for the repository. *)
Definition goal_record (src : sources_of_item) (goal session_id summary : string) (pay : list (string * val))
    (lineage : list (string * val)) (runner_result : val) : res (list (string * val)) :=
  let decision := mapping (vget "adaptive_decision" (mapping runner_result)) in
  attach_goal_lineage sha256_hex
    [("schema", VStr WORK_ITEM_SCHEMA); ("goal_id", VStr goal); ("summary", VStr summary);
     ("status", VStr "pending"); ("priority", zero); ("payload", VDict pay);
     ("metadata", VDict (dupdate
        ([("source", VStr "continuation_coordinator"); ("source_goal_id", vget "source_goal_id" lineage);
          ("source_cycle_index", VInt (index src))] ++ session_entry session_id)
        [("continuation_plan", VDict (plan src)); ("work_item_template", VDict (template src));
         ("adaptive_evidence_chain", py_or (vget "evidence_chain" (plan src)) (VList []));
         ("runner_adaptive_decision", VDict decision);
         ("adaptive_planning_record", VDict (mapping (vget "adaptive_planning_record" decision)));
         ("continuation_coordinator_schema", VStr "zero.continuation_coordinator.v1")]))]
    (VDict lineage).

(** The work item for a saved record. *)
Definition work_item_of (src : sources_of_item) (saved : val) (session_id authority_state : string)
    (refs : list string) (record lineage : list (string * val)) (created : val) : res (list (string * val)) :=
  attach_goal_lineage sha256_hex (dupdate
    ([("schema", VStr WORK_ITEM_SCHEMA); ("goal_id", saved); ("task_id", saved); ("continuation_goal_id", saved);
      ("continuation_task_id", saved); ("source_goal_id", vget "source_goal_id" lineage);
      ("cycle_index", VInt (index src))] ++ session_entry session_id)
    [("evidence_ref", VStr (first_ref refs)); ("evidence_refs", VList (map VStr (dedup refs)));
     ("decision_evidence_id", VStr ""); ("authority_state", VStr authority_state); ("record", VDict record);
     ("continuation_coordinator", MARKER); ("created_at", created)])
    (VDict lineage).

Definition create_work_item (runtime : Continuation.ContinuationRuntime) (c : cycle) (goal : string)
    (cycle_index : option Z) (continuation_plan runner_result : val) :
    M W (list (string * val) * Continuation.ContinuationRuntime) :=
  if Continuation.limit_reached runtime then mraise (RuntimeErr "continuation_limit_reached")
  else
    src ← mlift (read_sources runtime c.1 goal cycle_index continuation_plan);
    identity ← mlift (extract_runtime_identity (VDict c.1) true false);
    let session_id := field_str "session_id" identity in
    let goal_id := _continuation_goal_id (source_goal src) (index src) in
    parent ← mlift (extract_goal_lineage sha256_hex (VDict c.1) false false);
    lineage ← mlift (create_goal_branch_lineage sha256_hex (VDict parent) goal_id "continuation" goal_id);
    refs ← mlift (evidence_ids (vget "evidence_chain" (plan src)));
    w ← mget;
    let authority_state := if gate_accepts w c.2 (source_goal src) then "completion_authority_accepted"
                           else "completion_authority_not_granted" in
    let summary := text_or (py_or (vget "goal" (payload src)) (vget "reason" (plan src)))
                           ("Continue " +:+ source_goal src) in
    pay ← mlift (fill_payload src goal_id session_id summary lineage);
    record ← mlift (goal_record src goal_id session_id summary pay lineage runner_result);
    saved ← save_goal sv record;
    saved_id ← mlift (get_item "goal_id" saved);
    created ← read_clock sv;
    item ← mlift (work_item_of src saved_id session_id authority_state refs saved lineage created);
    next ← mlift (Continuation.record_work_item sha256_hex item runtime);
    mret (item, next).
End coordinator.
End ContinuationCoordinator.

(** ** Replans *)
Module ReplanCoordinator.

Definition MARKER : val := VDict
  [("schema", VStr "zero.replan_coordinator.v1"); ("created_replan_record", VBool true);
   ("execution_path", flags
     [("coordinator_only", true); ("executes_tasks", false); ("decides_adaptive_action", false);
      ("writes_evidence", false); ("mutates_runtime", false); ("mutates_memory", false)])].

Section coordinator.
Context {W : Type}.
Context (sha256_hex : string -> string) (sv : services W).

(** The record of a replan of [source]; [created] is what the clock reads. *)
Definition replan_record (request c : list (string * val)) (source : string) (index : Z)
    (runner_result created : val) : res (list (string * val)) :=
  identity ← extract_runtime_identity (VDict c) true false;
  let session_id := field_str "session_id" identity in
  let task_id := "replan:" +:+ source +:+ ":" +:+ pretty index in
  let replan_request_id := text_or (vget "request_id" request) task_id in
  parent ← extract_goal_lineage sha256_hex (VDict c) false false;
  lineage ← create_goal_branch_lineage sha256_hex (VDict parent) source "replan" replan_request_id;
  refs ← evidence_ids (vget "evidence_chain" request);
  let decision := mapping (vget "adaptive_decision" (mapping runner_result)) in
  attach_goal_lineage sha256_hex (dupdate
    ([("schema", VStr "zero.engineering_goal_loop.replan_record.v2"); ("goal_id", VStr source);
      ("task_id", VStr task_id); ("replan_request_id", VStr replan_request_id);
      ("source_goal_id", vget "source_goal_id" lineage); ("cycle_index", VInt index)] ++ session_entry session_id)
    [("evidence_ref", VStr (first_ref refs)); ("evidence_refs", VList (map VStr (dedup refs)));
     ("decision_evidence_id", VStr ""); ("authority_state", VStr "completion_authority_not_granted");
     ("reason", VStr (text_or (vget "reason" request) "recoverable_runtime_failure"));
     ("replan_reason",
       VStr (text_or (py_or (vget "replan_reason" request) (vget "reason" request)) "recoverable_runtime_failure"));
     ("failed_step", VDict (mapping (vget "failed_step" request)));
     ("missing_artifacts", VList (list_of (vget "missing_artifacts" request)));
     ("next_runtime_request", VDict (mapping (vget "next_runtime_request" request)));
     ("replan_request", VDict request); ("runner_adaptive_decision", VDict decision);
     ("adaptive_planning_record", VDict (mapping (vget "adaptive_planning_record" decision)));
     ("root_cause_report", VDict (mapping (vget "root_cause_report" request)));
     ("evidence_chain", VList (list_of (vget "evidence_chain" request)));
     ("replan_coordinator", MARKER); ("created_at", created)])
    (VDict lineage).

Definition create_replan_record (runtime : Replans.ReplanRuntime) (c : list (string * val)) (goal : string)
    (cycle_index : option Z) (replan_request runner_result : val) :
    M W (list (string * val) * Replans.ReplanRuntime) :=
  if Replans.limit_reached runtime then mraise (RuntimeErr "replan_limit_reached")
  else
    let request := dict_or (mapping replan_request) (mapping (vget "replan_request" c)) in
    let source := text (py_or (py_or (VStr goal) (vget "goal_id" c)) (vget "goal_id" request)) in
    index ← mlift (match cycle_index with Some i => Ok i | None => int_field "cycle_index" 0 c end);
    created ← read_clock sv;
    record ← mlift (replan_record request c source index runner_result created);
    next ← mlift (Replans.record_replan sha256_hex record runtime);
    mret (record, next).
End coordinator.
End ReplanCoordinator.

(** ** The dispatcher *)
Module GoalLoopDispatcher.

Definition GOAL_LOOP_DISPATCHER_SCHEMA : string := "zero.goal_loop_dispatcher.v1".

Record GoalLoopDispatchResult : Type := Dispatched {
  action : string;
  updated : cycle;
  current_goal_id : string;
  terminal : bool;
  stop_reason : string;
  refusal_reason : string;
  continuation_runtime : option Continuation.ContinuationRuntime;
  replan_runtime : option Replans.ReplanRuntime }.

Definition EXECUTION_PATH : val := flags
  [("dispatcher_only", true); ("executes_tasks", false); ("decides_adaptive_action", false);
   ("persists_records", false); ("writes_evidence", false); ("mutates_runtime", false); ("mutates_memory", false)].

(** The dict has the object of the cycle beside it as well. *)
Definition to_dict (r : GoalLoopDispatchResult) : list (string * val) :=
  [("schema", VStr GOAL_LOOP_DISPATCHER_SCHEMA); ("action", VStr (action r));
   ("current_goal_id", VStr (current_goal_id r)); ("terminal", VBool (terminal r));
   ("stop_reason", VStr (stop_reason r)); ("refusal_reason", VStr (refusal_reason r));
   ("cycle", VDict (updated r).1);
   ("continuation_runtime", VDict (from_option Continuation.to_dict [] (continuation_runtime r)));
   ("replan_runtime", VDict (from_option Replans.to_dict [] (replan_runtime r)));
   ("execution_path", EXECUTION_PATH)].

Definition _marker (act why : string) : val := VDict
  ([("schema", VStr GOAL_LOOP_DISPATCHER_SCHEMA); ("dispatched_action", VStr act);
    ("requires_goal_completion_authority_for_complete_terminal", VBool true);
    ("execution_path", EXECUTION_PATH)]
   ++ (if (why =? "")%string then [] else [("reason", VStr why)])).

Definition says_complete (v : val) : bool := (lower (text v) =? "complete")%string.

Definition _is_complete_terminal (decision c : list (string * val)) : bool :=
  (text_or (vget "action" decision) "terminal" =? "terminal")%string
  && (says_complete (vget "stop_reason" decision)
      || says_complete (py_or (vget "decision" decision) (vget "adaptive_decision" c))
      || says_complete (vget "decision" (mapping (vget "adaptive_decision_record" c)))).

Section dispatcher.
Context {W : Type} `{Gate : AttestationGate W}.
Context (sha256_hex : string -> string) (sv : services W) (zero : val).

Definition _completion_authority_accepted (w : W) (c : cycle) (goal_id : string) : bool :=
  gate_accepts w c.2 goal_id.

Definition dispatch (loop_decision : val) (c : cycle) (goal : string) (cycle_index : Z)
    (continuation : Continuation.ContinuationRuntime) (replan : Replans.ReplanRuntime) :
    M W GoalLoopDispatchResult :=
  let decision := mapping loop_decision in
  let act := text_or (vget "action" decision) "terminal" in
  let runner_result := VDict (mapping (vget "runner_result" c.1)) in
  if (act =? "create_replan_record")%string then
    r ← ReplanCoordinator.create_replan_record sha256_hex sv replan c.1 goal (Some cycle_index)
          (VDict (mapping (vget "replan_request" c.1))) runner_result;
    mret (Dispatched "create_replan_record"
            (put "goal_loop_dispatcher" (_marker "create_replan_record" "") (put "replan_record" (VDict r.1) c))
            goal true (text_or (vget "stop_reason" decision) "replan") "" (Some continuation) (Some r.2))
  else if (act =? "create_continuation")%string then
    r ← ContinuationCoordinator.create_work_item sha256_hex sv zero continuation c goal (Some cycle_index)
          (VDict (mapping (vget "continuation_plan" c.1))) runner_result;
    mret (Dispatched "create_continuation"
            (put "goal_loop_dispatcher" (_marker "create_continuation" "")
               (put "continuation_work_item" (VDict r.1) c))
            (text_or (VStr (Continuation.current_goal_id r.2)) goal) false "" "" (Some r.2) (Some replan))
  else
    let stop := text_or (vget "stop_reason" decision) "stop" in
    let refusal := text (vget "refusal_reason" decision) in
    w ← mget;
    if _is_complete_terminal decision c.1 && negb (_completion_authority_accepted w c goal) then
      mret (Dispatched "terminal_blocked"
              (put "goal_completion_authority_required" (VBool true)
                (put "goal_loop_dispatcher" (_marker "terminal_blocked" "goal_completion_authority_required") c))
              goal false "goal_completion_authority_required" refusal (Some continuation) (Some replan))
    else
      mret (Dispatched "terminal" (put "goal_loop_dispatcher" (_marker "terminal" "") c)
              goal true stop refusal (Some continuation) (Some replan)).
End dispatcher.
End GoalLoopDispatcher.

(** ** The result of a loop *)
Module GoalLoopTerminalCoordinator.

Definition ENGINEERING_GOAL_LOOP_SCHEMA : string := "zero.engineering_goal_loop.v1".

Definition adaptive_planning_ownership_contract : val := VDict
  [("schema", VStr "zero.adaptive_planning_ownership.v1"); ("adaptive_planner_decides_only", VBool true);
   ("adaptive_persistence_gateway_persists_only", VBool true); ("goal_loop_owns_long_horizon_cycles", VBool true);
   ("continuation_coordinator_owns_continuation_creation", VBool true);
   ("replan_coordinator_owns_replan_creation", VBool true);
   ("terminal_coordinator_owns_terminal_result_assembly", VBool true);
   ("runtime_execution_owned_here", VBool false); ("direct_execution", VBool false)].

Definition _goal_completion_authority_result (c : list (string * val)) : list (string * val) :=
  dict_or (mapping (vget "goal_completion_authority_result" c))
    (mapping (vget "goal_completion_authority_result" (mapping (vget "adaptive_decision_record" c)))).

(** What the marker of the coordinator says. *)
Definition coordinator_marker (accepted : bool) : val := VDict
  [("schema", VStr "zero.goal_loop_terminal_coordinator.v1"); ("built_terminal_result", VBool true);
   ("requires_goal_completion_authority", VBool true); ("goal_completion_authority_accepted", VBool accepted);
   ("execution_path", flags
     [("terminal_assembly_only", true); ("executes_tasks", false); ("dispatches_cycles", false);
      ("persists_records", false); ("writes_evidence", false); ("mutates_runtime", false);
      ("mutates_memory", false)])].

Definition route (goal : string) : val := VDict
  ([("route", VStr "Goal -> Adaptive Planner -> GoalCompletionAuthority -> Runtime");
    ("adaptive_planning_ownership_contract", adaptive_planning_ownership_contract);
    ("program_id", VStr ""); ("portfolio_id", VStr ""); ("goal_id", VStr goal)]
   ++ map (fun k => (k, VBool true))
     ["goal_loop_owns_long_horizon_cycles"; "runner_owns_runtime_bridge"; "adaptive_planner_decides_only";
      "goal_loop_consumes_replan_contract_only"; "goal_loop_consumes_replan_state_machine";
      "goal_loop_consumes_runtime_contract"; "goal_loop_builds_adaptive_observations";
      "goal_loop_compares_adaptive_deltas"; "goal_loop_consumes_adaptive_loop_contract";
      "goal_loop_consumes_engineering_lifecycle_state_machine"; "goal_loop_uses_adaptive_loop_coordinator";
      "goal_loop_uses_lifecycle_coordinator"; "goal_loop_uses_goal_loop_coordinator";
      "goal_loop_consumes_engineering_session_state_machine"; "goal_loop_uses_session_coordinator";
      "goal_loop_consumes_engineering_program_state_machine"; "goal_loop_uses_program_coordinator";
      "goal_loop_uses_session_progression_coordinator"; "goal_loop_uses_continuation_coordinator";
      "goal_loop_uses_replan_coordinator"; "goal_loop_uses_goal_loop_dispatcher";
      "goal_loop_uses_terminal_coordinator"; "goal_loop_requires_goal_completion_authority"]
   ++ map (fun k => (k, VBool false))
     ["goal_loop_owns_continuation_creation"; "goal_loop_owns_replan_creation";
      "goal_loop_owns_terminal_result_assembly"; "runtime_orchestrator_embedded_here"; "direct_execution";
      "memory_persistence_owned_here"; "unbounded_loop"]).

(** The keys of the latest cycle that the result repeats as mappings. *)
Definition copied (c : list (string * val)) (keys : list string) : list (string * val) :=
  map (fun k => (k, VDict (mapping (vget k c)))) keys.

(** What a loop hands to the builder. *)
Record loop_end : Type := LoopEnd {
  target_goal_id : string;
  current_goal_id : string;
  terminal : bool;
  stop_reason : string;
  refusal_reason : string;
  cycles : list cycle;
  max_cycles : Z;
  max_replans : Z;
  max_continuations : Z;
  session_runtime : SessionRuntime.EngineeringSessionRuntime;
  continuation_runtime : Continuation.ContinuationRuntime;
  replan_runtime : Replans.ReplanRuntime }.

Definition latest_cycle (e : loop_end) : cycle := List.last (cycles e) ([], None).
Definition latest_decision (e : loop_end) : list (string * val) :=
  mapping (vget "adaptive_decision_record" (latest_cycle e).1).
Definition goal_of_result (e : loop_end) : string :=
  text_or (VStr (current_goal_id e)) (text (VStr (target_goal_id e))).
Definition adaptive_complete (e : loop_end) : bool :=
  (text (vget "decision" (latest_decision e)) =? "complete")%string.
Definition has_cycles (e : loop_end) : bool := match cycles e with [] => false | _ => true end.

Section coordinator.
Context {W : Type} `{Gate : AttestationGate W}.
Context (sha256_hex : string -> string) (sv : services W) (zero : val).

Definition _completion_authority_accepted (w : W) (e : loop_end) : bool :=
  gate_accepts w (latest_cycle e).2 (goal_of_result e).

Definition _evidence_summary (goal_id : string) : M W (list (string * val)) :=
  mcatch (AdaptivePersistenceGateway.evidence_chain_summary sha256_hex sv (text (VStr goal_id)) VNone)
         (fun _ => mret []).

(** The payload, from what the authority says of the latest cycle, the counts,
    the summary of the evidence and the clock. *)
Definition payload (e : loop_end) (accepted : bool) (replan_count continuation_count : Z)
    (evidence : list (string * val)) (now : val) : list (string * val) :=
  let c := (latest_cycle e).1 in
  let decision := latest_decision e in
  let target := text (VStr (target_goal_id e)) in
  let complete := terminal e && has_cycles e && adaptive_complete e in
  [("schema", VStr ENGINEERING_GOAL_LOOP_SCHEMA); ("ok", VBool (complete && accepted));
   ("mode", VStr "engineering_goal_loop"); ("goal_id", VStr target); ("current_goal_id", VStr (goal_of_result e));
   ("terminal", VBool (terminal e));
   ("stop_reason", VStr (if complete && negb accepted then "goal_completion_authority_required"
                         else text_or (VStr (stop_reason e)) "stop"));
   ("adaptive_decision", VDict decision);
   ("goal_completion_authority_result", VDict (_goal_completion_authority_result c))]
  ++ copied c
    ["adaptive_replan_contract"; "adaptive_replan_state"; "adaptive_observation"; "adaptive_delta";
     "adaptive_loop_contract"; "engineering_lifecycle_state"; "engineering_session_state";
     "engineering_program_state"; "goal_loop_decision"]
  ++ [("adaptive_reason", VStr (text (vget "reason" decision)));
   ("adaptive_confidence", vget_or "confidence" zero decision);
   ("adaptive_confidence_score", VDict (mapping (vget "confidence_score" decision)));
   ("adaptive_evidence_chain", py_or (vget "evidence_chain" decision) (VList []));
   ("evidence_chain", VDict evidence);
   ("root_cause_report", VDict (mapping (vget "root_cause_report" decision)));
   ("max_cycles", VInt (max_cycles e)); ("max_replans", VInt (max_replans e));
   ("max_continuations", VInt (max_continuations e)); ("replan_count", VInt replan_count);
   ("continuation_count", VInt continuation_count);
   ("adaptive_refusal_reason", VStr (text (VStr (refusal_reason e))));
   ("cycle_count", VInt (Z.of_nat (length (cycles e))));
   ("engineering_session_runtime", VDict (SessionRuntime.to_dict (session_runtime e)));
   ("continuation_runtime", VDict (Continuation.to_dict (continuation_runtime e)));
   ("replan_runtime", VDict (Replans.to_dict (replan_runtime e)));
   ("cycles", VList (map (fun c => VDict c.1) (cycles e)));
   ("goal_loop_terminal_coordinator", coordinator_marker accepted); ("execution_path", route target);
   ("updated_at", now)].

(** A count of a runtime, or the one the latest cycle has. *)
Definition count_of (key : string) (record c : list (string * val)) : res Z :=
  py_int (py_or (py_or (vget key record) (vget key c)) (VInt 0)).

Definition build_result (e : loop_end) : M W (list (string * val)) :=
  let c := (latest_cycle e).1 in
  replans ← mlift (count_of "replan_count" (Replans.to_dict (replan_runtime e)) c);
  continuations ← mlift (count_of "continuation_count" (Continuation.to_dict (continuation_runtime e)) c);
  w ← mget;
  let accepted := _completion_authority_accepted w e in
  evidence ← _evidence_summary (text (VStr (target_goal_id e)));
  now ← read_clock sv;
  report ← build_summary sv;
  mlift (IssueSummary.apply_engineering_issue_summary report None
           (VDict (payload e accepted replans continuations evidence now))).
End coordinator.
End GoalLoopTerminalCoordinator.

(** ** Lemmas *)

(** The lineages of one scope: same root goal, lineage id and sessions. *)
Definition same_scope (l l' : list (string * val)) : Prop := Forall (fun k => vget k l' = vget k l) SCOPE.

#[export] Instance same_scope_refl : Reflexive same_scope.
Proof. intros l. by apply Forall_forall. Qed.

#[export] Instance same_scope_trans : Transitive same_scope.
Proof.
  intros l l' l'' H1 H2. apply Forall_forall. intros k Hk. unfold same_scope in *. rewrite Forall_forall in H1, H2.
  by rewrite H2, H1.
Qed.

Section coordinator_facts.
Context (sha256_hex : string -> string).
Context (hex_no_space : forall b, no_space (sha256_hex b) = true).

(** A dict whose own fields are a canonical lineage. *)
Definition carries (l c : list (string * val)) : Prop :=
  canonical_lineage l /\ forall f, f ∈ GOAL_LINEAGE_FIELDS -> vget f c = vget f l.

Lemma carries_dset l c k v : k ∉ GOAL_LINEAGE_FIELDS -> carries l c -> carries l (dset k v c).
Proof. intros Hk [Hc H]. split; [done|]. intros f Hf. rewrite vget_dset_ne by (by intros ->). by apply H. Qed.

Lemma carries_keys l c c' : (forall f, f ∈ GOAL_LINEAGE_FIELDS -> vget f c' = vget f c) -> carries l c -> carries l c'.
Proof. intros Hk [Hc H]. split; [done|]. intros f Hf. by rewrite Hk, H. Qed.

Lemma carries_extract l c : carries l c -> extract_goal_lineage sha256_hex (VDict c) false false = Ok l.
Proof.
  intros [(root&src&goal&lid&bt&bid&sid&rsid&Hc&->) H]. by apply extract_from_fields.
Qed.

Lemma carries_strict l c rj l' : carries l c -> extract_goal_lineage sha256_hex (VDict c) true rj = Ok l' -> l' = l.
Proof. intros H E. apply extract_relax in E. rewrite (carries_extract _ _ H) in E. congruence. Qed.

Lemma carries_attach target lineage r :
  attach_goal_lineage sha256_hex target lineage = Ok r ->
  exists l, extract_goal_lineage sha256_hex lineage true false = Ok l /\ carries l r
    /\ extract_goal_lineage sha256_hex (VDict r) true true = Ok l
    /\ forall k, k <> "goal_lineage" -> k ∉ GOAL_LINEAGE_FIELDS -> vget k r = vget k target.
Proof.
  intros H. destruct (attach_then_extract _ hex_no_space _ _ _ H) as (l & E1 & E2 & K).
  exists l. split; [done|]. split; [|done]. split; [by eapply extract_canonical|].
  unfold attach_goal_lineage in H. unfold_m. rewrite E1 in H. injection H as <-.
  intros f. unfold GOAL_LINEAGE_FIELDS at 1. rewrite !elem_of_cons, elem_of_nil.
  unfold dupdate, GOAL_LINEAGE_FIELDS. cbn [fold_left map fst snd].
  intros [->|[->|[->|[->|[->|[->|[->|[->|[]]]]]]]]]; repeat (rewrite vget_dset_eq || rewrite vget_dset_ne by done); done.
Qed.

Lemma canonical_extract l rc rj : canonical_lineage l -> extract_goal_lineage sha256_hex (VDict l) rc rj = Ok l.
Proof. intros (root&src&goal&lid&bt&bid&sid&rsid&Hc&->). by apply extract_fixed. Qed.

(** A branch of a canonical lineage. *)
Lemma branch_spec l goal kind bid child :
  canonical_lineage l -> create_goal_branch_lineage sha256_hex (VDict l) goal kind bid = Ok child ->
  canonical_lineage child /\ same_scope l child /\ vget "source_goal_id" child = vget "goal_id" l
  /\ vget "goal_id" child = VStr (text (VStr goal))
  /\ lineage_scope_matches sha256_hex (VDict child) (VDict l) = Ok true.
Proof.
  intros Hl H. pose proof H as B. apply branch_keeps_scope in B as (p & Ep & Hs & Hsrc & _ & E & M); [|done].
  rewrite canonical_extract in Ep by done. injection Ep as <-. split; [by eapply extract_canonical|].
  split; [done|]. split; [done|]. split; [|done].
  unfold create_goal_branch_lineage in H. rewrite canonical_extract in H by done. unfold_m.
  bind_ok H. case_bool_decide; [done|]. bind_ok H. bind_ok H. injection H as <-.
  unfold dupdate. cbn [fold_left fst snd]. autorewrite with pydict.
  unfold _required_identity in E1. destruct (_ || _); [done|]. by injection E1 as <-.
Qed.

Lemma scope_matches_same l l' : canonical_lineage l -> canonical_lineage l' -> same_scope l l' ->
  lineage_scope_matches sha256_hex (VDict l') (VDict l) = Ok true.
Proof.
  intros Hl Hl' Hs. unfold lineage_scope_matches. rewrite !canonical_extract by done. unfold_m. f_equal.
  unfold same_scope, SCOPE in Hs. rewrite !Forall_cons in Hs. destruct Hs as (H1 & H2 & H3 & H4 & _).
  unfold fields_match. cbn [forallb]. rewrite H1, H2, H3, H4.
  destruct Hl as (root&src&goal&lid&bt&bid&sid&rsid&Hc&->). cbn [vget dget lineage_of]. cbn. rewrite !String.eqb_refl.
  rewrite !Forall_cons in Hc. destruct Hc as (_ & _ & _ & [_ Hn] & _). apply String.eqb_neq in Hn. by rewrite Hn.
Qed.

Section world.
Context {W : Type} `{Gate : AttestationGate W}.
Context (sv : services W) (zero : val).

(** What a work item that was created is. *)
Record item_made (rt : Continuation.ContinuationRuntime) (l : list (string * val))
    (source : string) (index : Z) (item : list (string * val)) (rt' : Continuation.ContinuationRuntime) (w w' : W) : Prop := {
  im_budget : Continuation.limit_reached rt = false;
  im_recorded : Continuation.record_work_item sha256_hex item rt = Ok rt';
  im_branch : exists b record saved,
    create_goal_branch_lineage sha256_hex (VDict l)
      (ContinuationCoordinator._continuation_goal_id source index) "continuation"
      (ContinuationCoordinator._continuation_goal_id source index) = Ok b
    /\ carries b item /\ extract_goal_lineage sha256_hex (VDict item) true true = Ok b
    /\ carries b record /\ extract_goal_lineage sha256_hex (VDict record) true true = Ok b
    /\ vget "status" record = VStr "pending"
    /\ save_goal sv record w = (Ok saved, w') /\ vget "record" item = VDict saved }.

Lemma work_item_made rt c g index plan rr w item rt' w' l :
  carries l c.1 ->
  ContinuationCoordinator.create_work_item sha256_hex sv zero rt c g (Some index) plan rr w = (Ok (item, rt'), w') ->
  exists source, item_made rt l source index item rt' w w' /\ (text (VStr g) <> "" -> source = text (VStr g)).
Proof.
  intros Hl. unfold ContinuationCoordinator.create_work_item. intros H.
  destruct (Continuation.limit_reached rt) eqn:Eb; [done|].
  run H as src s1 E1. run H as ident s2 E2. cbv zeta in H. run H as parent s3 E3.
  rewrite (carries_extract _ _ Hl) in E3. injection E3 as <-. run H as b s4 E4. run H as refs s5 E5. run H as w0 s6 E6.
  run H as pay s7 E7. run H as record s8 E8. run H as saved s9 E9. run H as sid s10 E10. run H as now s11 E11.
  injection E11 as <- <-. run H as item0 s12 E12. run H as rt0 s13 E13. apply M_ret_inv in H as [H ->].
  injection H as <- <-.
  unfold ContinuationCoordinator.read_sources in E1. unfold_m. injection E1 as E1.
  assert (Hi : ContinuationCoordinator.index src = index) by by rewrite <- E1.
  rewrite Hi in E4. exists (ContinuationCoordinator.source_goal src). split.
  2: { intros Hg. rewrite <- E1. cbn [ContinuationCoordinator.source_goal]. rewrite text_strip in Hg.
       assert (Hn : g <> "") by (by intros ->). apply String.eqb_neq in Hn.
       unfold text_or, py_or. cbn [truthy]. rewrite Hn. cbn [negb truthy]. rewrite Hn. cbn [negb truthy].
       rewrite Hn. cbn [negb truthy]. rewrite Hn. cbn [negb]. rewrite text_strip.
       unfold str_or. apply String.eqb_neq in Hg. by rewrite Hg. }
  destruct (branch_spec _ _ _ _ _ (proj1 Hl) E4) as (Hb & _).
  unfold ContinuationCoordinator.goal_record in E8. unfold ContinuationCoordinator.work_item_of in E12.
  destruct (carries_attach _ _ _ E8) as (b1 & X1 & C1 & S1 & K1). rewrite canonical_extract in X1 by done. injection X1 as <-.
  destruct (carries_attach _ _ _ E12) as (b2 & X2 & C2 & S2 & K2). rewrite canonical_extract in X2 by done. injection X2 as <-.
  constructor; [done|done|]. exists b, record, saved. split_and!; try done.
  - rewrite K1 by compute_decide. reflexivity.
  - rewrite K2 by compute_decide. unfold dupdate. cbn [fold_left fst snd]. by autorewrite with pydict.
Qed.
End world.
End coordinator_facts.

Section ids.
Import ContinuationCoordinator.

Lemma rstrip_app s t : rstrip t = t -> t <> EmptyString -> rstrip (s +:+ t) = s +:+ t.
Proof.
  intros Ht Hn. induction s as [|c s IH]; [done|]. rewrite string_app_cons. simpl. rewrite IH.
  destruct s as [|c' s]; [|done]. change (EmptyString +:+ t) with t. by destruct t.
Qed.

Lemma clean_head s : clean s -> exists c t, s = String c t /\ is_space c = false.
Proof.
  intros [Hs Hn]. unfold strip in Hs. destruct (lstrip s) as [|c t] eqn:E; [by rewrite <- Hs in Hn|].
  pose proof (lstrip_head _ _ _ E) as Hc. rewrite rstrip_nonspace in Hs by done. eauto.
Qed.

Lemma strip_app s t : clean s -> rstrip t = t -> t <> EmptyString -> strip (s +:+ t) = s +:+ t.
Proof.
  intros Hs Ht Hn. destruct (clean_head _ Hs) as (c & u & -> & Hc). unfold strip.
  rewrite string_app_cons. simpl lstrip. rewrite Hc, <- string_app_cons. by apply rstrip_app.
Qed.

Lemma digits_no_space s : all_digits s = true -> no_space s = true.
Proof.
  induction s as [|c s IH]; [done|]. simpl. intros [D H]%andb_true_iff. rewrite (IH H), andb_true_r.
  unfold SessionRuntime.is_digit in D. cbv zeta in D. apply andb_true_iff in D as [D1 D2].
  apply N.leb_le in D1, D2. unfold is_space. cbv zeta.
  repeat match goal with |- context [(?a <=? ?b)%N] => destruct (N.leb_spec a b); try lia
    | |- context [(?a =? ?b)%N] => destruct (N.eqb_spec a b); try lia end; done.
Qed.

(** The id of a continuation is a clean text that ends in its mark and number. *)
Lemma continuation_id source i : (0 <= i)%Z ->
  let base := text_or (VStr source) "goal" in
  let id := _continuation_goal_id source i in
  clean base /\ clean id /\ id = base +:+ SessionRuntime.CONTINUATION_MARK +:+ pretty (i + 1)%Z.
Proof.
  intros Hi base id. destruct (pretty_positive (i + 1)) as (D & Hn & _); [lia|].
  assert (Hb : clean base) by (apply text_or_clean; by split).
  assert (Hr : no_space (SessionRuntime.CONTINUATION_MARK +:+ pretty (i + 1)%Z) = true)
    by (rewrite no_space_app, (digits_no_space _ D); reflexivity).
  split; [done|]. split; [|reflexivity]. split.
  - apply strip_app; [done| |done]. by apply no_space_rstrip.
  - destruct (clean_head _ Hb) as (c & t & E & _). unfold id, _continuation_goal_id. fold base. by rewrite E, string_app_cons.
Qed.

Lemma continuation_id_grows source i : (0 <= i)%Z -> _continuation_goal_id source i <> text_or (VStr source) "goal".
Proof.
  intros Hi E. destruct (continuation_id source i Hi) as (_ & _ & E2). rewrite E in E2.
  apply (f_equal String.length) in E2. revert E2. generalize (text_or (VStr source) "goal"). intros s.
  assert (L : forall s t, String.length (s +:+ t) = String.length s + String.length t).
  { clear. induction s as [|c s IH]; intros t; [done|]. rewrite string_app_cons. simpl. by rewrite IH. }
  rewrite !L. unfold SessionRuntime.CONTINUATION_MARK. simpl. lia.
Qed.
End ids.

(** ** Theorems *)

(** The number in the id of a continuation is read back.  Whatever goal is
    continued, a continuation of another goal included, the session runtime that
    moves to the goal of the continuation of cycle [i] counts [i + 1]
    continuations, or keeps its own count where that is higher. *)
Theorem continuation_ids_counted source i rt :
  (0 <= i)%Z -> session_ok rt ->
  let id := ContinuationCoordinator._continuation_goal_id source i in
  SessionRuntime._continuation_count_from_goal_id (VStr id) = Some (i + 1)%Z
  /\ exists rt', SessionRuntime.replace [("current_goal_id", VStr id)] rt = Ok rt'
      /\ SessionRuntime.current_goal_id rt' = id
      /\ SessionRuntime.continuation_count rt' = Z.max (SessionRuntime.continuation_count rt) (i + 1)
      /\ SessionRuntime.replan_count rt' = SessionRuntime.replan_count rt.
Proof.
  intros Hi Hrt id. destruct (continuation_id source i Hi) as (_ & Hc & E). fold id in Hc, E.
  destruct (pretty_positive (i + 1)) as (D & Hn & R); [lia|].
  assert (C : SessionRuntime._continuation_count_from_goal_id (VStr id) = Some (i + 1)%Z).
  { unfold SessionRuntime._continuation_count_from_goal_id. rewrite text_strip, (proj1 Hc), E, search_mark by done.
    cbn [fmap option_fmap option_map]. unfold Replan._limit. cbn [py_int]. rewrite R. f_equal. lia. }
  split; [exact C|]. unfold SessionRuntime.replace. change (vget "current_goal_id" _) with (VStr id). rewrite C.
  change (dmem "current_goal_id" _ && _) with true. cbv iota.
  destruct Hrt as [Ht Hcur Hl Hnn Hst Hrf Hss Hps]. pose proof Hnn as Hnn'. rewrite !Forall_cons in Hnn'.
  destruct Hnn' as (? & ? & ? & ? & _).
  set (n := Z.max (SessionRuntime.continuation_count rt) (i + 1)).
  eexists. split.
  { etransitivity; [|apply (new_fields rt id (SessionRuntime.replan_count rt) n (SessionRuntime.terminal rt)
      (SessionRuntime.stop_reason rt) (SessionRuntime.refusal_reason rt) (SessionRuntime.session_from_state rt)
      (SessionRuntime.program_from_state rt) (SessionRuntime.previous_observation rt) (SessionRuntime.cycles rt));
      [by constructor|done..|lia]]. reflexivity. }
  done.
Qed.

Section theorems.
Context (sha256_hex : string -> string).
Context (hex_no_space : forall b, no_space (sha256_hex b) = true).
Context {W : Type} `{Gate : AttestationGate W}.
Context (sv : services W) (zero : val).
Import GoalLoopDispatcher.

(** C26. What the dispatcher makes of a decision, on every branch.  A decision to
    replan or to continue raises, with nothing done, when the budget is used
    up, and otherwise counts exactly one replan, which ends the loop, or one
    continuation, which does not and moves to the goal of the continuation; any
    other decision is terminal, touches nothing but the cycle's marker, and ends
    the loop unless it would complete it without the authority's attestation
    for the current goal. *)
Theorem dispatch_decided d c goal index k p w :
  continuation_ok k -> replan_ok p ->
  let act := text_or (vget "action" d) "terminal" in
  let run := dispatch sha256_hex sv zero (VDict d) c goal index k p w in
  (act = "create_replan_record" ->
     (Replans.limit_reached p = true -> run = (Raise (RuntimeErr "replan_limit_reached"), w))
     /\ forall r w', run = (Ok r, w') -> exists p',
         action r = act /\ terminal r = true /\ current_goal_id r = goal /\ w' = w
         /\ continuation_runtime r = Some k /\ replan_runtime r = Some p'
         /\ Replans.replan_count p' = (Replans.replan_count p + 1)%Z
         /\ (Replans.replan_count p' <= Replans.max_replans p)%Z)
  /\ (act = "create_continuation" ->
     (Continuation.limit_reached k = true -> run = (Raise (RuntimeErr "continuation_limit_reached"), w))
     /\ forall r w', run = (Ok r, w') -> exists k',
         action r = act /\ terminal r = false /\ current_goal_id r = Continuation.current_goal_id k'
         /\ continuation_runtime r = Some k' /\ replan_runtime r = Some p
         /\ Continuation.continuation_count k' = (Continuation.continuation_count k + 1)%Z
         /\ (Continuation.continuation_count k' <= Continuation.max_continuations k)%Z)
  /\ (act ∉ ["create_replan_record"; "create_continuation"] -> exists r,
         run = (Ok r, w) /\ current_goal_id r = goal
         /\ continuation_runtime r = Some k /\ replan_runtime r = Some p
         /\ terminal r = negb (_is_complete_terminal d c.1) || gate_accepts w c.2 goal
         /\ action r = (if terminal r then "terminal" else "terminal_blocked")
         /\ forall key, key ∉ ["goal_loop_dispatcher"; "goal_completion_authority_required"] ->
             vget key (updated r).1 = vget key c.1).
Proof.
  intros Hk Hp act run. unfold run, dispatch. cbn [mapping]. fold act. clearbody act. clear run. split; [|split].
  - intros ->. change ("create_replan_record" =? "create_replan_record")%string with true. cbv iota. unfold ReplanCoordinator.create_replan_record. split.
    { intros Hl. by rewrite Hl. }
    intros r w' H. run H as rec s1 E1. apply M_ret_inv in H as [-> ->].
    destruct (Replans.limit_reached p); [done|]. cbv zeta in E1. run E1 as i s2 E2. run E1 as now s3 E3.
    injection E3 as <- <-. run E1 as record s4 E4. run E1 as next s5 E5. apply M_ret_inv in E1 as [-> ->].
    destruct (record_replan_ok _ _ _ _ Hp E5) as (Hlt & Hc & _). exists next. split_and!; try done.
    cbn [snd]. lia.
  - intros ->. change ("create_continuation" =? "create_replan_record")%string with false.
    change ("create_continuation" =? "create_continuation")%string with true. cbv iota. split.
    { unfold ContinuationCoordinator.create_work_item. intros Hl. by rewrite Hl. }
    intros r w' H. run H as made s1 E1. apply M_ret_inv in H as [-> ->]. cbn [action terminal continuation_runtime].
    exists made.2. assert (R : exists item, Continuation.record_work_item sha256_hex item k = Ok made.2).
    { unfold ContinuationCoordinator.create_work_item in E1. destruct (Continuation.limit_reached k); [done|].
      repeat (let a := fresh "a" in let s := fresh "s" in let E := fresh "E" in run E1 as a s E; cbv zeta in E1).
      apply M_ret_inv in E1 as [-> ->]. eauto. }
    destruct R as [item R]. destruct (record_ok _ _ _ _ Hk R) as (Hlt & Hc & Hm & Hg & root & lid & sid & rsid & src & bt & bid & bid' & _ & _ & Hall).
    split_and!; try done; [|lia]. cbn [current_goal_id]. apply text_or_word. rewrite Hg.
    rewrite !Forall_cons in Hall. by destruct_and! Hall.
  - intros Hact. rewrite !not_elem_of_cons in Hact. destruct Hact as (H1 & H2 & _).
    apply String.eqb_neq in H1, H2. rewrite H1, H2. unfold_m. unfold _completion_authority_accepted.
    destruct (_is_complete_terminal d c.1) eqn:Ec, (gate_accepts w c.2 goal) eqn:Ea; cbn [negb andb orb];
      (eexists; split; [reflexivity|]); (split_and!; [done..|]); intros key Hkey;
      rewrite !not_elem_of_cons in Hkey; destruct Hkey as (? & ? & _); cbn [updated put fst];
      rewrite ?vget_dset_ne by congruence; done.
Qed.

(** The goal of a continuation cannot be run.  When a cycle is continued
    without having been completed, the loop keeps the lineage of the cycle and
    the runner is given the stored goal of the continuation under it; but that
    record carries the lineage of its own branch, which is in the same scope
    and names another goal, so the check the runner makes always refuses it. *)
Theorem continuation_goal_refused rt c goal index plan runner_result w item rt' w' l :
  carries l c.1 -> (0 <= index)%Z -> vget "goal_id" l = VStr (text (VStr goal)) ->
  ContinuationCoordinator.create_work_item sha256_hex sv zero rt c goal (Some index) plan runner_result w
    = (Ok (item, rt'), w') ->
  exists record saved,
    save_goal sv record w = (Ok saved, w') /\ vget "record" item = VDict saved
    /\ vget "goal_id" record = vget "goal_id" item /\ vget "status" record = VStr "pending"
    /\ lineage_scope_matches sha256_hex (VDict record) (VDict l) = Ok true
    /\ GoalRunner.bind_lineage sha256_hex record (Some l)
       = Raise (ValueError "engineering_runner_goal_lineage_branch_conflict")
    /\ exists b, extract_goal_lineage sha256_hex (VDict item) true true = Ok b
         /\ exists g, GoalRunner.bind_lineage sha256_hex record (Some b) = Ok g.
Proof.
  intros Hl Hi Hg H. destruct (work_item_made _ hex_no_space _ _ _ _ _ _ _ _ _ _ _ _ _ Hl H) as (source & Hm & Hs).
  assert (Hn : text (VStr goal) <> "").
  { destruct Hl as [(root&src&g&lid&bt&bid&sid&rsid&Hc&->) _]. cbn in Hg. injection Hg as ->.
    rewrite !Forall_cons in Hc. by destruct Hc as (_ & _ & [_ ?] & _). }
  specialize (Hs Hn). destruct Hm as [_ _ (b & record & saved & Eb & Ci & Si & Cr & Sr & Hst & Hsave & Hrec)].
  destruct (branch_spec _ hex_no_space _ _ _ _ _ (proj1 Hl) Eb) as (Hb & Hsc & _ & Hbg & Hmatch).
  exists record, saved. split; [done|]. split; [done|].
  assert (Hgid : "goal_id" ∈ GOAL_LINEAGE_FIELDS) by compute_decide.
  split; [by rewrite (proj2 Cr), (proj2 Ci) by done|]. split; [done|].
  assert (Hm : forall x, canonical_lineage x -> same_scope x b ->
    lineage_scope_matches sha256_hex (VDict record) (VDict x) = Ok true).
  { intros x Hx Hxs. unfold lineage_scope_matches. rewrite (carries_extract _ _ _ Cr).
    rewrite <- (scope_matches_same sha256_hex _ _ Hx Hb Hxs). unfold lineage_scope_matches.
    by rewrite !(canonical_extract sha256_hex) by done. }
  split; [by apply Hm; [apply Hl|]|]. unfold GoalRunner.bind_lineage. unfold_m. rewrite Sr.
  rewrite !(canonical_extract sha256_hex) by (done || apply Hl). split.
  - rewrite Hmatch. cbn [negb]. rewrite Hbg, Hg. cbn [py_eq].
    destruct (String.eqb_spec (text (VStr (ContinuationCoordinator._continuation_goal_id source index))) (text (VStr goal)))
      as [E|]; [exfalso|done].
    destruct (continuation_id source index Hi) as (_ & [Hc _] & _). rewrite text_strip, Hc in E.
    apply (continuation_id_grows source index Hi). rewrite E, Hs. symmetry. apply text_or_word. split; [|done].
    rewrite text_strip. apply strip_idemp.
  - exists b. split; [done|]. rewrite (canonical_extract sha256_hex) by done. rewrite (scope_matches_same _ _ _ Hb Hb) by done. cbn [negb]. rewrite Hbg. cbn [py_eq].
    rewrite String.eqb_refl. cbn [negb]. unfold attach_goal_lineage. rewrite (canonical_extract sha256_hex) by done.
    unfold_m. by eexists.
Qed.
End theorems.

(** ** In the small world *)

Lemma demo_lineage_canonical : canonical_lineage demo_lineage.
Proof. apply (create_root_clean demo_sha256 demo_sha256_no_space "g1" None None). vm_compute. reflexivity. Qed.

Lemma demo_goal_carries : carries demo_lineage demo_goal.
Proof.
  split; [exact demo_lineage_canonical|]. apply Forall_forall.
  repeat (apply Forall_cons_2; [vm_compute; reflexivity|]). constructor.
Qed.

Definition demo_continuation : Continuation.ContinuationRuntime :=
  match Continuation.start demo_sha256 "g1" (VInt 0) (VInt 1) (VDict demo_lineage) with
  | Ok k => k
  | Raise _ => Continuation.Make "" 0 0 "" [] []
  end.
Definition demo_replan : Replans.ReplanRuntime :=
  match Replans.start demo_sha256 (VInt 0) (VInt 1) (VDict demo_lineage) with
  | Ok p => p
  | Raise _ => Replans.Make 0 0 [] []
  end.
Definition demo_script (g : string) : list (string * val) * option nat := ([("goal_id", VStr g)], None).

Lemma demo_continuation_ok : continuation_ok demo_continuation.
Proof.
  assert (E : Continuation.start demo_sha256 "g1" (VInt 0) (VInt 1) (VDict demo_lineage) = Ok demo_continuation)
    by (vm_compute; reflexivity).
  unfold Continuation.start in E. unfold_m. bind_ok E. exact (new_ok _ demo_sha256_no_space _ _ E).
Qed.

Lemma demo_replan_ok : replan_ok demo_replan.
Proof.
  split; [vm_compute; done|]. split; [vm_compute; done|].
  destruct demo_lineage_canonical as (root&src&g&lid&bt&bid&sid&rsid&Hc&E).
  exists root, src, g, lid, bt, bid, sid, rsid. split; [exact Hc|].
  destruct (replan_start_ok demo_sha256 (VInt 0) (VInt 1) _ _ _ _ _ _ _ _ Hc) as (r & Er & _ & _ & Ei).
  unfold demo_replan. by rewrite E, Er.
Qed.

Lemma continuation_ids_counted_witness :
  let id := ContinuationCoordinator._continuation_goal_id "g1__continuation_2" 2 in
  SessionRuntime._continuation_count_from_goal_id (VStr id) = Some 3%Z.
Proof.
  exact (proj1 (continuation_ids_counted "g1__continuation_2" 2 demo_runtime ltac:(lia) (po_books _ _ demo_runtime_ok))).
Defined.

Lemma dispatch_decided_witness : exists r w',
  GoalLoopDispatcher.dispatch demo_sha256 (demo_services demo_script) (VInt 0)
    (VDict [("action", VStr "create_continuation")]) (demo_goal, None) "g1" 0 demo_continuation demo_replan demo_before
    = (Ok r, w')
  /\ GoalLoopDispatcher.terminal r = false
  /\ exists k', GoalLoopDispatcher.continuation_runtime r = Some k' /\ Continuation.continuation_count k' = 1%Z.
Proof.
  destruct (dispatch_decided demo_sha256 (demo_services demo_script) (VInt 0)
    [("action", VStr "create_continuation")] (demo_goal, None) "g1" 0 demo_continuation demo_replan demo_before
    demo_continuation_ok demo_replan_ok) as (_ & H & _).
  destruct (H eq_refl) as [_ H'].
  destruct (GoalLoopDispatcher.dispatch demo_sha256 (demo_services demo_script) (VInt 0)
    (VDict [("action", VStr "create_continuation")]) (demo_goal, None) "g1" 0 demo_continuation demo_replan demo_before)
    as [[r|e] w'] eqn:E.
  - destruct (H' r w' eq_refl) as (k' & _ & Ht & _ & Hk & _ & Hc & _). exists r, w'. split; [reflexivity|].
    split; [exact Ht|]. exists k'. split; [exact Hk|]. exact Hc.
  - apply (f_equal (fun x => match x.1 with Ok _ => true | Raise _ => false end)) in E. vm_compute in E. discriminate E.
Defined.

Lemma continuation_goal_refused_witness : exists record,
  GoalRunner.bind_lineage demo_sha256 record (Some demo_lineage)
  = Raise (ValueError "engineering_runner_goal_lineage_branch_conflict").
Proof.
  destruct (ContinuationCoordinator.create_work_item demo_sha256 (demo_services demo_script) (VInt 0) demo_continuation
    (demo_goal, None) "g1" (Some 0%Z) (VDict []) (VDict []) demo_before) as [[[item rt']|e] w'] eqn:E.
  - destruct (continuation_goal_refused demo_sha256 demo_sha256_no_space (demo_services demo_script) (VInt 0) demo_continuation
      (demo_goal, None) "g1" 0 (VDict []) (VDict []) demo_before item rt' w' demo_lineage)
      as (record & saved & _ & _ & _ & _ & _ & H & _).
    + exact demo_goal_carries.
    + lia.
    + vm_compute. reflexivity.
    + exact E.
    + exists record. exact H.
  - apply (f_equal (fun x => match x.1 with Ok _ => true | Raise _ => false end)) in E. vm_compute in E. discriminate E.
Defined.
