(* ===== verification/GoalLoop.v ===== *)
(** * The engineering goal loop

    [core/tasks/engineering_goal_loop.py]: [run_one_cycle] runs a goal and makes
    a cycle of what the runner returns; [run_until_terminal] takes at most
    [max_cycles] of them, each through the coordinators of [Progression], the
    dispatcher, the hand-over after a completion and the persistence gateway,
    and has the result built by the terminal coordinator.

    [py_float] and [zero] are [float()] and [0.0].  [_last_cycle], which is
    written and never read, is left out; the coordinators are the default ones. *)

From stdpp Require Import pretty.
From S2P Require Import Prelude PyVal Lineage Completion Engineering Issues Adaptive Runtimes Progression LoopServices LoopCoordinators.
Import GoalLoopDispatcher(GoalLoopDispatchResult).

Definition ENGINEERING_GOAL_LOOP_CYCLE_SCHEMA : string := "zero.engineering_goal_loop.cycle.v1".

(** The adaptive planning record of a cycle whose continuation is refused. *)
Definition _refuse_adaptive_continuation (reason : string) (c : cycle) : cycle :=
  let why := VStr (text (VStr reason)) in
  put "decision_reason" why (put "adaptive_refusal_reason" why
    (put "adaptive_planning_record" (VDict (dupdate (mapping (vget "adaptive_planning_record" c.1))
      [("next_action", VStr "stop"); ("decision_reason", why); ("refused", VBool true);
       ("refusal_reason", why)])) c)).

(** Does a runner's result name a lineage? *)
Definition names_lineage (result : val) : bool :=
  match result with
  | VDict d => is_mapping (vget "goal_lineage" d)
               || existsb (fun f => truthy (vget f d)) (filter (fun f => f <> "goal_id") GOAL_LINEAGE_FIELDS)
  | _ => false
  end.

(** The dict of a cycle before the lineage is attached. *)
Definition cycle_dict (zero : val) (goal : string) (index : Z) (result : val) (now : val) : list (string * val) :=
  let contract := RuntimeContract.build_engineering_runtime_contract_from_result result in
  let adaptive := mapping (vget "adaptive_decision" contract) in
  [("schema", VStr ENGINEERING_GOAL_LOOP_CYCLE_SCHEMA); ("cycle_index", VInt index);
   ("goal_id", VStr (text_or (vget "goal_id" contract) (text (VStr goal))));
   ("ok", VBool (truthy (vget "ok" contract)));
   ("runtime_state", VStr (text (vget "state" (mapping (vget "runtime_result" contract)))));
   ("engineering_runtime_contract", VDict contract);
   ("adaptive_decision", VStr (text (vget "decision" adaptive)));
   ("adaptive_decision_record", VDict adaptive); ("adaptive_reason", VStr (text (vget "reason" adaptive)));
   ("adaptive_confidence", vget_or "confidence" zero adaptive);
   ("adaptive_confidence_score", VDict (mapping (vget "confidence_score" adaptive)));
   ("adaptive_evidence_chain", py_or (vget "evidence_chain" adaptive) (VList []));
   ("root_cause_report", VDict (mapping (vget "root_cause_report" adaptive)));
   ("continuation_plan", VDict (mapping (vget "continuation_plan" adaptive)));
   ("replan_request", VDict (mapping (vget "replan_request" adaptive)));
   ("runner_result", VDict (mapping result)); ("continuation_work_item", VDict []); ("replan_record", VDict []);
   ("adaptive_planning_record", VDict (mapping (vget "adaptive_planning_record" adaptive)));
   ("adaptive_replan_contract", VDict []); ("adaptive_replan_state", VDict []);
   ("adaptive_observation", VDict []); ("adaptive_delta", VDict []); ("adaptive_loop_contract", VDict []);
   ("engineering_lifecycle_state", VDict []); ("engineering_session_state", VDict []);
   ("engineering_program_state", VDict []); ("goal_loop_decision", VDict []); ("updated_at", now)].

Section loop.
Context {W : Type} `{Gate : AttestationGate W}.
Context (sha256_hex : string -> string) (py_float : val -> res val) (sv : services W) (zero : val).

(** The lineage a runner's result names has to be the one it was given. *)
Definition check_returned (lineage : list (string * val)) (result : val) : res unit :=
  if names_lineage result then
    returned ← extract_goal_lineage sha256_hex result true true;
    same ← lineage_scope_matches sha256_hex (VDict lineage) (VDict returned);
    if negb same then Raise (ValueError "engineering_loop_runner_governance_identity_conflict")
    else if negb (py_eq (vget "goal_id" returned) (vget "goal_id" lineage))
    then Raise (ValueError "engineering_loop_runner_goal_branch_conflict")
    else Ok tt
  else Ok tt.

(** The attestation of a decision, as an object or as a value, on the cycle. *)
Definition put_attestation (w : W) (adaptive c : list (string * val)) (att : option nat) : cycle :=
  match att with
  | Some a => (dset "goal_completion_authority_result" (VDict (gate_record w a)) c, Some a)
  | None =>
      match vget "goal_completion_authority_result" adaptive with
      | VNone => (c, None)
      | VDict d => (dset "goal_completion_authority_result" (VDict d) (dset "goal_completion_attestation" (VDict d) c),
                    None)
      | v => (dset "goal_completion_attestation" v c, None)
      end
  end.

Definition run_one_cycle (goal : string) (cycle_index : Z) (goal_lineage : val) : M W cycle :=
  lineage ← mlift (if truthy goal_lineage then extract_goal_lineage sha256_hex goal_lineage true true
                   else create_root_goal_lineage sha256_hex goal None None);
  ran ← run_goal sv (text (VStr goal)) lineage;
  _ ← mlift (check_returned lineage ran.1);
  let contract := RuntimeContract.build_engineering_runtime_contract_from_result ran.1 in
  let adaptive := mapping (vget "adaptive_decision" contract) in
  now ← read_clock sv;
  c ← mlift (attach_goal_lineage sha256_hex (cycle_dict zero goal cycle_index ran.1 now) (VDict lineage));
  w ← mget;
  let c := put_attestation w adaptive c ran.2 in
  mret (if (text (vget "decision" adaptive) =? "blocked")%string
        then put "root_cause"
               (VDict (mapping (py_or (vget "root_cause" adaptive) (vget "runtime_root_cause" contract)))) c
        else c).

(** After a completed cycle that plans a continuation. *)
Definition _create_post_completion_continuation (c : cycle) (current : string) (cycle_index : Z)
    (runtime : Continuation.ContinuationRuntime) : M W (cycle * Continuation.ContinuationRuntime) :=
  let plan := mapping (vget "continuation_plan" c.1) in
  match mapping (vget "next_runtime_request" plan) with
  | [] => mret (c, runtime)
  | _ =>
      w ← mget;
      if negb (gate_accepts w c.2 (text (VStr current))) then mret (c, runtime)
      else if Continuation.limit_reached runtime
      then mret (put "post_completion_continuation_refusal" (VStr "max_continuations_exhausted") c, runtime)
      else
        r ← ContinuationCoordinator.create_work_item sha256_hex sv zero runtime c current (Some cycle_index)
              (VDict plan) (VDict (mapping (vget "runner_result" c.1)));
        let record := VDict
          [("created", VBool true); ("source_goal_id", VStr (text (VStr current)));
           ("continuation_goal_id", VStr (text (vget "goal_id" r.1)));
           ("continuation_index", VInt (Continuation.continuation_count runtime + 1));
           ("max_continuations", VInt (Continuation.max_continuations runtime));
           ("execution_path", flags
             [("after_goal_completion", true); ("uses_continuation_coordinator", true); ("executes_tasks", false);
              ("bypasses_scheduler", false)])] in
        mret (put "post_completion_continuation" record
               (put "post_completion_continuation_created" (VBool true)
                 (put "continuation_work_item" (VDict r.1) c)), r.2)
  end.

(** ** The variables of the loop *)
Record loop_vars : Type := Vars {
  lineage : list (string * val);
  session : SessionRuntime.EngineeringSessionRuntime;
  continuation : Continuation.ContinuationRuntime;
  replan : Replans.ReplanRuntime;
  cycles : list cycle;
  terminal : bool;
  stop_reason : string;
  refusal_reason : string }.

(** The bounds: cycles, replans, continuations. *)
Record limits : Type := Limits {
  cycle_limit : Z;
  replan_limit : Z;
  continuation_limit : Z }.

(** What the completion of a cycle changes: the cycle, the continuation runtime
    and the goal that is handed over to, [""] if none is. *)
Definition hand_over (completed : bool) (c : cycle) (current : string) (index limit : Z)
    (runtime : Continuation.ContinuationRuntime) : M W (cycle * Continuation.ContinuationRuntime * string) :=
  if completed then
    r ← _create_post_completion_continuation c current index runtime;
    let next := text (vget "continuation_goal_id" (mapping (vget "post_completion_continuation" r.1.1))) in
    if non_empty next && (index + 1 <? limit)%Z
    then mret (put "stop_reason" (VStr "post_completion_continuation_handoff")
                 (put "terminal" (VBool false) r.1), r.2, next)
    else mret (put "stop_reason" (VStr "complete") (put "terminal" (VBool true) r.1), r.2, "")
  else mret (c, runtime, "").

Definition books_of (p : Replans.ReplanRuntime) (k : Continuation.ContinuationRuntime) : list (string * val) :=
  [("replan_count", VInt (Replans.replan_count p)); ("continuation_count", VInt (Continuation.continuation_count k))].

(** One round; [true] is a [break]. *)
Definition one_round (n : limits) (index : Z) (v : loop_vars) : M W (bool * loop_vars) :=
  c ← run_one_cycle (SessionRuntime.current_goal_id (session v)) index (VDict (lineage v));
  rt ← mlift (SessionRuntime.replace
         (books_of (replan v) (continuation v)
          ++ [("current_goal_id", VStr (SessionRuntime.current_goal_id (session v)))]) (session v));
  w ← mget;
  p ← mlift (SessionProgressionCoordinator.attach_cycle_progression sha256_hex py_float (clock sv w) (stamp sv w) w
               c.1 c.2 rt index);
  let current := SessionRuntime.current_goal_id p.2 in
  d ← GoalLoopDispatcher.dispatch sha256_hex sv zero (VDict (mapping (vget "goal_loop_decision" p.1))) (p.1, c.2)
        current index (continuation v) (replan v);
  let continuation1 := default (continuation v) (GoalLoopDispatcher.continuation_runtime d) in
  let replan1 := default (replan v) (GoalLoopDispatcher.replan_runtime d) in
  let refusal := GoalLoopDispatcher.refusal_reason d in
  let c1 := if non_empty refusal then _refuse_adaptive_continuation refusal (GoalLoopDispatcher.updated d)
            else GoalLoopDispatcher.updated d in
  w ← mget;
  let completed := gate_accepts w c1.2 current in
  h ← hand_over completed c1 current index (cycle_limit n) continuation1;
  let next := h.2 in
  let handed := non_empty next in
  let continuation2 := h.1.2 in
  saved ← AdaptivePersistenceGateway.persist_cycle sha256_hex sv h.1.1.1
            (AdaptivePersistenceGateway.Counts (Replans.replan_count replan1)
               (Continuation.continuation_count continuation2) (replan_limit n) (continuation_limit n));
  let c2 : cycle := (saved, h.1.1.2) in
  let next_goal := if handed then next
                   else text_or (VStr (GoalLoopDispatcher.current_goal_id d)) current in
  let next_stop := if handed then "post_completion_continuation_handoff"
                   else text_or (VStr (GoalLoopDispatcher.stop_reason d)) (stop_reason v) in
  rt ← mlift (SessionRuntime.replace
         ([("current_goal_id", VStr next_goal)] ++ books_of replan1 continuation2
          ++ [("terminal", VBool (negb handed && GoalLoopDispatcher.terminal d)); ("stop_reason", VStr next_stop);
              ("refusal_reason", VStr (text (VStr refusal)))]) p.2);
  if handed then
    l ← mlift (extract_goal_lineage sha256_hex (vget "continuation_work_item" saved) true false);
    mret (false, Vars l rt continuation2 replan1 (cycles v ++ [c2]) (terminal v) (stop_reason v) (refusal_reason v))
  else if GoalLoopDispatcher.terminal d || (GoalLoopDispatcher.action d =? "terminal_blocked")%string || completed then
    let stop := if completed then "complete" else text_or (VStr (GoalLoopDispatcher.stop_reason d)) "stop" in
    rt ← mlift (SessionRuntime.replace
           [("terminal", VBool true); ("stop_reason", VStr stop); ("refusal_reason", VStr (text (VStr refusal)));
            ("current_goal_id", VStr next_goal)] rt);
    mret (true, Vars (lineage v) rt continuation2 replan1 (cycles v ++ [c2]) true stop (text (VStr refusal)))
  else
    mret (false, Vars (lineage v) rt continuation2 replan1 (cycles v ++ [c2]) (terminal v) (stop_reason v)
                   (refusal_reason v)).

(** [for cycle_index in range(cycle_limit)], from [index] on. *)
Fixpoint rounds (n : limits) (todo : nat) (index : Z) (v : loop_vars) : M W loop_vars :=
  match todo with
  | O => mret v
  | S todo =>
      r ← one_round n index v;
      if r.1 : bool then mret r.2 else rounds n todo (index + 1) r.2
  end.

(** The lineage a run starts with, checked against what the caller asks for. *)
Definition start_lineage (target : string) (session_id runtime_session_id : option string) (goal_lineage : val)
    (persisted : val) : res (list (string * val)) :=
  match persisted with
  | VDict _ =>
      current ← extract_goal_lineage sha256_hex persisted true true;
      if negb (from_option (fun s => py_eq (vget "session_id" current) (VStr (text (VStr s)))) true session_id)
      then Raise (ValueError "engineering_loop_session_identity_conflict")
      else if negb (from_option (fun s => py_eq (vget "runtime_session_id" current) (VStr (text (VStr s)))) true
                      runtime_session_id)
      then Raise (ValueError "engineering_loop_runtime_session_identity_conflict")
      else match goal_lineage with
      | VNone => Ok current
      | _ =>
          requested ← extract_goal_lineage sha256_hex goal_lineage true true;
          if negb (py_eq (vget "goal_id" requested) (VStr target))
          then Raise (ValueError "engineering_loop_goal_lineage_identity_conflict")
          else
            same ← lineage_scope_matches sha256_hex (VDict current) (VDict requested);
            if negb same then Raise (ValueError "engineering_loop_goal_lineage_identity_conflict") else Ok current
      end
  | _ =>
      match goal_lineage with
      | VNone => create_root_goal_lineage sha256_hex target session_id runtime_session_id
      | _ => extract_goal_lineage sha256_hex goal_lineage true true
      end
  end.

(** The bounds of a run; no bound on continuations is the bound on cycles. *)
Definition read_limits (max_cycles max_replans max_continuations : val) : res limits :=
  cycle_limit ← py_int (py_or max_cycles (VInt 1));
  replan_limit ← py_int (py_or max_replans (VInt 0));
  let cycle_limit := Z.max 1 cycle_limit in
  continuation_limit ← match max_continuations with
                       | VNone => Ok cycle_limit
                       | v => k ← py_int (py_or v (VInt 0)); Ok (Z.max 0 k)
                       end;
  Ok (Limits cycle_limit (Z.max 0 replan_limit) continuation_limit).

Definition run_until_terminal (goal : string) (max_cycles max_replans max_continuations : val)
    (session_id runtime_session_id : option string) (goal_lineage : val) : M W (list (string * val)) :=
  let target := text (VStr goal) in
  persisted ← load_goal sv target;
  current ← mlift (start_lineage target session_id runtime_session_id goal_lineage persisted);
  n ← mlift (read_limits max_cycles max_replans max_continuations);
  rt ← mlift (SessionProgressionCoordinator.start_runtime target (VInt (cycle_limit n)) (VInt (replan_limit n))
                (VInt (continuation_limit n)));
  k ← mlift (Continuation.start sha256_hex target (VInt 0) (VInt (continuation_limit n)) (VDict current));
  p ← mlift (Replans.start sha256_hex (VInt 0) (VInt (replan_limit n)) (VDict current));
  v ← rounds n (Z.to_nat (cycle_limit n)) 0 (Vars current rt k p [] false "max_cycles_reached" "");
  GoalLoopTerminalCoordinator.build_result sha256_hex sv zero
    (GoalLoopTerminalCoordinator.LoopEnd target (SessionRuntime.current_goal_id (session v)) (terminal v)
       (stop_reason v) (refusal_reason v) (cycles v) (cycle_limit n) (replan_limit n) (continuation_limit n)
       (session v) (continuation v) (replan v)).
End loop.

(** ** Services that keep an invariant of the world *)
Record steady {W} (sv : services W) (I : W -> Prop) : Prop := {
  steady_load : forall g, preserves I (load_goal sv g);
  steady_save : forall d, preserves I (save_goal sv d);
  steady_update : forall g d, preserves I (update_goal sv g d);
  steady_run : forall g l, preserves I (run_goal sv g l);
  steady_register : forall d, preserves I (register_evidence sv d);
  steady_chain : forall g s l r, preserves I (goal_chain sv g s l r);
  steady_build : preserves I (build_summary sv) }.
#[local] Hint Resolve steady_load steady_save steady_update steady_run steady_register steady_chain steady_build : preserves.

Section steady.
Context {W : Type} `{Gate : AttestationGate W}.
Context (sha256_hex : string -> string) (py_float : val -> res val) (sv : services W) (zero : val).
Context (I : W -> Prop) (St : steady sv I).

Lemma clock_preserves : preserves I (read_clock sv).
Proof. by intros w. Qed.
#[local] Hint Resolve clock_preserves : preserves.

Lemma work_item_preserves rt c g i plan rr :
  preserves I (ContinuationCoordinator.create_work_item sha256_hex sv zero rt c g i plan rr).
Proof. unfold ContinuationCoordinator.create_work_item. preserve. Qed.
#[local] Hint Resolve work_item_preserves : preserves.

Lemma replan_preserves rt c g i req rr :
  preserves I (ReplanCoordinator.create_replan_record sha256_hex sv rt c g i req rr).
Proof. unfold ReplanCoordinator.create_replan_record. preserve. Qed.
#[local] Hint Resolve replan_preserves : preserves.

Lemma dispatch_preserves d c g i k p :
  preserves I (GoalLoopDispatcher.dispatch sha256_hex sv zero d c g i k p).
Proof. unfold GoalLoopDispatcher.dispatch. preserve. Qed.
#[local] Hint Resolve dispatch_preserves : preserves.

Lemma chain_summary_preserves g l :
  preserves I (AdaptivePersistenceGateway.evidence_chain_summary sha256_hex sv g l).
Proof. unfold AdaptivePersistenceGateway.evidence_chain_summary. preserve. Qed.
#[local] Hint Resolve chain_summary_preserves : preserves.

Lemma persist_preserves c n : preserves I (AdaptivePersistenceGateway.persist_cycle sha256_hex sv c n).
Proof.
  unfold AdaptivePersistenceGateway.persist_cycle, AdaptivePersistenceGateway.persist_goal_adaptive_metadata,
    AdaptivePersistenceGateway.register_decision_evidence, AdaptivePersistenceGateway.link_decision_evidence,
    AdaptivePersistenceGateway.link_continuation. cbv zeta. preserve.
Qed.
#[local] Hint Resolve persist_preserves : preserves.

Lemma round_preserves n i v : preserves I (one_round sha256_hex py_float sv zero n i v).
Proof.
  unfold one_round, run_one_cycle, hand_over, _create_post_completion_continuation. cbv zeta. preserve.
Qed.
#[local] Hint Resolve round_preserves : preserves.

Lemma rounds_preserve n todo : forall i v, preserves I (rounds sha256_hex py_float sv zero n todo i v).
Proof. induction todo as [|todo IH]; intros i v; cbn [rounds]; preserve. Qed.

Lemma result_preserves e : preserves I (GoalLoopTerminalCoordinator.build_result sha256_hex sv zero e).
Proof.
  unfold GoalLoopTerminalCoordinator.build_result, GoalLoopTerminalCoordinator._evidence_summary. cbv zeta. preserve.
Qed.
End steady.

(** ** The lineage that a cycle bears *)

Section bearing.
Context (sha256_hex : string -> string).
Context (hex_no_space : forall b, no_space (sha256_hex b) = true).

Definition LINEAGE_KEYS : list string := "goal_lineage" :: GOAL_LINEAGE_FIELDS.

(** Its own fields and its nested [goal_lineage] are the lineage [l]. *)
Definition bears (l c : list (string * val)) : Prop := carries l c /\ vget "goal_lineage" c = VDict l.

Lemma bears_keys l c c' : (forall k, k ∈ LINEAGE_KEYS -> vget k c' = vget k c) -> bears l c -> bears l c'.
Proof.
  intros Hk [Hc Hg]. split; [|by rewrite Hk by by left]. eapply carries_keys; [|done]. intros f Hf. apply Hk. by right.
Qed.

Lemma bears_strict l c rc rj : bears l c -> extract_goal_lineage sha256_hex (VDict c) rc rj = Ok l.
Proof.
  intros [[(root&src&goal&lid&bt&bid&sid&rsid&Hc&->) H] Hg]. apply extract_from_fields; [done|done|].
  rewrite no_conflicts; [by rewrite andb_false_r|]. intros g f E Hf. rewrite Hg in E. injection E as <-.
  unfold field_text. by rewrite H.
Qed.

Lemma attach_bears target l r :
  canonical_lineage l -> attach_goal_lineage sha256_hex target (VDict l) = Ok r ->
  bears l r /\ forall k, k ∉ LINEAGE_KEYS -> vget k r = vget k target.
Proof.
  intros Hl H. destruct (carries_attach _ hex_no_space _ _ _ H) as (l' & E & Hc & _ & K).
  rewrite (canonical_extract sha256_hex) in E by done. injection E as <-. split.
  - split; [done|]. unfold attach_goal_lineage in H. rewrite (canonical_extract sha256_hex) in H by done. unfold_m.
    injection H as <-. unfold dupdate, GOAL_LINEAGE_FIELDS. cbn [fold_left map fst snd].
    by autorewrite with pydict.
  - intros k Hk. unfold LINEAGE_KEYS in Hk. rewrite not_elem_of_cons in Hk. destruct Hk. by apply K.
Qed.

(** The keys that the steps of a round write. *)
Definition DISPATCH_KEYS : list string :=
  ["replan_record"; "continuation_work_item"; "goal_loop_dispatcher"; "goal_completion_authority_required"].
Definition PERSIST_KEYS : list string :=
  ["adaptive_planning_record"; "outcome_class"; "decision_reason"; "replan_count"; "continuation_count";
   "decision_evidence"; "evidence_chain"; "continuation_work_item"; "replan_record"; "adaptive_persistence_gateway"].

(** One cycle through the coordinators changes only their keys. *)
Lemma progression_keeps {W} `{Gate : AttestationGate W} py_float now stamp (w : W) c att rt i c' rt' :
  SessionProgressionCoordinator.attach_cycle_progression sha256_hex py_float now stamp w c att rt i = Ok (c', rt') ->
  session_ok rt' /\ (forall k, k ∉ PROGRESSION_KEYS -> vget k c' = vget k c)
  /\ forall l, bears l c -> bears l c'.
Proof.
  unfold SessionProgressionCoordinator.attach_cycle_progression. unfold_m. intros H. bind_ok H. rename a into lin.
  bind_ok H. apply attach_controls_spec in E0 as (r & o & d & lc & _ & C).
  unfold LifecycleCoordinator.attach_lifecycle, SessionCoordinator.attach_session, ProgramCoordinator.attach_program in H.
  unfold_m. bind_ok H. bind_ok E0. injection E0 as <-. bind_ok H. bind_ok E0. injection E0 as <-.
  bind_ok H. bind_ok E0. injection E0 as <-. bind_ok H. bind_ok H. bind_ok H. injection H as <- <-.
  assert (K : forall k, k ∉ "goal_lineage" :: CONTROL_KEYS -> vget k a = vget k c).
  { intros k Hk. rewrite not_elem_of_cons in Hk. destruct Hk. rewrite (cn_kept _ _ _ _ _ _ _ _ _ C) by done.
    destruct lin; [done|]. by rewrite vget_dset_ne by congruence. }
  assert (G : forall l, bears l c -> vget "goal_lineage" a = VDict l).
  { intros l Hb. pose proof (bears_strict _ _ false false Hb) as E6. rewrite E in E6. injection E6 as ->.
    rewrite (cn_kept _ _ _ _ _ _ _ _ _ C) by compute_decide.
    destruct Hb as [[(root&src&goal&lid&bt&bid&sid&rsid&_&->) _] _]. cbn [lineage_of]. by rewrite vget_dset_eq. }
  split; [by eapply new_session_ok|]. clear E E0 E1 E2 E3 E4 C. split.
  - intros k Hk. unfold PROGRESSION_KEYS in Hk. rewrite not_elem_of_app, !not_elem_of_cons in Hk. destruct_and! Hk.
    autorewrite with pydict. apply K. by rewrite not_elem_of_cons.
  - intros l Hb. specialize (G l Hb). apply (bears_keys l c); [|done]. intros k Hk.
    unfold LINEAGE_KEYS, GOAL_LINEAGE_FIELDS in Hk. rewrite !elem_of_cons in Hk. destruct Hk as [->|Hk].
    + autorewrite with pydict. rewrite G. symmetry. apply Hb.
    + repeat (destruct Hk as [->|Hk]; [autorewrite with pydict; apply K; compute_decide|]). by apply elem_of_nil in Hk.
Qed.

Lemma bears_dset l c k v : bool_decide (k ∉ LINEAGE_KEYS) = true -> bears l c -> bears l (dset k v c).
Proof.
  intros Hk%bool_decide_eq_true. apply bears_keys. intros k' Hk'. apply vget_dset_ne. by intros ->.
Qed.

(** What the steps of a round do to the books. *)
Definition continued (k k' : Continuation.ContinuationRuntime) : Prop :=
  k' = k \/ exists item, Continuation.record_work_item sha256_hex item k = Ok k'.
Definition replanned (p p' : Replans.ReplanRuntime) : Prop :=
  p' = p \/ exists rec, Replans.record_replan sha256_hex rec p = Ok p'.

Section steps.
Context {W : Type} `{Gate : AttestationGate W}.
Context (py_float : val -> res val) (sv : services W) (zero : val).

Lemma cycle_bears goal i l (w : W) c w' :
  canonical_lineage l -> run_one_cycle sha256_hex sv zero goal i (VDict l) w = (Ok c, w') ->
  bears l c.1 /\ vget "post_completion_continuation" c.1 = VNone.
Proof.
  intros Hl. unfold run_one_cycle. replace (truthy (VDict l)) with true
    by (destruct Hl as (root&src&g&lid&bt&bid&sid&rsid&_&->); reflexivity).
  intros H. run H as l' s1 E1. rewrite (canonical_extract sha256_hex) in E1 by done. injection E1 as <-.
  run H as ran s2 E2. run H as u s3 E3. cbv zeta in H. run H as now s4 E4. injection E4 as <- <-.
  run H as c0 s5 E5. run H as w0 s6 E6. apply M_ret_inv in H as [-> ->].
  destruct (attach_bears _ _ _ Hl E5) as [Hb K].
  assert (Hp : vget "post_completion_continuation" c0 = VNone) by (rewrite K by compute_decide; reflexivity).
  clear K E5 E3 E2. set (adaptive := mapping (vget "adaptive_decision" _)).
  assert (P : bears l (put_attestation s2 adaptive c0 ran.2).1
    /\ vget "post_completion_continuation" (put_attestation s2 adaptive c0 ran.2).1 = VNone).
  { unfold put_attestation. destruct ran.2; cbn [fst].
    - split; [by apply bears_dset|]. by autorewrite with pydict.
    - destruct (vget "goal_completion_authority_result" adaptive); cbn [fst]; (split; [by repeat apply bears_dset|]);
        by autorewrite with pydict. }
  destruct (_ =? "blocked")%string; [|done]. destruct P. cbn [put fst]. split; [by apply bears_dset|].
  by autorewrite with pydict.
Qed.

Lemma created_item rt c goal i plan rr (w : W) r w' l :
  bears l c.1 ->
  ContinuationCoordinator.create_work_item sha256_hex sv zero rt c goal (Some i) plan rr w = (Ok r, w') ->
  continued rt r.2 /\ exists b, bears b r.1 /\ same_scope l b.
Proof.
  intros [Hl _] H. destruct r as [item rt']. pose proof H as Hm.
  apply (work_item_made _ hex_no_space _ _ _ _ _ _ _ _ _ _ _ _ _ Hl) in Hm as (source & Hm & _).
  destruct Hm as [_ Hr (b & rec & saved & Eb & Ci & _)].
  destruct (branch_spec _ hex_no_space _ _ _ _ _ (proj1 Hl) Eb) as (Hb & Hs & _). split; [right; eauto|].
  exists b. split; [|done]. split; [done|].
  unfold ContinuationCoordinator.create_work_item in H. destruct (Continuation.limit_reached rt); [done|].
  run H as src s1 E1. run H as ident s2 E2. cbv zeta in H. run H as parent s3 E3. run H as b' s4 E4.
  run H as refs s5 E5. run H as w0 s6 E6. run H as pay s7 E7. run H as record s8 E8. run H as saved' s9 E9.
  run H as sid s10 E10. run H as now s11 E11. run H as item0 s12 E12. run H as rt0 s13 E13.
  apply M_ret_inv in H as [H ->]. injection H as <- <-.
  rewrite (carries_extract sha256_hex _ _ Hl) in E3. injection E3 as <-.
  destruct (branch_spec _ hex_no_space _ _ _ _ _ (proj1 Hl) E4) as (Hb' & _).
  unfold ContinuationCoordinator.work_item_of in E12.
  destruct (attach_bears _ _ _ Hb' E12) as [[Hc' G] _]. cbn [fst] in *. rewrite G. f_equal.
  pose proof (carries_extract sha256_hex _ _ Hc') as X1. pose proof (carries_extract sha256_hex _ _ Ci) as X2.
  congruence.
Qed.

Lemma dispatch_keeps d c goal i k p (w : W) r w' l :
  bears l c.1 ->
  GoalLoopDispatcher.dispatch sha256_hex sv zero d c goal i k p w = (Ok r, w') ->
  bears l (GoalLoopDispatcher.updated r).1
  /\ (GoalLoopDispatcher.updated r).2 = c.2
  /\ (forall key, key ∉ DISPATCH_KEYS -> vget key (GoalLoopDispatcher.updated r).1 = vget key c.1)
  /\ (exists k', GoalLoopDispatcher.continuation_runtime r = Some k' /\ continued k k')
  /\ (exists p', GoalLoopDispatcher.replan_runtime r = Some p' /\ replanned p p').
Proof.
  intros Hb. unfold GoalLoopDispatcher.dispatch. cbv zeta. intros H.
  destruct (_ =? "create_replan_record")%string; [|destruct (_ =? "create_continuation")%string].
  - run H as r0 s1 E1. apply M_ret_inv in H as [-> ->].
    cbn [GoalLoopDispatcher.updated GoalLoopDispatcher.continuation_runtime GoalLoopDispatcher.replan_runtime put fst snd].
    split; [by repeat apply bears_dset|]. split; [done|]. split.
    { intros key Hk. unfold DISPATCH_KEYS in Hk. rewrite !not_elem_of_cons in Hk. destruct_and! Hk.
      by autorewrite with pydict. }
    split; [eexists; split; [done|by left]|]. eexists. split; [done|]. right.
    unfold ReplanCoordinator.create_replan_record in E1. destruct (Replans.limit_reached p); [done|]. cbv zeta in E1.
    run E1 as n s2 E2. run E1 as now s3 E3. run E1 as record s4 E4. run E1 as next s5 E5.
    apply M_ret_inv in E1 as [-> ->]. eauto.
  - run H as r0 s1 E1. apply M_ret_inv in H as [-> ->].
    cbn [GoalLoopDispatcher.updated GoalLoopDispatcher.continuation_runtime GoalLoopDispatcher.replan_runtime put fst snd].
    split; [by repeat apply bears_dset|]. split; [done|]. split.
    { intros key Hk. unfold DISPATCH_KEYS in Hk. rewrite !not_elem_of_cons in Hk. destruct_and! Hk.
      by autorewrite with pydict. }
    destruct (created_item _ _ _ _ _ _ _ _ _ _ Hb E1) as [Hc _].
    split; eexists; (split; [done|]); [done|by left].
  - run H as w0 s1 E1. destruct (_ && _); apply M_ret_inv in H as [-> ->];
      cbn [GoalLoopDispatcher.updated GoalLoopDispatcher.continuation_runtime GoalLoopDispatcher.replan_runtime put fst snd];
      (split; [by repeat apply bears_dset|]); (split; [done|]); (split;
        [intros key Hk; unfold DISPATCH_KEYS in Hk; rewrite !not_elem_of_cons in Hk; destruct_and! Hk;
         by autorewrite with pydict|]); split; eexists; (split; [done|by left]).
Qed.

Lemma hand_over_spec b c goal i lim k (w : W) r w' l :
  bears l c.1 -> vget "post_completion_continuation" c.1 = VNone ->
  hand_over sha256_hex sv zero b c goal i lim k w = (Ok r, w') ->
  bears l r.1.1.1 /\ r.1.1.2 = c.2 /\ continued k r.1.2
  /\ (r.2 = "" \/ exists item b', vget "continuation_work_item" r.1.1.1 = VDict item /\ bears b' item /\ same_scope l b').
Proof.
  intros Hb Hp. unfold hand_over. destruct b; intros H.
  2: { apply M_ret_inv in H as [-> ->]. cbn [fst snd]. split; [done|]. split; [done|]. split; by left. }
  run H as m s1 E1.
  assert (P : bears l m.1.1 /\ m.1.2 = c.2 /\ continued k m.2
    /\ (vget "post_completion_continuation" m.1.1 = VNone
        \/ exists item b', vget "continuation_work_item" m.1.1 = VDict item /\ bears b' item /\ same_scope l b')).
  { unfold _create_post_completion_continuation in E1. cbv zeta in E1. destruct (mapping (vget "next_runtime_request" _)).
    { apply M_ret_inv in E1 as [-> ->]. split_and!; try done; by left. }
    run E1 as w0 s2 E2. destruct (negb _); [apply M_ret_inv in E1 as [-> ->]; split_and!; try done; by left|].
    destruct (Continuation.limit_reached k).
    { apply M_ret_inv in E1 as [-> ->]. cbn [fst snd put]. split; [by apply bears_dset|]. split; [done|]. split; [by left|].
      left. by autorewrite with pydict. }
    run E1 as m0 s3 E3. apply M_ret_inv in E1 as [-> ->]. cbn [fst snd put].
    destruct (created_item _ _ _ _ _ _ _ _ _ _ Hb E3) as (Hc & b' & Hb' & Hs).
    split; [by repeat apply bears_dset|]. split; [done|]. split; [done|]. right. exists m0.1, b'.
    split; [|done]. by autorewrite with pydict. }
  clear E1. destruct P as (P1 & P2 & P3 & P4). cbv zeta in H.
  destruct (_ && _) eqn:En; apply M_ret_inv in H as [-> ->]; cbn [fst snd put];
    (split; [by repeat apply bears_dset|]); (split; [done|]); (split; [done|]); [right|by left].
  destruct P4 as [E|(item & b' & E1 & E2)].
  - rewrite E in En. done.
  - exists item, b'. split; [|done]. by autorewrite with pydict.
Qed.

Lemma linked_bears id l d : bears l d -> bears l (AdaptivePersistenceGateway.linked id d).
Proof. intros H. unfold AdaptivePersistenceGateway.linked. by repeat apply bears_dset. Qed.

Lemma noted_keeps c n key : key ∉ PERSIST_KEYS -> vget key (AdaptivePersistenceGateway.noted c n) = vget key c.
Proof.
  unfold PERSIST_KEYS. rewrite !not_elem_of_cons. intros Hk. destruct_and! Hk.
  unfold AdaptivePersistenceGateway.noted, dupdate. cbn [fold_left fst snd]. by autorewrite with pydict.
Qed.

(** Linking a decision writes the two records it links, and nothing else. *)
Lemma link_keeps c ev (w : W) c2 w' :
  AdaptivePersistenceGateway.link_decision_evidence sv c ev w = (Ok c2, w') ->
  (forall key, key ∉ ["continuation_work_item"; "replan_record"] -> vget key c2 = vget key c)
  /\ (vget "continuation_work_item" c2 = vget "continuation_work_item" c \/ exists id, vget "continuation_work_item" c2
       = VDict (AdaptivePersistenceGateway.linked id (mapping (vget "continuation_work_item" c)))).
Proof.
  unfold AdaptivePersistenceGateway.link_decision_evidence. cbv zeta. intros H.
  destruct (_ =? "")%string; [apply M_ret_inv in H as [-> ->]; split; [done|by left]|].
  run H as goal s6 E6. destruct (py_or goal _) as [| | | | |d]; try done.
  run H as u' s7 E7. run H as c3 s8 E8. apply M_ret_inv in H as [-> ->].
  unfold AdaptivePersistenceGateway.link_continuation in E8. cbv zeta in E8.
  assert (Q : (forall key, key ∉ ["continuation_work_item"; "replan_record"] -> vget key c3 = vget key c)
    /\ (vget "continuation_work_item" c3 = vget "continuation_work_item" c \/ exists id, vget "continuation_work_item" c3
         = VDict (AdaptivePersistenceGateway.linked id (mapping (vget "continuation_work_item" c))))).
  { destruct (_ =? "")%string in E8; [apply M_ret_inv in E8 as [-> ->]; split; [done|by left]|].
    run E8 as u2 s9 E9. apply M_ret_inv in E8 as [-> ->]. split.
    - intros key Hk. rewrite !not_elem_of_cons in Hk. destruct_and! Hk. by autorewrite with pydict.
    - right. eexists. by autorewrite with pydict. }
  destruct (truthy _); [|done]. destruct Q as [Q1 Q2]. split.
  - intros key Hk. pose proof Hk as Hk'. rewrite !not_elem_of_cons in Hk. destruct_and! Hk.
    autorewrite with pydict. by apply Q1.
  - by rewrite vget_dset_ne by done.
Qed.

(** What is stored of a cycle. *)
Lemma persist_spec c n (w : W) c' w' :
  AdaptivePersistenceGateway.persist_cycle sha256_hex sv c n w = (Ok c', w') ->
  (forall key, key ∉ PERSIST_KEYS -> vget key c' = vget key c)
  /\ vget "replan_count" c' = VInt (AdaptivePersistenceGateway.replan_count n)
  /\ vget "continuation_count" c' = VInt (AdaptivePersistenceGateway.continuation_count n)
  /\ (vget "continuation_work_item" c' = vget "continuation_work_item" c
      \/ exists id, vget "continuation_work_item" c'
           = VDict (AdaptivePersistenceGateway.linked id (mapping (vget "continuation_work_item" c)))).
Proof.
  unfold AdaptivePersistenceGateway.persist_cycle. cbv zeta. intros H.
  set (c0 := AdaptivePersistenceGateway.noted c n) in *.
  assert (N : vget "replan_count" c0 = VInt (AdaptivePersistenceGateway.replan_count n)
    /\ vget "continuation_count" c0 = VInt (AdaptivePersistenceGateway.continuation_count n)
    /\ vget "continuation_work_item" c0 = vget "continuation_work_item" c).
  { unfold c0, AdaptivePersistenceGateway.noted, dupdate. cbn [fold_left fst snd]. by autorewrite with pydict. }
  pose proof (noted_keeps c n) as K. fold c0 in K. clearbody c0.
  run H as lin s1 E1. run H as u s2 E2. run H as ev s3 E3. run H as chain s4 E4. run H as c2 s5 E5.
  apply M_ret_inv in H as [-> ->]. apply link_keeps in E5 as [P1 P2]. destruct N as (N1 & N2 & N3).
  rewrite !vget_dset_ne by done. rewrite !P1 by compute_decide.
  split; [|split; [by autorewrite with pydict|split; [by autorewrite with pydict|]]].
  - intros key Hk. rewrite <- K by done. unfold PERSIST_KEYS in Hk. rewrite !not_elem_of_cons in Hk. destruct_and! Hk.
    rewrite vget_dset_ne by congruence. rewrite P1 by (rewrite !not_elem_of_cons; split_and!; try done; by apply not_elem_of_nil).
    by autorewrite with pydict.
  - revert P2. by rewrite !vget_dset_ne, N3 by done.
Qed.

End steps.

(** ** The loop *)

Lemma continued_ok k k' :
  continuation_ok k -> continued k k' ->
  continuation_ok k' /\ Continuation.max_continuations k' = Continuation.max_continuations k
  /\ (Continuation.continuation_count k' = Continuation.continuation_count k
      \/ Continuation.continuation_count k' <= Continuation.max_continuations k)%Z
  /\ same_scope (Continuation.identity k) (Continuation.identity k').
Proof.
  intros Hk [->|[item H]]; [split_and!; [done..|by left|done]|].
  destruct (record_ok _ _ _ _ Hk H) as (Hlt & Hc & Hm & _ & root & lid & sid & rsid & src & bt & bid & bid' & I0 & I1 & _).
  split.
  { unfold Continuation.record_work_item in H. unfold_m. destruct (Continuation.limit_reached k); [done|]. bind_ok H.
    unfold Continuation.replace in H. cbn [negb] in H. by eapply new_ok. }
  split; [done|]. split; [right; lia|]. unfold same_scope, SCOPE. rewrite I0, I1. by repeat apply Forall_cons_2.
Qed.

Lemma replanned_ok p p' :
  replan_ok p -> replanned p p' ->
  replan_ok p' /\ Replans.max_replans p' = Replans.max_replans p
  /\ (Replans.replan_count p' = Replans.replan_count p \/ Replans.replan_count p' <= Replans.max_replans p)%Z
  /\ same_scope (Replans.identity p) (Replans.identity p').
Proof.
  intros Hp [->|[rec H]]; [split_and!; [done..|by left|done]|].
  destruct (record_replan_ok _ _ _ _ Hp H) as (Hlt & Hc & Hm & root & src & goal & lid & bt & bid & sid & rsid & bid' & I0 & I1 & Hall).
  destruct Hp as (Hn & Hx & _). split.
  { split; [lia|]. split; [lia|]. by exists root, goal, goal, lid, "replan", bid', sid, rsid. }
  split; [done|]. split; [right; lia|]. unfold same_scope, SCOPE. rewrite I0, I1. by repeat apply Forall_cons_2.
Qed.

(** What holds of the variables of a loop that started with the lineage [l0]. *)
Record loop_ok (n : limits) (l0 : list (string * val)) (v : loop_vars) : Prop := {
  lo_canonical : canonical_lineage (lineage v);
  lo_scope : same_scope l0 (lineage v);
  lo_session : session_ok (session v);
  lo_continuation : continuation_ok (continuation v) /\ same_scope l0 (Continuation.identity (continuation v))
    /\ Continuation.max_continuations (continuation v) = continuation_limit n
    /\ (Continuation.continuation_count (continuation v) <= continuation_limit n)%Z;
  lo_replan : replan_ok (replan v) /\ same_scope l0 (Replans.identity (replan v))
    /\ Replans.max_replans (replan v) = replan_limit n
    /\ (Replans.replan_count (replan v) <= replan_limit n)%Z;
  lo_cycles : Forall (fun c => exists l, bears l c.1 /\ same_scope l0 l) (cycles v);
  lo_noted : forall cs c, cycles v = cs ++ [c] ->
    vget "replan_count" c.1 = VInt (Replans.replan_count (replan v))
    /\ vget "continuation_count" c.1 = VInt (Continuation.continuation_count (continuation v)) }.

Section rounds.
Context {W : Type} `{Gate : AttestationGate W}.
Context (py_float : val -> res val) (sv : services W) (zero : val).

Lemma round_ok n i l0 v (w : W) b v' w' :
  loop_ok n l0 v -> one_round sha256_hex py_float sv zero n i v w = (Ok (b, v'), w') ->
  loop_ok n l0 v' /\ exists c, cycles v' = cycles v ++ [c].
Proof.
  intros [Hl Hs Hss (Hk & Ik & Mk & Bk) (Hp & Ip & Mp & Bp) Hcs _]. unfold one_round. cbv zeta. intros H.
  run H as c s1 E1. run H as rt s2 E2. run H as w0 s3 E3. run H as pg s4 E4. run H as d s5 E5. run H as w1 s6 E6.
  destruct (cycle_bears _ _ _ _ _ _ _ _ Hl E1) as [B1 P1]. destruct pg as [c1 rt1]. cbn [fst snd] in *.
  destruct (progression_keeps _ _ _ _ _ _ _ _ _ _ E4) as (_ & K1 & G1). specialize (G1 _ B1). change c1 with (c1, c.2).1 in G1.
  destruct (dispatch_keeps _ _ _ _ _ _ _ _ _ _ _ _ G1 E5) as (B2 & _ & K2 & (k1 & Ek & Ck) & (p1 & Ep & Cp)).
  rewrite Ek, Ep in H. cbn [default from_option id] in H.
  set (c2 := if non_empty _ then _ else _) in *.
  assert (B3 : bears (lineage v) c2.1 /\ vget "post_completion_continuation" c2.1 = VNone).
  { assert (P2 : vget "post_completion_continuation" (GoalLoopDispatcher.updated d).1 = VNone)
      by (rewrite K2, K1 by compute_decide; exact P1).
    unfold c2. destruct (non_empty _); [|done]. unfold _refuse_adaptive_continuation. cbn [put fst].
    split; [by repeat apply bears_dset|]. by autorewrite with pydict. }
  clearbody c2. destruct B3 as [B3 P3]. clear K1 K2 B1 B2 G1 E5.
  run H as h s7 E7. destruct h as [[c3 k2] next]. destruct (hand_over_spec _ _ _ _ _ _ _ _ _ _ _ _ B3 P3 E7) as (B4 & _ & Ck' & Hn). cbn [fst snd] in *.
  run H as saved s8 E8. destruct (persist_spec _ _ _ _ _ _ E8) as (K3 & N1 & N2 & Hw). clear E8 E7.
  run H as rt2 s9 E9. apply new_session_ok in E9 as Hrt2.
  destruct (continued_ok _ _ Hk Ck) as (Hk1 & Mk1 & Bk1 & Sk1).
  destruct (continued_ok _ _ Hk1 Ck') as (Hk2 & Mk2 & Bk2 & Sk2).
  destruct (replanned_ok _ _ Hp Cp) as (Hp1 & Mp1 & Bp1 & Sp1).
  assert (B5 : bears (lineage v) saved).
  { apply (bears_keys _ c3.1); [|done]. intros k Hin. apply K3. revert k Hin. apply Forall_forall. compute_decide. }
  assert (F1 : Continuation.max_continuations k2 = continuation_limit n) by by rewrite Mk2, Mk1.
  assert (F2 : (Continuation.continuation_count k2 <= continuation_limit n)%Z) by lia.
  assert (F3 : Replans.max_replans p1 = replan_limit n) by by rewrite Mp1.
  assert (F4 : (Replans.replan_count p1 <= replan_limit n)%Z) by lia.
  assert (Main : forall l rt3 t st rf, canonical_lineage l -> same_scope l0 l -> session_ok rt3 ->
    loop_ok n l0 (Vars l rt3 k2 p1 (cycles v ++ [(saved, c3.2)]) t st rf)).
  { intros l rt3 t st rf H1 H2 H3. constructor; cbn [lineage session continuation replan cycles]; [done..| | | |].
    - split; [done|]. split; [exact (transitivity Ik (transitivity Sk1 Sk2))|]. split; [exact F1|exact F2].
    - split; [done|]. split; [exact (transitivity Ip Sp1)|]. split; [exact F3|exact F4].
    - apply Forall_app. split; [done|]. apply Forall_singleton. by exists (lineage v).
    - intros cs c' [_ <-]%app_inj_tail. done. }
  destruct (non_empty next) eqn:Eh.
  - run H as l s10 E10. apply M_ret_inv in H as [H ->]. injection H as -> ->.
    destruct Hn as [Hn|(item & b' & Ei & Bi & Si)]; [by rewrite Hn in Eh|].
    assert (l = b') as ->.
    { destruct Hw as [Hw|[id Hw]]; rewrite Hw, Ei in E10; cbn [mapping] in E10.
      - rewrite (bears_strict _ _ _ _ Bi) in E10. congruence.
      - rewrite (bears_strict _ _ _ _ (linked_bears id _ _ Bi)) in E10. congruence. }
    split; [|by eexists]. apply Main; [apply Bi|exact (transitivity Hs Si)|done].
  - destruct (_ || _).
    + run H as rt3 s10 E10. apply new_session_ok in E10. apply M_ret_inv in H as [H ->]. injection H as -> ->.
      split; [by apply Main|by eexists].
    + apply M_ret_inv in H as [H ->]. injection H as -> ->. split; [by apply Main|by eexists].
Qed.

Lemma rounds_ok n l0 todo : forall i v (w : W) v' w',
  loop_ok n l0 v -> rounds sha256_hex py_float sv zero n todo i v w = (Ok v', w') ->
  loop_ok n l0 v'
  /\ (length (cycles v) <= length (cycles v') <= length (cycles v) + todo)%nat
  /\ (todo <> 0%nat -> length (cycles v) < length (cycles v'))%nat.
Proof.
  induction todo as [|todo IH]; intros i v w v' w' Hv H; cbn [rounds] in H.
  { apply M_ret_inv in H as [-> ->]. split; [done|]. split; [lia|done]. }
  run H as r s1 E1. destruct r as [b v1]. destruct (round_ok _ _ _ _ _ _ _ _ Hv E1) as (H1 & c & Ec).
  apply (f_equal length) in Ec. rewrite length_app in Ec. cbn [length] in Ec. cbn [fst snd] in H. destruct b.
  { apply M_ret_inv in H as [-> ->]. split; [done|]. lia. }
  destruct (IH _ _ _ _ _ H1 H) as (H2 & H3 & _). split; [done|]. lia.
Qed.
End rounds.

(** ** How a loop starts *)

Lemma start_canonical target sid rsid lin persisted l :
  start_lineage sha256_hex target sid rsid lin persisted = Ok l -> canonical_lineage l.
Proof.
  unfold start_lineage. unfold_m. intros H.
  assert (E : forall v rj l, extract_goal_lineage sha256_hex v true rj = Ok l -> canonical_lineage l)
    by (intros v rj l'; by apply extract_canonical).
  assert (R : create_root_goal_lineage sha256_hex target sid rsid = Ok l -> canonical_lineage l)
    by by apply create_root_clean.
  destruct persisted; try (destruct lin; eauto; fail). bind_ok H. apply E in E0.
  destruct (negb _); [done|]. destruct (negb _); [done|].
  destruct lin; try (bind_ok H; destruct (negb _); [done|]; bind_ok H; destruct (negb _); [done|]); by injection H as <-.
Qed.

Lemma limits_ok mc mr mk n : read_limits mc mr mk = Ok n ->
  (1 <= cycle_limit n /\ 0 <= replan_limit n /\ 0 <= continuation_limit n)%Z.
Proof.
  unfold read_limits. unfold_m. intros H. bind_ok H. bind_ok H. bind_ok H. injection H as <-.
  cbn [cycle_limit replan_limit continuation_limit]. split; [lia|]. split; [lia|].
  destruct mk; [injection E1 as <-; lia|..]; (bind_ok E1; injection E1 as <-; lia).
Qed.

Lemma continuation_starts target mx l :
  canonical_lineage l -> (0 <= mx)%Z ->
  exists k, Continuation.start sha256_hex target (VInt 0) (VInt mx) (VDict l) = Ok k
    /\ continuation_ok k /\ same_scope l (Continuation.identity k)
    /\ Continuation.max_continuations k = mx /\ Continuation.continuation_count k = 0%Z.
Proof.
  intros (root&src&goal&lid&bt&bid&sid&rsid&Hc&->) Hm. pose proof Hc as Hc'.
  rewrite !Forall_cons in Hc'. destruct Hc' as ([_ Hr] & ? & ? & ? & ? & ? & ? & ? & _). apply String.eqb_neq in Hr.
  assert (I : forall cur d, text_or (VStr cur) "goal" = cur ->
    (forall f, f ∈ GOAL_LINEAGE_FIELDS -> vget f d = vget f (lineage_of root src cur lid bt bid sid rsid)) ->
    vget "goal_lineage" d = VNone ->
    Continuation._identity_from_lineage sha256_hex cur (VDict d) = Ok (identity_of root src lid bt bid sid rsid)).
  { intros cur d Hcur Hf Hg. unfold Continuation._identity_from_lineage. cbn [mapping].
    assert (Hd : truthy (VDict d) = true).
    { destruct d; [|done]. specialize (Hf "root_goal_id" ltac:(compute_decide)). discriminate Hf. }
    rewrite Hd, (Hf "root_goal_id") by compute_decide. change (truthy (vget "root_goal_id" _)) with (negb (root =? "")%string).
    rewrite Hr. cbn [negb andb]. unfold_m.
    rewrite (extract_from_fields sha256_hex d true true root src cur lid bt bid sid rsid); [done| |done|].
    - rewrite !Forall_cons in Hc |- *. destruct_and! Hc. split_and!; try done. rewrite <- Hcur. by apply text_or_clean.
    - rewrite no_conflicts; [done|]. intros g f Hg'. by rewrite Hg in Hg'. }
  assert (E : exists k, Continuation.start sha256_hex target (VInt 0) (VInt mx)
      (VDict (lineage_of root src goal lid bt bid sid rsid)) = Ok k
    /\ same_scope (lineage_of root src goal lid bt bid sid rsid) (Continuation.identity k)
    /\ Continuation.max_continuations k = mx /\ Continuation.continuation_count k = 0%Z).
  { unfold Continuation.start. unfold Continuation._identity_from_lineage at 1. cbn [mapping].
    change (truthy (VDict _)) with true. change (truthy (vget "root_goal_id" _)) with (negb (root =? "")%string).
    rewrite Hr. cbn [negb andb]. unfold_m. rewrite (extract_fixed sha256_hex) by done. unfold Continuation.new. unfold_m.
    match goal with |- context [call_fields ?q ?d ?a] => destruct (call_fields q d a) as [f|] eqn:E; [|done] end.
    injection E as <-. cbv zeta.
    match goal with |- context [Continuation._identity_from_lineage _ ?cur ?d] => set (current := cur) end.
    rewrite I; [|apply text_or_word; unfold current; by apply text_or_clean| |reflexivity].
    2: { intros f Hf. unfold GOAL_LINEAGE_FIELDS in Hf. rewrite !elem_of_cons, elem_of_nil in Hf.
         by repeat destruct Hf as [->|Hf]. }
    eexists. split; [reflexivity|]. cbn [Continuation.identity Continuation.max_continuations Continuation.continuation_count].
    split; [by repeat apply Forall_cons_2|]. split; [|reflexivity].
    change (Replan._limit (VInt mx) 1 = mx). rewrite limit_int. lia. }
  destruct E as (k & E & Hk). exists k. split; [done|]. split; [|done].
  unfold Continuation.start in E. unfold_m. bind_ok E. exact (new_ok _ hex_no_space _ _ E).
Qed.

Lemma replan_starts mx l :
  canonical_lineage l -> (0 <= mx)%Z ->
  exists p, Replans.start sha256_hex (VInt 0) (VInt mx) (VDict l) = Ok p
    /\ replan_ok p /\ same_scope l (Replans.identity p) /\ Replans.max_replans p = mx /\ Replans.replan_count p = 0%Z.
Proof.
  intros (root&src&goal&lid&bt&bid&sid&rsid&Hc&->) Hm.
  destruct (replan_start_ok sha256_hex (VInt 0) (VInt mx) _ _ _ _ _ _ _ _ Hc) as (r & E & Hn & Hx & Hi).
  rewrite limit_int in Hn, Hx. rewrite Z.max_r in Hx by done. exists r.
  split; [done|]. split; [|split; [|done]].
  - split; [lia|]. split; [lia|]. by exists root, src, goal, lid, bt, bid, sid, rsid.
  - rewrite Hi. by repeat apply Forall_cons_2.
Qed.

(** A run up to its last step. *)
Lemma run_parts {W} `{Gate : AttestationGate W} py_float (sv : services W) zero goal mc mr mk sid rsid lin w result w' :
  run_until_terminal sha256_hex py_float sv zero goal mc mr mk sid rsid lin w = (Ok result, w') ->
  exists persisted w1 l0 n v w2,
    load_goal sv (text (VStr goal)) w = (Ok persisted, w1)
    /\ start_lineage sha256_hex (text (VStr goal)) sid rsid lin persisted = Ok l0
    /\ read_limits mc mr mk = Ok n
    /\ canonical_lineage l0 /\ loop_ok n l0 v
    /\ (0 < length (cycles v) <= Z.to_nat (cycle_limit n))%nat
    /\ GoalLoopTerminalCoordinator.build_result sha256_hex sv zero
         (GoalLoopTerminalCoordinator.LoopEnd (text (VStr goal)) (SessionRuntime.current_goal_id (session v)) (terminal v)
            (stop_reason v) (refusal_reason v) (cycles v) (cycle_limit n) (replan_limit n) (continuation_limit n)
            (session v) (continuation v) (replan v)) w2 = (Ok result, w').
Proof.
  unfold run_until_terminal. cbv zeta. intros H. run H as persisted w1 E1. run H as l0 w2 E2. run H as n w3 E3.
  run H as rt w4 E4. run H as k w5 E5. run H as p w6 E6. run H as v w7 E7.
  pose proof (start_canonical _ _ _ _ _ _ E2) as Hl. destruct (limits_ok _ _ _ _ E3) as (Hc & Hr & Hn).
  destruct (continuation_starts (text (VStr goal)) _ _ Hl Hn) as (k' & Ek & Hk & Sk & Mk & Ck).
  rewrite Ek in E5. injection E5 as ->.
  destruct (replan_starts _ _ Hl Hr) as (p' & Ep & Hp & Sp & Mp & Cp). rewrite Ep in E6. injection E6 as ->.
  assert (V : loop_ok n l0 (Vars l0 rt k p [] false "max_cycles_reached" "")).
  { constructor; cbn [lineage session continuation replan cycles]; [done|done| | | |constructor|].
    - unfold SessionProgressionCoordinator.start_runtime in E4. by eapply new_session_ok.
    - split; [done|]. split; [done|]. split; [done|lia].
    - split; [done|]. split; [done|]. split; [done|lia].
    - intros [|] ? [=]. }
  destruct (rounds_ok _ _ _ _ _ _ _ _ _ _ _ V E7) as (Hv & Hlen & Hpos). cbn [cycles length] in *.
  exists persisted, w1, l0, n, v, w7. split_and!; try done; lia.
Qed.
End bearing.

(** ** Theorems *)

Section success.
Context {W : Type} `{Gate : AttestationGate W}.
Context (sha256_hex : string -> string) (py_float : val -> res val) (sv : services W) (zero : val).

(** A result that is ok, from the world in which its completion was judged. *)
Lemma result_attested e w result w' :
  GoalLoopTerminalCoordinator.build_result sha256_hex sv zero e w = (Ok result, w') ->
  vget "ok" result = VBool true ->
  gate_accepts w (GoalLoopTerminalCoordinator.latest_cycle e).2 (GoalLoopTerminalCoordinator.goal_of_result e) = true
  /\ vget "current_goal_id" result = VStr (GoalLoopTerminalCoordinator.goal_of_result e)
  /\ vget "terminal" result = VBool true
  /\ vget "blocking_issues" result = VList []
  /\ GoalLoopTerminalCoordinator.cycles e <> []
  /\ GoalLoopTerminalCoordinator.adaptive_complete e = true.
Proof.
  unfold GoalLoopTerminalCoordinator.build_result. cbv zeta. intros H Hok.
  run H as n1 s1 E1. run H as n2 s2 E2. run H as w0 s3 E3. run H as ev s4 E4. run H as now s5 E5. run H as rep s6 E6.
  apply M_lift_inv in H as [H ->].
  destruct (summary_keeps _ _ _ H) as (K & Hp). destruct (Hp Hok) as (Hp' & Hb). clear Hp. rename Hp' into Hp.
  rewrite (K "current_goal_id"), (K "terminal") by compute_decide. injection Hp as Hp.
  apply andb_true_iff in Hp as [Hp Ha]. apply andb_true_iff in Hp as [Hp Hc]. apply andb_true_iff in Hp as [Ht Hh].
  split; [exact Ha|]. split; [reflexivity|]. split; [cbn -[text text_or]; by rewrite Ht|]. split; [exact Hb|].
  split; [|exact Hc]. unfold GoalLoopTerminalCoordinator.has_cycles in Hh.
  by destruct (GoalLoopTerminalCoordinator.cycles e).
Qed.

(** C1. The engineering loop succeeds only for a goal the completion authority has
    completed.  Whatever the repository, the runner, the evidence authority and
    the reporter do and whatever limits are asked for, if the result of a run
    says ok, then it is terminal, no issue blocks it, and the goal it names as
    the current one has been completed by the authority in a world the program
    reached. *)
Theorem loop_success_attested goal max_cycles max_replans max_continuations sid rsid lin w result w' :
  steady sv gate_reached -> gate_reached w ->
  run_until_terminal sha256_hex py_float sv zero goal max_cycles max_replans max_continuations sid rsid lin w
    = (Ok result, w') ->
  vget "ok" result = VBool true ->
  exists w1 g, gate_reached w1 /\ goal_done w1 g
    /\ vget "current_goal_id" result = VStr g
    /\ vget "terminal" result = VBool true /\ vget "blocking_issues" result = VList [].
Proof.
  intros St Hw. unfold run_until_terminal. cbv zeta. intros H Hok.
  run H as persisted w1 E1. assert (H1 := preserves_run _ _ _ _ _ (steady_load _ _ St _) Hw E1).
  run H as l w2 E2. run H as n w3 E3. run H as rt w4 E4. run H as k w5 E5. run H as p w6 E6. run H as v w7 E7.
  assert (H7 := preserves_run _ _ _ _ _ (rounds_preserve _ _ _ _ _ St _ _ _ _) H1 E7).
  destruct (result_attested _ _ _ _ H Hok) as (Ha & Hg & Ht & Hb & _).
  eexists w7, _. split; [done|]. split; [by eapply gate_sound|]. done.
Qed.

Context (hex_no_space : forall b, no_space (sha256_hex b) = true).

Lemma count_kept key z d c : vget key d = VInt z -> vget key c = VInt z ->
  GoalLoopTerminalCoordinator.count_of key d c = Ok z.
Proof.
  intros E1 E2. unfold GoalLoopTerminalCoordinator.count_of. rewrite E1, E2. unfold py_or at 2. cbn [truthy].
  destruct (Z.eqb_spec z 0) as [->|Hz]; cbn [negb]; [reflexivity|]. unfold py_or. cbn [truthy].
  apply Z.eqb_neq in Hz. by rewrite Hz.
Qed.

(** The keys of a result that the issue summary does not touch. *)
Lemma result_payload e w result w' :
  GoalLoopTerminalCoordinator.build_result sha256_hex sv zero e w = (Ok result, w') ->
  exists r k acc ev now,
    GoalLoopTerminalCoordinator.count_of "replan_count" (Replans.to_dict (GoalLoopTerminalCoordinator.replan_runtime e))
      (GoalLoopTerminalCoordinator.latest_cycle e).1 = Ok r
    /\ GoalLoopTerminalCoordinator.count_of "continuation_count"
         (Continuation.to_dict (GoalLoopTerminalCoordinator.continuation_runtime e))
         (GoalLoopTerminalCoordinator.latest_cycle e).1 = Ok k
    /\ forall key, key ∉ ["task_result"; "engineering_result_contract"; "ok"] ++ IssueSummary.SUMMARY_FIELDS ->
        vget key result = vget key (GoalLoopTerminalCoordinator.payload zero e acc r k ev now).
Proof.
  unfold GoalLoopTerminalCoordinator.build_result. cbv zeta. intros H.
  run H as n1 s1 E1. run H as n2 s2 E2. run H as w0 s3 E3. run H as ev s4 E4. run H as now s5 E5. run H as rep s6 E6.
  apply M_lift_inv in H as [H ->]. destruct (summary_keeps _ _ _ H) as (K & _).
  eexists n1, n2, _, ev, now. split; [done|]. split; [done|]. exact K.
Qed.

(** C17. A loop stays in the scope it starts in.  Whatever the services do, every
    cycle of a result bears a complete lineage without conflicts, with the root
    goal, the lineage id and the two sessions of the lineage that the run
    started with, and so do the continuation and the replan runtime; that
    lineage is the stored goal's if there is one, and then the sessions and the
    lineage the caller asked for agree with it. *)
Theorem loop_keeps_scope goal max_cycles max_replans max_continuations sid rsid lin w result w' :
  run_until_terminal sha256_hex py_float sv zero goal max_cycles max_replans max_continuations sid rsid lin w
    = (Ok result, w') ->
  exists l0 cs persisted w1,
    load_goal sv (text (VStr goal)) w = (Ok persisted, w1)
    /\ start_lineage sha256_hex (text (VStr goal)) sid rsid lin persisted = Ok l0
    /\ vget "cycles" result = VList (map VDict cs) /\ cs <> []
    /\ Forall (fun c => exists l, extract_goal_lineage sha256_hex (VDict c) true true = Ok l
                  /\ lineage_scope_matches sha256_hex (VDict l) (VDict l0) = Ok true) cs
    /\ same_scope l0 (mapping (vget "continuation_runtime" result))
    /\ same_scope l0 (mapping (vget "replan_runtime" result)).
Proof.
  intros H. destruct (run_parts _ hex_no_space _ _ _ _ _ _ _ _ _ _ _ _ _ H)
    as (persisted & w1 & l0 & n & v & w2 & Hload & Hstart & _ & Hl0 & Hv & Hlen & Hb).
  destruct (result_payload _ _ _ _ Hb) as (r & k & acc & ev & now & _ & _ & K).
  exists l0, (map fst (cycles v)), persisted, w1. split; [done|]. split; [done|]. split.
  { rewrite K by compute_decide. cbn. by rewrite map_map. }
  split; [destruct (cycles v); [cbn in Hlen; lia|done]|].
  destruct Hv as [_ _ _ ((_ & _ & root & src & lid & bt & bid & rs & rr & _ & Ik) & Sk & _)
                  ((_ & _ & root' & src' & g' & lid' & bt' & bid' & rs' & rr' & _ & Ip) & Sp & _) Hc _].
  split.
  - apply Forall_map. eapply Forall_impl; [exact Hc|]. intros c (l & Hb' & Hs). exists l.
    split; [by eapply bears_strict|]. apply scope_matches_same; [done|apply Hb'|done].
  - rewrite !K by compute_decide. split.
    + change (same_scope l0 (Continuation.to_dict (continuation v))). revert Sk. unfold same_scope. rewrite !Forall_forall.
      intros Hs x Hx. rewrite <- (Hs x Hx). unfold Continuation.to_dict. rewrite Ik. unfold SCOPE in Hx.
      rewrite !elem_of_cons, elem_of_nil in Hx. by repeat destruct Hx as [->|Hx].
    + change (same_scope l0 (Replans.to_dict (replan v))). revert Sp. unfold same_scope. rewrite !Forall_forall.
      intros Hs x Hx. rewrite <- (Hs x Hx). unfold Replans.to_dict. rewrite Ip. unfold SCOPE in Hx.
      rewrite !elem_of_cons, elem_of_nil in Hx. by repeat destruct Hx as [->|Hx].
Qed.

(** C10. A loop keeps its bounds.  A run that returns a result reports at least one
    and at most [max_cycles] cycles, not below one; the replans and the
    continuations it counts are not negative and not more than it was allowed,
    and both are the counts of its runtimes; without a bound on continuations
    the bound on cycles is taken. *)
Theorem loop_bounded goal max_cycles max_replans max_continuations sid rsid lin w result w' :
  run_until_terminal sha256_hex py_float sv zero goal max_cycles max_replans max_continuations sid rsid lin w
    = (Ok result, w') ->
  exists n cs r k,
    read_limits max_cycles max_replans max_continuations = Ok n
    /\ vget "cycles" result = VList (map VDict cs)
    /\ vget "cycle_count" result = VInt (Z.of_nat (length cs)) /\ (1 <= Z.of_nat (length cs) <= cycle_limit n)%Z
    /\ vget "replan_count" result = VInt r /\ (0 <= r <= replan_limit n)%Z
    /\ vget "replan_count" (mapping (vget "replan_runtime" result)) = VInt r
    /\ vget "continuation_count" result = VInt k /\ (0 <= k <= continuation_limit n)%Z
    /\ vget "continuation_count" (mapping (vget "continuation_runtime" result)) = VInt k
    /\ [vget "max_cycles" result; vget "max_replans" result; vget "max_continuations" result]
       = map VInt [cycle_limit n; replan_limit n; continuation_limit n].
Proof.
  intros H. destruct (run_parts _ hex_no_space _ _ _ _ _ _ _ _ _ _ _ _ _ H)
    as (persisted & w1 & l0 & n & v & w2 & _ & _ & Hn & Hl0 & Hv & Hlen & Hb).
  destruct (result_payload _ _ _ _ Hb) as (r & k & acc & ev & now & Er & Ek & K).
  destruct Hv as [_ _ _ ((Hk & _) & _ & _ & Bk) ((Hr & _) & _ & _ & Br) _ Hnote].
  destruct (exists_last (l := cycles v)) as (cs & c & Ec); [by destruct (cycles v); [cbn in Hlen; lia|]|].
  destruct (Hnote _ _ Ec) as [N1 N2].
  assert (Hlast : GoalLoopTerminalCoordinator.latest_cycle
    (GoalLoopTerminalCoordinator.LoopEnd (text (VStr goal)) (SessionRuntime.current_goal_id (session v)) (terminal v)
      (stop_reason v) (refusal_reason v) (cycles v) (cycle_limit n) (replan_limit n) (continuation_limit n)
      (session v) (continuation v) (replan v)) = c)
    by (unfold GoalLoopTerminalCoordinator.latest_cycle; cbn; by rewrite Ec, List.last_last).
  rewrite Hlast in Er, Ek.
  rewrite (count_kept _ (Replans.replan_count (replan v))) in Er by (exact N1 || reflexivity). injection Er as <-.
  rewrite (count_kept _ (Continuation.continuation_count (continuation v))) in Ek by (exact N2 || reflexivity). injection Ek as <-.
  eexists n, (map fst (cycles v)), _, _. rewrite !K by compute_decide. rewrite length_map.
  split; [done|]. split; [cbn; by rewrite map_map|]. split; [reflexivity|]. split; [unfold cycle in *; lia|].
  split; [reflexivity|]. split; [unfold cycle in *; lia|]. split; [reflexivity|]. split; [reflexivity|]. split; [lia|]. by split.
Qed.
End success.

(** ** In the small world *)

(** A runner that completes the goal it is given. *)
Definition demo_completes (g : string) : list (string * val) * option nat :=
  ([("goal_id", VStr g); ("goal_lineage", VDict demo_lineage); ("ok", VBool true);
    ("runtime_result", VDict [("state", VStr "completed")]);
    ("adaptive_decision", VDict [("decision", VStr "complete"); ("reason", VStr "done")])], Some 0).

(** A runner that asks for a replan. *)
Definition demo_replans (g : string) : list (string * val) * option nat :=
  ([("goal_id", VStr g); ("ok", VBool false); ("runtime_result", VDict [("state", VStr "failed")]);
    ("adaptive_decision", VDict [("decision", VStr "replan"); ("reason", VStr "failed");
       ("replan_request", VDict [("request_id", VStr "r1"); ("reason", VStr "failed")])])], None).

Abbreviation demo_run script := (run_until_terminal demo_sha256 demo_float (demo_services script) (VInt 0) "g1" (VInt 3) (VInt 1)
  VNone None None VNone demo_before) (only parsing).
Definition demo_result (script : string -> list (string * val) * option nat) : list (string * val) :=
  match (demo_run script).1 with Ok d => d | Raise _ => [] end.

(** A runner that is not done and plans to continue. *)
Definition demo_continues (g : string) : list (string * val) * option nat :=
  ([("goal_id", VStr g); ("ok", VBool true); ("runtime_result", VDict [("state", VStr "running")]);
    ("adaptive_decision", VDict [("decision", VStr "continue"); ("reason", VStr "more");
       ("continuation_plan", VDict [("next_runtime_request", VDict [("goal_id", VStr g)])])])], None).

(** A loop that continues a goal stores the goal of the continuation and then
    raises: the runner refuses that goal under the lineage of the first one. *)
Example demo_continuation_raises :
  (demo_run demo_continues).1 = Raise (ValueError "engineering_runner_goal_lineage_branch_conflict")
  /\ map fst (dw_goals (demo_run demo_continues).2) = ["g1"; "g1__continuation_1"].
Proof. vm_compute. by split. Qed.

Lemma demo_steady script : steady (demo_services script) gate_reached.
Proof.
  constructor; intros; cbn [demo_services load_goal save_goal update_goal run_goal register_evidence goal_chain build_summary];
    unfold demo_put; try (by intros w Hw); intros w Hw; unfold_m; try done; by destruct (GoalRunner.bind_lineage _ _ _).
Qed.

Lemma demo_ran script : match (demo_run script).1 with Ok _ => true | Raise _ => false end = true ->
  demo_run script = (Ok (demo_result script), (demo_run script).2).
Proof. unfold demo_result. generalize (demo_run script). by intros [[d|e] w]. Qed.

Lemma demo_completed : demo_run demo_completes = (Ok (demo_result demo_completes), (demo_run demo_completes).2).
Proof. apply demo_ran. vm_compute. reflexivity. Qed.
Lemma demo_replanned : demo_run demo_replans = (Ok (demo_result demo_replans), (demo_run demo_replans).2).
Proof. apply demo_ran. vm_compute. reflexivity. Qed.

Lemma loop_success_attested_witness : exists w1, gate_reached w1 /\ goal_done w1 "g1".
Proof.
  destruct (loop_success_attested demo_sha256 demo_float (demo_services demo_completes) (VInt 0) "g1" (VInt 3) (VInt 1) VNone
    None None VNone demo_before (demo_result demo_completes) (demo_run demo_completes).2) as (w1 & g & H1 & H2 & H3 & _).
  - apply demo_steady.
  - exact demo_gate_reached.
  - exact demo_completed.
  - vm_compute. reflexivity.
  - assert (E : vget "current_goal_id" (demo_result demo_completes) = VStr "g1") by (vm_compute; reflexivity).
    rewrite E in H3. injection H3 as <-. exists w1. split; [exact H1|exact H2].
Defined.

Lemma loop_keeps_scope_witness : exists cs,
  vget "cycles" (demo_result demo_replans) = VList (map VDict cs) /\ cs <> []
  /\ vget "replan_count" (demo_result demo_replans) = VInt 1.
Proof.
  destruct (loop_keeps_scope demo_sha256 demo_float (demo_services demo_replans) (VInt 0) demo_sha256_no_space "g1" (VInt 3)
    (VInt 1) VNone None None VNone demo_before (demo_result demo_replans) (demo_run demo_replans).2)
    as (l0 & cs & p & w1 & _ & _ & H1 & H2 & _).
  - exact demo_replanned.
  - exists cs. split; [exact H1|]. split; [exact H2|]. vm_compute. reflexivity.
Defined.

Lemma loop_bounded_witness : exists r, vget "replan_count" (demo_result demo_replans) = VInt r /\ (0 <= r <= 1)%Z.
Proof.
  destruct (loop_bounded demo_sha256 demo_float (demo_services demo_replans) (VInt 0) demo_sha256_no_space "g1" (VInt 3)
    (VInt 1) VNone None None VNone demo_before (demo_result demo_replans) (demo_run demo_replans).2)
    as (n & cs & r & k & Hn & _ & _ & _ & H1 & H2 & _).
  - exact demo_replanned.
  - exists r. split; [exact H1|]. injection Hn as <-. exact H2.
Defined.
