(* ===== verification/CompletedLoop.v ===== *)
(** * A goal that is completed in its first cycle

    The liveness of the engineering goal loop: services that answer, a runner
    that returns a completed result with the attestation of the goal and a
    reporter with no blocking issue make a loop that ends, after one cycle, with
    a successful result.  No step on the way raises: the cycle goes through the
    coordinators, the dispatcher, the hand-over and the persistence gateway. *)

From stdpp Require Import pretty.
From S2P Require Import Prelude PyVal Lineage Completion Engineering Issues Adaptive Runtimes Progression LoopServices LoopCoordinators GoalLoop.

Section completing.
Context {W : Type} `{Gate : AttestationGate W}.
Context (sha256_hex : string -> string) (py_float : val -> res val) (sv : services W) (zero : val).
Context (hex_no_space : forall b, no_space (sha256_hex b) = true).
Context (J : W -> Prop) (target : string) (l0 result : list (string * val)) (a : nat).

Definition adaptive_of : list (string * val) :=
  mapping (vget "adaptive_decision" (RuntimeContract.build_engineering_runtime_contract_from_result (VDict result))).

(** Services that answer in the worlds of [J], a runner that returns [result]
    with the attestation [a] for the goal, and an authority that accepts it. *)
Record completing : Prop := {
  cp_load : yields J (load_goal sv target)
    (fun v => exists d, v = VDict d /\ extract_goal_lineage sha256_hex (VDict d) true true = Ok l0);
  cp_goal : vget "goal_id" l0 = VStr target;
  cp_run : yields J (run_goal sv target l0) (fun r => r = (VDict result, Some a));
  cp_update : forall g d, yields J (update_goal sv g d) (fun _ => True);
  cp_register : forall d, yields J (register_evidence sv d) (fun _ => True);
  cp_chain : forall g s l r, preserves J (goal_chain sv g s l r);
  cp_report : yields J (build_summary sv) (fun rep => exists issues,
    IssueSummary._as_issue_list (vget "issues" rep) = Ok issues
    /\ Forall (fun i => _issue_blocks_current_task i = false) issues
    /\ IssueSummary._as_issue_list (vget "blocking_issues" rep) = Ok []
    /\ truthy (vget_or "success_allowed" (VBool true) rep) = true);
  cp_clock : forall w, J w -> float_laws py_float (clock sv w);
  cp_accepts : forall w, J w -> gate_accepts w (Some a) target = true;
  cp_names : check_returned sha256_hex l0 (VDict result) = Ok tt;
  cp_decision : text (vget "decision" adaptive_of) = "complete";
  cp_plan : mapping (vget "next_runtime_request" (mapping (vget "continuation_plan" adaptive_of))) = [];
  cp_evidence : mapping (vget "evidence_chain" adaptive_of) = [] }.
Context (C : completing).

Lemma l0_canonical : canonical_lineage l0 -> clean target.
Proof.
  intros (root&src&goal&lid&bt&bid&sid&rsid&Hc&E). pose proof (cp_goal C) as G. rewrite E in G. injection G as <-.
  rewrite !Forall_cons in Hc. by destruct Hc as (_ & _ & ? & _).
Qed.

Lemma text_clean_str s : clean s -> text (VStr s) = s.
Proof. intros [H _]. by rewrite text_strip. Qed.

(** The first cycle, before the coordinators. *)
Definition fresh_cycle (c : cycle) : Prop :=
  bears l0 c.1 /\ c.2 = Some a
  /\ exists w, J w /\ forall key, key ∉ LINEAGE_KEYS -> key <> "goal_completion_authority_result" ->
       vget key c.1 = vget key (cycle_dict zero target 0 (VDict result) (clock sv w)).

Lemma cycle_yields : canonical_lineage l0 -> yields J (run_one_cycle sha256_hex sv zero target 0 (VDict l0)) fresh_cycle.
Proof.
  intros Hl. unfold run_one_cycle. rewrite text_clean_str by by apply l0_canonical.
  replace (truthy (VDict l0)) with true by (destruct Hl as (root&src&g&lid&bt&bid&sid&rsid&_&->); reflexivity).
  cbv iota. eapply yields_bind; [apply (yields_lift _ _ l0 (fun l => l = l0)); [by apply canonical_extract|done]|].
  intros l ->. eapply yields_bind; [exact (cp_run C)|]. intros ran ->. cbn [fst snd].
  eapply yields_bind.
  { by apply (yields_lift _ _ tt (fun _ => True)); [apply (cp_names C)|]. }
  intros _ _. cbv zeta. change (mapping (vget "adaptive_decision" _)) with adaptive_of.
  intros w Hw. cbv beta. unfold read_clock. cbn -[text cycle_dict put_attestation adaptive_of attach_goal_lineage]. unfold_m.
  destruct (attach_goal_lineage sha256_hex (cycle_dict zero target 0 (VDict result) (clock sv w)) (VDict l0)) as [c|] eqn:Ea.
  2: { unfold attach_goal_lineage in Ea. rewrite (canonical_extract sha256_hex) in Ea by done. done. }
  destruct (attach_bears _ hex_no_space _ _ _ Hl Ea) as [Hb K]. rewrite (cp_decision C).
  change ("complete" =? "blocked")%string with false. cbv iota. eexists _, w. split; [reflexivity|]. split; [done|].
  unfold put_attestation. split; [by apply bears_dset|]. split; [done|]. exists w. split; [done|].
  intros key H1 H2. cbn [fst]. rewrite vget_dset_ne by congruence. by apply K.
Qed.

Lemma fresh_observable c w : fresh_cycle c -> J w -> observable py_float (clock sv w) c.1.
Proof.
  intros (_ & _ & w0 & Hw0 & K) Hw. destruct (cp_clock C w Hw) as [Hn Hf], (cp_clock C w0 Hw0) as [Hn0 _].
  assert (K' : forall key, bool_decide (key ∉ "goal_completion_authority_result" :: LINEAGE_KEYS) = true ->
    vget key c.1 = vget key (cycle_dict zero target 0 (VDict result) (clock sv w0))).
  { intros key Hk%bool_decide_eq_true. rewrite not_elem_of_cons in Hk. destruct Hk. by apply K. }
  unfold observable, Observation.from_cycle, int_field. cbv zeta.
  rewrite (K' "cycle_index"), (K' "evidence_chain"), (K' "engineering_runtime_contract"), (K' "adaptive_decision_record"),
    (K' "updated_at") by (vm_compute; reflexivity). clear K K'.
  set (d := cycle_dict _ _ _ _ _). change (vget "cycle_index" d) with (VInt 0). change (vget "evidence_chain" d) with VNone.
  change (vget "updated_at" d) with (clock sv w0).
  assert (E : mapping (py_or (vget "adaptive_decision" (mapping (vget "engineering_runtime_contract" d)))
    (vget "adaptive_decision_record" d)) = adaptive_of).
  { change (vget "adaptive_decision_record" d) with (VDict adaptive_of). unfold adaptive_of.
    change (mapping (vget "engineering_runtime_contract" d))
      with (RuntimeContract.build_engineering_runtime_contract_from_result (VDict result)).
    unfold py_or. by destruct (vget "adaptive_decision" _) as [|[]|[]|[]|[]|[]]. }
  rewrite E. clear E. clearbody d. pose proof (cp_evidence C) as Hev. change (py_or VNone ?x) with x.
  set (ch := py_or (vget "evidence_chain" adaptive_of) (VList [])).
  assert (Hc : mapping ch = []) by (unfold ch, py_or; by destruct (truthy (vget "evidence_chain" adaptive_of))).
  rewrite Hc. change (py_or (VInt 0) (VInt 0)) with (VInt 0).
  assert (Ht : py_float (py_or (clock sv w0) (clock sv w)) = Ok (py_or (clock sv w0) (clock sv w)))
    by (unfold py_or; by destruct (truthy (clock sv w0))).
  change (vget ?k ([] : list (string * val))) with VNone. change (py_or VNone ?x) with x.
  change (py_int (VInt ?x)) with (Ok x : res Z). unfold_m. rewrite Ht.
  unfold Observation.make. unfold_m. 
  assert (Ht2 : exists x, py_float (py_or (py_or (clock sv w0) (clock sv w)) (clock sv w)) = Ok x).
  { unfold py_or at 1. destruct (truthy _); eauto. }
  destruct Ht2 as [x ->]. by eexists.
Qed.

Lemma bears_goal c : canonical_lineage l0 -> bears l0 c -> text (vget "goal_id" c) = target.
Proof.
  intros Hl [[_ Hf] _]. rewrite Hf, (cp_goal C) by compute_decide. by apply text_clean_str, l0_canonical.
Qed.

Lemma persist_yields c n i :
  canonical_lineage l0 -> bears l0 c -> vget "cycle_index" c = VInt i -> vget "continuation_work_item" c = VDict [] ->
  vget "replan_record" c = VDict [] ->
  yields J (AdaptivePersistenceGateway.persist_cycle sha256_hex sv c n) (fun _ => True).
Proof.
  intros Hl Hb Hi Hw Hr. unfold AdaptivePersistenceGateway.persist_cycle. cbv zeta.
  pose proof (noted_keeps c n) as K. set (c0 := AdaptivePersistenceGateway.noted c n) in *.
  set (record := AdaptivePersistenceGateway.build_adaptive_planning_record c n). clearbody record.
  assert (Hb0 : bears l0 c0).
  { apply (bears_keys _ c); [|done]. intros k Hk. apply K. revert k Hk. apply Forall_forall. compute_decide. }
  assert (Hw0 : vget "continuation_work_item" c0 = VDict [] /\ vget "replan_record" c0 = VDict []).
  { unfold c0, AdaptivePersistenceGateway.noted, dupdate. cbn [fold_left fst snd]. by autorewrite with pydict. }
  assert (Hi0 : vget "cycle_index" c0 = VInt i) by by rewrite K by compute_decide.
  pose proof (bears_goal c0 Hl Hb0) as Hg. clearbody c0. clear K Hb Hi Hw Hr.
  eapply yields_bind; [by apply (yields_lift _ _ l0 (fun _ => True)); [apply bears_strict|]|]. intros lin _.
  eapply yields_bind with (P := fun _ => True).
  { unfold AdaptivePersistenceGateway.persist_goal_adaptive_metadata. rewrite Hg. cbv zeta.
    eapply yields_bind; [exact (cp_load C)|]. intros v (d & -> & Hd).
    eapply yields_bind; [by apply (yields_lift _ _ l0 (fun l => l = l0))|]. intros ? ->.
    eapply yields_bind; [apply (yields_lift _ _ l0 (fun l => l = l0)); [by apply bears_strict|done]|]. intros ? ->.
    eapply yields_bind; [apply (yields_lift _ _ true (fun b => b = true)); [by apply scope_matches_same|done]|]. intros ? ->.
    cbn [negb]. eapply yields_bind; [by apply (yields_lift _ _ l0 (fun _ => True)); [apply bears_strict|]|]. intros l _.
    apply (cp_update C). }
  intros _ _. eapply yields_bind with (P := fun _ => True).
  { unfold AdaptivePersistenceGateway.register_decision_evidence.
    eapply yields_bind; [by apply (yields_lift _ _ l0 (fun _ => True)); [apply bears_strict|]|]. intros l _.
    eapply yields_bind with (P := fun _ => True); [intros w Hw; by eexists _, w|]. intros now _.
    eapply yields_bind with (P := fun _ => True); [|intros ev _; apply (cp_register C)].
    unfold DecisionEvidence.build_decision_evidence. cbv zeta. rewrite (int_field_0 _ i) by done.
    rewrite (bears_strict sha256_hex _ _ _ _ Hb0). unfold_m. by eapply yields_lift. }
  intros ev _. eapply yields_bind with (P := fun _ => True).
  { unfold AdaptivePersistenceGateway.evidence_chain_summary. apply yields_catch; [|intros e; by apply yields_ret|done].
    apply preserves_bind; [apply preserves_lift|]. intros. apply (cp_chain C). }
  intros chain _. set (c1 := dset "evidence_chain" _ _).
  assert (H1 : vget "goal_id" c1 = vget "goal_id" c0 /\ vget "continuation_work_item" c1 = VDict []
    /\ vget "replan_record" c1 = VDict []) by (unfold c1; by autorewrite with pydict).
  clearbody c1. destruct H1 as (G1 & G2 & G3).
  eapply yields_bind with (P := fun _ => True); [|intros ? _; by apply yields_ret].
  unfold AdaptivePersistenceGateway.link_decision_evidence. cbv zeta. rewrite G1, Hg.
  destruct (_ =? "")%string; [by apply yields_ret|].
  eapply yields_bind; [exact (cp_load C)|]. intros v (d & -> & _).
  replace (py_or (VDict d) (VDict [])) with (VDict d) by (by destruct d).
  eapply yields_bind; [apply (cp_update C)|]. intros _ _. unfold AdaptivePersistenceGateway.link_continuation. rewrite G2.
  change (text (vget "goal_id" (mapping (VDict [])))) with "". change ("" =? "")%string with true. cbv iota zeta.
  eapply yields_bind; [by apply (yields_ret _ c1 (fun _ => True))|]. intros c2 _. by apply yields_ret.
Qed.

(** The decision of the coordinators on a completed cycle. *)
Lemma complete_is_terminal w c att rt tl ts tp r dec c' rt' :
  vget "adaptive_decision" c = VStr "complete" ->
  progressed py_float (clock sv w) w c att rt tl ts tp r dec c' rt' ->
  GoalLoopCoordinator.action dec = "terminal".
Proof.
  intros Hd P. pose proof (pg_evaluated _ _ _ _ _ _ _ _ _ _ _ _ _ P) as E.
  pose proof (replan_within_budget w c (VInt (SessionRuntime.replan_count rt)) (VInt (SessionRuntime.continuation_count rt))
    (VInt (SessionRuntime.max_replans rt)) (VInt (SessionRuntime.max_continuations rt))
    (VStr (str_or_empty (vget "goal_id" c))) att) as (r' & E' & Hc & Hr & _).
  rewrite E in E'. injection E' as <-.
  assert (D : Replan.normalize_engineering_adaptive_decision (VStr (Replan.original_decision c)) = "complete")
    by (unfold Replan.original_decision; rewrite Hd; vm_compute; reflexivity).
  rewrite D in Hc, Hr.
  assert (Hc' : Replan.r_continuation r = false) by (apply not_true_iff_false; intros X%Hc; by destruct X).
  assert (Hr' : Replan.r_replan r = false) by (apply not_true_iff_false; intros X%Hr; by destruct X).
  pose proof (pg_decided _ _ _ _ _ _ _ _ _ _ _ _ _ P) as Hdec. unfold GoalLoopCoordinator.classify_state in Hdec.
  change (vget "creates_replan_record" _) with (VBool (Replan.r_replan r)) in Hdec.
  change (vget "creates_continuation" _) with (VBool (Replan.r_continuation r)) in Hdec.
  rewrite Hc', Hr' in Hdec. cbn [truthy] in Hdec. cbv zeta in Hdec. unfold_m. bind_ok Hdec. by injection Hdec as <-.
Qed.

Lemma replace_current rt (changes : list (string * val)) rt' g :
  SessionRuntime.new (dupdate (SessionRuntime.fields rt) changes) = Ok rt' ->
  vget "current_goal_id" (dupdate SessionRuntime.defaults (dupdate (SessionRuntime.fields rt) changes)) = VStr g ->
  clean g -> SessionRuntime.current_goal_id rt' = g.
Proof.
  intros H Hg Hc. unfold SessionRuntime.new in H. unfold_m. bind_ok H. bind_ok H. injection H as <-.
  cbn [SessionRuntime.current_goal_id]. unfold call_fields in E. destruct (negb _); [done|]. destruct (negb _); [done|].
  injection E as <-. rewrite Hg. by apply text_or_word.
Qed.

(** What the first round leaves. *)
Record completed_round (k : Continuation.ContinuationRuntime) (p : Replans.ReplanRuntime) (r : bool * loop_vars) : Prop := {
  cr_break : r.1 = true;
  cr_terminal : terminal r.2 = true;
  cr_stop : stop_reason r.2 = "complete";
  cr_continuation : continuation r.2 = k;
  cr_replan : replan r.2 = p;
  cr_session : SessionRuntime.current_goal_id (session r.2) = target;
  cr_cycle : exists c, cycles r.2 = [c] /\ c.2 = Some a /\ vget "adaptive_decision_record" c.1 = VDict adaptive_of
    /\ vget "replan_count" c.1 = VInt (Replans.replan_count p)
    /\ vget "continuation_count" c.1 = VInt (Continuation.continuation_count k) }.

(** The runtime before the coordinators. *)
Lemma mirrored k p rt :
  continuation_ok k -> replan_ok p -> progress_ok py_float rt ->
  exists rt1, SessionRuntime.replace
      (books_of p k ++ [("current_goal_id", VStr (SessionRuntime.current_goal_id rt))]) rt = Ok rt1
    /\ progress_ok py_float rt1 /\ SessionRuntime.current_goal_id rt1 = SessionRuntime.current_goal_id rt.
Proof.
  intros (Hk & _) (Hp & _) [Ho Hs Hg Hr]. pose proof Ho as [Ht Hcur Hl Hnn Hst Hrf Hss Hps].
  eexists. split.
  { etransitivity; [|apply (new_fields rt (SessionRuntime.current_goal_id rt) (Replans.replan_count p)
      (Continuation.continuation_count k) (SessionRuntime.terminal rt) (SessionRuntime.stop_reason rt)
      (SessionRuntime.refusal_reason rt) (SessionRuntime.session_from_state rt) (SessionRuntime.program_from_state rt)
      (SessionRuntime.previous_observation rt) (SessionRuntime.cycles rt)); done]. reflexivity. }
  split; [|done]. constructor; [|done..]. rewrite !Forall_cons in Hnn. destruct_and! Hnn.
  constructor; cbn; try done. by repeat apply Forall_cons_2.
Qed.

Lemma dispatch_complete dec c w k p :
  GoalLoopCoordinator.action dec = "terminal" -> c.2 = Some a -> J w ->
  exists d, GoalLoopDispatcher.dispatch sha256_hex sv zero
      (VDict (mapping (VDict (GoalLoopCoordinator.to_dict dec)))) c target 0 k p w = (Ok d, w)
    /\ GoalLoopDispatcher.terminal d = true /\ GoalLoopDispatcher.current_goal_id d = target
    /\ GoalLoopDispatcher.continuation_runtime d = Some k /\ GoalLoopDispatcher.replan_runtime d = Some p
    /\ (GoalLoopDispatcher.updated d).2 = Some a
    /\ forall key, key <> "goal_loop_dispatcher" -> vget key (GoalLoopDispatcher.updated d).1 = vget key c.1.
Proof.
  intros Ha Hc Hw. unfold GoalLoopDispatcher.dispatch. cbn [mapping]. cbv zeta.
  change (vget "action" (GoalLoopCoordinator.to_dict dec)) with (VStr (GoalLoopCoordinator.action dec)). rewrite Ha.
  change (text_or (VStr "terminal") "terminal") with "terminal". change ("terminal" =? "create_replan_record")%string with false.
  change ("terminal" =? "create_continuation")%string with false. cbv iota. unfold_m.
  unfold GoalLoopDispatcher._completion_authority_accepted. rewrite Hc, (cp_accepts C) by done. cbn [negb].
  rewrite andb_false_r. eexists. split; [reflexivity|]. split_and!; try done.
  intros key Hk. cbn [GoalLoopDispatcher.updated put fst]. by rewrite vget_dset_ne by congruence.
Qed.

Lemma hand_over_complete c lim k w :
  c.2 = Some a -> vget "continuation_plan" c.1 = VDict (mapping (vget "continuation_plan" adaptive_of)) ->
  vget "post_completion_continuation" c.1 = VNone ->
  hand_over sha256_hex sv zero true c target 0 lim k w
  = (Ok (put "stop_reason" (VStr "complete") (put "terminal" (VBool true) c), k, ""), w).
Proof.
  intros Ha Hp Hn. unfold hand_over, _create_post_completion_continuation. cbv zeta. rewrite Hp. cbn [mapping].
  rewrite (cp_plan C). cbv iota. unfold_m. cbn [fst snd]. rewrite Hn. reflexivity.
Qed.

Lemma replace_runs rt changes :
  (exists cs, vget "cycles" (dupdate SessionRuntime.defaults (dupdate (SessionRuntime.fields rt) changes)) = VList cs) ->
  call_fields ["target_goal_id"] SessionRuntime.defaults (dupdate (SessionRuntime.fields rt) changes)
    = Ok (dupdate SessionRuntime.defaults (dupdate (SessionRuntime.fields rt) changes)) ->
  exists rt', SessionRuntime.new (dupdate (SessionRuntime.fields rt) changes) = Ok rt'.
Proof. intros [cs Hc] Hf. unfold SessionRuntime.new. rewrite Hf. unfold_m. rewrite Hc. by eexists. Qed.

(** The runtime after a round, and after the last one. *)
Lemma books_written rt g k p t st rf :
  clean g -> exists rt', SessionRuntime.replace
      ([("current_goal_id", VStr g)] ++ books_of p k
       ++ [("terminal", VBool t); ("stop_reason", VStr st); ("refusal_reason", VStr rf)]) rt = Ok rt'
    /\ SessionRuntime.current_goal_id rt' = g.
Proof.
  intros Hg. unfold SessionRuntime.replace. change (dmem "current_goal_id" _ && _) with false. cbv iota.
  destruct (replace_runs rt ([("current_goal_id", VStr g)] ++ books_of p k
       ++ [("terminal", VBool t); ("stop_reason", VStr st); ("refusal_reason", VStr rf)])) as [rt' E];
    [by eexists|reflexivity|]. exists rt'. split; [exact E|]. by eapply replace_current.
Qed.

Lemma end_written rt g st rf :
  clean g -> exists rt', SessionRuntime.replace
      [("terminal", VBool true); ("stop_reason", VStr st); ("refusal_reason", VStr rf); ("current_goal_id", VStr g)] rt = Ok rt'
    /\ SessionRuntime.current_goal_id rt' = g.
Proof.
  intros Hg. unfold SessionRuntime.replace. change (dmem "current_goal_id" _ && _) with true. cbv iota.
  set (ch := [("terminal", VBool true); ("stop_reason", VStr st); ("refusal_reason", VStr rf); ("current_goal_id", VStr g)]).
  destruct (SessionRuntime._continuation_count_from_goal_id _) as [z|].
  - set (ch' := dset "continuation_count" _ ch). destruct (replace_runs rt ch') as [rt' E]; [by eexists|reflexivity|].
    exists rt'. split; [exact E|]. by eapply replace_current.
  - destruct (replace_runs rt ch) as [rt' E]; [by eexists|reflexivity|]. exists rt'. split; [exact E|].
    by eapply replace_current.
Qed.

Lemma round_yields n rt k p :
  canonical_lineage l0 -> continuation_ok k -> replan_ok p -> progress_ok py_float rt ->
  SessionRuntime.current_goal_id rt = target ->
  yields J (one_round sha256_hex py_float sv zero n 0 (Vars l0 rt k p [] false "max_cycles_reached" ""))
    (completed_round k p).
Proof.
  intros Hl Hk Hp Hrt Hcur. pose proof (l0_canonical Hl) as Htc. unfold one_round. cbn [session lineage replan continuation cycles stop_reason].
  rewrite Hcur. eapply yields_bind; [by apply cycle_yields|]. intros c Hf.
  destruct (mirrored k p rt Hk Hp Hrt) as (rt1 & E1 & Hrt1 & Hcur1). rewrite Hcur in E1, Hcur1.
  eapply yields_bind; [by apply (yields_lift _ _ rt1 (fun r => r = rt1))|]. intros ? ->.
  eapply yields_bind; [apply yields_get|]. intros w Hw.
  destruct (progression_runs sha256_hex py_float (clock sv w) (stamp sv w) w c.1 c.2 rt1 0 (cp_clock C w Hw) Hrt1
    (fresh_observable c w Hf Hw)) as (tl & ts & tp & r & dec & c' & rt2 & E2 & P).
  eapply yields_bind; [by apply (yields_lift _ _ (c', rt2) (fun x => x = (c', rt2)))|]. intros ? ->. cbn [fst snd]. cbv zeta.
  destruct (pg_books _ _ _ _ _ _ _ _ _ _ _ _ _ P) as (_ & Hcur2 & _). rewrite Hcur2, Hcur1.
  destruct Hf as (Hb & Hatt & w0 & _ & K). pose proof (pg_kept _ _ _ _ _ _ _ _ _ _ _ _ _ P) as KP.
  assert (K2 : forall key, bool_decide (key ∉ "goal_completion_authority_result" :: LINEAGE_KEYS ++ PROGRESSION_KEYS) = true ->
    vget key c' = vget key (cycle_dict zero target 0 (VDict result) (clock sv w0))).
  { intros key Hk'%bool_decide_eq_true. rewrite not_elem_of_cons, not_elem_of_app in Hk'. destruct_and! Hk'.
    rewrite KP by done. by apply K. }
  assert (Hb' : bears l0 c') by (eapply progression_keeps; [exact E2|exact Hb]).
  assert (Hdec : GoalLoopCoordinator.action dec = "terminal").
  { eapply complete_is_terminal; [|exact P]. rewrite K by (first [compute_decide | by intros]).
    change (VStr (text (vget "decision" adaptive_of)) = VStr "complete"). by rewrite (cp_decision C). }
  rewrite (pg_decision _ _ _ _ _ _ _ _ _ _ _ _ _ P), Hatt. clear P E2 KP K Hb.
  eapply yields_bind with (P := fun d => GoalLoopDispatcher.terminal d = true /\ GoalLoopDispatcher.current_goal_id d = target
    /\ GoalLoopDispatcher.continuation_runtime d = Some k /\ GoalLoopDispatcher.replan_runtime d = Some p
    /\ (GoalLoopDispatcher.updated d).2 = Some a
    /\ forall key, key <> "goal_loop_dispatcher" -> vget key (GoalLoopDispatcher.updated d).1 = vget key c').
  { intros w1 Hw1. destruct (dispatch_complete dec (c', Some a) w1 k p Hdec eq_refl Hw1) as (d & E & Hd). by exists d, w1. }
  intros d (Dt & Dg & Dk & Dp & Da & DK). rewrite Dk, Dp. cbn [default from_option id].
  set (c2 := if non_empty _ then _ else _).
  assert (H2 : c2.2 = Some a /\ forall key, key ∉ ["goal_loop_dispatcher"; "decision_reason"; "adaptive_refusal_reason";
      "adaptive_planning_record"] -> vget key c2.1 = vget key c').
  { unfold c2. destruct (non_empty _); cbn [put fst snd _refuse_adaptive_continuation]; (split; [exact Da|]);
      intros key Hk'; rewrite !not_elem_of_cons in Hk'; destruct_and! Hk'; rewrite ?vget_dset_ne by congruence; by apply DK. }
  clearbody c2. destruct H2 as [A2 K3]. eapply yields_bind; [apply yields_get|]. intros w2 Hw2.
  rewrite A2, (cp_accepts C) by done.
  assert (G3 : forall key, bool_decide (key ∉ "goal_completion_authority_result" :: LINEAGE_KEYS ++ PROGRESSION_KEYS) = true ->
    bool_decide (key ∉ ["goal_loop_dispatcher"; "decision_reason"; "adaptive_refusal_reason"; "adaptive_planning_record"])
      = true -> vget key c2.1 = vget key (cycle_dict zero target 0 (VDict result) (clock sv w0))).
  { intros key H1 H2%bool_decide_eq_true. rewrite K3 by done. by apply K2. }
  eapply yields_bind with (P := fun h => h = (put "stop_reason" (VStr "complete") (put "terminal" (VBool true) c2), k, "")).
  { intros w3 Hw3. eexists _, w3. split; [apply hand_over_complete; [done|..]|done];
      rewrite G3 by (vm_compute; reflexivity); reflexivity. }
  intros ? ->. cbn [fst snd put non_empty]. change (non_empty "") with false. cbn [negb andb]. cbv iota.
  set (c3 := dset "stop_reason" _ _).
  assert (B3 : bears l0 c3).
  { unfold c3. repeat apply bears_dset; [reflexivity..|]. apply (bears_keys _ c'); [|done]. intros key Hk'. apply K3.
    revert key Hk'. apply Forall_forall. compute_decide. }
  assert (V3 : vget "cycle_index" c3 = VInt 0 /\ vget "continuation_work_item" c3 = VDict []
    /\ vget "replan_record" c3 = VDict [] /\ vget "adaptive_decision_record" c3 = VDict adaptive_of).
  { unfold c3. rewrite !vget_dset_ne by done. rewrite !G3 by (vm_compute; reflexivity). done. }
  clearbody c3. destruct V3 as (V1 & V2 & V3 & V4). clear G3 K2 K3.
  set (books := AdaptivePersistenceGateway.Counts _ _ _ _).
  eapply yields_bind with (P := fun c4 => vget "adaptive_decision_record" c4 = VDict adaptive_of
    /\ vget "replan_count" c4 = VInt (Replans.replan_count p)
    /\ vget "continuation_count" c4 = VInt (Continuation.continuation_count k)).
  { intros w3 Hw3. destruct (persist_yields c3 books 0 Hl B3 V1 V2 V3 w3 Hw3) as (c4 & w4 & E & Hw4 & _).
    exists c4, w4. split; [done|]. split; [done|]. destruct (persist_spec _ _ _ _ _ _ _ E) as (KK & N1 & N2 & _).
    by rewrite KK by compute_decide. }
  intros c4 (W1 & W2 & W3). cbv zeta. rewrite Dg, Dt. rewrite (text_or_word target target) by done.
  match goal with |- context [SessionRuntime.replace ([("current_goal_id", VStr target)] ++ books_of p k ++
      [("terminal", VBool ?t); ("stop_reason", VStr ?st); ("refusal_reason", VStr ?rf)]) rt2] =>
    destruct (books_written rt2 target k p t st rf Htc) as (rt3 & E3 & Hc3) end.
  eapply yields_bind; [by apply (yields_lift _ _ rt3 (fun r => r = rt3))|]. intros ? ->. cbn [orb].
  match goal with |- context [SessionRuntime.replace [("terminal", VBool true); ("stop_reason", VStr ?st);
      ("refusal_reason", VStr ?rf); ("current_goal_id", VStr target)] rt3] =>
    destruct (end_written rt3 target st rf Htc) as (rt4 & E4 & Hc4) end.
  eapply yields_bind; [by apply (yields_lift _ _ rt4 (fun r => r = rt4))|]. intros ? ->.
  apply yields_ret. constructor; cbn [fst snd terminal stop_reason continuation replan session cycles]; try done.
  by exists (c4, c2.2).
Qed.

Lemma round_of_loop m n rt k p :
  canonical_lineage l0 -> continuation_ok k -> replan_ok p -> progress_ok py_float rt ->
  SessionRuntime.current_goal_id rt = target ->
  yields J (rounds sha256_hex py_float sv zero n (S m) 0 (Vars l0 rt k p [] false "max_cycles_reached" ""))
    (fun v => completed_round k p (true, v)).
Proof.
  intros Hl Hk Hp Hrt Hcur. cbn [rounds]. eapply yields_bind; [by apply round_yields|]. intros [b v] Hr.
  assert (b = true) as -> by apply (cr_break _ _ _ Hr). by apply yields_ret.
Qed.

Lemma result_yields k p v n :
  completed_round k p (true, v) -> clean target ->
  yields J (GoalLoopTerminalCoordinator.build_result sha256_hex sv zero
      (GoalLoopTerminalCoordinator.LoopEnd target (SessionRuntime.current_goal_id (session v)) (terminal v)
         (stop_reason v) (refusal_reason v) (cycles v) (cycle_limit n) (replan_limit n) (continuation_limit n)
         (session v) (continuation v) (replan v)))
    (fun r => vget "ok" r = VBool true /\ vget "success_allowed" r = VBool true
      /\ vget "terminal" r = VBool true /\ vget "stop_reason" r = VStr "complete"
      /\ vget "current_goal_id" r = VStr target /\ vget "cycle_count" r = VInt 1
      /\ vget "adaptive_decision" r = VDict adaptive_of /\ vget "blocking_issues" r = VList []).
Proof.
  intros [_ Ht Hs Hk Hp Hc (c & Ec & Ea & Ed & N1 & N2)] Hg. cbn [snd] in *. rewrite Ht, Hs, Hk, Hp, Hc, Ec.
  unfold GoalLoopTerminalCoordinator.build_result. cbv zeta.
  change (GoalLoopTerminalCoordinator.latest_cycle _) with c.
  eapply yields_bind; [by apply (yields_lift _ _ (Replans.replan_count p) (fun _ => True)); [apply count_kept|]|]. intros r _.
  eapply yields_bind;
    [by apply (yields_lift _ _ (Continuation.continuation_count k) (fun _ => True)); [apply count_kept|]|]. intros q _.
  eapply yields_bind; [apply yields_get|]. intros w Hw.
  eapply yields_bind with (P := fun _ => True).
  { unfold GoalLoopTerminalCoordinator._evidence_summary, AdaptivePersistenceGateway.evidence_chain_summary.
    apply yields_catch; [|intros e; by apply yields_ret|done]. preserve.
    apply (cp_chain C). }
  intros ev _. eapply yields_bind with (P := fun _ => True); [intros w1 Hw1; by eexists _, w1|]. intros now _.
  eapply yields_bind; [exact (cp_report C)|]. intros rep (issues & Hi & Hq & Hb & Hal).
  set (e := GoalLoopTerminalCoordinator.LoopEnd _ _ _ _ _ _ _ _ _ _ _ _).
  assert (Hacc : GoalLoopTerminalCoordinator._completion_authority_accepted w e = true).
  { unfold GoalLoopTerminalCoordinator._completion_authority_accepted, GoalLoopTerminalCoordinator.goal_of_result.
    change (GoalLoopTerminalCoordinator.latest_cycle e) with c. rewrite Ea.
    change (GoalLoopTerminalCoordinator.current_goal_id e) with target. rewrite text_or_word by done.
    by apply (cp_accepts C). }
  rewrite Hacc. set (pay := GoalLoopTerminalCoordinator.payload _ _ _ _ _ _ _).
  destruct (summary_runs rep issues [] (VDict pay) Hi Hb)
    as (r1 & found & b & d & t & allowed & E & Hn & _ & _ & Ha & Hin & Hok & K & _).
  assert (b = []) as ->.
  { destruct b as [|i b]; [done|]. destruct (Hin i) as [?%elem_of_nil|[Hx Hy]]; [by left|done|].
    rewrite Forall_forall in Hq. rewrite Hq in Hy; done. }
  rewrite Hal in Ha. cbn in Ha. subst allowed.
  apply (yields_lift _ _ r1); [exact E|]. rewrite Hok by done.
  rewrite (K "terminal"), (K "stop_reason"), (K "current_goal_id"), (K "cycle_count"), (K "adaptive_decision")
    by compute_decide. cbn [mapping].
  assert (Hdec : GoalLoopTerminalCoordinator.latest_decision e = adaptive_of).
  { unfold GoalLoopTerminalCoordinator.latest_decision. change (GoalLoopTerminalCoordinator.latest_cycle e) with c.
    by rewrite Ed. }
  assert (Hcomp : GoalLoopTerminalCoordinator.adaptive_complete e = true)
    by (unfold GoalLoopTerminalCoordinator.adaptive_complete; rewrite Hdec, (cp_decision C); reflexivity).
  split_and!.
  - change (vget "ok" pay) with (VBool (true && true && GoalLoopTerminalCoordinator.adaptive_complete e && true)).
    by rewrite Hcomp.
  - unfold vget. by rewrite (nm_allowed _ _ _ _ _ _ Hn).
  - reflexivity.
  - change (vget "stop_reason" pay) with (VStr (if (true && true && GoalLoopTerminalCoordinator.adaptive_complete e)
      && negb true then "goal_completion_authority_required" else text_or (VStr "complete") "stop")).
    by rewrite andb_false_r.
  - change (vget "current_goal_id" pay) with (VStr (text_or (VStr target) (text (VStr target)))). by rewrite text_or_word.
  - reflexivity.
  - change (vget "adaptive_decision" pay) with (VDict (GoalLoopTerminalCoordinator.latest_decision e)). by rewrite Hdec.
  - unfold vget. by rewrite (nm_blocking _ _ _ _ _ _ Hn).
Qed.

(** C2. A completed goal succeeds.  If the services answer, the runner returns a
    completed result that plans nothing further, with an attestation of the goal
    the authority accepts, and no issue blocks, then a run under any limits that
    can be read returns: it raises nothing and ends after one cycle, terminal and
    complete, on the goal, with a successful result. *)
Theorem completed_goal_succeeds max_cycles max_replans max_continuations n w :
  J w -> clean target -> read_limits max_cycles max_replans max_continuations = Ok n ->
  exists result w',
    run_until_terminal sha256_hex py_float sv zero target max_cycles max_replans max_continuations None None VNone w
      = (Ok result, w') /\ J w'
    /\ vget "ok" result = VBool true /\ vget "success_allowed" result = VBool true
    /\ vget "terminal" result = VBool true /\ vget "stop_reason" result = VStr "complete"
    /\ vget "current_goal_id" result = VStr target /\ vget "cycle_count" result = VInt 1
    /\ vget "adaptive_decision" result = VDict adaptive_of /\ vget "blocking_issues" result = VList [].
Proof.
  intros Hw Hg Hn. destruct (limits_ok _ _ _ _ Hn) as (L1 & L2 & L3).
  enough (Y : yields J (run_until_terminal sha256_hex py_float sv zero target max_cycles max_replans max_continuations
    None None VNone) (fun result => vget "ok" result = VBool true /\ vget "success_allowed" result = VBool true
    /\ vget "terminal" result = VBool true /\ vget "stop_reason" result = VStr "complete"
    /\ vget "current_goal_id" result = VStr target /\ vget "cycle_count" result = VInt 1
    /\ vget "adaptive_decision" result = VDict adaptive_of /\ vget "blocking_issues" result = VList [])).
  { destruct (Y w Hw) as (r & w' & E & Hr). by exists r, w'. }
  unfold run_until_terminal. rewrite text_clean_str by done. cbv zeta.
  eapply yields_bind; [exact (cp_load C)|]. intros v (d & -> & Hd).
  assert (Hl : canonical_lineage l0) by by eapply extract_canonical.
  eapply yields_bind; [apply (yields_lift _ _ l0 (fun l => l = l0)); [|done]|].
  { unfold start_lineage. unfold_m. by rewrite Hd. }
  intros ? ->. eapply yields_bind; [by apply (yields_lift _ _ n (fun x => x = n))|]. intros ? ->.
  destruct (start_runtime_ok py_float target (VInt (cycle_limit n)) (VInt (replan_limit n)) (VInt (continuation_limit n)))
    as (rt & Ert & Hrt & _).
  assert (Hcur : SessionRuntime.current_goal_id rt = target).
  { unfold SessionProgressionCoordinator.start_runtime, SessionRuntime.start, SessionRuntime.new in Ert. unfold_m.
    injection Ert as <-. cbn [SessionRuntime.current_goal_id]. by apply text_or_word. }
  eapply yields_bind; [by apply (yields_lift _ _ rt (fun x => x = rt))|]. intros ? ->.
  destruct (continuation_starts sha256_hex hex_no_space target _ _ Hl L3) as (k & Ek & Hk & _).
  eapply yields_bind; [by apply (yields_lift _ _ k (fun x => x = k))|]. intros ? ->.
  destruct (replan_starts sha256_hex _ _ Hl L2) as (p & Ep & Hp & _).
  eapply yields_bind; [by apply (yields_lift _ _ p (fun x => x = p))|]. intros ? ->.
  destruct (Z.to_nat (cycle_limit n)) as [|m] eqn:Em; [lia|].
  eapply yields_bind; [by apply round_of_loop|]. intros v Hv. exact (result_yields k p v n Hv Hg).
Qed.
End completing.

(** ** In the small world *)

(** The authority has completed the goal, which is stored with its lineage. *)
Definition demo_kept (w : demo_world) : Prop :=
  dw_authority w = demo_state /\ exists d, vget "g1" (dw_goals w) = VDict d /\ bears demo_lineage d.

Lemma demo_bears : bears demo_lineage demo_goal.
Proof. split; [exact demo_goal_carries|]. vm_compute. reflexivity. Qed.

Lemma demo_update_kept script g d : yields demo_kept (update_goal (demo_services script) g d) (fun _ => True).
Proof.
  intros [au goals] (Ha & d0 & Hd & Hb). eexists tt, _.
  split; [cbn [demo_services update_goal]; unfold demo_put; unfold_m; reflexivity|]. split; [|done]. split; [done|].
  cbn [dw_goals]. destruct (String.eqb_spec g "g1") as [->|Hg].
  - rewrite vget_dset_eq. eexists. split; [done|]. apply bears_dset; [reflexivity|]. cbn [dw_goals] in Hd. by rewrite Hd.
  - rewrite vget_dset_ne by congruence. by exists d0.
Qed.

Lemma demo_run_kept script : yields demo_kept (run_goal (demo_services script) "g1" demo_lineage)
  (fun r => r = (VDict (script "g1").1, (script "g1").2)).
Proof.
  intros [au goals] (Ha & d & Hd & Hb). cbn [dw_goals] in Hd.
  assert (exists b, GoalRunner.bind_lineage demo_sha256 d (Some demo_lineage) = Ok b) as [b Eb].
  { unfold GoalRunner.bind_lineage. unfold_m. rewrite (bears_strict _ _ _ _ _ Hb).
    rewrite (canonical_extract demo_sha256) by apply Hb. rewrite (scope_matches_same _ _ _ (proj1 (proj1 Hb)) (proj1 (proj1 Hb))) by done.
    cbn [negb]. change (vget "goal_id" demo_lineage) with (VStr "g1"). cbn [py_eq]. change ("g1" =? "g1")%string with true.
    cbn [negb]. unfold attach_goal_lineage. rewrite (canonical_extract demo_sha256) by apply Hb. unfold_m. by eexists. }
  eexists _, _. split; [|split; [|reflexivity]].
  - cbn [demo_services run_goal]. unfold_m. cbn [dw_goals]. rewrite Hd. cbn [mapping]. by rewrite Eb.
  - split; [done|]. by exists d.
Qed.

Lemma demo_completing :
  completing demo_sha256 demo_float (demo_services demo_completes) demo_kept "g1" demo_lineage (demo_completes "g1").1 0.
Proof.
  constructor.
  - intros [au goals] (Ha & d & Hd & Hb). eexists _, _. split; [reflexivity|]. split; [by split; [|exists d]|].
    exists d. split; [done|]. by apply bears_strict.
  - reflexivity.
  - apply demo_run_kept.
  - apply demo_update_kept.
  - intros d w Hw. by eexists _, w.
  - intros g s l r w Hw. done.
  - intros w Hw. eexists _, w. split; [reflexivity|]. split; [done|]. exists []. by repeat split.
  - intros w _. exact demo_float_laws.
  - intros [au goals] [Ha _]. cbn in Ha. subst au. vm_compute. reflexivity.
  - reflexivity.
  - vm_compute. reflexivity.
  - vm_compute. reflexivity.
  - vm_compute. reflexivity.
Qed.

Lemma completed_goal_succeeds_witness :
  exists result w',
    demo_run demo_completes = (Ok result, w') /\ vget "ok" result = VBool true /\ vget "cycle_count" result = VInt 1.
Proof.
  destruct (completed_goal_succeeds demo_sha256 demo_float (demo_services demo_completes) (VInt 0) demo_sha256_no_space
    demo_kept "g1" demo_lineage (demo_completes "g1").1 0 demo_completing (VInt 3) (VInt 1) VNone (Limits 3 1 3) demo_before)
    as (result & w' & E & _ & Hok & _ & _ & _ & _ & Hc & _).
  - split; [reflexivity|]. exists demo_goal. split; [reflexivity|apply demo_bears].
  - by split.
  - reflexivity.
  - exists result, w'. split; [exact E|]. split; [exact Hok|exact Hc].
Defined.
