(* ===== verification/GoalRecords.v ===== *)
(** * The records of persistent goals

    [core/goals/persistent_goal.py] and [goal_progress.py]: goals, subgoals and
    progress, each with its constructor ([make], with [__post_init__]), its
    [from_mapping], which reads the clock when a time is missing, and its
    [to_dict].  What is written as a dict, stored as JSON and read back is the
    record itself up to the order of the keys in its free parts ([reload]).

    [py_float] is [float()], [in_unit] is [0.0 <= x <= 1.0] and [zero] is [0.0]:
    progress is stored and compared with these bounds, never computed with. *)

From S2P Require Import Prelude PyVal Sealing Lineage Goals.

(** [copy_evidence_refs] of a value. *)
Definition list_refs (v : val) : res (list val) :=
  match v with
  | VNone => Ok []
  | VList l => Ok l
  | _ => Raise (TypeError "evidence_refs must be a list or tuple")
  end.

Section clock.
Context {W : Type} (utc_now : M W string).

(** [value or utc_now()] *)
Definition stamp_or_now (v : val) : M W val :=
  if truthy v then mret v else s ← utc_now; mret (VStr s).
End clock.

(** ** Goals *)
Module PersistentGoal.

Record t : Type := Make {
  goal_id : string;
  title : string;
  description : string;
  status : string;
  created_at : string;
  updated_at : string;
  evidence_refs : list val }.

Definition make (goal title description status created updated refs : val) : res t :=
  g ← clean_required_text goal "goal_id";
  n ← clean_required_text title "title";
  st ← clean_status status;
  c ← clean_required_text created "created_at";
  u ← clean_required_text updated "updated_at";
  l ← list_refs refs;
  Ok (Make g n (text description) st c u l).

Definition from_mapping {W} (utc_now : M W string) (d : list (string * val)) : M W t :=
  created ← stamp_or_now utc_now (vget "created_at" d);
  updated ← stamp_or_now utc_now (py_or (vget "updated_at" d) (vget "created_at" d));
  mlift (make (vget "goal_id" d) (vget "title" d) (py_or (vget "description" d) (VStr ""))
    (py_or (vget "status" d) (VStr "pending")) created updated (py_or (vget "evidence_refs" d) (VList []))).

Definition to_dict (g : t) : list (string * val) :=
  [("schema", VStr GOAL_SCHEMA); ("record_type", VStr "goal"); ("goal_id", VStr (goal_id g));
   ("title", VStr (title g)); ("description", VStr (description g)); ("status", VStr (status g));
   ("created_at", VStr (created_at g)); ("updated_at", VStr (updated_at g));
   ("evidence_refs", VList (evidence_refs g))].
End PersistentGoal.

(** ** Subgoals *)
Module PersistentSubgoal.

Record t : Type := Make {
  subgoal_id : string;
  goal_id : string;
  title : string;
  status : string;
  order : Z;
  progress : val;
  blocked_reason : option string;
  resume_point : val;
  evidence_refs : list val;
  created_at : string;
  updated_at : string }.

Section subgoal.
Context (py_float : val -> res val) (in_unit : val -> bool) (zero : val).

(** A resume point that is an object is given as its dict. *)
Definition make (subgoal goal title status order progress blocked resume refs created updated : val) : res t :=
  p ← py_float progress;
  if negb (in_unit p) then Raise (ValueError "subgoal_progress_must_be_between_zero_and_one")
  else
    s ← clean_required_text subgoal "subgoal_id";
    g ← clean_required_text goal "goal_id";
    n ← clean_required_text title "title";
    st ← clean_status status;
    o ← py_int order;
    l ← list_refs refs;
    c ← clean_required_text created "created_at";
    u ← clean_required_text updated "updated_at";
    Ok (Make s g n st o p (clean_optional_text blocked) resume l c u).

Definition from_mapping {W} (utc_now : M W string) (d : list (string * val)) : M W t :=
  created ← stamp_or_now utc_now (vget "created_at" d);
  updated ← stamp_or_now utc_now (py_or (vget "updated_at" d) (vget "created_at" d));
  mlift (make (vget "subgoal_id" d) (vget "goal_id" d) (vget "title" d) (py_or (vget "status" d) (VStr "pending"))
    (py_or (vget "order" d) (VInt 0)) (py_or (vget "progress" d) zero) (vget "blocked_reason" d)
    (vget "resume_point" d) (py_or (vget "evidence_refs" d) (VList [])) created updated).
End subgoal.

Definition to_dict (s : t) : list (string * val) :=
  [("schema", VStr GOAL_SCHEMA); ("record_type", VStr "subgoal"); ("subgoal_id", VStr (subgoal_id s));
   ("goal_id", VStr (goal_id s)); ("title", VStr (title s)); ("status", VStr (status s)); ("order", VInt (order s));
   ("progress", progress s); ("blocked_reason", optional_val (blocked_reason s)); ("resume_point", resume_point s);
   ("evidence_refs", VList (evidence_refs s)); ("created_at", VStr (created_at s));
   ("updated_at", VStr (updated_at s))].
End PersistentSubgoal.

(** ** Progress *)
Module GoalProgress.

Record t : Type := Make {
  goal_id : string;
  completed_subgoals : list string;
  active_subgoal_id : option string;
  blocked_subgoals : list string;
  progress_ratio : val;
  resume_point : option GoalResumePoint;
  updated_at : string;
  evidence_refs : list val }.

(** The resume point that a caller gives. *)
Inductive resume_arg : Type :=
  | ResumeObject (r : GoalResumePoint)
  | ResumeValue (v : val).

Definition read_resume (a : resume_arg) : res (option GoalResumePoint) :=
  match a with
  | ResumeObject r => Ok (Some r)
  | ResumeValue VNone => Ok None
  | ResumeValue (VDict d) => r ← resume_from_mapping d; Ok (Some r)
  | ResumeValue _ => Raise (TypeError "resume_point must be GoalResumePoint, mapping, or None")
  end.

Section progress.
Context (py_float : val -> res val) (in_unit : val -> bool) (zero : val).

Definition make (goal completed active blocked ratio : val) (resume : resume_arg) (updated refs : val) : res t :=
  p ← py_float ratio;
  if negb (in_unit p) then Raise (ValueError "goal_progress_ratio_must_be_between_zero_and_one")
  else
    r ← read_resume resume;
    g ← clean_required_text goal "goal_id";
    cs ← copy_text_list completed "completed_subgoals";
    bs ← copy_text_list blocked "blocked_subgoals";
    u ← clean_required_text updated "updated_at";
    l ← list_refs refs;
    Ok (Make g cs (clean_optional_text active) bs p r u l).

Definition from_mapping {W} (utc_now : M W string) (d : list (string * val)) : M W t :=
  updated ← stamp_or_now utc_now (vget "updated_at" d);
  mlift (make (vget "goal_id" d) (py_or (vget "completed_subgoals" d) (VList [])) (vget "active_subgoal_id" d)
    (py_or (vget "blocked_subgoals" d) (VList [])) (py_or (vget "progress_ratio" d) zero)
    (ResumeValue (vget "resume_point" d)) updated (py_or (vget "evidence_refs" d) (VList []))).
End progress.

Definition to_dict (p : t) : list (string * val) :=
  [("schema", VStr GOAL_SCHEMA); ("record_type", VStr "progress"); ("goal_id", VStr (goal_id p));
   ("completed_subgoals", VList (map VStr (completed_subgoals p)));
   ("active_subgoal_id", optional_val (active_subgoal_id p));
   ("blocked_subgoals", VList (map VStr (blocked_subgoals p))); ("progress_ratio", progress_ratio p);
   ("resume_point", from_option (fun r => VDict (resume_to_dict r)) VNone (resume_point p));
   ("updated_at", VStr (updated_at p)); ("evidence_refs", VList (evidence_refs p))].
End GoalProgress.

(** ** Normal forms *)

Lemma required_clean v f s : clean_required_text v f = Ok s -> clean s.
Proof.
  unfold clean_required_text. destruct (String.eqb_spec (text v) ""); [done|]. intros [= <-]. split; [|done].
  apply strip_idemp.
Qed.

Lemma clean_required s f : clean s -> clean_required_text (VStr s) f = Ok s.
Proof. intros [H Hn]. unfold clean_required_text. rewrite text_strip, H. by apply String.eqb_neq in Hn as ->. Qed.

Lemma clean_truthy s : clean s -> truthy (VStr s) = true.
Proof. intros [_ Hn]. simpl. by apply String.eqb_neq in Hn as ->. Qed.

Lemma status_clean v s : clean_status v = Ok s -> s ∈ GoalStatus.
Proof. unfold clean_status. case_bool_decide; [|done]. by intros [= <-]. Qed.

(** A status is read back, and no two texts are the same status. *)
Lemma clean_status_known s : s ∈ GoalStatus -> clean_status (VStr s) = Ok s /\ clean s.
Proof.
  unfold GoalStatus. rewrite !elem_of_cons, elem_of_nil. intros H. repeat destruct H as [->|H]; try done;
    (split; [vm_compute; reflexivity|by split]).
Qed.

Definition optional_ok (o : option string) : Prop := clean_optional_text (optional_val o) = o.

Definition goal_ok (g : PersistentGoal.t) : Prop :=
  Forall clean [PersistentGoal.goal_id g; PersistentGoal.title g; PersistentGoal.created_at g; PersistentGoal.updated_at g]
  /\ strip (PersistentGoal.description g) = PersistentGoal.description g /\ PersistentGoal.status g ∈ GoalStatus.

Lemma make_goal_ok a b c d e f h g : PersistentGoal.make a b c d e f h = Ok g -> goal_ok g.
Proof.
  unfold PersistentGoal.make. unfold_m. intros H. do 6 bind_ok H. injection H as <-.
  split; [|split]; cbn [PersistentGoal.goal_id PersistentGoal.title PersistentGoal.created_at PersistentGoal.updated_at
    PersistentGoal.description PersistentGoal.status].
  - repeat apply Forall_cons_2; try constructor; by eapply required_clean.
  - apply strip_idemp.
  - by eapply status_clean.
Qed.

Definition reload_goal (g : PersistentGoal.t) : PersistentGoal.t :=
  PersistentGoal.Make (PersistentGoal.goal_id g) (PersistentGoal.title g) (PersistentGoal.description g)
    (PersistentGoal.status g) (PersistentGoal.created_at g) (PersistentGoal.updated_at g)
    (map vsort (PersistentGoal.evidence_refs g)).

Lemma clean_stamp {W} (now : M W string) s w : clean s -> stamp_or_now now (VStr s) w = (Ok (VStr s), w).
Proof. intros H. unfold stamp_or_now. by rewrite clean_truthy. Qed.

Lemma or_clean s v : clean s -> py_or (VStr s) v = VStr s.
Proof. intros H. unfold py_or. by rewrite clean_truthy. Qed.

Lemma or_text s : py_or (VStr s) (VStr "") = VStr s.
Proof. unfold py_or. destruct (truthy _) eqn:E; [done|]. simpl in E. by apply negb_false_iff, String.eqb_eq in E as ->. Qed.

Lemma or_list l : py_or (VList l) (VList []) = VList l.
Proof. by destruct l. Qed.

(** [d] has the values of [d0] under its keys. *)
Definition reads (d0 d : list (string * val)) : Prop := Forall (fun kv => vget kv.1 d = kv.2) d0.

(** What is written with sorted keys and read back. *)
Lemma reads_sorted d0 d : dict_ok d -> d0 = map (fun kv => (kv.1, vsort kv.2)) d -> reads d0 (sort_dict d).
Proof.
  intros Hd ->. apply Forall_map, Forall_forall. intros [k v] Hin. cbn [fst snd]. rewrite vget_sort_dict by done.
  unfold vget. by rewrite (elem_dget _ _ _ Hd Hin).
Qed.

Lemma reads_self d : dict_ok d -> reads d d.
Proof. intros Hd. apply Forall_forall. intros [k v] Hin. unfold vget. cbn [fst snd]. by rewrite (elem_dget _ _ _ Hd Hin). Qed.

(** Reading a goal from a dict that has the values of a goal's. *)
Lemma goal_read {W} (now : M W string) (g : PersistentGoal.t) d (w : W) :
  goal_ok g -> reads (PersistentGoal.to_dict g) d -> PersistentGoal.from_mapping now d w = (Ok g, w).
Proof.
  intros (Hc & Hd & Hs) G. rewrite !Forall_cons in Hc. destruct Hc as (H1 & H2 & H3 & H4 & _).
  unfold PersistentGoal.from_mapping, reads, PersistentGoal.to_dict in *. rewrite !Forall_cons in G.
  destruct G as (_ & _ & E1 & E2 & E3 & E4 & E5 & E6 & E7 & _).
  cbn [fst snd] in *. rewrite E1, E2, E3, E4, E5, E6, E7. destruct (clean_status_known _ Hs) as [S1 S2].
  rewrite (or_clean (PersistentGoal.updated_at g)), (or_clean (PersistentGoal.status g)), or_list, or_text by done.
  rewrite (M_bind_ok _ _ _ _ _ (clean_stamp now _ w H3)), (M_bind_ok _ _ _ _ _ (clean_stamp now _ w H4)).
  unfold mlift, PersistentGoal.make. unfold_m.
  rewrite !clean_required, S1 by done. cbn [list_refs]. rewrite text_strip, Hd. by destruct g.
Qed.

Lemma goal_reload {W} (now : M W string) g w :
  goal_ok g -> PersistentGoal.from_mapping now (sort_dict (PersistentGoal.to_dict g)) w = (Ok (reload_goal g), w).
Proof.
  intros H. apply goal_read; [exact H|]. apply reads_sorted; [|reflexivity].
  unfold dict_ok, dkeys. cbn [PersistentGoal.to_dict map fst fmap list_fmap]. compute_decide.
Qed.

(** *** Subgoals *)

Section floats.
Context (py_float : val -> res val) (in_unit : val -> bool) (zero : val).

(** [float()] of a float is itself; the only false one is zero. *)
Record unit_laws : Prop := {
  ul_again : forall v p, py_float v = Ok p -> py_float p = Ok p;
  ul_zero : forall v p, py_float v = Ok p -> truthy p = false -> p = zero;
  ul_scalar : forall v p, py_float v = Ok p -> scalar p = true }.
Context (Laws : unit_laws).

Definition float_ok (p : val) : Prop :=
  py_float p = Ok p /\ in_unit p = true /\ py_or p zero = p /\ vsort p = p.

Lemma made_float v p : py_float v = Ok p -> in_unit p = true -> float_ok p.
Proof.
  intros H Hu. split; [by eapply ul_again|]. split; [done|]. split.
  - unfold py_or. destruct (truthy p) eqn:E; [done|]. symmetry. by eapply ul_zero.
  - apply vsort_scalar; [by eapply ul_scalar|]. assert (Hs : scalar p = true) by (by eapply ul_scalar). by destruct p.
Qed.

Definition subgoal_ok (s : PersistentSubgoal.t) : Prop :=
  Forall clean [PersistentSubgoal.subgoal_id s; PersistentSubgoal.goal_id s; PersistentSubgoal.title s;
    PersistentSubgoal.created_at s; PersistentSubgoal.updated_at s]
  /\ PersistentSubgoal.status s ∈ GoalStatus /\ float_ok (PersistentSubgoal.progress s)
  /\ optional_ok (PersistentSubgoal.blocked_reason s).

Lemma make_subgoal_ok a b c d e f h i j k l s :
  PersistentSubgoal.make py_float in_unit a b c d e f h i j k l = Ok s -> subgoal_ok s.
Proof.
  unfold PersistentSubgoal.make. unfold_m. intros H. bind_ok H. destruct (negb (in_unit _)) eqn:Eu; [done|].
  apply negb_false_iff in Eu. do 8 bind_ok H. injection H as <-.
  split; [|split; [|split]]; cbn [PersistentSubgoal.subgoal_id PersistentSubgoal.goal_id PersistentSubgoal.title
    PersistentSubgoal.created_at PersistentSubgoal.updated_at PersistentSubgoal.status PersistentSubgoal.progress
    PersistentSubgoal.blocked_reason].
  - repeat apply Forall_cons_2; try constructor; by eapply required_clean.
  - by eapply status_clean.
  - by eapply made_float.
  - apply clean_optional_idem.
Qed.

Definition reload_subgoal (s : PersistentSubgoal.t) : PersistentSubgoal.t :=
  PersistentSubgoal.Make (PersistentSubgoal.subgoal_id s) (PersistentSubgoal.goal_id s) (PersistentSubgoal.title s)
    (PersistentSubgoal.status s) (PersistentSubgoal.order s) (PersistentSubgoal.progress s)
    (PersistentSubgoal.blocked_reason s) (vsort (PersistentSubgoal.resume_point s))
    (map vsort (PersistentSubgoal.evidence_refs s)) (PersistentSubgoal.created_at s) (PersistentSubgoal.updated_at s).

Lemma subgoal_read {W} (now : M W string) (s : PersistentSubgoal.t) d (w : W) :
  subgoal_ok s -> reads (PersistentSubgoal.to_dict s) d ->
  PersistentSubgoal.from_mapping py_float in_unit zero now d w = (Ok s, w).
Proof.
  intros (Hc & Hs & (F1 & F2 & F3 & _) & Ho) G. rewrite !Forall_cons in Hc. destruct Hc as (H1 & H2 & H3 & H4 & H5 & _).
  unfold PersistentSubgoal.from_mapping, reads, PersistentSubgoal.to_dict in *. rewrite !Forall_cons in G.
  destruct G as (_ & _ & E1 & E2 & E3 & E4 & E5 & E6 & E7 & E8 & E9 & E10 & E11 & _).
  cbn [fst snd] in *. rewrite E1, E2, E3, E4, E5, E6, E7, E8, E9, E10, E11.
  destruct (clean_status_known _ Hs) as [S1 S2].
  rewrite (or_clean (PersistentSubgoal.updated_at s)), (or_clean (PersistentSubgoal.status s)), or_list, F3 by done.
  rewrite (M_bind_ok _ _ _ _ _ (clean_stamp now _ w H4)), (M_bind_ok _ _ _ _ _ (clean_stamp now _ w H5)).
  unfold mlift, PersistentSubgoal.make. unfold_m. rewrite F1, F2. cbn [negb].
  rewrite !clean_required, S1 by done. unfold optional_ok in Ho. rewrite Ho.
  replace (py_int (py_or (VInt (PersistentSubgoal.order s)) (VInt 0))) with (Ok (PersistentSubgoal.order s))
    by (unfold py_or; cbn [truthy]; destruct (Z.eqb_spec (PersistentSubgoal.order s) 0) as [->|]; reflexivity).
  cbn [list_refs]. by destruct s.
Qed.

Lemma vsort_optional o : vsort (optional_val o) = optional_val o.
Proof. by destruct o. Qed.

Lemma subgoal_reload {W} (now : M W string) s w :
  subgoal_ok s ->
  PersistentSubgoal.from_mapping py_float in_unit zero now (sort_dict (PersistentSubgoal.to_dict s)) w
  = (Ok (reload_subgoal s), w).
Proof.
  intros H. apply subgoal_read; [exact H|]. apply reads_sorted.
  - unfold dict_ok, dkeys. cbn [PersistentSubgoal.to_dict map fst fmap list_fmap]. compute_decide.
  - destruct H as (_ & _ & (_ & _ & _ & E) & _). unfold PersistentSubgoal.to_dict. cbn [map fst snd].
    by rewrite E, vsort_optional.
Qed.

(** *** Progress *)

Definition resume_ok (r : GoalResumePoint) : Prop :=
  clean (rp_goal r) /\ Forall optional_ok [rp_subgoal r; rp_task r; rp_step r; rp_reason r].

Definition reload_resume (r : GoalResumePoint) : GoalResumePoint :=
  ResumePoint (rp_goal r) (rp_subgoal r) (rp_task r) (rp_step r) (rp_reason r) (map vsort (rp_refs r)).

Lemma made_resume_ok d r : resume_from_mapping d = Ok r -> resume_ok r.
Proof.
  unfold resume_from_mapping, make_resume_point. unfold_m. intros H. bind_ok H. bind_ok H. injection H as <-.
  split; [by eapply required_clean|]. repeat apply Forall_cons_2; try constructor; apply clean_optional_idem.
Qed.

Lemma resume_read r d : resume_ok r -> reads (resume_to_dict r) d -> resume_from_mapping d = Ok r.
Proof.
  intros [Hc Ho] G. rewrite !Forall_cons in Ho. destruct Ho as (O1 & O2 & O3 & O4 & _).
  unfold reads, resume_to_dict in G. rewrite !Forall_cons in G. destruct G as (_ & _ & E1 & E2 & E3 & E4 & E5 & E6 & _).
  cbn [fst snd] in *. unfold resume_from_mapping, make_resume_point. rewrite E1, E2, E3, E4, E5, E6, or_list. unfold_m.
  rewrite clean_required by done. unfold optional_ok in *. rewrite O1, O2, O3, O4. by destruct r.
Qed.

Lemma resume_dict_ok r : dict_ok (resume_to_dict r).
Proof. unfold dict_ok, dkeys. cbn [resume_to_dict map fst fmap list_fmap]. compute_decide. Qed.

Lemma resume_reload r : resume_ok r -> resume_from_mapping (sort_dict (resume_to_dict r)) = Ok (reload_resume r).
Proof.
  intros H. apply resume_read; [exact H|]. apply reads_sorted; [apply resume_dict_ok|].
  unfold resume_to_dict. cbn [map fst snd]. by rewrite !vsort_optional.
Qed.

Lemma collect_clean items f : forall acc l,
  Forall clean acc -> NoDup acc -> collect_texts items f acc = Ok l -> Forall clean l /\ NoDup l.
Proof.
  induction items as [|x items IH]; intros acc l Ha Hn H; simpl in H; [by injection H as <-|].
  unfold_m. bind_ok H. apply required_clean in E. case_bool_decide.
  - by eapply IH.
  - eapply IH; [| |exact H]; [by apply Forall_app_2; [|apply Forall_singleton]|].
    apply NoDup_app. split; [done|]. split; [|apply NoDup_singleton]. by intros y Hy ->%list_elem_of_singleton.
Qed.

Lemma text_list_clean v f l : copy_text_list v f = Ok l -> Forall clean l /\ NoDup l.
Proof.
  unfold copy_text_list. destruct v; try done; [intros [= <-]; split; constructor|].
  apply collect_clean; constructor.
Qed.

Lemma collect_known f l : forall acc,
  Forall clean l -> NoDup (acc ++ l) -> collect_texts (map VStr l) f acc = Ok (acc ++ l).
Proof.
  induction l as [|x l IH]; intros acc Hc Hn; simpl; [by rewrite app_nil_r|]. apply Forall_cons in Hc as [Hx Hc].
  unfold_m. rewrite clean_required by done. rewrite bool_decide_false.
  - rewrite (IH (acc ++ [x])) by (rewrite <- ?app_assoc; done). by rewrite <- app_assoc.
  - intros Hin. apply NoDup_app in Hn as (_ & Hn & _). apply (Hn x Hin). by left.
Qed.

Lemma text_list_known l f : Forall clean l -> NoDup l -> copy_text_list (VList (map VStr l)) f = Ok l.
Proof. intros Hc Hn. by apply (collect_known f l []). Qed.

Definition progress_record_ok (p : GoalProgress.t) : Prop :=
  clean (GoalProgress.goal_id p) /\ clean (GoalProgress.updated_at p)
  /\ (Forall clean (GoalProgress.completed_subgoals p) /\ NoDup (GoalProgress.completed_subgoals p))
  /\ (Forall clean (GoalProgress.blocked_subgoals p) /\ NoDup (GoalProgress.blocked_subgoals p))
  /\ optional_ok (GoalProgress.active_subgoal_id p) /\ float_ok (GoalProgress.progress_ratio p)
  /\ from_option resume_ok True (GoalProgress.resume_point p).

(** A resume point as an object is one that a constructor made. *)
Definition resume_arg_ok (a : GoalProgress.resume_arg) : Prop :=
  match a with GoalProgress.ResumeObject r => resume_ok r | _ => True end.

Lemma make_progress_ok a b c d e r f g p :
  resume_arg_ok r -> GoalProgress.make py_float in_unit a b c d e r f g = Ok p -> progress_record_ok p.
Proof.
  unfold GoalProgress.make. unfold_m. intros Hr H. bind_ok H. destruct (negb (in_unit _)) eqn:Eu; [done|].
  apply negb_false_iff in Eu. do 6 bind_ok H. injection H as <-.
  unfold progress_record_ok. cbn [GoalProgress.goal_id GoalProgress.updated_at GoalProgress.completed_subgoals
    GoalProgress.blocked_subgoals GoalProgress.active_subgoal_id GoalProgress.progress_ratio GoalProgress.resume_point].
  split; [by eapply required_clean|]. split; [by eapply required_clean|]. split; [by eapply text_list_clean|].
  split; [by eapply text_list_clean|]. split; [apply clean_optional_idem|]. split; [by eapply made_float|].
  destruct r as [r|v]; [by injection E0 as <-|]. destruct v; try done; [by injection E0 as <-|].
  unfold GoalProgress.read_resume in E0. unfold_m. bind_ok E0. injection E0 as <-. by eapply made_resume_ok.
Qed.

Definition reload_progress (p : GoalProgress.t) : GoalProgress.t :=
  GoalProgress.Make (GoalProgress.goal_id p) (GoalProgress.completed_subgoals p) (GoalProgress.active_subgoal_id p)
    (GoalProgress.blocked_subgoals p) (GoalProgress.progress_ratio p) (reload_resume <$> GoalProgress.resume_point p)
    (GoalProgress.updated_at p) (map vsort (GoalProgress.evidence_refs p)).

(** The entries of a progress dict but for the resume point. *)
Definition plain_progress (p : GoalProgress.t) : list (string * val) :=
  filter (fun kv => kv.1 <> "resume_point") (GoalProgress.to_dict p).

Lemma progress_read {W} (now : M W string) (p : GoalProgress.t) d (w : W) :
  progress_record_ok p -> reads (plain_progress p) d ->
  GoalProgress.read_resume (GoalProgress.ResumeValue (vget "resume_point" d)) = Ok (GoalProgress.resume_point p) ->
  GoalProgress.from_mapping py_float in_unit zero now d w = (Ok p, w).
Proof.
  intros (H1 & H2 & [C1 C2] & [B1 B2] & Ho & (F1 & F2 & F3 & _) & _) G Hr.
  unfold GoalProgress.from_mapping, reads, plain_progress, GoalProgress.to_dict in *.
  rewrite !filter_cons, filter_nil in G. cbn [fst] in G. rewrite !decide_True in G by done. rewrite decide_False in G by (by intros []).
  rewrite !decide_True in G by done.
  rewrite !Forall_cons in G. destruct G as (_ & _ & E1 & E2 & E3 & E4 & E5 & E6 & E7 & _).
  cbn [fst snd] in *. rewrite E1, E2, E3, E4, E5, E6, E7, !or_list, F3.
  rewrite (M_bind_ok _ _ _ _ _ (clean_stamp now _ w H2)). unfold mlift, GoalProgress.make. unfold_m.
  rewrite F1, F2. cbn [negb]. rewrite Hr, !clean_required, !text_list_known by done. unfold optional_ok in Ho. rewrite Ho.
  cbn [list_refs]. by destruct p.
Qed.

Lemma vsort_strs l : map vsort (map VStr l) = map VStr l.
Proof. rewrite map_map. by apply map_ext. Qed.

Lemma progress_reload {W} (now : M W string) p w :
  progress_record_ok p ->
  GoalProgress.from_mapping py_float in_unit zero now (sort_dict (GoalProgress.to_dict p)) w = (Ok (reload_progress p), w).
Proof.
  intros H. pose proof H as (H1 & H2 & C & B & Ho & (F1 & F2 & F3 & F4) & Hr).
  assert (Hd : dict_ok (GoalProgress.to_dict p)).
  { unfold dict_ok, dkeys. cbn [GoalProgress.to_dict map fst fmap list_fmap]. compute_decide. }
  apply progress_read.
  - unfold progress_record_ok, reload_progress. cbn [GoalProgress.goal_id GoalProgress.updated_at
      GoalProgress.completed_subgoals GoalProgress.blocked_subgoals GoalProgress.active_subgoal_id
      GoalProgress.progress_ratio GoalProgress.resume_point].
    do 6 (split; [by first [done|split]|]). by destruct (GoalProgress.resume_point p).
  - assert (G : reads (map (fun kv => (kv.1, vsort kv.2)) (GoalProgress.to_dict p)) (sort_dict (GoalProgress.to_dict p)))
      by by apply reads_sorted.
    unfold reads in *. rewrite Forall_forall in G. apply Forall_forall. intros [k v] Hin. apply G.
    unfold plain_progress in Hin. apply list_elem_of_filter in Hin as [Hk Hin]. apply list_elem_of_In in Hin.
    apply list_elem_of_In. unfold GoalProgress.to_dict in *. cbn [fst map snd] in *.
    rewrite !vsort_optional, F4. cbn [vsort]. rewrite !vsort_strs. unfold reload_progress in Hin. cbn in Hin |- *.
    naive_solver.
  - rewrite vget_sort_dict by done. change (vget "resume_point" (GoalProgress.to_dict p))
      with (from_option (fun r => VDict (resume_to_dict r)) VNone (GoalProgress.resume_point p)).
    unfold reload_progress. cbn [GoalProgress.resume_point]. destruct (GoalProgress.resume_point p) as [r|]; [|done].
    cbn [from_option]. change (vsort (VDict (resume_to_dict r))) with (VDict (sort_dict (resume_to_dict r))).
    cbn [GoalProgress.read_resume]. unfold_m. by rewrite resume_reload.
Qed.
End floats.
