(* ===== verification/GoalRepository.v ===== *)
(** * The repository of persistent goals

    [core/goals/goal_repository.py] and [goal_query.py].  The repository is a
    file of events, one JSON text a line, that only grows: every operation
    replays it from the start ([_replay]) and a change appends one event.  The
    file is the list of its lines, [ticks] counts the readings of the clock and
    [outside] is the rest of the world, which knows the completion authority.

    The specification beside it is the typed log ([represents]) and the state it
    folds to ([state_of]).  Values that are not of JSON shape, which the append
    refuses, are not values here; directories and encodings are not modelled. *)

From stdpp Require Import pretty.
From S2P Require Import Prelude PyVal Sealing Lineage Goals Completion Engineering GoalRecords.

Definition GOAL_EVENT_SCHEMA : string := "zero.persistent_goal_event.v1".

(** A line of the file: white space, text that is not JSON, or a value. *)
Inductive line : Type :=
  | Blank
  | NotJson
  | Line (v : val).

Record repo (A : Type) : Type := Repo {
  outside : A;
  lines : list line;
  ticks : nat }.
Arguments Repo {A}. Arguments outside {A}. Arguments lines {A}. Arguments ticks {A}.

(** What the events say: the dicts of the goals, the subgoals and the progress. *)
Record replayed : Type := Replayed {
  goals : list (string * list (string * val));
  subgoals : list (string * list (string * val));
  progress : list (string * list (string * val)) }.

Definition nothing : replayed := Replayed [] [] [].

(** Records that are objects or mappings. *)
Inductive given (R : Type) : Type :=
  | GivenObject (r : R)
  | GivenMapping (d : list (string * val)).
Arguments GivenObject {R}. Arguments GivenMapping {R}.

Fixpoint load_lines (n : Z) (ls : list line) : res (list (list (string * val))) :=
  match ls with
  | [] => Ok []
  | Blank :: rest => load_lines (n + 1) rest
  | NotJson :: _ => Raise (ValueError ("invalid_goal_jsonl_line:" +:+ pretty n))
  | Line (VDict e) :: rest =>
      match vget "payload" e with
      | VDict _ => events ← load_lines (n + 1) rest; Ok (e :: events)
      | _ => Raise (ValueError ("invalid_goal_event_line:" +:+ pretty n))
      end
  | Line _ :: _ => Raise (ValueError ("invalid_goal_event_line:" +:+ pretty n))
  end.

(** Sort keys of the listings: pairs, compared from the left. *)
Definition pair_le (a b : string * string) : Prop := str_le a.1 b.1 /\ (a.1 = b.1 -> str_le a.2 b.2).
#[export] Instance pair_le_dec : RelDecision pair_le.
Proof. intros a b. unfold pair_le. apply _. Defined.
Definition order_le (a b : (Z * string) * list (string * val)) : Prop :=
  (a.1.1 < b.1.1)%Z \/ a.1.1 = b.1.1 /\ str_le a.1.2 b.1.2.
#[export] Instance order_le_dec : RelDecision order_le.
Proof. intros a b. unfold order_le. apply _. Defined.
Definition goal_key (time : string) (d : list (string * val)) : string * string :=
  (str_or_empty (vget time d), str_or_empty (vget "goal_id" d)).
Definition by_key (time : string) (a b : list (string * val)) : Prop := pair_le (goal_key time a) (goal_key time b).
#[export] Instance by_key_dec time : RelDecision (by_key time).
Proof. intros a b. unfold by_key. apply _. Defined.

Definition order_key (item : list (string * val)) : res ((Z * string) * list (string * val)) :=
  o ← py_int (py_or (vget "order" item) (VInt 0));
  Ok ((o, str_or_empty (vget "subgoal_id" item)), item).

Definition _infer_action (target_status : string) : string :=
  default target_status (dget target_status
    [("planned", "plan"); ("active", "start"); ("blocked", "block"); ("resumable", "resume_ready");
     ("completed", "complete"); ("failed", "fail")]).

(** The texts of two lists, each once. *)
Definition add_text (result : list string) (v : val) : list string :=
  let t := text v in
  if (t =? "")%string || bool_decide (t ∈ result) then result else result ++ [t].
Definition _union (first second : val) : res (list string) :=
  a ← py_iter (py_or first (VList []));
  b ← py_iter (py_or second (VList []));
  Ok (fold_left add_text (a ++ b) []).

(** Evidence references that are values, for a transition. *)
Definition refs_of (v : val) : refs_arg :=
  match v with VNone => NoRefs | VList l => Refs (map RefValue l) | _ => NotAList end.

Definition given_or (v dflt : val) : val := match v with VNone => dflt | _ => v end.
Definition resume_value (a : GoalProgress.resume_arg) : val :=
  match a with GoalProgress.ResumeObject r => VDict (resume_to_dict r) | GoalProgress.ResumeValue v => v end.

(** ** The repository *)
Module GoalRepository.
Section repository.
Context {A : Type} `{Gate : AttestationGate A}.
(** The machine of the repository, the clock and the floats. *)
Context (machine : A -> GoalTransition -> option bool -> res GoalTransitionResult) (clock : nat -> string).
Context (py_float : val -> res val) (in_unit : val -> bool) (zero : val).

Definition utc_now : M (repo A) string :=
  fun w => (Ok (clock (ticks w)), Repo (outside w) (lines w) (S (ticks w))).

Definition _append (event_type : string) (payload : list (string * val)) : M (repo A) (list (string * val)) :=
  now ← utc_now;
  let event := [("schema", VStr GOAL_EVENT_SCHEMA); ("event_type", VStr event_type); ("recorded_at", VStr now);
                ("payload", VDict payload)] in
  _ ← mmodify (fun w => Repo (outside w) (lines w ++ [Line (vsort (VDict event))]) (ticks w));
  mret payload.

Definition _load_events : M (repo A) (list (list (string * val))) :=
  w ← mget;
  mlift (load_lines 1 (lines w)).

Definition replay_event (st : replayed) (event : list (string * val)) : M (repo A) replayed :=
  let payload := mapping (vget "payload" event) in
  let kind := vget "record_type" payload in
  if py_eq kind (VStr "goal") then
    g ← PersistentGoal.from_mapping utc_now payload;
    mret (Replayed (dset (PersistentGoal.goal_id g) (PersistentGoal.to_dict g) (goals st)) (subgoals st) (progress st))
  else if py_eq kind (VStr "subgoal") then
    s ← PersistentSubgoal.from_mapping py_float in_unit zero utc_now payload;
    mret (Replayed (goals st) (dset (PersistentSubgoal.subgoal_id s) (PersistentSubgoal.to_dict s) (subgoals st))
            (progress st))
  else if py_eq kind (VStr "progress") then
    p ← GoalProgress.from_mapping py_float in_unit zero utc_now payload;
    mret (Replayed (goals st) (subgoals st)
            (dset (GoalProgress.goal_id p) (GoalProgress.to_dict p) (progress st)))
  else mret st.

Fixpoint replay_from (st : replayed) (events : list (list (string * val))) : M (repo A) replayed :=
  match events with
  | [] => mret st
  | e :: rest => st ← replay_event st e; replay_from st rest
  end.

Definition _replay : M (repo A) replayed :=
  events ← _load_events;
  replay_from nothing events.

Definition get_goal (goal_id : string) : M (repo A) (option (list (string * val))) :=
  st ← _replay;
  k ← mlift (clean_required_text (VStr goal_id) "goal_id");
  mret (dget k (goals st)).

Definition get_subgoal (subgoal_id : string) : M (repo A) (option (list (string * val))) :=
  st ← _replay;
  k ← mlift (clean_required_text (VStr subgoal_id) "subgoal_id");
  mret (dget k (subgoals st)).

Definition get_progress (goal_id : string) : M (repo A) (option (list (string * val))) :=
  st ← _replay;
  k ← mlift (clean_required_text (VStr goal_id) "goal_id");
  mret (dget k (progress st)).

Definition list_goals : M (repo A) (list (list (string * val))) :=
  st ← _replay;
  mret (merge_sort (by_key "created_at") (map snd (goals st))).

Definition list_subgoals (goal_id : string) : M (repo A) (list (list (string * val))) :=
  target ← mlift (clean_required_text (VStr goal_id) "goal_id");
  st ← _replay;
  keyed ← mlift (rmap order_key
    (filter (fun d => py_eq (vget "goal_id" d) (VStr target) = true) (map snd (subgoals st))));
  mret (map snd (merge_sort order_le keyed)).

Definition get_resume_point (goal_id : string) : M (repo A) (option (list (string * val))) :=
  p ← get_progress goal_id;
  match vget "resume_point" (default [] p) with
  | VDict d => mret (Some d)
  | _ =>
      items ← list_subgoals goal_id;
      mret (head (omap (M:=list) (fun d => match vget "resume_point" d with VDict r => Some r | _ => None end) items))
  end.

Definition list_history (goal_id : option string) : M (repo A) (list (list (string * val))) :=
  target ← mlift (match goal_id with
                  | None => Ok None
                  | Some g => t ← clean_required_text (VStr g) "goal_id"; Ok (Some t)
                  end);
  events ← _load_events;
  mret (match target with
        | None => events
        | Some t =>
            filter (fun e => py_eq (vget "goal_id" (mapping (vget "payload" e))) (VStr t) = true) events
        end).

Record snapshot : Type := Snapshot {
  sn_goal : option (list (string * val));
  sn_subgoals : list (list (string * val));
  sn_progress : option (list (string * val));
  sn_resume_point : option (list (string * val)) }.

Definition get_orchestration_snapshot (goal_id : string) : M (repo A) snapshot :=
  target ← mlift (clean_required_text (VStr goal_id) "goal_id");
  g ← get_goal target;
  ss ← list_subgoals target;
  p ← get_progress target;
  r ← get_resume_point target;
  mret (Snapshot g ss p r).

Definition _all_subgoals_completed (goal_id : string) : M (repo A) bool :=
  items ← list_subgoals goal_id;
  mret (forallb (fun d => py_eq (vget "status" d) (VStr "completed")) items).

Definition _validate_transition (t : GoalTransition) (all_subgoals_completed : option bool) : M (repo A) unit :=
  w ← mget;
  r ← mlift (machine (outside w) t all_subgoals_completed);
  if accepted r then mret tt
  else mraise (ValueError (res_reason r +:+ ":" +:+ default "None" (blocked_reason r))).

Definition append_goal (goal : given PersistentGoal.t) : M (repo A) (list (string * val)) :=
  g ← match goal with
      | GivenObject g => mret g
      | GivenMapping d => PersistentGoal.from_mapping utc_now d
      end;
  old ← get_goal (PersistentGoal.goal_id g);
  match old with
  | Some _ => mraise (ValueError ("goal_already_exists:" +:+ PersistentGoal.goal_id g))
  | None => _append "goal_appended" (PersistentGoal.to_dict g)
  end.

Definition append_subgoal (subgoal : given PersistentSubgoal.t) : M (repo A) (list (string * val)) :=
  s ← match subgoal with
      | GivenObject s => mret s
      | GivenMapping d => PersistentSubgoal.from_mapping py_float in_unit zero utc_now d
      end;
  g ← get_goal (PersistentSubgoal.goal_id s);
  match g with
  | None => mraise (KeyError (PersistentSubgoal.goal_id s))
  | Some _ =>
      old ← get_subgoal (PersistentSubgoal.subgoal_id s);
      match old with
      | Some _ => mraise (ValueError ("subgoal_already_exists:" +:+ PersistentSubgoal.subgoal_id s))
      | None => _append "subgoal_appended" (PersistentSubgoal.to_dict s)
      end
  end.

Definition update_goal_status (goal_id : string) (status evidence_refs why resume_point act : val)
    (attestation : option nat) : M (repo A) (list (string * val)) :=
  existing ← get_goal goal_id;
  match existing with
  | None => k ← mlift (clean_required_text (VStr goal_id) "goal_id"); mraise (KeyError k)
  | Some d =>
      target ← mlift (clean_status status);
      w ← mget;
      if (target =? "completed")%string && negb (gate_accepts (outside w) attestation goal_id)
      then mraise (ValueError "canonical_completion_attestation_required")
      else
        _ ← (if (target =? "completed")%string then mret tt
             else
               t ← mlift (make_transition (VStr "goal") (VStr goal_id) (vget "status" d) (VStr target)
                     (py_or act (VStr (_infer_action target))) why resume_point
                     (refs_of (given_or evidence_refs (py_or (vget "evidence_refs" d) (VList [])))) (VBool false));
               all ← _all_subgoals_completed goal_id;
               _validate_transition t (Some all));
        now ← utc_now;
        let d := dset "updated_at" (VStr now) (dset "status" (VStr target) d) in
        let d := match evidence_refs with VNone => d | v => dset "evidence_refs" v d end in
        g ← PersistentGoal.from_mapping utc_now d;
        _append "goal_status_updated" (PersistentGoal.to_dict g)
  end.

Definition update_subgoal_status (subgoal_id : string) (status new_progress blocked : val)
    (resume : GoalProgress.resume_arg) (evidence_refs why act : val) : M (repo A) (list (string * val)) :=
  existing ← get_subgoal subgoal_id;
  match existing with
  | None => k ← mlift (clean_required_text (VStr subgoal_id) "subgoal_id"); mraise (KeyError k)
  | Some d =>
      target ← mlift (clean_status status);
      t ← mlift (make_transition (VStr "subgoal") (VStr subgoal_id) (vget "status" d) (VStr target)
            (py_or act (VStr (_infer_action target))) (py_or why blocked)
            (given_or (resume_value resume) (vget "resume_point" d))
            (refs_of (given_or evidence_refs (py_or (vget "evidence_refs" d) (VList [])))) (VBool false));
      _ ← _validate_transition t None;
      now ← utc_now;
      let d := dset "updated_at" (VStr now) (dset "status" (VStr target) d) in
      let d := match new_progress with VNone => d | v => dset "progress" v d end in
      let d := match blocked with VNone => d | v => dset "blocked_reason" v d end in
      let d := match resume_value resume with VNone => d | v => dset "resume_point" v d end in
      let d := match evidence_refs with VNone => d | v => dset "evidence_refs" v d end in
      s ← PersistentSubgoal.from_mapping py_float in_unit zero utc_now d;
      _append "subgoal_status_updated" (PersistentSubgoal.to_dict s)
  end.

(** What progress that comes in keeps of the progress before. *)
Definition merged (previous incoming : list (string * val)) : res (list (string * val)) :=
  cs ← _union (vget "completed_subgoals" previous) (vget "completed_subgoals" incoming);
  bs ← _union (vget "blocked_subgoals" previous) (vget "blocked_subgoals" incoming);
  let d := dset "blocked_subgoals" (VList (map VStr bs)) (dset "completed_subgoals" (VList (map VStr cs)) incoming) in
  Ok (match vget "resume_point" d with VNone => dset "resume_point" (vget "resume_point" previous) d | _ => d end).

Definition record_progress (p : given GoalProgress.t) : M (repo A) (list (string * val)) :=
  p ← match p with
      | GivenObject p => mret p
      | GivenMapping d => GoalProgress.from_mapping py_float in_unit zero utc_now d
      end;
  let incoming := GoalProgress.to_dict p in
  g ← get_goal (GoalProgress.goal_id p);
  match g with
  | None => mraise (KeyError (GoalProgress.goal_id p))
  | Some _ =>
      previous ← get_progress (GoalProgress.goal_id p);
      incoming ← mlift (match previous with None => Ok incoming | Some d => merged d incoming end);
      now ← utc_now;
      p ← GoalProgress.from_mapping py_float in_unit zero utc_now (dset "updated_at" (VStr now) incoming);
      _append "progress_recorded" (GoalProgress.to_dict p)
  end.

(** One of the operations that append. *)
Inductive op : Type :=
  | AppendGoal (goal : given PersistentGoal.t)
  | AppendSubgoal (subgoal : given PersistentSubgoal.t)
  | UpdateGoalStatus (goal_id : string) (status evidence_refs why resume_point act : val) (attestation : option nat)
  | UpdateSubgoalStatus (subgoal_id : string) (status new_progress blocked : val) (resume : GoalProgress.resume_arg)
      (evidence_refs why act : val)
  | RecordProgress (p : given GoalProgress.t).

Definition run_op (o : op) : M (repo A) (list (string * val)) :=
  match o with
  | AppendGoal g => append_goal g
  | AppendSubgoal s => append_subgoal s
  | UpdateGoalStatus g st refs why resume act att => update_goal_status g st refs why resume act att
  | UpdateSubgoalStatus s st p b resume refs why act => update_subgoal_status s st p b resume refs why act
  | RecordProgress p => record_progress p
  end.
End repository.
End GoalRepository.

(** ** Queries *)
Module GoalQuery.
Section query.
Context {A : Type} (clock : nat -> string) (py_float : val -> res val) (in_unit : val -> bool) (zero : val).

Definition with_status (s : string) (gs : list (list (string * val))) : list (list (string * val)) :=
  filter (fun d => py_eq (vget "status" d) (VStr s) = true) gs.

Definition find_active_goals : M (repo A) (list (list (string * val))) :=
  gs ← GoalRepository.list_goals clock py_float in_unit zero;
  mret (with_status "active" gs).

Definition find_blocked_goals : M (repo A) (list (list (string * val))) :=
  gs ← GoalRepository.list_goals clock py_float in_unit zero;
  mret (with_status "blocked" gs).

Definition find_recent_goals (limit : Z) : M (repo A) (list (list (string * val))) :=
  if (limit <=? 0)%Z then mret []
  else
    gs ← GoalRepository.list_goals clock py_float in_unit zero;
    mret (take (Z.to_nat limit) (reverse (merge_sort (by_key "updated_at") gs))).

Definition find_goal_history (goal_id : string) : M (repo A) (list (list (string * val))) :=
  GoalRepository.list_history (Some goal_id).

Definition candidate (goal resume : list (string * val)) : list (string * val) :=
  dset "goal_updated_at" (vget "updated_at" goal)
    (dset "goal_status" (vget "status" goal) (dset "goal_id" (vget "goal_id" goal) resume)).

Definition find_resume_candidates : M (repo A) (list (list (string * val))) :=
  gs ← GoalRepository.list_goals clock py_float in_unit zero;
  found ← mfor (fun goal =>
    if vin (vget "status" goal) (map VStr TERMINAL_GOAL_STATES) then mret None
    else
      r ← GoalRepository.get_resume_point clock py_float in_unit zero (str_or_empty (vget "goal_id" goal));
      mret (candidate goal <$> r)) gs;
  mret (omap (M:=list) id found).
End query.
End GoalQuery.
