(* ===== verification/GoalLog.v ===== *)
(** * What the goal repository stores

    The specification of [GoalRepository]: the file is the writing of a log of
    changes ([represents]), a change is a typed record with its kind and stamp,
    the reads are what the log folds to ([known_of]), and an operation raises
    with the file as it was or appends one change that is [legal] after it. *)

From S2P Require Import Prelude PyVal Sealing Lineage Goals Completion Engineering GoalRecords GoalRepository.

(** ** The log *)

Inductive entry : Type :=
  | GoalEntry (g : PersistentGoal.t)
  | SubgoalEntry (s : PersistentSubgoal.t)
  | ProgressEntry (p : GoalProgress.t).

Record change : Type := Change { what : string; stamp : string; entry_of : entry }.

Definition entry_dict (e : entry) : list (string * val) :=
  match e with
  | GoalEntry g => PersistentGoal.to_dict g
  | SubgoalEntry s => PersistentSubgoal.to_dict s
  | ProgressEntry p => GoalProgress.to_dict p
  end.

Definition event_dict (c : change) : list (string * val) :=
  [("schema", VStr GOAL_EVENT_SCHEMA); ("event_type", VStr (what c)); ("recorded_at", VStr (stamp c));
   ("payload", VDict (entry_dict (entry_of c)))].

Definition written (c : change) : line := Line (vsort (VDict (event_dict c))).

(** What is known from the log, by id. *)
Record known : Type := Known {
  k_goals : list (string * PersistentGoal.t);
  k_subgoals : list (string * PersistentSubgoal.t);
  k_progress : list (string * GoalProgress.t) }.

Definition reload_entry (e : entry) : entry :=
  match e with
  | GoalEntry g => GoalEntry (reload_goal g)
  | SubgoalEntry s => SubgoalEntry (reload_subgoal s)
  | ProgressEntry p => ProgressEntry (reload_progress p)
  end.

Definition learn (k : known) (e : entry) : known :=
  match e with
  | GoalEntry g => Known (dset (PersistentGoal.goal_id g) g (k_goals k)) (k_subgoals k) (k_progress k)
  | SubgoalEntry s => Known (k_goals k) (dset (PersistentSubgoal.subgoal_id s) s (k_subgoals k)) (k_progress k)
  | ProgressEntry p => Known (k_goals k) (k_subgoals k) (dset (GoalProgress.goal_id p) p (k_progress k))
  end.

Definition learn_all (k : known) (log : list change) : known :=
  fold_left (fun k c => learn k (reload_entry (entry_of c))) log k.

Definition known_of (log : list change) : known := learn_all (Known [] [] []) log.

(** [f] on the values of a dict. *)
Definition dmap {A B} (f : A -> B) (d : list (string * A)) : list (string * B) := map (fun kv => (kv.1, f kv.2)) d.

Lemma dget_dmap {A B} (f : A -> B) k d : dget k (dmap f d) = f <$> dget k d.
Proof. unfold dmap. induction d as [|[k' v] d IH]; simpl; [done|]. by destruct (k' =? k)%string. Qed.

Lemma dset_dmap {A B} (f : A -> B) k v d : dset k (f v) (dmap f d) = dmap f (dset k v d).
Proof. unfold dmap. induction d as [|[k' x] d IH]; simpl; [done|]. destruct (k' =? k)%string; simpl; [done|]. by rewrite IH. Qed.

Definition dicts (k : known) : replayed :=
  Replayed (dmap PersistentGoal.to_dict (k_goals k)) (dmap PersistentSubgoal.to_dict (k_subgoals k))
    (dmap GoalProgress.to_dict (k_progress k)).

(** The lifecycle state of a goal's status. *)
Definition lifecycle_of (status : string) : string := if (status =? "pending")%string then "planned" else status.

(** A goal in its next status. *)
Definition moved (g : PersistentGoal.t) (status now : string) (refs : list val) : PersistentGoal.t :=
  PersistentGoal.Make (PersistentGoal.goal_id g) (PersistentGoal.title g) (PersistentGoal.description g) status
    (PersistentGoal.created_at g) now refs.

(** Sorting images by an order on what they are the images of. *)
Section merge.
Context {X Y : Type} (f : X -> Y) (R : relation X) (Q : relation Y) `{!RelDecision R, !RelDecision Q}.
Context (agree : forall a b, R a b <-> Q (f a) (f b)).

Lemma list_merge_map l1 : forall l2, list_merge Q (map f l1) (map f l2) = map f (list_merge R l1 l2).
Proof.
  induction l1 as [|x l1 IH1]; intros l2; [by destruct l2|].
  induction l2 as [|y l2 IH2]; [done|]. simpl. pose proof (agree x y).
  repeat case_decide; try tauto; cbn [map]; f_equal; [exact (IH1 (y :: l2))|exact IH2].
Qed.

Lemma merge_to_stack_map st : forall l,
  merge_list_to_stack Q (map (fmap (map f)) st) (map f l) = map (fmap (map f)) (merge_list_to_stack R st l).
Proof.
  induction st as [|[l'|] st IH]; intros l; [done| |done]. cbn [map merge_list_to_stack fmap option_fmap option_map].
  f_equal. rewrite list_merge_map. apply IH.
Qed.

Lemma merge_stack_map st : merge_stack Q (map (fmap (map f)) st) = map f (merge_stack R st).
Proof.
  induction st as [|[l'|] st IH]; [done| |done]. cbn [map merge_stack fmap option_fmap option_map].
  by rewrite IH, list_merge_map.
Qed.

Lemma merge_sort_map l : merge_sort Q (map f l) = map f (merge_sort R l).
Proof.
  unfold merge_sort. change (@nil (option (list Y))) with (map (fmap (map f)) (@nil (option (list X)))).
  generalize (@nil (option (list X))). induction l as [|x l IH]; intros st; simpl; [apply merge_stack_map|].
  rewrite <- IH. f_equal. apply (merge_to_stack_map st [x]).
Qed.
End merge.

(** The order of subgoals. *)
Definition subgoal_le (a b : PersistentSubgoal.t) : Prop :=
  (PersistentSubgoal.order a < PersistentSubgoal.order b)%Z
  \/ PersistentSubgoal.order a = PersistentSubgoal.order b
     /\ str_le (PersistentSubgoal.subgoal_id a) (PersistentSubgoal.subgoal_id b).
#[export] Instance subgoal_le_dec : RelDecision subgoal_le.
Proof. intros a b. unfold subgoal_le. apply _. Defined.

(** The subgoals of a goal, in their order. *)
Definition subgoals_of (k : known) (goal_id : string) : list PersistentSubgoal.t :=
  merge_sort subgoal_le (filter (fun s => PersistentSubgoal.goal_id s = goal_id) (map snd (k_subgoals k))).

Section log.
Context {A : Type} `{Gate : AttestationGate A} (store_of : A -> evidence_store).
Context (clock : nat -> string) (clock_clean : forall n, clean (clock n)).
Context (py_float : val -> res val) (in_unit : val -> bool) (zero : val) (Laws : unit_laws py_float zero).

(** The machine the repository makes by default. *)
Definition machine (a : A) (t : GoalTransition) (all : option bool) : res GoalTransitionResult :=
  transition (store_of a) t all false.

Abbreviation get_goal := (GoalRepository.get_goal clock py_float in_unit zero).
Abbreviation get_subgoal := (GoalRepository.get_subgoal clock py_float in_unit zero).
Abbreviation get_progress := (GoalRepository.get_progress clock py_float in_unit zero).
Abbreviation run_op := (GoalRepository.run_op machine clock py_float in_unit zero).
Abbreviation replay := (GoalRepository._replay clock py_float in_unit zero).

Definition entry_ok (e : entry) : Prop :=
  match e with
  | GoalEntry g => goal_ok g
  | SubgoalEntry s => subgoal_ok py_float in_unit zero s
  | ProgressEntry p => progress_record_ok py_float in_unit zero p
  end.

(** The file is the log. *)
Definition represents (log : list change) (w : repo A) : Prop :=
  lines w = map written log /\ Forall (fun c => entry_ok (entry_of c)) log.

(** ** Replay *)

Lemma event_dict_ok c : dict_ok (event_dict c).
Proof. unfold dict_ok, dkeys. cbn [event_dict map fst fmap list_fmap]. compute_decide. Qed.

Lemma event_payload c : vget "payload" (sort_dict (event_dict c)) = VDict (sort_dict (entry_dict (entry_of c))).
Proof. by rewrite vget_sort_dict by apply event_dict_ok. Qed.

Lemma load_written log : forall n, load_lines n (map written log) = Ok (map (fun c => sort_dict (event_dict c)) log).
Proof.
  induction log as [|c log IH]; intros n; [done|]. cbn [map].
  change (written c) with (Line (VDict (sort_dict (event_dict c)))). cbn [load_lines]. rewrite event_payload. unfold_m.
  by rewrite IH.
Qed.

Lemma entry_type e : entry_ok e ->
  vget "record_type" (sort_dict (entry_dict e))
  = VStr (match e with GoalEntry _ => "goal" | SubgoalEntry _ => "subgoal" | ProgressEntry _ => "progress" end).
Proof.
  intros _. rewrite vget_sort_dict; [by destruct e|]. unfold dict_ok, dkeys.
  destruct e; cbn [entry_dict PersistentGoal.to_dict PersistentSubgoal.to_dict GoalProgress.to_dict map fst fmap list_fmap];
    compute_decide.
Qed.

Lemma replay_event_known k c (w : repo A) :
  entry_ok (entry_of c) ->
  GoalRepository.replay_event clock py_float in_unit zero (dicts k) (sort_dict (event_dict c)) w
  = (Ok (dicts (learn k (reload_entry (entry_of c)))), w).
Proof.
  intros H. unfold GoalRepository.replay_event. rewrite event_payload. cbn [mapping]. rewrite (entry_type _ H).
  destruct (entry_of c) as [g|s|p]; cbn [py_eq entry_dict]; cbn in H.
  - change (String.eqb "goal" "goal") with true. cbn iota.
    rewrite (M_bind_ok _ _ _ _ _ (goal_reload _ g w H)). unfold mret, M_ret, dicts. cbn [learn reload_entry k_goals k_subgoals k_progress goals subgoals progress].
    by rewrite <- dset_dmap.
  - change (String.eqb "subgoal" "goal") with false. change (String.eqb "subgoal" "subgoal") with true. cbn iota.
    rewrite (M_bind_ok _ _ _ _ _ (subgoal_reload _ _ _ _ s w H)). unfold mret, M_ret, dicts.
    cbn [learn reload_entry k_goals k_subgoals k_progress goals subgoals progress]. by rewrite <- dset_dmap.
  - change (String.eqb "progress" "goal") with false. change (String.eqb "progress" "subgoal") with false.
    change (String.eqb "progress" "progress") with true. cbn iota.
    rewrite (M_bind_ok _ _ _ _ _ (progress_reload _ _ _ _ p w H)). unfold mret, M_ret, dicts.
    cbn [learn reload_entry k_goals k_subgoals k_progress goals subgoals progress]. by rewrite <- dset_dmap.
Qed.

Lemma replay_from_known log : forall k (w : repo A),
  Forall (fun c => entry_ok (entry_of c)) log ->
  GoalRepository.replay_from clock py_float in_unit zero (dicts k) (map (fun c => sort_dict (event_dict c)) log) w
  = (Ok (dicts (learn_all k log)), w).
Proof.
  induction log as [|c log IH]; intros k w H; [done|]. apply Forall_cons in H as [Hc H].
  cbn [map GoalRepository.replay_from]. rewrite (M_bind_ok _ _ _ _ _ (replay_event_known k c w Hc)). by apply IH.
Qed.

Lemma load_represented log w : represents log w ->
  GoalRepository._load_events w = (Ok (map (fun c => sort_dict (event_dict c)) log), w).
Proof.
  intros [Hl _]. unfold GoalRepository._load_events. unfold_m. rewrite Hl. by rewrite load_written.
Qed.

Lemma replay_represented log w : represents log w -> replay w = (Ok (dicts (known_of log)), w).
Proof.
  intros H. unfold GoalRepository._replay. rewrite (M_bind_ok _ _ _ _ _ (load_represented _ _ H)).
  destruct H as [_ H]. exact (replay_from_known log (Known [] [] []) w H).
Qed.

(** ** Reads *)

Definition clean_id (id field : string) : res string := clean_required_text (VStr id) field.

Lemma got_goal log w id : represents log w ->
  get_goal id w
  = (k ← clean_id id "goal_id"; Ok (PersistentGoal.to_dict <$> dget k (k_goals (known_of log))), w).
Proof.
  intros H. unfold GoalRepository.get_goal. rewrite (M_bind_ok _ _ _ _ _ (replay_represented _ _ H)).
  unfold clean_id. unfold_m. destruct (clean_required_text _ _) as [k|e]; [|done]. cbn [dicts goals]. by rewrite dget_dmap.
Qed.

Lemma got_subgoal log w id : represents log w ->
  get_subgoal id w
  = (k ← clean_id id "subgoal_id"; Ok (PersistentSubgoal.to_dict <$> dget k (k_subgoals (known_of log))), w).
Proof.
  intros H. unfold GoalRepository.get_subgoal. rewrite (M_bind_ok _ _ _ _ _ (replay_represented _ _ H)).
  unfold clean_id. unfold_m. destruct (clean_required_text _ _) as [k|e]; [|done]. cbn [dicts subgoals]. by rewrite dget_dmap.
Qed.

Lemma got_progress log w id : represents log w ->
  get_progress id w
  = (k ← clean_id id "goal_id"; Ok (GoalProgress.to_dict <$> dget k (k_progress (known_of log))), w).
Proof.
  intros H. unfold GoalRepository.get_progress. rewrite (M_bind_ok _ _ _ _ _ (replay_represented _ _ H)).
  unfold clean_id. unfold_m. destruct (clean_required_text _ _) as [k|e]; [|done]. cbn [dicts progress]. by rewrite dget_dmap.
Qed.

Definition keyed (s : PersistentSubgoal.t) : (Z * string) * list (string * val) :=
  ((PersistentSubgoal.order s, PersistentSubgoal.subgoal_id s), PersistentSubgoal.to_dict s).

(** What is known is under its ids, and well formed. *)
Definition ids_ok (k : known) : Prop :=
  Forall (fun kv => PersistentGoal.goal_id kv.2 = kv.1 /\ entry_ok (GoalEntry kv.2)) (k_goals k)
  /\ Forall (fun kv => PersistentSubgoal.subgoal_id kv.2 = kv.1 /\ entry_ok (SubgoalEntry kv.2)) (k_subgoals k)
  /\ Forall (fun kv => GoalProgress.goal_id kv.2 = kv.1 /\ entry_ok (ProgressEntry kv.2)) (k_progress k).

Lemma order_key_subgoal s : clean (PersistentSubgoal.subgoal_id s) -> order_key (PersistentSubgoal.to_dict s) = Ok (keyed s).
Proof.
  intros Hc. unfold order_key. change (vget "order" (PersistentSubgoal.to_dict s)) with (VInt (PersistentSubgoal.order s)).
  replace (py_int (py_or (VInt (PersistentSubgoal.order s)) (VInt 0))) with (Ok (PersistentSubgoal.order s))
    by (unfold py_or; cbn [truthy]; destruct (Z.eqb_spec (PersistentSubgoal.order s) 0) as [->|]; reflexivity).
  unfold_m. unfold str_or_empty.
  change (vget "subgoal_id" (PersistentSubgoal.to_dict s)) with (VStr (PersistentSubgoal.subgoal_id s)).
  by rewrite or_text.
Qed.

Lemma rmap_map {X Y Z} (f : Y -> res Z) (g : X -> Y) (h : X -> Z) l :
  Forall (fun x => f (g x) = Ok (h x)) l -> rmap f (map g l) = Ok (map h l).
Proof. induction 1 as [|x l H _ IH]; simpl; [done|]. unfold_m. by rewrite H, IH. Qed.

Lemma filter_map_dicts (l : list PersistentSubgoal.t) t :
  filter (fun d => py_eq (vget "goal_id" d) (VStr t) = true) (map PersistentSubgoal.to_dict l)
  = map PersistentSubgoal.to_dict (filter (fun s => PersistentSubgoal.goal_id s = t) l).
Proof.
  induction l as [|s l IH]; [done|]. cbn [map]. rewrite !filter_cons, IH.
  change (vget "goal_id" (PersistentSubgoal.to_dict s)) with (VStr (PersistentSubgoal.goal_id s)).
  destruct (decide (PersistentSubgoal.goal_id s = t)) as [->|Hn].
  - rewrite decide_True by by apply py_eq_str. done.
  - rewrite decide_False; [done|]. by intros [=]%py_eq_str.
Qed.

Lemma learned_ids k e : entry_ok e -> ids_ok k -> ids_ok (learn k e).
Proof.
  intros H (Hg & Hs & Hp). destruct e as [g|s|p]; (split; [|split]); cbn [learn k_subgoals k_goals k_progress]; try done;
    by apply Forall_dset.
Qed.

Lemma reload_entry_ok e : entry_ok e -> entry_ok (reload_entry e).
Proof.
  destruct e as [g|s|p]; [by intros ?|by intros ?|]. intros H.
  destruct H as (H1 & H2 & H3 & H4 & H5 & H6 & H7). unfold entry_ok, progress_record_ok, reload_entry, reload_progress.
  cbn [GoalProgress.goal_id GoalProgress.updated_at GoalProgress.completed_subgoals
      GoalProgress.blocked_subgoals GoalProgress.active_subgoal_id
      GoalProgress.progress_ratio GoalProgress.resume_point]. split_and!; try done; try apply H3; try apply H4.
  by destruct (GoalProgress.resume_point p).
Qed.

Lemma learn_all_ids log : forall k, Forall (fun c => entry_ok (entry_of c)) log -> ids_ok k -> ids_ok (learn_all k log).
Proof.
  induction log as [|c log IH]; intros k H Hk; [done|]. apply Forall_cons in H as [Hc H]. apply IH; [done|].
  apply learned_ids; [by apply reload_entry_ok|done].
Qed.

Lemma known_ids log w : represents log w -> ids_ok (known_of log).
Proof. intros [_ H]. apply learn_all_ids; [done|]. split_and!; constructor. Qed.

Abbreviation list_subgoals := (GoalRepository.list_subgoals clock py_float in_unit zero).

Lemma listed_subgoals log w id : represents log w ->
  list_subgoals id w
  = (k ← clean_id id "goal_id"; Ok (map PersistentSubgoal.to_dict (subgoals_of (known_of log) k)), w).
Proof.
  intros H. unfold GoalRepository.list_subgoals, clean_id.
  destruct (clean_required_text (VStr id) "goal_id") as [t|e] eqn:Et; [|reflexivity].
  rewrite (M_bind_ok (mlift _) _ t w w) by reflexivity. rewrite (M_bind_ok _ _ _ _ _ (replay_represented _ _ H)).
  change (subgoals (dicts (known_of log))) with (dmap PersistentSubgoal.to_dict (k_subgoals (known_of log))).
  assert (Em : map snd (dmap PersistentSubgoal.to_dict (k_subgoals (known_of log)))
               = map PersistentSubgoal.to_dict (map snd (k_subgoals (known_of log)))).
  { unfold dmap. by rewrite !map_map. }
  rewrite Em, filter_map_dicts. erewrite M_lift_ok.
  2: { apply (rmap_map order_key PersistentSubgoal.to_dict keyed). apply Forall_forall. intros s Hin.
       apply order_key_subgoal. apply list_elem_of_filter in Hin as [_ Hin].
       apply list_elem_of_fmap in Hin as ([k s'] & -> & Hin). destruct (known_ids _ _ H) as (_ & Hi & _).
       rewrite Forall_forall in Hi. destruct (Hi _ Hin) as (_ & Hc & _). by apply Forall_inv in Hc. }
  rewrite (merge_sort_map keyed subgoal_le order_le) by (intros a b; reflexivity).
  unfold subgoals_of. unfold_m. by rewrite map_map.
Qed.

(** ** Writes *)

Definition tick (w : repo A) : repo A := Repo (outside w) (lines w) (S (ticks w)).

(** The repository after a change. *)
Definition appended (c : change) (w : repo A) : repo A := Repo (outside w) (lines w ++ [written c]) (S (ticks w)).

Lemma append_run kind e (w : repo A) :
  GoalRepository._append clock kind (entry_dict e) w
  = (Ok (entry_dict e), appended (Change kind (clock (ticks w)) e) w).
Proof. reflexivity. Qed.

(** The evidence references of an update. *)
Definition new_refs (given : val) (before : list val) : res (list val) :=
  list_refs (py_or (given_or given (VList before)) (VList [])).

Lemma moved_read (utc_now : M (repo A) string) g status now refs v (w : repo A) :
  goal_ok g -> status ∈ GoalStatus -> clean now ->
  PersistentGoal.from_mapping utc_now
    (dset "evidence_refs" v (PersistentGoal.to_dict (moved g status now refs))) w
  = (l ← list_refs (py_or v (VList [])); Ok (moved g status now l), w).
Proof.
  intros (Hc & Hd & _) Hs Hn. rewrite !Forall_cons in Hc. destruct Hc as (H1 & H2 & H3 & _).
  destruct (clean_status_known _ Hs) as [S1 S2].
  change (dset _ _ _) with
    [("schema", VStr GOAL_SCHEMA); ("record_type", VStr "goal"); ("goal_id", VStr (PersistentGoal.goal_id g));
     ("title", VStr (PersistentGoal.title g)); ("description", VStr (PersistentGoal.description g));
     ("status", VStr status); ("created_at", VStr (PersistentGoal.created_at g)); ("updated_at", VStr now);
     ("evidence_refs", v)].
  unfold PersistentGoal.from_mapping.
  change (vget "created_at" _) with (VStr (PersistentGoal.created_at g)). change (vget "updated_at" _) with (VStr now).
  change (vget "goal_id" _) with (VStr (PersistentGoal.goal_id g)). change (vget "title" _) with (VStr (PersistentGoal.title g)).
  change (vget "description" _) with (VStr (PersistentGoal.description g)). change (vget "status" _) with (VStr status).
  change (vget "evidence_refs" _) with v.
  rewrite (or_clean now), (or_clean status), or_text by done.
  rewrite (M_bind_ok _ _ _ _ _ (clean_stamp utc_now _ w H3)), (M_bind_ok _ _ _ _ _ (clean_stamp utc_now _ w Hn)).
  unfold mlift, PersistentGoal.make. unfold_m. rewrite !clean_required, S1 by done. rewrite text_strip, Hd. reflexivity.
Qed.

(** What a transition of the goal needs. *)
Definition goal_permission (log : list change) (w : repo A) (id : string) (g : PersistentGoal.t) (target : string)
    (refs why resume act : val) : res unit :=
  t ← make_transition (VStr "goal") (VStr id) (VStr (PersistentGoal.status g)) (VStr target)
        (py_or act (VStr (_infer_action target))) why resume
        (refs_of (given_or refs (VList (PersistentGoal.evidence_refs g)))) (VBool false);
  k ← clean_id id "goal_id";
  r ← machine (outside w) t
        (Some (forallb (fun s => (PersistentSubgoal.status s =? "completed")%string) (subgoals_of (known_of log) k)));
  if accepted r then Ok tt else Raise (ValueError (res_reason r +:+ ":" +:+ default "None" (blocked_reason r))).

Lemma all_completed log w id : represents log w ->
  GoalRepository._all_subgoals_completed clock py_float in_unit zero id w
  = (k ← clean_id id "goal_id";
     Ok (forallb (fun s => (PersistentSubgoal.status s =? "completed")%string) (subgoals_of (known_of log) k)), w).
Proof.
  intros H. unfold GoalRepository._all_subgoals_completed. unfold mbind at 1, M_bind at 1.
  rewrite (listed_subgoals _ _ _ H). destruct (clean_id id "goal_id") as [k|e]; [|reflexivity]. unfold_m.
  f_equal. f_equal. induction (subgoals_of (known_of log) k) as [|s l IH]; [done|]. cbn [map forallb]. by rewrite IH.
Qed.

Abbreviation update_goal_status := (GoalRepository.update_goal_status machine clock py_float in_unit zero).

Lemma known_goal log w k g : represents log w -> dget k (k_goals (known_of log)) = Some g ->
  goal_ok g /\ PersistentGoal.goal_id g = k.
Proof.
  intros H Hg%dget_Some_elem. destruct (known_ids _ _ H) as (Hk & _ & _). rewrite Forall_forall in Hk.
  destruct (Hk _ Hg) as [E Hok]. by split.
Qed.

Lemma known_subgoal log w k s : represents log w -> dget k (k_subgoals (known_of log)) = Some s ->
  subgoal_ok py_float in_unit zero s /\ PersistentSubgoal.subgoal_id s = k.
Proof.
  intros H Hg%dget_Some_elem. destruct (known_ids _ _ H) as (_ & Hk & _). rewrite Forall_forall in Hk.
  destruct (Hk _ Hg) as [E Hok]. by split.
Qed.

Lemma known_progress log w k p : represents log w -> dget k (k_progress (known_of log)) = Some p ->
  progress_record_ok py_float in_unit zero p /\ GoalProgress.goal_id p = k.
Proof.
  intros H Hg%dget_Some_elem. destruct (known_ids _ _ H) as (_ & _ & Hk). rewrite Forall_forall in Hk.
  destruct (Hk _ Hg) as [E Hok]. by split.
Qed.

(** An update of a goal that exists, on every branch. *)
Lemma update_goal_run log w id k g status refs why resume act att :
  represents log w -> clean_id id "goal_id" = Ok k -> dget k (k_goals (known_of log)) = Some g ->
  update_goal_status id status refs why resume act att w
  = match clean_status status with
    | Raise e => (Raise e, w)
    | Ok target =>
        let completing := (target =? "completed")%string in
        if completing && negb (gate_accepts (outside w) att id)
        then (Raise (ValueError "canonical_completion_attestation_required"), w)
        else
          match (if completing then Ok tt else goal_permission log w id g target refs why resume act) with
          | Raise e => (Raise e, w)
          | Ok _ =>
              match new_refs refs (PersistentGoal.evidence_refs g) with
              | Raise e => (Raise e, tick w)
              | Ok l =>
                  let e := GoalEntry (moved g target (clock (ticks w)) l) in
                  (Ok (entry_dict e), appended (Change "goal_status_updated" (clock (S (ticks w))) e) (tick w))
              end
          end
    end.
Proof using clock_clean Laws.
  intros H Hid Hg. destruct (known_goal _ _ _ _ H Hg) as [Hok <-].
  unfold GoalRepository.update_goal_status. erewrite M_bind_ok.
  2: { rewrite (got_goal _ _ _ H), Hid. unfold_m. rewrite Hg. reflexivity. }
  cbn [fmap option_fmap option_map]. destruct (clean_status status) as [target|e] eqn:Et; [|reflexivity].
  rewrite (M_lift_ok (Ok target) _ target) by reflexivity. rewrite (M_bind_ok mget _ w w w) by reflexivity. cbv zeta.
  pose proof (status_clean _ _ Et) as Hs.
  destruct ((target =? "completed")%string && negb (gate_accepts (outside w) att id)); [reflexivity|].
  change (vget "status" (PersistentGoal.to_dict g)) with (VStr (PersistentGoal.status g)).
  change (vget "evidence_refs" (PersistentGoal.to_dict g)) with (VList (PersistentGoal.evidence_refs g)).
  rewrite or_list.
  assert (Hp : (if (target =? "completed")%string then mret tt
     else
       t ← mlift (make_transition (VStr "goal") (VStr id) (VStr (PersistentGoal.status g)) (VStr target)
             (py_or act (VStr (_infer_action target))) why resume
             (refs_of (given_or refs (VList (PersistentGoal.evidence_refs g)))) (VBool false));
       all ← GoalRepository._all_subgoals_completed clock py_float in_unit zero id;
       GoalRepository._validate_transition machine t (Some all)) w
     = ((if (target =? "completed")%string then Ok tt else goal_permission log w id g target refs why resume act), w)).
  { destruct (target =? "completed")%string; [reflexivity|]. unfold goal_permission.
    destruct (make_transition _ _ _ _ _ _ _ _ _) as [t|e]; [|reflexivity].
    rewrite (M_lift_ok (Ok t) _ t) by reflexivity. unfold mbind at 1, M_bind at 1. rewrite (all_completed _ _ _ H), Hid.
    unfold mbind at 1 2 3, res_bind. unfold GoalRepository._validate_transition. unfold_m.
    destruct (machine _ _ _) as [r|e]; [|done]. by destruct (accepted r). }
  unfold mbind at 1, M_bind at 1. rewrite Hp.
  destruct (if (target =? "completed")%string then Ok tt else _) as [[]|e]; [|reflexivity].
  rewrite (M_bind_ok (GoalRepository.utc_now clock) _ (clock (ticks w)) w (tick w)) by reflexivity. cbv zeta.
  replace (match refs with VNone => dset "updated_at" (VStr (clock (ticks w))) (dset "status" (VStr target) (PersistentGoal.to_dict g))
           | v => dset "evidence_refs" v (dset "updated_at" (VStr (clock (ticks w))) (dset "status" (VStr target) (PersistentGoal.to_dict g))) end)
    with (dset "evidence_refs" (given_or refs (VList (PersistentGoal.evidence_refs g)))
            (PersistentGoal.to_dict (moved g target (clock (ticks w)) []))) by (by destruct refs).
  unfold mbind at 1, M_bind at 1. rewrite (moved_read _ g target _ _ _ (tick w) Hok Hs (clock_clean _)).
  fold (new_refs refs (PersistentGoal.evidence_refs g)).
  destruct (new_refs refs _) as [l|e]; [|reflexivity]. unfold mbind, res_bind. reflexivity.
Qed.

(** Assigning a value that is given. *)
Lemma assign_given k v dflt d :
  dget k d = Some dflt -> match v with VNone => d | x => dset k x d end = dset k (given_or v dflt) d.
Proof. intros H. destruct v; try reflexivity. symmetry. by apply dset_id. Qed.

(** A subgoal in its next status, from the values its dict is given. *)
Definition renewed (s : PersistentSubgoal.t) (status now : string) (pv bv rv ev : val) : res PersistentSubgoal.t :=
  p ← py_float (py_or pv zero);
  if negb (in_unit p) then Raise (ValueError "subgoal_progress_must_be_between_zero_and_one")
  else
    l ← list_refs (py_or ev (VList []));
    Ok (PersistentSubgoal.Make (PersistentSubgoal.subgoal_id s) (PersistentSubgoal.goal_id s) (PersistentSubgoal.title s)
          status (PersistentSubgoal.order s) p (clean_optional_text bv) rv l (PersistentSubgoal.created_at s) now).

Definition subgoal_values (s : PersistentSubgoal.t) (status now : string) (pv bv rv ev : val) : list (string * val) :=
  [("schema", VStr GOAL_SCHEMA); ("record_type", VStr "subgoal"); ("subgoal_id", VStr (PersistentSubgoal.subgoal_id s));
   ("goal_id", VStr (PersistentSubgoal.goal_id s)); ("title", VStr (PersistentSubgoal.title s)); ("status", VStr status);
   ("order", VInt (PersistentSubgoal.order s)); ("progress", pv); ("blocked_reason", bv); ("resume_point", rv);
   ("evidence_refs", ev); ("created_at", VStr (PersistentSubgoal.created_at s)); ("updated_at", VStr now)].

Lemma renewed_read (utc_now : M (repo A) string) s status now pv bv rv ev (w : repo A) :
  subgoal_ok py_float in_unit zero s -> status ∈ GoalStatus -> clean now ->
  PersistentSubgoal.from_mapping py_float in_unit zero utc_now (subgoal_values s status now pv bv rv ev) w
  = (renewed s status now pv bv rv ev, w).
Proof.
  intros (Hc & _) Hs Hn. rewrite !Forall_cons in Hc. destruct Hc as (H1 & H2 & H3 & H4 & _).
  destruct (clean_status_known _ Hs) as [S1 S2]. unfold PersistentSubgoal.from_mapping, subgoal_values.
  change (vget "created_at" _) with (VStr (PersistentSubgoal.created_at s)). change (vget "updated_at" _) with (VStr now).
  change (vget "subgoal_id" _) with (VStr (PersistentSubgoal.subgoal_id s)).
  change (vget "goal_id" _) with (VStr (PersistentSubgoal.goal_id s)). change (vget "title" _) with (VStr (PersistentSubgoal.title s)).
  change (vget "order" _) with (VInt (PersistentSubgoal.order s)). change (vget "status" _) with (VStr status).
  change (vget "progress" _) with pv. change (vget "blocked_reason" _) with bv. change (vget "resume_point" _) with rv.
  change (vget "evidence_refs" _) with ev.
  rewrite (or_clean now), (or_clean status) by done.
  rewrite (M_bind_ok _ _ _ _ _ (clean_stamp utc_now _ w H4)), (M_bind_ok _ _ _ _ _ (clean_stamp utc_now _ w Hn)).
  replace (py_or (VInt (PersistentSubgoal.order s)) (VInt 0)) with (VInt (PersistentSubgoal.order s))
    by (unfold py_or; cbn [truthy]; by destruct (Z.eqb_spec (PersistentSubgoal.order s) 0) as [->|]).
  unfold mlift, PersistentSubgoal.make, renewed. unfold_m. destruct (py_float _) as [p|e]; [|done].
  destruct (negb _); [done|]. rewrite !clean_required, S1 by done. reflexivity.
Qed.

(** What a transition of the subgoal needs. *)
Definition subgoal_permission (w : repo A) (id : string) (s : PersistentSubgoal.t) (target : string)
    (blocked resume refs why act : val) : res unit :=
  t ← make_transition (VStr "subgoal") (VStr id) (VStr (PersistentSubgoal.status s)) (VStr target)
        (py_or act (VStr (_infer_action target))) (py_or why blocked)
        (given_or resume (PersistentSubgoal.resume_point s))
        (refs_of (given_or refs (VList (PersistentSubgoal.evidence_refs s)))) (VBool false);
  r ← machine (outside w) t None;
  if accepted r then Ok tt else Raise (ValueError (res_reason r +:+ ":" +:+ default "None" (blocked_reason r))).

Abbreviation update_subgoal_status := (GoalRepository.update_subgoal_status machine clock py_float in_unit zero).

Lemma update_subgoal_run log w id k s status pv bv resume refs why act :
  represents log w -> clean_id id "subgoal_id" = Ok k -> dget k (k_subgoals (known_of log)) = Some s ->
  update_subgoal_status id status pv bv resume refs why act w
  = match clean_status status with
    | Raise e => (Raise e, w)
    | Ok target =>
        match subgoal_permission w id s target bv (resume_value resume) refs why act with
        | Raise e => (Raise e, w)
        | Ok _ =>
            match renewed s target (clock (ticks w)) (given_or pv (PersistentSubgoal.progress s))
                    (given_or bv (optional_val (PersistentSubgoal.blocked_reason s)))
                    (given_or (resume_value resume) (PersistentSubgoal.resume_point s))
                    (given_or refs (VList (PersistentSubgoal.evidence_refs s))) with
            | Raise e => (Raise e, tick w)
            | Ok s' =>
                (Ok (PersistentSubgoal.to_dict s'),
                 appended (Change "subgoal_status_updated" (clock (S (ticks w))) (SubgoalEntry s')) (tick w))
            end
        end
    end.
Proof using clock_clean Laws.
  intros H Hid Hg. destruct (known_subgoal _ _ _ _ H Hg) as [Hok _]. unfold GoalRepository.update_subgoal_status. erewrite M_bind_ok.
  2: { rewrite (got_subgoal _ _ _ H), Hid. unfold_m. rewrite Hg. reflexivity. }
  cbn [fmap option_fmap option_map]. destruct (clean_status status) as [target|e] eqn:Et; [|reflexivity].
  rewrite (M_lift_ok (Ok target) _ target) by reflexivity. cbv zeta. pose proof (status_clean _ _ Et) as Hs.
  change (vget "status" (PersistentSubgoal.to_dict s)) with (VStr (PersistentSubgoal.status s)).
  change (vget "evidence_refs" (PersistentSubgoal.to_dict s)) with (VList (PersistentSubgoal.evidence_refs s)).
  change (vget "resume_point" (PersistentSubgoal.to_dict s)) with (PersistentSubgoal.resume_point s).
  rewrite or_list.
  assert (Hp : (t ← mlift (make_transition (VStr "subgoal") (VStr id) (VStr (PersistentSubgoal.status s)) (VStr target)
        (py_or act (VStr (_infer_action target))) (py_or why bv) (given_or (resume_value resume) (PersistentSubgoal.resume_point s))
        (refs_of (given_or refs (VList (PersistentSubgoal.evidence_refs s)))) (VBool false));
      GoalRepository._validate_transition machine t None) w
    = (subgoal_permission w id s target bv (resume_value resume) refs why act, w)).
  { unfold subgoal_permission. destruct (make_transition _ _ _ _ _ _ _ _ _) as [t|e]; [|reflexivity].
    unfold GoalRepository._validate_transition. unfold_m. destruct (machine _ _ _) as [r|e]; [|done]. by destruct (accepted r). }
  rewrite <- M_assoc. unfold mbind at 1, M_bind at 1. rewrite Hp.
  destruct (subgoal_permission _ _ _ _ _ _ _ _ _) as [[]|e]; [|reflexivity].
  rewrite (M_bind_ok (GoalRepository.utc_now clock) _ (clock (ticks w)) w (tick w)) by reflexivity. cbv zeta.
  match goal with |- (PersistentSubgoal.from_mapping _ _ _ _ ?d ≫= _) _ = _ =>
    replace d with (subgoal_values s target (clock (ticks w)) (given_or pv (PersistentSubgoal.progress s))
      (given_or bv (optional_val (PersistentSubgoal.blocked_reason s)))
      (given_or (resume_value resume) (PersistentSubgoal.resume_point s))
      (given_or refs (VList (PersistentSubgoal.evidence_refs s))))
      by (generalize (resume_value resume); intros rv; rewrite (assign_given "progress" pv (PersistentSubgoal.progress s)) by reflexivity;
          rewrite (assign_given "blocked_reason" bv (optional_val (PersistentSubgoal.blocked_reason s))) by reflexivity;
          rewrite (assign_given "evidence_refs" refs (VList (PersistentSubgoal.evidence_refs s))) by (by destruct rv);
          by destruct rv) end.
  unfold mbind at 1, M_bind at 1. rewrite (renewed_read _ s target _ _ _ _ _ (tick w) Hok Hs (clock_clean _)).
  destruct (renewed _ _ _ _ _ _ _) as [s'|e]; reflexivity.
Qed.
End log.
