(* ===== verification/GoalHistory.v ===== *)
(** * The histories of goals

    What the operations of [GoalRepository] may append to the log of [GoalLog]
    ([legal]), that they append nothing else, and what that says of the status
    of a goal in every repository that can be reached. *)

From S2P Require Import Prelude PyVal Sealing Lineage Goals Completion Engineering GoalRecords GoalRepository GoalLog.

Section history.
Context {A : Type} `{Gate : AttestationGate A} (store_of : A -> evidence_store).
Context (clock : nat -> string) (clock_clean : forall n, clean (clock n)).
Context (py_float : val -> res val) (in_unit : val -> bool) (zero : val) (Laws : unit_laws py_float zero).

Abbreviation machine := (machine store_of).
Abbreviation utc_now := (GoalRepository.utc_now clock).
Abbreviation run_op := (GoalRepository.run_op machine clock py_float in_unit zero).
Abbreviation represents := (represents py_float in_unit zero).

(** ** What may be appended *)

Definition row_of (rows : list (string * string * string)) (x y : string) : Prop := exists act, (x, y, act) ∈ rows.

(** A goal moves by a row of its table, or is completed by the authority. *)
Definition goal_move (a : A) (g : PersistentGoal.t) (status : string) : Prop :=
  status ∈ GoalStatus
  /\ if (status =? "completed")%string
     then exists att id, clean_id id "goal_id" = Ok (PersistentGoal.goal_id g) /\ gate_accepts a att id = true
     else row_of _GOAL_TRANSITIONS (lifecycle_of (PersistentGoal.status g)) (lifecycle_of status).

(** The parts of a subgoal that stay. *)
Definition subgoal_core (s : PersistentSubgoal.t) : string * string * string * Z * string :=
  (PersistentSubgoal.subgoal_id s, PersistentSubgoal.goal_id s, PersistentSubgoal.title s, PersistentSubgoal.order s,
   PersistentSubgoal.created_at s).

Inductive legal (a : A) (k : known) : change -> Prop :=
  | NewGoal now g :
      goal_ok g -> dget (PersistentGoal.goal_id g) (k_goals k) = None ->
      legal a k (Change "goal_appended" now (GoalEntry g))
  | NewSubgoal now s :
      subgoal_ok py_float in_unit zero s -> is_Some (dget (PersistentSubgoal.goal_id s) (k_goals k)) ->
      dget (PersistentSubgoal.subgoal_id s) (k_subgoals k) = None ->
      legal a k (Change "subgoal_appended" now (SubgoalEntry s))
  | GoalMoved now g status stamp refs :
      dget (PersistentGoal.goal_id g) (k_goals k) = Some g -> clean stamp -> goal_move a g status ->
      legal a k (Change "goal_status_updated" now (GoalEntry (moved g status stamp refs)))
  | SubgoalMoved now s s' :
      dget (PersistentSubgoal.subgoal_id s) (k_subgoals k) = Some s -> subgoal_ok py_float in_unit zero s' ->
      subgoal_core s' = subgoal_core s ->
      row_of _SUBGOAL_TRANSITIONS (PersistentSubgoal.status s) (PersistentSubgoal.status s') ->
      legal a k (Change "subgoal_status_updated" now (SubgoalEntry s'))
  | Progressed now p :
      progress_record_ok py_float in_unit zero p -> is_Some (dget (GoalProgress.goal_id p) (k_goals k)) ->
      (forall q, dget (GoalProgress.goal_id p) (k_progress k) = Some q ->
         GoalProgress.completed_subgoals q ⊆ GoalProgress.completed_subgoals p
         /\ GoalProgress.blocked_subgoals q ⊆ GoalProgress.blocked_subgoals p
         /\ (GoalProgress.resume_point p = None -> GoalProgress.resume_point q = None)) ->
      legal a k (Change "progress_recorded" now (ProgressEntry p)).

Definition same (w w' : repo A) : Prop := lines w' = lines w /\ outside w' = outside w.

(** An operation is refused with the file as it was, or appends one change. *)
Inductive outcome (log : list change) (w : repo A) : res (list (string * val)) * repo A -> Prop :=
  | Refused e w' : same w w' -> outcome log w (Raise e, w')
  | Added c w' :
      lines w' = lines w ++ [written c] -> outside w' = outside w -> legal (outside w) (known_of log) c ->
      outcome log w (Ok (entry_dict (entry_of c)), w').

Lemma status_lower s : s ∈ GoalStatus -> lower (text (VStr s)) = s.
Proof.
  intros H. destruct (clean_status_known s H) as [E _]. unfold clean_status in E. case_bool_decide; [|done]. by injection E.
Qed.

Lemma lifecycle_read tt s x : tt ∈ ["goal"; "subgoal"] -> s ∈ GoalStatus ->
  clean_lifecycle_state tt (VStr s) = Ok x -> x = if (tt =? "goal")%string then lifecycle_of s else s.
Proof.
  intros Htt Hs. unfold clean_lifecycle_state. rewrite status_lower by done. unfold clean_target_type.
  assert (E : lower (text (VStr tt)) = tt) by (rewrite elem_of_cons, list_elem_of_singleton in Htt; by destruct Htt as [->| ->]).
  rewrite E, bool_decide_true by done. unfold_m. unfold lifecycle_of.
  destruct (tt =? "goal")%string; cbn [andb]; case_bool_decide; naive_solver.
Qed.

Lemma permitted_row tt id from to act why rp refs all (a : A) t r :
  tt ∈ ["goal"; "subgoal"] -> from ∈ GoalStatus -> to ∈ GoalStatus ->
  make_transition (VStr tt) (VStr id) (VStr from) (VStr to) act why rp refs (VBool false) = Ok t ->
  machine a t all = Ok r -> accepted r = true ->
  if (tt =? "goal")%string then row_of _GOAL_TRANSITIONS (lifecycle_of from) (lifecycle_of to)
  else row_of _SUBGOAL_TRANSITIONS from to.
Proof.
  intros Htt Hf Ht Em Er Ha. unfold machine in Er.
  destruct (transition_spec _ _ _ _ _ _ _ _ _ t (store_of a) all false Em) as (r' & Er' & _ & _ & _ & Hadm & _).
  rewrite Er in Er'. injection Er' as <-. apply Hadm in Ha as [A1 _ _ _].
  rewrite (make_transition_target _ _ _ _ _ _ _ _ _ t Em) in A1.
  assert (El : lower (strip tt) = tt) by (rewrite elem_of_cons, list_elem_of_singleton in Htt; by destruct Htt as [->| ->]).
  rewrite El in A1. unfold make_transition in Em. unfold_m. do 2 bind_ok Em.
  assert (Ea : a0 = tt).
  { unfold clean_target_type in E. rewrite text_strip, El, bool_decide_true in E by done. by injection E. }
  subst a0. do 4 bind_ok Em. injection Em as <-. cbn [from_state to_state action] in A1.
  rewrite (lifecycle_read _ _ _ Htt Hf E1), (lifecycle_read _ _ _ Htt Ht E2) in A1. unfold transitions_of in A1.
  destruct (tt =? "goal")%string; by eexists.
Qed.

(** ** Reading what is given *)

Lemma same_refl w : same w w.
Proof. by split. Qed.

Lemma represents_same log w w' : same w w' -> represents log w -> represents log w'.
Proof. intros [E _] [Hl H]. split; [by rewrite E|done]. Qed.

Lemma stamp_same w v : preserves (same w) (stamp_or_now utc_now v).
Proof. intros s Hs. unfold stamp_or_now. by destruct (truthy v). Qed.
#[local] Hint Resolve stamp_same : preserves.

Lemma goal_same w d : preserves (same w) (PersistentGoal.from_mapping utc_now d).
Proof. unfold PersistentGoal.from_mapping. preserve. Qed.
Lemma subgoal_same w d : preserves (same w) (PersistentSubgoal.from_mapping py_float in_unit zero utc_now d).
Proof. unfold PersistentSubgoal.from_mapping. preserve. Qed.
Lemma progress_same w d : preserves (same w) (GoalProgress.from_mapping py_float in_unit zero utc_now d).
Proof. unfold GoalProgress.from_mapping. preserve. Qed.

Lemma goal_made d (w : repo A) g w' : PersistentGoal.from_mapping utc_now d w = (Ok g, w') -> goal_ok g.
Proof.
  unfold PersistentGoal.from_mapping. intros H. run H as a w1 E1. run H as b w2 E2. apply M_lift_inv in H as [H _].
  by eapply make_goal_ok.
Qed.
Lemma subgoal_made d (w : repo A) s w' :
  PersistentSubgoal.from_mapping py_float in_unit zero utc_now d w = (Ok s, w') -> subgoal_ok py_float in_unit zero s.
Proof.
  unfold PersistentSubgoal.from_mapping. intros H. run H as a w1 E1. run H as b w2 E2. apply M_lift_inv in H as [H _].
  by eapply make_subgoal_ok.
Qed.
Lemma progress_made d (w : repo A) p w' :
  GoalProgress.from_mapping py_float in_unit zero utc_now d w = (Ok p, w') -> progress_record_ok py_float in_unit zero p.
Proof.
  unfold GoalProgress.from_mapping. intros H. run H as a w1 E1. apply M_lift_inv in H as [H _].
  eapply make_progress_ok; [exact Laws| |exact H]. exact I.
Qed.

(** ** Every operation *)

Lemma outcome_same log w w' x : same w w' -> outcome log w' x -> outcome log w x.
Proof.
  intros [E1 E2] [e v [F1 F2]|c v F1 F2 Hc].
  - apply Refused. split; by etransitivity.
  - apply Added; [by rewrite F1, E1|by rewrite F2|]. by rewrite <- E2.
Qed.

Lemma outcome_append log w kind e :
  (forall now, legal (outside w) (known_of log) (Change kind now e)) ->
  outcome log w (GoalRepository._append clock kind (entry_dict e) w).
Proof. intros H. rewrite append_run. by apply (Added log w (Change kind (clock (ticks w)) e)). Qed.

(** Reading what is given, then the rest. *)
Lemma outcome_given {R} (m : M (repo A) R) (P : R -> Prop) f log w :
  represents log w -> preserves (same w) m -> (forall r w', m w = (Ok r, w') -> P r) ->
  (forall r w', P r -> represents log w' -> outcome log w' (f r w')) -> outcome log w ((m ≫= f) w).
Proof.
  intros H Hm HP Hf. pose proof (Hm w (same_refl w)) as Hs. unfold mbind, M_bind.
  destruct (m w) as [[r|e] w'] eqn:E; [|by apply Refused]. eapply outcome_same; [exact Hs|]. apply Hf; [by eapply HP|].
  by eapply represents_same.
Qed.

Lemma known_id s f : clean s -> clean_id s f = Ok s.
Proof. apply clean_required. Qed.

Definition given_ok {R} (P : R -> Prop) (g : given R) : Prop := match g with GivenObject r => P r | GivenMapping _ => True end.

Lemma append_goal_outcome log w goal : represents log w -> given_ok goal_ok goal ->
  outcome log w (GoalRepository.append_goal clock py_float in_unit zero goal w).
Proof.
  intros H Hg. unfold GoalRepository.append_goal. apply (outcome_given _ goal_ok); [done| | |].
  - destruct goal; [auto with preserves|apply goal_same].
  - destruct goal as [g|d]; intros r w' E; [by apply M_ret_inv in E as [-> _]|by eapply goal_made].
  - clear w H. intros g w Hok H. destruct Hok as [Hc Hok']. pose proof (Forall_inv Hc) as Hid.
    unfold mbind, M_bind. rewrite (got_goal _ _ _ _ _ _ _ H), (known_id _ _ Hid). unfold mbind, res_bind.
    destruct (dget _ _) as [old|] eqn:E; cbn [fmap option_fmap option_map]; [by apply Refused|].
    apply (outcome_append log w "goal_appended" (GoalEntry g)). intros now. by apply NewGoal.
Qed.

Lemma append_subgoal_outcome log w subgoal : represents log w -> given_ok (subgoal_ok py_float in_unit zero) subgoal ->
  outcome log w (GoalRepository.append_subgoal clock py_float in_unit zero subgoal w).
Proof.
  intros H Hg. unfold GoalRepository.append_subgoal. apply (outcome_given _ (subgoal_ok py_float in_unit zero)); [done| | |].
  - destruct subgoal; [auto with preserves|apply subgoal_same].
  - destruct subgoal as [g|d]; intros r w' E; [by apply M_ret_inv in E as [-> _]|by eapply subgoal_made].
  - clear w H. intros s w Hok H. pose proof Hok as [Hc _]. rewrite !Forall_cons in Hc. destruct Hc as (Hid & Hgoal & _).
    unfold mbind, M_bind. rewrite (got_goal _ _ _ _ _ _ _ H), (known_id _ _ Hgoal). unfold mbind, res_bind.
    destruct (dget _ _) as [g|] eqn:E; cbn [fmap option_fmap option_map]; [|by apply Refused].
    unfold mbind, M_bind. rewrite (got_subgoal _ _ _ _ _ _ _ H), (known_id _ _ Hid). unfold mbind, res_bind.
    destruct (dget (PersistentSubgoal.subgoal_id s) _) as [old|] eqn:E2; cbn [fmap option_fmap option_map]; [by apply Refused|].
    apply (outcome_append log w "subgoal_appended" (SubgoalEntry s)). intros now. by apply NewSubgoal.
Qed.

Lemma update_goal_outcome log w id status refs why resume act att : represents log w ->
  outcome log w (GoalRepository.update_goal_status machine clock py_float in_unit zero id status refs why resume act att w).
Proof using clock_clean Laws.
  intros H. destruct (clean_id id "goal_id") as [k|e] eqn:Ek.
  2: { unfold GoalRepository.update_goal_status, mbind, M_bind. rewrite (got_goal _ _ _ _ _ _ _ H), Ek. by apply Refused. }
  destruct (dget k (k_goals (known_of log))) as [g|] eqn:Eg.
  2: { unfold GoalRepository.update_goal_status, mbind, M_bind. rewrite (got_goal _ _ _ _ _ _ _ H), Ek.
       unfold mbind, res_bind. rewrite Eg. cbn [fmap option_fmap option_map]. unfold clean_id in Ek. unfold_m. rewrite Ek.
       by apply Refused. }
  rewrite (update_goal_run store_of clock clock_clean py_float in_unit zero Laws log w id k g) by done.
  destruct (known_goal _ _ _ _ _ _ _ H Eg) as [Hok Hid].
  destruct (clean_status status) as [target|e] eqn:Et; [|by apply Refused]. cbv zeta. pose proof (status_clean _ _ Et) as Hs.
  destruct ((target =? "completed")%string && negb (gate_accepts (outside w) att id)) eqn:Eg2; [by apply Refused|].
  destruct (if (target =? "completed")%string then Ok tt else _) as [[]|e] eqn:Ep; [|by apply Refused].
  destruct (new_refs refs _) as [l|e]; [|by apply Refused].
  apply (Added log w (Change "goal_status_updated" (clock (S (ticks w))) (GoalEntry (moved g target (clock (ticks w)) l))));
    [done|done|].
  apply GoalMoved; [by rewrite Hid|done|]. split; [done|]. destruct (target =? "completed")%string eqn:Ec.
  - exists att, id. rewrite Hid. split; [done|]. cbn [andb] in Eg2. by apply negb_false_iff in Eg2.
  - clear Eg2. unfold goal_permission in Ep. unfold_m. bind_ok Ep. rewrite Ek in Ep. bind_ok Ep.
    destruct (accepted _) eqn:Ea; [|done]. destruct Hok as (_ & _ & Hst).
    exact (permitted_row "goal" _ _ _ _ _ _ _ _ _ _ _ ltac:(by left) Hst Hs E E0 Ea).
Qed.

Lemma renewed_ok s status now pv bv rv ev s' :
  subgoal_ok py_float in_unit zero s -> status ∈ GoalStatus -> clean now ->
  renewed py_float in_unit zero s status now pv bv rv ev = Ok s' ->
  subgoal_ok py_float in_unit zero s' /\ subgoal_core s' = subgoal_core s /\ PersistentSubgoal.status s' = status.
Proof.
  intros (Hc & _) Hs Hn. unfold renewed. unfold_m. intros H. bind_ok H. destruct (negb (in_unit a)) eqn:Eu; [done|].
  bind_ok H. injection H as <-. apply negb_false_iff in Eu. split; [|done]. split; [|split; [done|split]].
  - cbn [PersistentSubgoal.subgoal_id PersistentSubgoal.goal_id PersistentSubgoal.title PersistentSubgoal.created_at
      PersistentSubgoal.updated_at]. rewrite !Forall_cons in *. naive_solver.
  - by eapply made_float.
  - apply clean_optional_idem.
Qed.

Lemma update_subgoal_outcome log w id status pv bv resume refs why act : represents log w ->
  outcome log w
    (GoalRepository.update_subgoal_status machine clock py_float in_unit zero id status pv bv resume refs why act w).
Proof using clock_clean Laws.
  intros H. destruct (clean_id id "subgoal_id") as [k|e] eqn:Ek.
  2: { unfold GoalRepository.update_subgoal_status, mbind, M_bind. rewrite (got_subgoal _ _ _ _ _ _ _ H), Ek. by apply Refused. }
  destruct (dget k (k_subgoals (known_of log))) as [s|] eqn:Eg.
  2: { unfold GoalRepository.update_subgoal_status, mbind, M_bind. rewrite (got_subgoal _ _ _ _ _ _ _ H), Ek.
       unfold mbind, res_bind. rewrite Eg. cbn [fmap option_fmap option_map]. unfold clean_id in Ek. unfold_m. rewrite Ek.
       by apply Refused. }
  rewrite (update_subgoal_run store_of clock clock_clean py_float in_unit zero Laws log w id k s) by done.
  destruct (known_subgoal _ _ _ _ _ _ _ H Eg) as [Hok Hid].
  destruct (clean_status status) as [target|e] eqn:Et; [|by apply Refused]. pose proof (status_clean _ _ Et) as Hs.
  destruct (subgoal_permission _ _ _ _ _ _ _ _ _ _) as [[]|e] eqn:Ep; [|by apply Refused].
  destruct (renewed _ _ _ _ _ _ _ _ _ _) as [s'|e] eqn:Er; [|by apply Refused].
  destruct (renewed_ok _ _ _ _ _ _ _ _ Hok Hs (clock_clean _) Er) as (Hok' & Hcore & Hst').
  apply (Added log w (Change "subgoal_status_updated" (clock (S (ticks w))) (SubgoalEntry s'))); [done|done|].
  apply (SubgoalMoved _ _ _ s); [by rewrite Hid|done|done|]. rewrite Hst'.
  unfold subgoal_permission in Ep. unfold_m. do 2 bind_ok Ep. destruct (accepted _) eqn:Ea; [|done].
  destruct Hok as (_ & Hst & _).
  exact (permitted_row "subgoal" _ _ _ _ _ _ _ _ _ _ _ ltac:(by right; left) Hst Hs E E0 Ea).
Qed.

(** *** Progress *)

Lemma fold_add_text l : forall acc,
  Forall clean acc -> NoDup acc -> Forall clean l ->
  let r := fold_left add_text (map VStr l) acc in
  Forall clean r /\ NoDup r /\ (forall x, x ∈ r <-> x ∈ acc \/ x ∈ l).
Proof.
  induction l as [|y l IH]; intros acc Ha Hn Hl; cbn [map fold_left]; [split_and!; [done|done|set_solver]|].
  apply Forall_cons in Hl as [[Hy Hy'] Hl]. 
  assert (E : add_text acc (VStr y) = if bool_decide (y ∈ acc) then acc else acc ++ [y]).
  { unfold add_text. rewrite text_strip, Hy. by apply String.eqb_neq in Hy' as ->. }
  rewrite E. case_bool_decide as Hin.
  - destruct (IH acc Ha Hn Hl) as (R1 & R2 & R3). split_and!; [done|done|]. intros x. rewrite R3. set_solver.
  - destruct (IH (acc ++ [y])) as (R1 & R2 & R3).
    + apply Forall_app_2; [done|]. apply Forall_singleton. by split.
    + apply NoDup_app. split; [done|]. split; [|apply NoDup_singleton]. by intros z Hz ->%list_elem_of_singleton.
    + done.
    + split_and!; [done|done|]. intros x. rewrite R3. set_solver.
Qed.

Lemma union_texts a b : Forall clean a -> Forall clean b ->
  exists l, _union (VList (map VStr a)) (VList (map VStr b)) = Ok l
    /\ Forall clean l /\ NoDup l /\ (forall x, x ∈ l <-> x ∈ a \/ x ∈ b).
Proof.
  intros Ha Hb. unfold _union. rewrite !or_list. cbn [py_iter]. unfold_m. rewrite <- map_app. eexists. split; [done|].
  destruct (fold_add_text (a ++ b) [] ltac:(constructor) ltac:(constructor) ltac:(by apply Forall_app_2)) as (R1 & R2 & R3).
  split_and!; [done|done|]. intros x. rewrite R3. set_solver.
Qed.

Lemma progress_fields (w : repo A) d p w' :
  GoalProgress.from_mapping py_float in_unit zero utc_now d w = (Ok p, w') ->
  clean_required_text (vget "goal_id" d) "goal_id" = Ok (GoalProgress.goal_id p)
  /\ copy_text_list (py_or (vget "completed_subgoals" d) (VList [])) "completed_subgoals"
     = Ok (GoalProgress.completed_subgoals p)
  /\ copy_text_list (py_or (vget "blocked_subgoals" d) (VList [])) "blocked_subgoals" = Ok (GoalProgress.blocked_subgoals p)
  /\ GoalProgress.read_resume (GoalProgress.ResumeValue (vget "resume_point" d)) = Ok (GoalProgress.resume_point p).
Proof.
  unfold GoalProgress.from_mapping. intros H. run H as a w1 E1. apply M_lift_inv in H as [H _].
  unfold GoalProgress.make in H. unfold_m. bind_ok H. destruct (negb _); [done|]. do 6 bind_ok H. injection H as <-. done.
Qed.

(** What comes in, with the progress before it. *)
Lemma merged_reads q p d (now : string) (w : repo A) p' w' :
  progress_record_ok py_float in_unit zero q -> progress_record_ok py_float in_unit zero p ->
  GoalRepository.merged (GoalProgress.to_dict q) (GoalProgress.to_dict p) = Ok d ->
  GoalProgress.from_mapping py_float in_unit zero utc_now (dset "updated_at" (VStr now) d) w = (Ok p', w') ->
  GoalProgress.goal_id p' = GoalProgress.goal_id p
  /\ GoalProgress.completed_subgoals q ⊆ GoalProgress.completed_subgoals p'
  /\ GoalProgress.blocked_subgoals q ⊆ GoalProgress.blocked_subgoals p'
  /\ (GoalProgress.resume_point p' = None -> GoalProgress.resume_point q = None).
Proof.
  intros (_ & _ & [C1 _] & [B1 _] & _) (Hid & _ & [C2 _] & [B2 _] & _) Hm H. unfold GoalRepository.merged in Hm.
  change (vget "completed_subgoals" (GoalProgress.to_dict ?x)) with (VList (map VStr (GoalProgress.completed_subgoals x))) in Hm.
  change (vget "blocked_subgoals" (GoalProgress.to_dict ?x)) with (VList (map VStr (GoalProgress.blocked_subgoals x))) in Hm.
  destruct (union_texts _ _ C1 C2) as (cs & Ec & Hc & Nc & Ic). destruct (union_texts _ _ B1 B2) as (bs & Eb & Hb & Nb & Ib).
  rewrite Ec, Eb in Hm. unfold mbind, res_bind in Hm.
  set (d0 := dset "blocked_subgoals" _ _) in Hm.
  assert (Er : vget "resume_point" d0 = from_option (fun r => VDict (resume_to_dict r)) VNone (GoalProgress.resume_point p))
    by reflexivity.
  assert (Hd : vget "goal_id" d = VStr (GoalProgress.goal_id p)
    /\ vget "completed_subgoals" d = VList (map VStr cs) /\ vget "blocked_subgoals" d = VList (map VStr bs)
    /\ (vget "resume_point" d = VNone -> GoalProgress.resume_point q = None)).
  { rewrite Er in Hm. destruct (GoalProgress.resume_point p) as [r|] eqn:Ep; injection Hm as <-;
      [by rewrite Er|]. split_and!; try done.
    change (vget "resume_point" _) with (from_option (fun r => VDict (resume_to_dict r)) VNone (GoalProgress.resume_point q)).
    by destruct (GoalProgress.resume_point q). }
  destruct Hd as (D1 & D2 & D3 & D4). destruct (progress_fields _ _ _ _ H) as (F1 & F2 & F3 & F4).
  rewrite !vget_dset_ne in F1, F2, F3, F4 by done. rewrite D1, clean_required in F1 by done. injection F1 as <-.
  rewrite D2, or_list, text_list_known in F2 by done. injection F2 as <-.
  rewrite D3, or_list, text_list_known in F3 by done. injection F3 as <-. split_and!; [done|set_solver..|].
  intros Hn. apply D4. rewrite Hn in F4. destruct (vget "resume_point" d); try done. unfold GoalProgress.read_resume in F4.
  unfold_m. by destruct (resume_from_mapping _).
Qed.

Lemma record_progress_outcome log w p : represents log w -> given_ok (progress_record_ok py_float in_unit zero) p ->
  outcome log w (GoalRepository.record_progress clock py_float in_unit zero p w).
Proof.
  intros H Hp. unfold GoalRepository.record_progress. apply (outcome_given _ (progress_record_ok py_float in_unit zero)); [done| | |].
  - destruct p; [auto with preserves|apply progress_same].
  - destruct p as [p|d]; intros r w' E; [by apply M_ret_inv in E as [-> _]|by eapply progress_made].
  - clear w H Hp p. intros p w Hok H. pose proof Hok as (Hid & _). cbv zeta. unfold mbind at 1, M_bind at 1.
    rewrite (got_goal _ _ _ _ _ _ _ H), (known_id _ _ Hid). unfold mbind at 1, res_bind at 1.
    destruct (dget _ (k_goals _)) as [g|] eqn:E; cbn [fmap option_fmap option_map]; [|by apply Refused].
    unfold mbind at 1, M_bind at 1. rewrite (got_progress _ _ _ _ _ _ _ H), (known_id _ _ Hid). unfold mbind at 1, res_bind at 1.
    unfold mbind at 1, M_bind at 1, mlift at 1.
    destruct (match GoalProgress.to_dict <$> _ with None => _ | Some d => _ end) as [d|e] eqn:Ed; [|by apply Refused].
    apply (outcome_given _ (fun _ => True)); [done|intros s Hs; exact Hs|done|]. clear w H. intros now w _ H.
    pose proof (progress_same w (dset "updated_at" (VStr now) d) w (same_refl w)) as Hs. unfold mbind, M_bind.
    destruct (GoalProgress.from_mapping _ _ _ _ _ w) as [[p'|e] w'] eqn:Ep; [|by apply Refused].
    eapply outcome_same; [exact Hs|]. apply (outcome_append log w' "progress_recorded" (ProgressEntry p')). intros stamp.
    destruct (dget (GoalProgress.goal_id p) (k_progress (known_of log))) as [q|] eqn:Eq;
      cbn [fmap option_fmap option_map] in Ed.
    + destruct (known_progress _ _ _ _ _ _ _ H Eq) as [Hq _].
      destruct (merged_reads q p d now w p' w' Hq Hok Ed Ep) as (I1 & I2).
      apply Progressed; rewrite ?I1; [by eapply progress_made|by exists g|]. rewrite Eq. by intros ? [= <-].
    + injection Ed as <-. destruct (progress_fields _ _ _ _ Ep) as (F1 & _). rewrite vget_dset_ne in F1 by done.
      change (vget "goal_id" (GoalProgress.to_dict p)) with (VStr (GoalProgress.goal_id p)) in F1.
      rewrite clean_required in F1 by done. injection F1 as F1.
      apply Progressed; rewrite <- ?F1; [by eapply progress_made|by exists g|]. by rewrite Eq.
Qed.

(** ** Runs *)

(** Records that are objects come from their constructors. *)
Definition op_ok (o : GoalRepository.op) : Prop :=
  match o with
  | GoalRepository.AppendGoal g => given_ok goal_ok g
  | GoalRepository.AppendSubgoal s => given_ok (subgoal_ok py_float in_unit zero) s
  | GoalRepository.RecordProgress p => given_ok (progress_record_ok py_float in_unit zero) p
  | _ => True
  end.

Lemma op_outcome log w o : represents log w -> op_ok o -> outcome log w (run_op o w).
Proof using clock_clean Laws.
  intros H Ho. destruct o.
  - by apply append_goal_outcome.
  - by apply append_subgoal_outcome.
  - by apply update_goal_outcome.
  - by apply update_subgoal_outcome.
  - by apply record_progress_outcome.
Qed.

(** The operations on the repository, and the rest of the program. *)
Inductive repo_step (w : repo A) : repo A -> Prop :=
  | RsOp o : op_ok o -> repo_step w (run_op o w).2
  | RsOutside a : gate_reached a -> repo_step w (Repo a (lines w) (ticks w)).

Definition lawful (log : list change) : Prop :=
  forall before c after, log = before ++ c :: after -> exists a, gate_reached a /\ legal a (known_of before) c.

Definition repo_inv (w : repo A) (log : list change) : Prop :=
  gate_reached (outside w) /\ represents log w /\ lawful log.

Lemma legal_entry_ok a log (w : repo A) c : represents log w -> legal a (known_of log) c -> entry_ok py_float in_unit zero (entry_of c).
Proof.
  intros H Hc. destruct Hc as [now g Hg|now s Hs|now g st stamp refs Hg Hn [Hst _]|now s s' Hs Hs'|now p Hp]; try done.
  destruct (known_goal _ _ _ _ _ _ _ H Hg) as [(Hc & Hd & _) _]. cbn [entry_of entry_ok]. split; [|split; [exact Hd|exact Hst]].
  rewrite !Forall_cons in *. unfold moved. cbn [PersistentGoal.goal_id PersistentGoal.title PersistentGoal.created_at
    PersistentGoal.updated_at]. naive_solver.
Qed.

Lemma lawful_snoc log c a : lawful log -> gate_reached a -> legal a (known_of log) c -> lawful (log ++ [c]).
Proof.
  intros Hl Ha Hc before c' after. destruct after as [|x after] using rev_ind.
  - intros [<- [= <-]]%app_inj_tail. by exists a.
  - rewrite app_comm_cons, app_assoc. intros [-> _]%app_inj_tail. by eapply Hl.
Qed.

(** A step keeps the log or appends one legal change. *)
Lemma step_inv w w' log : repo_inv w log -> repo_step w w' ->
  repo_inv w' log \/ exists c a, gate_reached a /\ legal a (known_of log) c /\ repo_inv w' (log ++ [c]).
Proof using clock_clean Laws.
  intros (Ha & H & Hl) Hs. destruct Hs as [o Ho|a Hr].
  - pose proof (op_outcome log w o H Ho) as Hout. destruct Hout as [e w' [E1 E2]|c w' E1 E2 Hc]; cbn [snd].
    + left. split; [by rewrite E2|]. split; [|done]. by eapply represents_same; [split|].
    + right. exists c, (outside w). split; [done|]. split; [done|]. split; [by rewrite E2|]. split.
      * destruct H as [El Hok]. split; [by rewrite E1, El, map_app|]. apply Forall_app_2; [done|]. apply Forall_singleton.
        by eapply legal_entry_ok.
      * by eapply lawful_snoc.
  - left. split; [done|]. split; [|done]. destruct H as [El Hok]. by split.
Qed.

Lemma run_inv w w' log : repo_inv w log -> rtc repo_step w w' -> exists more, repo_inv w' (log ++ more).
Proof using clock_clean Laws.
  intros H Hr. revert log H. induction Hr as [w|w w1 w2 Hs _ IH]; intros log H; [exists []; by rewrite app_nil_r|].
  destruct (step_inv _ _ _ H Hs) as [H1|(c & a & _ & _ & H1)]; [by apply IH|].
  destruct (IH _ H1) as [more H2]. exists (c :: more). by rewrite <- app_assoc in H2.
Qed.

Definition fresh_repo (w : repo A) : Prop := lines w = [] /\ gate_reached (outside w).

Lemma fresh_inv w : fresh_repo w -> repo_inv w [].
Proof. intros [H Ha]. split; [done|]. split; [by split|]. by intros [|? ?] ? ?. Qed.

Lemma learn_snoc log c : known_of (log ++ [c]) = learn (known_of log) (reload_entry (entry_of c)).
Proof. unfold known_of, learn_all. by rewrite fold_left_app. Qed.

(** ** The status of a goal *)

Definition status_of (k : known) (gid : string) : option string := PersistentGoal.status <$> dget gid (k_goals k).

Definition table_step (x y : string) : Prop :=
  y <> "completed" /\ row_of _GOAL_TRANSITIONS (lifecycle_of x) (lifecycle_of y).

(** Some state of the authority that can be reached has the goal completed. *)
Definition authority_completed (gid : string) : Prop :=
  exists a id, gate_reached a /\ clean_id id "goal_id" = Ok gid /\ goal_done a id.

(** Where a goal can be from [st]. *)
Definition follows (gid st st' : string) : Prop :=
  rtc table_step st st' \/ st' = "completed" /\ authority_completed gid.

Lemma completed_is_terminal y : ~ table_step "completed" y.
Proof.
  intros [_ [act H]]. assert (E : forallb (fun r => negb (r.1.1 =? "completed")%string) _GOAL_TRANSITIONS = true) by reflexivity.
  rewrite forallb_forall in E. apply list_elem_of_In, E in H. discriminate.
Qed.

Lemma legal_status log (w : repo A) c a gid st0 st :
  represents log w -> gate_reached a -> legal a (known_of log) c ->
  status_of (known_of log) gid = Some st -> follows gid st0 st ->
  exists st', status_of (known_of (log ++ [c])) gid = Some st' /\ follows gid st0 st'.
Proof.
  intros H Ha Hc Hst Hf. rewrite learn_snoc. unfold status_of in *.
  destruct Hc as [now g Hg Hn|now s|now g status stamp refs Hg Hn [Hs Hm]|now s s'|now p];
    cbn [entry_of reload_entry learn k_goals]; try (by exists st); rewrite dget_dset;
    unfold reload_goal, moved; cbn [PersistentGoal.goal_id].
  - destruct (String.eqb_spec (PersistentGoal.goal_id g) gid) as [<-|]; [by rewrite Hn in Hst|by exists st].
  - destruct (String.eqb_spec (PersistentGoal.goal_id g) gid) as [<-|]; [|by exists st].
    exists status. split; [done|]. rewrite Hg in Hst. cbn in Hst. injection Hst as Hst.
    destruct (String.eqb_spec status "completed") as [->|Hne].
    + destruct Hm as (att & id & Eid & Hacc). right. split; [done|]. exists a, id. split; [done|]. split; [done|].
      by eapply gate_sound.
    + rewrite Hst in Hm. assert (Ht : table_step st status) by by split.
      destruct Hf as [Hf|[-> _]]; [|by apply completed_is_terminal in Ht]. left. by eapply rtc_r.
Qed.

Lemma history_status more : forall log (w : repo A) gid st0 st,
  represents (log ++ more) w -> lawful (log ++ more) ->
  status_of (known_of log) gid = Some st -> follows gid st0 st ->
  exists st', status_of (known_of (log ++ more)) gid = Some st' /\ follows gid st0 st'.
Proof.
  induction more as [|c more IH]; intros log w gid st0 st H Hl Hst Hf; [rewrite app_nil_r; by exists st|].
  destruct (Hl log c more eq_refl) as (a & Ha & Hc).
  assert (Hr : represents log (Repo (outside w) (map written log) 0)).
  { split; [done|]. destruct H as [_ H]. by apply Forall_app in H as [H _]. }
  destruct (legal_status log _ c a gid st0 st Hr Ha Hc Hst Hf) as (st1 & E1 & F1).
  rewrite (app_assoc log [c] more : log ++ c :: more = (log ++ [c]) ++ more) in *. by eapply IH.
Qed.

Abbreviation get_goal := (GoalRepository.get_goal clock py_float in_unit zero).

Lemma status_read log (w : repo A) gid st :
  represents log w -> clean gid ->
  (exists d, get_goal gid w = (Ok (Some d), w) /\ vget "status" d = VStr st) <-> status_of (known_of log) gid = Some st.
Proof.
  intros H Hid. rewrite (got_goal _ _ _ _ _ _ _ H), (known_id _ _ Hid). unfold mbind, res_bind, status_of.
  destruct (dget gid (k_goals (known_of log))) as [g|]; cbn [fmap option_fmap option_map]; [|naive_solver].
  split; [intros (d & [= <-] & E)|intros [= <-]; by eexists].
  change (vget "status" (PersistentGoal.to_dict g)) with (VStr (PersistentGoal.status g)) in E. by injection E as ->.
Qed.

Definition closed_statuses (S : list string) : bool :=
  forallb (fun row => negb (bool_decide (row.1.1 ∈ map lifecycle_of S)) || bool_decide (row.1.2 ∈ S)
    || (row.1.2 =? "completed")%string) _GOAL_TRANSITIONS
  && negb (bool_decide ("planned" ∈ S)) && negb (bool_decide ("completed" ∈ S)).

(** Statuses that no row leaves. *)
Lemma table_closed S x y : closed_statuses S = true -> x ∈ S -> rtc table_step x y -> y ∈ S.
Proof.
  intros Hc Hx Hr. revert Hx. induction Hr as [x|x y z [Hn [act Hin]] _ IH]; [done|]. intros Hx. apply IH.
  unfold closed_statuses in Hc. apply andb_true_iff in Hc as [Hc _]. apply andb_true_iff in Hc as [Hc Hp].
  rewrite forallb_forall in Hc. apply list_elem_of_In, Hc in Hin. cbn [fst snd] in Hin.
  rewrite bool_decide_true in Hin by (by apply list_elem_of_In, in_map, list_elem_of_In).
  cbn [negb orb] in Hin. apply negb_true_iff, bool_decide_eq_false in Hp. unfold lifecycle_of in Hin.
  destruct (String.eqb_spec y "pending") as [->|].
  - rewrite bool_decide_false in Hin by done. discriminate.
  - apply orb_true_iff in Hin as [Hin|Hin]; [by apply bool_decide_eq_true in Hin|].
    by apply String.eqb_eq in Hin.
Qed.

(** ** Properties *)

(** C5. The repository implements its log.  On a file that is the writing of
    a log the reads return what the log says, without a change, and every
    operation either raises with the file and the rest of the program as they
    were, or returns the dict of exactly one change that is legal after the
    log, with the file the writing of the log and that change: a new record
    under a new id (a subgoal of a known goal), a goal moved by a row of its
    table or completed by the authority, a subgoal moved by a row of its own
    with its identity kept, or progress that keeps every completed and blocked
    subgoal and does not lose the resume point. *)
Theorem repository_refines_log log w :
  represents log w ->
  (forall id k, clean_id id "goal_id" = Ok k ->
     get_goal id w = (Ok (PersistentGoal.to_dict <$> dget k (k_goals (known_of log))), w)
     /\ GoalRepository.list_subgoals clock py_float in_unit zero id w
        = (Ok (map PersistentSubgoal.to_dict (subgoals_of (known_of log) k)), w))
  /\ (forall o, op_ok o ->
     (exists e w', run_op o w = (Raise e, w') /\ lines w' = lines w /\ outside w' = outside w)
     \/ (exists c w', run_op o w = (Ok (entry_dict (entry_of c)), w') /\ outside w' = outside w
          /\ legal (outside w) (known_of log) c /\ represents (log ++ [c]) w')).
Proof using clock_clean Laws.
  intros H. split.
  - intros id k Ek. rewrite (got_goal _ _ _ _ _ _ _ H), (listed_subgoals _ _ _ _ _ _ _ H), Ek. done.
  - intros o Ho. pose proof (op_outcome log w o H Ho) as Hout. destruct Hout as [e w' [E1 E2]|c w' E1 E2 Hc].
    + left. by exists e, w'.
    + right. exists c, w'. split; [done|]. split; [done|]. split; [done|]. destruct H as [El Hok].
      split; [by rewrite E1, El, map_app|]. apply Forall_app_2; [done|]. apply Forall_singleton.
      by eapply legal_entry_ok; [split|].
Qed.

(** C6. In every run of the repository from an empty file, whatever the rest
    of the program does in between, a goal that is known stays known, and its
    status moves by the rows of the lifecycle table or is [completed] with the
    authority behind it: a goal that was not completed is so only when some
    state of the authority has this goal's completion, and a goal that is
    blocked or failed never becomes active again. *)
Theorem goal_status_history w0 w1 w2 gid d1 :
  fresh_repo w0 -> rtc repo_step w0 w1 -> rtc repo_step w1 w2 -> clean gid ->
  get_goal gid w1 = (Ok (Some d1), w1) ->
  exists d2 st1 st2, get_goal gid w2 = (Ok (Some d2), w2)
    /\ vget "status" d1 = VStr st1 /\ vget "status" d2 = VStr st2
    /\ (rtc table_step st1 st2 \/ st2 = "completed" /\ authority_completed gid)
    /\ (st1 <> "completed" -> st2 = "completed" -> authority_completed gid)
    /\ (st1 ∈ ["blocked"; "resumable"; "failed"] -> st2 ∈ ["blocked"; "resumable"; "failed"; "completed"])
    /\ (st1 = "failed" -> st2 ∈ ["failed"; "completed"]).
Proof using clock_clean Laws.
  intros H0 R1 R2 Hid Hg. destruct (run_inv _ _ _ (fresh_inv _ H0) R1) as [log I1]. cbn [app] in I1.
  destruct (run_inv _ _ _ I1 R2) as [more I2]. destruct I1 as (_ & H1 & _), I2 as (_ & H2 & L2).
  destruct (dget gid (k_goals (known_of log))) as [g|] eqn:Eg.
  2: { rewrite (got_goal _ _ _ _ _ _ _ H1), (known_id _ _ Hid) in Hg. unfold mbind, res_bind in Hg. by rewrite Eg in Hg. }
  assert (Hst : status_of (known_of log) gid = Some (PersistentGoal.status g)) by (unfold status_of; by rewrite Eg).
  destruct (history_status more log w2 gid (PersistentGoal.status g) (PersistentGoal.status g) H2 L2 Hst)
    as (st2 & E2 & F2); [by left|].
  apply (status_read _ _ _ _ H1 Hid) in Hst as (d & Ed & Es). rewrite Hg in Ed. injection Ed as <-.
  apply (status_read _ _ _ _ H2 Hid) in E2 as (d2 & Ed2 & Es2).
  exists d2, (PersistentGoal.status g), st2. split; [done|]. split; [done|]. split; [done|]. split; [done|].
  destruct F2 as [Hr|[-> Ha]]; [|split_and!; [done|set_solver..]]. split_and!.
  - intros Hn ->. exfalso. apply rtc_inv_r in Hr as [E|(y & _ & [Hc _])]; [by apply Hn|by apply Hc].
  - intros Hin. assert (G : st2 ∈ ["blocked"; "resumable"; "failed"]) by by eapply table_closed. set_solver.
  - intros Hf. assert (G : st2 ∈ ["failed"]); [|set_solver]. eapply (table_closed ["failed"]); [done|by left|].
    by rewrite <- Hf.
Qed.

(** What allows the goal [g] to become [target]: an accepted attestation, or a
    transition the lifecycle machine admits. *)
Definition may_update (log : list change) (w : repo A) (id k : string) (g : PersistentGoal.t) (target : string)
    (refs why resume act : val) (att : option nat) : Prop :=
  if (target =? "completed")%string then gate_accepts (outside w) att id = true
  else exists t, make_transition (VStr "goal") (VStr id) (VStr (PersistentGoal.status g)) (VStr target)
         (py_or act (VStr (_infer_action target))) why resume
         (refs_of (given_or refs (VList (PersistentGoal.evidence_refs g)))) (VBool false) = Ok t
       /\ admissible (store_of (outside w)) t
            (Some (forallb (fun s => (PersistentSubgoal.status s =? "completed")%string)
               (subgoals_of (known_of log) k))) false.

(** C23. An update of a known goal returns exactly when it may: the status is
    one of the enum, the evidence references are a list, and either the status
    is [completed] and the attestation is accepted for this goal id (the
    lifecycle table is then not asked), or it is another status and the
    lifecycle machine admits the transition.  It then appends the same goal
    with only its status, its time and its evidence references changed. *)
Theorem update_goal_status_exact log w id k g status refs why resume act att :
  represents log w -> clean_id id "goal_id" = Ok k -> dget k (k_goals (known_of log)) = Some g ->
  forall d w', GoalRepository.update_goal_status machine clock py_float in_unit zero id status refs why resume act att w
               = (Ok d, w') <->
  exists target l,
    clean_status status = Ok target /\ new_refs refs (PersistentGoal.evidence_refs g) = Ok l
    /\ may_update log w id k g target refs why resume act att
    /\ d = PersistentGoal.to_dict (moved g target (clock (ticks w)) l)
    /\ w' = Repo (outside w)
              (lines w ++ [written (Change "goal_status_updated" (clock (S (ticks w)))
                             (GoalEntry (moved g target (clock (ticks w)) l)))]) (S (S (ticks w))).
Proof using clock_clean Laws.
  intros H Hid Hg d w'. unfold may_update. rewrite (update_goal_run store_of clock clock_clean py_float in_unit zero Laws log w id k g) by done.
  destruct (clean_status status) as [target|e] eqn:Et; [|split; [done|by intros (t & l & ? & _)]]. cbv zeta.
  assert (Hp : goal_permission store_of log w id g target refs why resume act = Ok tt <->
    exists t, make_transition (VStr "goal") (VStr id) (VStr (PersistentGoal.status g)) (VStr target)
               (py_or act (VStr (_infer_action target))) why resume
               (refs_of (given_or refs (VList (PersistentGoal.evidence_refs g)))) (VBool false) = Ok t
             /\ admissible (store_of (outside w)) t
                  (Some (forallb (fun s => (PersistentSubgoal.status s =? "completed")%string)
                     (subgoals_of (known_of log) k))) false).
  { unfold goal_permission. destruct (make_transition _ _ _ _ _ _ _ _ _) as [t|e] eqn:Em; [|naive_solver].
    unfold mbind, res_bind. rewrite Hid. unfold machine, GoalLog.machine.
    destruct (transition_spec _ _ _ _ _ _ _ _ _ t (store_of (outside w))
      (Some (forallb (fun s => (PersistentSubgoal.status s =? "completed")%string) (subgoals_of (known_of log) k)))
      false Em) as (r & Er & _ & _ & _ & Ha & _).
    rewrite Er. destruct (accepted r); naive_solver. }
  destruct (target =? "completed")%string eqn:Ec; cbn [andb].
  - destruct (gate_accepts (outside w) att id) eqn:Eg; cbn [negb]; [|split; [done|by intros (t & l & [= <-] & _ & Ha & _); rewrite Ec in Ha]].
    destruct (new_refs refs _) as [l|e]; [|split; [done|by intros (t & l & _ & ? & _)]].
    split; [intros [= <- <-]; exists target, l; by rewrite Ec|]. by intros (t & l' & [= <-] & [= <-] & _ & -> & ->).
  - destruct (goal_permission _ _ _ _ _ _ _ _ _ _) as [[]|e].
    2: { split; [done|]. intros (t & l & [= <-] & _ & Ha & _). rewrite Ec in Ha. by apply Hp in Ha. }
    destruct (new_refs refs _) as [l|e]; [|split; [done|by intros (t & l & _ & ? & _)]].
    split; [intros [= <- <-]; exists target, l; rewrite Ec; split_and!; [done|done|by apply Hp|done|done]|].
    by intros (t & l' & [= <-] & [= <-] & _ & -> & ->).
Qed.
End history.

(** ** A repository at work

    Behind it is the authority that completed ["g1"]; its result is at address
    0.  Progress is an integer, 0 or 1. *)

#[local] Instance history_gate : AttestationGate completion_state := completion_gate demo_sha256.

Definition demo_clock (n : nat) : string := "now".
Definition demo_unit_float (v : val) : res val := match v with VInt _ => Ok v | _ => Raise (TypeError "float") end.
Definition demo_in_unit (v : val) : bool := match v with VInt n => (0 <=? n)%Z && (n <=? 1)%Z | _ => false end.

Lemma demo_unit_laws : unit_laws demo_unit_float (VInt 0).
Proof.
  constructor; intros v p; unfold demo_unit_float; destruct v; try done; intros [= <-]; try done.
  cbn [truthy]. by intros ->%negb_false_iff%Z.eqb_eq.
Qed.

Lemma demo_clock_clean n : clean (demo_clock n).
Proof. by split. Qed.

Definition demo_repo : repo completion_state := Repo demo_state [] 0.
Abbreviation demo_op o w :=
  (GoalRepository.run_op (machine evidence) demo_clock demo_unit_float demo_in_unit (VInt 0) o w) (only parsing).

Definition demo_append : GoalRepository.op :=
  GoalRepository.AppendGoal (GivenMapping [("goal_id", VStr "g1"); ("title", VStr "Goal"); ("status", VStr "active")]).
Definition demo_block : GoalRepository.op :=
  GoalRepository.UpdateGoalStatus "g1" (VStr "blocked") VNone (VStr "waits") VNone VNone None.
Definition demo_finished (attestation : option nat) : GoalRepository.op :=
  GoalRepository.UpdateGoalStatus "g1" (VStr "completed") VNone VNone VNone VNone attestation.

Definition demo_blocked : repo completion_state := (demo_op demo_block (demo_op demo_append demo_repo).2).2.

Lemma demo_fresh : fresh_repo demo_repo.
Proof. split; [reflexivity|exact demo_gate_reached]. Qed.

Lemma demo_blocked_reached : rtc (repo_step evidence demo_clock demo_unit_float demo_in_unit (VInt 0)) demo_repo demo_blocked.
Proof.
  eapply rtc_l; [apply (RsOp evidence demo_clock demo_unit_float demo_in_unit (VInt 0) demo_repo demo_append); exact I|].
  apply rtc_once, (RsOp evidence demo_clock demo_unit_float demo_in_unit (VInt 0)). exact I.
Qed.

Lemma found_inj {X Y} (a b : X) (w : Y) : (Ok (Some a), w) = (Ok (Some b), w) -> a = b.
Proof. by intros [= ->]. Qed.

(** A goal that is blocked is completed with the attestation. *)
Lemma goal_status_history_witness :
  exists d, GoalRepository.get_goal demo_clock demo_unit_float demo_in_unit (VInt 0) "g1"
              (demo_op (demo_finished (Some 0)) demo_blocked).2
            = (Ok (Some d), (demo_op (demo_finished (Some 0)) demo_blocked).2)
    /\ vget "status" d = VStr "completed" /\ authority_completed "g1".
Proof.
  assert (G : exists d1, GoalRepository.get_goal demo_clock demo_unit_float demo_in_unit (VInt 0) "g1" demo_blocked
                         = (Ok (Some d1), demo_blocked) /\ vget "status" d1 = VStr "blocked").
  { eexists. split; vm_compute; reflexivity. }
  destruct G as (d1 & E1 & S1).
  destruct (goal_status_history evidence demo_clock demo_clock_clean demo_unit_float demo_in_unit (VInt 0) demo_unit_laws
    demo_repo demo_blocked (demo_op (demo_finished (Some 0)) demo_blocked).2 "g1" d1 demo_fresh demo_blocked_reached)
    as (d2 & st1 & st2 & E2 & F1 & F2 & _ & Ha & _).
  - apply rtc_once, (RsOp evidence demo_clock demo_unit_float demo_in_unit (VInt 0)). exact I.
  - split; [reflexivity|discriminate].
  - exact E1.
  - exists d2. split; [exact E2|]. rewrite S1 in F1. injection F1 as <-.
    assert (X : exists d, GoalRepository.get_goal demo_clock demo_unit_float demo_in_unit (VInt 0) "g1"
              (demo_op (demo_finished (Some 0)) demo_blocked).2
            = (Ok (Some d), (demo_op (demo_finished (Some 0)) demo_blocked).2) /\ vget "status" d = VStr "completed").
    { eexists. split; vm_compute; reflexivity. }
    destruct X as (d & Ex & Sx). rewrite E2 in Ex. apply found_inj in Ex as ->. split; [exact Sx|].
    apply Ha; [discriminate|]. rewrite F2 in Sx. by injection Sx.
Defined.

(** Without the attestation the blocked goal is not completed, and the file is as it was. *)
Lemma repository_refines_log_witness :
  exists e w', demo_op (demo_finished None) demo_blocked = (Raise e, w') /\ lines w' = lines demo_blocked.
Proof.
  assert (R : exists log, represents demo_unit_float demo_in_unit (VInt 0) log demo_blocked).
  { destruct (run_inv evidence demo_clock demo_clock_clean demo_unit_float demo_in_unit (VInt 0) demo_unit_laws
      demo_repo demo_blocked [] (fresh_inv _ _ _ _ demo_fresh) demo_blocked_reached) as (log & _ & H & _). by exists log. }
  destruct R as (log & H).
  destruct (repository_refines_log evidence demo_clock demo_clock_clean demo_unit_float demo_in_unit (VInt 0) demo_unit_laws
    log demo_blocked H) as [_ Hop].
  destruct (Hop (demo_finished None) I) as [(e & w' & E & El & _)|(c & w' & E & _)].
  - exists e, w'. split; [exact E|exact El].
  - exfalso. assert (X : exists e w', demo_op (demo_finished None) demo_blocked = (Raise e, w'))
      by (eexists; eexists; vm_compute; reflexivity).
    destruct X as (e & w2 & X). rewrite X in E. discriminate E.
Defined.

(** An active goal is blocked for a reason. *)
Lemma update_goal_status_exact_witness :
  let g := moved (PersistentGoal.Make "g1" "Goal" "" "active" "now" "now" []) "active" "now" [] in
  let c := Change "goal_appended" "now" (GoalEntry g) in
  exists d w', demo_op demo_block (Repo demo_state [written c] 0) = (Ok d, w') /\ vget "status" d = VStr "blocked".
Proof.
  cbv zeta. set (g := moved _ _ _ _). set (c := Change _ _ _).
  assert (H : represents demo_unit_float demo_in_unit (VInt 0) [c] (Repo demo_state [written c] 0)).
  { split; [reflexivity|]. apply Forall_singleton. split; [|split; [reflexivity|compute_decide]].
    repeat (apply Forall_cons_2; [by split|]). constructor. }
  eexists (PersistentGoal.to_dict (moved g "blocked" "now" [])), _. split; [|reflexivity].
  apply (update_goal_status_exact evidence demo_clock demo_clock_clean demo_unit_float demo_in_unit (VInt 0) demo_unit_laws
    [c] (Repo demo_state [written c] 0) "g1" "g1" g (VStr "blocked") VNone (VStr "waits") VNone VNone None H eq_refl eq_refl).
  exists "blocked", []. split; [reflexivity|]. split; [reflexivity|]. split; [|split; reflexivity].
  unfold may_update. eexists. split; [vm_compute; reflexivity|]. constructor.
  - compute_decide.
  - discriminate.
  - intros _. by eexists.
  - discriminate.
Defined.

(** A goal that comes in completed is stored so, with no attestation. *)
Example demo_append_completed :
  exists d, (demo_op (GoalRepository.AppendGoal (GivenMapping
      [("goal_id", VStr "g9"); ("title", VStr "Goal"); ("status", VStr "completed")])) demo_repo).1 = Ok d
    /\ vget "status" d = VStr "completed" /\ gate_accepts demo_state (Some 0) "g9" = false.
Proof. eexists. split; [vm_compute; reflexivity|]. split; vm_compute; reflexivity. Qed.
