(* ===== verification/GoalPlanning.v ===== *)
(** * Orchestration and planning of goals

    [core/goals/goal_execution_context.py], [goal_orchestrator.py],
    [goal_execution_policy.py], [goal_execution_decision.py] and
    [goal_execution_planner.py]: from the snapshot of a goal in the repository
    to one decision, its context and a plan.  The dicts of the snapshot are the
    values the repository returns; a slice [:n] of a policy is [take], since the
    policies are positive. *)

From S2P Require Import Prelude PyVal Sealing Lineage Goals Completion Engineering GoalRecords GoalRepository GoalLog GoalHistory.

(** ** Contexts *)
Module GoalExecutionContext.

Record t : Type := Make {
  goal_id : string;
  subgoal_id : option string;
  title : string;
  description : string;
  status : string;
  resume_point : val;
  related_memory_context : val;
  evidence_refs : list val;
  generated_at : string }.

Definition make (goal subgoal title description status resume memory refs generated : val) : res t :=
  g ← clean_required_text goal "goal_id";
  n ← clean_required_text title "title";
  st ← clean_required_text status "status";
  l ← list_refs refs;
  at_ ← clean_required_text generated "generated_at";
  Ok (Make g (clean_optional_text subgoal) n (text description) st resume memory l at_).

Definition from_mapping {W} (utc_now : M W string) (d : list (string * val)) : M W t :=
  generated ← stamp_or_now utc_now (vget "generated_at" d);
  mlift (make (vget "goal_id" d) (vget "subgoal_id" d) (vget "title" d) (py_or (vget "description" d) (VStr ""))
    (vget "status" d) (vget "resume_point" d) (vget "related_memory_context" d)
    (py_or (vget "evidence_refs" d) (VList [])) generated).

Definition to_dict (c : t) : list (string * val) :=
  [("goal_id", VStr (goal_id c)); ("subgoal_id", optional_val (subgoal_id c)); ("title", VStr (title c));
   ("description", VStr (description c)); ("status", VStr (status c)); ("resume_point", resume_point c);
   ("related_memory_context", related_memory_context c); ("evidence_refs", VList (evidence_refs c));
   ("generated_at", VStr (generated_at c))].
End GoalExecutionContext.

(** ** The orchestrator *)
Module GoalOrchestrator.

Definition GOAL_ORCHESTRATION_ACTIONS : list string :=
  ["continue"; "start_subgoal"; "resume_subgoal"; "wait_blocked"; "complete_goal"; "fail_goal"].

Record GoalOrchestrationDecision : Type := Decision {
  action : string;
  goal_id : string;
  subgoal_id : option string;
  reason : string;
  resume_point : val;
  requires_user_review : bool;
  evidence_refs : list val }.

Definition make_decision (act goal subgoal why resume review refs : val) : res GoalOrchestrationDecision :=
  let a := text act in
  if bool_decide (a ∈ GOAL_ORCHESTRATION_ACTIONS) then
    g ← clean_required_text goal "goal_id";
    r ← clean_required_text why "reason";
    l ← list_refs refs;
    Ok (Decision a g (clean_optional_text subgoal) r resume (truthy review) l)
  else Raise (ValueError "goal_orchestration_requires_valid_action").

Definition decision_to_dict (d : GoalOrchestrationDecision) : list (string * val) :=
  [("action", VStr (action d)); ("goal_id", VStr (goal_id d)); ("subgoal_id", optional_val (subgoal_id d));
   ("reason", VStr (reason d)); ("resume_point", resume_point d); ("requires_user_review", VBool (requires_user_review d));
   ("evidence_refs", VList (evidence_refs d))].

(** The static method [_decision], with its defaults given. *)
Definition _decision (act : string) (goal : val) (why : val) (subgoal resume : val) (review : bool) (refs : val)
  : res GoalOrchestrationDecision :=
  make_decision (VStr act) goal subgoal why resume (VBool review) (py_or refs (VList [])).

(** The values of two lists, each once. *)
Definition add_value (result : list val) (v : val) : list val := if vin v result then result else result ++ [v].
Definition _union (first second : val) : res (list val) :=
  a ← py_iter (py_or first (VList []));
  b ← py_iter (py_or second (VList []));
  Ok (fold_left add_value (a ++ b) []).

Definition status_in (names : list string) (d : list (string * val)) : bool :=
  existsb (fun s => py_eq (vget "status" d) (VStr s)) names.

Definition _active_subgoal (subgoals : list (list (string * val))) (progress : option (list (string * val)))
  : option (list (string * val)) :=
  let active_id := match progress with Some (_ :: _ as p) => vget "active_subgoal_id" p | _ => VNone end in
  let first_active := find (status_in ["active"]) subgoals in
  if truthy active_id then
    match find (fun d => py_eq (vget "subgoal_id" d) active_id) subgoals with
    | Some d => if status_in ["active"; "blocked"] d then Some d else first_active
    | None => first_active
    end
  else first_active.

Section orchestrator.
Context (policy : GoalLifecyclePolicy).

Definition _select_context_subgoal (subgoals : list (list (string * val))) (progress : option (list (string * val)))
    (subgoal_id : option val) : option (list (string * val)) :=
  match subgoal_id with
  | Some v => find (fun d => py_eq (vget "subgoal_id" d) v) subgoals
  | None =>
      match _active_subgoal subgoals progress with
      | Some d => Some d
      | None =>
          head (take (Z.to_nat (max_subgoals_per_cycle policy)) (List.filter (status_in ["blocked"; "pending"]) subgoals))
      end
  end.

Definition _decide_for_blocked (goal subgoal : list (string * val)) (resume : val) : res GoalOrchestrationDecision :=
  refs ← _union (vget "evidence_refs" goal) (vget "evidence_refs" subgoal);
  if negb (is_none resume) && allow_resume_blocked_subgoal policy then
    _decision "resume_subgoal" (vget "goal_id" goal) (VStr "blocked_subgoal_has_resume_point") (vget "subgoal_id" subgoal)
      resume (require_review_before_resume policy) (VList refs)
  else
    _decision "wait_blocked" (vget "goal_id" goal)
      (py_or (vget "blocked_reason" subgoal) (VStr "blocked_subgoal_requires_review")) (vget "subgoal_id" subgoal)
      resume true (VList refs).

Definition _decide_for_active (goal subgoal : list (string * val)) (resume : val) : res GoalOrchestrationDecision :=
  if status_in ["blocked"] subgoal then
    _decide_for_blocked goal subgoal (py_or (vget "resume_point" subgoal) resume)
  else
    refs ← _union (vget "evidence_refs" goal) (vget "evidence_refs" subgoal);
    _decision "continue" (vget "goal_id" goal) (VStr "active_subgoal") (vget "subgoal_id" subgoal) VNone false (VList refs).

Definition resume_val (r : option (list (string * val))) : val := from_option VDict VNone r.

(** [decide] after the snapshot is read. *)
Definition decide_snapshot (target : string) (sn : GoalRepository.snapshot) (contract_violation : option string)
  : res GoalOrchestrationDecision :=
  match GoalRepository.sn_goal sn with
  | None => _decision "fail_goal" (VStr target) (VStr "goal_not_found") VNone VNone true VNone
  | Some goal =>
      let evidence_refs := py_or (vget "evidence_refs" goal) (VList []) in
      let resume := resume_val (GoalRepository.sn_resume_point sn) in
      let subgoals := GoalRepository.sn_subgoals sn in
      let contract_violation := default "" contract_violation in
      if negb (contract_violation =? "")%string then
        _decision "wait_blocked" (VStr target) (VStr ("contract_violation:" +:+ strip contract_violation)) VNone VNone true
          evidence_refs
      else if status_in ["failed"] goal then
        _decision "fail_goal" (VStr target) (VStr "goal_status_failed") VNone VNone true evidence_refs
      else if status_in ["completed"] goal then
        _decision "complete_goal" (VStr target) (VStr "goal_already_completed") VNone VNone
          (require_review_before_goal_completion policy) evidence_refs
      else
        match _active_subgoal subgoals (GoalRepository.sn_progress sn) with
        | Some active => _decide_for_active goal active resume
        | None =>
            match find (status_in ["blocked"]) subgoals with
            | Some blocked => _decide_for_blocked goal blocked (py_or (vget "resume_point" blocked) resume)
            | None =>
                match head (take (Z.to_nat (max_subgoals_per_cycle policy)) (List.filter (status_in ["pending"]) subgoals)) with
                | Some selected =>
                    refs ← _union evidence_refs (vget "evidence_refs" selected);
                    _decision "start_subgoal" (VStr target) (VStr "first_pending_subgoal") (vget "subgoal_id" selected) VNone
                      (negb (allow_auto_start_next_subgoal policy)) (VList refs)
                | None =>
                    if negb (bool_decide (subgoals = [])) && forallb (status_in ["completed"]) subgoals then
                      _decision "complete_goal" (VStr target) (VStr "all_subgoals_completed") VNone VNone
                        (require_review_before_goal_completion policy) evidence_refs
                    else
                      _decision "wait_blocked" (VStr target) (VStr "no_actionable_subgoal") VNone VNone true evidence_refs
                end
            end
        end
  end.

Section repository.
Context {A : Type} (clock : nat -> string) (py_float : val -> res val) (in_unit : val -> bool) (zero : val).
(** The orchestrator may have no repository. *)
Context (has_repository : bool).

Abbreviation utc_now := (GoalRepository.utc_now (A:=A) clock).
Abbreviation get_orchestration_snapshot := (GoalRepository.get_orchestration_snapshot (A:=A) clock py_float in_unit zero).

Definition build_execution_context (goal_id : string) (subgoal_id : option val) (memory : val)
  : M (repo A) (option GoalExecutionContext.t) :=
  if negb has_repository then mret None
  else
    sn ← get_orchestration_snapshot goal_id;
    match GoalRepository.sn_goal sn with
    | None => mret None
    | Some goal =>
        let resume := resume_val (GoalRepository.sn_resume_point sn) in
        match _select_context_subgoal (GoalRepository.sn_subgoals sn) (GoalRepository.sn_progress sn) subgoal_id with
        | None =>
            now ← utc_now;
            c ← mlift (GoalExecutionContext.make (vget "goal_id" goal) VNone (vget "title" goal)
                  (py_or (vget "description" goal) (VStr "")) (vget "status" goal) resume memory
                  (py_or (vget "evidence_refs" goal) (VList [])) (VStr now));
            mret (Some c)
        | Some s =>
            refs ← mlift (_union (vget "evidence_refs" goal) (vget "evidence_refs" s));
            now ← utc_now;
            c ← mlift (GoalExecutionContext.make (vget "goal_id" goal) (vget "subgoal_id" s) (vget "title" s)
                  (py_or (vget "description" goal) (VStr "")) (vget "status" s) (py_or (vget "resume_point" s) resume) memory
                  (VList refs) (VStr now));
            mret (Some c)
        end
    end.

Definition selected_ids (sn : GoalRepository.snapshot) : list val :=
  match _active_subgoal (GoalRepository.sn_subgoals sn) (GoalRepository.sn_progress sn) with
  | Some active => [vget "subgoal_id" active]
  | None =>
      take (Z.to_nat (max_subgoals_per_cycle policy))
        (map (vget "subgoal_id") (List.filter (status_in ["blocked"; "pending"]) (GoalRepository.sn_subgoals sn)))
  end.

Definition build_execution_contexts (goal_id : string) (memory : val) : M (repo A) (list GoalExecutionContext.t) :=
  if negb has_repository then mret []
  else
    sn ← get_orchestration_snapshot goal_id;
    match GoalRepository.sn_goal sn with
    | None => mret []
    | Some _ =>
        match selected_ids sn with
        | [] => c ← build_execution_context goal_id None memory; mret (option_list c)
        | ids =>
            cs ← mfor (fun id => build_execution_context goal_id (Some id) memory) ids;
            mret (omap (M:=list) id cs)
        end
    end.

Definition decide (goal_id : string) (contract_violation : option string) : M (repo A) GoalOrchestrationDecision :=
  target ← mlift (clean_required_text (VStr goal_id) "goal_id");
  if negb has_repository then
    mlift (_decision "wait_blocked" (VStr target) (VStr "goal_repository_unavailable") VNone VNone true VNone)
  else
    sn ← get_orchestration_snapshot target;
    mlift (decide_snapshot target sn contract_violation).
End repository.
End orchestrator.
End GoalOrchestrator.

(** ** Plans *)
Module GoalExecutionPlanner.
Import GoalOrchestrator.

Definition GOAL_EXECUTION_ACTIONS : list string :=
  ["create_task"; "resume_task"; "wait_blocked"; "complete_goal"; "fail_goal"; "require_review"].

Record GoalExecutionPolicy : Type := ExecutionPolicy {
  allow_create_task_from_subgoal : bool;
  allow_resume_task_from_resume_point : bool;
  require_review_before_create_task : bool;
  require_review_before_resume : bool;
  require_review_before_complete_goal : bool;
  max_execution_plans_per_cycle : Z }.

Definition make_execution_policy (a b c d e : bool) (n : val) : res GoalExecutionPolicy :=
  m ← py_int n;
  if (m <=? 0)%Z then Raise (ValueError "max_execution_plans_per_cycle_must_be_positive")
  else Ok (ExecutionPolicy a b c d e m).

Definition default_execution_policy : GoalExecutionPolicy := ExecutionPolicy true false false true true 1.

Record GoalExecutionPlanDecision : Type := PlanDecision {
  pd_action : string;
  pd_goal : string;
  pd_subgoal : option string;
  pd_reason : string;
  pd_context : list (string * val);
  pd_resume : val;
  pd_refs : list val }.

Definition make_plan_decision (act goal subgoal why : val) (context : val) (resume refs : val)
  : res GoalExecutionPlanDecision :=
  let a := text act in
  if bool_decide (a ∈ GOAL_EXECUTION_ACTIONS) then
    match context with
    | VNone | VDict _ =>
        g ← clean_required_text goal "goal_id";
        r ← clean_required_text why "reason";
        l ← list_refs refs;
        Ok (PlanDecision a g (clean_optional_text subgoal) r (mapping context) resume l)
    | _ => Raise (TypeError "planner_context must be a mapping or None")
    end
  else Raise (ValueError "goal_execution_requires_valid_action").

Definition plan_decision_to_dict (d : GoalExecutionPlanDecision) : list (string * val) :=
  [("action", VStr (pd_action d)); ("goal_id", VStr (pd_goal d)); ("subgoal_id", optional_val (pd_subgoal d));
   ("reason", VStr (pd_reason d)); ("planner_context", VDict (pd_context d)); ("resume_point", pd_resume d);
   ("evidence_refs", VList (pd_refs d))].

Record GoalExecutionPlan : Type := Plan {
  p_goal : string;
  p_subgoal : option string;
  p_action : string;
  p_title : string;
  p_description : string;
  p_resume : val;
  p_context : list (string * val);
  p_review : bool;
  p_refs : list val;
  p_generated : string }.

Definition make_plan (goal subgoal act title description resume : val) (context : list (string * val)) (review : val)
    (refs generated : val) : res GoalExecutionPlan :=
  g ← clean_required_text goal "goal_id";
  a ← clean_required_text act "action";
  n ← clean_required_text title "title";
  l ← list_refs refs;
  at_ ← clean_required_text generated "generated_at";
  Ok (Plan g (clean_optional_text subgoal) a n (text description) resume context (truthy review) l at_).

Definition plan_to_dict (p : GoalExecutionPlan) : list (string * val) :=
  [("goal_id", VStr (p_goal p)); ("subgoal_id", optional_val (p_subgoal p)); ("action", VStr (p_action p));
   ("title", VStr (p_title p)); ("description", VStr (p_description p)); ("resume_point", p_resume p);
   ("planner_context", VDict (p_context p)); ("requires_user_review", VBool (p_review p));
   ("evidence_refs", VList (p_refs p)); ("generated_at", VStr (p_generated p))].

(** The execution context that a caller gives. *)
Inductive context_arg : Type :=
  | ContextObject (c : GoalExecutionContext.t)
  | ContextMapping (d : list (string * val))
  | NoContext
  | ContextOther.

Definition _planner_context (d : GoalOrchestrationDecision) (context : context_arg) : res (list (string * val)) :=
  base ← match context with
         | ContextObject c => Ok (GoalExecutionContext.to_dict c)
         | ContextMapping m => Ok m
         | NoContext => Ok []
         | ContextOther => Raise (TypeError "execution_context must be GoalExecutionContext, mapping, or None")
         end;
  Ok (dset "evidence_refs" (VList (evidence_refs d)) (dset "resume_point" (resume_point d)
       (dset "orchestration_reason" (VStr (reason d)) (dset "orchestration_action" (VStr (action d))
         (dset "subgoal_id" (optional_val (subgoal_id d)) (dset "goal_id" (VStr (goal_id d)) base)))))).

Section planner.
Context (policy : GoalExecutionPolicy).

(** The action of the plan and its reason. *)
Definition mapped (d : GoalOrchestrationDecision) : string * string :=
  let a := action d in
  let review := requires_user_review d in
  if (a =? "start_subgoal")%string || (a =? "continue")%string then
    if review || negb (allow_create_task_from_subgoal policy) || require_review_before_create_task policy
    then ("require_review", a +:+ "_requires_review")
    else ("create_task", a +:+ "_ready_for_task_planning")
  else if (a =? "resume_subgoal")%string then
    if review || is_none (resume_point d) || negb (allow_resume_task_from_resume_point policy)
       || require_review_before_resume policy
    then ("require_review", "resume_subgoal_requires_review")
    else ("resume_task", "resume_point_ready_for_task_planning")
  else if (a =? "wait_blocked")%string then ("wait_blocked", reason d)
  else if (a =? "complete_goal")%string then
    if review || require_review_before_complete_goal policy
    then ("require_review", "complete_goal_requires_review")
    else ("complete_goal", "complete_goal_ready_for_reviewed_transition")
  else if review then ("require_review", "fail_goal_requires_review") else ("fail_goal", reason d).

Definition decide (d : GoalOrchestrationDecision) (context : context_arg) : res GoalExecutionPlanDecision :=
  c ← _planner_context d context;
  make_plan_decision (VStr (mapped d).1) (VStr (goal_id d)) (optional_val (subgoal_id d)) (VStr (mapped d).2) (VDict c)
    (resume_point d) (VList (evidence_refs d)).

Section clock.
Context {W : Type} (utc_now : M W string).

Definition plan (d : GoalOrchestrationDecision) (context : context_arg) : M W GoalExecutionPlan :=
  pd ← mlift (decide d context);
  let c := pd_context pd in
  let title := py_str (py_or (py_or (vget "title" c) (optional_val (subgoal_id d))) (VStr (goal_id d))) in
  let description := py_str (py_or (vget "description" c) (VStr "")) in
  now ← utc_now;
  mlift (make_plan (VStr (pd_goal pd)) (optional_val (pd_subgoal pd)) (VStr (pd_action pd)) (VStr title) (VStr description)
    (pd_resume pd) c (VBool (pd_action pd =? "require_review")%string) (VList (pd_refs pd)) (VStr now)).

(** The items of a cycle: a decision, with its context or without. *)
Definition plan_many (items : list (GoalOrchestrationDecision * context_arg)) : M W (list GoalExecutionPlan) :=
  mfor (fun item => plan item.1 item.2) (take (Z.to_nat (max_execution_plans_per_cycle policy)) items).
End clock.
End planner.
End GoalExecutionPlanner.

(** ** What a decision rests on *)

Import GoalOrchestrator.

Lemma find_map {X Y} (f : Y -> bool) (g : X -> Y) l : find f (map g l) = g <$> find (fun x => f (g x)) l.
Proof. induction l as [|x l IH]; [done|]. cbn [map find]. by destruct (f (g x)). Qed.

Lemma omap_map {X Y Z} (f : Y -> option Z) (g : X -> Y) (l : list X) : omap f (map g l) = omap (fun x => f (g x)) l.
Proof. induction l as [|x l IH]; [done|]. cbn [map]. csimpl. by rewrite IH. Qed.

Lemma find_elem {X} (f : X -> bool) l x : find f l = Some x -> x ∈ l /\ f x = true.
Proof. intros H. apply find_some in H as [H1 H2]. split; [by apply list_elem_of_In|done]. Qed.

Lemma find_absent {X} (f : X -> bool) l : find f l = None -> Forall (fun x => f x = false) l.
Proof. intros H. apply Forall_forall. intros x Hx%list_elem_of_In. by apply (find_none f l H). Qed.

Lemma filter_dicts {X Y} (f : Y -> bool) (g : X -> Y) l : List.filter f (map g l) = map g (List.filter (fun x => f (g x)) l).
Proof. induction l as [|x l IH]; [done|]. cbn [map List.filter]. rewrite IH. by destruct (f (g x)). Qed.

(** The first element that passes. *)
Lemma first_passing {X} (f : X -> bool) l n : (0 < n)%Z ->
  match head (take (Z.to_nat n) (List.filter f l)) with
  | Some x => exists before after, l = before ++ x :: after /\ f x = true /\ Forall (fun y => f y = false) before
  | None => Forall (fun y => f y = false) l
  end.
Proof.
  intros Hn. destruct (Z.to_nat n) as [|m] eqn:En; [lia|]. clear En. induction l as [|y l IH]; [constructor|].
  cbn [List.filter]. destruct (f y) eqn:Ey; cbn [take head]; [by exists [], l|].
  destruct (head (take (S m) (List.filter f l))) as [x|]; [|by constructor].
  destruct IH as (b & a & -> & Hx & Hb). exists (y :: b), a. split; [done|]. split; [done|]. by constructor.
Qed.

Lemma status_in_subgoal names s :
  status_in names (PersistentSubgoal.to_dict s) = true <-> PersistentSubgoal.status s ∈ names.
Proof.
  unfold status_in. rewrite existsb_exists. change (vget "status" _) with (VStr (PersistentSubgoal.status s)). split.
  - intros (x & Hx & E). apply py_eq_str in E. injection E as ->. by apply list_elem_of_In.
  - intros Hx. exists (PersistentSubgoal.status s). split; [by apply list_elem_of_In|by apply py_eq_str].
Qed.

Lemma status_out_subgoal names s :
  status_in names (PersistentSubgoal.to_dict s) = false <-> PersistentSubgoal.status s ∉ names.
Proof. rewrite <- status_in_subgoal. by destruct (status_in _ _). Qed.

Lemma status_in_goal x g :
  status_in [x] (PersistentGoal.to_dict g) = (PersistentGoal.status g =? x)%string.
Proof. unfold status_in. cbn [existsb]. by rewrite orb_false_r. Qed.

Lemma strip_nonempty s : clean s -> strip s <> "".
Proof. by intros [-> H]. Qed.

(** A decision with a goal and a reason is one. *)
Lemma decision_made act g why sub resume review l :
  act ∈ GOAL_ORCHESTRATION_ACTIONS -> clean g -> strip why <> "" ->
  _decision act (VStr g) (VStr why) sub resume review (VList l)
  = Ok (Decision act g (clean_optional_text sub) (strip why) resume review l).
Proof.
  intros Ha Hg Hw. unfold _decision, make_decision. rewrite or_list.
  assert (E : text (VStr act) = act) by
    (unfold GOAL_ORCHESTRATION_ACTIONS in Ha; rewrite !elem_of_cons, elem_of_nil in Ha; naive_solver).
  rewrite E, bool_decide_true by done. unfold_m. rewrite clean_required by done.
  unfold clean_required_text. rewrite text_strip. apply String.eqb_neq in Hw as ->. by destruct review.
Qed.

Lemma union_values a b : exists l, _union (VList a) (VList b) = Ok l.
Proof. unfold _union. rewrite !or_list. by eexists. Qed.

(** The resume point of a goal, as a dict. *)
Definition resume_known (k : known) (gid : string) : option (list (string * val)) :=
  match dget gid (k_progress k) with
  | Some p =>
      match GoalProgress.resume_point p with
      | Some r => Some (resume_to_dict r)
      | None => head (omap (fun s => match PersistentSubgoal.resume_point s with VDict r => Some r | _ => None end)
                  (subgoals_of k gid))
      end
  | None => head (omap (fun s => match PersistentSubgoal.resume_point s with VDict r => Some r | _ => None end)
              (subgoals_of k gid))
  end.

Definition snapshot_known (k : known) (gid : string) : GoalRepository.snapshot :=
  GoalRepository.Snapshot (PersistentGoal.to_dict <$> dget gid (k_goals k)) (map PersistentSubgoal.to_dict (subgoals_of k gid))
    (GoalProgress.to_dict <$> dget gid (k_progress k)) (resume_known k gid).

(** The reason of each decision, in the records of the goal.  [open] is a goal
    that is neither failed nor completed, with no violation reported. *)
Section reasons.
Context (policy : GoalLifecyclePolicy) (k : known) (gid : string) (violation : bool).

Definition open (g : PersistentGoal.t) : Prop :=
  dget gid (k_goals k) = Some g /\ violation = false /\ PersistentGoal.status g <> "failed"
  /\ PersistentGoal.status g <> "completed".

Definition none_in (names : list string) (ss : list PersistentSubgoal.t) : Prop :=
  Forall (fun s => PersistentSubgoal.status s ∉ names) ss.

Inductive warranted : GoalOrchestrationDecision -> Prop :=
  | WUnknown why : dget gid (k_goals k) = None -> warranted (Decision "fail_goal" gid None why VNone true [])
  | WViolation g why refs :
      dget gid (k_goals k) = Some g -> violation = true ->
      warranted (Decision "wait_blocked" gid None why VNone true refs)
  | WFailed g why refs :
      dget gid (k_goals k) = Some g -> violation = false -> PersistentGoal.status g = "failed" ->
      warranted (Decision "fail_goal" gid None why VNone true refs)
  | WCompleted g why refs :
      dget gid (k_goals k) = Some g -> violation = false -> PersistentGoal.status g = "completed" ->
      warranted (Decision "complete_goal" gid None why VNone (require_review_before_goal_completion policy) refs)
  | WContinue g s why refs :
      open g -> s ∈ subgoals_of k gid -> PersistentSubgoal.status s = "active" ->
      warranted (Decision "continue" gid (Some (PersistentSubgoal.subgoal_id s)) why VNone false refs)
  | WResume g s why resume refs :
      open g -> s ∈ subgoals_of k gid -> PersistentSubgoal.status s = "blocked" -> resume <> VNone ->
      allow_resume_blocked_subgoal policy = true ->
      warranted (Decision "resume_subgoal" gid (Some (PersistentSubgoal.subgoal_id s)) why resume
        (require_review_before_resume policy) refs)
  | WBlocked g s why resume refs :
      open g -> s ∈ subgoals_of k gid -> PersistentSubgoal.status s = "blocked" ->
      (resume = VNone \/ allow_resume_blocked_subgoal policy = false) ->
      warranted (Decision "wait_blocked" gid (Some (PersistentSubgoal.subgoal_id s)) why resume true refs)
  | WStart g s before after why refs :
      open g -> subgoals_of k gid = before ++ s :: after -> PersistentSubgoal.status s = "pending" ->
      none_in ["active"; "blocked"] (subgoals_of k gid) -> none_in ["pending"] before ->
      warranted (Decision "start_subgoal" gid (Some (PersistentSubgoal.subgoal_id s)) why VNone
        (negb (allow_auto_start_next_subgoal policy)) refs)
  | WAll g why refs :
      open g -> subgoals_of k gid <> [] -> Forall (fun s => PersistentSubgoal.status s = "completed") (subgoals_of k gid) ->
      warranted (Decision "complete_goal" gid None why VNone (require_review_before_goal_completion policy) refs)
  | WIdle g why refs :
      open g -> none_in ["active"; "blocked"; "pending"] (subgoals_of k gid) ->
      (subgoals_of k gid = [] \/ Exists (fun s => PersistentSubgoal.status s <> "completed") (subgoals_of k gid)) ->
      warranted (Decision "wait_blocked" gid None why VNone true refs).
End reasons.

Section facts.
Context {A : Type} (clock : nat -> string) (py_float : val -> res val) (in_unit : val -> bool) (zero : val).
Abbreviation represents := (represents (A:=A) py_float in_unit zero).

Lemma got_resume_point log w id k : represents log w -> clean_id id "goal_id" = Ok k ->
  GoalRepository.get_resume_point clock py_float in_unit zero id w = (Ok (resume_known (known_of log) k), w).
Proof.
  intros H Hk. unfold GoalRepository.get_resume_point. unfold mbind at 1, M_bind at 1.
  rewrite (got_progress _ _ _ _ _ _ _ H), Hk. unfold mbind at 1, res_bind at 1.
  assert (Hs : (items ← GoalRepository.list_subgoals clock py_float in_unit zero id;
      mret (head (omap (M:=list) (fun d => match vget "resume_point" d with VDict r => Some r | _ => None end) items))) w
    = (Ok (head (omap (fun s => match PersistentSubgoal.resume_point s with VDict r => Some r | _ => None end)
         (subgoals_of (known_of log) k))), w)).
  { unfold mbind, M_bind. rewrite (listed_subgoals _ _ _ _ _ _ _ H), Hk. unfold mbind, res_bind, mret, M_ret. f_equal. f_equal.
    f_equal. apply omap_map. }
  unfold resume_known. destruct (dget k (k_progress _)) as [p|]; cbn [fmap option_fmap option_map default]; [|exact Hs].
  unfold Datatypes.id. change (vget "resume_point" (GoalProgress.to_dict p))
    with (from_option (fun r => VDict (resume_to_dict r)) VNone (GoalProgress.resume_point p)).
  destruct (GoalProgress.resume_point p); cbn [from_option]; [reflexivity|exact Hs].
Qed.

Lemma snapshot_read log w id k : represents log w -> clean_id id "goal_id" = Ok k ->
  GoalRepository.get_orchestration_snapshot clock py_float in_unit zero id w = (Ok (snapshot_known (known_of log) k), w).
Proof.
  intros H Hk. unfold GoalRepository.get_orchestration_snapshot. unfold clean_id in Hk. rewrite (M_lift_ok _ _ _ _ Hk).
  assert (Hk' : clean_id k "goal_id" = Ok k) by (apply clean_required; by eapply required_clean).
  unfold mbind, M_bind. rewrite (got_goal _ _ _ _ _ _ _ H), (listed_subgoals _ _ _ _ _ _ _ H),
    (got_progress _ _ _ _ _ _ _ H), (got_resume_point _ _ _ _ H Hk'), Hk'. reflexivity.
Qed.

(** The active subgoal is an active or a blocked one; there is none only when none is active. *)
Lemma active_known subs p :
  match _active_subgoal (map PersistentSubgoal.to_dict subs) p with
  | Some d => exists s, s ∈ subs /\ d = PersistentSubgoal.to_dict s /\ PersistentSubgoal.status s ∈ ["active"; "blocked"]
  | None => none_in ["active"] subs
  end.
Proof.
  assert (Hf : match find (status_in ["active"]) (map PersistentSubgoal.to_dict subs) with
    | Some d => exists s, s ∈ subs /\ d = PersistentSubgoal.to_dict s /\ PersistentSubgoal.status s ∈ ["active"; "blocked"]
    | None => none_in ["active"] subs end).
  { rewrite find_map. destruct (find _ subs) as [s|] eqn:E; cbn [fmap option_fmap option_map].
    - apply find_elem in E as [Hs E]. apply status_in_subgoal in E. exists s. split; [done|]. split; [done|]. set_solver.
    - apply find_absent in E. eapply Forall_impl; [exact E|]. intros s Hs. by apply status_out_subgoal. }
  unfold _active_subgoal. cbv zeta. destruct (truthy _); [|exact Hf]. rewrite find_map.
  destruct (find _ subs) as [s|] eqn:E; cbn [fmap option_fmap option_map]; [|exact Hf].
  destruct (status_in ["active"; "blocked"] (PersistentSubgoal.to_dict s)) eqn:Es; [|exact Hf].
  apply find_elem in E as [Hs _]. apply status_in_subgoal in Es. by exists s.
Qed.

Section decide.
Context (policy : GoalLifecyclePolicy) (Hmax : (0 < max_subgoals_per_cycle policy)%Z).

Lemma blocked_decision k gid g s violation resume :
  open k gid violation g -> clean gid -> PersistentGoal.goal_id g = gid -> s ∈ subgoals_of k gid ->
  subgoal_ok py_float in_unit zero s -> PersistentSubgoal.status s = "blocked" ->
  exists d, _decide_for_blocked policy (PersistentGoal.to_dict g) (PersistentSubgoal.to_dict s) resume = Ok d
    /\ warranted policy k gid violation d.
Proof.
  intros Ho Hid Hg Hin (Hc & _ & _ & Hb) Hs. unfold _decide_for_blocked.
  change (vget "evidence_refs" (PersistentGoal.to_dict g)) with (VList (PersistentGoal.evidence_refs g)).
  change (vget "evidence_refs" (PersistentSubgoal.to_dict s)) with (VList (PersistentSubgoal.evidence_refs s)).
  change (vget "goal_id" (PersistentGoal.to_dict g)) with (VStr (PersistentGoal.goal_id g)).
  change (vget "subgoal_id" (PersistentSubgoal.to_dict s)) with (VStr (PersistentSubgoal.subgoal_id s)).
  change (vget "blocked_reason" (PersistentSubgoal.to_dict s)) with (optional_val (PersistentSubgoal.blocked_reason s)).
  destruct (union_values (PersistentGoal.evidence_refs g) (PersistentSubgoal.evidence_refs s)) as [l El]. rewrite El, Hg.
  unfold mbind at 1, res_bind at 1.
  apply Forall_inv in Hc. assert (Esub : clean_optional_text (VStr (PersistentSubgoal.subgoal_id s)) = Some (PersistentSubgoal.subgoal_id s)).
  { destruct Hc as [Hc1 Hc2]. cbn [clean_optional_text py_str]. rewrite Hc1. by apply String.eqb_neq in Hc2 as ->. }
  destruct (negb (is_none resume) && allow_resume_blocked_subgoal policy) eqn:E.
  - apply andb_true_iff in E as [E1 E2]. apply negb_true_iff, is_none_true in E1.
    rewrite decision_made; [|unfold GOAL_ORCHESTRATION_ACTIONS; set_solver|done|by vm_compute]. eexists. split; [reflexivity|].
    rewrite Esub. by eapply WResume.
  - assert (Hw : exists why, py_or (optional_val (PersistentSubgoal.blocked_reason s)) (VStr "blocked_subgoal_requires_review")
      = VStr why /\ strip why <> "").
    { unfold optional_ok in Hb. destruct (PersistentSubgoal.blocked_reason s) as [r|]; [|by eexists].
      cbn [optional_val clean_optional_text py_str] in Hb |- *. destruct (String.eqb_spec (strip r) "") as [|Hn]; [done|].
      exists r. split; [|done]. unfold py_or. cbn [truthy]. injection Hb as Hb. rewrite Hb in Hn.
      by apply String.eqb_neq in Hn as ->. }
    destruct Hw as (why & -> & Hn).
    rewrite decision_made; [|unfold GOAL_ORCHESTRATION_ACTIONS; set_solver|done|done]. eexists. split; [reflexivity|].
    rewrite Esub. eapply WBlocked; [done|done|done|]. apply andb_false_iff in E as [E|E]; [left|by right].
    apply negb_false_iff in E. by destruct resume.
Qed.

Lemma listed_ok log w k s : represents log w -> s ∈ subgoals_of (known_of log) k -> subgoal_ok py_float in_unit zero s.
Proof.
  intros H Hin. unfold subgoals_of in Hin. rewrite (merge_sort_Permutation subgoal_le) in Hin.
  apply list_elem_of_filter in Hin as [_ Hin]. apply list_elem_of_fmap in Hin as ([x s'] & -> & Hin).
  destruct (known_ids _ _ _ _ _ H) as (_ & Hi & _). rewrite Forall_forall in Hi. by destruct (Hi _ Hin) as [_ Hs].
Qed.

Lemma subgoal_named s : subgoal_ok py_float in_unit zero s ->
  clean_optional_text (VStr (PersistentSubgoal.subgoal_id s)) = Some (PersistentSubgoal.subgoal_id s).
Proof.
  intros [Hc _]. apply Forall_inv in Hc as [Hc1 Hc2]. cbn [clean_optional_text py_str]. rewrite Hc1.
  by apply String.eqb_neq in Hc2 as ->.
Qed.

(** The subgoals with one of the statuses, when the first with it is looked for. *)
Lemma first_blocked subs :
  match find (status_in ["blocked"]) (map PersistentSubgoal.to_dict subs) with
  | Some d => exists s, s ∈ subs /\ d = PersistentSubgoal.to_dict s /\ PersistentSubgoal.status s = "blocked"
  | None => none_in ["blocked"] subs
  end.
Proof.
  rewrite find_map. destruct (find _ subs) as [s|] eqn:E; cbn [fmap option_fmap option_map].
  - apply find_elem in E as [Hs E]. apply status_in_subgoal, list_elem_of_singleton in E. by exists s.
  - apply find_absent in E. eapply Forall_impl; [exact E|]. intros s Hs. by apply status_out_subgoal.
Qed.

Lemma first_pending subs :
  match head (take (Z.to_nat (max_subgoals_per_cycle policy))
          (List.filter (status_in ["pending"]) (map PersistentSubgoal.to_dict subs))) with
  | Some d => exists before s after, subs = before ++ s :: after /\ d = PersistentSubgoal.to_dict s
      /\ PersistentSubgoal.status s = "pending" /\ none_in ["pending"] before
  | None => none_in ["pending"] subs
  end.
Proof using Hmax.
  pose proof (first_passing (fun s => status_in ["pending"] (PersistentSubgoal.to_dict s)) subs _ Hmax) as H.
  rewrite filter_dicts, firstn_map. destruct (take _ _) as [|s l]; cbn [map head] in H |- *.
  - eapply Forall_impl; [exact H|]. intros s Hs. by apply status_out_subgoal.
  - destruct H as (before & after & -> & Hs & Hb). apply status_in_subgoal, list_elem_of_singleton in Hs.
    exists before, s, after. split; [done|]. split; [done|]. split; [done|].
    eapply Forall_impl; [exact Hb|]. intros x Hx. by apply status_out_subgoal.
Qed.

Lemma all_completed_dicts subs :
  forallb (status_in ["completed"]) (map PersistentSubgoal.to_dict subs) = true
  <-> Forall (fun s => PersistentSubgoal.status s = "completed") subs.
Proof.
  rewrite forallb_forall, Forall_forall. split.
  - intros H s Hs. apply list_elem_of_singleton, status_in_subgoal, H, in_map. by apply list_elem_of_In.
  - intros H d Hd. apply in_map_iff in Hd as (s & <- & Hs). apply status_in_subgoal, list_elem_of_singleton, H.
    by apply list_elem_of_In.
Qed.

(** The decision on what is known is always one, with its reason. *)
Lemma decide_known log w gid violation :
  represents log w -> clean gid ->
  let violated := negb (default "" violation =? "")%string in
  exists d, decide_snapshot policy gid (snapshot_known (known_of log) gid) violation = Ok d
    /\ warranted policy (known_of log) gid violated d.
Proof using Hmax.
  intros H Hid violated. unfold decide_snapshot, snapshot_known.
  cbn [GoalRepository.sn_goal GoalRepository.sn_subgoals GoalRepository.sn_progress GoalRepository.sn_resume_point].
  destruct (dget gid (k_goals (known_of log))) as [g|] eqn:Eg; cbn [fmap option_fmap option_map].
  2: { eexists. split; [apply (decision_made _ _ _ _ _ _ []); [compute_decide|done|by vm_compute]|]. by apply WUnknown. }
  destruct (known_goal _ _ _ _ _ _ _ H Eg) as [_ Hg]. cbv zeta.
  change (vget "evidence_refs" (PersistentGoal.to_dict g)) with (VList (PersistentGoal.evidence_refs g)). rewrite or_list.
  fold violated. destruct violated eqn:Ev.
  { eexists. split; [apply decision_made; [compute_decide|done|]|by eapply WViolation]. apply strip_prefix. reflexivity. }
  rewrite !status_in_goal. destruct (String.eqb_spec (PersistentGoal.status g) "failed") as [Ef|Nf].
  { eexists. split; [apply decision_made; [compute_decide|done|by vm_compute]|]. by eapply WFailed. }
  destruct (String.eqb_spec (PersistentGoal.status g) "completed") as [Ec|Nc].
  { eexists. split; [apply decision_made; [compute_decide|done|by vm_compute]|]. by eapply WCompleted. }
  assert (Ho : open (known_of log) gid false g) by by split.
  pose proof (active_known (subgoals_of (known_of log) gid) (GoalProgress.to_dict <$> dget gid (k_progress (known_of log)))) as Ha.
  destruct (_active_subgoal _ _) as [d|].
  { destruct Ha as (s & Hs & -> & Hst). pose proof (listed_ok _ _ _ _ H Hs) as Hok. unfold _decide_for_active.
    destruct (status_in ["blocked"] (PersistentSubgoal.to_dict s)) eqn:Eb.
    - apply status_in_subgoal, list_elem_of_singleton in Eb. by apply blocked_decision.
    - apply status_out_subgoal in Eb. assert (Hact : PersistentSubgoal.status s = "active") by set_solver.
      change (vget "evidence_refs" (PersistentGoal.to_dict g)) with (VList (PersistentGoal.evidence_refs g)).
      change (vget "evidence_refs" (PersistentSubgoal.to_dict s)) with (VList (PersistentSubgoal.evidence_refs s)).
      change (vget "goal_id" (PersistentGoal.to_dict g)) with (VStr (PersistentGoal.goal_id g)).
      change (vget "subgoal_id" (PersistentSubgoal.to_dict s)) with (VStr (PersistentSubgoal.subgoal_id s)).
      destruct (union_values (PersistentGoal.evidence_refs g) (PersistentSubgoal.evidence_refs s)) as [l El].
      rewrite El, Hg. unfold mbind, res_bind. eexists. split; [apply decision_made; [compute_decide|done|by vm_compute]|].
      rewrite subgoal_named by done. by eapply WContinue. }
  pose proof (first_blocked (subgoals_of (known_of log) gid)) as Hb. destruct (find _ _) as [d|].
  { destruct Hb as (s & Hs & -> & Hst). apply blocked_decision; try done. by eapply listed_ok. }
  pose proof (first_pending (subgoals_of (known_of log) gid)) as Hp. destruct (head _) as [d|].
  { destruct Hp as (before & s & after & Es & -> & Hst & Hbefore).
    assert (Hs : s ∈ subgoals_of (known_of log) gid) by (rewrite Es; set_solver).
    change (vget "evidence_refs" (PersistentSubgoal.to_dict s)) with (VList (PersistentSubgoal.evidence_refs s)).
    change (vget "subgoal_id" (PersistentSubgoal.to_dict s)) with (VStr (PersistentSubgoal.subgoal_id s)).
    destruct (union_values (PersistentGoal.evidence_refs g) (PersistentSubgoal.evidence_refs s)) as [l El].
    rewrite El. unfold mbind, res_bind. eexists. split; [apply decision_made; [compute_decide|done|by vm_compute]|].
    rewrite subgoal_named by by eapply listed_ok. eapply WStart; [done|done|done| |done].
    unfold none_in in *. rewrite !Forall_forall in *. intros x Hx. set_solver. }
  destruct (negb (bool_decide (_ = [])) && _) eqn:E.
  - apply andb_true_iff in E as [E1 E2]. apply negb_true_iff, bool_decide_eq_false in E1. apply all_completed_dicts in E2.
    eexists. split; [apply decision_made; [compute_decide|done|by vm_compute]|]. eapply WAll; [done| |done].
    intros En. by rewrite En in E1.
  - eexists. split; [apply decision_made; [compute_decide|done|by vm_compute]|]. eapply WIdle; [done| |].
    + unfold none_in in *. rewrite !Forall_forall in *. intros x Hx. set_solver.
    + apply andb_false_iff in E as [E|E].
      * left. apply negb_false_iff, bool_decide_eq_true in E. by destruct (subgoals_of _ _).
      * right. apply not_Forall_Exists; [intros x; apply _|]. intros Hall. apply all_completed_dicts in Hall. by rewrite Hall in E.
Qed.

(** What every decision is by its constructor. *)
Definition decision_ok (d : GoalOrchestrationDecision) : Prop :=
  clean (reason d) /\ clean (goal_id d) /\ optional_ok (subgoal_id d).

Lemma made_reason act goal why sub resume review refs d :
  _decision act goal why sub resume review refs = Ok d -> decision_ok d.
Proof.
  unfold _decision, make_decision. intros H. case_bool_decide; [|done]. unfold_m. do 3 bind_ok H. injection H as <-.
  split; [by eapply required_clean|]. split; [by eapply required_clean|apply clean_optional_idem].
Qed.

Lemma decided_reason gid sn violation d :
  decide_snapshot policy gid sn violation = Ok d -> decision_ok d.
Proof.
  unfold decide_snapshot, _decide_for_active, _decide_for_blocked, mbind, res_bind. cbv zeta. intros H.
  repeat (match type of H with
          | match ?x with _ => _ end = _ => destruct x
          | (if ?b then _ else _) = _ => destruct b
          end; try discriminate H); by eapply made_reason.
Qed.

Abbreviation orchestrate := (GoalOrchestrator.decide policy (A:=A) clock py_float in_unit zero true).

Lemma decide_run log w id gid violation :
  represents log w -> clean_id id "goal_id" = Ok gid ->
  exists d, orchestrate id violation w = (Ok d, w) /\ decision_ok d
    /\ warranted policy (known_of log) gid (negb (default "" violation =? "")%string) d.
Proof using Hmax.
  intros H Hid. pose proof (required_clean _ _ _ Hid) as Hc.
  destruct (decide_known log w gid violation H Hc) as (d & Ed & Hw). pose proof (decided_reason _ _ _ _ Ed) as Hok.
  exists d. split; [|done]. unfold GoalOrchestrator.decide. unfold clean_id in Hid. rewrite (M_lift_ok _ _ _ _ Hid).
  cbn [negb]. rewrite (M_bind_ok _ _ _ _ _ (snapshot_read _ _ _ _ H (clean_required _ _ Hc))).
  unfold mlift. by rewrite Ed.
Qed.

(** ** Properties *)


Import GoalExecutionPlanner.

Lemma mapped_known ep d gid k violated :
  warranted policy k gid violated d -> decision_ok d ->
  (mapped ep d).1 ∈ GOAL_EXECUTION_ACTIONS /\ strip (mapped ep d).2 <> "".
Proof.
  intros Hw [[Hr Hn] _]. unfold mapped. cbv zeta.
  repeat match goal with |- context [if ?b then _ else _] => destruct b end; cbn [fst snd];
    (split; [compute_decide|]); try (by rewrite Hr); try (by vm_compute);
    destruct Hw; cbn [action]; by vm_compute.
Qed.

Lemma text_of_action a : a ∈ GOAL_EXECUTION_ACTIONS -> text (VStr a) = a.
Proof. unfold GOAL_EXECUTION_ACTIONS. rewrite !elem_of_cons, elem_of_nil. naive_solver. Qed.

Lemma clean_action a : a ∈ GOAL_EXECUTION_ACTIONS -> clean a.
Proof. unfold GOAL_EXECUTION_ACTIONS. rewrite !elem_of_cons, elem_of_nil. intros H. split; naive_solver. Qed.

Lemma plan_decided ep d context gid k violated base :
  warranted policy k gid violated d -> decision_ok d -> _planner_context d context = Ok base ->
  exists pd, GoalExecutionPlanner.decide ep d context = Ok pd
    /\ pd_action pd = (mapped ep d).1 /\ pd_goal pd = goal_id d /\ pd_subgoal pd = subgoal_id d
    /\ pd_resume pd = resume_point d /\ pd_context pd = base /\ pd_refs pd = evidence_refs d.
Proof.
  intros Hw Hok Hb. destruct (mapped_known ep d gid k violated Hw Hok) as [Ha Hn]. destruct Hok as (Hr & Hg & Ho).
  unfold GoalExecutionPlanner.decide. rewrite Hb. unfold mbind at 1, res_bind at 1. unfold make_plan_decision. cbv zeta.
  rewrite text_of_action, bool_decide_true by exact Ha. unfold_m. rewrite clean_required by done.
  unfold clean_required_text. rewrite text_strip. apply String.eqb_neq in Hn as ->. rewrite Ho. by eexists.
Qed.

Context (clock_clean : forall n, clean (clock n)).
Abbreviation plan ep := (GoalExecutionPlanner.plan ep (GoalRepository.utc_now (A:=A) clock)).

Lemma planned ep d context gid k violated (w : repo A) p w' :
  warranted policy k gid violated d -> decision_ok d -> plan ep d context w = (Ok p, w') ->
  lines w' = lines w /\ p_goal p = goal_id d /\ p_action p = (mapped ep d).1 /\ p_subgoal p = subgoal_id d
  /\ p_resume p = resume_point d /\ p_review p = (p_action p =? "require_review")%string.
Proof.
  intros Hw Hok H. pose proof Hok as (_ & Hg & Ho). unfold GoalExecutionPlanner.plan in H. run H as pd w1 E.
  assert (Hb : exists base, _planner_context d context = Ok base).
  { unfold GoalExecutionPlanner.decide in E. unfold_m. destruct (_planner_context d context) as [b|]; [by exists b|done]. }
  destruct Hb as [base Hb].
  destruct (plan_decided ep d context gid k violated base Hw Hok Hb) as (pd' & E' & A1 & A2 & A3 & A4 & _).
  rewrite E in E'. injection E' as <-. destruct (mapped_known ep d gid k violated Hw Hok) as [Hm _].
  run H as now w2 En. injection En as <- <-. apply M_lift_inv in H as [H ->]. unfold make_plan in H. unfold_m.
  rewrite A1, A2, A3, A4 in H. rewrite clean_required in H by done. unfold clean_required_text at 1 in H.
  rewrite text_of_action in H by exact Hm.
  assert (Hne : ((mapped ep d).1 =? "")%string = false).
  { apply String.eqb_neq. intros En. rewrite En in Hm. revert Hm. compute_decide. }
  rewrite Hne in H. do 3 bind_ok H. injection H as <-.
  cbn [p_goal p_action p_subgoal p_resume p_review lines]. split_and!; try done.
Qed.

(** A decision without a context is always planned. *)
Lemma planned_always ep d gid k violated (w : repo A) :
  warranted policy k gid violated d -> decision_ok d -> exists p w', plan ep d NoContext w = (Ok p, w').
Proof using clock_clean in_unit py_float zero.
  intros Hw Hok. pose proof Hok as (_ & Hg & Ho). destruct (mapped_known ep d gid k violated Hw Hok) as [Hm _].
  destruct (_planner_context d NoContext) as [base|] eqn:Hb; [|done].
  destruct (plan_decided ep d NoContext gid k violated base Hw Hok Hb) as (pd & E & A1 & A2 & A3 & A4 & A5 & A6).
  unfold GoalExecutionPlanner.plan. rewrite (M_lift_ok _ _ _ _ E), A5. cbv zeta.
  rewrite (M_bind_ok (GoalRepository.utc_now clock) _ (clock (ticks w)) w (Repo (outside w) (lines w) (S (ticks w)))) by reflexivity.
  injection Hb as <-. change (vget "title" _) with VNone. change (py_or VNone ?x) with x.
  assert (Ht : exists t, py_or (optional_val (subgoal_id d)) (VStr (goal_id d)) = VStr t /\ clean t).
  { destruct (subgoal_id d) as [s|]; cbn [optional_val]; [|by exists (goal_id d)]. unfold optional_ok in Ho.
    cbn [optional_val clean_optional_text py_str] in Ho. destruct (String.eqb_spec (strip s) "") as [|Hn]; [done|].
    injection Ho as Ho. exists s. rewrite Ho in Hn. split; [|by split]. unfold py_or. cbn [truthy].
    by apply String.eqb_neq in Hn as ->. }
  destruct Ht as (t & -> & Hct). cbn [py_str]. unfold mlift, make_plan. unfold_m.
  rewrite A1, A2. pose proof (clean_action _ Hm) as Hne.
  rewrite !clean_required by first [done|apply clock_clean]. cbn [list_refs]. eexists _, _. reflexivity.
Qed.

(** C21. From the repository to the plan, nothing is planned that the records
    and both policies do not warrant.  Whatever context comes with it, the
    plan of the orchestrator's decision leaves the file as it is and is for
    this goal; it creates a task only for an active or pending subgoal of a
    goal that is open, and only where neither policy asks for a review; it
    resumes only a blocked subgoal with a resume point and the leave of both;
    it completes only a goal that is completed or whose subgoals all are, with
    no review required; and without a context there always is a plan. *)
Theorem planned_action_warranted ep log w id gid violation d :
  represents log w -> clean_id id "goal_id" = Ok gid -> orchestrate id violation w = (Ok d, w) ->
  let k := known_of log in
  let violated := negb (default "" violation =? "")%string in
  (exists p w', plan ep d NoContext w = (Ok p, w'))
  /\ forall context p w', plan ep d context w = (Ok p, w') ->
     lines w' = lines w /\ p_goal p = gid /\ p_review p = (p_action p =? "require_review")%string
     /\ (p_action p = "create_task" ->
         (exists g, open k gid violated g)
         /\ (exists s, s ∈ subgoals_of k gid /\ p_subgoal p = Some (PersistentSubgoal.subgoal_id s)
             /\ (PersistentSubgoal.status s = "active"
                 \/ PersistentSubgoal.status s = "pending" /\ allow_auto_start_next_subgoal policy = true
                    /\ none_in ["active"; "blocked"] (subgoals_of k gid)))
         /\ allow_create_task_from_subgoal ep = true /\ require_review_before_create_task ep = false)
     /\ (p_action p = "resume_task" ->
         (exists s, s ∈ subgoals_of k gid /\ p_subgoal p = Some (PersistentSubgoal.subgoal_id s)
            /\ PersistentSubgoal.status s = "blocked")
         /\ p_resume p <> VNone /\ allow_resume_blocked_subgoal policy = true
         /\ Goals.require_review_before_resume policy = false /\ allow_resume_task_from_resume_point ep = true
         /\ GoalExecutionPlanner.require_review_before_resume ep = false)
     /\ (p_action p = "complete_goal" ->
         (exists g, dget gid (k_goals k) = Some g
            /\ (PersistentGoal.status g = "completed"
                \/ subgoals_of k gid <> []
                   /\ Forall (fun s => PersistentSubgoal.status s = "completed") (subgoals_of k gid)))
         /\ require_review_before_goal_completion policy = false /\ require_review_before_complete_goal ep = false).
Proof using Hmax clock_clean.
  intros H Hid Hd k violated. destruct (decide_run log w id gid violation H Hid) as (d' & Ed & Hok & Hw).
  rewrite Hd in Ed. injection Ed as <-. split; [by eapply planned_always|]. intros context p w' Hp.
  destruct (planned ep d context gid k violated w p w' Hw Hok Hp) as (P1 & P2 & P3 & P4 & P5 & P6).
  split; [done|]. split; [rewrite P2; by destruct Hw|]. split; [done|]. rewrite P3, P4, P5. clear P1 P2 P3 P4 P5 P6 Hp Hd H.
  fold k violated in Hw. clearbody k violated. unfold mapped.
  destruct Hw as [why Hg|g why refs Hg Hv|g why refs Hg Hv Hs|g why refs Hg Hv Hs|g s why refs Ho Hin Hs
    |g s why resume refs Ho Hin Hs Hr Hp|g s why resume refs Ho Hin Hs Hr
    |g s before after why refs Ho Es Hs Hn1 Hn2|g why refs Ho Hn Hc|g why refs Ho Hn He];
    cbn [action requires_user_review subgoal_id resume_point reason].
  all: simpl; repeat match goal with |- context [if ?b then _ else _] => destruct b eqn:? end; cbn [fst];
    repeat match goal with H : _ || _ = false |- _ => apply orb_false_iff in H as [? ?]
                      | H : negb _ = false |- _ => apply negb_false_iff in H end.
  all: split_and!; intros Hx; try discriminate Hx.
  - split; [exists g; split; [done|by left]|by split].
  - split; [by exists g|]. split; [|by split]. exists s. split; [done|]. split; [done|]. by left.
  - split; [by exists s|]. by split_and!.
  - split; [by exists g|]. split; [|by split]. exists s. split; [rewrite Es; set_solver|]. split; [done|]. by right.
  - destruct Ho as [Hg _]. split; [exists g; split; [done|by right]|by split].
Qed.
End decide.
End facts.

(** ** A goal at work

    An active goal with one active subgoal, and the policies of the code. *)

Definition demo_log : list change :=
  [Change "goal_appended" "now" (GoalEntry (PersistentGoal.Make "g1" "Goal" "" "active" "now" "now" []));
   Change "subgoal_appended" "now"
     (SubgoalEntry (PersistentSubgoal.Make "s1" "g1" "Step" "active" 0 (VInt 0) None VNone [] "now" "now"))].
Definition demo_stored : repo unit := Repo tt (map written demo_log) 0.
Definition demo_policy : GoalLifecyclePolicy := LifecyclePolicy true false true true 1.
Definition demo_decision : GoalOrchestrator.GoalOrchestrationDecision :=
  GoalOrchestrator.Decision "continue" "g1" (Some "s1") "active_subgoal" VNone false [].

Lemma demo_stored_log : represents demo_unit_float demo_in_unit (VInt 0) demo_log demo_stored.
Proof.
  split; [reflexivity|]. repeat apply Forall_cons_2; [| |constructor].
  - split; [|split; [reflexivity|compute_decide]]. repeat (apply Forall_cons_2; [by split|]). constructor.
  - split; [|split; [compute_decide|split; [by split_and!|reflexivity]]]. repeat (apply Forall_cons_2; [by split|]). constructor.
Qed.


(** A task is created for it, and the plan stands on the record. *)
Lemma planned_action_warranted_witness :
  exists p w', GoalExecutionPlanner.plan GoalExecutionPlanner.default_execution_policy (GoalRepository.utc_now demo_clock)
                 demo_decision GoalExecutionPlanner.NoContext demo_stored = (Ok p, w')
    /\ GoalExecutionPlanner.p_action p = "create_task"
    /\ exists s, s ∈ subgoals_of (known_of demo_log) "g1"
       /\ GoalExecutionPlanner.p_subgoal p = Some (PersistentSubgoal.subgoal_id s).
Proof.
  assert (X : GoalOrchestrator.decide demo_policy demo_clock demo_unit_float demo_in_unit (VInt 0) true "g1" None demo_stored
    = (Ok demo_decision, demo_stored)) by (vm_compute; reflexivity).
  destruct (planned_action_warranted demo_clock demo_unit_float demo_in_unit (VInt 0) demo_policy ltac:(reflexivity)
    ltac:(intros n; apply demo_clock_clean) GoalExecutionPlanner.default_execution_policy demo_log demo_stored "g1" "g1" None
    demo_decision demo_stored_log eq_refl X) as [(p & w' & Ep) Hp].
  exists p, w'. split; [exact Ep|].
  assert (Ha : GoalExecutionPlanner.p_action p = "create_task").
  { assert (Y : exists q v, GoalExecutionPlanner.plan GoalExecutionPlanner.default_execution_policy
      (GoalRepository.utc_now demo_clock) demo_decision GoalExecutionPlanner.NoContext demo_stored = (Ok q, v)
      /\ GoalExecutionPlanner.p_action q = "create_task") by (do 2 eexists; split; vm_compute; reflexivity).
    destruct Y as (q & v & Eq & Hq). rewrite Ep in Eq. injection Eq as -> _. exact Hq. }
  split; [exact Ha|]. destruct (Hp _ _ _ Ep) as (_ & _ & _ & Hc & _). destruct (Hc Ha) as (_ & (s & Hs & Es & _) & _).
  exists s. split; [exact Hs|exact Es].
Defined.
