(* ===== verification/WorkerContracts.v ===== *)
(** * The contracts of workers

    [core/worker/worker_contracts.py]: parent tasks, worker tasks, worker
    results, snapshots of the worker runtime, queue items and scheduler states,
    each with its constructor function and the check of its dict.  A dataclass
    is a record of values with its [to_dict]; the keys of a dict are texts.

    [py_float] is [float()] and [unit] is [max(0.0, min(1.0, x))]. *)

From S2P Require Import Prelude PyVal Sealing.

Definition WORKER_TASK_FIELDS : list string := ["task_id"; "parent_task_id"; "role"; "objective"; "input_context"].
Definition WORKER_FORBIDDEN_STRATEGY_FIELDS : list string :=
  ["constraints"; "expected_output"; "retry_policy"; "policy"; "strategy"; "planner_decision"].
Definition PARENT_TASK_FIELDS : list string := ["task_id"; "objective"; "input_context"; "decomposition_mode"].
Definition WORKER_RESULT_FIELDS : list string :=
  ["task_id"; "status"; "summary"; "result"; "artifacts"; "trace"; "open_questions"; "confidence"].
Definition WORKER_RESULT_STATUSES : list string := ["success"; "partial"; "failed"; "blocked"].
Definition WORKER_STATE_SNAPSHOT_FIELDS : list string :=
  ["active_tasks"; "completed_tasks"; "blocked_tasks"; "artifacts_index"; "last_decision"; "handoff_notes"].
Definition SCHEDULER_QUEUE_STATUSES : list string := ["pending"; "running"; "done"; "failed"].
Definition SCHEDULER_QUEUE_ITEM_FIELDS : list string := ["task"; "status"; "attempts"; "max_retries"; "last_result"].
Definition SCHEDULER_STATE_FIELDS : list string := ["queue"; "done"; "failed"; "tick_count"; "last_event"].

(** ** Helpers *)

Definition _required_text (name : string) (value : val) : res string :=
  let t := text value in
  if (t =? "")%string then Raise (ValueError (name +:+ " is required")) else Ok t.

(** The text of a list of texts. *)
Definition list_text (l : list string) : string := py_str (VList (map VStr l)).

Definition _normalize_choice (name : string) (value : val) (allowed : list string) : res string :=
  let t := lower (text value) in
  if bool_decide (t ∈ allowed) then Ok t
  else Raise (ValueError (name +:+ " must be one of " +:+ list_text (sorted_strs allowed))).

(** [sorted(key for key in fields if key not in payload)] and the keys beyond them. *)
Definition missing_keys (fields : list string) (d : list (string * val)) : list string :=
  sorted_strs (filter (fun k => k ∉ dkeys d) fields).
Definition extra_keys (fields : list string) (d : list (string * val)) : list string :=
  sorted_strs (filter (fun k => k ∉ fields) (dkeys d)).

(** [if bad: raise ValueError(msg)] *)
Definition refuse (bad : bool) (msg : string) : res unit := if bad then Raise (ValueError msg) else Ok tt.

Definition refuse_keys (keys : list string) (msg : string) : res unit :=
  refuse (negb (bool_decide (keys = []))) (msg +:+ list_text keys).

(** [[item for item in v or [] if isinstance(item, dict)]] *)
Definition dict_items (v : val) : res (list val) :=
  l ← py_iter (py_or v (VList []));
  Ok (List.filter is_mapping l).

(** [[str(item).strip() for item in v or [] if str(item).strip()]] *)
Definition text_items (v : val) : res (list val) :=
  l ← py_iter (py_or v (VList []));
  Ok (map VStr (filter (fun t => t <> "") (map (fun x => strip (py_str x)) l))).

Definition dict_or_empty (v : val) : val := VDict (mapping v).

(** ** Checks *)

Definition ensure_worker_task_contract (payload : val) : res (list (string * val)) :=
  match payload with
  | VDict d =>
      _ ← refuse_keys (sorted_strs (filter (fun k => k ∈ WORKER_FORBIDDEN_STRATEGY_FIELDS) (dkeys d)))
            "worker_task cannot contain strategy fields: ";
      _ ← refuse_keys (extra_keys WORKER_TASK_FIELDS d) "worker_task contains unknown fields: ";
      _ ← refuse (text (vget "task_id" d) =? "")%string "worker_task missing required field: task_id";
      _ ← refuse (text (vget "objective" d) =? "")%string "worker_task missing required field: objective";
      _ ← refuse (negb (is_mapping (vget "input_context" d))) "worker_task.input_context must be a dict";
      Ok d
  | _ => Raise (ValueError "worker_task must be a dict")
  end.

Definition ensure_parent_task_contract (payload : val) : res (list (string * val)) :=
  match payload with
  | VDict d =>
      _ ← refuse_keys (extra_keys PARENT_TASK_FIELDS d) "parent_task contains unknown fields: ";
      _ ← refuse (text (vget "task_id" d) =? "")%string "parent_task missing required field: task_id";
      _ ← refuse (text (vget "objective" d) =? "")%string "parent_task missing required field: objective";
      _ ← refuse (negb (is_mapping (vget "input_context" d))) "parent_task.input_context must be a dict";
      _ ← refuse (negb (lower (text (vget "decomposition_mode" d)) =? "manual")%string)
            "parent_task.decomposition_mode must be manual";
      Ok d
  | _ => Raise (ValueError "parent_task must be a dict")
  end.

Definition ensure_worker_result_contract (payload : val) : res (list (string * val)) :=
  match payload with
  | VDict d =>
      _ ← refuse_keys (missing_keys WORKER_RESULT_FIELDS d) "worker_result missing fields: ";
      let status := lower (text (vget "status" d)) in
      _ ← refuse (negb (bool_decide (status ∈ WORKER_RESULT_STATUSES))) ("worker_result.status is invalid: " +:+ status);
      _ ← refuse (text (vget "task_id" d) =? "")%string "worker_result missing required field: task_id";
      _ ← refuse (negb (is_mapping (vget "result" d))) "worker_result.result must be a dict";
      _ ← refuse (negb (is_list (vget "artifacts" d))) "worker_result.artifacts must be a list";
      _ ← refuse (negb (is_list (vget "trace" d))) "worker_result.trace must be a list";
      _ ← refuse (negb (is_list (vget "open_questions" d))) "worker_result.open_questions must be a list";
      Ok d
  | _ => Raise (ValueError "worker_result must be a dict")
  end.

Definition ensure_worker_state_snapshot_contract (payload : val) : res (list (string * val)) :=
  match payload with
  | VDict d =>
      _ ← refuse_keys (missing_keys WORKER_STATE_SNAPSHOT_FIELDS d) "worker_state_snapshot missing fields: ";
      _ ← refuse (negb (is_list (vget "active_tasks" d))) "worker_state_snapshot.active_tasks must be a list";
      _ ← refuse (negb (is_list (vget "completed_tasks" d))) "worker_state_snapshot.completed_tasks must be a list";
      _ ← refuse (negb (is_list (vget "blocked_tasks" d))) "worker_state_snapshot.blocked_tasks must be a list";
      _ ← refuse (negb (is_mapping (vget "artifacts_index" d))) "worker_state_snapshot.artifacts_index must be a dict";
      Ok d
  | _ => Raise (ValueError "worker_state_snapshot must be a dict")
  end.

(** [except Exception as exc: raise ValueError(f"...{exc}")] *)
Definition integer_or (msg : string) (r : res Z) : res Z :=
  match r with Ok z => Ok z | Raise e => Raise (ValueError (msg +:+ exn_text e)) end.

Definition ensure_scheduler_queue_item_contract (payload : val) : res (list (string * val)) :=
  match payload with
  | VDict d =>
      _ ← refuse_keys (missing_keys SCHEDULER_QUEUE_ITEM_FIELDS d) "scheduler_queue_item missing fields: ";
      _ ← ensure_worker_task_contract (vget "task" d);
      _ ← _normalize_choice "status" (vget "status" d) SCHEDULER_QUEUE_STATUSES;
      let msg := "scheduler_queue_item attempts/max_retries must be integers: " in
      attempts ← integer_or msg (int_field "attempts" 0 d);
      max_retries ← integer_or msg (int_field "max_retries" 0 d);
      _ ← refuse ((attempts <? 0)%Z || (max_retries <? 0)%Z) "scheduler_queue_item attempts/max_retries must be >= 0";
      _ ← refuse (negb (is_mapping (vget "last_result" d))) "scheduler_queue_item.last_result must be a dict";
      Ok d
  | _ => Raise (ValueError "scheduler_queue_item must be a dict")
  end.

(** One of the three lists of a scheduler state. *)
Definition ensure_items (key : string) (d : list (string * val)) : res unit :=
  match vget key d with
  | VList l => _ ← rmap ensure_scheduler_queue_item_contract l; Ok tt
  | _ => Raise (ValueError ("scheduler_state." +:+ key +:+ " must be a list"))
  end.

Definition ensure_scheduler_state_contract (payload : val) : res (list (string * val)) :=
  match payload with
  | VDict d =>
      _ ← refuse_keys (missing_keys SCHEDULER_STATE_FIELDS d) "scheduler_state missing fields: ";
      _ ← ensure_items "queue" d;
      _ ← ensure_items "done" d;
      _ ← ensure_items "failed" d;
      n ← integer_or "scheduler_state.tick_count must be an integer: " (int_field "tick_count" 0 d);
      _ ← refuse (n <? 0)%Z "scheduler_state.tick_count must be >= 0";
      Ok d
  | _ => Raise (ValueError "scheduler_state must be a dict")
  end.

(** ** Records and their constructors *)

Record ParentTask : Type := MakeParentTask { pt_task_id : val; pt_objective : val; pt_input_context : val; pt_mode : val }.

Definition parent_task_to_dict (t : ParentTask) : list (string * val) :=
  [("task_id", pt_task_id t); ("objective", pt_objective t); ("input_context", pt_input_context t);
   ("decomposition_mode", pt_mode t)].

Definition create_parent_task (task_id objective input_context decomposition_mode : val) : res ParentTask :=
  let mode := lower (strip (py_str (py_or decomposition_mode (VStr "manual")))) in
  if negb (mode =? "manual")%string then Raise (ValueError "parent_task decomposition_mode must be manual")
  else
    i ← _required_text "task_id" task_id;
    o ← _required_text "objective" objective;
    let t := MakeParentTask (VStr i) (VStr o) (dict_or_empty input_context) (VStr mode) in
    _ ← ensure_parent_task_contract (VDict (parent_task_to_dict t));
    Ok t.

Record WorkerTask : Type := MakeWorkerTask {
  wt_task_id : val; wt_parent : val; wt_role : val; wt_objective : val; wt_input_context : val }.

Definition worker_task_to_dict (t : WorkerTask) : list (string * val) :=
  [("task_id", wt_task_id t); ("parent_task_id", wt_parent t); ("role", wt_role t); ("objective", wt_objective t);
   ("input_context", wt_input_context t)].

(** [strategy_fields] are the keywords beyond the named ones. *)
Definition create_worker_task (task_id parent_task_id role objective input_context : val)
    (strategy_fields : list (string * val)) : res WorkerTask :=
  _ ← refuse_keys (sorted_strs (filter (fun k => k ∈ WORKER_FORBIDDEN_STRATEGY_FIELDS) (dkeys strategy_fields)))
        "worker_task cannot contain strategy fields: ";
  i ← _required_text "task_id" task_id;
  let p := text parent_task_id in
  let r := strip (py_str (py_or role (VStr "worker"))) in
  o ← _required_text "objective" objective;
  let t := MakeWorkerTask (VStr i) (VStr p) (VStr r) (VStr o) (dict_or_empty input_context) in
  _ ← ensure_worker_task_contract (VDict (worker_task_to_dict t));
  Ok t.

Record WorkerResult : Type := MakeWorkerResult {
  wr_task_id : val; wr_status : val; wr_summary : val; wr_result : val; wr_artifacts : val; wr_trace : val;
  wr_open_questions : val; wr_confidence : val }.

Definition worker_result_to_dict (r : WorkerResult) : list (string * val) :=
  [("task_id", wr_task_id r); ("status", wr_status r); ("summary", wr_summary r); ("result", wr_result r);
   ("artifacts", wr_artifacts r); ("trace", wr_trace r); ("open_questions", wr_open_questions r);
   ("confidence", wr_confidence r)].

Section floats.
Context (py_float : val -> res val) (unit : val -> val) (zero : val).

Definition _clamp_confidence (value : val) : val :=
  unit (match py_float value with Ok x => x | Raise _ => zero end).

Definition create_worker_result (task_id status summary result artifacts trace open_questions confidence : val)
  : res WorkerResult :=
  let s := lower (strip (py_str (py_or status (VStr "success")))) in
  let s := if bool_decide (s ∈ WORKER_RESULT_STATUSES) then s else "failed" in
  i ← _required_text "task_id" task_id;
  a ← dict_items artifacts;
  t ← dict_items trace;
  q ← text_items open_questions;
  let r := MakeWorkerResult (VStr i) (VStr s) (VStr (text summary)) (dict_or_empty result) (VList a) (VList t) (VList q)
             (_clamp_confidence confidence) in
  _ ← ensure_worker_result_contract (VDict (worker_result_to_dict r));
  Ok r.
End floats.

Record WorkerStateSnapshot : Type := MakeSnapshot {
  ws_active : val; ws_completed : val; ws_blocked : val; ws_artifacts : val; ws_decision : val; ws_notes : val;
  ws_at : val }.

Definition snapshot_to_dict (s : WorkerStateSnapshot) : list (string * val) :=
  [("active_tasks", ws_active s); ("completed_tasks", ws_completed s); ("blocked_tasks", ws_blocked s);
   ("artifacts_index", ws_artifacts s); ("last_decision", ws_decision s); ("handoff_notes", ws_notes s);
   ("snapshot_at", ws_at s)].

(** A dict whose keys are any values that can be hashed. *)
Definition vdict : Type := list (val * val).

Definition _normalize_artifacts_index (index : vdict) : list (string * val) :=
  fold_left (fun d kv => match kv.2 with
                         | VList items => dset (py_str kv.1) (VList (List.filter is_mapping items)) d
                         | _ => d
                         end) index [].

(** [create_worker_state_snapshot] on the lists the runtime gives it, at the time [now]. *)
Definition create_worker_state_snapshot (active completed blocked : list val) (index : vdict) (last_decision notes now : string)
  : res WorkerStateSnapshot :=
  let s := MakeSnapshot (VList (List.filter is_mapping active)) (VList (List.filter is_mapping completed))
             (VList (List.filter is_mapping blocked)) (VDict (_normalize_artifacts_index index))
             (VStr (strip last_decision)) (VStr (strip notes)) (VStr now) in
  _ ← ensure_worker_state_snapshot_contract (VDict (snapshot_to_dict s));
  Ok s.

Record SchedulerQueueItem : Type := MakeItem {
  qi_task : list (string * val);
  qi_status : string;
  qi_attempts : Z;
  qi_max_retries : Z;
  qi_last_result : list (string * val) }.

Definition item_to_dict (i : SchedulerQueueItem) : list (string * val) :=
  [("task", VDict (qi_task i)); ("status", VStr (qi_status i)); ("attempts", VInt (qi_attempts i));
   ("max_retries", VInt (qi_max_retries i)); ("last_result", VDict (qi_last_result i))].

Definition create_scheduler_queue_item (task : val) (status : string) (attempts max_retries : Z)
    (last_result : list (string * val)) : res SchedulerQueueItem :=
  payload ← ensure_worker_task_contract task;
  s ← _normalize_choice "status" (VStr status) SCHEDULER_QUEUE_STATUSES;
  let i := MakeItem payload s (Z.max 0 attempts) (Z.max 0 max_retries) last_result in
  _ ← ensure_scheduler_queue_item_contract (VDict (item_to_dict i));
  Ok i.

Record SchedulerState : Type := MakeSchedulerState {
  ss_queue : list (list (string * val));
  ss_done : list (list (string * val));
  ss_failed : list (list (string * val));
  ss_ticks : Z;
  ss_event : string }.

Definition scheduler_state_to_dict (s : SchedulerState) : list (string * val) :=
  [("queue", VList (map VDict (ss_queue s))); ("done", VList (map VDict (ss_done s)));
   ("failed", VList (map VDict (ss_failed s))); ("tick_count", VInt (ss_ticks s)); ("last_event", VStr (ss_event s))].

Definition create_scheduler_state (queue done failed : list SchedulerQueueItem) (tick_count : Z) (last_event : string)
  : res SchedulerState :=
  q ← rmap (fun i => ensure_scheduler_queue_item_contract (VDict (item_to_dict i))) queue;
  d ← rmap (fun i => ensure_scheduler_queue_item_contract (VDict (item_to_dict i))) done;
  f ← rmap (fun i => ensure_scheduler_queue_item_contract (VDict (item_to_dict i))) failed;
  let s := MakeSchedulerState q d f (Z.max 0 tick_count) (strip last_event) in
  _ ← ensure_scheduler_state_contract (VDict (scheduler_state_to_dict s));
  Ok s.

(** ** What passes the checks *)

Lemma refuse_Ok b m : refuse b m = Ok tt -> b = false.
Proof. by destruct b. Qed.

(** A check gives back what it was given. *)
Lemma task_contract_same v d : ensure_worker_task_contract v = Ok d -> v = VDict d.
Proof. unfold ensure_worker_task_contract. destruct v; try done. unfold mbind, res_bind. intros H. cases. Qed.

Lemma task_contract_id d : ensure_worker_task_contract (VDict d) = Ok d -> text (vget "task_id" d) <> "".
Proof.
  unfold ensure_worker_task_contract, mbind, res_bind. intros H.
  destruct (text (vget "task_id" d) =? "")%string eqn:E; [exfalso|by apply String.eqb_neq in E]. simpl in H. cases.
Qed.

Lemma result_contract_same v d : ensure_worker_result_contract v = Ok d -> v = VDict d.
Proof. unfold ensure_worker_result_contract. destruct v; try done. unfold mbind, res_bind. intros H. cases. Qed.

Lemma result_contract_idem v d : ensure_worker_result_contract v = Ok d -> ensure_worker_result_contract (VDict d) = Ok d.
Proof. intros H. by rewrite <- (result_contract_same _ _ H) at 1. Qed.

Lemma task_contract_idem v d : ensure_worker_task_contract v = Ok d -> ensure_worker_task_contract (VDict d) = Ok d.
Proof. intros H. by rewrite <- (task_contract_same _ _ H) at 1. Qed.

(** What makes a queue item valid. *)
Record item_ok (i : SchedulerQueueItem) : Prop := {
  ok_task : ensure_worker_task_contract (VDict (qi_task i)) = Ok (qi_task i);
  ok_status : qi_status i ∈ SCHEDULER_QUEUE_STATUSES;
  ok_attempts : (0 <= qi_attempts i)%Z;
  ok_retries : (0 <= qi_max_retries i)%Z }.

Lemma status_choice s : s ∈ SCHEDULER_QUEUE_STATUSES ->
  _normalize_choice "status" (VStr s) SCHEDULER_QUEUE_STATUSES = Ok s.
Proof.
  unfold SCHEDULER_QUEUE_STATUSES. intros H.
  repeat (apply elem_of_cons in H as [->|H]; [by vm_compute|]). by apply elem_of_nil in H.
Qed.

Lemma no_keys_missing fields d : (forall k, k ∈ fields -> k ∈ dkeys d) -> missing_keys fields d = [].
Proof.
  intros H. unfold missing_keys. replace (filter _ fields) with (@nil string); [done|].
  symmetry. apply elem_of_nil_inv. intros k [Hk Hin]%list_elem_of_filter. by apply Hk, H.
Qed.

Lemma item_contract i : item_ok i -> ensure_scheduler_queue_item_contract (VDict (item_to_dict i)) = Ok (item_to_dict i).
Proof.
  intros [Ht Hs Ha Hm]. destruct i as [t s a m r]. cbn [qi_task qi_status qi_attempts qi_max_retries qi_last_result] in *.
  unfold ensure_scheduler_queue_item_contract. rewrite no_keys_missing by (intros k Hk; exact Hk).
  change (refuse_keys [] _) with (Ok tt). unfold item_to_dict, mbind, res_bind. cbn [qi_task qi_status qi_attempts qi_max_retries qi_last_result].
  change (vget "task" _) with (VDict t). rewrite Ht. cbv iota.
  change (vget "status" _) with (VStr s). rewrite (status_choice s Hs).
  rewrite !(int_field_0 "attempts" a), !(int_field_0 "max_retries" m) by done. cbn.
  by rewrite (proj2 (Z.ltb_ge a 0) Ha), (proj2 (Z.ltb_ge m 0) Hm).
Qed.

Lemma items_contract l : Forall item_ok l ->
  rmap (fun i => ensure_scheduler_queue_item_contract (VDict (item_to_dict i))) l = Ok (map item_to_dict l).
Proof. induction 1 as [|i l Hi _ IH]; [done|]. cbn [rmap map]. unfold mbind, res_bind. by rewrite (item_contract i Hi), IH. Qed.

Lemma ensure_items_ok k d l : vget k d = VList (map VDict (map item_to_dict l)) -> Forall item_ok l -> ensure_items k d = Ok tt.
Proof.
  intros Hk Hl. unfold ensure_items. rewrite Hk.
  assert (E : rmap ensure_scheduler_queue_item_contract (map VDict (map item_to_dict l)) = Ok (map item_to_dict l)).
  { rewrite <- (items_contract l Hl), map_map. clear. induction l as [|i l IH]; [done|]. cbn. by rewrite IH. }
  unfold mbind, res_bind. by rewrite E.
Qed.

(** The books of a scheduler, as [create_scheduler_state] shows them. *)
Definition shown_state (queue done failed : list SchedulerQueueItem) (ticks : Z) (last_event : string) : SchedulerState :=
  MakeSchedulerState (map item_to_dict queue) (map item_to_dict done) (map item_to_dict failed) ticks (strip last_event).

Lemma shown_contract q d f n e : Forall item_ok q -> Forall item_ok d -> Forall item_ok f -> (0 <= n)%Z ->
  ensure_scheduler_state_contract (VDict (scheduler_state_to_dict (shown_state q d f n e)))
  = Ok (scheduler_state_to_dict (shown_state q d f n e)).
Proof.
  intros Hq Hd Hf Hn. unfold ensure_scheduler_state_contract. rewrite no_keys_missing by (intros k Hk; exact Hk).
  change (refuse_keys [] _) with (Ok tt). unfold mbind, res_bind.
  rewrite (ensure_items_ok "queue" _ q), (ensure_items_ok "done" _ d), (ensure_items_ok "failed" _ f) by done.
  rewrite (int_field_0 "tick_count" n) by done. cbn [integer_or]. by rewrite (proj2 (Z.ltb_ge n 0) Hn).
Qed.

Lemma scheduler_state_shown q d f n e : Forall item_ok q -> Forall item_ok d -> Forall item_ok f -> (0 <= n)%Z ->
  create_scheduler_state q d f n e = Ok (shown_state q d f n e).
Proof.
  intros Hq Hd Hf Hn. unfold create_scheduler_state, mbind, res_bind. rewrite !items_contract by done. cbv zeta.
  rewrite Z.max_r by done. change (MakeSchedulerState _ _ _ _ _) with (shown_state q d f n e).
  by rewrite (shown_contract q d f n e).
Qed.

Lemma result_status_text st : st ∈ WORKER_RESULT_STATUSES ->
  lower (strip (py_str (py_or (VStr st) (VStr "success")))) = st /\ lower (text (VStr st)) = st.
Proof.
  unfold WORKER_RESULT_STATUSES. intros H.
  repeat (apply elem_of_cons in H as [->|H]; [by vm_compute|]). by apply elem_of_nil in H.
Qed.

(** A worker result is made of whatever a task gave. *)
Lemma created_result py_float unit zero (i : val) st su (r : list (string * val)) (a t q : list val) c :
  text i <> "" -> st ∈ WORKER_RESULT_STATUSES ->
  exists w, create_worker_result py_float unit zero i (VStr st) su (VDict r) (VList a) (VList t) (VList q) c = Ok w
    /\ ensure_worker_result_contract (VDict (worker_result_to_dict w)) = Ok (worker_result_to_dict w)
    /\ wr_task_id w = VStr (text i) /\ wr_status w = VStr st.
Proof.
  intros Hi Hst. unfold create_worker_result.
  destruct (result_status_text st Hst) as [Es Et]. rewrite Es, bool_decide_true by done. unfold _required_text. rewrite (proj2 (String.eqb_neq _ _) Hi).
  assert (L : forall l, py_iter (py_or (VList l) (VList [])) = Ok l) by by intros [|x l].
  unfold dict_items, text_items, mbind, res_bind. rewrite !L. cbv zeta.
  match goal with |- context [VDict (worker_result_to_dict ?x)] => set (w := x) end.
  assert (E : ensure_worker_result_contract (VDict (worker_result_to_dict w)) = Ok (worker_result_to_dict w)).
  { unfold ensure_worker_result_contract. rewrite no_keys_missing by (intros k Hk; exact Hk).
    change (refuse_keys [] _) with (Ok tt). unfold mbind, res_bind.
    change (vget "status" _) with (VStr st). change (vget "task_id" (worker_result_to_dict w)) with (VStr (text i)).
    rewrite Et, text_idemp, (proj2 (String.eqb_neq _ _) Hi). by rewrite bool_decide_true. }
  rewrite E. by exists w.
Qed.

(** A worker task is made of whatever names it and says what to do. *)
Lemma created_task i p r o c : text i <> "" -> text o <> "" ->
  let w := MakeWorkerTask (VStr (text i)) (VStr (text p)) (VStr (strip (py_str (py_or r (VStr "worker"))))) (VStr (text o)) (VDict (mapping c)) in
  create_worker_task i p r o c [] = Ok w
  /\ ensure_worker_task_contract (VDict (worker_task_to_dict w)) = Ok (worker_task_to_dict w).
Proof.
  intros Hi Ho. cbv zeta. unfold create_worker_task, _required_text.
  rewrite (proj2 (String.eqb_neq _ _) Hi), (proj2 (String.eqb_neq _ _) Ho).
  match goal with |- context [worker_task_to_dict ?x] => set (w := x) end.
  assert (E : ensure_worker_task_contract (VDict (worker_task_to_dict w)) = Ok (worker_task_to_dict w)).
  { unfold ensure_worker_task_contract. change (vget "task_id" _) with (VStr (text i)).
    change (vget "objective" _) with (VStr (text o)). rewrite !text_idemp.
    by rewrite (proj2 (String.eqb_neq _ _) Hi), (proj2 (String.eqb_neq _ _) Ho). }
  split; [|exact E]. change (refuse_keys _ _) with (Ok tt). unfold mbind, res_bind. cbv zeta. fold w.
  change (MakeWorkerTask _ _ _ _ _) with w. by rewrite E.
Qed.
