(* ===== verification/WorkerScheduler.v ===== *)
(** * Worker runtime, worker scheduler and manual decomposition

    [core/worker/worker_runtime.py], [worker_scheduler.py] and
    [task_decomposition.py].  The delegated runner is any function on a world
    [W] that may raise, and what it returns is a fresh dict, with a
    [worker_result] in it that may be an object, or not a dict at all; it does
    not call back into the scheduler.  The items of the queue are mutated in
    place, so an exception leaves the item as far as it was changed. *)

From stdpp Require Import pretty.
From S2P Require Import Prelude PyVal WorkerContracts.

(** ** Dicts with any keys *)

Fixpoint kset (k v : val) (d : vdict) : vdict :=
  match d with
  | [] => [(k, v)]
  | (k', v') :: d' => if py_eq k' k then (k', v) :: d' else (k', v') :: kset k v d'
  end.
Definition kpop (k : val) (d : vdict) : vdict := List.filter (fun kv => negb (py_eq kv.1 k)) d.

(** A task that is given: an object, or any value as its dict. *)
Inductive given_task : Type :=
  | TaskObject (t : WorkerTask)
  | TaskDict (v : val).

(** What a runner returns: a dict, a dict whose [worker_result] is an object, or anything else. *)
Inductive answer : Type :=
  | AnswerDict (d : list (string * val))
  | AnswerResult (d : list (string * val)) (r : WorkerResult)
  | AnswerOther (v : val).

Definition _coerce_task (t : given_task) : res (list (string * val)) :=
  ensure_worker_task_contract (match t with TaskObject t => VDict (worker_task_to_dict t) | TaskDict v => v end).

(** ** What a result says *)

Definition _derive_status (source : list (string * val)) : string :=
  let status := lower (text (vget "status" source)) in
  if bool_decide (status ∈ ["success"; "partial"; "failed"; "blocked"]) then status
  else match vget "ok" source with VBool true => "success" | VBool false => "failed" | _ => "partial" end.

(** The first text under the keys that is not blank. *)
Fixpoint first_text (keys : list string) (d : list (string * val)) : option string :=
  match keys with
  | [] => None
  | k :: rest =>
      match vget k d with
      | VStr s => if (strip s =? "")%string then first_text rest d else Some (strip s)
      | _ => first_text rest d
      end
  end.

Definition _derive_summary (source : list (string * val)) : string :=
  match first_text ["summary"; "final_answer"; "result_summary"; "error"] source with
  | Some s => s
  | None => default "" (first_text ["result_summary"; "persona_final_reply"; "blocked_reason"] (mapping (vget "display_state" source)))
  end.

Fixpoint first_dict (keys : list string) (d : list (string * val)) : option (list (string * val)) :=
  match keys with
  | [] => None
  | k :: rest => match vget k d with VDict e => Some e | _ => first_dict rest d end
  end.

Definition _derive_result (source : list (string * val)) : list (string * val) :=
  default source (first_dict ["result"; "last_result"; "display_state"; "runtime_state"] source).

(** The dicts of the first list under the keys. *)
Fixpoint first_dicts (keys : list string) (d : list (string * val)) : option (list val) :=
  match keys with
  | [] => None
  | k :: rest => match vget k d with VList l => Some (List.filter is_mapping l) | _ => first_dicts rest d end
  end.

Definition _derive_artifacts (source : list (string * val)) : list val :=
  match first_dicts ["artifacts"] source with
  | Some l => l
  | None => default [] (first_dicts ["artifacts"] (mapping (vget "display_state" source)))
  end.

Definition _derive_trace (source : list (string * val)) : list val :=
  match first_dicts ["trace"; "execution_trace"; "execution_log"] source with
  | Some l => l
  | None => default [] (first_dicts ["trace"] (mapping (vget "display_state" source)))
  end.

Definition _derive_open_questions (source : list (string * val)) : list val :=
  match vget "open_questions" source with
  | VList l => map VStr (filter (fun t => t <> "") (map (fun x => strip (py_str x)) l))
  | _ => []
  end.

(** ** The runtime *)
Module WorkerRuntime.

Record t (W : Type) : Type := Make {
  world : W;
  readings : nat;
  active_tasks : vdict;
  completed_results : vdict;
  blocked_results : vdict;
  artifacts_index : vdict;
  last_decision : string;
  handoff_notes : string }.
Arguments Make {W}. Arguments world {W}. Arguments readings {W}. Arguments active_tasks {W}. Arguments completed_results {W}.
Arguments blocked_results {W}. Arguments artifacts_index {W}. Arguments last_decision {W}. Arguments handoff_notes {W}.

Section runtime.
Context {W : Type} (runner : option (list (string * val) -> M W answer)) (clock : nat -> string).
Context (py_float : val -> res val) (unit_of : val -> val) (zero one : val).

Definition start (w : W)  : t W := Make w 0 [] [] [] [] "" "".

Definition create_task (task_id parent_task_id role objective input_context : val) (strategy_fields : list (string * val))
  : M (t W) (list (string * val)) :=
  task ← mlift (create_worker_task task_id parent_task_id role objective input_context strategy_fields);
  let payload := worker_task_to_dict task in
  _ ← mmodify (fun r => Make (world r) (readings r) (kset (vget "task_id" payload) (VDict payload) (active_tasks r))
        (completed_results r) (blocked_results r) (artifacts_index r) "created_worker_task" (handoff_notes r));
  mret payload.

(** The runner, in its world. *)
Definition delegate (f : list (string * val) -> M W answer) (task : list (string * val)) : M (t W) answer := fun r =>
  let (a, w) := f task (world r) in
  (a, Make w (readings r) (active_tasks r) (completed_results r) (blocked_results r) (artifacts_index r) (last_decision r)
        (handoff_notes r)).

Definition setdefault (k : string) (v : val) (d : list (string * val)) : list (string * val) :=
  if dmem k d then d else dset k v d.

Definition run_task (task : given_task) : M (t W) answer :=
  payload ← mlift (_coerce_task task);
  match runner with
  | None =>
      mret (AnswerDict [("ok", VBool false); ("status", VStr "blocked"); ("worker_task", VDict payload);
                        ("error", VStr "worker runtime has no delegated ZERO runner")])
  | Some f =>
      a ← delegate f payload;
      mret (match a with
            | AnswerDict d => AnswerDict (setdefault "worker_task" (VDict payload) d)
            | AnswerResult d r => AnswerResult (setdefault "worker_task" (VDict payload) d) r
            | AnswerOther v =>
                AnswerDict (setdefault "worker_task" (VDict payload)
                  [("ok", VBool false); ("status", VStr "failed");
                   ("error", VStr "delegated ZERO runner returned invalid result"); ("raw_result", v)])
            end)
  end.

Definition _derive_confidence (source : list (string * val)) : val :=
  match py_float (vget_or "confidence" one source) with Ok x => x | Raise _ => zero end.

Definition collect_result (task : given_task) (a : answer) : res (list (string * val)) :=
  payload ← _coerce_task task;
  let source := match a with AnswerDict d | AnswerResult d _ => d | AnswerOther _ => [] end in
  result ← match a, vget "worker_result" source with
           | AnswerResult _ r, _ => Ok (worker_result_to_dict r)
           | _, VDict e => ensure_worker_result_contract (VDict e)
           | _, _ =>
               r ← create_worker_result py_float unit_of zero (vget "task_id" payload) (VStr (_derive_status source))
                     (VStr (_derive_summary source)) (VDict (_derive_result source)) (VList (_derive_artifacts source))
                     (VList (_derive_trace source)) (VList (_derive_open_questions source)) (_derive_confidence source);
               Ok (worker_result_to_dict r)
           end;
  ensure_worker_result_contract (VDict result).

Definition snapshot_state (notes : string) : M (t W) (list (string * val)) :=
  _ ← mmodify (fun r => if (notes =? "")%string then r
        else Make (world r) (readings r) (active_tasks r) (completed_results r) (blocked_results r) (artifacts_index r)
               (last_decision r) (strip notes));
  r ← mget;
  _ ← mmodify (fun r => Make (world r) (S (readings r)) (active_tasks r) (completed_results r) (blocked_results r)
        (artifacts_index r) (last_decision r) (handoff_notes r));
  s ← mlift (create_worker_state_snapshot (map snd (active_tasks r)) (map snd (completed_results r))
        (map snd (blocked_results r)) (artifacts_index r) (last_decision r) (handoff_notes r) (clock (readings r)));
  mret (snapshot_to_dict s).

(** [d.pop(k, None)], [d[k] = v] and [k in names], which hash [k]. *)
Definition hash (k : val) : res unit := if hashable k then Ok tt else Raise (TypeError "unhashable type").

Definition merge_result (result : WorkerResult + val) : M (t W) (list (string * val)) :=
  payload ← mlift (ensure_worker_result_contract
    (match result with inl r => VDict (worker_result_to_dict r) | inr v => v end));
  let task_id := vget "task_id" payload in
  _ ← mlift (hash task_id);
  _ ← mmodify (fun r => Make (world r) (readings r) (kpop task_id (active_tasks r)) (completed_results r)
        (blocked_results r) (artifacts_index r) (last_decision r) (handoff_notes r));
  good ← mlift (val_in (vget "status" payload) ["success"; "partial"]);
  _ ← mmodify (fun r =>
        if good : bool
        then Make (world r) (readings r) (active_tasks r) (kset task_id (VDict payload) (completed_results r))
               (kpop task_id (blocked_results r)) (artifacts_index r) (last_decision r) (handoff_notes r)
        else Make (world r) (readings r) (active_tasks r) (kpop task_id (completed_results r))
               (kset task_id (VDict payload) (blocked_results r)) (artifacts_index r) (last_decision r) (handoff_notes r));
  _ ← mmodify (fun r => Make (world r) (readings r) (active_tasks r) (completed_results r) (blocked_results r)
        (match vget "artifacts" payload with
         | VList l => kset task_id (VList (List.filter is_mapping l)) (artifacts_index r)
         | _ => artifacts_index r
         end) "merged_worker_result" (handoff_notes r));
  snapshot_state "".

(** *** The runtime, read *)

(** A snapshot takes one reading of the clock. *)
Definition read_once (r : t W) : t W :=
  Make (world r) (S (readings r)) (active_tasks r) (completed_results r) (blocked_results r) (artifacts_index r)
    (last_decision r) (handoff_notes r).
Definition shown (r : t W) : list (string * val) :=
  snapshot_to_dict (MakeSnapshot (VList (List.filter is_mapping (map snd (active_tasks r))))
    (VList (List.filter is_mapping (map snd (completed_results r)))) (VList (List.filter is_mapping (map snd (blocked_results r))))
    (VDict (_normalize_artifacts_index (artifacts_index r))) (VStr (strip (last_decision r))) (VStr (strip (handoff_notes r)))
    (VStr (clock (readings r)))).

Lemma runtime_shown r : snapshot_state "" r = (Ok (shown r), read_once r).
Proof. by destruct r. Qed.

(** A result that counts as done. *)
Definition good (d : list (string * val)) : bool :=
  match val_in (vget "status" d) ["success"; "partial"] with Ok b => b | Raise _ => false end.

Lemma status_in_ok d : ensure_worker_result_contract (VDict d) = Ok d ->
  val_in (vget "status" d) ["success"; "partial"] = Ok (good d).
Proof.
  intros H. unfold good. destruct (val_in _ _) eqn:E; [done|]. exfalso. unfold val_in in E.
  assert (S : bool_decide (lower (text (vget "status" d)) ∈ WORKER_RESULT_STATUSES) = true).
  { unfold ensure_worker_result_contract, mbind, res_bind in H. destruct (refuse_keys _ _); [|done]. cbv zeta in H.
    by destruct (bool_decide _). }
  destruct (vget "status" d) as [| | | |l|l]; try done; destruct l as [|x l]; try done; clear -S; exfalso; revert S;
    unfold text; cbn [py_or truthy py_str py_repr]; rewrite string_app_cons, <- text_strip, text_head by done; by vm_compute.
Qed.

(** The books after a result. *)
Definition merged (d : list (string * val)) (r : t W) : t W :=
  let id := vget "task_id" d in
  Make (world r) (readings r) (kpop id (active_tasks r))
    (if good d then kset id (VDict d) (completed_results r) else kpop id (completed_results r))
    (if good d then kpop id (blocked_results r) else kset id (VDict d) (blocked_results r))
    (match vget "artifacts" d with VList l => kset id (VList (List.filter is_mapping l)) (artifacts_index r) | _ => artifacts_index r end)
    "merged_worker_result" (handoff_notes r).

Lemma merge_result_spec d r : ensure_worker_result_contract (VDict d) = Ok d ->
  merge_result (inr (VDict d)) r =
  if hashable (vget "task_id" d) then (Ok (shown (merged d r)), read_once (merged d r))
  else (Raise (TypeError "unhashable type"), r).
Proof.
  intros H. unfold merge_result. rewrite (M_lift_ok _ _ d) by done. cbv zeta. unfold hash.
  destruct (hashable _) eqn:Eh; [|done]. rewrite (M_lift_ok _ _ tt) by done. unfold mbind at 1, M_bind at 1, mmodify at 1.
  rewrite (M_lift_ok _ _ (good d)) by by apply status_in_ok.
  unfold mbind, M_bind, mmodify. rewrite runtime_shown. unfold merged. by destruct (good d).
Qed.

(** *** What the runner has to give *)

(** A result it gives itself passes the contract, and its task id can be hashed. *)
Definition fit (e : list (string * val)) : Prop :=
  ensure_worker_result_contract (VDict e) = Ok e /\ hashable (vget "task_id" e) = true.
Definition proper (a : answer) : Prop :=
  match a with
  | AnswerDict d => match vget "worker_result" d with VDict e => fit e | _ => True end
  | AnswerResult _ r => fit (worker_result_to_dict r)
  | AnswerOther _ => True
  end.
(** A runner that does not raise and gives proper answers; with no runner the task is blocked. *)
Definition dependable : Prop :=
  match runner with None => True | Some f => forall t w, exists a w', f t w = (Ok a, w') /\ proper a end.

Lemma collect_contract g a d : collect_result g a = Ok d -> ensure_worker_result_contract (VDict d) = Ok d.
Proof.
  unfold collect_result, mbind, res_bind. destruct (_coerce_task g); [|done]. cbv zeta. intros H. bind_ok H.
  by apply result_contract_idem in H.
Qed.

Lemma derive_status_ok d : _derive_status d ∈ WORKER_RESULT_STATUSES.
Proof.
  unfold _derive_status. cbv zeta. generalize (lower (text (vget "status" d))). intros s.
  destruct (bool_decide _) eqn:E; [by apply bool_decide_eq_true in E|].
  destruct (vget "ok" d) as [|[]| | | |]; compute_decide.
Qed.

Lemma collect_fit t a : ensure_worker_task_contract (VDict t) = Ok t -> proper a ->
  exists d, collect_result (TaskDict (VDict t)) a = Ok d /\ hashable (vget "task_id" d) = true.
Proof.
  intros Ht Ha. unfold collect_result, _coerce_task. rewrite Ht. unfold mbind at 1, res_bind at 1. cbv zeta.
  assert (D : forall source, exists d, ((r ← create_worker_result py_float unit_of zero (vget "task_id" t) (VStr (_derive_status source))
                     (VStr (_derive_summary source)) (VDict (_derive_result source)) (VList (_derive_artifacts source))
                     (VList (_derive_trace source)) (VList (_derive_open_questions source)) (_derive_confidence source);
               Ok (worker_result_to_dict r)) ≫= (fun result => ensure_worker_result_contract (VDict result))) = Ok d
      /\ hashable (vget "task_id" d) = true).
  { intros source. destruct (created_result py_float unit_of zero (vget "task_id" t) (_derive_status source)
      (VStr (_derive_summary source)) (_derive_result source) (_derive_artifacts source) (_derive_trace source)
      (_derive_open_questions source) (_derive_confidence source) (task_contract_id _ Ht) (derive_status_ok source))
      as (w & E & Ew & Hi & _).
    unfold mbind, res_bind. rewrite E, Ew. eexists; split; [done|]. change (vget "task_id" _) with (wr_task_id w). by rewrite Hi. }
  destruct a as [d|d r|v]; cbn [proper] in Ha.
  - destruct (vget "worker_result" d) as [| | | | |e] eqn:Ee; try apply D. destruct Ha as [Hc Hh].
    unfold mbind, res_bind. rewrite !Hc. by exists e.
  - destruct Ha as [Hc Hh]. unfold mbind, res_bind. rewrite !Hc. by eexists.
  - apply D.
Qed.

(** Running a task and collecting its result. *)
Definition answered (t : list (string * val)) : M (WorkerRuntime.t W) (list (string * val)) :=
  a ← run_task (TaskDict (VDict t));
  mlift (collect_result (TaskDict (VDict t)) a).

Lemma answered_contract t r d r' : answered t r = (Ok d, r') -> ensure_worker_result_contract (VDict d) = Ok d.
Proof. unfold answered. intros H. run H as a r1 E. apply M_lift_inv in H as [H ->]. by eapply collect_contract. Qed.

(** The books are not touched by it. *)
Lemma answered_books t r x r' : answered t r = (x, r') ->
  r' = Make (world r') (readings r) (active_tasks r) (completed_results r) (blocked_results r) (artifacts_index r)
         (last_decision r) (handoff_notes r).
Proof.
  unfold answered, run_task, delegate. destruct (_coerce_task _); [|by intros [= _ <-]; destruct r].
  unfold_m. destruct runner as [f|]; [|by intros [= _ <-]; destruct r].
  destruct (f _ _) as [[[dd|dd rr|vv]|e] w]; by intros [= _ <-].
Qed.

Lemma answered_dependable t r : dependable -> ensure_worker_task_contract (VDict t) = Ok t ->
  exists d r', answered t r = (Ok d, r') /\ hashable (vget "task_id" d) = true.
Proof.
  intros Hr Ht. unfold answered, run_task. unfold _coerce_task. rewrite (M_assoc (mlift _)), (M_lift_ok _ _ t) by done.
  unfold dependable in Hr. destruct runner as [f|].
  - destruct (Hr t (world r)) as (a & w & E & Ha). rewrite M_assoc. unfold delegate, mbind, M_bind. rewrite E.
    assert (K : forall k, vget "worker_result" (setdefault "worker_task" (VDict t) k) = vget "worker_result" k).
    { intros k. unfold setdefault. destruct (dmem _ _); [done|]. by apply vget_dset_ne. }
    destruct a as [d|d x|v]; cbn [proper] in Ha.
    + destruct (collect_fit t (AnswerDict (setdefault "worker_task" (VDict t) d)) Ht) as (e & Ee & He).
      { cbn [proper]. by rewrite K. }
      unfold mret, M_ret, mlift. rewrite Ee. by eexists _, _.
    + destruct (collect_fit t (AnswerResult (setdefault "worker_task" (VDict t) d) x) Ht Ha) as (e & Ee & He).
      unfold mret, M_ret, mlift. rewrite Ee. by eexists _, _.
    + destruct (collect_fit t (AnswerDict (setdefault "worker_task" (VDict t)
        [("ok", VBool false); ("status", VStr "failed");
         ("error", VStr "delegated ZERO runner returned invalid result"); ("raw_result", v)])) Ht) as (e & Ee & He).
      { cbn [proper]. by rewrite K. }
      unfold mret, M_ret, mlift. rewrite Ee. by eexists _, _.
  - match goal with |- context [mret ?a] => destruct (collect_fit t a Ht I) as (e & Ee & He) end.
    rewrite M_left_id. unfold mlift. rewrite Ee. by eexists _, _.
Qed.
End runtime.
End WorkerRuntime.

(** ** The scheduler *)
Module WorkerScheduler.

Record t (W : Type) : Type := Make {
  runtime : WorkerRuntime.t W;
  max_retries : Z;
  queue : list SchedulerQueueItem;
  done_items : list SchedulerQueueItem;
  failed_items : list SchedulerQueueItem;
  tick_count : Z;
  last_event : string }.
Arguments Make {W}. Arguments runtime {W}. Arguments max_retries {W}. Arguments queue {W}. Arguments done_items {W}.
Arguments failed_items {W}. Arguments tick_count {W}. Arguments last_event {W}.

Section scheduler.
Context {W : Type} (runner : option (list (string * val) -> M W answer)) (clock : nat -> string).
Context (py_float : val -> res val) (unit_of : val -> val) (zero one : val).

(** The constructor. *)
Definition make (r : WorkerRuntime.t W) (max_retries : Z) : t W := Make r (Z.max 0 max_retries) [] [] [] 0 "".

Definition on_runtime {X} (m : M (WorkerRuntime.t W) X) : M (t W) X := fun s =>
  let (x, r) := m (runtime s) in
  (x, Make r (max_retries s) (queue s) (done_items s) (failed_items s) (tick_count s) (last_event s)).

Definition set_queue (f : list SchedulerQueueItem -> list SchedulerQueueItem) : M (t W) unit :=
  mmodify (fun s => Make (runtime s) (max_retries s) (f (queue s)) (done_items s) (failed_items s) (tick_count s)
    (last_event s)).
Definition add_done (i : SchedulerQueueItem) : M (t W) unit :=
  mmodify (fun s => Make (runtime s) (max_retries s) (queue s) (done_items s ++ [i]) (failed_items s) (tick_count s)
    (last_event s)).
Definition add_failed (i : SchedulerQueueItem) : M (t W) unit :=
  mmodify (fun s => Make (runtime s) (max_retries s) (queue s) (done_items s) (failed_items s ++ [i]) (tick_count s)
    (last_event s)).
Definition note_event (e : string) : M (t W) unit :=
  mmodify (fun s => Make (runtime s) (max_retries s) (queue s) (done_items s) (failed_items s) (tick_count s) e).
Definition tick : M (t W) unit :=
  mmodify (fun s => Make (runtime s) (max_retries s) (queue s) (done_items s) (failed_items s) (tick_count s + 1)
    (last_event s)).

Definition with_status (st : string) (i : SchedulerQueueItem) : SchedulerQueueItem :=
  MakeItem (qi_task i) st (qi_attempts i) (qi_max_retries i) (qi_last_result i).
Definition started (i : SchedulerQueueItem) : SchedulerQueueItem :=
  MakeItem (qi_task i) "running" (qi_attempts i + 1) (qi_max_retries i) (qi_last_result i).
Definition with_result (r : list (string * val)) (i : SchedulerQueueItem) : SchedulerQueueItem :=
  MakeItem (qi_task i) (qi_status i) (qi_attempts i) (qi_max_retries i) r.

Definition task_name (i : SchedulerQueueItem) : string := py_str (vget "task_id" (qi_task i)).

Definition enqueue (task : given_task) (retries : option Z) : M (t W) (list (string * val)) :=
  payload ← mlift (_coerce_task task);
  s ← mget;
  item ← mlift (create_scheduler_queue_item (VDict payload) "pending" 0
    (match retries with None => max_retries s | Some n => Z.max 0 n end) []);
  _ ← set_queue (fun q => q ++ [item]);
  _ ← note_event ("enqueued:" +:+ py_str (vget "task_id" payload));
  mret (item_to_dict item).

Fixpoint _next_pending_index (q : list SchedulerQueueItem) : option nat :=
  match q with
  | [] => None
  | i :: q' => if (qi_status i =? "pending")%string then Some 0%nat else S <$> _next_pending_index q'
  end.

Definition snapshot_state : M (t W) (list (string * val)) :=
  s ← mget;
  st ← mlift (create_scheduler_state (queue s) (done_items s) (failed_items s) (tick_count s) (last_event s));
  _ ← mlift (ensure_scheduler_state_contract (VDict (scheduler_state_to_dict st)));
  mret (scheduler_state_to_dict st).

Record event : Type := Event {
  ev_ok : bool;
  ev_event : string;
  ev_task : option val;
  ev_result : list (string * val);
  ev_state : list (string * val);
  ev_worker_state : option (list (string * val)) }.

Definition removed (n : nat) (q : list SchedulerQueueItem) : list SchedulerQueueItem := take n q ++ drop (S n) q.

(** The event after an attempt. *)
Definition report (ok : bool) (name : string) (item : SchedulerQueueItem) (result : list (string * val)) : M (t W) event :=
  _ ← note_event (name +:+ ":" +:+ task_name item);
  st ← snapshot_state;
  ws ← on_runtime (WorkerRuntime.snapshot_state clock "");
  mret (Event ok name (Some (vget "task_id" (qi_task item))) result st (Some ws)).

(** What becomes of the item under [index] once its result is there. *)
Definition settle (index : nat) (item : SchedulerQueueItem) (result : list (string * val)) : M (t W) event :=
  let item := with_result result item in
  _ ← set_queue (fun q => <[index := item]> q);
  good ← mlift (val_in (vget "status" result) ["success"; "partial"]);
  if good : bool then
    let item := with_status "done" item in
    _ ← set_queue (removed index);
    _ ← on_runtime (WorkerRuntime.merge_result clock (inr (VDict result)));
    _ ← add_done item;
    report true "done" item result
  else if (qi_attempts item <=? qi_max_retries item)%Z then
    let item := with_status "pending" item in
    _ ← set_queue (fun q => <[index := item]> q);
    report false "retry" item result
  else
    let item := with_status "failed" item in
    _ ← set_queue (removed index);
    _ ← on_runtime (WorkerRuntime.merge_result clock (inr (VDict result)));
    _ ← add_failed item;
    report false "failed" item result.

(** An attempt at the item under [index]. *)
Definition attempt (index : nat) (item : SchedulerQueueItem) : M (t W) event :=
  let item := started item in
  _ ← set_queue (fun q => <[index := item]> q);
  _ ← note_event ("running:" +:+ task_name item);
  answered ← on_runtime (WorkerRuntime.run_task runner (TaskDict (VDict (qi_task item))));
  result ← mlift (WorkerRuntime.collect_result py_float unit_of zero one (TaskDict (VDict (qi_task item))) answered);
  _ ← mlift (ensure_worker_result_contract (VDict result));
  settle index item result.

Definition run_next : M (t W) event :=
  _ ← tick;
  s ← mget;
  match _next_pending_index (queue s) with
  | None =>
      _ ← note_event "idle";
      st ← snapshot_state;
      mret (Event true "idle" None [] st None)
  | Some index =>
      match queue s !! index with
      | Some item => attempt index item
      | None => mraise (RuntimeErr "list index out of range")
      end
  end.

Fixpoint run_ticks (n : nat) : M (t W) (list event) :=
  match n with
  | 0%nat => mret []
  | S n' =>
      s ← mget;
      match _next_pending_index (queue s) with
      | None => mret []
      | Some _ => e ← run_next; es ← run_ticks n'; mret (e :: es)
      end
  end.

Record summary : Type := Summary {
  sm_ok : bool;
  sm_events : list event;
  sm_state : list (string * val);
  sm_worker_state : list (string * val) }.

Definition run_until_idle (max_ticks : Z) : M (t W) summary :=
  events ← run_ticks (Z.to_nat (Z.max 1 max_ticks));
  s ← mget;
  st ← snapshot_state;
  ws ← on_runtime (WorkerRuntime.snapshot_state clock "");
  mret (Summary (bool_decide (failed_items s = [])) events st ws).

(** *** One tick, as a step relation *)

(** The dict of a state. *)
Definition shown (s : t W) : list (string * val) :=
  scheduler_state_to_dict (shown_state (queue s) (done_items s) (failed_items s) (tick_count s) (last_event s)).

(** The state after a tick that leaves [r], the three lists and the event. *)
Definition ticked (s : t W) (r : WorkerRuntime.t W) (q d f : list SchedulerQueueItem) (e : string) : t W :=
  Make r (max_retries s) q d f (tick_count s + 1) e.

(** The item after an attempt that gave [d]. *)
Definition tried (d : list (string * val)) (st : string) (i : SchedulerQueueItem) : SchedulerQueueItem :=
  with_status st (with_result d (started i)).

Abbreviation answer_of i s := (WorkerRuntime.answered runner py_float unit_of zero one (qi_task i) (runtime s)).

(** The first pending item, its place in the queue. *)
Definition next_item (s : t W) (n : nat) (i : SchedulerQueueItem) : Prop :=
  _next_pending_index (queue s) = Some n /\ queue s !! n = Some i.

Definition reported (ok : bool) (name : string) (i : SchedulerQueueItem) (d : list (string * val)) (s' : t W) : event :=
  Event ok name (Some (vget "task_id" (qi_task i))) d (shown s') (Some (WorkerRuntime.shown clock (runtime s'))).

(** The report of the tick takes one more reading of the clock. *)
Definition after_report (s : t W) : t W :=
  Make (WorkerRuntime.read_once (runtime s)) (max_retries s) (queue s) (done_items s) (failed_items s) (tick_count s) (last_event s).

Inductive ran (s : t W) : res event -> t W -> Prop :=
  | Idle : _next_pending_index (queue s) = None ->
      let s' := ticked s (runtime s) (queue s) (done_items s) (failed_items s) "idle" in
      ran s (Ok (Event true "idle" None [] (shown s') None)) s'
  | Raised n i e r : next_item s n i -> answer_of i s = (Raise e, r) ->
      ran s (Raise e) (ticked s r (<[n := started i]> (queue s)) (done_items s) (failed_items s) ("running:" +:+ task_name i))
  | Lost n i d r : next_item s n i -> answer_of i s = (Ok d, r) ->
      WorkerRuntime.good d = true \/ (qi_max_retries i < qi_attempts i + 1)%Z -> hashable (vget "task_id" d) = false ->
      ran s (Raise (TypeError "unhashable type"))
        (ticked s r (removed n (queue s)) (done_items s) (failed_items s) ("running:" +:+ task_name i))
  | Done n i d r : next_item s n i -> answer_of i s = (Ok d, r) ->
      WorkerRuntime.good d = true -> hashable (vget "task_id" d) = true ->
      let s' := ticked s (WorkerRuntime.read_once (WorkerRuntime.merged d r)) (removed n (queue s))
                  (done_items s ++ [tried d "done" i]) (failed_items s) ("done:" +:+ task_name i) in
      ran s (Ok (reported true "done" i d s')) (after_report s')
  | Retried n i d r : next_item s n i -> answer_of i s = (Ok d, r) ->
      WorkerRuntime.good d = false -> (qi_attempts i + 1 <= qi_max_retries i)%Z ->
      let s' := ticked s r (<[n := tried d "pending" i]> (queue s)) (done_items s) (failed_items s) ("retry:" +:+ task_name i) in
      ran s (Ok (reported false "retry" i d s')) (after_report s')
  | GaveUp n i d r : next_item s n i -> answer_of i s = (Ok d, r) ->
      WorkerRuntime.good d = false -> (qi_max_retries i < qi_attempts i + 1)%Z -> hashable (vget "task_id" d) = true ->
      let s' := ticked s (WorkerRuntime.read_once (WorkerRuntime.merged d r)) (removed n (queue s))
                  (done_items s) (failed_items s ++ [tried d "failed" i]) ("failed:" +:+ task_name i) in
      ran s (Ok (reported false "failed" i d s')) (after_report s').

(** What the scheduler always keeps of its books. *)
Record books_ok (s : t W) : Prop := {
  bo_queue : Forall item_ok (queue s);
  bo_done : Forall item_ok (done_items s);
  bo_failed : Forall item_ok (failed_items s);
  bo_retries : (0 <= max_retries s)%Z;
  bo_ticks : (0 <= tick_count s)%Z }.

Lemma snapshot_shown s : books_ok s -> snapshot_state s = (Ok (shown s), s).
Proof.
  intros [Hq Hd Hf Hr Ht]. unfold snapshot_state, shown. unfold_m. rewrite scheduler_state_shown by done.
  by rewrite shown_contract.
Qed.

Lemma report_spec ok name i d s : 
  let s' := Make (runtime s) (max_retries s) (queue s) (done_items s) (failed_items s) (tick_count s) (name +:+ ":" +:+ task_name i) in
  books_ok s' -> report ok name i d s = (Ok (reported ok name i d s'), after_report s').
Proof.
  cbv zeta. intros H. unfold report, note_event. unfold mbind at 1, M_bind at 1, mmodify at 1.
  rewrite (M_bind_ok _ _ _ _ _ (snapshot_shown _ H)). unfold on_runtime, mbind, M_bind. rewrite WorkerRuntime.runtime_shown.
  done.
Qed.

Lemma pending_lookup q n : _next_pending_index q = Some n ->
  exists i, q !! n = Some i /\ qi_status i = "pending" /\ Forall (fun j => qi_status j <> "pending") (take n q).
Proof.
  revert n. induction q as [|j q IH]; intros n; [done|]. cbn [_next_pending_index].
  destruct (String.eqb_spec (qi_status j) "pending") as [E|E].
  - intros [= <-]. exists j. split_and!; [done|done|constructor].
  - destruct (_next_pending_index q) as [m|] eqn:Em; [|done]. intros [= <-].
    destruct (IH m eq_refl) as (i & Hi & Hp & Hf). exists i. split_and!; [done|done|]. cbn. by constructor.
Qed.

Lemma pending_none q : _next_pending_index q = None <-> Forall (fun j => qi_status j <> "pending") q.
Proof.
  induction q as [|j q IH]; [split; [constructor|done]|]. cbn [_next_pending_index].
  destruct (String.eqb_spec (qi_status j) "pending") as [E|E].
  - split; [done|]. intros [? _]%Forall_cons. done.
  - rewrite Forall_cons, <- IH. destruct (_next_pending_index q); naive_solver.
Qed.

Lemma removed_insert n (i : SchedulerQueueItem) q : removed n (<[n := i]> q) = removed n q.
Proof. unfold removed. by rewrite take_insert_ge, drop_insert_lt by lia. Qed.

Lemma item_ok_started i : item_ok i -> item_ok (started i).
Proof. intros [? ? ? ?]. split; cbn; [done|compute_decide|lia|done]. Qed.
Lemma item_ok_tried d st i : item_ok i -> st ∈ SCHEDULER_QUEUE_STATUSES -> item_ok (tried d st i).
Proof. intros [? ? ? ?] ?. split; cbn; [done|done|lia|done]. Qed.
Lemma Forall_removed (P : SchedulerQueueItem -> Prop) n q : Forall P q -> Forall P (removed n q).
Proof. intros H. apply Forall_app. split; [by apply Forall_take|by apply Forall_drop]. Qed.
Lemma Forall_snoc {A} (P : A -> Prop) l x : Forall P l -> P x -> Forall P (l ++ [x]).
Proof. intros Hl Hx. apply Forall_app. by split; [|constructor]. Qed.
Create HintDb books.
#[local] Hint Resolve item_ok_started item_ok_tried Forall_removed Forall_snoc Forall_insert : books.

(** The state of a tick from its start to the answer of the runner. *)
Definition running (s : t W) (n : nat) (i : SchedulerQueueItem) (r : WorkerRuntime.t W) : t W :=
  Make r (max_retries s) (<[n := started i]> (queue s)) (done_items s) (failed_items s) (tick_count s) ("running:" +:+ task_name i).

Lemma attempt_answered n i s x r : answer_of i s = (x, r) ->
  attempt n i s = match x with Ok d => settle n (started i) d (running s n i r) | Raise e => (Raise e, running s n i r) end.
Proof.
  unfold WorkerRuntime.answered, attempt, set_queue, note_event, on_runtime. intros H. unfold mbind, M_bind, mmodify in *.
  cbn [runtime max_retries queue done_items failed_items tick_count last_event] in *.
  change (qi_task (started i)) with (qi_task i). change (task_name (started i)) with (task_name i).
  destruct (WorkerRuntime.run_task _ _ _) as [[a|e] r1]; [|by injection H as <- <-]. unfold mlift in *.
  destruct (WorkerRuntime.collect_result _ _ _ _ _ _) as [d|e] eqn:Ec; [|by injection H as <- <-].
  injection H as <- <-. by rewrite (WorkerRuntime.collect_contract _ _ _ _ _ _ _ Ec).
Qed.

Lemma merge_on_runtime d s : ensure_worker_result_contract (VDict d) = Ok d ->
  on_runtime (WorkerRuntime.merge_result clock (inr (VDict d))) s =
  if hashable (vget "task_id" d)
  then (Ok (WorkerRuntime.shown clock (WorkerRuntime.merged d (runtime s))),
        Make (WorkerRuntime.read_once (WorkerRuntime.merged d (runtime s))) (max_retries s) (queue s) (done_items s)
          (failed_items s) (tick_count s) (last_event s))
  else (Raise (TypeError "unhashable type"), s).
Proof.
  intros H. unfold on_runtime. rewrite WorkerRuntime.merge_result_spec by done. destruct (hashable _); [done|by destruct s].
Qed.

(** A tick that settles the item leaves one of four states. *)
Lemma settle_spec n i d s r : books_ok s -> item_ok i -> ensure_worker_result_contract (VDict d) = Ok d ->
  let put q ds fs e rt := Make rt (max_retries s) q ds fs (tick_count s) e in
  let over := put (removed n (queue s)) in
  let new := WorkerRuntime.read_once (WorkerRuntime.merged d r) in
  settle n (started i) d (running s n i r) =
  if WorkerRuntime.good d || (qi_max_retries i <? qi_attempts i + 1)%Z then
    if hashable (vget "task_id" d) then
      if WorkerRuntime.good d
      then let s' := over (done_items s ++ [tried d "done" i]) (failed_items s) ("done:" +:+ task_name i) new in
           (Ok (reported true "done" i d s'), after_report s')
      else let s' := over (done_items s) (failed_items s ++ [tried d "failed" i]) ("failed:" +:+ task_name i) new in
           (Ok (reported false "failed" i d s'), after_report s')
    else (Raise (TypeError "unhashable type"), over (done_items s) (failed_items s) ("running:" +:+ task_name i) r)
  else let s' := put (<[n := tried d "pending" i]> (queue s)) (done_items s) (failed_items s) ("retry:" +:+ task_name i) r in
       (Ok (reported false "retry" i d s'), after_report s').
Proof.
  intros [Hq Hd Hf Hr Ht] Hi Hc. cbv zeta. unfold settle, set_queue, add_done, add_failed.
  unfold mbind at 1, M_bind at 1, mmodify at 1. rewrite (M_lift_ok _ _ (WorkerRuntime.good d)) by by apply WorkerRuntime.status_in_ok.
  unfold running. cbn [runtime max_retries queue done_items failed_items tick_count last_event]. rewrite list_insert_insert_eq.
  change (qi_attempts (with_result d (started i))) with (qi_attempts i + 1)%Z.
  change (qi_max_retries (with_result d (started i))) with (qi_max_retries i). rewrite Z.leb_antisym.
  assert (In : forall st, st ∈ SCHEDULER_QUEUE_STATUSES -> item_ok (tried d st i)) by by intros; apply item_ok_tried.
  destruct (WorkerRuntime.good d); cbn [orb]; [|destruct (qi_max_retries i <? qi_attempts i + 1)%Z; cbn [negb]].
  - unfold mbind, M_bind, mmodify. rewrite merge_on_runtime by done.
    cbn [runtime max_retries queue done_items failed_items tick_count last_event]. rewrite !removed_insert.
    destruct (hashable _); [|done]. refine (report_spec _ _ (tried d "done" i) _ _ _). split; cbn; try done; auto with books.
    apply Forall_snoc; [done|apply In; compute_decide].
  - unfold mbind, M_bind, mmodify. rewrite merge_on_runtime by done.
    cbn [runtime max_retries queue done_items failed_items tick_count last_event]. rewrite !removed_insert.
    destruct (hashable _); [|done]. refine (report_spec _ _ (tried d "failed" i) _ _ _). split; cbn; try done; auto with books.
    apply Forall_snoc; [done|apply In; compute_decide].
  - unfold mbind, M_bind, mmodify. cbn [runtime max_retries queue done_items failed_items tick_count last_event].
    rewrite list_insert_insert_eq. refine (report_spec _ _ (tried d "pending" i) _ _ _). split; cbn; try done.
    apply Forall_insert; [done|apply In; compute_decide].
Qed.

(** The tick counted. *)
Definition begun (s : t W) (e : string) : t W :=
  Make (runtime s) (max_retries s) (queue s) (done_items s) (failed_items s) (tick_count s + 1) e.

Lemma run_next_some s n i : next_item s n i -> run_next s = attempt n i (begun s (last_event s)).
Proof. intros [Hn Hi]. unfold run_next, tick. unfold_m. cbn [queue]. by rewrite Hn, Hi. Qed.

Lemma books_ok_tick s e : books_ok s -> books_ok (begun s e).
Proof. intros [Hq Hd Hf Hr Ht]. split; cbn; try done. lia. Qed.

Lemma next_item_exists s : books_ok s -> _next_pending_index (queue s) = None \/
  exists n i, next_item s n i /\ item_ok i /\ qi_status i = "pending" /\ Forall (fun j => qi_status j <> "pending") (take n (queue s)).
Proof.
  intros H. destruct (_next_pending_index (queue s)) as [n|] eqn:En; [right|by left].
  destruct (pending_lookup _ _ En) as (i & Hi & Hp & Hf). exists n, i. split_and!; [done| |done|done].
  by eapply Forall_lookup_1; [apply bo_queue|].
Qed.

(** What a tick does is one step of the relation. *)
Lemma ran_run s x s' : books_ok s -> ran s x s' -> run_next s = (x, s').
Proof.
  intros H R. pose proof (books_ok_tick s (last_event s) H) as Ht.
  assert (K : forall n i, next_item s n i -> item_ok i).
  { intros n i [_ Hi]. by eapply Forall_lookup_1; [apply bo_queue|]. }
  destruct R as [Hn|n i e r Hn Ha|n i d r Hn Ha Hg Hh|n i d r Hn Ha Hg Hh|n i d r Hn Ha Hg Hm|n i d r Hn Ha Hg Hm Hh].
  1: { unfold run_next, tick, note_event. unfold_m. cbn [queue]. rewrite Hn.
       by rewrite snapshot_shown by exact (books_ok_tick s "idle" H). }
  all: rewrite (run_next_some _ _ _ Hn), (attempt_answered _ _ (begun s (last_event s)) _ _ Ha).
  1: done.
  all: etransitivity; [apply (settle_spec _ _ _ _ _ Ht (K _ _ Hn) (WorkerRuntime.answered_contract _ _ _ _ _ _ _ _ _ Ha))|]; cbv zeta.
  - rewrite Hh. destruct Hg as [->|Hg]; [done|]. by rewrite (proj2 (Z.ltb_lt _ _) Hg), orb_true_r.
  - by rewrite Hg, Hh.
  - by rewrite Hg, (proj2 (Z.ltb_ge _ _) Hm).
  - by rewrite Hg, (proj2 (Z.ltb_lt _ _) Hm), Hh.
Qed.

Lemma some_ran s : books_ok s -> exists x s', ran s x s'.
Proof.
  intros H. destruct (next_item_exists s H) as [Hn|(n & i & Hn & _)]; [do 2 eexists; by apply Idle|].
  destruct (answer_of i s) as [[d|e] r] eqn:Ha; [|do 2 eexists; by eapply Raised].
  destruct (WorkerRuntime.good d) eqn:Hg; destruct (hashable (vget "task_id" d)) eqn:Hh;
    destruct (decide (qi_attempts i + 1 <= qi_max_retries i)%Z).
  all: do 2 eexists; first [by eapply Done | by eapply Retried | eapply GaveUp; [done|done|done|lia|done]
    | eapply Lost; [done|done|by left|done] | eapply Lost; [done|done|right; lia|done]].
Qed.

(** A run and a step are the same. *)
Lemma run_next_ran s x s' : books_ok s -> run_next s = (x, s') <-> ran s x s'.
Proof.
  intros H. split; [|by apply ran_run]. destruct (some_ran s H) as (y & s2 & R).
  rewrite (ran_run _ _ _ H R). by intros [= <- <-].
Qed.

(** *** What the books say *)

(** An item waits with an attempt left, or was left running by an exception. *)
Definition waiting_ok (i : SchedulerQueueItem) : Prop :=
  (qi_status i = "pending" /\ (qi_attempts i <= qi_max_retries i)%Z)
  \/ (qi_status i = "running" /\ (qi_attempts i <= qi_max_retries i + 1)%Z).
Definition done_ok (i : SchedulerQueueItem) : Prop :=
  qi_status i = "done" /\ WorkerRuntime.good (qi_last_result i) = true /\ (qi_attempts i <= qi_max_retries i + 1)%Z.
Definition failed_ok (i : SchedulerQueueItem) : Prop :=
  qi_status i = "failed" /\ WorkerRuntime.good (qi_last_result i) = false /\ qi_attempts i = (qi_max_retries i + 1)%Z.

Record ledger_ok (s : t W) : Prop := {
  lg_books : books_ok s;
  lg_queue : Forall waiting_ok (queue s);
  lg_done : Forall done_ok (done_items s);
  lg_failed : Forall failed_ok (failed_items s) }.

Lemma waiting_pending s n i : ledger_ok s -> next_item s n i -> item_ok i /\ qi_status i = "pending" /\ (qi_attempts i <= qi_max_retries i)%Z.
Proof.
  intros H [Hn Hi]. destruct (pending_lookup _ _ Hn) as (j & Hj & Hp & _). rewrite Hi in Hj. injection Hj as <-.
  split_and!; [by eapply Forall_lookup_1; [apply bo_queue, lg_books|]|done|].
  assert (X : waiting_ok i) by by eapply Forall_lookup_1; [apply lg_queue|]. destruct X as [[_ ?]|[E _]]; [done|congruence].
Qed.

Lemma ledger_ok_ran s x s' : ledger_ok s -> ran s x s' -> ledger_ok s'.
Proof.
  intros H R. assert (B := lg_books s H). assert (D : (0 <= tick_count s + 1)%Z) by (pose proof (bo_ticks s B); lia).
  destruct R as [Hn|n i e r Hn Ha|n i d r Hn Ha Hg Hh|n i d r Hn Ha Hg Hh|n i d r Hn Ha Hg Hm|n i d r Hn Ha Hg Hm Hh].
  1: { destruct H as [_ ? ? ?], B. by repeat split. }
  all: destruct (waiting_pending _ _ _ H Hn) as (Hi & Hp & Hle), H as [_ Hq Hd Hf], B as [Bq Bd Bf Br Bt].
  all: repeat split; cbn; try done; auto using Forall_removed.
  all: first [apply Forall_insert | apply Forall_snoc]; auto using item_ok_started.
  all: first [by apply item_ok_tried; [|compute_decide] | by right; cbn; split; [|lia] | by left | by repeat split; cbn; [|lia] | idtac].
  all: repeat split; cbn; first [done|lia].
Qed.

(** Adding a task fails on the contract of tasks alone. *)
Lemma enqueue_item g retries s : (0 <= max_retries s)%Z ->
  enqueue g retries s =
  match _coerce_task g with
  | Raise e => (Raise e, s)
  | Ok p =>
      let i := MakeItem p "pending" 0 (match retries with None => max_retries s | Some n => Z.max 0 n end) [] in
      (Ok (item_to_dict i), Make (runtime s) (max_retries s) (queue s ++ [i]) (done_items s) (failed_items s) (tick_count s)
                              ("enqueued:" +:+ py_str (vget "task_id" p)))
  end.
Proof.
  intros Hr. unfold enqueue, set_queue, note_event. destruct (_coerce_task g) as [p|e] eqn:Ep; [|done].
  rewrite (M_lift_ok _ _ p) by done. unfold mbind at 1, M_bind at 1, mget at 1. cbv beta iota.
  assert (Hp : ensure_worker_task_contract (VDict p) = Ok p) by by eapply task_contract_idem.
  set (n := match retries with None => _ | Some n => _ end). assert (Hn : (0 <= n)%Z) by (subst n; destruct retries; lia).
  assert (Ei : create_scheduler_queue_item (VDict p) "pending" 0 n [] = Ok (MakeItem p "pending" 0 n [])).
  { unfold create_scheduler_queue_item, mbind, res_bind. rewrite Hp, status_choice by compute_decide. cbv zeta.
    change (Z.max 0 0) with 0%Z. rewrite Z.max_r by done. rewrite item_contract; [done|]. split; cbn; [done|compute_decide|lia|done]. }
  rewrite (M_lift_ok _ _ _ _ Ei). reflexivity.
Qed.

Lemma ledger_ok_enqueue g retries s : ledger_ok s -> ledger_ok (enqueue g retries s).2.
Proof.
  intros [[Bq Bd Bf Br Bt] Hq Hd Hf]. rewrite enqueue_item by done. destruct (_coerce_task g) as [p|e] eqn:Ep; [|by repeat split].
  assert (Hp : ensure_worker_task_contract (VDict p) = Ok p) by by eapply task_contract_idem.
  set (n := match retries with None => _ | Some n => _ end). assert (Hn : (0 <= n)%Z) by (subst n; destruct retries; lia).
  repeat split; cbn; try done; apply Forall_snoc; try done; [|by left].
  split; cbn; [done|compute_decide|lia|done].
Qed.

Lemma ledger_ok_next s : ledger_ok s -> ledger_ok (run_next s).2.
Proof.
  intros H. destruct (run_next s) as [x s'] eqn:E. apply run_next_ran in E; [|apply H]. by eapply ledger_ok_ran.
Qed.

Lemma ledger_ok_ticks n : preserves ledger_ok (run_ticks n).
Proof.
  induction n as [|n IH]; cbn [run_ticks]; [by intros s H|].
  apply preserves_bind; [apply preserves_get|]. intros s0. destruct (_next_pending_index _); [|apply preserves_ret].
  apply preserves_bind; [intros s; apply ledger_ok_next|]. intros e. apply preserves_bind; [done|]. intros es. apply preserves_ret.
Qed.

Lemma ledger_ok_runtime s r : ledger_ok s ->
  ledger_ok (Make r (max_retries s) (queue s) (done_items s) (failed_items s) (tick_count s) (last_event s)).
Proof. by intros [[] ? ? ?]. Qed.

Lemma ledger_ok_until k : preserves ledger_ok (run_until_idle k).
Proof.
  unfold run_until_idle. apply preserves_bind; [apply ledger_ok_ticks|]. intros es. apply preserves_bind; [apply preserves_get|].
  intros s0. apply preserves_bind; [intros s H; by rewrite snapshot_shown by apply H|]. intros st.
  apply preserves_bind; [|intros; apply preserves_ret]. intros s H. unfold on_runtime.
  rewrite WorkerRuntime.runtime_shown. by apply ledger_ok_runtime.
Qed.

(** *** Sequences of operations, exceptions survived *)
Inductive op : Type :=
  | Enqueue (g : given_task) (retries : option Z)
  | RunNext
  | RunUntilIdle (max_ticks : Z).
Definition run_op (s : t W) (o : op) : t W :=
  match o with
  | Enqueue g n => (enqueue g n s).2
  | RunNext => (run_next s).2
  | RunUntilIdle k => (run_until_idle k s).2
  end.

Lemma ledger_ok_op s o : ledger_ok s -> ledger_ok (run_op s o).
Proof. intros H. destruct o; cbn [run_op]; [by apply ledger_ok_enqueue|by apply ledger_ok_next|by apply ledger_ok_until]. Qed.

Lemma ledger_ok_make r n : ledger_ok (make r n).
Proof. repeat split; cbn; try constructor; lia. Qed.

Lemma ledger_ok_ops ops s : ledger_ok s -> ledger_ok (fold_left run_op ops s).
Proof. revert s. induction ops as [|o ops IH]; intros s H; [done|]. by apply IH, ledger_ok_op. Qed.

(** C16. Whatever operations have been called on a new scheduler, and whatever
    its runner did, exceptions included, the books are valid, so the state
    can be shown: every item of the queue waits with an attempt left or was
    left running by an exception, every done item ended with a success or a
    part of it, every failed item has used up all its attempts and its last
    result is neither. *)
Theorem worker_ledger_kept r n ops : 
  let s := fold_left run_op ops (make r n) in
  ledger_ok s /\ snapshot_state s = (Ok (shown s), s).
Proof.
  cbv zeta. assert (H : ledger_ok (fold_left run_op ops (make r n))) by apply ledger_ok_ops, ledger_ok_make.
  split; [exact H|]. apply snapshot_shown, H.
Qed.

(** *** Work that gets done *)

(** The attempts that are left to the pending items. *)
Fixpoint remaining (q : list SchedulerQueueItem) : Z :=
  match q with
  | [] => 0
  | i :: q' => (if bool_decide (qi_status i = "pending") then qi_max_retries i - qi_attempts i + 1 else 0) + remaining q'
  end.

Lemma remaining_app q q' : remaining (q ++ q') = (remaining q + remaining q')%Z.
Proof. induction q as [|i q IH]; [done|]. cbn [remaining app]. rewrite IH. lia. Qed.

Abbreviation waiting q := (filter (fun i => qi_status i = "pending") q).
Abbreviation stuck q := (filter (fun i => qi_status i <> "pending") q).

Lemma remaining_nonneg q : Forall waiting_ok q -> (0 <= remaining q)%Z.
Proof.
  induction 1 as [|i q Hi _ IH]; [done|]. cbn [remaining]. case_bool_decide as E; [|lia].
  destruct Hi as [[_ ?]|[E' _]]; [lia|congruence].
Qed.

(** The queue cut at the item. *)
Lemma queue_cut (q : list SchedulerQueueItem) n i : q !! n = Some i -> exists a b, q = a ++ i :: b
  /\ (forall j, <[n := j]> q = a ++ j :: b) /\ removed n q = a ++ b.
Proof.
  intros H. exists (take n q), (drop (S n) q). assert (L : n < length q) by by eapply lookup_lt_Some.
  split_and!; [by rewrite take_drop_middle| |done]. intros j. by rewrite insert_take_drop.
Qed.

Lemma none_waiting q : Forall (fun j => qi_status j <> "pending") q -> waiting q = [] /\ stuck q = q.
Proof.
  induction 1 as [|i q Hi _ [IHw IHs]]; [done|].
  by rewrite (filter_cons_False _ i), (filter_cons_True _ i), IHw, IHs by done.
Qed.

(** What [run_next] does to the tasks when it returns. *)
Definition progress (s s' : t W) : Prop := exists ds fs,
  done_items s' = done_items s ++ ds /\ failed_items s' = failed_items s ++ fs
  /\ stuck (queue s') = stuck (queue s)
  /\ map qi_task (waiting (queue s)) ≡ₚ map qi_task (ds ++ fs) ++ map qi_task (waiting (queue s')).

Lemma progress_refl s : progress s s.
Proof. exists [], []. by rewrite !app_nil_r. Qed.

Lemma progress_trans s1 s2 s3 : progress s1 s2 -> progress s2 s3 -> progress s1 s3.
Proof.
  intros (d1 & f1 & D1 & F1 & Q1 & P1) (d2 & f2 & D2 & F2 & Q2 & P2). exists (d1 ++ d2), (f1 ++ f2).
  split_and!; [by rewrite D2, D1, app_assoc|by rewrite F2, F1, app_assoc|congruence|].
  rewrite P1, P2, !map_app. solve_Permutation.
Qed.

Lemma progress_ran s e s' : ledger_ok s -> _next_pending_index (queue s) <> None -> ran s (Ok e) s' ->
  progress s s' /\ (remaining (queue s') < remaining (queue s))%Z.
Proof.
  intros H Hne R. inversion R as [Hn|?|?|n i d r Hn Ha Hg Hh|n i d r Hn Ha Hg Hm|n i d r Hn Ha Hg Hm Hh]; subst; [done|..].
  all: destruct (waiting_pending _ _ _ H Hn) as (Hi & Hp & Hle), Hn as [_ Hn].
  all: destruct (queue_cut _ _ _ Hn) as (a & b & Eq & Ei & Er); unfold progress; cbn; rewrite ?Er, ?Ei, Eq.
  all: rewrite !remaining_app; cbn [remaining]; rewrite !bool_decide_true by done.
  - split; [|lia]. exists [tried d "done" i], []. rewrite !app_nil_r. split_and!; [done..| |].
    + rewrite !filter_app, (filter_cons_False _ i) by naive_solver. done.
    + rewrite !filter_app, (filter_cons_True _ i) by done. rewrite !map_app. cbn. solve_Permutation.
  - split; [|cbn; lia]. exists [], []. rewrite !app_nil_r. split_and!; [done..| |].
    + rewrite !filter_app, (filter_cons_False _ i), (filter_cons_False _ (tried _ _ _)) by naive_solver. done.
    + rewrite !filter_app, (filter_cons_True _ i), (filter_cons_True _ (tried _ _ _)) by done. by rewrite !map_app.
  - split; [|lia]. exists [], [tried d "failed" i]. rewrite !app_nil_r. split_and!; [done..| |].
    + rewrite !filter_app, (filter_cons_False _ i) by naive_solver. done.
    + rewrite !filter_app, (filter_cons_True _ i) by done. rewrite !map_app. cbn. solve_Permutation.
Qed.

(** A dependable runner lets every tick return. *)
Lemma dependable_returns s : ledger_ok s -> WorkerRuntime.dependable runner ->
  exists e s', run_next s = (Ok e, s') /\ ran s (Ok e) s'.
Proof.
  intros H Hd. destruct (some_ran s (lg_books s H)) as (x & s' & R). pose proof (ran_run _ _ _ (lg_books s H) R) as E.
  assert (X : exists e, x = Ok e); [|destruct X as [e ->]; by exists e, s'].
  destruct R as [Hn|n i e r Hn Ha|n i d r Hn Ha Hg Hh|n i d r Hn Ha Hg Hh|n i d r Hn Ha Hg Hm|n i d r Hn Ha Hg Hm Hh]; try by eexists.
  all: exfalso; destruct (waiting_pending _ _ _ H Hn) as (Hi & _).
  all: destruct (WorkerRuntime.answered_dependable runner py_float unit_of zero one (qi_task i) (runtime s) Hd (ok_task i Hi))
    as (d' & r' & E' & Hh'); rewrite E' in Ha; simplify_eq; congruence.
Qed.

Lemma run_ticks_settles n s : ledger_ok s -> WorkerRuntime.dependable runner -> (remaining (queue s) <= Z.of_nat n)%Z ->
  exists es s', run_ticks n s = (Ok es, s') /\ ledger_ok s' /\ progress s s' /\ _next_pending_index (queue s') = None
    /\ (Z.of_nat (length es) <= remaining (queue s))%Z.
Proof.
  intros H Hd. revert s H. induction n as [|n IH]; intros s H Hr; cbn [run_ticks].
  - exists [], s. split_and!; [done|done|apply progress_refl| |by apply remaining_nonneg, lg_queue].
    destruct (_next_pending_index (queue s)) as [k|] eqn:En; [|done]. exfalso.
    destruct (pending_lookup _ _ En) as (i & Hi & _). destruct (waiting_pending s k i H (conj En Hi)) as (_ & Hp & Hle).
    destruct (queue_cut _ _ _ Hi) as (a & b & Eq & _). pose proof (lg_queue s H) as Hq. rewrite Eq in Hq, Hr.
    apply Forall_app in Hq as [Ha [_ Hb]%Forall_cons]. rewrite remaining_app in Hr. cbn [remaining] in Hr.
    rewrite bool_decide_true in Hr by done. pose proof (remaining_nonneg _ Ha). pose proof (remaining_nonneg _ Hb). lia.
  - rewrite (M_bind_ok _ _ s s s) by done. destruct (_next_pending_index (queue s)) eqn:En.
    2: { exists [], s. split_and!; [done|done|apply progress_refl|done|by apply remaining_nonneg, lg_queue]. }
    destruct (dependable_returns s H Hd) as (e & s1 & E1 & R1).
    destruct (progress_ran s e s1 H ltac:(congruence) R1) as [P1 L1].
    destruct (IH s1 (ledger_ok_ran _ _ _ H R1) ltac:(lia)) as (es & s2 & E2 & H2 & P2 & N2 & L2).
    exists (e :: es), s2. rewrite (M_bind_ok _ _ _ _ _ E1), (M_bind_ok _ _ _ _ _ E2).
    split_and!; [done|done|by eapply progress_trans|done|cbn [length]; lia].
Qed.

(** C15. With no runner, or one that never raises and whose own results, when it
    gives them, pass the contract with a task id that can be hashed,
    [run_until_idle] with at least as many ticks as attempts are left to the
    pending items returns with nothing pending: the queue keeps only what an
    earlier exception had left running, every task that was pending has ended
    among the done or among the failed items, once, no more ticks than attempts
    are used, and the summary is ok exactly when there is no failed item. *)
Theorem run_until_idle_settles s k : ledger_ok s -> WorkerRuntime.dependable runner ->
  (remaining (queue s) <= Z.max 1 k)%Z ->
  exists sm s' ds fs, run_until_idle k s = (Ok sm, s') /\ ledger_ok s'
    /\ queue s' = stuck (queue s)
    /\ done_items s' = done_items s ++ ds /\ failed_items s' = failed_items s ++ fs
    /\ map qi_task (ds ++ fs) ≡ₚ map qi_task (waiting (queue s))
    /\ (Z.of_nat (length (sm_events sm)) <= remaining (queue s))%Z
    /\ sm_ok sm = bool_decide (failed_items s' = []).
Proof.
  intros H Hd Hk. destruct (run_ticks_settles (Z.to_nat (Z.max 1 k)) s H Hd) as (es & s1 & E & H1 & P & N & L); [lia|].
  destruct P as (ds & fs & D & F & Q & P). apply pending_none in N.
  destruct (none_waiting _ N) as [Hw Hs]. rewrite Hw, app_nil_r in P.
  unfold run_until_idle. rewrite (M_bind_ok _ _ _ _ _ E), (M_bind_ok _ _ s1 s1 s1) by done.
  rewrite (M_bind_ok _ _ _ _ _ (snapshot_shown s1 (lg_books s1 H1))). unfold on_runtime, mbind, M_bind.
  rewrite WorkerRuntime.runtime_shown. eexists _, _, ds, fs. split; [reflexivity|].
  split; [by apply ledger_ok_runtime|]. cbn. split_and!; [congruence|done|done|done|done|done].
Qed.

(** C14. Of valid books, [run_next] leaves exactly what one step of [ran]
    allows: idle, or one attempt at the first pending item, which is then
    done, pending again while attempts are left, failed once they are used up,
    left running when the runner raises, or gone when its result cannot be
    merged. *)
Theorem run_next_decided s x s' : ledger_ok s ->
  (run_next s = (x, s') <-> ran s x s')
  /\ (forall n i, next_item s n i ->
        qi_status i = "pending" /\ Forall (fun j => qi_status j <> "pending") (take n (queue s))
        /\ (qi_attempts i <= qi_max_retries i)%Z).
Proof.
  intros H. split; [apply run_next_ran, H|]. intros n i Hn. destruct (waiting_pending s n i H Hn) as (_ & Hp & Hle).
  destruct Hn as [Hn Hi]. destruct (pending_lookup _ _ Hn) as (j & Hj & _ & Hf). by split_and!.
Qed.
End scheduler.
End WorkerScheduler.


(** ** Manual decomposition *)
Module Decomposition.
Section decomposition.
Context {W : Type} (runner : option (list (string * val) -> M W answer)) (clock : nat -> string).
Context (py_float : val -> res val) (unit_of : val -> val) (zero one : val).

Definition create_manual_parent_task (task_id objective input_context : val) : res (list (string * val)) :=
  t ← create_parent_task task_id objective input_context (VStr "manual");
  Ok (parent_task_to_dict t).

Definition _coerce_parent_task (parent : ParentTask + val) : res (list (string * val)) :=
  ensure_parent_task_contract (match parent with inl t => VDict (parent_task_to_dict t) | inr v => v end).

(** The task of one specification. *)
Definition worker_of (parent : list (string * val)) (index : nat) (spec : val) : M (WorkerRuntime.t W) (list (string * val)) :=
  match spec with
  | VDict spec =>
      let task_id := strip (py_str (py_or (vget "task_id" spec)
        (VStr (py_str (vget "task_id" parent) +:+ "_worker_" +:+ pretty index)))) in
      let objective := text (vget "objective" spec) in
      let role := strip (py_str (py_or (vget "role" spec) (VStr "worker"))) in
      task ← WorkerRuntime.create_task (VStr task_id) (vget "task_id" parent) (VStr role) (VStr objective)
        (VDict (dupdate [("parent_objective", vget "objective" parent); ("parent_input_context", vget "input_context" parent)]
                  (mapping (vget "input_context" spec)))) [];
      _ ← mlift (ensure_worker_task_contract (VDict task));
      mret task
  | _ => mraise (ValueError ("worker spec " +:+ pretty index +:+ " must be a dict"))
  end.

Fixpoint workers_of (parent : list (string * val)) (index : nat) (specs : list val)
  : M (WorkerRuntime.t W) (list (list (string * val))) :=
  match specs with
  | [] => mret []
  | spec :: rest => task ← worker_of parent index spec; tasks ← workers_of parent (S index) rest; mret (task :: tasks)
  end.

Definition decompose_parent_task_manual (parent : ParentTask + val) (worker_specs : val)
  : M (WorkerRuntime.t W) (list (list (string * val))) :=
  p ← mlift (_coerce_parent_task parent);
  match worker_specs with
  | VList specs =>
      if (2 <=? length specs)%nat && (length specs <=? 3)%nat then workers_of p 1 specs
      else mraise (ValueError "manual decomposition requires 2 to 3 worker specs")
  | _ => mraise (ValueError "manual decomposition requires 2 to 3 worker specs")
  end.

(** Running the tasks one after the other: the results and the last snapshot. *)
Fixpoint run_workers (tasks : list (list (string * val))) (snapshot : list (string * val))
  : M (WorkerRuntime.t W) (list (list (string * val)) * list (string * val)) :=
  match tasks with
  | [] => mret ([], snapshot)
  | task :: rest =>
      a ← WorkerRuntime.run_task runner (TaskDict (VDict task));
      r ← mlift (WorkerRuntime.collect_result py_float unit_of zero one (TaskDict (VDict task)) a);
      snapshot ← WorkerRuntime.merge_result clock (inr (VDict r));
      ran ← run_workers rest snapshot;
      mret (r :: ran.1, ran.2)
  end.

Record decomposition_run : Type := DecompositionRun {
  dr_parent : list (string * val);
  dr_tasks : list (list (string * val));
  dr_results : list (list (string * val));
  dr_snapshot : list (string * val) }.

Definition run_manual_decomposition (parent : ParentTask + val) (worker_specs : val) : M (WorkerRuntime.t W) decomposition_run :=
  tasks ← decompose_parent_task_manual parent worker_specs;
  snapshot ← WorkerRuntime.snapshot_state clock "";
  ran ← run_workers tasks snapshot;
  p ← mlift (_coerce_parent_task parent);
  mret (DecompositionRun p tasks ran.1 ran.2).

(** *** Decomposing and running *)

(** The text of the id a specification gets. *)
Definition id_of (parent : list (string * val)) (index : nat) (d : list (string * val)) : string :=
  strip (py_str (py_or (vget "task_id" d) (VStr (py_str (vget "task_id" parent) +:+ "_worker_" +:+ pretty index)))).

(** A specification a task can be made of. *)
Definition spec_ok (parent : list (string * val)) (index : nat) (spec : val) : Prop :=
  exists d, spec = VDict d /\ text (vget "objective" d) <> "" /\ id_of parent index d <> "".

(** The task of a specification. *)
Definition task_for (parent : list (string * val)) (index : nat) (spec : val) (task : list (string * val)) : Prop :=
  ensure_worker_task_contract (VDict task) = Ok task
  /\ vget "task_id" task = VStr (id_of parent index (mapping spec))
  /\ vget "parent_task_id" task = VStr (text (vget "task_id" parent))
  /\ vget "objective" task = VStr (text (vget "objective" (mapping spec))).

Lemma worker_of_spec parent index spec r : spec_ok parent index spec ->
  exists task r', worker_of parent index spec r = (Ok task, r') /\ task_for parent index spec task.
Proof.
  intros (d & -> & Ho & Hi). unfold worker_of. cbv zeta. fold (id_of parent index d).
  assert (Ei : text (VStr (id_of parent index d)) = id_of parent index d) by (rewrite text_strip; apply strip_idemp).
  assert (Eo : text (VStr (text (vget "objective" d))) = text (vget "objective" d)) by (rewrite text_strip; apply text_empty_idemp).
  match goal with |- context [WorkerRuntime.create_task ?i ?p ?r ?o ?c []] =>
    destruct (created_task i p r o c) as [E C]; [by rewrite Ei|by rewrite Eo|] end.
  rewrite Ei, Eo in E, C. unfold WorkerRuntime.create_task. rewrite M_assoc, (M_lift_ok _ _ _ _ E). cbv zeta.
  match type of C with _ = Ok ?t => set (task := t) in * end.
  unfold mbind, M_bind, mmodify, mret, M_ret. unfold mlift. rewrite C. eexists task, _. split; [reflexivity|]. by split_and!.
Qed.

(** The specifications are numbered from [index]. *)
Fixpoint specs_ok (parent : list (string * val)) (index : nat) (specs : list val) : Prop :=
  match specs with [] => True | spec :: rest => spec_ok parent index spec /\ specs_ok parent (S index) rest end.
Fixpoint tasks_for (parent : list (string * val)) (index : nat) (specs : list val) (tasks : list (list (string * val))) : Prop :=
  match specs, tasks with
  | [], [] => True
  | spec :: rest, task :: tasks => task_for parent index spec task /\ tasks_for parent (S index) rest tasks
  | _, _ => False
  end.

Lemma workers_of_spec parent specs : forall index r, specs_ok parent index specs ->
  exists tasks r', workers_of parent index specs r = (Ok tasks, r') /\ tasks_for parent index specs tasks.
Proof.
  induction specs as [|spec specs IH]; intros index r H; [by exists [], r|]. destruct H as [H1 H2]. cbn [workers_of].
  destruct (worker_of_spec parent index spec r H1) as (task & r1 & E1 & T1).
  destruct (IH (S index) r1 H2) as (tasks & r2 & E2 & T2). exists (task :: tasks), r2.
  by rewrite (M_bind_ok _ _ _ _ _ E1), (M_bind_ok _ _ _ _ _ E2).
Qed.

Lemma tasks_for_contract parent specs : forall index tasks, tasks_for parent index specs tasks ->
  Forall (fun t => ensure_worker_task_contract (VDict t) = Ok t) tasks /\ length tasks = length specs.
Proof.
  induction specs as [|spec specs IH]; intros index [|task tasks]; cbn; try done.
  intros [[Hc _] H]. destruct (IH _ _ H) as [Hf Hl]. split; [by constructor|by rewrite Hl].
Qed.

Lemma run_workers_spec tasks : WorkerRuntime.dependable runner ->
  Forall (fun t => ensure_worker_task_contract (VDict t) = Ok t) tasks ->
  forall snap r, exists rs last r', run_workers tasks snap r = (Ok (rs, last), r')
    /\ length rs = length tasks /\ Forall (fun d => ensure_worker_result_contract (VDict d) = Ok d) rs.
Proof.
  intros Hd. induction 1 as [|t tasks Ht _ IH]; intros snap r; [by exists [], snap, r|]. cbn [run_workers].
  destruct (WorkerRuntime.answered_dependable runner py_float unit_of zero one t r Hd Ht) as (d & r1 & E & Hh).
  pose proof (WorkerRuntime.answered_contract _ _ _ _ _ _ _ _ _ E) as Hc.
  unfold WorkerRuntime.answered in E. run E as a r0 Ea. apply M_lift_inv in E as [Ec ->].
  rewrite (M_bind_ok _ _ _ _ _ Ea), (M_lift_ok _ _ _ _ Ec).
  pose proof (WorkerRuntime.merge_result_spec clock d r0 Hc) as Em. rewrite Hh in Em. rewrite (M_bind_ok _ _ _ _ _ Em).
  match type of Em with _ = (Ok ?s1, ?r2) => destruct (IH s1 r2) as (rs & last & r' & E' & Hl & Hf) end.
  exists (d :: rs), last, r'. rewrite (M_bind_ok _ _ _ _ _ E'). split_and!; [done|cbn; by rewrite Hl|by constructor].
Qed.

(** With a dependable runner, a parent task that passes its contract
    and two or three specifications that each name a task and say what to do,
    the manual decomposition returns: one task per specification, in order,
    that passes the contract of tasks, names the parent and has the objective
    of its specification, and one result per task that passes the contract of
    results. *)
Theorem manual_decomposition_runs parent p specs r : WorkerRuntime.dependable runner ->
  _coerce_parent_task parent = Ok p -> 2 <= length specs <= 3 -> specs_ok p 1 specs ->
  exists out r', run_manual_decomposition parent (VList specs) r = (Ok out, r')
    /\ dr_parent out = p /\ tasks_for p 1 specs (dr_tasks out)
    /\ length (dr_results out) = length specs
    /\ Forall (fun d => ensure_worker_result_contract (VDict d) = Ok d) (dr_results out).
Proof.
  intros Hd Hp Hl Hs. unfold run_manual_decomposition, decompose_parent_task_manual. rewrite M_assoc, (M_lift_ok _ _ _ _ Hp).
  rewrite (proj2 (Nat.leb_le 2 _)), (proj2 (Nat.leb_le _ 3)) by lia. cbn [andb].
  destruct (workers_of_spec p specs 1 r Hs) as (tasks & r1 & E1 & T1). rewrite (M_bind_ok _ _ _ _ _ E1).
  rewrite (M_bind_ok _ _ _ _ _ (WorkerRuntime.runtime_shown clock r1)).
  destruct (tasks_for_contract _ _ _ _ T1) as [C1 L1].
  destruct (run_workers_spec tasks Hd C1 (WorkerRuntime.shown clock r1) (WorkerRuntime.read_once r1)) as (rs & last & r2 & E2 & L2 & C2).
  rewrite (M_bind_ok _ _ _ _ _ E2), (M_lift_ok _ _ _ _ Hp). eexists _, r2. split; [reflexivity|]. cbn. by split_and!; [| |congruence|].
Qed.
End decomposition.
End Decomposition.

(** ** Workers at work *)

Definition demo_task (id : string) : list (string * val) :=
  [("task_id", VStr id); ("parent_task_id", VStr "p"); ("role", VStr "worker"); ("objective", VStr "work"); ("input_context", VDict [])].

(** The task [a] goes well, every other one does not. *)
Definition demo_runner : option (list (string * val) -> M nat answer) :=
  Some (fun task n => (Ok (AnswerDict [("ok", VBool (py_eq (vget "task_id" task) (VStr "a")))]), S n)).
Abbreviation demo_run := (WorkerScheduler.run_op demo_runner (fun _ => "now") Ok (fun v => v) (VInt 0) (VInt 1)).
Abbreviation demo_start := (WorkerScheduler.make (WorkerRuntime.start 0) 1).
Definition demo_queued : WorkerScheduler.t nat :=
  fold_left demo_run [WorkerScheduler.Enqueue (TaskDict (VDict (demo_task "b"))) None;
                      WorkerScheduler.Enqueue (TaskDict (VDict (demo_task "a"))) (Some 0%Z)] demo_start.

Lemma demo_dependable : WorkerRuntime.dependable demo_runner.
Proof. intros task n. by exists (AnswerDict [("ok", VBool (py_eq (vget "task_id" task) (VStr "a")))]), (S n). Qed.

Lemma demo_queued_ok : WorkerScheduler.ledger_ok demo_queued.
Proof. apply WorkerScheduler.ledger_ok_ops, WorkerScheduler.ledger_ok_make. Qed.

(** The first task fails once and stays first in the queue. *)
Lemma run_next_decided_witness : exists e s',
  WorkerScheduler.ran demo_runner (fun _ => "now") Ok (fun v => v) (VInt 0) (VInt 1) demo_queued (Ok e) s'
  /\ WorkerScheduler.ev_event e = "retry" /\ WorkerScheduler._next_pending_index (WorkerScheduler.queue s') = Some 0.
Proof.
  assert (R : exists e s', WorkerScheduler.run_next demo_runner (fun _ => "now") Ok (fun v => v) (VInt 0) (VInt 1) demo_queued = (Ok e, s')
    /\ WorkerScheduler.ev_event e = "retry" /\ WorkerScheduler._next_pending_index (WorkerScheduler.queue s') = Some 0).
  { eexists _, _. split; [vm_compute; reflexivity|]. split; vm_compute; reflexivity. }
  destruct R as (e & s' & R & He & Hs). exists e, s'. split; [|by split].
  apply (WorkerScheduler.run_next_decided demo_runner (fun _ => "now") Ok (fun v => v) (VInt 0) (VInt 1) demo_queued (Ok e) s'
    demo_queued_ok). exact R.
Defined.

(** Three ticks are enough for the two tasks. *)
Lemma run_until_idle_settles_witness : exists sm s',
  WorkerScheduler.run_until_idle demo_runner (fun _ => "now") Ok (fun v => v) (VInt 0) (VInt 1) 3 demo_queued = (Ok sm, s')
  /\ WorkerScheduler.queue s' = [].
Proof.
  destruct (WorkerScheduler.run_until_idle_settles demo_runner (fun _ => "now") Ok (fun v => v) (VInt 0) (VInt 1) demo_queued 3
    demo_queued_ok demo_dependable) as (sm & s' & ds & fs & E & _ & Eq & _); [vm_compute; discriminate|].
  exists sm, s'. split; [exact E|]. rewrite Eq. vm_compute. reflexivity.
Defined.

(** A result that says [SUCCESS] passes the contract, and its item fails. *)
Definition loud_runner : option (list (string * val) -> M nat answer) :=
  Some (fun task n => (Ok (AnswerDict [("worker_result", VDict [("task_id", vget "task_id" task); ("status", VStr "SUCCESS");
    ("summary", VStr ""); ("result", VDict []); ("artifacts", VList []); ("trace", VList []); ("open_questions", VList []);
    ("confidence", VInt 1)])]), S n)).
Example demo_loud_result : exists e s',
  WorkerScheduler.run_next loud_runner (fun _ => "now") Ok (fun v => v) (VInt 0) (VInt 1)
    (demo_run demo_start (WorkerScheduler.Enqueue (TaskDict (VDict (demo_task "a"))) (Some 0%Z))) = (Ok e, s')
  /\ WorkerScheduler.ev_event e = "failed" /\ text (vget "status" (WorkerScheduler.ev_result e)) = "SUCCESS".
Proof. eexists _, _. split; [vm_compute; reflexivity|]. split; vm_compute; reflexivity. Qed.

(** An exception of the runner leaves the item running, and the summary of an idle run is ok. *)
Definition raising_runner : option (list (string * val) -> M nat answer) := Some (fun _ n => (Raise (RuntimeErr "down"), S n)).
Example demo_left_running : let s := WorkerScheduler.run_op raising_runner (fun _ => "now") Ok (fun v => v) (VInt 0) (VInt 1)
    demo_queued WorkerScheduler.RunNext in
  map qi_status (WorkerScheduler.queue s) = ["running"; "pending"]
  /\ exists sm s', WorkerScheduler.run_until_idle demo_runner (fun _ => "now") Ok (fun v => v) (VInt 0) (VInt 1) 9 s = (Ok sm, s')
     /\ WorkerScheduler.sm_ok sm = true /\ map qi_status (WorkerScheduler.queue s') = ["running"].
Proof. cbv zeta. split; [vm_compute; reflexivity|]. eexists _, _. split; [vm_compute; reflexivity|]. split; vm_compute; reflexivity. Qed.

(** Two specifications, the second without an id of its own. *)
Lemma manual_decomposition_runs_witness : exists out r',
  Decomposition.run_manual_decomposition demo_runner (fun _ => "now") Ok (fun v => v) (VInt 0) (VInt 1)
    (inr (VDict [("task_id", VStr "p"); ("objective", VStr "build"); ("input_context", VDict []); ("decomposition_mode", VStr "manual")]))
    (VList [VDict [("task_id", VStr "a"); ("objective", VStr "one")]; VDict [("objective", VStr "two")]])
    (WorkerRuntime.start 0) = (Ok out, r')
  /\ length (Decomposition.dr_results out) = 2.
Proof.
  destruct (Decomposition.manual_decomposition_runs demo_runner (fun _ => "now") Ok (fun v => v) (VInt 0) (VInt 1)
    (inr (VDict [("task_id", VStr "p"); ("objective", VStr "build"); ("input_context", VDict []); ("decomposition_mode", VStr "manual")]))
    _ [VDict [("task_id", VStr "a"); ("objective", VStr "one")]; VDict [("objective", VStr "two")]]
    (WorkerRuntime.start 0) demo_dependable eq_refl) as (out & r' & E & _ & _ & L & _).
  - split; [apply Nat.leb_le|apply Nat.leb_le]; reflexivity.
  - split; [|split; [|exact I]]; eexists; (split; [reflexivity|split; vm_compute; discriminate]).
  - exists out, r'. split; [exact E|exact L].
Defined.
