(* ===== verification/GoalGraph.v ===== *)
(** * The engineering goal dependency graph

    [core/tasks/engineering_goal_dependency_graph.py]: dependency records, the
    cycle search, validation and the readiness of goals.  The dicts with a
    fixed set of keys that the methods return are records here.  The depth
    first search takes fuel; a search path has no repetition, so one more than
    the number of goals is always enough. *)

From Stdlib Require Import Sorted.
From S2P Require Import Prelude PyVal.

Definition COMPLETED_STATUSES : list string := ["completed"].
Definition BLOCKING_STATUSES : list string := ["blocked"; "cancelled"; "failed"].

Definition _clean_text (value : val) (dflt : string) : string :=
  let t := text value in if (t =? "")%string then dflt else t.

(** [sorted({_clean_text(v) for v in values if _clean_text(v)})] *)
Definition _clean_list (values : val) : list string :=
  match values with
  | VList l => sorted_strs (dedup (filter (fun t => t <> "") (map text l)))
  | _ => []
  end.

Record EngineeringGoalDependencyRecord : Type := DependencyRecord {
  goal_id : string;
  parent_goal_ids : list string;
  child_goal_ids : list string;
  prerequisite_goal_ids : list string;
  blocked_by_goal_ids : list string }.

Definition from_mapping (value : list (string * val)) : res EngineeringGoalDependencyRecord :=
  let id := _clean_text (vget "goal_id" value) "" in
  if (id =? "")%string
  then Raise (ValueError "engineering_goal_dependency_record_requires_goal_id")
  else Ok (DependencyRecord id
    (_clean_list (py_or (vget "parent_goal_ids" value) (vget "parents" value)))
    (_clean_list (py_or (vget "child_goal_ids" value) (vget "children" value)))
    (_clean_list (py_or (vget "prerequisite_goal_ids" value) (vget "prerequisites" value)))
    (_clean_list (py_or (vget "blocked_by_goal_ids" value) (vget "blocked_by" value)))).

Definition strs (l : list string) : val := VList (map VStr l).

Definition as_dict (r : EngineeringGoalDependencyRecord) : list (string * val) :=
  [("schema", VStr "zero.engineering_goal_dependency_record.v1");
   ("goal_id", VStr (goal_id r)); ("parent_goal_ids", strs (parent_goal_ids r));
   ("child_goal_ids", strs (child_goal_ids r));
   ("prerequisite_goal_ids", strs (prerequisite_goal_ids r));
   ("blocked_by_goal_ids", strs (blocked_by_goal_ids r))].

(** The graph: the records by goal id. *)
Definition graph : Type := list (string * EngineeringGoalDependencyRecord).

(** The argument of [register]: a record, a mapping, or something else. *)
Inductive record_arg : Type :=
  | ArgRecord (r : EngineeringGoalDependencyRecord)
  | ArgMapping (d : list (string * val))
  | ArgOther.

Definition _record (value : record_arg) : res EngineeringGoalDependencyRecord :=
  match value with
  | ArgRecord r => Ok r
  | ArgMapping d => from_mapping d
  | ArgOther => Raise (ValueError "engineering_goal_dependency_records_must_be_mappings")
  end.

Definition add_record (value : record_arg) : M graph EngineeringGoalDependencyRecord :=
  r ← mlift (_record value);
  _ ← mmodify (dset (goal_id r) r);
  mret r.

Definition _ordered_records (g : graph) : list EngineeringGoalDependencyRecord :=
  omap (fun k => dget k g) (sorted_strs (dkeys g)).

Definition _refs_for (r : EngineeringGoalDependencyRecord) : list (string * list string) :=
  [("parent_goal_ids", parent_goal_ids r); ("child_goal_ids", child_goal_ids r);
   ("prerequisite_goal_ids", prerequisite_goal_ids r);
   ("blocked_by_goal_ids", blocked_by_goal_ids r)].

(** ** Cycles *)

(** The order of tuples of strings. *)
Fixpoint strs_le (a b : list string) : bool :=
  match a, b with
  | [], _ => true
  | _ :: _, [] => false
  | x :: a', y :: b' => if (x =? y)%string then strs_le a' b' else String.leb x y
  end.

Fixpoint strs_min (m : list string) (l : list (list string)) : list string :=
  match l with
  | [] => m
  | x :: l' => strs_min (if strs_le m x then m else x) l'
  end.

Definition rotations (body : list string) : list (list string) :=
  map (fun i => drop i body ++ take i body) (seq 0 (length body)).

Definition _canonical_cycle (cycle : list string) : list string :=
  match cycle with
  | [] | [_] => cycle
  | _ =>
      let body := take (length cycle - 1) cycle in
      match rotations body with
      | [] => []
      | r :: rs => let canonical := strs_min r rs in canonical ++ take 1 canonical
      end
  end.

Definition dependencies (r : EngineeringGoalDependencyRecord) : list string :=
  sorted_strs (dedup (prerequisite_goal_ids r ++ blocked_by_goal_ids r ++ parent_goal_ids r)).

Definition adjacency (g : graph) : list (string * list string) :=
  map (fun r => (goal_id r, dependencies r)) (_ordered_records g).

(** [path[path.index(node):]] *)
Fixpoint from_first (node : string) (path : list string) : list string :=
  match path with
  | [] => []
  | x :: path' => if (x =? node)%string then path else from_first node path'
  end.

(** All the results, or the lack of one. *)
Fixpoint gather {A} (l : list (option (list A))) : option (list A) :=
  match l with
  | [] => Some []
  | o :: l' => match o, gather l' with Some x, Some y => Some (x ++ y) | _, _ => None end
  end.

(** The cycles [visit] adds, in its order; [None] is the lack of fuel. *)
Fixpoint visit (adj : list (string * list string)) (fuel : nat) (node : string)
    (path : list string) : option (list (list string)) :=
  match fuel with
  | 0 => None
  | S fuel' =>
      if bool_decide (node ∈ path)
      then Some [_canonical_cycle (from_first node path ++ [node])]
      else gather (map (fun next => visit adj fuel' next (path ++ [node]))
                     (filter (fun next => dmem next adj = true)
                        (default [] (dget node adj))))
  end.

Definition search_fuel (adj : list (string * list string)) : nat := S (length adj).

Definition find_cycles (adj : list (string * list string)) : option (list (list string)) :=
  gather (map (fun node => visit adj (search_fuel adj) node []) (sorted_strs (dkeys adj))).

Definition detect_cycles (g : graph) : list (list string) :=
  isort strs_le (dedup (default [] (find_cycles (adjacency g)))).

(** ** Validation *)

Record DependencyError : Type := DependencyErr {
  err_goal : string; err_relation : string; err_referenced : string;
  err_reason : string; err_cycle : list string }.

Definition ref_errors (g : graph) (r : EngineeringGoalDependencyRecord)
  : list DependencyError :=
  concat (map (fun rel =>
    concat (map (fun id =>
      if (id =? goal_id r)%string
      then [DependencyErr (goal_id r) rel.1 id "self_dependency" []]
      else if negb (dmem id g)
      then [DependencyErr (goal_id r) rel.1 id "unknown_goal" []]
      else []) rel.2)) (_refs_for r)).

Definition cycle_error (cycle : list string) : DependencyError :=
  DependencyErr (default "" (head cycle)) "dependency_path" (default "" (last cycle))
    "dependency_cycle" cycle.

Definition validation_errors (g : graph) : list DependencyError :=
  concat (map (ref_errors g) (_ordered_records g)) ++ map cycle_error (detect_cycles g).

Definition validate (g : graph) : bool * list DependencyError :=
  (match validation_errors g with [] => true | _ => false end, validation_errors g).

(** ** Relationships and readiness *)

Fixpoint new_pairs (pairs : list (string * string)) (seen : list (string * string))
  : list (string * string) :=
  match pairs with
  | [] => []
  | p :: pairs' =>
      if bool_decide (p ∈ seen) then new_pairs pairs' seen else p :: new_pairs pairs' (p :: seen)
  end.

Definition pair_le (a b : string * string) : bool :=
  if (a.1 =? b.1)%string then String.leb a.2 b.2 else String.leb a.1 b.1.

Definition parent_child_relationships (g : graph) : list (string * string) :=
  isort pair_le (new_pairs
    (concat (map (fun r => map (fun c => (goal_id r, c)) (child_goal_ids r)
                           ++ map (fun p => (p, goal_id r)) (parent_goal_ids r))
               (_ordered_records g))) []).

Definition status_of (statuses : list (string * val)) (id : string) : string :=
  lower (_clean_text (vget id statuses) "").

Definition is_completed (statuses : list (string * val)) (id : string) : bool :=
  bool_decide (status_of statuses id ∈ COMPLETED_STATUSES).

Record PrerequisiteStatus : Type := PrereqStatus {
  ps_goal : string; complete : bool; ready : bool;
  missing_prerequisites : list string; blocked_by_goals : list string; ps_reason : string }.

Definition is_nil {A} (l : list A) : bool := match l with [] => true | _ => false end.

Definition prerequisite_status (g : graph) (id : string) (statuses : list (string * val))
  : PrerequisiteStatus :=
  let id := _clean_text (VStr id) "" in
  match dget id g with
  | None => PrereqStatus id false false [] [] "goal_not_registered"
  | Some r =>
      let missing := filter (fun p => is_completed statuses p = false) (prerequisite_goal_ids r) in
      let blockers := filter (fun p => is_completed statuses p = false) (blocked_by_goal_ids r) in
      let ok := is_nil missing && is_nil blockers in
      PrereqStatus (goal_id r) ok ok missing blockers
        (if ok then "dependencies_satisfied" else "dependencies_unsatisfied")
  end.

Record BlockedGoal : Type := Blocked {
  bg_goal : string; bg_missing : list string; bg_blocked : list string;
  bg_blocking : list string }.

Definition blocked_goals (g : graph) (statuses : list (string * val)) : list BlockedGoal :=
  omap (fun r =>
    let st := prerequisite_status g (goal_id r) statuses in
    let explicit := filter (fun b => status_of statuses b ∈ BLOCKING_STATUSES)
                      (blocked_by_goal_ids r) in
    if is_nil (missing_prerequisites st) && is_nil (blocked_by_goals st) && is_nil explicit
    then None
    else Some (Blocked (goal_id r) (missing_prerequisites st) (blocked_by_goals st) explicit))
  (_ordered_records g).

Record GoalCompletion : Type := Completion {
  gc_goal : string; dependencies_complete : bool; gc_status : string;
  gc_missing : list string; gc_blocked : list string }.

Definition completion_status (g : graph) (statuses : list (string * val))
  : list GoalCompletion :=
  map (fun r =>
    let st := prerequisite_status g (goal_id r) statuses in
    Completion (goal_id r) (complete st)
      (lower (_clean_text (vget (goal_id r) statuses) "unknown"))
      (missing_prerequisites st) (blocked_by_goals st))
  (_ordered_records g).

Record GraphStatus : Type := Status {
  gs_ok : bool;
  gs_records : list EngineeringGoalDependencyRecord;
  gs_validation : bool * list DependencyError;
  gs_cycles : list (list string);
  gs_completion : list GoalCompletion;
  gs_blocked : list BlockedGoal }.

Definition status (g : graph) (statuses : list (string * val)) : GraphStatus :=
  let validation := validate g in
  let cycles := detect_cycles g in
  Status (validation.1 && is_nil cycles) (_ordered_records g) validation cycles
    (completion_status g statuses) (blocked_goals g statuses).

(** [register]: store the record, then report it with the graph's status. *)
Definition register (value : record_arg) : M graph (EngineeringGoalDependencyRecord * GraphStatus) :=
  r ← add_record value;
  g ← mget;
  mret (r, status g []).

(** The constructor: register every record of a sequence. *)
Definition make_graph (values : list record_arg) : res graph :=
  match mfor register values [] with
  | (Ok _, g) => Ok g
  | (Raise e, _) => Raise e
  end.

(** ** The dependency relation *)

Section search.
Context (adj : list (string * list string)).

Definition edge (x y : string) : Prop := y ∈ default [] (dget x adj) /\ dmem y adj = true.

(** No goal depends on itself through known goals. *)
Definition acyclic : Prop := forall x, ~ tc edge x x.

(** A closed walk of the relation, as the cycles are reported. *)
Definition closed_walk (c : list string) : Prop :=
  exists x rest, c = x :: rest ++ [x] /\ Sorted edge c.

Lemma gather_total {A} (l : list (option (list A))) :
  Forall is_Some l -> is_Some (gather l).
Proof.
  induction 1 as [|o l [x ->] _ [y IH]]; simpl; [by eexists|]. rewrite IH. by eexists.
Qed.

Lemma gather_elem {A} (l : list (option (list A))) r c :
  gather l = Some r -> c ∈ r -> exists x, Some x ∈ l /\ c ∈ x.
Proof.
  revert r. induction l as [|o l IH]; simpl; intros r.
  - intros [= <-] H. by apply elem_of_nil in H.
  - destruct o as [x|]; [|done]. destruct (gather l) as [y|]; [|done].
    intros [= <-] [H|H]%elem_of_app.
    + exists x. split; [apply elem_of_cons; by left|done].
    + destruct (IH y eq_refl H) as (z & Hz & Hc). exists z.
      split; [apply elem_of_cons; by right|done].
Qed.

Lemma gather_nil {A} (l : list (option (list A))) :
  gather l = Some [] -> Forall (fun o => o = Some []) l.
Proof.
  induction l as [|o l IH]; simpl; [constructor|].
  destruct o as [x|]; [|done]. destruct (gather l) as [y|]; [|done].
  intros [= H]. apply app_nil in H as [-> ->]. by constructor; [|apply IH].
Qed.

(** The successors [visit] follows. *)
Lemma elem_of_next node next :
  next ∈ filter (fun n => dmem n adj = true) (default [] (dget node adj)) <-> edge node next.
Proof. rewrite list_elem_of_filter. unfold edge. tauto. Qed.

Lemma elem_map_visit fuel node path o :
  o ∈ map (fun next => visit adj fuel next (path ++ [node]))
        (filter (fun n => dmem n adj = true) (default [] (dget node adj))) <->
  exists next, edge node next /\ o = visit adj fuel next (path ++ [node]).
Proof.
  rewrite list_elem_of_In, in_map_iff. setoid_rewrite <- list_elem_of_In.
  setoid_rewrite elem_of_next. naive_solver.
Qed.

Lemma path_bound path :
  NoDup path -> (forall x, x ∈ path -> x ∈ dkeys adj) -> length path <= length adj.
Proof.
  intros Hn Hs. transitivity (length (dkeys adj)).
  - by apply submseteq_length, NoDup_submseteq.
  - unfold dkeys. by rewrite length_fmap.
Qed.

(** Enough fuel: the path has no repetition, so it cannot outgrow the goals. *)
Lemma visit_total fuel : forall node path,
  NoDup path -> (forall x, x ∈ path -> x ∈ dkeys adj) -> node ∈ dkeys adj ->
  length adj < fuel + length path -> is_Some (visit adj fuel node path).
Proof.
  induction fuel as [|fuel IH]; intros node path Hn Hs Hk Hf.
  - pose proof (path_bound path Hn Hs). lia.
  - simpl. case_bool_decide as Hp; [by eexists|]. apply gather_total, Forall_forall.
    intros o Ho. apply elem_map_visit in Ho as (next & [Hin Hm] & ->). apply IH.
    + apply NoDup_app. repeat split; [done| |apply NoDup_singleton].
      intros x Hx ->%list_elem_of_singleton. done.
    + intros x [Hx|Hx]%elem_of_app; [by apply Hs|]. by apply list_elem_of_singleton in Hx as ->.
    + unfold dmem in Hm. apply dget_is_Some_keys. by destruct (dget next adj).
    + rewrite length_app. simpl. lia.
Qed.

(** An empty search shows that every chain of dependencies ends. *)
Lemma visit_nil_acc fuel : forall node path,
  visit adj fuel node path = Some [] -> Acc (flip edge) node.
Proof.
  induction fuel as [|fuel IH]; simpl; intros node path; [done|].
  case_bool_decide as Hp; [done|]. intros H%gather_nil. constructor. intros next Hnext.
  rewrite Forall_forall in H. eapply IH, H, elem_map_visit. eauto.
Qed.

Lemma acc_no_cycle x : Acc (flip edge) x -> ~ tc edge x x.
Proof.
  induction 1 as [x _ IH]. intros Ht. inversion Ht as [y z Hxy|y z w Hxy Hyx]; subst.
  - by apply (IH x).
  - apply (IH z); [done|]. by eapply tc_r.
Qed.

(** ** Lemmas on walks *)

Lemma sorted_one x : Sorted edge [x].
Proof. constructor; constructor. Qed.

Lemma sorted_mid l1 x l2 :
  Sorted edge (l1 ++ x :: l2) <-> Sorted edge (l1 ++ [x]) /\ Sorted edge (x :: l2).
Proof.
  induction l1 as [|a l1 IH]; simpl; [split; [split; [apply sorted_one|done]|by intros []]|].
  assert (Hh : HdRel edge a (l1 ++ x :: l2) <-> HdRel edge a (l1 ++ [x])).
  { destruct l1; simpl; split; intros H; inversion H; by constructor. }
  split.
  - intros [H1 H2]%Sorted_inv. apply IH in H1 as [H1 H3]. split; [|done].
    constructor; [done|by apply Hh].
  - intros [[H1 H2]%Sorted_inv H3]. constructor; [by apply IH|by apply Hh].
Qed.

Lemma sorted_snoc l x y : Sorted edge (l ++ [x]) -> edge x y -> Sorted edge ((l ++ [x]) ++ [y]).
Proof.
  intros H Hxy. rewrite <- app_assoc. simpl. apply sorted_mid. split; [done|].
  constructor; [apply sorted_one|by constructor].
Qed.

Lemma walk_tc l : forall x y, Sorted edge (x :: l ++ [y]) -> tc edge x y.
Proof.
  induction l as [|z l IH]; simpl; intros x y [H1 H2]%Sorted_inv; inversion H2; subst.
  - by apply tc_once.
  - eapply tc_l; [done|by apply IH].
Qed.

Lemma closed_walk_tc c : closed_walk c -> exists x, tc edge x x.
Proof. intros (x & rest & -> & H). exists x. by eapply walk_tc. Qed.

Lemma from_first_split node path :
  node ∈ path -> exists pre rest, path = pre ++ node :: rest
                 /\ from_first node path = node :: rest.
Proof.
  induction path as [|x path IH]; simpl; [by intros ?%elem_of_nil|].
  destruct (String.eqb_spec x node) as [->|Hn].
  - intros _. by exists [], path.
  - intros [->|H]%elem_of_cons; [done|]. destruct (IH H) as (pre & rest & -> & E).
    by exists (x :: pre), rest.
Qed.

(** The rotations of a closed walk are closed walks. *)
Lemma rotate_walk l1 l2 x rest :
  x :: rest = l1 ++ l2 -> l2 <> [] -> Sorted edge (x :: rest ++ [x]) ->
  exists y t, l2 ++ l1 = y :: t /\ Sorted edge (y :: t ++ [y]).
Proof.
  intros E Hn H. destruct l2 as [|y t]; [done|]. exists y, (t ++ l1). split; [done|].
  destruct l1 as [|a l1]; simpl in E; injection E as -> ->.
  - by rewrite app_nil_r.
  - change (a :: (l1 ++ y :: t) ++ [a]) with (((a :: l1) ++ y :: t) ++ [a]) in H.
    rewrite <- app_assoc in H. simpl in H.
    change (a :: l1 ++ y :: t ++ [a]) with ((a :: l1) ++ y :: (t ++ [a])) in H.
    apply sorted_mid in H as [H1 H2].
    rewrite <- app_assoc. simpl.
    change (y :: t ++ a :: l1 ++ [y]) with ((y :: t) ++ a :: (l1 ++ [y])).
    apply sorted_mid. by split.
Qed.

Lemma strs_min_elem m l : strs_min m l = m \/ strs_min m l ∈ l.
Proof.
  revert m. induction l as [|x l IH]; simpl; intros m; [by left|].
  destruct (IH (if strs_le m x then m else x)) as [->|H].
  - destruct (strs_le m x); [by left|right; apply elem_of_cons; by left].
  - right. apply elem_of_cons. by right.
Qed.

Lemma canonical_closed x rest :
  Sorted edge (x :: rest ++ [x]) -> closed_walk (_canonical_cycle (x :: rest ++ [x])).
Proof.
  intros H. unfold _canonical_cycle.
  assert (Hb : take (length (x :: rest ++ [x]) - 1) (x :: rest ++ [x]) = x :: rest).
  { simpl. rewrite length_app. simpl. replace (length rest + 1 - 0) with (S (length rest)) by lia.
    simpl. by rewrite take_app_length. }
  destruct (rest ++ [x]) as [|z zs] eqn:Ez; [by destruct rest|]. rewrite <- Ez in *.
  rewrite Hb. destruct (rotations (x :: rest)) as [|r rs] eqn:Er.
  { unfold rotations in Er. discriminate Er. }
  assert (Hin : strs_min r rs ∈ rotations (x :: rest)).
  { rewrite Er. apply elem_of_cons. apply strs_min_elem. }
  unfold rotations in Hin. apply list_elem_of_In, in_map_iff in Hin as (i & Hi & Hlt%in_seq).
  destruct (rotate_walk (take i (x :: rest)) (drop i (x :: rest)) x rest) as (y & t & Hy & Hs).
  - by rewrite take_drop.
  - intros Hd. apply (f_equal length) in Hd. rewrite length_drop in Hd. simpl in *. lia.
  - done.
  - rewrite <- Hi, Hy. exists y, t. split; [by simpl|done].
Qed.

(** Every cycle the search adds is a closed walk. *)
Lemma visit_sound fuel : forall node path r c,
  Sorted edge (path ++ [node]) -> visit adj fuel node path = Some r -> c ∈ r -> closed_walk c.
Proof.
  induction fuel as [|fuel IH]; simpl; intros node path r c Hs; [done|].
  case_bool_decide as Hp.
  - intros [= <-] ->%list_elem_of_singleton.
    destruct (from_first_split _ _ Hp) as (pre & rest & -> & ->).
    rewrite <- app_assoc in Hs. simpl in Hs. apply sorted_mid in Hs as [_ Hs].
    by apply canonical_closed.
  - intros Hg Hc. destruct (gather_elem _ _ _ Hg Hc) as (x & Hx & Hcx).
    apply elem_map_visit in Hx as (next & He & Hv). eapply IH; [|by symmetry|exact Hcx].
    by apply sorted_snoc.
Qed.

Lemma find_cycles_total : is_Some (find_cycles adj).
Proof.
  apply gather_total, Forall_forall. intros o Ho.
  apply list_elem_of_In, in_map_iff in Ho as (node & <- & Hin). apply visit_total.
  - constructor.
  - by intros x ?%elem_of_nil.
  - by apply elem_of_sorted_strs, list_elem_of_In.
  - unfold search_fuel. simpl. lia.
Qed.

Lemma find_cycles_spec l :
  find_cycles adj = Some l ->
  (l = [] -> forall x, x ∈ dkeys adj -> Acc (flip edge) x) /\ Forall closed_walk l.
Proof.
  unfold find_cycles. intros H. split.
  - intros ->. apply gather_nil in H. intros x Hx. rewrite Forall_forall in H.
    eapply (visit_nil_acc (search_fuel adj) x []). apply H.
    apply list_elem_of_In, in_map_iff. exists x. split; [done|].
    by apply list_elem_of_In, elem_of_sorted_strs.
  - apply Forall_forall. intros c Hc. destruct (gather_elem _ _ _ H Hc) as (x & Hx & Hcx).
    apply list_elem_of_In, in_map_iff in Hx as (node & Hv & _).
    eapply (visit_sound _ node []); [apply sorted_one|exact Hv|exact Hcx].
Qed.

Lemma edge_known x y : edge x y -> y ∈ dkeys adj.
Proof.
  intros [_ H]. unfold dmem in H. apply dget_is_Some_keys. by destruct (dget y adj).
Qed.

Lemma tc_known x y : tc edge x y -> y ∈ dkeys adj.
Proof. induction 1; eauto using edge_known. Qed.

Lemma find_cycles_acyclic : find_cycles adj = Some [] <-> acyclic.
Proof.
  destruct find_cycles_total as [l Hl]. destruct (find_cycles_spec l Hl) as [H1 H2].
  rewrite Hl. split.
  - intros [= ->] x Hx. eapply acc_no_cycle; [|exact Hx]. apply H1; [done|by eapply tc_known].
  - intros Ha. f_equal. destruct l as [|c l]; [done|]. exfalso.
    apply Forall_cons in H2 as [Hc _]. apply closed_walk_tc in Hc as [x Hx]. by apply (Ha x).
Qed.

End search.

(** ** The invariant of the graph *)

Record graph_inv (g : graph) : Prop := {
  graph_dict : dict_ok g;
  graph_keys : forall k r, dget k g = Some r -> goal_id r = k }.

Lemma graph_inv_nil : graph_inv [].
Proof. split; [constructor|done]. Qed.

Lemma graph_inv_add g value : graph_inv g -> graph_inv (add_record value g).2.
Proof.
  intros [H1 H2]. unfold add_record. unfold_m. unfold mlift.
  destruct (_record value) as [r|e]; [|done]. simpl. split; [by apply dict_ok_dset|].
  intros k r'. rewrite dget_dset. destruct (String.eqb_spec (goal_id r) k); [|apply H2].
  by intros [= <-].
Qed.

Lemma register_state value g : (register value g).2 = (add_record value g).2.
Proof. unfold register. unfold_m. by destruct (add_record value g) as [[r|e] g']. Qed.

Lemma elem_ordered g r :
  graph_inv g -> r ∈ _ordered_records g <-> dget (goal_id r) g = Some r.
Proof.
  intros H. unfold _ordered_records. rewrite list_elem_of_omap. split.
  - intros (k & _ & Hk). by rewrite (graph_keys _ H _ _ Hk).
  - intros Hr. exists (goal_id r). split; [|done].
    apply elem_of_sorted_strs, dget_is_Some_keys. by eexists.
Qed.

Lemma dget_adjacency_list g ks k :
  graph_inv g ->
  dget k (map (fun r => (goal_id r, dependencies r)) (omap (fun k => dget k g) ks))
  = if bool_decide (k ∈ ks) then option_map dependencies (dget k g) else None.
Proof.
  intros H. unfold omap. induction ks as [|x ks IH]; [done|]. simpl.
  destruct (dget x g) as [r|] eqn:Er.
  - simpl. rewrite (graph_keys _ H _ _ Er). destruct (String.eqb_spec x k) as [->|Hn].
    + rewrite bool_decide_true by (apply elem_of_cons; by left). by rewrite Er.
    + rewrite IH. erewrite bool_decide_ext; [done|]. rewrite elem_of_cons. naive_solver.
  - rewrite IH. case_bool_decide as Hk.
    + rewrite bool_decide_true by (apply elem_of_cons; by right). done.
    + case_bool_decide as Hk'; [|done]. apply elem_of_cons in Hk' as [->|Hk']; [|done].
      by rewrite Er.
Qed.

Lemma dget_adjacency g k :
  graph_inv g -> dget k (adjacency g) = option_map dependencies (dget k g).
Proof.
  intros H. unfold adjacency, _ordered_records. rewrite dget_adjacency_list by done.
  case_bool_decide as Hk; [done|]. destruct (dget k g) as [r|] eqn:Er; [|done].
  exfalso. apply Hk, elem_of_sorted_strs, dget_is_Some_keys. by eexists.
Qed.

Lemma elem_dependencies x r :
  x ∈ dependencies r <->
  x ∈ prerequisite_goal_ids r \/ x ∈ blocked_by_goal_ids r \/ x ∈ parent_goal_ids r.
Proof. unfold dependencies. by rewrite elem_of_sorted_strs, elem_of_dedup, !elem_of_app. Qed.

(** The relation of the search, in terms of the records. *)
Lemma edge_graph g x y :
  graph_inv g ->
  edge (adjacency g) x y <->
  exists r, dget x g = Some r /\ y ∈ dependencies r /\ is_Some (dget y g).
Proof.
  intros H. unfold edge, dmem. rewrite !dget_adjacency by done. split.
  - intros [Hy Hm]. destruct (dget x g) as [r|]; simpl in Hy; [|by apply elem_of_nil in Hy].
    exists r. split_and!; [done|done|]. by destruct (dget y g).
  - intros (r & -> & Hy & [r' ->]). by split.
Qed.

Lemma strs_isort_nil l : isort strs_le l = [] <-> l = [].
Proof.
  split; [|by intros ->]. intros H. pose proof (isort_perm strs_le l) as P.
  rewrite H in P. by apply Permutation_nil.
Qed.

Lemma dedup_nil (l : list (list string)) : dedup l = [] <-> l = [].
Proof. by destruct l. Qed.

Lemma detect_cycles_acyclic g : detect_cycles g = [] <-> acyclic (adjacency g).
Proof.
  rewrite <- find_cycles_acyclic. unfold detect_cycles.
  destruct (find_cycles_total (adjacency g)) as [l ->]. simpl.
  rewrite strs_isort_nil, dedup_nil. split; [by intros ->|by intros [= ->]].
Qed.

Lemma concat_map_nil {A B} (f : A -> list B) l :
  concat (map f l) = [] <-> Forall (fun x => f x = []) l.
Proof.
  induction l as [|x l IH]; simpl; [by split; constructor|].
  rewrite app_nil, Forall_cons. by rewrite IH.
Qed.

(** All the goals a record refers to. *)
Definition all_refs (r : EngineeringGoalDependencyRecord) : list string :=
  parent_goal_ids r ++ child_goal_ids r ++ prerequisite_goal_ids r ++ blocked_by_goal_ids r.

Lemma ref_errors_nil g r :
  ref_errors g r = [] <->
  Forall (fun x => x <> goal_id r /\ is_Some (dget x g)) (all_refs r).
Proof.
  assert (G : forall rel ids,
    concat (map (fun id => if (id =? goal_id r)%string
                  then [DependencyErr (goal_id r) rel id "self_dependency" []]
                  else if negb (dmem id g)
                  then [DependencyErr (goal_id r) rel id "unknown_goal" []] else []) ids) = []
    <-> Forall (fun x => x <> goal_id r /\ is_Some (dget x g)) ids).
  { intros rel ids. rewrite concat_map_nil. apply Forall_iff. intros x.
    unfold dmem. destruct (String.eqb_spec x (goal_id r)); [naive_solver|].
    destruct (dget x g); simpl; [by split; [eauto|]|split; [done|by intros [_ []]]]. }
  unfold ref_errors, _refs_for, all_refs. simpl. rewrite app_nil_r, !app_nil, !G, !Forall_app.
  done.
Qed.

Lemma validation_errors_nil g :
  graph_inv g ->
  validation_errors g = [] <->
  (forall k r, dget k g = Some r -> Forall (fun x => x <> k /\ is_Some (dget x g)) (all_refs r))
  /\ acyclic (adjacency g).
Proof.
  intros H. unfold validation_errors.
  rewrite app_nil, concat_map_nil, Forall_forall, <- detect_cycles_acyclic. split.
  - intros [H1 H2]. split; [|by apply map_eq_nil in H2].
    intros k r Hr. pose proof (graph_keys _ H _ _ Hr) as <-. apply ref_errors_nil, H1.
    by apply elem_ordered.
  - intros [H1 ->]. split; [|done]. intros r Hr%elem_ordered; [|done].
    apply ref_errors_nil. by eapply H1.
Qed.

Lemma filter_nil_all (P : string -> bool) l :
  is_nil (filter (fun x => P x = false) l) = true <-> Forall (fun x => P x = true) l.
Proof.
  induction l as [|x l IH]; [by split; constructor|]. rewrite Forall_cons, filter_cons.
  destruct (P x); case_decide; simpl; try done; rewrite ?IH; naive_solver.
Qed.

(** ** Properties *)

(** C18. Cycle detection is exact: the fuel is always enough, no cycle is reported
    exactly when no goal depends on itself through registered goals, and every
    reported cycle is a closed walk of dependencies. *)
Theorem detect_cycles_exact g :
  is_Some (find_cycles (adjacency g))
  /\ (detect_cycles g = [] <-> acyclic (adjacency g))
  /\ Forall (closed_walk (adjacency g)) (detect_cycles g).
Proof.
  split; [apply find_cycles_total|]. split; [apply detect_cycles_acyclic|].
  unfold detect_cycles. destruct (find_cycles_total (adjacency g)) as [l Hl]. rewrite Hl.
  destruct (find_cycles_spec _ l Hl) as [_ Hs]. simpl. apply Forall_forall. intros c Hc.
  rewrite (isort_perm strs_le), elem_of_dedup in Hc. by eapply Forall_forall in Hs.
Qed.

(** Validation is exact on any graph that was built by registering records: it
    succeeds exactly when every reference of every record is to another,
    registered goal and the dependencies are acyclic; and a successful
    validation makes the whole status ok. *)
Theorem validate_exact values g :
  make_graph values = Ok g ->
  ((validate g).1 = true <->
     (forall k r, dget k g = Some r ->
        Forall (fun x => x <> k /\ is_Some (dget x g)) (all_refs r))
     /\ acyclic (adjacency g))
  /\ forall statuses, gs_ok (status g statuses) = (validate g).1.
Proof.
  unfold make_graph. intros Hg.
  assert (H : graph_inv g).
  { revert Hg. assert (G : forall g0, graph_inv g0 -> match mfor register values g0 with
                 | (_, g') => graph_inv g' end).
    { induction values as [|x values IH]; simpl; intros g0 H0; [done|]. unfold_m.
      pose proof (register_state x g0) as Hr. pose proof (graph_inv_add g0 x H0) as Ha.
      rewrite <- Hr in Ha. destruct (register x g0) as [[r|e] g1]; simpl in *; [|done].
      specialize (IH g1 Ha). by destruct (mfor register values g1) as [[ys|e] g2]. }
    specialize (G [] graph_inv_nil). destruct (mfor register values []) as [[ys|e] g1]; [|done].
    by intros [= <-]. }
  pose proof (validation_errors_nil g H) as V.
  assert (Hv : (validate g).1 = true <-> validation_errors g = [])
    by (unfold validate; simpl; by destruct (validation_errors g)).
  split; [by rewrite Hv, V|]. intros statuses. unfold status. cbn [gs_ok].
  destruct (validate g).1 eqn:E; [|done].
  destruct (proj1 V (proj1 Hv eq_refl)) as [_ Ha]. apply detect_cycles_acyclic in Ha.
  by rewrite Ha.
Qed.

(** C37. No deadlock: in a graph that validates, whose goal ids are stripped texts,
    as long as some registered goal is not completed there is a goal that is
    not completed and whose prerequisites and blockers all are, so it is
    reported ready. *)
Theorem some_goal_is_ready g statuses k r :
  graph_inv g -> Forall (fun k => strip k = k) (dkeys g) -> (validate g).1 = true ->
  dget k g = Some r -> is_completed statuses k = false ->
  exists k', is_Some (dget k' g) /\ is_completed statuses k' = false
    /\ ready (prerequisite_status g k' statuses) = true.
Proof.
  intros H Hclean Hv Hr Hk.
  assert (He : validation_errors g = [])
    by (revert Hv; unfold validate; simpl; by destruct (validation_errors g)).
  apply (validation_errors_nil g H) in He as [Hrefs Hac].
  assert (Hacc : Acc (flip (edge (adjacency g))) k).
  { apply find_cycles_acyclic in Hac. destruct (find_cycles_spec _ _ Hac) as [Ha _].
    apply Ha; [done|]. apply dget_is_Some_keys. rewrite dget_adjacency, Hr by done.
    by eexists. }
  revert r Hr Hk. induction Hacc as [k _ IH]. intros r Hr Hk.
  assert (Hid : _clean_text (VStr k) "" = k).
  { rewrite Forall_forall in Hclean. unfold _clean_text. rewrite text_strip, Hclean.
    - by destruct (String.eqb_spec k "").
    - apply dget_is_Some_keys. by eexists. }
  destruct (ready (prerequisite_status g k statuses)) eqn:Eready;
    [exists k; split_and!; [by eexists|done|done]|].
  unfold prerequisite_status in Eready. rewrite Hid, Hr in Eready. cbn [ready] in Eready.
  assert (Hp : exists p, p ∈ prerequisite_goal_ids r ++ blocked_by_goal_ids r
                         /\ is_completed statuses p = false).
  { destruct (filter (fun p => is_completed statuses p = false)
                (prerequisite_goal_ids r ++ blocked_by_goal_ids r)) as [|p l] eqn:Ef.
    - rewrite filter_app in Ef. apply app_nil in Ef as [E1 E2]. rewrite E1, E2 in Eready. done.
    - exists p. assert (Hin : p ∈ p :: l) by (apply elem_of_cons; by left).
      rewrite <- Ef in Hin. apply list_elem_of_filter in Hin. tauto. }
  destruct Hp as (p & Hp & Hpc).
  assert (Hreg : is_Some (dget p g)).
  { specialize (Hrefs k r Hr). rewrite Forall_forall in Hrefs. apply Hrefs.
    unfold all_refs. rewrite !elem_of_app in *. tauto. }
  destruct Hreg as [rp Hrp]. apply (IH p) with rp; [|done|done].
  apply edge_graph; [done|]. exists r. split_and!; [done| |by eexists].
  apply elem_dependencies. rewrite elem_of_app in Hp. tauto.
Qed.

(** [prerequisite_status] of a registered goal: it is ready exactly when every
    prerequisite and every blocker is completed, and [missing] and [blocked]
    list exactly those that are not, in the record's order. *)
Theorem prerequisite_status_correct g id r statuses :
  dget (strip id) g = Some r -> goal_id r = strip id ->
  let st := prerequisite_status g id statuses in
  ps_goal st = strip id
  /\ (ready st = true <-> Forall (fun p => is_completed statuses p = true)
                            (prerequisite_goal_ids r ++ blocked_by_goal_ids r))
  /\ complete st = ready st
  /\ missing_prerequisites st
     = filter (fun p => is_completed statuses p = false) (prerequisite_goal_ids r)
  /\ blocked_by_goals st
     = filter (fun p => is_completed statuses p = false) (blocked_by_goal_ids r).
Proof.
  intros Hr Hid. unfold prerequisite_status.
  assert (E : _clean_text (VStr id) "" = strip id).
  { unfold _clean_text. rewrite text_strip. by destruct (String.eqb_spec (strip id) ""). }
  rewrite E, Hr. simpl. split_and!; try done.
  by rewrite andb_true_iff, !filter_nil_all, Forall_app.
Qed.

(** ** Concrete runs *)

Definition demo_record (id : string) (pre : list string) : record_arg :=
  ArgMapping [("goal_id", VStr id); ("prerequisites", strs pre)].

Definition demo_records : list record_arg :=
  [demo_record "a" ["b"; "c"]; demo_record "b" ["c"]; demo_record "c" []].

Definition demo_graph : graph :=
  match make_graph demo_records with Ok g => g | Raise _ => [] end.

(** A cycle through three goals, found from every one of them, reported once. *)
Example demo_cycle :
  match make_graph [demo_record "b" ["a"]; demo_record "c" ["b"]; demo_record "a" ["c"]] with
  | Ok g => detect_cycles g = [["a"; "c"; "b"; "a"]]
  | Raise _ => False
  end.
Proof. vm_compute. reflexivity. Qed.

Lemma validate_exact_witness :
  make_graph demo_records = Ok demo_graph /\ acyclic (adjacency demo_graph).
Proof.
  assert (E : make_graph demo_records = Ok demo_graph) by (vm_compute; reflexivity).
  split; [exact E|].
  apply (proj1 (validate_exact demo_records demo_graph E)). vm_compute. reflexivity.
Defined.

Lemma demo_graph_inv : graph_inv demo_graph.
Proof.
  split; [unfold dict_ok, dkeys; vm_compute; repeat constructor; set_solver|].
  intros k r Hr%dget_Some_elem. revert k r Hr.
  assert (G : Forall (fun kr => goal_id kr.2 = kr.1) demo_graph)
    by (vm_compute; repeat constructor).
  rewrite Forall_forall in G. intros k r Hr. exact (G _ Hr).
Qed.

Lemma some_goal_is_ready_witness :
  exists k', is_completed [("c", VStr "Completed")] k' = false
    /\ ready (prerequisite_status demo_graph k' [("c", VStr "Completed")]) = true.
Proof.
  destruct (some_goal_is_ready demo_graph [("c", VStr "Completed")] "a"
    (DependencyRecord "a" [] [] ["b"; "c"] []) demo_graph_inv) as (k' & _ & H1 & H2);
    [vm_compute; repeat constructor|vm_compute; reflexivity..|].
  by exists k'.
Defined.

Lemma prerequisite_status_correct_witness :
  ready (prerequisite_status demo_graph " a" [("c", VStr "completed")]) = false
  /\ missing_prerequisites (prerequisite_status demo_graph " a" [("c", VStr "completed")])
     = ["b"].
Proof.
  destruct (prerequisite_status_correct demo_graph " a" (DependencyRecord "a" [] [] ["b"; "c"] [])
    [("c", VStr "completed")]) as (_ & _ & _ & Hm & _);
    [vm_compute; reflexivity|vm_compute; reflexivity|].
  split; [vm_compute; reflexivity|exact Hm].
Defined.
