(* ===== verification/SessionLease.v ===== *)
(** * Runtime session leases

    [core/runtime/runtime_session_lease.py]: sessions, the leases that own
    them and the events, with expiry by ticks, takeover and zombie detection.
    A record update is written as the code writes it, [from_dict] of the
    updated [to_dict].  The digest behind the ids is the parameter
    [sha256_hex]; [utc_timestamp] reads the clock [now_iso].  [save], [load]
    and the audit and journal sinks are input and output and are left out. *)

From stdpp Require Import pretty.
From S2P Require Import Prelude PyVal.

Definition LEASE_STATUS_ACTIVE : string := "active".
Definition LEASE_STATUS_EXPIRED : string := "expired".
Definition LEASE_STATUS_RELEASED : string := "released".
Definition LEASE_STATUS_TRANSFERRED : string := "transferred".

Definition SESSION_STATUS_REGISTERED : string := "registered".
Definition SESSION_STATUS_ACTIVE : string := "active".
Definition SESSION_STATUS_EXPIRED : string := "expired".
Definition SESSION_STATUS_ZOMBIE : string := "zombie".
Definition SESSION_STATUS_TRANSFERRED : string := "transferred".
Definition SESSION_STATUS_RELEASED : string := "released".

(** ** Reading values *)

Definition _safe_int (value : val) (dflt : Z) : Z :=
  match value with
  | VInt z => z
  | VBool b => Z.b2z b
  | VStr s => default dflt (int_of_string s)
  | _ => dflt
  end.

Definition _copy_dict (value : val) : list (string * val) :=
  match value with VDict d => d | _ => [] end.

(** [str(data.get(k) or dflt)] *)
Definition str_field (k dflt : string) (d : list (string * val)) : string :=
  py_str (py_or (vget k d) (VStr dflt)).

(** ** Records *)

Record RuntimeSessionRecord : Type := Session {
  ss_id : string;
  ss_owner : string;
  ss_task : string;
  ss_status : string;
  ss_lease : string;
  ss_heartbeat : Z;
  ss_created : Z;
  ss_updated : Z;
  ss_takeovers : Z;
  ss_payload : list (string * val);
  ss_metadata : list (string * val);
  ss_created_at : string;
  ss_updated_at : string }.

Definition session_to_dict (s : RuntimeSessionRecord) : list (string * val) :=
  [("session_id", VStr (ss_id s)); ("owner_id", VStr (ss_owner s));
   ("task_id", VStr (ss_task s)); ("status", VStr (ss_status s));
   ("lease_id", VStr (ss_lease s)); ("last_heartbeat_tick", VInt (ss_heartbeat s));
   ("created_tick", VInt (ss_created s)); ("updated_tick", VInt (ss_updated s));
   ("takeover_count", VInt (ss_takeovers s)); ("payload", VDict (ss_payload s));
   ("metadata", VDict (ss_metadata s)); ("created_at", VStr (ss_created_at s));
   ("updated_at", VStr (ss_updated_at s))].

(** [now] is what [utc_timestamp()] returns if a default is needed. *)
Definition session_from_dict (now : string) (d : list (string * val)) : RuntimeSessionRecord :=
  Session (str_field "session_id" "" d) (str_field "owner_id" "" d) (str_field "task_id" "" d)
    (str_field "status" SESSION_STATUS_REGISTERED d) (str_field "lease_id" "" d)
    (_safe_int (vget "last_heartbeat_tick" d) 0) (_safe_int (vget "created_tick" d) 0)
    (_safe_int (vget "updated_tick" d) 0) (_safe_int (vget "takeover_count" d) 0)
    (_copy_dict (vget "payload" d)) (_copy_dict (vget "metadata" d))
    (str_field "created_at" now d) (str_field "updated_at" now d).

Record RuntimeSessionLease : Type := Lease {
  ls_id : string;
  ls_session : string;
  ls_owner : string;
  ls_status : string;
  ls_acquired : Z;
  ls_renewed : Z;
  ls_expires : Z;
  ls_generation : Z;
  ls_previous : string;
  ls_payload : list (string * val);
  ls_metadata : list (string * val);
  ls_acquired_at : string;
  ls_updated_at : string }.

Definition lease_to_dict (l : RuntimeSessionLease) : list (string * val) :=
  [("lease_id", VStr (ls_id l)); ("session_id", VStr (ls_session l));
   ("owner_id", VStr (ls_owner l)); ("status", VStr (ls_status l));
   ("acquired_tick", VInt (ls_acquired l)); ("renewed_tick", VInt (ls_renewed l));
   ("expires_tick", VInt (ls_expires l)); ("generation", VInt (ls_generation l));
   ("previous_owner_id", VStr (ls_previous l)); ("payload", VDict (ls_payload l));
   ("metadata", VDict (ls_metadata l)); ("acquired_at", VStr (ls_acquired_at l));
   ("updated_at", VStr (ls_updated_at l))].

Definition lease_from_dict (now : string) (d : list (string * val)) : RuntimeSessionLease :=
  Lease (str_field "lease_id" "" d) (str_field "session_id" "" d) (str_field "owner_id" "" d)
    (str_field "status" LEASE_STATUS_ACTIVE d)
    (_safe_int (vget "acquired_tick" d) 0) (_safe_int (vget "renewed_tick" d) 0)
    (_safe_int (vget "expires_tick" d) 0) (Z.max 1 (_safe_int (vget "generation" d) 1))
    (str_field "previous_owner_id" "" d)
    (_copy_dict (vget "payload" d)) (_copy_dict (vget "metadata" d))
    (str_field "acquired_at" now d) (str_field "updated_at" now d).

Record RuntimeSessionLeaseEvent : Type := Event {
  ev_id : string;
  ev_type : string;
  ev_session : string;
  ev_owner : string;
  ev_lease : string;
  ev_tick : Z;
  ev_payload : list (string * val);
  ev_timestamp : string }.

Record registry : Type := Registry {
  sessions : list (string * RuntimeSessionRecord);
  leases : list (string * RuntimeSessionLease);
  events : list RuntimeSessionLeaseEvent;
  rclock : nat }.

Definition empty_registry : registry := Registry [] [] [] 0.

Definition put_session (k : string) (x : RuntimeSessionRecord) (r : registry) : registry :=
  Registry (dset k x (sessions r)) (leases r) (events r) (rclock r).
Definition put_lease (k : string) (x : RuntimeSessionLease) (r : registry) : registry :=
  Registry (sessions r) (dset k x (leases r)) (events r) (rclock r).

(** [raise RuntimeSessionLeaseRejected(msg)], a [RuntimeError]. *)
Definition rejected {A} (msg : string) : M registry A := mraise (RuntimeErr msg).

Section operations.
Context (sha256_hex : string -> string) (now_iso : nat -> string).
Context (default_ttl_ticks zombie_after_ticks : Z).

Definition stable_session_lease_fingerprint (value : val) : string :=
  sha256_hex (utf8 (json_dumps true value)).

Definition utc_timestamp : M registry string := fun r =>
  (Ok (now_iso (rclock r)), Registry (sessions r) (leases r) (events r) (S (rclock r))).

Definition _validate_text (field_name value : string) : M registry string :=
  let t := strip value in
  if (t =? "")%string then rejected (field_name +:+ "_required") else mret t.

Definition _append_event (etype session_id owner_id lease_id : string) (tick : Z)
    (payload : list (string * val)) : M registry unit :=
  r ← mget;
  let event_id := "runtime-session-lease-event-" +:+ str_take 16
    (stable_session_lease_fingerprint
       (VDict [("event_type", VStr etype); ("session_id", VStr session_id);
               ("owner_id", VStr owner_id); ("lease_id", VStr lease_id);
               ("current_tick", VInt tick);
               ("sequence", VInt (Z.of_nat (length (events r)) + 1))])) in
  now ← utc_timestamp;
  mmodify (fun r => Registry (sessions r) (leases r)
    (events r ++ [Event event_id etype session_id owner_id lease_id tick payload now])
    (rclock r)).

(** [self._sessions[k] = from_dict({**s.to_dict(), **changes, "updated_at": utc_timestamp()})] *)
Definition update_session (k : string) (s : RuntimeSessionRecord) (changes : list (string * val))
  : M registry RuntimeSessionRecord :=
  now ← utc_timestamp;
  let s' := session_from_dict now
    (dupdate (session_to_dict s) (changes ++ [("updated_at", VStr now)])) in
  _ ← mmodify (put_session k s');
  mret s'.

Definition update_lease (k : string) (l : RuntimeSessionLease) (changes : list (string * val))
  : M registry RuntimeSessionLease :=
  now ← utc_timestamp;
  let l' := lease_from_dict now
    (dupdate (lease_to_dict l) (changes ++ [("updated_at", VStr now)])) in
  _ ← mmodify (put_lease k l');
  mret l'.

Definition or_dict (a b : list (string * val)) : list (string * val) :=
  match a with [] => b | _ => a end.

Definition str_or (a b : string) : string := if (a =? "")%string then b else a.

Definition register_session (session_id task_id owner_id : string) (tick : Z)
    (payload metadata : list (string * val)) : M registry RuntimeSessionRecord :=
  session_id ← _validate_text "session_id" session_id;
  r ← mget;
  session ←
    match dget session_id (sessions r) with
    | Some existing =>
        update_session session_id existing
          [("task_id", VStr (str_or task_id (ss_task existing)));
           ("owner_id", VStr (str_or owner_id (ss_owner existing)));
           ("updated_tick", VInt tick);
           ("payload", VDict (or_dict payload (ss_payload existing)));
           ("metadata", VDict (dupdate (ss_metadata existing) metadata))]
    | None =>
        created ← utc_timestamp;
        updated ← utc_timestamp;
        let s := Session session_id owner_id task_id SESSION_STATUS_REGISTERED "" tick tick tick 0
                   payload metadata created updated in
        _ ← mmodify (put_session session_id s);
        mret s
    end;
  _ ← _append_event "runtime_session_registered" session_id owner_id "" tick
        [("session", VDict (session_to_dict session))];
  mret session.

Definition _mark_session_expired (session_id : string) (tick : Z)
  : M registry RuntimeSessionRecord :=
  r ← mget;
  match dget session_id (sessions r) with
  | None => rejected ("runtime_session_not_found: " +:+ repr_str session_id)
  | Some s =>
      expired ← update_session session_id s
        [("status", VStr SESSION_STATUS_EXPIRED); ("updated_tick", VInt tick)];
      _ ← _append_event "runtime_session_lease_expired" session_id (ss_owner s) (ss_lease s) tick
            [("session", VDict (session_to_dict expired))];
      mret expired
  end.

Definition _active_lease_for_session (session_id : string) (tick : Z)
  : M registry (option RuntimeSessionLease) :=
  r ← mget;
  match dget session_id (sessions r) with
  | None => mret None
  | Some s =>
      if (ss_lease s =? "")%string then mret None
      else
        match dget (ss_lease s) (leases r) with
        | None => mret None
        | Some l =>
            if negb (ls_status l =? LEASE_STATUS_ACTIVE)%string then mret None
            else if (ls_expires l <? tick)%Z then
              _ ← update_lease (ls_id l) l [("status", VStr LEASE_STATUS_EXPIRED)];
              _ ← _mark_session_expired session_id tick;
              mret None
            else mret (Some l)
        end
  end.

Definition ttl_of (ttl_ticks : option Z) : Z :=
  Z.max 1 (match ttl_ticks with Some t => t | None => default_ttl_ticks end).

Definition lease_name (session_id owner_id : string) (generation : Z) : string :=
  "runtime-session-lease-" +:+ str_take 16 (stable_session_lease_fingerprint
    (VDict [("session_id", VStr session_id); ("owner_id", VStr owner_id);
            ("generation", VInt generation)])).

(** The current lease of another owner becomes a transferred one. *)
Definition transfer_lease (owner_id : string) (current_lease : option RuntimeSessionLease)
  : M registry unit :=
  match current_lease with
  | Some c =>
      if negb (ls_owner c =? owner_id)%string
      then _ ← update_lease (ls_id c) c [("status", VStr LEASE_STATUS_TRANSFERRED)]; mret tt
      else mret tt
  | None => mret tt
  end.

Definition grant_generation (owner_id : string) (current_lease : option RuntimeSessionLease)
  : Z :=
  match current_lease with
  | None => 1
  | Some c => ls_generation c + (if (ls_owner c =? owner_id)%string then 0 else 1)
  end.

(** The part of [acquire_lease] after the conflict check. *)
Definition grant_lease (session_id owner_id : string) (tick ttl : Z)
    (current_lease : option RuntimeSessionLease) (metadata : list (string * val))
  : M registry RuntimeSessionLease :=
  let generation := grant_generation owner_id current_lease in
  let previous := match current_lease with None => EmptyString | Some c => ls_owner c end in
  _ ← transfer_lease owner_id current_lease;
  let lease_id := lease_name session_id owner_id generation in
  acquired ← utc_timestamp;
  updated ← utc_timestamp;
  let lease := Lease lease_id session_id owner_id LEASE_STATUS_ACTIVE tick tick (tick + ttl)
                 generation (if (previous =? owner_id)%string then EmptyString else previous)
                 [] metadata acquired updated in
  _ ← mmodify (put_lease lease_id lease);
  r ← mget;
  match dget session_id (sessions r) with
  | None => mraise (KeyError session_id)
  | Some old =>
      _ ← update_session session_id old
            [("owner_id", VStr owner_id); ("status", VStr SESSION_STATUS_ACTIVE);
             ("lease_id", VStr lease_id); ("updated_tick", VInt tick)];
      _ ← _append_event "runtime_session_lease_acquired" session_id owner_id lease_id tick
            [("lease", VDict (lease_to_dict lease))];
      mret lease
  end.

(** [if session_id not in self._sessions: self.register_session(...)] *)
Definition ensure_session (session_id owner_id : string) (tick : Z) : M registry unit :=
  r ← mget;
  if dmem session_id (sessions r) then mret tt
  else _ ← register_session session_id "" owner_id tick [] []; mret tt.

Definition acquire_lease (session_id owner_id : string) (tick : Z) (ttl_ticks : option Z)
    (force : bool) (metadata : list (string * val)) : M registry RuntimeSessionLease :=
  session_id ← _validate_text "session_id" session_id;
  owner_id ← _validate_text "owner_id" owner_id;
  let ttl := ttl_of ttl_ticks in
  _ ← ensure_session session_id owner_id tick;
  current_lease ← _active_lease_for_session session_id tick;
  match current_lease with
  | Some c =>
      if negb (ls_owner c =? owner_id)%string && negb force
      then rejected ("runtime_session_lease_conflict: session=" +:+ repr_str session_id
                     +:+ " active_owner=" +:+ repr_str (ls_owner c))
      else grant_lease session_id owner_id tick ttl current_lease metadata
  | None => grant_lease session_id owner_id tick ttl current_lease metadata
  end.

Definition renew_lease (lease_id owner_id : string) (tick : Z) (ttl_ticks : option Z)
    (heartbeat : bool) : M registry RuntimeSessionLease :=
  lease_id ← _validate_text "lease_id" lease_id;
  owner_id ← _validate_text "owner_id" owner_id;
  r ← mget;
  match dget lease_id (leases r) with
  | None => rejected ("runtime_session_lease_not_found: " +:+ repr_str lease_id)
  | Some l =>
      if negb (ls_owner l =? owner_id)%string
      then rejected "runtime_session_lease_owner_mismatch"
      else if negb (ls_status l =? LEASE_STATUS_ACTIVE)%string
      then rejected ("runtime_session_lease_not_active: " +:+ repr_str (ls_status l))
      else if (ls_expires l <? tick)%Z then
        _ ← update_lease lease_id l [("status", VStr LEASE_STATUS_EXPIRED)];
        _ ← _mark_session_expired (ls_session l) tick;
        rejected "runtime_session_lease_expired"
      else
        renewed ← update_lease lease_id l
          [("renewed_tick", VInt tick); ("expires_tick", VInt (tick + ttl_of ttl_ticks))];
        r ← mget;
        _ ← match dget (ls_session l) (sessions r) with
            | None => mret tt
            | Some s =>
                _ ← update_session (ls_session l) s
                      [("status", VStr SESSION_STATUS_ACTIVE); ("owner_id", VStr owner_id);
                       ("lease_id", VStr lease_id);
                       ("last_heartbeat_tick",
                        VInt (if heartbeat then tick else ss_heartbeat s));
                       ("updated_tick", VInt tick)];
                mret tt
            end;
        _ ← _append_event "runtime_session_lease_renewed" (ls_session l) owner_id lease_id tick
              [("lease", VDict (lease_to_dict renewed))];
        mret renewed
  end.

Definition heartbeat (session_id owner_id : string) (tick : Z)
  : M registry RuntimeSessionRecord :=
  session_id ← _validate_text "session_id" session_id;
  owner_id ← _validate_text "owner_id" owner_id;
  r ← mget;
  match dget session_id (sessions r) with
  | None => rejected ("runtime_session_not_found: " +:+ repr_str session_id)
  | Some s =>
      let refuse := rejected "runtime_session_heartbeat_without_active_lease" in
      match dget (ss_lease s) (leases r) with
      | None => refuse
      | Some l =>
          if negb (ls_owner l =? owner_id)%string
             || negb (ls_status l =? LEASE_STATUS_ACTIVE)%string
          then refuse
          else
            _ ← renew_lease (ls_id l) owner_id tick None true;
            r ← mget;
            match dget session_id (sessions r) with
            | None => mraise (KeyError session_id)
            | Some updated =>
                _ ← _append_event "runtime_session_heartbeat" session_id owner_id (ls_id l) tick
                      [("session", VDict (session_to_dict updated))];
                mret updated
            end
      end
  end.

Definition release_lease (lease_id owner_id : string) (tick : Z)
  : M registry RuntimeSessionLease :=
  lease_id ← _validate_text "lease_id" lease_id;
  owner_id ← _validate_text "owner_id" owner_id;
  r ← mget;
  match dget lease_id (leases r) with
  | None => rejected ("runtime_session_lease_not_found: " +:+ repr_str lease_id)
  | Some l =>
      if negb (ls_owner l =? owner_id)%string
      then rejected "runtime_session_lease_owner_mismatch"
      else
        released ← update_lease lease_id l [("status", VStr LEASE_STATUS_RELEASED)];
        r ← mget;
        _ ← match dget (ls_session l) (sessions r) with
            | None => mret tt
            | Some s =>
                _ ← update_session (ls_session l) s
                      [("status", VStr SESSION_STATUS_RELEASED); ("updated_tick", VInt tick)];
                mret tt
            end;
        _ ← _append_event "runtime_session_lease_released" (ls_session l) owner_id lease_id tick
              [("lease", VDict (lease_to_dict released))];
        mret released
  end.

Definition takeover_session (session_id new_owner_id : string) (tick : Z) (reason : string)
    (ttl_ticks : option Z) : M registry RuntimeSessionLease :=
  session_id ← _validate_text "session_id" session_id;
  new_owner_id ← _validate_text "new_owner_id" new_owner_id;
  r ← mget;
  session ←
    match dget session_id (sessions r) with
    | Some s => mret s
    | None => register_session session_id "" "" tick [] []
    end;
  lease ← acquire_lease session_id new_owner_id tick ttl_ticks true
            [("takeover_reason", VStr reason)];
  r ← mget;
  match dget session_id (sessions r) with
  | None => mraise (KeyError session_id)
  | Some updated =>
      _ ← update_session session_id updated
            [("status", VStr SESSION_STATUS_TRANSFERRED);
             ("takeover_count", VInt (ss_takeovers session + 1)); ("updated_tick", VInt tick)];
      _ ← _append_event "runtime_session_takeover" session_id new_owner_id (ls_id lease) tick
            [("reason", VStr reason); ("lease", VDict (lease_to_dict lease))];
      mret lease
  end.

(** [session.status in {RELEASED, ZOMBIE}] *)
Definition skipped (s : RuntimeSessionRecord) : bool :=
  bool_decide (ss_status s ∈ [SESSION_STATUS_RELEASED; SESSION_STATUS_ZOMBIE]).

(** One turn of the loop of [detect_expired]: the sessions it reports. *)
Definition expire_one (tick : Z) (ks : string * RuntimeSessionRecord)
  : M registry (list RuntimeSessionRecord) :=
  r ← mget;
  if skipped ks.2 then mret []
  else
    match dget (ss_lease ks.2) (leases r) with
    | None => mret []
    | Some l =>
        if (ls_status l =? LEASE_STATUS_ACTIVE)%string && (ls_expires l <? tick)%Z then
          _ ← update_lease (ls_id l) l [("status", VStr LEASE_STATUS_EXPIRED)];
          s ← _mark_session_expired ks.1 tick;
          mret [s]
        else mret []
    end.

Definition detect_expired (tick : Z) : M registry (list RuntimeSessionRecord) :=
  r ← mget;
  found ← mfor (expire_one tick) (sessions r);
  mret (concat found).

Definition last_seen (s : RuntimeSessionRecord) : Z :=
  if (ss_heartbeat s <=? 0)%Z then ss_created s else ss_heartbeat s.

Definition zombie_one (tick : Z) (ks : string * RuntimeSessionRecord)
  : M registry (list RuntimeSessionRecord) :=
  if skipped ks.2 then mret []
  else
    let age := (tick - last_seen ks.2)%Z in
    if (zombie_after_ticks <=? age)%Z then
      zombie ← update_session ks.1 ks.2
        [("status", VStr SESSION_STATUS_ZOMBIE); ("updated_tick", VInt tick)];
      _ ← _append_event "runtime_session_zombie_detected" ks.1 (ss_owner ks.2) (ss_lease ks.2)
            tick [("session", VDict (session_to_dict zombie)); ("age", VInt age);
                  ("zombie_after_ticks", VInt zombie_after_ticks)];
      mret [zombie]
    else mret [].

Definition detect_zombies (tick : Z) : M registry (list RuntimeSessionRecord) :=
  r ← mget;
  found ← mfor (zombie_one tick) (sessions r);
  mret (concat found).

(** [tick]: the expired and the zombie sessions. *)
Definition tick_leases (tick : Z)
  : M registry (list RuntimeSessionRecord * list RuntimeSessionRecord) :=
  expired ← detect_expired tick;
  zombies ← detect_zombies tick;
  mret (expired, zombies).

Definition get_session (session_id : string) : M registry RuntimeSessionRecord :=
  session_id ← _validate_text "session_id" session_id;
  r ← mget;
  match dget session_id (sessions r) with
  | Some s => mret s
  | None => rejected ("runtime_session_not_found: " +:+ repr_str session_id)
  end.

Definition get_lease (lease_id : string) : M registry RuntimeSessionLease :=
  lease_id ← _validate_text "lease_id" lease_id;
  r ← mget;
  match dget lease_id (leases r) with
  | Some l => mret l
  | None => rejected ("runtime_session_lease_not_found: " +:+ repr_str lease_id)
  end.

End operations.

(** [[self._sessions[key] for key in sorted(self._sessions)]] *)
Definition in_key_order {A} (d : list (string * A)) : list A :=
  omap (fun k => dget k d) (sorted_strs (dkeys d)).

Definition list_sessions (r : registry) : list RuntimeSessionRecord := in_key_order (sessions r).
Definition list_leases (r : registry) : list RuntimeSessionLease := in_key_order (leases r).
Definition list_events (r : registry) : list RuntimeSessionLeaseEvent := events r.

(** ** Updated records *)

(** [str(x or dflt)] on a text. *)
Definition nz (x dflt : string) : string := py_str (py_or (VStr x) (VStr dflt)).

Lemma nz_empty x : nz x "" = x.
Proof. unfold nz, py_or. simpl. by destruct (String.eqb_spec x ""). Qed.

Lemma nz_full x d : x <> "" -> nz x d = x.
Proof. unfold nz, py_or. simpl. intros H. by apply String.eqb_neq in H as ->. Qed.

Lemma session_update_status now s st t u :
  session_from_dict now (dupdate (session_to_dict s)
    [("status", VStr st); ("updated_tick", VInt t); ("updated_at", VStr u)])
  = Session (nz (ss_id s) "") (nz (ss_owner s) "") (nz (ss_task s) "")
      (nz st SESSION_STATUS_REGISTERED) (nz (ss_lease s) "") (ss_heartbeat s) (ss_created s) t
      (ss_takeovers s) (ss_payload s) (ss_metadata s) (nz (ss_created_at s) now) (nz u now).
Proof. reflexivity. Qed.

Lemma session_update_register now s tk ow t p m u :
  session_from_dict now (dupdate (session_to_dict s)
    [("task_id", VStr tk); ("owner_id", VStr ow); ("updated_tick", VInt t);
     ("payload", VDict p); ("metadata", VDict m); ("updated_at", VStr u)])
  = Session (nz (ss_id s) "") (nz ow "") (nz tk "") (nz (ss_status s) SESSION_STATUS_REGISTERED)
      (nz (ss_lease s) "") (ss_heartbeat s) (ss_created s) t (ss_takeovers s) p m
      (nz (ss_created_at s) now) (nz u now).
Proof. reflexivity. Qed.

Lemma session_update_grant now s ow st l t u :
  session_from_dict now (dupdate (session_to_dict s)
    [("owner_id", VStr ow); ("status", VStr st); ("lease_id", VStr l);
     ("updated_tick", VInt t); ("updated_at", VStr u)])
  = Session (nz (ss_id s) "") (nz ow "") (nz (ss_task s) "") (nz st SESSION_STATUS_REGISTERED)
      (nz l "") (ss_heartbeat s) (ss_created s) t (ss_takeovers s) (ss_payload s)
      (ss_metadata s) (nz (ss_created_at s) now) (nz u now).
Proof. reflexivity. Qed.

Lemma session_update_renew now s st ow l h t u :
  session_from_dict now (dupdate (session_to_dict s)
    [("status", VStr st); ("owner_id", VStr ow); ("lease_id", VStr l);
     ("last_heartbeat_tick", VInt h); ("updated_tick", VInt t); ("updated_at", VStr u)])
  = Session (nz (ss_id s) "") (nz ow "") (nz (ss_task s) "") (nz st SESSION_STATUS_REGISTERED)
      (nz l "") h (ss_created s) t (ss_takeovers s) (ss_payload s)
      (ss_metadata s) (nz (ss_created_at s) now) (nz u now).
Proof. reflexivity. Qed.

Lemma session_update_takeover now s st n t u :
  session_from_dict now (dupdate (session_to_dict s)
    [("status", VStr st); ("takeover_count", VInt n); ("updated_tick", VInt t);
     ("updated_at", VStr u)])
  = Session (nz (ss_id s) "") (nz (ss_owner s) "") (nz (ss_task s) "")
      (nz st SESSION_STATUS_REGISTERED) (nz (ss_lease s) "") (ss_heartbeat s) (ss_created s) t
      n (ss_payload s) (ss_metadata s) (nz (ss_created_at s) now) (nz u now).
Proof. reflexivity. Qed.

Lemma lease_update_status now l st u :
  lease_from_dict now (dupdate (lease_to_dict l) [("status", VStr st); ("updated_at", VStr u)])
  = Lease (nz (ls_id l) "") (nz (ls_session l) "") (nz (ls_owner l) "")
      (nz st LEASE_STATUS_ACTIVE) (ls_acquired l) (ls_renewed l) (ls_expires l)
      (Z.max 1 (ls_generation l)) (nz (ls_previous l) "") (ls_payload l) (ls_metadata l)
      (nz (ls_acquired_at l) now) (nz u now).
Proof. reflexivity. Qed.

Lemma lease_update_renew now l rn ex u :
  lease_from_dict now (dupdate (lease_to_dict l)
    [("renewed_tick", VInt rn); ("expires_tick", VInt ex); ("updated_at", VStr u)])
  = Lease (nz (ls_id l) "") (nz (ls_session l) "") (nz (ls_owner l) "")
      (nz (ls_status l) LEASE_STATUS_ACTIVE) (ls_acquired l) rn ex
      (Z.max 1 (ls_generation l)) (nz (ls_previous l) "") (ls_payload l) (ls_metadata l)
      (nz (ls_acquired_at l) now) (nz u now).
Proof. reflexivity. Qed.

#[local] Opaque session_from_dict lease_from_dict session_to_dict lease_to_dict dupdate.

Ltac updates :=
  rewrite ?session_update_status, ?session_update_register, ?session_update_grant,
    ?session_update_renew, ?session_update_takeover, ?lease_update_status, ?lease_update_renew,
    ?nz_empty.

(** ** The invariant *)

Definition is_live (l : RuntimeSessionLease) : Prop := ls_status l = LEASE_STATUS_ACTIVE.

Section invariant.
Context (sha256_hex : string -> string) (now_iso : nat -> string).
Context (default_ttl_ticks zombie_after_ticks : Z).

Abbreviation name := (lease_name sha256_hex).

Definition lease_ok (k : string) (l : RuntimeSessionLease) : Prop :=
  ls_id l = k /\ (1 <= ls_generation l)%Z
  /\ k = name (ls_session l) (ls_owner l) (ls_generation l).

Record lease_inv (r : registry) : Prop := {
  li_dict : dict_ok (sessions r);
  li_session : forall k s, dget k (sessions r) = Some s -> ss_id s = k;
  li_lease : forall k l, dget k (leases r) = Some l -> lease_ok k l;
  li_live : forall k l, dget k (leases r) = Some l -> is_live l ->
    exists s, dget (ls_session l) (sessions r) = Some s /\ ss_lease s = k }.

Lemma lease_inv_frame r r' :
  sessions r' = sessions r -> leases r' = leases r -> lease_inv r -> lease_inv r'.
Proof. intros Hs Hl [D A B C]. constructor; rewrite ?Hs, ?Hl; done. Qed.

(** A session keeps its lease when it is rewritten. *)
Lemma inv_put_session k s r :
  lease_inv r -> ss_id s = k ->
  (forall o, dget k (sessions r) = Some o -> ss_lease s = ss_lease o) ->
  lease_inv (put_session k s r).
Proof.
  intros [D A B C] Hk Ho. constructor; simpl; [by apply dict_ok_dset| |done|].
  - intros k' s'. rewrite dget_dset. destruct (String.eqb_spec k k') as [<-|]; [|apply A].
    by intros [= <-].
  - intros k' l Hl Hv. destruct (C k' l Hl Hv) as (o & Hos & Hol). rewrite dget_dset.
    destruct (String.eqb_spec k (ls_session l)) as [E|]; [|eauto].
    exists s. split; [done|]. rewrite <- E in Hos. by rewrite (Ho o Hos).
Qed.

(** The same lease with another status or other ticks. *)
Definition same_lease (l l' : RuntimeSessionLease) : Prop :=
  ls_id l' = ls_id l /\ ls_session l' = ls_session l /\ ls_owner l' = ls_owner l
  /\ ls_generation l' = ls_generation l.

Lemma inv_put_lease k l l' r :
  lease_inv r -> dget k (leases r) = Some l -> same_lease l l' -> (is_live l' -> is_live l) ->
  lease_inv (put_lease k l' r).
Proof.
  intros [D A B C] Hl (E1 & E2 & E3 & E4) Hv. constructor; simpl; [done|done| |].
  - intros k' x. rewrite dget_dset. destruct (String.eqb_spec k k') as [<-|]; [|apply B].
    intros [= <-]. unfold lease_ok. rewrite E1, E2, E3, E4. by apply B.
  - intros k' x. rewrite dget_dset. destruct (String.eqb_spec k k') as [<-|]; [|apply C].
    intros [= <-] Hx. rewrite E2. eapply C; [done|auto].
Qed.

Lemma inv_event etype sid ow lid t p r :
  lease_inv r -> lease_inv (_append_event sha256_hex now_iso etype sid ow lid t p r).2.
Proof. apply lease_inv_frame; reflexivity. Qed.

Lemma inv_clock r n : lease_inv r -> lease_inv (Registry (sessions r) (leases r) (events r) n).
Proof. apply lease_inv_frame; reflexivity. Qed.

(** Granting a session's lease: the other leases of the session are not live. *)
Lemma inv_grant sid s s' l r :
  lease_inv r -> dget sid (sessions r) = Some s ->
  ls_session l = sid -> lease_ok (ls_id l) l -> ss_id s' = sid -> ss_lease s' = ls_id l ->
  (forall k x, dget k (leases r) = Some x -> is_live x -> ls_session x = sid -> k = ls_id l) ->
  lease_inv (put_session sid s' (put_lease (ls_id l) l r)).
Proof.
  intros [D A B C] Hs Hsid Hok Hid Hlid Huniq. constructor; simpl; [by apply dict_ok_dset|..].
  - intros k x. rewrite dget_dset. destruct (String.eqb_spec sid k) as [<-|]; [|apply A].
    by intros [= <-].
  - intros k x. rewrite dget_dset. destruct (String.eqb_spec (ls_id l) k) as [<-|]; [|apply B].
    by intros [= <-].
  - intros k x. rewrite !dget_dset. destruct (String.eqb_spec (ls_id l) k) as [<-|Hne].
    + intros [= <-] _. rewrite Hsid, String.eqb_refl. eauto.
    + intros Hx Hv. destruct (String.eqb_spec sid (ls_session x)) as [E|]; [|by eapply C].
      exists s'. split; [done|]. rewrite Hlid. symmetry. by eapply Huniq.
Qed.

(** ** Every operation keeps the invariant *)

Definition kinv {A} (m : M registry A) : Prop := forall r, lease_inv r -> lease_inv (m r).2.

Lemma bind_at {A B} (m : M registry A) (f : A -> M registry B) r :
  lease_inv (m r).2 -> (forall a, kinv (f a)) -> lease_inv ((m ≫= f) r).2.
Proof.
  intros Hm Hf. unfold_m. destruct (m r) as [[a|e] r']; [by apply Hf|done].
Qed.

Lemma kinv_bind {A B} (m : M registry A) (f : A -> M registry B) :
  kinv m -> (forall a, kinv (f a)) -> kinv (m ≫= f).
Proof. intros Hm Hf r Hr. apply bind_at; [by apply Hm|done]. Qed.

Lemma kinv_get {A} (f : registry -> M registry A) :
  (forall r, lease_inv r -> lease_inv (f r r).2) -> kinv (mget ≫= f).
Proof. intros Hf r Hr. by apply Hf. Qed.

Lemma kinv_ret {A} (a : A) : kinv (mret a).
Proof. by intros r. Qed.
Lemma kinv_raise {A} e : kinv (mraise e : M registry A).
Proof. by intros r. Qed.
Lemma kinv_stamp : kinv (utc_timestamp now_iso).
Proof. intros r. apply inv_clock. Qed.
Lemma kinv_event etype sid ow lid t p :
  kinv (_append_event sha256_hex now_iso etype sid ow lid t p).
Proof. intros r. apply inv_event. Qed.
Lemma kinv_validate f v : kinv (_validate_text f v).
Proof. unfold _validate_text, rejected. intros r Hr. by destruct (_ =? "")%string. Qed.

Create HintDb lease.
Hint Resolve kinv_ret kinv_raise kinv_stamp kinv_event kinv_validate inv_event : lease.

Ltac kinv_step :=
  repeat first
    [ progress intros
    | solve [auto with lease]
    | match goal with |- kinv (mbind _ _) => apply kinv_bind end
    | match goal with |- kinv (match ?x with _ => _ end) => destruct x end
    | progress unfold rejected ].

(** Rewriting a stored session without changing its lease. *)
Lemma inv_update_session k s ch r :
  lease_inv r -> dget k (sessions r) = Some s ->
  (forall now, let s' := session_from_dict now
       (dupdate (session_to_dict s) (ch ++ [("updated_at", VStr now)])) in
     ss_id s' = ss_id s /\ ss_lease s' = ss_lease s) ->
  lease_inv (update_session now_iso k s ch r).2.
Proof.
  intros H Hs Hch. unfold update_session. unfold_m. simpl.
  destruct (Hch (now_iso (rclock r))) as [E1 E2].
  apply inv_put_session; [by apply inv_clock| |].
  - rewrite E1. by eapply li_session.
  - simpl. intros o Ho. rewrite Hs in Ho. injection Ho as <-. by rewrite E2.
Qed.

(** Rewriting a stored lease, dead or as live as it was. *)
Lemma inv_update_lease k l ch r :
  lease_inv r -> dget k (leases r) = Some l ->
  (forall now, let l' := lease_from_dict now
       (dupdate (lease_to_dict l) (ch ++ [("updated_at", VStr now)])) in
     same_lease l l' /\ (is_live l' -> is_live l)) ->
  lease_inv (update_lease now_iso k l ch r).2.
Proof.
  intros H Hl Hch. unfold update_lease. unfold_m. simpl.
  destruct (Hch (now_iso (rclock r))) as [E1 E2].
  eapply inv_put_lease; [by apply inv_clock|exact Hl|done|done].
Qed.

(** The lease updates of the code: another status, or other ticks. *)
Lemma lease_status_same l st now :
  (1 <= ls_generation l)%Z ->
  same_lease l (lease_from_dict now
    (dupdate (lease_to_dict l) ([("status", VStr st)] ++ [("updated_at", VStr now)]))).
Proof. intros H. simpl app. unfold same_lease. updates. simpl. repeat split. lia. Qed.

Lemma lease_status_dead l st now :
  st <> LEASE_STATUS_ACTIVE -> st <> "" ->
  ~ is_live (lease_from_dict now
    (dupdate (lease_to_dict l) ([("status", VStr st)] ++ [("updated_at", VStr now)]))).
Proof. intros H Hn. simpl app. unfold is_live. updates. simpl. by rewrite nz_full. Qed.

Lemma inv_kill_lease k l st r :
  lease_inv r -> dget k (leases r) = Some l -> st <> LEASE_STATUS_ACTIVE -> st <> "" ->
  lease_inv (update_lease now_iso k l [("status", VStr st)] r).2.
Proof.
  intros H Hl Hst Hn. apply inv_update_lease; [done|done|]. intros now. split.
  - apply lease_status_same. by apply (li_lease _ H) in Hl as (_ & ? & _).
  - intros Hv. by apply lease_status_dead in Hv.
Qed.

Lemma inv_session_status k s st t r :
  lease_inv r -> dget k (sessions r) = Some s ->
  lease_inv (update_session now_iso k s [("status", VStr st); ("updated_tick", VInt t)] r).2.
Proof.
  intros H Hs. apply inv_update_session; [done|done|]. intros now. simpl app. updates. by split.
Qed.

Lemma kinv_register sid tk ow t p m :
  kinv (register_session sha256_hex now_iso sid tk ow t p m).
Proof.
  unfold register_session. apply kinv_bind; [auto with lease|]. intros k.
  apply kinv_get. intros r H. apply bind_at; [|kinv_step].
  destruct (dget k (sessions r)) as [s|] eqn:Es.
  - apply inv_update_session; [done|done|]. intros now. simpl app. updates. by split.
  - unfold_m. simpl. apply inv_put_session; [by apply inv_clock|done|].
    simpl. intros o Ho. by rewrite Es in Ho.
Qed.

Lemma kinv_mark k t : kinv (_mark_session_expired sha256_hex now_iso k t).
Proof.
  unfold _mark_session_expired. apply kinv_get. intros r H.
  destruct (dget k (sessions r)) as [s|] eqn:Es; [|done].
  apply bind_at; [by apply inv_session_status|kinv_step].
Qed.

Hint Resolve kinv_register kinv_mark : lease.

Lemma lease_key_nonempty k l : lease_ok k l -> k <> "".
Proof. intros (_ & _ & ->). unfold lease_name. done. Qed.

(** What marking a session does to the books. *)
Lemma mark_spec k t s r :
  dget k (sessions r) = Some s ->
  exists s', (_mark_session_expired sha256_hex now_iso k t r).1 = Ok s'
    /\ sessions (_mark_session_expired sha256_hex now_iso k t r).2 = dset k s' (sessions r)
    /\ leases (_mark_session_expired sha256_hex now_iso k t r).2 = leases r
    /\ ss_lease s' = ss_lease s /\ ss_status s' = SESSION_STATUS_EXPIRED.
Proof.
  intros Hs. unfold _mark_session_expired. unfold_m. rewrite Hs. unfold update_session. unfold_m.
  simpl. eexists. split; [done|]. split; [done|]. split; [done|].
  updates. simpl. by rewrite nz_full.
Qed.

(** [c] is the active lease the session names, and it has not run out. *)
Definition holds_lease (sid : string) (t : Z) (r : registry) (c : RuntimeSessionLease) : Prop :=
  exists s, dget sid (sessions r) = Some s /\ dget (ss_lease s) (leases r) = Some c
            /\ is_live c /\ (t <= ls_expires c)%Z.

Lemma active_lease_spec sid t r :
  lease_inv r ->
  let '(o, r') := _active_lease_for_session sha256_hex now_iso sid t r in
  lease_inv r' /\ (is_Some (dget sid (sessions r)) -> is_Some (dget sid (sessions r')))
  /\ match o with
     | Ok (Some l) => r' = r /\ is_live l /\ (t <= ls_expires l)%Z
         /\ exists s, dget sid (sessions r) = Some s /\ dget (ss_lease s) (leases r) = Some l
     | Ok None =>
         (forall k x, dget k (leases r') = Some x -> is_live x -> ls_session x <> sid)
         /\ forall c, ~ holds_lease sid t r c
     | Raise _ => False
     end.
Proof.
  intros H. unfold _active_lease_for_session. unfold_m.
  assert (Huniq : forall k x, dget k (leases r) = Some x -> is_live x -> ls_session x = sid ->
            exists s, dget sid (sessions r) = Some s /\ ss_lease s = k /\ k <> "").
  { intros k x Hx Hv <-. destruct (li_live _ H k x Hx Hv) as (s & Hs & Hl).
    exists s. split_and!; [done|done|]. by eapply lease_key_nonempty, li_lease. }
  destruct (dget sid (sessions r)) as [s|] eqn:Es.
  2: { split_and!; [done|done| |intros c (s & Hs & _); by rewrite Es in Hs].
       intros k x Hx Hv Hk. destruct (Huniq k x Hx Hv Hk) as (s & ? & _). done. }
  destruct (String.eqb_spec (ss_lease s) "") as [Ee|Ee].
  { split_and!; [done|done| |intros c (s' & Hs' & Hc & _)].
    - intros k x Hx Hv Hk. destruct (Huniq k x Hx Hv Hk) as (s' & Hs' & <- & ?).
      by injection Hs' as <-.
    - rewrite Es in Hs'. injection Hs' as <-. apply (li_lease _ H) in Hc.
      by apply lease_key_nonempty in Hc. }
  destruct (dget (ss_lease s) (leases r)) as [l|] eqn:El.
  2: { split_and!; [done|done| |intros c (s' & Hs' & Hc & _); congruence].
       intros k x Hx Hv Hk. destruct (Huniq k x Hx Hv Hk) as (s' & Hs' & <- & ?).
       injection Hs' as <-. congruence. }
  destruct (String.eqb_spec (ls_status l) LEASE_STATUS_ACTIVE) as [Ea|Ea]; cbn [negb].
  2: { split_and!; [done|done| |intros c (s' & Hs' & Hc & Hv & _)].
       - intros k x Hx Hv Hk. destruct (Huniq k x Hx Hv Hk) as (s' & Hs' & <- & ?).
         injection Hs' as <-. rewrite El in Hx. by injection Hx as <-.
       - rewrite Es in Hs'. injection Hs' as <-. rewrite El in Hc. by injection Hc as <-. }
  destruct (Z.ltb_spec (ls_expires l) t) as [Et|Et].
  2: { split_and!; [done|done|done|done|lia|]. by exists s. }
  destruct (li_lease _ H _ _ El) as (Hid & _ & _). rewrite Hid.
  set (m := update_lease now_iso (ss_lease s) l [("status", VStr LEASE_STATUS_EXPIRED)]).
  assert (H1 : lease_inv (m r).2) by (by apply inv_kill_lease).
  assert (Hd : exists l', dget (ss_lease s) (leases (m r).2) = Some l' /\ ~ is_live l').
  { eexists. unfold m, update_lease. unfold_m. simpl. rewrite dget_dset_eq. split; [done|].
    by apply (lease_status_dead l LEASE_STATUS_EXPIRED). }
  assert (Hm : m r = (Ok (match (m r).1 with Ok x => x | Raise _ => l end), (m r).2)) by done.
  rewrite Hm. clear Hm. assert (Hs1 : dget sid (sessions (m r).2) = Some s) by exact Es.
  revert H1 Hd Hs1. generalize (m r).2. intros r1 H1 (l' & Hl' & Hdead) Hs1.
  destruct (mark_spec sid t s r1 Hs1) as (s' & M1 & M2 & M3 & M4 & _).
  pose proof (kinv_mark sid t r1 H1) as H2.
  destruct (_mark_session_expired sha256_hex now_iso sid t r1) as [o r2]. simpl in *. subst o.
  split; [done|]. rewrite M2, M3. split; [intros _; rewrite dget_dset_eq; by eexists|].
  split; [|intros c (s2 & Hs2 & Hc & _ & Hle); rewrite Es in Hs2; injection Hs2 as <-;
           rewrite El in Hc; injection Hc as <-; lia].
  intros k x Hx Hv Hk. rewrite <- M3 in Hx. destruct (li_live _ H2 k x Hx Hv) as (s2 & Hs2 & Hl2).
  rewrite Hk, M2, dget_dset_eq in Hs2. injection Hs2 as <-. rewrite M4 in Hl2.
  rewrite M3, <- Hl2, Hl' in Hx. by injection Hx as <-.
Qed.

(** The current lease that [acquire_lease] grants from: either the live lease
    the session names, or none and no lease of the session is live. *)
Definition current_ok (sid : string) (c : option RuntimeSessionLease) (r : registry) : Prop :=
  match c with
  | Some l => is_live l /\ exists s, dget sid (sessions r) = Some s
                /\ dget (ss_lease s) (leases r) = Some l
  | None => forall k x, dget k (leases r) = Some x -> is_live x -> ls_session x <> sid
  end.

(** After the previous lease is transferred, the live leases of the session
    are the one to be granted again, if any. *)
Lemma after_transfer sid owner c r :
  lease_inv r -> current_ok sid c r -> is_Some (dget sid (sessions r)) ->
  let '(o, r') := transfer_lease now_iso owner c r in
  o = Ok tt /\ lease_inv r' /\ sessions r' = sessions r
  /\ forall k x, dget k (leases r') = Some x -> is_live x -> ls_session x = sid ->
       k = name sid owner (grant_generation owner c).
Proof.
  intros H Hc [s0 Hs0]. unfold transfer_lease, grant_generation. destruct c as [l|]; simpl.
  2: { split_and!; [done|done|done|]. intros k x Hx Hv Hk. by destruct (Hc k x Hx Hv). }
  destruct Hc as (Hlive & s & Hs & Hl). rewrite Hs in Hs0. injection Hs0 as <-.
  destruct (li_lease _ H _ _ Hl) as (Hid & Hg & Hn). rewrite Hid.
  destruct (String.eqb_spec (ls_owner l) owner) as [Ho|Ho]; cbn [negb].
  - split_and!; [done|done|done|]. intros k x Hx Hv Hk.
    destruct (li_live _ H k x Hx Hv) as (s' & Hs' & Hl'). rewrite Hk, Hs in Hs'.
    injection Hs' as <-. subst k. rewrite Hl in Hx. injection Hx as <-.
    by rewrite Z.add_0_r, <- Ho, <- Hk.
  - pose proof (inv_kill_lease _ l LEASE_STATUS_TRANSFERRED r H Hl ltac:(done) ltac:(done)) as H1.
    unfold update_lease in *. unfold_m. simpl in *. split_and!; [done|done|done|].
    intros k x. rewrite dget_dset. destruct (String.eqb_spec (ss_lease s) k) as [<-|Hne].
    + intros [= <-] Hv. by apply (lease_status_dead l LEASE_STATUS_TRANSFERRED) in Hv.
    + intros Hx Hv Hk. destruct (li_live _ H k x Hx Hv) as (s' & Hs' & Hl').
      rewrite Hk, Hs in Hs'. injection Hs' as <-. done.
Qed.

(** The lease [grant_lease] builds and the registry it leaves. *)
Lemma grant_spec sid owner t ttl c md r :
  lease_inv r -> current_ok sid c r -> is_Some (dget sid (sessions r)) ->
  exists l r', grant_lease sha256_hex now_iso sid owner t ttl c md r = (Ok l, r')
    /\ lease_inv r'
    /\ is_live l /\ ls_session l = sid /\ ls_owner l = owner
    /\ ls_expires l = (t + ttl)%Z /\ ls_generation l = grant_generation owner c
    /\ dget (ls_id l) (leases r') = Some l
    /\ exists s, dget sid (sessions r') = Some s /\ ss_owner s = owner
         /\ ss_status s = SESSION_STATUS_ACTIVE /\ ss_lease s = ls_id l.
Proof.
  intros H Hc Hs. unfold grant_lease.
  pose proof (after_transfer sid owner c r H Hc Hs) as A.
  assert (Hg : (1 <= grant_generation owner c)%Z).
  { destruct c as [l|]; simpl; [|lia]. destruct Hc as (_ & s & _ & Hl).
    apply (li_lease _ H) in Hl as (_ & Hg & _). destruct (ls_owner l =? owner)%string; lia. }
  unfold mbind at 1, M_bind at 1.
  destruct (transfer_lease now_iso owner c r) as [o r1].
  destruct A as (-> & H1 & E1 & Huniq). rewrite <- E1 in Hs. destruct Hs as [s Hs].
  set (g := grant_generation owner c) in *.
  unfold utc_timestamp, update_session. unfold_m. simpl. rewrite Hs. simpl. updates.
  set (l := Lease _ _ _ _ _ _ _ _ _ _ _ _ _).
  do 2 eexists. split; [done|]. split.
  - eapply (lease_inv_frame (put_session sid _ (put_lease (ls_id l) l
               (Registry (sessions r1) (leases r1) (events r1) 0))));
      [reflexivity|reflexivity|].
    eapply inv_grant; [by apply inv_clock|exact Hs|done|
      |exact (li_session _ H1 _ _ Hs)|reflexivity|].
    + by split_and!.
    + simpl. intros k x Hx Hv Hk. by apply (Huniq k x).
  - split_and!; try done; simpl; [by rewrite dget_dset_eq|].
    rewrite dget_dset_eq. eexists. split; [done|]. simpl. by split_and!.
Qed.

Lemma register_present sid tk ow t p m r k :
  strip sid = k -> k <> "" ->
  is_Some (dget k (sessions (register_session sha256_hex now_iso sid tk ow t p m r).2))
  /\ exists s, (register_session sha256_hex now_iso sid tk ow t p m r).1 = Ok s.
Proof.
  intros Hk Hn. unfold register_session, _validate_text. rewrite Hk.
  pose proof Hn as Hn'. apply String.eqb_neq in Hn' as ->. unfold_m. simpl.
  destruct (dget k (sessions r)); simpl; (split; [rewrite dget_dset_eq; by eexists|by eexists]).
Qed.

Lemma kinv_grant_at sid owner t ttl c md r :
  lease_inv r -> current_ok sid c r -> is_Some (dget sid (sessions r)) ->
  lease_inv (grant_lease sha256_hex now_iso sid owner t ttl c md r).2.
Proof.
  intros H Hc Hs. destruct (grant_spec sid owner t ttl c md r H Hc Hs) as (l & r' & -> & Hi & _).
  done.
Qed.

(** The steps of [acquire_lease] up to the current lease. *)
Lemma validate_spec f v r :
  _validate_text f v r
  = if (strip v =? "")%string then (Raise (RuntimeErr (f +:+ "_required")), r)
    else (Ok (strip v), r).
Proof. unfold _validate_text, rejected. by destruct (strip v =? "")%string. Qed.

Lemma ensure_session_spec sid owner t r :
  lease_inv r -> strip sid = sid -> sid <> "" ->
  let '(o, r') := ensure_session sha256_hex now_iso sid owner t r in
  o = Ok tt /\ lease_inv r' /\ is_Some (dget sid (sessions r'))
  /\ (r' = r \/ dget sid (sessions r) = None
               /\ exists s, dget sid (sessions r') = Some s /\ ss_lease s = EmptyString).
Proof.
  intros H Hs Hn. unfold ensure_session, dmem. unfold_m.
  destruct (dget sid (sessions r)) as [x|] eqn:Ex.
  - split_and!; [done|done|by eexists|by left].
  - pose proof (kinv_register sid "" owner t [] [] r H) as H1. revert H1.
    unfold register_session, _validate_text. rewrite Hs.
    pose proof Hn as Hn'. apply String.eqb_neq in Hn' as ->. unfold_m. simpl. rewrite Ex. simpl.
    intros H1. rewrite dget_dset_eq. split_and!; [done|done|by eexists|right; split; [done|by eexists]].
Qed.

(** What [acquire_lease] does after validating its arguments. *)
Lemma acquire_spec sid owner t ttl force md r :
  lease_inv r -> strip sid <> "" -> strip owner <> "" ->
  let '(o, r') := acquire_lease sha256_hex now_iso default_ttl_ticks sid owner t ttl force md r in
  lease_inv r' /\
  match o with
  | Ok l => is_live l /\ ls_session l = strip sid /\ ls_owner l = strip owner
      /\ ls_expires l = (t + ttl_of default_ttl_ticks ttl)%Z
      /\ dget (ls_id l) (leases r') = Some l
      /\ (exists s, dget (strip sid) (sessions r') = Some s /\ ss_owner s = strip owner
           /\ ss_status s = SESSION_STATUS_ACTIVE /\ ss_lease s = ls_id l)
      /\ (force = true \/ forall c, holds_lease (strip sid) t r c -> ls_owner c = strip owner)
  | Raise _ => r' = r /\ force = false
      /\ exists c, holds_lease (strip sid) t r c /\ ls_owner c <> strip owner
  end.
Proof.
  intros H Hs Ho. unfold acquire_lease. unfold mbind at 1, M_bind at 1. rewrite validate_spec.
  pose proof Hs as Hs'. apply String.eqb_neq in Hs' as ->.
  unfold mbind at 1, M_bind at 1. rewrite validate_spec.
  pose proof Ho as Ho'. apply String.eqb_neq in Ho' as ->.
  unfold mbind at 1, M_bind at 1.
  pose proof (ensure_session_spec (strip sid) (strip owner) t r H (strip_idemp _) Hs) as E.
  destruct (ensure_session sha256_hex now_iso (strip sid) (strip owner) t r) as [o1 r1].
  destruct E as (-> & H1 & Hp & Hsame).
  assert (Hh : forall c, holds_lease (strip sid) t r c <-> holds_lease (strip sid) t r1 c).
  { intros c. destruct Hsame as [-> |(Hn & s' & Hs2 & Hl2)]; [done|].
    split; intros (s & Hs3 & Hc & _); [congruence|]. rewrite Hs2 in Hs3. injection Hs3 as <-.
    apply (li_lease _ H1) in Hc. by apply lease_key_nonempty in Hc. }
  unfold mbind at 1, M_bind at 1.
  pose proof (active_lease_spec (strip sid) t r1 H1) as A.
  destruct (_active_lease_for_session sha256_hex now_iso (strip sid) t r1) as [[[l|]|e] r2];
    [| |by destruct A as (_ & _ & [])].
  - destruct A as (H2 & _ & -> & Hlive & Hexp & s & Hss & Hl).
    assert (Hheld : holds_lease (strip sid) t r1 l) by (by exists s).
    destruct (negb (ls_owner l =? strip owner)%string && negb force) eqn:Ec.
    + apply andb_true_iff in Ec as [Eo Ef]. apply negb_true_iff in Ef as ->.
      apply negb_true_iff, String.eqb_neq in Eo. unfold rejected, mraise.
      split; [done|]. apply Hh in Hheld. split_and!; [|done|by exists l].
      destruct Hsame as [-> |(Hn & _)]; [done|]. destruct Hheld as (s' & Hs' & _). congruence.
    + destruct (grant_spec (strip sid) (strip owner) t (ttl_of default_ttl_ticks ttl) (Some l) md
                  r1 H1) as (x & r' & -> & Hi & G1 & G2 & G3 & G4 & _ & G5 & G6);
        [split; [done|by exists s]|done|]. split_and!; try done.
      destruct force; [by left|right]. intros c Hc. apply Hh in Hc as (s' & Hs' & Hc & _).
      rewrite Hss in Hs'. injection Hs' as <-. rewrite Hl in Hc. injection Hc as <-.
      rewrite andb_true_r in Ec. by apply negb_false_iff, String.eqb_eq in Ec.
  - destruct A as (H2 & Hp2 & Hnone & Hnot).
    destruct (grant_spec (strip sid) (strip owner) t (ttl_of default_ttl_ticks ttl) None md
                r2 H2) as (x & r' & -> & Hi & G1 & G2 & G3 & G4 & _ & G5 & G6);
      [done|by apply Hp2|]. split_and!; try done. right. intros c Hc. apply Hh in Hc.
    by apply Hnot in Hc.
Qed.

Lemma kinv_acquire sid owner t ttl force md :
  kinv (acquire_lease sha256_hex now_iso default_ttl_ticks sid owner t ttl force md).
Proof.
  intros r H. destruct (decide (strip sid = "")) as [Hs|Hs].
  { unfold acquire_lease. unfold mbind at 1, M_bind at 1. rewrite validate_spec, Hs. done. }
  destruct (decide (strip owner = "")) as [Ho|Ho].
  { unfold acquire_lease. unfold mbind at 1, M_bind at 1. rewrite validate_spec.
    apply String.eqb_neq in Hs as ->. unfold mbind at 1, M_bind at 1.
    rewrite validate_spec, Ho. done. }
  pose proof (acquire_spec sid owner t ttl force md r H Hs Ho) as A.
  destruct (acquire_lease _ _ _ sid owner t ttl force md r). apply A.
Qed.

(** Rewriting the session of a live lease when the lease is renewed. *)
Lemma kinv_renew lid owner t ttl hb :
  kinv (renew_lease sha256_hex now_iso default_ttl_ticks lid owner t ttl hb).
Proof.
  unfold renew_lease. apply kinv_bind; [auto with lease|]. intros k.
  apply kinv_bind; [auto with lease|]. intros ow. apply kinv_get. intros r H.
  destruct (dget k (leases r)) as [l|] eqn:El; [|done].
  destruct (negb (ls_owner l =? ow)%string); [done|].
  destruct (String.eqb_spec (ls_status l) LEASE_STATUS_ACTIVE) as [Ea|]; [|done].
  cbn [negb]. destruct (ls_expires l <? t)%Z.
  - apply bind_at; [by apply inv_kill_lease|kinv_step].
  - destruct (li_lease _ H _ _ El) as (Hid & Hg & _).
    set (m := update_lease now_iso k l _).
    assert (H1 : lease_inv (m r).2).
    { apply inv_update_lease; [done|done|]. intros now. simpl app. unfold same_lease, is_live.
      updates. simpl. repeat split; [lia|done]. }
    destruct (li_live _ H _ _ El Ea) as (s & Hs & Hl).
    assert (Hm : exists l' r1, m r = (Ok l', r1) /\ sessions r1 = sessions r)
      by (unfold m, update_lease, utc_timestamp; unfold_m; do 2 eexists; by split).
    destruct Hm as (l' & r1 & Hm & Hs1). rewrite Hm in H1. simpl in H1.
    unfold mbind at 1, M_bind at 1. rewrite Hm. unfold mbind at 1, M_bind at 1. unfold mget at 1.
    rewrite Hs1, Hs. apply bind_at; [|kinv_step]. apply bind_at; [|kinv_step].
    apply inv_update_session; [done|by rewrite Hs1|]. intros now. simpl app. updates. simpl.
    by rewrite Hl.
Qed.

Lemma kinv_release lid owner t : kinv (release_lease sha256_hex now_iso lid owner t).
Proof.
  unfold release_lease. apply kinv_bind; [auto with lease|]. intros k.
  apply kinv_bind; [auto with lease|]. intros ow. apply kinv_get. intros r H.
  destruct (dget k (leases r)) as [l|] eqn:El; [|done].
  destruct (negb (ls_owner l =? ow)%string); [done|].
  apply bind_at; [by apply inv_kill_lease|]. intros released.
  apply kinv_get. intros r1 H1. apply bind_at; [|kinv_step].
  destruct (dget (ls_session l) (sessions r1)) as [s|] eqn:Es; [|done].
  apply bind_at; [by apply inv_session_status|kinv_step].
Qed.

Lemma kinv_heartbeat sid owner t :
  kinv (heartbeat sha256_hex now_iso default_ttl_ticks sid owner t).
Proof.
  unfold heartbeat. apply kinv_bind; [auto with lease|]. intros k.
  apply kinv_bind; [auto with lease|]. intros ow. apply kinv_bind; [by intros r|]. intros r.
  destruct (dget k (sessions r)); [|kinv_step]. destruct (dget _ (leases r)); [|kinv_step].
  destruct (_ || _); [kinv_step|]. apply kinv_bind; [apply kinv_renew|]. intros _.
  apply kinv_bind; [by intros r'|]. kinv_step.
Qed.

Lemma kinv_takeover sid owner t reason ttl :
  kinv (takeover_session sha256_hex now_iso default_ttl_ticks sid owner t reason ttl).
Proof.
  unfold takeover_session. apply kinv_bind; [auto with lease|]. intros k.
  apply kinv_bind; [auto with lease|]. intros ow. apply kinv_bind; [by intros r|]. intros r.
  apply kinv_bind; [destruct (dget k (sessions r)); kinv_step|]. intros s.
  apply kinv_bind; [apply kinv_acquire|]. intros l. apply kinv_get. intros r1 H1.
  destruct (dget k (sessions r1)) as [u|] eqn:Eu; [|done]. apply bind_at; [|kinv_step].
  apply inv_update_session; [done|done|]. intros now. simpl app. updates. by split.
Qed.

Lemma kinv_mfor {A B} (f : A -> M registry B) l : (forall x, kinv (f x)) -> kinv (mfor f l).
Proof.
  intros Hf. induction l as [|x l IH]; simpl; [apply kinv_ret|].
  apply kinv_bind; [apply Hf|]. intros y. apply kinv_bind; [exact IH|]. intros ys.
  apply kinv_ret.
Qed.

Lemma kinv_expire_one t ks : kinv (expire_one sha256_hex now_iso t ks).
Proof.
  unfold expire_one. apply kinv_get. intros r H. destruct (skipped ks.2); [done|].
  destruct (dget (ss_lease ks.2) (leases r)) as [l|] eqn:El; [|done].
  destruct (_ && _); [|done]. destruct (li_lease _ H _ _ El) as (Hid & _ & _). rewrite Hid.
  apply bind_at; [by apply inv_kill_lease|kinv_step].
Qed.

Lemma kinv_detect_expired t : kinv (detect_expired sha256_hex now_iso t).
Proof.
  unfold detect_expired. apply kinv_bind; [by intros r|]. intros r.
  apply kinv_bind; [|kinv_step]. apply kinv_mfor, kinv_expire_one.
Qed.

(** The zombie loop rewrites each session of the snapshot once. *)
Lemma zombie_loop t l : forall r,
  lease_inv r -> NoDup (dkeys l) ->
  (forall k s, (k, s) ∈ l -> dget k (sessions r) = Some s) ->
  lease_inv (mfor (zombie_one sha256_hex now_iso zombie_after_ticks t) l r).2.
Proof.
  induction l as [|[k s] l IH]; simpl; intros r H Hn Hl; [done|].
  apply NoDup_cons in Hn as [Hk Hn].
  set (m := zombie_one sha256_hex now_iso zombie_after_ticks t (k, s)).
  assert (Hs : dget k (sessions r) = Some s) by (apply Hl, elem_of_cons; by left).
  assert (Hm : exists o r1, m r = (Ok o, r1) /\ lease_inv r1
             /\ forall k', k' <> k -> dget k' (sessions r1) = dget k' (sessions r)).
  { unfold m, zombie_one. simpl. destruct (skipped s); [by do 2 eexists|].
    destruct (zombie_after_ticks <=? _)%Z; [|by do 2 eexists].
    pose proof (inv_session_status k s SESSION_STATUS_ZOMBIE t r H Hs) as H1.
    unfold_m. unfold update_session in *. unfold_m. simpl in *.
    do 2 eexists. split; [done|]. split; [eapply lease_inv_frame; [| |exact H1]; reflexivity|].
    intros k' Hne. simpl. by rewrite dget_dset_ne. }
  destruct Hm as (o & r1 & Hm & H1 & Hsame). unfold_m. rewrite Hm.
  assert (G : lease_inv (mfor (zombie_one sha256_hex now_iso zombie_after_ticks t) l r1).2).
  { apply IH; [done|done|]. intros k' s' Hin. rewrite Hsame.
    - apply Hl, elem_of_cons. by right.
    - intros ->. apply Hk. apply list_elem_of_fmap. by exists (k, s'). }
  by destruct (mfor _ l r1) as [[ys|e] r2].
Qed.

Lemma kinv_detect_zombies t : kinv (detect_zombies sha256_hex now_iso zombie_after_ticks t).
Proof.
  unfold detect_zombies. apply kinv_get. intros r H. apply bind_at; [|kinv_step].
  apply zombie_loop; [done|apply (li_dict _ H)|]. intros k s Hin.
  apply elem_dget; [apply (li_dict _ H)|done].
Qed.

(** ** The operations of clients, as steps *)

Inductive lease_op : Type :=
  | LRegister (sid task owner : string) (t : Z) (payload metadata : list (string * val))
  | LAcquire (sid owner : string) (t : Z) (ttl : option Z) (force : bool)
      (metadata : list (string * val))
  | LRenew (lid owner : string) (t : Z) (ttl : option Z) (hb : bool)
  | LHeartbeat (sid owner : string) (t : Z)
  | LRelease (lid owner : string) (t : Z)
  | LTakeover (sid owner : string) (t : Z) (reason : string) (ttl : option Z)
  | LTick (t : Z).

Definition run_lease_op (o : lease_op) (r : registry) : registry :=
  match o with
  | LRegister sid tk ow t p m => (register_session sha256_hex now_iso sid tk ow t p m r).2
  | LAcquire sid ow t ttl f m =>
      (acquire_lease sha256_hex now_iso default_ttl_ticks sid ow t ttl f m r).2
  | LRenew lid ow t ttl hb =>
      (renew_lease sha256_hex now_iso default_ttl_ticks lid ow t ttl hb r).2
  | LHeartbeat sid ow t => (heartbeat sha256_hex now_iso default_ttl_ticks sid ow t r).2
  | LRelease lid ow t => (release_lease sha256_hex now_iso lid ow t r).2
  | LTakeover sid ow t why ttl =>
      (takeover_session sha256_hex now_iso default_ttl_ticks sid ow t why ttl r).2
  | LTick t => (tick_leases sha256_hex now_iso zombie_after_ticks t r).2
  end.

Lemma run_lease_op_inv o r : lease_inv r -> lease_inv (run_lease_op o r).
Proof.
  intros H. destruct o; simpl.
  - by apply kinv_register.
  - by apply kinv_acquire.
  - by apply kinv_renew.
  - by apply kinv_heartbeat.
  - by apply kinv_release.
  - by apply kinv_takeover.
  - unfold tick_leases. apply bind_at; [by apply kinv_detect_expired|]. intros e.
    apply kinv_bind; [apply kinv_detect_zombies|kinv_step].
Qed.

Lemma run_lease_ops_inv l : lease_inv (fold_left (fun r o => run_lease_op o r) l empty_registry).
Proof.
  assert (G : forall r, lease_inv r -> lease_inv (fold_left (fun r o => run_lease_op o r) l r)).
  { induction l as [|o l IH]; simpl; [done|]. intros r H. by apply IH, run_lease_op_inv. }
  apply G. constructor; simpl; try done. constructor.
Qed.

(** ** Properties *)

(** C19. Leases are exclusive: whatever clients do, a session has at most one
    active lease, and it is the one the session names. *)
Theorem lease_exclusive l k1 k2 x1 x2 :
  let r := fold_left (fun r o => run_lease_op o r) l empty_registry in
  dget k1 (leases r) = Some x1 -> dget k2 (leases r) = Some x2 ->
  is_live x1 -> is_live x2 -> ls_session x1 = ls_session x2 ->
  k1 = k2 /\ x1 = x2 /\ exists s, dget (ls_session x1) (sessions r) = Some s /\ ss_lease s = k1.
Proof.
  intros r H1 H2 V1 V2 E. pose proof (run_lease_ops_inv l) as H. fold r in H.
  destruct (li_live _ H _ _ H1 V1) as (s1 & S1 & L1).
  destruct (li_live _ H _ _ H2 V2) as (s2 & S2 & L2).
  rewrite <- E, S1 in S2. injection S2 as <-.
  assert (k1 = k2) as <- by congruence. split_and!; [done|congruence|by exists s1].
Qed.

(** [acquire_lease] grants or refuses for exactly one reason: it raises, with
    nothing changed, exactly if it is not forced and the session's active lease
    is another owner's and has not run out; otherwise the result is an active lease of
    the requested owner that expires [ttl] ticks on and that the now active
    session names. *)
Theorem acquire_lease_correct l sid owner t ttl force md :
  strip sid <> "" -> strip owner <> "" ->
  let r := fold_left (fun r o => run_lease_op o r) l empty_registry in
  let '(o, r') := acquire_lease sha256_hex now_iso default_ttl_ticks sid owner t ttl force md r in
  match o with
  | Ok x => is_live x /\ ls_session x = strip sid /\ ls_owner x = strip owner
      /\ ls_expires x = (t + ttl_of default_ttl_ticks ttl)%Z
      /\ dget (ls_id x) (leases r') = Some x
      /\ (exists s, dget (strip sid) (sessions r') = Some s /\ ss_owner s = strip owner
           /\ ss_status s = SESSION_STATUS_ACTIVE /\ ss_lease s = ls_id x)
      /\ (force = true \/ forall c, holds_lease (strip sid) t r c -> ls_owner c = strip owner)
  | Raise _ => r' = r /\ force = false
      /\ exists c, holds_lease (strip sid) t r c /\ ls_owner c <> strip owner
  end.
Proof.
  intros Hs Ho r. pose proof (run_lease_ops_inv l) as H. fold r in H.
  pose proof (acquire_spec sid owner t ttl force md r H Hs Ho) as A.
  destruct (acquire_lease _ _ _ sid owner t ttl force md r) as [o r']. apply A.
Qed.

(** Who may renew: the lease must exist, belong to the caller, be active and
    not have run out. *)
Definition renewable (lid owner : string) (t : Z) (r : registry) (x : RuntimeSessionLease)
  : Prop :=
  dget lid (leases r) = Some x /\ ls_owner x = owner /\ is_live x /\ (t <= ls_expires x)%Z.

(** [renew_lease] succeeds exactly for the owner of an active lease that has
    not run out; the lease then runs [ttl] ticks from now, its session is
    active and still names it.  A refusal leaves no lease that is both active
    and run out under that id. *)
Theorem renew_lease_correct l lid owner t ttl hb :
  strip lid = lid -> lid <> "" -> strip owner = owner -> owner <> "" ->
  let r := fold_left (fun r o => run_lease_op o r) l empty_registry in
  let '(o, r') := renew_lease sha256_hex now_iso default_ttl_ticks lid owner t ttl hb r in
  match o with
  | Ok x' => exists x, renewable lid owner t r x
      /\ dget lid (leases r') = Some x' /\ is_live x' /\ same_lease x x'
      /\ ls_expires x' = (t + ttl_of default_ttl_ticks ttl)%Z
      /\ exists s, dget (ls_session x) (sessions r') = Some s
           /\ ss_status s = SESSION_STATUS_ACTIVE /\ ss_lease s = lid /\ ss_owner s = owner
  | Raise _ => (forall x, ~ renewable lid owner t r x)
      /\ forall x, dget lid (leases r') = Some x -> ls_owner x = owner -> ~ is_live x
  end.
Proof.
  intros Hl Hl0 Ho Ho0 r. pose proof (run_lease_ops_inv l) as H. fold r in H.
  generalize dependent r. intros r H. unfold renew_lease, renewable.
  unfold mbind at 1, M_bind at 1. rewrite validate_spec, Hl.
  pose proof Hl0 as E1. apply String.eqb_neq in E1 as ->.
  unfold mbind at 1, M_bind at 1. rewrite validate_spec, Ho.
  pose proof Ho0 as E2. apply String.eqb_neq in E2 as ->. unfold_m.
  destruct (dget lid (leases r)) as [x|] eqn:Ex; [|split; [by intros x [? _]|by rewrite Ex]].
  destruct (String.eqb_spec (ls_owner x) owner) as [Eo|Eo]; cbn [negb].
  2: { split; [by intros y ([= <-] & ? & _)|]. rewrite Ex. by intros y [= <-]. }
  destruct (String.eqb_spec (ls_status x) LEASE_STATUS_ACTIVE) as [Ea|Ea]; cbn [negb].
  2: { split; [by intros y ([= <-] & _ & ? & _)|]. rewrite Ex. by intros y [= <-]. }
  destruct (li_live _ H _ _ Ex Ea) as (s & Hs & Hsl).
  destruct (li_lease _ H _ _ Ex) as (_ & Hg & _).
  destruct (Z.ltb_spec (ls_expires x) t) as [Et|Et].
  - unfold update_lease, utc_timestamp. unfold_m. simpl app.
    set (r1 := put_lease _ _ _).
    destruct (mark_spec (ls_session x) t s r1 Hs) as (s' & M1 & M2 & M3 & _ & _).
    destruct (_mark_session_expired sha256_hex now_iso (ls_session x) t r1) as [o r2].
    simpl in *. subst o. split; [intros y ([= <-] & _ & _ & ?); lia|].
    rewrite M3. unfold r1. simpl. rewrite dget_dset_eq. intros y [= <-] _.
    by apply (lease_status_dead x LEASE_STATUS_EXPIRED).
  - unfold update_lease, update_session, utc_timestamp. unfold_m. simpl app. simpl. rewrite Hs.
    simpl. exists x. rewrite !dget_dset_eq. updates. unfold same_lease, is_live. simpl.
    split_and!; try done; try lia; [by rewrite Ea|by eexists].
Qed.

(** The owner of a lease that was transferred away can still
    release it, because [release_lease] does not look at the lease's status.
    The session is then marked released although the new owner's lease stays
    active, and [detect_expired] passes over it from then on. *)
Theorem stale_release_strips_new_owner l lid x cur s t :
  let r := fold_left (fun r o => run_lease_op o r) l empty_registry in
  strip lid = lid -> strip (ls_owner x) = ls_owner x -> ls_owner x <> "" ->
  dget lid (leases r) = Some x -> ls_status x = LEASE_STATUS_TRANSFERRED ->
  dget (ls_session x) (sessions r) = Some s -> dget (ss_lease s) (leases r) = Some cur ->
  is_live cur ->
  exists rel r' s',
    release_lease sha256_hex now_iso lid (ls_owner x) t r = (Ok rel, r')
    /\ dget (ss_lease s) (leases r') = Some cur
    /\ dget (ls_session x) (sessions r') = Some s'
    /\ ss_status s' = SESSION_STATUS_RELEASED /\ ss_lease s' = ss_lease s
    /\ forall t', expire_one sha256_hex now_iso t' (ls_session x, s') r' = (Ok [], r').
Proof.
  intros r Hl Ho Ho0 Hx Hst Hs Hc Hv. pose proof (run_lease_ops_inv l) as H. fold r in H.
  generalize dependent r. intros r Hx Hs Hc H.
  assert (Hl0 : lid <> "") by (by eapply lease_key_nonempty, li_lease).
  assert (Hne : lid <> ss_lease s).
  { intros ->. rewrite Hx in Hc. injection Hc as <-. unfold is_live in Hv. by rewrite Hst in Hv. }
  unfold release_lease. unfold mbind at 1, M_bind at 1. rewrite validate_spec, Hl.
  pose proof Hl0 as E1. apply String.eqb_neq in E1 as ->.
  unfold mbind at 1, M_bind at 1. rewrite validate_spec, Ho.
  pose proof Ho0 as E2. apply String.eqb_neq in E2 as ->. unfold_m. rewrite Hx, String.eqb_refl.
  cbn [negb]. unfold update_lease, update_session, utc_timestamp, _append_event. unfold_m.
  simpl app. simpl. rewrite Hs. simpl. do 3 eexists. split; [reflexivity|]. simpl.
  rewrite dget_dset_ne by done. rewrite dget_dset_eq. split; [done|]. split; [done|].
  updates. simpl. split_and!; [done|done|]. intros t'. unfold expire_one. simpl. done.
Qed.

End invariant.

(** ** Witnesses *)

(** "A" takes session "S", "B" takes it over by force. *)
Definition demo_lease_ops : list lease_op :=
  [LAcquire "S" "A" 0 None false []; LAcquire "S" "B" 1 None true []].

(** The registry after the two requests, and the leases in it.  The digest is
    the identity, the clock is constant. *)
Definition demo_registry : registry :=
  fold_left (fun r o => run_lease_op (fun b => b) (fun _ => "now") 5 15 o r)
    demo_lease_ops empty_registry.

Definition demo_lid (n : nat) : string := nth n (dkeys (leases demo_registry)) "".
Definition demo_lease (n : nat) : RuntimeSessionLease :=
  default (Lease "" "" "" "" 0 0 0 0 "" [] [] "" "") (dget (demo_lid n) (leases demo_registry)).
Definition demo_session : RuntimeSessionRecord :=
  default (Session "" "" "" "" "" 0 0 0 0 [] [] "" "") (dget "S" (sessions demo_registry)).

Lemma demo_lease_1 : dget (demo_lid 1) (leases demo_registry) = Some (demo_lease 1).
Proof. vm_compute. reflexivity. Qed.

Lemma lease_exclusive_witness :
  exists s, dget (ls_session (demo_lease 1)) (sessions demo_registry) = Some s
            /\ ss_lease s = demo_lid 1.
Proof.
  apply (lease_exclusive (fun b => b) (fun _ => "now") 5 15 demo_lease_ops
           (demo_lid 1) (demo_lid 1) (demo_lease 1) (demo_lease 1));
    [exact demo_lease_1|exact demo_lease_1|vm_compute; reflexivity|vm_compute; reflexivity
    |reflexivity].
Defined.

(** A third owner is refused while "B" holds the lease. *)
Lemma acquire_lease_correct_witness :
  match acquire_lease (fun b => b) (fun _ => "now") 5 "S" "C" 2 None false [] demo_registry with
  | (Ok _, _) => False
  | (Raise _, r') => r' = demo_registry
  end.
Proof.
  pose proof (acquire_lease_correct (fun b => b) (fun _ => "now") 5 15 demo_lease_ops
                "S" "C" 2 None false [] ltac:(discriminate) ltac:(discriminate)) as T.
  cbv zeta in T. fold demo_registry in T.
  destruct (acquire_lease (fun b => b) (fun _ => "now") 5 "S" "C" 2 None false [] demo_registry)
    as [[x|e] r'] eqn:E.
  - apply (f_equal fst) in E. vm_compute in E. discriminate E.
  - exact (proj1 T).
Defined.

(** "B" renews its lease, "A" cannot renew the one it lost. *)
Lemma renew_lease_correct_witness :
  match renew_lease (fun b => b) (fun _ => "now") 5 (demo_lid 1) "B" 3 None true demo_registry with
  | (Ok x, _) => ls_expires x = 8%Z
  | (Raise _, _) => False
  end.
Proof.
  pose proof (renew_lease_correct (fun b => b) (fun _ => "now") 5 15 demo_lease_ops
                (demo_lid 1) "B" 3 None true ltac:(vm_compute; reflexivity)
                ltac:(vm_compute; discriminate) eq_refl ltac:(discriminate)) as T.
  cbv zeta in T. fold demo_registry in T.
  destruct (renew_lease (fun b => b) (fun _ => "now") 5 (demo_lid 1) "B" 3 None true demo_registry)
    as [[x|e] r'] eqn:E.
  - destruct T as (x0 & _ & _ & _ & _ & T & _). exact T.
  - apply (f_equal fst) in E. vm_compute in E. discriminate E.
Defined.

(** "A" releases its old lease and "B"'s session reads released. *)
Lemma stale_release_strips_new_owner_witness :
  exists rel r' s',
    release_lease (fun b => b) (fun _ => "now") (demo_lid 0) (ls_owner (demo_lease 0)) 2
      demo_registry = (Ok rel, r')
    /\ dget (ss_lease demo_session) (leases r') = Some (demo_lease 1)
    /\ dget (ls_session (demo_lease 0)) (sessions r') = Some s'
    /\ ss_status s' = SESSION_STATUS_RELEASED /\ ss_lease s' = ss_lease demo_session
    /\ forall t', expire_one (fun b => b) (fun _ => "now") t' (ls_session (demo_lease 0), s') r'
                  = (Ok [], r').
Proof.
  refine (stale_release_strips_new_owner (fun b => b) (fun _ => "now") 5 15 demo_lease_ops
            (demo_lid 0) (demo_lease 0) (demo_lease 1) demo_session 2 _ _ _ _ _ _ _ _);
    try (vm_compute; reflexivity). vm_compute. discriminate.
Defined.
