(* ===== verification/EventBus.v ===== *)
(** * The runtime's event bus

    [core/runtime/runtime_event_bus.py]: the durable bus is a sealed dict with
    the events by id, their order, and the subscriptions.  The module's
    functions are pure on that dict ([_mapping] copies it deeply), so they are
    functions here; [deliver] calls handlers, whose effects are threaded as a
    world of any type.  The digest, path resolution and [casefold] are
    parameters; the time a call reads is its argument [now].

    The theorems relate the dict to what the bus is meant to be: an append-only
    log of events, with duplicates by key answered from the log. *)

From Stdlib Require Import Ascii.
From stdpp Require Import pretty.
From S2P Require Import Prelude PyVal Clock Sealing.

Definition CONTRACT : string := "zero.runtime.event_bus.v1".
Definition EVENT_CONTRACT : string := "zero.runtime.event.v1".

Definition VALID_EVENT_TYPES : list string :=
  ["audit"; "daemon"; "memory"; "mission"; "scheduler"; "worker"].

Definition VALID_BUS_STATUSES : list string :=
  ["created"; "running"; "paused"; "stopped"; "blocked"; "failed"].

Section event_bus.
Context (sha256_hex : string -> string).

#[local] Abbreviation fingerprint := (fingerprint sha256_hex).

Definition seal_event (event : list (string * val)) : list (string * val) :=
  seal sha256_hex "event_fingerprint" event.

Definition validate_event (event : val) : res (list string) :=
  let value := mapping event in
  known ← val_in (vget "event_type" value) VALID_EVENT_TYPES;
  Ok (reason (negb (py_eq (vget "contract" value) (VStr EVENT_CONTRACT))) "invalid_event_contract"
      ++ reason (negb (sealed sha256_hex "event_fingerprint" value)) "event_fingerprint_mismatch"
      ++ concat (map (fun field => reason (text (vget field value) =? "")%string
                                          (field +:+ "_required"))
                     ["event_id"; "event_type"; "topic"; "source"; "created_at"])
      ++ reason (negb known) "invalid_event_type"
      ++ reason match vget "sequence" value with VInt n => n <? 1 | _ => true end%Z
           "invalid_event_sequence"
      ++ reason (negb (is_mapping (vget "payload" value))) "event_payload_required").

Definition seal_event_bus_state (state : list (string * val)) : list (string * val) :=
  seal sha256_hex "bus_fingerprint" state.

(** The loop of the validator over the order, and the one over the subscriptions. *)
Definition order_reasons (events : list (string * val)) (event_id : val) : res (list string) :=
  let event := mapping (get_val event_id events) in
  if negb (py_eq (vget "event_id" event) event_id)
  then Ok ["event_identity_mismatch:" +:+ py_str event_id]
  else reasons ← validate_event (VDict event);
       Ok (map (fun r => py_str event_id +:+ ":" +:+ r) reasons).

Definition subscription_reasons (kv : string * val) : list string :=
  let item := mapping kv.2 in
  reason (negb (py_eq (vget "subscription_id" item) (VStr kv.1)))
    ("subscription_identity_mismatch:" +:+ kv.1)
  ++ reason (text (vget "topic" item) =? "")%string (kv.1 +:+ ":subscription_topic_required")
  ++ reason (text (vget "subscriber" item) =? "")%string (kv.1 +:+ ":subscriber_required").

Definition validate_event_bus_state (state : val) : res (list string) :=
  let value := mapping state in
  known ← val_in (vget "bus_status" value) VALID_BUS_STATUSES;
  let events := mapping (vget "events" value) in
  let order := match vget "event_order" value with VList l => l | _ => [] end in
  let subscriptions := mapping (vget "subscriptions" value) in
  same ← same_keys order events;
  in_order ← rmap (order_reasons events) order;
  Ok (reason (negb (py_eq (vget "contract" value) (VStr CONTRACT))) "invalid_event_bus_contract"
      ++ reason (negb (sealed sha256_hex "bus_fingerprint" value)) "event_bus_fingerprint_mismatch"
      ++ reason (text (vget "bus_id" value) =? "")%string "event_bus_id_required"
      ++ reason (text (vget "bus_name" value) =? "")%string "event_bus_name_required"
      ++ reason (negb known) "invalid_event_bus_status"
      ++ reason (negb (is_mapping (vget "events" value))) "event_bus_events_required"
      ++ reason (negb (is_list (vget "event_order" value))) "event_bus_event_order_required"
      ++ reason (negb (is_mapping (vget "subscriptions" value))) "event_bus_subscriptions_required"
      ++ reason (negb same) "event_bus_event_order_mismatch"
      ++ reason (negb (py_eq (vget "next_sequence" value) (VInt (Z.of_nat (length order) + 1))))
           "event_bus_next_sequence_mismatch"
      ++ concat in_order
      ++ concat (map subscription_reasons subscriptions)).

Definition create_event_bus_state (resolve casefold : string -> string) (state_path : string)
    (bus_name : val) (now : instant) : res (list (string * val)) :=
  let name := text bus_name in
  if (name =? "")%string then Raise (ValueError "event_bus_name_required")
  else
    let identity :=
      [("bus_name", VStr name);
       ("state_path", VStr (casefold (replace_char "\"%char "/"%char (resolve state_path))))] in
    let at_ := VStr (time_text now) in
    Ok (seal_event_bus_state
      [("contract", VStr CONTRACT);
       ("bus_id", VStr ("runtime-event-bus-" +:+ str_take 20 (fingerprint (VDict identity))));
       ("bus_name", VStr name);
       ("bus_status", VStr "created");
       ("state_path", VStr (resolve state_path));
       ("events", VDict []);
       ("event_order", VList []);
       ("next_sequence", VInt 1);
       ("subscriptions", VDict []);
       ("published_count", VInt 0);
       ("duplicate_publish_count", VInt 0);
       ("replayed_count", VInt 0);
       ("created_at", at_);
       ("updated_at", at_);
       ("last_event_at", VNone);
       ("failure", VNone)]).

Definition save_event_bus_state (state : list (string * val)) : M file (list (string * val)) :=
  save_sealed sha256_hex "bus_fingerprint" validate_event_bus_state
    "unsafe_event_bus_state_path" "unsafe_event_bus_state_directory" state.

Definition load_event_bus_state : M file val :=
  load_validated validate_event_bus_state "unsafe_event_bus_state_path" "invalid_event_bus_json".

Definition subscribe (state : list (string * val)) (topic subscriber : val) (now : instant) :
    res (list (string * val)) :=
  let topic_text := text topic in
  let subscriber_text := text subscriber in
  if (topic_text =? "")%string then Raise (ValueError "subscription_topic_required")
  else if (subscriber_text =? "")%string then Raise (ValueError "subscriber_required")
  else
    let identity :=
      [("bus_id", vget "bus_id" state); ("topic", VStr topic_text);
       ("subscriber", VStr subscriber_text)] in
    let subscription_id := "event-subscription-" +:+ str_take 20 (fingerprint (VDict identity)) in
    let subscriptions := mapping (vget "subscriptions" state) in
    if dmem subscription_id subscriptions then Ok state
    else
      let subscriptions :=
        dset subscription_id
          (VDict [("subscription_id", VStr subscription_id); ("topic", VStr topic_text);
                  ("subscriber", VStr subscriber_text); ("created_at", VStr (time_text now));
                  ("active", VBool true)]) subscriptions in
      Ok (seal_event_bus_state
        (dset "updated_at" (VStr (time_text now))
          (dset "subscriptions" (VDict subscriptions) state))).

Definition unsubscribe (state : list (string * val)) (subscription_id : string) (now : instant) :
    list (string * val) :=
  let subscriptions := mapping (vget "subscriptions" state) in
  if negb (dmem subscription_id subscriptions) then state
  else seal_event_bus_state
         (dset "updated_at" (VStr (time_text now))
           (dset "subscriptions" (VDict (dpop subscription_id subscriptions)) state)).

(** ** Publication *)

(** The normalised arguments of [publish], and the event made of them. *)
Record draft : Type := Draft {
  d_type : string; d_topic : string; d_source : string;
  d_payload : list (string * val);
  d_key : string; d_correlation : string; d_causation : string;
  d_at : string
}.

Definition event_identity (bus_id : val) (sequence : Z) (d : draft) : list (string * val) :=
  [("bus_id", bus_id); ("sequence", VInt sequence);
   ("event_type", VStr (d_type d)); ("topic", VStr (d_topic d)); ("source", VStr (d_source d));
   ("idempotency_key", or_none (d_key d)); ("created_at", VStr (d_at d));
   ("payload", VDict (d_payload d))].

Definition event_id_of (bus_id : val) (sequence : Z) (d : draft) : string :=
  "runtime-event-" +:+ str_take 24 (fingerprint (VDict (event_identity bus_id sequence d))).

Definition new_event (bus_id : val) (sequence : Z) (d : draft) : list (string * val) :=
  seal_event
    [("contract", VStr EVENT_CONTRACT);
     ("event_id", VStr (event_id_of bus_id sequence d));
     ("sequence", VInt sequence);
     ("event_type", VStr (d_type d)); ("topic", VStr (d_topic d)); ("source", VStr (d_source d));
     ("payload", VDict (d_payload d));
     ("idempotency_key", or_none (d_key d));
     ("correlation_id", or_none (d_correlation d));
     ("causation_id", or_none (d_causation d));
     ("created_at", VStr (d_at d))].

(** The search for an event with the same key, in the order of publication. *)
Fixpoint find_key (key : string) (events : list (string * val)) (order : list val) :
    res (option (list (string * val))) :=
  match order with
  | [] => Ok None
  | event_id :: order' =>
      if negb (hashable event_id) then Raise (TypeError "unhashable type")
      else
        let existing := mapping (get_val event_id events) in
        if py_eq (vget "idempotency_key" existing) (VStr key) then Ok (Some existing)
        else find_key key events order'
  end.

(** The checks on the arguments, and the arguments as they are used. *)
Definition read_draft (event_type topic source payload idempotency_key correlation_id causation_id : val)
    (now : instant) : res draft :=
  if negb (bool_decide (text event_type ∈ VALID_EVENT_TYPES)) then Raise (ValueError "invalid_event_type")
  else if (text topic =? "")%string then Raise (ValueError "event_topic_required")
  else if (text source =? "")%string then Raise (ValueError "event_source_required")
  else match payload with
       | VDict p =>
           Ok (Draft (text event_type) (text topic) (text source) p (text idempotency_key)
                 (text correlation_id) (text causation_id) (time_text now))
       | _ => Raise (ValueError "event_payload_required")
       end.

Definition count_duplicate (state : list (string * val)) (at_ : string) : res (list (string * val)) :=
  n ← int_field "duplicate_publish_count" 0 state;
  Ok (seal_event_bus_state
        (dset "updated_at" (VStr at_) (dset "duplicate_publish_count" (VInt (n + 1)) state))).

Definition append_event (state events : list (string * val)) (order : list val) (d : draft) :
    res (list (string * val) * list (string * val)) :=
  sequence ← int_field "next_sequence" 1 state;
  let bus_id := vget "bus_id" state in
  let event_id := event_id_of bus_id sequence d in
  let event := new_event bus_id sequence d in
  let value := dset "events" (VDict (dset event_id (VDict event) events)) state in
  let value := dset "event_order" (VList (order ++ [VStr event_id])) value in
  let value := dset "next_sequence" (VInt (sequence + 1)) value in
  n ← int_field "published_count" 0 value;
  let value := dset "published_count" (VInt (n + 1)) value in
  let value := dset "last_event_at" (VStr (d_at d)) value in
  let value := dset "updated_at" (VStr (d_at d)) value in
  let value := dset "bus_status" (VStr "running") value in
  Ok (seal_event_bus_state value, event).

Definition publish (state : list (string * val))
    (event_type topic source payload idempotency_key correlation_id causation_id : val)
    (now : instant) : res (list (string * val) * list (string * val)) :=
  d ← read_draft event_type topic source payload idempotency_key correlation_id causation_id now;
  let events := mapping (vget "events" state) in
  order ← py_iter (py_or (vget "event_order" state) (VList []));
  found ← (if (d_key d =? "")%string then Ok None else find_key (d_key d) events order);
  match found with
  | Some existing => state' ← count_duplicate state (d_at d); Ok (state', existing)
  | None => append_event state events order d
  end.

(** ** Replay and delivery *)

Fixpoint replay_loop (events : list (string * val)) (topic event_type : string) (after : Z)
    (limit : option Z) (n : Z) (order : list val) : res (list (list (string * val))) :=
  match order with
  | [] => Ok []
  | event_id :: order' =>
      if negb (hashable event_id) then Raise (TypeError "unhashable type")
      else
        let event := mapping (get_val event_id events) in
        sequence ← int_field "sequence" 0 event;
        if (sequence <=? after)%Z
           || (negb (topic =? "")%string && negb (py_eq (vget "topic" event) (VStr topic)))
           || (negb (event_type =? "")%string && negb (py_eq (vget "event_type" event) (VStr event_type)))
        then replay_loop events topic event_type after limit n order'
        else if match limit with Some m => m <=? n + 1 | None => false end%Z then Ok [event]
        else rest ← replay_loop events topic event_type after limit (n + 1) order';
             Ok (event :: rest)
  end.

Definition replay (state : list (string * val)) (topic event_type after_sequence limit : val) :
    res (list (list (string * val))) :=
  after ← match after_sequence with
          | VInt n => if n <? 0 then Raise (ValueError "invalid_after_sequence") else Ok n
          | _ => Raise (ValueError "invalid_after_sequence")
          end%Z;
  lim ← match limit with
        | VNone => Ok None
        | VInt n => if n <? 1 then Raise (ValueError "invalid_replay_limit") else Ok (Some n)
        | _ => Raise (ValueError "invalid_replay_limit")
        end%Z;
  order ← py_iter (vget_or "event_order" (VList []) state);
  replay_loop (mapping (vget "events" state)) (text topic) (text event_type) after lim 0 order.

Section deliver.
Context {W : Type} (handlers : string -> option (val -> M W val)).

(** A handler that raises is caught, with the effects it had. *)
Definition attempt {A} (m : M W A) : M W (res A) :=
  fun w => let '(r, w') := m w in (Ok r, w').

Definition deliver_one (event : list (string * val)) (subscription : val) :
    M W (list (list (string * val))) :=
  let item := mapping subscription in
  if negb (is_true (vget "active" item)) then mret []
  else if negb (py_eq (vget "topic" item) (VStr (str_or_empty (vget "topic" event)))) then mret []
  else
    let subscriber := str_or_empty (vget "subscriber" item) in
    let record :=
      [("event_id", vget "event_id" event); ("subscription_id", vget "subscription_id" item);
       ("subscriber", VStr subscriber)] in
    match handlers subscriber with
    | None =>
        mret [record ++ [("delivered", VBool false); ("reason", VStr "handler_not_available")]]
    | Some handler =>
        r ← attempt (handler (VDict event));
        mret match r with
             | Ok result => [record ++ [("delivered", VBool true); ("result", result)]]
             | Raise e => [record ++ [("delivered", VBool false); ("reason", VStr (exn_text e))]]
             end
    end.

Definition deliver_event (subscriptions : list (string * val)) (event : list (string * val)) :
    M W (list (list (string * val))) :=
  deliveries ← mfor (deliver_one event) subscriptions.*2;
  mret (concat deliveries).

Definition deliver (state : list (string * val)) (after_sequence limit : val) (now : instant) :
    M W (list (string * val)) :=
  events ← mlift (replay state VNone VNone after_sequence limit);
  let subscriptions := mapping (vget "subscriptions" state) in
  deliveries ← mfor (deliver_event subscriptions) events;
  let deliveries := concat deliveries in
  n ← mlift (int_field "replayed_count" 0 state);
  let value := dset "replayed_count" (VInt (n + Z.of_nat (length events))) state in
  let value := seal_event_bus_state (dset "updated_at" (VStr (time_text now)) value) in
  let delivered := filter (fun item => is_true (vget "delivered" item) = true) deliveries in
  mret [("contract", VStr CONTRACT);
        ("bus_id", vget "bus_id" value);
        ("event_count", VInt (Z.of_nat (length events)));
        ("delivery_count", VInt (Z.of_nat (length deliveries)));
        ("successful_deliveries", VInt (Z.of_nat (length delivered)));
        ("failed_deliveries", VInt (Z.of_nat (length deliveries) - Z.of_nat (length delivered)));
        ("deliveries", VList (map VDict deliveries));
        ("state", VDict value)].
End deliver.

(** ** The log the bus stands for *)

(** The published drafts with their sequence numbers. *)
Definition numbered (log : list draft) : list (Z * draft) :=
  imap (fun i d => (Z.of_nat i + 1, d)%Z) log.

Definition log_ids (bid : string) (log : list draft) : list string :=
  map (fun nd => event_id_of (VStr bid) nd.1 nd.2) (numbered log).

Definition same_event (bid : string) (nd : Z * draft) (ev : list (string * val)) : Prop :=
  veq (VDict ev) (VDict (new_event (VStr bid) nd.1 nd.2)).

(** The dict [evs] has, under the id of the [n]th draft, the event made of it. *)
Definition stored (bid : string) (evs : list (string * val)) (id : string) (nd : Z * draft) : Prop :=
  id = event_id_of (VStr bid) nd.1 nd.2
  /\ exists ev, dget id evs = Some (VDict ev) /\ same_event bid nd ev.

Record draft_ok (d : draft) : Prop := {
  do_type : d_type d ∈ VALID_EVENT_TYPES;
  do_topic : d_topic d <> "" /\ strip (d_topic d) = d_topic d;
  do_source : d_source d <> "" /\ strip (d_source d) = d_source d;
  do_payload : val_ok (VDict (d_payload d)) = true;
  do_at : text (VStr (d_at d)) <> ""
}.

Definition sub_ok (kv : string * val) : Prop :=
  exists item t u, kv.2 = VDict item /\ vget "subscription_id" item = VStr kv.1
    /\ vget "topic" item = VStr t /\ strip t <> "" /\ vget "subscriber" item = VStr u
    /\ strip u <> "" /\ vget "active" item = VBool true.

(** The bus [bid] in state [st] has published [log]. *)
Record bus_repr (bid : string) (log : list draft) (st : list (string * val)) : Prop := {
  br_ok : val_ok (VDict st) = true;
  br_sealed : sealed sha256_hex "bus_fingerprint" st = true;
  br_contract : vget "contract" st = VStr CONTRACT;
  br_id : vget "bus_id" st = VStr bid /\ strip bid <> "";
  br_name : exists n, vget "bus_name" st = VStr n /\ strip n <> "";
  br_status : exists s, vget "bus_status" st = VStr s /\ s ∈ VALID_BUS_STATUSES;
  br_log : Forall draft_ok log;
  br_order : vget "event_order" st = VList (map VStr (log_ids bid log));
  br_nodup : NoDup (log_ids bid log);
  br_events : exists evs, vget "events" st = VDict evs
    /\ (forall k, k ∈ dkeys evs <-> k ∈ log_ids bid log)
    /\ Forall2 (stored bid evs) (log_ids bid log) (numbered log);
  br_next : vget "next_sequence" st = VInt (Z.of_nat (length log) + 1);
  br_subs : exists subs, vget "subscriptions" st = VDict subs /\ Forall sub_ok subs;
  br_published : vget "published_count" st = VInt (Z.of_nat (length log));
  br_counts : Forall (fun k => exists n, vget k st = VInt n /\ (0 <= n)%Z)
    ["duplicate_publish_count"; "replayed_count"]
}.

Lemma numbered_app log d : numbered (log ++ [d]) = numbered log ++ [(Z.of_nat (length log) + 1, d)%Z].
Proof. unfold numbered. rewrite imap_app. simpl. by rewrite Nat.add_0_r. Qed.

Lemma log_ids_app bid log d :
  log_ids bid (log ++ [d])
  = log_ids bid log ++ [event_id_of (VStr bid) (Z.of_nat (length log) + 1) d].
Proof. unfold log_ids. by rewrite numbered_app, map_app. Qed.

Lemma length_numbered log : length (numbered log) = length log.
Proof. apply length_imap. Qed.

Lemma length_log_ids bid log : length (log_ids bid log) = length log.
Proof. unfold log_ids. by rewrite length_map, length_numbered. Qed.

Lemma elem_of_numbered n d log :
  (n, d) ∈ numbered log -> (1 <= n <= Z.of_nat (length log))%Z /\ d ∈ log.
Proof.
  intros (i & Hi)%list_elem_of_lookup. unfold numbered in Hi. rewrite list_lookup_imap in Hi.
  destruct (log !! i) as [d'|] eqn:E; [|done]. injection Hi as <- ->.
  apply lookup_lt_Some in E as Hl. apply list_elem_of_lookup_2 in E. split; [lia|done].
Qed.

(** ** The events of a log are valid *)

Lemma event_id_text bid n d : strip (event_id_of bid n d) <> "".
Proof. by apply strip_prefix. Qed.

Lemma val_ok_or_none s : val_ok (or_none s) = true.
Proof. unfold or_none. by destruct (s =? "")%string. Qed.

Lemma val_ok_new_event bid n d :
  val_ok (VDict (d_payload d)) = true -> val_ok (VDict (new_event bid n d)) = true.
Proof.
  intros H. apply val_ok_seal. apply val_ok_dict. split.
  - unfold dict_ok. apply (bool_decide_unpack _). vm_compute. done.
  - repeat constructor; cbn [snd]; auto using val_ok_or_none.
Qed.

(** A literal lookup in an event. *)
Lemma new_event_get k bid n d :
  k <> "event_fingerprint" ->
  vget k (new_event bid n d)
  = vget k [("contract", VStr EVENT_CONTRACT);
     ("event_id", VStr (event_id_of bid n d)); ("sequence", VInt n);
     ("event_type", VStr (d_type d)); ("topic", VStr (d_topic d)); ("source", VStr (d_source d));
     ("payload", VDict (d_payload d)); ("idempotency_key", or_none (d_key d));
     ("correlation_id", or_none (d_correlation d));
     ("causation_id", or_none (d_causation d)); ("created_at", VStr (d_at d))].
Proof. intros H. unfold new_event, seal_event. by rewrite vget_seal_ne. Qed.

Lemma same_event_get k bid nd ev v :
  same_event bid nd ev -> k <> "event_fingerprint" ->
  vget k (new_event (VStr bid) nd.1 nd.2) = v -> scalar v = true -> vget k ev = v.
Proof. intros E Hk Hv Hs. by eapply veq_scalar. Qed.

Lemma same_event_valid bid n d ev :
  same_event bid (n, d) ev -> draft_ok d -> (1 <= n)%Z -> validate_event (VDict ev) = Ok [].
Proof.
  intros E [Ht [Ho Ho'] [Hs Hs'] Hp Ha] Hn. unfold validate_event. cbn [mapping].
  assert (G : forall k v, k <> "event_fingerprint" ->
    vget k (new_event (VStr bid) n d) = v -> scalar v = true -> vget k ev = v)
    by (intros; by eapply same_event_get).
  rewrite (G "event_type" (VStr (d_type d))) by done. rewrite val_in_true by done.
  cbn [mbind res_bind map concat].
  rewrite (G "contract" (VStr EVENT_CONTRACT)), (G "event_id" (VStr (event_id_of (VStr bid) n d))),
    (G "event_type" (VStr (d_type d))), (G "topic" (VStr (d_topic d))),
    (G "source" (VStr (d_source d))), (G "created_at" (VStr (d_at d))),
    (G "sequence" (VInt n)) by done.
  rewrite (sealed_veq _ _ _ _ E) by apply sealed_seal.
  destruct (veq_mapping "payload" _ _ (d_payload d) E eq_refl) as (p & -> & _).
  rewrite (proj2 (String.eqb_neq (text (VStr (d_at d))) "") Ha), !nonempty_text;
    [|by rewrite ?Hs', ?Ho'|by rewrite ?Hs', ?Ho'| |apply event_id_text].
  - replace (n <? 1)%Z with false by (symmetry; apply Z.ltb_ge; lia). done.
  - assert (Hall : Forall (fun t => strip t <> "") VALID_EVENT_TYPES) by (by repeat constructor).
    rewrite Forall_forall in Hall. by apply Hall.
Qed.

(** ** A state that stands for a log is valid *)

(** What is stored under the ids of a log. *)
Lemma stored_lookup bid evs log id :
  Forall2 (stored bid evs) (log_ids bid log) (numbered log) -> id ∈ log_ids bid log ->
  exists n d ev, (n, d) ∈ numbered log /\ id = event_id_of (VStr bid) n d
    /\ dget id evs = Some (VDict ev) /\ same_event bid (n, d) ev.
Proof.
  intros HF (i & Hi)%list_elem_of_lookup.
  destruct (Forall2_lookup_l _ _ _ _ _ HF Hi) as ([n d] & Hnd & -> & ev & Hev & E).
  exists n, d, ev. split_and!; [by apply list_elem_of_lookup_2 in Hnd|done..].
Qed.

Lemma get_stored id evs ev : dget id evs = Some (VDict ev) -> mapping (get_val (VStr id) evs) = ev.
Proof. intros H. unfold get_val, vget. by rewrite H. Qed.

Lemma order_reasons_stored bid evs log id :
  Forall2 (stored bid evs) (log_ids bid log) (numbered log) -> Forall draft_ok log ->
  id ∈ log_ids bid log -> order_reasons evs (VStr id) = Ok [].
Proof.
  intros HF Hok Hid. destruct (stored_lookup _ _ _ _ HF Hid) as (n & d & ev & Hnd & -> & Hev & E).
  apply elem_of_numbered in Hnd as [Hn Hd]. rewrite Forall_forall in Hok.
  unfold order_reasons. rewrite (get_stored _ _ _ Hev).
  rewrite (same_event_get "event_id" _ _ _ (VStr (event_id_of (VStr bid) n d)) E) by done.
  simpl. rewrite String.eqb_refl. simpl.
  rewrite (same_event_valid _ _ _ _ E) by (by auto || lia). done.
Qed.

Lemma subscription_reasons_ok kv : sub_ok kv -> subscription_reasons kv = [].
Proof.
  intros (item & t & u & Hi & Hid & Ht & Ht' & Hu & Hu' & _). unfold subscription_reasons.
  rewrite Hi. cbn [mapping]. rewrite Hid, Ht, Hu, !nonempty_text by done. simpl.
  by rewrite String.eqb_refl.
Qed.

Lemma bus_repr_valid bid log st : bus_repr bid log st -> validate_event_bus_state (VDict st) = Ok [].
Proof.
  intros [? Hs Hc [Hid Hid'] (n & Hn & Hn') (s & Hst & Hst') Hok Ho _ (evs & He & Hk & HF) Hnx
    (subs & Hsub & Hsub') _ _].
  unfold validate_event_bus_state. cbn [mapping].
  rewrite Hst, val_in_true by done. rewrite He, Ho, Hsub. cbn [mbind res_bind mapping].
  rewrite same_keys_true by done. cbn [mbind res_bind].
  rewrite (rmap_ok _ _ []).
  2:{ intros v Hv%list_elem_of_In. apply in_map_iff in Hv as (id & <- & Hin).
      apply (order_reasons_stored bid _ log); [done..|by apply list_elem_of_In]. }
  cbn [mbind res_bind]. rewrite concat_nils, Hc, Hs, Hid, Hn, Hnx, !nonempty_text by done.
  rewrite length_map, length_log_ids. simpl py_eq. rewrite Z.eqb_refl. simpl. f_equal.
  clear Hsub. induction Hsub' as [|kv l Hkv Hl IH]; [done|]. simpl. by rewrite (subscription_reasons_ok _ Hkv).
Qed.

(** ** Steps on the state keep what they do not touch *)

(** [bus_repr] for a state that was updated and sealed. *)
Lemma order_iter bid log st :
  bus_repr bid log st ->
  py_iter (py_or (vget "event_order" st) (VList [])) = Ok (map VStr (log_ids bid log)).
Proof. intros H. rewrite (br_order _ _ _ H). unfold py_or. simpl. by destruct (map _ _). Qed.

(** An update that writes only the counters, the status and the times. *)
Lemma bus_repr_touch bid log st st' :
  bus_repr bid log st ->
  val_ok (VDict st') = true -> sealed sha256_hex "bus_fingerprint" st' = true ->
  Forall (fun k => vget k st' = vget k st)
    ["contract"; "bus_id"; "bus_name"; "bus_status"; "events"; "event_order";
     "next_sequence"; "published_count"] ->
  (exists subs, vget "subscriptions" st' = VDict subs /\ Forall sub_ok subs) ->
  Forall (fun k => exists n, vget k st' = VInt n /\ (0 <= n)%Z)
    ["duplicate_publish_count"; "replayed_count"] ->
  bus_repr bid log st'.
Proof.
  intros [] Hv Hs Hk Hsub Hc. rewrite !Forall_cons in Hk.
  destruct Hk as (E1 & E2 & E3 & E4 & E5 & E6 & E7 & E8 & _).
  split; rewrite ?E1, ?E2, ?E3, ?E4, ?E5, ?E6, ?E7, ?E8; done.
Qed.

(** ** Publishing appends to the log *)

(** What publication is meant to be: a draft whose key is already in the log
    is answered by the first event with that key, any other is appended. *)
Definition find_same (log : list draft) (d : draft) : option (nat * (Z * draft)) :=
  if (d_key d =? "")%string then None
  else list_find (fun nd => d_key nd.2 = d_key d) (numbered log).

Definition log_publish (log : list draft) (d : draft) : (Z * draft) * list draft :=
  match find_same log d with
  | Some (_, nd) => (nd, log)
  | None => ((Z.of_nat (length log) + 1, d)%Z, log ++ [d])
  end.

Lemma read_draft_ok ty to so pa ke co ca now d :
  read_draft ty to so pa ke co ca now = Ok d -> val_ok pa = true -> in_range now = true ->
  draft_ok d.
Proof.
  unfold read_draft. case_bool_decide; [|done].
  destruct (text to =? "")%string eqn:Et; [done|].
  destruct (text so =? "")%string eqn:Es; [done|].
  destruct pa as [| | | | |p]; try done. intros [= <-] Hp [Hn1 Hn2]%andb_true_iff.
  apply String.eqb_neq in Et, Es. apply Z.leb_le in Hn1. apply Z.ltb_lt in Hn2.
  split; simpl; try done; [split; [done|by apply text_empty_idemp]..|].
  pose proof (trunc_range now (conj Hn1 Hn2)) as [Hr _].
  destruct (isoformat_shape _ Hr) as (s & _ & Hs).
  rewrite text_strip. unfold time_text at 1. rewrite no_space_strip by done.
  by apply time_text_nonempty.
Qed.

Lemma find_key_spec bid evs key ids nlog :
  key <> "" -> Forall2 (stored bid evs) ids nlog ->
  match list_find (fun nd => d_key nd.2 = key) nlog with
  | Some (_, nd) => exists ev, find_key key evs (map VStr ids) = Ok (Some ev) /\ same_event bid nd ev
  | None => find_key key evs (map VStr ids) = Ok None
  end.
Proof.
  intros Hk. induction 1 as [|id [n d] ids nlog [-> (ev & Hev & E)] HF IH]; [done|].
  cbn [map find_key hashable negb list_find fst snd] in *. rewrite (get_stored _ _ _ Hev).
  rewrite (same_event_get "idempotency_key" _ _ _ (or_none (d_key d)) E)
    by (done || unfold or_none; by destruct (d_key d =? "")%string).
  assert (Hd : py_eq (or_none (d_key d)) (VStr key) = bool_decide (d_key d = key)).
  { unfold or_none. destruct (String.eqb_spec (d_key d) "") as [He|Hne]; simpl.
    - symmetry. apply bool_decide_eq_false. congruence.
    - apply eq_true_iff_eq. by rewrite String.eqb_eq, bool_decide_eq_true. }
  rewrite Hd. case_bool_decide as Hc; [rewrite decide_True by done; eauto|].
  rewrite decide_False by done.
  destruct (list_find (fun nd => d_key nd.2 = key) nlog) as [[i nd]|]; simpl; exact IH.
Qed.

Lemma stored_dset bid evs id v ids nlog :
  id ∉ ids -> Forall2 (stored bid evs) ids nlog -> Forall2 (stored bid (dset id v evs)) ids nlog.
Proof.
  intros Hid. induction 1 as [|i nd ids nlog [Hi (ev & Hev & E)] HF IH]; [constructor|].
  apply not_elem_of_cons in Hid as [Hne Hid]. constructor; [|by apply IH].
  split; [done|]. exists ev. split; [|done]. by rewrite dget_dset_ne.
Qed.

Lemma count_of bid log st k :
  bus_repr bid log st -> k ∈ ["duplicate_publish_count"; "replayed_count"] ->
  exists n, vget k st = VInt n /\ (0 <= n)%Z.
Proof. intros H. pose proof (br_counts _ _ _ H) as Hc. rewrite Forall_forall in Hc. apply Hc. Qed.

Lemma count_duplicate_ok bid log st at_ :
  bus_repr bid log st ->
  exists st', count_duplicate st at_ = Ok st' /\ bus_repr bid log st'.
Proof.
  intros H. destruct (count_of _ _ _ "duplicate_publish_count" H) as (n & Hn & Hn0); [by repeat constructor|].
  destruct (count_of _ _ _ "replayed_count" H) as (m & Hm & Hm0); [by repeat constructor|].
  unfold count_duplicate. rewrite (int_field_0 _ n) by done. cbn [mbind res_bind].
  eexists. split; [done|]. pose proof (br_ok _ _ _ H). unfold seal_event_bus_state.
  apply (bus_repr_touch bid log st); [done|bus_ok|apply sealed_seal|..].
  - repeat constructor; by bus_get.
  - bus_get. apply (br_subs _ _ _ H).
  - repeat constructor; bus_get; [exists (n + 1)%Z|exists m]; split; lia || done.
Qed.

Lemma same_event_refl bid n d : draft_ok d -> same_event bid (n, d) (new_event (VStr bid) n d).
Proof. intros H. apply veq_refl, val_ok_new_event, (do_payload _ H). Qed.

(** The stored events after an append. *)
Lemma stored_append bid log d evs :
  draft_ok d -> NoDup (log_ids bid (log ++ [d])) ->
  (forall k, k ∈ dkeys evs <-> k ∈ log_ids bid log) ->
  Forall2 (stored bid evs) (log_ids bid log) (numbered log) ->
  let n := (Z.of_nat (length log) + 1)%Z in
  let evs' := dset (event_id_of (VStr bid) n d) (VDict (new_event (VStr bid) n d)) evs in
  (forall k, k ∈ dkeys evs' <-> k ∈ log_ids bid (log ++ [d]))
  /\ Forall2 (stored bid evs') (log_ids bid (log ++ [d])) (numbered (log ++ [d])).
Proof.
  intros Hd Hnd Hk HF n evs'. rewrite log_ids_app in Hnd |- *. rewrite numbered_app.
  fold n in Hnd |- *.
  apply NoDup_app in Hnd as (_ & Hfresh & _). split.
  - intros k. unfold evs'. rewrite elem_of_dkeys_dset, Hk, elem_of_app, list_elem_of_singleton. tauto.
  - apply Forall2_app.
    + apply stored_dset; [|done]. intros Hin. by apply (Hfresh _ Hin), list_elem_of_singleton.
    + constructor; [|constructor]. split; [done|]. eexists. split; [apply dget_dset_eq|].
      by apply same_event_refl.
Qed.

Lemma append_event_ok bid log st d :
  bus_repr bid log st -> draft_ok d -> NoDup (log_ids bid (log ++ [d])) ->
  let n := (Z.of_nat (length log) + 1)%Z in
  exists st', append_event st (mapping (vget "events" st)) (map VStr (log_ids bid log)) d
              = Ok (st', new_event (VStr bid) n d)
    /\ bus_repr bid (log ++ [d]) st'.
Proof.
  intros H Hd Hnd n. destruct (br_events _ _ _ H) as (evs & He & Hk & HF).
  destruct (stored_append _ _ _ _ Hd Hnd Hk HF) as [Hk' HF'].
  unfold append_event. rewrite (int_field_int _ _ _ _ (br_next _ _ _ H)), He.
  replace (Z.of_nat (length log) + 1 =? 0)%Z with false by (symmetry; apply Z.eqb_neq; lia).
  cbn [mbind res_bind mapping]. rewrite (proj1 (br_id _ _ _ H)). fold n.
  rewrite (int_field_0 _ (Z.of_nat (length log)))
    by (rewrite !vget_dset_ne by congruence; apply (br_published _ _ _ H)).
  cbn [mbind res_bind]. eexists. split; [done|].
  assert (Hev : val_ok (VDict (dset (event_id_of (VStr bid) n d)
                  (VDict (new_event (VStr bid) n d)) evs)) = true).
  { apply val_ok_dset; [|apply val_ok_new_event, (do_payload _ Hd)].
    rewrite <- He. apply val_ok_get, (br_ok _ _ _ H). }
  assert (Ho : map VStr (log_ids bid log) ++ [VStr (event_id_of (VStr bid) n d)]
               = map VStr (log_ids bid (log ++ [d]))) by by rewrite log_ids_app, map_app.
  rewrite Ho. pose proof (br_ok _ _ _ H). unfold seal_event_bus_state. split.
  - bus_ok.
  - apply sealed_seal.
  - bus_get. apply (br_contract _ _ _ H).
  - bus_get. apply (br_id _ _ _ H).
  - bus_get. apply (br_name _ _ _ H).
  - bus_get. exists "running". split; [done|]. by repeat constructor.
  - apply Forall_app. split; [apply (br_log _ _ _ H)|by constructor].
  - by bus_get.
  - done.
  - bus_get. eauto.
  - bus_get. rewrite length_app. simpl. f_equal. lia.
  - bus_get. apply (br_subs _ _ _ H).
  - bus_get. rewrite length_app. simpl. f_equal. lia.
  - repeat constructor; bus_get; (eapply count_of; [exact H|by repeat constructor]).
Qed.

(** A draft that is accepted. *)
Lemma publish_ok bid log st ty to so pa ke co ca now d :
  bus_repr bid log st ->
  read_draft ty to so pa ke co ca now = Ok d -> draft_ok d ->
  NoDup (log_ids bid (log_publish log d).2) ->
  exists st' ev, publish st ty to so pa ke co ca now = Ok (st', ev)
    /\ same_event bid (log_publish log d).1 ev
    /\ bus_repr bid (log_publish log d).2 st'.
Proof.
  intros H Hr Hd Hnd. unfold publish. rewrite Hr, (order_iter _ _ _ H). cbn [mbind res_bind].
  unfold log_publish, find_same in *. destruct (d_key d =? "")%string eqn:Ek.
  - cbn [mbind res_bind]. destruct (append_event_ok _ _ _ _ H Hd Hnd) as (st' & E & H').
    rewrite E. exists st'. eexists. split_and!; [done| |done]. by apply same_event_refl.
  - apply String.eqb_neq in Ek. destruct (br_events _ _ _ H) as (evs & He & Hk & HF).
    pose proof (find_key_spec bid evs (d_key d) _ _ Ek HF) as Hf. rewrite He. cbn [mapping].
    destruct (list_find _ (numbered log)) as [[i nd]|]; cbn [fst snd] in *.
    + destruct Hf as (ev & -> & Hsame). cbn [mbind res_bind].
      destruct (count_duplicate_ok _ _ _ (d_at d) H) as (st' & -> & H'). cbn [mbind res_bind]. eauto.
    + rewrite Hf. cbn [mbind res_bind]. destruct (append_event_ok _ _ _ _ H Hd Hnd) as (st' & E & H').
      rewrite He in E. cbn [mapping] in E. rewrite E. exists st'. eexists.
      split_and!; [done| |done]. by apply same_event_refl.
Qed.

(** ** Subscriptions *)

Lemma bus_repr_subs bid log st subs at_ :
  bus_repr bid log st -> val_ok (VDict subs) = true -> Forall sub_ok subs ->
  bus_repr bid log
    (seal_event_bus_state (dset "updated_at" (VStr at_) (dset "subscriptions" (VDict subs) st))).
Proof.
  intros H Hv Hs. pose proof (br_ok _ _ _ H). unfold seal_event_bus_state.
  apply (bus_repr_touch bid log st); [done|bus_ok|apply sealed_seal|..].
  - repeat constructor; by bus_get.
  - bus_get. eauto.
  - repeat constructor; bus_get; (eapply count_of; [exact H|by repeat constructor]).
Qed.

Lemma subscribe_ok bid log st topic subscriber now st' :
  bus_repr bid log st -> subscribe st topic subscriber now = Ok st' -> bus_repr bid log st'.
Proof.
  intros H. unfold subscribe. destruct (text topic =? "")%string eqn:Et; [done|].
  destruct (text subscriber =? "")%string eqn:Es; [done|].
  apply String.eqb_neq in Et, Es. destruct (br_subs _ _ _ H) as (subs & Hsub & Hok).
  rewrite Hsub. cbn [mapping]. destruct (dmem _ subs); intros [= <-]; [done|].
  apply bus_repr_subs; [done| |].
  - apply val_ok_dset; [|done]. rewrite <- Hsub. apply val_ok_get, (br_ok _ _ _ H).
  - apply Forall_dset; [|done]. do 3 eexists.
    split_and!; [done..|by rewrite text_empty_idemp|done|by rewrite text_empty_idemp|done].
Qed.

Lemma unsubscribe_ok bid log st id now :
  bus_repr bid log st -> bus_repr bid log (unsubscribe st id now).
Proof.
  intros H. unfold unsubscribe. destruct (br_subs _ _ _ H) as (subs & Hsub & Hok).
  rewrite Hsub. cbn [mapping]. destruct (dmem _ subs); [|done]. cbn [negb].
  apply bus_repr_subs; [done| |by apply Forall_dpop].
  apply val_ok_dpop. rewrite <- Hsub. apply val_ok_get, (br_ok _ _ _ H).
Qed.

(** ** Saving and loading *)

Lemma bus_repr_veq bid log st st' :
  bus_repr bid log st -> veq (VDict st') (VDict st) -> bus_repr bid log st'.
Proof.
  intros H E. destruct H as [Hv Hs Hc [Hid Hid'] (nm & Hn & Hn') (s & Hst & Hst') Hl Ho Hnd
    (evs & He & Hk & HF) Hnx (subs & Hsub & Hso) Hp Hcnt].
  assert (G : forall k v, vget k st = v -> scalar v = true -> vget k st' = v)
    by (intros; by eapply veq_scalar).
  destruct (veq_mapping _ _ _ _ E He) as (evs' & He' & Ee).
  destruct (veq_mapping _ _ _ _ E Hsub) as (subs' & Hsub' & Es). split.
  - by apply (veq_val_ok_l _ _ E).
  - by apply (sealed_veq _ _ _ _ E).
  - by apply G.
  - split; [by apply G|done].
  - exists nm. split; [by apply G|done].
  - exists s. split; [by apply G|done].
  - done.
  - by apply (veq_strs _ _ _ _ E).
  - done.
  - exists evs'. split_and!; [done|intros k; by rewrite (veq_keys _ _ _ Ee)|].
    eapply Forall2_impl; [exact HF|]. intros id nd (-> & ev & Hev & Eev). split; [done|].
    assert (Hg : vget (event_id_of (VStr bid) nd.1 nd.2) evs = VDict ev) by (unfold vget; by rewrite Hev).
    destruct (veq_mapping _ _ _ _ Ee Hg) as (ev' & Hg' & Eev'). exists ev'. split.
    + unfold vget in Hg'. by destruct (dget _ evs') as [v|]; [subst|].
    + unfold same_event. by rewrite Eev'.
  - by apply G.
  - exists subs'. split; [done|]. apply Forall_forall. intros [k v] Hin.
    assert (Hkeys : k ∈ dkeys subs) by (apply (veq_keys _ _ _ Es), list_elem_of_fmap; by exists (k, v)).
    apply dget_is_Some_keys in Hkeys as [v0 Hv0]. pose proof (dget_Some_elem _ _ _ Hv0) as Hin0.
    rewrite Forall_forall in Hso. destruct (Hso _ Hin0) as (item & t & u & Hi & Hrest). simpl in Hi, Hrest.
    assert (Hg : vget k subs = VDict item) by (unfold vget; rewrite Hv0; exact Hi).
    destruct (veq_mapping _ _ _ _ Es Hg) as (item' & Hg' & Ei). exists item', t, u. simpl.
    assert (Hd : dict_ok subs') by (apply val_ok_dict, (veq_val_ok_l _ _ Es)).
    unfold vget in Hg'. rewrite (elem_dget _ _ _ Hd Hin) in Hg'.
    destruct Hrest as (? & ? & ? & ? & ? & ?).
    split_and!; try done; by eapply veq_scalar.
  - by apply G.
  - eapply Forall_impl; [exact Hcnt|]. intros k (n & Hk' & Hn0). exists n. split; [by apply G|done].
Qed.

Lemma bus_repr_reseal bid log st : bus_repr bid log st -> bus_repr bid log (seal_event_bus_state st).
Proof.
  intros H. pose proof (br_ok _ _ _ H). unfold seal_event_bus_state.
  apply (bus_repr_touch bid log st); [done|bus_ok|apply sealed_seal|..].
  - repeat constructor; by bus_get.
  - bus_get. apply (br_subs _ _ _ H).
  - repeat constructor; bus_get; (eapply count_of; [exact H|by repeat constructor]).
Qed.

(** What is loaded after a save stands for the same log. *)
Lemma save_load_ok bid log st f v f' :
  bus_repr bid log st -> save_event_bus_state st f = (Ok v, f') ->
  v = seal_event_bus_state st
  /\ load_event_bus_state f' = (Ok (VDict (sort_dict v)), f')
  /\ bus_repr bid log (sort_dict v).
Proof.
  intros H Hs. unfold save_event_bus_state in Hs.
  apply (load_after_save _ _ _ _ _ "unsafe_event_bus_state_path" "invalid_event_bus_json") in Hs
    as (-> & _ & _ & Hload).
  apply bus_repr_reseal in H. unfold seal_event_bus_state in *.
  assert (H' : bus_repr bid log (sort_dict (seal sha256_hex "bus_fingerprint" st))).
  { apply (bus_repr_veq _ _ _ _ H). apply (veq_vsort (VDict _)), (br_ok _ _ _ H). }
  split_and!; [done| |done]. apply Hload. by apply (bus_repr_valid bid log).
Qed.

(** ** Replay is a selection from the log *)

(** The tests of the loop, on the log. *)
Definition selected (topic event_type : string) (after : Z) (nd : Z * draft) : bool :=
  (after <? nd.1)%Z
  && ((topic =? "")%string || (d_topic nd.2 =? topic)%string)
  && ((event_type =? "")%string || (d_type nd.2 =? event_type)%string).

Definition at_most {A} (limit : option Z) (l : list A) : list A :=
  match limit with Some m => take (Z.to_nat m) l | None => l end.

Definition log_replay (topic event_type : string) (after : Z) (limit : option Z) (log : list draft) :
    list (Z * draft) :=
  at_most limit (filter (fun nd => selected topic event_type after nd = true) (numbered log)).

Lemma replay_loop_spec bid evs topic event_type after limit ids nlog :
  Forall2 (stored bid evs) ids nlog -> (forall nd, nd ∈ nlog -> (1 <= nd.1)%Z) -> forall n,
  match limit with Some m => (n < m)%Z | None => True end ->
  exists l, replay_loop evs topic event_type after limit n (map VStr ids) = Ok l
    /\ Forall2 (same_event bid)
         (at_most (option_map (fun m => m - n)%Z limit)
            (filter (fun nd => selected topic event_type after nd = true) nlog)) l.
Proof.
  induction 1 as [|id [q d] ids nlog [-> (ev & Hev & E)] HF IH]; intros Hpos n Hn.
  { exists []. split; [done|]. rewrite filter_nil. destruct limit; simpl; rewrite ?take_nil; constructor. }
  cbn [map replay_loop hashable negb fst snd] in *. rewrite (get_stored _ _ _ Hev).
  rewrite (int_field_0 _ q) by (by eapply same_event_get). cbn [mbind res_bind].
  rewrite (same_event_get "topic" _ _ _ (VStr (d_topic d)) E) by done.
  rewrite (same_event_get "event_type" _ _ _ (VStr (d_type d)) E) by done. cbn [py_eq].
  assert (Hsel : ((q <=? after)%Z || negb (topic =? "")%string && negb (d_topic d =? topic)%string
                  || negb (event_type =? "")%string && negb (d_type d =? event_type)%string)
                 = negb (selected topic event_type after (q, d))).
  { unfold selected. simpl. rewrite !negb_andb, !negb_orb, Z.leb_antisym. done. }
  rewrite Hsel, filter_cons. clear Hsel.
  assert (Hpos' : forall nd, nd ∈ nlog -> (1 <= nd.1)%Z) by (intros nd Hin; apply Hpos; by apply elem_of_cons; right).
  destruct (selected topic event_type after (q, d)) eqn:Es; cbn [negb].
  2:{ rewrite decide_False by done. by apply IH. }
  rewrite decide_True by done. destruct limit as [m|]; simpl.
  - destruct (Z.leb_spec m (n + 1)).
    + exists [ev]. split; [done|]. replace (Z.to_nat (m - n)) with 1%nat by lia. simpl.
      rewrite take_0. constructor; [done|apply Forall2_nil_2].
    + destruct (IH Hpos' (n + 1)%Z) as (l & -> & Hl); [done|]. exists (ev :: l). split; [done|].
      replace (Z.to_nat (m - n)) with (S (Z.to_nat (m - (n + 1)))) by lia. by constructor.
  - destruct (IH Hpos' (n + 1)%Z) as (l & -> & Hl); [done|]. exists (ev :: l). split; [done|].
    by constructor.
Qed.

Lemma replay_ok bid log st topic event_type after limit :
  bus_repr bid log st -> (0 <= after)%Z -> match limit with Some m => (1 <= m)%Z | None => True end ->
  exists l, replay st topic event_type (VInt after)
              (match limit with Some m => VInt m | None => VNone end) = Ok l
    /\ Forall2 (same_event bid) (log_replay (text topic) (text event_type) after limit log) l.
Proof.
  intros H Ha Hm. destruct (br_events _ _ _ H) as (evs & He & _ & HF).
  assert (Hpos : forall nd, nd ∈ numbered log -> (1 <= nd.1)%Z)
    by (intros [n d] Hin; apply elem_of_numbered in Hin as [Hn _]; simpl; lia).
  destruct (replay_loop_spec _ _ (text topic) (text event_type) after limit _ _ HF Hpos 0%Z) as (l & El & Hl);
    [destruct limit; [lia|done]|].
  exists l. unfold replay. replace (after <? 0)%Z with false by (symmetry; apply Z.ltb_ge; lia).
  cbn [mbind res_bind].
  assert (Ho : py_iter (vget_or "event_order" (VList []) st) = Ok (map VStr (log_ids bid log))).
  { pose proof (br_order _ _ _ H) as Ho. unfold vget_or, vget in *.
    destruct (dget "event_order" st); [by subst|done]. }
  rewrite Ho, He. split.
  - destruct limit as [m|]; [|exact El].
    replace (m <? 1)%Z with false by (symmetry; apply Z.ltb_ge; lia). exact El.
  - unfold log_replay. destruct limit as [m|]; simpl in Hl |- *; [by rewrite Z.sub_0_r in Hl|done].
Qed.

(** ** Delivery calls every subscriber once per event, whatever handlers do *)

Definition on_topic (ev : list (string * val)) (kv : string * val) : bool :=
  py_eq (vget "topic" (mapping kv.2)) (VStr (str_or_empty (vget "topic" ev))).

(** The event and the subscription of a delivery. *)
Definition delivery_key (r : list (string * val)) : val * val :=
  (vget "event_id" r, vget "subscription_id" r).

Definition due (subs : list (string * val)) (ev : list (string * val)) : list (val * val) :=
  map (fun kv => (vget "event_id" ev, VStr kv.1)) (filter (fun kv => on_topic ev kv = true) subs).

Section delivery.
Context {W : Type} (handlers : string -> option (val -> M W val)).

Lemma deliver_one_ok ev kv w :
  sub_ok kv ->
  exists rs w', deliver_one handlers ev kv.2 w = (Ok rs, w') /\ map delivery_key rs = due [kv] ev.
Proof.
  intros (item & t & u & Hi & Hid & Ht & _ & Hu & _ & Ha). unfold deliver_one, due, on_topic.
  rewrite filter_cons, filter_nil, Hi. cbn [mapping]. rewrite Ha, Ht. cbn [negb is_true].
  destruct (py_eq (VStr t) _); [rewrite decide_True by done|rewrite decide_False by done; by exists [], w].
  cbn [negb map]. rewrite <- Hid. destruct (handlers _) as [h|].
  - unfold mbind, M_bind, attempt. destruct (h (VDict ev) w) as [[v|e] w'];
      eexists _, w'; (split; [reflexivity|]); reflexivity.
  - eexists _, w. split; [reflexivity|]. reflexivity.
Qed.

Lemma due_cons ev kv subs : due (kv :: subs) ev = due [kv] ev ++ due subs ev.
Proof. unfold due. rewrite !filter_cons, filter_nil. by case_decide. Qed.

Lemma deliver_event_ok subs ev w :
  Forall sub_ok subs ->
  exists rs w', deliver_event handlers subs ev w = (Ok rs, w') /\ map delivery_key rs = due subs ev.
Proof.
  intros Hs. unfold deliver_event.
  destruct (mfor_total (fun kv => deliver_one handlers ev kv.2)
              (fun kv rs => map delivery_key rs = due [kv] ev) subs) with (s := w)
    as (rss & w' & E & HF).
  { intros kv s Hin. rewrite Forall_forall in Hs. by apply deliver_one_ok, Hs. }
  assert (Em : forall (l : list (string * val)) s, mfor (deliver_one handlers ev) l.*2 s
                           = mfor (fun kv => deliver_one handlers ev kv.2) l s).
  { intros l. induction l as [|x l IH]; intros s; [done|]. simpl. unfold mbind, M_bind.
    destruct (deliver_one handlers ev x.2 s) as [[y|e] s']; [by rewrite IH|done]. }
  exists (concat rss), w'. split; [unfold mbind, M_bind; by rewrite Em, E|].
  clear E Em Hs. induction HF as [|kv rs subs rss Hk HF IH]; [done|].
  simpl. rewrite map_app, Hk, IH. by rewrite (due_cons ev kv subs).
Qed.

Lemma deliver_ok bid log st after limit now events w :
  bus_repr bid log st -> replay st VNone VNone after limit = Ok events ->
  exists r w' ds st', deliver handlers st after limit now w = (Ok r, w')
    /\ vget "deliveries" r = VList (map VDict ds)
    /\ map delivery_key ds = concat (map (due (mapping (vget "subscriptions" st))) events)
    /\ vget "event_count" r = VInt (Z.of_nat (length events))
    /\ vget "state" r = VDict st' /\ bus_repr bid log st'.
Proof.
  intros H Hr. destruct (br_subs _ _ _ H) as (subs & Hsub & Hok). unfold deliver.
  rewrite Hr, Hsub. unfold mbind, M_bind. cbn [mlift mapping].
  destruct (mfor_total (deliver_event handlers subs)
              (fun ev rs => map delivery_key rs = due subs ev) events) with (s := w)
    as (dss & w' & E & HF).
  { intros ev s _. by apply deliver_event_ok. }
  rewrite E. destruct (count_of _ _ _ "replayed_count" H) as (n & Hn & Hn0); [by repeat constructor|].
  destruct (count_of _ _ _ "duplicate_publish_count" H) as (m & Hm & Hm0); [by repeat constructor|].
  unfold mlift. rewrite (int_field_0 _ n) by done. pose proof (br_ok _ _ _ H).
  do 4 eexists. split; [reflexivity|]. split; [reflexivity|]. split.
  { clear E Hr. induction HF as [|ev rs evs dss Hk HF IH]; [done|]. simpl. by rewrite map_app, Hk, IH. }
  split; [reflexivity|]. split; [reflexivity|]. unfold seal_event_bus_state.
  apply (bus_repr_touch bid log st); [done|bus_ok|apply sealed_seal|..].
  - repeat constructor; by bus_get.
  - bus_get. rewrite Hsub. eauto.
  - repeat constructor; bus_get; [exists m|exists (n + Z.of_nat (length events))%Z]; split; lia || done.
Qed.

(** ** Runs of the bus *)

Inductive bus_op : Type :=
  | OpPublish (event_type topic source payload key correlation causation : val) (now : instant)
  | OpSubscribe (topic subscriber : val) (now : instant)
  | OpUnsubscribe (subscription_id : string) (now : instant)
  | OpDeliver (after limit : val) (now : instant)
  | OpReload (f : file).

Definition run_bus_op (op : bus_op) (st : list (string * val)) : M W (list (string * val)) :=
  match op with
  | OpPublish ty to so pa ke co ca now => mlift (fst <$> publish st ty to so pa ke co ca now)
  | OpSubscribe to su now => mlift (subscribe st to su now)
  | OpUnsubscribe id now => mret (unsubscribe st id now)
  | OpDeliver after limit now => r ← deliver handlers st after limit now; mret (mapping (vget "state" r))
  | OpReload f => mlift (mapping <$> fst ((_ ← save_event_bus_state st; load_event_bus_state) f))
  end.

(** A caller keeps the state it had when a call raises. *)
Fixpoint run_bus (ops : list bus_op) (st : list (string * val)) (w : W) : list (string * val) * W :=
  match ops with
  | [] => (st, w)
  | op :: ops' => match run_bus_op op st w with
                  | (Ok st', w') => run_bus ops' st' w'
                  | (Raise _, w') => run_bus ops' st w'
                  end
  end.
End delivery.

Definition log_op (op : bus_op) (log : list draft) : list draft :=
  match op with
  | OpPublish ty to so pa ke co ca now =>
      match read_draft ty to so pa ke co ca now with
      | Ok d => (log_publish log d).2
      | Raise _ => log
      end
  | _ => log
  end.

Definition run_log (ops : list bus_op) (log : list draft) : list draft :=
  fold_left (fun l op => log_op op l) ops log.

(** Payloads are Python values, times are datetimes. *)
Definition op_ok (op : bus_op) : Prop :=
  match op with
  | OpPublish _ _ _ pa _ _ _ now => val_ok pa = true /\ in_range now = true
  | _ => True
  end.

Lemma log_op_extends op log : exists l, log_op op log = log ++ l.
Proof.
  destruct op as [ty to so pa ke co ca now| | | |]; simpl; try by (exists []; rewrite app_nil_r).
  destruct (read_draft _ _ _ _ _ _ _ _) as [d|]; [|by exists []; rewrite app_nil_r].
  unfold log_publish. destruct (find_same log d) as [[i nd]|]; simpl; [|by exists [d]].
  by exists []; rewrite app_nil_r.
Qed.

Lemma run_log_extends ops : forall log, exists l, run_log ops log = log ++ l.
Proof.
  induction ops as [|op ops IH]; intros log; [by exists []; rewrite app_nil_r|].
  destruct (log_op_extends op log) as [l1 E1]. destruct (IH (log_op op log)) as [l2 E2].
  exists (l1 ++ l2). unfold run_log in *. simpl. by rewrite E2, E1, app_assoc.
Qed.

Lemma NoDup_log_ids_app bid log l : NoDup (log_ids bid (log ++ l)) -> NoDup (log_ids bid log).
Proof. unfold log_ids, numbered. rewrite imap_app, map_app. by intros [H _]%NoDup_app. Qed.

Lemma run_bus_op_ok {W} (handlers : string -> option (val -> M W val)) bid log st op w :
  bus_repr bid log st -> op_ok op -> NoDup (log_ids bid (log_op op log)) ->
  match run_bus_op handlers op st w with
  | (Ok st', _) => bus_repr bid (log_op op log) st'
  | (Raise _, _) => log_op op log = log
  end.
Proof.
  intros H Hop Hnd. destruct op as [ty to so pa ke co ca now|to su now|id now|after limit now|f].
  - destruct Hop as [Hp Ht]. simpl in *. unfold mlift.
    destruct (read_draft ty to so pa ke co ca now) as [d|e] eqn:Er.
    + destruct (publish_ok _ _ _ _ _ _ _ _ _ _ _ _ H Er) as (st' & ev & -> & _ & H');
        [by eapply read_draft_ok|done|done].
    + unfold publish. by rewrite Er.
  - simpl. unfold mlift. destruct (subscribe st to su now) eqn:E; [|done].
    by eapply subscribe_ok.
  - by apply unsubscribe_ok.
  - simpl. unfold mbind, M_bind.
    destruct (replay st VNone VNone after limit) as [events|e] eqn:Er.
    + destruct (deliver_ok handlers _ _ _ _ _ now _ w H Er) as (r & w' & ds & st' & -> & _ & _ & _ & Hst & H').
      simpl. by rewrite Hst.
    + unfold deliver, mbind, M_bind. rewrite Er. done.
  - simpl. unfold mlift, mbind, M_bind.
    destruct (save_event_bus_state st f) as [[v|e] f'] eqn:Es; [|done].
    destruct (save_load_ok _ _ _ _ _ _ H Es) as (_ & -> & H'). done.
Qed.

Lemma run_bus_ok {W} (handlers : string -> option (val -> M W val)) bid ops : forall log st w,
  bus_repr bid log st -> Forall op_ok ops -> NoDup (log_ids bid (run_log ops log)) ->
  bus_repr bid (run_log ops log) (run_bus handlers ops st w).1.
Proof.
  induction ops as [|op ops IH]; intros log st w H Hops Hnd; [done|].
  apply Forall_cons in Hops as [Hop Hops]. simpl.
  assert (Hnd1 : NoDup (log_ids bid (log_op op log))).
  { destruct (run_log_extends ops (log_op op log)) as [l E]. unfold run_log in *. simpl in Hnd.
    rewrite E in Hnd. by eapply NoDup_log_ids_app. }
  pose proof (run_bus_op_ok handlers _ _ _ op w H Hop Hnd1) as Hstep.
  destruct (run_bus_op handlers op st w) as [[st'|e] w']; [by apply IH|].
  rewrite <- Hstep in H. by apply IH.
Qed.

Lemma create_ok resolve casefold path name now st :
  create_event_bus_state resolve casefold path name now = Ok st ->
  exists bid, vget "bus_id" st = VStr bid /\ bus_repr bid [] st.
Proof.
  unfold create_event_bus_state. destruct (text name =? "")%string eqn:En; [done|].
  apply String.eqb_neq in En. intros [= <-]. unfold seal_event_bus_state.
  eexists. split; [by rewrite vget_seal_ne|]. split.
  - apply val_ok_seal, val_ok_dict. split; [|by repeat constructor].
    apply (bool_decide_unpack _). vm_compute. done.
  - apply sealed_seal.
  - by rewrite vget_seal_ne.
  - rewrite vget_seal_ne by done. split; [done|]. by apply strip_prefix.
  - rewrite vget_seal_ne by done. exists (text name). by rewrite text_empty_idemp.
  - rewrite vget_seal_ne by done. exists "created". split; [done|]. by repeat constructor.
  - constructor.
  - by rewrite vget_seal_ne.
  - constructor.
  - rewrite vget_seal_ne by done. exists []. split_and!; [done|done|constructor].
  - by rewrite vget_seal_ne.
  - rewrite vget_seal_ne by done. exists []. by split; [|constructor].
  - by rewrite vget_seal_ne.
  - repeat constructor; rewrite vget_seal_ne by done; by exists 0%Z.
Qed.

(** ** What the bus promises *)

(** C4. The bus is an append-only log.  Run any calls from a new bus, with any
    handlers, saving and loading in between: the state stands for the log
    that publication is meant to build (events in order, numbered from 1,
    one per draft that is not a duplicate by key), and passes the bus's own
    validator.  The one assumption is that no two events of that log get the
    same id, that is, that the truncated digests do not collide. *)
Theorem event_bus_refines_log {W} (handlers : string -> option (val -> M W val))
    resolve casefold path name now st ops w :
  create_event_bus_state resolve casefold path name now = Ok st -> Forall op_ok ops ->
  (forall bid, vget "bus_id" st = VStr bid -> NoDup (log_ids bid (run_log ops []))) ->
  exists bid, vget "bus_id" st = VStr bid
    /\ bus_repr bid (run_log ops []) (run_bus handlers ops st w).1
    /\ validate_event_bus_state (VDict (run_bus handlers ops st w).1) = Ok [].
Proof.
  intros Hc Hops Hnd. destruct (create_ok _ _ _ _ _ _ Hc) as (bid & Hb & H). exists bid.
  pose proof (run_bus_ok handlers bid ops [] st w H Hops (Hnd _ Hb)) as H'.
  split_and!; [done|done|by apply (bus_repr_valid bid (run_log ops []))].
Qed.

(** C35. [publish], on every branch: bad arguments are refused with the first
    failing check; a key that is already in the log answers with the first
    event that has it and adds nothing; otherwise the event returned is the
    next of the log, and the new state stands for the longer log. *)
Theorem publish_correct bid log st ty to so pa ke co ca now :
  bus_repr bid log st -> val_ok pa = true -> in_range now = true ->
  match read_draft ty to so pa ke co ca now with
  | Raise e => publish st ty to so pa ke co ca now = Raise e
  | Ok d =>
      NoDup (log_ids bid (log_publish log d).2) ->
      exists st' ev, publish st ty to so pa ke co ca now = Ok (st', ev)
        /\ same_event bid (log_publish log d).1 ev
        /\ bus_repr bid (log_publish log d).2 st'
        /\ (log_publish log d).1 ∈ numbered (log_publish log d).2
        /\ (d_key d <> "" -> d_key (log_publish log d).1.2 = d_key d)
  end.
Proof.
  intros H Hp Ht. destruct (read_draft ty to so pa ke co ca now) as [d|e] eqn:Er;
    [|unfold publish; by rewrite Er].
  intros Hnd. destruct (publish_ok _ _ _ _ _ _ _ _ _ _ _ _ H Er) as (st' & ev & Ep & Hs & H');
    [by eapply read_draft_ok|done|]. exists st', ev. split_and!; [done|done|done|..].
  - unfold log_publish. destruct (find_same log d) as [[i nd]|] eqn:E; simpl.
    + unfold find_same in E. destruct (d_key d =? "")%string; [done|]. apply list_find_Some in E as (E & _).
      by apply list_elem_of_lookup_2 in E.
    + rewrite numbered_app. apply elem_of_app. right. by apply list_elem_of_singleton.
  - intros Hk. unfold log_publish, find_same. apply String.eqb_neq in Hk as ->.
    destruct (list_find _ _) as [[i nd]|] eqn:E; simpl; [|done].
    by apply list_find_Some in E as (_ & E & _).
Qed.

(** [replay] returns, in the order of publication, exactly the events after
    the given sequence number that have the given topic and type (if given),
    up to the limit. *)
Theorem replay_exact bid log st topic event_type after limit :
  bus_repr bid log st -> (0 <= after)%Z ->
  match limit with Some m => (1 <= m)%Z | None => True end ->
  exists l, replay st topic event_type (VInt after)
              (match limit with Some m => VInt m | None => VNone end) = Ok l
    /\ Forall2 (same_event bid) (log_replay (text topic) (text event_type) after limit log) l.
Proof. apply replay_ok. Qed.

(** [deliver] makes one delivery for each event it replays and each
    subscription to the event's topic, in that order, whatever the handlers
    return, raise or do; it reports each, and never raises itself once its
    bounds are accepted. *)
Theorem deliver_correct {W} (handlers : string -> option (val -> M W val))
    bid log st after limit now events w :
  bus_repr bid log st -> replay st VNone VNone after limit = Ok events ->
  exists r w' ds st', deliver handlers st after limit now w = (Ok r, w')
    /\ vget "deliveries" r = VList (map VDict ds)
    /\ map delivery_key ds = concat (map (due (mapping (vget "subscriptions" st))) events)
    /\ vget "event_count" r = VInt (Z.of_nat (length events))
    /\ vget "state" r = VDict st' /\ bus_repr bid log st'.
Proof. apply deliver_ok. Qed.


End event_bus.

(** ** A bus at work *)

(** A cheap digest, enough to tell the demonstration's documents apart: four
    bytes through which the text is shifted. *)
Definition demo_mix (a b c : ascii) : ascii :=
  let '(Ascii a0 a1 a2 a3 a4 a5 a6 a7) := a in
  let '(Ascii b0 b1 b2 b3 b4 b5 b6 b7) := b in
  let '(Ascii c0 c1 c2 c3 c4 c5 c6 c7) := c in
  Ascii (xorb a7 (xorb b0 c0)) (xorb a0 (xorb b1 c1)) (xorb a1 (xorb b2 c2)) (xorb a2 (xorb b3 c3))
        (xorb a3 (xorb b4 c4)) (xorb a4 (xorb b5 c5)) (xorb a5 (xorb b6 c6)) (xorb a6 (xorb b7 c7)).
Fixpoint demo_hash (s : string) (a b c d : ascii) : string :=
  match s with
  | EmptyString => hex2 (code a) +:+ hex2 (code b) +:+ hex2 (code c) +:+ hex2 (code d)
  | String x s' => demo_hash s' b c d (demo_mix a b x)
  end.
Definition demo_digest (s : string) : string := demo_hash s "a" "b" "c" "d".
Definition demo_now : instant := (63844806645 * SECOND)%Z.

Definition demo_publish (topic key : string) : bus_op :=
  OpPublish (VStr "audit") (VStr topic) (VStr "tests") (VDict [("n", VInt 1)]) (VStr key) VNone VNone demo_now.

(** Two events, a duplicate of the first, a bad publication, a subscription
    whose handler raises, and a reload in between. *)
Definition demo_bus_ops : list bus_op :=
  [demo_publish "goals" "k1"; OpSubscribe (VStr "goals") (VStr "auditor") demo_now;
   demo_publish "other" "k1"; OpPublish (VStr "gossip") VNone VNone VNone VNone VNone VNone demo_now;
   OpReload (File false false Missing); demo_publish "tasks" ""; OpDeliver (VInt 0) VNone demo_now].

Definition demo_handlers (subscriber : string) : option (val -> M nat val) :=
  if (subscriber =? "auditor")%string then Some (fun _ w => (Raise (ValueError "boom"), S w)) else None.

Definition demo_result {A} (dflt : A) (r : res A) : A :=
  match r with Ok a => a | Raise _ => dflt end.

Definition demo_new_bus : list (string * val) :=
  demo_result [] (create_event_bus_state demo_digest id id "bus.json" (VStr "main") demo_now).
Definition demo_bid : string := py_str (vget "bus_id" demo_new_bus).
Definition demo_log : list draft := run_log demo_bus_ops [].
Definition demo_bus : list (string * val) * nat := run_bus demo_digest demo_handlers demo_bus_ops demo_new_bus 0%nat.

Lemma demo_created : create_event_bus_state demo_digest id id "bus.json" (VStr "main") demo_now = Ok demo_new_bus.
Proof. vm_compute. reflexivity. Qed.

Lemma demo_ops_ok : Forall op_ok demo_bus_ops.
Proof. repeat constructor; vm_compute; reflexivity. Qed.

Lemma demo_ids_differ : NoDup (log_ids demo_digest demo_bid demo_log).
Proof. apply (bool_decide_unpack _). vm_compute. exact I. Qed.

Lemma demo_bus_id : vget "bus_id" demo_new_bus = VStr demo_bid.
Proof. vm_compute. reflexivity. Qed.

Lemma demo_bus_repr : bus_repr demo_digest demo_bid demo_log demo_bus.1.
Proof.
  destruct (create_ok _ _ _ _ _ _ _ demo_created) as (bid & Hb & H).
  rewrite demo_bus_id in Hb. injection Hb as <-.
  apply run_bus_ok; [exact H|exact demo_ops_ok|exact demo_ids_differ].
Qed.

Lemma event_bus_refines_log_witness :
  length demo_log = 2%nat /\ demo_bus.2 = 1%nat
  /\ validate_event_bus_state demo_digest (VDict demo_bus.1) = Ok [].
Proof.
  split; [vm_compute; reflexivity|]. split; [vm_compute; reflexivity|].
  destruct (event_bus_refines_log demo_digest demo_handlers _ _ _ _ _ _ demo_bus_ops 0%nat
              demo_created demo_ops_ok) as (bid & _ & _ & H).
  - intros bid Hb. rewrite demo_bus_id in Hb. injection Hb as <-. exact demo_ids_differ.
  - exact H.
Defined.

(** A third event, and one more publication under the key of the first. *)
Lemma publish_correct_witness :
  exists st1 ev1 st2 ev2,
    publish demo_digest demo_bus.1 (VStr "memory") (VStr "notes") (VStr "me") (VDict []) VNone VNone VNone
      demo_now = Ok (st1, ev1) /\ vget "sequence" ev1 = VInt 3
    /\ publish demo_digest demo_bus.1 (VStr "memory") (VStr "notes") (VStr "me") (VDict []) (VStr " k1 ")
         VNone VNone demo_now = Ok (st2, ev2) /\ vget "sequence" ev2 = VInt 1.
Proof.
  assert (Hnow : in_range demo_now = true) by (vm_compute; reflexivity).
  pose proof (publish_correct _ _ _ _ (VStr "memory") (VStr "notes") (VStr "me") (VDict []) VNone VNone VNone
                demo_now demo_bus_repr eq_refl Hnow) as H1.
  pose proof (publish_correct _ _ _ _ (VStr "memory") (VStr "notes") (VStr "me") (VDict []) (VStr " k1 ")
                VNone VNone demo_now demo_bus_repr eq_refl Hnow) as H2.
  match type of H1 with match ?r with _ => _ end =>
    assert (E1 : exists d, r = Ok d /\ (log_publish demo_log d).1.1 = 3%Z
      /\ NoDup (log_ids demo_digest demo_bid (log_publish demo_log d).2)) by
      (eexists; split; [vm_compute; reflexivity|]; split;
       [vm_compute; reflexivity|apply (bool_decide_unpack _); vm_compute; exact I]) end.
  match type of H2 with match ?r with _ => _ end =>
    assert (E2 : exists d, r = Ok d /\ (log_publish demo_log d).1.1 = 1%Z
      /\ NoDup (log_ids demo_digest demo_bid (log_publish demo_log d).2)) by
      (eexists; split; [vm_compute; reflexivity|]; split;
       [vm_compute; reflexivity|apply (bool_decide_unpack _); vm_compute; exact I]) end.
  destruct E1 as (d1 & E1 & N1 & D1), E2 as (d2 & E2 & N2 & D2). rewrite E1 in H1. rewrite E2 in H2.
  destruct (H1 D1) as (st1 & ev1 & P1 & S1 & _), (H2 D2) as (st2 & ev2 & P2 & S2 & _).
  exists st1, ev1, st2, ev2. split_and!; [exact P1| |exact P2|].
  - eapply same_event_get; [exact S1|discriminate| |reflexivity].
    rewrite new_event_get by discriminate. by rewrite N1.
  - eapply same_event_get; [exact S2|discriminate| |reflexivity].
    rewrite new_event_get by discriminate. by rewrite N2.
Defined.

Lemma replay_exact_witness :
  exists ev, replay demo_bus.1 (VStr "tasks") VNone (VInt 0) VNone = Ok [ev]
    /\ same_event demo_digest demo_bid (2%Z, nth 1 demo_log (Draft "" "" "" [] "" "" "" "")) ev.
Proof.
  destruct (replay_exact _ _ _ _ (VStr "tasks") VNone 0 None demo_bus_repr ltac:(lia) I) as (l & E & H).
  assert (S : exists d, log_replay (text (VStr "tasks")) (text VNone) 0 None demo_log = [(2%Z, d)]
              /\ d = nth 1 demo_log (Draft "" "" "" [] "" "" "" ""))
    by (eexists; split; vm_compute; reflexivity).
  destruct S as (d & S & ->). rewrite S in H.
  apply Forall2_cons_inv_l in H as (ev & l' & Hev & Hl & ->).
  apply Forall2_nil_inv_l in Hl as ->. exists ev. split; [exact E|exact Hev].
Defined.

Definition demo_events : list (list (string * val)) :=
  demo_result [] (replay demo_bus.1 VNone VNone (VInt 0) VNone).

(** The handler raises; the delivery is reported and its effect counted. *)
Lemma deliver_correct_witness :
  exists r w ds, deliver demo_digest demo_handlers demo_bus.1 (VInt 0) VNone demo_now 5%nat = (Ok r, w)
    /\ vget "deliveries" r = VList (map VDict ds) /\ length ds = 1%nat.
Proof.
  assert (E : replay demo_bus.1 VNone VNone (VInt 0) VNone = Ok demo_events)
    by (vm_compute; reflexivity).
  assert (L : length (concat (map (due (mapping (vget "subscriptions" demo_bus.1))) demo_events)) = 1%nat)
    by (vm_compute; reflexivity).
  destruct (deliver_correct _ demo_handlers _ _ _ _ _ demo_now _ 5%nat demo_bus_repr E)
    as (r & w & ds & st' & D & Hd & Hk & _).
  exists r, w, ds. split; [exact D|]. split; [exact Hd|].
  rewrite <- L, <- Hk, length_map. reflexivity.
Defined.

(** The demo bus as it is saved, and the same with its status changed. *)
Definition demo_saved : list (string * val) := seal_event_bus_state demo_digest demo_bus.1.
Definition demo_tampered : list (string * val) := dset "bus_status" (VStr "stopped") demo_saved.
Definition demo_file : file := File false false (Json (vsort (VDict demo_saved))).

