(* ===== verification/MissionScheduler.v ===== *)
(** * The mission scheduler

    [core/runtime/runtime_mission_scheduler.py]: missions are entries of a
    sealed state dict, kept in a file; the scheduler leases the best waiting
    entry to itself for a bounded time, runs the mission's driver and releases
    the entry under the status the mission reached.  Leases that ran out are
    taken back.

    The state's functions are pure on the dict.  An iteration works on a
    world: the scheduler's file, the event bus's file, and the rest, which the
    driver and the mission files live in.  The digest, path resolution,
    [casefold], the mission driver [run_mission] and [load_mission] of the
    mission model are parameters; [now] is the time a call reads. *)

From Stdlib Require Import Ascii.
From Stdlib Require QArith_base.
From stdpp Require Import pretty.
From S2P Require Import Prelude PyVal Clock Sealing EventBus.

Definition CONTRACT : string := "zero.runtime.mission_scheduler.v1".
Definition ENTRY_CONTRACT : string := "zero.runtime.mission_scheduler_entry.v1".

Definition DEFAULT_LEASE_SECONDS : Z := 120.

Definition ACTIVE_ENTRY_STATUSES : list string := ["queued"; "leased"; "running"; "waiting"].
Definition TERMINAL_ENTRY_STATUSES : list string :=
  ["completed"; "partially_completed"; "blocked"; "failed"; "cancelled"; "expired"].
Definition MISSION_TERMINAL_STATUSES : list string :=
  ["completed"; "partially_completed"; "blocked"; "failed"; "cancelled"; "expired"].
Definition SCHEDULER_STATUSES : list string :=
  ["created"; "running"; "idle"; "paused"; "stopping"; "stopped"; "blocked"; "failed"].

Section mission_scheduler.
Context (sha256_hex : string -> string).

#[local] Abbreviation fingerprint := (fingerprint sha256_hex).

Definition normal_path (resolve casefold : string -> string) (path : string) : string :=
  casefold (replace_char "\"%char "/"%char (resolve path)).

Definition _entry_identity (resolve casefold : string -> string) (mission_id mission_path : string) : string :=
  "mission-scheduler-entry-" +:+ str_take 20 (fingerprint
    (VDict [("mission_id", VStr mission_id); ("mission_path", VStr (normal_path resolve casefold mission_path))])).

Definition _lease_identity (scheduler_id entry_id : val) (owner acquired_at : string) : string :=
  "mission-scheduler-lease-" +:+ str_take 20 (fingerprint
    (VDict [("scheduler_id", scheduler_id); ("entry_id", entry_id); ("owner", VStr owner);
            ("acquired_at", VStr acquired_at)])).

(** ** Entries and states, sealed and validated *)

Definition seal_mission_scheduler_entry (entry : list (string * val)) : list (string * val) :=
  seal sha256_hex "entry_fingerprint" entry.

(** The first thing wrong with the lease of an entry that is leased or running. *)
Definition lease_reasons (lease : list (string * val)) : list string :=
  if negb (truthy (VDict lease)) then ["mission_scheduler_active_lease_required"]
  else if (text (vget "lease_id" lease) =? "")%string then ["mission_scheduler_lease_id_required"]
  else if (text (vget "owner" lease) =? "")%string then ["mission_scheduler_lease_owner_required"]
  else if negb (truthy (vget "expires_at" lease)) then ["mission_scheduler_lease_expiry_required"]
  else [].

Definition validate_mission_scheduler_entry (entry : val) : res (list string) :=
  let value := mapping entry in
  let status := vget "entry_status" value in
  known ← val_in status (ACTIVE_ENTRY_STATUSES ++ TERMINAL_ENTRY_STATUSES);
  held ← val_in status ["leased"; "running"];
  Ok (reason (negb (py_eq (vget "contract" value) (VStr ENTRY_CONTRACT)))
        "invalid_mission_scheduler_entry_contract"
      ++ reason (negb (sealed sha256_hex "entry_fingerprint" value))
           "mission_scheduler_entry_fingerprint_mismatch"
      ++ reason (text (vget "entry_id" value) =? "")%string "mission_scheduler_entry_id_required"
      ++ reason (text (vget "mission_id" value) =? "")%string "mission_id_required"
      ++ reason (text (vget "mission_path" value) =? "")%string "mission_path_required"
      ++ reason (negb known) "invalid_mission_scheduler_entry_status"
      ++ reason match vget "priority" value with VInt n => negb ((-100 <=? n) && (n <=? 100)) | _ => true end%Z
           "invalid_mission_scheduler_priority"
      ++ (if (held : bool) then lease_reasons (mapping (vget "lease" value)) else [])).

Definition seal_mission_scheduler_state (state : list (string * val)) : list (string * val) :=
  seal sha256_hex "scheduler_fingerprint" state.

Definition entry_reasons (entries : list (string * val)) (entry_id : val) : res (list string) :=
  let entry := mapping (get_val entry_id entries) in
  if negb (py_eq (vget "entry_id" entry) entry_id)
  then Ok ["mission_scheduler_entry_identity_mismatch:" +:+ py_str entry_id]
  else reasons ← validate_mission_scheduler_entry (VDict entry);
       Ok (map (fun r => py_str entry_id +:+ ":" +:+ r) reasons).

Definition validate_mission_scheduler_state (state : val) : res (list string) :=
  let value := mapping state in
  known ← val_in (vget "scheduler_status" value) SCHEDULER_STATUSES;
  let entries := mapping (vget "entries" value) in
  let order := match vget "entry_order" value with VList l => l | _ => [] end in
  same ← same_keys order entries;
  in_order ← rmap (entry_reasons entries) order;
  Ok (reason (negb (py_eq (vget "contract" value) (VStr CONTRACT))) "invalid_mission_scheduler_contract"
      ++ reason (negb (sealed sha256_hex "scheduler_fingerprint" value))
           "mission_scheduler_fingerprint_mismatch"
      ++ reason (text (vget "scheduler_id" value) =? "")%string "mission_scheduler_id_required"
      ++ reason (negb known) "invalid_mission_scheduler_status"
      ++ reason (negb (is_mapping (vget "entries" value))) "mission_scheduler_entries_required"
      ++ reason (negb (is_list (vget "entry_order" value))) "mission_scheduler_entry_order_required"
      ++ reason (negb same) "mission_scheduler_entry_order_mismatch"
      ++ concat in_order).

Definition create_mission_scheduler_state (resolve casefold : string -> string) (state_path : string)
    (scheduler_name : val) (now : instant) : res (list (string * val)) :=
  let name := text scheduler_name in
  if (name =? "")%string then Raise (ValueError "mission_scheduler_name_required")
  else
    let at_ := VStr (time_text now) in
    let identity := [("scheduler_name", VStr name); ("state_path", VStr (normal_path resolve casefold state_path))] in
    Ok (seal_mission_scheduler_state
      [("contract", VStr CONTRACT);
       ("scheduler_id", VStr ("mission-scheduler-" +:+ str_take 20 (fingerprint (VDict identity))));
       ("scheduler_name", VStr name);
       ("scheduler_status", VStr "created");
       ("state_path", VStr (resolve state_path));
       ("entries", VDict []);
       ("entry_order", VList []);
       ("created_at", at_); ("updated_at", at_); ("started_at", VNone); ("stopped_at", VNone);
       ("loop_iteration", VInt 0); ("completed_missions", VInt 0); ("waiting_missions", VInt 0);
       ("blocked_missions", VInt 0); ("failed_missions", VInt 0); ("recovered_leases", VInt 0);
       ("idle_iterations", VInt 0); ("stop_requested", VBool false); ("pause_requested", VBool false);
       ("current_entry_id", VNone); ("current_mission_id", VNone); ("last_result", VNone);
       ("last_event_id", VNone); ("failure", VNone);
       ("audit_record", VDict [("event_type", VStr "runtime_mission_scheduler_created");
                               ("created_at", at_)])]).

Definition save_mission_scheduler_state (state : list (string * val)) : M file (list (string * val)) :=
  save_sealed sha256_hex "scheduler_fingerprint" validate_mission_scheduler_state
    "unsafe_mission_scheduler_state_path" "unsafe_mission_scheduler_state_directory" state.

Definition load_mission_scheduler_state : M file (list (string * val)) :=
  v ← load_validated validate_mission_scheduler_state
        "unsafe_mission_scheduler_state_path" "invalid_mission_scheduler_json";
  mret (mapping v).

(** ** Admission *)

Definition priority_ok (priority : val) : bool :=
  match priority with VInt n => (-100 <=? n)%Z && (n <=? 100)%Z | _ => false end.

Definition new_entry (resolve : string -> string) (entry_id mission_id mission_path status : string)
    (priority : val) (at_ : string) : list (string * val) :=
  let terminal := bool_decide (status ∈ TERMINAL_ENTRY_STATUSES) in
  seal_mission_scheduler_entry
    [("contract", VStr ENTRY_CONTRACT);
     ("entry_id", VStr entry_id);
     ("mission_id", VStr mission_id);
     ("mission_path", VStr (resolve mission_path));
     ("mission_status", VStr status);
     ("entry_status", VStr (if terminal then status else "queued"));
     ("priority", priority);
     ("enqueued_at", VStr at_); ("updated_at", VStr at_); ("started_at", VNone);
     ("completed_at", if terminal then VStr at_ else VNone);
     ("lease", VNone); ("attempt_count", VInt 0); ("last_driver_result", VNone);
     ("last_error", VNone)].

(** [mission] is what [load_mission(mission_path, check_expiry=False)] gives;
    the file is read after the state was validated. *)
Definition enqueue_mission (resolve casefold : string -> string) (state : list (string * val))
    (mission_path : string) (mission : res (list (string * val))) (priority : val) (now : instant) : res (list (string * val)) :=
  if negb (priority_ok priority) then Raise (ValueError "invalid_mission_scheduler_priority")
  else
    _ ← refuse_invalid validate_mission_scheduler_state (VDict state);
    mission ← mission;
    let mission_id := text (vget "mission_id" mission) in
    if (mission_id =? "")%string then Raise (ValueError "mission_id_required")
    else
      let entry_id := _entry_identity resolve casefold mission_id mission_path in
      let entries := mapping (vget "entries" state) in
      let existing := mapping (vget entry_id entries) in
      if truthy (VDict existing) then
        if negb (py_eq (vget "mission_id" existing) (VStr mission_id))
        then Raise (ValueError "mission_scheduler_entry_collision")
        else Ok state
      else
        let status := text (vget "mission_status" mission) in
        let entry := new_entry resolve entry_id mission_id mission_path status priority (time_text now) in
        order ← py_iter (vget_or "entry_order" (VList []) state);
        let value := dset "entries" (VDict (dset entry_id (VDict entry) entries)) state in
        let value := dset "entry_order" (VList (order ++ [VStr entry_id])) value in
        Ok (seal_mission_scheduler_state (dset "updated_at" (VStr (time_text now)) value)).

(** ** Leases that ran out *)

(** The [try] around the comparison: a time that cannot be read counts as past. *)
Definition lease_expired (lease : list (string * val)) (now : instant) : res bool :=
  match parse_time (vget "expires_at" lease) with
  | Ok t => Ok (t <=? now)%Z
  | Raise (ValueError _) | Raise (TypeError _) => Ok true
  | Raise e => Raise e
  end.

Definition requeue_entry (now : instant) (entry : list (string * val)) : list (string * val) :=
  seal_mission_scheduler_entry
    (dset "last_error" (VDict [("reason", VStr "mission_scheduler_lease_expired")])
      (dset "updated_at" (VStr (time_text now))
        (dset "lease" VNone (dset "entry_status" (VStr "queued") entry)))).

Definition recover_one (now : instant) (acc : list (string * val) * Z) (entry_id : val) :
    res (list (string * val) * Z) :=
  let '(entries, recovered) := acc in
  if negb (hashable entry_id) then Raise (TypeError "unhashable type")
  else
    let entry := mapping (get_val entry_id entries) in
    held ← val_in (vget "entry_status" entry) ["leased"; "running"];
    if negb held then Ok acc
    else
      expired ← lease_expired (mapping (vget "lease" entry)) now;
      if negb expired then Ok acc
      else match entry_id with
           | VStr k => Ok (dset k (VDict (requeue_entry now entry)) entries, (recovered + 1)%Z)
           | _ => Ok acc
           end.

Definition _recover_expired_leases (state : list (string * val)) (now : instant) :
    res (list (string * val) * Z) :=
  order ← py_iter (vget_or "entry_order" (VList []) state);
  r ← rfold (recover_one now) order (mapping (vget "entries" state), 0%Z);
  let '(entries, recovered) := r in
  let value := dset "entries" (VDict entries) state in
  n ← int_field "recovered_leases" 0 value;
  Ok (seal_mission_scheduler_state (dset "recovered_leases" (VInt (n + recovered)) value), recovered).

(** ** The order of the candidates *)

(** [{entry_id: index ...}]: the last position of an id, or [10**9]. *)
Fixpoint last_index (i : Z) (order : list val) (entry_id : val) : option Z :=
  match order with
  | [] => None
  | x :: order' =>
      match last_index (i + 1) order' entry_id with
      | Some j => Some j
      | None => if py_eq entry_id x then Some i else None
      end
  end.

Definition sort_key : Type := Z * Z * string.

Definition candidate_key (order : list val) (entry : list (string * val)) : res sort_key :=
  p ← int_field "priority" 0 entry;
  let entry_id := vget "entry_id" entry in
  if negb (hashable entry_id) then Raise (TypeError "unhashable type")
  else Ok (- p, default (10 ^ 9) (last_index 0 order entry_id), str_or_empty (vget "enqueued_at" entry))%Z.

Definition key_leb (a b : sort_key) : bool :=
  let '(p, i, s) := a in
  let '(p', i', s') := b in
  (p <? p')%Z || ((p =? p')%Z && ((i <? i')%Z || ((i =? i')%Z && String.leb s s'))).

Fixpoint candidates_of (order : list val) (entries : list val) : res (list (sort_key * list (string * val))) :=
  match entries with
  | [] => Ok []
  | VDict entry :: entries' =>
      open ← val_in (vget "entry_status" entry) ["queued"; "waiting"];
      if (open : bool) then
        key ← candidate_key order entry;
        rest ← candidates_of order entries';
        Ok ((key, entry) :: rest)
      else candidates_of order entries'
  | _ :: _ => Raise (AttributeErr "object has no attribute 'get'")
  end.

Definition _ordered_candidate_entries (state : list (string * val)) : res (list (list (string * val))) :=
  order ← py_iter (vget_or "entry_order" (VList []) state);
  if negb (forallb hashable order) then Raise (TypeError "unhashable type")
  else
    keyed ← candidates_of order (mapping (vget "entries" state)).*2;
    Ok (map snd (isort (fun a b => key_leb a.1 b.1) keyed)).

(** ** Leasing and releasing *)

Definition lease_entry (lease_id owner acquired_at expires_at : string) (entry : list (string * val)) :
    list (string * val) :=
  dset "updated_at" (VStr acquired_at)
    (dset "lease" (VDict [("lease_id", VStr lease_id); ("owner", VStr owner);
                          ("acquired_at", VStr acquired_at); ("expires_at", VStr expires_at)])
      (dset "entry_status" (VStr "leased") entry)).

Definition lease_next_mission (state : list (string * val)) (owner lease_seconds : val) (now : instant) :
    res (list (string * val) * option (list (string * val))) :=
  let owner_text := text owner in
  if (owner_text =? "")%string then Raise (ValueError "mission_scheduler_lease_owner_required")
  else match lease_seconds with
  | VInt seconds =>
      if (seconds <? 1)%Z then Raise (ValueError "invalid_mission_scheduler_lease_seconds")
      else
        vr ← _recover_expired_leases state now;
        let value := vr.1 in
        candidates ← _ordered_candidate_entries value;
        match candidates with
        | [] => Ok (value, None)
        | entry :: _ =>
            expiry ← add_seconds now seconds;
            scheduler_id ← get_item "scheduler_id" value;
            entry_id ← get_item "entry_id" entry;
            let acquired_at := time_text now in
            let lease_id := _lease_identity scheduler_id entry_id owner_text acquired_at in
            let entry := lease_entry lease_id owner_text acquired_at (time_text expiry) entry in
            let entries := mapping (vget "entries" value) in
            mission_id ← get_item "mission_id" entry;
            k ← match entry_id with VStr k => Ok k | _ => Raise (TypeError "unhashable type") end;
            let value :=
              dset "entries" (VDict (dset k (VDict (seal_mission_scheduler_entry entry)) entries)) value in
            let value := dset "current_entry_id" entry_id value in
            let value := dset "current_mission_id" mission_id value in
            let value := dset "updated_at" (VStr acquired_at) value in
            Ok (seal_mission_scheduler_state value, Some (mapping (vget "lease" entry)))
        end
  | _ => Raise (ValueError "invalid_mission_scheduler_lease_seconds")
  end.

Definition release_entry (next_status : string) (at_ : string) (entry : list (string * val)) :
    list (string * val) :=
  let entry :=
    dset "updated_at" (VStr at_) (dset "lease" VNone (dset "entry_status" (VStr next_status) entry)) in
  if bool_decide (next_status ∈ TERMINAL_ENTRY_STATUSES)
  then dset "completed_at" (VStr at_) entry else entry.

Definition release_mission_lease (state : list (string * val)) (entry_id : string) (lease_id owner : val)
    (next_status : string) (now : instant) : res (list (string * val)) :=
  if negb (bool_decide (next_status ∈ ACTIVE_ENTRY_STATUSES ++ TERMINAL_ENTRY_STATUSES))
  then Raise (ValueError "invalid_mission_scheduler_entry_status")
  else
    let entries := mapping (vget "entries" state) in
    let entry := mapping (vget entry_id entries) in
    if negb (truthy (VDict entry)) then Raise (ValueError "mission_scheduler_entry_not_found")
    else
      let lease := mapping (vget "lease" entry) in
      if negb (py_eq (vget "lease_id" lease) lease_id)
      then Raise (ValueError "mission_scheduler_lease_identity_mismatch")
      else if negb (py_eq (vget "owner" lease) owner)
      then Raise (ValueError "mission_scheduler_lease_owner_mismatch")
      else
        let at_ := time_text now in
        let entry := seal_mission_scheduler_entry (release_entry next_status at_ entry) in
        let value := dset "entries" (VDict (dset entry_id (VDict entry) entries)) state in
        let value := dset "current_entry_id" VNone value in
        let value := dset "current_mission_id" VNone value in
        Ok (seal_mission_scheduler_state (dset "updated_at" (VStr at_) value)).

Definition request_mission_scheduler_action (state : list (string * val)) (action : string) (now : instant) :
    res (list (string * val)) :=
  let finish status value :=
    Ok (seal_mission_scheduler_state
          (dset "updated_at" (VStr (time_text now)) (dset "scheduler_status" (VStr status) value))) in
  if (action =? "pause")%string then finish "paused" (dset "pause_requested" (VBool true) state)
  else if (action =? "resume")%string then
    finish "idle" (dset "stop_requested" (VBool false) (dset "pause_requested" (VBool false) state))
  else if (action =? "stop")%string then finish "stopping" (dset "stop_requested" (VBool true) state)
  else Raise (ValueError "invalid_mission_scheduler_action").

(** ** An iteration *)

Record world (W : Type) : Type := World { w_sched : file; w_bus : file; w_rest : W }.
#[global] Arguments World {W}.
#[global] Arguments w_sched {W}.
#[global] Arguments w_bus {W}.
#[global] Arguments w_rest {W}.

Section iteration.
Context {W : Type}.
(** [driver.run_mission(path, scheduler_state_path=...)], with its other
    arguments fixed, and [load_mission(path, check_expiry=False)]. *)
Context (run_mission : val -> val -> M (world W) val).
Context (load_mission : val -> M (world W) (list (string * val))).

Definition on_sched {A} (m : M file A) : M (world W) A :=
  fun w => let '(r, f) := m (w_sched w) in (r, World f (w_bus w) (w_rest w)).
Definition on_bus {A} (m : M file A) : M (world W) A :=
  fun w => let '(r, f) := m (w_bus w) in (r, World (w_sched w) f (w_rest w)).

Definition save_state (state : list (string * val)) : M (world W) (list (string * val)) :=
  on_sched (save_mission_scheduler_state state).

(** The bus is used when the configuration names its file. *)
Definition _publish_scheduler_event (runtime_config : val) (topic : string) (source : val)
    (payload : list (string * val)) (idempotency_key : string) (now : instant) :
    M (world W) (option (list (string * val))) :=
  if (text (vget "event_bus_state_path" (mapping runtime_config)) =? "")%string then mret None
  else
    bus ← on_bus (load_event_bus_state sha256_hex);
    r ← mlift (publish sha256_hex (mapping bus) (VStr "scheduler") (VStr topic) source (VDict payload)
                 (VStr idempotency_key)
                 (or_none (str_or_empty (py_or (vget "mission_id" payload) (vget "scheduler_id" payload))))
                 (or_none (str_or_empty (vget "entry_id" payload))) now);
    _ ← on_bus (save_event_bus_state sha256_hex r.1);
    mret (Some r.2).

(** Publish, keep the event's id, and save. *)
Definition save_with_event (runtime_config : val) (topic : string) (payload : list (string * val))
    (idempotency_key : string) (now : instant) (state : list (string * val)) :
    M (world W) (list (string * val)) :=
  scheduler_id ← mlift (get_item "scheduler_id" state);
  event ← _publish_scheduler_event runtime_config topic scheduler_id payload idempotency_key now;
  save_state match event with
             | Some ev => dset "last_event_id" (vget "event_id" ev) state
             | None => state
             end.

(** [state[k] = int(state.get(k) or 0) + n] *)
Definition add_to (k : string) (n : Z) (state : list (string * val)) : res (list (string * val)) :=
  m ← int_field k 0 state; Ok (dset k (VInt (m + n)) state).

(** The fields of [state] a payload shows, read with [state[k]]. *)
Definition shown (ks : list string) (state : list (string * val)) : list (string * val) :=
  map (fun k => (k, vget k state)) ks.

Definition event_key (state : list (string * val)) (topic rest : string) : string :=
  py_str (vget "scheduler_id" state) +:+ ":" +:+ topic +:+ ":" +:+ rest.

Definition stop_iteration (runtime_config : val) (now : instant) (state : list (string * val)) :
    M (world W) (list (string * val)) :=
  let at_ := VStr (time_text now) in
  state ← save_state (dset "updated_at" at_ (dset "stopped_at" at_
                        (dset "scheduler_status" (VStr "stopped") state)));
  save_with_event runtime_config "scheduler.stopped"
    (shown ["scheduler_id"; "scheduler_status"; "loop_iteration"] state)
    (event_key state "scheduler.stopped" (py_str (vget "loop_iteration" state))) now state.

Definition pause_iteration (runtime_config : val) (now : instant) (state : list (string * val)) :
    M (world W) (list (string * val)) :=
  state ← mlift (add_to "idle_iterations" 1 (dset "scheduler_status" (VStr "paused") state));
  state ← save_state (dset "updated_at" (VStr (time_text now)) state);
  save_with_event runtime_config "scheduler.paused"
    (shown ["scheduler_id"; "scheduler_status"; "loop_iteration"] state)
    (event_key state "scheduler.paused" (py_str (vget "loop_iteration" state))) now state.

Definition idle_iteration (runtime_config : val) (now : instant) (state : list (string * val)) :
    M (world W) (list (string * val)) :=
  state ← mlift (add_to "idle_iterations" 1 (dset "scheduler_status" (VStr "idle") state));
  state ← save_state (dset "updated_at" (VStr (time_text now))
            (dset "last_result" (VDict [("dispatched", VBool false);
                                        ("reason", VStr "no_dispatchable_mission")]) state));
  save_with_event runtime_config "scheduler.idle"
    (shown ["scheduler_id"; "scheduler_status"; "loop_iteration"] state
     ++ [("reason", VStr "no_dispatchable_mission")])
    (event_key state "scheduler.idle" (py_str (vget "loop_iteration" state))) now state.

(** The leased entry is marked running and the state saved. *)
Definition start_entry (now : instant) (entry : list (string * val)) : res (list (string * val)) :=
  let at_ := VStr (time_text now) in
  let entry := dset "entry_status" (VStr "running") entry in
  let entry := dset "started_at" (py_or (vget "started_at" entry) at_) entry in
  add_to "attempt_count" 1 (dset "updated_at" at_ entry).

(** [entries[entry_id] = seal(entry)] for a string id, and [state["entries"] = entries]. *)
Definition put_entry (entry_id : val) (entry entries state : list (string * val)) : list (string * val) :=
  dset "entries" (VDict (dset (py_str entry_id) (VDict (seal_mission_scheduler_entry entry)) entries)) state.

Definition next_entry_status (result : list (string * val)) : string :=
  let final_status := text (vget "mission_status" result) in
  if bool_decide (final_status ∈ MISSION_TERMINAL_STATUSES) then final_status
  else if is_true (vget "mission_waiting" result) then "waiting"
  else "queued".

Definition count_outcome (next_status : string) (state : list (string * val)) : res (list (string * val)) :=
  if (next_status =? "completed")%string then add_to "completed_missions" 1 state
  else if (next_status =? "waiting")%string then add_to "waiting_missions" 1 state
  else if (next_status =? "blocked")%string then add_to "blocked_missions" 1 state
  else if (next_status =? "failed")%string then add_to "failed_missions" 1 state
  else Ok state.

Definition outcome_topic (next_status : string) : string :=
  if (next_status =? "completed")%string then "scheduler.completed"
  else if (next_status =? "waiting")%string then "scheduler.waiting"
  else if bool_decide (next_status ∈ ["blocked"; "failed"; "cancelled"; "expired"; "partially_completed"])
  then "scheduler.blocked" else "scheduler.requeued".

(** The body of the [try]: run the driver and record what it reached. *)
Definition run_leased (runtime_config owner : val) (entry_id : val) (entry lease : list (string * val))
    (now : instant) : M (world W) (list (string * val)) :=
  path ← mlift (get_item "mission_path" entry);
  mission ← load_mission path;
  result ← run_mission path (vget "scheduler_state_path" mission);
  match result with
  | VDict result =>
      let final_status := text (vget "mission_status" result) in
      let next_status := next_entry_status result in
      state ← on_sched load_mission_scheduler_state;
      let entries := mapping (vget "entries" state) in
      let current_entry := mapping (get_val entry_id entries) in
      let current_entry := dset "mission_status" (VStr final_status) current_entry in
      let current_entry := dset "last_driver_result" (VDict result) current_entry in
      let current_entry := dset "last_error" VNone current_entry in
      let state := put_entry entry_id current_entry entries state in
      lease_id ← mlift (get_item "lease_id" lease);
      state ← mlift (release_mission_lease state (py_str entry_id) lease_id owner next_status now);
      mission_id ← mlift (get_item "mission_id" entry);
      let state := dset "last_result"
        (VDict [("dispatched", VBool true); ("entry_id", entry_id); ("mission_id", mission_id);
                ("mission_status", VStr final_status); ("driver_status", vget "driver_status" result);
                ("stopped_reason", vget "stopped_reason" result)]) state in
      state ← mlift (count_outcome next_status state);
      state ← save_state (dset "updated_at" (VStr (time_text now))
                           (dset "scheduler_status" (VStr "running") state));
      let topic := outcome_topic next_status in
      save_with_event runtime_config topic
        (shown ["scheduler_id"; "scheduler_status"] state
         ++ [("entry_id", entry_id); ("mission_id", mission_id); ("mission_status", VStr final_status);
             ("entry_status", VStr next_status); ("driver_status", vget "driver_status" result);
             ("stopped_reason", vget "stopped_reason" result)])
        (event_key state topic (py_str entry_id +:+ ":" +:+ final_status +:+ ":"
                                +:+ py_str (vget "attempt_count" current_entry))) now state
  | _ => mraise (AttributeErr "object has no attribute 'get'")
  end.

(** [except ValueError: pass] around the release of the [except] branch. *)
Definition release_or_keep (state : list (string * val)) (r : res (list (string * val))) :
    res (list (string * val)) :=
  match r with Raise (ValueError _) => Ok state | _ => r end.

(** The [except Exception as exc] branch. *)
Definition recover_failure (runtime_config owner : val) (entry_id : val) (entry lease : list (string * val))
    (now : instant) (exc : exn) : M (world W) (list (string * val)) :=
  state ← on_sched load_mission_scheduler_state;
  let entries := mapping (vget "entries" state) in
  let current_entry := mapping (get_val entry_id entries) in
  let current_entry := dset "last_error" (VDict [("reason", VStr (exn_text exc))]) current_entry in
  let current_entry :=
    dset "mission_status" (py_or (vget "mission_status" current_entry) (VStr "unknown")) current_entry in
  let state := put_entry entry_id current_entry entries state in
  lease_id ← mlift (get_item "lease_id" lease);
  state ← mlift (release_or_keep state
                   (release_mission_lease state (py_str entry_id) lease_id owner "queued" now));
  state ← mlift (add_to "failed_missions" 1 state);
  let state := dset "scheduler_status" (VStr "blocked") state in
  let state := dset "failure" (VDict [("critical", VBool false);
                                      ("reasons", VList [VStr (exn_text exc)])]) state in
  let state := dset "last_result"
    (VDict [("dispatched", VBool false); ("entry_id", entry_id); ("mission_id", vget "mission_id" entry);
            ("reason", VStr (exn_text exc))]) state in
  state ← save_state (dset "updated_at" (VStr (time_text now)) state);
  save_with_event runtime_config "scheduler.failed"
    (shown ["scheduler_id"; "scheduler_status"] state
     ++ [("entry_id", entry_id); ("mission_id", vget "mission_id" entry); ("reason", VStr (exn_text exc))])
    (event_key state "scheduler.failed"
       (py_str entry_id +:+ ":"
        +:+ str_take 20 (fingerprint (VDict [("reason", VStr (exn_str exc))])))) now state.

Definition dispatch_iteration (runtime_config owner : val) (now : instant) (state lease : list (string * val)) :
    M (world W) (list (string * val)) :=
  entry_id ← mlift (get_item "current_entry_id" state);
  let entries := mapping (vget "entries" state) in
  entry ← mlift (start_entry now (mapping (get_val entry_id entries)));
  let state := put_entry entry_id entry entries state in
  let state := dset "idle_iterations" (VInt 0) (dset "scheduler_status" (VStr "running") state) in
  let state := dset "started_at" (py_or (vget "started_at" state) (VStr (time_text now))) state in
  state ← save_state state;
  scheduler_id ← mlift (get_item "scheduler_id" state);
  event ← _publish_scheduler_event runtime_config "scheduler.dispatched" scheduler_id
    (shown ["scheduler_id"; "scheduler_status"] state
     ++ [("entry_id", entry_id); ("mission_id", vget "mission_id" entry);
         ("mission_path", vget "mission_path" entry); ("lease_id", vget "lease_id" lease);
         ("lease_owner", vget "owner" lease); ("attempt_count", vget "attempt_count" entry)])
    (event_key state "scheduler.dispatched" (py_str entry_id +:+ ":" +:+ py_str (vget "lease_id" lease))) now;
  state ← match event with
          | Some ev => save_state (dset "last_event_id" (vget "event_id" ev) state)
          | None => mret state
          end;
  mcatch (run_leased runtime_config owner entry_id entry lease now)
         (recover_failure runtime_config owner entry_id entry lease now).

Definition run_mission_scheduler_iteration (runtime_config owner lease_seconds : val) (now : instant) :
    M (world W) (list (string * val)) :=
  state ← on_sched load_mission_scheduler_state;
  vr ← mlift (_recover_expired_leases state now);
  state ← mlift (add_to "loop_iteration" 1 vr.1);
  state ← mlift (add_to "recovered_leases" vr.2 state);
  if truthy (vget "stop_requested" state) then stop_iteration runtime_config now state
  else if truthy (vget "pause_requested" state) then pause_iteration runtime_config now state
  else
    sl ← mlift (lease_next_mission state owner lease_seconds now);
    match sl.2 with
    | None => idle_iteration runtime_config now sl.1
    | Some lease => dispatch_iteration runtime_config owner now sl.1 lease
    end.

(** ** The loop

    [clock], [sleeper] and [stop_signal] act on the world.  A float is the
    rational it denotes. *)
Context (clock : M (world W) instant) (sleeper : QArith_base.Q -> M (world W) unit)
        (stop_signal : option (M (world W) bool)).

Definition MIN_POLL_INTERVAL : QArith_base.Q := QArith_base.Qmake 3602879701896397 36028797018963968.
Definition MAX_POLL_INTERVAL : QArith_base.Q := QArith_base.Qmake 60 1.

Definition stop_if_signalled : M (world W) unit :=
  match stop_signal with
  | None => mret tt
  | Some signal =>
      stop ← signal;
      if (stop : bool) then
        state ← on_sched load_mission_scheduler_state;
        _ ← save_state (dset "stop_requested" (VBool true) state);
        mret tt
      else mret tt
  end.

(** [if limit is not None and n >= limit: request the stop and save] *)
Definition request_stop_at (limit : option Z) (n : Z) (state : list (string * val)) :
    M (world W) (list (string * val)) :=
  match limit with
  | Some m => if (m <=? n)%Z then save_state (dset "stop_requested" (VBool true) state) else mret state
  | None => mret state
  end.

(** [None]: the fuel ran out before the loop ended. *)
Fixpoint scheduler_loop (fuel : nat) (runtime_config owner lease_seconds : val) (interval : QArith_base.Q)
    (max_iterations idle_exit_after : option Z) (iterations : Z) :
    M (world W) (option (list (string * val))) :=
  match fuel with
  | O => mret None
  | S fuel' =>
      _ ← stop_if_signalled;
      now ← clock;
      state ← run_mission_scheduler_iteration runtime_config owner lease_seconds now;
      let iterations := (iterations + 1)%Z in
      over ← mlift (val_in (vget "scheduler_status" state) ["stopped"; "failed"]);
      if (over : bool) then mret (Some state)
      else
        state ← request_stop_at max_iterations iterations state;
        idle ← mlift match idle_exit_after with
                     | Some _ => int_field "idle_iterations" 0 state
                     | None => Ok 0%Z
                     end;
        state ← request_stop_at idle_exit_after idle state;
        if truthy (vget "stop_requested" state) then
          now ← clock;
          state ← run_mission_scheduler_iteration runtime_config owner lease_seconds now;
          mret (Some state)
        else
          _ ← sleeper interval;
          scheduler_loop fuel' runtime_config owner lease_seconds interval max_iterations idle_exit_after
            iterations
  end.

Definition below_one (limit : option Z) : bool :=
  match limit with Some m => (m <? 1)%Z | None => false end.

Definition run_mission_scheduler (fuel : nat) (runtime_config owner lease_seconds : val)
    (poll_interval_seconds : QArith_base.Q) (max_iterations idle_exit_after : option Z) :
    M (world W) (option (list (string * val))) :=
  if negb (QArith_base.Qle_bool MIN_POLL_INTERVAL poll_interval_seconds
           && QArith_base.Qle_bool poll_interval_seconds MAX_POLL_INTERVAL)
  then mraise (ValueError "invalid_mission_scheduler_poll_interval")
  else if below_one max_iterations then mraise (ValueError "invalid_mission_scheduler_max_iterations")
  else if below_one idle_exit_after then mraise (ValueError "invalid_mission_scheduler_idle_exit_after")
  else
    state ← on_sched load_mission_scheduler_state;
    started ← (if truthy (vget "started_at" state) then mret (vget "started_at" state)
               else now ← clock; mret (VStr (time_text now)));
    _ ← save_state (dset "stopped_at" VNone
                     (dset "started_at" started (dset "scheduler_status" (VStr "running") state)));
    scheduler_loop fuel runtime_config owner lease_seconds poll_interval_seconds
      max_iterations idle_exit_after 0.

End iteration.

(** ** What the validators accept *)

(** A sound entry; [held] entries have a lease with an id, an owner and an expiry. *)
Record entry_facts (e : list (string * val)) : Prop := {
  ef_contract : vget "contract" e = VStr ENTRY_CONTRACT;
  ef_sealed : sealed sha256_hex "entry_fingerprint" e = true;
  ef_id : text (vget "entry_id" e) <> "";
  ef_mission : text (vget "mission_id" e) <> "";
  ef_path : text (vget "mission_path" e) <> "";
  ef_status : exists s, vget "entry_status" e = VStr s
    /\ s ∈ ACTIVE_ENTRY_STATUSES ++ TERMINAL_ENTRY_STATUSES
    /\ (s ∈ ["leased"; "running"] -> lease_reasons (mapping (vget "lease" e)) = []);
  ef_priority : exists p, vget "priority" e = VInt p /\ (-100 <= p <= 100)%Z
}.

Lemma validate_entry_iff e : validate_mission_scheduler_entry (VDict e) = Ok [] <-> entry_facts e.
Proof.
  unfold validate_mission_scheduler_entry. cbn [mapping]. split.
  - destruct (val_in (vget "entry_status" e) (ACTIVE_ENTRY_STATUSES ++ TERMINAL_ENTRY_STATUSES))
      as [known|] eqn:Ek; [|done].
    destruct (val_in (vget "entry_status" e) ["leased"; "running"]) as [held|] eqn:Eh; [|done].
    cbn [mbind res_bind]. intros [= H]. rewrite !app_nil, !reason_nil, !negb_false_iff in H.
    destruct H as (Hc & Hs & Hi & Hm & Hp & Hk & Hpr & Hl).
    apply String.eqb_neq in Hi, Hm, Hp. apply py_eq_str in Hc.
    destruct (proj1 (val_in_spec _ _ _ Ek) Hk) as (s & Es & Hin). split; try done.
    + exists s. split_and!; [done|done|]. intros Hheld. rewrite Es in Eh.
      rewrite val_in_true in Eh by done. injection Eh as <-. exact Hl.
    + destruct (vget "priority" e) as [| |p| | |]; try done. exists p. split; [done|].
      apply negb_false_iff, andb_true_iff in Hpr. lia.
  - intros [Hc Hs Hi Hm Hp (s & Es & Hin & Hl) (p & Epr & Hpr)].
    rewrite Es, !val_in_str, (bool_decide_eq_true_2 _ Hin). cbn [mbind res_bind].
    apply String.eqb_neq in Hi, Hm, Hp. rewrite Hc, Hs, Hi, Hm, Hp, Epr.
    replace ((-100 <=? p) && (p <=? 100))%Z with true by (symmetry; apply andb_true_iff; lia).
    case_bool_decide as Hd; [rewrite (Hl Hd)|]; done.
Qed.

Definition entry_ok (kv : string * val) : Prop :=
  exists e, kv.2 = VDict e /\ vget "entry_id" e = VStr kv.1 /\ entry_facts e.

(** The scheduler's state with its entries [es], in the order [order]. *)
Record sched_repr (es : list (string * val)) (order : list string) (st : list (string * val)) : Prop := {
  sr_ok : val_ok (VDict st) = true;
  sr_contract : vget "contract" st = VStr CONTRACT;
  sr_sealed : sealed sha256_hex "scheduler_fingerprint" st = true;
  sr_id : text (vget "scheduler_id" st) <> "";
  sr_status : exists s, vget "scheduler_status" st = VStr s /\ s ∈ SCHEDULER_STATUSES;
  sr_entries : vget "entries" st = VDict es;
  sr_order : vget "entry_order" st = VList (map VStr order);
  sr_keys : forall k, k ∈ dkeys es <-> k ∈ order;
  sr_each : Forall entry_ok es
}.

Lemma get_str_stored k (es : list (string * val)) e :
  dget k es = Some (VDict e) -> mapping (get_val (VStr k) es) = e.
Proof. intros H. unfold get_val, vget. by rewrite H. Qed.

Lemma entry_ok_get es k :
  Forall entry_ok es -> k ∈ dkeys es ->
  exists e, dget k es = Some (VDict e) /\ vget "entry_id" e = VStr k /\ entry_facts e.
Proof.
  intros Hes [v Hv]%dget_is_Some_keys. pose proof (dget_Some_elem _ _ _ Hv) as Hin.
  rewrite Forall_forall in Hes. destruct (Hes _ Hin) as (e & Ev & Hid & Hf). simpl in Ev. subst v. eauto.
Qed.

Lemma entry_reasons_ok es (order : list string) k :
  (forall k, k ∈ dkeys es <-> k ∈ order) -> Forall entry_ok es -> k ∈ order ->
  entry_reasons es (VStr k) = Ok [].
Proof.
  intros Hk Hes Hin. apply Hk in Hin. destruct (entry_ok_get _ _ Hes Hin) as (e & He & Hid & Hf).
  unfold entry_reasons. rewrite (get_str_stored _ _ _ He), Hid. cbn [py_eq]. rewrite String.eqb_refl.
  cbn [negb]. apply validate_entry_iff in Hf. rewrite Hf. done.
Qed.

Lemma entry_reasons_inv es k :
  dict_ok es -> entry_reasons es (VStr k) = Ok [] -> forall v, (k, v) ∈ es -> entry_ok (k, v).
Proof.
  intros Hd H v Hin. apply (elem_dget _ _ _ Hd) in Hin. unfold entry_reasons, get_val, vget in H.
  rewrite Hin in H. fold (vget "entry_id" (mapping v)) in H.
  destruct (py_eq (vget "entry_id" (mapping v)) (VStr k)) eqn:E; [|done]. cbn [negb] in H.
  apply py_eq_str in E. destruct v as [| | | | |e]; try done. exists e. split_and!; [done|done|].
  apply validate_entry_iff. cbn [mapping] in H.
  destruct (validate_mission_scheduler_entry (VDict e)) as [[|r rs]|]; done.
Qed.

Lemma concat_nil_inv {A} (l : list (list A)) x : concat l = [] -> x ∈ l -> x = [].
Proof.
  induction l as [|y l IH]; simpl; [by intros _ ?%elem_of_nil|].
  intros [-> H]%app_nil [->|Hx]%elem_of_cons; auto.
Qed.

(** The validator accepts exactly the states that have such a shape. *)
Lemma validate_state_iff st :
  val_ok (VDict st) = true ->
  validate_mission_scheduler_state (VDict st) = Ok [] <-> exists es order, sched_repr es order st.
Proof.
  intros Hok. unfold validate_mission_scheduler_state. cbn [mapping]. split.
  - destruct (val_in (vget "scheduler_status" st) SCHEDULER_STATUSES) as [known|] eqn:Ek; [|done].
    destruct (same_keys _ _) as [same|] eqn:Esame; [|done].
    destruct (rmap _ _) as [rs|] eqn:Er; [|done]. cbn [mbind res_bind].
    intros [= H]. rewrite !app_nil, !reason_nil, !negb_false_iff in H.
    destruct H as (Hc & Hs & Hi & Hk & Hm & Hl & -> & Hrs). apply py_eq_str in Hc.
    apply String.eqb_neq in Hi. destruct (proj1 (val_in_spec _ _ _ Ek) Hk) as (s & Es & Hin).
    destruct (vget "entries" st) as [| | | | |es] eqn:Ee; try done.
    destruct (vget "entry_order" st) as [| | | |l|] eqn:Eo; try done. cbn [mapping] in *.
    destruct (same_keys_spec _ _ Esame) as (order & -> & Hkeys). exists es, order. split; try done; eauto.
    assert (Hd : dict_ok es).
    { pose proof (val_ok_get "entries" _ Hok) as Hes. rewrite Ee in Hes. by apply val_ok_dict in Hes as [? _]. }
    apply Forall_forall. intros [k v] Hkv.
    assert (Hko : k ∈ order) by (apply Hkeys, list_elem_of_fmap; by exists (k, v)).
    apply (entry_reasons_inv es); [done| |done]. apply rmap_inv in Er.
    apply list_elem_of_lookup in Hko as [i Hi'].
    destruct (Forall2_lookup_l _ _ _ i (VStr k) Er) as (r & Hr & Hrk).
    { rewrite list_lookup_fmap, Hi'. done. }
    rewrite Hrk. f_equal. apply (concat_nil_inv _ _ Hrs). by apply list_elem_of_lookup_2 in Hr.
  - intros (es & order & [_ Hc Hs Hi (s & Es & Hin) He Ho Hk Hes]).
    rewrite Es, val_in_true, He, Ho by done. cbn [mbind res_bind mapping].
    rewrite same_keys_true by done. cbn [mbind res_bind]. rewrite (rmap_ok _ _ []).
    2:{ intros v Hv%list_elem_of_In. apply in_map_iff in Hv as (k & <- & Hko).
        apply (entry_reasons_ok _ order); [done..|by apply list_elem_of_In]. }
    cbn [mbind res_bind]. apply String.eqb_neq in Hi.
    rewrite concat_nils, Hc, Hs, Hi. done.
Qed.

(** ** Taking back leases that ran out *)

Definition status_in (names : list string) (e : list (string * val)) : bool :=
  match vget "entry_status" e with VStr s => bool_decide (s ∈ names) | _ => false end.

Definition held (e : list (string * val)) : bool := status_in ["leased"; "running"] e.

(** The entry is held and its lease has run out at [now]. *)
Definition gone (now : instant) (e : list (string * val)) : bool :=
  held e && match lease_expired (mapping (vget "lease" e)) now with Ok b => b | Raise _ => false end.

Definition requeued (now : instant) (kv : string * val) : string * val :=
  match kv.2 with
  | VDict e => if gone now e then (kv.1, VDict (requeue_entry now e)) else kv
  | _ => kv
  end.

(** What taking back expired leases makes of an entry: it is queued again
    without a lease and is the same mission at the same place, or nothing happened to it. *)
Definition taken_back (now : instant) (e e' : list (string * val)) : Prop :=
  if gone now e then
    vget "entry_status" e' = VStr "queued" /\ vget "lease" e' = VNone
    /\ forall f, f ∉ ["entry_status"; "lease"; "updated_at"; "last_error"; "entry_fingerprint"] ->
         vget f e' = vget f e
  else e' = e.

Lemma requeued_taken_back now es k e :
  (k, VDict e) ∈ es -> exists e', (k, VDict e') ∈ map (requeued now) es /\ taken_back now e e'.
Proof.
  intros H%(list_elem_of_fmap_2 (requeued now)). unfold requeued in H at 1. unfold taken_back. simpl in H.
  destruct (gone now e); [|by exists e].
  exists (requeue_entry now e). split; [exact H|].
  unfold requeue_entry, seal_mission_scheduler_entry. split_and!.
  - by rewrite !vget_seal_ne, !vget_dset_ne, vget_dset_eq by done.
  - by rewrite !vget_seal_ne, !vget_dset_ne, vget_dset_eq by done.
  - intros f Hf. rewrite !not_elem_of_cons in Hf. destruct_and! Hf.
    by rewrite vget_seal_ne, !vget_dset_ne by congruence.
Qed.

(** No held entry has an expiry that lies outside the calendar. *)
Definition times_ok (now : instant) (es : list (string * val)) : Prop :=
  forall k e, (k, VDict e) ∈ es -> held e = true ->
  exists b, lease_expired (mapping (vget "lease" e)) now = Ok b.

Lemma val_in_status e names :
  entry_facts e -> val_in (vget "entry_status" e) names = Ok (status_in names e).
Proof. intros H. destruct (ef_status _ H) as (s & Es & _). unfold status_in. rewrite Es. apply val_in_str. Qed.

(** An entry rewritten and sealed again. *)
Ltac entry_get := rewrite !vget_seal_ne by done; bus_get.

Lemma lease_reasons_ok id owner at_ t :
  strip id <> "" -> strip owner <> "" -> t <> "" ->
  lease_reasons [("lease_id", VStr id); ("owner", VStr owner); ("acquired_at", at_); ("expires_at", VStr t)] = [].
Proof.
  intros Hi Ho Ht. unfold lease_reasons, vget. simpl. rewrite !nonempty_text by done.
  by apply String.eqb_neq in Ht as ->.
Qed.

(** Rewriting the status and fields the validator does not read. *)
Lemma entry_facts_change e e' s :
  entry_facts e ->
  Forall (fun k => vget k e' = vget k e) ["contract"; "entry_id"; "mission_id"; "mission_path"; "priority"] ->
  sealed sha256_hex "entry_fingerprint" e' = true ->
  vget "entry_status" e' = VStr s -> s ∈ ACTIVE_ENTRY_STATUSES ++ TERMINAL_ENTRY_STATUSES ->
  (s ∈ ["leased"; "running"] -> lease_reasons (mapping (vget "lease" e')) = []) ->
  entry_facts e'.
Proof.
  intros [] Hk Hs Es Hin Hl. rewrite !Forall_cons in Hk. destruct Hk as (E1 & E2 & E3 & E4 & E5 & _).
  split; rewrite ?E1, ?E2, ?E3, ?E4, ?E5; eauto.
Qed.

Lemma requeue_facts now e : entry_facts e -> entry_facts (requeue_entry now e).
Proof.
  intros H. unfold requeue_entry, seal_mission_scheduler_entry. apply (entry_facts_change e _ "queued"); [done|..].
  - repeat constructor; by bus_get.
  - apply sealed_seal.
  - by bus_get.
  - by repeat constructor.
  - intros Hin. by apply (bool_decide_eq_true_2 _) in Hin.
Qed.

Lemma requeue_id now e : vget "entry_id" (requeue_entry now e) = vget "entry_id" e.
Proof. unfold requeue_entry, seal_mission_scheduler_entry. by bus_get. Qed.

Lemma requeue_queued now e : vget "entry_status" (requeue_entry now e) = VStr "queued".
Proof. unfold requeue_entry, seal_mission_scheduler_entry. by bus_get. Qed.

Lemma requeued_key now kv : (requeued now kv).1 = kv.1.
Proof. unfold requeued. destruct kv as [k v]. simpl. destruct v; try done. by destruct (gone now d). Qed.

Lemma requeued_ok now kv : entry_ok kv -> entry_ok (requeued now kv).
Proof.
  intros (e & Hv & Hid & Hf). unfold requeued. rewrite Hv. destruct (gone now e); [|by exists e].
  exists (requeue_entry now e). split_and!; [done|by rewrite requeue_id|by apply requeue_facts].
Qed.

Lemma requeued_idemp now kv : requeued now (requeued now kv) = requeued now kv.
Proof.
  unfold requeued at 2 3. destruct kv as [k v]; simpl.
  destruct v as [| | | | |e]; try done. destruct (gone now e) eqn:E; [|unfold requeued; simpl; by rewrite E].
  unfold requeued. simpl. unfold gone, held, status_in. by rewrite requeue_queued.
Qed.

Lemma dset_map_key {A} k (v : A) (f : string * A -> string * A) (d : list (string * A)) :
  dict_ok d -> k ∈ dkeys d -> (forall w, (k, w) ∈ d -> f (k, w) = (k, v)) ->
  dset k v d = map (fun kv => if (kv.1 =? k)%string then f kv else kv) d.
Proof.
  induction d as [|[k' w] d IH]; simpl; intros Hd Hk Hf; [by apply elem_of_nil in Hk|].
  apply NoDup_cons in Hd as [Hn Hd]. destruct (String.eqb_spec k' k) as [->|Hne].
  - rewrite (Hf w) by (by apply elem_of_cons; left). f_equal. symmetry.
    rewrite <- (map_id d) at 2. apply map_ext_in. intros [k2 w2] Hin%list_elem_of_In. simpl.
    destruct (String.eqb_spec k2 k) as [->|]; [|done]. destruct Hn. apply list_elem_of_fmap. by exists (k, w2).
  - f_equal. apply IH; [done| |].
    + apply elem_of_cons in Hk as [Hk|Hk]; [by destruct Hne|done].
    + intros w' Hin. apply Hf. by apply elem_of_cons; right.
Qed.

(** One turn of the loop, on the entry [k]. *)
Definition requeue_at (now : instant) (k : string) (es : list (string * val)) : list (string * val) :=
  map (fun kv => if (kv.1 =? k)%string then requeued now kv else kv) es.

Lemma requeue_at_keys now k es : dkeys (requeue_at now k es) = dkeys es.
Proof.
  unfold requeue_at, dkeys. rewrite <- list_fmap_compose. apply list_fmap_ext. intros i kv _. simpl.
  destruct (kv.1 =? k)%string; [apply requeued_key|done].
Qed.

Lemma requeue_at_ok now k es : Forall entry_ok es -> Forall entry_ok (requeue_at now k es).
Proof.
  intros Hes. apply Forall_fmap. eapply Forall_impl; [exact Hes|]. intros kv Hkv. simpl.
  destruct (kv.1 =? k)%string; [by apply requeued_ok|done].
Qed.

Lemma requeue_at_times now k es : times_ok now es -> times_ok now (requeue_at now k es).
Proof.
  intros Ht k' e' ([k2 v2] & Hkv & Hin2)%list_elem_of_fmap Hh. simpl in Hkv.
  destruct (k2 =? k)%string; [|injection Hkv as <- <-; by apply (Ht k')].
  unfold requeued in Hkv. simpl in Hkv. destruct v2 as [| | | | |e2]; try done.
  destruct (gone now e2); [|injection Hkv as <- <-; by apply (Ht k')].
  injection Hkv as -> ->. unfold held, status_in in Hh. by rewrite requeue_queued in Hh.
Qed.

Lemma requeue_at_same now k es e :
  dict_ok es -> dget k es = Some (VDict e) -> gone now e = false -> requeue_at now k es = es.
Proof.
  intros Hd He Hg. unfold requeue_at. rewrite <- (map_id es) at 2. apply map_ext_in.
  intros [k2 v2] Hin%list_elem_of_In. simpl. destruct (String.eqb_spec k2 k) as [->|]; [|done].
  apply (elem_dget _ _ _ Hd) in Hin. rewrite He in Hin. injection Hin as <-.
  unfold requeued. simpl. by rewrite Hg.
Qed.

Lemma requeue_at_gone now k es e :
  dict_ok es -> dget k es = Some (VDict e) -> gone now e = true ->
  dset k (VDict (requeue_entry now e)) es = requeue_at now k es.
Proof.
  intros Hd He Hg. apply dset_map_key; [done| |].
  - apply dget_is_Some_keys. by rewrite He.
  - intros w Hw. apply (elem_dget _ _ _ Hd) in Hw. rewrite He in Hw. injection Hw as <-.
    unfold requeued. simpl. by rewrite Hg.
Qed.

Definition gone_at (now : instant) (k : string) (es : list (string * val)) : bool :=
  match dget k es with Some (VDict e) => gone now e | _ => false end.

(** How many leases a visit of the order takes back. *)
Fixpoint count_gone (now : instant) (order : list string) (es : list (string * val)) : Z :=
  match order with
  | [] => 0
  | k :: order' => Z.b2z (gone_at now k es) + count_gone now order' (requeue_at now k es)
  end.

Lemma recover_one_spec now k es n :
  dict_ok es -> Forall entry_ok es -> times_ok now es -> k ∈ dkeys es ->
  recover_one now (es, n) (VStr k) = Ok (requeue_at now k es, n + Z.b2z (gone_at now k es))%Z.
Proof.
  intros Hd Hes Ht Hin. destruct (entry_ok_get _ _ Hes Hin) as (e & He & Hid & Hf).
  pose proof (dget_Some_elem _ _ _ He) as Hke.
  unfold recover_one, gone_at. rewrite He. cbn [hashable negb].
  rewrite (get_str_stored _ _ _ He), (val_in_status _ _ Hf). cbn [mbind res_bind]. fold (held e).
  pose proof (requeue_at_same now k es e Hd He) as Hsame.
  pose proof (requeue_at_gone now k es e Hd He) as Hgone. unfold gone in *.
  destruct (held e) eqn:Eh; cbn [negb andb] in *; [|by rewrite Hsame, Z.add_0_r].
  destruct (Ht _ _ Hke Eh) as [b Hb]. rewrite Hb in *. cbn [mbind res_bind].
  destruct b; cbn [negb]; [by rewrite Hgone|by rewrite Hsame, Z.add_0_r].
Qed.

(** The loop visits the order, which may only repeat what it has done. *)
Lemma recover_loop now (order : list string) : forall es n,
  dict_ok es -> Forall entry_ok es -> times_ok now es -> (forall k, k ∈ order -> k ∈ dkeys es) ->
  rfold (recover_one now) (map VStr order) (es, n)
  = Ok (map (fun kv => if bool_decide (kv.1 ∈ order) then requeued now kv else kv) es,
        n + count_gone now order es)%Z.
Proof.
  induction order as [|k order IH]; intros es n Hd Hes Ht Hk.
  { simpl. by rewrite map_id, Z.add_0_r. }
  assert (Hin : k ∈ dkeys es) by (apply Hk; by apply elem_of_cons; left).
  cbn [map rfold]. rewrite (recover_one_spec now k es n Hd Hes Ht Hin). cbn [mbind res_bind].
  rewrite (IH (requeue_at now k es));
    [|by unfold dict_ok; rewrite requeue_at_keys|by apply requeue_at_ok|by apply requeue_at_times|].
  2:{ intros k' Hk'. rewrite requeue_at_keys. apply Hk. by apply elem_of_cons; right. }
  cbn [count_gone]. rewrite Z.add_assoc. do 2 f_equal.
  unfold requeue_at. rewrite map_map. apply map_ext. intros [k2 v2]. simpl.
  destruct (String.eqb_spec k2 k) as [->|Hne].
  - rewrite requeued_key. simpl. rewrite (bool_decide_eq_true_2 (k ∈ k :: order)) by (by apply elem_of_cons; left).
    case_bool_decide; [apply requeued_idemp|done].
  - simpl. assert (E : bool_decide (k2 ∈ order) = bool_decide (k2 ∈ k :: order))
      by (apply bool_decide_ext; rewrite elem_of_cons; naive_solver). by rewrite E.
Qed.

(** A state whose fields were changed and that was sealed again. *)
Lemma sched_repr_change es order st es' order' st' :
  sched_repr es order st -> val_ok (VDict st') = true ->
  sealed sha256_hex "scheduler_fingerprint" st' = true ->
  Forall (fun k => vget k st' = vget k st) ["contract"; "scheduler_id"] ->
  (exists s, vget "scheduler_status" st' = VStr s /\ s ∈ SCHEDULER_STATUSES) ->
  vget "entries" st' = VDict es' -> vget "entry_order" st' = VList (map VStr order') ->
  (forall k, k ∈ dkeys es' <-> k ∈ order') -> Forall entry_ok es' ->
  sched_repr es' order' st'.
Proof.
  intros [] Hok Hs Hk Hst He Ho Hkeys Hes. rewrite !Forall_cons in Hk. destruct Hk as (E1 & E2 & _).
  split; rewrite ?E1, ?E2; done.
Qed.

Lemma sched_dict es order st : sched_repr es order st -> val_ok (VDict es) = true.
Proof. intros H. rewrite <- (sr_entries _ _ _ H). apply val_ok_get, (sr_ok _ _ _ H). Qed.

Lemma order_field es order st :
  sched_repr es order st -> vget_or "entry_order" (VList []) st = VList (map VStr order).
Proof.
  intros H. pose proof (sr_order _ _ _ H) as Ho. unfold vget_or, vget in *.
  destruct (dget "entry_order" st); [done|done].
Qed.

Lemma val_ok_requeued now es : val_ok (VDict es) = true -> val_ok (VDict (map (requeued now) es)) = true.
Proof.
  intros [Hd Hv]%val_ok_dict. apply val_ok_dict. split.
  - unfold dict_ok, dkeys in *. rewrite <- list_fmap_compose.
    erewrite list_fmap_ext; [exact Hd|]. intros i kv _. apply requeued_key.
  - apply Forall_fmap. eapply Forall_impl; [exact Hv|]. intros [k v] Hkv. simpl.
    unfold requeued. simpl in *. destruct v as [| | | | |e]; try done. destruct (gone now e); [|done].
    simpl snd. unfold requeue_entry, seal_mission_scheduler_entry. bus_ok.
Qed.

Lemma recover_spec now es order st r :
  sched_repr es order st -> times_ok now es -> vget "recovered_leases" st = VInt r ->
  let n := count_gone now order es in
  exists st', _recover_expired_leases st now = Ok (st', n)
    /\ sched_repr (map (requeued now) es) order st'
    /\ vget "recovered_leases" st' = VInt (r + n)
    /\ (forall k, k ∉ ["entries"; "recovered_leases"; "scheduler_fingerprint"] -> vget k st' = vget k st).
Proof.
  intros H Ht Hr n. pose proof (sched_dict _ _ _ H) as Hes. pose proof (proj1 (proj1 (val_ok_dict _) Hes)) as Hd.
  unfold _recover_expired_leases. rewrite (order_field _ _ _ H), (sr_entries _ _ _ H).
  cbn [py_iter mbind res_bind mapping].
  pose proof (recover_loop now order es 0%Z Hd (sr_each _ _ _ H) Ht
                (fun k Hk => proj2 (sr_keys _ _ _ H k) Hk)) as E.
  assert (Em : map (fun kv => if bool_decide (kv.1 ∈ order) then requeued now kv else kv) es
               = map (requeued now) es).
  { apply map_ext_in. intros kv Hin%list_elem_of_In. rewrite bool_decide_eq_true_2; [done|].
    apply (sr_keys _ _ _ H), list_elem_of_fmap. eauto. }
  rewrite E, Em. cbn [mbind res_bind].
  rewrite (int_field_0 _ r) by (by rewrite vget_dset_ne by congruence). cbn [mbind res_bind].
  rewrite Z.add_0_l. fold n. eexists. split; [done|]. pose proof (sr_ok _ _ _ H).
  pose proof (val_ok_requeued now _ Hes). unfold seal_mission_scheduler_state. split_and!.
  - apply (sched_repr_change es order st); [done|bus_ok|apply sealed_seal|..].
    + repeat constructor; by bus_get.
    + bus_get. apply (sr_status _ _ _ H).
    + by bus_get.
    + bus_get. apply (sr_order _ _ _ H).
    + intros k. rewrite <- (sr_keys _ _ _ H). unfold dkeys. rewrite <- list_fmap_compose.
      erewrite (list_fmap_ext (fst ∘ requeued now) fst); [done|]. intros i kv _. apply requeued_key.
    + apply Forall_fmap. eapply Forall_impl; [apply (sr_each _ _ _ H)|]. intros kv. apply requeued_ok.
  - by bus_get.
  - intros k Hk. rewrite !not_elem_of_cons in Hk. destruct Hk as (K1 & K2 & K3 & _).
    rewrite vget_seal_ne by done. rewrite !vget_dset_ne by done. done.
Qed.

(** ** The best candidate *)

Definition open_entry (e : list (string * val)) : bool := status_in ["queued"; "waiting"] e.

(** The sort key of a sound entry: less is better. *)
Definition rank (order : list string) (e : list (string * val)) : sort_key :=
  (- match vget "priority" e with VInt p => p | _ => 0 end,
   default (10 ^ 9) (last_index 0 (map VStr order) (vget "entry_id" e)),
   str_or_empty (vget "enqueued_at" e))%Z.

Fixpoint open_entries (vs : list val) : list (list (string * val)) :=
  match vs with
  | [] => []
  | VDict e :: vs' => if open_entry e then e :: open_entries vs' else open_entries vs'
  | _ :: vs' => open_entries vs'
  end.

Lemma elem_of_open_entries e vs : e ∈ open_entries vs <-> VDict e ∈ vs /\ open_entry e = true.
Proof.
  induction vs as [|v vs IH]; cbn [open_entries]; [rewrite !elem_of_nil; tauto|].
  rewrite (elem_of_cons vs). destruct v as [| | | | |d];
    try (rewrite IH; split; [intros [? ?]; auto|intros [[?|?] ?]; [discriminate|auto]]).
  destruct (open_entry d) eqn:E.
  - rewrite elem_of_cons, IH. split; [intros [->|[? ?]]; auto|].
    intros [[H|?] ?]; [injection H as ->; auto|auto].
  - rewrite IH. split; [intros [? ?]; auto|]. intros [[H|?] ?]; [injection H as ->; congruence|auto].
Qed.

Lemma candidates_spec order (es : list (string * val)) :
  Forall entry_ok es ->
  candidates_of (map VStr order) es.*2
  = Ok (map (fun e => (rank order e, e)) (open_entries es.*2)).
Proof.
  induction 1 as [|[k v] es (e & Hv & Hid & Hf) Hes IH]; [done|]. simpl in Hv, Hid. subst v.
  cbn [fmap list_fmap snd candidates_of open_entries]. change (list_fmap _ _ snd es) with es.*2.
  rewrite (val_in_status _ _ Hf). cbn [mbind res_bind]. fold (open_entry e).
  destruct (open_entry e); [|exact IH]. unfold candidate_key.
  destruct (ef_priority _ Hf) as (p & Hp & _). rewrite (int_field_0 _ p) by done.
  cbn [mbind res_bind]. rewrite Hid. cbn [hashable negb mbind res_bind]. rewrite IH.
  cbn [mbind res_bind map]. do 3 f_equal. unfold rank. by rewrite Hp, Hid.
Qed.

Lemma key_leb_total a b : key_leb a b = false -> key_leb b a = true.
Proof.
  destruct a as [[p i] s], b as [[p' i'] s']. unfold key_leb.
  destruct (Z.ltb_spec p p'), (Z.eqb_spec p p'), (Z.ltb_spec p' p), (Z.eqb_spec p' p); try lia; try done.
  destruct (Z.ltb_spec i i'), (Z.eqb_spec i i'), (Z.ltb_spec i' i), (Z.eqb_spec i' i); try lia; try done.
  simpl. intros Hf. destruct (String.leb_total s s') as [E|E]; [by rewrite E in Hf|done].
Qed.

Lemma key_leb_spec p i s p' i' s' :
  key_leb (p, i, s) (p', i', s') = true
  <-> (p < p' \/ p = p' /\ (i < i' \/ i = i' /\ str_le s s'))%Z.
Proof.
  unfold key_leb, str_le. rewrite !orb_true_iff, !andb_true_iff, !orb_true_iff, !andb_true_iff.
  rewrite !Z.ltb_lt, !Z.eqb_eq. done.
Qed.

Lemma key_leb_trans a b c : key_leb a b = true -> key_leb b c = true -> key_leb a c = true.
Proof.
  destruct a as [[p i] s], b as [[p' i'] s'], c as [[p2 i2] s2]. rewrite !key_leb_spec.
  intros [H1|(-> & [H1|(-> & H1)])] [H2|(-> & [H2|(-> & H2)])]; try (left; lia); right; (split; [done|]);
    try (left; lia); right; (split; [done|]). by etrans.
Qed.

Lemma key_leb_refl a : key_leb a a = true.
Proof. destruct a as [[p i] s]. apply key_leb_spec. right. split; [done|]. right. by split. Qed.

(** The head of the sorted candidates is an open entry none other beats. *)
Lemma best_candidate order vs e l :
  map snd (isort (fun a b => key_leb a.1 b.1) (map (fun e => (rank order e, e)) (open_entries vs))) = e :: l ->
  e ∈ open_entries vs /\ forall c, c ∈ open_entries vs -> key_leb (rank order e) (rank order c) = true.
Proof.
  set (keyed := map _ (open_entries vs)). intros H.
  pose proof (isort_perm (fun a b : sort_key * list (string * val) => key_leb a.1 b.1) keyed) as Hp.
  pose proof (isort_sorted (fun a b : sort_key * list (string * val) => key_leb a.1 b.1)
    (fun x y => key_leb_total x.1 y.1) (fun x y z => key_leb_trans x.1 y.1 z.1) keyed) as Hs.
  destruct (isort _ keyed) as [|[r e'] l'] eqn:E; [done|]. injection H as -> _.
  assert (Hk : forall x, x ∈ (r, e) :: l' <-> exists c, x = (rank order c, c) /\ c ∈ open_entries vs).
  { intros x. rewrite Hp. unfold keyed. rewrite list_elem_of_fmap. naive_solver. }
  destruct (proj1 (Hk (r, e)) ltac:(by apply elem_of_cons; left)) as (c & Ec & Hc).
  pose proof (f_equal fst Ec) as E1. pose proof (f_equal snd Ec) as E2. cbn [fst snd] in E1, E2.
  subst r c. split; [done|]. intros c Hc'. apply StronglySorted_inv in Hs as [_ Hs].
  assert (Hin : (rank order c, c) ∈ (rank order e, e) :: l') by (apply Hk; eauto).
  apply elem_of_cons in Hin as [Heq|Hin].
  - apply (f_equal snd) in Heq. cbn [snd] in Heq. subst c. apply key_leb_refl.
  - rewrite Forall_forall in Hs. apply (Hs _ Hin).
Qed.

(** ** Leasing *)

(** Replacing a sound entry by a sound entry of the same id. *)
Lemma replace_entry es order st k e e' st' :
  sched_repr es order st -> dget k es = Some (VDict e) ->
  entry_facts e' -> vget "entry_id" e' = VStr k -> val_ok (VDict e') = true ->
  val_ok (VDict st') = true -> sealed sha256_hex "scheduler_fingerprint" st' = true ->
  Forall (fun k => vget k st' = vget k st) ["contract"; "scheduler_id"; "scheduler_status"; "entry_order"] ->
  vget "entries" st' = VDict (dset k (VDict e') es) ->
  sched_repr (dset k (VDict e') es) order st'.
Proof.
  intros H Hk Hf Hid Hok Hst Hs Hsame He. rewrite !Forall_cons in Hsame.
  destruct Hsame as (E1 & E2 & E3 & E4 & _).
  apply (sched_repr_change es order st); [done|done|done|by repeat constructor|..].
  - rewrite E3. apply (sr_status _ _ _ H).
  - done.
  - rewrite E4. apply (sr_order _ _ _ H).
  - intros k'. rewrite elem_of_dkeys_dset, <- (sr_keys _ _ _ H). split; [|by right].
    intros [->|?]; [|done]. apply dget_is_Some_keys. by rewrite Hk.
  - apply Forall_dset; [by exists e'|apply (sr_each _ _ _ H)].
Qed.

Lemma val_ok_entry es order st k e :
  sched_repr es order st -> dget k es = Some (VDict e) -> val_ok (VDict e) = true.
Proof.
  intros H Hk. pose proof (val_ok_get k _ (sched_dict _ _ _ H)) as Hv.
  unfold vget in Hv. by rewrite Hk in Hv.
Qed.

Definition leased (scheduler_id : val) (owner : string) (now expiry : instant) (k : string)
    (e : list (string * val)) : list (string * val) :=
  lease_entry (_lease_identity scheduler_id (VStr k) owner (time_text now)) owner (time_text now)
    (time_text expiry) e.

Lemma leased_facts sid owner now expiry k e :
  entry_facts e -> strip owner <> "" -> in_range expiry = true ->
  entry_facts (seal_mission_scheduler_entry (leased sid owner now expiry k e)).
Proof.
  intros Hf Ho [He1 He2]%andb_true_iff. apply Z.leb_le in He1. apply Z.ltb_lt in He2.
  unfold seal_mission_scheduler_entry, leased, lease_entry.
  apply (entry_facts_change e _ "leased"); [done|repeat constructor; by bus_get|apply sealed_seal|by bus_get| |].
  - by repeat constructor.
  - intros _. bus_get. apply lease_reasons_ok; [by apply strip_prefix|done|by apply time_text_nonempty].
Qed.

(** The lease an entry gets. *)
Definition lease_of (sid : val) (owner : string) (now expiry : instant) (k : string) : list (string * val) :=
  [("lease_id", VStr (_lease_identity sid (VStr k) owner (time_text now))); ("owner", VStr owner);
   ("acquired_at", VStr (time_text now)); ("expires_at", VStr (time_text expiry))].

Lemma ordered_candidates es order st :
  sched_repr es order st ->
  _ordered_candidate_entries st
  = Ok (map snd (isort (fun a b => key_leb a.1 b.1)
                  (map (fun e => (rank order e, e)) (open_entries es.*2)))).
Proof.
  intros H. unfold _ordered_candidate_entries. rewrite (order_field _ _ _ H).
  cbn [py_iter mbind res_bind]. rewrite hashable_strs. cbn [negb].
  rewrite (sr_entries _ _ _ H). cbn [mapping]. by rewrite (candidates_spec _ _ (sr_each _ _ _ H)).
Qed.

(** What leasing the candidate [e] under [k] gives. *)
Record lease_given (es : list (string * val)) (order : list string) (owner : string)
    (now expiry : instant) (k : string) (e : list (string * val)) (st' : list (string * val))
    (lease : list (string * val)) : Prop := {
  lg_entry : dget k es = Some (VDict e) /\ open_entry e = true;
  lg_best : forall c, c ∈ open_entries es.*2 -> key_leb (rank order e) (rank order c) = true;
  lg_state : exists sid, lease = lease_of sid owner now expiry k
    /\ let e' := seal_mission_scheduler_entry (leased sid owner now expiry k e) in
       sched_repr (dset k (VDict e') es) order st'
       /\ vget "entry_status" e' = VStr "leased" /\ vget "lease" e' = VDict lease;
  lg_current : vget "current_entry_id" st' = VStr k
}.

Lemma lease_best es order st owner now expiry e l :
  sched_repr es order st -> strip owner <> "" -> in_range expiry = true ->
  map snd (isort (fun a b => key_leb a.1 b.1) (map (fun e => (rank order e, e)) (open_entries es.*2))) = e :: l ->
  exists k sid mid, dget k es = Some (VDict e) /\ vget "entry_id" e = VStr k
    /\ get_item "scheduler_id" st = Ok sid
    /\ get_item "mission_id" (leased sid owner now expiry k e) = Ok mid
    /\ lease_given es order owner now expiry k e
         (seal_mission_scheduler_state
           (dset "updated_at" (VStr (time_text now))
             (dset "current_mission_id" mid
               (dset "current_entry_id" (VStr k)
                 (dset "entries" (VDict (dset k
                    (VDict (seal_mission_scheduler_entry (leased sid owner now expiry k e))) es)) st)))))
         (lease_of sid owner now expiry k).
Proof.
  intros H Ho Hexp Hl. destruct (best_candidate _ _ _ _ Hl) as [He Hbest].
  apply elem_of_open_entries in He as He'. destruct He' as [([k v] & Hv & Hkv)%list_elem_of_fmap Hopen].
  simpl in Hv. subst v. pose proof (sched_dict _ _ _ H) as Hes.
  apply (elem_dget _ _ _ (proj1 (proj1 (val_ok_dict _) Hes))) in Hkv as Hk.
  destruct (entry_ok_get es k (sr_each _ _ _ H)) as (e0 & He0 & Hid & Hf);
    [apply dget_is_Some_keys; by rewrite Hk|]. rewrite Hk in He0. injection He0 as <-.
  assert (Hsid : exists sid, get_item "scheduler_id" st = Ok sid).
  { pose proof (sr_id _ _ _ H) as Hi. unfold get_item, vget in *. destruct (dget _ st); [eauto|done]. }
  destruct Hsid as [sid Hsid]. exists k, sid.
  assert (Hmid : exists mid, get_item "mission_id" (leased sid owner now expiry k e) = Ok mid).
  { pose proof (ef_mission _ Hf) as Hm. unfold get_item, leased, lease_entry, vget in *.
    rewrite !dget_dset_ne by congruence. destruct (dget "mission_id" e); [eauto|done]. }
  destruct Hmid as [mid Hmid]. exists mid. split_and!; [done..|].
  pose proof (val_ok_entry _ _ _ _ _ H Hk) as Hek. pose proof (sr_ok _ _ _ H) as Hst.
  assert (Hmok : val_ok mid = true).
  { assert (Hlok : val_ok (VDict (leased sid owner now expiry k e)) = true)
      by (unfold leased, lease_entry; bus_ok; done).
    pose proof (val_ok_get "mission_id" _ Hlok) as Hg. unfold get_item, vget in *.
    destruct (dget "mission_id" _); [by injection Hmid as <-|done]. }
  assert (Hle : val_ok (VDict (seal_mission_scheduler_entry (leased sid owner now expiry k e))) = true)
    by (unfold seal_mission_scheduler_entry, leased, lease_entry; bus_ok; done).
  split; [done|done| |unfold seal_mission_scheduler_state; by bus_get].
  exists sid. split; [done|]. split; [|unfold seal_mission_scheduler_entry, leased, lease_entry; split; by bus_get].
  unfold seal_mission_scheduler_state.
  apply (replace_entry es order st k e); [done|done|by apply leased_facts| |done| |apply sealed_seal| |].
  - unfold seal_mission_scheduler_entry, leased, lease_entry. by bus_get.
  - bus_ok.
  - repeat constructor; by bus_get.
  - by bus_get.
Qed.

Lemma lease_next_spec es order st owner seconds now expiry r :
  sched_repr es order st -> times_ok now es -> vget "recovered_leases" st = VInt r ->
  text owner <> "" -> (1 <= seconds)%Z -> add_seconds now seconds = Ok expiry ->
  let es1 := map (requeued now) es in
  exists st' result, lease_next_mission st owner (VInt seconds) now = Ok (st', result)
    /\ match result with
       | None => open_entries es1.*2 = [] /\ sched_repr es1 order st'
       | Some lease => exists k e, lease_given es1 order (text owner) now expiry k e st' lease
       end
    /\ exists r', vget "recovered_leases" st' = VInt r'.
Proof.
  intros H Ht Hr Ho Hs Hx es1. destruct (recover_spec now _ _ _ _ H Ht Hr) as (st1 & E & H1 & Hr1 & _).
  fold es1 in H1. unfold lease_next_mission. apply String.eqb_neq in Ho as Ho'. rewrite Ho'.
  replace (seconds <? 1)%Z with false by (symmetry; apply Z.ltb_ge; lia).
  rewrite E. cbn [mbind res_bind fst]. rewrite (ordered_candidates _ _ _ H1). cbn [mbind res_bind].
  destruct (map snd (isort _ _)) as [|e l] eqn:El.
  - exists st1, None. split_and!; [done| |done|eauto]. apply map_eq_nil in El.
    pose proof (isort_perm (fun a b : sort_key * list (string * val) => key_leb a.1 b.1)
      (map (fun e => (rank order e, e)) (open_entries es1.*2))) as Hp.
    rewrite El in Hp. apply Permutation_nil in Hp. by apply map_eq_nil in Hp.
  - assert (Hexp : in_range expiry = true).
    { unfold add_seconds in Hx. destruct (in_range (now + seconds * SECOND)%Z) eqn:Ein; [|done]. by injection Hx as <-. }
    assert (Hown : strip (text owner) <> "") by by rewrite text_empty_idemp.
    destruct (lease_best _ _ _ (text owner) now expiry _ _ H1 Hown Hexp El)
      as (k & sid & mid & Hk & Hid & Hsid & Hmid & Hg).
    assert (Hi : get_item "entry_id" e = Ok (VStr k))
      by (unfold get_item, vget in *; destruct (dget "entry_id" e); [by rewrite Hid|done]).
    rewrite Hx, Hsid. cbn [mbind res_bind]. rewrite Hi. cbn [mbind res_bind]. fold (leased sid (text owner) now expiry k e).
    rewrite Hmid. cbn [mbind res_bind]. rewrite (sr_entries _ _ _ H1). cbn [mapping].
    eexists _, (Some (lease_of sid (text owner) now expiry k)). split; [|split; [by exists k, e|]].
    + do 3 f_equal. unfold leased, lease_entry. by bus_get.
    + unfold seal_mission_scheduler_state. bus_get. eauto.
Qed.

(** C9. [lease_next_mission], on every branch.  A blank owner and a time below
    one second are refused.  Otherwise the leases that ran out are taken back
    first; if then nothing is queued or waiting, no lease is given; else the
    entry leased is a queued or waiting one that none other beats (higher
    priority first, then the order of admission), it is recorded as leased to
    the owner, every other entry stays as it is, and the state passes its
    validator.  In particular an entry whose lease is still running is never
    leased again. *)
Theorem lease_next_correct es order st owner seconds now expiry r :
  sched_repr es order st -> times_ok now es -> vget "recovered_leases" st = VInt r ->
  add_seconds now seconds = Ok expiry ->
  if (text owner =? "")%string
  then lease_next_mission st owner (VInt seconds) now
       = Raise (ValueError "mission_scheduler_lease_owner_required")
  else if (seconds <? 1)%Z
  then lease_next_mission st owner (VInt seconds) now
       = Raise (ValueError "invalid_mission_scheduler_lease_seconds")
  else
    let es1 := map (requeued now) es in
    exists st' result, lease_next_mission st owner (VInt seconds) now = Ok (st', result)
      /\ validate_mission_scheduler_state (VDict st') = Ok []
      /\ match result with
         | None => open_entries es1.*2 = [] /\ sched_repr es1 order st'
         | Some lease => exists k e, lease_given es1 order (text owner) now expiry k e st' lease
         end.
Proof.
  intros H Ht Hr Hx. destruct (text owner =? "")%string eqn:Eo.
  { unfold lease_next_mission. by rewrite Eo. }
  destruct (seconds <? 1)%Z eqn:Es.
  { unfold lease_next_mission. by rewrite Eo, Es. }
  apply String.eqb_neq in Eo. apply Z.ltb_ge in Es. intros es1.
  destruct (lease_next_spec _ _ _ _ _ _ _ _ H Ht Hr Eo Es Hx) as (st' & result & E & Hres & _).
  exists st', result. split_and!; [done| |done]. destruct result as [lease|].
  - destruct Hres as (k & e & [_ _ (sid & _ & H' & _) _]).
    apply validate_state_iff; [apply (sr_ok _ _ _ H')|eauto].
  - destruct Hres as [_ H']. apply validate_state_iff; [apply (sr_ok _ _ _ H')|eauto].
Qed.

(** How long a lease lasts.  A lease given at [now] for [seconds] seconds
    runs out at an instant [t] that is never later than [now + seconds] and
    less than a second earlier (its text has whole seconds): before [t] it is
    not taken back, from [t] on it is. *)
Theorem lease_time_bounds sid owner now seconds expiry k :
  add_seconds now seconds = Ok expiry ->
  exists t, (now + (seconds - 1) * SECOND < t <= now + seconds * SECOND)%Z
    /\ forall later, lease_expired (lease_of sid owner now expiry k) later = Ok (t <=? later)%Z.
Proof.
  unfold add_seconds. destruct (in_range (now + seconds * SECOND)%Z) eqn:Ein; [|done]. intros [= <-].
  apply andb_true_iff in Ein as [H1%Z.leb_le H2%Z.ltb_lt].
  exists (now + seconds * SECOND - (now + seconds * SECOND) mod SECOND)%Z. split.
  - pose proof (Z.mod_pos_bound (now + seconds * SECOND)%Z SECOND ltac:(done)).
    change SECOND with 1000000%Z in *. lia.
  - intros later. unfold lease_expired.
    change (vget "expires_at" _) with (VStr (time_text (now + seconds * SECOND)%Z)).
    by rewrite parse_time_text.
Qed.

(** ** Releasing *)

Lemma released_facts s at_ e :
  entry_facts e -> s ∈ ACTIVE_ENTRY_STATUSES ++ TERMINAL_ENTRY_STATUSES -> s ∉ ["leased"; "running"] ->
  entry_facts (seal_mission_scheduler_entry (release_entry s at_ e)).
Proof.
  intros Hf Hs Hn. unfold seal_mission_scheduler_entry, release_entry.
  apply (entry_facts_change e _ s); [done| |apply sealed_seal| |done|done].
  - case_bool_decide; repeat constructor; by bus_get.
  - case_bool_decide; by bus_get.
Qed.

Lemma release_spec es order st k lease_id owner s now :
  sched_repr es order st ->
  let run := release_mission_lease st k lease_id owner s now in
  if negb (bool_decide (s ∈ ACTIVE_ENTRY_STATUSES ++ TERMINAL_ENTRY_STATUSES))
  then run = Raise (ValueError "invalid_mission_scheduler_entry_status")
  else match dget k es with
  | Some (VDict e) =>
      let lease := mapping (vget "lease" e) in
      if negb (py_eq (vget "lease_id" lease) lease_id)
      then run = Raise (ValueError "mission_scheduler_lease_identity_mismatch")
      else if negb (py_eq (vget "owner" lease) owner)
      then run = Raise (ValueError "mission_scheduler_lease_owner_mismatch")
      else exists st', run = Ok st' /\
        let e' := seal_mission_scheduler_entry (release_entry s (time_text now) e) in
        vget "entries" st' = VDict (dset k (VDict e') es)
        /\ vget "entry_status" e' = VStr s /\ vget "lease" e' = VNone
        /\ (sched_repr (dset k (VDict e') es) order st' <-> s ∉ ["leased"; "running"])
  | _ => run = Raise (ValueError "mission_scheduler_entry_not_found")
  end.
Proof.
  intros H run. unfold run, release_mission_lease.
  destruct (bool_decide (s ∈ _)) eqn:Es; cbn [negb]; [|done]. apply bool_decide_eq_true in Es.
  rewrite (sr_entries _ _ _ H). cbn [mapping].
  assert (Hv : vget k es = match dget k es with Some v => v | None => VNone end) by done. rewrite Hv.
  destruct (dget k es) as [v|] eqn:Hk; [|done].
  destruct (entry_ok_get es k (sr_each _ _ _ H)) as (e & He & Hid & Hf);
    [apply dget_is_Some_keys; by rewrite Hk|]. rewrite Hk in He. injection He as ->.
  cbn [mapping]. assert (Htr : truthy (VDict e) = true) by (destruct e; [by destruct (ef_id _ Hf)|done]).
  rewrite Htr. cbn [negb].
  destruct (py_eq (vget "lease_id" _) lease_id) eqn:Ei; cbn [negb]; [|done].
  destruct (py_eq (vget "owner" _) owner) eqn:Eo; cbn [negb]; [|done].
  eexists. split; [reflexivity|]. cbv zeta. unfold seal_mission_scheduler_state.
  split; [by bus_get|]. split.
  { unfold seal_mission_scheduler_entry, release_entry. case_bool_decide; by bus_get. }
  split.
  { unfold seal_mission_scheduler_entry, release_entry. case_bool_decide; by bus_get. }
  pose proof (sr_ok _ _ _ H) as Hst. pose proof (val_ok_entry _ _ _ _ _ H Hk) as Hek.
  pose proof (sched_dict _ _ _ H) as Hes.
  assert (Hok : val_ok (VDict (seal_mission_scheduler_entry (release_entry s (time_text now) e))) = true)
    by (unfold seal_mission_scheduler_entry, release_entry; case_bool_decide; bus_ok).
  split.
  - intros H' Hin. pose proof (sr_each _ _ _ H') as Heach. rewrite Forall_forall in Heach.
    destruct (Heach (k, _) (dget_Some_elem k _ _ (dget_dset_eq _ _ _))) as (e' & [= <-] & _ & Hf').
    destruct (ef_status _ Hf') as (s' & Es' & _ & Hl).
    assert (Hs' : s' = s).
    { unfold seal_mission_scheduler_entry, release_entry in Es'. case_bool_decide; revert Es'; bus_get;
        by intros [= <-]. }
    subst s'. specialize (Hl Hin). unfold seal_mission_scheduler_entry, release_entry in Hl.
    case_bool_decide; revert Hl; by bus_get.
  - intros Hn. apply (replace_entry es order st k e); [done|done|by apply released_facts| |done| |apply sealed_seal| |].
    + unfold seal_mission_scheduler_entry, release_entry. case_bool_decide; by bus_get.
    + bus_ok.
    + repeat constructor; by bus_get.
    + by bus_get.
Qed.

(** [release_mission_lease], on every branch.  A status that is no entry
    status is refused, then an unknown entry, a lease other than the entry's
    current one, an owner other than its holder, each with its message and in
    this order.  Otherwise the entry gets the status and no lease, every other
    entry stays as it is, and the state passes its validator, unless the new
    status is [leased] or [running]: these are accepted, and leave a state
    that does not. *)
Theorem release_correct es order st k lease_id owner s now :
  sched_repr es order st ->
  let run := release_mission_lease st k lease_id owner s now in
  if negb (bool_decide (s ∈ ACTIVE_ENTRY_STATUSES ++ TERMINAL_ENTRY_STATUSES))
  then run = Raise (ValueError "invalid_mission_scheduler_entry_status")
  else match dget k es with
  | Some (VDict e) =>
      let lease := mapping (vget "lease" e) in
      if negb (py_eq (vget "lease_id" lease) lease_id)
      then run = Raise (ValueError "mission_scheduler_lease_identity_mismatch")
      else if negb (py_eq (vget "owner" lease) owner)
      then run = Raise (ValueError "mission_scheduler_lease_owner_mismatch")
      else exists st', run = Ok st' /\
        let e' := seal_mission_scheduler_entry (release_entry s (time_text now) e) in
        vget "entries" st' = VDict (dset k (VDict e') es)
        /\ vget "entry_status" e' = VStr s /\ vget "lease" e' = VNone
        /\ (sched_repr (dset k (VDict e') es) order st' <-> s ∉ ["leased"; "running"])
  | _ => run = Raise (ValueError "mission_scheduler_entry_not_found")
  end.
Proof. apply release_spec. Qed.

(** ** The order of the candidates does not move *)

Lemma last_index_lookup (order : list string) k : forall i j,
  last_index i (map VStr order) (VStr k) = Some j ->
  (i <= j)%Z /\ order !! Z.to_nat (j - i) = Some k.
Proof.
  induction order as [|x order IH]; intros i j; [done|]. cbn [map last_index].
  destruct (last_index (i + 1) (map VStr order) (VStr k)) as [j'|] eqn:E.
  - intros [= <-]. apply IH in E as [Hi Hl]. split; [lia|].
    replace (Z.to_nat (j' - i)) with (S (Z.to_nat (j' - (i + 1)))) by lia. done.
  - cbn [py_eq]. destruct (String.eqb_spec k x) as [->|]; [|done]. intros [= <-]. split; [lia|].
    by rewrite Z.sub_diag.
Qed.

Lemma last_index_some (order : list string) k : forall i,
  k ∈ order -> exists j, last_index i (map VStr order) (VStr k) = Some j.
Proof.
  induction order as [|x order IH]; intros i Hk; [by apply elem_of_nil in Hk|]. cbn [map last_index].
  destruct (last_index (i + 1) (map VStr order) (VStr k)) as [j|] eqn:E; [eauto|].
  apply elem_of_cons in Hk as [->|Hk]; [cbn [py_eq]; rewrite String.eqb_refl; eauto|].
  destruct (IH (i + 1)%Z Hk) as [j Hj]. congruence.
Qed.

(** Entries that do not beat each other are the same entry. *)
Lemma rank_tie order e e' k k' :
  vget "entry_id" e = VStr k -> vget "entry_id" e' = VStr k' -> k ∈ order -> k' ∈ order ->
  key_leb (rank order e) (rank order e') = true -> key_leb (rank order e') (rank order e) = true -> k = k'.
Proof.
  intros Hk Hk' Hin Hin' H1 H2. unfold rank in *. rewrite Hk, Hk' in *.
  destruct (last_index_some order k 0 Hin) as [i Hi], (last_index_some order k' 0 Hin') as [j Hj].
  rewrite Hi, Hj in *. unfold default, from_option, id in *. apply key_leb_spec in H1, H2.
  assert (i = j) as -> by (destruct H1 as [?|[? [?|[? _]]]], H2 as [?|[? [?|[? _]]]]; lia).
  apply last_index_lookup in Hi as [_ Hi], Hj as [_ Hj]. congruence.
Qed.

Lemma release_keeps_rank order sid owner now expiry k s at_ e :
  let e1 := seal_mission_scheduler_entry (leased sid owner now expiry k e) in
  let e2 := seal_mission_scheduler_entry (release_entry s at_ e1) in
  rank order e2 = rank order e /\ vget "entry_status" e2 = VStr s /\ vget "entry_id" e2 = vget "entry_id" e.
Proof.
  cbv zeta. unfold rank, seal_mission_scheduler_entry, release_entry, leased, lease_entry.
  split_and!; case_bool_decide; by bus_get.
Qed.

Lemma requeued_same now k e : open_entry e = true -> requeued now (k, VDict e) = (k, VDict e).
Proof.
  unfold requeued, gone, held, open_entry, status_in. simpl. destruct (vget "entry_status" e); try done.
  intros H%bool_decide_eq_true. rewrite bool_decide_eq_false_2; [done|].
  intros [->|[->|[]%elem_of_nil]%elem_of_cons]%elem_of_cons;
    apply (bool_decide_eq_true_2 _) in H; vm_compute in H; discriminate.
Qed.

(** Putting an open entry in place of another keeps what is said of expiry. *)
Lemma open_no_expiry later k e2 es :
  open_entry e2 = true -> times_ok later es -> map (requeued later) es = es ->
  times_ok later (dset k (VDict e2) es)
  /\ map (requeued later) (dset k (VDict e2) es) = dset k (VDict e2) es.
Proof.
  intros Hopen Ht Hsame.
  assert (Hall : Forall (fun kv => kv ∈ es \/ kv = (k, VDict e2)) (dset k (VDict e2) es))
    by (apply Forall_dset; [by right|apply Forall_forall; auto]).
  rewrite Forall_forall in Hall. split.
  - intros k' e' Hin Hheld. destruct (Hall _ Hin) as [Hin'|[= -> ->]]; [by apply (Ht k')|].
    exists false. pose proof (requeued_same later k e2 Hopen) as Hq.
    unfold held, open_entry, status_in in *. destruct (vget "entry_status" e2); try done.
    apply bool_decide_eq_true in Hopen, Hheld.
    apply elem_of_cons in Hheld as [->|Hh%list_elem_of_singleton]; subst;
      apply (bool_decide_eq_true_2 _) in Hopen; vm_compute in Hopen; discriminate.
  - rewrite <- (map_id (dset k (VDict e2) es)) at 2. apply map_ext_in. intros kv Hin%list_elem_of_In.
    destruct (Hall _ Hin) as [Hin'| ->]; [|by apply requeued_same].
    apply list_elem_of_lookup in Hin' as [i Hi]. pose proof Hi as Hi'. rewrite <- Hsame in Hi'.
    rewrite list_lookup_fmap, Hi in Hi'. by injection Hi'.
Qed.

(** The state after a release under an open status. *)
Lemma release_open es order st1 k sid owner now expiry e s now1 st2 :
  let e1 := seal_mission_scheduler_entry (leased sid owner now expiry k e) in
  sched_repr (dset k (VDict e1) es) order st1 -> s ∈ ["queued"; "waiting"] ->
  release_mission_lease st1 k (vget "lease_id" (lease_of sid owner now expiry k)) (VStr owner) s now1 = Ok st2 ->
  sched_repr (dset k (VDict (seal_mission_scheduler_entry (release_entry s (time_text now1) e1))) es) order st2.
Proof.
  intros e1 H1 Hs Hrel.
  pose proof (release_spec _ _ _ k (vget "lease_id" (lease_of sid owner now expiry k)) (VStr owner) s now1 H1) as Hrs.
  cbv zeta in Hrs. rewrite dget_dset_eq, Hrel in Hrs.
  repeat match type of Hrs with (if ?b then _ else _) => destruct b; [discriminate|] end.
  destruct Hrs as (st' & [= <-] & _ & _ & _ & Hiff). rewrite dset_dset in Hiff. apply Hiff.
  apply elem_of_cons in Hs as [->|Hs%list_elem_of_singleton]; subst;
    apply (bool_decide_unpack _); vm_compute; exact I.
Qed.

(** A mission that waits keeps its place at the head.  When the entry that was
    leased is released as [queued] or [waiting] and no other lease runs out in
    between, the next lease is given to the same entry, whatever else is
    queued: entries behind it are not served until it ends. *)
Theorem waiting_mission_leased_again es order st0 owner now expiry k e st1 lease s now1 st2
    owner2 seconds2 later expiry2 r :
  sched_repr es order st0 ->
  lease_given es order owner now expiry k e st1 lease -> s ∈ ["queued"; "waiting"] ->
  release_mission_lease st1 k (vget "lease_id" lease) (VStr owner) s now1 = Ok st2 ->
  times_ok later es -> map (requeued later) es = es -> vget "recovered_leases" st2 = VInt r ->
  text owner2 <> "" -> (1 <= seconds2)%Z -> add_seconds later seconds2 = Ok expiry2 ->
  exists st3 lease3, lease_next_mission st2 owner2 (VInt seconds2) later = Ok (st3, Some lease3)
    /\ vget "current_entry_id" st3 = VStr k.
Proof.
  intros H0 [[Hk Hopen] Hbest (sid & -> & H1 & _) _] Hs Hrel Ht Hsame Hr Ho Hsec Hx.
  pose proof (release_open _ _ _ _ _ _ _ _ _ _ _ _ H1 Hs Hrel) as H2.
  destruct (release_keeps_rank order sid owner now expiry k s (time_text now1) e) as (Hrank & Hst & Hid).
  set (e2 := seal_mission_scheduler_entry (release_entry s _ _)) in *.
  assert (Hopen2 : open_entry e2 = true)
    by (unfold open_entry, status_in; rewrite Hst; by apply bool_decide_eq_true).
  destruct (open_no_expiry later k e2 es Hopen2 Ht Hsame) as [Ht2 Hmap].
  destruct (lease_next_spec _ _ _ owner2 seconds2 later _ _ H2 Ht2 Hr Ho Hsec Hx) as (st3 & res & E & Hres & _).
  rewrite Hmap in Hres. assert (Hin2 : e2 ∈ open_entries (dset k (VDict e2) es).*2).
  { apply elem_of_open_entries. split; [|done]. apply list_elem_of_fmap. exists (k, VDict e2).
    split; [done|]. apply dget_Some_elem, dget_dset_eq. }
  destruct res as [lease3|]; [|destruct Hres as [Hnil _]; rewrite Hnil in Hin2; by apply elem_of_nil in Hin2].
  destruct Hres as (k' & e' & [[Hk' Ho'] Hb' _ Hcur]). exists st3, lease3. split; [done|].
  rewrite Hcur. f_equal. destruct (decide (k' = k)) as [|Hne]; [done|].
  rewrite dget_dset_ne in Hk' by congruence.
  destruct (entry_ok_get es k (sr_each _ _ _ H0)) as (e0 & He0 & Hide & _);
    [apply dget_is_Some_keys; by rewrite Hk|]. rewrite Hk in He0. injection He0 as <-.
  destruct (entry_ok_get es k' (sr_each _ _ _ H0)) as (e0 & He0 & Hide' & _);
    [apply dget_is_Some_keys; by rewrite Hk'|]. rewrite Hk' in He0. injection He0 as <-.
  symmetry. apply (rank_tie order e e'); [done|done|..].
  - apply (sr_keys _ _ _ H0), dget_is_Some_keys. by rewrite Hk.
  - apply (sr_keys _ _ _ H0), dget_is_Some_keys. by rewrite Hk'.
  - apply Hbest, elem_of_open_entries. split; [|done]. apply list_elem_of_fmap. exists (k', VDict e').
    split; [done|by apply dget_Some_elem].
  - rewrite <- Hrank. by apply Hb'.
Qed.

(** ** Admission *)

Lemma new_entry_facts resolve id mid path status priority at_ :
  strip id <> "" -> strip mid <> "" -> strip (resolve path) <> "" -> priority_ok priority = true ->
  entry_facts (new_entry resolve id mid path status priority at_).
Proof.
  intros Hi Hm Hp Hpr. unfold new_entry, seal_mission_scheduler_entry. split.
  - by rewrite vget_seal_ne.
  - apply sealed_seal.
  - rewrite vget_seal_ne by done. change (text (VStr id) <> ""). by rewrite text_strip.
  - rewrite vget_seal_ne by done. change (text (VStr mid) <> ""). by rewrite text_strip.
  - rewrite vget_seal_ne by done. change (text (VStr (resolve path)) <> ""). by rewrite text_strip.
  - rewrite vget_seal_ne by done. eexists. split; [reflexivity|].
    case_bool_decide as Ht.
    + split; [apply elem_of_app; by right|]. intros Hin.
      apply elem_of_cons in Hin as [->|Hin%list_elem_of_singleton]; subst;
        apply (bool_decide_eq_true_2 _) in Ht; vm_compute in Ht; discriminate.
    + split; [by repeat constructor|]. intros Hin. by apply (bool_decide_eq_true_2 _) in Hin.
  - rewrite vget_seal_ne by done. destruct priority as [| |n| | |]; try done. exists n. split; [done|].
    simpl in Hpr. lia.
Qed.

Lemma new_entry_val_ok resolve id mid path status priority at_ :
  priority_ok priority = true -> val_ok (VDict (new_entry resolve id mid path status priority at_)) = true.
Proof.
  intros Hp. apply val_ok_seal, val_ok_dict. split.
  - apply (bool_decide_unpack _). vm_compute. exact I.
  - repeat constructor; simpl; try done; [by destruct priority|by case_bool_decide].
Qed.

Lemma dset_new {A} k (v : A) (d : list (string * A)) : dget k d = None -> dset k v d = d ++ [(k, v)].
Proof.
  induction d as [|[k' w] d IH]; [done|]. simpl. destruct (k' =? k)%string; [done|].
  intros Hd. by rewrite IH.
Qed.

Lemma append_entry es order st id e at_ :
  sched_repr es order st -> dget id es = None -> entry_ok (id, VDict e) -> val_ok (VDict e) = true ->
  sched_repr (es ++ [(id, VDict e)]) (order ++ [id])
    (seal_mission_scheduler_state
      (dset "updated_at" (VStr at_) (dset "entry_order" (VList (map VStr (order ++ [id])))
        (dset "entries" (VDict (es ++ [(id, VDict e)])) st)))).
Proof.
  intros H Hid He Hok.
  assert (Hes : val_ok (VDict (es ++ [(id, VDict e)])) = true).
  { rewrite <- (dset_new id (VDict e) es) by done. apply val_ok_dset; [apply (sched_dict _ _ _ H)|done]. }
  pose proof (sr_ok _ _ _ H) as Hst. unfold seal_mission_scheduler_state.
  apply (sched_repr_change es order st); [done|bus_ok|apply sealed_seal|..].
  - repeat constructor; by bus_get.
  - bus_get. apply (sr_status _ _ _ H).
  - by bus_get.
  - by bus_get.
  - intros k. unfold dkeys. rewrite fmap_app, !elem_of_app, <- (sr_keys _ _ _ H). done.
  - apply Forall_app. split; [apply (sr_each _ _ _ H)|by repeat constructor].
Qed.

(** [enqueue_mission], on every branch.  The priority is checked, then the
    state, then the mission is read (its error is passed on), then its id.  A
    mission that is already admitted leaves the state as it was, an entry of
    another mission under the same id is refused; a new one is put last in
    the order, [queued] or under the terminal status it already has, and the
    state passes its validator.  Resolved paths are never blank. *)
Lemma enqueue_spec resolve casefold es order st path mission priority now :
  sched_repr es order st -> strip (resolve path) <> "" ->
  let run := enqueue_mission resolve casefold st path mission priority now in
  if negb (priority_ok priority) then run = Raise (ValueError "invalid_mission_scheduler_priority")
  else match mission with
  | Raise e => run = Raise e
  | Ok m =>
      let mid := text (vget "mission_id" m) in
      let status := text (vget "mission_status" m) in
      let id := _entry_identity resolve casefold mid path in
      if (mid =? "")%string then run = Raise (ValueError "mission_id_required")
      else match dget id es with
      | Some (VDict e) =>
          run = if py_eq (vget "mission_id" e) (VStr mid) then Ok st
                else Raise (ValueError "mission_scheduler_entry_collision")
      | _ =>
          let e := new_entry resolve id mid path status priority (time_text now) in
          exists st', run = Ok st'
            /\ sched_repr (es ++ [(id, VDict e)]) (order ++ [id]) st'
            /\ validate_mission_scheduler_state (VDict st') = Ok []
            /\ vget "recovered_leases" st' = vget "recovered_leases" st
            /\ vget "entry_status" e
               = VStr (if bool_decide (status ∈ TERMINAL_ENTRY_STATUSES) then status else "queued")
      end
  end.
Proof.
  intros H Hpath run. unfold run, enqueue_mission.
  destruct (priority_ok priority) eqn:Hp; cbn [negb]; [|done].
  assert (Hv : validate_mission_scheduler_state (VDict st) = Ok [])
    by (apply validate_state_iff; [apply (sr_ok _ _ _ H)|eauto]).
  apply refuse_invalid_ok in Hv. rewrite Hv. cbn [mbind res_bind].
  destruct mission as [m|e]; [|done]. cbn [mbind res_bind].
  destruct (text (vget "mission_id" m) =? "")%string eqn:Em; [done|]. apply String.eqb_neq in Em.
  rewrite (sr_entries _ _ _ H). cbn [mapping].
  set (mid := text (vget "mission_id" m)) in *. set (id := _entry_identity resolve casefold mid path) in *.
  assert (Hg : vget id es = match dget id es with Some v => v | None => VNone end) by done. rewrite Hg.
  destruct (dget id es) as [v|] eqn:Hid.
  - destruct (entry_ok_get es id (sr_each _ _ _ H)) as (e & He & _ & Hf);
      [apply dget_is_Some_keys; by rewrite Hid|]. rewrite Hid in He. injection He as ->. cbn [mapping].
    assert (Htr : truthy (VDict e) = true) by (destruct e; [by destruct (ef_id _ Hf)|done]).
    rewrite Htr. by destruct (py_eq (vget "mission_id" e) (VStr mid)).
  - cbn [mapping truthy]. rewrite (order_field _ _ _ H). cbn [py_iter mbind res_bind].
    set (e := new_entry resolve id mid path _ priority (time_text now)).
    rewrite (dset_new id (VDict e) es Hid). eexists. split; [reflexivity|].
    assert (He : entry_ok (id, VDict e)).
    { exists e. split; [done|]. split; [by apply vget_seal_ne|].
      apply new_entry_facts; [by apply strip_prefix| |done|done]. unfold mid. by rewrite text_empty_idemp. }
    pose proof (append_entry _ _ _ _ _ (time_text now) H Hid He (new_entry_val_ok _ _ _ _ _ _ _ Hp)) as Hrep.
    rewrite map_app in Hrep. cbn [map] in Hrep.
    split; [exact Hrep|]. split; [apply validate_state_iff; [apply (sr_ok _ _ _ Hrep)|eauto]|].
    split; [unfold seal_mission_scheduler_state; by bus_get|].
    unfold e, new_entry, seal_mission_scheduler_entry. rewrite vget_seal_ne by done. done.
Qed.

(** Updates of fields that neither the validator nor the entries depend on. *)
Lemma sched_repr_touch es order st st' :
  sched_repr es order st -> val_ok (VDict st') = true ->
  Forall (fun k => vget k st' = vget k st) ["contract"; "scheduler_id"; "entries"; "entry_order"] ->
  (exists s, vget "scheduler_status" st' = VStr s /\ s ∈ SCHEDULER_STATUSES) ->
  sched_repr es order (seal_mission_scheduler_state st').
Proof.
  intros H Hok Hk Hs. rewrite !Forall_cons in Hk. destruct Hk as (E1 & E2 & E3 & E4 & _).
  unfold seal_mission_scheduler_state.
  apply (sched_repr_change es order st); [done|by apply val_ok_seal|apply sealed_seal|..].
  - repeat constructor; by rewrite vget_seal_ne.
  - by rewrite vget_seal_ne.
  - rewrite vget_seal_ne by done. rewrite E3. apply (sr_entries _ _ _ H).
  - rewrite vget_seal_ne by done. rewrite E4. apply (sr_order _ _ _ H).
  - apply (sr_keys _ _ _ H).
  - apply (sr_each _ _ _ H).
Qed.

(** ** Runs of the state's operations *)

Inductive sched_op : Type :=
  | OpEnqueue (path : string) (mission : res (list (string * val))) (priority : val) (now : instant)
  | OpLease (owner : val) (seconds : Z) (now : instant)
  | OpRelease (k : string) (lease_id owner : val) (next_status : string) (now : instant)
  | OpAction (action : string) (now : instant).

Definition run_sched_op (resolve casefold : string -> string) (op : sched_op) (st : list (string * val)) :
    res (list (string * val)) :=
  match op with
  | OpEnqueue path mission priority now => enqueue_mission resolve casefold st path mission priority now
  | OpLease owner seconds now => fst <$> lease_next_mission st owner (VInt seconds) now
  | OpRelease k lease_id owner s now => release_mission_lease st k lease_id owner s now
  | OpAction action now => request_mission_scheduler_action st action now
  end.

(** A caller keeps the state it had when an operation raises. *)
Definition run_sched_ops (resolve casefold : string -> string) (ops : list sched_op)
    (st : list (string * val)) : list (string * val) :=
  fold_left (fun st op => match run_sched_op resolve casefold op st with Ok st' => st' | Raise _ => st end)
    ops st.

(** How the scheduler itself uses the operations: no entry is released as
    leased or running. *)
Definition sched_op_ok (op : sched_op) : Prop :=
  match op with OpRelease _ _ _ s _ => s ∉ ["leased"; "running"] | _ => True end.

(** What every state of a run has. *)
Definition sched_inv (st : list (string * val)) : Prop :=
  exists es order r, sched_repr es order st /\ (forall now, times_ok now es)
    /\ vget "recovered_leases" st = VInt r.

Lemma times_ok_dset now k e es :
  times_ok now es ->
  (held e = true -> exists b, lease_expired (mapping (vget "lease" e)) now = Ok b) ->
  times_ok now (dset k (VDict e) es).
Proof.
  intros Ht He k' e' Hin Hh.
  assert (Hall : Forall (fun kv => kv ∈ es \/ kv = (k, VDict e)) (dset k (VDict e) es))
    by (apply Forall_dset; [by right|apply Forall_forall; auto]).
  rewrite Forall_forall in Hall. destruct (Hall _ Hin) as [Hin'|[= -> ->]]; [by apply (Ht k')|by apply He].
Qed.

Lemma times_ok_map now later es : times_ok now es -> times_ok now (map (requeued later) es).
Proof.
  intros Ht k e (kv & E & Hin)%list_elem_of_fmap Hh. unfold requeued in E. destruct kv as [k' v]. simpl in E.
  destruct v as [| | | | |d]; try discriminate E.
  destruct (gone later d); injection E as <- ->; [|by apply (Ht k)].
  unfold held, status_in in Hh. by rewrite requeue_queued in Hh.
Qed.

Lemma held_status e s : vget "entry_status" e = VStr s -> s ∉ ["leased"; "running"] -> held e = false.
Proof. intros Hs Hn. unfold held, status_in. rewrite Hs. by apply bool_decide_eq_false. Qed.

Lemma sched_inv_lease st owner seconds now :
  sched_inv st ->
  match lease_next_mission st owner (VInt seconds) now with Ok (st', _) => sched_inv st' | Raise _ => True end.
Proof.
  intros (es & order & r & H & Ht & Hr).
  destruct (lease_next_mission st owner (VInt seconds) now) as [[st' res]|] eqn:E; [|done].
  destruct (decide (text owner = "")) as [Ho|Ho]; [unfold lease_next_mission in E; by rewrite Ho in E|].
  destruct (Z.ltb_spec seconds 1) as [Hs|Hs].
  { unfold lease_next_mission in E. apply String.eqb_neq in Ho. apply Z.ltb_lt in Hs. by rewrite Ho, Hs in E. }
  destruct (add_seconds now seconds) as [expiry|e] eqn:Hx.
  2: { (* nothing to lease, or the time overflows *)
    destruct (recover_spec now _ _ _ _ H (Ht now) Hr) as (st1 & E1 & H1 & Hr1 & _). unfold lease_next_mission in E.
    apply String.eqb_neq in Ho. rewrite Ho, (proj2 (Z.ltb_ge _ _) Hs), E1, Hx in E. cbn [mbind res_bind fst] in E.
    destruct (_ordered_candidate_entries st1) as [[|c l]|]; [|done..]. injection E as <- _.
    exists (map (requeued now) es), order. eexists. split_and!; [done| |done]. intros later. by apply times_ok_map. }
  destruct (lease_next_spec _ _ _ _ _ _ _ _ H (Ht now) Hr Ho Hs Hx) as (st2 & res2 & E2 & Hres & r' & Hr').
  rewrite E in E2. injection E2 as <- <-. destruct res as [lease|].
  - destruct Hres as (k & e & [_ _ (sid & _ & H' & _) _]). do 2 eexists. exists r'. split; [exact H'|].
    split; [|done]. intros later. apply times_ok_dset; [by apply times_ok_map|]. intros _.
    assert (Hin : in_range expiry = true).
    { unfold add_seconds in Hx. destruct (in_range (now + seconds * SECOND)%Z) eqn:Ein; [|done]. by injection Hx as <-. }
    apply andb_true_iff in Hin as [H1%Z.leb_le H2%Z.ltb_lt]. unfold seal_mission_scheduler_entry, leased, lease_entry.
    bus_get. cbn [mapping]. unfold lease_expired.
    change (vget "expires_at" _) with (VStr (time_text expiry)). rewrite parse_time_text by done. eauto.
  - destruct Hres as [_ H']. exists (map (requeued now) es), order, r'. split_and!; [done| |done].
    intros later. by apply times_ok_map.
Qed.

Lemma sched_inv_release st k lease_id owner s now st' :
  sched_inv st -> s ∉ ["leased"; "running"] ->
  release_mission_lease st k lease_id owner s now = Ok st' -> sched_inv st'.
Proof.
  intros (es & order & r & H & Ht & Hr) Hs E.
  assert (Hr' : vget "recovered_leases" st' = vget "recovered_leases" st).
  { unfold release_mission_lease in E.
    repeat match type of E with (if ?b then _ else _) = _ => destruct b; [discriminate E|] end.
    injection E as <-. unfold seal_mission_scheduler_state. by bus_get. }
  pose proof (release_spec es order st k lease_id owner s now H) as Hrel. cbv zeta in Hrel. rewrite E in Hrel.
  destruct (negb _); [discriminate|]. destruct (dget k es) as [v|]; [|discriminate].
  destruct v as [| | | | |e]; try discriminate.
  do 2 (destruct (negb _); [discriminate|]). destruct Hrel as (st2 & [= <-] & _ & Hst & _ & Hiff).
  do 2 eexists. exists r. split; [by apply Hiff|]. split; [|congruence].
  intros later. apply times_ok_dset; [done|]. intros Hh. by rewrite (held_status _ _ Hst Hs) in Hh.
Qed.

(** A release under one of the two statuses is accepted, and breaks the state. *)
Lemma release_breaks es order st k lease_id owner s now st' :
  sched_repr es order st -> s ∈ ["leased"; "running"] ->
  release_mission_lease st k lease_id owner s now = Ok st' -> validate_mission_scheduler_state (VDict st') <> Ok [].
Proof.
  intros H Hs E Hv. pose proof (release_spec es order st k lease_id owner s now H) as Hrel. cbv zeta in Hrel. rewrite E in Hrel.
  destruct (negb _); [discriminate|]. destruct (dget k es) as [v|] eqn:Hk; [|discriminate].
  destruct v as [| | | | |e]; try discriminate.
  do 2 (destruct (negb _); [discriminate|]). destruct Hrel as (st2 & [= <-] & He & _ & _ & Hiff).
  assert (Hst : val_ok (VDict st') = true /\ vget "entry_order" st' = vget "entry_order" st).
  { pose proof (sr_ok _ _ _ H) as Ho. pose proof (val_ok_entry _ _ _ _ _ H Hk) as Hek.
    assert (Hes : val_ok (VDict es) = true) by (rewrite <- (sr_entries _ _ _ H); by apply val_ok_get).
    unfold release_mission_lease in E. rewrite (sr_entries _ _ _ H) in E. cbn [mapping] in E.
    assert (Hg : vget k es = VDict e) by (unfold vget; by rewrite Hk). rewrite Hg in E. cbn [mapping] in E.
    repeat match type of E with (if ?b then _ else _) = _ => destruct b; [discriminate E|] end.
    injection E as <-. unfold seal_mission_scheduler_state. split; [|by bus_get].
    unfold seal_mission_scheduler_entry, release_entry. case_bool_decide; bus_ok. }
  destruct Hst as [Hok Hord]. apply (validate_state_iff _ Hok) in Hv as (es2 & order2 & H2).
  pose proof (sr_entries _ _ _ H2) as E2. rewrite He in E2. injection E2 as <-.
  pose proof (sr_order _ _ _ H2) as E2. rewrite Hord, (sr_order _ _ _ H) in E2. injection E2 as E2.
  assert (order = order2) as <-.
  { clear -E2. revert order2 E2. induction order as [|x l IH]; intros [|y m]; cbn; try done.
    intros [= <- E]. f_equal. by apply IH. }
  by apply Hiff in H2.
Qed.

Lemma new_entry_open resolve id mid path status priority at_ :
  held (new_entry resolve id mid path status priority at_) = false.
Proof.
  unfold held, status_in, new_entry, seal_mission_scheduler_entry. rewrite vget_seal_ne by done.
  apply bool_decide_eq_false. cbn [vget dget String.eqb]. simpl.
  case_bool_decide as Ht; intros Hin; [|by apply (bool_decide_eq_true_2 _) in Hin].
  apply elem_of_cons in Hin as [->|Hin%list_elem_of_singleton]; subst;
    apply (bool_decide_eq_true_2 _) in Ht; vm_compute in Ht; discriminate.
Qed.

Lemma sched_inv_enqueue resolve casefold st path mission priority now st' :
  strip (resolve path) <> "" -> sched_inv st ->
  enqueue_mission resolve casefold st path mission priority now = Ok st' -> sched_inv st'.
Proof.
  intros Hp (es & order & r & H & Ht & Hr) E.
  pose proof (enqueue_spec resolve casefold es order st path mission priority now H Hp) as Hs.
  cbv zeta in Hs. rewrite E in Hs. destruct (negb _); [discriminate|]. destruct mission as [m|]; [|discriminate].
  destruct (_ =? "")%string; [discriminate|].
  destruct (dget _ es) as [v|] eqn:Hid.
  - destruct (entry_ok_get es (_entry_identity resolve casefold (text (vget "mission_id" m)) path)
                (sr_each _ _ _ H)) as (e & He & _); [apply dget_is_Some_keys; by rewrite Hid|]. rewrite Hid in He. injection He as ->.
    destruct (py_eq _ _); [|discriminate]. injection Hs as ->. by exists es, order, r.
  - destruct Hs as (st2 & [= <-] & H' & _ & Hr' & _). do 2 eexists. exists r. split; [exact H'|].
    split; [|congruence]. intros later k e [Hin|Hin%list_elem_of_singleton]%elem_of_app Hh; [by apply (Ht later k)|].
    injection Hin as -> ->. by rewrite new_entry_open in Hh.
Qed.

Lemma sched_inv_action st action now st' :
  sched_inv st -> request_mission_scheduler_action st action now = Ok st' -> sched_inv st'.
Proof.
  intros (es & order & r & H & Ht & Hr) E. exists es, order, r. unfold request_mission_scheduler_action in E.
  pose proof (sr_ok _ _ _ H).
  assert (Hs : forall s, s ∈ ["paused"; "idle"; "stopping"] -> s ∈ SCHEDULER_STATUSES)
    by (intros s Hs; apply (bool_decide_unpack _); rewrite !elem_of_cons in Hs;
        destruct Hs as [->|[->|[->|[]%elem_of_nil]]]; vm_compute; exact I).
  repeat match type of E with (if ?b then _ else _) = _ => destruct b end; try discriminate; injection E as <-;
    (split; [apply (sched_repr_touch es order st); [done|bus_ok|repeat constructor; by bus_get|]|
             split; [done|unfold seal_mission_scheduler_state; by bus_get]]);
    bus_get; eexists; (split; [reflexivity|]); apply Hs; by repeat constructor.
Qed.

Lemma sched_inv_create resolve casefold path name now st :
  create_mission_scheduler_state resolve casefold path name now = Ok st -> sched_inv st.
Proof.
  unfold create_mission_scheduler_state. destruct (text name =? "")%string; [done|]. intros [= <-].
  exists [], [], 0%Z. unfold seal_mission_scheduler_state. split; [|split].
  - split.
    + apply val_ok_seal, val_ok_dict. split; [apply (bool_decide_unpack _); vm_compute; exact I|by repeat constructor].
    + by rewrite vget_seal_ne.
    + apply sealed_seal.
    + rewrite vget_seal_ne by done. unfold vget. cbn [dget String.eqb]. simpl. rewrite text_strip. by apply strip_prefix.
    + rewrite vget_seal_ne by done. exists "created". split; [done|]. by repeat constructor.
    + by rewrite vget_seal_ne.
    + by rewrite vget_seal_ne.
    + done.
    + constructor.
  - intros t k e Hin. by apply elem_of_nil in Hin.
  - by rewrite vget_seal_ne.
Qed.

(** C34. Every state of the scheduler is well-formed: from a new state, any
    sequence of admissions, leases (with the take-back of what ran out),
    releases under a status other than [leased] and [running], and operator
    actions, by any owners, for any time and at any times, refused calls
    included, leaves a state that passes the validator, and whose entries and
    order agree.  The exception is exact: from such a state a release under
    one of these two statuses that returns leaves a state the validator
    rejects.  (Resolved paths are not blank.) *)
Theorem scheduler_stays_valid resolve casefold path name now st ops :
  (forall p, strip (resolve p) <> "") ->
  create_mission_scheduler_state resolve casefold path name now = Ok st -> Forall sched_op_ok ops ->
  let st' := run_sched_ops resolve casefold ops st in
  validate_mission_scheduler_state (VDict st') = Ok []
  /\ (exists es order, sched_repr es order st' /\ (forall t, times_ok t es))
  /\ forall k lease_id owner s t st2, s ∈ ["leased"; "running"] ->
      release_mission_lease st' k lease_id owner s t = Ok st2 ->
      validate_mission_scheduler_state (VDict st2) <> Ok [].
Proof.
  intros Hp Hc Hops st'. assert (Hinv : sched_inv st').
  { unfold st'. apply sched_inv_create in Hc. clear st'. revert st Hc.
    induction Hops as [|op ops Hop Hops IH]; intros st Hinv; [done|]. apply IH.
    destruct (run_sched_op resolve casefold op st) as [st2|] eqn:E; [|done].
    destruct op as [p m pr t|o sec t|k l o s t|ac t]; simpl in E.
    - by eapply sched_inv_enqueue.
    - pose proof (sched_inv_lease st o sec t Hinv) as Hl.
      destruct (lease_next_mission st o (VInt sec) t) as [[st3 res]|]; [|done]. by injection E as <-.
    - by eapply sched_inv_release.
    - by eapply sched_inv_action. }
  destruct Hinv as (es & order & r & H & Ht & _). split; [apply validate_state_iff; [apply (sr_ok _ _ _ H)|eauto]|].
  split; [eauto|]. intros k l o s t st2. by eapply release_breaks.
Qed.

(** ** Iterations *)

(** After a take-back nothing is left to take back. *)
Lemma gone_requeued now e kv : requeued now kv = (kv.1, VDict e) -> gone now e = false.
Proof.
  unfold requeued. destruct kv as [k v]. simpl. destruct v as [| | | | |d]; try done.
  destruct (gone now d) eqn:E; intros [= <-]; [|done]. unfold gone, held, status_in. by rewrite requeue_queued.
Qed.

Lemma gone_at_requeued now k es : gone_at now k (map (requeued now) es) = false.
Proof.
  unfold gone_at. destruct (dget k (map (requeued now) es)) as [v|] eqn:E; [|done].
  destruct v as [| | | | |e]; try done. apply dget_Some_elem in E.
  apply list_elem_of_fmap in E as (kv & E & _). apply (gone_requeued now e kv).
  rewrite <- E. simpl. by rewrite <- (requeued_key now kv), <- E.
Qed.

Lemma requeue_at_requeued now k es : requeue_at now k (map (requeued now) es) = map (requeued now) es.
Proof.
  unfold requeue_at. rewrite map_map. apply map_ext. intros kv.
  destruct ((requeued now kv).1 =? k)%string; [apply requeued_idemp|done].
Qed.

Lemma count_gone_requeued now order es : count_gone now order (map (requeued now) es) = 0%Z.
Proof.
  induction order as [|k order IH]; [done|]. cbn [count_gone].
  by rewrite gone_at_requeued, requeue_at_requeued, IH.
Qed.

Lemma requeued_map_idemp now es : map (requeued now) (map (requeued now) es) = map (requeued now) es.
Proof. rewrite map_map. apply map_ext. apply requeued_idemp. Qed.

Section iterations.
Context {W : Type}.
Context (run_mission : val -> val -> M (world W) val).
Context (load_mission : val -> M (world W) (list (string * val))).

(** The scheduler's file holds [st], which is valid. *)
Definition on_disk (st : list (string * val)) (w : world W) : Prop :=
  validate_mission_scheduler_state (VDict st) = Ok []
  /\ f_link (w_sched w) = false /\ f_content (w_sched w) = Json (vsort (VDict st)).

(** A computation whose normal outcome is on disk when it returns. *)
Definition ends_saved (m : M (world W) (list (string * val))) : Prop :=
  forall w st w', m w = (Ok st, w') -> on_disk st w'.

Lemma ends_saved_bind {A} (m : M (world W) A) f :
  (forall a, ends_saved (f a)) -> ends_saved (m ≫= f).
Proof.
  intros Hf w st w'. unfold mbind, M_bind. destruct (m w) as [[a|e] w1]; [apply Hf|done].
Qed.

Lemma ends_saved_save st : ends_saved (save_state st).
Proof.
  intros w v w'. unfold save_state, on_sched, save_mission_scheduler_state.
  destruct (save_sealed _ _ _ _ _ _ _) as [[v'|e] f] eqn:E; [|done]. intros [= <- <-].
  apply (load_after_save _ _ _ _ _ "" "") in E as (_ & Hv & -> & _). by split_and!.
Qed.

Lemma ends_saved_raise e : ends_saved (mraise e).
Proof. done. Qed.

Lemma ends_saved_catch m h : ends_saved m -> (forall e, ends_saved (h e)) -> ends_saved (mcatch m h).
Proof.
  intros Hm Hh w st w'. unfold mcatch. destruct (m w) as [[v|e] w1] eqn:E; [|apply Hh].
  intros [= <- <-]. by apply Hm in E.
Qed.

Lemma ends_saved_event cfg topic payload key now st :
  ends_saved (save_with_event cfg topic payload key now st).
Proof. do 2 (apply ends_saved_bind; intros ?). apply ends_saved_save. Qed.

Ltac saved := repeat first
  [ apply ends_saved_event | apply ends_saved_save | apply ends_saved_raise
  | apply ends_saved_catch; [|intros ?]
  | apply ends_saved_bind; intros ?
  | match goal with |- ends_saved (match ?x with _ => _ end) => destruct x end ].

(** C20. Whatever the driver, the mission files and the event bus do: when an
    iteration returns, on whichever of its branches (stopped, paused, idle,
    dispatched, failed), the state it returns passes the validator and is what
    the scheduler's file holds. *)
Theorem iteration_saves cfg owner seconds now w st w' :
  run_mission_scheduler_iteration run_mission load_mission cfg owner seconds now w = (Ok st, w') ->
  on_disk st w'.
Proof.
  assert (H : ends_saved (run_mission_scheduler_iteration run_mission load_mission cfg owner seconds now)).
  { unfold run_mission_scheduler_iteration, stop_iteration, pause_iteration, idle_iteration, dispatch_iteration.
    saved. }
  apply H.
Qed.

(** *** Iterations that dispatch nothing *)

(** Recovery and leasing do not read the fingerprint. *)
Lemma recover_seal st now :
  _recover_expired_leases (seal_mission_scheduler_state st) now = _recover_expired_leases st now.
Proof.
  unfold _recover_expired_leases, seal_mission_scheduler_state.
  assert (Ho : vget_or "entry_order" (VList []) (seal sha256_hex "scheduler_fingerprint" st)
               = vget_or "entry_order" (VList []) st).
  { unfold vget_or, seal, unsigned. by rewrite dget_dset_ne, dget_dpop_ne. }
  rewrite Ho, vget_seal_ne by done. destruct (py_iter _) as [order|]; [|done]. cbn [mbind res_bind].
  destruct (rfold _ _ _) as [[entries m]|]; [|done]. cbn [mbind res_bind]. unfold int_field.
  rewrite !vget_dset_ne, vget_seal_ne by done. destruct (py_int _) as [n|]; [|done]. cbn [mbind res_bind].
  do 2 f_equal. unfold seal at 1 3. rewrite !unsigned_dset_ne by done. by rewrite unsigned_seal.
Qed.

Lemma lease_next_seal st owner seconds now :
  lease_next_mission (seal_mission_scheduler_state st) owner seconds now
  = lease_next_mission st owner seconds now.
Proof. unfold lease_next_mission. by rewrite recover_seal. Qed.

Lemma save_state_ok es order st (b : file) (rest : W) c :
  sched_repr es order (seal_mission_scheduler_state st) ->
  save_state st (World (File false false c) b rest)
  = (Ok (seal_mission_scheduler_state st),
     World (File false false (Json (vsort (VDict (seal_mission_scheduler_state st))))) b rest).
Proof.
  intros H. assert (Hv : validate_mission_scheduler_state (VDict (seal_mission_scheduler_state st)) = Ok [])
    by (apply validate_state_iff; [apply (sr_ok _ _ _ H)|eauto]).
  apply refuse_invalid_ok in Hv.
  unfold save_state, on_sched, save_mission_scheduler_state, save_sealed, atomic_write_json.
  unfold mbind, M_bind, mlift, mget, mmodify, mret, M_ret. cbn [w_sched w_bus w_rest].
  unfold seal_mission_scheduler_state in Hv |- *. rewrite Hv.
  cbn [f_exists f_content f_link f_dir_link]. rewrite andb_false_r. done.
Qed.

Lemma load_state_ok v (b : file) (rest : W) dl :
  validate_mission_scheduler_state v = Ok [] ->
  on_sched load_mission_scheduler_state (World (File false dl (Json v)) b rest)
  = (Ok (mapping v), World (File false dl (Json v)) b rest).
Proof.
  intros Hv%refuse_invalid_ok. unfold on_sched, load_mission_scheduler_state, load_validated, read_json.
  unfold mbind, M_bind, mlift, mget, mret, M_ret. cbn [w_sched w_bus w_rest f_link f_content].
  by rewrite Hv.
Qed.

(** Without a bus an event costs a second save. *)
Lemma event_ok es order cfg topic payload key now st (b : file) (rest : W) c :
  text (vget "event_bus_state_path" (mapping cfg)) = "" ->
  sched_repr es order st -> st = seal_mission_scheduler_state st ->
  save_with_event cfg topic payload key now st (World (File false false c) b rest)
  = (Ok st, World (File false false (Json (vsort (VDict st)))) b rest).
Proof.
  intros Hc H Hseal. unfold save_with_event, _publish_scheduler_event. rewrite Hc.
  assert (Hid : exists sid, get_item "scheduler_id" st = Ok sid).
  { pose proof (sr_id _ _ _ H) as Hi. unfold get_item, vget in *. destruct (dget _ st); [eauto|done]. }
  destruct Hid as [sid Hid]. unfold mbind at 1, M_bind at 1, mlift. rewrite Hid.
  unfold mbind, M_bind, mret, M_ret. cbn.
  rewrite (save_state_ok es order) by (by rewrite <- Hseal). by rewrite <- Hseal.
Qed.

Lemma add_to_ok k n m st : vget k st = VInt m -> add_to k n st = Ok (dset k (VInt (m + n)) st).
Proof. intros H. unfold add_to. by rewrite (int_field_0 _ m). Qed.

Lemma seal_seal st :
  seal_mission_scheduler_state (seal_mission_scheduler_state st) = seal_mission_scheduler_state st.
Proof. apply seal_idemp. Qed.

(** The state an iteration works on, after the recovery. *)
Lemma iteration_start es order st now r i (b : file) (rest : W) :
  sched_repr es order st -> times_ok now es ->
  vget "recovered_leases" st = VInt r -> vget "loop_iteration" st = VInt i ->
  let es1 := map (requeued now) es in
  let n := count_gone now order es in
  exists st1, (forall cfg owner seconds,
    run_mission_scheduler_iteration run_mission load_mission cfg owner seconds now
      (World (File false false (Json (VDict st))) b rest)
    = (if truthy (vget "stop_requested" st1) then stop_iteration cfg now st1
       else if truthy (vget "pause_requested" st1) then pause_iteration cfg now st1
       else sl ← mlift (lease_next_mission st1 owner seconds now);
            match sl.2 with
            | None => idle_iteration cfg now sl.1
            | Some lease => dispatch_iteration run_mission load_mission cfg owner now sl.1 lease
            end) (World (File false false (Json (VDict st))) b rest))
  /\ val_ok (VDict st1) = true
  /\ sched_repr es1 order (seal_mission_scheduler_state st1)
  /\ vget "entries" st1 = VDict es1 /\ vget "entry_order" st1 = VList (map VStr order)
  /\ (exists s, vget "scheduler_status" st1 = VStr s /\ s ∈ SCHEDULER_STATUSES)
  /\ vget "contract" st1 = VStr CONTRACT /\ text (vget "scheduler_id" st1) <> ""
  /\ vget "recovered_leases" st1 = VInt (r + n + n) /\ vget "loop_iteration" st1 = VInt (i + 1)
  /\ (forall k, k ∈ ["stop_requested"; "pause_requested"; "idle_iterations"] -> vget k st1 = vget k st).
Proof.
  intros H Ht Hr Hi es1 n. destruct (recover_spec now _ _ _ _ H Ht Hr) as (st0 & E & H0 & Hr0 & Hk0).
  fold es1 n in H0, E, Hr0. pose proof (sr_ok _ _ _ H0) as Hok0.
  assert (Hv : validate_mission_scheduler_state (VDict st) = Ok [])
    by (apply validate_state_iff; [apply (sr_ok _ _ _ H)|eauto]).
  exists (dset "recovered_leases" (VInt (r + n + n)) (dset "loop_iteration" (VInt (i + 1)) st0)).
  assert (Hi0 : vget "loop_iteration" st0 = VInt i)
    by (rewrite Hk0; [done|apply (bool_decide_unpack _); vm_compute; exact I]).
  split.
  { intros cfg owner seconds. unfold run_mission_scheduler_iteration.
    erewrite M_bind_ok by (by apply load_state_ok). cbn [mapping].
    rewrite (M_lift_ok _ _ _ _ E). cbn [fst snd].
    erewrite M_lift_ok by (by apply add_to_ok).
    erewrite M_lift_ok by (apply add_to_ok; by rewrite vget_dset_ne). done. }
  split; [bus_ok|]. split.
  { apply (sched_repr_touch es1 order st0); [done|bus_ok|repeat constructor; by bus_get|].
    bus_get. apply (sr_status _ _ _ H0). }
  split_and!; try (bus_get; try done; apply H0).
  intros k Hk. assert (Hall : Forall (fun k => vget k (dset "recovered_leases" (VInt (r + n + n))
    (dset "loop_iteration" (VInt (i + 1)) st0)) = vget k st) ["stop_requested"; "pause_requested"; "idle_iterations"]).
  { repeat constructor; bus_get; apply Hk0; apply (bool_decide_unpack _); vm_compute; exact I. }
  rewrite Forall_forall in Hall. by apply Hall.
Qed.

Lemma sched_repr_reseal es order st :
  sched_repr es order st -> sched_repr es order (seal_mission_scheduler_state st).
Proof.
  intros H. apply (sched_repr_touch es order st); [done|apply (sr_ok _ _ _ H)|by repeat constructor|].
  apply (sr_status _ _ _ H).
Qed.

(** Leasing right after a take-back, when no entry is open. *)
Lemma nothing_to_lease es order st1 owner seconds now r :
  let es1 := map (requeued now) es in
  sched_repr es1 order (seal_mission_scheduler_state st1) -> times_ok now es ->
  vget "recovered_leases" st1 = VInt r ->
  text owner <> "" -> (1 <= seconds)%Z -> open_entries es1.*2 = [] ->
  exists st2, lease_next_mission st1 owner (VInt seconds) now = Ok (st2, None)
    /\ sched_repr es1 order st2 /\ vget "recovered_leases" st2 = VInt r
    /\ forall k, k ∈ ["idle_iterations"; "loop_iteration"] -> vget k st2 = vget k st1.
Proof.
  intros es1 H Ht Hr Hown Hsec Hopen.
  assert (Hr' : vget "recovered_leases" (seal_mission_scheduler_state st1) = VInt r)
    by (unfold seal_mission_scheduler_state; by bus_get).
  destruct (recover_spec now _ _ _ _ H (times_ok_map _ now _ Ht) Hr') as (st2 & E & H2 & Hr2 & Hk2).
  unfold es1 in H2, Hr2, E. rewrite requeued_map_idemp in H2. rewrite count_gone_requeued in Hr2, E.
  rewrite Z.add_0_r in Hr2. exists st2. split_and!; [|done|done|].
  - rewrite <- lease_next_seal. unfold lease_next_mission. apply String.eqb_neq in Hown. rewrite Hown.
    replace (seconds <? 1)%Z with false by (symmetry; apply Z.ltb_ge; lia).
    rewrite E. cbn [mbind res_bind fst]. rewrite (ordered_candidates _ _ _ H2).
    fold es1. rewrite Hopen. done.
  - intros k Hk. unfold seal_mission_scheduler_state in Hk2.
    apply elem_of_cons in Hk as [->|Hk]; [|apply list_elem_of_singleton in Hk as ->];
      rewrite Hk2 by (apply (bool_decide_unpack _); vm_compute; exact I); by bus_get.
Qed.

(** The last steps of a quiet iteration: save, announce, save. *)
Lemma quiet_end es order cfg topic payload key now st1 st (b : file) (rest : W) c :
  text (vget "event_bus_state_path" (mapping cfg)) = "" ->
  sched_repr es order (seal_mission_scheduler_state st1) -> val_ok (VDict st) = true ->
  Forall (fun k => vget k st = vget k st1) ["contract"; "scheduler_id"; "entries"; "entry_order"] ->
  (exists s, vget "scheduler_status" st = VStr s /\ s ∈ SCHEDULER_STATUSES) ->
  let sealed_st := seal_mission_scheduler_state st in
  sched_repr es order sealed_st
  /\ (v ← save_state st; save_with_event cfg topic (payload v) (key v) now v) (World (File false false c) b rest)
     = (Ok sealed_st, World (File false false (Json (vsort (VDict sealed_st)))) b rest).
Proof.
  intros Hc H Hok Hk Hs sealed_st.
  assert (Hst : sched_repr es order sealed_st).
  { apply (sched_repr_touch es order (seal_mission_scheduler_state st1)); [done|done| |done].
    rewrite !Forall_cons in Hk. destruct Hk as (E1 & E2 & E3 & E4 & _). unfold seal_mission_scheduler_state.
    repeat constructor; by rewrite vget_seal_ne. }
  split; [done|]. erewrite M_bind_ok by (by apply (save_state_ok es order)).
  apply (event_ok es order); [done|done|]. unfold sealed_st. by rewrite seal_seal.
Qed.

(** A quiet iteration.  On a file with a valid state, without a bus, and
    when a stop or a pause is requested or nothing can be dispatched: the
    iteration returns, the scheduler is [stopped], [paused] or [idle] in that
    order of precedence, every lease that ran out is taken back and no entry
    is touched otherwise, the iteration is counted, the state is saved and
    valid; and each lease taken back is counted twice. *)
Theorem quiet_iteration_correct es order st cfg owner seconds now r i j (b : file) (rest : W) :
  text (vget "event_bus_state_path" (mapping cfg)) = "" ->
  sched_repr es order st -> times_ok now es ->
  vget "recovered_leases" st = VInt r -> vget "loop_iteration" st = VInt i ->
  vget "idle_iterations" st = VInt j ->
  let es1 := map (requeued now) es in
  let n := count_gone now order es in
  let stop := truthy (vget "stop_requested" st) in
  let pause := truthy (vget "pause_requested" st) in
  stop || pause = true
  \/ (text owner <> "" /\ (1 <= seconds)%Z /\ open_entries es1.*2 = []) ->
  exists st', run_mission_scheduler_iteration run_mission load_mission cfg owner (VInt seconds) now
      (World (File false false (Json (VDict st))) b rest)
    = (Ok st', World (File false false (Json (vsort (VDict st')))) b rest)
  /\ sched_repr es1 order st'
  /\ (forall k e, (k, VDict e) ∈ es -> exists e', (k, VDict e') ∈ es1 /\ taken_back now e e')
  /\ vget "scheduler_status" st' = VStr (if stop then "stopped" else if pause then "paused" else "idle")
  /\ vget "loop_iteration" st' = VInt (i + 1)
  /\ vget "recovered_leases" st' = VInt (r + 2 * n).
Proof.
  intros Hc H Ht Hr Hi Hj es1 n stop pause Hquiet.
  destruct (iteration_start es order st now r i b rest H Ht Hr Hi)
    as (st1 & Hrun & Hok & H1 & He & Ho & Hs & Hct & Hid & Hr1 & Hi1 & Hk). fold es1 n in H1, He, Hr1.
  assert (Hj1 : vget "idle_iterations" st1 = VInt j) by (rewrite Hk; [done|by repeat constructor]).
  assert (Er : (r + n + n = r + 2 * n)%Z) by lia.
  rewrite Hrun, !Hk by (by repeat constructor). fold stop pause. destruct stop; [|destruct pause]; cbn [orb] in Hquiet.
  - unfold stop_iteration. edestruct (quiet_end es1 order cfg "scheduler.stopped") as [H2 E2];
      [exact Hc|exact H1| | | |eexists; split; [exact E2|split; [exact H2|split; [exact (requeued_taken_back now es)|]]]].
    + bus_ok.
    + repeat constructor; by bus_get.
    + bus_get. exists "stopped". split; [done|by repeat constructor].
    + unfold seal_mission_scheduler_state. split_and!; bus_get; [done|done|]. by rewrite Hr1, Er.
  - unfold pause_iteration. erewrite M_lift_ok by (apply add_to_ok; bus_get; exact Hj1).
    edestruct (quiet_end es1 order cfg "scheduler.paused") as [H2 E2];
      [exact Hc|exact H1| | | |eexists; split; [exact E2|split; [exact H2|split; [exact (requeued_taken_back now es)|]]]].
    + bus_ok.
    + repeat constructor; by bus_get.
    + bus_get. exists "paused". split; [done|by repeat constructor].
    + unfold seal_mission_scheduler_state. split_and!; bus_get; [done|done|]. by rewrite Hr1, Er.
  - destruct Hquiet as [Hq|(Hown & Hsec & Hopen)]; [done|].
    destruct (nothing_to_lease es order st1 owner seconds now (r + n + n)) as (st2 & E2 & H2 & Hr2 & Hk2); [done..|].
    erewrite M_lift_ok by exact E2. cbn [fst snd]. unfold idle_iteration.
    erewrite M_lift_ok by (apply add_to_ok; bus_get; rewrite Hk2 by (by repeat constructor); exact Hj1).
    edestruct (quiet_end es1 order cfg "scheduler.idle") as [H3 E3];
      [exact Hc|exact (sched_repr_reseal _ _ _ H2)| | | |eexists; split; [exact E3|split; [exact H3|split; [exact (requeued_taken_back now es)|]]]].
    + pose proof (sr_ok _ _ _ H2). bus_ok.
    + repeat constructor; by bus_get.
    + bus_get. exists "idle". split; [done|by repeat constructor].
    + unfold seal_mission_scheduler_state. split_and!; bus_get; [done| |by rewrite Hr2, Er].
      by rewrite Hk2 by (by repeat constructor).
Qed.

(** ** The loop *)

Section loop.
Context (clock : M (world W) instant) (sleeper : QArith_base.Q -> M (world W) unit)
        (stop_signal : option (M (world W) bool)).

Lemma saved_fields st (w : world W) v w' : save_state st w = (Ok v, w') -> v = seal_mission_scheduler_state st.
Proof.
  unfold save_state, on_sched, save_mission_scheduler_state.
  destruct (save_sealed _ _ _ _ _ _ _) as [[v'|e] f] eqn:E; [|done]. intros [= <- <-].
  by apply (load_after_save _ _ _ _ _ "" "") in E as (-> & _).
Qed.

Lemma request_stop_truthy limit n st (w : world W) v w' :
  request_stop_at limit n st w = (Ok v, w') ->
  truthy (vget "stop_requested" v) = truthy (vget "stop_requested" st) \/ truthy (vget "stop_requested" v) = true.
Proof.
  unfold request_stop_at. destruct limit as [m|]; [|intros [= <- _]; by left].
  destruct (m <=? n)%Z; [|intros [= <- _]; by left]. intros ->%saved_fields. right.
  unfold seal_mission_scheduler_state. by bus_get.
Qed.

Lemma request_stop_reached m n st (w : world W) v w' :
  (m <= n)%Z -> request_stop_at (Some m) n st w = (Ok v, w') -> truthy (vget "stop_requested" v) = true.
Proof.
  intros Hm. unfold request_stop_at. apply Z.leb_le in Hm as ->. intros ->%saved_fields.
  unfold seal_mission_scheduler_state. by bus_get.
Qed.

Lemma decided_bind {A B} (m : M (world W) B) (f : B -> M (world W) (option A)) w :
  (forall b w', m w = (Ok b, w') -> (f b w').1 <> Ok None) -> ((m ≫= f) w).1 <> Ok None.
Proof. intros H. unfold mbind, M_bind. destruct (m w) as [[b|e] w'] eqn:E; [by apply H|done]. Qed.

(** With [max_iterations] given the loop ends: it makes at most that many
    turns, whatever the driver, the clock, the sleeper, the stop signal and
    the files do; fuel for the turns that are left is always enough. *)
Theorem scheduler_loop_terminates cfg owner seconds interval m idle : forall fuel iterations w,
  (iterations < m)%Z -> (m - iterations <= Z.of_nat fuel)%Z ->
  (scheduler_loop run_mission load_mission clock sleeper stop_signal fuel cfg owner seconds interval
             (Some m) idle iterations w).1 <> Ok None.
Proof.
  intros fuel. induction fuel as [|fuel IH]; intros iterations w Hi Hf; [lia|].
  cbn [scheduler_loop]. do 3 (apply decided_bind; intros ? ? _).
  apply decided_bind. intros over w1 _. destruct over; [done|].
  apply decided_bind. intros st1 w2 E1. apply decided_bind. intros idles w3 _.
  apply decided_bind. intros st3 w4 E3. destruct (truthy (vget "stop_requested" st3)) eqn:Es.
  { do 2 (apply decided_bind; intros ? ? _). done. }
  apply decided_bind. intros _ w5 _. apply IH; [|lia].
  destruct (decide (m <= iterations + 1)%Z) as [Hm|]; [|lia].
  apply (request_stop_reached _ _ _ _ _ _ Hm) in E1.
  destruct (request_stop_truthy _ _ _ _ _ _ E3); congruence.
Qed.

End loop.
End iterations.

(** A valid state with its entries and its order read off. *)
Lemma sched_view st :
  val_ok (VDict st) = true -> validate_mission_scheduler_state (VDict st) = Ok [] ->
  sched_repr (mapping (vget "entries" st))
    (map py_str match vget "entry_order" st with VList l => l | _ => [] end) st.
Proof.
  intros Hok Hv. apply validate_state_iff in Hv as (es & order & H); [|done].
  rewrite (sr_entries _ _ _ H), (sr_order _ _ _ H), map_map. cbn [mapping].
  change (fun x => py_str (VStr x)) with (fun x : string => x). by rewrite map_id.
Qed.

(** [times_ok] by computation. *)
Definition times_okb (now : instant) (es : list (string * val)) : bool :=
  forallb (fun kv => match kv.2 with
                     | VDict e => negb (held e)
                         || match lease_expired (mapping (vget "lease" e)) now with Ok _ => true | Raise _ => false end
                     | _ => true
                     end) es.

Lemma times_okb_ok now es : times_okb now es = true -> times_ok now es.
Proof.
  intros H k e Hin Hh. unfold times_okb in H. rewrite forallb_forall in H.
  specialize (H _ (proj1 (list_elem_of_In _ _) Hin)). simpl in H. rewrite Hh in H.
  destruct (lease_expired _ now) as [b|]; [by exists b|done].
Qed.

End mission_scheduler.

(** ** A scheduler at work *)

Definition demo_resolve (path : string) : string := "/runs/" +:+ path.
Definition demo_mission (id : string) : res (list (string * val)) :=
  Ok [("mission_id", VStr id); ("mission_status", VStr "active")].

Definition demo_empty : list (string * val) :=
  demo_result [] (create_mission_scheduler_state demo_digest demo_resolve lower "s.json" (VStr "main") demo_now).
Definition demo_one : list (string * val) :=
  demo_result [] (enqueue_mission demo_digest demo_resolve lower demo_empty "a.json" (demo_mission "alpha") (VInt 1) demo_now).
Definition demo_two : list (string * val) :=
  demo_result [] (enqueue_mission demo_digest demo_resolve lower demo_one "b.json" (demo_mission "beta") (VInt 0) demo_now).
(** [alpha] is leased for a minute. *)
Definition demo_leased : list (string * val) :=
  (demo_result ([], None) (lease_next_mission demo_digest demo_two (VStr " runner ") (VInt 60) demo_now)).1.
Definition demo_later : instant := (demo_now + 61 * SECOND)%Z.

Definition demo_entries (st : list (string * val)) : list (string * val) := mapping (vget "entries" st).
Definition demo_order (st : list (string * val)) : list string :=
  map py_str match vget "entry_order" st with VList l => l | _ => [] end.

Lemma demo_two_repr : sched_repr demo_digest (demo_entries demo_two) (demo_order demo_two) demo_two.
Proof. apply sched_view; vm_compute; reflexivity. Qed.

Lemma demo_leased_repr : sched_repr demo_digest (demo_entries demo_leased) (demo_order demo_leased) demo_leased.
Proof. apply sched_view; vm_compute; reflexivity. Qed.

Definition demo_alpha : string := _entry_identity demo_digest demo_resolve lower "alpha" "a.json".

(** While the lease of [alpha] runs, the next lease is for [beta]. *)
Lemma lease_next_correct_witness :
  exists st lease k e, lease_next_mission demo_digest demo_leased (VStr "runner") (VInt 60) demo_now = Ok (st, Some lease)
    /\ lease_given demo_digest (map (requeued demo_digest demo_now) (demo_entries demo_leased)) (demo_order demo_leased)
         "runner" demo_now (demo_now + 60 * SECOND)%Z k e st lease
    /\ k <> demo_alpha.
Proof.
  assert (T : times_okb demo_now (demo_entries demo_leased) = true) by (vm_compute; reflexivity).
  assert (R : vget "recovered_leases" demo_leased = VInt 0) by (vm_compute; reflexivity).
  assert (X : add_seconds demo_now 60 = Ok (demo_now + 60 * SECOND)%Z) by (vm_compute; reflexivity).
  assert (O : (text (VStr "runner") =? "")%string = false) by (vm_compute; reflexivity).
  assert (N : length (open_entries (map (requeued demo_digest demo_now) (demo_entries demo_leased)).*2) = 1%nat)
    by (vm_compute; reflexivity).
  assert (A : option_map (fun v => open_entry (mapping v))
    (dget demo_alpha (map (requeued demo_digest demo_now) (demo_entries demo_leased))) = Some false)
    by (vm_compute; reflexivity).
  pose proof (lease_next_correct _ _ _ _ (VStr "runner") 60 _ _ _ demo_leased_repr
                (times_okb_ok _ _ T) R X) as H. rewrite O in H.
  destruct H as (st & [lease|] & E & _ & H); [|destruct H as [H _]; rewrite H in N; discriminate N].
  destruct H as (k & e & G). exists st, lease, k, e. split; [exact E|]. split; [exact G|].
  intros ->. destruct (lg_entry _ _ _ _ _ _ _ _ _ _ G) as [Hk Ho].
  rewrite Hk in A. cbn [option_map mapping] in A. rewrite Ho in A. discriminate A.
Defined.

Lemma lease_time_bounds_witness :
  exists t, (demo_now + 59 * SECOND < t <= demo_now + 60 * SECOND)%Z
    /\ lease_expired (lease_of demo_digest VNone "runner" demo_now (demo_now + 60 * SECOND)%Z demo_alpha) t = Ok true.
Proof.
  assert (X : add_seconds demo_now 60 = Ok (demo_now + 60 * SECOND)%Z) by (vm_compute; reflexivity).
  destruct (lease_time_bounds demo_digest VNone "runner" demo_now 60 _ demo_alpha X) as (t & B & H).
  exists t. split; [exact B|]. by rewrite H, Z.leb_refl.
Defined.

(** Only the holder, under the stripped name, releases the lease. *)
Lemma release_correct_witness :
  let lid := vget "lease_id" (mapping (vget "lease" (mapping (vget demo_alpha (demo_entries demo_leased))))) in
  release_mission_lease demo_digest demo_leased demo_alpha lid (VStr " runner ") "completed" demo_later
  = Raise (ValueError "mission_scheduler_lease_owner_mismatch")
  /\ exists st, release_mission_lease demo_digest demo_leased demo_alpha lid (VStr "runner") "completed" demo_later = Ok st.
Proof.
  intros lid.
  pose proof (release_correct _ _ _ _ demo_alpha lid (VStr " runner ") "completed" demo_later demo_leased_repr) as H1.
  pose proof (release_correct _ _ _ _ demo_alpha lid (VStr "runner") "completed" demo_later demo_leased_repr) as H2.
  assert (S : bool_decide ("completed" ∈ ACTIVE_ENTRY_STATUSES ++ TERMINAL_ENTRY_STATUSES) = true) by (vm_compute; reflexivity).
  assert (D : dget demo_alpha (demo_entries demo_leased) = Some (VDict (mapping (vget demo_alpha (demo_entries demo_leased)))))
    by (vm_compute; reflexivity).
  assert (I : py_eq lid lid = true) by (vm_compute; reflexivity).
  assert (O : vget "owner" (mapping (vget "lease" (mapping (vget demo_alpha (demo_entries demo_leased))))) = VStr "runner")
    by (vm_compute; reflexivity).
  cbv zeta in H1, H2. rewrite S, D in H1, H2. fold lid in H1, H2. rewrite I, O in H1, H2.
  split; [exact H1|]. destruct H2 as (st & H2 & _). exists st. exact H2.
Defined.

(** *** A world without a bus *)

Definition demo_world (st : list (string * val)) : world unit :=
  World (File false false (Json (VDict st))) (File false false Missing) tt.

(** A driver that reports that the mission waits. *)
Definition demo_driver (path state_path : val) : M (world unit) val :=
  mret (VDict [("mission_status", VStr "active"); ("mission_waiting", VBool true)]).
Definition demo_load (path : val) : M (world unit) (list (string * val)) := mret [].

(** The minute is over and a stop is requested: the one lease is taken back and
    counted twice. *)
Definition demo_stopping : list (string * val) :=
  demo_result [] (request_mission_scheduler_action demo_digest demo_leased "stop" demo_now).

Lemma demo_stopping_repr :
  sched_repr demo_digest (demo_entries demo_stopping) (demo_order demo_stopping) demo_stopping.
Proof. apply sched_view; vm_compute; reflexivity. Qed.

Lemma quiet_iteration_correct_witness :
  exists st, (run_mission_scheduler_iteration demo_digest demo_driver demo_load VNone (VStr "runner") (VInt 60)
                demo_later (demo_world demo_stopping)).1 = Ok st
    /\ vget "scheduler_status" st = VStr "stopped" /\ vget "recovered_leases" st = VInt 2.
Proof.
  assert (T : times_okb demo_later (demo_entries demo_stopping) = true) by (vm_compute; reflexivity).
  assert (R : vget "recovered_leases" demo_stopping = VInt 0) by (vm_compute; reflexivity).
  assert (L : vget "loop_iteration" demo_stopping = VInt 0) by (vm_compute; reflexivity).
  assert (J : vget "idle_iterations" demo_stopping = VInt 0) by (vm_compute; reflexivity).
  assert (S : truthy (vget "stop_requested" demo_stopping) = true) by (vm_compute; reflexivity).
  assert (N : count_gone demo_digest demo_later (demo_order demo_stopping) (demo_entries demo_stopping) = 1%Z)
    by (vm_compute; reflexivity).
  pose proof (quiet_iteration_correct demo_digest demo_driver demo_load _ _ _ VNone (VStr "runner") 60 _ _ _ _
    (File false false Missing) tt eq_refl demo_stopping_repr (times_okb_ok _ _ T) R L J) as H.
  cbv zeta in H. rewrite S, N in H.
  destruct (H (or_introl eq_refl)) as (st & E & _ & _ & Hs & _ & Hr).
  exists st. unfold demo_world. rewrite E. split; [reflexivity|]. split; [exact Hs|exact Hr].
Defined.

(** [alpha] is dispatched, waits and is put back. *)
Definition demo_iterated : res (list (string * val)) * world unit :=
  run_mission_scheduler_iteration demo_digest demo_driver demo_load VNone (VStr "runner") (VInt 60) demo_now
    (demo_world demo_two).
Definition demo_iterated_state : list (string * val) := demo_result [] demo_iterated.1.

Lemma demo_iterated_ok :
  run_mission_scheduler_iteration demo_digest demo_driver demo_load VNone (VStr "runner") (VInt 60) demo_now
    (demo_world demo_two) = (Ok demo_iterated_state, demo_iterated.2).
Proof. vm_compute. reflexivity. Qed.

Lemma iteration_saves_witness :
  on_disk demo_digest demo_iterated_state demo_iterated.2
  /\ vget "waiting_missions" demo_iterated_state = VInt 1.
Proof.
  split; [|vm_compute; reflexivity].
  exact (iteration_saves demo_digest demo_driver demo_load VNone (VStr "runner") (VInt 60) demo_now
           (demo_world demo_two) demo_iterated_state demo_iterated.2 demo_iterated_ok).
Defined.

(** Three turns of a loop that never sleeps are enough for [max_iterations=3]. *)
Lemma scheduler_loop_terminates_witness :
  (scheduler_loop demo_digest demo_driver demo_load (mret demo_now) (fun _ => mret tt) None 3 VNone (VStr "runner")
     (VInt 60) MIN_POLL_INTERVAL (Some 3%Z) None 0 (demo_world demo_two)).1 <> Ok None.
Proof. apply scheduler_loop_terminates; lia. Defined.

(** [alpha] waits; the next lease is for [alpha] again, not for [beta]. *)
Definition demo_lease : list (string * val) :=
  mapping (vget "lease" (mapping (vget demo_alpha (demo_entries demo_leased)))).
Definition demo_waiting : list (string * val) :=
  demo_result [] (release_mission_lease demo_digest demo_leased demo_alpha (vget "lease_id" demo_lease)
                    (VStr "runner") "waiting" demo_now).

Lemma demo_lease_given :
  lease_given demo_digest (demo_entries demo_two) (demo_order demo_two) "runner" demo_now
    (demo_now + 60 * SECOND)%Z demo_alpha (mapping (vget demo_alpha (demo_entries demo_two))) demo_leased demo_lease.
Proof.
  split.
  - split; vm_compute; reflexivity.
  - assert (H : forallb (fun c => key_leb (rank (demo_order demo_two) (mapping (vget demo_alpha (demo_entries demo_two))))
                               (rank (demo_order demo_two) c)) (open_entries (demo_entries demo_two).*2) = true)
      by (vm_compute; reflexivity).
    rewrite forallb_forall in H. intros c Hc. exact (H c (proj1 (list_elem_of_In _ _) Hc)).
  - exists (vget "scheduler_id" demo_leased). split; [vm_compute; reflexivity|]. cbv zeta.
    assert (E : dset demo_alpha (VDict (seal_mission_scheduler_entry demo_digest
              (leased demo_digest (vget "scheduler_id" demo_leased) "runner" demo_now (demo_now + 60 * SECOND)%Z
                 demo_alpha (mapping (vget demo_alpha (demo_entries demo_two)))))) (demo_entries demo_two)
            = demo_entries demo_leased) by (vm_compute; reflexivity).
    assert (O : demo_order demo_two = demo_order demo_leased) by (vm_compute; reflexivity).
    rewrite E, O. split; [exact demo_leased_repr|]. split; vm_compute; reflexivity.
  - vm_compute. reflexivity.
Qed.

Lemma waiting_mission_leased_again_witness :
  exists st lease, lease_next_mission demo_digest demo_waiting (VStr "runner") (VInt 60) demo_later = Ok (st, Some lease)
    /\ vget "current_entry_id" st = VStr demo_alpha.
Proof.
  assert (E : release_mission_lease demo_digest demo_leased demo_alpha (vget "lease_id" demo_lease)
                (VStr "runner") "waiting" demo_now = Ok demo_waiting) by (vm_compute; reflexivity).
  assert (T : times_okb demo_later (demo_entries demo_two) = true) by (vm_compute; reflexivity).
  assert (Q : map (requeued demo_digest demo_later) (demo_entries demo_two) = demo_entries demo_two)
    by (vm_compute; reflexivity).
  assert (R : vget "recovered_leases" demo_waiting = VInt 0) by (vm_compute; reflexivity).
  assert (O : text (VStr "runner") <> "") by discriminate.
  assert (X : add_seconds demo_later 60 = Ok (demo_later + 60 * SECOND)%Z) by (vm_compute; reflexivity).
  apply (waiting_mission_leased_again demo_digest _ _ _ "runner" demo_now _ _ _ _ _ "waiting" demo_now _
    (VStr "runner") 60 demo_later (demo_later + 60 * SECOND)%Z 0%Z demo_two_repr demo_lease_given); [by repeat constructor|exact E|
    exact (times_okb_ok _ _ T)|exact Q|exact R|exact O|lia|exact X].
Defined.

(** Two admissions, a bad one, a lease, a release by a stranger, a lease after
    the minute is over, and a stop. *)
Definition demo_sched_ops : list sched_op :=
  [OpEnqueue "a.json" (demo_mission "alpha") (VInt 1) demo_now;
   OpEnqueue "b.json" (demo_mission "beta") (VInt 500) demo_now;
   OpEnqueue "b.json" (demo_mission "beta") (VInt 0) demo_now;
   OpLease (VStr "runner") 60 demo_now;
   OpRelease demo_alpha (vget "lease_id" demo_lease) (VStr "stranger") "completed" demo_now;
   OpLease (VStr "other") 60 demo_later; OpAction "stop" demo_later].

Definition demo_sched_end : list (string * val) :=
  run_sched_ops demo_digest demo_resolve lower demo_sched_ops demo_empty.

Lemma scheduler_stays_valid_witness :
  validate_mission_scheduler_state demo_digest (VDict demo_sched_end) = Ok []
  /\ length (demo_entries demo_sched_end) = 2%nat
  /\ vget "recovered_leases" demo_sched_end = VInt 1.
Proof.
  assert (P : forall p, strip (demo_resolve p) <> "") by (intros p; by apply strip_prefix).
  assert (C : create_mission_scheduler_state demo_digest demo_resolve lower "s.json" (VStr "main") demo_now = Ok demo_empty)
    by (vm_compute; reflexivity).
  assert (O : Forall sched_op_ok demo_sched_ops).
  { repeat (apply Forall_cons; split; [try exact I|]); [|constructor]. apply (bool_decide_unpack _). vm_compute. exact I. }
  split; [exact (proj1 (scheduler_stays_valid demo_digest demo_resolve lower _ _ _ _ demo_sched_ops P C O))|].
  split; vm_compute; reflexivity.
Defined.
